(* ===== verification/_CoqProject ===== *)
-Q . S2P
Prelude.v
Memory.v
KMemory.v
KString.v
Sync.v
KHeap.v
KHeapThms.v
PageFrame.v
PageTable.v
Paging.v
MemInit.v
BootPaging.v
ElfLoader.v
Bootloader.v
KStlString.v
KVector.v
SharedPtr.v
Process.v
Elevate.v
Sched.v
Layout.v
XhciRegs.v
XhciRing.v
XhciDriver.v
XhciCommands.v
Pci.v
Mcfg.v
IoApic.v
Acpi.v
Aml.v
Gdt.v
Interrupts.v
KTime.v
CpuSetup.v
ApStartup.v
KDisplay.v
DeviceMaps.v
KPrint.v
KernelEntry.v
Reserve.v
SpawnTest.v
ThreadTest.v
KUser.v
KUserThms.v
KUserBoot.v
HeapDebug.v
StartTasks.v
