(* ===== verification/Prelude.v ===== *)
(** * StelluxOS: a verification development

    StelluxOS is a 64-bit x86 operating system: a UEFI bootloader in C (bootloader/) and a
    kernel in C++ without exceptions or a standard library (kernel/src/).  This library is
    a shallow embedding of both: every function that is modelled is a Rocq function on an
    explicit state, and the theorems are about these functions.

    ** The program and its parts

    The bootloader loads the kernel's ELF image, collects what the firmware knows (memory
    map, frame buffer, font, ACPI root pointer), builds page tables with an identity map
    and a higher-half map, leaves the boot services and jumps into the kernel.  The kernel
    sets up the segments, the system call registers and a swapper task, lowers itself to
    ring 3, and then, raising itself for single steps, initialises memory, display, ACPI
    tables, timers, scheduler, further processors and the USB controller.  Kernel threads
    run in ring 3 and raise themselves with a system call; the timer interrupt switches
    between them.

    The files, in the order of the build, with the sources they model:

    - common ground: [Prelude] (outcomes, loops, machine integers, bit fields), [Memory]
      (the byte memory), [Layout] (structures of bit fields);
    - kernel library: [KMemory] (memory/kmemory.cpp: memcpy, memmove, memcmp, memset),
      [KString] and [KStlString] (core/kstring.cpp: conversions, strlen, kstl::string),
      [KVector] (core/kvector.h), [SharedPtr] (memory/kmemory.h), [Sync] (core/sync.h),
      [KPrint] (core/kprint.cpp, ports/serial.cpp);
    - memory: [KHeap] and [KHeapThms] (memory/kheap.cpp), [PageFrame]
      (paging/page_frame_allocator.cpp), [PageTable] and [Paging] (paging/page.cpp),
      [MemInit] (initializeFromMemoryMap, which joins the three);
    - bootloader: [BootPaging] (paging.c), [ElfLoader] (elf_loader.c), [Bootloader]
      (bootloader.c with file_loader.c, font_loader.c, gop_setup.c, memory_map.c);
    - processes: [Process] (process/process.cpp, per-cpu data), [Elevate]
      (kelevate/, syscall/), [Sched] (sched/sched.cpp and the timer interrupt),
      [SpawnTest] (the start-up test that distributes tasks over the cores), [ThreadTest]
      (the tasks of the multithreading test);
    - processor: [Gdt] (gdt/, msr.cpp), [Interrupts] (interrupts/), [CpuSetup] (cpuid.h,
      pat.cpp, x86_cpu_control.cpp), [KTime] (time/ktime.cpp, acpi/hpet.cpp, apic.cpp,
      apic_timer.cpp), [ApStartup] (ap_startup.cpp), [KernelEntry]
      (entry/kernel_entry.cpp: _kentry, and the entry of a started processor);
    - devices: [KDisplay] (graphics/kdisplay.cpp), [DeviceMaps] (the page table entries that
      the display and the USB driver change), [Pci] (pci/pci.cpp), [Mcfg] (acpi/mcfg.cpp),
      [IoApic] (ioapic.cpp), [Acpi] (acpi_controller.cpp, madt.cpp), [Aml] (the AML helpers
      of acpi_controller.cpp), [XhciRegs], [XhciRing], [XhciDriver], [XhciCommands]
      (drivers/usb/xhci.h and xhci.cpp);
    - the kernel thread: [Reserve] (the pages the entry reserves, with the memory behind the
      bitmap), [KUser] (_kuser_entry as one run over the joint state of all components, with
      RUN_ELEVATED, kuPrint and debugPat), [KUserThms] (a lemma per phase), [KUserBoot] (the
      phases composed), [HeapDebug] (the printers of memory/kheap.cpp), [StartTasks] (what a
      task of the start-up test does on its core).

    ** How code becomes definitions

    Names are those of the source.  A class is a record of its members, a method a function
    that takes and returns the record.  The result of code that can go wrong is an
    [outcome]: [Done] for a normal return, [Fault] for an access the machine or the array
    does not allow, [Diverge] for a loop that is not left within its fuel or a lock that is
    never free.  An error the code itself reports is an ordinary value (a status, a null
    pointer, [false]).  Integers are [Z] with the wrap-around of their C type written out
    ([u8], [u32], [u64], [s32], [s64] and the operators for 64-bit addition, subtraction and
    multiplication); a C bit field is [bf] and [bf_set].  Objects that the program shares
    through pointers (heap segments, control blocks, run queues, reference counters) are
    cells of a store indexed by address, so that aliases see each other's writes.

    What is outside the repository is a parameter with laws: the firmware
    ([Bootloader.BootServices] with [BootLaws], [ElfLoader.Firmware]), the source of page
    table frames ([PageTable.FrameSource], implemented by the page frame allocator of the
    kernel and, for the examples, by a counter), the memory blocks of the string class, the
    HPET ([KTime.HpetLaws]), the xHCI controller and its shared memory
    ([XhciDriver.XhcDevice], [XhciCommands.XhcMemoryLaws]), CPUID, the line status of the
    serial port, and the addresses that allocations return where only their being distinct
    or null matters.  Every property with such a hypothesis is applied to a concrete
    instance in its witness.

    ** What the theorems show

    - Heap: the bytes of the heap represent a list of segments; allocation is first fit with
      splitting and free is coalescing on that list, the invariants are kept, and the places
      where stale links make blocks overlap are exhibited.
    - Page frames and page tables: requests hand out the first free block and mark it; a
      mapping makes the walk of its address end at the new entry and changes no other
      translation, for the kernel's and the bootloader's code from the same lemmas; the
      initialisation leaves allocator, heap and page tables in agreement with the memory
      map; display and USB driver change exactly the entries of their devices.
    - Bootloader: the image is loaded segment by segment, the address space the kernel starts
      in has both maps with the privilege of each page, the memory map is read with the
      assertions of its two calls, the boot services are left after the last change of the
      memory map, and the parameters point into the upper half.
    - Containers: vector and string refine lists while sizes fit their type, and what they do
      where a size wraps around is a theorem of its own; counted handles
      delete an object once, with its last handle; number conversions are inverted by
      reading; the memory routines with their word loops agree with the byte-wise meaning;
      the format interpreter of kprint agrees with a reference meaning on the serial text and
      on every pixel of the screen.
    - Processes: a context survives being saved and restored; elevation is balanced; the
      scheduler and the hardware agree on the current task across timer interrupts; every
      task gets its turn; leaving threads are replaced; new tasks keep the queues balanced.
    - Processor: the descriptors have the meaning the processor gives them; an exception
      ends, when the chain of stack frames does, in a report of the registers and a halt
      with interrupts off; waits last as long as asked;
      the other processors are started in order; a core that enters the kernel is in the
      state the scheduler and elevation rely on.
    - Devices: enumeration records the functions that answer on a device and a bus whose first
      function answers, with their registers; ACPI tables are dispatched and
      walked to their end; rings keep their cycle bits and are drained in order; a command is
      completed by its event; layouts have the sizes and offsets the hardware wants.
    - The whole entry: from what the bootloader and _kentry leave, _kuser_entry returns with
      the pages, heap, translations and printed text characterised after its messages, and
      timer, processors, keyboard and run queues at its end; the frame buffer stays
      unreserved, and between the start of the timer and the initialisation of the scheduler
      a timer interrupt finds no run queue.  A task of the start-up test prints its line and
      leaves.  The heap's printers end and print exactly the segments.
    - Spinlocks: mutual exclusion of the interleaved protocol, by induction on its steps.

    Several theorems state where the code does not do what it means to (an id that is masked
    away, a link that is not updated, a length that is decoded from the wrong bytes, an error
    that is reported with the wrong name); the comment at each says so.

    ** Fuel

    A loop runs by [loop] with a bound on its turns.  Where the code gives a bound (sizes,
    counts, 512 entries, 256 blocks), the definition passes it, and it is enough by
    [loop_total].  Where the bound depends on data (tables, strings, devices), the fuel is an
    argument and the theorem says that every fuel above a stated measure gives the result:
    the bytes of a table, the distance to the end of the mapped memory, the readings a
    counter needs.  The fuels of the kernel entry ([e_fuel], [e_acpi_fuel], [e_serial_fuel]) are
    of this kind, with their measures in the records of its inputs.  [loop_more_fuel] makes
    results independent of the choice.  Loops that the code cannot leave (a table entry of
    length zero, a controller that never starts) have a theorem or a remark that says so.

    ** What is not modelled

    Assembly other than the effects listed in the files that use it; flushes of the
    translation buffers (the page tables of the model have no stale translations); memory
    ordering below the atomic steps of a lock; the text of log and debug prints other than
    those of the kernel entry, of [kpanic] and of the heap's printers; names and constants of
    headers that no code uses; the disabled tests of the kernel entry
    other than the tasks of the multithreading test; the code behind an
    unconditional return in the set-up of a USB device.  In the run of [_kuser_entry] the boot
    core is not interrupted, the pages and blocks that are taken after its messages (interrupt
    controllers, run queues, tasks) are given by the environment and not marked in the
    allocators, the register mappings of the interrupt controllers are lists of mappings and
    not page table entries, and the endless loop at the end is left out. *)
From Stdlib Require Import ZArith Lia Bool.
From stdpp Require Import base tactics numbers option list gmap.

Open Scope Z_scope.

Declare Scope kernel_scope.
Delimit Scope kernel_scope with K.
Open Scope kernel_scope.

(** ** Outcomes of kernel code

    [Done a] is a normal return, [Fault] an access the machine does not allow
    (an address that is not mapped, an index outside the object), [Diverge] a
    loop that does not end within its fuel or a lock that never becomes free. *)
Inductive outcome (A : Type) : Type :=
  | Done (a : A)
  | Fault
  | Diverge.
Arguments Done {A} a.
Arguments Fault {A}.
Arguments Diverge {A}.

#[export] Instance outcome_ret : MRet outcome := fun A a => Done a.
#[export] Instance outcome_bind : MBind outcome := fun A B f o =>
  match o with Done a => f a | Fault => Fault | Diverge => Diverge end.

#[export] Instance outcome_eq_dec {A} `{EqDecision A} : EqDecision (outcome A).
Proof. solve_decision. Defined.

(** A C array access or a dereference: [None] is a fault. *)
Definition need {A} (o : option A) : outcome A :=
  match o with Some a => Done a | None => Fault end.

Definition is_done {A} (o : outcome A) : bool :=
  match o with Done _ => true | _ => false end.

Lemma bind_done {A B} (a : A) (f : A -> outcome B) : (x ← Done a; f x) = f a.
Proof. reflexivity. Qed.

Lemma bind_inv {A B} (o : outcome A) (f : A -> outcome B) b :
  (x ← o; f x) = Done b -> exists a, o = Done a /\ f a = Done b.
Proof. destruct o; simpl; intros H; try discriminate; eauto. Qed.

Lemma need_inv {A} (o : option A) a : need o = Done a -> o = Some a.
Proof. destruct o; simpl; congruence. Qed.

Lemma need_some {A} (o : option A) a : o = Some a -> need o = Done a.
Proof. intros ->. reflexivity. Qed.

(** Case analysis of a monadic run that is known to return. *)
Ltac inv_bind :=
  repeat match goal with
  | H : mbind _ _ = Done _ |- _ =>
      let a := fresh "r" in let E := fresh "E" in
      apply bind_inv in H; destruct H as (a & E & H)
  | H : need _ = Done _ |- _ => apply need_inv in H
  | H : Done _ = Done _ |- _ => injection H; clear H; intros; try subst
  | H : mret _ = Done _ |- _ => unfold mret, outcome_ret in H
  end.

(** ** Loops

    A C loop is a state (the locals the body changes, and the memory) and a
    body that either continues with a new state ([inl]) or leaves the loop
    ([inr], a [break], a [return] or a false condition). *)
Fixpoint loop {S R : Type} (fuel : nat) (body : S -> outcome (S + R)) (s : S)
  : outcome R :=
  match fuel with
  | O => Diverge
  | Datatypes.S fuel' =>
      match body s with
      | Done (inl s') => loop fuel' body s'
      | Done (inr r) => Done r
      | Fault => Fault
      | Diverge => Diverge
      end
  end.

(** Total correctness of a loop: an invariant, a measure below the fuel, and a
    postcondition of the exits. *)
Lemma loop_total {S R} (Inv : S -> Prop) (meas : S -> nat) (Post : R -> Prop)
    (body : S -> outcome (S + R)) :
  (forall s, Inv s ->
     (exists s', body s = Done (inl s') /\ Inv s' /\ (meas s' < meas s)%nat) \/
     (exists r, body s = Done (inr r) /\ Post r)) ->
  forall fuel s, Inv s -> (meas s < fuel)%nat ->
  exists r, loop fuel body s = Done r /\ Post r.
Proof.
  intros Hstep fuel. induction fuel as [|fuel IH]; intros s Hs Hm; [lia|]. simpl.
  destruct (Hstep s Hs) as [(s' & -> & Hs' & Hlt)|(r & -> & Hr)].
  - apply IH; [done|lia].
  - eauto.
Qed.

(** Partial correctness, for a loop whose exits are all that matters. *)
Lemma loop_inv {S R} (Inv : S -> Prop) (Post : R -> Prop)
    (body : S -> outcome (S + R)) :
  (forall s s', Inv s -> body s = Done (inl s') -> Inv s') ->
  (forall s r, Inv s -> body s = Done (inr r) -> Post r) ->
  forall fuel s r, Inv s -> loop fuel body s = Done r -> Post r.
Proof.
  intros Hc He fuel. induction fuel as [|fuel IH]; intros s r Hs; simpl; [done|].
  destruct (body s) as [[s'|r']| |] eqn:E; try done; eauto.
  intros [= <-]. eauto.
Qed.

Lemma loop_body_ext {S R} (body body' : S -> outcome (S + R)) n s :
  (forall s, body s = body' s) -> loop n body s = loop n body' s.
Proof.
  intros E. revert s. induction n as [|n IH]; intros s; simpl; [done|]. rewrite E. destruct (body' s) as [[s'|r]| |]; [apply IH|done..].
Qed.

Lemma loop_more_fuel {S R} (body : S -> outcome (S + R)) n m s r :
  (n <= m)%nat -> loop n body s = Done r -> loop m body s = Done r.
Proof.
  revert m s. induction n as [|n IH]; intros m s Hle; simpl; [done|].
  destruct m as [|m]; [lia|]. simpl.
  destruct (body s) as [[s'|r']| |]; try done. apply IH; lia.
Qed.

Lemma loop_less_fuel {S R} (body : S -> outcome (S + R)) n m s :
  (n <= m)%nat -> loop m body s = Diverge -> loop n body s = Diverge.
Proof.
  revert m s. induction n as [|n IH]; intros m s Hle; [done|].
  destruct m as [|m]; [lia|]. simpl. destruct (body s) as [[s'|r']| |]; try done. apply IH; lia.
Qed.

(** A counted loop: the body for each value of the counter, in order. *)
Fixpoint for_each {S A : Type} (f : S -> A -> outcome S) (l : list A) (s : S) : outcome S :=
  match l with
  | [] => Done s
  | a :: l' => s' ← f s a; for_each f l' s'
  end.

(** What every iteration keeps, a counted loop keeps. *)
Lemma for_each_keeps {S A} (R : S -> S -> Prop) `{!PreOrder R} (f : S -> A -> outcome S) l :
  (forall a s s', a ∈ l -> f s a = Done s' -> R s s') -> forall s s', for_each f l s = Done s' -> R s s'.
Proof.
  induction l as [|a l IH]; intros Hf s s'; cbn [for_each]; [by intros [= <-]|].
  destruct (f s a) as [s1| |] eqn:E; cbn [mbind outcome_bind]; try done. intros Hl.
  etransitivity; [eapply Hf; [left|exact E]|]. eapply IH; [|exact Hl]. intros. eapply Hf; [by right|done].
Qed.

Lemma for_each_ext {S A} (f g : S -> A -> outcome S) l :
  (forall a s, a ∈ l -> f s a = g s a) -> forall s, for_each f l s = for_each g l s.
Proof.
  induction l as [|a l IH]; intros Hf s; cbn [for_each]; [done|]. rewrite Hf by left.
  destruct (g s a); cbn [mbind outcome_bind]; try done. apply IH. intros. apply Hf. by right.
Qed.

Lemma outcome_bind_assoc {A B C} (m : outcome A) (f : A -> outcome B) (g : B -> outcome C) :
  (y ← (x ← m; f x); g y) = (x ← m; y ← f x; g y).
Proof. by destruct m. Qed.

Lemma outcome_bind_ext {A B} (m : outcome A) (f g : A -> outcome B) :
  (forall x, f x = g x) -> (x ← m; f x) = (x ← m; g x).
Proof. intros H. destruct m; cbn; [apply H|done|done]. Qed.

Lemma for_each_app {S A} (f : S -> A -> outcome S) l l' s :
  for_each f (l ++ l') s = (s' ← for_each f l s; for_each f l' s').
Proof.
  revert s. induction l as [|a l IH]; intros s; cbn [for_each app]; [done|].
  destruct (f s a); cbn [mbind outcome_bind]; [apply IH|done|done].
Qed.

(** A counted loop that appends to an output: when each iteration keeps the invariant and
    appends [g a], the loop appends the concatenation. *)
Lemma for_each_appends {S A B} (Inv : S -> Prop) (out : S -> list B) (g : A -> list B)
    (f : S -> A -> outcome S) l :
  (forall a s, a ∈ l -> Inv s -> exists s', f s a = Done s' /\ Inv s' /\ out s' = out s ++ g a) ->
  forall s, Inv s -> exists s', for_each f l s = Done s' /\ Inv s' /\ out s' = out s ++ flat_map g l.
Proof.
  induction l as [|a l IH]; intros Hf s Hs; cbn [for_each flat_map].
  - exists s. by rewrite app_nil_r.
  - destruct (Hf a s ltac:(left) Hs) as (s1 & -> & H1 & E1). cbn [mbind outcome_bind].
    destruct (IH ltac:(intros; apply Hf; [by right|done]) s1 H1) as (s2 & -> & H2 & E2).
    exists s2. by rewrite E2, E1, app_assoc.
Qed.

(** ** Machine integers

    A [w]-bit unsigned integer is a [Z] in [[0, 2^w)]; the arithmetic of the
    code wraps.  [s64] and [s32] read such a value as a signed one. *)
Definition u8 (z : Z) : Z := z mod 0x100.
Definition u16 (z : Z) : Z := z mod 0x10000.
Definition u32 (z : Z) : Z := z mod 0x100000000.
Definition u64 (z : Z) : Z := z mod 0x10000000000000000.

Definition s64 (z : Z) : Z :=
  if u64 z <? 0x8000000000000000 then u64 z else u64 z - 0x10000000000000000.
Definition s32 (z : Z) : Z :=
  if u32 z <? 0x80000000 then u32 z else u32 z - 0x100000000.

Notation "x ⊞ y" := (u64 (x + y)) (at level 50, left associativity) : kernel_scope.
Notation "x ⊟ y" := (u64 (x - y)) (at level 50, left associativity) : kernel_scope.
Notation "x ⊠ y" := (u64 (x * y)) (at level 40, left associativity) : kernel_scope.

Definition is_u64 (z : Z) : Prop := 0 <= z < 0x10000000000000000.
Definition is_u32 (z : Z) : Prop := 0 <= z < 0x100000000.
Definition is_u8 (z : Z) : Prop := 0 <= z < 0x100.

#[export] Instance is_u64_dec z : Decision (is_u64 z).
Proof. unfold is_u64. apply _. Defined.
#[export] Instance is_u32_dec z : Decision (is_u32 z).
Proof. unfold is_u32. apply _. Defined.
#[export] Instance is_u8_dec z : Decision (is_u8 z).
Proof. unfold is_u8. apply _. Defined.

Create HintDb words.
Create Rewrite HintDb words.

Ltac unfold_words :=
  unfold is_u64, is_u32, is_u8, s64, s32, u64, u32, u16, u8 in *.
(** Linear arithmetic with wrap-around, quotients and remainders by constants. *)
Ltac wordlia := unfold_words; Z.to_euclidean_division_equations; lia.

Lemma u64_small z : is_u64 z -> u64 z = z.
Proof. apply Z.mod_small. Qed.
Lemma u32_small z : is_u32 z -> u32 z = z.
Proof. apply Z.mod_small. Qed.
Lemma u8_small z : is_u8 z -> u8 z = z.
Proof. apply Z.mod_small. Qed.
Lemma u64_range z : is_u64 (u64 z).
Proof. apply Z.mod_pos_bound. lia. Qed.
Lemma u32_range z : is_u32 (u32 z).
Proof. apply Z.mod_pos_bound. lia. Qed.
Lemma u8_range z : is_u8 (u8 z).
Proof. apply Z.mod_pos_bound. lia. Qed.
Lemma u64_u64 z : u64 (u64 z) = u64 z.
Proof. apply Z.mod_mod. lia. Qed.
Lemma u32_u32 z : u32 (u32 z) = u32 z.
Proof. unfold u32. by rewrite Z.mod_mod. Qed.
Lemma u64_add_l x y : u64 (u64 x + y) = u64 (x + y).
Proof. apply Z.add_mod_idemp_l. lia. Qed.
Lemma u64_add_r x y : u64 (x + u64 y) = u64 (x + y).
Proof. apply Z.add_mod_idemp_r. lia. Qed.
Lemma u64_sub_l x y : u64 (u64 x - y) = u64 (x - y).
Proof. apply Zminus_mod_idemp_l. Qed.
Lemma u64_sub_r x y : u64 (x - u64 y) = u64 (x - y).
Proof. apply Zminus_mod_idemp_r. Qed.

(** A signed reading undoes the wrap-around of a value that fits. *)
Lemma s64_u64 z : -0x8000000000000000 <= z < 0x8000000000000000 -> s64 (u64 z) = z.
Proof.
  intros H. unfold s64. rewrite u64_u64. destruct (Z.ltb_spec (u64 z) 0x8000000000000000); wordlia.
Qed.

#[export] Hint Resolve u64_range u32_range u8_range : words.
#[export] Hint Rewrite u64_u64 u64_add_l u64_add_r u64_sub_l u64_sub_r : words.

(** ** Bit fields

    [bf lo w v] reads the [w]-bit field of [v] that starts at bit [lo];
    [bf_set lo w v x] stores [x] there, truncated to [w] bits, the way C
    assigns to a bit field. *)
Definition bf (lo w v : Z) : Z := Z.land (Z.shiftr v lo) (Z.ones w).
Definition bf_set (lo w v x : Z) : Z :=
  Z.lor (Z.land v (Z.lnot (Z.shiftl (Z.ones w) lo)))
        (Z.shiftl (Z.land x (Z.ones w)) lo).

Lemma testbit_ones w i :
  0 <= w -> Z.testbit (Z.ones w) i = (0 <=? i) && (i <? w).
Proof. intros. apply Z.testbit_ones. lia. Qed.

(** The mask of a single bit. *)
Lemma land_pow2 a k : 0 <= k -> Z.land a (2 ^ k) = if Z.testbit a k then 2 ^ k else 0.
Proof.
  intros Hk. apply Z.bits_inj'. intros n Hn. rewrite Z.land_spec, Z.pow2_bits_eqb by lia.
  destruct (Z.eqb_spec k n) as [<-|Hne].
  - destruct (Z.testbit a k); [by rewrite Z.pow2_bits_true by lia|by rewrite Z.bits_0].
  - rewrite andb_false_r. destruct (Z.testbit a k); [by rewrite Z.pow2_bits_false by lia|by rewrite Z.bits_0].
Qed.

Lemma land_bit a k : 0 <= k -> negb (Z.land a (2 ^ k) =? 0) = Z.testbit a k.
Proof.
  intros Hk. rewrite land_pow2 by done. destruct (Z.testbit a k); [|done].
  apply negb_true_iff, Z.eqb_neq. pose proof (Z.pow_pos_nonneg 2 k). lia.
Qed.

(** Equality of two words bit by bit. *)
Lemma shiftr_testbit a n i : 0 <= i -> Z.testbit (Z.shiftr a n) i = Z.testbit a (i + n).
Proof. apply Z.shiftr_spec. Qed.
Lemma shiftl_testbit a n i : 0 <= i -> Z.testbit (Z.shiftl a n) i = Z.testbit a (i - n).
Proof. apply Z.shiftl_spec. Qed.
Lemma lnot_testbit a i : 0 <= i -> Z.testbit (Z.lnot a) i = negb (Z.testbit a i).
Proof. apply Z.lnot_spec. Qed.

Ltac bits_norm :=
  repeat first
    [ rewrite Z.land_spec | rewrite Z.lor_spec | rewrite Z.lxor_spec
    | rewrite shiftr_testbit by lia | rewrite shiftl_testbit by lia
    | rewrite lnot_testbit by lia | rewrite testbit_ones by lia
    | rewrite Z.testbit_neg_r by lia ].
Ltac bits_case :=
  repeat match goal with
  | |- context [?a <=? ?b] => destruct (Z.leb_spec a b); try lia
  | |- context [?a <? ?b] => destruct (Z.ltb_spec a b); try lia
  end.
Ltac bitwise :=
  apply Z.bits_inj'; let i := fresh "i" in intros i ?; bits_norm; bits_case; bits_norm; bits_case;
  repeat first [ rewrite Z.testbit_neg_r by lia
               | rewrite andb_true_r | rewrite andb_false_r
               | rewrite orb_false_r | rewrite andb_true_l | rewrite andb_false_l
               | rewrite orb_true_r | rewrite orb_false_l | progress simpl negb ];
  try reflexivity;
  try (f_equal; lia).

Lemma bf_range lo w v : 0 <= w -> 0 <= bf lo w v < 2 ^ w.
Proof.
  intros Hw. unfold bf. rewrite Z.land_ones by done.
  apply Z.mod_pos_bound. lia.
Qed.

Lemma bf_set_same lo w v x :
  0 <= lo -> 0 <= w -> bf lo w (bf_set lo w v x) = x mod 2 ^ w.
Proof.
  intros Hlo Hw. rewrite <- Z.land_ones by done. unfold bf, bf_set. bitwise.
Qed.

Lemma bf_set_other lo w lo' w' v x :
  0 <= lo -> 0 <= w -> 0 <= lo' -> 0 <= w' ->
  lo + w <= lo' \/ lo' + w' <= lo ->
  bf lo' w' (bf_set lo w v x) = bf lo' w' v.
Proof. intros. unfold bf, bf_set. bitwise. Qed.

Lemma bf_set_range n lo w v x :
  0 <= lo -> 0 <= w -> lo + w <= n -> 0 <= v < 2 ^ n ->
  0 <= bf_set lo w v x < 2 ^ n.
Proof.
  intros Hlo Hw Hn Hv.
  assert (bf_set lo w v x = bf_set lo w v x mod 2 ^ n) as ->.
  { rewrite <- Z.land_ones by lia.
    assert (v = Z.land v (Z.ones n)) as E
      by (rewrite Z.land_ones, Z.mod_small; lia).
    unfold bf_set. rewrite E. bitwise. }
  apply Z.mod_pos_bound. lia.
Qed.

Lemma bf_0 lo w : bf lo w 0 = 0.
Proof. unfold bf. by rewrite Z.shiftr_0_l, Z.land_0_l. Qed.
