(* ===== verification/Memory.v ===== *)
(** * The byte memory of the machine

    The memory is a finite map from addresses to bytes: an address outside its
    domain is not mapped, and an access there faults.  64-bit accesses are
    little-endian.  [put_bytes] is the reference meaning of every routine that
    writes a run of bytes. *)
From Stdlib Require Import ZArith Lia.
From stdpp Require Import base tactics numbers option list gmap.
From S2P Require Import Prelude.

Abbreviation mem := (gmap Z Z) (only parsing).

(** ** Accesses *)
Definition load8 (m : mem) (a : Z) : outcome Z := need (m !! a).

Definition store8 (m : mem) (a v : Z) : outcome mem :=
  match m !! a with Some _ => Done (<[a := u8 v]> m) | None => Fault end.

Fixpoint read_bytes (m : mem) (a : Z) (n : nat) : option (list Z) :=
  match n with
  | O => Some []
  | S n' => b ← m !! a; bs ← read_bytes m (a + 1) n'; Some (b :: bs)
  end.

Fixpoint write_bytes (m : mem) (a : Z) (bs : list Z) : option mem :=
  match bs with
  | [] => Some m
  | b :: bs' =>
      match m !! a with
      | Some _ => write_bytes (<[a := b]> m) (a + 1) bs'
      | None => None
      end
  end.

Fixpoint le_combine (bs : list Z) : Z :=
  match bs with
  | [] => 0
  | b :: bs' => b + 256 * le_combine bs'
  end.

Fixpoint le_split (n : nat) (v : Z) : list Z :=
  match n with
  | O => []
  | S n' => u8 v :: le_split n' (v / 256)
  end.

Definition load64 (m : mem) (a : Z) : outcome Z :=
  bs ← need (read_bytes m a 8); Done (le_combine bs).

Definition store64 (m : mem) (a v : Z) : outcome mem :=
  need (write_bytes m a (le_split 8 v)).

(** ** The reference meaning of a block write *)
Fixpoint put_bytes (m : mem) (a : Z) (bs : list Z) : mem :=
  match bs with
  | [] => m
  | b :: bs' => <[a := b]> (put_bytes m (a + 1) bs')
  end.

Definition mapped (m : mem) (a n : Z) : Prop :=
  forall b, a <= b < a + n -> is_Some (m !! b).

(** Every cell holds a byte. *)
Definition mem_wf (m : mem) : Prop := map_Forall (fun _ b => is_u8 b) m.

Definition bytes_ok (bs : list Z) : Prop := Forall is_u8 bs.

(** ** Little-endian words *)
Lemma length_le_split n v : length (le_split n v) = n.
Proof. revert v. induction n; intros; simpl; auto. Qed.

Lemma le_split_ok n v : bytes_ok (le_split n v).
Proof. revert v. induction n; intros; constructor; auto using u8_range. apply IHn. Qed.

Lemma le_combine_split n v :
  le_combine (le_split n v) = v mod 2 ^ (8 * Z.of_nat n).
Proof.
  revert v. induction n as [|n IH]; intros v; cbn [le_split le_combine].
  - by rewrite Z.mod_1_r.
  - rewrite IH. unfold u8.
    replace (8 * Z.of_nat (S n)) with (8 + 8 * Z.of_nat n) by lia.
    rewrite Z.pow_add_r by lia. change (2 ^ 8) with 256.
    rewrite Z.rem_mul_r by lia. reflexivity.
Qed.

Lemma le_combine_range bs :
  bytes_ok bs -> 0 <= le_combine bs < 2 ^ (8 * Z.of_nat (length bs)).
Proof.
  induction 1 as [|b bs Hb _ IH]; cbn [le_combine length]; [done|].
  replace (8 * Z.of_nat (S (length bs))) with (8 + 8 * Z.of_nat (length bs)) by lia.
  rewrite Z.pow_add_r by lia. change (2 ^ 8) with 256.
  unfold is_u8 in Hb. nia.
Qed.

Lemma le_split_combine bs :
  bytes_ok bs -> le_split (length bs) (le_combine bs) = bs.
Proof.
  induction 1 as [|b bs Hb _ IH]; [done|]. cbn [le_split le_combine length].
  assert ((b + 256 * le_combine bs) / 256 = le_combine bs) as ->.
  { unfold is_u8 in Hb. rewrite Z.mul_comm, Z.div_add by lia. rewrite Z.div_small; lia. }
  rewrite IH. f_equal. unfold u8, is_u8 in *.
  rewrite Z.mul_comm, Z_mod_plus_full. by apply Z.mod_small.
Qed.

Lemma le_split_combine8 bs :
  bytes_ok bs -> length bs = 8%nat -> le_split 8 (le_combine bs) = bs.
Proof. intros H E. rewrite <- E at 1. by apply le_split_combine. Qed.

Lemma le_combine_split64 v : is_u64 v -> le_combine (le_split 8 v) = v.
Proof. intros H. rewrite le_combine_split. by apply Z.mod_small. Qed.

(** ** Block reads and writes *)
Lemma lookup_put_bytes m a bs b :
  put_bytes m a bs !! b =
  if decide (a <= b < a + Z.of_nat (length bs)) then bs !! Z.to_nat (b - a) else m !! b.
Proof.
  revert a. induction bs as [|x bs IH]; intros a; cbn [put_bytes length].
  - rewrite decide_False by lia. done.
  - destruct (decide (a = b)) as [->|Hne].
    + rewrite lookup_insert_eq, decide_True by lia.
      by rewrite Z.sub_diag.
    + rewrite lookup_insert_ne, IH by done.
      destruct (decide (a + 1 <= b < a + 1 + Z.of_nat (length bs))).
      * rewrite decide_True by lia.
        replace (Z.to_nat (b - a)) with (S (Z.to_nat (b - (a + 1)))) by lia. done.
      * rewrite decide_False by lia. done.
Qed.

Lemma lookup_put_bytes_out m a bs b :
  ~ (a <= b < a + Z.of_nat (length bs)) -> put_bytes m a bs !! b = m !! b.
Proof. intros. rewrite lookup_put_bytes. by rewrite decide_False. Qed.

Lemma put_bytes_app m a xs ys :
  put_bytes m a (xs ++ ys) = put_bytes (put_bytes m a xs) (a + Z.of_nat (length xs)) ys.
Proof.
  apply map_eq. intros b. rewrite !lookup_put_bytes, length_app.
  repeat case_decide; try lia; try done.
  - rewrite lookup_app_r by lia. f_equal. lia.
  - rewrite lookup_app_l by lia. done.
Qed.

Lemma put_bytes_mapped m a bs b n : mapped m b n -> mapped (put_bytes m a bs) b n.
Proof.
  intros H c Hc. rewrite lookup_put_bytes. case_decide; [|by apply H].
  apply lookup_lt_is_Some. lia.
Qed.

Lemma put_bytes_wf m a bs : mem_wf m -> bytes_ok bs -> mem_wf (put_bytes m a bs).
Proof.
  intros Hm Hbs b v. rewrite lookup_put_bytes. case_decide; [|apply Hm].
  intros Hv. by eapply Forall_lookup_1 in Hv.
Qed.

Lemma mapped_sub m a n b k :
  mapped m a n -> a <= b -> b + k <= a + n -> mapped m b k.
Proof. intros H ?? c Hc. apply H. lia. Qed.

Lemma write_bytes_mapped m a bs :
  mapped m a (Z.of_nat (length bs)) -> write_bytes m a bs = Some (put_bytes m a bs).
Proof.
  revert m a. induction bs as [|x bs IH]; intros m a H; cbn [write_bytes put_bytes length] in *; [done|].
  destruct (H a) as [v ->]; [lia|].
  rewrite IH.
  - f_equal. apply map_eq. intros b.
    destruct (decide (a = b)) as [->|Hne].
    + rewrite lookup_put_bytes_out by lia. by rewrite !lookup_insert_eq.
    + rewrite lookup_put_bytes, !lookup_insert_ne, lookup_put_bytes by done. done.
  - intros c Hc. destruct (decide (a = c)) as [->|Hne].
    + rewrite lookup_insert_eq. eauto.
    + rewrite lookup_insert_ne by done. apply H. lia.
Qed.

Lemma read_bytes_length m a n bs : read_bytes m a n = Some bs -> length bs = n.
Proof.
  revert a bs. induction n as [|n IH]; intros a bs; simpl.
  - by intros [= <-].
  - intros (b & _ & (bs' & E & [= <-])%bind_Some)%bind_Some. simpl. f_equal. eauto.
Qed.

Lemma read_bytes_lookup m a n bs i :
  read_bytes m a n = Some bs -> (i < n)%nat -> bs !! i = m !! (a + Z.of_nat i).
Proof.
  revert a bs i. induction n as [|n IH]; intros a bs i; simpl; [lia|].
  intros (b & Hb & (bs' & E & [= <-])%bind_Some)%bind_Some Hi.
  destruct i as [|i]; simpl.
  - by rewrite Z.add_0_r.
  - rewrite (IH _ _ _ E) by lia. f_equal. lia.
Qed.

Lemma read_bytes_intro m a n bs :
  length bs = n -> (forall i, (i < n)%nat -> m !! (a + Z.of_nat i) = bs !! i) ->
  read_bytes m a n = Some bs.
Proof.
  intros <-. revert a. induction bs as [|x bs IH]; intros a H; simpl; [done|].
  pose proof (H 0%nat ltac:(simpl; lia)) as H0. rewrite Z.add_0_r in H0. rewrite H0. simpl.
  rewrite IH; [done|]. intros i Hi.
  replace (a + 1 + Z.of_nat i) with (a + Z.of_nat (S i)) by lia.
  rewrite H by (simpl; lia). done.
Qed.

Lemma mapped_read m a n :
  mapped m a (Z.of_nat n) -> exists bs, read_bytes m a n = Some bs /\ length bs = n.
Proof.
  revert a. induction n as [|n IH]; intros a H; simpl; [eauto|].
  destruct (H a) as [v ->]; [lia|].
  destruct (IH (a + 1)) as (bs & -> & Hl). { intros b Hb. apply H. lia. }
  eexists. split; [done|]. simpl. lia.
Qed.

Lemma read_bytes_mapped m a n bs :
  read_bytes m a n = Some bs -> mapped m a (Z.of_nat n).
Proof.
  intros H b Hb. pose proof (read_bytes_lookup _ _ _ _ (Z.to_nat (b - a)) H ltac:(lia)) as E.
  replace (a + Z.of_nat (Z.to_nat (b - a))) with b in E by lia.
  rewrite <- E. apply lookup_lt_is_Some. rewrite (read_bytes_length _ _ _ _ H). lia.
Qed.

Lemma read_bytes_ok m a n bs : mem_wf m -> read_bytes m a n = Some bs -> bytes_ok bs.
Proof.
  intros Hm H. apply Forall_lookup. intros i b Hi.
  rewrite (read_bytes_lookup _ _ _ _ _ H) in Hi.
  - by apply Hm in Hi.
  - rewrite <- (read_bytes_length _ _ _ _ H). by eapply lookup_lt_Some.
Qed.

Lemma read_bytes_take m a n k bs :
  read_bytes m a n = Some bs -> (k <= n)%nat -> read_bytes m a k = Some (take k bs).
Proof.
  intros H Hk. pose proof (read_bytes_length _ _ _ _ H).
  apply read_bytes_intro; [rewrite length_take; lia|]. intros i Hi.
  rewrite lookup_take_lt by lia. symmetry. apply (read_bytes_lookup _ _ _ _ _ H). lia.
Qed.

Lemma read_bytes_sub m a n j k bs :
  read_bytes m a n = Some bs -> (j + k <= n)%nat ->
  read_bytes m (a + Z.of_nat j) k = Some (take k (drop j bs)).
Proof.
  intros H Hk. pose proof (read_bytes_length _ _ _ _ H).
  apply read_bytes_intro; [rewrite length_take, length_drop; lia|]. intros i Hi.
  rewrite lookup_take_lt, lookup_drop by lia.
  rewrite (read_bytes_lookup _ _ _ _ _ H) by lia. f_equal. lia.
Qed.

Lemma read_put_same m a bs : read_bytes (put_bytes m a bs) a (length bs) = Some bs.
Proof.
  apply read_bytes_intro; [done|]. intros i Hi. rewrite lookup_put_bytes.
  rewrite decide_True by lia. f_equal. lia.
Qed.

Lemma read_bytes_ext m m' a n :
  (forall b, a <= b < a + Z.of_nat n -> m' !! b = m !! b) ->
  read_bytes m' a n = read_bytes m a n.
Proof.
  revert a. induction n as [|n IH]; intros a H; simpl; [done|].
  rewrite H by lia. rewrite IH; [done|]. intros b Hb. apply H. lia.
Qed.

Lemma read_put_other m a bs b n :
  b + Z.of_nat n <= a \/ a + Z.of_nat (length bs) <= b ->
  read_bytes (put_bytes m a bs) b n = read_bytes m b n.
Proof.
  intros H. apply read_bytes_ext. intros c Hc. apply lookup_put_bytes_out. lia.
Qed.

(** ** 64-bit accesses *)
Lemma load64_read m a bs :
  read_bytes m a 8 = Some bs -> load64 m a = Done (le_combine bs).
Proof. unfold load64. by intros ->. Qed.

Lemma load64_mapped m a : mapped m a 8 -> exists v, load64 m a = Done v.
Proof.
  intros H. destruct (mapped_read m a 8 H) as (bs & E & _).
  rewrite (load64_read _ _ _ E). eauto.
Qed.

Lemma store64_mapped m a v :
  mapped m a 8 -> store64 m a v = Done (put_bytes m a (le_split 8 v)).
Proof. intros H. unfold store64. by rewrite write_bytes_mapped. Qed.

Lemma load64_put_same m a v : is_u64 v -> load64 (put_bytes m a (le_split 8 v)) a = Done v.
Proof.
  intros H. erewrite load64_read.
  2:{ rewrite <- (length_le_split 8 v) at 2. apply read_put_same. }
  by rewrite le_combine_split64.
Qed.

Lemma load64_put_other m a b bs :
  b + 8 <= a \/ a + Z.of_nat (length bs) <= b -> load64 (put_bytes m a bs) b = load64 m b.
Proof. intros H. unfold load64. by rewrite read_put_other. Qed.

Lemma load64_range m a v : mem_wf m -> load64 m a = Done v -> is_u64 v.
Proof.
  unfold load64. intros Hm H. inv_bind.
  pose proof (read_bytes_ok _ _ _ _ Hm E).
  pose proof (le_combine_range r H) as Hr. rewrite (read_bytes_length _ _ _ _ E) in Hr. done.
Qed.

Lemma load8_put_same m a bs i v :
  bs !! i = Some v -> load8 (put_bytes m a bs) (a + Z.of_nat i) = Done v.
Proof.
  intros H. unfold load8. rewrite lookup_put_bytes, decide_True.
  - replace (Z.to_nat (a + Z.of_nat i - a)) with i by lia. by rewrite H.
  - apply lookup_lt_Some in H. lia.
Qed.

#[export] Hint Resolve put_bytes_mapped put_bytes_wf le_split_ok : words.
