(* ===== verification/KMemory.v ===== *)
(** * The memory routines of the kernel library (kernel/src/memory/kmemory.cpp)

    [memcpy], [memmove], [memcmp], [memset] and [zeromem], each with its
    alignment loops and its 64-bit fast path, and their equivalence with the
    byte-wise reference meaning. *)
From Stdlib Require Import ZArith Lia.
From stdpp Require Import base tactics numbers option list gmap.
From S2P Require Import Prelude Memory.

(** ** Operations *)

(** The locals of a copy loop: the memory, [d], [s] and [size]. *)
Record cursor := Cursor { c_mem : gmap Z Z; c_d : Z; c_s : Z; c_n : Z }.

(** Iterations of a loop that decreases [size] are bounded by [size]. *)
Definition size_fuel (size : Z) : nat := S (Z.to_nat size).

Definition misaligned (a : Z) : bool := negb (Z.land a 7 =? 0).

(** [*d++ = *s++; --size;] *)
Definition copy_byte (c : cursor) : outcome cursor :=
  v ← load8 (c_mem c) (c_s c);
  m ← store8 (c_mem c) (c_d c) v;
  Done (Cursor m (c_d c + 1) (c_s c + 1) (c_n c - 1)).

(** [*d64++ = *s64++; size -= 8;] *)
Definition copy_word (c : cursor) : outcome cursor :=
  v ← load64 (c_mem c) (c_s c);
  m ← store64 (c_mem c) (c_d c) v;
  Done (Cursor m (c_d c + 8) (c_s c + 8) (c_n c - 8)).

(** [while (cond) step;] *)
Definition while (cond : cursor -> bool) (step : cursor -> outcome cursor)
    (c : cursor) : outcome cursor :=
  loop (size_fuel (c_n c))
    (fun c => if cond c then c' ← step c; Done (inl c') else Done (inr c)) c.

Definition memcpy (m : gmap Z Z) (dest src size : Z) : outcome (gmap Z Z) :=
  c ← while (fun c => negb (c_n c =? 0) && misaligned (c_d c)) copy_byte
        (Cursor m dest src size);
  c ← while (fun c => negb (c_n c =? 0) && misaligned (c_s c)) copy_byte c;
  c ← while (fun c => 8 <=? c_n c) copy_word c;
  c ← while (fun c => negb (c_n c =? 0)) copy_byte c;
  Done (c_mem c).

(** [size--; d[size] = s[size];] with [d] and [s] fixed *)
Definition copy_byte_at (c : cursor) : outcome cursor :=
  let n := c_n c - 1 in
  v ← load8 (c_mem c) (c_s c + n);
  m ← store8 (c_mem c) (c_d c + n) v;
  Done (Cursor m (c_d c) (c_s c) n).

(** [d64--; s64--; size -= 8; *d64 = *s64;] *)
Definition copy_word_back (c : cursor) : outcome cursor :=
  let d := c_d c - 8 in
  let s := c_s c - 8 in
  v ← load64 (c_mem c) s;
  m ← store64 (c_mem c) d v;
  Done (Cursor m d s (c_n c - 8)).

(** [d--; s--; *d = *s;] after [size--] *)
Definition copy_byte_back (c : cursor) : outcome cursor :=
  let d := c_d c - 1 in
  let s := c_s c - 1 in
  v ← load8 (c_mem c) s;
  m ← store8 (c_mem c) d v;
  Done (Cursor m d s (c_n c - 1)).

Definition memmove (m : gmap Z Z) (dest src size : Z) : outcome (gmap Z Z) :=
  if (dest <? src) || (src + size <=? dest) then memcpy m dest src size
  else
    c ← while (fun c => negb (c_n c =? 0) && misaligned (c_d c + c_n c - 1))
          copy_byte_at (Cursor m dest src size);
    c ← while (fun c => negb (c_n c =? 0) && misaligned (c_s c + c_n c - 1))
          copy_byte_at c;
    c ← while (fun c => 8 <=? c_n c) copy_word_back
          (Cursor (c_mem c) (c_d c + c_n c) (c_s c + c_n c) (c_n c));
    c ← while (fun c => negb (c_n c =? 0)) copy_byte_back c;
    Done (c_mem c).

(** A comparison loop leaves with [inl r] ([return r]) or [inr] the cursor. *)
Definition cmp_byte (c : cursor) : outcome (Z + cursor) :=
  x ← load8 (c_mem c) (c_d c);
  y ← load8 (c_mem c) (c_s c);
  if x =? y then Done (inr (Cursor (c_mem c) (c_d c + 1) (c_s c + 1) (c_n c - 1)))
  else Done (inl (x - y)).

(** [for (int i = 0; i < 8; ++i) if (d[i] != s[i]) return d[i] - s[i];] *)
Definition cmp_scan (m : gmap Z Z) (d s : Z) : outcome (option Z) :=
  loop 9 (fun i =>
    if i <? 8 then
      x ← load8 m (d + i);
      y ← load8 m (s + i);
      if x =? y then Done (inl (i + 1)) else Done (inr (Some (x - y)))
    else Done (inr None)) 0.

Definition cmp_word (c : cursor) : outcome (Z + cursor) :=
  x ← load64 (c_mem c) (c_d c);
  y ← load64 (c_mem c) (c_s c);
  r ← (if x =? y then Done None else cmp_scan (c_mem c) (c_d c) (c_s c));
  match r with
  | Some v => Done (inl v)
  | None => Done (inr (Cursor (c_mem c) (c_d c + 8) (c_s c + 8) (c_n c - 8)))
  end.

Definition cmp_while (cond : cursor -> bool) (step : cursor -> outcome (Z + cursor))
    (c : cursor) : outcome (Z + cursor) :=
  loop (size_fuel (c_n c))
    (fun c => if cond c then
                r ← step c;
                match r with inl v => Done (inr (inl v)) | inr c' => Done (inl c') end
              else Done (inr (inr c))) c.

(** [return] leaves the function, otherwise the next statement runs. *)
Definition or_return (o : outcome (Z + cursor)) (k : cursor -> outcome Z) : outcome Z :=
  r ← o; match r with inl v => Done v | inr c => k c end.

Definition memcmp (m : gmap Z Z) (dest src size : Z) : outcome Z :=
  or_return (cmp_while (fun c => negb (c_n c =? 0) && misaligned (c_d c)) cmp_byte
               (Cursor m dest src size)) (fun c =>
  or_return (cmp_while (fun c => 8 <=? c_n c) cmp_word c) (fun c =>
  or_return (cmp_while (fun c => negb (c_n c =? 0)) cmp_byte c) (fun _ =>
  Done 0))).

Definition set_byte (val : Z) (c : cursor) : outcome cursor :=
  m ← store8 (c_mem c) (c_d c) val;
  Done (Cursor m (c_d c + 1) (c_s c) (c_n c - 1)).

Definition set_word (pattern : Z) (c : cursor) : outcome cursor :=
  m ← store64 (c_mem c) (c_d c) pattern;
  Done (Cursor m (c_d c + 8) (c_s c) (c_n c - 8)).

(** [uint64_t pattern = val; for (int i = 1; i < 8; ++i)
    pattern = (pattern << 8) | val;] *)
Definition memset_pattern (val : Z) : Z :=
  Nat.iter 7 (fun p => Z.lor (u64 (Z.shiftl p 8)) val) val.

Definition memset (m : gmap Z Z) (vaddr val size : Z) : outcome (gmap Z Z) :=
  c ← while (fun c => negb (c_n c =? 0) && misaligned (c_d c)) (set_byte val)
        (Cursor m vaddr 0 size);
  let pattern := memset_pattern val in
  c ← while (fun c => 8 <=? c_n c) (set_word pattern) c;
  c ← while (fun c => negb (c_n c =? 0)) (set_byte val) c;
  Done (c_mem c).

Definition zeromem (m : gmap Z Z) (vaddr size : Z) : outcome (gmap Z Z) :=
  memset m vaddr 0 size.

(** ** Specification of the loops

    A copy loop moves a cursor from one point of a chain of cursors
    [pos 0, pos 1, ...] to a later one. *)
Lemma while_chain (Inv : Z -> cursor -> Prop) (size : Z) cond step c k :
  (forall k c, Inv k c -> c_n c = size - k /\ 0 <= k <= size) ->
  (forall k c, Inv k c -> cond c = true ->
     exists j c', 0 < j /\ step c = Done c' /\ Inv (k + j) c') ->
  Inv k c ->
  exists k' c', while cond step c = Done c' /\ Inv k' c' /\ cond c' = false.
Proof.
  intros Hn Hstep Hk.
  destruct (loop_total (fun c => exists k, Inv k c) (fun c => Z.to_nat (c_n c))
    (fun c' => (exists k', Inv k' c') /\ cond c' = false)
    (fun c => if cond c then c' ← step c; Done (inl c') else Done (inr c)))
    with (fuel := size_fuel (c_n c)) (s := c) as (r & Hr & (k' & Hk') & Hc).
  - intros s (k0 & Hk0). destruct (cond s) eqn:E; [left|right; eauto].
    destruct (Hstep _ _ Hk0 E) as (j & c' & Hj & Es & Hi). exists c'.
    rewrite Es. split; [done|]. split; [eauto|].
    destruct (Hn _ _ Hk0), (Hn _ _ Hi). lia.
  - eauto.
  - unfold size_fuel. lia.
  - exists k', r. done.
Qed.

(** *** Forward copies *)
Section forward.
Context (m : gmap Z Z) (dest src size : Z) (bs : list Z).
Hypothesis Hwf : mem_wf m.
Hypothesis Hmap : mapped m dest size.
Hypothesis Hsrc : read_bytes m src (Z.to_nat size) = Some bs.
Hypothesis Hdir : dest <= src \/ src + size <= dest.

(** [k] bytes have been copied. *)
Definition fwd (k : Z) (c : cursor) : Prop :=
  0 <= k <= size /\
  c = Cursor (put_bytes m dest (take (Z.to_nat k) bs)) (dest + k) (src + k) (size - k).

Lemma fwd_len : Z.of_nat (length bs) = Z.of_nat (Z.to_nat size).
Proof. by rewrite (read_bytes_length _ _ _ _ Hsrc). Qed.

Lemma fwd_n k c : fwd k c -> c_n c = size - k /\ 0 <= k <= size.
Proof. by intros [? ->]. Qed.

(** The bytes still to be read have not been overwritten. *)
Lemma fwd_read k j : 0 <= k -> k + Z.of_nat j <= size ->
  read_bytes (put_bytes m dest (take (Z.to_nat k) bs)) (src + k) j
  = Some (take j (drop (Z.to_nat k) bs)).
Proof.
  intros Hk Hj. pose proof fwd_len.
  rewrite read_put_other by (rewrite length_take; lia).
  pose proof (read_bytes_sub _ _ _ (Z.to_nat k) j _ Hsrc ltac:(lia)) as E.
  by replace (src + Z.of_nat (Z.to_nat k)) with (src + k) in E by lia.
Qed.

Lemma fwd_put k j : 0 <= k -> k + Z.of_nat j <= size ->
  put_bytes (put_bytes m dest (take (Z.to_nat k) bs)) (dest + k) (take j (drop (Z.to_nat k) bs))
  = put_bytes m dest (take (Z.to_nat (k + Z.of_nat j)) bs).
Proof.
  intros Hk Hj. pose proof fwd_len.
  replace (Z.to_nat (k + Z.of_nat j)) with (Z.to_nat k + j)%nat by lia.
  rewrite <- take_take_drop, put_bytes_app. f_equal. rewrite length_take. lia.
Qed.

Lemma fwd_byte k c : fwd k c -> k < size ->
  exists c', copy_byte c = Done c' /\ fwd (k + 1) c'.
Proof.
  intros [Hk ->] Hlt. pose proof fwd_len. unfold copy_byte, load8, store8; simpl.
  pose proof (fwd_read k 1 ltac:(lia) ltac:(lia)) as E. simpl in E.
  apply bind_Some in E as (v & Ev & [= E]). rewrite Ev. simpl.
  destruct (put_bytes_mapped m dest (take (Z.to_nat k) bs) dest size Hmap (dest + k))
    as [x ->]; [lia|].
  eexists; split; [done|]. split; [lia|].
  assert (u8 v = v) as ->.
  { apply u8_small. eapply put_bytes_wf in Ev; [done..|].
    apply Forall_take. by eapply read_bytes_ok. }
  pose proof (fwd_put k 1 ltac:(lia) ltac:(lia)) as P. rewrite <- E in P.
  cbn [put_bytes] in P. change (Z.of_nat 1) with 1 in P. rewrite <- P. f_equal; lia.
Qed.

Lemma fwd_word k c : fwd k c -> k + 8 <= size ->
  exists c', copy_word c = Done c' /\ fwd (k + 8) c'.
Proof.
  intros [Hk ->] Hlt. pose proof fwd_len. unfold copy_word; simpl.
  pose proof (fwd_read k 8 ltac:(lia) ltac:(lia)) as E.
  rewrite (load64_read _ _ _ E). simpl.
  rewrite store64_mapped.
  2:{ eapply mapped_sub; [apply put_bytes_mapped, Hmap|lia..]. }
  eexists; split; [done|]. split; [lia|].
  assert (bytes_ok bs) as Hok by (by eapply read_bytes_ok).
  assert (length (take 8 (drop (Z.to_nat k) bs)) = 8%nat) as Hl
    by (rewrite length_take, length_drop; lia).
  rewrite le_split_combine8 by (done || by apply Forall_take, Forall_drop).
  pose proof (fwd_put k 8 ltac:(lia) ltac:(lia)) as P.
  change (Z.of_nat 8) with 8 in P. rewrite P. f_equal; lia.
Qed.

Lemma fwd_run cond k c :
  (forall c, cond c = true -> c_n c <> 0) -> fwd k c ->
  exists k' c', while cond copy_byte c = Done c' /\ fwd k' c' /\ cond c' = false.
Proof.
  intros Hc. apply while_chain with (size := size); [apply fwd_n|].
  intros k0 c0 H0 E. apply Hc in E. destruct (fwd_n _ _ H0).
  destruct (fwd_byte _ _ H0) as (c' & ? & ?); [lia|]. exists 1, c'. eauto with lia.
Qed.

Lemma fwd_run_words k c : fwd k c ->
  exists k' c', while (fun c => 8 <=? c_n c) copy_word c = Done c' /\ fwd k' c'.
Proof.
  intros H. destruct (while_chain fwd size (fun c => 8 <=? c_n c) copy_word c k)
    as (k' & c' & ? & ? & _); eauto using fwd_n.
  intros k0 c0 H0 E. apply Z.leb_le in E. destruct (fwd_n _ _ H0).
  destruct (fwd_word _ _ H0) as (c' & ? & ?); [lia|]. exists 8, c'. eauto with lia.
Qed.
End forward.

Lemma fwd_start m dest src size bs : 0 <= size -> fwd m dest src size bs 0 (Cursor m dest src size).
Proof. intros. split; [lia|]. f_equal; lia. Qed.

Lemma fwd_end m dest src size bs k c :
  read_bytes m src (Z.to_nat size) = Some bs -> fwd m dest src size bs k c -> c_n c = 0 ->
  c_mem c = put_bytes m dest bs.
Proof.
  intros E [Hk ->] Hn. simpl in *. f_equal. apply take_ge.
  rewrite (read_bytes_length _ _ _ _ E). lia.
Qed.

(** The loop conditions of the copy routines imply that [size] is not 0. *)
Lemma nonzero_cond c (b : bool) : negb (c_n c =? 0) && b = true -> c_n c <> 0.
Proof. lia. Qed.
Lemma nonzero_cond' c : negb (c_n c =? 0) = true -> c_n c <> 0.
Proof. lia. Qed.

Lemma memcpy_forward m dest src size bs :
  mem_wf m -> 0 <= size -> mapped m dest size ->
  read_bytes m src (Z.to_nat size) = Some bs ->
  dest <= src \/ src + size <= dest ->
  memcpy m dest src size = Done (put_bytes m dest bs).
Proof.
  intros Hwf Hs Hm Hr Hd. unfold memcpy.
  pose proof (fwd_start m dest src size bs Hs) as H.
  edestruct fwd_run as (k1 & c1 & -> & H1 & _);
    [done|exact Hm|exact Hr|done|intros c; apply nonzero_cond|exact H|]; simpl.
  edestruct fwd_run as (k2 & c2 & -> & H2 & _);
    [done|exact Hm|exact Hr|done|intros c; apply nonzero_cond|exact H1|]; simpl.
  edestruct fwd_run_words as (k3 & c3 & -> & H3);
    [done|exact Hm|exact Hr|done|exact H2|]; simpl.
  edestruct fwd_run as (k4 & c4 & -> & H4 & E4);
    [done|exact Hm|exact Hr|done|intros c; apply nonzero_cond'|exact H3|]; simpl.
  f_equal. apply (fwd_end m dest src size bs k4 c4 Hr H4). lia.
Qed.

(** *** Backward copies *)
Section backward.
Context (m : gmap Z Z) (dest src size : Z) (bs : list Z).
Hypothesis Hwf : mem_wf m.
Hypothesis Hmap : mapped m dest size.
Hypothesis Hsrc : read_bytes m src (Z.to_nat size) = Some bs.
Hypothesis Hdir : src <= dest.

(** The bytes from [size - k] on have been copied. *)
Definition bwd_mem (k : Z) : gmap Z Z :=
  put_bytes m (dest + (size - k)) (drop (Z.to_nat (size - k)) bs).

(** The index loops keep [d] and [s], the pointer loops keep them at the end. *)
Definition bwd (ptr : bool) (k : Z) (c : cursor) : Prop :=
  0 <= k <= size /\
  c = Cursor (bwd_mem k) (if ptr then dest + (size - k) else dest)
             (if ptr then src + (size - k) else src) (size - k).

Lemma bwd_n p k c : bwd p k c -> c_n c = size - k /\ 0 <= k <= size.
Proof. by intros [? ->]. Qed.

Lemma bwd_len : Z.of_nat (length bs) = Z.of_nat (Z.to_nat size).
Proof. by rewrite (read_bytes_length _ _ _ _ Hsrc). Qed.

Lemma bwd_read k j : 0 <= k -> k + Z.of_nat j <= size ->
  read_bytes (bwd_mem k) (src + (size - k - Z.of_nat j)) j
  = Some (take j (drop (Z.to_nat (size - k - Z.of_nat j)) bs)).
Proof.
  intros Hk Hj. pose proof bwd_len. unfold bwd_mem.
  rewrite read_put_other by lia.
  pose proof (read_bytes_sub _ _ _ (Z.to_nat (size - k - Z.of_nat j)) j _ Hsrc ltac:(lia)) as E.
  by replace (src + Z.of_nat (Z.to_nat (size - k - Z.of_nat j)))
    with (src + (size - k - Z.of_nat j)) in E by lia.
Qed.

Lemma bwd_put k j : 0 <= k -> k + Z.of_nat j <= size ->
  put_bytes (bwd_mem k) (dest + (size - k - Z.of_nat j))
    (take j (drop (Z.to_nat (size - k - Z.of_nat j)) bs))
  = bwd_mem (k + Z.of_nat j).
Proof.
  intros Hk Hj. pose proof bwd_len. unfold bwd_mem. apply map_eq. intros b.
  rewrite !lookup_put_bytes, length_take, !length_drop, !lookup_drop.
  destruct (decide (dest + (size - k - Z.of_nat j) <= b < dest + (size - k))).
  - rewrite decide_True by lia. rewrite lookup_take_lt, lookup_drop by lia.
    rewrite decide_True by lia. f_equal. lia.
  - rewrite (decide_False (P := _ <= b < _ + Z.of_nat (j `min` _))) by lia.
    destruct (decide (dest + (size - k) <= b < dest + size)).
    + rewrite !decide_True by lia. f_equal. lia.
    + rewrite !decide_False by lia. done.
Qed.

Lemma bwd_store8 k : 0 <= k < size ->
  exists v m', load8 (bwd_mem k) (src + (size - k - 1)) = Done v /\
    store8 (bwd_mem k) (dest + (size - k - 1)) v = Done m' /\ m' = bwd_mem (k + 1).
Proof.
  intros Hk. pose proof bwd_len.
  pose proof (bwd_read k 1 ltac:(lia) ltac:(lia)) as E.
  pose proof (bwd_put k 1 ltac:(lia) ltac:(lia)) as P.
  change (Z.of_nat 1) with 1 in E, P. cbn [read_bytes] in E.
  apply bind_Some in E as (v & Ev & [= E]).
  exists v. unfold load8, store8. rewrite Ev.
  destruct (put_bytes_mapped m (dest + (size - k)) (drop (Z.to_nat (size - k)) bs)
    dest size Hmap (dest + (size - k - 1))) as [x Hx]; [lia|].
  fold (bwd_mem k) in Hx. rewrite Hx. eexists; split; [done|]. split; [done|].
  rewrite <- P, <- E. simpl. f_equal. apply u8_small.
  eapply put_bytes_wf in Ev; [done..|]. apply Forall_drop. by eapply read_bytes_ok.
Qed.

Lemma bwd_byte_at k c : bwd false k c -> k < size ->
  exists c', copy_byte_at c = Done c' /\ bwd false (k + 1) c'.
Proof.
  intros [Hk ->] Hlt. unfold copy_byte_at; simpl.
  destruct (bwd_store8 k) as (v & m' & -> & E & ->); [lia|]. simpl. rewrite E. simpl.
  eexists; split; [done|]. split; [lia|]. f_equal; lia.
Qed.

Lemma bwd_byte_back k c : bwd true k c -> k < size ->
  exists c', copy_byte_back c = Done c' /\ bwd true (k + 1) c'.
Proof.
  intros [Hk ->] Hlt. unfold copy_byte_back; simpl.
  destruct (bwd_store8 k) as (v & m' & E1 & E2 & ->); [lia|].
  replace (src + (size - k) - 1) with (src + (size - k - 1)) by lia.
  replace (dest + (size - k) - 1) with (dest + (size - k - 1)) by lia.
  rewrite E1. simpl. rewrite E2. simpl.
  eexists; split; [done|]. split; [lia|]. f_equal; lia.
Qed.

Lemma bwd_word_back k c : bwd true k c -> k + 8 <= size ->
  exists c', copy_word_back c = Done c' /\ bwd true (k + 8) c'.
Proof.
  intros [Hk ->] Hlt. unfold copy_word_back; simpl. pose proof bwd_len.
  pose proof (bwd_read k 8 ltac:(lia) ltac:(lia)) as E.
  pose proof (bwd_put k 8 ltac:(lia) ltac:(lia)) as P.
  change (Z.of_nat 8) with 8 in E, P.
  replace (src + (size - k) - 8) with (src + (size - k - 8)) by lia.
  replace (dest + (size - k) - 8) with (dest + (size - k - 8)) by lia.
  rewrite (load64_read _ _ _ E). simpl.
  rewrite store64_mapped.
  2:{ eapply mapped_sub; [apply put_bytes_mapped, Hmap|lia..]. }
  assert (bytes_ok bs) as Hok by (by eapply read_bytes_ok).
  assert (length (take 8 (drop (Z.to_nat (size - k - 8)) bs)) = 8%nat) as Hl
    by (rewrite length_take, length_drop; lia).
  rewrite le_split_combine8 by (done || by apply Forall_take, Forall_drop).
  rewrite P. eexists; split; [done|]. split; [lia|]. f_equal; lia.
Qed.

Lemma bwd_run p cond step k c :
  (forall c, cond c = true -> c_n c <> 0) ->
  (forall k c, bwd p k c -> k < size -> exists c', step c = Done c' /\ bwd p (k + 1) c') ->
  bwd p k c ->
  exists k' c', while cond step c = Done c' /\ bwd p k' c' /\ cond c' = false.
Proof.
  intros Hc Hstep. apply while_chain with (size := size); [apply bwd_n|].
  intros k0 c0 H0 E. apply Hc in E. destruct (bwd_n _ _ _ H0).
  destruct (Hstep _ _ H0) as (c' & ? & ?); [lia|]. exists 1, c'. eauto with lia.
Qed.

Lemma memmove_backward :
  0 <= size -> dest < src + size -> memmove m dest src size = Done (put_bytes m dest bs).
Proof.
  intros Hs Hov. pose proof bwd_len. unfold memmove.
  rewrite (proj2 (Z.ltb_ge dest src)) by lia.
  rewrite (proj2 (Z.leb_gt (src + size) dest)) by lia. simpl.
  assert (bwd false 0 (Cursor m dest src size)) as H0.
  { split; [lia|]. unfold bwd_mem. rewrite drop_ge by lia. simpl. f_equal; lia. }
  edestruct (bwd_run false) as (k1 & c1 & -> & H1 & _);
    [intros c; apply nonzero_cond|exact bwd_byte_at|exact H0|]; simpl.
  edestruct (bwd_run false) as (k2 & c2 & -> & H2 & _);
    [intros c; apply nonzero_cond|exact bwd_byte_at|exact H1|]; simpl.
  edestruct (while_chain (bwd true) size) as (k3 & c3 & -> & H3 & _);
    [apply bwd_n| |instantiate (1 := k2); destruct H2 as [? ->]; split; [lia|]; simpl; done|];
    simpl.
  { intros k0 c0 Hk0 E. destruct (bwd_n _ _ _ Hk0).
    destruct (bwd_word_back _ _ Hk0) as (c' & ? & ?); [lia|]. exists 8, c'. eauto with lia. }
  edestruct (bwd_run true) as (k4 & c4 & -> & H4 & E4);
    [intros c; apply nonzero_cond'|exact bwd_byte_back|exact H3|]; simpl.
  f_equal. destruct H4 as [? ->]. simpl in *. unfold bwd_mem.
  replace (size - k4) with 0 by lia. by rewrite Z.add_0_r.
Qed.
End backward.

Lemma memmove_total m dest src size bs :
  mem_wf m -> 0 <= size -> mapped m dest size ->
  read_bytes m src (Z.to_nat size) = Some bs ->
  memmove m dest src size = Done (put_bytes m dest bs).
Proof.
  intros Hwf Hs Hm Hr. destruct (decide (dest < src \/ src + size <= dest)) as [Hd|Hd].
  - unfold memmove. destruct ((dest <? src) || (src + size <=? dest)) eqn:E; [|lia].
    apply memcpy_forward; auto with lia.
  - apply memmove_backward; auto with lia.
Qed.

(** *** Comparison *)
Fixpoint cmp_ref (xs ys : list Z) : Z :=
  match xs, ys with
  | x :: xs', y :: ys' => if x =? y then cmp_ref xs' ys' else x - y
  | _, _ => 0
  end.

Lemma cmp_ref_step xs ys k x y :
  xs !! k = Some x -> ys !! k = Some y ->
  cmp_ref (drop k xs) (drop k ys) =
  if x =? y then cmp_ref (drop (S k) xs) (drop (S k) ys) else x - y.
Proof. intros Hx Hy. by rewrite (drop_S _ _ _ Hx), (drop_S _ _ _ Hy). Qed.

Lemma cmp_ref_app zs xs ys : cmp_ref (zs ++ xs) (zs ++ ys) = cmp_ref xs ys.
Proof. induction zs as [|z zs IH]; simpl; [done|]. by rewrite Z.eqb_refl. Qed.

Lemma cmp_ref_0 xs ys : length xs = length ys -> (cmp_ref xs ys = 0 <-> xs = ys).
Proof.
  revert ys. induction xs as [|x xs IH]; intros [|y ys]; simpl; try done.
  intros [= Hl]. destruct (Z.eqb_spec x y) as [->|Hne].
  - rewrite (IH _ Hl). split; [by intros ->|by intros [=]].
  - split; [lia|congruence].
Qed.

Section compare.
Context (m : gmap Z Z) (dest src size : Z) (xs ys : list Z).
Hypothesis Hwf : mem_wf m.
Hypothesis Hx : read_bytes m dest (Z.to_nat size) = Some xs.
Hypothesis Hy : read_bytes m src (Z.to_nat size) = Some ys.

(** The first [k] bytes are equal: the rest decides. *)
Definition cmp_at (k : Z) (c : cursor) : Prop :=
  0 <= k <= size /\ c = Cursor m (dest + k) (src + k) (size - k) /\
  cmp_ref (drop (Z.to_nat k) xs) (drop (Z.to_nat k) ys) = cmp_ref xs ys.

Lemma cmp_load k : 0 <= k < size -> exists x y,
  xs !! Z.to_nat k = Some x /\ ys !! Z.to_nat k = Some y /\
  load8 m (dest + k) = Done x /\ load8 m (src + k) = Done y.
Proof.
  intros Hk. pose proof (read_bytes_length _ _ _ _ Hx) as Lx.
  pose proof (read_bytes_length _ _ _ _ Hy) as Ly.
  destruct (lookup_lt_is_Some_2 xs (Z.to_nat k)) as [x Ex]; [lia|].
  destruct (lookup_lt_is_Some_2 ys (Z.to_nat k)) as [y Ey]; [lia|].
  exists x, y. unfold load8.
  pose proof (read_bytes_lookup _ _ _ _ (Z.to_nat k) Hx ltac:(lia)) as Fx.
  pose proof (read_bytes_lookup _ _ _ _ (Z.to_nat k) Hy ltac:(lia)) as Fy.
  replace (dest + Z.of_nat (Z.to_nat k)) with (dest + k) in Fx by lia.
  replace (src + Z.of_nat (Z.to_nat k)) with (src + k) in Fy by lia.
  by rewrite <- Fx, <- Fy, Ex, Ey.
Qed.

Definition cmp_ok (k : Z) (r : Z + cursor) : Prop :=
  match r with
  | inl v => v = cmp_ref xs ys
  | inr c => exists j, 0 < j /\ cmp_at (k + j) c
  end.

Lemma cmp_byte_ok k c : cmp_at k c -> k < size ->
  exists r, cmp_byte c = Done r /\ cmp_ok k r.
Proof.
  intros (Hk & -> & He) Hlt. unfold cmp_byte; simpl.
  destruct (cmp_load k) as (x & y & Ex & Ey & -> & ->); [lia|]. simpl.
  rewrite (cmp_ref_step _ _ _ _ _ Ex Ey) in He.
  destruct (x =? y); eexists; (split; [done|]); [|done].
  exists 1. split; [lia|]. split; [lia|]. split; [f_equal; lia|].
  by replace (Z.to_nat (k + 1)) with (S (Z.to_nat k)) by lia.
Qed.

Lemma cmp_scan_ok k : 0 <= k -> k + 8 <= size ->
  cmp_ref (drop (Z.to_nat k) xs) (drop (Z.to_nat k) ys) = cmp_ref xs ys ->
  exists r, cmp_scan m (dest + k) (src + k) = Done r /\
    match r with
    | Some v => v = cmp_ref xs ys
    | None => cmp_ref (drop (Z.to_nat (k + 8)) xs) (drop (Z.to_nat (k + 8)) ys) = cmp_ref xs ys
    end.
Proof.
  intros Hk H8 He.
  apply (loop_total (fun i => 0 <= i <= 8 /\
     cmp_ref (drop (Z.to_nat (k + i)) xs) (drop (Z.to_nat (k + i)) ys) = cmp_ref xs ys)
    (fun i => Z.to_nat (8 - i))); [|rewrite Z.add_0_r; split; [lia|done]|lia].
  intros i [Hi Hi']. destruct (Z.ltb_spec i 8) as [Hlt|Hge].
  - rewrite <- !Z.add_assoc.
    destruct (cmp_load (k + i)) as (x & y & Ex & Ey & -> & ->); [lia|]. simpl.
    rewrite (cmp_ref_step _ _ _ _ _ Ex Ey) in Hi'. destruct (x =? y).
    + left. exists (i + 1). split; [done|]. split; [|lia]. split; [lia|].
      replace (Z.to_nat (k + (i + 1))) with (S (Z.to_nat (k + i))) by lia. done.
    + right. eauto.
  - right. exists None. replace i with 8 in Hi' by lia. done.
Qed.

Lemma cmp_word_ok k c : cmp_at k c -> k + 8 <= size ->
  exists r, cmp_word c = Done r /\ cmp_ok k r.
Proof.
  intros (Hk & -> & He) Hlt. unfold cmp_word; simpl.
  pose proof (read_bytes_length _ _ _ _ Hx). pose proof (read_bytes_length _ _ _ _ Hy).
  pose proof (read_bytes_sub _ _ _ (Z.to_nat k) 8 _ Hx ltac:(lia)) as Ex.
  pose proof (read_bytes_sub _ _ _ (Z.to_nat k) 8 _ Hy ltac:(lia)) as Ey.
  replace (dest + Z.of_nat (Z.to_nat k)) with (dest + k) in Ex by lia.
  replace (src + Z.of_nat (Z.to_nat k)) with (src + k) in Ey by lia.
  rewrite (load64_read _ _ _ Ex), (load64_read _ _ _ Ey). simpl.
  assert (forall k8, k8 = k + 8 ->
    cmp_ref (drop (Z.to_nat k8) xs) (drop (Z.to_nat k8) ys) = cmp_ref xs ys ->
    cmp_at k8 (Cursor m (dest + k + 8) (src + k + 8) (size - k - 8))) as Hnext.
  { intros k8 -> E. split; [lia|]. split; [f_equal; lia|done]. }
  destruct (Z.eqb_spec (le_combine (take 8 (drop (Z.to_nat k) xs)))
                       (le_combine (take 8 (drop (Z.to_nat k) ys)))) as [E|_]; simpl.
  - eexists; split; [done|]. exists 8. split; [lia|]. apply Hnext; [done|].
    rewrite <- He. replace (Z.to_nat (k + 8)) with (Z.to_nat k + 8)%nat by lia.
    rewrite <- !drop_drop.
    rewrite <- (take_drop 8 (drop (Z.to_nat k) xs)) at 2.
    rewrite <- (take_drop 8 (drop (Z.to_nat k) ys)) at 2.
    replace (take 8 (drop (Z.to_nat k) ys)) with (take 8 (drop (Z.to_nat k) xs)).
    2:{ rewrite <- (le_split_combine8 (take 8 (drop (Z.to_nat k) xs))), E, le_split_combine8;
          try done; try (by apply Forall_take, Forall_drop; eapply read_bytes_ok);
          rewrite length_take, length_drop; lia. }
    by rewrite cmp_ref_app.
  - destruct (cmp_scan_ok k) as ([v|] & -> & Hr); [lia..|done|simpl; eauto|].
    simpl. eexists; split; [done|]. exists 8. split; [lia|]. by apply Hnext.
Qed.

Lemma cmp_run cond step k c :
  (forall c, cond c = true -> c_n c <> 0) ->
  (forall k c, cmp_at k c -> cond c = true ->
     exists r, step c = Done r /\ cmp_ok k r) ->
  cmp_at k c ->
  exists r, cmp_while cond step c = Done r /\
    match r with
    | inl v => v = cmp_ref xs ys
    | inr c' => (exists k', cmp_at k' c') /\ cond c' = false
    end.
Proof.
  intros Hc Hstep Hk.
  apply (loop_total (fun c => exists k, cmp_at k c) (fun c => Z.to_nat (c_n c))
    (fun r => match r with
              | inl v => v = cmp_ref xs ys
              | inr c' => (exists k', cmp_at k' c') /\ cond c' = false
              end)); [|eauto|unfold size_fuel; lia].
  intros c0 [k0 H0]. destruct (cond c0) eqn:E; [|right; exists (inr c0); eauto].
  destruct (Hstep _ _ H0 E) as (r & -> & Hr). simpl.
  destruct r as [v|c']; [right; exists (inl v); eauto|].
  left. exists c'. split; [done|]. destruct Hr as (j & Hj & Hr). split; [eauto|].
  destruct H0 as (? & -> & _), Hr as (? & -> & _). simpl. lia.
Qed.

Lemma memcmp_ref : 0 <= size -> memcmp m dest src size = Done (cmp_ref xs ys).
Proof.
  intros Hs. unfold memcmp, or_return.
  assert (cmp_at 0 (Cursor m dest src size)) as H0
    by (split; [lia|]; split; [f_equal; lia|done]).
  assert (forall k c, cmp_at k c -> c_n c <> 0 -> k < size) as Hlt
    by (intros ?? (? & -> & _); simpl; lia).
  edestruct cmp_run as (r & -> & Hr); [intros c; apply nonzero_cond| |exact H0|]; simpl.
  { intros k c Hk E%nonzero_cond. eauto using cmp_byte_ok. }
  destruct r as [v|c1]; [by subst|]. destruct Hr as ((k1 & H1) & _).
  edestruct (cmp_run (fun c => 8 <=? c_n c) cmp_word) as (r & -> & Hr); [| |exact H1|]; simpl.
  { intros c E. lia. }
  { intros k c Hk E. apply cmp_word_ok; [done|]. destruct Hk as (? & -> & _). simpl in *. lia. }
  destruct r as [v|c2]; [by subst|]. destruct Hr as ((k2 & H2) & _).
  edestruct cmp_run as (r & -> & Hr); [intros c; apply nonzero_cond'| |exact H2|]; simpl.
  { intros k c Hk E%nonzero_cond'. eauto using cmp_byte_ok. }
  destruct r as [v|c3]; [by subst|]. destruct Hr as ((k3 & (? & -> & He)) & E). simpl in *.
  rewrite <- He, drop_ge; [done|]. rewrite (read_bytes_length _ _ _ _ Hx). lia.
Qed.
End compare.

(** *** Filling *)
Lemma memset_pattern_bytes val :
  is_u8 val -> le_split 8 (memset_pattern val) = replicate 8 val.
Proof.
  intros Hv.
  assert (Forall (fun v => le_split 8 (memset_pattern v) = replicate 8 v) (seqZ 0 256)) as H
    by (apply (bool_decide_unpack _); vm_compute; exact I).
  rewrite Forall_forall in H. apply H, elem_of_seqZ. unfold is_u8 in Hv. lia.
Qed.

Section fill.
Context (m : gmap Z Z) (a val size : Z).
Hypothesis Hmap : mapped m a size.
Hypothesis Hval : is_u8 val.

Definition filled (k : Z) (c : cursor) : Prop :=
  0 <= k <= size /\
  c = Cursor (put_bytes m a (replicate (Z.to_nat k) val)) (a + k) 0 (size - k).

Lemma filled_n k c : filled k c -> c_n c = size - k /\ 0 <= k <= size.
Proof. by intros [? ->]. Qed.

Lemma filled_put k j : 0 <= k ->
  put_bytes (put_bytes m a (replicate (Z.to_nat k) val)) (a + k) (replicate j val)
  = put_bytes m a (replicate (Z.to_nat (k + Z.of_nat j)) val).
Proof.
  intros Hk. replace (Z.to_nat (k + Z.of_nat j)) with (Z.to_nat k + j)%nat by lia.
  rewrite replicate_add, put_bytes_app, length_replicate. f_equal. lia.
Qed.

Lemma filled_byte k c : filled k c -> k < size ->
  exists c', set_byte val c = Done c' /\ filled (k + 1) c'.
Proof.
  intros [Hk ->] Hlt. unfold set_byte, store8; simpl.
  destruct (put_bytes_mapped m a (replicate (Z.to_nat k) val) a size Hmap (a + k))
    as [x ->]; [lia|]. simpl. eexists; split; [done|]. split; [lia|].
  pose proof (filled_put k 1 ltac:(lia)) as P. cbn [replicate put_bytes] in P.
  change (Z.of_nat 1) with 1 in P. rewrite <- P, u8_small by done. f_equal; lia.
Qed.

Lemma filled_word k c : filled k c -> k + 8 <= size ->
  exists c', set_word (memset_pattern val) c = Done c' /\ filled (k + 8) c'.
Proof.
  intros [Hk ->] Hlt. unfold set_word; simpl.
  rewrite store64_mapped by (eapply mapped_sub; [apply put_bytes_mapped, Hmap|lia..]).
  rewrite memset_pattern_bytes by done. eexists; split; [done|]. split; [lia|].
  pose proof (filled_put k 8 ltac:(lia)) as P. change (Z.of_nat 8) with 8 in P.
  rewrite P. f_equal; lia.
Qed.

Lemma filled_run cond k c : (forall c, cond c = true -> c_n c <> 0) -> filled k c ->
  exists k' c', while cond (set_byte val) c = Done c' /\ filled k' c' /\ cond c' = false.
Proof.
  intros Hc. apply while_chain with (size := size); [apply filled_n|].
  intros k0 c0 H0 E. apply Hc in E. destruct (filled_n _ _ H0).
  destruct (filled_byte _ _ H0) as (c' & ? & ?); [lia|]. exists 1, c'. eauto with lia.
Qed.

Lemma memset_fill :
  0 <= size -> memset m a val size = Done (put_bytes m a (replicate (Z.to_nat size) val)).
Proof.
  intros Hs. unfold memset.
  assert (filled 0 (Cursor m a 0 size)) as H0 by (split; [lia|]; f_equal; simpl; lia).
  edestruct filled_run as (k1 & c1 & -> & H1 & _);
    [intros c; apply nonzero_cond|exact H0|]; cbn [mbind outcome_bind].
  edestruct (while_chain filled size (fun c => 8 <=? c_n c) (set_word (memset_pattern val)))
    as (k2 & c2 & -> & H2 & _); [apply filled_n| |exact H1|]; cbn [mbind outcome_bind].
  { intros k0 c0 Hk0 E. destruct (filled_n _ _ Hk0).
    destruct (filled_word _ _ Hk0) as (c' & ? & ?); [lia|]. exists 8, c'. eauto with lia. }
  edestruct filled_run as (k3 & c3 & -> & H3 & E3);
    [intros c; apply nonzero_cond'|exact H2|]; simpl.
  destruct H3 as [? ->]. simpl in *. do 3 f_equal. lia.
Qed.
End fill.

(** Filling an aligned unmapped range faults at its first word. *)
Lemma memset_unmapped m a val size :
  m !! a = None -> misaligned a = false -> 8 <= size -> memset m a val size = Fault.
Proof.
  intros Hm Ha Hs. unfold memset, while, size_fuel. cbn [loop c_n c_d].
  rewrite Ha, andb_false_r. cbn [mbind outcome_bind c_n loop].
  destruct (Z.leb_spec 8 size); [|lia]. unfold set_word, store64. cbn [c_mem c_d].
  cbn [le_split write_bytes]. by rewrite Hm.
Qed.

(** ** Properties of the routines *)

(** [memcpy] of a readable source to a writable destination that
    does not lie behind the source inside the copied range returns, the destination
    then holds the source's bytes, and no other byte changes: the alignment loops,
    the 64-bit loop and the tail compose to a byte copy. *)
Theorem memcpy_correct m dest src size bs :
  mem_wf m -> 0 <= size -> mapped m dest size ->
  read_bytes m src (Z.to_nat size) = Some bs ->
  dest <= src \/ src + size <= dest ->
  exists m', memcpy m dest src size = Done m' /\
    read_bytes m' dest (Z.to_nat size) = Some bs /\
    (forall a, ~ (dest <= a < dest + size) -> m' !! a = m !! a).
Proof.
  intros Hwf Hs Hm Hr Hd. eexists; split; [by apply memcpy_forward|].
  pose proof (read_bytes_length _ _ _ _ Hr) as Hl. split.
  - rewrite <- Hl. apply read_put_same.
  - intros a Ha. apply lookup_put_bytes_out. lia.
Qed.

(** [memmove] is right for every overlap of the two ranges. *)
Theorem memmove_correct m dest src size bs :
  mem_wf m -> 0 <= size -> mapped m dest size ->
  read_bytes m src (Z.to_nat size) = Some bs ->
  exists m', memmove m dest src size = Done m' /\
    read_bytes m' dest (Z.to_nat size) = Some bs /\
    (forall a, ~ (dest <= a < dest + size) -> m' !! a = m !! a).
Proof.
  intros Hwf Hs Hm Hr. eexists; split; [by apply memmove_total|].
  pose proof (read_bytes_length _ _ _ _ Hr) as Hl. split.
  - rewrite <- Hl. apply read_put_same.
  - intros a Ha. apply lookup_put_bytes_out. lia.
Qed.

(** [memcmp] returns the difference of the first bytes that
    differ, the result of a byte-wise comparison, and 0 exactly for equal ranges. *)
Theorem memcmp_correct m dest src size xs ys :
  mem_wf m -> 0 <= size ->
  read_bytes m dest (Z.to_nat size) = Some xs ->
  read_bytes m src (Z.to_nat size) = Some ys ->
  memcmp m dest src size = Done (cmp_ref xs ys) /\ (cmp_ref xs ys = 0 <-> xs = ys).
Proof.
  intros Hwf Hs Hx Hy. split; [by apply memcmp_ref|]. apply cmp_ref_0.
  by rewrite (read_bytes_length _ _ _ _ Hx), (read_bytes_length _ _ _ _ Hy).
Qed.

(** [memset] fills exactly the given range with the byte. *)
Theorem memset_correct m a val size :
  0 <= size -> mapped m a size -> is_u8 val ->
  memset m a val size = Done (put_bytes m a (replicate (Z.to_nat size) val)).
Proof. intros. by apply memset_fill. Qed.

(** *** Witnesses *)
Definition demo_mem : gmap Z Z :=
  put_bytes ∅ 1001 (Z.of_nat <$> seq 0 40).

Lemma demo_wf : mem_wf demo_mem.
Proof. apply (bool_decide_unpack _). vm_compute. exact I. Qed.

Lemma demo_mapped a n : 1001 <= a -> a + n <= 1041 -> mapped demo_mem a n.
Proof.
  intros ? ? b Hb. unfold demo_mem. rewrite lookup_put_bytes, decide_True.
  - apply lookup_lt_is_Some. rewrite length_fmap, length_seq. lia.
  - rewrite length_fmap, length_seq. lia.
Qed.

Lemma memcpy_correct_witness : exists m',
  memcpy demo_mem 1003 1010 21 = Done m' /\
  read_bytes m' 1003 21 = Some (Z.of_nat <$> seq 9 21) /\
  (forall a, ~ (1003 <= a < 1003 + 21) -> m' !! a = demo_mem !! a).
Proof.
  apply (memcpy_correct demo_mem 1003 1010 21);
    [apply demo_wf|lia|apply demo_mapped; lia|vm_compute; reflexivity|lia].
Defined.

Lemma memmove_correct_witness : exists m',
  memmove demo_mem 1010 1003 21 = Done m' /\
  read_bytes m' 1010 21 = Some (Z.of_nat <$> seq 2 21) /\
  (forall a, ~ (1010 <= a < 1010 + 21) -> m' !! a = demo_mem !! a).
Proof.
  apply (memmove_correct demo_mem 1010 1003 21);
    [apply demo_wf|lia|apply demo_mapped; lia|vm_compute; reflexivity].
Defined.

Lemma memcmp_correct_witness :
  cmp_ref (Z.of_nat <$> seq 1 20) (Z.of_nat <$> seq 3 20) = -2 /\
  memcmp demo_mem 1002 1004 20 =
    Done (cmp_ref (Z.of_nat <$> seq 1 20) (Z.of_nat <$> seq 3 20)).
Proof.
  split; [reflexivity|].
  apply (memcmp_correct demo_mem 1002 1004 20 (Z.of_nat <$> seq 1 20) (Z.of_nat <$> seq 3 20));
    [apply demo_wf|lia|vm_compute; reflexivity..].
Defined.

Lemma memset_correct_witness :
  memset demo_mem 1003 170 21 = Done (put_bytes demo_mem 1003 (replicate 21 170)).
Proof. apply (memset_correct demo_mem 1003 170 21); [lia|apply demo_mapped; lia|done]. Defined.
