(* ===== verification/KString.v ===== *)
(** * Numbers to strings, and the length of a string (kernel/src/core/kstring.cpp)

    [lltoa], [itoa] and [htoa] write decimal and hexadecimal digits into a buffer of the
    machine memory; [strlen] finds the terminator a word at a time. *)
From Stdlib Require Import ZArith Lia.
From stdpp Require Import base tactics numbers option list gmap.
From S2P Require Import Prelude Memory KMemory.

(** ** Operations *)

(** "0123456789abcdef" *)
Definition g_hexAlphabet : list Z :=
  [0x30; 0x31; 0x32; 0x33; 0x34; 0x35; 0x36; 0x37; 0x38; 0x39; 0x61; 0x62; 0x63; 0x64; 0x65; 0x66].

(** [while (lenTest / 10 > 0) { lenTest /= 10; ++length; }]; a 64-bit number has at most
    20 digits. *)
Definition count_digits (val : Z) : outcome Z :=
  loop 20 (fun '(lenTest, length) =>
    if 0 <? lenTest / 10 then Done (inl (lenTest / 10, u8 (length + 1)))
    else Done (inr length)) (val, 0).

(** [while (val / 10 > 0) { ...; buffer[length - index] = remainder + '0'; ++index; }] and
    the last digit; [last] is the address of [buffer[length]].  C's quotient truncates,
    which for [uint64_t] is the same as rounding down. *)
Definition write_digits (m : gmap Z Z) (last val : Z) : outcome (gmap Z Z) :=
  r ← loop 20 (fun '(m, val, index) =>
    if 0 <? val ÷ 10 then
      let remainder := u8 (Z.rem val 10) in
      m ← store8 m (last - index) (remainder + 48);
      Done (inl (m, val ÷ 10, u8 (index + 1)))
    else Done (inr (m, val, index))) (m, val, 0);
  let '(m, val, index) := r in
  let remainder := u8 (Z.rem val 10) in
  store8 m (last - index) (remainder + 48).

Definition lltoa (m : gmap Z Z) (val buffer bufsize : Z) : outcome (gmap Z Z * Z) :=
  length ← count_digits val;
  if bufsize <? length + 1 then Done (m, -1)
  else
    m ← write_digits m (buffer + length) val;
    m ← store8 m (buffer + length + 1) 0;
    Done (m, 0).

(** The negation of the smallest [int32_t] is that number again. *)
Definition itoa (m : gmap Z Z) (val buffer bufsize : Z) : outcome (gmap Z Z * Z) :=
  let negative := val <? 0 in
  let val := if negative then s32 (u32 (- val)) else val in
  m ← (if negative then store8 m buffer 0x2d else Done m);
  length ← count_digits (u64 val);
  let neg := Z.b2z negative in
  if bufsize <? neg + length + 1 then Done (m, -1)
  else
    m ← write_digits m (buffer + neg + length) val;
    m ← store8 m (buffer + neg + length + 1) 0;
    Done (m, 0).

(** [currentByte] is byte [idx] of [val], the bytes of a word being little-endian. *)
Definition htoa (m : gmap Z Z) (val buffer bufsize : Z) : outcome (gmap Z Z * Z) :=
  if bufsize <? 17 then Done (m, -1)
  else
    r ← loop 9 (fun '(m, idx) =>
      if idx <? 8 then
        currentByte ← need (le_split 8 val !! Z.to_nat idx);
        hi ← need (g_hexAlphabet !! Z.to_nat (Z.shiftr (Z.land currentByte 0xf0) 4));
        m ← store8 m (buffer + (15 - (idx * 2 + 1))) hi;
        lo ← need (g_hexAlphabet !! Z.to_nat (Z.land currentByte 0x0f));
        m ← store8 m (buffer + (15 - (idx * 2 + 0))) lo;
        Done (inl (m, idx + 1))
      else Done (inr (m, idx))) (m, 0);
    let '(m, idx) := r in
    m ← store8 m (buffer + idx * 2) 0;
    Done (m, 0).

(** [(v - 0x0101010101010101) & ~v & 0x8080808080808080] *)
Definition zero_byte_mask (v : Z) : Z :=
  Z.land (Z.land (v ⊟ 0x0101010101010101) (u64 (Z.lnot v))) 0x8080808080808080.

(** [for (int i = 0; i < 8; i++) if (p[i] == 0) return (p - str) + i;] *)
Definition find_zero (m : gmap Z Z) (p : Z) : outcome (option Z) :=
  loop 9 (fun i =>
    if i <? 8 then
      c ← load8 m (p + i);
      if c =? 0 then Done (inr (Some i)) else Done (inl (i + 1))
    else Done (inr None)) 0.

(** The byte loop runs until the pointer is aligned, the word loop over mapped words
    only, so the number of mapped bytes bounds it. *)
Definition strlen (m : gmap Z Z) (str : Z) : outcome Z :=
  r ← loop 9 (fun s =>
    if s mod 8 =? 0 then Done (inr (inr s))
    else
      c ← load8 m s;
      if c =? 0 then Done (inr (inl (s - str))) else Done (inl (s + 1))) str;
  match r with
  | inl n => Done n
  | inr s =>
      loop (S (size m)) (fun w =>
        v ← load64 m w;
        if zero_byte_mask v =? 0 then Done (inl (w + 8))
        else
          r ← find_zero m w;
          match r with
          | Some i => Done (inr ((w - str) + i))
          | None => Done (inl (w + 8))
          end) s
  end.

(** ** Decimal numbers *)

(** The decimal digits of [n], as characters; [k] bounds their number. *)
Fixpoint dec_digits (k : nat) (n : Z) : list Z :=
  match k with
  | O => [n mod 10 + 48]
  | S k => if n / 10 =? 0 then [n mod 10 + 48] else dec_digits k (n / 10) ++ [n mod 10 + 48]
  end.

Definition dec (n : Z) : list Z := dec_digits 19 n.

(** Reading a decimal number. *)
Definition dec_value (bs : list Z) : Z := fold_left (fun v c => 10 * v + (c - 48)) bs 0.

Definition is_digit (c : Z) : Prop := 48 <= c < 58.

Lemma dec_value_snoc bs c : dec_value (bs ++ [c]) = 10 * dec_value bs + (c - 48).
Proof. unfold dec_value. by rewrite fold_left_app. Qed.

Lemma dec_digits_value k n : 0 <= n < 10 ^ (Z.of_nat k + 1) -> dec_value (dec_digits k n) = n.
Proof.
  revert n. induction k as [|k IH]; intros n Hn; simpl dec_digits.
  - unfold dec_value. simpl. simpl in Hn. wordlia.
  - destruct (Z.eqb_spec (n / 10) 0).
    + unfold dec_value. simpl. wordlia.
    + rewrite dec_value_snoc, IH.
      * wordlia.
      * replace (Z.of_nat (S k) + 1) with (Z.succ (Z.of_nat k + 1)) in Hn by lia.
        rewrite Z.pow_succ_r in Hn by lia. wordlia.
Qed.

Lemma dec_digits_ok k n : Forall is_digit (dec_digits k n).
Proof.
  revert n. induction k as [|k IH]; intros n; simpl.
  - repeat constructor; unfold is_digit; wordlia.
  - destruct (_ =? 0); [|apply Forall_app; split; [done|]]; repeat constructor; unfold is_digit; wordlia.
Qed.

Lemma dec_digits_length k n : (1 <= length (dec_digits k n) <= S k)%nat.
Proof.
  revert n. induction k as [|k IH]; intros n; simpl; [lia|].
  destruct (_ =? 0); [simpl; lia|]. rewrite length_app. simpl. specialize (IH (n / 10)). lia.
Qed.

(** No leading zero. *)
Lemma dec_digits_head k n c bs : 0 <= n < 10 ^ (Z.of_nat k + 1) ->
  dec_digits k n = c :: bs -> c = 48 -> bs = [].
Proof.
  revert n c bs. induction k as [|k IH]; intros n c bs Hn; simpl.
  { by intros [= _ <-]. }
  destruct (Z.eqb_spec (n / 10) 0); [by intros [= _ <-]|].
  destruct (dec_digits k (n / 10)) as [|c' bs'] eqn:E.
  { pose proof (dec_digits_length k (n / 10)) as L. rewrite E in L. simpl in L. lia. }
  replace (Z.of_nat (S k) + 1) with (Z.succ (Z.of_nat k + 1)) in Hn by lia.
  rewrite Z.pow_succ_r in Hn by lia.
  intros [= <- <-] Hc. exfalso. assert (0 <= n / 10 < 10 ^ (Z.of_nat k + 1)) as Hn' by wordlia.
  pose proof (dec_digits_value k (n / 10) Hn') as V. rewrite E in V.
  rewrite (IH _ _ _ Hn' E Hc), Hc in V. unfold dec_value in V. simpl in V. lia.
Qed.

Lemma count_digits_ok k : forall fuel n len, 0 <= n < 10 ^ (Z.of_nat k + 1) -> (k < fuel)%nat ->
  0 <= len -> len + Z.of_nat k < 256 ->
  loop fuel (fun '(lenTest, length) =>
    if 0 <? lenTest / 10 then Done (inl (lenTest / 10, u8 (length + 1)))
    else Done (inr length)) (n, len) = Done (len + Z.of_nat (length (dec_digits k n)) - 1).
Proof.
  induction k as [|k IH]; intros fuel n len Hn Hf Hl Hb; (destruct fuel as [|fuel]; [lia|]); simpl.
  - destruct (Z.ltb_spec 0 (n / 10)); [simpl in Hn; wordlia|]. f_equal. lia.
  - destruct (Z.ltb_spec 0 (n / 10)).
    + destruct (Z.eqb_spec (n / 10) 0); [lia|].
      replace (Z.of_nat (S k) + 1) with (Z.succ (Z.of_nat k + 1)) in Hn by lia.
      rewrite Z.pow_succ_r in Hn by lia. rewrite u8_small by (unfold is_u8; lia).
      rewrite IH by (lia || wordlia). rewrite length_app. simpl. f_equal. lia.
    + destruct (Z.eqb_spec (n / 10) 0); [|wordlia]. simpl. f_equal. lia.
Qed.

Lemma store8_mapped m a v : mapped m a 1 -> store8 m a v = Done (put_bytes m a [u8 v]).
Proof. intros H. unfold store8. destruct (H a) as [x ->]; [lia|]. done. Qed.

(** A byte behind a block, written before it. *)
Lemma put_bytes_snoc m a xs b y : b = a + Z.of_nat (length xs) ->
  put_bytes (put_bytes m b [y]) a xs = put_bytes m a (xs ++ [y]).
Proof.
  intros ->. rewrite put_bytes_app. apply map_eq. intros b. rewrite !lookup_put_bytes. simpl.
  repeat case_decide; try lia; done.
Qed.

(** The digit loop and the last digit. *)
Lemma write_digits_ok k : forall fuel m n last index, 0 <= n < 10 ^ (Z.of_nat k + 1) -> (k < fuel)%nat ->
  0 <= index -> index + Z.of_nat k < 256 ->
  mapped m (last - index - Z.of_nat (length (dec_digits k n)) + 1) (Z.of_nat (length (dec_digits k n))) ->
  (r ← loop fuel (fun '(m, val, index) =>
    if 0 <? val ÷ 10 then
      m ← store8 m (last - index) (u8 (Z.rem val 10) + 48);
      Done (inl (m, val ÷ 10, u8 (index + 1)))
    else Done (inr (m, val, index))) (m, n, index);
   let '(m, val, index) := r in store8 m (last - index) (u8 (Z.rem val 10) + 48)) =
  Done (put_bytes m (last - index - Z.of_nat (length (dec_digits k n)) + 1) (dec_digits k n)).
Proof.
  induction k as [|k IH]; intros fuel m n last index Hn Hf Hi Hb Hm; (destruct fuel as [|fuel]; [lia|]);
    cbn [loop]; rewrite Z.quot_div_nonneg, Z.rem_mod_nonneg by lia;
    assert (u8 (u8 (n mod 10) + 48) = n mod 10 + 48) as Ed by wordlia.
  - destruct (Z.ltb_spec 0 (n / 10)); [simpl in Hn; wordlia|]. cbn [mbind outcome_bind].
    rewrite Z.rem_mod_nonneg by lia. simpl in Hm. simpl dec_digits. simpl length.
    rewrite store8_mapped by (eapply mapped_sub; [done|lia..]). rewrite Ed. do 2 f_equal. lia.
  - cbn [dec_digits] in *. destruct (Z.ltb_spec 0 (n / 10)).
    + destruct (Z.eqb_spec (n / 10) 0); [lia|].
      replace (Z.of_nat (S k) + 1) with (Z.succ (Z.of_nat k + 1)) in Hn by lia.
      rewrite Z.pow_succ_r in Hn by lia. rewrite length_app in *. cbn [length] in *.
      rewrite store8_mapped by (eapply mapped_sub; [done|lia..]). cbn [mbind outcome_bind].
      rewrite Ed, (u8_small (index + 1)) by (unfold is_u8; lia). rewrite IH; try lia; [|wordlia|].
      * rewrite (put_bytes_snoc m _ _ (last - index)) by lia. do 2 f_equal. lia.
      * apply put_bytes_mapped. eapply mapped_sub; [done|lia..].
    + destruct (Z.eqb_spec (n / 10) 0); [|wordlia]. cbn [mbind outcome_bind length] in *.
      rewrite Z.rem_mod_nonneg by lia.
      rewrite store8_mapped by (eapply mapped_sub; [done|lia..]). rewrite Ed. do 2 f_equal. lia.
Qed.

Definition u64_digits n (H : is_u64 n) : 0 <= n < 10 ^ (Z.of_nat 19 + 1).
Proof. unfold is_u64 in H. change (10 ^ (Z.of_nat 19 + 1)) with 100000000000000000000. lia. Qed.

(** Both conversions, after their size checks. *)
Lemma write_dec m n buf : is_u64 n -> mapped m buf (Z.of_nat (length (dec n)) + 1) ->
  (m ← write_digits m (buf + (Z.of_nat (length (dec n)) - 1)) n;
   store8 m (buf + (Z.of_nat (length (dec n)) - 1) + 1) 0) =
  Done (put_bytes m buf (dec n ++ [0])).
Proof.
  intros Hn Hm. unfold write_digits, dec in *.
  pose proof (dec_digits_length 19 n) as L.
  pose proof (write_digits_ok 19 20 m n (buf + (Z.of_nat (length (dec_digits 19 n)) - 1)) 0
    (u64_digits n Hn) ltac:(lia) ltac:(lia) ltac:(lia)) as E.
  replace (buf + (Z.of_nat (length (dec_digits 19 n)) - 1) - 0 - Z.of_nat (length (dec_digits 19 n)) + 1)
    with buf in E by lia.
  rewrite E by (eapply mapped_sub; [done|lia..]). cbn [mbind outcome_bind].
  rewrite store8_mapped by (apply put_bytes_mapped; eapply mapped_sub; [done|lia..]).
  rewrite put_bytes_app. do 2 f_equal. lia.
Qed.

Lemma count_dec n : is_u64 n -> count_digits n = Done (Z.of_nat (length (dec n)) - 1).
Proof.
  intros Hn. unfold count_digits, dec.
  by rewrite (count_digits_ok 19 20 n 0 (u64_digits n Hn)) by lia.
Qed.

(** ** The zero byte test *)

Lemma land_byte x x' : 0 <= x -> 0 <= x' < 256 -> 0 <= Z.land x x' < 256.
Proof.
  intros Hx Hx'. split; [apply Z.land_nonneg; lia|].
  assert (Z.land x x' = Z.land (Z.land x x') (Z.ones 8)) as ->.
  { rewrite <- Z.land_assoc, (Z.land_ones x') by lia. by rewrite Z.mod_small by (simpl; lia). }
  rewrite Z.land_ones by lia. apply Z.mod_pos_bound. lia.
Qed.

(** The bits of a byte in front of a number. *)
Lemma testbit_cons a b i : 0 <= a < 256 -> 0 <= i ->
  Z.testbit (a + 256 * b) i = if i <? 8 then Z.testbit a i else Z.testbit b (i - 8).
Proof.
  intros Ha Hi. destruct (Z.ltb_spec i 8).
  - rewrite <- (Z.mod_pow2_bits_low (a + 256 * b) 8), <- (Z.mod_pow2_bits_low a 8) by lia.
    change (2 ^ 8) with 256. by rewrite Z.mul_comm, Z_mod_plus_full.
  - replace i with (i - 8 + 8) at 1 by lia. rewrite <- Z.div_pow2_bits by lia.
    change (2 ^ 8) with 256. rewrite Z.mul_comm, Z.div_add, Z.div_small by lia. done.
Qed.

Lemma land_split x y x' y' : 0 <= x < 256 -> 0 <= x' < 256 ->
  Z.land (x + 256 * y) (x' + 256 * y') = Z.land x x' + 256 * Z.land y y'.
Proof.
  intros Hx Hx'. pose proof (land_byte x x' ltac:(lia) Hx').
  apply Z.bits_inj'. intros i Hi. rewrite Z.land_spec, !testbit_cons by lia.
  destruct (i <? 8); by rewrite Z.land_spec.
Qed.

(** The test of one byte, checked on all of them. *)
Lemma byte_test b : 0 < b < 256 -> Z.land (Z.land (b - 1) (255 - b)) 128 = 0.
Proof.
  intros Hb.
  assert (forallb (fun b => Z.land (Z.land (b - 1) (255 - b)) 128 =? 0) (seqZ 1 255) = true) as H
    by (vm_compute; reflexivity).
  rewrite forallb_forall in H. apply Z.eqb_eq, H, list_elem_of_In, elem_of_seqZ. lia.
Qed.

(** The mask over any number of bytes, without the wrap-around. *)
Lemma mask_bytes bs : bytes_ok bs ->
  Z.land (Z.land (le_combine bs - le_combine (replicate (length bs) 1)) (Z.lnot (le_combine bs)))
    (le_combine (replicate (length bs) 128)) = 0 <-> Forall (fun b => b <> 0) bs.
Proof.
  induction 1 as [|b bs Hb _ IH]; [split; done|]. unfold is_u8 in Hb. cbn [le_combine length replicate].
  assert (Z.lnot (b + 256 * le_combine bs) = (255 - b) + 256 * Z.lnot (le_combine bs)) as ->
    by (unfold Z.lnot; lia).
  set (v := le_combine bs) in *. set (o := le_combine (replicate (length bs) 1)) in *.
  set (h := le_combine (replicate (length bs) 128)) in *.
  rewrite Forall_cons. destruct (decide (b = 0)) as [->|Hne].
  - replace (0 + 256 * v - (1 + 256 * o)) with (255 + 256 * (v - o - 1)) by lia.
    rewrite land_split by lia. change (Z.land 255 (255 - 0)) with 255.
    rewrite land_split by lia. change (Z.land 255 128) with 128. split; [lia|naive_solver].
  - replace (b + 256 * v - (1 + 256 * o)) with ((b - 1) + 256 * (v - o)) by lia.
    rewrite land_split by lia. rewrite land_split, byte_test; [|lia| |lia].
    + rewrite Z.add_0_l. split; [intros E; split; [done|]; apply IH; lia|].
      intros [_ H]. apply IH in H. lia.
    + by apply land_byte; lia.
Qed.

Lemma zero_byte_mask_spec bs : bytes_ok bs -> length bs = 8%nat ->
  zero_byte_mask (le_combine bs) = 0 <-> Forall (fun b => b <> 0) bs.
Proof.
  intros Hb Hl. rewrite <- mask_bytes, Hl by done. unfold zero_byte_mask, u64.
  change (le_combine (replicate 8 1)) with 0x0101010101010101.
  change (le_combine (replicate 8 128)) with 0x8080808080808080.
  set (x := _ - _). set (y := Z.lnot _).
  assert (Z.land (Z.land (x mod 0x10000000000000000) (y mod 0x10000000000000000)) 0x8080808080808080 =
          Z.land (Z.land x y) 0x8080808080808080) as ->; [|done].
  change 0x10000000000000000 with (2 ^ 64). rewrite <- !Z.land_ones by lia.
  change 0x8080808080808080 with (Z.land (Z.ones 64) 0x8080808080808080).
  apply Z.bits_inj'. intros i Hi. rewrite !Z.land_spec.
  destruct (Z.testbit x i), (Z.testbit y i), (Z.testbit (Z.ones 64) i); done.
Qed.

(** ** The length of a string *)

(** [n] characters at [a], then the terminator. *)
Record cstr_at (m : gmap Z Z) (a n : Z) : Prop := {
  cs_pos : 0 <= n;
  cs_chars : forall i, 0 <= i < n -> exists c, m !! (a + i) = Some c /\ c <> 0;
  cs_end : m !! (a + n) = Some 0;
}.

Lemma cstr_byte m a n i : cstr_at m a n -> 0 <= i <= n ->
  exists c, m !! (a + i) = Some c /\ (c = 0 <-> i = n).
Proof.
  intros [H0 Hc He] Hi. destruct (decide (i = n)) as [->|Hne]; [exists 0; split; [done|lia]|].
  destruct (Hc i) as (c & ? & ?); [lia|]. exists c. split; [done|]. lia.
Qed.

Lemma find_zero_ok m str n w : cstr_at m str n -> str <= w <= str + n -> str + n < w + 8 ->
  find_zero m w = Done (Some (str + n - w)).
Proof.
  intros Hs Hw Hn.
  destruct (loop_total (fun i => 0 <= i <= str + n - w) (fun i => Z.to_nat (str + n - w - i))
    (fun r => r = Some (str + n - w)) (fun i => if i <? 8 then
      c ← load8 m (w + i); if c =? 0 then Done (inr (Some i)) else Done (inl (i + 1))
      else Done (inr None))) with (fuel := 9%nat) (s := 0) as (r & E & ->); [|lia|lia|exact E].
  intros i Hi. destruct (Z.ltb_spec i 8); [|lia]. unfold load8.
  destruct (cstr_byte m str n (w + i - str) Hs) as (c & Ec & Hc); [lia|].
  replace (str + (w + i - str)) with (w + i) in Ec by lia. rewrite Ec. cbn [need mbind outcome_bind].
  destruct (Z.eqb_spec c 0) as [E0|E0].
  - right. eexists. split; [done|]. f_equal. apply Hc in E0. lia.
  - left. eexists. split; [done|]. assert (w + i - str <> n) by tauto. lia.
Qed.

Lemma mapped_size m a n : mapped m a (Z.of_nat n) -> (n <= size m)%nat.
Proof.
  intros Hm. rewrite <- size_dom.
  assert (size (list_to_set (seqZ a (Z.of_nat n)) : gset Z) = n) as E.
  { rewrite size_list_to_set by apply NoDup_seqZ. rewrite length_seqZ. lia. }
  rewrite <- E at 1. apply subseteq_size. intros b [Hb1 Hb2]%elem_of_list_to_set%elem_of_seqZ.
  apply elem_of_dom, Hm. lia.
Qed.

(** The word loop. *)
Lemma strlen_words m str n : mem_wf m -> cstr_at m str n ->
  forall w, str <= w <= str + n -> w mod 8 = 0 -> mapped m str ((str + n) / 8 * 8 + 8 - str) ->
  loop (S (size m)) (fun w =>
        v ← load64 m w;
        if zero_byte_mask v =? 0 then Done (inl (w + 8))
        else
          r ← find_zero m w;
          match r with
          | Some i => Done (inr ((w - str) + i))
          | None => Done (inl (w + 8))
          end) w = Done n.
Proof.
  intros Hwf Hs w Hw Ha Hm.
  destruct (loop_total (fun w => str <= w <= str + n /\ w mod 8 = 0)
    (fun w => Z.to_nat (str + n - w)) (fun r => r = n) (fun w =>
        v ← load64 m w;
        if zero_byte_mask v =? 0 then Done (inl (w + 8))
        else
          r ← find_zero m w;
          match r with
          | Some i => Done (inr ((w - str) + i))
          | None => Done (inl (w + 8))
          end)) with (fuel := S (size m)) (s := w) as (r & E & ->); [|done| |exact E].
  - clear w Hw Ha. intros w [Hw Ha].
    destruct (mapped_read m w 8) as (bs & Hbs & _).
    { eapply mapped_sub; [exact Hm|lia|wordlia]. }
    rewrite (load64_read m w bs Hbs). cbn [mbind outcome_bind].
    pose proof (zero_byte_mask_spec bs (read_bytes_ok m w 8 bs Hwf Hbs) (read_bytes_length m w 8 bs Hbs)) as Hz.
    destruct (Z.eqb_spec (zero_byte_mask (le_combine bs)) 0) as [E|E].
    + left. eexists. split; [done|]. apply Hz in E.
      assert (~ (str + n < w + 8)) as Hlt.
      { intros Hlt. pose proof (cs_end _ _ _ Hs) as He.
        rewrite Forall_lookup in E. apply (E (Z.to_nat (str + n - w)) 0); [|done].
        rewrite (read_bytes_lookup m w 8 bs) by (done || lia). rewrite <- He. f_equal. lia. }
      split; [|wordlia]. split; [lia|]. wordlia.
    + right. eexists. assert (str + n < w + 8) as Hlt.
      { destruct (decide (str + n < w + 8)); [done|]. destruct E. apply Hz.
        apply Forall_lookup. intros i b Hi. pose proof (lookup_lt_Some _ _ _ Hi) as L.
        rewrite (read_bytes_length m w 8 bs Hbs) in L.
        rewrite (read_bytes_lookup m w 8 bs) in Hi by done.
        destruct (cs_chars _ _ _ Hs (w + Z.of_nat i - str)) as (c & Ec & Hc); [lia|].
        replace (str + (w + Z.of_nat i - str)) with (w + Z.of_nat i) in Ec by lia. congruence. }
      rewrite (find_zero_ok m str n w) by (done || lia). cbn [mbind outcome_bind]. split; [done|]. lia.
  - apply Nat.lt_succ_r. apply (mapped_size m w). eapply mapped_sub; [exact Hm|lia|wordlia].
Qed.

(** ** Hexadecimal numbers *)

(** The two characters of a byte, and the value of a character. *)
Definition hex_char (d : Z) : Z := default 0 (g_hexAlphabet !! Z.to_nat d).
Definition hex_byte (b : Z) : list Z := [hex_char (b / 16); hex_char (b mod 16)].
Definition hex (n : Z) : list Z := flat_map hex_byte (rev (le_split 8 n)).
Definition hex_digit (c : Z) : Z := if c <? 58 then c - 48 else c - 97 + 10.
Definition hex_value (bs : list Z) : Z := fold_left (fun v c => 16 * v + hex_digit c) bs 0.

(** Every byte of [htoa], checked on all of them. *)
Definition hex_checks : bool :=
  forallb (fun b =>
    bool_decide (g_hexAlphabet !! Z.to_nat (Z.shiftr (Z.land b 0xf0) 4) = Some (hex_char (b / 16))) &&
    bool_decide (g_hexAlphabet !! Z.to_nat (Z.land b 0x0f) = Some (hex_char (b mod 16))) &&
    (u8 (hex_char (b / 16)) =? hex_char (b / 16)) && (u8 (hex_char (b mod 16)) =? hex_char (b mod 16)) &&
    (16 * hex_digit (hex_char (b / 16)) + hex_digit (hex_char (b mod 16)) =? b)) (seqZ 0 256).

Lemma hex_byte_facts b : is_u8 b ->
  g_hexAlphabet !! Z.to_nat (Z.shiftr (Z.land b 0xf0) 4) = Some (hex_char (b / 16)) /\
  g_hexAlphabet !! Z.to_nat (Z.land b 0x0f) = Some (hex_char (b mod 16)) /\
  u8 (hex_char (b / 16)) = hex_char (b / 16) /\ u8 (hex_char (b mod 16)) = hex_char (b mod 16) /\
  16 * hex_digit (hex_char (b / 16)) + hex_digit (hex_char (b mod 16)) = b.
Proof.
  intros Hb. assert (hex_checks = true) as H by (vm_compute; reflexivity).
  unfold hex_checks in H. rewrite forallb_forall in H. specialize (H b).
  rewrite !andb_true_iff, !bool_decide_eq_true, !Z.eqb_eq in H.
  destruct H as [[[[? ?] ?] ?] ?]; [apply list_elem_of_In, elem_of_seqZ; unfold is_u8 in Hb; lia|].
  by split_and!.
Qed.

Lemma hex_value_app xs ys : hex_value (xs ++ ys) = fold_left (fun v c => 16 * v + hex_digit c) ys (hex_value xs).
Proof. apply fold_left_app. Qed.

Lemma hex_value_bytes bs : bytes_ok bs -> hex_value (flat_map hex_byte (rev bs)) = le_combine bs.
Proof.
  induction 1 as [|b bs Hb _ IH]; [done|]. simpl rev. rewrite flat_map_app. simpl flat_map.
  rewrite hex_value_app, IH. destruct (hex_byte_facts b Hb) as (_ & _ & _ & _ & E).
  simpl. lia.
Qed.

Lemma length_hex bs : length (flat_map hex_byte bs) = (2 * length bs)%nat.
Proof. induction bs as [|b bs IH]; simpl; [done|]. rewrite IH. lia. Qed.

Lemma put_bytes_cons2 m a x y bs : put_bytes (put_bytes (put_bytes m (a + 2) bs) a [x]) (a + 1) [y] =
  put_bytes m a (x :: y :: bs).
Proof.
  apply map_eq. intros b. simpl. rewrite <- (Z.add_assoc a 1 1). change (1 + 1) with 2.
  destruct (decide (b = a + 1)) as [->|]; [by rewrite lookup_insert_eq, lookup_insert_ne, lookup_insert_eq by lia|].
  rewrite (lookup_insert_ne _ (a + 1)) by done.
  destruct (decide (b = a)) as [->|]; [by rewrite !lookup_insert_eq|].
  by rewrite !lookup_insert_ne by done.
Qed.

Lemma htoa_loop r : forall fuel m0 m buffer bs k, (r < fuel)%nat -> (k + r = 8)%nat ->
  bytes_ok bs -> length bs = 8%nat -> mapped m0 buffer 17 ->
  m = put_bytes m0 (buffer + 16 - 2 * Z.of_nat k) (flat_map hex_byte (rev (take k bs))) ->
  loop fuel (fun '(m, idx) =>
      if idx <? 8 then
        currentByte ← need (bs !! Z.to_nat idx);
        hi ← need (g_hexAlphabet !! Z.to_nat (Z.shiftr (Z.land currentByte 0xf0) 4));
        m ← store8 m (buffer + (15 - (idx * 2 + 1))) hi;
        lo ← need (g_hexAlphabet !! Z.to_nat (Z.land currentByte 0x0f));
        m ← store8 m (buffer + (15 - (idx * 2 + 0))) lo;
        Done (inl (m, idx + 1))
      else Done (inr (m, idx))) (m, Z.of_nat k) =
  Done (put_bytes m0 buffer (flat_map hex_byte (rev bs)), 8).
Proof.
  induction r as [|r IH]; intros fuel m0 m buffer bs k Hf Hk Hb Hl Hm Em;
    (destruct fuel as [|fuel]; [lia|]); cbn [loop].
  - destruct (Z.ltb_spec (Z.of_nat k) 8); [lia|]. subst m. rewrite take_ge by lia.
    assert (k = 8%nat) as -> by lia. do 3 f_equal; lia.
  - destruct (Z.ltb_spec (Z.of_nat k) 8); [|lia]. rewrite Nat2Z.id.
    destruct (lookup_lt_is_Some_2 bs k) as [b Eb]; [lia|]. rewrite Eb. cbn [need mbind outcome_bind].
    destruct (hex_byte_facts b (Forall_lookup_1 _ _ _ _ Hb Eb)) as (E1 & E2 & U1 & U2 & _).
    rewrite E1. cbn [need mbind outcome_bind].
    assert (mapped m buffer 17) as Hm1 by (subst m; by apply put_bytes_mapped).
    rewrite store8_mapped by (apply (mapped_sub m buffer 17); [done|lia..]). rewrite E2. cbn [need mbind outcome_bind].
    rewrite store8_mapped by (apply put_bytes_mapped, (mapped_sub m buffer 17); [done|lia..]).
    cbn [mbind outcome_bind]. rewrite U1, U2. replace (Z.of_nat k + 1) with (Z.of_nat (S k)) by lia.
    apply IH; [lia|lia|done..|]. rewrite (take_S_r _ _ _ Eb), rev_app_distr. simpl flat_map.
    set (a := buffer + 16 - 2 * Z.of_nat (S k)). rewrite <- put_bytes_cons2, Em.
    replace (buffer + 16 - 2 * Z.of_nat k) with (a + 2) by lia.
    replace (buffer + (15 - (Z.of_nat k * 2 + 1))) with a by lia.
    by replace (buffer + (15 - (Z.of_nat k * 2 + 0))) with (a + 1) by lia.
Qed.

(** ** Properties *)

(** On a terminated string whose last word is mapped, [strlen] returns,
    and returns the number of characters before the terminator: the byte loop stops at an
    aligned address or at the terminator, and the word loop recognises the first word
    with a zero byte by the mask, whatever the bytes around it. *)
Theorem strlen_correct m str n :
  mem_wf m -> cstr_at m str n -> mapped m str ((str + n) / 8 * 8 + 8 - str) ->
  strlen m str = Done n.
Proof.
  intros Hwf Hs Hm. unfold strlen. pose proof (cs_pos _ _ _ Hs) as H0.
  destruct (loop_total (fun s => str <= s <= str + n /\ s <= (str + 7) / 8 * 8)
    (fun s => Z.to_nat ((str + 7) / 8 * 8 - s))
    (fun r => match r with inl k => k = n | inr s => str <= s <= str + n /\ s mod 8 = 0 end)
    (fun s => if s mod 8 =? 0 then Done (inr (inr s))
      else c ← load8 m s; if c =? 0 then Done (inr (inl (s - str))) else Done (inl (s + 1))))
    with (fuel := 9%nat) (s := str) as (r & E & Hr).
  - intros s [H1 H2]. destruct (Z.eqb_spec (s mod 8) 0) as [Ea|Ea]; [right; exists (inr s); split_and!; done || lia|].
    destruct (cstr_byte m str n (s - str) Hs) as (c & Ec & Hc); [lia|].
    replace (str + (s - str)) with s in Ec by lia. unfold load8. rewrite Ec. cbn [need mbind outcome_bind].
    destruct (Z.eqb_spec c 0) as [E0|E0].
    + right. eexists. split; [done|]. by apply Hc.
    + left. eexists. split; [done|]. assert (s - str <> n) by tauto. split; [|wordlia]. split; [lia|wordlia].
  - split; [lia|wordlia].
  - wordlia.
  - rewrite E. cbn [mbind outcome_bind]. destruct r as [k|s]; [by subst|].
    destruct Hr as [Hs1 Hs2]. by apply strlen_words.
Qed.

Lemma lltoa_run m val buffer bufsize :
  is_u64 val -> mapped m buffer (Z.of_nat (length (dec val)) + 1) ->
  lltoa m val buffer bufsize =
    (if bufsize <? Z.of_nat (length (dec val)) then Done (m, -1)
     else Done (put_bytes m buffer (dec val ++ [0]), 0)).
Proof.
  intros Hv Hm. unfold lltoa. rewrite count_dec by done. cbn [mbind outcome_bind].
  replace (Z.of_nat (length (dec val)) - 1 + 1) with (Z.of_nat (length (dec val))) by lia.
  destruct (bufsize <? _); [done|].
  pose proof (write_dec m val buffer Hv Hm) as E.
  destruct (write_digits m (buffer + (Z.of_nat (length (dec val)) - 1)) val); try done.
  cbn [mbind outcome_bind] in *. by rewrite E.
Qed.

Lemma hex_length val : length (hex val) = 16%nat.
Proof. unfold hex. by rewrite length_hex, length_rev, length_le_split. Qed.

Lemma htoa_run m val buffer bufsize : mapped m buffer 17 ->
  htoa m val buffer bufsize =
    (if bufsize <? 17 then Done (m, -1) else Done (put_bytes m buffer (hex val ++ [0]), 0)).
Proof.
  intros Hm. unfold htoa. destruct (bufsize <? 17); [done|].
  pose proof (htoa_loop 8 9 m m buffer (le_split 8 val) 0 ltac:(lia) eq_refl (le_split_ok 8 val)
    (length_le_split 8 val) Hm eq_refl) as E. change (Z.of_nat 0) with 0 in E. rewrite E.
  cbn [mbind outcome_bind].
  rewrite store8_mapped by (apply put_bytes_mapped, (mapped_sub m buffer 17); [done|lia..]).
  cbn [mbind outcome_bind]. fold (hex val). rewrite put_bytes_app, hex_length. done.
Qed.

(** C38 (roundtrip): [lltoa] writes exactly the decimal digits of a 64-bit number and the
    terminator, or reports that the buffer is too small; reading the digits gives the
    number back, and there is no leading zero. *)
Theorem lltoa_roundtrip m val buffer bufsize :
  is_u64 val -> mapped m buffer (Z.of_nat (length (dec val)) + 1) ->
  lltoa m val buffer bufsize =
    (if bufsize <? Z.of_nat (length (dec val)) then Done (m, -1)
     else Done (put_bytes m buffer (dec val ++ [0]), 0)) /\
  dec_value (dec val) = val /\ Forall is_digit (dec val) /\
  (forall bs, dec val = 48 :: bs -> bs = []).
Proof.
  intros Hv Hm. split_and!.
  - by apply lltoa_run.
  - apply dec_digits_value, (u64_digits val Hv).
  - apply dec_digits_ok.
  - intros bs E. by eapply dec_digits_head; [apply (u64_digits val Hv)| |].
Qed.

(** [itoa] writes a sign for negative numbers, then the digits of the
    absolute value and the terminator.  (The smallest [int32_t] has no absolute value.) *)
Theorem itoa_roundtrip m val buffer bufsize :
  -0x80000000 < val < 0x80000000 ->
  let chars := (if val <? 0 then [0x2d] else []) ++ dec (Z.abs val) in
  Z.of_nat (length chars) <= bufsize -> mapped m buffer (Z.of_nat (length chars) + 1) ->
  itoa m val buffer bufsize = Done (put_bytes m buffer (chars ++ [0]), 0) /\
  dec_value (dec (Z.abs val)) = Z.abs val.
Proof.
  intros Hv chars Hsz Hm. assert (is_u64 (Z.abs val)) as Hu by (unfold is_u64; lia).
  split; [|apply dec_digits_value, (u64_digits _ Hu)]. unfold itoa.
  assert ((if val <? 0 then s32 (u32 (- val)) else val) = Z.abs val) as ->.
  { destruct (Z.ltb_spec val 0); [|lia]. unfold s32.
    rewrite !u32_small by (rewrite ?u32_small; unfold is_u32; lia). destruct (Z.ltb_spec (- val) 0x80000000); lia. }
  rewrite (u64_small _ Hu). unfold chars in *. destruct (Z.ltb_spec val 0); cbn [Z.b2z app length] in *.
  - rewrite store8_mapped by (eapply mapped_sub; [exact Hm|lia..]). cbn [mbind outcome_bind].
    rewrite count_dec by done. cbn [mbind outcome_bind]. rewrite (proj2 (Z.ltb_ge _ _)) by lia.
    pose proof (write_dec (put_bytes m buffer [u8 45]) (Z.abs val) (buffer + 1) Hu
      ltac:(apply put_bytes_mapped; eapply mapped_sub; [exact Hm|lia..])) as E.
    destruct (write_digits _ (buffer + 1 + (Z.of_nat (length (dec (Z.abs val))) - 1)) (Z.abs val)); try done.
    cbn [mbind outcome_bind] in *. rewrite E. cbn [mbind outcome_bind]. do 2 f_equal.
    change (45 :: dec (Z.abs val) ++ [0]) with ([45] ++ (dec (Z.abs val) ++ [0])).
    rewrite (put_bytes_app m buffer [45]). done.
  - cbn [mbind outcome_bind]. rewrite count_dec by done. cbn [mbind outcome_bind].
    rewrite (proj2 (Z.ltb_ge _ _)), Z.add_0_r by lia. pose proof (write_dec m (Z.abs val) buffer Hu Hm) as E.
    destruct (write_digits m (buffer + (Z.of_nat (length (dec (Z.abs val))) - 1)) (Z.abs val)); try done.
    cbn [mbind outcome_bind] in *. by rewrite E.
Qed.

(** [htoa] writes the sixteen hexadecimal digits of the word, most
    significant first, and the terminator, inside the 17 bytes it asks for; reading the
    digits gives the word back. *)
Theorem htoa_roundtrip m val buffer bufsize :
  is_u64 val -> mapped m buffer 17 ->
  htoa m val buffer bufsize =
    (if bufsize <? 17 then Done (m, -1) else Done (put_bytes m buffer (hex val ++ [0]), 0)) /\
  length (hex val) = 16%nat /\ hex_value (hex val) = val.
Proof.
  intros Hv Hm. split_and!; [by apply htoa_run|apply hex_length|].
  unfold hex. rewrite hex_value_bytes by apply le_split_ok. by apply le_combine_split64.
Qed.

(** The size check of [lltoa] forgets the terminator.  For every number, a
    buffer of exactly as many bytes as there are digits is accepted, and the byte behind
    it is overwritten; when that byte is not mapped the conversion faults. *)
Theorem lltoa_writes_past_buffer m val buffer :
  let bufsize := Z.of_nat (length (dec val)) in
  is_u64 val -> mapped m buffer bufsize ->
  match m !! (buffer + bufsize) with
  | Some _ => exists m', lltoa m val buffer bufsize = Done (m', 0) /\ m' !! (buffer + bufsize) = Some 0
  | None => lltoa m val buffer bufsize = Fault
  end.
Proof.
  intros bufsize Hv Hm. unfold lltoa. rewrite count_dec by done. cbn [mbind outcome_bind].
  fold bufsize. rewrite (proj2 (Z.ltb_ge _ _)) by lia. unfold write_digits.
  pose proof (write_digits_ok 19 20 m val (buffer + (bufsize - 1)) 0 (u64_digits val Hv)
    ltac:(lia) ltac:(lia) ltac:(lia)) as E. fold (dec val) in E. fold bufsize in E.
  replace (buffer + (bufsize - 1) - 0 - bufsize + 1) with buffer in E by lia.
  rewrite E by done. cbn [mbind outcome_bind].
  replace (buffer + (bufsize - 1) + 1) with (buffer + bufsize) by lia. unfold store8.
  rewrite lookup_put_bytes_out by lia. destruct (m !! (buffer + bufsize)); [|done].
  cbn [mbind outcome_bind]. eexists. split; [done|]. by rewrite lookup_insert_eq.
Qed.

(** ** Witnesses *)
Definition demo_buf : gmap Z Z := put_bytes ∅ 0x1000 (replicate 24 0x7f).

Lemma demo_buf_mapped n : 0 <= n <= 24 -> mapped demo_buf 0x1000 n.
Proof.
  intros Hn b Hb. unfold demo_buf. rewrite lookup_put_bytes, decide_True by (rewrite length_replicate; lia).
  apply lookup_lt_is_Some. rewrite length_replicate. lia.
Qed.

(** "kernel" at an odd address. *)
Definition demo_str : gmap Z Z := put_bytes ∅ 0x1003 [107; 101; 114; 110; 101; 108; 0; 9; 9; 9; 9; 9; 9].

Lemma strlen_correct_witness : strlen demo_str 0x1003 = Done 6.
Proof.
  apply strlen_correct.
  - apply put_bytes_wf; [apply map_Forall_empty|]. repeat constructor; unfold is_u8; lia.
  - constructor; [lia| |done]. intros i Hi.
    assert (i = 0 \/ i = 1 \/ i = 2 \/ i = 3 \/ i = 4 \/ i = 5) as [-> | [-> | [-> | [-> | [-> | ->]]]]] by lia;
      eexists; (split; [vm_compute; reflexivity|done]).
  - intros b Hb. unfold demo_str. rewrite lookup_put_bytes, decide_True by (simpl length; wordlia).
    apply lookup_lt_is_Some. simpl length. wordlia.
Defined.

Lemma lltoa_roundtrip_witness :
  lltoa demo_buf 1048576 0x1000 10 = Done (put_bytes demo_buf 0x1000 [49; 48; 52; 56; 53; 55; 54; 0], 0).
Proof.
  destruct (lltoa_roundtrip demo_buf 1048576 0x1000 10) as [E _];
    [unfold is_u64; lia|apply demo_buf_mapped; vm_compute; split; discriminate|].
  rewrite E. vm_compute. reflexivity.
Defined.

Lemma itoa_roundtrip_witness :
  itoa demo_buf (-42) 0x1000 8 = Done (put_bytes demo_buf 0x1000 [45; 52; 50; 0], 0).
Proof.
  destruct (itoa_roundtrip demo_buf (-42) 0x1000 8) as [E _];
    [lia|by vm_compute|apply demo_buf_mapped; vm_compute; split; discriminate|].
  rewrite E. vm_compute. reflexivity.
Defined.

Lemma htoa_roundtrip_witness : hex_value (hex 0xffffffff80100000) = 0xffffffff80100000 /\
  htoa demo_buf 0xffffffff80100000 0x1000 16 = Done (demo_buf, -1).
Proof.
  destruct (htoa_roundtrip demo_buf 0xffffffff80100000 0x1000 16) as (E & _ & V);
    [unfold is_u64; lia|apply demo_buf_mapped; lia|]. split; [exact V|exact E].
Defined.

Lemma lltoa_writes_past_buffer_witness : exists m',
  lltoa demo_buf 77 0x1000 2 = Done (m', 0) /\ m' !! 0x1002 = Some 0.
Proof.
  exact (lltoa_writes_past_buffer demo_buf 77 0x1000 ltac:(unfold is_u64; lia)
    ltac:(apply demo_buf_mapped; vm_compute; split; discriminate)).
Defined.
