(* ===== verification/Sync.v ===== *)
(** * Spinlocks (kernel/src/core/sync.h)

    The sequential meaning of [acquireSpinlock] and [releaseSpinlock], which the
    allocators and the scheduler use, and the concurrent protocol as a step
    relation on the lock word and the program counters of the threads. *)
From Stdlib Require Import ZArith Lia.
From stdpp Require Import base tactics numbers option list gmap.
From S2P Require Import Prelude.

(** ** Sequential use

    [__sync_lock_test_and_set(&lock->lockVar, 1)] returns the old value and
    stores 1. *)
Definition test_and_set (lockVar : Z) : Z * Z := (lockVar, 1).

(** [while (__sync_lock_test_and_set(...)) pause;]: between two attempts no other
    code of this thread runs, so the loop either leaves at once or spins for ever. *)
Definition spin (fuel : nat) (lockVar : Z) : outcome Z :=
  loop fuel (fun l => let '(old, l') := test_and_set l in
                      if negb (old =? 0) then Done (inl l') else Done (inr l')) lockVar.

Definition acquireSpinlock (lockVar : Z) : outcome Z := spin 2 lockVar.

Definition releaseSpinlock (lockVar : Z) : Z := 0.

Lemma acquire_free : acquireSpinlock 0 = Done 1.
Proof. reflexivity. Qed.

(** A thread that acquires a lock it already holds never returns, however long it
    spins: this is why the fuel of [acquireSpinlock] does not matter. *)
Lemma spin_held fuel l : l <> 0 -> spin fuel l = Diverge.
Proof.
  revert l. unfold spin. induction fuel as [|fuel IH]; intros l Hl; simpl; [done|].
  destruct (Z.eqb_spec l 0); [done|]. simpl. by apply IH.
Qed.

Lemma spin_free fuel : (0 < fuel)%nat -> spin fuel 0 = Done 1.
Proof. destruct fuel; [lia|done]. Qed.

(** ** The protocol under interleaving *)
Module Spin.
Inductive pc :=
  | Outside    (** not using the lock *)
  | Spinning   (** in the loop of [acquireSpinlock] *)
  | Critical.  (** between [acquireSpinlock] and [releaseSpinlock] *)

#[export] Instance pc_eq_dec : EqDecision pc.
Proof. solve_decision. Defined.

Record state := State { lockVar : Z; pcs : gmap nat pc }.

Definition initial (s : state) : Prop :=
  lockVar s = 0 /\ map_Forall (fun _ p => p = Outside) (pcs s).

(** One atomic action of one thread. *)
Inductive step : state -> state -> Prop :=
  | step_call l ps t :
      ps !! t = Some Outside ->
      step (State l ps) (State l (<[t := Spinning]> ps))
  | step_tas_fail l ps t :
      ps !! t = Some Spinning -> fst (test_and_set l) <> 0 ->
      step (State l ps) (State (snd (test_and_set l)) ps)
  | step_tas_win l ps t :
      ps !! t = Some Spinning -> fst (test_and_set l) = 0 ->
      step (State l ps) (State (snd (test_and_set l)) (<[t := Critical]> ps))
  | step_release l ps t :
      ps !! t = Some Critical ->
      step (State l ps) (State (releaseSpinlock l) (<[t := Outside]> ps)).

Inductive reachable : state -> Prop :=
  | reach_init s : initial s -> reachable s
  | reach_step s s' : reachable s -> step s s' -> reachable s'.

(** The lock word is 0 exactly when no thread is in its critical section, and
    there is never more than one. *)
Definition inv (s : state) : Prop :=
  (lockVar s = 0 -> forall t, pcs s !! t <> Some Critical) /\
  (forall t u, pcs s !! t = Some Critical -> pcs s !! u = Some Critical -> t = u) /\
  (lockVar s <> 0 -> exists t, pcs s !! t = Some Critical).

Lemma inv_initial s : initial s -> inv s.
Proof.
  intros [Hl Hp].
  assert (forall t, pcs s !! t <> Some Critical) as H by (intros t E; by apply Hp in E).
  split_and!; [naive_solver..|lia].
Qed.

Lemma inv_step s s' : inv s -> step s s' -> inv s'.
Proof.
  intros Hinv Hstep. revert Hinv.
  destruct Hstep as [l ps t Ht|l ps t Ht Hl|l ps t Ht Hl|l ps t Ht];
    intros (H0 & H1 & H2); unfold inv; simpl in *.
  - assert (forall u, <[t := Spinning]> ps !! u = Some Critical <-> ps !! u = Some Critical) as E.
    { intros u. rewrite lookup_insert. case_decide; naive_solver. }
    split_and!.
    + intros Hl u Hu%E. by apply (H0 Hl u).
    + intros u v Hu%E Hv%E. by apply H1.
    + intros Hl. destruct (H2 Hl) as [u Hu]. exists u. by apply E.
  - split_and!; naive_solver.
  - split_and!; [done| |].
    + intros u v. rewrite !lookup_insert. repeat case_decide; naive_solver.
    + intros _. exists t. by rewrite lookup_insert_eq.
  - unfold releaseSpinlock. split_and!; simpl; [| |done].
    + intros _ u. rewrite lookup_insert. case_decide; naive_solver.
    + intros u v. rewrite !lookup_insert. repeat case_decide; naive_solver.
Qed.

Lemma reachable_inv s : reachable s -> inv s.
Proof. induction 1; eauto using inv_initial, inv_step. Qed.

(** C39 (safety): in every reachable interleaving of [acquireSpinlock] and
    [releaseSpinlock] at most one thread is inside its critical section, and
    when none is, the next attempt of any spinning thread enters. *)
Theorem mutual_exclusion s :
  reachable s ->
  (forall t u, pcs s !! t = Some Critical -> pcs s !! u = Some Critical -> t = u) /\
  ((forall t, pcs s !! t <> Some Critical) ->
   forall t, pcs s !! t = Some Spinning ->
   step s (State 1 (<[t := Critical]> (pcs s)))).
Proof.
  intros H%reachable_inv. destruct H as (H0 & H1 & H2). split; [done|].
  intros Hno t Ht. destruct s as [l ps]; simpl in *.
  destruct (decide (l = 0)) as [->|Hl]; [by apply (step_tas_win 0 ps t)|].
  destruct (H2 Hl) as [u Hu]. by destruct (Hno u).
Qed.

Definition demo_pcs : gmap nat pc := {[ 0%nat := Outside; 1%nat := Outside ]}.
Definition demo : state :=
  State 1 (<[0%nat := Critical]> (<[1%nat := Spinning]> (<[0%nat := Spinning]> demo_pcs))).

Lemma demo_reachable : reachable demo.
Proof.
  assert (reachable (State 0 demo_pcs)) as R0 by (apply reach_init; split; [done|];
    apply (bool_decide_unpack _); vm_compute; exact I).
  eapply reach_step in R0; [|by apply (step_call 0 _ 0%nat)].
  eapply reach_step in R0; [|by apply (step_call 0 _ 1%nat)].
  apply (reach_step _ _ R0). by apply (step_tas_win 0 _ 0%nat).
Qed.

Lemma mutual_exclusion_witness :
  pcs demo !! 0%nat = Some Critical /\
  (forall t u, pcs demo !! t = Some Critical -> pcs demo !! u = Some Critical -> t = u).
Proof. split; [done|]. apply (mutual_exclusion demo demo_reachable). Defined.
End Spin.
