(* ===== verification/KHeap.v ===== *)
(** * The kernel heap (kernel/src/memory/kheap.cpp, kheap.h)

    [DynamicMemoryAllocator]: segments with their headers in memory, linked in
    address order; first-fit allocation with splitting, and coalescing on
    [free].  The headers are bytes of the machine memory, at the offsets of the
    packed [HeapSegmentHeader]. *)
From Stdlib Require Import ZArith Lia.
From stdpp Require Import base tactics numbers option list gmap.
From S2P Require Import Prelude Memory KMemory Sync.

(** ** The header in memory *)

(** "HEAPHDR" *)
Definition KERNEL_HEAP_SEGMENT_HDR_SIGNATURE : list Z :=
  [0x48; 0x45; 0x41; 0x50; 0x48; 0x44; 0x52].

Definition sizeof_HeapSegmentHeader : Z := 32.
Definition MIN_HEAP_SEGMENT_CAPACITY : Z := 1.

Module Hdr.
(** Offsets of the packed struct: [magic[7]], the flags byte, [size], [next],
    [prev]. *)
Definition free_bit (m : gmap Z Z) (seg : Z) : outcome bool :=
  b ← load8 m (seg + 7); Done (bf 0 1 b =? 1).
Definition size (m : gmap Z Z) (seg : Z) : outcome Z := load64 m (seg + 8).
Definition next (m : gmap Z Z) (seg : Z) : outcome Z := load64 m (seg + 16).
Definition prev (m : gmap Z Z) (seg : Z) : outcome Z := load64 m (seg + 24).

Definition set_free (m : gmap Z Z) (seg : Z) (v : bool) : outcome (gmap Z Z) :=
  b ← load8 m (seg + 7); store8 m (seg + 7) (bf_set 0 1 b (Z.b2z v)).
Definition set_size (m : gmap Z Z) (seg v : Z) : outcome (gmap Z Z) := store64 m (seg + 8) v.
Definition set_next (m : gmap Z Z) (seg v : Z) : outcome (gmap Z Z) := store64 m (seg + 16) v.
Definition set_prev (m : gmap Z Z) (seg v : Z) : outcome (gmap Z Z) := store64 m (seg + 24) v.

(** [WRITE_SEGMENT_MAGIC_FIELD] *)
Definition write_magic (m : gmap Z Z) (seg : Z) : outcome (gmap Z Z) :=
  need (write_bytes m seg KERNEL_HEAP_SEGMENT_HDR_SIGNATURE).

(** [memcmp(segment->magic, KERNEL_HEAP_SEGMENT_HDR_SIGNATURE, 7) == 0] *)
Definition magic_ok (m : gmap Z Z) (seg : Z) : outcome bool :=
  bs ← need (read_bytes m seg 7);
  Done (cmp_ref bs KERNEL_HEAP_SEGMENT_HDR_SIGNATURE =? 0).
End Hdr.

(** ** The allocator *)

(** The members of [DynamicMemoryAllocator], the lock and the memory. *)
Record Heap := mkHeap {
  h_mem : gmap Z Z;
  h_lock : Z;                (** [__kheap_lock] *)
  m_heapSize : Z;
  m_firstSegment : Z;
}.

Definition set_mem (h : Heap) (m : gmap Z Z) : Heap :=
  mkHeap m (h_lock h) (m_heapSize h) (m_firstSegment h).
Definition set_lock (h : Heap) (l : Z) : Heap :=
  mkHeap (h_mem h) l (m_heapSize h) (m_firstSegment h).

(** [acquireSpinlock(&__kheap_lock)] and [releaseSpinlock(&__kheap_lock)] *)
Definition lock (h : Heap) : outcome Heap :=
  l ← acquireSpinlock (h_lock h); Done (set_lock h l).
Definition unlock (h : Heap) : Heap := set_lock h (releaseSpinlock (h_lock h)).

(** [init] after its call to [lockPages], which does not touch the heap. *)
Definition heap_init (h : Heap) (base size : Z) : outcome Heap :=
  m ← Hdr.write_magic (h_mem h) base;
  m ← store8 m (base + 7) 1;
  m ← Hdr.set_size m base size;
  m ← Hdr.set_next m base 0;
  m ← Hdr.set_prev m base 0;
  Done (mkHeap m (h_lock h) size base).

(** Every segment has at least a header, so a chain inside the heap has at most
    [m_heapSize / 32] of them; a longer walk is a cycle. *)
Definition chain_fuel (h : Heap) : nat := S (S (Z.to_nat (m_heapSize h / 32))).

Definition findFreeSegment (h : Heap) (minSize : Z) : outcome Z :=
  let m := h_mem h in
  loop (chain_fuel h) (fun seg =>
    if seg =? 0 then Done (inr 0)
    else
      f ← Hdr.free_bit m seg;
      sz ← Hdr.size m seg;
      if f && (minSize <=? sz) then Done (inr seg)
      else n ← Hdr.next m seg; Done (inl n)) (m_firstSegment h).

Definition splitSegment (m : gmap Z Z) (segment size : Z) : outcome (gmap Z Z * bool) :=
  ssize ← Hdr.size m segment;
  if s64 (ssize ⊟ (size ⊞ sizeof_HeapSegmentHeader)) <? MIN_HEAP_SEGMENT_CAPACITY * 2
  then Done (m, false)
  else
    let newSegment := segment ⊞ size in
    m ← Hdr.write_magic m newSegment;
    f ← Hdr.free_bit m segment;
    m ← Hdr.set_free m newSegment f;
    ssize ← Hdr.size m segment;
    m ← Hdr.set_size m newSegment (ssize ⊟ size);
    n ← Hdr.next m segment;
    m ← Hdr.set_next m newSegment n;
    m ← Hdr.set_prev m newSegment segment;
    m ← Hdr.set_size m segment size;
    m ← Hdr.set_next m segment newSegment;
    Done (m, true).

Definition mergeSegmentWithPrevious (m : gmap Z Z) (segment : Z) : outcome (gmap Z Z * bool) :=
  previousSegment ← Hdr.prev m segment;
  if previousSegment =? 0 then Done (m, false)
  else
    psize ← Hdr.size m previousSegment;
    ssize ← Hdr.size m segment;
    m ← Hdr.set_size m previousSegment (psize ⊞ ssize);
    n ← Hdr.next m segment;
    m ← Hdr.set_next m previousSegment n;
    n ← Hdr.next m previousSegment;
    if n =? 0 then Done (m, true)
    else m ← Hdr.set_prev m n previousSegment; Done (m, true).

Definition mergeSegmentWithNext (m : gmap Z Z) (segment : Z) : outcome (gmap Z Z * bool) :=
  nextSegment ← Hdr.next m segment;
  if nextSegment =? 0 then Done (m, false)
  else
    ssize ← Hdr.size m segment;
    nsize ← Hdr.size m nextSegment;
    m ← Hdr.set_size m segment (ssize ⊞ nsize);
    n ← Hdr.next m nextSegment;
    m ← Hdr.set_next m segment n;
    n ← Hdr.next m segment;
    if n =? 0 then Done (m, true)
    else m ← Hdr.set_prev m n segment; Done (m, true).

(** [allocate]; the null pointer is 0. *)
Definition allocate (h : Heap) (size : Z) : outcome (Heap * Z) :=
  h ← lock h;
  let newSegmentSize := size ⊞ sizeof_HeapSegmentHeader in
  segment ← findFreeSegment h (newSegmentSize ⊞ sizeof_HeapSegmentHeader);
  if segment =? 0 then Done (unlock h, 0)
  else
    r ← splitSegment (h_mem h) segment newSegmentSize;
    let h := set_mem h (fst r) in
    if negb (snd r) then Done (unlock h, 0)
    else
      m ← Hdr.set_free (h_mem h) segment false;
      let h := set_mem h m in
      let usableRegionStart := segment ⊞ sizeof_HeapSegmentHeader in
      Done (unlock h, usableRegionStart).

(** [p && p->flags.free] *)
Definition is_free (m : gmap Z Z) (p : Z) : outcome bool :=
  if p =? 0 then Done false else Hdr.free_bit m p.

Definition free (h : Heap) (ptr : Z) : outcome Heap :=
  h ← lock h;
  let segment := ptr ⊟ sizeof_HeapSegmentHeader in
  ok ← Hdr.magic_ok (h_mem h) segment;
  if negb ok then Done (unlock h)
  else
    m ← Hdr.set_free (h_mem h) segment true;
    (* if (segment->next && segment->next->flags.free) *)
    n ← Hdr.next m segment;
    nf ← is_free m n;
    r ← (if (nf : bool) then mergeSegmentWithNext m segment else Done (m, false));
    let m := fst r in
    (* if (segment->prev && segment->prev->flags.free) *)
    p ← Hdr.prev m segment;
    pf ← is_free m p;
    r ← (if (pf : bool) then mergeSegmentWithPrevious m segment else Done (m, false));
    Done (unlock (set_mem h (fst r))).

Definition reallocate (h : Heap) (ptr newSize : Z) : outcome (Heap * Z) :=
  if ptr =? 0 then allocate h newSize
  else
    h ← lock h;
    let segment := ptr ⊟ sizeof_HeapSegmentHeader in
    ok ← Hdr.magic_ok (h_mem h) segment;
    if negb ok then Done (unlock h, 0)
    else
      ssize ← Hdr.size (h_mem h) segment;
      if (newSize ⊞ sizeof_HeapSegmentHeader) <=? ssize then
        r ← splitSegment (h_mem h) segment (newSize ⊞ sizeof_HeapSegmentHeader);
        Done (unlock (set_mem h (fst r)), ptr)
      else
        let h := unlock h in
        r ← allocate h newSize;
        let '(h, newPtr) := r in
        if newPtr =? 0 then Done (h, 0)
        else
          ssize ← Hdr.size (h_mem h) segment;
          m ← memcpy (h_mem h) newPtr ptr (ssize ⊟ sizeof_HeapSegmentHeader);
          h ← free (set_mem h m) ptr;
          Done (h, newPtr).

(** [__detectHeapCorruption] without its log: is some header's magic wrong? *)
Definition detectHeapCorruption (h : Heap) : outcome bool :=
  loop (chain_fuel h) (fun seg =>
    if seg =? 0 then Done (inr false)
    else
      ok ← Hdr.magic_ok (h_mem h) seg;
      if negb ok then Done (inr true)
      else n ← Hdr.next (h_mem h) seg; Done (inl n)) (m_firstSegment h).

(** [kmalloc], [kfree], [krealloc] and the aligned pair of kmemory.cpp. *)
Definition kmalloc (h : Heap) (size : Z) : outcome (Heap * Z) := allocate h size.

Definition kfree (h : Heap) (ptr : Z) : outcome Heap :=
  if ptr =? 0 then Done h else free h ptr.

Definition krealloc (h : Heap) (ptr size : Z) : outcome (Heap * Z) := reallocate h ptr size.

(** [((uint64_t)original + offset) & ~(alignment - 1)] *)
Definition align_pointer (original alignment : Z) : Z :=
  Z.land (original ⊞ (alignment ⊞ 8)) (u64 (Z.lnot (alignment ⊟ 1))).

Definition kmallocAligned (h : Heap) (size alignment : Z) : outcome (Heap * Z) :=
  r ← kmalloc h ((size ⊞ alignment) ⊞ 8);
  let '(h, original) := r in
  if original =? 0 then Done (h, 0)
  else
    let aligned := align_pointer original alignment in
    m ← store64 (h_mem h) (aligned - 8) original;
    Done (set_mem h m, aligned).

Definition kfreeAligned (h : Heap) (ptr : Z) : outcome Heap :=
  if ptr =? 0 then Done h
  else
    original ← load64 (h_mem h) (ptr - 8);
    kfree h original.

(** ** The abstract heap: a list of segments that tile the heap *)
Record seg := Seg { s_size : Z; s_free : bool; s_prev : Z }.

#[export] Instance seg_eq_dec : EqDecision seg.
Proof. solve_decision. Defined.

Definition total (segs : list seg) : Z := foldr (fun s n => s_size s + n) 0 segs.

(** The header of segment [s] with next pointer [nx] stands at [a]. *)
Definition hdr_at (m : gmap Z Z) (a : Z) (s : seg) (nx : Z) : Prop :=
  mapped m a 32 /\
  read_bytes m a 7 = Some KERNEL_HEAP_SEGMENT_HDR_SIGNATURE /\
  Hdr.free_bit m a = Done (s_free s) /\ Hdr.size m a = Done (s_size s) /\
  Hdr.next m a = Done nx /\ Hdr.prev m a = Done (s_prev s).

(** The segments stand one after the other from [a]; the last one's next pointer
    is [nx]. *)
Fixpoint chain (m : gmap Z Z) (a : Z) (segs : list seg) (nx : Z) : Prop :=
  match segs with
  | [] => True
  | s :: r =>
      hdr_at m a s (match r with [] => nx | _ => a + s_size s end) /\
      chain m (a + s_size s) r nx
  end.

(** The representation: the heap [h] holds the segments [segs]. *)
Record heap_rep (h : Heap) (segs : list seg) : Prop := {
  rep_chain : chain (h_mem h) (m_firstSegment h) segs 0;
  rep_sizes : Forall (fun s => 32 <= s_size s) segs;
  rep_total : total segs = m_heapSize h;
  rep_base : 0 < m_firstSegment h;
  rep_top : m_firstSegment h + m_heapSize h < 0x10000000000000000 /\ m_heapSize h < 0x4000000000000000;
  rep_mapped : mapped (h_mem h) (m_firstSegment h) (m_heapSize h);
  rep_wf : mem_wf (h_mem h);
  rep_some : segs <> [];
}.

(** The first free segment of at least [min] bytes, with what stands before and
    after it. *)
Fixpoint pick (min : Z) (segs : list seg) : option (list seg * seg * list seg) :=
  match segs with
  | [] => None
  | s :: r =>
      if s_free s && (min <=? s_size s) then Some ([], s, r)
      else '(l1, t, l2) ← pick min r; Some (s :: l1, t, l2)
  end.

(** First fit: the chosen segment is cut in two and its first part handed out. A
    segment that fits but is too small to cut makes the request fail. *)
Definition alloc_spec (base : Z) (segs : list seg) (size : Z) : list seg * Z :=
  match pick (size + 64) segs with
  | None => (segs, 0)
  | Some (l1, s, l2) =>
      if s_size s - (size + 64) <? 2 then (segs, 0)
      else let a := base + total l1 in
           (l1 ++ Seg (size + 32) false (s_prev s)
               :: Seg (s_size s - (size + 32)) true a :: l2, a + 32)
  end.

(** ** Header accesses *)

(** [m'] differs from [m] only inside [a .. a+n-1], and has the same cells. *)
Definition only_in (m m' : gmap Z Z) (a n : Z) : Prop :=
  (forall b, ~ (a <= b < a + n) -> m' !! b = m !! b) /\
  (forall b k, mapped m b k -> mapped m' b k) /\ (mem_wf m -> mem_wf m').

Lemma only_in_refl m a n : only_in m m a n.
Proof. split_and!; auto. Qed.

Lemma only_in_put m a bs n :
  bytes_ok bs -> n = Z.of_nat (length bs) -> only_in m (put_bytes m a bs) a n.
Proof.
  intros Hbs ->. split_and!; auto with words.
  intros b Hb. by apply lookup_put_bytes_out.
Qed.

Lemma only_in_weaken m m' a n b k :
  only_in m m' a n -> b <= a -> a + n <= b + k -> only_in m m' b k.
Proof. intros (H1 & H2 & H3) ??. split_and!; auto. intros c Hc. apply H1. lia. Qed.

Lemma only_in_trans m1 m2 m3 a n :
  only_in m1 m2 a n -> only_in m2 m3 a n -> only_in m1 m3 a n.
Proof.
  intros (A1 & A2 & A3) (B1 & B2 & B3). split_and!; auto.
  intros b Hb. by rewrite B1, A1.
Qed.

Lemma load64_only m m' a n b :
  only_in m m' a n -> b + 8 <= a \/ a + n <= b -> load64 m' b = load64 m b.
Proof.
  intros (H & _) Hd. unfold load64. rewrite (read_bytes_ext m m'); [done|].
  intros c Hc. apply H. lia.
Qed.

Lemma read_only m m' a n b k :
  only_in m m' a n -> b + Z.of_nat k <= a \/ a + n <= b -> read_bytes m' b k = read_bytes m b k.
Proof. intros (H & _) Hd. apply read_bytes_ext. intros c Hc. apply H. lia. Qed.

Lemma free_only m m' a n b :
  only_in m m' a n -> b + 7 < a \/ a + n <= b + 7 -> Hdr.free_bit m' b = Hdr.free_bit m b.
Proof. intros (H & _) Hd. unfold Hdr.free_bit, load8. by rewrite H by lia. Qed.

Lemma hdr_only m m' a n b s nx :
  only_in m m' a n -> b + 32 <= a \/ a + n <= b -> hdr_at m b s nx -> hdr_at m' b s nx.
Proof.
  intros Ho Hd (H1 & H2 & H3 & H4 & H5 & H6). unfold hdr_at, Hdr.size, Hdr.next, Hdr.prev in *.
  split_and!.
  - by apply Ho.
  - rewrite (read_only _ _ _ _ _ _ Ho); [done|lia].
  - rewrite (free_only _ _ _ _ _ Ho); [done|lia].
  - rewrite (load64_only _ _ _ _ _ Ho); [done|lia].
  - rewrite (load64_only _ _ _ _ _ Ho); [done|lia].
  - rewrite (load64_only _ _ _ _ _ Ho); [done|lia].
Qed.

Lemma store64_ok m a v : mapped m a 8 -> is_u64 v ->
  exists m', store64 m a v = Done m' /\ only_in m m' a 8 /\ load64 m' a = Done v.
Proof.
  intros Hm Hv. exists (put_bytes m a (le_split 8 v)). split_and!.
  - by apply store64_mapped.
  - apply only_in_put; [apply le_split_ok|]. by rewrite length_le_split.
  - by apply load64_put_same.
Qed.

Lemma set_free_ok m a v : mapped m (a + 7) 1 ->
  exists m', Hdr.set_free m a v = Done m' /\ only_in m m' (a + 7) 1 /\ Hdr.free_bit m' a = Done v.
Proof.
  intros Hm. unfold Hdr.set_free, Hdr.free_bit, load8, store8.
  destruct (Hm (a + 7)) as [b Hb]; [lia|]. rewrite Hb. simpl.
  eexists. split; [done|].
  change (<[a + 7:=u8 (bf_set 0 1 b (Z.b2z v))]> m)
    with (put_bytes m (a + 7) [u8 (bf_set 0 1 b (Z.b2z v))]). split.
  - apply only_in_put; [|done]. repeat constructor; apply u8_range.
  - rewrite lookup_put_bytes, decide_True by (simpl; lia). rewrite Z.sub_diag. simpl.
    replace (bf 0 1 (u8 (bf_set 0 1 b (Z.b2z v)))) with (bf 0 1 (bf_set 0 1 b (Z.b2z v))).
    + rewrite bf_set_same by lia. by destruct v.
    + unfold bf, u8. change 256 with (2 ^ 8). rewrite <- !Z.land_ones by lia.
      generalize (bf_set 0 1 b (Z.b2z v)). intros x. bitwise.
Qed.

Lemma write_magic_ok m a : mapped m a 7 ->
  exists m', Hdr.write_magic m a = Done m' /\ only_in m m' a 7 /\
    read_bytes m' a 7 = Some KERNEL_HEAP_SEGMENT_HDR_SIGNATURE.
Proof.
  intros Hm. unfold Hdr.write_magic. rewrite write_bytes_mapped by done.
  eexists. split; [done|]. split; [|apply (read_put_same m a KERNEL_HEAP_SEGMENT_HDR_SIGNATURE)].
  apply only_in_put; [|done]. apply (bool_decide_unpack _). vm_compute. exact I.
Qed.

Lemma magic_ok_read m a : mapped m a 7 ->
  exists b, Hdr.magic_ok m a = Done b /\
    (b = true <-> read_bytes m a 7 = Some KERNEL_HEAP_SEGMENT_HDR_SIGNATURE).
Proof.
  intros Hm. destruct (mapped_read m a 7 Hm) as (bs & E & Hl). unfold Hdr.magic_ok.
  rewrite E. simpl. eexists. split; [done|]. rewrite Z.eqb_eq, cmp_ref_0 by done.
  split; [by intros ->|by intros [= ->]].
Qed.

(** The fields of a header after a write to one of them. *)
Ltac hdr_fields Ho :=
  unfold hdr_at, Hdr.size, Hdr.next, Hdr.prev in *; cbn [s_size s_free s_prev] in *; split_and!;
  first [ done | by apply Ho
        | rewrite (read_only _ _ _ _ _ _ Ho); [done|lia]
        | rewrite (free_only _ _ _ _ _ Ho); [done|lia]
        | rewrite (load64_only _ _ _ _ _ Ho); [done|lia] ].

Lemma hdr_set_free m a s nx v : hdr_at m a s nx ->
  exists m', Hdr.set_free m a v = Done m' /\ only_in m m' a 32 /\
    hdr_at m' a (Seg (s_size s) v (s_prev s)) nx.
Proof.
  intros H. destruct H as (Hm & H).
  destruct (set_free_ok m a v) as (m' & E & Ho & Hf); [eapply mapped_sub; [done|lia..]|].
  exists m'. split_and!; [done|eapply only_in_weaken; [done|lia..]|].
  destruct_and? H. hdr_fields Ho.
Qed.

Lemma hdr_set_size m a s nx v : hdr_at m a s nx -> is_u64 v ->
  exists m', Hdr.set_size m a v = Done m' /\ only_in m m' a 32 /\
    hdr_at m' a (Seg v (s_free s) (s_prev s)) nx.
Proof.
  intros H Hv. destruct H as (Hm & H). unfold Hdr.set_size.
  destruct (store64_ok m (a + 8) v) as (m' & E & Ho & Hf);
    [eapply mapped_sub; [done|lia..]|done|].
  exists m'. split_and!; [done|eapply only_in_weaken; [done|lia..]|].
  destruct_and? H. hdr_fields Ho.
Qed.

Lemma hdr_set_next m a s nx v : hdr_at m a s nx -> is_u64 v ->
  exists m', Hdr.set_next m a v = Done m' /\ only_in m m' a 32 /\ hdr_at m' a s v.
Proof.
  intros H Hv. destruct H as (Hm & H). unfold Hdr.set_next.
  destruct (store64_ok m (a + 16) v) as (m' & E & Ho & Hf);
    [eapply mapped_sub; [done|lia..]|done|].
  exists m'. split_and!; [done|eapply only_in_weaken; [done|lia..]|].
  destruct_and? H. hdr_fields Ho.
Qed.

Lemma hdr_set_prev m a s nx v : hdr_at m a s nx -> is_u64 v ->
  exists m', Hdr.set_prev m a v = Done m' /\ only_in m m' a 32 /\
    hdr_at m' a (Seg (s_size s) (s_free s) v) nx.
Proof.
  intros H Hv. destruct H as (Hm & H). unfold Hdr.set_prev.
  destruct (store64_ok m (a + 24) v) as (m' & E & Ho & Hf);
    [eapply mapped_sub; [done|lia..]|done|].
  exists m'. split_and!; [done|eapply only_in_weaken; [done|lia..]|].
  destruct_and? H. hdr_fields Ho.
Qed.

(** ** Chains *)
Lemma total_app l1 l2 : total (l1 ++ l2) = total l1 + total l2.
Proof. induction l1 as [|s l1 IH]; simpl; lia. Qed.

Lemma total_nonneg l : Forall (fun s => 32 <= s_size s) l -> 0 <= total l.
Proof. induction 1; simpl; lia. Qed.

Lemma chain_only m m' a n b segs nx :
  Forall (fun s => 32 <= s_size s) segs -> only_in m m' a n ->
  b + total segs <= a \/ a + n <= b -> chain m b segs nx -> chain m' b segs nx.
Proof.
  intros Hs Ho. revert b. induction Hs as [|s r H1 Hr IH]; intros b Hd; simpl in *; [done|].
  pose proof (total_nonneg _ Hr). intros [Hh Hc]. split.
  - apply (hdr_only _ _ _ _ _ _ _ Ho); [lia|done].
  - apply IH; [lia|done].
Qed.

Lemma chain_app m a l1 l2 nx : l2 <> [] ->
  chain m a (l1 ++ l2) nx <-> chain m a l1 (a + total l1) /\ chain m (a + total l1) l2 nx.
Proof.
  intros Hne. revert a. induction l1 as [|s l1 IH]; intros a; simpl.
  - rewrite Z.add_0_r. naive_solver.
  - rewrite IH, Z.add_assoc. destruct l1 as [|t l1]; simpl.
    + destruct l2; [done|]. rewrite Z.add_0_r. naive_solver.
    + naive_solver.
Qed.

Lemma chain_snoc m a l s nx :
  chain m a (l ++ [s]) nx <-> chain m a l (a + total l) /\ hdr_at m (a + total l) s nx.
Proof. rewrite chain_app by done. simpl. naive_solver. Qed.

(** The three parts of a heap around one segment. *)
Lemma chain_focus m a l1 s l2 nx :
  chain m a (l1 ++ s :: l2) nx <->
  chain m a l1 (a + total l1) /\
  hdr_at m (a + total l1) s (match l2 with [] => nx | _ => a + total l1 + s_size s end) /\
  chain m (a + total l1 + s_size s) l2 nx.
Proof. rewrite chain_app by done. done. Qed.

(** The loop of [_findFreeSegment] is [pick]. *)
Definition find_result (base : Z) (r : option (list seg * seg * list seg)) : Z :=
  match r with None => 0 | Some (l1, _, _) => base + total l1 end.

Lemma findFreeSegment_pick m min segs a fuel :
  Forall (fun s => 32 <= s_size s) segs -> 0 < a -> chain m a segs 0 ->
  (length segs < fuel)%nat ->
  loop fuel (fun seg =>
    if seg =? 0 then Done (inr 0)
    else
      f ← Hdr.free_bit m seg;
      sz ← Hdr.size m seg;
      if f && (min <=? sz) then Done (inr seg)
      else n ← Hdr.next m seg; Done (inl n)) (match segs with [] => 0 | _ => a end)
  = Done (find_result a (pick min segs)).
Proof.
  intros Hs. revert a fuel. induction Hs as [|s r H1 Hr IH]; intros a fuel Ha Hc Hf.
  - destruct fuel; [simpl in Hf; lia|]. done.
  - destruct fuel as [|fuel]; [simpl in Hf; lia|]. cbn [loop].
    destruct (Z.eqb_spec a 0); [lia|]. destruct Hc as [(_ & _ & -> & -> & -> & _) Hc].
    simpl. destruct (s_free s && (min <=? s_size s)).
    + simpl. by rewrite Z.add_0_r.
    + simpl in Hf. specialize (IH (a + s_size s) fuel ltac:(lia) Hc ltac:(lia)).
      destruct r as [|t r].
      * simpl in *. by rewrite IH.
      * rewrite IH. destruct (pick min (t :: r)) as [[[l1 u] l2]|]; simpl; [|done].
        f_equal. lia.
Qed.

Lemma pick_spec min segs l1 s l2 :
  pick min segs = Some (l1, s, l2) ->
  segs = l1 ++ s :: l2 /\ s_free s = true /\ min <= s_size s.
Proof.
  revert l1. induction segs as [|t segs IH]; intros l1; simpl; [done|].
  destruct (s_free t && (min <=? s_size t)) eqn:E.
  - intros [= <- <- <-]. apply andb_true_iff in E. destruct E. split_and!; [done|done|lia].
  - destruct (pick min segs) as [[[l1' u] l2']|]; simpl; [|done].
    intros [= <- <- <-]. destruct (IH l1' eq_refl) as (-> & ? & ?). done.
Qed.

(** ** Splitting *)

(** [m'] differs from [m] only inside the segment being split, whose header and
    the new one are as [_splitSegment] says. *)
Lemma splitSegment_refuses m a s nx n :
  hdr_at m a s nx -> is_u64 (s_size s) -> 32 <= n -> n < 0x7000000000000000 ->
  s_size s - (n + 32) < 2 -> s_size s < 0x4000000000000000 ->
  splitSegment m a n = Done (m, false).
Proof.
  intros (_ & _ & _ & Hs & _) Hu Hn Hn' Hlt Htop. unfold splitSegment. rewrite Hs.
  cbn [mbind outcome_bind]. unfold sizeof_HeapSegmentHeader, MIN_HEAP_SEGMENT_CAPACITY.
  rewrite u64_sub_r, s64_u64 by (unfold is_u64 in Hu; lia).
  destruct (Z.ltb_spec (s_size s - (n + 32)) (1 * 2)); [done|lia].
Qed.

(** The next write of [_splitSegment]: the new header's field [W] becomes known, the
    old header and the mapped range stay. *)
Ltac hdr_read :=
  repeat match goal with
  | H : ?f ?m ?a = Done _ |- context [?f ?m ?a] => rewrite H; cbn [mbind outcome_bind]
  end.
Ltac split_step L :=
  let m' := fresh "m" in let E := fresh "E" in let O := fresh "O" in let W := fresh "W" in
  destruct L as (m' & E & O & W);
  [ first [eapply mapped_sub; [eassumption|lia..] | wordlia | assumption] .. | ];
  rewrite E; cbn [mbind outcome_bind]; clear E;
  match goal with
  | Hm : mapped _ _ 32, H : hdr_at _ _ _ _ |- _ =>
      apply O in Hm; apply (hdr_only _ _ _ _ _ _ _ O) in H; [|lia];
      pose proof H as (_ & _ & ? & ? & ? & _)
  end; hdr_read.

Lemma splitSegment_splits m a s nx n :
  hdr_at m a s nx -> mapped m a (s_size s) -> is_u64 nx -> 0 < a ->
  a + s_size s < 0x10000000000000000 /\ s_size s < 0x4000000000000000 -> 32 <= n -> n + 34 <= s_size s ->
  exists m', splitSegment m a n = Done (m', true) /\ only_in m m' a (s_size s) /\
    (forall b, ~ (a <= b < a + 32) -> ~ (a + n <= b < a + n + 32) -> m' !! b = m !! b) /\
    hdr_at m' a (Seg n (s_free s) (s_prev s)) (a + n) /\
    hdr_at m' (a + n) (Seg (s_size s - n) (s_free s) a) nx.
Proof.
  intros H Hm Hnx Ha Htop Hn Hfit. pose proof H as (_ & _ & Hf & Hs & _).
  unfold splitSegment. rewrite Hs. cbn [mbind outcome_bind].
  unfold sizeof_HeapSegmentHeader, MIN_HEAP_SEGMENT_CAPACITY.
  rewrite u64_sub_r, s64_u64 by lia.
  destruct (Z.ltb_spec (s_size s - (n + 32)) (1 * 2)) as [|_]; [lia|].
  replace (a ⊞ n) with (a + n) by wordlia.
  replace (s_size s ⊟ n) with (s_size s - n) by wordlia.
  assert (mapped m (a + n) 32) as Hmn by (eapply mapped_sub; [done|lia..]).
  clear Hf Hs.
  split_step (write_magic_ok m (a + n)).
  split_step (set_free_ok m0 (a + n) (s_free s)).
  replace (s_size s ⊟ n) with (s_size s - n) by wordlia.
  unfold Hdr.set_size, Hdr.set_next, Hdr.set_prev. split_step (store64_ok m1 (a + n + 8) (s_size s - n)).
  split_step (store64_ok m2 (a + n + 16) nx).
  split_step (store64_ok m3 (a + n + 24) a).
  assert (hdr_at m4 (a + n) (Seg (s_size s - n) (s_free s) a) nx) as Hnew.
  { unfold hdr_at, Hdr.size, Hdr.next, Hdr.prev; cbn [s_size s_free s_prev].
    rewrite (read_only _ _ _ _ _ _ O3), (read_only _ _ _ _ _ _ O2), (read_only _ _ _ _ _ _ O1),
      (read_only _ _ _ _ _ _ O0) by lia.
    rewrite (free_only _ _ _ _ _ O3), (free_only _ _ _ _ _ O2), (free_only _ _ _ _ _ O1) by lia.
    rewrite !(load64_only m3 m4 _ _ _ O3), (load64_only m2 m3 _ _ _ O2) by lia. done. }
  assert (only_in m m4 (a + n) 32) as Hout.
  { repeat (eapply only_in_trans; [eapply only_in_weaken; [eassumption|lia..]|]).
    apply only_in_refl. }
  fold (Hdr.set_size m4 a n). destruct (hdr_set_size m4 a s nx n) as (m5 & -> & O5 & Hs5); [done|wordlia|].
  destruct (hdr_set_next m5 a (Seg n (s_free s) (s_prev s)) nx (a + n)) as (m6 & E6 & O6 & Hs6);
    [done|wordlia|].
  cbn [mbind outcome_bind]. fold (Hdr.set_next m5 a (a + n)). rewrite E6. exists m6. split; [done|]. split_and!; [| |done|].
  - eapply only_in_trans; [eapply only_in_weaken; [exact Hout|lia..]|].
    eapply only_in_trans; (eapply only_in_weaken; [eassumption|lia..]).
  - intros b Hb1 Hb2. rewrite (proj1 O6), (proj1 O5) by done. by apply Hout.
  - apply (hdr_only _ _ _ _ _ _ _ O6); [lia|]. apply (hdr_only _ _ _ _ _ _ _ O5); [lia|done].
Qed.

(** ** Allocation *)
Lemma length_total segs :
  Forall (fun s => 32 <= s_size s) segs -> 32 * Z.of_nat (length segs) <= total segs.
Proof. induction 1; simpl length; simpl total; lia. Qed.

Lemma rep_fuel h segs : heap_rep h segs -> (length segs < chain_fuel h)%nat.
Proof.
  intros H. pose proof (length_total _ (rep_sizes _ _ H)). pose proof (rep_total _ _ H).
  unfold chain_fuel. wordlia.
Qed.

Lemma rep_find h segs min : heap_rep h segs ->
  findFreeSegment h min = Done (find_result (m_firstSegment h) (pick min segs)).
Proof.
  intros H. unfold findFreeSegment.
  rewrite <- (findFreeSegment_pick (h_mem h) min segs (m_firstSegment h) (chain_fuel h)).
  - by destruct segs; [destruct (rep_some _ _ H)|].
  - apply H.
  - apply H.
  - apply H.
  - by apply rep_fuel.
Qed.

(** What the representation says of one of its segments. *)
Lemma rep_focus h l1 s l2 : heap_rep h (l1 ++ s :: l2) ->
  let a := m_firstSegment h + total l1 in
  m_firstSegment h <= a /\ 32 <= s_size s /\ 0 <= total l2 /\
  a + s_size s + total l2 = m_firstSegment h + m_heapSize h /\
  mapped (h_mem h) a (s_size s).
Proof.
  intros H a. pose proof (rep_total _ _ H) as Ht. rewrite total_app in Ht. simpl in Ht.
  destruct (proj1 (Forall_app _ _ _) (rep_sizes _ _ H)) as [F1 F2]. inversion_clear F2 as [|?? F3 F4].
  pose proof (total_nonneg _ F1). pose proof (total_nonneg _ F4). unfold a.
  split_and!; [lia..|]. eapply mapped_sub; [apply H|lia..].
Qed.

(** A heap whose segment [s] is replaced by segments of the same total size, when
    only that part of the memory changed. *)
Lemma rep_replace h l1 s l2 new m' :
  heap_rep h (l1 ++ s :: l2) -> new <> [] ->
  only_in (h_mem h) m' (m_firstSegment h + total l1) (s_size s) ->
  total new = s_size s -> Forall (fun s => 32 <= s_size s) new ->
  chain m' (m_firstSegment h + total l1) new
    (match l2 with [] => 0 | _ => m_firstSegment h + total l1 + s_size s end) ->
  heap_rep (set_mem h m') (l1 ++ new ++ l2).
Proof.
  intros H Hne Ho Ht Hf Hc. destruct (rep_focus _ _ _ _ H) as (? & ? & ? & ? & ?).
  pose proof (rep_total _ _ H) as Ht'. rewrite total_app in Ht'. simpl in Ht'.
  destruct (proj1 (Forall_app _ _ _) (rep_sizes _ _ H)) as [F1 F2]. inversion_clear F2 as [|?? F3 F4].
  pose proof (rep_chain _ _ H) as C. apply chain_focus in C. destruct C as (C1 & _ & C2).
  apply (chain_only _ _ _ _ _ _ _ F1 Ho) in C1; [|lia].
  apply (chain_only _ _ _ _ _ _ _ F4 Ho) in C2; [|lia].
  constructor; simpl; try apply H.
  - apply chain_app; [by destruct new|]. split; [done|].
    destruct l2 as [|t l2]; [by rewrite app_nil_r|].
    apply chain_app; [done|]. rewrite Ht. done.
  - rewrite !Forall_app. done.
  - rewrite !total_app. lia.
  - apply Ho, H.
  - apply Ho, H.
  - by destruct l1, new.
Qed.

Lemma lock_free h : h_lock h = 0 -> lock h = Done (set_lock h 1).
Proof. unfold lock. by intros ->. Qed.

Lemma unlock_locked h : h_lock h = 0 -> unlock (set_lock h 1) = h.
Proof. destruct h; simpl; by intros ->. Qed.

Lemma rep_lock h segs l : heap_rep h segs -> heap_rep (set_lock h l) segs.
Proof. intros []. by constructor. Qed.

(** A request that first fit cannot serve leaves the heap as it was. *)
Lemma allocate_fails h segs size :
  heap_rep h segs -> h_lock h = 0 -> 0 <= size < 0x4000000000000000 ->
  snd (alloc_spec (m_firstSegment h) segs size) = 0 -> allocate h size = Done (h, 0).
Proof.
  intros H Hl Hs. unfold alloc_spec, allocate. rewrite lock_free by done.
  cbn [mbind outcome_bind]. unfold sizeof_HeapSegmentHeader.
  replace (size ⊞ 32) with (size + 32) by wordlia.
  replace (size + 32 ⊞ 32) with (size + 64) by wordlia.
  rewrite (rep_find _ segs) by (by apply rep_lock). cbn [mbind outcome_bind].
  pose proof (rep_base _ _ H). pose proof (rep_top _ _ H).
  destruct (pick (size + 64) segs) as [[[l1 s] l2]|] eqn:E; simpl find_result.
  2:{ intros _. by rewrite unlock_locked. }
  apply pick_spec in E. destruct E as (-> & Hf & Hge).
  destruct (rep_focus _ _ _ _ H) as (? & ? & ? & ? & ?).
  destruct (Z.ltb_spec (s_size s - (size + 64)) 2); simpl; [|lia].
  intros _. destruct (Z.eqb_spec (m_firstSegment h + total l1) 0); [lia|].
  pose proof (rep_chain _ _ H) as C. apply chain_focus in C. destruct C as (_ & Hh & _).
  rewrite (splitSegment_refuses _ _ _ _ _ Hh) by (unfold is_u64; lia). simpl.
  f_equal. f_equal. destruct h; simpl in *. by rewrite Hl.
Qed.

Lemma allocate_serves h segs size l1 s l2 :
  heap_rep h segs -> h_lock h = 0 -> 0 <= size < 0x4000000000000000 ->
  pick (size + 64) segs = Some (l1, s, l2) -> 2 <= s_size s - (size + 64) ->
  let a := m_firstSegment h + total l1 in
  exists m', allocate h size = Done (set_mem h m', a + 32) /\
    only_in (h_mem h) m' a (s_size s) /\
    heap_rep (set_mem h m') (l1 ++ Seg (size + 32) false (s_prev s)
                                :: Seg (s_size s - (size + 32)) true a :: l2).
Proof.
  intros H Hl Hs E Hbig a. assert (a = m_firstSegment h + total l1) as Ea by done. clearbody a. unfold allocate. rewrite lock_free by done.
  cbn [mbind outcome_bind]. unfold sizeof_HeapSegmentHeader.
  replace (size ⊞ 32) with (size + 32) by wordlia.
  replace (size + 32 ⊞ 32) with (size + 64) by wordlia.
  rewrite (rep_find _ segs) by (by apply rep_lock). cbn [mbind outcome_bind].
  rewrite E. simpl find_result. rewrite <- Ea.
  apply pick_spec in E. destruct E as (-> & Hf & Hge).
  destruct (rep_focus _ _ _ _ H) as (? & ? & ? & ? & Hm). rewrite <- Ea in *.
  pose proof (rep_base _ _ H). pose proof (rep_top _ _ H).
  destruct (Z.eqb_spec a 0); [lia|].
  pose proof (rep_chain _ _ H) as C. apply chain_focus in C. destruct C as (_ & Hh & _).
  rewrite <- Ea in Hh.
  destruct (splitSegment_splits _ _ _ _ (size + 32) Hh) as (m1 & E1 & O1 & _ & A1 & B1);
    [done|destruct l2; wordlia|lia..|].
  cbn [h_mem set_lock] in *. rewrite E1. cbn [mbind outcome_bind fst snd negb set_mem h_mem].
  destruct (hdr_set_free _ _ _ _ false A1) as (m2 & -> & O2 & A2). cbn [mbind outcome_bind].
  exists m2. split; [|split].
  - f_equal. f_equal; [destruct h; simpl in *; by rewrite Hl|wordlia].
  - eapply only_in_trans; [done|]. eapply only_in_weaken; [done|lia..].
  - apply (rep_replace h l1 s l2
      [Seg (size + 32) false (s_prev s); Seg (s_size s - (size + 32)) true a]); rewrite <- ?Ea; [done|done|..].
    + eapply only_in_trans; [done|]. eapply only_in_weaken; [done|lia..].
    + simpl. lia.
    + repeat constructor; simpl; lia.
    + simpl. rewrite <- ?Ea. split_and!; [done| |done].
      rewrite Hf in B1. apply (hdr_only _ _ _ _ _ _ _ O2); [lia|done].
Qed.

(** ** Merging *)

(** The common body of the two merges: the segment at [a] takes over the one at
    [n], and the segment after that points back to [a]. *)
Definition absorb (m : gmap Z Z) (a n : Z) : outcome (gmap Z Z * bool) :=
  asize ← Hdr.size m a;
  nsize ← Hdr.size m n;
  m ← Hdr.set_size m a (asize ⊞ nsize);
  nn ← Hdr.next m n;
  m ← Hdr.set_next m a nn;
  nn ← Hdr.next m a;
  if nn =? 0 then Done (m, true)
  else m ← Hdr.set_prev m nn a; Done (m, true).

Lemma mergeSegmentWithNext_absorb m a n : Hdr.next m a = Done n -> n <> 0 ->
  mergeSegmentWithNext m a = absorb m a n.
Proof. intros H Hn. unfold mergeSegmentWithNext. rewrite H. simpl. by destruct (Z.eqb_spec n 0). Qed.

Lemma mergeSegmentWithPrevious_absorb m a p : Hdr.prev m a = Done p -> p <> 0 ->
  mergeSegmentWithPrevious m a = absorb m p a.
Proof. intros H Hn. unfold mergeSegmentWithPrevious. rewrite H. simpl. by destruct (Z.eqb_spec p 0). Qed.

(** The first segment of the list points back to [a]. *)
Definition repoint (a : Z) (l : list seg) : list seg :=
  match l with [] => [] | t :: r => Seg (s_size t) (s_free t) a :: r end.

Lemma total_repoint a l : total (repoint a l) = total l.
Proof. by destruct l. Qed.
Lemma repoint_sizes a l :
  Forall (fun s => 32 <= s_size s) l -> Forall (fun s => 32 <= s_size s) (repoint a l).
Proof. destruct 1; constructor; done. Qed.

(** [b] is a byte of one of the headers. *)
Fixpoint in_header (a : Z) (segs : list seg) (b : Z) : Prop :=
  match segs with
  | [] => False
  | s :: r => a <= b < a + 32 \/ in_header (a + s_size s) r b
  end.

(** Only header bytes differ: what the callers stored in their blocks is kept. *)
Definition payload_kept (a : Z) (segs : list seg) (m m' : gmap Z Z) : Prop :=
  forall b, ~ in_header a segs b -> m' !! b = m !! b.

Lemma in_header_app a l1 l2 b :
  in_header a (l1 ++ l2) b <-> in_header a l1 b \/ in_header (a + total l1) l2 b.
Proof.
  revert a. induction l1 as [|s l1 IH]; intros a; simpl.
  - rewrite Z.add_0_r. naive_solver.
  - rewrite IH, Z.add_assoc. naive_solver.
Qed.

Lemma in_header_repoint a p l b : in_header a (repoint p l) b <-> in_header a l b.
Proof. by destruct l. Qed.

(** The steps of [absorb] on memory. *)
Lemma absorb_ok m a s n nx l nx' :
  hdr_at m a s (a + s_size s) -> hdr_at m (a + s_size s) n nx ->
  nx = (match l with [] => nx' | _ => a + s_size s + s_size n end) ->
  (l = [] -> nx' = 0) ->
  chain m (a + s_size s + s_size n) l nx' ->
  Forall (fun s => 32 <= s_size s) (s :: n :: l) -> 0 < a ->
  a + s_size s + s_size n + total l < 0x10000000000000000 /\ s_size s + s_size n + total l < 0x4000000000000000 ->
  let s' := Seg (s_size s + s_size n) (s_free s) (s_prev s) in
  exists m', absorb m a (a + s_size s) = Done (m', true) /\
    (forall b, ~ in_header a (s :: n :: l) b -> m' !! b = m !! b) /\
    only_in m m' a (s_size s + s_size n + total l) /\
    hdr_at m' a s' nx /\ chain m' (a + s_size s + s_size n) (repoint a l) nx'.
Proof.
  intros Ha Hn Hnx Hnil Hc Hs Hpos Htop s'.
  inversion_clear Hs as [|?? F1 Hs']. inversion_clear Hs' as [|?? F2 F3].
  pose proof (total_nonneg _ F3).
  pose proof Ha as (_ & _ & _ & Sa & _). pose proof Hn as (_ & _ & _ & Sn & _).
  unfold absorb. rewrite Sa. cbn [mbind outcome_bind]. rewrite Sn. cbn [mbind outcome_bind].
  replace (s_size s ⊞ s_size n) with (s_size s + s_size n) by wordlia.
  destruct (hdr_set_size _ _ _ _ (s_size s + s_size n) Ha) as (m1 & -> & O1 & A1); [wordlia|].
  cbn [mbind outcome_bind].
  apply (hdr_only _ _ _ _ _ _ _ O1) in Hn; [|lia]. destruct Hn as (_ & _ & _ & _ & Nn & _).
  rewrite Nn. cbn [mbind outcome_bind].
  destruct (hdr_set_next _ _ _ _ nx A1) as (m2 & -> & O2 & A2);
    [subst nx; destruct l; [rewrite Hnil by done|]; wordlia|].
  cbn [mbind outcome_bind]. pose proof A2 as (_ & _ & _ & _ & Na & _). rewrite Na.
  cbn [mbind outcome_bind].
  assert (only_in m m2 a 32) as O12 by (by eapply only_in_trans).
  apply (chain_only _ _ _ _ _ _ _ F3 O12) in Hc; [|lia].
  destruct l as [|t l].
  - subst nx. rewrite Hnil by done. simpl. eexists; split; [done|]. split_and!.
    + intros b Hb. apply O12. lia.
    + eapply only_in_weaken; [done|lia..].
    + rewrite Hnil in A2 by done. done.
    + done.
  - subst nx. simpl in Hc. destruct Hc as [Ht Hc]. inversion_clear F3 as [|?? F4 F5].
    destruct (Z.eqb_spec (a + s_size s + s_size n) 0); [lia|].
    destruct (hdr_set_prev _ _ _ _ a Ht) as (m3 & -> & O3 & A3); [wordlia|].
    cbn [mbind outcome_bind]. eexists; split; [done|].
    pose proof (total_nonneg _ F5). split_and!.
    + intros b Hb. simpl in Hb. assert (m3 !! b = m2 !! b) as -> by (apply O3; lia).
      apply O12. lia.
    + simpl. eapply only_in_trans; (eapply only_in_weaken; [done|lia..]).
    + apply (hdr_only _ _ _ _ _ _ _ O3); [lia|done].
    + simpl. split; [done|]. apply (chain_only _ _ _ _ _ _ _ F5 O3); [lia|done].
Qed.

(** [absorb] on the abstract heap. *)
Lemma absorb_rep h l1 s n l :
  heap_rep h (l1 ++ s :: n :: l) ->
  let a := m_firstSegment h + total l1 in
  exists m', absorb (h_mem h) a (a + s_size s) = Done (m', true) /\
    payload_kept (m_firstSegment h) (l1 ++ s :: n :: l) (h_mem h) m' /\
    heap_rep (set_mem h m')
      (l1 ++ Seg (s_size s + s_size n) (s_free s) (s_prev s) :: repoint a l).
Proof.
  intros H a. pose proof (rep_chain _ _ H) as C. apply chain_focus in C.
  destruct (rep_focus _ _ _ _ H) as (P1 & P2 & P3 & P4 & P5).
  pose proof (rep_base _ _ H). pose proof (rep_top _ _ H). pose proof (rep_total _ _ H) as T.
  rewrite total_app in T. pose proof (rep_sizes _ _ H) as F.
  apply Forall_app in F. destruct F as [F1 F2].
  assert (a = m_firstSegment h + total l1) as Ea by done. clearbody a. rewrite <- Ea in *.
  destruct C as (C1 & Ca & Cn). simpl in Cn, P3, P4, T. destruct Cn as [Cn Cl].
  destruct (absorb_ok _ _ _ _ _ l 0 Ca Cn) as (m' & E & K & O & A & B);
    [done|done|done|done|lia|lia|].
  exists m'. split; [done|]. split.
  - intros b Hb. apply K. intros Hb'. apply Hb. apply in_header_app. right. by rewrite <- Ea.
  - pose proof (Forall_inv F2) as G1. pose proof (Forall_inv (Forall_inv_tail F2)) as G2.
    pose proof (Forall_inv_tail (Forall_inv_tail F2)) as G3. pose proof (total_nonneg _ G3).
    simpl in G1, G2. constructor; simpl; try apply H.
    + apply chain_focus. rewrite <- Ea. simpl. split_and!.
      * apply (chain_only _ _ _ _ _ _ _ F1 O); [lia|done].
      * destruct l; [done|]. by rewrite Z.add_assoc.
      * by rewrite Z.add_assoc.
    + apply Forall_app; split; [done|]. constructor; [simpl; lia|]. by apply repoint_sizes.
    + rewrite total_app. simpl. rewrite total_repoint. lia.
    + apply O, H.
    + apply O, H.
    + by destruct l1.
Qed.

(** ** Freeing *)

(** The segment at [a] takes over its successor when that one is free. *)
Definition merge_next (a : Z) (s : seg) (l2 : list seg) : seg * list seg :=
  match l2 with
  | n :: l3 =>
      if s_free n then (Seg (s_size s + s_size n) (s_free s) (s_prev s), repoint a l3)
      else (s, l2)
  | [] => (s, l2)
  end.

(** ... and is taken over by its predecessor when that one is free. *)
Definition merge_prev (base : Z) (l1 : list seg) (s : seg) (l2 : list seg) : list seg :=
  match last l1 with
  | Some p =>
      if s_free p then
        let l0 := removelast l1 in
        l0 ++ Seg (s_size p + s_size s) (s_free p) (s_prev p) :: repoint (base + total l0) l2
      else l1 ++ s :: l2
  | None => l1 ++ s :: l2
  end.

Definition free_spec (base : Z) (l1 : list seg) (s : seg) (l2 : list seg) : list seg :=
  let '(s', l2') := merge_next (base + total l1) (Seg (s_size s) true (s_prev s)) l2 in
  merge_prev base l1 s' l2'.

(** The address of the last segment of [l1], 0 when there is none: what the [prev]
    field of the next segment should hold. *)
Definition last_addr (base : Z) (l1 : list seg) : Z :=
  match last l1 with Some _ => base + total (removelast l1) | None => 0 end.

Lemma in_header_absorb a l1 s n l p b :
  in_header a (l1 ++ Seg (s_size s + s_size n) (s_free s) (s_prev s) :: repoint p l) b ->
  in_header a (l1 ++ s :: n :: l) b.
Proof.
  rewrite !in_header_app. simpl. rewrite in_header_repoint.
  replace (a + total l1 + (s_size s + s_size n)) with (a + total l1 + s_size s + s_size n) by lia.
  naive_solver.
Qed.

Lemma payload_kept_in_hdr h l1 s l2 m' :
  only_in (h_mem h) m' (m_firstSegment h + total l1) 32 ->
  payload_kept (m_firstSegment h) (l1 ++ s :: l2) (h_mem h) m'.
Proof.
  intros Ho b Hb. apply Ho. intros Hin. apply Hb, in_header_app. right. simpl. auto.
Qed.

(** [if (segment->next && segment->next->flags.free) _mergeSegmentWithNext(segment)] *)
Lemma merge_next_rep h l1 s l2 :
  heap_rep h (l1 ++ s :: l2) ->
  let a := m_firstSegment h + total l1 in
  exists nx nf r, Hdr.next (h_mem h) a = Done nx /\ is_free (h_mem h) nx = Done nf /\
    (if nf : bool then mergeSegmentWithNext (h_mem h) a else Done (h_mem h, false)) = Done r /\
    payload_kept (m_firstSegment h) (l1 ++ s :: l2) (h_mem h) (fst r) /\
    heap_rep (set_mem h (fst r)) (l1 ++ fst (merge_next a s l2) :: snd (merge_next a s l2)).
Proof.
  intros H a. pose proof (rep_chain _ _ H) as C. apply chain_focus in C. fold a in C.
  destruct (rep_focus _ _ _ _ H) as (P1 & P2 & P3 & P4 & P5). fold a in P1, P4, P5.
  pose proof (rep_base _ _ H).
  destruct C as (_ & Ca & Cl). pose proof Ca as (_ & _ & _ & _ & Na & _).
  unfold is_free.
  assert (set_mem h (h_mem h) = h) as Eh by (by destruct h).
  destruct l2 as [|n l3]; simpl.
  - eexists _, _, _. split; [exact Na|]. split_and!; [done|done|done|]. simpl. by rewrite Eh.
  - destruct Cl as [(_ & _ & Fn & _) _]. exists (a + s_size s), (s_free n).
    destruct (Z.eqb_spec (a + s_size s) 0); [lia|]. destruct (s_free n).
    + destruct (absorb_rep _ _ _ _ _ H) as (m' & E & K & R). fold a in E, R.
      rewrite (mergeSegmentWithNext_absorb _ _ _ Na) by done. by exists (m', true).
    + exists (h_mem h, false). split_and!; [done..|]. simpl. by rewrite Eh.
Qed.

(** [if (segment->prev && segment->prev->flags.free) _mergeSegmentWithPrevious(segment)] *)
Lemma merge_prev_rep h l1 s l2 :
  heap_rep h (l1 ++ s :: l2) -> s_prev s = last_addr (m_firstSegment h) l1 ->
  let a := m_firstSegment h + total l1 in
  exists nf r, Hdr.prev (h_mem h) a = Done (s_prev s) /\ is_free (h_mem h) (s_prev s) = Done nf /\
    (if nf : bool then mergeSegmentWithPrevious (h_mem h) a else Done (h_mem h, false)) = Done r /\
    payload_kept (m_firstSegment h) (l1 ++ s :: l2) (h_mem h) (fst r) /\
    heap_rep (set_mem h (fst r)) (merge_prev (m_firstSegment h) l1 s l2).
Proof.
  intros H Hp a. pose proof (rep_chain _ _ H) as C. apply chain_focus in C. fold a in C.
  destruct C as (Cl & Ca & _). pose proof Ca as (_ & _ & _ & _ & _ & Pa).
  pose proof (rep_base _ _ H). assert (set_mem h (h_mem h) = h) as Eh by (by destruct h).
  unfold is_free, merge_prev, last_addr in *.
  destruct l1 as [|p l0 _] using rev_ind.
  - eexists _, _. split; [exact Pa|]. simpl in Hp. rewrite Hp. simpl. split_and!; [done|done|done|]. simpl. by rewrite Eh.
  - rewrite last_snoc in *. rewrite removelast_last in *.
    set (q := m_firstSegment h + total l0) in *.
    assert (a = q + s_size p) as Eq by (unfold a, q; rewrite total_app; simpl; lia).
    destruct (rep_focus h l0 p (s :: l2)) as (P1 & P2 & _); [by rewrite <- app_assoc in H|].
    fold q in P1. rewrite Hp. destruct (Z.eqb_spec q 0); [lia|].
    apply chain_snoc in Cl. fold q in Cl. destruct Cl as [_ (_ & _ & Fq & _)].
    exists (s_free p). destruct (s_free p) eqn:Ef.
    + rewrite (mergeSegmentWithPrevious_absorb _ _ q) by (rewrite ?Pa; congruence).
      rewrite <- app_assoc in H |- *. simpl in H.
      destruct (absorb_rep _ _ _ _ _ H) as (m' & E & K & R). fold q in E, R.
      rewrite Ef in R. rewrite <- Eq in E. exists (m', true). rewrite <- Hp at 1. done.
    + exists (h_mem h, false). rewrite <- Hp at 1. split_and!; [done..|]. simpl. by rewrite Eh.
Qed.

Lemma merge_next_prev a s l : s_prev (fst (merge_next a s l)) = s_prev s.
Proof. unfold merge_next. destruct l as [|n l]; [done|]. by destruct (s_free n). Qed.

Lemma in_header_merge_next a l1 s l2 b :
  in_header a (l1 ++ fst (merge_next (a + total l1) s l2) :: snd (merge_next (a + total l1) s l2)) b ->
  in_header a (l1 ++ s :: l2) b.
Proof.
  unfold merge_next. destruct l2 as [|n l]; [done|]. destruct (s_free n); [|done]. simpl.
  apply in_header_absorb.
Qed.

Lemma free_refines h l1 s l2 :
  heap_rep h (l1 ++ s :: l2) -> h_lock h = 0 -> s_prev s = last_addr (m_firstSegment h) l1 ->
  exists m', free h (m_firstSegment h + total l1 + 32) = Done (set_mem h m') /\
    payload_kept (m_firstSegment h) (l1 ++ s :: l2) (h_mem h) m' /\
    heap_rep (set_mem h m') (free_spec (m_firstSegment h) l1 s l2).
Proof.
  intros H Hl Hp. unfold free. rewrite lock_free by done. cbn [mbind outcome_bind].
  destruct (rep_focus _ _ _ _ H) as (P1 & P2 & P3 & P4 & _).
  pose proof (rep_base _ _ H). pose proof (rep_top _ _ H).
  unfold sizeof_HeapSegmentHeader.
  replace (m_firstSegment h + total l1 + 32 ⊟ 32) with (m_firstSegment h + total l1) by wordlia.
  pose proof (rep_chain _ _ H) as C. apply chain_focus in C. destruct C as (_ & Ca & _).
  pose proof Ca as (Mm & Mg & _).
  destruct (magic_ok_read (h_mem h) (m_firstSegment h + total l1)) as (ok & Eok & Hok);
    [eapply mapped_sub; [exact Mm|lia..]|].
  assert (ok = true) as -> by (by apply Hok).
  cbn [h_mem set_lock]. rewrite Eok. cbn [mbind outcome_bind negb].
  destruct (hdr_set_free _ _ _ _ true Ca) as (m1 & -> & O1 & A1). cbn [mbind outcome_bind].
  set (s1 := Seg (s_size s) true (s_prev s)) in *.
  assert (heap_rep (set_mem h m1) (l1 ++ [s1] ++ l2)) as R1.
  { apply (rep_replace h l1 s l2 [s1]); [done|done|eapply only_in_weaken; [done|lia..]|simpl; lia
      |repeat constructor; done|]. simpl. split; [|done]. by destruct l2. }
  pose proof (payload_kept_in_hdr h l1 s l2 m1 O1) as K1.
  destruct (merge_next_rep _ _ _ _ R1) as (nx & nf & r & E1 & E2 & E3 & K2 & R2).
  cbn [set_mem h_mem m_firstSegment m_heapSize h_lock] in *.
  rewrite E1. cbn [mbind outcome_bind]. rewrite E2. cbn [mbind outcome_bind].
  rewrite E3. cbn [mbind outcome_bind].
  destruct (merge_prev_rep _ _ _ _ R2) as (nf' & r' & F1 & F2 & F3 & K3 & R3);
    [by rewrite merge_next_prev|].
  cbn [set_mem h_mem m_firstSegment m_heapSize h_lock] in *.
  rewrite F1. cbn [mbind outcome_bind]. rewrite F2. cbn [mbind outcome_bind].
  rewrite F3. cbn [mbind outcome_bind]. exists (fst r'). split_and!.
  - destruct h; simpl in *. by rewrite Hl.
  - intros b Hb.
    assert (~ in_header (m_firstSegment h) (l1 ++ s1 :: l2) b) as Hb1
      by (rewrite in_header_app in Hb |- *; exact Hb).
    rewrite K3 by (intros X%in_header_merge_next; done). rewrite K2 by done. by apply K1.
  - unfold free_spec. fold s1. by destruct (merge_next (m_firstSegment h + total l1) s1 l2).
Qed.

(** ** Invariants of the segment list *)

(** Every [prev] field holds the address of the segment before. *)
Fixpoint linked (a p : Z) (segs : list seg) : Prop :=
  match segs with
  | [] => True
  | s :: r => s_prev s = p /\ linked (a + s_size s) a r
  end.

(** No two neighbours are both free. *)
Fixpoint coalesced (segs : list seg) : Prop :=
  match segs with
  | s :: ((t :: _) as r) => (s_free s = true -> s_free t = false) /\ coalesced r
  | _ => True
  end.

(** [b] is a byte of a free segment (its header included). *)
Fixpoint in_free (a : Z) (segs : list seg) (b : Z) : Prop :=
  match segs with
  | [] => False
  | s :: r => (s_free s = true /\ a <= b < a + s_size s) \/ in_free (a + s_size s) r b
  end.

Lemma in_free_app a l1 l2 b :
  in_free a (l1 ++ l2) b <-> in_free a l1 b \/ in_free (a + total l1) l2 b.
Proof.
  revert a. induction l1 as [|s l1 IH]; intros a; simpl.
  - rewrite Z.add_0_r. naive_solver.
  - rewrite IH, Z.add_assoc. naive_solver.
Qed.

Lemma in_header_range a l b :
  Forall (fun s => 32 <= s_size s) l -> in_header a l b -> a <= b < a + total l.
Proof.
  intros Hs. revert a. induction Hs as [|s l H1 Hl IH]; intros a; simpl; [done|].
  pose proof (total_nonneg _ Hl). intros [?|H2%IH]; lia.
Qed.

Lemma linked_app a p l1 l2 :
  linked a p (l1 ++ l2) <->
  linked a p l1 /\
  linked (a + total l1) (match last l1 with Some _ => last_addr a l1 | None => p end) l2.
Proof.
  revert a p. induction l1 as [|s l1 IH]; intros a p; simpl.
  - rewrite Z.add_0_r. naive_solver.
  - rewrite IH, Z.add_assoc. unfold last_addr. destruct l1 as [|t l1]; simpl.
    + rewrite !Z.add_0_r. naive_solver.
    + change (last (s :: t :: l1)) with (last (t :: l1)).
      destruct (last (t :: l1)) eqn:E; [|by apply last_None in E].
      rewrite !Z.add_assoc. tauto.
Qed.

Lemma linked_prev base l1 s l2 :
  linked base 0 (l1 ++ s :: l2) -> s_prev s = last_addr base l1.
Proof.
  rewrite linked_app. intros (_ & H & _). unfold last_addr in *. by destruct (last l1).
Qed.

Lemma repoint_linked a p l : linked a p l -> repoint p l = l.
Proof. destruct l as [|[sz f q] l]; [done|]. simpl. by intros [-> _]. Qed.

Lemma linked_repoint a p q l : linked a p l -> linked a q (repoint q l).
Proof. destruct l; [done|]. simpl. intuition. Qed.

Lemma coalesced_app l1 s l2 :
  coalesced (l1 ++ s :: l2) <->
  coalesced (l1 ++ [s]) /\ coalesced (s :: l2).
Proof.
  induction l1 as [|t l1 IH]; [simpl; naive_solver|].
  destruct l1 as [|u l1].
  - simpl. naive_solver.
  - change ((t :: u :: l1) ++ s :: l2) with (t :: u :: (l1 ++ s :: l2)).
    change ((t :: u :: l1) ++ [s]) with (t :: u :: (l1 ++ [s])).
    cbn [coalesced]. change (u :: l1 ++ s :: l2) with ((u :: l1) ++ s :: l2).
    change (u :: l1 ++ [s]) with ((u :: l1) ++ [s]). rewrite IH. naive_solver.
Qed.

Lemma coalesced_last l1 s :
  coalesced (l1 ++ [s]) <->
  coalesced l1 /\ (forall p, last l1 = Some p -> s_free p = true -> s_free s = false).
Proof.
  destruct l1 as [|p l0 _] using rev_ind; [simpl; naive_solver|].
  rewrite last_snoc, <- app_assoc. simpl. rewrite coalesced_app. simpl. naive_solver.
Qed.
