(* ===== verification/KHeapThms.v ===== *)
(** * What the kernel heap promises (kernel/src/memory/kheap.cpp)

    [heap_rep h segs] of KHeap.v relates the bytes of the heap to a list of
    segments.  The theorems: [init] establishes it, [allocate] implements first fit
    with splitting, [free] implements coalescing, an allocation followed by its
    [free] restores the heap, [reallocate] keeps the contents, and the places where
    the code falls short of this. *)
From Stdlib Require Import ZArith Lia.
From stdpp Require Import base tactics numbers option list gmap.
From S2P Require Import Prelude Memory KMemory Sync KHeap.

(** ** Shared lemmas *)

(** A run of [allocate], on both outcomes of first fit. *)
Lemma allocate_runs h segs size :
  heap_rep h segs -> h_lock h = 0 -> 0 <= size < 0x4000000000000000 ->
  let base := m_firstSegment h in
  exists m', allocate h size = Done (set_mem h m', snd (alloc_spec base segs size)) /\
    heap_rep (set_mem h m') (fst (alloc_spec base segs size)) /\
    (forall b, ~ in_free base segs b -> m' !! b = h_mem h !! b).
Proof.
  intros H Hl Hs base.
  destruct (decide (snd (alloc_spec base segs size) = 0)) as [E|E].
  - rewrite E. exists (h_mem h).
    assert (set_mem h (h_mem h) = h) as -> by (by destruct h).
    split_and!; [by apply (allocate_fails h segs)| |done].
    unfold alloc_spec in *. destruct (pick (size + 64) segs) as [[[l1 s] l2]|] eqn:P; [|done].
    destruct (Z.ltb_spec (s_size s - (size + 64)) 2); [done|]. simpl in E.
    apply pick_spec in P. destruct P as (-> & _).
    destruct (rep_focus _ _ _ _ H) as (? & _). pose proof (rep_base _ _ H). unfold base in E. lia.
  - unfold alloc_spec in *. destruct (pick (size + 64) segs) as [[[l1 s] l2]|] eqn:P; [|done].
    destruct (Z.ltb_spec (s_size s - (size + 64)) 2) as [|Hbig]; [done|].
    destruct (allocate_serves h segs size l1 s l2) as (m' & E1 & O & R); try done.
    exists m'. split_and!; [done|done|]. intros b Hb. apply O. intros Hin. apply Hb.
    apply pick_spec in P. destruct P as (-> & Hf & _).
    apply in_free_app. right. simpl. auto.
Qed.

(** The segment that serves a successful request. *)
Lemma alloc_spec_success base segs size :
  snd (alloc_spec base segs size) <> 0 ->
  exists l1 s l2, segs = l1 ++ s :: l2 /\ s_free s = true /\ size + 66 <= s_size s /\
    snd (alloc_spec base segs size) = base + total l1 + 32 /\
    fst (alloc_spec base segs size) =
      l1 ++ Seg (size + 32) false (s_prev s)
         :: Seg (s_size s - (size + 32)) true (base + total l1) :: l2.
Proof.
  unfold alloc_spec. destruct (pick (size + 64) segs) as [[[l1 s] l2]|] eqn:P; [|done].
  destruct (Z.ltb_spec (s_size s - (size + 64)) 2); [done|]. intros _.
  apply pick_spec in P. destruct P as (-> & Hf & _).
  exists l1, s, l2. split_and!; [done|done|lia|done|done].
Qed.

(** ** Initialisation *)

Lemma heap_init_ok h base size :
  mem_wf (h_mem h) -> mapped (h_mem h) base size ->
  0 < base -> 32 <= size -> base + size < 0x10000000000000000 -> size < 0x4000000000000000 ->
  exists h', heap_init h base size = Done h' /\ heap_rep h' [Seg size true 0] /\
    m_firstSegment h' = base /\ h_lock h' = h_lock h.
Proof.
  intros Hwf Hm Hb Hs Htop. unfold heap_init.
  assert (mapped (h_mem h) base 32) as H32 by (eapply mapped_sub; [done|lia..]).
  destruct (write_magic_ok (h_mem h) base) as (m1 & -> & O1 & W1);
    [eapply mapped_sub; [done|lia..]|]. cbn [mbind outcome_bind].
  assert (store8 m1 (base + 7) 1 = Done (put_bytes m1 (base + 7) [1])) as E2.
  { unfold store8. apply O1 in H32. destruct (H32 (base + 7)) as [v ->]; [lia|done]. }
  assert (only_in m1 (put_bytes m1 (base + 7) [1]) (base + 7) 1) as O2
    by (apply only_in_put; [repeat constructor; done|done]).
  rewrite E2. cbn [mbind outcome_bind]. set (m2 := put_bytes m1 (base + 7) [1]) in *.
  assert (mapped m2 base 32) as M2 by (by apply O2, O1).
  unfold Hdr.set_size, Hdr.set_next, Hdr.set_prev.
  destruct (store64_ok m2 (base + 8) size) as (m3 & -> & O3 & W3);
    [eapply mapped_sub; [done|lia..]|wordlia|]. cbn [mbind outcome_bind]. apply O3 in M2.
  destruct (store64_ok m3 (base + 16) 0) as (m4 & -> & O4 & W4);
    [eapply mapped_sub; [done|lia..]|wordlia|]. cbn [mbind outcome_bind]. apply O4 in M2.
  destruct (store64_ok m4 (base + 24) 0) as (m5 & -> & O5 & W5);
    [eapply mapped_sub; [done|lia..]|wordlia|]. cbn [mbind outcome_bind]. apply O5 in M2.
  eexists. split; [done|]. split; [|done].
  constructor; simpl; try lia; try done.
  - split; [|done]. unfold hdr_at, Hdr.size, Hdr.next, Hdr.prev; cbn [s_size s_free s_prev].
    rewrite (read_only _ _ _ _ _ _ O5), (read_only _ _ _ _ _ _ O4), (read_only _ _ _ _ _ _ O3),
      (read_only _ _ _ _ _ _ O2) by lia.
    rewrite (free_only _ _ _ _ _ O5), (free_only _ _ _ _ _ O4), (free_only _ _ _ _ _ O3) by lia.
    rewrite !(load64_only m4 m5 _ _ _ O5), (load64_only m3 m4 _ _ _ O4) by lia.
    split_and!; try done. unfold Hdr.free_bit, load8, m2. rewrite lookup_put_bytes, decide_True by (simpl; lia).
    by rewrite Z.sub_diag.
  - repeat constructor. simpl. lia.
  - by apply O5, O4, O3, O2, O1.
  - by apply O5, O4, O3, O2, O1.
Qed.

(** After [init] over a mapped region the heap is one free segment
    of the whole size, so every invariant of the allocator holds at the start. *)
Theorem heap_init_rep h base size :
  mem_wf (h_mem h) -> mapped (h_mem h) base size ->
  0 < base -> 32 <= size -> base + size < 0x10000000000000000 -> size < 0x4000000000000000 ->
  exists h', heap_init h base size = Done h' /\ heap_rep h' [Seg size true 0] /\
    m_firstSegment h' = base /\ h_lock h' = h_lock h.
Proof. apply heap_init_ok. Qed.

(** ** Allocation *)

(** C1 (refinement): on every well-formed heap and every size below 2^62 [allocate]
    returns with the lock released, the pointer and the new segment list are those
    of the first-fit specification (the null pointer and the same list when it
    cannot serve), and no byte of a used segment, header or contents, changes. *)
Theorem allocate_first_fit h segs size :
  heap_rep h segs -> h_lock h = 0 -> 0 <= size < 0x4000000000000000 ->
  let base := m_firstSegment h in
  exists h', allocate h size = Done (h', snd (alloc_spec base segs size)) /\
    heap_rep h' (fst (alloc_spec base segs size)) /\
    h_lock h' = 0 /\ m_firstSegment h' = base /\
    (forall b, ~ in_free base segs b -> h_mem h' !! b = h_mem h !! b).
Proof.
  intros H Hl Hs base. destruct (allocate_runs h segs size H Hl Hs) as (m' & E & R & K).
  exists (set_mem h m'). by split_and!.
Qed.

(** The block [allocate] hands out is memory that was free before, so it
    meets no live block, and in the new heap it covers no segment header. *)
Theorem allocate_block_fresh h segs size h' p :
  heap_rep h segs -> h_lock h = 0 -> 0 <= size < 0x4000000000000000 ->
  allocate h size = Done (h', p) -> p <> 0 ->
  forall b, p <= b < p + size ->
    in_free (m_firstSegment h) segs b /\
    ~ in_header (m_firstSegment h) (fst (alloc_spec (m_firstSegment h) segs size)) b.
Proof.
  intros H Hl Hs E Hp. destruct (allocate_runs h segs size H Hl Hs) as (m' & E' & R & _).
  rewrite E in E'. injection E' as -> ->.
  destruct (alloc_spec_success _ _ _ Hp) as (l1 & s & l2 & -> & Hf & Hbig & Ep & El).
  rewrite Ep, El. rewrite El in R. intros b Hb. split.
  - apply in_free_app. right. simpl. left. split; [done|lia].
  - destruct (rep_focus _ _ _ _ H) as (? & ? & ? & _).
    pose proof (rep_sizes _ _ H) as F. apply Forall_app in F as [F1 F2].
    inversion_clear F2 as [|?? _ F3]. rewrite in_header_app. simpl.
    intros [Hi|[Hi|[Hi|Hi]]]; [|lia|lia|].
    + apply in_header_range in Hi; [lia|done].
    + apply in_header_range in Hi; [lia|done].
Qed.

(** ** Freeing *)

(** C2 (refinement): freeing the block of a segment whose [prev] field is right
    returns with the lock released; the segment list is the one the coalescing
    specification gives (marked free, merged with a free successor, then with a
    free predecessor), and only header bytes change. *)
Theorem free_coalesces h l1 s l2 :
  heap_rep h (l1 ++ s :: l2) -> h_lock h = 0 -> s_prev s = last_addr (m_firstSegment h) l1 ->
  exists h', free h (m_firstSegment h + total l1 + 32) = Done h' /\
    heap_rep h' (free_spec (m_firstSegment h) l1 s l2) /\ h_lock h' = 0 /\
    payload_kept (m_firstSegment h) (l1 ++ s :: l2) (h_mem h) (h_mem h').
Proof.
  intros H Hl Hp. destruct (free_refines _ _ _ _ H Hl Hp) as (m' & E & K & R).
  exists (set_mem h m'). by split_and!.
Qed.

Lemma merge_next_linked a p s l2 :
  linked a p (s :: l2) -> linked a p (fst (merge_next a s l2) :: snd (merge_next a s l2)).
Proof.
  unfold merge_next. destruct l2 as [|n l3]; [done|]. destruct (s_free n); [|done]. simpl.
  intros (H1 & H2 & H3). split; [done|]. rewrite Z.add_assoc. by eapply linked_repoint.
Qed.

Lemma merge_prev_linked base l1 s l2 :
  linked base 0 (l1 ++ s :: l2) -> linked base 0 (merge_prev base l1 s l2).
Proof.
  unfold merge_prev. destruct l1 as [|p l0 _] using rev_ind; [done|].
  rewrite last_snoc, removelast_last. destruct (s_free p); [|done].
  rewrite <- app_assoc. simpl. rewrite !linked_app. simpl. intros (H1 & H2 & H3 & H4).
  split_and!; [done|done|]. rewrite Z.add_assoc. by eapply linked_repoint.
Qed.

(** What a coalesced list becomes when one used segment is freed. *)
Lemma merge_next_coalesced a sz p l2 :
  coalesced l2 ->
  let s := Seg sz true p in
  coalesced (fst (merge_next a s l2) :: snd (merge_next a s l2)) /\
  s_free (fst (merge_next a s l2)) = true.
Proof.
  unfold merge_next. destruct l2 as [|n l3]; [by intros|]. destruct (s_free n) eqn:E.
  - simpl. destruct l3 as [|t l3]; simpl; [done|]. rewrite E. naive_solver.
  - simpl. rewrite E. naive_solver.
Qed.

Lemma coalesced_tail s l : coalesced (s :: l) -> coalesced l.
Proof. destruct l; [done|]. simpl. naive_solver. Qed.

Lemma coalesced_repoint s p l : coalesced (s :: l) -> coalesced (s :: repoint p l).
Proof. destruct l as [|t [|u l]]; done. Qed.

Lemma merge_prev_coalesced base l1 s l2 :
  coalesced l1 -> coalesced (s :: l2) -> s_free s = true ->
  coalesced (merge_prev base l1 s l2).
Proof.
  intros H1 H2 Hs. unfold merge_prev. destruct l1 as [|p l0 _] using rev_ind; [done|].
  rewrite last_snoc, removelast_last. destruct (s_free p) eqn:E.
  - apply coalesced_app. apply coalesced_last in H1. destruct H1 as [H0 H1]. split.
    + apply coalesced_last. split; [done|]. simpl. intros q Hq Fq.
      by rewrite <- E, (H1 q).
    + apply coalesced_repoint. destruct l2; [done|]. simpl in *. naive_solver.
  - apply coalesced_app. split; [|done]. apply coalesced_last. split; [done|].
    intros q. rewrite last_snoc. congruence.
Qed.

(** On a heap whose [prev] fields are right and in which no two
    neighbours are free, [free] keeps both properties. *)
Theorem free_keeps_invariants base l1 s l2 :
  linked base 0 (l1 ++ s :: l2) -> coalesced (l1 ++ s :: l2) ->
  linked base 0 (free_spec base l1 s l2) /\ coalesced (free_spec base l1 s l2).
Proof.
  intros HL HC. unfold free_spec.
  pose proof HL as HL'. apply linked_app in HL'. destruct HL' as [HL1 HL2].
  apply coalesced_app in HC. destruct HC as [HC1 HC2]. apply coalesced_last in HC1 as [HC1 _].
  pose proof (merge_next_linked (base + total l1) _ (Seg (s_size s) true (s_prev s)) l2 HL2) as M.
  pose proof (merge_next_coalesced (base + total l1) (s_size s) (s_prev s) l2
    (coalesced_tail _ _ HC2)) as [N1 N2].
  destruct (merge_next _ _ _) as [s' l2']. simpl in *. split.
  - apply merge_prev_linked. apply linked_app. split; [done|]. exact M.
  - by apply merge_prev_coalesced.
Qed.

(** Freeing the block of an allocation restores the segment list, also when the memory was
    written in between. *)
Lemma free_restores h segs size m :
  h_lock h = 0 -> linked (m_firstSegment h) 0 segs -> coalesced segs ->
  snd (alloc_spec (m_firstSegment h) segs size) <> 0 ->
  heap_rep (set_mem h m) (fst (alloc_spec (m_firstSegment h) segs size)) ->
  exists m', free (set_mem h m) (snd (alloc_spec (m_firstSegment h) segs size)) = Done (set_mem h m') /\
    heap_rep (set_mem h m') segs.
Proof.
  intros Hl HL HC Hp R. destruct (alloc_spec_success _ _ _ Hp) as (l1 & s & l2 & -> & Hf & Hbig & Ep & El).
  rewrite Ep. rewrite El in R. pose proof (linked_prev _ _ _ _ HL) as Hprev.
  destruct (free_refines _ _ _ _ R Hl Hprev) as (m' & E2 & _ & R2).
  exists m'. split; [exact E2|].
  assert (free_spec (m_firstSegment h) l1 (Seg (size + 32) false (s_prev s))
    (Seg (s_size s - (size + 32)) true (m_firstSegment h + total l1) :: l2)
    = l1 ++ s :: l2) as <-; [|exact R2].
  unfold free_spec, merge_next. cbn [s_free s_size s_prev].
  replace (size + 32 + (s_size s - (size + 32))) with (s_size s) by lia.
  apply linked_app in HL. destruct HL as [_ [_ HL]]. rewrite (repoint_linked _ _ _ HL).
  assert (Seg (s_size s) true (s_prev s) = s) as -> by (destruct s; simpl in *; congruence).
  unfold merge_prev. destruct (last l1) as [q|] eqn:Eq; [|done].
  apply coalesced_app in HC as [HC _]. apply coalesced_last in HC as [_ HC].
  destruct (s_free q) eqn:Fq; [|done]. rewrite (HC q Eq Fq) in Hf. done.
Qed.

(** C40 (roundtrip): on a linked and coalesced heap, freeing the block that
    [allocate] just handed out restores the segment list exactly, whichever
    segment served the request. *)
Theorem allocate_free_roundtrip h segs size h' p :
  heap_rep h segs -> h_lock h = 0 -> 0 <= size < 0x4000000000000000 ->
  linked (m_firstSegment h) 0 segs -> coalesced segs ->
  allocate h size = Done (h', p) -> p <> 0 ->
  exists h'', free h' p = Done h'' /\ heap_rep h'' segs /\ h_lock h'' = 0.
Proof.
  intros H Hl Hs HL HC E Hp. destruct (allocate_runs h segs size H Hl Hs) as (m' & E' & R & _).
  rewrite E in E'. injection E' as -> ->.
  destruct (free_restores h segs size m' Hl HL HC Hp R) as (m'' & E2 & R2). by exists (set_mem h m'').
Qed.

(** [free] and [reallocate] of a pointer without the segment magic in
    front of it report the error (a null pointer from [reallocate]) and leave the
    heap, the memory and the lock as they were. *)
Theorem invalid_pointer_rejected h ptr newSize bs :
  h_lock h = 0 -> ptr <> 0 ->
  read_bytes (h_mem h) (ptr ⊟ 32) 7 = Some bs -> bs <> KERNEL_HEAP_SEGMENT_HDR_SIGNATURE ->
  free h ptr = Done h /\ reallocate h ptr newSize = Done (h, 0).
Proof.
  intros Hl Hp Hr Hbs.
  destruct (magic_ok_read (h_mem h) (ptr ⊟ 32)) as (ok & Eok & Hok);
    [by apply read_bytes_mapped in Hr|].
  assert (ok = false) as -> by (destruct ok; [|done]; rewrite Hr in Hok; naive_solver).
  unfold free, reallocate, sizeof_HeapSegmentHeader.
  destruct (Z.eqb_spec ptr 0); [done|]. rewrite lock_free by done.
  cbn [mbind outcome_bind h_mem set_lock]. rewrite Eok. cbn [mbind outcome_bind negb].
  by rewrite unlock_locked.
Qed.

(** ** Reallocation *)
Lemma pick_app min l1 l2 : pick min l1 = None ->
  pick min (l1 ++ l2) = '(k1, t, k2) ← pick min l2; Some (l1 ++ k1, t, k2).
Proof.
  induction l1 as [|s l1 IH]; simpl.
  - intros _. by destruct (pick min l2) as [[[? ?] ?]|].
  - destruct (s_free s && (min <=? s_size s)); [done|].
    destruct (pick min l1) as [[[? ?] ?]|]; [done|]. intros _. rewrite IH by done.
    by destruct (pick min l2) as [[[? ?] ?]|].
Qed.

(** A caller's write inside its block keeps the segment list. *)
Lemma rep_payload h l1 s l2 a bs :
  heap_rep h (l1 ++ s :: l2) -> bytes_ok bs ->
  m_firstSegment h + total l1 + 32 <= a ->
  a + Z.of_nat (length bs) <= m_firstSegment h + total l1 + s_size s ->
  heap_rep (set_mem h (put_bytes (h_mem h) a bs)) (l1 ++ s :: l2).
Proof.
  intros H Hbs H1 H2.
  assert (only_in (h_mem h) (put_bytes (h_mem h) a bs) a (Z.of_nat (length bs))) as O
    by (by apply only_in_put).
  apply (rep_replace h l1 s l2 [s]); [done|done|eapply only_in_weaken; [done|lia..]|simpl; lia| |].
  - pose proof (rep_focus _ _ _ _ H) as (_ & ? & _). repeat constructor. done.
  - pose proof (rep_chain _ _ H) as C. apply chain_focus in C. destruct C as (_ & C & _).
    simpl. split; [|done]. apply (hdr_only _ _ _ _ _ _ _ O); [lia|]. done.
Qed.

(** The successful allocation of a bigger block for a live segment, when no segment
    before it serves. *)
Lemma alloc_behind h l1 s l2 size :
  heap_rep h (l1 ++ s :: l2) -> h_lock h = 0 -> 0 <= size < 0x4000000000000000 ->
  s_free s = false -> pick (size + 64) l1 = None ->
  snd (alloc_spec (m_firstSegment h) (l1 ++ s :: l2) size) <> 0 ->
  exists m' k1 t k2, let base := m_firstSegment h in
    let q := base + total l1 + s_size s + total k1 in
    let l2' := k1 ++ Seg (size + 32) false (s_prev t) :: Seg (s_size t - (size + 32)) true q :: k2 in
    l2 = k1 ++ t :: k2 /\
    allocate h size = Done (set_mem h m', q + 32) /\
    alloc_spec base (l1 ++ s :: l2) size = (l1 ++ s :: l2', q + 32) /\
    heap_rep (set_mem h m') (l1 ++ s :: l2') /\
    (forall b, ~ in_free base (l1 ++ s :: l2) b -> m' !! b = h_mem h !! b).
Proof.
  intros H Hl Hs Hf Hpick Hp. destruct (allocate_runs _ _ _ H Hl Hs) as (m' & E & R & K).
  unfold alloc_spec in *. rewrite pick_app in * by done. simpl in *. rewrite Hf in *. simpl in *.
  destruct (pick (size + 64) l2) as [[[k1 t] k2]|] eqn:P; simpl in *; [|done].
  destruct (Z.ltb_spec (s_size t - (size + 64)) 2); [done|]. simpl in *.
  apply pick_spec in P. destruct P as (-> & _).
  assert (m_firstSegment h + total (l1 ++ s :: k1) =
          m_firstSegment h + total l1 + s_size s + total k1) as Eq
    by (rewrite total_app; simpl; lia).
  rewrite Eq, <- app_assoc in *. simpl in *. exists m', k1, t, k2. by split_and!.
Qed.

Lemma used_not_free h l1 s l2 b :
  heap_rep h (l1 ++ s :: l2) -> s_free s = false ->
  let a := m_firstSegment h + total l1 in
  a <= b < a + s_size s -> ~ in_free (m_firstSegment h) (l1 ++ s :: l2) b.
Proof.
  intros H Hf a Hb. pose proof (rep_sizes _ _ H) as F. apply Forall_app in F as [F1 F2].
  inversion_clear F2 as [|?? _ F3]. rewrite in_free_app. simpl. fold a.
  assert (forall c l, Forall (fun s => 32 <= s_size s) l -> in_free c l b -> c <= b < c + total l) as X.
  { intros c l Hl. revert c. induction Hl as [|u l H1 Hl IH]; intros c; simpl; [done|].
    pose proof (total_nonneg _ Hl). intros [?|?%IH]; lia. }
  intros [Hi|[[? _]|Hi]]; [|congruence|].
  - apply X in Hi; [unfold a in *; lia|done].
  - apply X in Hi; [lia|done].
Qed.

(** The bytes of a block are no header bytes. *)
Lemma payload_no_header h l1 s l2 b :
  heap_rep h (l1 ++ s :: l2) ->
  let a := m_firstSegment h + total l1 in
  a + 32 <= b < a + s_size s -> ~ in_header (m_firstSegment h) (l1 ++ s :: l2) b.
Proof.
  intros H a Hb. pose proof (rep_sizes _ _ H) as F. apply Forall_app in F as [F1 F2].
  inversion_clear F2 as [|?? _ F3]. rewrite in_header_app. simpl. fold a.
  intros [Hi|[?|Hi]]; [|lia|].
  - apply in_header_range in Hi; [unfold a in *; lia|done].
  - apply in_header_range in Hi; [lia|done].
Qed.

(** [reallocate] of a live block that is too small, up to its call of [allocate]. *)
Lemma reallocate_slow h l1 s l2 newSize :
  heap_rep h (l1 ++ s :: l2) -> h_lock h = 0 -> 0 <= newSize < 0x4000000000000000 ->
  s_size s < newSize + 32 ->
  let a := m_firstSegment h + total l1 in
  reallocate h (a + 32) newSize =
    (r ← allocate h newSize;
     let '(h, newPtr) := r in
     if newPtr =? 0 then Done (h, 0)
     else
       ssize ← Hdr.size (h_mem h) a;
       m ← memcpy (h_mem h) newPtr (a + 32) (ssize ⊟ 32);
       h ← free (set_mem h m) (a + 32);
       Done (h, newPtr)).
Proof.
  intros H Hl Hs Hbig a. destruct (rep_focus _ _ _ _ H) as (P1 & P2 & P3 & P4 & P5).
  pose proof (rep_base _ _ H). pose proof (rep_top _ _ H).
  pose proof (rep_chain _ _ H) as C. apply chain_focus in C. destruct C as (_ & Ca & _).
  destruct Ca as (Mm & Mg & _ & Sz & _). fold a in P1, P4, P5, Mm, Mg, Sz.
  unfold reallocate, sizeof_HeapSegmentHeader. destruct (Z.eqb_spec (a + 32) 0); [lia|].
  rewrite lock_free by done. cbn [mbind outcome_bind h_mem set_lock].
  replace (a + 32 ⊟ 32) with a by wordlia.
  destruct (magic_ok_read (h_mem h) a) as (ok & -> & Hok); [eapply mapped_sub; [exact Mm|lia..]|].
  assert (ok = true) as -> by (by apply Hok). cbn [mbind outcome_bind negb].
  rewrite Sz. cbn [mbind outcome_bind]. replace (newSize ⊞ 32) with (newSize + 32) by wordlia.
  destruct (Z.leb_spec (newSize + 32) (s_size s)); [lia|]. by rewrite unlock_locked.
Qed.

(** Its end: the contents move to the segment [u] behind, and the old block goes. *)
Lemma copy_then_free h l1 s k1 u k2 bs :
  heap_rep h (l1 ++ s :: k1 ++ u :: k2) -> h_lock h = 0 ->
  s_prev s = last_addr (m_firstSegment h) l1 -> s_size s <= s_size u ->
  let a := m_firstSegment h + total l1 in
  let q := a + s_size s + total k1 in
  read_bytes (h_mem h) (a + 32) (Z.to_nat (s_size s - 32)) = Some bs ->
  exists m',
    (ssize ← Hdr.size (h_mem h) a;
     m ← memcpy (h_mem h) (q + 32) (a + 32) (ssize ⊟ 32);
     h ← free (set_mem h m) (a + 32);
     Done (h, q + 32)) = Done (set_mem h m', q + 32) /\
    read_bytes m' (q + 32) (Z.to_nat (s_size s - 32)) = Some bs /\
    heap_rep (set_mem h m') (free_spec (m_firstSegment h) l1 s (k1 ++ u :: k2)).
Proof.
  intros H Hl Hprev Hfit a q Hr.
  assert (l1 ++ s :: k1 ++ u :: k2 = (l1 ++ s :: k1) ++ u :: k2) as El by (by rewrite <- app_assoc).
  assert (m_firstSegment h + total (l1 ++ s :: k1) = q) as Eq
    by (unfold q, a; rewrite total_app; simpl; lia).
  destruct (rep_focus _ _ _ _ H) as (P1 & P2 & P3 & P4 & _). fold a in P1, P4.
  assert (0 <= total k1) as Hk1.
  { pose proof (rep_sizes _ _ H) as F. apply Forall_app in F as [_ F].
    inversion_clear F as [|?? _ F']. apply Forall_app in F' as [F' _]. by apply total_nonneg. }
  pose proof (rep_top _ _ H). pose proof (rep_base _ _ H).
  pose proof (rep_chain _ _ H) as C. apply chain_focus in C.
  destruct C as (_ & (_ & _ & _ & Sz & _) & _). fold a in Sz. rewrite Sz. cbn [mbind outcome_bind].
  pose proof H as H'. rewrite El in H'.
  destruct (rep_focus _ _ _ _ H') as (_ & _ & _ & _ & Mu). rewrite Eq in Mu.
  replace (s_size s ⊟ 32) with (s_size s - 32) by wordlia.
  rewrite (memcpy_forward _ _ _ _ bs); [|apply H|lia|eapply mapped_sub; [exact Mu|lia..]|done|lia].
  cbn [mbind outcome_bind].
  pose proof (read_bytes_length _ _ _ _ Hr) as Hlen.
  assert (heap_rep (set_mem h (put_bytes (h_mem h) (q + 32) bs)) (l1 ++ s :: k1 ++ u :: k2)) as R1.
  { rewrite El in H |- *. apply rep_payload; [done| |rewrite Eq; lia..].
    eapply read_bytes_ok; [apply H|done]. }
  destruct (free_refines _ _ _ _ R1 Hl Hprev) as (m2 & E2 & K2 & R2). simpl in E2, K2, R2.
  fold a in E2. rewrite E2. cbn [mbind outcome_bind]. exists m2. split_and!; [done| |exact R2].
  rewrite <- (read_put_same (h_mem h) (q + 32) bs), Hlen. apply read_bytes_ext.
  intros b Hb. apply K2. rewrite El in H |- *.
  apply (payload_no_header h (l1 ++ s :: k1) u k2); [done|]. rewrite Eq. lia.
Qed.

(** Growing a live block copies its contents: when first fit finds
    room behind the block, [reallocate] returns the new block, which starts with the
    bytes of the old one, the old segment is freed and coalesced, and the heap stays
    well formed. *)
Theorem reallocate_grow h l1 s l2 newSize bs :
  heap_rep h (l1 ++ s :: l2) -> h_lock h = 0 -> 0 <= newSize < 0x4000000000000000 ->
  s_free s = false -> s_prev s = last_addr (m_firstSegment h) l1 ->
  s_size s < newSize + 32 -> pick (newSize + 64) l1 = None ->
  let base := m_firstSegment h in
  let ptr := base + total l1 + 32 in
  let p := snd (alloc_spec base (l1 ++ s :: l2) newSize) in
  p <> 0 ->
  read_bytes (h_mem h) ptr (Z.to_nat (s_size s - 32)) = Some bs ->
  exists h' l2', reallocate h ptr newSize = Done (h', p) /\
    read_bytes (h_mem h') p (Z.to_nat (s_size s - 32)) = Some bs /\
    fst (alloc_spec base (l1 ++ s :: l2) newSize) = l1 ++ s :: l2' /\
    heap_rep h' (free_spec base l1 s l2') /\ h_lock h' = 0.
Proof.
  intros H Hl Hs Hf Hprev Hbig Hpick base ptr p Hp Hr. subst base ptr p.
  destruct (alloc_behind _ _ _ _ _ H Hl Hs Hf Hpick Hp)
    as (m1 & k1 & t & k2 & -> & E1 & ES & R1 & K1).
  rewrite ES in *. simpl snd in *. simpl fst in *.
  rewrite (reallocate_slow _ _ _ _ _ H Hl Hs Hbig), E1. cbn [mbind outcome_bind].
  destruct (Z.eqb_spec (m_firstSegment h + total l1 + s_size s + total k1 + 32) 0); [done|].
  destruct (copy_then_free (set_mem h m1) l1 s k1 (Seg (newSize + 32) false (s_prev t))
    (Seg (s_size t - (newSize + 32)) true (m_firstSegment h + total l1 + s_size s + total k1) :: k2) bs)
    as (m2 & E2 & Rd & R2); [done|done|done|simpl; lia| |].
  - rewrite <- Hr. apply read_bytes_ext. intros b Hb. apply K1.
    apply (used_not_free _ _ _ _ _ H Hf). simpl in Hb. lia.
  - exists (set_mem h m2), (k1 ++ Seg (newSize + 32) false (s_prev t)
      :: Seg (s_size t - (newSize + 32)) true (m_firstSegment h + total l1 + s_size s + total k1) :: k2).
    split_and!; [exact E2|exact Rd|done|exact R2|done].
Qed.

(** ** Aligned blocks *)
Lemma align_pointer_spec x k :
  0 <= k < 64 -> 0 <= x -> x + 2 ^ k + 8 < 2 ^ 64 ->
  align_pointer x (2 ^ k) = (x + 2 ^ k + 8) / 2 ^ k * 2 ^ k.
Proof.
  intros Hk Hx Htop. assert (1 <= 2 ^ k <= 2 ^ 63) as Hp.
  { split; [|apply Z.pow_le_mono_r; lia]. pose proof (Z.pow_pos_nonneg 2 k). lia. }
  unfold align_pointer. rewrite u64_add_r.
  rewrite (u64_small (x + _)) by (unfold is_u64; lia).
  rewrite (u64_small (2 ^ k - 1)) by (unfold is_u64; lia).
  replace (x + (2 ^ k + 8)) with (x + 2 ^ k + 8) by lia.
  rewrite <- Z.shiftr_div_pow2, <- Z.shiftl_mul_pow2 by lia.
  replace (2 ^ k - 1) with (Z.ones k) by (rewrite Z.ones_equiv; lia).
  set (y := x + 2 ^ k + 8). assert (y = Z.land y (Z.ones 64)) as ->
    by (rewrite Z.land_ones, Z.mod_small by lia; done).
  change (u64 (Z.lnot (Z.ones k))) with (Z.lnot (Z.ones k) mod 2 ^ 64).
  rewrite <- (Z.land_ones (Z.lnot _)) by lia. bitwise.
Qed.

Lemma align_pointer_bounds x k :
  0 <= k < 64 -> 0 <= x -> x + 2 ^ k + 8 < 2 ^ 64 ->
  let p := align_pointer x (2 ^ k) in
  p mod 2 ^ k = 0 /\ x + 8 < p <= x + 2 ^ k + 8.
Proof.
  intros Hk Hx Htop p. assert (0 < 2 ^ k) by (apply Z.pow_pos_nonneg; lia).
  unfold p. rewrite align_pointer_spec by done. split; [apply Z.mod_mul; lia|].
  pose proof (Z.div_mod (x + 2 ^ k + 8) (2 ^ k)).
  pose proof (Z.mod_pos_bound (x + 2 ^ k + 8) (2 ^ k)). lia.
Qed.

(** For a power-of-two alignment [kmallocAligned] fails exactly when
    the underlying [kmalloc] does; otherwise the pointer is aligned, its block lies
    inside the allocated one, the heap stays well formed, and [kfreeAligned] of it
    frees the pointer that [kmalloc] returned. *)
Theorem kmallocAligned_aligned h segs size k :
  heap_rep h segs -> h_lock h = 0 -> 0 <= k < 61 -> 0 <= size ->
  size + 2 ^ k + 8 < 0x4000000000000000 ->
  let spec := alloc_spec (m_firstSegment h) segs (size + 2 ^ k + 8) in
  exists h' p, kmallocAligned h size (2 ^ k) = Done (h', p) /\
    heap_rep h' (fst spec) /\ (p = 0 <-> snd spec = 0) /\
    (p <> 0 -> p mod 2 ^ k = 0 /\ snd spec + 8 < p /\
               p + size <= snd spec + (size + 2 ^ k + 8) /\
               kfreeAligned h' p = kfree h' (snd spec)).
Proof.
  intros H Hl Hk Hs Htop spec. assert (0 < 2 ^ k) by (apply Z.pow_pos_nonneg; lia).
  unfold kmallocAligned, kmalloc.
  replace (size ⊞ 2 ^ k ⊞ 8) with (size + 2 ^ k + 8) by wordlia.
  destruct (allocate_runs h segs (size + 2 ^ k + 8) H Hl) as (m1 & -> & R & _); [lia|].
  cbn [mbind outcome_bind]. fold spec in R |- *.
  destruct (Z.eqb_spec (snd spec) 0) as [E|E].
  - exists (set_mem h m1), 0. by rewrite E.
  - destruct (alloc_spec_success _ _ _ E) as (l1 & s & l2 & -> & Hf & Hbig & Ep & El).
    fold spec in Ep, El. rewrite El in R.
    destruct (rep_focus _ _ _ _ R) as (P1 & _ & P3 & P4 & Pm).
    pose proof (rep_base _ _ R). pose proof (rep_top _ _ R). simpl in *.
    destruct (align_pointer_bounds (snd spec) k) as (A1 & A2); [lia..|].
    set (p := align_pointer (snd spec) (2 ^ k)) in *.
    assert (is_u64 (snd spec)) as Hu by (unfold is_u64; lia).
    rewrite store64_mapped by (eapply mapped_sub; [exact Pm|lia..]). cbn [mbind outcome_bind].
    eexists _, p. split; [done|]. split.
    { rewrite El. apply (rep_payload _ _ _ _ (p - 8) (le_split 8 (snd spec)) R);
        [apply le_split_ok|simpl; lia|simpl; lia]. }
    split; [lia|]. intros _. split_and!; [done|lia|lia|].
    unfold kfreeAligned. cbn [h_mem set_mem]. destruct (Z.eqb_spec p 0); [lia|].
    by rewrite load64_put_same.
Qed.

(** ** Shrinking in place *)

(** [reallocate] of a block that is big enough returns the same
    pointer, keeps the first [newSize] bytes, and leaves a well-formed heap; when the
    rest is big enough it becomes a segment of its own, with the [free] flag of the
    block (so the rest of a live block stays marked as used). *)
Theorem reallocate_in_place h l1 s l2 newSize :
  heap_rep h (l1 ++ s :: l2) -> h_lock h = 0 -> 0 <= newSize -> newSize + 32 <= s_size s ->
  let a := m_firstSegment h + total l1 in
  exists h', reallocate h (a + 32) newSize = Done (h', a + 32) /\ h_lock h' = 0 /\
    heap_rep h'
      (if s_size s - (newSize + 64) <? 2 then l1 ++ s :: l2
       else l1 ++ Seg (newSize + 32) (s_free s) (s_prev s)
               :: Seg (s_size s - (newSize + 32)) (s_free s) a :: l2) /\
    read_bytes (h_mem h') (a + 32) (Z.to_nat newSize) = read_bytes (h_mem h) (a + 32) (Z.to_nat newSize).
Proof.
  intros H Hl Hs Hfit a. destruct (rep_focus _ _ _ _ H) as (P1 & P2 & P3 & P4 & P5).
  pose proof (rep_base _ _ H). pose proof (rep_top _ _ H).
  pose proof (rep_chain _ _ H) as C. apply chain_focus in C. destruct C as (_ & Ca & _).
  pose proof Ca as (Mm & Mg & _ & Sz & _). fold a in P1, P4, P5, Mm, Mg, Sz, Ca.
  unfold reallocate, sizeof_HeapSegmentHeader. destruct (Z.eqb_spec (a + 32) 0); [lia|].
  rewrite lock_free by done. cbn [mbind outcome_bind h_mem set_lock].
  replace (a + 32 ⊟ 32) with a by wordlia.
  destruct (magic_ok_read (h_mem h) a) as (ok & -> & Hok); [eapply mapped_sub; [exact Mm|lia..]|].
  assert (ok = true) as -> by (by apply Hok). cbn [mbind outcome_bind negb].
  rewrite Sz. cbn [mbind outcome_bind]. replace (newSize ⊞ 32) with (newSize + 32) by wordlia.
  destruct (Z.leb_spec (newSize + 32) (s_size s)); [|lia].
  destruct (Z.ltb_spec (s_size s - (newSize + 64)) 2) as [Hlt|Hge].
  - rewrite (splitSegment_refuses _ _ _ _ _ Ca) by (unfold is_u64; lia). simpl.
    eexists. split; [done|]. split; [done|]. split; [|done].
    destruct h; simpl in *. by subst.
  - destruct (splitSegment_splits _ _ _ _ (newSize + 32) Ca) as (m1 & E1 & O1 & K1 & A1 & B1);
      [done|destruct l2; wordlia|lia..|].
    rewrite E1. cbn [mbind outcome_bind fst]. eexists. split; [done|]. split; [done|].
    assert (unlock (set_mem (set_lock h 1) m1) = set_mem h m1) as ->
      by (destruct h; simpl in *; by rewrite Hl). split.
    + apply (rep_replace h l1 s l2
        [Seg (newSize + 32) (s_free s) (s_prev s); Seg (s_size s - (newSize + 32)) (s_free s) a]);
        [done|done|done|simpl; lia|repeat constructor; simpl; lia|]. simpl. done.
    + apply read_bytes_ext. intros b Hb. apply K1; lia.
Qed.

(** ** Where the code falls short *)

(** A heap of [n] bytes at 4096, after [init]. *)
Definition small_heap (n : Z) : outcome Heap :=
  heap_init (mkHeap (put_bytes ∅ 4096 (replicate (Z.to_nat n) 0)) 0 0 0) 4096 n.

(** [_splitSegment] does not store the new segment in the [prev] field of the
    segment behind it.  Three blocks, the middle one freed and its room split twice:
    the third block's [prev] still names the first part, and freeing that part and
    then the third block merges the two across the live second part. *)
Definition stale_prev_run : outcome (Z * Z) :=
  h ← small_heap 2048;
  r ← kmalloc h 64; let h := fst r in
  r ← kmalloc h 256; let '(h, b) := r in
  r ← kmalloc h 64; let '(h, c) := r in
  h ← kfree h b;
  r ← kmalloc h 32; let '(h, b1) := r in
  r ← kmalloc h 32; let '(h, b2) := r in   (* b2 stays live *)
  h ← kfree h b1;
  h ← kfree h c;
  r ← kmalloc h 96; let '(h, x) := r in
  Done (b2, x).

(** There is a run of [kmalloc] and [kfree] in which every
    freed pointer is a live block and no write leaves its block, and after which a
    new block of 96 bytes overlaps the 32 bytes of a block that is still live. *)
Theorem stale_prev_overlap :
  exists b2 x, stale_prev_run = Done (b2, x) /\ b2 <> 0 /\ x <> 0 /\
    x < b2 + 32 /\ b2 < x + 96.
Proof. do 2 eexists. split; [vm_compute; reflexivity|]. lia. Qed.

Definition refused_run : outcome (Z * Z * Z) :=
  h ← small_heap 2048;
  r ← kmalloc h 100; let '(h, a) := r in
  r ← kmalloc h 16; let h := fst r in
  z ← kmalloc h (2 ^ 64 - 40);
  h ← kfree h a;
  x ← kmalloc h 68;
  y ← kmalloc h 69;
  Done (snd x, snd y, snd z).

(** [allocate] gives up when the first segment of sufficient
    size cannot be split, so a request of 68 bytes fails on a heap that serves 69;
    and the size computation wraps, so a request of [2^64 - 40] bytes succeeds. *)
Theorem allocate_size_edges :
  exists y z, refused_run = Done (0, y, z) /\ y <> 0 /\ z <> 0.
Proof. do 2 eexists. split; [vm_compute; reflexivity|]. lia. Qed.

(** ** Witnesses *)
Definition the {A} (d : A) (o : outcome A) : A := match o with Done a => a | _ => d end.
Definition demo_raw : Heap := mkHeap (put_bytes ∅ 4096 (replicate 2048 0)) 0 0 0.
Definition demo0 : Heap := the demo_raw (heap_init demo_raw 4096 2048).
Definition demo1 : Heap := fst (the (demo0, 0) (allocate demo0 64)).
Definition demo2 : Heap := fst (the (demo1, 0) (allocate demo1 64)).
Definition demo1_segs : list seg := [Seg 96 false 0; Seg 1952 true 4096].
Definition demo2_segs : list seg := [Seg 96 false 0; Seg 96 false 4096; Seg 1856 true 4192].

Lemma demo_raw_mapped : mapped (h_mem demo_raw) 4096 2048.
Proof.
  intros b Hb. unfold demo_raw. cbn [h_mem]. rewrite lookup_put_bytes, length_replicate, decide_True by lia.
  apply lookup_lt_is_Some. rewrite length_replicate. lia.
Qed.

Lemma demo_raw_wf : mem_wf (h_mem demo_raw).
Proof.
  apply put_bytes_wf; [apply map_Forall_empty|]. apply Forall_replicate. done.
Qed.

Lemma demo0_rep : heap_rep demo0 [Seg 2048 true 0].
Proof.
  destruct (heap_init_ok demo_raw 4096 2048) as (h' & E & R & _);
    [apply demo_raw_wf|apply demo_raw_mapped|lia..|].
  unfold demo0. by rewrite E.
Qed.

Lemma demo1_rep : heap_rep demo1 demo1_segs.
Proof.
  destruct (allocate_runs demo0 _ 64 demo0_rep) as (m' & E & R & _); [by vm_compute|lia|].
  unfold demo1. rewrite E. exact R.
Qed.

Lemma demo2_rep : heap_rep demo2 demo2_segs.
Proof.
  destruct (allocate_runs demo1 _ 64 demo1_rep) as (m' & E & R & _); [by vm_compute|lia|].
  unfold demo2. rewrite E. exact R.
Qed.

Lemma heap_init_rep_witness : exists h',
  heap_init demo_raw 4096 2048 = Done h' /\ heap_rep h' [Seg 2048 true 0] /\
  m_firstSegment h' = 4096 /\ h_lock h' = h_lock demo_raw.
Proof.
  apply (heap_init_rep demo_raw 4096 2048); [apply demo_raw_wf|apply demo_raw_mapped|lia..].
Defined.

Lemma allocate_first_fit_witness : exists h',
  allocate demo1 100 = Done (h', 4224) /\
  heap_rep h' [Seg 96 false 0; Seg 132 false 4096; Seg 1820 true 4192].
Proof.
  destruct (allocate_first_fit demo1 demo1_segs 100 demo1_rep) as (h' & E & R & _);
    [by vm_compute|lia|]. exists h'. split; [exact E|exact R].
Defined.

(** The run that serves 100 bytes at 4224. *)
Lemma demo1_serves : exists m', allocate demo1 100 = Done (set_mem demo1 m', 4224).
Proof.
  destruct (allocate_runs demo1 _ 100 demo1_rep) as (m' & E & _); [by vm_compute|lia|].
  exists m'. exact E.
Qed.

Lemma allocate_block_fresh_witness : exists h',
  allocate demo1 100 = Done (h', 4224) /\
  forall b, 4224 <= b < 4224 + 100 -> in_free (m_firstSegment demo1) demo1_segs b.
Proof.
  destruct demo1_serves as [m' E]. exists (set_mem demo1 m'). split; [exact E|]. intros b Hb.
  apply (allocate_block_fresh demo1 demo1_segs 100 (set_mem demo1 m') 4224 demo1_rep);
    [by vm_compute|lia|exact E|lia|lia].
Defined.

Lemma free_coalesces_witness : exists h',
  free demo2 (4192 + 32) = Done h' /\
  heap_rep h' [Seg 96 false 0; Seg 1952 true 4096].
Proof.
  destruct (free_coalesces demo2 [Seg 96 false 0] (Seg 96 false 4096) [Seg 1856 true 4192] demo2_rep)
    as (h' & E & R & _); [by vm_compute|by vm_compute|]. exists h'. split; [exact E|exact R].
Defined.

Lemma free_keeps_invariants_witness :
  coalesced (free_spec 4096 [Seg 96 false 0] (Seg 96 false 4096) [Seg 1856 true 4192]).
Proof.
  apply (free_keeps_invariants 4096 [Seg 96 false 0] (Seg 96 false 4096) [Seg 1856 true 4192]);
    simpl; split_and!; done.
Defined.

Lemma allocate_free_roundtrip_witness : exists h' h'',
  allocate demo1 100 = Done (h', 4224) /\ free h' 4224 = Done h'' /\ heap_rep h'' demo1_segs.
Proof.
  destruct demo1_serves as [m' E].
  destruct (allocate_free_roundtrip demo1 demo1_segs 100 (set_mem demo1 m') 4224 demo1_rep) as (h'' & F & R & _);
    [by vm_compute|lia|vm_compute; split_and!; reflexivity
    |vm_compute; split; [congruence|done]|exact E|lia|].
  exists (set_mem demo1 m'), h''. split_and!; [exact E|exact F|exact R].
Defined.

Lemma invalid_pointer_rejected_witness :
  free demo2 4160 = Done demo2 /\ reallocate demo2 4160 8 = Done (demo2, 0).
Proof.
  apply (invalid_pointer_rejected demo2 4160 8 (replicate 7 0));
    [by vm_compute|lia|by vm_compute|done].
Defined.

Lemma reallocate_grow_witness : exists h' l2',
  reallocate demo2 4128 200 = Done (h', 4320) /\
  read_bytes (h_mem h') 4320 64 = Some (replicate 64 0) /\
  heap_rep h' (free_spec 4096 [] (Seg 96 false 0) l2').
Proof.
  destruct (reallocate_grow demo2 [] (Seg 96 false 0) [Seg 96 false 4096; Seg 1856 true 4192] 200
    (replicate 64 0) demo2_rep) as (h' & l2' & E & Rd & _ & R & _);
    [by vm_compute|lia|done|done|simpl; lia|done|by vm_compute|by vm_compute|].
  exists h', l2'. split_and!; [exact E|exact Rd|exact R].
Defined.

Lemma kmallocAligned_aligned_witness : exists h' p,
  kmallocAligned demo1 100 (2 ^ 6) = Done (h', p) /\ (p <> 0 -> p mod 64 = 0).
Proof.
  destruct (kmallocAligned_aligned demo1 demo1_segs 100 6 demo1_rep) as (h' & p & E & _ & _ & H);
    [by vm_compute|lia..|]. exists h', p. split; [exact E|]. intros Hp. apply (H Hp).
Defined.

Lemma reallocate_in_place_witness : exists h',
  reallocate demo2 4224 10 = Done (h', 4224) /\
  heap_rep h' [Seg 96 false 0; Seg 42 false 4096; Seg 54 false 4192; Seg 1856 true 4192].
Proof.
  destruct (reallocate_in_place demo2 [Seg 96 false 0] (Seg 96 false 4096) [Seg 1856 true 4192] 10
    demo2_rep) as (h' & E & _ & R & _); [by vm_compute|lia|simpl; lia|].
  exists h'. split; [exact E|exact R].
Defined.
