(* ===== verification/PageFrame.v ===== *)
(** * The page frame allocator (kernel/src/paging/page_frame_allocator.cpp, .h)

    [PageFrameBitmap] (one bit per physical page, 1 = used) and
    [PageFrameAllocator] (locking, freeing and requesting pages, with the memory
    counters), and the address translation of
    kernel/src/paging/phys_addr_translation.cpp.

    The buffer of the bitmap is the list of its [m_size] bytes; an access outside
    it faults. *)
From Stdlib Require Import ZArith Lia.
From stdpp Require Import base tactics numbers option list gmap.
From S2P Require Import Prelude Memory KMemory Sync.

Definition PAGE_SIZE : Z := 0x1000.

(** ** Address translation *)

(** [off] is [KERNEL_VIRTUAL_BASE - __kern_phys_base]. *)
Definition physToVirtAddr (off paddr : Z) : Z := paddr ⊞ off.
Definition virtToPhysAddr (off vaddr : Z) : Z := vaddr ⊟ off.

(** ** The bitmap *)
Record PageFrameBitmap := mkBitmap { bm_size : Z; bm_buffer : list Z }.

Definition addrToIndex (addr : Z) : Z := addr / PAGE_SIZE.

(** [initialize]: the buffer is filled with 0xff by [memset]. *)
Definition bitmap_initialize (size : Z) : PageFrameBitmap :=
  mkBitmap size (replicate (Z.to_nat size) 0xff).

Definition setPageValue (b : PageFrameBitmap) (addr : Z) (value : bool)
  : outcome (PageFrameBitmap * bool) :=
  let index := addrToIndex addr in
  if bm_size b ⊠ 8 <? index then Done (b, false)
  else
    let byteIdx := Z.to_nat (index / 8) in
    let mask := u8 (Z.shiftl 1 (index mod 8)) in
    v ← need (bm_buffer b !! byteIdx);
    let v := Z.land v (u8 (Z.lnot mask)) in
    let v := if value then Z.lor v mask else v in
    Done (mkBitmap (bm_size b) (<[byteIdx := v]> (bm_buffer b)), true).

Definition getPageValue (b : PageFrameBitmap) (addr : Z) : outcome bool :=
  let index := addrToIndex addr in
  let byteIdx := Z.to_nat (index / 8) in
  let mask := u8 (Z.shiftl 1 (index mod 8)) in
  v ← need (bm_buffer b !! byteIdx);
  Done (0 <? Z.land v mask).

Definition markPageFree (b : PageFrameBitmap) (addr : Z) := setPageValue b addr false.
Definition markPageUsed (b : PageFrameBitmap) (addr : Z) := setPageValue b addr true.
Definition isPageFree (b : PageFrameBitmap) (addr : Z) : outcome bool :=
  v ← getPageValue b addr; Done (Bool.eqb v false).
Definition isPageUsed (b : PageFrameBitmap) (addr : Z) : outcome bool :=
  v ← getPageValue b addr; Done (Bool.eqb v true).

(** ** The allocator *)
Record PageFrameAllocator := mkPFA {
  m_totalSystemMemory : Z;
  m_freeSystemMemory : Z;
  m_usedSystemMemory : Z;
  m_lastTrackedFreePage : Z;
  m_pageFrameBitmap : PageFrameBitmap;
  allocator_lock : Z;   (** [__kpage_allocator_lock] *)
  request_lock : Z;     (** [__kpage_request_lock] *)
}.

Definition set_counters (p : PageFrameAllocator) (free used : Z) (b : PageFrameBitmap) :=
  mkPFA (m_totalSystemMemory p) free used (m_lastTrackedFreePage p) b
        (allocator_lock p) (request_lock p).
Definition set_hint (p : PageFrameAllocator) (page : Z) :=
  mkPFA (m_totalSystemMemory p) (m_freeSystemMemory p) (m_usedSystemMemory p) page
        (m_pageFrameBitmap p) (allocator_lock p) (request_lock p).
Definition set_alock (p : PageFrameAllocator) (l : Z) :=
  mkPFA (m_totalSystemMemory p) (m_freeSystemMemory p) (m_usedSystemMemory p)
        (m_lastTrackedFreePage p) (m_pageFrameBitmap p) l (request_lock p).
Definition set_rlock (p : PageFrameAllocator) (l : Z) :=
  mkPFA (m_totalSystemMemory p) (m_freeSystemMemory p) (m_usedSystemMemory p)
        (m_lastTrackedFreePage p) (m_pageFrameBitmap p) (allocator_lock p) l.

(** [acquireSpinlock(&__kpage_allocator_lock)] and so on *)
Definition alock (p : PageFrameAllocator) : outcome PageFrameAllocator :=
  l ← acquireSpinlock (allocator_lock p); Done (set_alock p l).
Definition aunlock (p : PageFrameAllocator) := set_alock p (releaseSpinlock (allocator_lock p)).
Definition rlock (p : PageFrameAllocator) : outcome PageFrameAllocator :=
  l ← acquireSpinlock (request_lock p); Done (set_rlock p l).
Definition runlock (p : PageFrameAllocator) := set_rlock p (releaseSpinlock (request_lock p)).

Definition freePhysicalPage (p : PageFrameAllocator) (paddr : Z) : outcome PageFrameAllocator :=
  p ← alock p;
  f ← isPageFree (m_pageFrameBitmap p) paddr;
  if f : bool then Done (aunlock p)
  else
    r ← markPageFree (m_pageFrameBitmap p) paddr;
    let p := if (snd r : bool)
             then set_counters p (m_freeSystemMemory p ⊞ PAGE_SIZE)
                    (m_usedSystemMemory p ⊟ PAGE_SIZE) (fst r)
             else p in
    Done (aunlock p).

Definition lockPhysicalPage (p : PageFrameAllocator) (paddr : Z) : outcome PageFrameAllocator :=
  p ← alock p;
  f ← isPageUsed (m_pageFrameBitmap p) paddr;
  if f : bool then Done (aunlock p)
  else
    r ← markPageUsed (m_pageFrameBitmap p) paddr;
    let p := if (snd r : bool)
             then set_counters p (m_freeSystemMemory p ⊟ PAGE_SIZE)
                    (m_usedSystemMemory p ⊞ PAGE_SIZE) (fst r)
             else p in
    Done (aunlock p).

(** [for (uint64_t i = 0; i < pages; ++i) op(addr + i * PAGE_SIZE)] *)
Fixpoint each_page (op : PageFrameAllocator -> Z -> outcome PageFrameAllocator)
    (p : PageFrameAllocator) (addr : Z) (pages : nat) : outcome PageFrameAllocator :=
  match pages with
  | O => Done p
  | S n => p ← op p addr; each_page op p (addr ⊞ PAGE_SIZE) n
  end.

Definition freePhysicalPages p paddr (pages : Z) := each_page freePhysicalPage p paddr (Z.to_nat pages).
Definition lockPhysicalPages p paddr (pages : Z) := each_page lockPhysicalPage p paddr (Z.to_nat pages).

(** The same operations on a virtual address: [paddr = __pa(vaddr)]. *)
Definition freePage (off : Z) (p : PageFrameAllocator) (vaddr : Z) :=
  freePhysicalPage p (virtToPhysAddr off vaddr).
Definition lockPage (off : Z) (p : PageFrameAllocator) (vaddr : Z) :=
  lockPhysicalPage p (virtToPhysAddr off vaddr).
Definition freePages off p vaddr (pages : Z) := each_page (freePage off) p vaddr (Z.to_nat pages).
Definition lockPages off p vaddr (pages : Z) := each_page (lockPage off) p vaddr (Z.to_nat pages).

(** A page loop up to [m_totalSystemMemory] runs at most once per page. *)
Definition page_fuel (p : PageFrameAllocator) : nat :=
  S (S (Z.to_nat (m_totalSystemMemory p / PAGE_SIZE))).

(** Returns the virtual address of the page, 0 ([NULL]) when there is none. *)
Definition requestFreePage (off : Z) (p : PageFrameAllocator) : outcome (PageFrameAllocator * Z) :=
  p ← rlock p;
  loop (page_fuel p) (fun page =>
    if page <? m_totalSystemMemory p then
      u ← isPageUsed (m_pageFrameBitmap p) page;
      if u : bool then Done (inl (page ⊞ PAGE_SIZE))
      else
        p ← lockPhysicalPage p page;
        let p := set_hint p (page ⊞ PAGE_SIZE) in
        Done (inr (runlock p, physToVirtAddr off page))
    else Done (inr (runlock p, 0)))
    (m_lastTrackedFreePage p).

(** [page + PAGE_SIZE * pages]: both operations wrap. *)
Definition block_end (page pages : Z) : Z := page ⊞ (PAGE_SIZE ⊠ pages).

(** A loop over the block ends after one turn per page. *)
Definition block_fuel (page pages : Z) : nat := S (S (Z.to_nat ((block_end page pages - page) / PAGE_SIZE))).

(** The inner search: is one of the [pages] pages from [page] used? *)
Definition block_used (b : PageFrameBitmap) (page pages : Z) : outcome bool :=
  loop (block_fuel page pages) (fun ptr =>
    if ptr <? block_end page pages then
      u ← isPageUsed b ptr;
      if u : bool then Done (inr true) else Done (inl (ptr ⊞ PAGE_SIZE))
    else Done (inr false)) page.

(** The loop that locks the block. *)
Definition lock_body (fin : Z) (st : Z * PageFrameAllocator) : outcome (Z * PageFrameAllocator + PageFrameAllocator) :=
  let '(ptr, p) := st in
  if ptr <? fin then p ← lockPhysicalPage p ptr; Done (inl (ptr ⊞ PAGE_SIZE, p)) else Done (inr p).

Definition lock_block (p : PageFrameAllocator) (page pages : Z) : outcome PageFrameAllocator :=
  loop (block_fuel page pages) (lock_body (block_end page pages)) (page, p).

(** [for (pg = m_lastTrackedFreePage; pg < total; ...) if (isPageFree(pg)) { ...; break; }] *)
Definition retrack (p : PageFrameAllocator) : outcome PageFrameAllocator :=
  loop (page_fuel p) (fun pg =>
    if pg <? m_totalSystemMemory p then
      f ← isPageFree (m_pageFrameBitmap p) pg;
      if f : bool then Done (inr (set_hint p pg)) else Done (inl (pg ⊞ PAGE_SIZE))
    else Done (inr p)) (m_lastTrackedFreePage p).

Definition requestFreePages (off : Z) (p : PageFrameAllocator) (pages : Z)
  : outcome (PageFrameAllocator * Z) :=
  p ← rlock p;
  loop (page_fuel p) (fun page =>
    if page <? m_totalSystemMemory p then
      u ← block_used (m_pageFrameBitmap p) page pages;
      if u : bool then Done (inl (page ⊞ PAGE_SIZE))
      else
        p ← lock_block p page pages;
        p ← retrack p;
        Done (inr (runlock p, physToVirtAddr off page))
    else Done (inr (runlock p, 0)))
    (m_lastTrackedFreePage p).

(** The zeroing variants also take the memory the pages live in. *)
Definition requestFreePageZeroed (off : Z) (p : PageFrameAllocator) (m : gmap Z Z)
  : outcome (PageFrameAllocator * gmap Z Z * Z) :=
  r ← requestFreePage off p;
  m ← zeromem m (snd r) PAGE_SIZE;
  Done (fst r, m, snd r).

Definition requestFreePagesZeroed (off : Z) (p : PageFrameAllocator) (m : gmap Z Z) (pages : Z)
  : outcome (PageFrameAllocator * gmap Z Z * Z) :=
  r ← requestFreePages off p pages;
  if snd r =? 0 then Done (fst r, m, 0)
  else
    m ← zeromem m (snd r) (PAGE_SIZE ⊠ pages);
    Done (fst r, m, snd r).

(** ** The bitmap as a set of used pages *)

(** Is page number [i] marked as used? *)
Definition page_used (b : PageFrameBitmap) (i : Z) : bool :=
  match bm_buffer b !! Z.to_nat (i / 8) with
  | Some v => Z.testbit v (i mod 8)
  | None => true
  end.

Record bm_wf (b : PageFrameBitmap) : Prop := {
  bm_length : Z.of_nat (length (bm_buffer b)) = bm_size b;
  bm_bytes : Forall is_u8 (bm_buffer b);
  bm_small : bm_size b < 0x1000000000000000;
}.

(** Page [addr / PAGE_SIZE] has a bit in the buffer. *)
Definition in_bitmap (b : PageFrameBitmap) (addr : Z) : Prop :=
  0 <= addr /\ addr / PAGE_SIZE < 8 * bm_size b.

Definition bit_byte (v k : Z) (value : bool) : Z :=
  let mask := u8 (Z.shiftl 1 k) in
  let v := Z.land v (u8 (Z.lnot mask)) in if value then Z.lor v mask else v.

(** The mask arithmetic, checked on every byte and every bit. *)
Definition byte_checks : bool :=
  forallb (fun v => forallb (fun k =>
    Bool.eqb (0 <? Z.land v (u8 (Z.shiftl 1 k))) (Z.testbit v k) &&
    forallb (fun value =>
      let w := bit_byte v k value in
      (0 <=? w) && (w <? 256) &&
      forallb (fun j => Bool.eqb (Z.testbit w j) (if j =? k then value else Z.testbit v j)) (seqZ 0 8))
      [true; false]) (seqZ 0 8)) (seqZ 0 256).

Lemma byte_checks_ok : byte_checks = true.
Proof. vm_compute. reflexivity. Qed.

Lemma forallb_seqZ f a n x : forallb f (seqZ a n) = true -> a <= x < a + n -> f x = true.
Proof.
  intros H Hx. rewrite forallb_forall in H. apply H, list_elem_of_In, elem_of_seqZ. lia.
Qed.

Lemma byte_facts v k : is_u8 v -> 0 <= k < 8 ->
  (0 <? Z.land v (u8 (Z.shiftl 1 k))) = Z.testbit v k /\
  (forall value, is_u8 (bit_byte v k value) /\
     forall j, 0 <= j < 8 ->
     Z.testbit (bit_byte v k value) j = if j =? k then value else Z.testbit v j).
Proof.
  intros Hv Hk. pose proof byte_checks_ok as H. unfold byte_checks in H.
  pose proof (forallb_seqZ _ _ _ v H ltac:(unfold is_u8 in Hv; lia)) as H1. cbv beta in H1.
  pose proof (forallb_seqZ _ _ _ k H1 ltac:(lia)) as H2. cbv beta zeta in H2.
  apply andb_true_iff in H2 as [H2 H3]. split; [by apply eqb_prop in H2|].
  intros value. rewrite forallb_forall in H3.
  specialize (H3 value ltac:(destruct value; simpl; tauto)). cbv beta zeta in H3.
  apply andb_true_iff in H3 as [H3 H4]. apply andb_true_iff in H3 as [? ?].
  split; [unfold is_u8; lia|]. intros j Hj.
  pose proof (forallb_seqZ _ _ _ j H4 ltac:(lia)) as H5. cbv beta in H5. by apply eqb_prop in H5.
Qed.

Lemma bitmap_byte b addr : bm_wf b -> in_bitmap b addr ->
  exists v, bm_buffer b !! Z.to_nat (addr / PAGE_SIZE / 8) = Some v /\ is_u8 v.
Proof.
  intros Hb [H0 H1]. destruct (lookup_lt_is_Some_2 (bm_buffer b) (Z.to_nat (addr / PAGE_SIZE / 8))) as [v Hv].
  { pose proof (bm_length _ Hb). unfold PAGE_SIZE in *. wordlia. }
  exists v. split; [done|]. apply (Forall_lookup_1 _ _ _ _ (bm_bytes _ Hb) Hv).
Qed.

Lemma getPageValue_spec b addr : bm_wf b -> in_bitmap b addr ->
  getPageValue b addr = Done (page_used b (addr / PAGE_SIZE)).
Proof.
  intros Hb Hi. unfold getPageValue, page_used, addrToIndex.
  destruct (bitmap_byte b addr Hb Hi) as (v & -> & Hv). cbn [need mbind outcome_bind].
  f_equal. apply byte_facts; [done|]. apply Z.mod_pos_bound. lia.
Qed.

Lemma isPageUsed_spec b addr : bm_wf b -> in_bitmap b addr ->
  isPageUsed b addr = Done (page_used b (addr / PAGE_SIZE)).
Proof.
  intros. unfold isPageUsed. rewrite getPageValue_spec by done. simpl. by destruct (page_used _ _).
Qed.

Lemma isPageFree_spec b addr : bm_wf b -> in_bitmap b addr ->
  isPageFree b addr = Done (negb (page_used b (addr / PAGE_SIZE))).
Proof.
  intros. unfold isPageFree. rewrite getPageValue_spec by done. simpl. by destruct (page_used _ _).
Qed.

(** One bit changes, all others stay. *)
Lemma setPageValue_spec b addr value : bm_wf b -> in_bitmap b addr ->
  exists b', setPageValue b addr value = Done (b', true) /\ bm_wf b' /\ bm_size b' = bm_size b /\
    (forall i, 0 <= i ->
       page_used b' i = if i =? addr / PAGE_SIZE then value else page_used b i).
Proof.
  intros Hb Hi. unfold setPageValue, addrToIndex. pose proof (bm_small _ Hb). pose proof Hi as [? ?].
  set (idx := addr / PAGE_SIZE) in *. assert (0 <= idx) by (apply Z.div_pos; done).
  destruct (Z.ltb_spec (bm_size b ⊠ 8) idx); [wordlia|].
  destruct (bitmap_byte b addr Hb Hi) as (v & Ev & Hv). fold idx in Ev. rewrite Ev.
  cbn [need mbind outcome_bind].
  destruct (byte_facts v (idx mod 8) Hv) as [_ F]; [apply Z.mod_pos_bound; lia|].
  destruct (F value) as [F1 F2]. eexists. split; [reflexivity|].
  change (if value then _ else _) with (bit_byte v (idx mod 8) value). split_and!.
  - constructor; simpl; [rewrite length_insert; apply Hb| |done].
    apply Forall_insert; [apply Hb|done].
  - done.
  - intros i Hi0. unfold page_used. simpl.
    destruct (decide (Z.to_nat (i / 8) = Z.to_nat (idx / 8))) as [E|E].
    + rewrite E, list_lookup_insert_eq by (by eapply lookup_lt_Some).
      rewrite Ev, F2 by (apply Z.mod_pos_bound; lia).
      assert (i / 8 = idx / 8) as E' by (pose proof (Z.div_pos i 8); pose proof (Z.div_pos idx 8); lia).
      destruct (Z.eqb_spec (i mod 8) (idx mod 8)), (Z.eqb_spec i idx); try done; wordlia.
    + rewrite list_lookup_insert_ne by congruence.
      destruct (Z.eqb_spec i idx) as [->|]; done.
Qed.

(** ** Counting free pages *)
Definition count_free (used : Z -> bool) (l : list Z) : nat :=
  length (filter (fun i => used i = false) l).

Lemma count_free_ext f g l : (forall i, i ∈ l -> f i = g i) -> count_free f l = count_free g l.
Proof.
  unfold count_free. induction l as [|i l IH]; intros H; [done|].
  rewrite !filter_cons. rewrite (H i) by (left).
  specialize (IH (fun j Hj => H j (list_elem_of_further _ _ _ Hj))).
  destruct (decide (g i = false)); simpl; lia.
Qed.

(** Marking a free page of [l] as used lowers the count by one. *)
Lemma count_free_mark f g k l :
  NoDup l -> k ∈ l -> f k = false -> g k = true -> (forall i, i <> k -> g i = f i) ->
  S (count_free g l) = count_free f l.
Proof.
  intros Hnd Hk Hf Hg He. induction Hnd as [|i l Hi Hnd IH]; [by apply not_elem_of_nil in Hk|].
  unfold count_free in *. rewrite !filter_cons. apply elem_of_cons in Hk as [->|Hk].
  - rewrite Hf, Hg. simpl. f_equal.
    apply (count_free_ext g f l). intros j Hj. apply He. set_solver.
  - assert (i <> k) by set_solver. rewrite (He i) by done. specialize (IH Hk).
    destruct (decide (f i = false)); simpl; lia.
Qed.

Definition all_pages (b : PageFrameBitmap) : list Z := seqZ 0 (8 * bm_size b).
Definition free_pages (b : PageFrameBitmap) : Z := Z.of_nat (count_free (page_used b) (all_pages b)).

(** ** The invariant of the allocator *)
Record pfa_wf (p : PageFrameAllocator) : Prop := {
  wf_bitmap : bm_wf (m_pageFrameBitmap p);
  wf_total : 0 <= m_totalSystemMemory p < 0x4000000000000000;
  wf_aligned : m_totalSystemMemory p mod PAGE_SIZE = 0;
  (** the buffer has a bit for every page and at least one more, *)
  wf_room : m_totalSystemMemory p / PAGE_SIZE < 8 * bm_size (m_pageFrameBitmap p);
  (** which, like all bits behind the last page, is set *)
  wf_sentinel : forall i, m_totalSystemMemory p / PAGE_SIZE <= i ->
    page_used (m_pageFrameBitmap p) i = true;
  wf_hint : 0 <= m_lastTrackedFreePage p <= m_totalSystemMemory p;
  wf_hint_aligned : m_lastTrackedFreePage p mod PAGE_SIZE = 0;
  wf_free : m_freeSystemMemory p = PAGE_SIZE * free_pages (m_pageFrameBitmap p);
  wf_used : m_usedSystemMemory p = m_totalSystemMemory p - m_freeSystemMemory p;
  wf_alock : allocator_lock p = 0;
}.

(** [p'] is [p] with page [k] marked as [value]. *)
Definition marks (k : Z) (value : bool) (p p' : PageFrameAllocator) : Prop :=
  m_totalSystemMemory p' = m_totalSystemMemory p /\
  m_lastTrackedFreePage p' = m_lastTrackedFreePage p /\
  request_lock p' = request_lock p /\
  forall i, 0 <= i -> page_used (m_pageFrameBitmap p') i =
    if i =? k then value else page_used (m_pageFrameBitmap p) i.

Lemma wf_in_bitmap p addr : pfa_wf p -> 0 <= addr -> addr < m_totalSystemMemory p ->
  in_bitmap (m_pageFrameBitmap p) addr.
Proof.
  intros H ? ?. split; [done|]. pose proof (wf_room _ H).
  enough (addr / PAGE_SIZE <= m_totalSystemMemory p / PAGE_SIZE) by lia.
  apply Z.div_le_mono; [done|lia].
Qed.

Lemma page_below p addr : pfa_wf p -> 0 <= addr -> addr < m_totalSystemMemory p ->
  0 <= addr / PAGE_SIZE < m_totalSystemMemory p / PAGE_SIZE.
Proof.
  intros H ? ?. pose proof (wf_aligned _ H). unfold PAGE_SIZE in *. wordlia.
Qed.

Lemma free_pages_le b n : 0 <= n <= 8 * bm_size b ->
  (forall i, n <= i -> page_used b i = true) -> 0 <= free_pages b <= n.
Proof.
  intros Hn H. split; [unfold free_pages; lia|]. unfold free_pages, count_free, all_pages.
  replace (8 * bm_size b) with (n + (8 * bm_size b - n)) by lia.
  rewrite seqZ_app, filter_app, length_app by lia.
  assert (forall l, (forall i, i ∈ l -> n <= i) ->
    filter (fun i => page_used b i = false) l = []) as Hz.
  { intros l Hl. induction l as [|i l IH]; [done|]. rewrite filter_cons.
    rewrite (H i) by (apply Hl; left). simpl. apply IH. intros; apply Hl; by right. }
  rewrite (Hz (seqZ (0 + n) _)) by (intros i Hi%elem_of_seqZ; lia).
  pose proof (length_filter (fun i => page_used b i = false) (seqZ 0 n)) as Hl.
  rewrite length_seqZ in Hl. simpl. lia.
Qed.

(** The shared end of [lockPhysicalPage] and [freePhysicalPage]: a bit that really
    changes, and the counters that follow it. *)
Lemma free_pages_mark b b' k : 0 <= k < 8 * bm_size b -> bm_size b' = bm_size b ->
  page_used b k = false ->
  (forall i, 0 <= i -> page_used b' i = if i =? k then true else page_used b i) ->
  free_pages b' + 1 = free_pages b.
Proof.
  intros Hk Hs Hf He. unfold free_pages, all_pages. rewrite Hs.
  rewrite <- (count_free_mark (page_used b) (fun i => if i =? k then true else page_used b i) k
    (seqZ 0 (8 * bm_size b))).
  - rewrite (count_free_ext (page_used b') (fun i => if i =? k then true else page_used b i)); [lia|].
    intros i Hi%elem_of_seqZ. apply He. lia.
  - apply NoDup_seqZ.
  - apply elem_of_seqZ. lia.
  - done.
  - by rewrite Z.eqb_refl.
  - intros i Hi. by destruct (Z.eqb_spec i k).
Qed.

Lemma alock_free p : allocator_lock p = 0 -> alock p = Done (set_alock p 1).
Proof. unfold alock. by intros ->. Qed.

Lemma aunlock_locked p : allocator_lock p = 0 -> aunlock (set_alock p 1) = p.
Proof. destruct p; simpl. by intros ->. Qed.

(** The state after a bit and the counters changed. *)
Lemma wf_counters p b' k value :
  pfa_wf p -> bm_wf b' -> bm_size b' = bm_size (m_pageFrameBitmap p) ->
  0 <= k < m_totalSystemMemory p / PAGE_SIZE ->
  page_used (m_pageFrameBitmap p) k = negb value ->
  (forall i, 0 <= i -> page_used b' i = if i =? k then value else page_used (m_pageFrameBitmap p) i) ->
  let d := if value then - PAGE_SIZE else PAGE_SIZE in
  pfa_wf (set_counters p (m_freeSystemMemory p ⊞ d) (m_usedSystemMemory p ⊟ d) b').
Proof.
  intros H Hb Hs Hk Hold He d. pose proof (wf_room _ H) as Hroom. pose proof (wf_total _ H) as Ht.
  assert (free_pages b' = free_pages (m_pageFrameBitmap p) + (if value then -1 else 1)) as Hc.
  { destruct value.
    - rewrite <- (free_pages_mark (m_pageFrameBitmap p) b' k); [lia|lia|done|done|done].
    - rewrite <- (free_pages_mark b' (m_pageFrameBitmap p) k); [lia|lia|done| |].
      + rewrite He by lia. by rewrite Z.eqb_refl.
      + intros i Hi. rewrite He by done. by destruct (Z.eqb_spec i k) as [->|]. }
  assert (forall i, m_totalSystemMemory p / PAGE_SIZE <= i -> page_used b' i = true) as Hs'.
  { intros i Hi. rewrite He by lia. destruct (Z.eqb_spec i k); [lia|]. by apply (wf_sentinel _ H). }
  pose proof (free_pages_le (m_pageFrameBitmap p) (m_totalSystemMemory p / PAGE_SIZE) ltac:(lia)
    (wf_sentinel _ H)) as Hfb.
  pose proof (free_pages_le b' (m_totalSystemMemory p / PAGE_SIZE) ltac:(lia) Hs') as Hfb'.
  pose proof (wf_free _ H) as Hf. pose proof (wf_used _ H) as Hu. pose proof (wf_aligned _ H) as Ha.
  assert (m_freeSystemMemory p ⊞ d = PAGE_SIZE * free_pages b') as E1
    by (unfold d, PAGE_SIZE in *; destruct value; wordlia).
  assert (m_usedSystemMemory p ⊟ d = m_totalSystemMemory p - PAGE_SIZE * free_pages b') as E2
    by (unfold d, PAGE_SIZE in *; destruct value; wordlia).
  constructor; simpl; try apply H; try done; rewrite ?Hs, ?E1, ?E2; try done; try apply H.
Qed.

Lemma lockPhysicalPage_spec p addr :
  pfa_wf p -> 0 <= addr < m_totalSystemMemory p ->
  exists p', lockPhysicalPage p addr = Done p' /\ pfa_wf p' /\ marks (addr / PAGE_SIZE) true p p'.
Proof.
  intros H Ha. destruct (page_below p addr H) as [Hk1 Hk2]; [lia..|].
  assert (in_bitmap (m_pageFrameBitmap p) addr) as Hi by (apply wf_in_bitmap; [done|lia..]).
  unfold lockPhysicalPage. rewrite alock_free by apply H. cbn [mbind outcome_bind].
  simpl m_pageFrameBitmap. rewrite isPageUsed_spec by (apply H || done). cbn [mbind outcome_bind].
  destruct (page_used (m_pageFrameBitmap p) (addr / PAGE_SIZE)) eqn:E.
  - rewrite aunlock_locked by apply H. exists p. split_and!; [done|done|].
    split_and!; try done. intros i Hi0. by destruct (Z.eqb_spec i (addr / PAGE_SIZE)) as [->|].
  - unfold markPageUsed.
    destruct (setPageValue_spec _ addr true (wf_bitmap _ H) Hi) as (b' & -> & Hb & Hs & He).
    cbn [mbind outcome_bind fst snd]. eexists. split; [done|].
    pose proof (wf_counters p b' _ true H Hb Hs (conj Hk1 Hk2) E He) as W. split.
    + destruct p; simpl in *. pose proof (wf_alock _ H) as Hl. simpl in Hl. subst.
      unfold aunlock, set_counters, set_alock, releaseSpinlock in *. simpl in *.
      by rewrite Z.sub_opp_r in W.
    + split_and!; done.
Qed.

Lemma freePhysicalPage_spec p addr :
  pfa_wf p -> 0 <= addr < m_totalSystemMemory p ->
  exists p', freePhysicalPage p addr = Done p' /\ pfa_wf p' /\ marks (addr / PAGE_SIZE) false p p'.
Proof.
  intros H Ha. destruct (page_below p addr H) as [Hk1 Hk2]; [lia..|].
  assert (in_bitmap (m_pageFrameBitmap p) addr) as Hi by (apply wf_in_bitmap; [done|lia..]).
  unfold freePhysicalPage. rewrite alock_free by apply H. cbn [mbind outcome_bind].
  simpl m_pageFrameBitmap. rewrite isPageFree_spec by (apply H || done). cbn [mbind outcome_bind].
  destruct (page_used (m_pageFrameBitmap p) (addr / PAGE_SIZE)) eqn:E.
  - unfold markPageFree. simpl negb.
    destruct (setPageValue_spec _ addr false (wf_bitmap _ H) Hi) as (b' & -> & Hb & Hs & He).
    cbn [mbind outcome_bind fst snd]. eexists. split; [done|].
    pose proof (wf_counters p b' _ false H Hb Hs (conj Hk1 Hk2) E He) as W. split.
    + destruct p; simpl in *. pose proof (wf_alock _ H) as Hl. simpl in Hl. subst. exact W.
    + split_and!; done.
  - simpl negb. rewrite aunlock_locked by apply H. exists p. split_and!; [done|done|].
    split_and!; try done. intros i Hi0. by destruct (Z.eqb_spec i (addr / PAGE_SIZE)) as [->|].
Qed.

(** ** Requests *)

(** Page number of the hint, and one past the last page. *)
Definition hint_page (p : PageFrameAllocator) : Z := m_lastTrackedFreePage p / PAGE_SIZE.
Definition page_count (p : PageFrameAllocator) : Z := m_totalSystemMemory p / PAGE_SIZE.
Definition used (p : PageFrameAllocator) (i : Z) : bool := page_used (m_pageFrameBitmap p) i.

(** The page loops stand at page [k]. *)
Definition at_page (p : PageFrameAllocator) (page k : Z) : Prop :=
  page = k * PAGE_SIZE /\ hint_page p <= k <= page_count p.

Lemma hint_page_nonneg p : pfa_wf p -> 0 <= hint_page p.
Proof. intros H. apply Z.div_pos; [apply H|done]. Qed.

Lemma at_page_hint p : pfa_wf p -> at_page p (m_lastTrackedFreePage p) (hint_page p).
Proof.
  intros H. pose proof (wf_hint _ H). pose proof (wf_hint_aligned _ H).
  unfold at_page, hint_page, page_count, PAGE_SIZE in *. wordlia.
Qed.

Lemma at_page_ltb p page k : pfa_wf p -> at_page p page k ->
  (page <? m_totalSystemMemory p) = (k <? page_count p).
Proof.
  intros H [-> _]. pose proof (wf_aligned _ H). unfold page_count, PAGE_SIZE in *.
  destruct (Z.ltb_spec (k * 4096) (m_totalSystemMemory p)), (Z.ltb_spec k (m_totalSystemMemory p / 4096));
    try done; wordlia.
Qed.

(** Inside the memory a page address does not wrap. *)
Lemma next_page p k : pfa_wf p -> 0 <= k < page_count p -> k * PAGE_SIZE ⊞ PAGE_SIZE = (k + 1) * PAGE_SIZE.
Proof. intros H Hk. pose proof (wf_total _ H). unfold page_count, PAGE_SIZE in *. wordlia. Qed.

Lemma at_page_next p page k : pfa_wf p -> at_page p page k -> k < page_count p ->
  at_page p (page ⊞ PAGE_SIZE) (k + 1).
Proof.
  intros H [-> ?] ?. pose proof (hint_page_nonneg _ H). rewrite (next_page p) by (done || lia). unfold at_page. lia.
Qed.

Lemma at_page_div p page k : at_page p page k -> page / PAGE_SIZE = k.
Proof. intros [-> _]. by apply Z.div_mul. Qed.

Lemma at_page_range p page k : pfa_wf p -> at_page p page k -> k < page_count p ->
  0 <= page < m_totalSystemMemory p.
Proof.
  intros H Hp Hk. pose proof (at_page_ltb _ _ _ H Hp) as E. pose proof (wf_hint _ H).
  destruct Hp as [-> ?]. unfold hint_page, PAGE_SIZE in *.
  destruct (Z.ltb_spec k (page_count p)); [|lia].
  apply Z.ltb_lt in E. split; [|done]. wordlia.
Qed.

Lemma page_fuel_enough p k : pfa_wf p -> hint_page p <= k <= page_count p ->
  (Z.to_nat (page_count p - k) < page_fuel p)%nat.
Proof.
  intros H Hk. pose proof (wf_hint _ H). unfold page_fuel, hint_page, page_count, PAGE_SIZE in *. wordlia.
Qed.

Lemma used_spec p page k : pfa_wf p -> at_page p page k -> k < page_count p ->
  isPageUsed (m_pageFrameBitmap p) page = Done (used p k).
Proof.
  intros H Hp Hk. pose proof (at_page_range _ _ _ H Hp Hk). rewrite isPageUsed_spec.
  - by rewrite (at_page_div _ _ _ Hp).
  - apply H.
  - apply wf_in_bitmap; [done|lia..].
Qed.

Lemma rlock_free p : request_lock p = 0 -> rlock p = Done (set_rlock p 1).
Proof. unfold rlock. by intros ->. Qed.

Lemma pfa_wf_rlock p l : pfa_wf p -> pfa_wf (set_rlock p l).
Proof. intros []. by constructor. Qed.

Lemma pfa_wf_hint p k : pfa_wf p -> 0 <= k <= page_count p -> pfa_wf (set_hint p (k * PAGE_SIZE)).
Proof.
  intros H Hk. pose proof (wf_aligned _ H). destruct H. constructor; try done; simpl.
  - unfold page_count, PAGE_SIZE in *. wordlia.
  - by apply Z.mod_mul.
Qed.

(** What a request for one page answers: the first free page from the hint on. *)
Definition request_answer (off : Z) (p : PageFrameAllocator) (r : PageFrameAllocator * Z) : Prop :=
  (r = (p, 0) /\ forall i, hint_page p <= i < page_count p -> used p i = true) \/
  exists k, hint_page p <= k < page_count p /\ used p k = false /\
    (forall i, hint_page p <= i < k -> used p i = true) /\
    snd r = physToVirtAddr off (k * PAGE_SIZE) /\
    pfa_wf (fst r) /\ request_lock (fst r) = 0 /\
    page_count (fst r) = page_count p /\ hint_page (fst r) = k + 1 /\
    (forall i, 0 <= i -> used (fst r) i = if i =? k then true else used p i).

Lemma requestFreePage_answer off p :
  pfa_wf p -> request_lock p = 0 ->
  exists r, requestFreePage off p = Done r /\ request_answer off p r.
Proof.
  intros H Hl. unfold requestFreePage. rewrite rlock_free by done. cbn [mbind outcome_bind].
  set (q := set_rlock p 1). assert (pfa_wf q) as Hq by (by apply pfa_wf_rlock).
  assert (hint_page q = hint_page p /\ page_count q = page_count p) as [Eh Et] by done.
  apply (loop_total
    (fun page => exists k, at_page q page k /\ forall i, hint_page q <= i < k -> used q i = true)
    (fun page => Z.to_nat (page_count q - page / PAGE_SIZE))).
  - intros page (k & Hp & Hused). rewrite (at_page_ltb q page k Hq Hp).
    pose proof (at_page_div _ _ _ Hp) as Ek.
    destruct (Z.ltb_spec k (page_count q)) as [Hk|Hk].
    + rewrite (used_spec q page k Hq Hp Hk). cbn [mbind outcome_bind].
      destruct (used q k) eqn:E.
      * left. eexists. split; [done|]. split.
        -- exists (k + 1). split; [by apply at_page_next|]. intros i Hi.
           destruct (decide (i = k)) as [->|]; [done|]. apply Hused. lia.
        -- rewrite Ek, (at_page_div _ _ _ (at_page_next _ _ _ ltac:(eassumption) Hp Hk)). lia.
      * right. destruct (lockPhysicalPage_spec q page Hq) as (p' & -> & Hp' & Hm);
          [by eapply at_page_range|]. cbn [mbind outcome_bind].
        eexists. split; [done|]. right. exists k. destruct Hm as (M1 & M2 & M3 & M4).
        rewrite Ek in M4. destruct Hp as [-> Hb].
        pose proof (hint_page_nonneg _ Hq).
        assert (page_count p' = page_count p) as Ec by (unfold page_count; by rewrite M1).
        rewrite (next_page q) by (done || lia).
        split_and!; simpl; try done.
        -- unfold hint_page, page_count in *. simpl in *. lia.
        -- apply (pfa_wf_rlock (set_hint p' _)), pfa_wf_hint; [done|]. rewrite Ec.
           unfold page_count in *; simpl in *; lia.
        -- unfold hint_page. simpl. by apply Z.div_mul.
    + right. eexists. split; [done|]. left. split; [|intros i Hi; apply Hused; destruct Hp as [_ Hp]; lia].
      unfold q. destruct p; simpl in *. by subst.
  - exists (hint_page q). split; [by apply at_page_hint|]. lia.
  - apply page_fuel_enough; [done|]. destruct (at_page_hint q Hq) as [_ ?]. unfold hint_page in *. simpl in *. lia.
Qed.

(** The search for a block stops at the set bits behind the last page, so it never
    reads outside the buffer. *)
Lemma block_end_small k n : 0 <= k -> 0 <= n -> (k + n) * PAGE_SIZE < 0x10000000000000000 ->
  block_end (k * PAGE_SIZE) n = (k + n) * PAGE_SIZE /\ block_fuel (k * PAGE_SIZE) n = S (S (Z.to_nat n)).
Proof.
  intros Hk Hn Hw.
  assert (block_end (k * PAGE_SIZE) n = (k + n) * PAGE_SIZE) as E by (unfold block_end, PAGE_SIZE in *; wordlia).
  split; [exact E|]. unfold block_fuel. rewrite E. replace ((k + n) * PAGE_SIZE - k * PAGE_SIZE) with (n * PAGE_SIZE) by lia.
  by rewrite Z.div_mul.
Qed.

Lemma block_used_spec p k n :
  pfa_wf p -> 0 <= k < page_count p -> 0 <= n -> (k + n) * PAGE_SIZE < 0x10000000000000000 ->
  exists u, block_used (m_pageFrameBitmap p) (k * PAGE_SIZE) n = Done u /\
    (u = true -> exists i, k <= i < k + n /\ used p i = true) /\
    (u = false -> k + n <= page_count p /\ forall i, k <= i < k + n -> used p i = false).
Proof.
  intros H Hk Hn Hw. unfold block_used. destruct (block_end_small k n) as [-> ->]; [lia..|].
  apply (loop_total
    (fun ptr => exists j, ptr = j * PAGE_SIZE /\ k <= j <= k + n /\ j <= page_count p /\
       forall i, k <= i < j -> used p i = false)
    (fun ptr => Z.to_nat (k + n - ptr / PAGE_SIZE))).
  - intros ptr (j & -> & Hj & Hj' & Hfree). rewrite Z.div_mul by done.
    destruct (Z.ltb_spec (j * PAGE_SIZE) ((k + n) * PAGE_SIZE)) as [Hlt|Hge].
    + assert (j < k + n) by (unfold PAGE_SIZE in *; lia).
      rewrite isPageUsed_spec; [|apply H|split; [unfold PAGE_SIZE; lia|]; rewrite Z.div_mul by done;
        pose proof (wf_room _ H); unfold page_count in *; lia].
      rewrite Z.div_mul by done. cbn [mbind outcome_bind]. fold (used p j).
      destruct (used p j) eqn:E.
      * right. exists true. split; [done|]. split; [|done]. intros _. exists j. split; [lia|done].
      * left. assert (j < page_count p).
        { destruct (decide (j = page_count p)) as [->|]; [|lia].
          unfold used in E. rewrite (wf_sentinel _ H) in E; [done|unfold page_count; lia]. }
        eexists. split; [done|]. rewrite (next_page p) by (done || lia). split.
        -- exists (j + 1). split; [lia|]. split; [lia|]. split; [lia|].
           intros i Hi. destruct (decide (i = j)) as [->|]; [done|]. apply Hfree. lia.
        -- rewrite Z.div_mul by done. lia.
    + right. exists false. split; [done|]. split; [done|]. intros _.
      assert (j = k + n) as -> by (unfold PAGE_SIZE in *; lia). auto.
  - exists k. split; [done|]. split; [lia|]. split; [lia|]. lia.
  - rewrite Z.div_mul by done. lia.
Qed.

(** The loop up to the end of the block locks its pages one after the other. *)
Lemma lock_loop n : forall fuel k p, 0 <= k -> (k + Z.of_nat n) * PAGE_SIZE < 0x10000000000000000 -> (n < fuel)%nat ->
  loop fuel (lock_body ((k + Z.of_nat n) * PAGE_SIZE)) (k * PAGE_SIZE, p) = each_page lockPhysicalPage p (k * PAGE_SIZE) n.
Proof.
  induction n as [|n IH]; intros fuel k p Hk Hw Hf; (destruct fuel as [|fuel]; [lia|]); cbn [loop lock_body each_page].
  - by destruct (Z.ltb_spec (k * PAGE_SIZE) ((k + Z.of_nat 0) * PAGE_SIZE)); [unfold PAGE_SIZE in *; lia|].
  - destruct (Z.ltb_spec (k * PAGE_SIZE) ((k + Z.of_nat (S n)) * PAGE_SIZE)); [|unfold PAGE_SIZE in *; lia].
    destruct (lockPhysicalPage p (k * PAGE_SIZE)) as [p1| |]; cbn [mbind outcome_bind]; [|done|done].
    replace (k * PAGE_SIZE ⊞ PAGE_SIZE) with ((k + 1) * PAGE_SIZE) by (unfold PAGE_SIZE in *; wordlia).
    replace (k + Z.of_nat (S n)) with (k + 1 + Z.of_nat n) by lia. apply IH; lia.
Qed.

Lemma lock_block_eq p k n : 0 <= k -> 0 <= n -> (k + n) * PAGE_SIZE < 0x10000000000000000 ->
  lock_block p (k * PAGE_SIZE) n = each_page lockPhysicalPage p (k * PAGE_SIZE) (Z.to_nat n).
Proof.
  intros Hk Hn Hw. unfold lock_block. destruct (block_end_small k n) as [-> ->]; [lia..|].
  replace (k + n) with (k + Z.of_nat (Z.to_nat n)) by lia. apply lock_loop; [lia|rewrite Z2Nat.id by lia; exact Hw|lia].
Qed.

Lemma lockPhysicalPages_spec n : forall p k,
  pfa_wf p -> 0 <= k -> k + Z.of_nat n <= page_count p ->
  exists p', each_page lockPhysicalPage p (k * PAGE_SIZE) n = Done p' /\ pfa_wf p' /\
    m_totalSystemMemory p' = m_totalSystemMemory p /\
    m_lastTrackedFreePage p' = m_lastTrackedFreePage p /\ request_lock p' = request_lock p /\
    (forall i, 0 <= i ->
       used p' i = if (k <=? i) && (i <? k + Z.of_nat n) then true else used p i).
Proof.
  induction n as [|n IH]; intros p k H Hk Hn; cbn [each_page].
  - exists p. split_and!; try done. intros i Hi.
    destruct (Z.leb_spec k i), (Z.ltb_spec i (k + Z.of_nat 0)); try done; lia.
  - pose proof (wf_aligned _ H). pose proof (wf_total _ H).
    destruct (lockPhysicalPage_spec p (k * PAGE_SIZE) H) as (p1 & -> & W1 & M1 & M2 & M3 & M4).
    { unfold page_count, PAGE_SIZE in *. wordlia. }
    cbn [mbind outcome_bind]. rewrite Z.div_mul in M4 by done.
    replace (k * PAGE_SIZE ⊞ PAGE_SIZE) with ((k + 1) * PAGE_SIZE)
      by (unfold page_count, PAGE_SIZE in *; wordlia).
    destruct (IH p1 (k + 1) W1) as (p2 & -> & W2 & N1 & N2 & N3 & N4);
      [lia|unfold page_count in *; rewrite M1; lia|].
    exists p2. split_and!; try done; try congruence. intros i Hi. rewrite N4 by done.
    unfold used in *. rewrite M4 by done.
    destruct (Z.leb_spec (k + 1) i), (Z.ltb_spec i (k + 1 + Z.of_nat n)), (Z.eqb_spec i k),
      (Z.leb_spec k i), (Z.ltb_spec i (k + Z.of_nat (S n))); try done; lia.
Qed.

Lemma retrack_spec p : pfa_wf p ->
  exists p', retrack p = Done p' /\ pfa_wf p' /\ request_lock p' = request_lock p /\
    m_totalSystemMemory p' = m_totalSystemMemory p /\
    m_pageFrameBitmap p' = m_pageFrameBitmap p /\
    hint_page p <= hint_page p' /\
    (forall i, hint_page p <= i < hint_page p' -> used p i = true).
Proof.
  intros H. unfold retrack.
  apply (loop_total
    (fun page => exists k, at_page p page k /\ forall i, hint_page p <= i < k -> used p i = true)
    (fun page => Z.to_nat (page_count p - page / PAGE_SIZE))).
  - intros page (k & Hp & Hused). rewrite (at_page_ltb p page k H Hp).
    pose proof (at_page_div _ _ _ Hp) as Ek. pose proof (hint_page_nonneg _ H).
    destruct (Z.ltb_spec k (page_count p)) as [Hk|Hk].
    + pose proof (at_page_range _ _ _ H Hp Hk).
      rewrite isPageFree_spec, Ek by (apply H || (apply wf_in_bitmap; [done|lia..])).
      cbn [mbind outcome_bind]. fold (used p k). destruct (used p k) eqn:E; simpl negb.
      * left. eexists. split; [done|]. split.
        -- exists (k + 1). split; [by apply at_page_next|]. intros i Hi.
           destruct (decide (i = k)) as [->|]; [done|]. apply Hused. lia.
        -- rewrite (at_page_div _ _ _ (at_page_next _ _ _ ltac:(eassumption) Hp Hk)). lia.
      * right. eexists. split; [done|]. destruct Hp as [-> Hp].
        assert (hint_page (set_hint p (k * PAGE_SIZE)) = k) as -> by (by apply Z.div_mul).
        split_and!; try done; [|lia]. apply pfa_wf_hint; [done|lia].
    + right. eexists. split; [done|]. split_and!; try done. intros i Hi. lia.
  - exists (hint_page p). split; [by apply at_page_hint|]. lia.
  - apply page_fuel_enough; [done|]. destruct (at_page_hint p H) as [_ ?]. unfold hint_page in *. lia.
Qed.

(** What a request for [n] contiguous pages answers: the first block of free pages
    from the hint on. *)
Definition block_free (p : PageFrameAllocator) (k n : Z) : Prop :=
  k + n <= page_count p /\ forall i, k <= i < k + n -> used p i = false.

Definition request_block_answer (off n : Z) (p : PageFrameAllocator) (r : PageFrameAllocator * Z) : Prop :=
  (r = (p, 0) /\ forall k, hint_page p <= k < page_count p -> ~ block_free p k n) \/
  exists k, hint_page p <= k /\ block_free p k n /\
    (forall k', hint_page p <= k' < k -> ~ block_free p k' n) /\
    snd r = physToVirtAddr off (k * PAGE_SIZE) /\
    pfa_wf (fst r) /\ request_lock (fst r) = 0 /\ page_count (fst r) = page_count p /\
    (forall i, 0 <= i -> used (fst r) i = if (k <=? i) && (i <? k + n) then true else used p i) /\
    (forall i, hint_page p <= i < hint_page (fst r) -> used (fst r) i = true).

Lemma requestFreePages_answer off n p :
  pfa_wf p -> request_lock p = 0 -> 0 < n -> m_totalSystemMemory p + n * PAGE_SIZE <= 0x10000000000000000 ->
  exists r, requestFreePages off p n = Done r /\ request_block_answer off n p r.
Proof.
  intros H Hl Hn Hw. unfold requestFreePages. rewrite rlock_free by done. cbn [mbind outcome_bind].
  set (q := set_rlock p 1). assert (pfa_wf q) as Hq by (by apply pfa_wf_rlock).
  assert (hint_page q = hint_page p /\ page_count q = page_count p) as [Eh Et] by done.
  assert (forall k m, block_free q k m <-> block_free p k m) as Eb by done.
  apply (loop_total
    (fun page => exists k, at_page q page k /\ forall k', hint_page p <= k' < k -> ~ block_free p k' n)
    (fun page => Z.to_nat (page_count q - page / PAGE_SIZE))).
  - intros page (k & Hp & Hno). rewrite (at_page_ltb q page k Hq Hp).
    pose proof (at_page_div _ _ _ Hp) as Ek. pose proof (hint_page_nonneg _ Hq).
    destruct (Z.ltb_spec k (page_count q)) as [Hk|Hk].
    + destruct Hp as [-> Hp].
      assert ((k + n) * PAGE_SIZE < 0x10000000000000000) as Hwk.
      { pose proof (wf_aligned _ Hq). unfold page_count, PAGE_SIZE in *. simpl in *. wordlia. }
      destruct (block_used_spec q k n Hq) as (u & -> & Hu1 & Hu2); [lia..|].
      cbn [mbind outcome_bind]. destruct u.
      * left. eexists. split; [done|]. split.
        -- exists (k + 1). split; [rewrite (next_page q) by (done || lia); split; lia|]. intros k' Hk'.
           destruct (decide (k' = k)) as [->|]; [|apply Hno; lia].
           destruct Hu1 as (i & Hi & Hiu); [done|]. intros [_ Hf].
           change (used q i) with (used p i) in Hiu. rewrite (Hf i Hi) in Hiu. done.
        -- rewrite (next_page q), Ek, Z.div_mul by (done || lia). lia.
      * right. destruct (Hu2 eq_refl) as [Hfit Hfree]. rewrite lock_block_eq by lia.
        destruct (lockPhysicalPages_spec (Z.to_nat n) q k Hq) as (p1 & -> & W1 & M1 & M2 & M3 & M4);
          [lia..|]. cbn [mbind outcome_bind]. rewrite Z2Nat.id in M4 by lia.
        destruct (retrack_spec p1 W1) as (p2 & -> & W2 & N1 & N2 & N3 & N4 & N5). cbn [mbind outcome_bind].
        eexists. split; [done|]. right. exists k. simpl fst.
        assert (hint_page p1 = hint_page p) as Eh1 by (unfold hint_page; by rewrite M2).
        split_and!; try done; [lia|by apply pfa_wf_rlock|unfold page_count in *; simpl; congruence| |].
        -- intros i Hi. unfold used. simpl. rewrite N3. by apply M4.
        -- intros i Hi. unfold used. simpl. rewrite N3. apply N5.
           change (hint_page (runlock p2)) with (hint_page p2) in Hi. lia.
    + right. eexists. split; [done|]. left. split; [|intros k' Hk'; apply Hno; lia].
      unfold q. destruct p; simpl in *. by subst.
  - exists (hint_page q). split; [by apply at_page_hint|]. lia.
  - apply page_fuel_enough; [done|]. destruct (at_page_hint q Hq) as [_ ?]. unfold hint_page in *. simpl in *. lia.
Qed.

(** The size of 2^52 pages is 0: the loops over the block have no turn. *)
Lemma requestFreePages_huge off p : pfa_wf p -> request_lock p = 0 -> hint_page p < page_count p ->
  exists p', requestFreePages off p 0x10000000000000 = Done (p', physToVirtAddr off (hint_page p * PAGE_SIZE)) /\
    m_pageFrameBitmap p' = m_pageFrameBitmap p.
Proof.
  intros H Hl Hh. unfold requestFreePages. rewrite rlock_free by done. cbn [mbind outcome_bind].
  assert (pfa_wf (set_rlock p 1)) as Hq by (by apply pfa_wf_rlock).
  destruct (at_page_hint p H) as [Ep _]. change (m_lastTrackedFreePage (set_rlock p 1)) with (m_lastTrackedFreePage p). rewrite Ep.
  unfold page_fuel. cbn [loop set_rlock m_totalSystemMemory].
  assert (block_end (hint_page p * PAGE_SIZE) 0x10000000000000 = hint_page p * PAGE_SIZE) as Eb.
  { unfold block_end, page_count, PAGE_SIZE in *. pose proof (wf_total _ H). pose proof (hint_page_nonneg _ H). wordlia. }
  assert ((hint_page p * PAGE_SIZE <? m_totalSystemMemory p) = true) as ->
    by (apply Z.ltb_lt; unfold page_count, PAGE_SIZE in *; wordlia).
  unfold block_used, lock_block, block_fuel. rewrite Eb, Z.sub_diag. cbn [loop lock_body]. rewrite Z.ltb_irrefl. cbn [mbind outcome_bind].
  destruct (retrack_spec _ Hq) as (p2 & -> & _ & _ & _ & Eb2 & _). cbn [mbind outcome_bind]. eexists. split; [reflexivity|]. exact Eb2.
Qed.

(** ** Properties *)

(** On an address with a bit in the buffer, [_setPageValue] sets
    exactly the bit of that page and [_getPageValue], [isPageFree] and [isPageUsed]
    read it back. *)
Theorem bitmap_set_get b addr value :
  bm_wf b -> in_bitmap b addr ->
  exists b', setPageValue b addr value = Done (b', true) /\ bm_wf b' /\
    getPageValue b' addr = Done value /\
    isPageFree b' addr = Done (negb value) /\ isPageUsed b' addr = Done value /\
    (forall addr', in_bitmap b addr' -> addr' / PAGE_SIZE <> addr / PAGE_SIZE ->
       getPageValue b' addr' = getPageValue b addr').
Proof.
  intros Hb Hi. destruct (setPageValue_spec b addr value Hb Hi) as (b' & E & Hb' & Hs & He).
  assert (forall a, in_bitmap b a -> in_bitmap b' a) as Hin by (intros a; unfold in_bitmap; by rewrite Hs).
  assert (0 <= addr / PAGE_SIZE) by (apply Z.div_pos; [apply Hi|done]).
  exists b'. split_and!; [done|done|..].
  - rewrite getPageValue_spec, He, Z.eqb_refl by auto. done.
  - rewrite isPageFree_spec, He, Z.eqb_refl by auto. done.
  - rewrite isPageUsed_spec, He, Z.eqb_refl by auto. done.
  - intros a Ha Hne. assert (0 <= a / PAGE_SIZE) by (apply Z.div_pos; [apply Ha|done]).
    rewrite !getPageValue_spec, He by auto.
    by destruct (Z.eqb_spec (a / PAGE_SIZE) (addr / PAGE_SIZE)).
Qed.

(** On a well-formed allocator, locking or freeing a physical page
    below [m_totalSystemMemory] returns, changes the bit of that page and no other,
    and keeps the invariant, of which the accounting is part: the free counter is
    the page size times the number of clear bits, and used plus free is the total. *)
Theorem lock_free_accounting p addr :
  pfa_wf p -> 0 <= addr < m_totalSystemMemory p ->
  (exists p', lockPhysicalPage p addr = Done p' /\ pfa_wf p' /\ marks (addr / PAGE_SIZE) true p p') /\
  (exists p', freePhysicalPage p addr = Done p' /\ pfa_wf p' /\ marks (addr / PAGE_SIZE) false p p').
Proof. intros H Ha. split; [by apply lockPhysicalPage_spec|by apply freePhysicalPage_spec]. Qed.

(** [requestFreePage] on a well-formed allocator returns; it hands
    out the first free page from [m_lastTrackedFreePage] on, marks that page and no
    other, moves the hint behind it and releases its lock, or answers NULL and
    changes nothing when every page from the hint on is used. *)
Theorem requestFreePage_first_free off p :
  pfa_wf p -> request_lock p = 0 ->
  exists r, requestFreePage off p = Done r /\ request_answer off p r.
Proof. apply requestFreePage_answer. Qed.


(** [n] requests for one page, one after the other. *)
Fixpoint request_many (off : Z) (n : nat) (p : PageFrameAllocator) : outcome PageFrameAllocator :=
  match n with
  | O => Done p
  | S n => r ← requestFreePage off p; request_many off n (fst r)
  end.

Lemma request_many_below off n : forall p k,
  pfa_wf p -> request_lock p = 0 -> 0 <= k < hint_page p -> used p k = false ->
  exists p', request_many off n p = Done p' /\ used p' k = false.
Proof.
  induction n as [|n IH]; intros p k H Hl Hk Hu; cbn [request_many]; [eauto|].
  destruct (requestFreePage_answer off p H Hl) as (r & -> & Hr). cbn [mbind outcome_bind].
  destruct Hr as [[-> _]|(j & Hj & _ & _ & _ & W & L & _ & Hh & He)]; [by apply IH|].
  apply IH; try done; [lia|]. rewrite He by lia. destruct (Z.eqb_spec k j); [lia|done].
Qed.

(** Freeing never lowers [m_lastTrackedFreePage], so a page
    that [requestFreePage] handed out and that is freed again stays free through any
    number of further requests: single-page requests never reuse it. *)
Theorem freed_page_not_reused off n p p1 k :
  pfa_wf p -> request_lock p = 0 -> 0 <= k < page_count p ->
  requestFreePage off p = Done (p1, physToVirtAddr off (k * PAGE_SIZE)) ->
  used p k = false -> used p1 k = true ->
  exists p2 p3, freePhysicalPage p1 (k * PAGE_SIZE) = Done p2 /\ used p2 k = false /\
    request_many off n p2 = Done p3 /\ used p3 k = false.
Proof.
  intros H Hl Hk E Hu Hu1. destruct (requestFreePage_answer off p H Hl) as (r & E' & Hr).
  rewrite E in E'. injection E' as <-.
  destruct Hr as [[[= -> _] _]|(j & Hj & _ & _ & _ & W & L & C & Hh & He)]; [congruence|]. simpl in *.
  assert (k = j) as -> by (rewrite He in Hu1 by lia; destruct (Z.eqb_spec k j); congruence).
  pose proof (wf_aligned _ W).
  destruct (freePhysicalPage_spec p1 (j * PAGE_SIZE) W) as (p2 & E2 & W2 & M1 & M2 & M3 & M4).
  { unfold page_count, PAGE_SIZE in *. wordlia. }
  rewrite Z.div_mul in M4 by done.
  assert (used p2 j = false) as U2 by (unfold used; rewrite M4, Z.eqb_refl by lia; done).
  destruct (request_many_below off n p2 j W2) as (p3 & E3 & U3); [congruence| |done|].
  - unfold hint_page in *. rewrite M2. lia.
  - eauto 10.
Qed.

(** the guard of [_setPageValue] compares with [>], so the first
    page behind the bitmap passes it and the write goes outside the buffer; and
    [requestFreePageZeroed] does not test for NULL, so when no page is left it clears
    the page at address 0. *)
Theorem bitmap_edges off p b value m :
  bm_wf b -> pfa_wf p -> request_lock p = 0 ->
  (forall i, hint_page p <= i < page_count p -> used p i = true) ->
  m !! 0 = None ->
  setPageValue b (8 * bm_size b * PAGE_SIZE) value = Fault /\
  requestFreePageZeroed off p m = Fault.
Proof.
  intros Hb H Hl Hfull Hm. split.
  - unfold setPageValue, addrToIndex. rewrite Z.div_mul by done.
    pose proof (bm_small _ Hb). pose proof (bm_length _ Hb).
    destruct (Z.ltb_spec (bm_size b ⊠ 8) (8 * bm_size b)); [wordlia|].
    rewrite lookup_ge_None_2; [done|]. wordlia.
  - unfold requestFreePageZeroed.
    destruct (requestFreePage_answer off p H Hl) as (r & -> & [[-> _]|(k & Hk & Hu & _)]).
    + cbn [mbind outcome_bind snd]. unfold zeromem. by rewrite memset_unmapped.
    + rewrite (Hfull k Hk) in Hu. done.
Qed.

(** ** Witnesses *)

(** Sixteen pages with the given first two bitmap bytes; [n] is the number of clear bits. *)
Definition demo_pfa (b0 b1 n : Z) : PageFrameAllocator :=
  mkPFA (16 * PAGE_SIZE) (n * PAGE_SIZE) ((16 - n) * PAGE_SIZE) 0
        (mkBitmap 3 [b0; b1; 0xff]) 0 0.

Lemma demo_bm_wf b0 b1 : is_u8 b0 -> is_u8 b1 -> bm_wf (mkBitmap 3 [b0; b1; 0xff]).
Proof. intros. constructor; simpl; [done| |lia]. rewrite !Forall_cons. split_and!; done. Qed.

Lemma demo_pfa_wf b0 b1 n : is_u8 b0 -> is_u8 b1 ->
  free_pages (mkBitmap 3 [b0; b1; 0xff]) = n -> pfa_wf (demo_pfa b0 b1 n).
Proof.
  intros H0 H1 Hn. constructor; cbn [demo_pfa m_totalSystemMemory m_freeSystemMemory
    m_usedSystemMemory m_lastTrackedFreePage m_pageFrameBitmap allocator_lock bm_size].
  - by apply demo_bm_wf.
  - by compute.
  - done.
  - by compute.
  - intros i Hi. change (16 * PAGE_SIZE / PAGE_SIZE) with 16 in Hi. unfold page_used. cbn [bm_buffer].
    destruct (decide (i < 24)).
    + assert (forallb (fun i => match [b0; b1; 255] !! Z.to_nat (i / 8) with
        Some v => Z.testbit v (i mod 8) | None => true end) (seqZ 16 8) = true) as X by done.
      by apply (forallb_seqZ _ _ _ i X); lia.
    + rewrite lookup_ge_None_2; [done|]. simpl. wordlia.
  - by compute.
  - done.
  - rewrite Hn. unfold PAGE_SIZE. lia.
  - unfold PAGE_SIZE. lia.
  - done.
Qed.

Lemma demo_wf1 : pfa_wf (demo_pfa 0x0f 0 12).
Proof. by apply demo_pfa_wf. Qed.
Lemma demo_wf2 : pfa_wf (demo_pfa 0xff 0xff 0).
Proof. by apply demo_pfa_wf. Qed.

Lemma bitmap_set_get_witness : exists b',
  setPageValue (mkBitmap 3 [0x0f; 0; 0xff]) 0x9000 true = Done (b', true) /\
  getPageValue b' 0x9000 = Done true.
Proof.
  destruct (bitmap_set_get (mkBitmap 3 [0x0f; 0; 0xff]) 0x9000 true) as (b' & E & _ & G & _);
    [by apply demo_bm_wf|by compute|]. exists b'. split; [exact E|exact G].
Defined.

Lemma lock_free_accounting_witness : exists p',
  lockPhysicalPage (demo_pfa 0x0f 0 12) 0x9000 = Done p' /\ pfa_wf p'.
Proof.
  destruct (lock_free_accounting (demo_pfa 0x0f 0 12) 0x9000 demo_wf1) as [(p' & E & W & _) _];
    [by compute|]. exists p'. split; [exact E|exact W].
Defined.

Lemma requestFreePage_first_free_witness : exists r,
  requestFreePage 0xffff800000000000 (demo_pfa 0x0f 0 12) = Done r /\
  request_answer 0xffff800000000000 (demo_pfa 0x0f 0 12) r.
Proof. apply requestFreePage_first_free; [apply demo_wf1|done]. Defined.


Lemma freed_page_not_reused_witness : exists p1 p2 p3,
  requestFreePage 0 (demo_pfa 0x0f 0 12) = Done (p1, physToVirtAddr 0 (4 * PAGE_SIZE)) /\
  freePhysicalPage p1 (4 * PAGE_SIZE) = Done p2 /\
  request_many 0 20 p2 = Done p3 /\ used p3 4 = false.
Proof.
  destruct (requestFreePage 0 (demo_pfa 0x0f 0 12)) as [[p1 a]| |] eqn:E; [|by vm_compute in E..].
  assert (a = physToVirtAddr 0 (4 * PAGE_SIZE) /\ used p1 4 = true) as [-> U]
    by (vm_compute in E; injection E as <- <-; done).
  destruct (freed_page_not_reused 0 20 (demo_pfa 0x0f 0 12) p1 4 demo_wf1) as (p2 & p3 & E2 & _ & E3 & U3);
    [done|by compute|exact E|done|exact U|].
  exists p1, p2, p3. split_and!; [done|exact E2|exact E3|exact U3].
Defined.

Lemma bitmap_edges_witness :
  setPageValue (mkBitmap 3 [0x0f; 0; 0xff]) (24 * PAGE_SIZE) true = Fault /\
  requestFreePageZeroed 0 (demo_pfa 0xff 0xff 0) ∅ = Fault.
Proof.
  apply (bitmap_edges 0 (demo_pfa 0xff 0xff 0) (mkBitmap 3 [0x0f; 0; 0xff]) true ∅);
    [by apply demo_bm_wf|apply demo_wf2|done| |done].
  intros i Hi. change (0 <= i < 16) in Hi.
  apply (forallb_seqZ (used (demo_pfa 0xff 0xff 0)) 0 16 i); [done|lia].
Defined.
