(* ===== verification/PageTable.v ===== *)
(** * Four-level page tables: the common ground of kernel/src/paging/page.cpp and
    bootloader/paging.c

    Entries are 64-bit words with the bit fields of [PageTableEntry]; the physical
    memory of the tables is a map from word addresses to words.  The file has the
    walk, the step that creates a missing table, the tree invariant and what one
    step does to the translation of every address.  The two programs' mapping
    routines are in Paging.v and BootPaging.v. *)
From Stdlib Require Import ZArith Lia.
From stdpp Require Import base tactics numbers option list gmap.
From S2P Require Import Prelude PageFrame.

(** ** Page table entries *)

(** The bit fields, in the order of the struct. *)
Definition pte_present (e : Z) : Z := bf 0 1 e.
Definition pte_readWrite (e : Z) : Z := bf 1 1 e.
Definition pte_userSupervisor (e : Z) : Z := bf 2 1 e.
Definition pte_pageWriteThrough (e : Z) : Z := bf 3 1 e.
Definition pte_pageCacheDisabled (e : Z) : Z := bf 4 1 e.
Definition pte_pageAccessType (e : Z) : Z := bf 7 1 e.
Definition pte_pageFrameNumber (e : Z) : Z := bf 12 36 e.

Definition set_present (e x : Z) : Z := bf_set 0 1 e x.
Definition set_readWrite (e x : Z) : Z := bf_set 1 1 e x.
Definition set_userSupervisor (e x : Z) : Z := bf_set 2 1 e x.
Definition set_pageWriteThrough (e x : Z) : Z := bf_set 3 1 e x.
Definition set_pageCacheDisabled (e x : Z) : Z := bf_set 4 1 e x.
Definition set_pageAccessType (e x : Z) : Z := bf_set 7 1 e x.
Definition set_pageFrameNumber (e x : Z) : Z := bf_set 12 36 e x.

(** ** Memory of the tables *)

(** Physical memory by word addresses. *)
Abbreviation pmem := (Z -> Z) (only parsing).
Definition wr (m : Z -> Z) (a v : Z) : Z -> Z := fun b => if b =? a then v else m b.

(** A page of zero words, what clearing the page with [zeromem] or [SetMem] gives. *)
Definition zero_frame (m : Z -> Z) (f : Z) : Z -> Z :=
  fun b => if (f <=? b) && (b <? f + PAGE_SIZE) then 0 else m b.

(** The index into the table of level [l] (4 is the PML4). *)
Definition pt_index (l : nat) (v : Z) : Z :=
  Z.land (Z.shiftr v (12 + 9 * (Z.of_nat l - 1))) 0x1ff.

(** [&table->entries[index]] *)
Definition entry_addr (t i : Z) : Z := t + 8 * i.

(** [(PageTable* )((uint64_t)entry->pageFrameNumber << 12)] *)
Definition next_table (e : Z) : Z := Z.shiftl (pte_pageFrameNumber e) 12.

(** ** Where frames come from *)

(** What the mapping code asks of a frame allocator: [fs_request] hands out a
    cleared page that is none of the pages [used] already taken for tables.
    [fs_room s n] says that [n] more requests will be served. *)
Class FrameSource (A : Type) := {
  fs_request : A -> (Z -> Z) -> outcome (A * (Z -> Z) * Z);
  fs_limit : Z;
  fs_inv : A -> gset Z -> Prop;
  fs_room : A -> nat -> Prop;
  fs_law : forall s m taken n, fs_inv s taken -> fs_room s (S n) ->
    exists s' f, fs_request s m = Done (s', zero_frame m f, f) /\
      (f ∉ taken) /\ f mod PAGE_SIZE = 0 /\ 0 < f /\ f + PAGE_SIZE <= fs_limit /\
      fs_inv s' ({[ f ]} ∪ taken) /\ fs_room s' n;
  fs_room_less : forall s n, fs_room s (S n) -> fs_room s n;
}.

(** ** One level of the mapping code

    [if (!entry->present) { table = request; entry->present = 1; entry->readWrite = 1;
    entry->userSupervisor = user; entry->pageFrameNumber = table >> 12; }
    else table = entry->pageFrameNumber << 12;] *)
Definition ensure_table {A} `{FrameSource A} (user : Z) (s : A) (m : Z -> Z) (ea : Z)
  : outcome (A * (Z -> Z) * Z) :=
  if pte_present (m ea) =? 0 then
    r ← fs_request s m;
    let '(s, m, table) := r in
    let e := set_present (m ea) 1 in
    let e := set_readWrite e 1 in
    let e := set_userSupervisor e user in
    let e := set_pageFrameNumber e (Z.shiftr table 12) in
    Done (s, wr m ea e, table)
  else Done (s, m, next_table (m ea)).

(** ** The walk *)

(** The address of the leaf entry of [v] below the table [t] of level [l]. *)
Fixpoint leaf_addr (m : Z -> Z) (t : Z) (l : nat) (v : Z) : option Z :=
  let ea := entry_addr t (pt_index l v) in
  match l with
  | S (S _ as l') =>
      if pte_present (m ea) =? 0 then None else leaf_addr m (next_table (m ea)) l' v
  | _ => Some ea
  end.

(** The present leaf entry, [None] when the walk meets an absent one. *)
Definition walk (m : Z -> Z) (t : Z) (l : nat) (v : Z) : option Z :=
  match leaf_addr m t l v with
  | Some ea => if pte_present (m ea) =? 0 then None else Some (m ea)
  | None => None
  end.

Definition translate (m : Z -> Z) (root v : Z) : option Z := walk m root 4 v.

(** What the processor checks before a user-mode access: every entry of the walk is present
    and has its user bit set. *)
Fixpoint user_walk (m : Z -> Z) (t : Z) (l : nat) (v : Z) : bool :=
  let e := m (entry_addr t (pt_index l v)) in
  (pte_present e =? 1) && (pte_userSupervisor e =? 1) &&
  match l with S (S _ as l') => user_walk m (next_table e) l' v | _ => true end.

(** The page number an address selects: bits 12 to 47. *)
Definition vpage (v : Z) : Z := bf 12 36 v.

(** ** The tree invariant

    [T] gives the level of each table and the address of the one entry that points
    to it. *)
Record tree (lim : Z) (T : gmap Z (nat * Z)) (m : Z -> Z) : Prop := {
  tree_range : forall t l par, T !! t = Some (l, par) ->
    t mod PAGE_SIZE = 0 /\ 0 < t /\ t + PAGE_SIZE <= lim /\ (1 <= l <= 4)%nat;
  tree_next : forall t l par i, T !! t = Some (S (S l), par) -> 0 <= i < 512 ->
    pte_present (m (entry_addr t i)) <> 0 ->
    T !! next_table (m (entry_addr t i)) = Some (S l, entry_addr t i);
}.

(** The user bits above the leaves: entry [i] of [root] and everything below it have the
    bit [top i]; [col] is the bit of a table below [root]. *)
Definition shade (top : Z -> Z) (root : Z) (col : Z -> Z) (t i : Z) : Z :=
  if t =? root then top i else col t.

Definition coloured (top : Z -> Z) (root : Z) (T : gmap Z (nat * Z)) (m : Z -> Z) (col : Z -> Z) : Prop :=
  forall t l par i, T !! t = Some (S (S l), par) -> 0 <= i < 512 -> pte_present (m (entry_addr t i)) <> 0 ->
    pte_userSupervisor (m (entry_addr t i)) = shade top root col t i /\
    col (next_table (m (entry_addr t i))) = shade top root col t i.

Lemma pt_index_range l v : 0 <= pt_index l v < 512.
Proof.
  unfold pt_index. change 0x1ff with (Z.ones 9). rewrite Z.land_ones by lia.
  apply Z.mod_pos_bound. lia.
Qed.

Lemma pt_index_div l v : (1 <= l)%nat -> pt_index l v = v / 2 ^ (12 + 9 * (Z.of_nat l - 1)) mod 512.
Proof.
  intros Hl. unfold pt_index. change 0x1ff with (Z.ones 9). rewrite Z.land_ones by lia.
  by rewrite Z.shiftr_div_pow2 by lia.
Qed.

(** The four indices determine the page number. *)
Lemma indices_vpage v v' :
  (forall l, (1 <= l <= 4)%nat -> pt_index l v = pt_index l v') -> vpage v = vpage v'.
Proof.
  intros H. pose proof (H 1%nat ltac:(lia)) as H1. pose proof (H 2%nat ltac:(lia)) as H2.
  pose proof (H 3%nat ltac:(lia)) as H3. pose proof (H 4%nat ltac:(lia)) as H4.
  rewrite !pt_index_div in H1, H2, H3, H4 by lia. unfold vpage, bf.
  rewrite !Z.land_ones, !Z.shiftr_div_pow2 by lia. clear H.
  change (2 ^ (12 + 9 * (Z.of_nat 1 - 1))) with 4096 in H1.
  change (2 ^ (12 + 9 * (Z.of_nat 2 - 1))) with (4096 * 512) in H2.
  change (2 ^ (12 + 9 * (Z.of_nat 3 - 1))) with (4096 * (512 * 512)) in H3.
  change (2 ^ (12 + 9 * (Z.of_nat 4 - 1))) with (4096 * (512 * 512 * 512)) in H4.
  repeat rewrite <- Z.div_div in H2 by lia. repeat rewrite <- Z.div_div in H3 by lia.
  repeat rewrite <- Z.div_div in H4 by lia. change (2 ^ 12) with 4096.
  change (2 ^ 36) with (512 * (512 * (512 * 512))).
  rewrite !Z.rem_mul_r by lia. congruence.
Qed.

(** Entries of different tables, or of different indices, have different addresses. *)
Lemma entry_addr_inj t i t' i' : t mod PAGE_SIZE = 0 -> t' mod PAGE_SIZE = 0 ->
  0 <= i < 512 -> 0 <= i' < 512 -> entry_addr t i = entry_addr t' i' -> t = t' /\ i = i'.
Proof. unfold entry_addr, PAGE_SIZE. intros. wordlia. Qed.

(** ** Facts about the tree *)
Section tree_facts.
Context (lim : Z) (T : gmap Z (nat * Z)) (m : Z -> Z).
Hypothesis Htree : tree lim T m.

Lemma tree_entry_inj t l par t' l' par' i i' :
  T !! t = Some (l, par) -> T !! t' = Some (l', par') -> 0 <= i < 512 -> 0 <= i' < 512 ->
  entry_addr t i = entry_addr t' i' -> t = t' /\ l = l' /\ i = i'.
Proof.
  intros Ht Ht' Hi Hi' E. destruct (tree_range _ _ _ Htree _ _ _ Ht) as (A & _).
  destruct (tree_range _ _ _ Htree _ _ _ Ht') as (A' & _).
  destruct (entry_addr_inj t i t' i') as [-> ->]; try done. rewrite Ht in Ht'. by injection Ht' as ->.
Qed.

(** Two walks that end at the same leaf entry took the same way. *)
Lemma leaf_addr_inj v v' a : forall l u u' par par',
  T !! u = Some (l, par) -> T !! u' = Some (l, par') ->
  leaf_addr m u l v = Some a -> leaf_addr m u' l v' = Some a ->
  u = u' /\ forall j, (1 <= j <= l)%nat -> pt_index j v = pt_index j v'.
Proof.
  pose proof pt_index_range as R.
  induction l as [|[|l] IH]; intros u u' par par' Hu Hu' E E'.
  - destruct (tree_range _ _ _ Htree _ _ _ Hu) as (_ & _ & _ & ?). lia.
  - cbn [leaf_addr] in E, E'. injection E as <-. injection E' as E'.
    destruct (tree_entry_inj _ _ _ _ _ _ _ _ Hu' Hu (R _ _) (R _ _) E') as (-> & _ & Ei).
    split; [done|]. intros j Hj. by replace j with 1%nat by lia.
  - cbn [leaf_addr] in E, E'.
    destruct (Z.eqb_spec (pte_present (m (entry_addr u (pt_index (S (S l)) v)))) 0) as [|P]; [done|].
    destruct (Z.eqb_spec (pte_present (m (entry_addr u' (pt_index (S (S l)) v')))) 0) as [|P']; [done|].
    pose proof (tree_next _ _ _ Htree _ _ _ _ Hu (R _ _) P) as N.
    pose proof (tree_next _ _ _ Htree _ _ _ _ Hu' (R _ _) P') as N'.
    destruct (IH _ _ _ _ N N' E E') as [Ec Hj].
    rewrite Ec, N' in N. injection N as N.
    destruct (tree_entry_inj _ _ _ _ _ _ _ _ Hu' Hu (R _ _) (R _ _) N) as (-> & _ & Ei).
    split; [done|]. intros j Hj'. destruct (decide (j = S (S l))) as [->|]; [done|]. apply Hj. lia.
Qed.

(** The leaf entry lies in a table of level 1. *)
Lemma leaf_addr_level1 v a : forall l u par,
  T !! u = Some (l, par) -> leaf_addr m u l v = Some a ->
  exists t par', T !! t = Some (1%nat, par') /\ a = entry_addr t (pt_index 1 v).
Proof.
  induction l as [|[|l] IH]; intros u par Hu E.
  - destruct (tree_range _ _ _ Htree _ _ _ Hu) as (_ & _ & _ & ?). lia.
  - injection E as <-. eauto.
  - cbn [leaf_addr] in E.
    destruct (Z.eqb_spec (pte_present (m (entry_addr u (pt_index (S (S l)) v)))) 0) as [|P]; [done|].
    pose proof (tree_next _ _ _ Htree _ _ _ _ Hu (pt_index_range _ _) P) as N. eauto.
Qed.

(** A write to an entry of a level-1 table changes no walk but the end of it. *)
Lemma leaf_write_addr t par i e v' : forall l u par',
  T !! t = Some (1%nat, par) -> 0 <= i < 512 -> T !! u = Some (l, par') ->
  leaf_addr (wr m (entry_addr t i) e) u l v' = leaf_addr m u l v'.
Proof.
  induction l as [|[|l] IH]; intros u par' Ht Hi Hu; [done..|]. cbn [leaf_addr].
  assert (wr m (entry_addr t i) e (entry_addr u (pt_index (S (S l)) v')) =
          m (entry_addr u (pt_index (S (S l)) v'))) as ->.
  { unfold wr. destruct (Z.eqb_spec (entry_addr u (pt_index (S (S l)) v')) (entry_addr t i)) as [E|]; [|done].
    apply (tree_entry_inj _ _ _ _ _ _ _ _ Hu Ht) in E; [lia|apply pt_index_range|done]. }
  destruct (Z.eqb_spec (pte_present (m (entry_addr u (pt_index (S (S l)) v')))) 0) as [|P]; [done|].
  pose proof (tree_next _ _ _ Htree _ _ _ _ Hu (pt_index_range _ _) P) as N. by apply (IH _ _ Ht Hi N).
Qed.

Lemma leaf_write_tree t par i e : T !! t = Some (1%nat, par) -> 0 <= i < 512 ->
  tree lim T (wr m (entry_addr t i) e).
Proof.
  intros Ht Hi. constructor; [apply Htree|]. intros u l par' j Hu Hj.
  assert (wr m (entry_addr t i) e (entry_addr u j) = m (entry_addr u j)) as ->.
  { unfold wr. destruct (Z.eqb_spec (entry_addr u j) (entry_addr t i)) as [E|]; [|done].
    apply (tree_entry_inj _ _ _ _ _ _ _ _ Hu Ht) in E; [lia|done|done]. }
  by apply (tree_next _ _ _ Htree _ _ par').
Qed.
End tree_facts.

(** ** The entry that points to a new table *)
Definition table_entry (e user table : Z) : Z :=
  set_pageFrameNumber (set_userSupervisor (set_readWrite (set_present e 1) 1) user) (Z.shiftr table 12).

Lemma table_entry_present e user table : pte_present (table_entry e user table) = 1.
Proof.
  unfold table_entry, pte_present, set_pageFrameNumber, set_userSupervisor, set_readWrite, set_present.
  rewrite !(bf_set_other _ _ 0 1) by lia. by rewrite bf_set_same by lia.
Qed.

Lemma table_entry_user e user table : pte_userSupervisor (table_entry e user table) = user mod 2.
Proof.
  unfold table_entry, pte_userSupervisor, set_pageFrameNumber, set_userSupervisor.
  rewrite (bf_set_other _ _ 2 1) by lia. by rewrite bf_set_same by lia.
Qed.

Lemma table_entry_next e user table :
  table mod PAGE_SIZE = 0 -> 0 <= table < 2 ^ 48 -> next_table (table_entry e user table) = table.
Proof.
  intros Ha Hr. unfold next_table, pte_pageFrameNumber, table_entry, set_pageFrameNumber.
  rewrite bf_set_same by lia. rewrite Z.shiftr_div_pow2, Z.shiftl_mul_pow2 by lia.
  change (2 ^ 12) with 4096. change (2 ^ 36) with 68719476736. change (2 ^ 48) with 281474976710656 in Hr.
  unfold PAGE_SIZE in Ha. rewrite Z.mod_small; wordlia.
Qed.

(** ** One level *)
Section ensure.
Context {A} `{FrameSource A} (lim : Z).
Hypothesis Hlim : fs_limit = lim /\ lim <= 2 ^ 48.

(** Words of the tables are not in a frame that is no table. *)
Lemma zero_frame_other T m f t l par i :
  tree lim T m -> T !! t = Some (l, par) -> T !! f = None -> f mod PAGE_SIZE = 0 -> 0 <= i < 512 ->
  zero_frame m f (entry_addr t i) = m (entry_addr t i).
Proof.
  intros HT Ht Hf Ha Hi. destruct (tree_range _ _ _ HT _ _ _ Ht) as (At & _).
  unfold zero_frame, entry_addr.
  destruct (Z.leb_spec f (t + 8 * i)), (Z.ltb_spec (t + 8 * i) (f + PAGE_SIZE)); try done.
  assert (t = f) as -> by (unfold PAGE_SIZE in *; wordlia). congruence.
Qed.

(** What [ensure_table] leaves: the child [c], known to the tree, and every other
    entry of a table as it was. *)
Record ensured (T : gmap Z (nat * Z)) (m : Z -> Z) (ea : Z) (l : nat)
    (T' : gmap Z (nat * Z)) (m' : Z -> Z) (c : Z) : Prop := {
  en_tree : tree lim T' m';
  en_sub : T ⊆ T';
  en_child : T' !! c = Some (l, ea);
  en_present : pte_present (m' ea) <> 0;
  en_next : next_table (m' ea) = c;
  en_other : forall t l par i, T !! t = Some (l, par) -> 0 <= i < 512 ->
    entry_addr t i <> ea -> m' (entry_addr t i) = m (entry_addr t i);
  en_walk : forall v' l0 t0 par0, T !! t0 = Some (l0, par0) -> walk m' t0 l0 v' = walk m t0 l0 v';
}.

Lemma zero_walk m c l v : (1 <= l)%nat ->
  (forall i, 0 <= i < 512 -> m (entry_addr c i) = 0) -> walk m c l v = None.
Proof.
  intros Hl Hz. pose proof (Hz _ (pt_index_range l v)) as E. unfold walk.
  destruct l as [|[|l]]; [lia|..]; cbn [leaf_addr]; by rewrite E.
Qed.

Lemma walk_step m t l v : walk m t (S (S l)) v =
  let e := m (entry_addr t (pt_index (S (S l)) v)) in
  if pte_present e =? 0 then None else walk m (next_table e) (S l) v.
Proof.
  unfold walk. cbn [leaf_addr].
  by destruct (pte_present (m (entry_addr t (pt_index (S (S l)) v))) =? 0).
Qed.

(** A frame that was just cleared and is not the table [t]. *)
Lemma new_table_zero m f t i e j : t mod PAGE_SIZE = 0 -> f mod PAGE_SIZE = 0 -> t <> f -> 0 <= i < 512 -> 0 <= j < 512 ->
  wr (zero_frame m f) (entry_addr t i) e (entry_addr f j) = 0.
Proof.
  intros At Af Hne Hi Hj. unfold wr. destruct (Z.eqb_spec (entry_addr f j) (entry_addr t i)) as [E|].
  - apply entry_addr_inj in E; try done. by destruct E as [<- _].
  - unfold zero_frame, entry_addr, PAGE_SIZE in *.
    destruct (Z.leb_spec f (f + 8 * j)), (Z.ltb_spec (f + 8 * j) (f + 4096)); try done; lia.
Qed.

(** A fresh, cleared table hung under an absent entry. *)
Lemma ensured_new T m t l par i user f :
  tree lim T m -> T !! t = Some (S (S l), par) -> 0 <= i < 512 ->
  pte_present (m (entry_addr t i)) = 0 ->
  T !! f = None -> f mod PAGE_SIZE = 0 -> 0 < f -> f + PAGE_SIZE <= lim ->
  let ea := entry_addr t i in
  ensured T m ea (S l) (<[f := (S l, ea)]> T)
    (wr (zero_frame m f) ea (table_entry (zero_frame m f ea) user f)) f.
Proof.
  intros HT Ht Hi Habs Hf Ha Hpos Htop ea.
  set (m0 := zero_frame m f). set (e := table_entry (m0 ea) user f). set (m' := wr m0 ea e).
  assert (m' ea = e) as Eea by (unfold m', wr; by rewrite Z.eqb_refl).
  assert (pte_present e = 1) as Pe by apply table_entry_present.
  assert (next_table e = f) as Ne
    by (apply table_entry_next; [done|destruct Hlim; unfold PAGE_SIZE in *; lia]).
  assert (forall u lu pu j, T !! u = Some (lu, pu) -> 0 <= j < 512 -> entry_addr u j <> ea ->
    m' (entry_addr u j) = m (entry_addr u j)) as Hother.
  { intros u lu pu j Hu Hj Hne. unfold m', wr. destruct (Z.eqb_spec (entry_addr u j) ea); [done|].
    by apply (zero_frame_other T m f u lu pu). }
  assert (forall j, 0 <= j < 512 -> m' (entry_addr f j) = 0) as Hzero.
  { intros j Hj. destruct (tree_range _ _ _ HT _ _ _ Ht) as (At & _). apply new_table_zero; try done. congruence. }
  constructor.
  - constructor.
    + intros u lu pu. rewrite lookup_insert. case_decide as E.
      * intros [= <- <-]. subst u. destruct (tree_range _ _ _ HT _ _ _ Ht) as (_ & _ & _ & ?). lia.
      * apply HT.
    + intros u lu pu j. rewrite lookup_insert. case_decide as E.
      * intros [= -> <-] Hj. subst u. rewrite Hzero by done. intros Hp. by destruct Hp.
      * intros Hu Hj Hp. destruct (decide (entry_addr u j = ea)) as [Eu|Hne].
        -- rewrite Eu, Eea, Ne, lookup_insert_eq.
           destruct (tree_entry_inj _ _ _ HT _ _ _ _ _ _ _ _ Hu Ht Hj Hi Eu) as (-> & El & _).
           by injection El as ->.
        -- rewrite (Hother _ _ _ _ Hu Hj Hne) in Hp |- *.
           pose proof (tree_next _ _ _ HT _ _ _ _ Hu Hj Hp) as N.
           rewrite lookup_insert_ne; [done|]. congruence.
  - by apply insert_subseteq.
  - by rewrite lookup_insert_eq.
  - rewrite Eea, Pe. done.
  - by rewrite Eea.
  - exact Hother.
  - intros v' l0. induction l0 as [|[|l0] IH]; intros t0 par0 Ht0.
    + destruct (tree_range _ _ _ HT _ _ _ Ht0) as (_ & _ & _ & ?). lia.
    + unfold walk. cbn [leaf_addr].
      rewrite (Hother _ _ _ _ Ht0 (pt_index_range _ _)); [done|]. intros E.
      apply (tree_entry_inj _ _ _ HT _ _ _ _ _ _ _ _ Ht0 Ht) in E; [lia|apply pt_index_range|done].
    + rewrite !walk_step. cbv zeta.
      destruct (decide (entry_addr t0 (pt_index (S (S l0)) v') = ea)) as [E|Hne].
      * rewrite E, Eea, Pe, Ne. fold ea in Habs. rewrite Habs. cbn.
        apply zero_walk; [lia|exact Hzero].
      * rewrite (Hother _ _ _ _ Ht0 (pt_index_range _ _) Hne).
        destruct (Z.eqb_spec (pte_present (m (entry_addr t0 (pt_index (S (S l0)) v')))) 0) as [|P]; [done|].
        apply (IH _ _ (tree_next _ _ _ HT _ _ _ _ Ht0 (pt_index_range _ _) P)).
Qed.

(** It has the user bit of the entries around it. *)
Lemma coloured_new T m t l par i user f top root col :
  let ea := entry_addr t i in
  let m' := wr (zero_frame m f) ea (table_entry (zero_frame m f ea) user f) in
  tree lim T m -> T !! t = Some (S (S l), par) -> 0 <= i < 512 -> T !! f = None -> f mod PAGE_SIZE = 0 ->
  0 < f -> f + PAGE_SIZE <= lim -> is_Some (T !! root) -> user = 0 \/ user = 1 ->
  coloured top root T m col -> shade top root col t i = user ->
  coloured top root (<[f := (S l, ea)]> T) m' (fun x => if x =? f then user else col x).
Proof.
  intros ea m' HT Ht Hi Hf Ha Hpos Htop [rp Hroot] Huser Hcol Hs u lu pu j Hu Hj.
  assert (t <> f) as Htf by congruence.
  destruct (tree_range _ _ _ HT _ _ _ Ht) as (At & _).
  destruct (decide (u = f)) as [->|Huf].
  { intros Hp. exfalso. apply Hp. unfold m', ea. by rewrite new_table_zero. }
  rewrite lookup_insert_ne in Hu by congruence.
  assert (forall k x, shade top root (fun x => if x =? f then user else col x) x k = shade top root col x k \/ x = f) as Hsh.
  { intros k x. unfold shade. destruct (x =? root); [by left|]. destruct (Z.eqb_spec x f); [by right|by left]. }
  destruct (Hsh j u) as [->|]; [|done].
  destruct (decide (entry_addr u j = ea)) as [E|Hne].
  - destruct (tree_entry_inj _ _ _ HT _ _ _ _ _ _ _ _ Hu Ht Hj Hi E) as (-> & _ & ->). intros _.
    assert (m' ea = table_entry (zero_frame m f ea) user f) as Em by (unfold m', wr; by rewrite Z.eqb_refl).
    rewrite E, Em, table_entry_user, table_entry_next, Z.eqb_refl, Hs;
      [|done|destruct Hlim; unfold PAGE_SIZE in *; lia].
    split; [|done]. by destruct Huser as [-> | ->].
  - assert (m' (entry_addr u j) = m (entry_addr u j)) as ->.
    { unfold m', wr. destruct (Z.eqb_spec (entry_addr u j) ea); [done|]. by apply (zero_frame_other T m f u (S (S lu)) pu). }
    intros Hp. pose proof (tree_next _ _ _ HT _ _ _ _ Hu Hj Hp) as N. destruct (Hcol _ _ _ _ Hu Hj Hp) as [H1 H2].
    split; [done|]. destruct (Z.eqb_spec (next_table (m (entry_addr u j))) f) as [E|]; [congruence|done].
Qed.

Lemma ensure_ok T m s n t l par i user :
  tree lim T m -> T !! t = Some (S (S l), par) -> 0 <= i < 512 ->
  fs_inv s (dom T) -> fs_room s (S n) ->
  exists s' m' c T', ensure_table user s m (entry_addr t i) = Done (s', m', c) /\
    ensured T m (entry_addr t i) (S l) T' m' c /\ fs_inv s' (dom T') /\ fs_room s' n /\
    (forall top root col, is_Some (T !! root) -> user = 0 \/ user = 1 -> coloured top root T m col ->
       shade top root col t i = user -> coloured top root T' m' (fun x => if x =? c then user else col x)).
Proof.
  intros HT Ht Hi Hinv Hroom. unfold ensure_table.
  destruct (Z.eqb_spec (pte_present (m (entry_addr t i))) 0) as [E|E].
  - destruct (fs_law s m (dom T) n Hinv Hroom) as (s' & f & -> & Hf & Ha & Hpos & Htop & Hinv' & Hroom').
    cbn [mbind outcome_bind]. apply not_elem_of_dom in Hf. pose proof Hlim as [HL _]. rewrite HL in Htop.
    eexists _, _, f, (<[f := (S l, entry_addr t i)]> T). split; [done|]. split.
    + by apply (ensured_new T m t l par i user f).
    + rewrite dom_insert_L. split_and!; [done|done|]. intros top root col Hr Hu Hc Hs.
      by apply (coloured_new T m t l par i user f).
  - pose proof (tree_next _ _ _ HT _ _ _ _ Ht Hi E) as N.
    eexists _, _, _, T. split; [done|]. split; [by constructor|]. split; [done|]. split; [by apply fs_room_less|].
    intros top root col Hr Hu Hc Hs. destruct (Hc _ _ _ _ Ht Hi E) as [_ Hnext]. rewrite Hs in Hnext.
    assert (forall x, (if x =? next_table (m (entry_addr t i)) then user else col x) = col x) as Hx.
    { intros x. destruct (Z.eqb_spec x (next_table (m (entry_addr t i)))) as [->|]; congruence. }
    intros u lu pu j Hlu Hj Hp. unfold shade. rewrite !Hx. by apply (Hc _ _ _ _ Hlu Hj Hp).
Qed.
End ensure.

(** ** The whole mapping routine

    Three levels of [ensure_table], then the leaf entry is rewritten by [leaf].  Both
    programs' routines are instances; [ph] is the physical address behind a pointer
    the program dereferences. *)
Definition map_generic {A} `{FrameSource A} (ph : Z -> Z) (user : Z) (leaf : Z -> Z)
    (s : A) (m : Z -> Z) (root v : Z) : outcome (A * (Z -> Z)) :=
  r ← ensure_table user s m (ph (entry_addr root (pt_index 4 v)));
  let '(s, m, pdpt) := r in
  r ← ensure_table user s m (ph (entry_addr pdpt (pt_index 3 v)));
  let '(s, m, pdt) := r in
  r ← ensure_table user s m (ph (entry_addr pdt (pt_index 2 v)));
  let '(s, m, pt) := r in
  let pte := ph (entry_addr pt (pt_index 1 v)) in
  Done (s, wr m pte (leaf (m pte))).

Section map_generic.
Context {A} `{FrameSource A} (lim : Z).
Hypothesis Hlim : fs_limit = lim /\ lim <= 2 ^ 48.
Context (ph : Z -> Z).
Hypothesis Hph : forall t i, 0 < t -> t + PAGE_SIZE <= lim -> 0 <= i < 512 ->
  ph (entry_addr t i) = entry_addr t i.

Lemma ph_table T m t l par i : tree lim T m -> T !! t = Some (l, par) -> 0 <= i < 512 ->
  ph (entry_addr t i) = entry_addr t i.
Proof. intros HT Ht Hi. destruct (tree_range _ _ _ HT _ _ _ Ht) as (_ & ? & ? & _). by apply Hph. Qed.

Lemma map_generic_ok T m s n root rootp par v user leaf :
  (forall i, 0 <= i < 512 -> ph (entry_addr rootp i) = entry_addr root i) ->
  tree lim T m -> T !! root = Some (4%nat, par) -> fs_inv s (dom T) -> fs_room s (S (S (S n))) ->
  (forall e, pte_present (leaf e) <> 0) ->
  exists s' m' T' e, map_generic ph user leaf s m rootp v = Done (s', m') /\
    tree lim T' m' /\ T ⊆ T' /\ fs_inv s' (dom T') /\ fs_room s' n /\
    translate m' root v = Some (leaf e) /\
    (forall v', vpage v' <> vpage v -> translate m' root v' = translate m root v') /\
    (forall top col, user = top (pt_index 4 v) -> user = 0 \/ user = 1 -> coloured top root T m col ->
       exists col', coloured top root T' m' col').
Proof.
  intros Hrp HT Hroot Hinv Hroom Hleaf. unfold map_generic. pose proof pt_index_range as R.
  rewrite Hrp by apply R.
  destruct (ensure_ok lim Hlim T m s (S (S n)) root 2 par (pt_index 4 v) user HT Hroot (R _ _) Hinv Hroom)
    as (s1 & m1 & t3 & T1 & -> & E1 & I1 & R1 & K1). cbn [mbind outcome_bind].
  rewrite (ph_table T1 m1 t3 _ _ _ (en_tree _ _ _ _ _ _ _ _ E1) (en_child _ _ _ _ _ _ _ _ E1)) by apply R.
  destruct (ensure_ok lim Hlim T1 m1 s1 (S n) t3 1 _ (pt_index 3 v) user (en_tree _ _ _ _ _ _ _ _ E1)
    (en_child _ _ _ _ _ _ _ _ E1) (R _ _) I1 R1)
    as (s2 & m2 & t2 & T2 & -> & E2 & I2 & R2 & K2). cbn [mbind outcome_bind].
  rewrite (ph_table T2 m2 t2 _ _ _ (en_tree _ _ _ _ _ _ _ _ E2) (en_child _ _ _ _ _ _ _ _ E2)) by apply R.
  destruct (ensure_ok lim Hlim T2 m2 s2 n t2 0 _ (pt_index 2 v) user (en_tree _ _ _ _ _ _ _ _ E2)
    (en_child _ _ _ _ _ _ _ _ E2) (R _ _) I2 R2)
    as (s3 & m3 & t1 & T3 & -> & E3 & I3 & R3 & K3). cbn [mbind outcome_bind].
  rewrite (ph_table T3 m3 t1 _ _ _ (en_tree _ _ _ _ _ _ _ _ E3) (en_child _ _ _ _ _ _ _ _ E3)) by apply R.
  destruct E1 as [A1 A2 A3 A4 A5 A6 A7], E2 as [B1 B2 B3 B4 B5 B6 B7], E3 as [C1 C2 C3 C4 C5 C6 C7].
  set (a := entry_addr t1 (pt_index 1 v)).
  assert (T1 !! root = Some (4%nat, par)) as Hr1 by (by eapply lookup_weaken).
  assert (T2 !! root = Some (4%nat, par)) as Hr2 by (by eapply lookup_weaken).
  assert (T3 !! root = Some (4%nat, par)) as Hr3 by (by eapply lookup_weaken).
  assert (T2 !! t3 = Some (3%nat, entry_addr root (pt_index 4 v))) as Ht3 by (by eapply lookup_weaken).
  (* the entries written on the way are still there in the end *)
  assert (m3 (entry_addr root (pt_index 4 v)) = m1 (entry_addr root (pt_index 4 v))) as W4.
  { rewrite (C6 _ _ _ _ Hr2 (R _ _)), (B6 _ _ _ _ Hr1 (R _ _)); [done|..]; intros E.
    - apply (tree_entry_inj _ _ _ A1 _ _ _ _ _ _ _ _ Hr1 A3) in E; [lia|apply R..].
    - apply (tree_entry_inj _ _ _ B1 _ _ _ _ _ _ _ _ Hr2 B3) in E; [lia|apply R..]. }
  assert (m3 (entry_addr t3 (pt_index 3 v)) = m2 (entry_addr t3 (pt_index 3 v))) as W3.
  { rewrite (C6 _ _ _ _ Ht3 (R _ _)); [done|]. intros E.
    apply (tree_entry_inj _ _ _ B1 _ _ _ _ _ _ _ _ Ht3 B3) in E; [lia|apply R..]. }
  assert (leaf_addr m3 root 4 v = Some a) as La.
  { cbn [leaf_addr]. rewrite W4, A5. destruct (Z.eqb_spec (pte_present (m1 (entry_addr root (pt_index 4 v)))) 0); [done|].
    rewrite W3, B5. destruct (Z.eqb_spec (pte_present (m2 (entry_addr t3 (pt_index 3 v)))) 0); [done|].
    rewrite C5. by destruct (Z.eqb_spec (pte_present (m3 (entry_addr t2 (pt_index 2 v)))) 0). }
  pose proof (leaf_write_addr lim T3 m3 C1 t1 (entry_addr t2 (pt_index 2 v))
    (pt_index 1 v) (leaf (m3 a))) as LW. fold a in LW.
  exists s3, (wr m3 a (leaf (m3 a))), T3, (m3 a). split_and!; try done.
  - by apply (leaf_write_tree lim T3 m3 C1 t1 _ (pt_index 1 v) (leaf (m3 a)) C3 (R _ _)).
  - by transitivity T1; [|transitivity T2].
  - unfold translate, walk. rewrite (LW v 4%nat _ _ C3 (R _ _) Hr3), La. unfold wr. rewrite Z.eqb_refl.
    by destruct (Z.eqb_spec (pte_present (leaf (m3 a))) 0); [destruct (Hleaf (m3 a))|].
  - intros v' Hv'. unfold translate.
    rewrite <- (A7 v' _ _ _ Hroot), <- (B7 v' _ _ _ Hr1), <- (C7 v' _ _ _ Hr2).
    unfold walk. rewrite (LW v' 4%nat _ _ C3 (R _ _) Hr3).
    destruct (leaf_addr m3 root 4 v') as [a'|] eqn:E'; [|done].
    assert (a' <> a) as Hne.
    { intros ->. apply Hv'. symmetry. apply indices_vpage.
      intros l Hl. apply (leaf_addr_inj lim T3 m3 C1 v v' a 4 root root _ _ Hr3 Hr3 La E'). lia. }
    unfold wr. by destruct (Z.eqb_spec a' a).
  - intros top col Htop Hu Hc.
    assert (forall T0 m0 c l x, tree lim T0 m0 -> T0 !! c = Some (l, x) -> (l < 4)%nat -> T0 !! root = Some (4%nat, par) ->
      (c =? root) = false) as Hnr.
    { intros T0 m0 c l x _ Hc0 Hl Hr0. apply Z.eqb_neq. intros ->. rewrite Hc0 in Hr0. injection Hr0. lia. }
    specialize (K1 top root col (ex_intro _ _ Hroot) Hu Hc). unfold shade in K1 at 1. rewrite Z.eqb_refl in K1.
    specialize (K1 (eq_sym Htop)).
    specialize (K2 top root _ (ex_intro _ _ Hr1) Hu K1). unfold shade in K2 at 1.
    rewrite (Hnr T1 m1 t3 _ _ A1 A3 ltac:(lia) Hr1), Z.eqb_refl in K2. specialize (K2 eq_refl).
    specialize (K3 top root _ (ex_intro _ _ Hr2) Hu K2). unfold shade in K3 at 1.
    rewrite (Hnr T2 m2 t2 _ _ B1 B3 ltac:(lia) Hr2), Z.eqb_refl in K3. specialize (K3 eq_refl).
    exists (fun x => if x =? t1 then user else if x =? t2 then user else if x =? t3 then user else col x).
    intros u lu pu j Hlu Hj.
    assert (wr m3 a (leaf (m3 a)) (entry_addr u j) = m3 (entry_addr u j)) as ->; [|by apply (K3 _ _ _ _ Hlu Hj)].
    unfold wr. destruct (Z.eqb_spec (entry_addr u j) a) as [E|]; [|done].
    apply (tree_entry_inj _ _ _ C1 _ _ _ _ _ _ _ _ Hlu C3) in E; [lia|done|apply R].
Qed.
End map_generic.

(** Under the user bits of [top], a page is open to user mode when its leaf and the entry of
    [root] above it are. *)
Lemma user_walk_eq lim T m top col root par v e : tree lim T m -> T !! root = Some (4%nat, par) ->
  coloured top root T m col -> translate m root v = Some e ->
  user_walk m root 4 v = (top (pt_index 4 v) =? 1) && (pte_userSupervisor e =? 1).
Proof.
  intros HT Hroot Hc He. pose proof pt_index_range as R.
  assert (forall x, pte_present x <> 0 -> (pte_present x =? 1) = true) as Hp1.
  { intros x. unfold pte_present, bf. rewrite Z.land_ones by lia. pose proof (Z.mod_pos_bound (Z.shiftr x 0) (2 ^ 1) ltac:(lia)).
    change (2 ^ 1) with 2 in *. intros Hx. apply Z.eqb_eq. lia. }
  assert (forall l t p u, T !! t = Some (S l, p) -> (forall j, 0 <= j < 512 -> shade top root col t j = u) ->
    walk m t (S l) v = Some e -> user_walk m t (S l) v = ((l =? 0)%nat || (u =? 1)) && (pte_userSupervisor e =? 1)) as Hw.
  { induction l as [|l IH]; intros t p u Ht Hsh Hwk.
    - unfold walk in Hwk. cbn [leaf_addr] in Hwk. cbn [user_walk].
      destruct (Z.eqb_spec (pte_present (m (entry_addr t (pt_index 1 v)))) 0) as [|P]; [done|]. injection Hwk as <-.
      rewrite (Hp1 _ P). cbn [andb Nat.eqb orb]. by rewrite andb_true_r.
    - rewrite walk_step in Hwk. cbv zeta in Hwk.
      destruct (Z.eqb_spec (pte_present (m (entry_addr t (pt_index (S (S l)) v)))) 0) as [|P]; [done|].
      pose proof (tree_next _ _ _ HT _ _ _ _ Ht (R _ _) P) as N. destruct (Hc _ _ _ _ Ht (R _ _) P) as [Hus Hnx].
      rewrite Hsh in Hus, Hnx by apply R.
      change (user_walk m t (S (S l)) v) with (let e := m (entry_addr t (pt_index (S (S l)) v)) in
        (pte_present e =? 1) && (pte_userSupervisor e =? 1) && user_walk m (next_table e) (S l) v).
      cbv zeta. rewrite (Hp1 _ P), Hus, (IH _ _ u N); [|intros j Hj|done].
      + cbn [Nat.eqb orb andb]. by destruct (u =? 1), (l =? 0)%nat, (pte_userSupervisor e =? 1).
      + unfold shade. destruct (Z.eqb_spec (next_table (m (entry_addr t (pt_index (S (S l)) v)))) root) as [E|]; [|done].
        rewrite E, Hroot in N. injection N as N _.
        destruct (tree_range _ _ _ HT _ _ _ Ht) as (_ & _ & _ & ?). lia. }
  unfold translate in He. rewrite walk_step in He. cbv zeta in He.
  destruct (Z.eqb_spec (pte_present (m (entry_addr root (pt_index 4 v)))) 0) as [|P]; [done|].
  pose proof (tree_next _ _ _ HT _ _ _ _ Hroot (R _ _) P) as N. destruct (Hc _ _ _ _ Hroot (R _ _) P) as [Hus Hnx].
  unfold shade in Hus, Hnx. rewrite Z.eqb_refl in Hus, Hnx.
  change (user_walk m root 4 v) with (let e := m (entry_addr root (pt_index 4 v)) in
    (pte_present e =? 1) && (pte_userSupervisor e =? 1) && user_walk m (next_table e) 3 v).
  cbv zeta. rewrite (Hp1 _ P), Hus, (Hw _ _ _ (top (pt_index 4 v)) N); [|intros j Hj|done].
  - cbn [Nat.eqb orb andb]. by destruct (top (pt_index 4 v) =? 1).
  - unfold shade. destruct (Z.eqb_spec (next_table (m (entry_addr root (pt_index 4 v)))) root) as [E|]; [|done].
    rewrite E, Hroot in N. injection N as N. lia.
Qed.
