(* ===== verification/Paging.v ===== *)
(** * Paging in the kernel (kernel/src/paging/page.cpp, page.h)

    [mapPage], [getPteForAddr], the attribute changes and [createUserspacePml4], on
    the page tables of PageTable.v, with the page frame allocator of PageFrame.v as
    the source of new tables. *)
From Stdlib Require Import ZArith Lia.
From stdpp Require Import base tactics numbers option list gmap.
From S2P Require Import Prelude PageFrame PageTable.

Definition USERSPACE_PAGE : Z := 1.
Definition KERNEL_PAGE : Z := 0.
Definition PAGE_ATTRIB_CACHE_DISABLED : Z := 0x01.
Definition PAGE_ATTRIB_WRITE_THROUGH : Z := 0x02.
Definition PAGE_ATTRIB_ACCESS_TYPE : Z := 0x04.

(** ** The address space the kernel runs in

    The bootloader maps the physical memory twice: at its own addresses
    ([CreateIdentityMappedPageTable]) and at [off] above them
    ([CreateHigherHalfMapping]).  [phys off v] is the physical address behind the
    kernel's pointer [v]. *)
Definition phys (off v : Z) : Z :=
  if v <? 0x800000000000 then v else virtToPhysAddr off v.

(** Physical memory ends at [lim], and both mappings reach that far. *)
Class BootLayout (off lim : Z) : Prop := {
  bl_off : 0x8000000000000000 <= off < 0x10000000000000000;
  bl_high : off + lim <= 0x10000000000000000;
  bl_low : 0 < lim <= 0x800000000000;
}.

(** ** Operations *)
Definition getPageTableIndicesFromVirtualAddress (vaddr : Z) : Z * Z * Z * Z :=
  let vaddr := Z.shiftr vaddr 12 in
  let ipt := Z.land vaddr 0x1ff in
  let vaddr := Z.shiftr vaddr 9 in
  let ipdt := Z.land vaddr 0x1ff in
  let vaddr := Z.shiftr vaddr 9 in
  let ipdpt := Z.land vaddr 0x1ff in
  let vaddr := Z.shiftr vaddr 9 in
  let ipml4 := Z.land vaddr 0x1ff in
  (ipml4, ipdpt, ipdt, ipt).

(** [cr3] as a pointer to the top level table, and back. *)
Definition getCurrentTopLevelPageTable (off cr3 : Z) : Z := physToVirtAddr off cr3.
Definition setCurrentTopLevelPageTable (off pml4 : Z) : Z := virtToPhysAddr off pml4.

(** [(addr + PAGE_SIZE - 1) & ~(PAGE_SIZE - 1)] *)
Definition pageAlignAddress (addr : Z) : Z :=
  Z.land (addr ⊞ 0xfff) (u64 (Z.lnot 0xfff)).

Definition getPml4Entry (vaddr pml4 : Z) : Z :=
  let index := Z.land (Z.shiftr vaddr 39) 0x1ff in entry_addr pml4 index.
Definition getPdptEntry (off vaddr pdpt : Z) : Z :=
  let index := Z.land (Z.shiftr vaddr 30) 0x1ff in physToVirtAddr off (entry_addr pdpt index).
Definition getPdtEntry (off vaddr pdt : Z) : Z :=
  let index := Z.land (Z.shiftr vaddr 21) 0x1ff in physToVirtAddr off (entry_addr pdt index).
Definition getPteFromPageTable (off vaddr pt : Z) : Z :=
  let index := Z.land (Z.shiftr vaddr 12) 0x1ff in physToVirtAddr off (entry_addr pt index).

Definition getNextLevelPageTable (entry : Z) : Z := next_table entry.

(** Returns the pointer to the entry, 0 ([nullptr]) when an entry is absent. *)
Definition getPteForAddr (off : Z) (m : Z -> Z) (vaddr pml4 : Z) : Z :=
  let rd p := m (phys off p) in
  let pml4Entry := getPml4Entry vaddr pml4 in
  if pte_present (rd pml4Entry) =? 0 then 0
  else
    let pdptEntry := getPdptEntry off vaddr (getNextLevelPageTable (rd pml4Entry)) in
    if pte_present (rd pdptEntry) =? 0 then 0
    else
      let pdtEntry := getPdtEntry off vaddr (getNextLevelPageTable (rd pdptEntry)) in
      if pte_present (rd pdtEntry) =? 0 then 0
      else
        let pte := getPteFromPageTable off vaddr (getNextLevelPageTable (rd pdtEntry)) in
        if pte_present (rd pte) =? 0 then 0 else pte.

(** The last seven assignments of [mapPage]: a bit field keeps the low bits of what
    is stored in it. *)
Definition map_leaf (paddr privilegeLevel attribs e : Z) : Z :=
  let e := set_present e 1 in
  let e := set_readWrite e 1 in
  let e := set_userSupervisor e privilegeLevel in
  let e := set_pageCacheDisabled e (Z.land attribs PAGE_ATTRIB_CACHE_DISABLED) in
  let e := set_pageWriteThrough e (Z.land attribs PAGE_ATTRIB_WRITE_THROUGH) in
  let e := set_pageAccessType e (Z.land attribs PAGE_ATTRIB_ACCESS_TYPE) in
  set_pageFrameNumber e (Z.shiftr paddr 12).

(** [mapPage]; each of the three blocks that create a missing table is
    [ensure_table], and [fs_request] is [__pa(requestFreePageZeroed())]. *)
Definition mapPage {A} `{FrameSource A} (off : Z) (s : A) (m : Z -> Z)
    (vaddr paddr privilegeLevel attribs pml4 : Z) : outcome (A * (Z -> Z)) :=
  let '(pml4Index, pdptIndex, pdtIndex, ptIndex) :=
    getPageTableIndicesFromVirtualAddress vaddr in
  r ← ensure_table USERSPACE_PAGE s m (phys off (entry_addr pml4 pml4Index));
  let '(s, m, pdpt) := r in
  r ← ensure_table USERSPACE_PAGE s m (phys off (entry_addr pdpt pdptIndex));
  let '(s, m, pdt) := r in
  r ← ensure_table USERSPACE_PAGE s m (phys off (entry_addr pdt pdtIndex));
  let '(s, m, pt) := r in
  let pte := phys off (entry_addr pt ptIndex) in
  Done (s, wr m pte (map_leaf paddr privilegeLevel attribs (m pte))).

(** [pte = getPteForAddr(...); pte->field = ...;]; the pointer is not tested, and the
    page at address 0 is mapped. *)
Definition update_pte (off : Z) (m : Z -> Z) (vaddr pml4 : Z) (f : Z -> Z) : Z -> Z :=
  let pte := phys off (getPteForAddr off m vaddr pml4) in wr m pte (f (m pte)).

Definition changePageAttribs off m vaddr attribs pml4 :=
  update_pte off m vaddr pml4 (fun e =>
    let e := set_pageCacheDisabled e (Z.land attribs PAGE_ATTRIB_CACHE_DISABLED) in
    let e := set_pageWriteThrough e (Z.land attribs PAGE_ATTRIB_WRITE_THROUGH) in
    set_pageAccessType e (Z.land attribs PAGE_ATTRIB_ACCESS_TYPE)).
Definition markPageUncacheable off m vaddr pml4 :=
  update_pte off m vaddr pml4 (fun e => set_pageCacheDisabled e 1).
Definition markPageWriteThrough off m vaddr pml4 :=
  update_pte off m vaddr pml4 (fun e => set_pageWriteThrough e 1).
Definition markPageAccessType off m vaddr pml4 :=
  update_pte off m vaddr pml4 (fun e => set_pageAccessType e 1).

(** A request answered with a physical address; the new pointer is [__va] of it. *)
Definition createUserspacePml4 {A} `{FrameSource A} (off : Z) (s : A) (m : Z -> Z) (kernelPml4 : Z)
  : outcome (A * (Z -> Z) * Z) :=
  r ← fs_request s m;
  let '(s, m, frame) := r in
  let userPml4 := physToVirtAddr off frame in
  let m := wr m (phys off (entry_addr userPml4 511)) (m (phys off (entry_addr kernelPml4 511))) in
  Done (s, m, userPml4).

(** ** The page frame allocator as a source of tables *)

(** [__pa(pageFrameAllocator.requestFreePageZeroed())] *)
Definition request_table (off : Z) (p : PageFrameAllocator) (m : Z -> Z)
  : outcome (PageFrameAllocator * (Z -> Z) * Z) :=
  r ← requestFreePage off p;
  let page := snd r in
  Done (fst r, zero_frame m (phys off page), virtToPhysAddr off page).

(** Free pages from the hint on. *)
Definition pages_left (p : PageFrameAllocator) : nat :=
  count_free (used p) (seqZ (hint_page p) (page_count p - hint_page p)).

Section layout.
Context (off lim : Z) `{BootLayout off lim}.

Lemma phys_low v : 0 <= v < lim -> phys off v = v.
Proof. intros Hv. pose proof bl_low. unfold phys. destruct (Z.ltb_spec v 0x800000000000); [done|lia]. Qed.

Lemma va_range p : 0 <= p < lim -> physToVirtAddr off p = p + off /\ 0x8000000000000000 <= p + off.
Proof.
  intros Hp. pose proof bl_off. pose proof bl_high. unfold physToVirtAddr. split; [|lia].
  apply u64_small. unfold is_u64. lia.
Qed.

Lemma phys_va p : 0 <= p < lim -> phys off (physToVirtAddr off p) = p.
Proof.
  intros Hp. destruct (va_range p Hp) as [-> Hr]. pose proof bl_low. unfold phys.
  destruct (Z.ltb_spec (p + off) 0x800000000000); [lia|]. unfold virtToPhysAddr.
  replace (p + off - off) with p by lia. apply u64_small. unfold is_u64. lia.
Qed.

Lemma pa_va p : 0 <= p < lim -> virtToPhysAddr off (physToVirtAddr off p) = p.
Proof.
  intros Hp. destruct (va_range p Hp) as [-> _]. pose proof bl_low. unfold virtToPhysAddr.
  replace (p + off - off) with p by lia. apply u64_small. unfold is_u64. lia.
Qed.

(** A pointer to a table in the upper half, and its entries. *)
Lemma phys_va_entry t i : 0 < t -> t + PAGE_SIZE <= lim -> 0 <= i < 512 ->
  phys off (entry_addr (physToVirtAddr off t) i) = entry_addr t i.
Proof.
  intros Ht Hl Hi. unfold PAGE_SIZE in *.
  destruct (va_range t) as [-> _]; [lia|]. unfold entry_addr.
  replace (t + off + 8 * i) with (t + 8 * i + off) by lia.
  destruct (va_range (t + 8 * i)) as [<- _]; [lia|]. apply phys_va. lia.
Qed.

Lemma phys_entry t i : 0 < t -> t + PAGE_SIZE <= lim -> 0 <= i < 512 ->
  phys off (entry_addr t i) = entry_addr t i.
Proof. intros Ht Hl Hi. apply phys_low. unfold entry_addr, PAGE_SIZE in *. lia. Qed.
End layout.

Lemma indices_spec vaddr : getPageTableIndicesFromVirtualAddress vaddr =
  (pt_index 4 vaddr, pt_index 3 vaddr, pt_index 2 vaddr, pt_index 1 vaddr).
Proof.
  unfold getPageTableIndicesFromVirtualAddress, pt_index. rewrite !Z.shiftr_shiftr by lia. done.
Qed.

(** [mapPage] is the generic mapping routine. *)
Lemma mapPage_generic {A} `{FrameSource A} off (s : A) m vaddr paddr priv attribs pml4 :
  mapPage off s m vaddr paddr priv attribs pml4 =
  map_generic (phys off) USERSPACE_PAGE (map_leaf paddr priv attribs) s m pml4 vaddr.
Proof. unfold mapPage, map_generic. by rewrite indices_spec. Qed.

(** *** The allocator discharges the interface *)
Lemma count_free_all f l : (forall i, i ∈ l -> f i = true) -> count_free f l = 0%nat.
Proof.
  unfold count_free. induction l as [|i l IH]; intros H; [done|].
  rewrite filter_cons, (H i) by left. simpl. apply IH. intros; apply H; by right.
Qed.

(** Handing out the first free page from the hint on leaves one page less. *)
Lemma pages_left_request p r k :
  hint_page p <= k < page_count p -> used p k = false ->
  (forall i, hint_page p <= i < k -> used p i = true) -> 0 <= hint_page p ->
  page_count r = page_count p -> hint_page r = k + 1 ->
  (forall i, 0 <= i -> used r i = if i =? k then true else used p i) ->
  S (pages_left r) = pages_left p.
Proof.
  intros Hk Hf Hb H0 Hc Hh He. unfold pages_left. rewrite Hc, Hh.
  set (h := hint_page p) in *. set (c := page_count p) in *.
  replace (c - h) with ((k - h) + (1 + (c - (k + 1)))) by lia.
  rewrite !seqZ_app by lia. replace (h + (k - h)) with k by lia.
  unfold count_free. rewrite !filter_app, !length_app.
  fold (count_free (used p) (seqZ h (k - h))).
  rewrite (count_free_all (used p) (seqZ h (k - h))) by (intros i Hi%elem_of_seqZ; apply Hb; lia).
  assert (seqZ k 1 = [k]) as -> by (rewrite seqZ_cons by lia; by rewrite (seqZ_nil _ (Z.pred 1)) by lia).
  rewrite filter_cons, Hf. simpl. f_equal.
  apply (count_free_ext (used r) (used p)). intros i Hi%elem_of_seqZ.
  rewrite He by lia. by destruct (Z.eqb_spec i k); [lia|].
Qed.

(** The state of the allocator while it feeds tables: well formed, its lock free, page
    0 and every page taken so far marked as used, all of memory below [lim]. *)
Definition pfa_feeds (lim : Z) (p : PageFrameAllocator) (taken : gset Z) : Prop :=
  pfa_wf p /\ request_lock p = 0 /\ used p 0 = true /\ m_totalSystemMemory p <= lim /\
  forall f, f ∈ taken -> 0 <= f /\ used p (f / PAGE_SIZE) = true.

Lemma pfa_law off lim `{BootLayout off lim} p m taken n :
  pfa_feeds lim p taken -> (S n <= pages_left p)%nat ->
  exists p' f, request_table off p m = Done (p', zero_frame m f, f) /\
    (f ∉ taken) /\ f mod PAGE_SIZE = 0 /\ 0 < f /\ f + PAGE_SIZE <= lim /\
    pfa_feeds lim p' ({[ f ]} ∪ taken) /\ (n <= pages_left p')%nat.
Proof.
  intros (W & L & U0 & Ht & Htaken) Hroom. unfold request_table.
  destruct (requestFreePage_answer off p W L) as ([p' a] & -> & Ha). cbn [mbind outcome_bind fst snd].
  pose proof (hint_page_nonneg _ W) as H0.
  destruct Ha as [[[= -> ->] Hfull]|(k & Hk & Hf & Hb & Ea & W' & L' & Hc & Hh & He)].
  - unfold pages_left in Hroom. rewrite count_free_all in Hroom; [lia|].
    intros i Hi%elem_of_seqZ. apply Hfull. lia.
  - simpl in *. subst a. assert (0 < k) by (destruct (decide (k = 0)) as [->|]; [congruence|lia]).
    pose proof (wf_aligned _ W). assert (k * PAGE_SIZE + PAGE_SIZE <= m_totalSystemMemory p) as Hle
      by (unfold page_count, PAGE_SIZE in *; wordlia).
    assert (0 <= k * PAGE_SIZE < lim) as Hr by (unfold PAGE_SIZE in *; lia).
    exists p', (k * PAGE_SIZE).
    rewrite (phys_va off lim) by done. rewrite (pa_va off lim) by done. split; [done|].
    split; [|split; [by apply Z.mod_mul|split; [unfold PAGE_SIZE; lia|split; [lia|split]]]].
    + intros [_ Hin]%Htaken. rewrite Z.div_mul in Hin by done. congruence.
    + split_and!; try done.
      * rewrite He by lia. by destruct (0 =? k).
      * assert (m_totalSystemMemory p' = m_totalSystemMemory p) as ->; [|done].
        pose proof (wf_aligned _ W'). unfold page_count, PAGE_SIZE in *. wordlia.
      * intros f. rewrite elem_of_union, elem_of_singleton. intros [->|Hin].
        -- rewrite Z.div_mul, He, Z.eqb_refl by (lia || done). split; [lia|done].
        -- apply Htaken in Hin as [Hf0 Hin]. split; [done|].
           rewrite He by (apply Z.div_pos; done). by destruct (_ =? k).
    + pose proof (pages_left_request p p' k) as E. rewrite <- E in Hroom by done. lia.
Qed.

#[export] Instance pfa_frames (off lim : Z) `{BootLayout off lim} : FrameSource PageFrameAllocator := {
  fs_request := request_table off;
  fs_limit := lim;
  fs_inv := pfa_feeds lim;
  fs_room := fun p n => (n <= pages_left p)%nat;
  fs_law := pfa_law off lim;
  fs_room_less := fun p n => Nat.lt_le_incl n (pages_left p);
}.

(** ** Properties *)

(** The fields of the leaf entry that [mapPage] writes. *)
Lemma map_leaf_fields paddr priv attribs e :
  let l := map_leaf paddr priv attribs e in
  pte_present l = 1 /\ pte_readWrite l = 1 /\ pte_userSupervisor l = priv mod 2 /\
  pte_pageCacheDisabled l = attribs mod 2 /\
  pte_pageWriteThrough l = 0 /\ pte_pageAccessType l = 0 /\
  pte_pageFrameNumber l = paddr / 4096 mod 2 ^ 36.
Proof.
  unfold map_leaf, pte_present, pte_readWrite, pte_userSupervisor, pte_pageCacheDisabled,
    pte_pageWriteThrough, pte_pageAccessType, pte_pageFrameNumber, set_pageFrameNumber,
    set_pageAccessType, set_pageWriteThrough, set_pageCacheDisabled, set_userSupervisor,
    set_readWrite, set_present. cbv zeta.
  assert (forall k, 0 < k -> Z.land attribs (2 ^ k) mod 2 ^ 1 = 0) as Hz.
  { intros k Hk. rewrite <- Z.land_ones by lia. apply Z.bits_inj'. intros i Hi.
    rewrite !Z.land_spec, Z.bits_0, Z.pow2_bits_eqb, testbit_ones by lia.
    destruct (Z.eqb_spec k i), (Z.ltb_spec i 1); rewrite ?andb_false_r; try done; lia. }
  split_and!; repeat rewrite (bf_set_other _ _ _ _) by lia; rewrite bf_set_same by lia; try done.
  - assert (Z.land attribs PAGE_ATTRIB_CACHE_DISABLED = attribs mod 2 ^ 1) as ->
      by (apply (Z.land_ones attribs 1); lia).
    by rewrite Z.mod_mod by lia.
  - apply (Hz 1). lia.
  - apply (Hz 2). lia.
  - by rewrite Z.shiftr_div_pow2 by lia.
Qed.

Section kernel_paging.
Context {A} `{FrameSource A} (off lim : Z) `{BootLayout off lim}.
Hypothesis Hlim : fs_limit = lim.

Lemma Hlim48 : fs_limit = lim /\ lim <= 2 ^ 48.
Proof. split; [done|]. pose proof bl_low. lia. Qed.

(** C3 (functional): on a well-formed page table tree and with three frames left,
    [mapPage] returns; the walk of [vaddr] then ends at a present, writable entry
    with the frame of [paddr] and the given privilege, the tree stays well formed
    (every table has one parent), and the translation of every other page is
    unchanged, whatever tables had to be created. *)
Theorem mapPage_translates T m (s : A) root par vaddr paddr priv attribs :
  tree lim T m -> T !! root = Some (4%nat, par) -> fs_inv s (dom T) -> fs_room s 3 ->
  exists s' m' T' e,
    mapPage off s m vaddr paddr priv attribs (physToVirtAddr off root) = Done (s', m') /\
    tree lim T' m' /\ T ⊆ T' /\ fs_inv s' (dom T') /\
    translate m' root vaddr = Some e /\
    pte_present e = 1 /\ pte_readWrite e = 1 /\ pte_userSupervisor e = priv mod 2 /\
    pte_pageFrameNumber e = paddr / 4096 mod 2 ^ 36 /\
    (forall v', vpage v' <> vpage vaddr -> translate m' root v' = translate m root v').
Proof.
  intros HT Hroot Hinv Hroom. rewrite mapPage_generic.
  destruct (tree_range _ _ _ HT _ _ _ Hroot) as (_ & R1 & R2 & _).
  destruct (map_generic_ok lim Hlim48 (phys off) (phys_entry off lim) T m s 0 root
    (physToVirtAddr off root) par vaddr USERSPACE_PAGE (map_leaf paddr priv attribs))
    as (s' & m' & T' & e & E & H1 & H2 & H3 & _ & H4 & H5 & _); try done.
  - intros i Hi. by apply (phys_va_entry off lim).
  - intros e. destruct (map_leaf_fields paddr priv attribs e) as (-> & _). done.
  - destruct (map_leaf_fields paddr priv attribs e) as (F1 & F2 & F3 & _ & _ & _ & F4).
    exists s', m', T', (map_leaf paddr priv attribs e). by split_and!.
Qed.

(** The calls of [getPteForAddr] follow the walk. *)
Lemma getPteForAddr_leaf T m root par v :
  tree lim T m -> T !! root = Some (4%nat, par) ->
  getPteForAddr off m v (physToVirtAddr off root) =
  match leaf_addr m root 4 v with
  | Some a => if pte_present (m a) =? 0 then 0 else physToVirtAddr off a
  | None => 0
  end.
Proof.
  intros HT Hroot. pose proof pt_index_range as R. unfold getPteForAddr, getNextLevelPageTable.
  assert (forall l t p i, T !! t = Some (l, p) -> 0 <= i < 512 ->
    phys off (physToVirtAddr off (entry_addr t i)) = entry_addr t i) as Hva.
  { intros l t p i Ht Hi. destruct (tree_range _ _ _ HT _ _ _ Ht) as (_ & R1 & R2 & _).
    apply (phys_va off lim). unfold entry_addr, PAGE_SIZE in *. lia. }
  change (getPml4Entry v (physToVirtAddr off root)) with (entry_addr (physToVirtAddr off root) (pt_index 4 v)).
  destruct (tree_range _ _ _ HT _ _ _ Hroot) as (_ & R1 & R2 & _).
  rewrite (phys_va_entry off lim) by (done || apply R). cbn [leaf_addr].
  destruct (Z.eqb_spec (pte_present (m (entry_addr root (pt_index 4 v)))) 0) as [|P4]; [done|].
  pose proof (tree_next _ _ _ HT _ _ _ _ Hroot (R _ _) P4) as N3.
  set (t3 := next_table (m (entry_addr root (pt_index 4 v)))) in *.
  change (getPdptEntry off v t3) with (physToVirtAddr off (entry_addr t3 (pt_index 3 v))).
  rewrite (Hva _ _ _ _ N3 (R _ _)).
  destruct (Z.eqb_spec (pte_present (m (entry_addr t3 (pt_index 3 v)))) 0) as [|P3]; [done|].
  pose proof (tree_next _ _ _ HT _ _ _ _ N3 (R _ _) P3) as N2.
  set (t2 := next_table (m (entry_addr t3 (pt_index 3 v)))) in *.
  change (getPdtEntry off v t2) with (physToVirtAddr off (entry_addr t2 (pt_index 2 v))).
  rewrite (Hva _ _ _ _ N2 (R _ _)).
  destruct (Z.eqb_spec (pte_present (m (entry_addr t2 (pt_index 2 v)))) 0) as [|P2]; [done|].
  pose proof (tree_next _ _ _ HT _ _ _ _ N2 (R _ _) P2) as N1.
  set (t1 := next_table (m (entry_addr t2 (pt_index 2 v)))) in *.
  change (getPteFromPageTable off v t1) with (physToVirtAddr off (entry_addr t1 (pt_index 1 v))).
  by rewrite (Hva _ _ _ _ N1 (R _ _)).
Qed.

(** On a well-formed tree [getPteForAddr] is the abstract walk: it
    returns the upper-half pointer to the leaf entry when all four entries on the
    way are present, and the null pointer otherwise. *)
Theorem getPteForAddr_walk T m root par v :
  tree lim T m -> T !! root = Some (4%nat, par) ->
  getPteForAddr off m v (physToVirtAddr off root) =
  match leaf_addr m root 4 v with
  | Some a => if pte_present (m a) =? 0 then 0 else physToVirtAddr off a
  | None => 0
  end.
Proof. apply getPteForAddr_leaf. Qed.

Lemma walk_ext T m m' : tree lim T m ->
  (forall t l par i, T !! t = Some (l, par) -> 0 <= i < 512 -> m' (entry_addr t i) = m (entry_addr t i)) ->
  forall l t par v, T !! t = Some (l, par) -> walk m' t l v = walk m t l v.
Proof.
  intros HT He. induction l as [|[|l] IH]; intros t par v Ht.
  - destruct (tree_range _ _ _ HT _ _ _ Ht) as (_ & _ & _ & ?). lia.
  - unfold walk. cbn [leaf_addr]. by rewrite (He _ _ _ _ Ht (pt_index_range _ _)).
  - rewrite !walk_step. cbv zeta. rewrite (He _ _ _ _ Ht (pt_index_range _ _)).
    destruct (Z.eqb_spec (pte_present (m (entry_addr t (pt_index (S (S l)) v)))) 0) as [|P]; [done|].
    apply (IH _ _ v (tree_next _ _ _ HT _ _ _ _ Ht (pt_index_range _ _) P)).
Qed.

(** The address space that [createUserspacePml4] returns translates
    exactly the addresses of the top 512 GiB, the kernel's, and those as the kernel's
    tables do. *)
Theorem createUserspacePml4_shares T m (s : A) kroot par :
  tree lim T m -> T !! kroot = Some (4%nat, par) -> fs_inv s (dom T) -> fs_room s 1 ->
  exists s' m' f,
    createUserspacePml4 off s m (physToVirtAddr off kroot) = Done (s', m', physToVirtAddr off f) /\
    (f ∉ dom T) /\
    (forall v, translate m' f v = if pt_index 4 v =? 511 then translate m kroot v else None) /\
    (forall v, translate m' kroot v = translate m kroot v).
Proof.
  intros HT Hroot Hinv Hroom. unfold createUserspacePml4.
  destruct (fs_law s m (dom T) 0 Hinv Hroom) as (s' & f & -> & Hf & Ha & Hpos & Htop & _).
  cbn [mbind outcome_bind]. rewrite Hlim in Htop.
  destruct (tree_range _ _ _ HT _ _ _ Hroot) as (_ & R1 & R2 & _).
  rewrite !(phys_va_entry off lim) by (done || lia).
  apply not_elem_of_dom in Hf as Hf'. pose proof (zero_frame_other lim T m f) as Hz.
  rewrite (Hz _ _ _ _ HT Hroot Hf' Ha) by lia.
  set (m' := wr (zero_frame m f) (entry_addr f 511) (m (entry_addr kroot 511))).
  assert (forall t l par i, T !! t = Some (l, par) -> 0 <= i < 512 ->
    m' (entry_addr t i) = m (entry_addr t i)) as Hsame.
  { intros t l p i Ht Hi. unfold m', wr. destruct (Z.eqb_spec (entry_addr t i) (entry_addr f 511)) as [E|].
    - destruct (tree_range _ _ _ HT _ _ _ Ht) as (At & _). apply entry_addr_inj in E; try (done || lia).
      destruct E as [-> _]. congruence.
    - by apply (Hz _ _ _ _ HT Ht). }
  pose proof (walk_ext T m m' HT Hsame) as Hw.
  exists s', m', f. split; [done|]. split; [done|]. split.
  - intros v. unfold translate. rewrite walk_step. cbv zeta.
    destruct (Z.eqb_spec (pt_index 4 v) 511) as [Ei|Ei].
    + assert (m' (entry_addr f 511) = m (entry_addr kroot 511)) as E511
        by (unfold m', wr; by rewrite Z.eqb_refl).
      rewrite (walk_step m kroot 2 v). cbv zeta. rewrite Ei, E511.
      destruct (Z.eqb_spec (pte_present (m (entry_addr kroot 511))) 0) as [|P]; [done|].
      pose proof (tree_next _ _ _ HT _ _ _ 511 Hroot ltac:(lia) P) as N. by apply (Hw _ _ _ v N).
    + assert (m' (entry_addr f (pt_index 4 v)) = 0) as ->; [|done].
      pose proof (pt_index_range 4 v). unfold m', wr, zero_frame, entry_addr, PAGE_SIZE in *.
      destruct (Z.eqb_spec (f + 8 * pt_index 4 v) (f + 8 * 511)); [lia|].
      destruct (Z.leb_spec f (f + 8 * pt_index 4 v)), (Z.ltb_spec (f + 8 * pt_index 4 v) (f + 4096));
        try done; lia.
  - intros v. by apply (Hw _ _ _ v Hroot).
Qed.
End kernel_paging.

(** The attributes for write-through (bit 1) and access type
    (bit 2) are stored in one-bit fields without a shift, so whatever [attribs] asks
    for, [mapPage] and [changePageAttribs] clear both fields; only the cache-disable
    attribute arrives. *)
Theorem page_attributes_lost paddr priv attribs off m vaddr pml4 e :
  let l := map_leaf paddr priv attribs e in
  let a := phys off (getPteForAddr off m vaddr pml4) in
  let l' := changePageAttribs off m vaddr attribs pml4 a in
  pte_pageWriteThrough l = 0 /\ pte_pageAccessType l = 0 /\ pte_pageCacheDisabled l = attribs mod 2 /\
  pte_pageWriteThrough l' = 0 /\ pte_pageAccessType l' = 0 /\ pte_pageCacheDisabled l' = attribs mod 2.
Proof.
  intros l a l'. destruct (map_leaf_fields paddr priv attribs e) as (_ & _ & _ & F4 & F5 & F6 & _).
  destruct (map_leaf_fields 0 0 attribs (m a)) as (_ & _ & _ & G4 & G5 & G6 & _).
  unfold l', changePageAttribs, update_pte, wr. fold a. rewrite Z.eqb_refl.
  split_and!; try done; [rewrite <- G5|rewrite <- G6|rewrite <- G4];
    unfold map_leaf, pte_pageWriteThrough, pte_pageAccessType, pte_pageCacheDisabled, set_pageFrameNumber,
      set_pageAccessType, set_pageWriteThrough, set_pageCacheDisabled, set_userSupervisor,
      set_readWrite, set_present; cbv zeta;
    repeat first [rewrite (bf_set_other _ _ _ _) by lia | rewrite bf_set_same by lia]; done.
Qed.

(** ** Witnesses *)
#[export] Instance demo_layout : BootLayout 0xffff800000000000 0x10000.
Proof. constructor; lia. Qed.

(** An empty PML4 at 0x1000. *)
Definition demo_T : gmap Z (nat * Z) := {[ 0x1000 := (4%nat, 0) ]}.
Definition demo_m : Z -> Z := fun _ => 0.

Lemma demo_tree : tree 0x10000 demo_T demo_m.
Proof.
  constructor.
  - unfold demo_T. intros t l par [<- [= <- <-]]%lookup_singleton_Some. unfold PAGE_SIZE. split_and!; (done || lia).
  - intros t l par i _ _ []. reflexivity.
Qed.

Lemma demo_feeds : pfa_feeds 0x10000 (demo_pfa 0x0f 0 12) (dom demo_T).
Proof.
  split; [apply demo_wf1|]. split; [done|]. split; [done|]. split; [by compute|].
  intros f. unfold demo_T. rewrite dom_singleton_L, elem_of_singleton. intros ->. split; [lia|done].
Qed.

Lemma mapPage_translates_witness : exists s' m' e,
  mapPage 0xffff800000000000 (demo_pfa 0x0f 0 12) demo_m 0x400000 0x5000 1 0
    (physToVirtAddr 0xffff800000000000 0x1000) = Done (s', m') /\
  translate m' 0x1000 0x400000 = Some e /\ pte_pageFrameNumber e = 5.
Proof.
  destruct (mapPage_translates (H:=pfa_frames 0xffff800000000000 0x10000) 0xffff800000000000 0x10000 eq_refl demo_T demo_m (demo_pfa 0x0f 0 12)
    0x1000 0 0x400000 0x5000 1 0 demo_tree) as (s' & m' & T' & e & E & _ & _ & _ & W & _ & _ & _ & F & _);
    [done|apply demo_feeds|vm_compute; lia|].
  exists s', m', e. split_and!; [exact E|exact W|exact F].
Defined.

Lemma getPteForAddr_walk_witness :
  getPteForAddr 0xffff800000000000 demo_m 0x400000 (physToVirtAddr 0xffff800000000000 0x1000) = 0.
Proof.
  rewrite (getPteForAddr_walk 0xffff800000000000 0x10000 demo_T demo_m 0x1000 0 0x400000 demo_tree);
    reflexivity.
Defined.

Lemma createUserspacePml4_shares_witness : exists s' m' f,
  createUserspacePml4 0xffff800000000000 (demo_pfa 0x0f 0 12) demo_m
    (physToVirtAddr 0xffff800000000000 0x1000) = Done (s', m', physToVirtAddr 0xffff800000000000 f).
Proof.
  destruct (createUserspacePml4_shares (H:=pfa_frames 0xffff800000000000 0x10000) 0xffff800000000000 0x10000 eq_refl demo_T demo_m (demo_pfa 0x0f 0 12)
    0x1000 0 demo_tree) as (s' & m' & f & E & _); [done|apply demo_feeds|vm_compute; lia|].
  exists s', m', f. exact E.
Defined.
