(* ===== verification/MemInit.v ===== *)
(** * Bringing memory up (kernel/src/paging/page_frame_allocator.cpp,
      [initializeFromMemoryMap]; kernel/src/memory/efimem.h)

    The first thing the kernel does with memory: it reads the memory map of the
    firmware, places the page frame bitmap at the start of the largest free segment and
    the kernel heap behind it, marks the free pages and opens them to user mode.  The
    function ties together the allocator of PageFrame.v, the heap of KHeap.v and the page
    tables of Paging.v.

    The map is the list of its descriptors.  The bitmap's buffer, the heap's memory and the
    words of the page tables are three views of memory that do not overlap: the tables
    come from the bootloader, which the map does not report as free. *)
From Stdlib Require Import ZArith Lia List.
From stdpp Require Import base tactics numbers option list gmap.
From S2P Require Import Prelude Memory KMemory Sync KHeap KHeapThms PageFrame PageTable Paging.

(** ** The memory map *)
Record EFI_MEMORY_DESCRIPTOR := mkDesc {
  d_type : Z;
  d_paddr : Z;
  d_vaddr : Z;
  d_pageCount : Z;
  d_attribs : Z;
}.

(** [desc->type == 7] *)
Definition conventional (d : EFI_MEMORY_DESCRIPTOR) : bool := d_type d =? 7.

(** [desc->pageCount * PAGE_SIZE] *)
Definition d_bytes (d : EFI_MEMORY_DESCRIPTOR) : Z := d_pageCount d ⊠ PAGE_SIZE.

Definition KERNEL_HEAP_INIT_SIZE : Z := 0x60000000.

(** The locals of the first loop. *)
Record Scan := mkScan {
  sc_totalSystemMemory : Z;
  sc_freeSystemMemory : Z;
  sc_largestFreeMemorySegment : Z;
  sc_largestFreeMemorySegmentSize : Z;
}.

Definition scan_descriptor (off : Z) (s : Scan) (d : EFI_MEMORY_DESCRIPTOR) : Scan :=
  let total := sc_totalSystemMemory s ⊞ d_bytes d in
  if negb (conventional d) then
    mkScan total (sc_freeSystemMemory s)
      (sc_largestFreeMemorySegment s) (sc_largestFreeMemorySegmentSize s)
  else
    let free := sc_freeSystemMemory s ⊞ d_bytes d in
    let keep := mkScan total free
      (sc_largestFreeMemorySegment s) (sc_largestFreeMemorySegmentSize s) in
    if sc_largestFreeMemorySegmentSize s <? d_bytes d then
      let virtualBase := physToVirtAddr off (d_paddr d) in
      let virtualRegionEnd := virtualBase ⊞ d_bytes d in
      if (0xffff000000000000 <=? virtualBase) && (virtualRegionEnd <=? 0xffffffffffffffff)
      then mkScan total free (d_paddr d) (d_bytes d)
      else keep
    else keep.

Definition scan_map (off total : Z) (descs : list EFI_MEMORY_DESCRIPTOR) : Scan :=
  fold_left (scan_descriptor off) descs (mkScan total 0 0 0).

(** [pageBitmapBase] and [pageBitmapVirtualBase] *)
Definition bitmap_base (off : Z) (descs : list EFI_MEMORY_DESCRIPTOR) (segment size : Z) : Z * Z :=
  let base := segment in
  let virtualBase := physToVirtAddr off base in
  if (virtualBase <? 0xffff000000000000) || (virtualBase =? 0) then
    match find (fun d => conventional d && (size <=? d_bytes d)) descs with
    | Some d => (d_paddr d, physToVirtAddr off (d_paddr d))
    | None => (base, virtualBase)
    end
  else (base, virtualBase).

(** [pte = getPteForAddr(vaddr, pml4); pte->userSupervisor = USERSPACE_PAGE;] *)
Definition mark_user (off : Z) (m : Z -> Z) (vaddr pml4 : Z) : Z -> Z :=
  update_pte off m vaddr pml4 (fun e => set_userSupervisor e USERSPACE_PAGE).

(** The pages of one descriptor. *)
Definition free_descriptor (off pml4 : Z) (s : PageFrameBitmap * (Z -> Z))
    (d : EFI_MEMORY_DESCRIPTOR) : outcome (PageFrameBitmap * (Z -> Z)) :=
  if negb (conventional d) then Done s
  else
    let frameStart := d_paddr d in
    let frameEnd := d_paddr d ⊞ d_bytes d in
    loop (S (Z.to_nat (d_pageCount d))) (fun '(freePagePtr, b, m) =>
      if freePagePtr <? frameEnd then
        r ← markPageFree b freePagePtr;
        let m := mark_user off m (physToVirtAddr off freePagePtr) pml4 in
        Done (inl (freePagePtr ⊞ PAGE_SIZE, fst r, m))
      else Done (inr (b, m)))
      (frameStart, fst s, snd s).

Fixpoint free_descriptors (off pml4 : Z) (s : PageFrameBitmap * (Z -> Z))
    (descs : list EFI_MEMORY_DESCRIPTOR) : outcome (PageFrameBitmap * (Z -> Z)) :=
  match descs with
  | [] => Done s
  | d :: descs => s ← free_descriptor off pml4 s d; free_descriptors off pml4 s descs
  end.

(** The pages the bitmap lives in. *)
Definition mark_bitmap_pages (off pml4 : Z) (m : Z -> Z) (virtualBase size : Z)
  : outcome (Z -> Z) :=
  loop (S (S (Z.to_nat (size / PAGE_SIZE)))) (fun '(bitmapPage, m) =>
    if bitmapPage <? virtualBase ⊞ size then
      Done (inl (bitmapPage ⊞ PAGE_SIZE, mark_user off m bitmapPage pml4))
    else Done (inr m)) (virtualBase, m).

(** The first usable page, [None] when the loop ends without one. *)
Definition first_usable (b : PageFrameBitmap) (total : Z) : outcome (option Z) :=
  loop (S (S (Z.to_nat (total / PAGE_SIZE)))) (fun page =>
    if page <? total then
      f ← isPageFree b page;
      if f : bool then Done (inr (Some page)) else Done (inl (page + PAGE_SIZE))
    else Done (inr None)) 0.

Definition set_bitmap (p : PageFrameAllocator) (b : PageFrameBitmap) : PageFrameAllocator :=
  set_counters p (m_freeSystemMemory p) (m_usedSystemMemory p) b.

(** [DynamicMemoryAllocator::init], with its call of [lockPages]. *)
Definition heap_init_locked (off : Z) (p : PageFrameAllocator) (h : Heap) (base size : Z)
  : outcome (PageFrameAllocator * Heap) :=
  p ← lockPages off p base (size / PAGE_SIZE);
  h ← heap_init h base size;
  Done (p, h).

(** The end of the function: the first usable page, the counter of used memory, and the
    locks on the bitmap's pages. *)
Definition count_and_lock (off : Z) (p : PageFrameAllocator)
    (pageBitmapBase pageBitmapVirtualBase pageBitmapSize : Z) : outcome PageFrameAllocator :=
  page ← first_usable (m_pageFrameBitmap p) (m_totalSystemMemory p);
  let p := match page with Some page => set_hint p page | None => p end in
  let p := set_counters p (m_freeSystemMemory p)
             (m_totalSystemMemory p ⊟ m_freeSystemMemory p) (m_pageFrameBitmap p) in
  p ← lockPhysicalPages p pageBitmapBase (pageBitmapSize / PAGE_SIZE + 1);
  lockPages off p pageBitmapVirtualBase (pageBitmapSize / PAGE_SIZE + 1).

Definition initializeFromMemoryMap (off cr3 : Z) (p : PageFrameAllocator) (h : Heap) (m : Z -> Z)
    (descs : list EFI_MEMORY_DESCRIPTOR) : outcome (PageFrameAllocator * Heap * (Z -> Z)) :=
  let s := scan_map off (m_totalSystemMemory p) descs in
  let total := sc_totalSystemMemory s in
  let pageBitmapSize := total / PAGE_SIZE / 8 ⊞ 1 in
  let '(pageBitmapBase, pageBitmapVirtualBase) :=
    bitmap_base off descs (sc_largestFreeMemorySegment s) pageBitmapSize in
  let p := mkPFA total (sc_freeSystemMemory s) (m_usedSystemMemory p) (m_lastTrackedFreePage p)
             (bitmap_initialize pageBitmapSize) (allocator_lock p) (request_lock p) in
  let kernelHeapBase := pageBitmapVirtualBase ⊞ pageBitmapSize in
  r ← heap_init_locked off p h kernelHeapBase KERNEL_HEAP_INIT_SIZE;
  let '(p, h) := r in
  let pml4 := getCurrentTopLevelPageTable off cr3 in
  r ← free_descriptors off pml4 (m_pageFrameBitmap p, m) descs;
  let '(b, m) := r in
  m ← mark_bitmap_pages off pml4 m pageBitmapVirtualBase pageBitmapSize;
  p ← count_and_lock off (set_bitmap p b) pageBitmapBase pageBitmapVirtualBase pageBitmapSize;
  Done (p, h, m).

(** ** Small facts *)

Lemma page_used_initial size i : 0 <= i -> page_used (bitmap_initialize size) i = true.
Proof.
  intros Hi. unfold page_used, bitmap_initialize. simpl.
  destruct (replicate _ _ !! _) as [v|] eqn:E; [|done].
  apply lookup_replicate in E as [-> _]. change 0xff with (Z.ones 8).
  rewrite testbit_ones by lia. pose proof (Z.mod_pos_bound i 8). wordlia.
Qed.

Lemma bm_wf_initial size : 0 <= size < 0x1000000000000000 -> bm_wf (bitmap_initialize size).
Proof.
  intros Hs. constructor; simpl; [rewrite length_replicate; lia| |lia].
  apply Forall_replicate. unfold is_u8. lia.
Qed.

Lemma free_pages_initial size : free_pages (bitmap_initialize size) = 0.
Proof.
  unfold free_pages. rewrite count_free_all; [done|].
  intros i Hi%elem_of_seqZ. apply page_used_initial. lia.
Qed.

(** Locking a page that is marked already changes nothing. *)
Lemma lockPhysicalPage_used p addr : allocator_lock p = 0 -> bm_wf (m_pageFrameBitmap p) ->
  in_bitmap (m_pageFrameBitmap p) addr -> used p (addr / PAGE_SIZE) = true ->
  lockPhysicalPage p addr = Done p.
Proof.
  intros Hl Hb Hi Hu. unfold lockPhysicalPage. rewrite alock_free by done.
  cbn [mbind outcome_bind]. simpl m_pageFrameBitmap. rewrite isPageUsed_spec by done.
  cbn [mbind outcome_bind]. unfold used in Hu. rewrite Hu. by rewrite aunlock_locked.
Qed.

(** The walk depends on the page number only. *)
Lemma vpage_index l v v' : (1 <= l <= 4)%nat -> vpage v = vpage v' -> pt_index l v = pt_index l v'.
Proof.
  intros Hl. assert (forall w, pt_index l w = Z.land (Z.shiftr (vpage w) (9 * (Z.of_nat l - 1))) 0x1ff) as E.
  { intros w. unfold pt_index, vpage, bf. change 0x1ff with (Z.ones 9). apply Z.bits_inj'. intros i Hi.
    rewrite !Z.land_spec, !testbit_ones by lia.
    destruct (Z.leb_spec 0 i), (Z.ltb_spec i 9); try done; rewrite ?andb_false_r, ?andb_true_r; try done.
    rewrite !shiftr_testbit, Z.land_spec, shiftr_testbit, testbit_ones by lia.
    replace (i + 9 * (Z.of_nat l - 1) + 12) with (i + (12 + 9 * (Z.of_nat l - 1))) by lia.
    symmetry. rewrite (proj2 (Z.ltb_lt _ _)), (proj2 (Z.leb_le _ _)) by lia. by rewrite andb_true_r. }
  rewrite !E. by intros ->.
Qed.

Lemma leaf_addr_vpage m v v' : vpage v = vpage v' ->
  forall l t, (l <= 4)%nat -> (1 <= l)%nat -> leaf_addr m t l v = leaf_addr m t l v'.
Proof.
  intros E. induction l as [|[|l] IH]; intros t Hl Hl'; [lia|..]; cbn [leaf_addr];
    rewrite (vpage_index _ v v') by (lia || done); [done|].
  destruct (_ =? 0); [done|]. apply IH; lia.
Qed.

Section init.
Context (off lim : Z) `{BootLayout off lim}.

Lemma lockPages_used n : forall p a, allocator_lock p = 0 -> bm_wf (m_pageFrameBitmap p) ->
  0 <= a -> a + Z.of_nat n * PAGE_SIZE <= lim ->
  (forall i, 0 <= i < Z.of_nat n -> in_bitmap (m_pageFrameBitmap p) (a + i * PAGE_SIZE) /\
     used p ((a + i * PAGE_SIZE) / PAGE_SIZE) = true) ->
  each_page (lockPage off) p (a + off) n = Done p.
Proof.
  induction n as [|n IH]; intros p a Hl Hb Ha Hn Hu; [done|]. cbn [each_page].
  assert (0 <= a < lim) as Hr by (unfold PAGE_SIZE in *; lia).
  destruct (va_range off lim a Hr) as [E _].
  destruct (Hu 0) as [H1 H2]; [lia|]. rewrite Z.mul_0_l, Z.add_0_r in H1, H2.
  assert (lockPage off p (a + off) = Done p) as ->.
  { unfold lockPage. rewrite <- E, (pa_va off lim) by done. by apply lockPhysicalPage_used. }
  cbn [mbind outcome_bind].
  destruct n as [|n]; [done|].
  assert ((a + off) ⊞ PAGE_SIZE = (a + PAGE_SIZE) + off) as ->.
  { pose proof (bl_high (off := off)). pose proof (bl_off (off := off)). unfold PAGE_SIZE in *. wordlia. }
  apply IH; [done|done|unfold PAGE_SIZE; lia|unfold PAGE_SIZE in *; lia|].
  intros i Hi. replace (a + PAGE_SIZE + i * PAGE_SIZE) with (a + (i + 1) * PAGE_SIZE) by lia.
  apply Hu. lia.
Qed.

(** *** The page tables *)

Context (T : gmap Z (nat * Z)) (root par : Z).
Hypothesis Hroot : T !! root = Some (4%nat, par).
Hypothesis Hoff : off mod PAGE_SIZE = 0.

(** The page of physical memory behind an address of the upper half mapping. *)
Definition page_of (v : Z) : Z := (vpage v - off / PAGE_SIZE) mod 2 ^ 36.

(** The translations are those of [m], with the entries of the pages of [P] open to user
    mode. *)
Definition opened (P : Z -> bool) (m m' : Z -> Z) : Prop :=
  tree lim T m' /\
  forall v, translate m' root v =
    if P (page_of v) then (fun e => set_userSupervisor e USERSPACE_PAGE) <$> translate m root v
    else translate m root v.

Lemma page_of_va j v : 0 <= j < lim / PAGE_SIZE ->
  page_of v = j <-> vpage v = vpage (physToVirtAddr off (j * PAGE_SIZE)).
Proof.
  intros Hj. assert (0 <= j * PAGE_SIZE < lim) as Hr by (unfold PAGE_SIZE in *; wordlia).
  destruct (va_range off lim _ Hr) as [-> _]. pose proof (bl_low (off := off)).
  unfold page_of, vpage, bf. rewrite !Z.land_ones, !Z.shiftr_div_pow2 by lia.
  change (2 ^ 12) with PAGE_SIZE. change (2 ^ 36) with 0x1000000000.
  unfold PAGE_SIZE in *. rewrite (Z.div_mod off 4096), Hoff by lia.
  set (o := off / 4096). set (w := v / 4096). clearbody w.
  replace ((j * 4096 + (4096 * o + 0)) / 4096) with (j + o) by wordlia.
  replace ((4096 * o + 0) / 4096) with o by wordlia. wordlia.
Qed.

(** An update through [getPteForAddr] of a page that is mapped. *)
Lemma update_pte_ok m va e f : tree lim T m -> translate m root va = Some e ->
  pte_present (f e) = pte_present e ->
  tree lim T (update_pte off m va (physToVirtAddr off root) f) /\
  forall v, translate (update_pte off m va (physToVirtAddr off root) f) root v =
    if vpage v =? vpage va then Some (f e) else translate m root v.
Proof.
  intros HT He Hf. unfold update_pte. rewrite (getPteForAddr_leaf off lim T m root par) by done.
  unfold translate, walk in He. destruct (leaf_addr m root 4 va) as [a|] eqn:Ea; [|done].
  destruct (Z.eqb_spec (pte_present (m a)) 0) as [|Hp]; [done|]. injection He as <-.
  destruct (leaf_addr_level1 lim T m HT va a 4 root par Hroot Ea) as (t & par' & Ht & Et).
  pose proof (pt_index_range 1 va) as Hi.
  rewrite (phys_va off lim).
  2:{ destruct (tree_range _ _ _ HT _ _ _ Ht) as (_ & R1 & R2 & _). subst a.
      unfold entry_addr, PAGE_SIZE in *. lia. }
  rewrite Et. split; [by apply (leaf_write_tree lim T m HT t par')|]. intros v.
  unfold translate, walk. rewrite (leaf_write_addr lim T m HT t par' _ _ v 4 root par) by done.
  destruct (Z.eqb_spec (vpage v) (vpage va)) as [E|E].
  - rewrite (leaf_addr_vpage m v va E), Ea, <- Et by lia. unfold wr. rewrite Z.eqb_refl, Hf.
    by destruct (Z.eqb_spec (pte_present (m a)) 0).
  - destruct (leaf_addr m root 4 v) as [a'|] eqn:E'; [|done].
    assert (a' <> a) as Hne.
    { intros ->. apply E. apply indices_vpage. intros l Hl.
      apply (leaf_addr_inj lim T m HT v va a 4 root root _ _ Hroot Hroot E' Ea). lia. }
    rewrite <- Et. unfold wr. by destruct (Z.eqb_spec a' a).
Qed.

Lemma opened_refl m : tree lim T m -> opened (fun _ => false) m m.
Proof. by split. Qed.

Lemma opened_ext P Q m m' : (forall j, P j = Q j) -> opened P m m' -> opened Q m m'.
Proof. intros E [H1 H2]. split; [done|]. intros v. by rewrite <- E. Qed.

Lemma mark_user_opened P m m' j : 0 <= j < lim / PAGE_SIZE ->
  is_Some (translate m root (physToVirtAddr off (j * PAGE_SIZE))) -> opened P m m' ->
  opened (fun i => P i || (i =? j)) m
    (mark_user off m' (physToVirtAddr off (j * PAGE_SIZE)) (physToVirtAddr off root)).
Proof.
  intros Hj [e He] [HT Ho]. set (va := physToVirtAddr off (j * PAGE_SIZE)) in *.
  set (open := fun e => set_userSupervisor e USERSPACE_PAGE) in *.
  assert (forall e, pte_present (open e) = pte_present e) as Hpres
    by (intros x; apply bf_set_other; lia).
  assert (forall e, open (open e) = open e) as Hidem.
  { intros x. unfold open, set_userSupervisor, bf_set. bitwise. }
  assert (exists e', translate m' root va = Some e' /\ open e' = open e) as (e' & He' & Eo).
  { rewrite (Ho va), He. destruct (P _); simpl; eauto. }
  destruct (update_pte_ok m' va e' open HT He' (Hpres e')) as [HT' Ht].
  split; [done|]. intros v. unfold mark_user. rewrite Ht, Ho, Eo.
  assert ((page_of v =? j) = (vpage v =? vpage va)) as ->.
  { pose proof (page_of_va j v Hj) as E. fold va in E.
    destruct (Z.eqb_spec (page_of v) j), (Z.eqb_spec (vpage v) (vpage va)); tauto. }
  destruct (Z.eqb_spec (vpage v) (vpage va)) as [E|E].
  - rewrite orb_true_r. unfold translate, walk in *.
    by rewrite (leaf_addr_vpage m v va E), He by lia.
  - by rewrite orb_false_r.
Qed.

(** *** The pages of the map *)

Definition in_range (k n i : Z) : bool := (k <=? i) && (i <? k + n).

Lemma in_range_step k n i : 0 <= n -> in_range k (n + 1) i = (i =? k) || in_range (k + 1) n i.
Proof.
  intros Hn. unfold in_range.
  destruct (Z.leb_spec k i), (Z.ltb_spec i (k + (n + 1))), (Z.eqb_spec i k), (Z.leb_spec (k + 1) i),
    (Z.ltb_spec i (k + 1 + n)); try done; lia.
Qed.

(** What marking the pages of the set [Q], [n] of them, does. *)
Definition freed (Q : Z -> bool) (n : Z) (b b' : PageFrameBitmap) : Prop :=
  bm_wf b' /\ bm_size b' = bm_size b /\ free_pages b' = free_pages b + n /\
  forall i, 0 <= i -> page_used b' i = if Q i then false else page_used b i.

Lemma markPageFree_freed b k : bm_wf b -> 0 <= k < 8 * bm_size b -> page_used b k = true ->
  exists b', markPageFree b (k * PAGE_SIZE) = Done (b', true) /\ freed (fun i => i =? k) 1 b b'.
Proof.
  intros Hb Hk Hu. unfold markPageFree.
  assert (k * PAGE_SIZE / PAGE_SIZE = k) as Ek by (by apply Z.div_mul).
  destruct (setPageValue_spec b (k * PAGE_SIZE) false Hb) as (b' & -> & Hb' & Hs & He).
  { split; [unfold PAGE_SIZE; lia|]. rewrite Ek. lia. }
  rewrite Ek in He. exists b'. split; [done|]. split_and!; try done.
  rewrite <- (free_pages_mark b' b k); [lia|lia|done| |].
  - rewrite He by lia. by rewrite Z.eqb_refl.
  - intros i Hi. rewrite He by done. by destruct (Z.eqb_spec i k) as [->|].
Qed.

Lemma free_loop_ok m n : forall fuel k b m' P, (n < fuel)%nat ->
  bm_wf b -> 0 <= k -> k + Z.of_nat n <= lim / PAGE_SIZE -> k + Z.of_nat n < 8 * bm_size b ->
  (forall i, k <= i < k + Z.of_nat n -> page_used b i = true /\
     is_Some (translate m root (physToVirtAddr off (i * PAGE_SIZE)))) ->
  opened P m m' ->
  exists b' m'', loop fuel (fun '(freePagePtr, b, m) =>
      if freePagePtr <? (k + Z.of_nat n) * PAGE_SIZE then
        r ← markPageFree b freePagePtr;
        Done (inl (freePagePtr ⊞ PAGE_SIZE, fst r,
          mark_user off m (physToVirtAddr off freePagePtr) (physToVirtAddr off root)))
      else Done (inr (b, m))) (k * PAGE_SIZE, b, m') = Done (b', m'') /\
    freed (in_range k (Z.of_nat n)) (Z.of_nat n) b b' /\
    opened (fun i => P i || in_range k (Z.of_nat n) i) m m''.
Proof.
  induction n as [|n IH]; intros fuel k b m' P Hf Hb Hk Hl Hs Hu Ho;
    (destruct fuel as [|fuel]; [lia|]); cbn [loop].
  - rewrite Z.add_0_r, Z.ltb_irrefl. exists b, m'.
    assert (forall i, in_range k (Z.of_nat 0) i = false) as E
      by (intros i; unfold in_range; destruct (Z.leb_spec k i), (Z.ltb_spec i (k + Z.of_nat 0)); try done; lia).
    split; [done|]. split.
    + split_and!; try done; [lia|]. intros i _. by rewrite E.
    + eapply opened_ext; [|exact Ho]. intros i. simpl. by rewrite E, orb_false_r.
  - destruct (Hu k) as [U1 U2]; [lia|].
    destruct (Z.ltb_spec (k * PAGE_SIZE) ((k + Z.of_nat (S n)) * PAGE_SIZE)); [|unfold PAGE_SIZE in *; lia].
    destruct (markPageFree_freed b k Hb) as (b1 & -> & B1 & B2 & B3 & B4); [lia|done|].
    cbn [mbind outcome_bind fst].
    assert (k * PAGE_SIZE ⊞ PAGE_SIZE = (k + 1) * PAGE_SIZE) as ->.
    { pose proof (bl_low (off := off)). unfold PAGE_SIZE in *. wordlia. }
    pose proof (mark_user_opened P m m' k ltac:(lia) U2 Ho) as Ho1.
    replace (k + Z.of_nat (S n)) with ((k + 1) + Z.of_nat n) by lia.
    destruct (IH fuel (k + 1) b1 _ _ ltac:(lia) B1 ltac:(lia) ltac:(lia) ltac:(lia)
      ltac:(intros i Hi; destruct (Hu i) as [V1 V2]; [lia|]; split; [|done];
            rewrite B4 by lia; destruct (Z.eqb_spec i k); [lia|done]) Ho1)
      as (b' & m'' & -> & (C1 & C2 & C3 & C4) & Ho2).
    replace (Z.of_nat (S n)) with (Z.of_nat n + 1) by lia.
    exists b', m''. split; [done|]. split.
    + split_and!; [done|congruence|lia|]. intros i Hi. rewrite C4, B4 by done.
      rewrite in_range_step by lia. by destruct (i =? k), (in_range (k + 1) (Z.of_nat n) i).
    + eapply opened_ext; [|exact Ho2]. intros i. simpl.
      rewrite in_range_step by lia. by rewrite orb_assoc.
Qed.

Definition in_desc (d : EFI_MEMORY_DESCRIPTOR) (i : Z) : bool :=
  conventional d && in_range (d_paddr d / PAGE_SIZE) (d_pageCount d) i.

(** A page of the list is free memory according to the firmware. *)
Definition conv_page (descs : list EFI_MEMORY_DESCRIPTOR) (i : Z) : bool :=
  existsb (fun d => in_desc d i) descs.

(** Free regions are page aligned and inside the memory the map accounts for. *)
Definition desc_wf (total : Z) (d : EFI_MEMORY_DESCRIPTOR) : Prop :=
  0 <= d_pageCount d /\
  (conventional d = true -> d_paddr d mod PAGE_SIZE = 0 /\ 0 <= d_paddr d /\
     d_paddr d + d_pageCount d * PAGE_SIZE <= total).

Definition conv_pages (d : EFI_MEMORY_DESCRIPTOR) : Z := if conventional d then d_pageCount d else 0.

Lemma free_descriptor_ok m total d b m' P :
  desc_wf total d -> total <= lim -> total / PAGE_SIZE < 8 * bm_size b -> bm_wf b ->
  (forall i, in_desc d i = true -> page_used b i = true /\
     is_Some (translate m root (physToVirtAddr off (i * PAGE_SIZE)))) ->
  opened P m m' ->
  exists b' m'', free_descriptor off (physToVirtAddr off root) (b, m') d = Done (b', m'') /\
    freed (in_desc d) (conv_pages d) b b' /\ opened (fun i => P i || in_desc d i) m m''.
Proof.
  intros [Hn Hd] Hl Hs Hb Hu Ho. unfold free_descriptor, conv_pages, in_desc in *.
  destruct (conventional d); simpl in *.
  - destruct Hd as (Ha & H0 & Ht); [done|]. pose proof (bl_low (off := off)) as Hlow.
    set (k := d_paddr d / PAGE_SIZE) in *.
    assert (d_paddr d = k * PAGE_SIZE) as Ek by (unfold k, PAGE_SIZE in *; wordlia).
    assert (d_paddr d ⊞ d_bytes d = (k + Z.of_nat (Z.to_nat (d_pageCount d))) * PAGE_SIZE) as ->
      by (unfold d_bytes, PAGE_SIZE in *; wordlia).
    rewrite Ek.
    destruct (free_loop_ok m (Z.to_nat (d_pageCount d)) (S (Z.to_nat (d_pageCount d))) k b m' P)
      as (b' & m'' & E & F & O); try done; try (unfold PAGE_SIZE in *; wordlia).
    + intros i Hi. apply Hu. unfold in_range. apply andb_true_iff. split; [apply Z.leb_le|apply Z.ltb_lt]; lia.
    + rewrite Z2Nat.id in F, O by done. eauto.
  - exists b, m'. split; [done|]. split; [split_and!; done || lia|].
    eapply opened_ext; [|exact Ho]. intros i. simpl. by rewrite orb_false_r.
Qed.

Definition sum_pages (f : EFI_MEMORY_DESCRIPTOR -> Z) (descs : list EFI_MEMORY_DESCRIPTOR) : Z :=
  fold_right (fun d n => f d + n) 0 descs.

Lemma free_descriptors_ok m total descs : forall b m' P,
  Forall (desc_wf total) descs ->
  ForallOrdPairs (fun d d' => forall i, in_desc d i = true -> in_desc d' i = false) descs ->
  total <= lim -> total / PAGE_SIZE < 8 * bm_size b -> bm_wf b ->
  (forall i, conv_page descs i = true -> 0 <= i /\ page_used b i = true /\
     is_Some (translate m root (physToVirtAddr off (i * PAGE_SIZE)))) ->
  opened P m m' ->
  exists b' m'', free_descriptors off (physToVirtAddr off root) (b, m') descs = Done (b', m'') /\
    freed (conv_page descs) (sum_pages conv_pages descs) b b' /\
    opened (fun i => P i || conv_page descs i) m m''.
Proof.
  induction descs as [|d descs IH]; intros b m' P Hw Hd Hl Hs Hb Hu Ho;
    cbn [free_descriptors conv_page existsb sum_pages fold_right].
  - exists b, m'. split; [done|]. split; [split_and!; done || lia|].
    eapply opened_ext; [|exact Ho]. intros i. simpl. by rewrite orb_false_r.
  - inversion_clear Hw as [|? ? W1 W2]. inversion_clear Hd as [|? ? D1 D2].
    destruct (free_descriptor_ok m total d b m' P) as (b1 & m1 & -> & (B1 & B2 & B3 & B4) & O1); try done.
    { intros i Hi. apply (Hu i). simpl. by rewrite Hi. }
    cbn [mbind outcome_bind].
    destruct (IH b1 m1 (fun i => P i || in_desc d i))
      as (b' & m'' & -> & (C1 & C2 & C3 & C4) & O2); try done; [by rewrite B2|..].
    + intros i Hi. destruct (Hu i) as (U0 & U1 & U2); [simpl; by rewrite Hi, orb_true_r|].
      split_and!; try done. rewrite B4 by done. destruct (in_desc d i) eqn:E; [|done].
      unfold conv_page in Hi. rewrite existsb_exists in Hi. destruct Hi as (d' & Hin & Hi).
      rewrite Forall_forall in D1. rewrite (D1 d' ltac:(by apply list_elem_of_In) i E) in Hi. done.
    + exists b', m''. split; [done|]. split.
      * split_and!; [done|congruence|rewrite C3, B3; symmetry; apply Z.add_assoc|]. intros i Hi. rewrite C4, B4 by done.
        unfold conv_page. cbn [existsb]. by destruct (in_desc d i), (existsb _ descs).
      * eapply opened_ext; [|exact O2]. intros i. simpl. by rewrite <- orb_assoc.
Qed.

(** The bitmap's own pages. *)
Lemma mark_bitmap_ok m n size : forall fuel k m' P, (n < fuel)%nat ->
  0 <= k -> 0 <= size -> (k + Z.of_nat n - 1) * PAGE_SIZE < size <= (k + Z.of_nat n) * PAGE_SIZE ->
  forall base, 0 <= base -> base + k + Z.of_nat n < lim / PAGE_SIZE ->
  base * PAGE_SIZE + size < lim ->
  (forall i, k <= i < k + Z.of_nat n ->
     is_Some (translate m root (physToVirtAddr off ((base + i) * PAGE_SIZE)))) ->
  opened P m m' ->
  exists m'', loop fuel (fun '(bitmapPage, m) =>
      if bitmapPage <? physToVirtAddr off (base * PAGE_SIZE) ⊞ size then
        Done (inl (bitmapPage ⊞ PAGE_SIZE, mark_user off m bitmapPage (physToVirtAddr off root)))
      else Done (inr m)) (physToVirtAddr off (base * PAGE_SIZE) ⊞ (k * PAGE_SIZE), m') = Done m'' /\
    opened (fun i => P i || in_range (base + k) (Z.of_nat n) i) m m''.
Proof.
  induction n as [|n IH]; intros fuel k m' P Hf Hk Hs Hn base Hb Hl Hsz Hu Ho;
    (destruct fuel as [|fuel]; [lia|]); cbn [loop];
    pose proof (bl_low (off := off)) as Hlow; pose proof (bl_off (off := off)) as Hof;
    pose proof (bl_high (off := off)) as Hhi;
    (destruct (va_range off lim (base * PAGE_SIZE)) as [Ev _]; [unfold PAGE_SIZE in *; lia|]).
  - destruct (Z.ltb_spec (physToVirtAddr off (base * PAGE_SIZE) ⊞ (k * PAGE_SIZE))
      (physToVirtAddr off (base * PAGE_SIZE) ⊞ size)) as [Hlt|Hge].
    + rewrite Ev in Hlt. unfold PAGE_SIZE in *. exfalso. wordlia.
    + exists m'. split; [done|]. eapply opened_ext; [|exact Ho]. intros i. simpl.
      replace (in_range (base + k) (Z.of_nat 0) i) with false; [by rewrite orb_false_r|].
      unfold in_range. destruct (Z.leb_spec (base + k) i), (Z.ltb_spec i (base + k + Z.of_nat 0)); try done; lia.
  - assert (physToVirtAddr off (base * PAGE_SIZE) ⊞ (k * PAGE_SIZE) =
            physToVirtAddr off ((base + k) * PAGE_SIZE)) as E.
    { unfold physToVirtAddr. rewrite u64_add_l. f_equal. lia. }
    destruct (Z.ltb_spec (physToVirtAddr off (base * PAGE_SIZE) ⊞ (k * PAGE_SIZE))
      (physToVirtAddr off (base * PAGE_SIZE) ⊞ size)) as [Hlt|Hge].
    + pose proof (mark_user_opened P m m' (base + k) ltac:(lia) (Hu k ltac:(lia)) Ho) as Ho1.
      rewrite <- E in Ho1.
      assert ((physToVirtAddr off (base * PAGE_SIZE) ⊞ (k * PAGE_SIZE)) ⊞ PAGE_SIZE =
              physToVirtAddr off (base * PAGE_SIZE) ⊞ ((k + 1) * PAGE_SIZE)) as ->.
      { rewrite u64_add_l. f_equal. lia. }
      destruct (IH fuel (k + 1) _ _ ltac:(lia) ltac:(lia) Hs ltac:(lia) base Hb ltac:(lia) Hsz
        ltac:(intros i Hi; apply Hu; lia) Ho1) as (m'' & -> & Ho2).
      exists m''. split; [done|]. eapply opened_ext; [|exact Ho2]. intros i. simpl.
      replace (Z.of_nat (S n)) with (Z.of_nat n + 1) by lia. rewrite in_range_step by lia.
      by rewrite orb_assoc, Z.add_assoc.
    + rewrite Ev in Hge. unfold PAGE_SIZE in *. exfalso. wordlia.
Qed.

Lemma first_usable_ok b total : bm_wf b -> 0 <= total -> total mod PAGE_SIZE = 0 ->
  total / PAGE_SIZE < 8 * bm_size b ->
  exists r, first_usable b total = Done r /\
    match r with
    | Some page => exists k, page = k * PAGE_SIZE /\ 0 <= k < total / PAGE_SIZE /\
        page_used b k = false /\ forall i, 0 <= i < k -> page_used b i = true
    | None => forall i, 0 <= i < total / PAGE_SIZE -> page_used b i = true
    end.
Proof.
  intros Hb H0 Ha Hs. unfold first_usable.
  apply (loop_total
    (fun page => exists k, page = k * PAGE_SIZE /\ 0 <= k <= total / PAGE_SIZE /\
       forall i, 0 <= i < k -> page_used b i = true)
    (fun page => Z.to_nat (total / PAGE_SIZE - page / PAGE_SIZE))).
  - intros page (k & -> & Hk & Hu). rewrite Z.div_mul by done.
    destruct (Z.ltb_spec (k * PAGE_SIZE) total) as [Hlt|Hge].
    + assert (k < total / PAGE_SIZE) by (unfold PAGE_SIZE in *; wordlia).
      rewrite isPageFree_spec; [|done|split; [unfold PAGE_SIZE; lia|rewrite Z.div_mul by done; lia]].
      rewrite Z.div_mul by done. cbn [mbind outcome_bind].
      destruct (page_used b k) eqn:E; simpl negb.
      * left. eexists. split; [done|]. replace (k * PAGE_SIZE + PAGE_SIZE) with ((k + 1) * PAGE_SIZE) by lia.
        rewrite Z.div_mul by done. split; [|lia]. exists (k + 1). split_and!; [done|lia|lia|].
        intros i Hi. destruct (decide (i = k)) as [->|]; [done|]. apply Hu. lia.
      * right. eexists. split; [done|]. exists k. split_and!; done || lia.
    + right. eexists. split; [done|]. simpl. intros i Hi. apply Hu. unfold PAGE_SIZE in *. wordlia.
  - exists 0. split_and!; [done|lia|by apply Z.div_pos|lia].
  - rewrite Z.div_0_l by done. lia.
Qed.

(** *** The first loop *)

Lemma in_desc_range total d i : desc_wf total d -> in_desc d i = true ->
  0 <= i /\ i < total / PAGE_SIZE.
Proof.
  intros [Hn Hd]. unfold in_desc, in_range. destruct (conventional d); [|done]. simpl.
  destruct Hd as (Ha & H0 & Ht); [done|]. rewrite andb_true_iff, Z.leb_le, Z.ltb_lt.
  unfold PAGE_SIZE in *. wordlia.
Qed.

Lemma scan_totals descs : forall s,
  Forall (fun d => 0 <= d_pageCount d) descs ->
  0 <= sc_freeSystemMemory s <= sc_totalSystemMemory s ->
  sc_totalSystemMemory s + sum_pages d_pageCount descs * PAGE_SIZE < 0x10000000000000000 ->
  let s' := fold_left (scan_descriptor off) descs s in
  sc_totalSystemMemory s' = sc_totalSystemMemory s + sum_pages d_pageCount descs * PAGE_SIZE /\
  sc_freeSystemMemory s' = sc_freeSystemMemory s + sum_pages conv_pages descs * PAGE_SIZE.
Proof.
  induction descs as [|d descs IH]; intros s Hw Hs Ht; cbn [fold_left sum_pages fold_right] in *.
  { simpl. lia. }
  inversion_clear Hw as [|? ? W1 W2].
  assert (0 <= sum_pages d_pageCount descs) as Hpos.
  { clear -W2. unfold sum_pages. induction W2; simpl; lia. }
  assert (d_bytes d = d_pageCount d * PAGE_SIZE) as Eb.
  { unfold d_bytes, sum_pages, PAGE_SIZE in *. wordlia. }
  assert (sc_totalSystemMemory (scan_descriptor off s d) =
            sc_totalSystemMemory s + d_pageCount d * PAGE_SIZE /\
          sc_freeSystemMemory (scan_descriptor off s d) =
            sc_freeSystemMemory s + conv_pages d * PAGE_SIZE) as [E1 E2].
  { assert (sc_totalSystemMemory s ⊞ d_bytes d = sc_totalSystemMemory s + d_pageCount d * PAGE_SIZE)
      by (rewrite Eb; unfold sum_pages, PAGE_SIZE in *; wordlia).
    assert (sc_freeSystemMemory s ⊞ d_bytes d = sc_freeSystemMemory s + d_pageCount d * PAGE_SIZE)
      by (rewrite Eb; unfold sum_pages, PAGE_SIZE in *; wordlia).
    unfold scan_descriptor, conv_pages. destruct (conventional d); simpl; [|lia].
    destruct (_ <? _); [destruct (_ && _)|]; simpl; lia. }
  destruct (IH (scan_descriptor off s d) W2) as [I1 I2].
  - rewrite E1, E2. unfold conv_pages, PAGE_SIZE in *. destruct (conventional d); lia.
  - rewrite E1. unfold sum_pages in *. lia.
  - rewrite I1, I2, E1, E2. unfold sum_pages. lia.
Qed.

(** The segment the first loop settles on. *)
Definition chosen (descs : list EFI_MEMORY_DESCRIPTOR) (d : EFI_MEMORY_DESCRIPTOR) : Prop :=
  In d descs /\ conventional d = true /\ 0 < d_pageCount d /\
  forall d', In d' descs -> conventional d' = true -> d_pageCount d' <= d_pageCount d.

Definition scanned (pre : list EFI_MEMORY_DESCRIPTOR) (s : Scan) : Prop :=
  (sc_largestFreeMemorySegmentSize s = 0 /\
     forall d, In d pre -> conventional d = true -> d_pageCount d = 0) \/
  exists d, chosen pre d /\ sc_largestFreeMemorySegment s = d_paddr d /\
    sc_largestFreeMemorySegmentSize s = d_pageCount d * PAGE_SIZE.

Hypothesis Htop : 0xffff000000000000 <= off.

Lemma scan_step total pre d s : desc_wf total d -> total <= lim -> scanned pre s ->
  scanned (pre ++ [d]) (scan_descriptor off s d).
Proof.
  intros [Hn Hd] Hl Hs. unfold scan_descriptor.
  destruct (conventional d) eqn:Ec; cbn [negb].
  - destruct Hd as (Ha & H0 & Ht); [done|]. pose proof (bl_low (off := off)) as Hlow.
    assert (d_bytes d = d_pageCount d * PAGE_SIZE) as Eb by (unfold d_bytes, PAGE_SIZE in *; wordlia).
    rewrite !Eb.
    assert (forall d', In d' (pre ++ [d]) -> In d' pre \/ d' = d) as Hin.
    { intros d' [?|[?|[]]]%in_app_or; auto. }
    destruct (Z.ltb_spec (sc_largestFreeMemorySegmentSize s) (d_pageCount d * PAGE_SIZE)) as [Hlt|Hge].
    + assert (0 < d_pageCount d) as Hpos.
      { destruct Hs as [[E _]|(d0 & (_ & _ & ? & _) & _ & E)]; rewrite E in Hlt; unfold PAGE_SIZE in *; lia. }
      destruct (va_range off lim (d_paddr d)) as [-> _]; [unfold PAGE_SIZE in *; lia|].
      rewrite (proj2 (Z.leb_le 0xffff000000000000 _)) by lia.
      rewrite (proj2 (Z.leb_le _ 0xffffffffffffffff))
        by (pose proof (u64_range (d_paddr d + off + d_pageCount d * PAGE_SIZE)); unfold is_u64 in *; lia).
      right. exists d. split; [|done]. split_and!; [apply in_or_app; right; by left|done|done|].
      intros d' [Hp | ->]%Hin Hc; [|lia].
      destruct Hs as [[_ E]|(d0 & (_ & _ & _ & M) & _ & E)]; [rewrite (E d' Hp Hc); lia|].
      specialize (M d' Hp Hc). rewrite E in Hlt. unfold PAGE_SIZE in *. lia.
    + destruct Hs as [[E M]|(d0 & (M1 & M2 & M3 & M4) & E1 & E2)].
      * left. simpl. split; [done|]. intros d' [Hp | ->]%Hin Hc; [by apply M|].
        unfold PAGE_SIZE in *. lia.
      * right. exists d0. simpl. split; [|done]. split_and!; [apply in_or_app; by left|done|done|].
        intros d' [Hp | ->]%Hin Hc; [by apply M4|]. unfold PAGE_SIZE in *. lia.
  - assert (forall d', In d' (pre ++ [d]) -> conventional d' = true -> In d' pre) as Hin.
    { intros d' [?|[<-|[]]]%in_app_or Hc; [done|congruence]. }
    destruct Hs as [[E M]|(d0 & (M1 & M2 & M3 & M4) & E1 & E2)].
    + left. simpl. split; [done|]. intros d' Hp Hc. apply M; [by apply Hin|done].
    + right. exists d0. simpl. split; [|done]. split_and!; [apply in_or_app; by left|done|done|].
      intros d' Hp Hc. apply M4; [by apply Hin|done].
Qed.

Lemma scan_scanned total descs : forall pre s, Forall (desc_wf total) descs -> total <= lim ->
  scanned pre s -> scanned (pre ++ descs) (fold_left (scan_descriptor off) descs s).
Proof.
  induction descs as [|d descs IH]; intros pre s Hw Hl Hs; simpl; [by rewrite app_nil_r|].
  inversion_clear Hw. rewrite cons_middle, app_assoc.
  apply IH; [done|done|]. by apply (scan_step total).
Qed.

(** *** The whole function *)

(** Bytes of the bitmap and pages that are locked for it. *)
Definition bitmap_bytes (total : Z) : Z := total / PAGE_SIZE / 8 + 1.
Definition bitmap_pages (total : Z) : Z := bitmap_bytes total / PAGE_SIZE + 1.

(** What the firmware's map and the layout of memory have to satisfy: free regions are
    well formed and do not overlap, the page counts add up to [total], and there is room
    for the bitmap and the heap behind it in the largest free segment. *)
Record map_wf (total : Z) (descs : list EFI_MEMORY_DESCRIPTOR) : Prop := {
  mw_total : sum_pages d_pageCount descs * PAGE_SIZE = total;
  mw_lim : total <= lim;
  mw_descs : Forall (desc_wf total) descs;
  mw_disjoint :
    ForallOrdPairs (fun d d' => forall i, in_desc d i = true -> in_desc d' i = false) descs;
  mw_some : exists d, In d descs /\ conventional d = true /\ 0 < d_pageCount d;
  mw_fits : forall d, chosen descs d -> bitmap_pages total <= d_pageCount d /\
    d_paddr d + bitmap_bytes total + KERNEL_HEAP_INIT_SIZE < total;
}.

Lemma conv_page_range total descs i : Forall (desc_wf total) descs -> conv_page descs i = true ->
  0 <= i < total / PAGE_SIZE.
Proof.
  intros Hw. unfold conv_page. rewrite existsb_exists. intros (d & Hin & Hi).
  apply (in_desc_range total d i); [|done]. by apply (proj1 (List.Forall_forall _ _) Hw).
Qed.

Lemma chosen_conv descs d i : In d descs -> conventional d = true ->
  in_range (d_paddr d / PAGE_SIZE) (d_pageCount d) i = true -> conv_page descs i = true.
Proof.
  intros Hin Hc Hi. unfold conv_page. apply existsb_exists. exists d. split; [done|].
  unfold in_desc. by rewrite Hc, Hi.
Qed.

(** The first loop and the placement of the bitmap. *)
Lemma scan_map_ok total descs : map_wf total descs ->
  exists d, chosen descs d /\
    scan_map off 0 descs = mkScan total (sum_pages conv_pages descs * PAGE_SIZE)
      (d_paddr d) (d_pageCount d * PAGE_SIZE) /\
    forall size, bitmap_base off descs (d_paddr d) size = (d_paddr d, d_paddr d + off).
Proof.
  intros [Et El Hw _ (d0 & I0 & C0 & P0) _]. pose proof (bl_low (off := off)) as Hlow.
  destruct (scan_totals descs (mkScan 0 0 0 0)) as [E1 E2]; simpl; try lia.
  { eapply Forall_impl; [exact Hw|]. by intros d []. }
  rewrite Et in E1. unfold scan_map.
  destruct (scan_scanned total descs [] (mkScan 0 0 0 0) Hw El) as [[_ Z0]|(d & Hd & Es & Ez)].
  - left. split; [done|]. intros d [].
  - rewrite (Z0 d0 I0 C0) in P0. lia.
  - exists d. split; [done|]. split.
    + destruct (fold_left _ descs _) as [a b c e]; simpl in *. by subst.
    + intros size. unfold bitmap_base. destruct Hd as (I & C & P & _).
      destruct (proj1 (List.Forall_forall _ _) Hw d I) as [_ Hd].
      destruct Hd as (_ & ? & ?); [done|].
      destruct (va_range off lim (d_paddr d)) as [-> _]; [unfold PAGE_SIZE in *; lia|].
      rewrite (proj2 (Z.ltb_ge _ _)), (proj2 (Z.eqb_neq _ _)) by lia. done.
Qed.

(** Once the free pages are marked the counters agree with the bitmap. *)
Lemma counted_wf total descs b hint rl : map_wf total descs ->
  freed (conv_page descs) (sum_pages conv_pages descs) (bitmap_initialize (bitmap_bytes total)) b ->
  0 <= hint <= total / PAGE_SIZE ->
  pfa_wf (mkPFA total (sum_pages conv_pages descs * PAGE_SIZE)
    (total ⊟ (sum_pages conv_pages descs * PAGE_SIZE)) (hint * PAGE_SIZE) b 0 rl).
Proof.
  intros [Et El Hw _ _ _] (F1 & F2 & F3 & F4) Hh. pose proof (bl_low (off := off)) as Hlow.
  rewrite free_pages_initial in F3. simpl in F2.
  assert (0 <= sum_pages d_pageCount descs) as Hpos.
  { clear -Hw. unfold sum_pages. induction Hw as [|? ? []]; simpl; lia. }
  assert (total mod PAGE_SIZE = 0) as Ha by (subst total; by apply Z.mod_mul).
  assert (total / PAGE_SIZE < 8 * bm_size b) as Hroom
    by (rewrite F2; unfold bitmap_bytes, PAGE_SIZE in *; wordlia).
  assert (forall i, total / PAGE_SIZE <= i -> page_used b i = true) as Hsent.
  { intros i Hi. rewrite F4 by (unfold PAGE_SIZE in *; wordlia).
    destruct (conv_page descs i) eqn:E; [|apply page_used_initial; unfold PAGE_SIZE in *; wordlia].
    apply (conv_page_range total) in E; [lia|done]. }
  pose proof (free_pages_le b (total / PAGE_SIZE) ltac:(unfold PAGE_SIZE in *; wordlia) Hsent) as Hle.
  constructor; simpl; try done.
  - unfold PAGE_SIZE in *. lia.
  - unfold PAGE_SIZE in *. wordlia.
  - by apply Z.mod_mul.
  - lia.
  - unfold PAGE_SIZE in *. wordlia.
Qed.

(** [init] of the heap: its call of [lockPages] finds every page marked already. *)
Lemma heap_init_locked_ok p h a size : allocator_lock p = 0 -> bm_wf (m_pageFrameBitmap p) ->
  (forall i, 0 <= i -> used p i = true) ->
  0 <= a -> a + size < lim -> 32 <= size < 0x4000000000000000 ->
  (a + size) / PAGE_SIZE < 8 * bm_size (m_pageFrameBitmap p) ->
  mem_wf (h_mem h) -> mapped (h_mem h) (a + off) size ->
  exists h', heap_init_locked off p h (a + off) size = Done (p, h') /\
    heap_rep h' [Seg size true 0] /\ m_firstSegment h' = a + off /\ h_lock h' = h_lock h.
Proof.
  intros Hl Hb Hu Ha Ht Hs Hr Hm Hmap. unfold heap_init_locked, lockPages.
  pose proof (bl_high (off := off)). pose proof (bl_off (off := off)).
  assert (Z.of_nat (Z.to_nat (size / PAGE_SIZE)) = size / PAGE_SIZE) as En
    by (apply Z2Nat.id; unfold PAGE_SIZE in *; wordlia).
  rewrite lockPages_used; try done; [|rewrite En; unfold PAGE_SIZE in *; wordlia|].
  - cbn [mbind outcome_bind].
    destruct (heap_init_ok h (a + off) size) as (h' & -> & R & F & L); try done; try lia.
    cbn [mbind outcome_bind]. eauto.
  - intros i Hi. rewrite En in Hi. split; [split|].
    + unfold PAGE_SIZE in *; wordlia.
    + unfold PAGE_SIZE in *. wordlia.
    + apply Hu. unfold PAGE_SIZE in *. wordlia.
Qed.

(** The end of the function: the bitmap's pages are taken out of the free ones. *)
Lemma lock_bitmap_ok p k n : pfa_wf p -> 0 <= k -> k + Z.of_nat n <= page_count p ->
  m_totalSystemMemory p <= lim ->
  exists p', (p ← each_page lockPhysicalPage p (k * PAGE_SIZE) n;
              each_page (lockPage off) p (k * PAGE_SIZE + off) n) = Done p' /\ pfa_wf p' /\
    m_totalSystemMemory p' = m_totalSystemMemory p /\
    m_lastTrackedFreePage p' = m_lastTrackedFreePage p /\ request_lock p' = request_lock p /\
    (forall i, 0 <= i -> used p' i = in_range k (Z.of_nat n) i || used p i).
Proof.
  intros W Hk Hn Hl.
  destruct (lockPhysicalPages_spec n p k W Hk Hn) as (p' & -> & W' & M1 & M2 & M3 & M4).
  cbn [mbind outcome_bind]. pose proof (wf_total _ W) as Ht. unfold page_count in Hn.
  exists p'. split_and!; try done.
  - apply lockPages_used; [apply W'|apply W'|unfold PAGE_SIZE; lia|unfold PAGE_SIZE in *; wordlia|].
    intros i Hi. replace (k * PAGE_SIZE + i * PAGE_SIZE) with ((k + i) * PAGE_SIZE) by lia.
    split; [apply wf_in_bitmap; [done|unfold PAGE_SIZE in *; lia|rewrite M1; unfold PAGE_SIZE in *; wordlia]|].
    rewrite Z.div_mul, M4 by (done || lia).
    rewrite (proj2 (Z.leb_le k _)), (proj2 (Z.ltb_lt _ _)) by lia. done.
Qed.

(** The set of pages the allocator regards as used when it is ready: all that is not free
    memory, and the [n] pages of the bitmap from page [k] on. *)
Definition used_at_start (descs : list EFI_MEMORY_DESCRIPTOR) (k n i : Z) : bool :=
  in_range k n i || negb (conv_page descs i).

Lemma count_and_lock_ok total descs b used0 rl k : map_wf total descs ->
  freed (conv_page descs) (sum_pages conv_pages descs) (bitmap_initialize (bitmap_bytes total)) b ->
  0 <= k -> k + bitmap_pages total <= total / PAGE_SIZE ->
  exists p', count_and_lock off (mkPFA total (sum_pages conv_pages descs * PAGE_SIZE) used0 0 b 0 rl)
      (k * PAGE_SIZE) (k * PAGE_SIZE + off) (bitmap_bytes total) = Done p' /\
    pfa_wf p' /\ m_totalSystemMemory p' = total /\ request_lock p' = rl /\
    (forall i, 0 <= i -> used p' i = used_at_start descs k (bitmap_pages total) i) /\
    (forall i, 0 <= i < hint_page p' -> used p' i = true).
Proof.
  intros Hmap Hfreed Hk Hroom. unfold count_and_lock.
  cbn [m_pageFrameBitmap m_totalSystemMemory m_freeSystemMemory].
  pose proof (counted_wf total descs b) as Hwf.
  pose proof (Hwf 0 rl Hmap Hfreed) as W0. destruct Hfreed as (F1 & F2 & F3 & F4).
  assert (0 <= total / PAGE_SIZE /\ 0 <= bitmap_pages total) as [Ht Hn].
  { pose proof (mw_some _ _ Hmap) as (d & I & C & P).
    destruct (proj1 (List.Forall_forall _ _) (mw_descs _ _ Hmap) d I) as [_ Dwf].
    destruct Dwf as (_ & ? & ?); [done|].
    unfold bitmap_pages, bitmap_bytes, PAGE_SIZE in *. wordlia. }
  specialize (W0 ltac:(lia)).
  destruct (first_usable_ok b total F1) as (page & -> & Hpage);
    [apply (wf_total _ W0)|apply (wf_aligned _ W0)|apply (wf_room _ W0)|].
  cbn [mbind outcome_bind].
  assert (exists hint, 0 <= hint <= total / PAGE_SIZE /\
    (forall i, 0 <= i < hint -> page_used b i = true) /\
    match page with Some page => page | None => 0 end = hint * PAGE_SIZE) as (hint & Hh & Hhu & Eh).
  { destruct page as [page|]; [|exists 0; split_and!; lia].
    destruct Hpage as (j & -> & Hj & _ & Hu). exists j. split_and!; done || lia. }
  specialize (Hwf hint rl Hmap (conj F1 (conj F2 (conj F3 F4))) Hh).
  rewrite <- Eh in Hwf. set (p1 := mkPFA _ _ _ _ _ _ _) in Hwf.
  assert (set_counters (match page with Some page => set_hint
      (mkPFA total (sum_pages conv_pages descs * PAGE_SIZE) used0 0 b 0 rl) page
    | None => mkPFA total (sum_pages conv_pages descs * PAGE_SIZE) used0 0 b 0 rl end)
    (sum_pages conv_pages descs * PAGE_SIZE) (total ⊟ (sum_pages conv_pages descs * PAGE_SIZE)) b = p1) as E1
    by (unfold p1; by destruct page).
  assert (forall q, q = p1 -> exists p', (p ← lockPhysicalPages q (k * PAGE_SIZE) (bitmap_pages total);
    lockPages off p (k * PAGE_SIZE + off) (bitmap_pages total)) = Done p' /\
    pfa_wf p' /\ m_totalSystemMemory p' = total /\ request_lock p' = rl /\
    (forall i, 0 <= i -> used p' i = used_at_start descs k (bitmap_pages total) i) /\
    (forall i, 0 <= i < hint_page p' -> used p' i = true)) as Hend.
  { intros q ->. unfold lockPhysicalPages, lockPages.
    destruct (lock_bitmap_ok p1 k (Z.to_nat (bitmap_pages total)) Hwf Hk) as (p' & E & W' & M1 & M2 & M3 & M4).
    - rewrite Z2Nat.id by done. exact Hroom.
    - apply (mw_lim _ _ Hmap).
    - rewrite Z2Nat.id in M4 by done. exists p'. split_and!; try done.
      + intros i Hi. rewrite M4 by done. unfold used_at_start, used. simpl. rewrite F4 by done.
        rewrite page_used_initial by done. by destruct (conv_page descs i).
      + intros i Hi. rewrite M4 by lia. unfold hint_page in Hi. rewrite M2 in Hi. simpl in Hi.
        rewrite Eh, Z.div_mul in Hi by done. unfold used. simpl. rewrite Hhu by done. by rewrite orb_true_r. }
  apply Hend. rewrite <- E1. by destruct page.
Qed.

Lemma mark_bitmap_pages_ok total descs d m m' : map_wf total descs -> chosen descs d ->
  (forall i, conv_page descs i = true ->
     is_Some (translate m root (physToVirtAddr off (i * PAGE_SIZE)))) ->
  opened (conv_page descs) m m' ->
  exists m'', mark_bitmap_pages off (physToVirtAddr off root) m' (d_paddr d + off)
      (bitmap_bytes total) = Done m'' /\ opened (conv_page descs) m m''.
Proof.
  intros Hmap Hd Htr Ho. pose proof (bl_low (off := off)) as Hlow.
  destruct (mw_fits _ _ Hmap d Hd) as [Fpages Fheap]. pose proof (mw_lim _ _ Hmap) as Hlim.
  pose proof Hd as (Din & Dc & Dpos & _).
  destruct (proj1 (List.Forall_forall _ _) (mw_descs _ _ Hmap) d Din) as [_ Dwf].
  destruct Dwf as (Da & D0 & Dt); [done|].
  set (k := d_paddr d / PAGE_SIZE).
  assert (d_paddr d = k * PAGE_SIZE) as Ek by (unfold k, PAGE_SIZE in *; wordlia).
  assert (0 <= k) as Hk by (unfold k, PAGE_SIZE in *; wordlia).
  set (size := bitmap_bytes total) in *.
  assert (0 < size) as Hs by (unfold size, bitmap_bytes, PAGE_SIZE in *; wordlia).
  set (n := Z.to_nat ((size + PAGE_SIZE - 1) / PAGE_SIZE)).
  assert (Z.of_nat n = (size + PAGE_SIZE - 1) / PAGE_SIZE) as En
    by (apply Z2Nat.id; unfold PAGE_SIZE in *; wordlia).
  assert (Z.of_nat n <= bitmap_pages total) as Hn
    by (rewrite En; unfold bitmap_pages; fold size; unfold PAGE_SIZE in *; wordlia).
  assert (forall i, in_range k (Z.of_nat n) i = true -> conv_page descs i = true) as Hin.
  { intros i Hi. apply (chosen_conv descs d i Din Dc). fold k. unfold in_range in *.
    rewrite andb_true_iff, Z.leb_le, Z.ltb_lt in *. lia. }
  destruct (mark_bitmap_ok m n size (S (S (Z.to_nat (size / PAGE_SIZE)))) 0 m' (conv_page descs))
    with (base := k) as (m'' & E & Ho'); try done; try lia.
  - apply Nat2Z.inj_lt. rewrite En, !Nat2Z.inj_succ, Z2Nat.id; unfold PAGE_SIZE in *; wordlia.
  - rewrite En. unfold PAGE_SIZE in *. wordlia.
  - unfold KERNEL_HEAP_INIT_SIZE, PAGE_SIZE in *. wordlia.
  - unfold KERNEL_HEAP_INIT_SIZE, PAGE_SIZE in *. lia.
  - intros i Hi. apply Htr, Hin. unfold in_range.
    rewrite andb_true_iff, Z.leb_le, Z.ltb_lt. lia.
  - exists m''. split.
    + unfold mark_bitmap_pages. rewrite <- E.
      destruct (va_range off lim (k * PAGE_SIZE)) as [Ev _]; [unfold PAGE_SIZE in *; lia|].
      rewrite Ev, Ek, Z.mul_0_l, Z.add_0_r.
      rewrite (u64_small (k * PAGE_SIZE + off)); [done|].
      pose proof (bl_high (off := off)). pose proof (bl_off (off := off)). unfold is_u64, PAGE_SIZE in *. lia.
    + eapply opened_ext; [|exact Ho']. intros i. simpl. rewrite Z.add_0_r.
      specialize (Hin i). destruct (in_range k (Z.of_nat n) i); [|by rewrite orb_false_r].
      by rewrite Hin, orb_true_r.
Qed.

(** The size of the bitmap never changes. *)
Lemma lockPhysicalPage_size p a p' : lockPhysicalPage p a = Done p' ->
  bm_size (m_pageFrameBitmap p') = bm_size (m_pageFrameBitmap p).
Proof.
  unfold lockPhysicalPage, alock, isPageUsed, markPageUsed, setPageValue. intros H'.
  destruct (acquireSpinlock _); cbn [mbind outcome_bind set_alock m_pageFrameBitmap] in H'; try done.
  destruct (getPageValue _ _) as [[]| |]; cbn [mbind outcome_bind Bool.eqb] in H'; try done; [by injection H' as <-|].
  destruct (_ <? _); cbn [mbind outcome_bind fst snd] in H'; [by injection H' as <-|].
  destruct (need _); cbn [mbind outcome_bind fst snd] in H'; try done. by injection H' as <-.
Qed.

Lemma each_page_size op n : (forall p a p', op p a = Done p' ->
    bm_size (m_pageFrameBitmap p') = bm_size (m_pageFrameBitmap p)) ->
  forall p a p', each_page op p a n = Done p' -> bm_size (m_pageFrameBitmap p') = bm_size (m_pageFrameBitmap p).
Proof.
  intros Hop. induction n as [|n IH]; intros p a p' E; cbn [each_page] in E; [by injection E as <-|].
  destruct (op p a) as [p1| |] eqn:E1; cbn [mbind outcome_bind] in E; try done.
  by rewrite (IH _ _ _ E), (Hop _ _ _ E1).
Qed.

Lemma count_and_lock_size p b v n p' : count_and_lock off p b v n = Done p' ->
  bm_size (m_pageFrameBitmap p') = bm_size (m_pageFrameBitmap p).
Proof.
  unfold count_and_lock, lockPhysicalPages, lockPages. intros E.
  destruct (first_usable _ _) as [[page|]| |]; cbn [mbind outcome_bind] in E; try done;
    (destruct (each_page lockPhysicalPage _ _ _) as [p1| |] eqn:E1; cbn [mbind outcome_bind] in E; try done;
     rewrite (each_page_size (lockPage off) _ (fun q a => lockPhysicalPage_size q _) _ _ _ E);
     by rewrite (each_page_size lockPhysicalPage _ lockPhysicalPage_size _ _ _ E1)).
Qed.

(** The state that [initializeFromMemoryMap] leaves behind. *)
Record brought_up (total : Z) (descs : list EFI_MEMORY_DESCRIPTOR) (m : Z -> Z)
    (d : EFI_MEMORY_DESCRIPTOR) (p : PageFrameAllocator) (h : Heap) (m' : Z -> Z) : Prop := {
  up_allocator : pfa_wf p;
  up_total : m_totalSystemMemory p = total;
  up_size : bm_size (m_pageFrameBitmap p) = bitmap_bytes total;
  up_pages : forall i, 0 <= i ->
    used p i = used_at_start descs (d_paddr d / PAGE_SIZE) (bitmap_pages total) i;
  up_hint : forall i, 0 <= i < hint_page p -> used p i = true;
  up_heap : heap_rep h [Seg KERNEL_HEAP_INIT_SIZE true 0];
  up_heap_base : m_firstSegment h = d_paddr d + off + bitmap_bytes total;
  up_heap_lock : h_lock h = 0;
  up_tables : opened (conv_page descs) m m';
}.

(** The static objects before the call, and the memory the call relies on. *)
Record start_state (total : Z) (descs : list EFI_MEMORY_DESCRIPTOR) (p : PageFrameAllocator)
    (h : Heap) (m : Z -> Z) : Prop := {
  st_total : m_totalSystemMemory p = 0;
  st_hint : m_lastTrackedFreePage p = 0;
  st_alock : allocator_lock p = 0;
  st_hlock : h_lock h = 0;
  st_bytes : mem_wf (h_mem h);
  st_heap : forall d, chosen descs d ->
    mapped (h_mem h) (d_paddr d + off + bitmap_bytes total) KERNEL_HEAP_INIT_SIZE;
  st_tree : tree lim T m;
  st_mapped : forall i, conv_page descs i = true ->
    is_Some (translate m root (physToVirtAddr off (i * PAGE_SIZE)));
}.

Lemma initializeFromMemoryMap_ok total descs p h m :
  map_wf total descs -> start_state total descs p h m ->
  exists d p' h' m', chosen descs d /\
    initializeFromMemoryMap off root p h m descs = Done (p', h', m') /\
    request_lock p' = request_lock p /\ brought_up total descs m d p' h' m'.
Proof.
  intros Hmap [Hp0 Hh0 Hl0 Hk0 Hm Hheap HT Htr]. pose proof (bl_low (off := off)) as Hlow.
  destruct (scan_map_ok total descs Hmap) as (d & Hd & Escan & Ebase).
  pose proof (mw_lim _ _ Hmap) as Hlim. pose proof (mw_descs _ _ Hmap) as Hw.
  destruct (mw_fits _ _ Hmap d Hd) as [Fpages Fheap]. specialize (Hheap d Hd).
  pose proof Hd as (Din & Dc & Dpos & _).
  destruct (proj1 (List.Forall_forall _ _) Hw d Din) as [_ Dwf].
  destruct Dwf as (Da & D0 & Dt); [done|].
  set (k := d_paddr d / PAGE_SIZE) in *.
  assert (d_paddr d = k * PAGE_SIZE) as Ek by (unfold k, PAGE_SIZE in *; wordlia).
  unfold initializeFromMemoryMap. rewrite Hp0, Escan. cbv zeta. cbn [sc_totalSystemMemory
    sc_freeSystemMemory sc_largestFreeMemorySegment].
  assert (total / PAGE_SIZE / 8 ⊞ 1 = bitmap_bytes total) as ->
    by (unfold bitmap_bytes, PAGE_SIZE in *; wordlia).
  set (size := bitmap_bytes total) in *.
  assert (size = total / PAGE_SIZE / 8 + 1) as Es by done. rewrite Ebase.
  assert ((d_paddr d + off) ⊞ size = (d_paddr d + size) + off) as ->.
  { pose proof (bl_high (off := off)). pose proof (bl_off (off := off)).
    unfold KERNEL_HEAP_INIT_SIZE, PAGE_SIZE in *. wordlia. }
  assert (bm_wf (bitmap_initialize size)) as Hb by (apply bm_wf_initial; unfold PAGE_SIZE in *; wordlia).
  edestruct heap_init_locked_ok as (h' & -> & Hrep & Hbase & Hlock).
  8: exact Hm. all: simpl; try done; try (unfold KERNEL_HEAP_INIT_SIZE, PAGE_SIZE in *; wordlia).
  { intros i Hi. by apply page_used_initial. }
  { replace (d_paddr d + size + off) with (d_paddr d + off + size) by lia. done. }
  cbn [mbind outcome_bind]. unfold getCurrentTopLevelPageTable. cbn [m_pageFrameBitmap].
  destruct (free_descriptors_ok m total descs (bitmap_initialize size) m (fun _ => false) Hw
    (mw_disjoint _ _ Hmap) Hlim) as (b & m1 & -> & Hfreed & Ho1); try done.
  { simpl. rewrite Es. unfold PAGE_SIZE in *. wordlia. }
  { intros i Hi. pose proof (conv_page_range total descs i Hw Hi).
    split_and!; [lia|by apply page_used_initial; lia|by apply Htr]. }
  cbn [mbind outcome_bind].
  destruct (mark_bitmap_pages_ok total descs d m m1 Hmap Hd Htr Ho1) as (m2 & Em & Ho2).
  fold size in Em. rewrite Em. cbn [mbind outcome_bind].
  destruct (count_and_lock_ok total descs b (m_usedSystemMemory p) (request_lock p) k Hmap Hfreed)
    as (p' & E & W & Et & Er & Eu & Eh); [unfold PAGE_SIZE in *; lia|unfold PAGE_SIZE in *; wordlia|].
  unfold set_bitmap, set_counters. cbn [m_totalSystemMemory m_freeSystemMemory m_usedSystemMemory
    m_lastTrackedFreePage m_pageFrameBitmap allocator_lock request_lock].
  fold size in E. rewrite Hh0, Hl0, Ek, E. cbn [mbind outcome_bind].
  exists d, p', h', m2. split_and!; try done. split; try done; [|rewrite Hbase; lia|by rewrite Hlock].
  rewrite (count_and_lock_size _ _ _ _ _ E). exact (proj1 (proj2 Hfreed)).
Qed.

(** ** Properties *)

(** C6 (functional): on a memory map whose free regions are aligned and disjoint, with
    room for the bitmap and the heap in the largest of them, [initializeFromMemoryMap]
    returns, and then: the allocator is well formed (its counters agree with its bitmap);
    a page is used exactly when the map does not report it as free or the bitmap lives in
    it; the hint skips used pages only; the heap is one free segment right behind the
    bitmap; and of the translations exactly those of the free pages in the upper half
    are opened to user mode. *)
Theorem initializeFromMemoryMap_state total descs p h m :
  map_wf total descs -> start_state total descs p h m ->
  exists d p' h' m', chosen descs d /\
    initializeFromMemoryMap off root p h m descs = Done (p', h', m') /\
    brought_up total descs m d p' h' m'.
Proof.
  intros Hmap Hst. destruct (initializeFromMemoryMap_ok total descs p h m Hmap Hst)
    as (d & p' & h' & m' & H1 & H2 & _ & H3). eauto 10.
Qed.

(** The pages of the kernel heap are not reserved.  [init] locks them while
    every page is still marked as used, and the loop over the map then marks them free;
    when the largest free segment is the lowest one, the first page [requestFreePage]
    hands out lies inside the kernel heap. *)
Theorem heap_page_handed_out total descs p h m :
  map_wf total descs -> start_state total descs p h m -> request_lock p = 0 ->
  (forall d, chosen descs d -> bitmap_pages total < d_pageCount d /\
     forall i, conv_page descs i = true -> d_paddr d / PAGE_SIZE <= i) ->
  exists p' h' m' p'' a, initializeFromMemoryMap off root p h m descs = Done (p', h', m') /\
    requestFreePage off p' = Done (p'', a) /\
    m_firstSegment h' <= a /\ a + PAGE_SIZE <= m_firstSegment h' + m_heapSize h'.
Proof.
  intros Hmap Hst Hrl Hlow. destruct (initializeFromMemoryMap_ok total descs p h m Hmap Hst)
    as (d & p' & h' & m' & Hd & -> & Hr & [W Et _ Eu Eh Hrep Hb _]).
  destruct (Hlow d Hd) as [Hn Hmin]. pose proof Hd as (Din & Dc & Dpos & _).
  destruct (mw_fits _ _ Hmap d Hd) as [_ Fheap]. pose proof (mw_lim _ _ Hmap) as Hlim.
  destruct (proj1 (List.Forall_forall _ _) (mw_descs _ _ Hmap) d Din) as [_ Dwf].
  destruct Dwf as (Da & D0 & Dt); [done|].
  set (k := d_paddr d / PAGE_SIZE) in *. set (n := bitmap_pages total) in *.
  assert (0 <= n /\ bitmap_bytes total <= n * PAGE_SIZE < bitmap_bytes total + PAGE_SIZE + 1) as [Hn0 Hsz]
    by (unfold n, bitmap_pages, bitmap_bytes, PAGE_SIZE in *; wordlia).
  assert (0 <= k /\ k + n < page_count p') as [Hk Hkn]
    by (unfold page_count; rewrite Et; unfold k, PAGE_SIZE in *; wordlia).
  assert (used p' (k + n) = false) as Hfree.
  { rewrite Eu by lia. unfold used_at_start, in_range.
    rewrite (proj2 (Z.ltb_ge _ _)), andb_false_r by lia. simpl.
    rewrite (chosen_conv descs d) by (done || (unfold in_range; fold k;
      rewrite andb_true_iff, Z.leb_le, Z.ltb_lt; lia)). done. }
  assert (forall i, 0 <= i < k + n -> used p' i = true) as Hbelow.
  { intros i Hi. rewrite Eu by lia. unfold used_at_start, in_range.
    destruct (Z.leb_spec k i); [by rewrite (proj2 (Z.ltb_lt _ _)) by lia|]. simpl.
    destruct (conv_page descs i) eqn:E; [|done]. apply Hmin in E. lia. }
  assert (hint_page p' <= k + n) as Hhint.
  { destruct (decide (hint_page p' <= k + n)); [done|]. rewrite Eh in Hfree by lia. done. }
  destruct (requestFreePage_answer off p' W ltac:(congruence)) as ([p'' a] & Er & Ha).
  exists p', h', m', p'', a. split; [done|]. split; [done|].
  assert (a = physToVirtAddr off ((k + n) * PAGE_SIZE)) as ->.
  { destruct Ha as [[_ Hfull]|(j & Hj & Hjf & Hjb & Ea & _)].
    - rewrite Hfull in Hfree by lia. done.
    - simpl in Ea. rewrite Ea. do 2 f_equal. pose proof (hint_page_nonneg _ W).
      destruct (Z.lt_trichotomy j (k + n)) as [|[|]]; [|done|].
      + rewrite Hbelow in Hjf by lia. done.
      + rewrite Hjb in Hfree by lia. done. }
  pose proof (rep_total _ _ Hrep) as Hsize. simpl in Hsize. rewrite <- Hsize, Hb.
  assert (d_paddr d = k * PAGE_SIZE) as Ek by (unfold k, PAGE_SIZE in *; wordlia).
  destruct (va_range off lim ((k + n) * PAGE_SIZE)) as [-> _];
    unfold KERNEL_HEAP_INIT_SIZE, PAGE_SIZE in *; lia.
Qed.
End init.

(** ** A machine with 1.75 GiB

    32 free pages at 1 MiB; the page tables map them in the upper half. *)
Definition demo_descs : list EFI_MEMORY_DESCRIPTOR :=
  [mkDesc 0 0 0 0x100 0; mkDesc 7 0x100000 0 0x20 0; mkDesc 0 0x120000 0 0x6fee0 0].
Definition demo_off : Z := 0xffffffff80000000.
Definition demo_total : Z := 0x70000000.

Definition up_T : gmap Z (nat * Z) :=
  {[ 0x1000 := (4%nat, 0); 0x2000 := (3%nat, 0x1ff8); 0x3000 := (2%nat, 0x2ff0);
     0x4000 := (1%nat, 0x3000) ]}.
Definition up_m (a : Z) : Z :=
  if a =? 0x1ff8 then 0x2003 else if a =? 0x2ff0 then 0x3003
  else if a =? 0x3000 then 0x4003 else if (0x4800 <=? a) && (a <? 0x4900) then 3 else 0.

#[local] Instance up_layout : BootLayout demo_off 0x80000000.
Proof. constructor; unfold demo_off; lia. Qed.

Lemma memory_exists a n : exists mm : gmap Z Z, mem_wf mm /\ mapped mm a n.
Proof.
  exists (gset_to_gmap 0 (list_to_set (seqZ a n))). split.
  - intros b v [_ <-]%lookup_gset_to_gmap_Some. unfold is_u8. lia.
  - intros b Hb. exists 0. apply lookup_gset_to_gmap_Some. split; [|done].
    apply elem_of_list_to_set, elem_of_seqZ. lia.
Qed.

Lemma up_tree : tree 0x80000000 up_T up_m.
Proof.
  assert (forall t v, up_T !! t = Some v ->
    (t = 0x1000 /\ v = (4%nat, 0)) \/ (t = 0x2000 /\ v = (3%nat, 0x1ff8)) \/
    (t = 0x3000 /\ v = (2%nat, 0x2ff0)) \/ (t = 0x4000 /\ v = (1%nat, 0x3000))) as Hcases.
  { intros t v. unfold up_T. rewrite !lookup_insert_Some, lookup_singleton_Some. naive_solver. }
  constructor.
  - intros t l par H. unfold PAGE_SIZE. destruct (Hcases _ _ H) as [[-> [= -> ->]]|[[-> [= -> ->]]|[[-> [= -> ->]]|[-> [= -> ->]]]]];
      split_and!; done || lia.
  - intros t l par i H Hi. destruct (Hcases _ _ H) as [[-> [= -> ->]]|[[-> [= -> ->]]|[[-> [= -> ->]]|[-> [=]]]]];
      unfold entry_addr, up_m;
      repeat match goal with
      | |- context [?a =? ?b] => destruct (Z.eqb_spec a b); try lia
      | |- context [?a <=? ?b] => destruct (Z.leb_spec a b); try lia
      | |- context [?a <? ?b] => destruct (Z.ltb_spec a b); try lia
      end; intros Hp; try (by destruct Hp);
      match goal with E : _ + 8 * i = _ |- _ => rewrite E; reflexivity end.
Qed.

Lemma demo_conv i : conv_page demo_descs i = true -> 0x100 <= i < 0x120.
Proof.
  unfold conv_page, demo_descs, in_desc, in_range, PAGE_SIZE. simpl.
  rewrite orb_false_r, andb_true_iff, Z.leb_le, Z.ltb_lt. wordlia.
Qed.

Lemma demo_chosen d : chosen demo_descs d -> d = mkDesc 7 0x100000 0 0x20 0.
Proof. intros ([<-|[<-|[<-|[]]]] & Hc & _); done. Qed.

Lemma demo_map_wf : map_wf 0x80000000 demo_total demo_descs.
Proof.
  constructor.
  - reflexivity.
  - unfold demo_total. lia.
  - repeat constructor; simpl; try lia; done.
  - repeat constructor; intros i; unfold in_desc; simpl; done.
  - exists (mkDesc 7 0x100000 0 0x20 0). split_and!; [right; by left|done|simpl; lia].
  - intros d ->%demo_chosen. split; [by vm_compute|by vm_compute].
Qed.

Lemma demo_start : exists h,
  start_state demo_off 0x80000000 up_T 0x1000 demo_total demo_descs
    (mkPFA 0 0 0 0 (mkBitmap 0 []) 0 0) h up_m.
Proof.
  destruct (memory_exists (0x100000 + demo_off + bitmap_bytes demo_total) KERNEL_HEAP_INIT_SIZE)
    as (mm & H1 & H2).
  exists (mkHeap mm 0 0 0). constructor; try done.
  - by intros d ->%demo_chosen.
  - apply up_tree.
  - intros i Hi%demo_conv.
    assert (forall i, 0x100 <= i < 0x120 -> (match translate up_m 0x1000 (physToVirtAddr demo_off (i * PAGE_SIZE))
      with Some _ => true | None => false end) = true) as Hall.
    { intros j Hj. refine (forallb_seqZ (fun j => match translate up_m 0x1000 (physToVirtAddr demo_off (j * PAGE_SIZE))
      with Some _ => true | None => false end) 0x100 0x20 j _ ltac:(lia)). vm_compute. reflexivity. }
    specialize (Hall i Hi). destruct (translate up_m _ _); [by eexists|done].
Qed.

Lemma initializeFromMemoryMap_state_witness : exists h p' h' m',
  initializeFromMemoryMap demo_off 0x1000 (mkPFA 0 0 0 0 (mkBitmap 0 []) 0 0) h up_m demo_descs =
    Done (p', h', m') /\ used p' 0x10e = true /\ used p' 0x10f = false.
Proof.
  destruct demo_start as [h Hst].
  destruct (initializeFromMemoryMap_state demo_off 0x80000000 up_T 0x1000 0 eq_refl eq_refl
    ltac:(by vm_compute) demo_total demo_descs _ h up_m demo_map_wf Hst)
    as (d & p' & h' & m' & ->%demo_chosen & E & U).
  exists h, p', h', m'. split; [exact E|].
  split; rewrite (up_pages _ _ _ _ _ _ _ _ _ _ _ U) by lia; vm_compute; reflexivity.
Defined.

Lemma heap_page_handed_out_witness : exists h p' h' m' p'' a,
  initializeFromMemoryMap demo_off 0x1000 (mkPFA 0 0 0 0 (mkBitmap 0 []) 0 0) h up_m demo_descs =
    Done (p', h', m') /\ requestFreePage demo_off p' = Done (p'', a) /\
  m_firstSegment h' <= a /\ a + PAGE_SIZE <= m_firstSegment h' + m_heapSize h'.
Proof.
  destruct demo_start as [h Hst].
  destruct (heap_page_handed_out demo_off 0x80000000 up_T 0x1000 0 eq_refl eq_refl
    ltac:(by vm_compute) demo_total demo_descs _ h up_m demo_map_wf Hst eq_refl)
    as (p' & h' & m' & p'' & a & H1 & H2 & H3 & H4).
  - intros d ->%demo_chosen. split; [by vm_compute|]. intros i Hi%demo_conv. change (0x100 <= i). lia.
  - exists h, p', h', m', p'', a. by split_and!.
Defined.
