(* ===== verification/BootPaging.v ===== *)
(** * Paging in the bootloader (bootloader/paging.c, paging.h)

    [MapPage], the identity map of all memory, the section search and the
    higher-half map, on the page tables of PageTable.v.  [RequestPage] is a call of
    the firmware ([AllocatePages]); with the [SetMem] after it, it is the frame
    source of the model. *)
From Stdlib Require Import ZArith Lia.
From stdpp Require Import base tactics numbers option list gmap.
From S2P Require Import Prelude PageFrame PageTable.

(** ** Data *)
Record ElfSegmentInfo := mkSegment {
  seg_PhysicalBase : Z; seg_PhysicalSize : Z; seg_VirtualBase : Z; seg_VirtualSize : Z;
  seg_Flags : Z;
}.

(** [Name] is the string the pointer designates. *)
Record ElfSectionInfo := mkSection {
  sec_VirtualBase : Z; sec_VirtualSize : Z; sec_Name : list Z; sec_Flags : Z; sec_Privileged : Z;
}.

Record PageLevelDictionary := mkLevels { PTLevel4 : Z; PTLevel3 : Z; PTLevel2 : Z; PTLevel1 : Z }.

(** ** Operations *)
Definition VirtualAddressToPageLevels (addr : Z) : PageLevelDictionary :=
  let addr := Z.shiftr addr 12 in
  let l1 := Z.land addr 0x1ff in
  let addr := Z.shiftr addr 9 in
  let l2 := Z.land addr 0x1ff in
  let addr := Z.shiftr addr 9 in
  let l3 := Z.land addr 0x1ff in
  let addr := Z.shiftr addr 9 in
  let l4 := Z.land addr 0x1ff in
  mkLevels l4 l3 l2 l1.

Definition boot_leaf (paddr leafpriv e : Z) : Z :=
  let e := set_present e 1 in
  let e := set_readWrite e 1 in
  let e := set_userSupervisor e leafpriv in
  set_pageFrameNumber e (Z.shiftr paddr 12).

Section boot.
Context {A} `{FrameSource A}.

Definition MapPage (s : A) (m : Z -> Z) (vaddr paddr leafpriv PML4 : Z) : outcome (A * (Z -> Z)) :=
  let pdict := VirtualAddressToPageLevels vaddr in
  let privilege := if PTLevel4 pdict =? 511 then 1 else 0 in
  r ← ensure_table privilege s m (entry_addr PML4 (PTLevel4 pdict));
  let '(s, m, PDL3) := r in
  r ← ensure_table privilege s m (entry_addr PDL3 (PTLevel3 pdict));
  let '(s, m, PDL2) := r in
  r ← ensure_table privilege s m (entry_addr PDL2 (PTLevel2 pdict));
  let '(s, m, PageTable) := r in
  let PTE_L1 := entry_addr PageTable (PTLevel1 pdict) in
  Done (s, wr m PTE_L1 (boot_leaf paddr leafpriv (m PTE_L1))).

(** [for (i = from; i < to; i += PAGE_SIZE) MapPage(i, i, 0, PML4)] *)
Definition identity_map (from to PML4 : Z) (s : A) (m : Z -> Z) : outcome (A * (Z -> Z)) :=
  loop (S (Z.to_nat ((to - from + 4095) / PAGE_SIZE))) (fun '(i, s, m) =>
    if i <? to then
      r ← MapPage s m i i 0 PML4;
      Done (inl (i + PAGE_SIZE, fst r, snd r))
    else Done (inr (s, m))) (from, s, m).

Definition CreateIdentityMappedPageTable (TotalSystemMemory GraphicsOutputBufferBase
    GraphicsOutputBufferSize : Z) (s : A) (m : Z -> Z) : outcome (A * (Z -> Z) * Z) :=
  r ← fs_request s m;
  let '(s, m, PML4) := r in
  r ← identity_map 0 TotalSystemMemory PML4 s m;
  r ← identity_map GraphicsOutputBufferBase
        (GraphicsOutputBufferBase ⊞ GraphicsOutputBufferSize) PML4 (fst r) (snd r);
  Done (fst r, snd r, PML4).

(** Returns the index, -1 when no section matches. *)
Fixpoint find_section (i : Z) (sections : list ElfSectionInfo) (KernelVirtualBase Vaddr : Z) : Z :=
  match sections with
  | [] => -1
  | section :: rest =>
      let sectionStart := sec_VirtualBase section in
      let sectionEnd := sec_VirtualBase section ⊞ sec_VirtualSize section in
      if sectionStart <? KernelVirtualBase then find_section (i + 1) rest KernelVirtualBase Vaddr
      else if (sectionStart <=? Vaddr) && (Vaddr <? sectionEnd) then i
      else find_section (i + 1) rest KernelVirtualBase Vaddr
  end.

Definition FindElfSectionByVaddr (sections : list ElfSectionInfo) (KernelVirtualBase Vaddr : Z) : Z :=
  find_section 0 sections KernelVirtualBase Vaddr.

(** The privilege of the leaf: 0 below the kernel's base; above it 1 unless the page
    lies in a privileged section.  The struct read at index -1 when there is no
    section is not used. *)
Definition leaf_privilege (sections : list ElfSectionInfo) (KernelVirtualBase vaddr : Z) : Z :=
  if KernelVirtualBase <=? vaddr then
    let sectionIdx := FindElfSectionByVaddr sections KernelVirtualBase vaddr in
    if sectionIdx =? -1 then 1
    else match sections !! Z.to_nat sectionIdx with
         | Some section => if sec_Privileged section =? 0 then 1 else 0
         | None => 1
         end
  else 0.

Definition CreateHigherHalfMapping (PML4 : Z) (segment0 : ElfSegmentInfo)
    (sections : list ElfSectionInfo) (TotalSystemMemory : Z) (s : A) (m : Z -> Z)
  : outcome (A * (Z -> Z)) :=
  let KernelPhysicalBase := seg_PhysicalBase segment0 in
  let KernelVirtualBase := seg_VirtualBase segment0 in
  let Offset := KernelVirtualBase ⊟ KernelPhysicalBase in
  loop (S (Z.to_nat ((TotalSystemMemory + 4095) / PAGE_SIZE))) (fun '(i, s, m) =>
    if i <? TotalSystemMemory then
      let paddr := i in
      let vaddr := paddr ⊞ Offset in
      let LeafPrivilegeLevel := leaf_privilege sections KernelVirtualBase vaddr in
      if vaddr =? 0 then Done (inr (s, m))
      else
        r ← MapPage s m vaddr paddr LeafPrivilegeLevel PML4;
        Done (inl (i + PAGE_SIZE, fst r, snd r))
    else Done (inr (s, m))) (0, s, m).
End boot.

(** ** The section search *)

(** [FindElfSectionByVaddr] returns the index of the first section at
    or above the kernel's base that contains the address, and -1 when there is none. *)
Theorem FindElfSectionByVaddr_first sections base v :
  let hit s := base <= sec_VirtualBase s /\
    sec_VirtualBase s <= v < sec_VirtualBase s ⊞ sec_VirtualSize s in
  let r := FindElfSectionByVaddr sections base v in
  (r = -1 /\ Forall (fun s => ~ hit s) sections) \/
  (0 <= r /\ exists s, sections !! Z.to_nat r = Some s /\ hit s /\
     Forall (fun s => ~ hit s) (take (Z.to_nat r) sections)).
Proof.
  intros hit r. unfold r, FindElfSectionByVaddr. clear r.
  enough (forall l i, 0 <= i ->
    (find_section i l base v = -1 /\ Forall (fun s => ~ hit s) l) \/
    (i <= find_section i l base v /\ exists s, l !! Z.to_nat (find_section i l base v - i) = Some s /\
       hit s /\ Forall (fun s => ~ hit s) (take (Z.to_nat (find_section i l base v - i)) l))) as X.
  { specialize (X sections 0 ltac:(lia)). by rewrite Z.sub_0_r in X. }
  induction l as [|s l IH]; intros i Hi; cbn [find_section]; [by left|].
  assert (forall j, i + 1 <= j -> Z.to_nat (j - i) = S (Z.to_nat (j - (i + 1)))) as Hs by lia.
  assert (~ hit s ->
    (find_section (i + 1) l base v = -1 /\ Forall (fun s => ~ hit s) (s :: l)) \/
    (i <= find_section (i + 1) l base v /\
     exists s0, (s :: l) !! Z.to_nat (find_section (i + 1) l base v - i) = Some s0 /\ hit s0 /\
       Forall (fun s => ~ hit s) (take (Z.to_nat (find_section (i + 1) l base v - i)) (s :: l)))) as Hskip.
  { intros Hno. destruct (IH (i + 1) ltac:(lia)) as [[E F]|(E & s0 & L & Hh & F)].
    - left. split; [done|by constructor].
    - right. split; [lia|]. exists s0. rewrite Hs by done. simpl. split_and!; [done|done|by constructor]. }
  destruct (Z.ltb_spec (sec_VirtualBase s) base); [apply Hskip; unfold hit; lia|].
  destruct (Z.leb_spec (sec_VirtualBase s) v), (Z.ltb_spec v (sec_VirtualBase s ⊞ sec_VirtualSize s));
    simpl; try (apply Hskip; unfold hit; lia).
  right. split; [lia|]. exists s. rewrite Z.sub_diag. simpl. unfold hit. split_and!; [done|lia..|constructor].
Qed.

(** ** Who may use a page of the higher half *)

(** The first section at or above the kernel's base that holds [v] is privileged. *)
Definition privileged_page (sections : list ElfSectionInfo) (base v : Z) : Prop :=
  let hit s := base <= sec_VirtualBase s /\ sec_VirtualBase s <= v < sec_VirtualBase s ⊞ sec_VirtualSize s in
  exists pre s post, sections = pre ++ s :: post /\ Forall (fun s => ~ hit s) pre /\ hit s /\ sec_Privileged s <> 0.

(** A page of the kernel that is meant for user mode: at or above the kernel's base and not
    privileged. *)
Definition user_page (sections : list ElfSectionInfo) (base v : Z) : Prop :=
  base <= v /\ ~ privileged_page sections base v.

Lemma leaf_privilege_spec sections base v :
  (leaf_privilege sections base v = 0 \/ leaf_privilege sections base v = 1) /\
  (leaf_privilege sections base v = 1 <-> user_page sections base v).
Proof.
  unfold leaf_privilege, user_page. destruct (Z.leb_spec base v) as [Hb|Hb]; [|split; [by left|split; [done|lia]]].
  destruct (FindElfSectionByVaddr_first sections base v) as [[-> Hno]|(Hr & s & Hs & Hh & Hpre)].
  - cbn. split; [by right|]. split; [|done]. intros _. split; [done|].
    intros (pre & s & post & -> & _ & Hh & _). rewrite Forall_app, Forall_cons in Hno. by destruct Hno as (_ & Hn & _).
  - set (r := FindElfSectionByVaddr sections base v) in *. rewrite (proj2 (Z.eqb_neq r (-1))) by lia. rewrite Hs.
    pose proof (take_drop_middle _ _ _ Hs) as Hsplit.
    destruct (Z.eqb_spec (sec_Privileged s) 0) as [H0|H0]; (split; [tauto|]); (split; [intros E; try done|]).
    + split; [done|]. intros (pre & s' & post & Hsec & Hpre' & Hh' & Hpr).
      assert (length pre = Z.to_nat r) as Hlen.
      { destruct (Nat.lt_trichotomy (length pre) (Z.to_nat r)) as [Hlt|[->|Hlt]]; [|done|].
        - exfalso. rewrite Forall_lookup in Hpre. apply (Hpre (length pre) s'); [|done].
          rewrite lookup_take_lt by done. by rewrite Hsec, list_lookup_middle.
        - exfalso. rewrite Forall_lookup in Hpre'. apply (Hpre' (Z.to_nat r) s); [|done].
          by rewrite Hsec, lookup_app_l in Hs by done. }
      rewrite Hsec, <- Hlen, list_lookup_middle in Hs by done. injection Hs as ->. done.
    + done.
    + intros [_ Hn]. exfalso. apply Hn. exists (take (Z.to_nat r) sections), s, (drop (S (Z.to_nat r)) sections).
      split; [by rewrite Hsplit|]. split; [exact Hpre|]. split; [exact Hh|exact H0].
Qed.

(** ** The maps *)

(** The entry [e] maps a page to the frame of [paddr] with user access [user]. *)
Definition maps (e : option Z) (paddr user : Z) : Prop :=
  exists x, e = Some x /\ pte_present x = 1 /\ pte_readWrite x = 1 /\
    pte_userSupervisor x = user mod 2 /\ pte_pageFrameNumber x = paddr / 4096 mod 2 ^ 36.

Lemma boot_leaf_fields paddr user e :
  let l := boot_leaf paddr user e in
  pte_present l = 1 /\ pte_readWrite l = 1 /\ pte_userSupervisor l = user mod 2 /\
  pte_pageFrameNumber l = paddr / 4096 mod 2 ^ 36.
Proof.
  unfold boot_leaf, pte_present, pte_readWrite, pte_userSupervisor, pte_pageFrameNumber,
    set_pageFrameNumber, set_userSupervisor, set_readWrite, set_present. cbv zeta.
  split_and!; repeat rewrite (bf_set_other _ _ _ _) by lia; rewrite bf_set_same by lia; try done.
  by rewrite Z.shiftr_div_pow2 by lia.
Qed.

Lemma vpage_aligned a : 0 <= a < 2 ^ 64 -> vpage a = a / 4096 mod 2 ^ 36.
Proof. intros Ha. unfold vpage, bf. rewrite Z.land_ones, Z.shiftr_div_pow2 by lia. done. Qed.

Section boot_maps.
Context {A} `{FrameSource A} (lim : Z).
Hypothesis Hlim : fs_limit = lim /\ lim <= 2 ^ 48.
Context (root : Z).

(** The user bit of the entries below entry [i] of the root table, the leaves apart. *)
Definition slot_bit (i : Z) : Z := if i =? 511 then 1 else 0.

(** The tables under [root] form a tree, with these user bits, and [n] more frames can be
    had. *)
Definition good (s : A) (m : Z -> Z) (n : nat) : Prop :=
  exists T, tree lim T m /\ (exists par, T !! root = Some (4%nat, par)) /\
    fs_inv s (dom T) /\ fs_room s n /\ exists col, coloured slot_bit root T m col.

Lemma good_user s m n v e : good s m n -> translate m root v = Some e ->
  user_walk m root 4 v = (pt_index 4 v =? 511) && (pte_userSupervisor e =? 1).
Proof.
  intros (T & HT & (par & Hr) & _ & _ & col & Hc) He.
  rewrite (user_walk_eq lim T m slot_bit col root par v e HT Hr Hc He). unfold slot_bit.
  by destruct (pt_index 4 v =? 511).
Qed.

Lemma MapPage_ok s m n v p u : good s m (S (S (S n))) ->
  exists s' m', MapPage s m v p u root = Done (s', m') /\ good s' m' n /\
    maps (translate m' root v) p u /\
    (forall v', vpage v' <> vpage v -> translate m' root v' = translate m root v').
Proof.
  intros (T & HT & (par & Hr) & Hinv & Hroom & col & Hcol).
  assert (forall x, VirtualAddressToPageLevels x =
    mkLevels (pt_index 4 x) (pt_index 3 x) (pt_index 2 x) (pt_index 1 x)) as Hlev.
  { intros x. unfold VirtualAddressToPageLevels, pt_index. rewrite !Z.shiftr_shiftr by lia. done. }
  destruct (map_generic_ok lim Hlim (fun x => x) (fun _ _ _ _ _ => eq_refl) T m s n root root par v
    (if pt_index 4 v =? 511 then 1 else 0) (boot_leaf p u)) as (s' & m' & T' & e & E & H1 & H2 & H3 & H4 & H5 & H6 & H7);
    try done.
  - intros x. destruct (boot_leaf_fields p u x) as (-> & _). done.
  - exists s', m'. unfold MapPage. rewrite Hlev. split; [exact E|]. split.
    + exists T'. split_and!; try done; [exists par; by eapply lookup_weaken|].
      apply (H7 slot_bit col); [done|by case_match; [right|left]|done].
    + split; [|done]. exists (boot_leaf p u e). split; [done|].
      destruct (boot_leaf_fields p u e) as (? & ? & ? & ?). done.
Qed.

Lemma good_less s m n k : good s m n -> (k <= n)%nat -> good s m k.
Proof.
  intros (T & H1 & H2 & H3 & H4 & H5) Hk. exists T. split_and!; try done. clear H5.
  induction Hk; [done|]. apply IHHk. by apply fs_room_less.
Qed.

(** The pages from [from] up to [to], in steps of [PAGE_SIZE]. *)
Definition steps (from to : Z) : nat := Z.to_nat ((to - from + 4095) / PAGE_SIZE).

(** A mapping loop over [i] that maps [va i] to frame [i] with access [us i]. *)
Lemma map_loop_ok (stop : Z -> bool) (va us : Z -> Z) to : forall k from s m n fuel,
  k = steps from to -> (k < fuel)%nat -> 0 <= from -> good s m (3 * k + n) ->
  (forall i, from <= i < to -> stop i = false) ->
  (forall i j, from <= i < to -> from <= j < to -> vpage (va i) = vpage (va j) ->
     (i - from) / PAGE_SIZE = (j - from) / PAGE_SIZE) ->
  exists s' m', loop fuel (fun '(i, s, m) =>
      if i <? to then
        if stop i then Done (inr (s, m))
        else
          r ← MapPage s m (va i) i (us i) root;
          Done (inl (i + PAGE_SIZE, fst r, snd r))
      else Done (inr (s, m))) (from, s, m) = Done (s', m') /\ good s' m' n /\
    (forall j, 0 <= j -> from + PAGE_SIZE * j < to ->
       let a := from + PAGE_SIZE * j in maps (translate m' root (va a)) a (us a)) /\
    (forall v, (forall i, from <= i < to -> vpage v <> vpage (va i)) ->
       translate m' root v = translate m root v).
Proof.
  induction k as [|k IH]; intros from s m n fuel Hk Hfuel H0 Hg Hnz Hinj;
    (destruct fuel as [|fuel]; [lia|]); cbn [loop]; unfold steps, PAGE_SIZE in *.
  - destruct (Z.ltb_spec from to) as [Hlt|Hge]; [wordlia|].
    exists s, m. split; [done|]. split; [done|]. split; [intros j Hj Ha; lia|done].
  - destruct (Z.ltb_spec from to) as [Hlt|Hge]; [|wordlia].
    rewrite (Hnz from ltac:(lia)).
    destruct (MapPage_ok s m (3 * k + n) (va from) from (us from)) as (s1 & m1 & -> & G1 & M1 & U1).
    { replace (S (S (S (3 * k + n)))) with (3 * S k + n)%nat by lia. done. }
    cbn [mbind outcome_bind fst snd].
    destruct (IH (from + 4096) s1 m1 n fuel) as (s' & m' & E & G & M & U); try done; try lia.
    { wordlia. }
    { intros i Hi. apply Hnz. lia. }
    { intros i j Hi Hj Ev. specialize (Hinj i j ltac:(lia) ltac:(lia) Ev). wordlia. }
    exists s', m'. split; [exact E|]. split; [done|]. split.
    + intros j Hj Ha. destruct (decide (j = 0)) as [->|Hj0].
      * replace (from + 4096 * 0) with from by lia. cbv zeta.
        rewrite U; [done|]. intros i Hi Ev. specialize (Hinj from i ltac:(lia) ltac:(lia) Ev). wordlia.
      * replace (from + 4096 * j) with (from + 4096 + 4096 * (j - 1)) by lia. apply M; lia.
    + intros v Hv. rewrite U by (intros i Hi; apply Hv; lia). apply U1. apply Hv. lia.
Qed.
End boot_maps.

(** ** The address space the kernel starts in *)
Section boot_space.
Context {A} `{FrameSource A} (lim : Z).
Hypothesis Hlim : fs_limit = lim /\ lim <= 2 ^ 48.

Lemma identity_map_ok root s m from to n :
  good lim root s m (3 * steps from to + n) -> 0 <= from -> to <= 2 ^ 48 ->
  from mod 4096 = 0 ->
  exists s' m', identity_map from to root s m = Done (s', m') /\ good lim root s' m' n /\
    (forall a, from <= a < to -> a mod 4096 = 0 -> maps (translate m' root a) a 0) /\
    (forall v, (forall i, from <= i < to -> vpage v <> vpage i) ->
       translate m' root v = translate m root v).
Proof.
  intros Hg H0 Hto Ha. change (2 ^ 48) with 281474976710656 in Hto.
  assert (forall i, from <= i < to -> vpage i = i / 4096) as Hv.
  { intros i Hi. rewrite vpage_aligned by lia. apply Z.mod_small. change (2 ^ 36) with 68719476736. wordlia. }
  destruct (map_loop_ok lim Hlim root (fun _ => false) (fun i => i) (fun _ => 0) to (steps from to) from s m n
    (S (steps from to))) as (s' & m' & E & G & M & U); try done; try lia.
  - intros i j Hi Hj. rewrite !Hv by done. unfold PAGE_SIZE. wordlia.
  - exists s', m'. split; [exact E|]. split; [done|]. split; [|done].
    intros a Hr Haa. assert (a = from + PAGE_SIZE * ((a - from) / 4096)) as Ea by (unfold PAGE_SIZE; wordlia).
    rewrite Ea. apply M; [wordlia|]. rewrite <- Ea. lia.
Qed.

(** Page numbers of the upper half. *)
Lemma vpage_high off i :
  0xffff800000000000 <= off -> 0 <= i -> off + i < 0x10000000000000000 ->
  vpage (i + off) = (i + off) / 4096 - (2 ^ 52 - 2 ^ 36) /\ 2 ^ 35 <= vpage (i + off).
Proof.
  intros Ho Hi Hw. rewrite vpage_aligned by (change (2 ^ 64) with 0x10000000000000000; lia).
  change (2 ^ 52) with 4503599627370496. change (2 ^ 36) with 68719476736. change (2 ^ 35) with 34359738368.
  wordlia.
Qed.

Lemma higher_half_ok root seg0 sections Total s m n :
  let Offset := seg_VirtualBase seg0 ⊟ seg_PhysicalBase seg0 in
  good lim root s m (3 * steps 0 Total + n) ->
  0xffff800000000000 <= Offset -> Offset + Total <= 0x10000000000000000 -> Offset mod 4096 = 0 ->
  exists s' m', CreateHigherHalfMapping root seg0 sections Total s m = Done (s', m') /\
    good lim root s' m' n /\
    (forall a, 0 <= a < Total -> a mod 4096 = 0 ->
       maps (translate m' root (a + Offset)) a
            (leaf_privilege sections (seg_VirtualBase seg0) (a + Offset))) /\
    (forall v, 0 <= v < 2 ^ 47 -> translate m' root v = translate m root v).
Proof.
  intros Offset Hg Ho Hw Ha.
  assert (forall i, 0 <= i < Total -> i ⊞ Offset = i + Offset) as Hva
    by (intros i Hi; apply u64_small; unfold is_u64; lia).
  destruct (map_loop_ok lim Hlim root (fun i => i ⊞ Offset =? 0) (fun i => i ⊞ Offset)
    (fun i => leaf_privilege sections (seg_VirtualBase seg0) (i ⊞ Offset))
    Total (steps 0 Total) 0 s m n (S (steps 0 Total))) as (s' & m' & E & G & M & U); try done; try lia.
  - intros i Hi. rewrite Hva by done. apply Z.eqb_neq. lia.
  - intros i j Hi Hj. rewrite !Hva by done.
    destruct (vpage_high Offset i) as [-> _]; [lia..|]. destruct (vpage_high Offset j) as [-> _]; [lia..|].
    unfold PAGE_SIZE. wordlia.
  - exists s', m'. unfold CreateHigherHalfMapping. fold Offset. unfold steps in E. rewrite Z.sub_0_r in E.
    split; [exact E|]. split; [done|]. split.
    + intros a Hr Haa. specialize (M (a / 4096)). unfold PAGE_SIZE in M.
      replace (0 + 4096 * (a / 4096)) with a in M by wordlia. rewrite (Hva a Hr) in M. apply M; [wordlia|lia].
    + intros v Hv. apply U. intros i Hi. rewrite Hva by done.
      destruct (vpage_high Offset i) as [_ Hi']; [lia..|].
      rewrite vpage_aligned by (change (2 ^ 64) with 0x10000000000000000; change (2 ^ 47) with 0x800000000000 in Hv; lia).
      change (2 ^ 35) with 34359738368 in Hi'. change (2 ^ 36) with 68719476736.
      change (2 ^ 47) with 0x800000000000 in Hv. wordlia.
Qed.

(** A page of memory at its own address: present, writable, its own frame, and closed to
    user mode at the leaf and as a whole. *)
Definition identity_page (m : Z -> Z) (root a : Z) : Prop :=
  maps (translate m root a) a 0 /\ user_walk m root 4 a = false.

(** The page [a] of memory at the address [v] of the higher half: present, writable, the
    frame of [a]; its leaf is open to user mode exactly when the page is meant for it, and
    the page as a whole when moreover it is one of the last 512 GiB of the address space,
    where the upper tables are open. *)
Definition kernel_page (m : Z -> Z) (root : Z) (sections : list ElfSectionInfo) (base a v : Z) : Prop :=
  exists u, (u = 0 \/ u = 1) /\ maps (translate m root v) a u /\ (u = 1 <-> user_page sections base v) /\
    (user_walk m root 4 v = true <-> user_page sections base v /\ 0xffffff8000000000 <= v).

Lemma top_slot v : 0xffff800000000000 <= v < 0x10000000000000000 ->
  (pt_index 4 v =? 511) = true <-> 0xffffff8000000000 <= v.
Proof.
  intros Hv. rewrite pt_index_div by lia. change (2 ^ (12 + 9 * (Z.of_nat 4 - 1))) with 549755813888.
  rewrite Z.eqb_eq. split; intros Hq; wordlia.
Qed.

Lemma kernel_page_intro root s m n sections base a v :
  good lim root s m n -> 0xffff800000000000 <= v < 0x10000000000000000 ->
  maps (translate m root v) a (leaf_privilege sections base v) -> kernel_page m root sections base a v.
Proof.
  intros Hg Hv Hm. destruct (leaf_privilege_spec sections base v) as [H01 Hp].
  exists (leaf_privilege sections base v). split_and!; [done|done|done|].
  destruct Hm as (e & He & _ & _ & Hu & _). rewrite (good_user lim root s m n v e Hg He), andb_true_iff, top_slot by done.
  rewrite Hu, Z.eqb_eq, <- Hp. destruct H01 as [-> | ->]; cbn; tauto.
Qed.

Lemma boot_space_run Total gBase gSize seg0 sections (s : A) m :
  let Offset := seg_VirtualBase seg0 ⊟ seg_PhysicalBase seg0 in
  let pages := steps 0 Total in
  fs_inv s ∅ -> fs_room s (1 + (3 * pages + (3 * steps gBase (gBase + gSize) + (3 * pages + 0)))) ->
  0 <= Total <= 2 ^ 47 -> 0 <= gBase -> 0 <= gSize -> gBase + gSize <= 2 ^ 47 -> gBase mod 4096 = 0 ->
  Offset mod 4096 = 0 -> 0xffff800000000000 <= Offset -> Offset + Total <= 0x10000000000000000 ->
  exists s1 m1 root s2 m2, root <> 0 /\
    CreateIdentityMappedPageTable Total gBase gSize s m = Done (s1, m1, root) /\
    CreateHigherHalfMapping root seg0 sections Total s1 m1 = Done (s2, m2) /\
    (forall a, 0 <= a < Total \/ gBase <= a < gBase + gSize -> a mod 4096 = 0 ->
       identity_page m2 root a) /\
    (forall a, 0 <= a < Total -> a mod 4096 = 0 ->
       kernel_page m2 root sections (seg_VirtualBase seg0) a (a + Offset)).
Proof.
  intros Offset pages Hinv Hroom HT Hg0 Hgs Hg Hga Ha Ho Hw. unfold CreateIdentityMappedPageTable.
  destruct (fs_law s m ∅ _ Hinv Hroom) as (s0 & root & -> & Hf & Al & Hpos & Htop & Hinv' & Hroom').
  cbn [mbind outcome_bind]. rewrite union_empty_r_L in Hinv'.
  change (2 ^ 47) with 0x800000000000 in *.
  assert (good lim root s0 (zero_frame m root)
    (3 * pages + (3 * steps gBase (gBase + gSize) + (3 * pages + 0)))) as G0.
  { exists {[ root := (4%nat, 0) ]}. rewrite dom_singleton_L. destruct Hlim as [HL _]. split_and!; try done.
    - constructor.
      + intros t l par [<- [= <- <-]]%lookup_singleton_Some. rewrite <- HL. split_and!; (done || lia).
      + intros t l par i [<- [= <- <-]]%lookup_singleton_Some Hi Hp. exfalso. apply Hp.
        unfold zero_frame, entry_addr, PAGE_SIZE in *.
        destruct (Z.leb_spec root (root + 8 * i)), (Z.ltb_spec (root + 8 * i) (root + 4096)); try lia. done.
    - exists 0. by rewrite lookup_singleton_eq.
    - exists (fun _ => 0). intros t l par i [<- [= <- <-]]%lookup_singleton_Some Hi Hp. exfalso. apply Hp.
      unfold zero_frame, entry_addr, PAGE_SIZE in *.
      destruct (Z.leb_spec root (root + 8 * i)), (Z.ltb_spec (root + 8 * i) (root + 4096)); try lia. done. }
  destruct (identity_map_ok root _ _ 0 Total _ G0) as (s1 & m1 & -> & G1 & M1 & U1);
    [lia|change (2 ^ 48) with 0x1000000000000; lia|done|]. cbn [mbind outcome_bind fst snd].
  replace (gBase ⊞ gSize) with (gBase + gSize) by wordlia.
  destruct (identity_map_ok root _ _ gBase (gBase + gSize) _ G1) as (s2 & m2 & -> & G2 & M2 & U2);
    [lia|change (2 ^ 48) with 0x1000000000000; lia|done|]. cbn [mbind outcome_bind fst snd].
  destruct (higher_half_ok root seg0 sections Total _ _ _ G2) as (s3 & m3 & E3 & G3 & M3 & U3); try done.
  change (2 ^ 47) with 0x800000000000 in U3.
  exists s2, m2, root, s3, m3. split_and!; [lia|done|exact E3| |].
  2: { intros a Hr Haa. apply (kernel_page_intro root s3 m3 0); [done|lia|]. by apply M3. }
  intros a Hr Haa. assert (maps (translate m3 root a) a 0) as Hm.
  2: { split; [done|]. destruct Hm as (e & He & _ & _ & Hu & _). rewrite (good_user lim root s3 m3 _ a e G3 He), Hu.
       by rewrite andb_false_r. }
  rewrite U3 by lia. destruct (decide (gBase <= a < gBase + gSize)) as [Hin|Hout].
  - by apply M2.
  - rewrite U2; [apply M1; [lia|done]|]. intros i Hi. rewrite !vpage_aligned by (change (2 ^ 64) with 0x10000000000000000; lia).
    change (2 ^ 36) with 68719476736. wordlia.
Qed.

(** C36 (functional): with enough frames, the bootloader's page tables map every page
    below the size of the memory twice: at its own address, for the kernel only, and
    [Offset] above it, where the leaf is open to user mode exactly when the page is at or
    above the kernel's base and the first section that holds it (if any) is not privileged;
    user mode may use such a page exactly when moreover it lies in the last 512 GiB of the
    address space, since only there all the tables above the leaf are open.  The framebuffer
    is mapped at its own address, for the kernel only; no mapping is disturbed by a later
    one.  This is the address space the kernel's pointers assume ([BootLayout] and [phys]
    in Paging.v). *)
Theorem boot_address_space Total gBase gSize seg0 sections (s : A) m :
  let Offset := seg_VirtualBase seg0 ⊟ seg_PhysicalBase seg0 in
  let pages := steps 0 Total in
  fs_inv s ∅ -> fs_room s (1 + (3 * pages + (3 * steps gBase (gBase + gSize) + (3 * pages + 0)))) ->
  0 <= Total <= 2 ^ 47 -> 0 <= gBase -> 0 <= gSize -> gBase + gSize <= 2 ^ 47 -> gBase mod 4096 = 0 ->
  Offset mod 4096 = 0 -> 0xffff800000000000 <= Offset -> Offset + Total <= 0x10000000000000000 ->
  exists s1 m1 root s2 m2,
    CreateIdentityMappedPageTable Total gBase gSize s m = Done (s1, m1, root) /\
    CreateHigherHalfMapping root seg0 sections Total s1 m1 = Done (s2, m2) /\
    (forall a, 0 <= a < Total \/ gBase <= a < gBase + gSize -> a mod 4096 = 0 ->
       identity_page m2 root a) /\
    (forall a, 0 <= a < Total -> a mod 4096 = 0 ->
       kernel_page m2 root sections (seg_VirtualBase seg0) a (a + Offset)).
Proof.
  intros Offset pages H1 H2 H3 H4 H5 H6 H7 H8 H9 H10.
  destruct (boot_space_run Total gBase gSize seg0 sections s m H1 H2 H3 H4 H5 H6 H7 H8 H9 H10)
    as (s1 & m1 & root & s2 & m2 & _ & Hrun). by exists s1, m1, root, s2, m2.
Qed.
End boot_space.

(** ** Witnesses *)

(** Frames in increasing order: a concrete frame source. *)
Definition bump_request (next : Z) (m : Z -> Z) : outcome (Z * (Z -> Z) * Z) :=
  Done (next + PAGE_SIZE, zero_frame m next, next).

Lemma bump_law next m (taken : gset Z) n :
  (0 < next /\ next mod PAGE_SIZE = 0 /\ forall f, f ∈ taken -> f < next) ->
  next + PAGE_SIZE * Z.of_nat (S n) <= 0x40000000 ->
  exists s' f, bump_request next m = Done (s', zero_frame m f, f) /\
    (f ∉ taken) /\ f mod PAGE_SIZE = 0 /\ 0 < f /\ f + PAGE_SIZE <= 0x40000000 /\
    (0 < s' /\ s' mod PAGE_SIZE = 0 /\ forall g, g ∈ {[ f ]} ∪ taken -> g < s') /\
    s' + PAGE_SIZE * Z.of_nat n <= 0x40000000.
Proof.
  intros (H0 & Ha & Ht) Hr. exists (next + PAGE_SIZE), next. unfold PAGE_SIZE in *. split; [done|].
  split; [intros Hin%Ht; lia|]. split; [done|]. split; [lia|]. split; [lia|]. split; [|lia].
  split; [lia|]. split; [wordlia|]. intros g. rewrite elem_of_union, elem_of_singleton.
  intros [->|Hin%Ht]; lia.
Qed.

Definition bump_frames : FrameSource Z.
Proof.
  refine {| fs_request := bump_request; fs_limit := 0x40000000;
            fs_inv := fun s taken => 0 < s /\ s mod PAGE_SIZE = 0 /\ forall f, f ∈ taken -> f < s;
            fs_room := fun s n => s + PAGE_SIZE * Z.of_nat n <= 0x40000000;
            fs_law := bump_law |}.
  intros s n. unfold PAGE_SIZE. lia.
Defined.

Lemma bump_limit : @fs_limit Z bump_frames = 0x40000000 /\ 0x40000000 <= 2 ^ 48.
Proof. split; [reflexivity|lia]. Qed.

Definition demo_seg0 : ElfSegmentInfo := mkSegment 0x1000000 0x2000 0xffffffff80000000 0x2000 0.
Definition demo_sections : list ElfSectionInfo :=
  [mkSection 0xffffffff80000000 0x1000 [] 0 0; mkSection 0xffffffff80001000 0x1000 [] 0 1].

Lemma boot_address_space_witness : exists s1 m1 root s2 m2,
  CreateIdentityMappedPageTable (H:=bump_frames) 0x2000 0x8000 0x1000 0x100000 (fun _ => 0) = Done (s1, m1, root) /\
  CreateHigherHalfMapping (H:=bump_frames) root demo_seg0 demo_sections 0x2000 s1 m1 = Done (s2, m2) /\
  maps (translate m2 root 0x1000) 0x1000 0 /\ user_walk m2 root 4 0x1000 = false /\
  kernel_page m2 root demo_sections 0xffffffff80000000 0x1000 0xffffffff7f001000.
Proof.
  destruct (boot_address_space (H:=bump_frames) 0x40000000 bump_limit 0x2000 0x8000 0x1000
    demo_seg0 demo_sections 0x100000 (fun _ => 0)) as (s1 & m1 & root & s2 & m2 & E1 & E2 & M & K);
    [by (split; [lia|]; split; [done|]; set_solver)|vm_compute; congruence|lia..|done|done
    |vm_compute; congruence|vm_compute; congruence|].
  exists s1, m1, root, s2, m2. split; [exact E1|]. split; [exact E2|].
  destruct (M 0x1000) as [M1 M2]; [lia|done|]. split; [exact M1|]. split; [exact M2|]. apply (K 0x1000); [lia|done].
Defined.
