(* ===== verification/ElfLoader.v ===== *)
(** * The ELF loader of the bootloader (bootloader/elf_loader.c, elf_loader.h, common.h,
    memory_map.c)

    Header validation, the program headers, the section table and the load of the
    segments into one contiguous block.  Files, pools and pages are services of the
    firmware: a [Firmware] is what they answer. *)
From Stdlib Require Import ZArith Lia.
From stdpp Require Import base tactics numbers option list gmap.
From S2P Require Import Prelude Memory PageFrame BootPaging.

(** ** Status codes *)
Definition EFI_SUCCESS : Z := 0.
Definition EFIERR (a : Z) : Z := 0x8000000000000000 + a.
Definition EFI_LOAD_ERROR : Z := EFIERR 1.
Definition EFI_UNSUPPORTED : Z := EFIERR 3.
Definition EFI_OUT_OF_RESOURCES : Z := EFIERR 9.
Definition EFI_ERROR (s : Z) : bool := s64 s <? 0.

(** What the firmware answers: [SetPosition], [Read] (status and the bytes it put into
    the buffer), [AllocatePool] (0 is NULL), [AllocatePages] (status and address). *)
Record Firmware := {
  fw_set_position : Z -> Z;
  fw_read : Z -> Z -> Z * list Z;
  fw_alloc_pool : Z -> Z;
  fw_alloc_pages : Z -> Z * Z;
}.

(** ** ELF structures, read from their bytes *)
Definition fld (bs : list Z) (off n : nat) : Z := le_combine (take n (drop off bs)).

Record Elf64_Ehdr := mkEhdr {
  e_ident : list Z; e_type : Z; e_machine : Z; e_entry : Z; e_phoff : Z; e_shoff : Z;
  e_phentsize : Z; e_phnum : Z; e_shnum : Z; e_shstrndx : Z;
}.
Definition sizeof_Ehdr : Z := 64.
Definition parse_ehdr (bs : list Z) : Elf64_Ehdr :=
  mkEhdr (take 16 bs) (fld bs 16 2) (fld bs 18 2) (fld bs 24 8) (fld bs 32 8) (fld bs 40 8)
         (fld bs 54 2) (fld bs 56 2) (fld bs 60 2) (fld bs 62 2).

Record Elf64_Phdr := mkPhdr { p_type : Z; p_offset : Z; p_vaddr : Z; p_filesz : Z; p_memsz : Z }.
Definition sizeof_Phdr : nat := 56.
Definition parse_phdr (bs : list Z) : Elf64_Phdr :=
  mkPhdr (fld bs 0 4) (fld bs 8 8) (fld bs 16 8) (fld bs 32 8) (fld bs 40 8).
Definition PT_LOAD : Z := 1.

Record Elf64_Shdr := mkShdr { sh_name : Z; sh_flags : Z; sh_addr : Z; sh_offset : Z; sh_size : Z }.
Definition sizeof_Shdr : nat := 64.
Definition parse_shdr (bs : list Z) : Elf64_Shdr :=
  mkShdr (fld bs 0 4) (fld bs 8 8) (fld bs 16 8) (fld bs 24 8) (fld bs 32 8).

(** [table[i]] of a buffer of structs of [size] bytes; outside the buffer it faults. *)
Definition struct_at (buf : list Z) (size : nat) (i : nat) : outcome (list Z) :=
  if decide (size * i + size <= length buf)%nat then Done (take size (drop (size * i) buf)) else Fault.

(** ** Operations *)
Definition byte_is (bs : list Z) (i : nat) (v : Z) : bool :=
  match bs !! i with Some b => b =? v | None => false end.

Definition ValidateElfHeader (h : Elf64_Ehdr) : Z :=
  if negb (byte_is (e_ident h) 0 0x7f) || negb (byte_is (e_ident h) 1 0x45)
     || negb (byte_is (e_ident h) 2 0x4c) || negb (byte_is (e_ident h) 3 0x46)
  then EFI_UNSUPPORTED
  else if negb (byte_is (e_ident h) 4 2) || negb (e_machine h =? 62) then EFI_UNSUPPORTED
  else if negb (e_type h =? 2) then EFI_UNSUPPORTED
  else EFI_SUCCESS.

Definition ReadElfHeader (fw : Firmware) : Z * Elf64_Ehdr :=
  let '(Status, bs) := fw_read fw 0 sizeof_Ehdr in
  let h := parse_ehdr bs in
  if EFI_ERROR Status then (Status, h)
  else if negb (Z.of_nat (length bs) =? sizeof_Ehdr) then (EFI_LOAD_ERROR, h)
  else
    let Status := ValidateElfHeader h in
    if EFI_ERROR Status then (Status, h) else (EFI_SUCCESS, h).

Definition ReadProgramHeaders (fw : Firmware) (h : Elf64_Ehdr) : Z * list Z :=
  let Status := fw_set_position fw (e_phoff h) in
  if EFI_ERROR Status then (Status, [])
  else
    let Size := e_phentsize h * e_phnum h in
    if fw_alloc_pool fw Size =? 0 then (EFI_OUT_OF_RESOURCES, [])
    else
      let '(Status, bs) := fw_read fw (e_phoff h) Size in
      if EFI_ERROR Status || negb (Z.of_nat (length bs) =? Size)
      then (if Status =? EFI_SUCCESS then EFI_LOAD_ERROR else Status, [])
      else (EFI_SUCCESS, bs).

(** [strncmp] of common.h; a string is its bytes, and reading behind them faults. *)
Definition strncmp (s1 s2 : list Z) (n : nat) : outcome Z :=
  loop (S n) (fun i =>
    if (i <? n)%nat then
      x ← need (s1 !! i);
      y ← need (s2 !! i);
      if negb (x =? y) then Done (inr (x - y))
      else if x =? 0 then Done (inr 0)
      else Done (inl (S i))
    else Done (inr 0)) O.

Definition name_ktext : list Z := [0x2e; 0x6b; 0x74; 0x65; 0x78; 0x74; 0].
Definition name_kdata : list Z := [0x2e; 0x6b; 0x64; 0x61; 0x74; 0x61; 0].
Definition name_krodata : list Z := [0x2e; 0x6b; 0x72; 0x6f; 0x64; 0x61; 0x74; 0x61; 0].

(** One entry of [SectionInfoList]; the comparisons are evaluated from left to right. *)
Definition section_info (shdr : Elf64_Shdr) (stringTable : list Z) : outcome ElfSectionInfo :=
  let sectionName := drop (Z.to_nat (sh_name shdr)) stringTable in
  a ← strncmp sectionName name_ktext 6;
  b ← (if a =? 0 then Done 0 else strncmp sectionName name_kdata 6);
  c ← (if b =? 0 then Done 0 else strncmp sectionName name_krodata 8);
  Done (mkSection (sh_addr shdr) (sh_size shdr) sectionName (u32 (sh_flags shdr))
          (if c =? 0 then 1 else 0)).

Fixpoint section_infos (headers stringTable : list Z) (i n : nat) : outcome (list ElfSectionInfo) :=
  match n with
  | O => Done []
  | S n =>
      bs ← struct_at headers sizeof_Shdr i;
      x ← section_info (parse_shdr bs) stringTable;
      rest ← section_infos headers stringTable (S i) n;
      Done (x :: rest)
  end.

(** Status and the list; the pool allocations of the buffers are not checked beyond the
    first, as in the source. *)
Definition LoadElfSections (fw : Firmware) (h : Elf64_Ehdr) : outcome (Z * list ElfSectionInfo) :=
  let size := e_shnum h * Z.of_nat sizeof_Shdr in
  if fw_alloc_pool fw size =? 0 then Done (EFI_OUT_OF_RESOURCES, [])
  else
    let '(Status, headers) := fw_read fw (e_shoff h) size in
    if EFI_ERROR Status then Done (Status, [])
    else
      bs ← struct_at headers sizeof_Shdr (Z.to_nat (e_shstrndx h));
      let strh := parse_shdr bs in
      let '(Status, stringTable) := fw_read fw (sh_offset strh) (sh_size strh) in
      if EFI_ERROR Status then Done (Status, [])
      else
        l ← section_infos headers stringTable 0 (Z.to_nat (e_shnum h));
        Done (EFI_SUCCESS, l).

(** The first loop of [LoadElfSegments]. *)
Fixpoint total_size (phdrs : list Elf64_Phdr) : Z :=
  match phdrs with
  | [] => 0
  | p :: rest => (if p_type p =? PT_LOAD then p_memsz p else 0) ⊞ total_size rest
  end.

(** [EFI_SIZE_TO_PAGES] *)
Definition EFI_SIZE_TO_PAGES (size : Z) : Z :=
  Z.shiftr size 12 + (if Z.land size 0xfff =? 0 then 0 else 1).

(** The second loop: header [i], the running offset, what was loaded so far. *)
Fixpoint load_segments (fw : Firmware) (base i Offset vbase : Z) (phdrs : list Elf64_Phdr)
    (m : gmap Z Z) : Z * Z * list ElfSegmentInfo * gmap Z Z :=
  match phdrs with
  | [] => (EFI_SUCCESS, vbase, [], m)
  | phdr :: rest =>
      if negb (p_type phdr =? PT_LOAD) then load_segments fw base (i + 1) Offset vbase rest m
      else
        let Segment := base ⊞ Offset in
        let '(Status, bs) := fw_read fw (p_offset phdr) (p_filesz phdr) in
        if EFI_ERROR Status then (Status, vbase, [], m)
        else
          let m := put_bytes m Segment bs in
          let m := if p_filesz phdr <? p_memsz phdr
                   then put_bytes m (Segment ⊞ p_filesz phdr)
                          (replicate (Z.to_nat (p_memsz phdr - p_filesz phdr)) 0)
                   else m in
          let vbase := if i =? 0 then p_vaddr phdr else vbase in
          let SegInfo := mkSegment Segment (p_memsz phdr) (p_vaddr phdr) (p_memsz phdr) 0 in
          let '(Status, vbase, l, m) :=
            load_segments fw base (i + 1) (Offset ⊞ p_memsz phdr) vbase rest m in
          (Status, vbase, SegInfo :: l, m)
  end.

Record Loaded := mkLoaded {
  ld_status : Z; ld_PhysicalBase : Z; ld_VirtualBase : Z; ld_TotalSize : Z;
  ld_segments : list ElfSegmentInfo; ld_mem : gmap Z Z;
}.

Definition LoadElfSegments (fw : Firmware) (phdrs : list Elf64_Phdr) (vbase : Z) (m : gmap Z Z) : Loaded :=
  let TotalSize := total_size phdrs in
  let '(Status, base) := fw_alloc_pages fw (EFI_SIZE_TO_PAGES TotalSize) in
  if EFI_ERROR Status then mkLoaded Status 0 vbase TotalSize [] m
  else
    let '(Status, vbase, l, m) := load_segments fw base 0 0 vbase phdrs m in
    mkLoaded Status base vbase TotalSize l m.

Fixpoint phdr_list (buf : list Z) (i n : nat) : outcome (list Elf64_Phdr) :=
  match n with
  | O => Done []
  | S n =>
      bs ← struct_at buf sizeof_Phdr i;
      rest ← phdr_list buf (S i) n;
      Done (parse_phdr bs :: rest)
  end.

(** [LoadElfFile] after the file is open: the status, the entry point and what was
    loaded. *)
Definition LoadElfFile (fw : Firmware) (m : gmap Z Z)
  : outcome (Z * Z * option Loaded * list ElfSectionInfo) :=
  let '(Status, h) := ReadElfHeader fw in
  if EFI_ERROR Status then Done (Status, 0, None, [])
  else
    let '(Status, buf) := ReadProgramHeaders fw h in
    if EFI_ERROR Status then Done (Status, 0, None, [])
    else
      r ← LoadElfSections fw h;
      let '(Status, sections) := r in
      if EFI_ERROR Status then Done (Status, 0, None, sections)
      else
        phdrs ← phdr_list buf 0 (Z.to_nat (e_phnum h));
        let ld := LoadElfSegments fw phdrs 0 m in
        if EFI_ERROR (ld_status ld) then Done (ld_status ld, 0, Some ld, sections)
        else Done (EFI_SUCCESS, e_entry h, Some ld, sections).

(** [GetTotalSystemMemory]: the page counts of the memory map. *)
Definition GetTotalSystemMemory (pageCounts : list Z) : Z :=
  foldl (fun TotalMemory n => TotalMemory ⊞ (n ⊠ PAGE_SIZE)) 0 pageCounts.

(** ** Loading the segments *)
Definition loadable (phdrs : list Elf64_Phdr) : list Elf64_Phdr :=
  filter (fun p => p_type p = PT_LOAD) phdrs.

(** The bytes of a segment in memory: the file's, then zeros. *)
Definition image (fw : Firmware) (p : Elf64_Phdr) : list Z :=
  snd (fw_read fw (p_offset p) (p_filesz p)) ++ replicate (Z.to_nat (p_memsz p - p_filesz p)) 0.

Fixpoint sum_memsz (l : list Elf64_Phdr) : Z :=
  match l with [] => 0 | p :: l => p_memsz p + sum_memsz l end.

(** The segments one after the other from [a]. *)
Fixpoint placed (a : Z) (l : list Elf64_Phdr) : list ElfSegmentInfo :=
  match l with
  | [] => []
  | p :: l => mkSegment a (p_memsz p) (p_vaddr p) (p_memsz p) 0 :: placed (a + p_memsz p) l
  end.

(** The firmware reads the file bytes of every loadable segment. *)
Definition readable (fw : Firmware) (p : Elf64_Phdr) : Prop :=
  fst (fw_read fw (p_offset p) (p_filesz p)) = EFI_SUCCESS /\
  Z.of_nat (length (snd (fw_read fw (p_offset p) (p_filesz p)))) = p_filesz p /\
  p_filesz p <= p_memsz p.

Lemma loadable_cons p l : loadable (p :: l) =
  if p_type p =? PT_LOAD then p :: loadable l else loadable l.
Proof. unfold loadable. rewrite filter_cons. destruct (Z.eqb_spec (p_type p) PT_LOAD); by case_decide. Qed.

Lemma sum_memsz_nonneg fw l : Forall (readable fw) l -> 0 <= sum_memsz l.
Proof. induction 1 as [|p l (_ & H1 & H2) _ IH]; simpl; lia. Qed.

Lemma total_size_sum fw phdrs : Forall (readable fw) (loadable phdrs) ->
  sum_memsz (loadable phdrs) < 0x10000000000000000 ->
  total_size phdrs = sum_memsz (loadable phdrs).
Proof.
  induction phdrs as [|p l IH]; [done|]. rewrite loadable_cons. cbn [total_size].
  destruct (p_type p =? PT_LOAD).
  - rewrite Forall_cons. intros [(_ & H1 & H2) H3] Hs. cbn [sum_memsz] in *.
    pose proof (sum_memsz_nonneg _ _ H3). rewrite IH by (done || lia).
    apply u64_small. unfold is_u64. lia.
  - intros H1 Hs. pose proof (sum_memsz_nonneg _ _ H1). rewrite IH by done. apply u64_small. unfold is_u64. lia.
Qed.

Lemma image_length fw p : readable fw p -> Z.of_nat (length (image fw p)) = p_memsz p.
Proof. intros (_ & H1 & H2). unfold image. rewrite length_app, length_replicate. lia. Qed.

(** One segment: the read and the clearing are one block write of its image. *)
Lemma segment_write fw p m a : readable fw p -> 0 <= a -> a + p_memsz p < 0x10000000000000000 ->
  (if p_filesz p <? p_memsz p
   then put_bytes (put_bytes m a (snd (fw_read fw (p_offset p) (p_filesz p)))) (a ⊞ p_filesz p)
          (replicate (Z.to_nat (p_memsz p - p_filesz p)) 0)
   else put_bytes m a (snd (fw_read fw (p_offset p) (p_filesz p)))) = put_bytes m a (image fw p).
Proof.
  intros (_ & H1 & H2) Ha Htop. unfold image. rewrite put_bytes_app, H1.
  destruct (Z.ltb_spec (p_filesz p) (p_memsz p)).
  - f_equal. apply u64_small. unfold is_u64. lia.
  - by replace (Z.to_nat (p_memsz p - p_filesz p)) with 0%nat by lia.
Qed.

Lemma load_segments_ok fw base phdrs : forall i Offset vbase m,
  0 <= base -> 0 <= Offset -> Forall (readable fw) (loadable phdrs) ->
  base + Offset + sum_memsz (loadable phdrs) < 0x10000000000000000 ->
  exists vbase',
    load_segments fw base i Offset vbase phdrs m =
    (EFI_SUCCESS, vbase', placed (base + Offset) (loadable phdrs),
     put_bytes m (base + Offset) (mjoin (image fw <$> loadable phdrs))).
Proof.
  induction phdrs as [|p l IH]; intros i Offset vbase m Hb Ho Hr Htop; [by exists vbase|].
  rewrite loadable_cons in *. cbn [load_segments]. destruct (p_type p =? PT_LOAD); [|by apply IH].
  cbn [negb sum_memsz] in *. rewrite Forall_cons in Hr. destruct Hr as [Hp Hr].
  pose proof (sum_memsz_nonneg _ _ Hr). pose proof Hp as (Hs & H1 & H2).
  replace (base ⊞ Offset) with (base + Offset) by (symmetry; apply u64_small; unfold is_u64; lia).
  replace (Offset ⊞ p_memsz p) with (Offset + p_memsz p) by (symmetry; apply u64_small; unfold is_u64; lia).
  pose proof (segment_write fw p m (base + Offset) Hp ltac:(lia) ltac:(lia)) as W.
  destruct (fw_read fw (p_offset p) (p_filesz p)) as [st bs] eqn:E. simpl in Hs. subst st.
  change (EFI_ERROR EFI_SUCCESS) with false. cbv iota zeta. cbn [snd] in W. rewrite W.
  destruct (IH (i + 1) (Offset + p_memsz p) (if i =? 0 then p_vaddr p else vbase)
    (put_bytes m (base + Offset) (image fw p))) as [vb ->]; [done|lia|done|lia|].
  exists vb. replace (base + (Offset + p_memsz p)) with (base + Offset + p_memsz p) by lia.
  cbn [placed fmap list_fmap mjoin list_join].
  rewrite put_bytes_app, (image_length _ _ Hp). done.
Qed.

(** C37 (functional): when the firmware serves the reads and the pages,
    [LoadElfSegments] succeeds; the loadable segments are recorded in order, one
    behind the other in the allocated block, which is big enough for them, and the
    block holds for each its file bytes followed by zeros up to its memory size;
    nothing else in memory changes. *)
Theorem LoadElfSegments_image fw phdrs base vbase m :
  let l := loadable phdrs in
  let pages := EFI_SIZE_TO_PAGES (sum_memsz l) in
  fw_alloc_pages fw pages = (EFI_SUCCESS, base) -> 0 <= base ->
  Forall (readable fw) l -> base + sum_memsz l < 0x10000000000000000 ->
  let ld := LoadElfSegments fw phdrs vbase m in
  ld_status ld = EFI_SUCCESS /\ ld_PhysicalBase ld = base /\ ld_TotalSize ld = sum_memsz l /\
  sum_memsz l <= PAGE_SIZE * pages /\
  ld_segments ld = placed base l /\
  ld_mem ld = put_bytes m base (mjoin (image fw <$> l)).
Proof.
  intros l pages Ha Hb Hr Htop ld. pose proof (sum_memsz_nonneg _ _ Hr) as Hnn.
  unfold ld, LoadElfSegments. rewrite (total_size_sum fw) by (done || (fold l; lia)). fold l pages. rewrite Ha.
  destruct (load_segments_ok fw base phdrs 0 0 vbase m) as [vb E]; [done|lia|done|fold l; lia|].
  fold l in E. rewrite Z.add_0_r in E. change (EFI_ERROR EFI_SUCCESS) with false. cbv iota.
  rewrite E. simpl. split_and!; try done. unfold pages, EFI_SIZE_TO_PAGES.
  change 0xfff with (Z.ones 12). rewrite Z.land_ones, Z.shiftr_div_pow2 by lia. change (2 ^ 12) with 4096.
  unfold PAGE_SIZE. destruct (Z.eqb_spec (sum_memsz l mod 4096) 0); wordlia.
Qed.

(** ** Privileged sections *)
Lemma strncmp_zero s1 s2 n : (n < length s2)%nat -> (n <= length s1)%nat ->
  Forall (fun b => b <> 0) (take n s2) ->
  exists r, strncmp s1 s2 n = Done r /\ (r = 0 <-> take n s1 = take n s2).
Proof.
  intros H2 H1 Hnz. unfold strncmp.
  apply (loop_total (fun i => (i <= n)%nat /\ take i s1 = take i s2) (fun i => (n - i)%nat)
    (fun r => r = 0 <-> take n s1 = take n s2)); [|split; [lia|done]|lia].
  intros i [Hi E]. destruct (Nat.ltb_spec i n) as [Hlt|Hge].
  - destruct (lookup_lt_is_Some_2 s1 i) as [x Ex]; [lia|]. destruct (lookup_lt_is_Some_2 s2 i) as [y Ey]; [lia|].
    rewrite Ex, Ey. cbn [need mbind outcome_bind].
    assert (y <> 0) as Hy by (apply (Forall_lookup_1 _ _ i y Hnz); by rewrite lookup_take_lt).
    destruct (Z.eqb_spec x y) as [->|Hne]; cbn [negb].
    + destruct (Z.eqb_spec y 0); [done|]. left. exists (S i). split; [done|]. split; [|lia].
      split; [lia|]. by rewrite (take_S_r _ _ _ Ex), (take_S_r _ _ _ Ey), E.
    + right. eexists. split; [done|]. split; [lia|]. intros En. exfalso.
      assert (take n s1 !! i = take n s2 !! i) as F by (by rewrite En).
      rewrite !lookup_take_lt in F by lia. congruence.
  - right. exists 0. split; [done|]. replace n with i by lia. done.
Qed.

(** A section is marked as privileged exactly when its name begins
    with ".ktext", ".kdata" or ".krodata", the sections that hold the code and data
    the kernel keeps from user mode. *)
Theorem privileged_sections shdr strings info :
  let name := drop (Z.to_nat (sh_name shdr)) strings in
  (8 <= length name)%nat ->
  section_info shdr strings = Done info ->
  sec_VirtualBase info = sh_addr shdr /\ sec_VirtualSize info = sh_size shdr /\
  (sec_Privileged info = 1 <->
     take 6 name = take 6 name_ktext \/ take 6 name = take 6 name_kdata \/
     take 8 name = take 8 name_krodata).
Proof.
  intros name Hl. unfold section_info. fold name.
  destruct (strncmp_zero name name_ktext 6) as (a & -> & Ha);
    [simpl; lia|lia|repeat constructor; lia|].
  destruct (strncmp_zero name name_kdata 6) as (b & Eb & Hb);
    [simpl; lia|lia|repeat constructor; lia|].
  destruct (strncmp_zero name name_krodata 8) as (c & Ec & Hc);
    [simpl; lia|lia|repeat constructor; lia|].
  cbn [mbind outcome_bind].
  destruct (Z.eqb_spec a 0) as [Ea|Ea]; [cbn [mbind outcome_bind]|rewrite Eb; cbn [mbind outcome_bind];
    destruct (Z.eqb_spec b 0) as [Eb0|Eb0]; [|rewrite Ec]]; cbn [mbind outcome_bind Z.eqb];
    intros [= <-]; cbn [sec_VirtualBase sec_VirtualSize sec_Privileged]; (split; [done|split; [done|]]).
  - naive_solver.
  - naive_solver.
  - destruct (Z.eqb_spec c 0); naive_solver.
Qed.

(** ** Witnesses *)
Definition demo_fw : Firmware := {|
  fw_set_position := fun _ => EFI_SUCCESS;
  fw_read := fun _ n => (EFI_SUCCESS, replicate (Z.to_nat n) 0x90);
  fw_alloc_pool := fun _ => 0x1000;
  fw_alloc_pages := fun _ => (EFI_SUCCESS, 0x200000);
|}.
Definition demo_phdrs : list Elf64_Phdr :=
  [mkPhdr 1 0x1000 0xffffffff80000000 0x10 0x20; mkPhdr 4 0 0 0 0; mkPhdr 1 0x2000 0xffffffff80000020 0x8 0x8].

Lemma LoadElfSegments_image_witness :
  ld_segments (LoadElfSegments demo_fw demo_phdrs 0 ∅) = placed 0x200000 (loadable demo_phdrs).
Proof.
  apply (LoadElfSegments_image demo_fw demo_phdrs 0x200000 0 ∅); [done|lia| |by compute].
  apply Forall_cons_2; [split; [done|]; split; [done|]; simpl; lia|].
  apply Forall_cons_2; [split; [done|]; split; [done|]; simpl; lia|constructor].
Defined.

(** The string table "\0.ktext.hot\0". *)
Definition demo_strings : list Z :=
  [0; 0x2e; 0x6b; 0x74; 0x65; 0x78; 0x74; 0x2e; 0x68; 0x6f; 0x74; 0].

Lemma privileged_sections_witness :
  (exists info, section_info (mkShdr 1 0 0 0 0) demo_strings = Done info /\ sec_Privileged info = 1).
Proof.
  destruct (section_info (mkShdr 1 0 0 0 0) demo_strings) as [info| |] eqn:E; [|by vm_compute in E..].
  exists info. split; [done|].
  apply (privileged_sections (mkShdr 1 0 0 0 0) demo_strings info); [simpl; lia|exact E|].
  left. reflexivity.
Defined.
