(* ===== verification/Bootloader.v ===== *)
(** * The bootloader's main program (bootloader/bootloader.c, file_loader.c, font_loader.c,
    gop_setup.c, memory_map.c)

    [efi_main] from its start to the jump into the kernel: the kernel file is loaded
    (ElfLoader.v), the font, the frame buffer, the ACPI root pointer and the memory map are
    collected, the page tables are built (BootPaging.v), the boot services are left and the
    parameters of the kernel are filled in.

    The firmware is the class [BootServices] on a type of its states; [BootLaws] states
    what the UEFI specification promises of the memory map and of [ExitBootServices].
    Memory has two parts that do not overlap, since every page comes from the firmware once:
    the bytes of the kernel image and the words of the page tables.  Console output is left
    out. *)
From Stdlib Require Import ZArith Lia.
From stdpp Require Import base tactics numbers option list gmap.
From S2P Require Import Prelude Memory PageFrame PageTable BootPaging MemInit ElfLoader.

(** ** Data *)
Record gop_mode := mkGop {
  FrameBufferBase : Z; FrameBufferSize : Z;
  HorizontalResolution : Z; VerticalResolution : Z; PixelsPerScanLine : Z }.

(** An entry of the configuration table and the bytes its pointer designates. *)
Record EFI_CONFIGURATION_TABLE := mkConfig { VendorGuid : Z; VendorTable : Z; table_bytes : list Z }.

(** The variables [MemoryMapSize], [MemoryMapKey] and [DescriptorSize], which the firmware
    reads and writes. *)
Record mm_vars := mkVars { mm_size : Z; mm_key : Z; mm_desc : Z }.

(** The font in its three pool allocations. *)
Record PSF1_Font := mkPsf1 {
  font_addr : Z; font_Header : list Z; font_GlyphBuffer : list Z }.

Record KernelEntryParams := mkParams {
  pa_KernelElfSegments : Z;
  pa_fbBase : Z; pa_fbSize : Z; pa_fbWidth : Z; pa_fbHeight : Z; pa_fbPixelsPerScanline : Z;
  pa_TextRenderingFont : Z;
  pa_mapBase : Z; pa_mapSize : Z; pa_mapDescriptorSize : Z; pa_mapDescriptorCount : Z;
  pa_KernelStack : Z;
  pa_RSDP : Z }.

(** A status is followed by the value the call stores; a file is given by what its protocol
    and the allocations behind it answer to the loader, and [file_used] is the state after
    those calls.  [ASSERT] is the macro of the firmware's library, which a build may compile
    out: [Done] lets the program go on. *)
Class BootServices (W : Type) := {
  ASSERT : bool -> outcome unit;
  LocateHandleBuffer : W -> W * Z * list Z;
  HandleProtocol : Z -> W -> W * Z * Z;
  OpenVolume : Z -> W -> W * Z * Z;
  Open : Z -> list Z -> W -> W * Z * option Firmware;
  file_used : Firmware -> W -> W;
  AllocatePages : Z -> W -> W * Z * Z;
  AllocatePool : Z -> W -> W * Z;
  FreePool : Z -> W -> W;
  LocateProtocol : W -> W * Z * gop_mode;
  GetMemoryMap : Z -> mm_vars -> W -> W * Z * mm_vars * list EFI_MEMORY_DESCRIPTOR;
  fw_ExitBootServices : Z -> W -> W * Z;
  ConfigurationTable : W -> list EFI_CONFIGURATION_TABLE;
  CompareGuid : Z -> Z -> Z;
  ACPI_20_TABLE_GUID : Z;
}.

Definition EFI_INVALID_PARAMETER : Z := EFIERR 2.
Definition EFI_BUFFER_TOO_SMALL : Z := EFIERR 5.
(** [EFIERR(-1)]: the error bit is or-ed into the sign-extended number. *)
Definition EFIERR_minus_1 : Z := 0xffffffffffffffff.
Definition PSF1_MAGIC0 : Z := 0x36.
Definition PSF1_MAGIC1 : Z := 0x04.
Definition sizeof_PSF1_Hdr : Z := 4.
Definition sizeof_PSF1_Font : Z := 16.

(** "RSD PTR ", "kernel.elf" and "zap-light16.psf" *)
Definition rsd_ptr : list Z := [0x52; 0x53; 0x44; 0x20; 0x50; 0x54; 0x52; 0x20; 0].
Definition kernel_elf : list Z := [0x6b; 0x65; 0x72; 0x6e; 0x65; 0x6c; 0x2e; 0x65; 0x6c; 0x66].
Definition zap_light : list Z :=
  [0x7a; 0x61; 0x70; 0x2d; 0x6c; 0x69; 0x67; 0x68; 0x74; 0x31; 0x36; 0x2e; 0x70; 0x73; 0x66].

(** [n] zero bytes with [bs] read over their beginning. *)
Definition over_zeros (n : Z) (bs : list Z) : list Z :=
  take (Z.to_nat n) (bs ++ replicate (Z.to_nat n) 0).

Section boot.
Context {W} `{BootServices W} `{FrameSource W}.

(** ** Files *)

(** [None] is the directory pointer that was not written. *)
Definition OpenRootDirectory (w : W) : outcome (W * Z * option Z) :=
  let '(w, Status, Handles) := LocateHandleBuffer w in
  if EFI_ERROR Status then Done (w, Status, None)
  else
    h ← need (Handles !! 0%nat);
    let '(w, Status, FileSystem) := HandleProtocol h w in
    if EFI_ERROR Status then Done (w, Status, None)
    else
      let '(w, Status, RootDir) := OpenVolume FileSystem w in
      if EFI_ERROR Status then Done (w, Status, None)
      else Done (w, EFI_SUCCESS, Some RootDir).

Definition OpenFile (RootDir : Z) (FileName : list Z) (w : W) : W * Z * option Firmware :=
  let '(w, Status, File) := Open RootDir FileName w in
  if EFI_ERROR Status then (w, Status, File) else (w, EFI_SUCCESS, File).

(** The status, and on success the entry point, the segments and the sections. *)
Definition LoadKernel (w : W) (m : gmap Z Z)
  : outcome (W * Z * option (Z * Loaded * list ElfSectionInfo)) :=
  '(w, Status, RootDir) ← OpenRootDirectory w;
  if EFI_ERROR Status then Done (w, Status, None)
  else
    RootDir ← need RootDir;
    let '(w, Status, File) := OpenFile RootDir kernel_elf w in
    if EFI_ERROR Status then Done (w, Status, None)
    else
      file ← need File;
      '(Status, KernelEntry, ld, sections) ← LoadElfFile file m;
      let w := file_used file w in
      if EFI_ERROR Status then Done (w, Status, None)
      else
        ld ← need ld;
        Done (w, EFI_SUCCESS, Some (KernelEntry, ld, sections)).

(** The statuses of the two opens and of the reads are not tested, as in the source; a
    root directory that was not written, or a pool that is NULL, is a fault where it is
    used. *)
Definition LoadPSF1Font (Path : list Z) (w : W) : outcome (W * option PSF1_Font) :=
  '(w, _, RootDir) ← OpenRootDirectory w;
  RootDir ← need RootDir;
  let '(w, _, FontFile) := OpenFile RootDir Path w in
  match FontFile with
  | None => Done (w, None)
  | Some file =>
      let '(w, FontHeader) := AllocatePool sizeof_PSF1_Hdr w in
      if FontHeader =? 0 then Fault
      else
        let hdr := over_zeros sizeof_PSF1_Hdr (snd (fw_read file 0 sizeof_PSF1_Hdr)) in
        magic0 ← need (hdr !! 0%nat);
        magic1 ← need (hdr !! 1%nat);
        mode ← need (hdr !! 2%nat);
        CharSize ← need (hdr !! 3%nat);
        if negb (magic0 =? PSF1_MAGIC0) || negb (magic1 =? PSF1_MAGIC1)
        then Done (file_used file w, None)
        else
          let GlyphBufferSize := if mode =? 1 then CharSize * 512 else CharSize * 256 in
          let '(w, GlyphBuffer) := AllocatePool GlyphBufferSize w in
          let glyphs := over_zeros GlyphBufferSize
                          (snd (fw_read file sizeof_PSF1_Hdr GlyphBufferSize)) in
          let '(w, result) := AllocatePool sizeof_PSF1_Font w in
          if result =? 0 then Fault
          else Done (file_used file w, Some (mkPsf1 result hdr glyphs))
  end.

Definition RetrieveGraphicsOutputProtocol (w : W) : W * Z * gop_mode :=
  let '(w, Status, gop) := LocateProtocol w in
  if EFI_ERROR Status then (w, Status, gop) else (w, EFI_SUCCESS, gop).

(** The loop over the configuration table; 0 is NULL. *)
Fixpoint find_rsdp (tables : list EFI_CONFIGURATION_TABLE) : outcome Z :=
  match tables with
  | [] => Done 0
  | t :: rest =>
      if CompareGuid (VendorGuid t) ACPI_20_TABLE_GUID =? 0 then
        c ← strncmp rsd_ptr (table_bytes t) 8;
        if c =? 0 then Done (VendorTable t) else find_rsdp rest
      else find_rsdp rest
  end.

(** ** The memory map

    The pool pointer, the descriptors and the total memory, [None] for NULL.  The division
    by the descriptor size and the accesses behind the buffer can fault. *)
Definition ReadMemoryMap (v : mm_vars) (w : W)
  : outcome (W * mm_vars * option (Z * list EFI_MEMORY_DESCRIPTOR * Z)) :=
  let '(w, Status, v, _) := GetMemoryMap 0 v w in
  _ ← ASSERT (Status =? EFI_BUFFER_TOO_SMALL);
  let '(w, EfiMemoryMap) := AllocatePool (mm_size v ⊞ (2 ⊠ mm_desc v)) w in
  _ ← ASSERT (negb (EfiMemoryMap =? 0));
  let '(w, Status, v, descs) := GetMemoryMap EfiMemoryMap v w in
  if EFI_ERROR Status then Done (FreePool EfiMemoryMap w, v, None)
  else if mm_desc v =? 0 then Fault
  else
    let DescriptorCount := mm_size v / mm_desc v in
    if (Z.to_nat DescriptorCount <=? length descs)%nat then
      Done (w, v, Some (EfiMemoryMap, descs,
        GetTotalSystemMemory (d_pageCount <$> take (Z.to_nat DescriptorCount) descs)))
    else Fault.

(** ** efi_main *)

(** What the kernel finds when it is entered. *)
Record handover := mkHandover {
  ho_KernelEntry : Z; ho_params : KernelEntryParams; ho_cr3 : Z;
  ho_mem : gmap Z Z; ho_tables : Z -> Z;
  ho_font : PSF1_Font; ho_map : list EFI_MEMORY_DESCRIPTOR }.

Inductive boot_end :=
  | Returned (Status : Z) (w : W)
  | Entered (h : handover) (w : W).

Definition kernel_params (segments off : Z) (gop : gop_mode) (font : PSF1_Font)
    (map : Z) (v : mm_vars) (stack rsdp : Z) : KernelEntryParams :=
  mkParams (segments ⊞ off)
    (FrameBufferBase gop) (FrameBufferSize gop) (u32 (HorizontalResolution gop))
    (u32 (VerticalResolution gop)) (u32 (PixelsPerScanLine gop))
    (font_addr font ⊞ off)
    (map ⊞ off) (mm_size v) (mm_desc v) (mm_size v / mm_desc v)
    (stack ⊞ off) (rsdp ⊞ off).

Definition no_segment : ElfSegmentInfo := mkSegment 0 0 0 0 0.

(** From the page tables on: [Status] is still the one of the graphics protocol, which is
    what the test after the second [ReadMemoryMap] looks at. *)
Definition finish_boot (segments off entry : Z) (ld : Loaded) (sections : list ElfSectionInfo)
    (gop : gop_mode) (font : PSF1_Font) (stack rsdp Status : Z)
    (v : mm_vars) (TotalSystemMemory : Z) (w : W) (tables : Z -> Z) : outcome boot_end :=
  '(w, tables, PML4) ← CreateIdentityMappedPageTable TotalSystemMemory
                         (FrameBufferBase gop) (FrameBufferSize gop) w tables;
  if PML4 =? 0 then Done (Returned EFIERR_minus_1 w)
  else
    '(w, tables) ← CreateHigherHalfMapping PML4 (default no_segment (head (ld_segments ld)))
                     sections TotalSystemMemory w tables;
    '(w, v, r) ← ReadMemoryMap v w;
    let '(map, descs) := match r with Some (map, descs, _) => (map, descs) | None => (0, []) end in
    if EFI_ERROR Status then Done (Returned (EFIERR 1) w)
    else
      let '(w, Status) := fw_ExitBootServices (mm_key v) w in
      if EFI_ERROR Status then Done (Returned Status w)
      else if mm_desc v =? 0 then Fault
      else Done (Entered (mkHandover entry
                   (kernel_params segments off gop font map v stack rsdp)
                   PML4 (ld_mem ld) tables font descs) w).

(** [segments] is the address of [KernelElfSegments] and [v] the uninitialised variables of
    the memory map. *)
Definition efi_main (segments : Z) (v : mm_vars) (w : W) (m : gmap Z Z) (tables : Z -> Z)
  : outcome boot_end :=
  '(w, Status, r) ← LoadKernel w m;
  if EFI_ERROR Status then Done (Returned Status w)
  else
    '(KernelEntry, ld, sections) ← need r;
    let KernelAddressSpaceOffset := ld_VirtualBase ld ⊟ ld_PhysicalBase ld in
    let '(w, _, KernelStack) := AllocatePages 1 w in
    let '(w, Status, gop) := RetrieveGraphicsOutputProtocol w in
    if EFI_ERROR Status then Done (Returned Status w)
    else
      '(w, font) ← LoadPSF1Font zap_light w;
      match font with
      | None => Done (Returned EFIERR_minus_1 w)
      | Some ZapLightFont =>
          Rsdp ← find_rsdp (ConfigurationTable w);
          '(w, v, r) ← ReadMemoryMap v w;
          match r with
          | None => Done (Returned EFI_SUCCESS w)
          | Some (_, _, TotalSystemMemory) =>
              finish_boot segments KernelAddressSpaceOffset KernelEntry ld sections gop
                ZapLightFont KernelStack Rsdp Status v TotalSystemMemory w tables
          end
      end.
End boot.
Arguments boot_end W : clear implicits.

(** ** What the firmware promises

    An assertion that holds does nothing.  While the boot services run, [GetMemoryMap]
    reports the size it needs and the size of a descriptor when the buffer is too small,
    refuses a null buffer otherwise, and else stores the map and its key; what it leaves in
    the other variables when it fails is not said.  It does not change the map.
    [ExitBootServices] accepts exactly the key of the current map.  No
    other service ends the boot services. *)
Class BootLaws (W : Type) `{BootServices W} `{FrameSource W} := {
  memory_map : W -> list EFI_MEMORY_DESCRIPTOR;
  map_key : W -> Z;
  descriptor_size : Z;
  exited : W -> bool;
  descriptor_size_pos : 0 < descriptor_size;
  ASSERT_law : ASSERT true = Done tt;
  GetMemoryMap_law buf v w : exited w = false ->
    let needed := descriptor_size * Z.of_nat (length (memory_map w)) in
    exists Status v' descs, GetMemoryMap buf v w = (w, Status, v', descs) /\
      (mm_size v < needed ->
         Status = EFI_BUFFER_TOO_SMALL /\ mm_size v' = needed /\ mm_desc v' = descriptor_size) /\
      (needed <= mm_size v -> buf = 0 -> Status = EFI_INVALID_PARAMETER) /\
      (needed <= mm_size v -> buf <> 0 ->
         Status = EFI_SUCCESS /\ v' = mkVars needed (map_key w) descriptor_size /\ descs = memory_map w);
  ExitBootServices_law key w : exited w = false ->
    exists w', fw_ExitBootServices key w =
                 (w', if key =? map_key w then EFI_SUCCESS else EFI_INVALID_PARAMETER) /\
               exited w' = (key =? map_key w);
  kept_LocateHandleBuffer w : exited (LocateHandleBuffer w).1.1 = exited w;
  kept_HandleProtocol h w : exited (HandleProtocol h w).1.1 = exited w;
  kept_OpenVolume f w : exited (OpenVolume f w).1.1 = exited w;
  kept_Open d n w : exited (Open d n w).1.1 = exited w;
  kept_file f w : exited (file_used f w) = exited w;
  kept_AllocatePages n w : exited (AllocatePages n w).1.1 = exited w;
  kept_AllocatePool n w : exited (AllocatePool n w).1 = exited w;
  kept_FreePool b w : exited (FreePool b w) = exited w;
  kept_LocateProtocol w : exited (LocateProtocol w).1.1 = exited w;
  kept_frames w m w' m' f : fs_request w m = Done (w', m', f) -> exited w' = exited w;
}.

(** The bytes a memory map of this many descriptors takes. *)
Definition map_bytes {W} `{BootLaws W} (w : W) : Z :=
  descriptor_size * Z.of_nat (length (memory_map w)).

Ltac bind_done H :=
  match type of H with
  | context[mbind _ ?x] => destruct x as [?| |] eqn:?; cbn [mbind outcome_bind] in H; try done
  end.

Section laws.
Context {W} {HB : BootServices W} {HF : FrameSource W} {HL : BootLaws W}.

(** ** Reading the memory map *)
Lemma GetMemoryMap_kept buf v (w : W) : exited w = false -> (GetMemoryMap buf v w).1.1.1 = w.
Proof. intros Hw. by destruct (GetMemoryMap_law buf v w Hw) as (? & ? & ? & -> & _). Qed.

(** The end of [ReadMemoryMap], with the buffer and the variables of the second call. *)
Lemma second_call buf v (w : W) : exited w = false -> buf <> 0 -> mm_desc v = descriptor_size ->
  let r := let '(w', Status, v', descs) := GetMemoryMap buf v w in
    if EFI_ERROR Status then Done (FreePool buf w', v', None)
    else if mm_desc v' =? 0 then Fault
    else if (Z.to_nat (mm_size v' / mm_desc v') <=? length descs)%nat
    then Done (w', v', Some (buf, descs,
           GetTotalSystemMemory (d_pageCount <$> take (Z.to_nat (mm_size v' / mm_desc v')) descs)))
    else Fault in
  (mm_size v < map_bytes w -> exists key, r = Done (FreePool buf w, mkVars (map_bytes w) key descriptor_size, None)) /\
  (map_bytes w <= mm_size v -> r = Done (w, mkVars (map_bytes w) (map_key w) descriptor_size,
     Some (buf, memory_map w, GetTotalSystemMemory (d_pageCount <$> memory_map w)))).
Proof.
  intros Hw Hb Hv r. unfold r. clear r. pose proof descriptor_size_pos as Hd.
  destruct (GetMemoryMap_law buf v w Hw) as (St & v' & descs & -> & Hsmall & _ & Hok). fold (map_bytes w) in *.
  split; intros Hs.
  - destruct (Hsmall Hs) as (-> & Es & Ed). change (EFI_ERROR EFI_BUFFER_TOO_SMALL) with true. cbv iota.
    exists (mm_key v'). destruct v' as [z k e]. cbn in *. by subst.
  - destruct (Hok Hs Hb) as (-> & -> & ->). change (EFI_ERROR EFI_SUCCESS) with false. cbv iota.
    cbn [mm_desc mm_size]. rewrite (proj2 (Z.eqb_neq descriptor_size 0)) by lia.
    assert (Z.to_nat (map_bytes w / descriptor_size) = length (memory_map w)) as ->
      by (unfold map_bytes; rewrite Z.mul_comm, Z.div_mul, Nat2Z.id by lia; done).
    by rewrite Nat.leb_refl, firstn_all.
Qed.

Lemma ReadMemoryMap_run v (w w1 : W) buf : exited w = false -> mm_size v < map_bytes w ->
  AllocatePool (map_bytes w ⊞ (2 ⊠ descriptor_size)) w = (w1, buf) -> buf <> 0 ->
  (map_bytes w < map_bytes w1 -> exists key,
     ReadMemoryMap v w = Done (FreePool buf w1, mkVars (map_bytes w1) key descriptor_size, None)) /\
  (map_bytes w1 <= map_bytes w ->
     ReadMemoryMap v w = Done (w1, mkVars (map_bytes w1) (map_key w1) descriptor_size,
       Some (buf, memory_map w1, GetTotalSystemMemory (d_pageCount <$> memory_map w1)))).
Proof.
  intros Hw Hs Ha Hb. unfold ReadMemoryMap.
  destruct (GetMemoryMap_law 0 v w Hw) as (St & v' & descs & -> & Hsmall & _). fold (map_bytes w) in *.
  destruct (Hsmall Hs) as (-> & Es & Ed). rewrite Z.eqb_refl, ASSERT_law. cbn [mbind outcome_bind].
  rewrite Es, Ed, Ha, (proj2 (Z.eqb_neq buf 0)) by done. cbn [negb]. rewrite ASSERT_law. cbn [mbind outcome_bind].
  pose proof (kept_AllocatePool (map_bytes w ⊞ (2 ⊠ descriptor_size)) w) as Hk. rewrite Ha, Hw in Hk.
  destruct (second_call buf v' w1 Hk Hb Ed) as [H1 H2]. rewrite Es in H1, H2. split; [exact H1|exact H2].
Qed.

(** A call that finds the size variable large enough is refused: it fails the assertion. *)
Lemma ReadMemoryMap_asserts v (w : W) : exited w = false -> map_bytes w <= mm_size v -> ASSERT false = Fault ->
  ReadMemoryMap v w = Fault.
Proof.
  intros Hw Hs Has. unfold ReadMemoryMap.
  destruct (GetMemoryMap_law 0 v w Hw) as (St & v' & descs & -> & _ & Href & _).
  rewrite (Href Hs eq_refl). change (EFI_INVALID_PARAMETER =? EFI_BUFFER_TOO_SMALL) with false. by rewrite Has.
Qed.

(** The variables after a call that has returned a map. *)
Lemma ReadMemoryMap_vars v (w w' : W) v' r : exited w = false ->
  ReadMemoryMap v w = Done (w', v', Some r) -> v' = mkVars (map_bytes w') (map_key w') descriptor_size.
Proof.
  intros Hw. unfold ReadMemoryMap.
  destruct (GetMemoryMap_law 0 v w Hw) as (St & v1 & ? & -> & _). destruct (ASSERT _); cbn [mbind outcome_bind]; try done.
  pose proof (kept_AllocatePool (mm_size v1 ⊞ (2 ⊠ mm_desc v1)) w) as Hk.
  destruct (AllocatePool _ w) as [w1 buf]. cbn [fst] in Hk. rewrite Hw in Hk.
  destruct (ASSERT _); cbn [mbind outcome_bind]; try done.
  destruct (GetMemoryMap_law buf v1 w1 Hk) as (St2 & v2 & descs & -> & Hsmall & Href & Hok). fold (map_bytes w1) in *.
  destruct (Z.lt_ge_cases (mm_size v1) (map_bytes w1)) as [Hs|Hs].
  { by destruct (Hsmall Hs) as (-> & _). }
  destruct (decide (buf = 0)) as [->|Hb]; [by rewrite (Href Hs eq_refl)|].
  destruct (Hok Hs Hb) as (-> & -> & ->). change (EFI_ERROR EFI_SUCCESS) with false. cbv iota.
  repeat case_match; try done. by intros [= <- <- _].
Qed.

(** C28 (error): [ReadMemoryMap] with a size variable below what the map needs allocates
    room for two descriptors more than the map has.  When the allocation does not grow the
    map it returns the map as it is afterwards, with its key and its total; when the
    allocation adds a descriptor it returns NULL although the buffer is big enough, since
    the size variable still holds the old size: the buffer is freed, and the size variable
    now holds the size of the longer map. *)
Theorem ReadMemoryMap_result v (w w1 : W) buf : exited w = false -> mm_size v < map_bytes w ->
  AllocatePool (map_bytes w ⊞ (2 ⊠ descriptor_size)) w = (w1, buf) -> buf <> 0 ->
  (length (memory_map w1) <= length (memory_map w) ->
     ReadMemoryMap v w = Done (w1, mkVars (map_bytes w1) (map_key w1) descriptor_size,
       Some (buf, memory_map w1, GetTotalSystemMemory (d_pageCount <$> memory_map w1))))%nat /\
  (length (memory_map w1) = S (length (memory_map w)) ->
     map_bytes w1 <= map_bytes w + 2 * descriptor_size /\
     exists key, ReadMemoryMap v w = Done (FreePool buf w1, mkVars (map_bytes w1) key descriptor_size, None)).
Proof.
  intros Hw Hs Ha Hb. pose proof descriptor_size_pos as Hd.
  destruct (ReadMemoryMap_run v w w1 buf Hw Hs Ha Hb) as [R1 R2]. split; intros Hl.
  - apply R2. unfold map_bytes. nia.
  - split; [unfold map_bytes; nia|]. apply R1. unfold map_bytes. nia.
Qed.

(** ** Who is in charge of the machine

    Every part of [efi_main] before [ExitBootServices] leaves the boot services as they
    were. *)
Definition keeps {A} (state : A -> W) (w : W) (o : outcome A) : Prop :=
  forall a, o = Done a -> exited (state a) = exited w.

Lemma keeps_done {A} (state : A -> W) w a : exited (state a) = exited w -> keeps state w (Done a).
Proof. by intros Hk b [= <-]. Qed.

Lemma keeps_fault {A} (state : A -> W) w : keeps state w Fault.
Proof. done. Qed.

Lemma keeps_diverge {A} (state : A -> W) w : keeps state w Diverge.
Proof. done. Qed.

Lemma keeps_bind {A B} (sa : A -> W) (sb : B -> W) w o (f : A -> outcome B) :
  keeps sa w o -> (forall a, keeps sb (sa a) (f a)) -> keeps sb w (o ≫= f).
Proof.
  intros Ho Hf b. destruct o as [a| |]; cbn [mbind outcome_bind]; try done. intros Hb.
  rewrite (Hf a b Hb). by apply Ho.
Qed.

Lemma keeps_need {A B} (sb : B -> W) w (o : option A) (f : A -> outcome B) :
  (forall a, keeps sb w (f a)) -> keeps sb w (need o ≫= f).
Proof. intros Hf. destruct o as [a|]; cbn [mbind outcome_bind need]; [apply Hf|done]. Qed.

Lemma keeps_from {A} (state : A -> W) w w' o : exited w' = exited w -> keeps state w' o -> keeps state w o.
Proof. intros Hw Hk a Ha. rewrite <- Hw. by apply Hk. Qed.

Lemma keeps_loop {A B} (sa : A -> W) (sb : B -> W) w fuel body a :
  exited (sa a) = exited w ->
  (forall a, keeps (fun r => match r with inl a => sa a | inr b => sb b end) (sa a) (body a)) ->
  keeps sb w (loop fuel body a).
Proof.
  intros Ha Hb b.
  apply (loop_inv (fun a => exited (sa a) = exited w) (fun b => exited (sb b) = exited w)); [| |done].
  - intros x x' Hx E. by rewrite (Hb x _ E).
  - intros x r Hx E. by rewrite (Hb x _ E).
Qed.
End laws.

Lemma kept_OpenFile {W} {HB : BootServices W} {HF : FrameSource W} {HL : BootLaws W} d n (w : W) :
  exited (OpenFile d n w).1.1 = exited w.
Proof.
  unfold OpenFile. pose proof (kept_Open d n w). destruct (Open d n w) as [[? ?] ?]. by case_match.
Qed.

Lemma kept_Retrieve {W} {HB : BootServices W} {HF : FrameSource W} {HL : BootLaws W} (w : W) :
  exited (RetrieveGraphicsOutputProtocol w).1.1 = exited w.
Proof.
  unfold RetrieveGraphicsOutputProtocol. pose proof (kept_LocateProtocol w).
  destruct (LocateProtocol w) as [[? ?] ?]. by case_match.
Qed.

(** Names the pair a service returns and the fact that it keeps the boot services. *)
Ltac service :=
  match goal with
  | |- keeps _ ?w (let '(_, _) := LocateHandleBuffer ?w in _) =>
      pose proof (kept_LocateHandleBuffer w); destruct (LocateHandleBuffer w) as [[? ?] ?]
  | |- keeps _ ?w (let '(_, _) := HandleProtocol ?h ?w in _) =>
      pose proof (kept_HandleProtocol h w); destruct (HandleProtocol h w) as [[? ?] ?]
  | |- keeps _ ?w (let '(_, _) := OpenVolume ?h ?w in _) =>
      pose proof (kept_OpenVolume h w); destruct (OpenVolume h w) as [[? ?] ?]
  | |- keeps _ ?w (let '(_, _) := OpenFile ?d ?n ?w in _) =>
      pose proof (kept_OpenFile d n w); destruct (OpenFile d n w) as [[? ?] ?]
  | |- keeps _ ?w (let '(_, _) := AllocatePages ?n ?w in _) =>
      pose proof (kept_AllocatePages n w); destruct (AllocatePages n w) as [[? ?] ?]
  | |- keeps _ ?w (let '(_, _) := AllocatePool ?n ?w in _) =>
      pose proof (kept_AllocatePool n w); destruct (AllocatePool n w) as [? ?]
  | |- keeps _ ?w (let '(_, _) := RetrieveGraphicsOutputProtocol ?w in _) =>
      pose proof (kept_Retrieve w); destruct (RetrieveGraphicsOutputProtocol w) as [[? ?] ?]
  end; cbn [fst snd] in *;
  match goal with Hk : exited ?w' = exited ?w |- keeps _ ?w _ => apply (keeps_from _ w w'); [exact Hk|clear Hk] end.

Ltac keeps_step :=
  first
  [ apply keeps_fault | apply keeps_diverge
  | apply keeps_done; cbn; rewrite ?kept_file, ?kept_FreePool; done
  | apply keeps_need; intros
  | service
  | match goal with |- keeps _ _ (match ?x with _ => _ end) => destruct x end ].

Section order.
Context {W} {HB : BootServices W} {HF : FrameSource W} {HL : BootLaws W}.

Lemma OpenRootDirectory_keeps (w : W) : keeps (fun r => r.1.1) w (OpenRootDirectory w).
Proof. unfold OpenRootDirectory. repeat keeps_step. Qed.

Lemma LoadKernel_keeps (w : W) m : keeps (fun r => r.1.1) w (LoadKernel w m).
Proof.
  unfold LoadKernel. eapply keeps_bind; [apply OpenRootDirectory_keeps|].
  intros [[w1 st] root]. cbn [fst]. repeat keeps_step.
  all: eapply (keeps_bind (fun _ => _)); [by intros x _|intros [[[? ?] ?] ?]; repeat keeps_step].
Qed.

Lemma LoadPSF1Font_keeps path (w : W) : keeps fst w (LoadPSF1Font path w).
Proof.
  unfold LoadPSF1Font. eapply keeps_bind; [apply OpenRootDirectory_keeps|].
  intros [[w1 st] root]. cbn [fst]. repeat keeps_step.
Qed.

Lemma ReadMemoryMap_keeps v (w : W) : exited w = false -> keeps (fun r => r.1.1) w (ReadMemoryMap v w).
Proof.
  intros Hw. unfold ReadMemoryMap.
  pose proof (GetMemoryMap_kept 0 v w Hw) as E. destruct (GetMemoryMap 0 v w) as [[[? ?] v1] ?].
  cbn [fst] in E. subst. destruct (ASSERT _); cbn [mbind outcome_bind]; [|repeat keeps_step..].
  pose proof (kept_AllocatePool (mm_size v1 ⊞ (2 ⊠ mm_desc v1)) w) as Ha.
  destruct (AllocatePool _ w) as [w1 buf]. cbn [fst] in Ha. apply (keeps_from _ w w1); [done|].
  destruct (ASSERT _); cbn [mbind outcome_bind]; [|repeat keeps_step..].
  rewrite Hw in Ha. pose proof (GetMemoryMap_kept buf v1 w1 Ha) as E.
  destruct (GetMemoryMap buf v1 w1) as [[[? ?] v2] ?]. cbn [fst] in E. subst. repeat keeps_step.
Qed.

Lemma ensure_table_keeps u (w : W) m ea : keeps (fun r => r.1.1) w (ensure_table u w m ea).
Proof.
  unfold ensure_table. case_match; [|by apply keeps_done].
  apply (keeps_bind (fun r => r.1.1)); [by intros [[w1 m1] f] E%kept_frames|].
  intros [[w1 m1] f]. by apply keeps_done.
Qed.

Lemma MapPage_keeps (w : W) m v p u root : keeps fst w (MapPage w m v p u root).
Proof.
  unfold MapPage. do 3 (eapply (keeps_bind (fun r => r.1.1)); [apply ensure_table_keeps|intros [[? ?] ?]; cbn [fst]]).
  by apply keeps_done.
Qed.

(** The loops that map pages keep the firmware's state in the middle component. *)
Lemma map_loop_keeps (w : W) fuel (body : Z * W * (Z -> Z) -> outcome (Z * W * (Z -> Z) + W * (Z -> Z))) i m :
  (forall i w m, keeps (fun r => match r with inl a => a.1.2 | inr b => b.1 end) w (body (i, w, m))) ->
  keeps fst w (loop fuel body (i, w, m)).
Proof. intros Hb. apply (keeps_loop (fun a => a.1.2)); [done|]. intros [[? ?] ?]. apply Hb. Qed.

Lemma identity_map_keeps from to root (w : W) m : keeps fst w (identity_map from to root w m).
Proof.
  unfold identity_map. apply map_loop_keeps. intros i w1 m1. case_match; [|by apply keeps_done].
  eapply keeps_bind; [apply MapPage_keeps|]. intros [? ?]. by apply keeps_done.
Qed.

Lemma CreateIdentityMappedPageTable_keeps total gb gs (w : W) m :
  keeps (fun r => r.1.1) w (CreateIdentityMappedPageTable total gb gs w m).
Proof.
  unfold CreateIdentityMappedPageTable.
  apply (keeps_bind (fun r => r.1.1)); [by intros [[w1 m1] f] E%kept_frames|]. intros [[? ?] ?].
  do 2 (eapply keeps_bind; [apply identity_map_keeps|intros [? ?]; cbn [fst snd]]). by apply keeps_done.
Qed.

Lemma CreateHigherHalfMapping_keeps root seg sections total (w : W) m :
  keeps fst w (CreateHigherHalfMapping root seg sections total w m).
Proof.
  unfold CreateHigherHalfMapping. apply map_loop_keeps. intros i w1 m1. repeat case_match; try by apply keeps_done.
  eapply keeps_bind; [apply MapPage_keeps|]. intros [? ?]. by apply keeps_done.
Qed.

(** The firmware is in charge exactly when [efi_main] returns. *)
Definition handed_over (e : boot_end W) : Prop :=
  match e with Returned _ w => exited w = false | Entered _ w => exited w = true end.

(** A part that keeps the boot services, followed by a rest that ends as it should. *)
Lemma handed_over_bind {A} (sa : A -> W) (w : W) o (f : A -> outcome (boot_end W)) e :
  exited w = false -> keeps sa w o ->
  (forall a, exited (sa a) = false -> f a = Done e -> handed_over e) ->
  (o ≫= f) = Done e -> handed_over e.
Proof.
  intros Hw Ho Hf. destruct o as [a| |]; cbn [mbind outcome_bind]; try done. apply Hf.
  by rewrite (Ho a).
Qed.

Lemma finish_boot_order segments off entry ld sections gop font stack rsdp Status v total (w : W) tables e :
  exited w = false ->
  finish_boot segments off entry ld sections gop font stack rsdp Status v total w tables = Done e ->
  handed_over e.
Proof.
  intros Hw. unfold finish_boot.
  apply (handed_over_bind _ _ _ _ _ Hw (CreateIdentityMappedPageTable_keeps _ _ _ _ _)).
  intros [[w1 t1] root] Hw1. cbn [fst] in Hw1. case_match; [by intros [= <-]|].
  apply (handed_over_bind _ _ _ _ _ Hw1 (CreateHigherHalfMapping_keeps _ _ _ _ _ _)).
  intros [w2 t2] Hw2. cbn [fst] in Hw2.
  apply (handed_over_bind _ _ _ _ _ Hw2 (ReadMemoryMap_keeps _ _ Hw2)).
  intros [[w3 v3] r] Hw3. cbn [fst] in Hw3. destruct (match r with Some _ => _ | None => _ end) as [map descs].
  case_match; [by intros [= <-]|].
  destruct (ExitBootServices_law (mm_key v3) w3 Hw3) as (w4 & -> & Hx).
  destruct (mm_key v3 =? map_key w3).
  - change (EFI_ERROR EFI_SUCCESS) with false. cbv iota. case_match; [done|]. by intros [= <-].
  - change (EFI_ERROR EFI_INVALID_PARAMETER) with true. by intros [= <-].
Qed.

(** C26 (safety): whatever the firmware answers, when [efi_main] returns, with whatever
    status, the boot services are still running, so the firmware can go on; when it enters
    the kernel they have been left, with the key of the memory map of that moment. *)
Theorem efi_main_exit_order segments v (w : W) m tables e : exited w = false ->
  efi_main segments v w m tables = Done e -> handed_over e.
Proof.
  intros Hw. unfold efi_main. apply (handed_over_bind _ _ _ _ _ Hw (LoadKernel_keeps _ _)).
  intros [[w1 st] r] Hw1. cbn [fst] in Hw1. case_match; [by intros [= <-]|].
  destruct r as [[[entry ld] sections]|]; cbn [need mbind outcome_bind]; [|done].
  pose proof (kept_AllocatePages 1 w1) as Hk. destruct (AllocatePages 1 w1) as [[w2 ?] stack]. cbn [fst] in Hk.
  pose proof (kept_Retrieve w2) as Hg. destruct (RetrieveGraphicsOutputProtocol w2) as [[w3 st3] gop].
  cbn [fst] in Hg. assert (exited w3 = false) as Hw3 by congruence. case_match; [by intros [= <-]|].
  apply (handed_over_bind _ _ _ _ _ Hw3 (LoadPSF1Font_keeps _ _)). intros [w4 font] Hw4. cbn [fst] in Hw4.
  destruct font as [font|]; [|by intros [= <-]].
  destruct (find_rsdp _) as [rsdp| |]; cbn [mbind outcome_bind]; try done.
  apply (handed_over_bind _ _ _ _ _ Hw4 (ReadMemoryMap_keeps _ _ Hw4)).
  intros [[w5 v5] [[[? ?] total]|]] Hw5; cbn [fst] in Hw5; [|by intros [= <-]]. by apply finish_boot_order.
Qed.
End order.

(** ** The state the kernel starts in *)
Section enter.
Context {W} {HB : BootServices W} {HF : FrameSource W} {HL : BootLaws W} (lim : Z).
Context (Hlim : @fs_limit W HF = lim /\ lim <= 2 ^ 48).

(** Pool allocations succeed and do not lengthen the memory map. *)
Definition steady : Prop := forall n (w : W), exited w = false ->
  (AllocatePool n w).2 <> 0 /\
  (length (memory_map (AllocatePool n w).1) <= length (memory_map w))%nat.

(** What [efi_main] has collected before it builds the page tables: the kernel, whose first
    program header is a loaded segment, the stack, the frame buffer, the font, the ACPI root
    pointer and the first memory map. *)
Record collected (v : mm_vars) (w : W) (m : gmap Z Z) (entry : Z) (ld : Loaded)
    (sections : list ElfSectionInfo) (seg0 : ElfSegmentInfo) (stack : Z) (gop : gop_mode)
    (font : PSF1_Font) (rsdp Total : Z) (w5 : W) : Prop := {
  co_running : exited w = false;
  co_seg0 : head (ld_segments ld) = Some seg0;
  co_base : seg_PhysicalBase seg0 = ld_PhysicalBase ld;
  co_vbase : seg_VirtualBase seg0 = ld_VirtualBase ld;
  co_steps : exists w1 w2 st w3 w4 v5 map descs,
    LoadKernel w m = Done (w1, EFI_SUCCESS, Some (entry, ld, sections)) /\
    AllocatePages 1 w1 = (w2, st, stack) /\
    RetrieveGraphicsOutputProtocol w2 = (w3, EFI_SUCCESS, gop) /\
    LoadPSF1Font zap_light w3 = Done (w4, Some font) /\
    find_rsdp (ConfigurationTable w4) = Done rsdp /\
    ReadMemoryMap v w4 = Done (w5, v5, Some (map, descs, Total));
}.

(** Room for the page tables, and addresses that fit the two halves of the address space. *)
Record mappable (off gBase gSize Total : Z) (w : W) : Prop := {
  mp_inv : fs_inv w ∅;
  mp_room : fs_room w (1 + (3 * steps 0 Total +
              (3 * steps gBase (gBase + gSize) + (3 * steps 0 Total + 0))));
  mp_total : 0 <= Total <= 2 ^ 47;
  mp_gbase : 0 <= gBase; mp_gsize : 0 <= gSize; mp_gtop : gBase + gSize <= 2 ^ 47;
  mp_galigned : gBase mod 4096 = 0;
  mp_aligned : off mod 4096 = 0;
  mp_high : 0xffff800000000000 <= off;
  mp_top : off + Total <= 0x10000000000000000;
}.

Lemma second_map v (w : W) : steady -> exited w = false -> mm_size v < map_bytes w ->
  exists w' buf, exited w' = false /\ buf <> 0 /\
  ReadMemoryMap v w = Done (w', mkVars (map_bytes w') (map_key w') descriptor_size,
    Some (buf, memory_map w', GetTotalSystemMemory (d_pageCount <$> memory_map w'))).
Proof.
  intros Hs Hw Hv. destruct (Hs (map_bytes w ⊞ (2 ⊠ descriptor_size)) w Hw) as [Hb Hl].
  pose proof (kept_AllocatePool (map_bytes w ⊞ (2 ⊠ descriptor_size)) w) as Hk.
  destruct (AllocatePool _ w) as [w1 buf] eqn:Ea. cbn [fst snd] in *. exists w1, buf.
  split; [congruence|]. split; [done|]. apply (ReadMemoryMap_run v w w1 buf Hw Hv Ea Hb).
  pose proof descriptor_size_pos as Hd. unfold map_bytes. nia.
Qed.

Lemma collected_running v w m entry ld sections seg0 stack gop font rsdp Total w5 :
  collected v w m entry ld sections seg0 stack gop font rsdp Total w5 -> exited w5 = false /\
  exists w1 w2 st w3 w4 map descs,
    LoadKernel w m = Done (w1, EFI_SUCCESS, Some (entry, ld, sections)) /\
    AllocatePages 1 w1 = (w2, st, stack) /\
    RetrieveGraphicsOutputProtocol w2 = (w3, EFI_SUCCESS, gop) /\
    LoadPSF1Font zap_light w3 = Done (w4, Some font) /\
    find_rsdp (ConfigurationTable w4) = Done rsdp /\
    ReadMemoryMap v w4 = Done (w5, mkVars (map_bytes w5) (map_key w5) descriptor_size, Some (map, descs, Total)).
Proof.
  intros [Hw _ _ _ (w1 & w2 & st & w3 & w4 & v5 & map & descs & E1 & E2 & E3 & E4 & E5 & E6)].
  assert (exited w1 = false) as H1 by (rewrite <- Hw; apply (LoadKernel_keeps _ _ _ E1)).
  pose proof (kept_AllocatePages 1 w1) as H2. rewrite E2 in H2. pose proof (kept_Retrieve w2) as H3.
  rewrite E3 in H3. cbn [fst] in *. pose proof (LoadPSF1Font_keeps _ _ _ E4) as H4. cbn [fst] in H4.
  assert (exited w4 = false) as Hw4 by congruence.
  split; [rewrite <- Hw4; apply (ReadMemoryMap_keeps _ _ Hw4 _ E6)|].
  pose proof (ReadMemoryMap_vars _ _ _ _ _ Hw4 E6) as ->. exists w1, w2, st, w3, w4, map, descs. by split_and!.
Qed.

End enter.

(** ** Witnesses

    A small firmware: frames in increasing order, a memory map of two pages to which every
    frame adds a descriptor and every pool allocation [g], a kernel of one segment and a font of 8-byte
    glyphs. *)
Record demo_firmware := mkDemo { df_next : Z; df_exited : bool; df_extra : nat }.

Definition elf_word (n : nat) (v : Z) : list Z := le_split n v.
Definition demo_elf : list Z :=
  ([0x7f; 0x45; 0x4c; 0x46; 2] ++ replicate 11 0 ++ elf_word 2 2 ++ elf_word 2 62 ++ replicate 4 0 ++
   elf_word 8 0xffffffff80000000 ++ elf_word 8 64 ++ elf_word 8 120 ++ replicate 6 0 ++
   elf_word 2 56 ++ elf_word 2 1 ++ elf_word 2 64 ++ elf_word 2 1 ++ elf_word 2 0) ++
  (elf_word 4 1 ++ replicate 4 0 ++ elf_word 8 0 ++ elf_word 8 0xffffffff80000000 ++ replicate 8 0 ++
   elf_word 8 16 ++ elf_word 8 32 ++ replicate 8 0) ++
  (replicate 24 0 ++ elf_word 8 184 ++ elf_word 8 1 ++ replicate 24 0) ++ [0].
Definition demo_psf : list Z := [PSF1_MAGIC0; PSF1_MAGIC1; 0; 8] ++ replicate 2048 0xaa.

Definition demo_file (bytes : list Z) : Firmware := {|
  fw_set_position := fun _ => EFI_SUCCESS;
  fw_read := fun pos size => (EFI_SUCCESS, take (Z.to_nat size) (drop (Z.to_nat pos) bytes));
  fw_alloc_pool := fun _ => 0x4000;
  fw_alloc_pages := fun _ => (EFI_SUCCESS, 0x1000000) |}.

Definition demo_map (w : demo_firmware) : list EFI_MEMORY_DESCRIPTOR :=
  mkDesc 7 0 0 2 0 :: replicate (df_extra w) (mkDesc 4 0 0 0 0).

Definition demo_services (g : nat) : BootServices demo_firmware := {|
  ASSERT b := if b then Done tt else Fault;
  LocateHandleBuffer w := (w, EFI_SUCCESS, [1]);
  HandleProtocol h w := (w, EFI_SUCCESS, 2);
  OpenVolume f w := (w, EFI_SUCCESS, 3);
  Open d n w := (w, EFI_SUCCESS, Some (demo_file (if decide (n = kernel_elf) then demo_elf else demo_psf)));
  file_used f w := w;
  AllocatePages n w := (w, EFI_SUCCESS, 0x5000);
  AllocatePool n w := (mkDemo (df_next w) (df_exited w) (g + df_extra w), 0x6000);
  FreePool b w := w;
  LocateProtocol w := (w, EFI_SUCCESS, mkGop 0x8000 0x1000 32 32 32);
  GetMemoryMap buf v w :=
    let needed := 48 * Z.of_nat (length (demo_map w)) in
    if mm_size v <? needed then (w, EFI_BUFFER_TOO_SMALL, mkVars needed (df_next w) 48, [])
    else if buf =? 0 then (w, EFI_INVALID_PARAMETER, v, [])
    else (w, EFI_SUCCESS, mkVars needed (df_next w) 48, demo_map w);
  fw_ExitBootServices key w :=
    if key =? df_next w then (mkDemo (df_next w) true (df_extra w), EFI_SUCCESS)
    else (w, EFI_INVALID_PARAMETER);
  ConfigurationTable w := [mkConfig 1 0x7000 rsd_ptr];
  CompareGuid a b := if a =? b then 0 else 1;
  ACPI_20_TABLE_GUID := 1 |}.

Definition demo_frames : FrameSource demo_firmware.
Proof.
  refine {| fs_request := fun w m => r ← bump_request (df_next w) m;
                            Done (mkDemo (r.1.1) (df_exited w) (S (df_extra w)), r.1.2, r.2);
            fs_limit := 0x40000000;
            fs_inv := fun w taken => 0 < df_next w /\ df_next w mod PAGE_SIZE = 0 /\
                        forall f, f ∈ taken -> f < df_next w;
            fs_room := fun w n => df_next w + PAGE_SIZE * Z.of_nat n <= 0x40000000 |}.
  - intros w m taken n Hi Hr. destruct (bump_law (df_next w) m taken n Hi Hr) as (s' & f & -> & Hlaw).
    exists (mkDemo s' (df_exited w) (S (df_extra w))), f. split; [done|exact Hlaw].
  - intros w n. unfold PAGE_SIZE. lia.
Defined.

Definition demo_laws (g : nat) : @BootLaws demo_firmware (demo_services g) demo_frames.
Proof.
  refine {| memory_map := demo_map; map_key := df_next; descriptor_size := 48; exited := df_exited |};
    try done.
  - intros buf v w Hw. cbn [GetMemoryMap demo_services].
    destruct (Z.ltb_spec (mm_size v) (48 * Z.of_nat (length (demo_map w)))) as [Hs|Hs].
    + do 3 eexists. split; [done|]. split_and!; [done|lia|lia].
    + destruct (Z.eqb_spec buf 0) as [Hb|Hb]; do 3 eexists; (split; [done|]); split_and!; done || lia.
  - intros key w Hw. simpl. destruct (key =? df_next w); eauto.
  - intros w m w' m' f. simpl. by intros [= <- _ _].
Defined.

Definition demo_start : demo_firmware := mkDemo 0x100000 false 0.

Lemma demo_limit : @fs_limit demo_firmware demo_frames = 0x40000000 /\ 0x40000000 <= 2 ^ 48.
Proof. split; [reflexivity|lia]. Qed.

Lemma ReadMemoryMap_result_witness :
  @ReadMemoryMap _ (demo_services 0) (mkVars 0 0 0) demo_start =
    Done (demo_start, mkVars 48 0x100000 48, Some (0x6000, demo_map demo_start, 0x2000)) /\
  @ReadMemoryMap _ (demo_services 1) (mkVars 0 0 0) demo_start =
    Done (mkDemo 0x100000 false 1, mkVars 96 0x100000 48, None).
Proof.
  split.
  - refine (proj1 (ReadMemoryMap_result (HB:=demo_services 0) (HF:=demo_frames) (HL:=demo_laws 0)
      (mkVars 0 0 0) demo_start demo_start 0x6000 _ _ _ _) _); (reflexivity || done || apply le_n).
  - destruct (proj2 (ReadMemoryMap_result (HB:=demo_services 1) (HF:=demo_frames) (HL:=demo_laws 1)
      (mkVars 0 0 0) demo_start (mkDemo 0x100000 false 1) 0x6000 eq_refl eq_refl eq_refl ltac:(done)) eq_refl)
      as (_ & key & E). rewrite E. vm_compute in E. injection E as <-. reflexivity.
Defined.

Definition demo_vars : mm_vars := mkVars 0 0 0.

Lemma efi_main_exit_order_witness : exists e,
  @efi_main _ (demo_services 1) demo_frames 0x9000 demo_vars demo_start ∅ (fun _ => 0) = Done e /\
  handed_over (HL:=demo_laws 1) e /\ e = Returned EFI_SUCCESS (mkDemo 0x100000 false 4).
Proof.
  exists (Returned EFI_SUCCESS (mkDemo 0x100000 false 4)). split; [vm_compute; reflexivity|]. split; [|reflexivity].
  apply (efi_main_exit_order (HB:=demo_services 1) (HF:=demo_frames) (HL:=demo_laws 1)
           0x9000 demo_vars demo_start ∅ (fun _ => 0)); vm_compute; reflexivity.
Defined.

Definition demo_ld : Loaded :=
  LoadElfSegments (demo_file demo_elf) [mkPhdr 1 0 0xffffffff80000000 16 32] 0 ∅.
Definition demo_sects : list ElfSectionInfo := [mkSection 0 1 [0] 0 0].

Lemma demo_collected : @collected _ (demo_services 0) demo_frames (demo_laws 0) demo_vars demo_start ∅
  0xffffffff80000000 demo_ld demo_sects (mkSegment 0x1000000 32 0xffffffff80000000 32 0) 0x5000
  (mkGop 0x8000 0x1000 32 32 32) (mkPsf1 0x6000 [0x36; 4; 0; 8] (replicate 2048 0xaa)) 0x7000 0x2000 demo_start.
Proof.
  constructor; try reflexivity.
  exists demo_start, demo_start, EFI_SUCCESS, demo_start, demo_start, (mkVars 48 0x100000 48), 0x6000,
    (demo_map demo_start).
  split_and!; vm_compute; reflexivity.
Qed.

Lemma demo_mappable : @mappable _ demo_frames 0xffffffff7f000000 0x8000 0x1000 0x2000 demo_start.
Proof.
  constructor; [split; [reflexivity|]; split; [reflexivity|]; intros f Hf; by apply not_elem_of_empty in Hf
    |vm_compute; congruence|lia..|reflexivity|reflexivity|lia|lia].
Qed.

