(* ===== verification/KStlString.v ===== *)
(** * The kernel's string class (kernel/src/core/kstring.cpp and kstring.h, [kstl::string])

    A string keeps up to 14 characters in a buffer of its own ([m_ssoBuffer]) and longer
    ones in a block from [kmalloc].  [m_data] is the contents of that block; no two
    strings share one, so [kfree] ends a block and changes nothing else.  A [const char*]
    is the array it points to, terminator included.

    The constructors leave [m_size] and [m_capacity] of a short string uninitialised:
    their first values are arguments.  Lengths of strings that are in memory are natural
    numbers; the arguments of [substring] are [size_t] values whose sum wraps around, as
    does the one subtraction that can go below zero ([find]). *)
From Stdlib Require Import ZArith Lia.
From stdpp Require Import base tactics numbers option list gmap.
From S2P Require Import Prelude Memory KMemory Sync KHeap KHeapThms.

(** ** Arrays *)

(** [strlen] of an array; a scan that meets no terminator leaves the array. *)
Fixpoint str_len (l : list Z) : outcome nat :=
  match l with
  | [] => Fault
  | c :: l => if c =? 0 then Done 0%nat else n ← str_len l; Done (S n)
  end.

Definition slice (l : list Z) (start n : nat) : outcome (list Z) :=
  if (start + n <=? length l)%nat then Done (take n (drop start l)) else Fault.

(** [memcpy(dst + start, src, n)] with the [n] bytes [src] *)
Definition write_at (dst : list Z) (start : nat) (src : list Z) : outcome (list Z) :=
  if (start + length src <=? length dst)%nat
  then Done (take start dst ++ src ++ drop (start + length src) dst) else Fault.

(** ** Where blocks come from *)

(** What the class asks of [kmalloc] and [krealloc]: a block of the size asked for, or
    [NULL]; [krealloc] keeps the bytes both blocks have. *)
Class BlockSource := {
  bs_kmalloc : nat -> option (list Z);
  bs_krealloc : list Z -> nat -> option (list Z);
  bs_kmalloc_size : forall n b, bs_kmalloc n = Some b -> length b = n;
  bs_krealloc_size : forall l n b, bs_krealloc l n = Some b -> length b = n;
  bs_krealloc_keeps : forall l n b, bs_krealloc l n = Some b ->
    take (Nat.min n (length l)) b = take (Nat.min n (length l)) l;
}.

(** ** The class *)
Definition SSO_SIZE : nat := 15.

Record kstring := mkStr {
  m_ssoBuffer : list Z;
  m_data : list Z;
  m_size : nat;
  m_capacity : nat;
  m_isUsingSSOBuffer : bool;
}.

Section string.
Context `{BlockSource}.

Definition with_sso (s : kstring) (l : list Z) : kstring :=
  mkStr l (m_data s) (m_size s) (m_capacity s) (m_isUsingSSOBuffer s).

(** [string()]: [size] and [cap] are what the members happen to hold. *)
Definition string_new (size cap : nat) : kstring := mkStr (replicate 16 0) [] size cap true.

(** [string(const char* str)] *)
Definition string_cstr (size cap : nat) (str : list Z) : outcome kstring :=
  len ← str_len str;
  bytes ← slice str 0 (len + 1);
  if (len <? SSO_SIZE)%nat then
    l ← write_at (replicate 16 0) 0 bytes;
    Done (mkStr l [] size cap true)
  else
    d ← need (bs_kmalloc (len + 1));
    d ← write_at d 0 bytes;
    Done (mkStr (replicate 16 0) d len (len + 1) false).

Definition string_length (s : kstring) : outcome nat :=
  if m_isUsingSSOBuffer s then str_len (m_ssoBuffer s) else Done (m_size s).

Definition string_capacity (s : kstring) : nat :=
  if m_isUsingSSOBuffer s then SSO_SIZE else m_capacity s.

Definition c_str (s : kstring) : list Z :=
  if m_isUsingSSOBuffer s then m_ssoBuffer s else m_data s.

(** [string(const string& other)] *)
Definition string_copy (size cap : nat) (other : kstring) : outcome kstring :=
  len ← string_length other;
  if (len <? SSO_SIZE)%nat then
    bytes ← slice (m_ssoBuffer other) 0 (len + 1);
    l ← write_at (replicate 16 0) 0 bytes;
    Done (mkStr l [] size cap true)
  else
    d ← need (bs_kmalloc (len + 1));
    bytes ← slice (m_data other) 0 (len + 1);
    d ← write_at d 0 bytes;
    Done (mkStr (replicate 16 0) d len (len + 1) false).

(** [string(string&& other)]: the new string and what is left of [other] *)
Definition string_move (size cap : nat) (other : kstring) : outcome (kstring * kstring) :=
  if m_isUsingSSOBuffer other then
    bytes ← slice (m_ssoBuffer other) 0 (SSO_SIZE + 1);
    l ← write_at (replicate 16 0) 0 bytes;
    r ← write_at (m_ssoBuffer other) 0 [0];
    Done (mkStr l [] size cap true, mkStr r (m_data other) (m_size other) (m_capacity other) true)
  else
    r ← write_at (m_ssoBuffer other) 0 [0];
    Done (mkStr (replicate 16 0) (m_data other) (m_size other) (m_capacity other) false,
          mkStr r [] 0 0 true).

(** [operator=] of two different objects *)
Definition string_assign (s other : kstring) : outcome kstring :=
  let len := m_size other in
  if (len <? SSO_SIZE)%nat then
    bytes ← slice (m_ssoBuffer other) 0 (len + 1);
    l ← write_at (m_ssoBuffer s) 0 bytes;
    Done (mkStr l (if m_isUsingSSOBuffer s then m_data s else []) (m_size s) (m_capacity s) true)
  else
    d ← need (bs_kmalloc (len + 1));
    bytes ← slice (m_data other) 0 (len + 1);
    d ← write_at d 0 bytes;
    Done (mkStr (m_ssoBuffer s) d len (len + 1) false).

(** The index operator: read, and write through the reference. *)
Definition string_get (s : kstring) (index : nat) : outcome Z := need (c_str s !! index).
Definition string_set (s : kstring) (index : nat) (c : Z) : outcome kstring :=
  l ← write_at (c_str s) index [c];
  Done (if m_isUsingSSOBuffer s then with_sso s l
        else mkStr (m_ssoBuffer s) l (m_size s) (m_capacity s) false).

(** The two comparison loops of [operator==]. *)
Fixpoint sso_eq (n : nat) (l l' : list Z) : outcome bool :=
  match n with
  | O => Done true
  | S n =>
      match l, l' with
      | c :: l, c' :: l' =>
          if negb (c =? c') then Done false else if c =? 0 then Done true else sso_eq n l l'
      | _, _ => Fault
      end
  end.

Fixpoint data_eq (n : nat) (l l' : list Z) : outcome bool :=
  match n with
  | O => Done true
  | S n =>
      match l, l' with
      | c :: l, c' :: l' => if negb (c =? c') then Done false else data_eq n l l'
      | _, _ => Fault
      end
  end.

Definition string_eq (s other : kstring) : outcome bool :=
  if negb (Bool.eqb (m_isUsingSSOBuffer s) (m_isUsingSSOBuffer other)) then Done false
  else if m_isUsingSSOBuffer s then sso_eq (SSO_SIZE + 1) (m_ssoBuffer s) (m_ssoBuffer other)
  else if negb (m_size s =? m_size other)%nat then Done false
  else data_eq (m_size s) (m_data s) (m_data other).

Definition string_ne (s other : kstring) : outcome bool := b ← string_eq s other; Done (negb b).

(** [append(const char* str)] *)
Definition string_append (s : kstring) (str : list Z) : outcome kstring :=
  len ← str_len str;
  currentLength ← string_length s;
  bytes ← slice str 0 (len + 1);
  let newLength := (currentLength + len)%nat in
  if (newLength <? SSO_SIZE)%nat then
    l ← write_at (m_ssoBuffer s) currentLength bytes;
    Done (with_sso s l)
  else if negb (m_isUsingSSOBuffer s) && (newLength <? m_capacity s)%nat then
    d ← write_at (m_data s) currentLength bytes;
    Done (mkStr (m_ssoBuffer s) d (m_size s) (m_capacity s) false)
  else
    let newCapacity := (newLength + 1)%nat in
    d ← need (bs_kmalloc newCapacity);
    old ← slice (c_str s) 0 currentLength;
    d ← write_at d 0 old;
    d ← write_at d currentLength bytes;
    Done (mkStr (m_ssoBuffer s) d newLength newCapacity false).

(** [append(char chr)] *)
Definition string_append_chr (s : kstring) (chr : Z) : outcome kstring := string_append s [chr; 0].

Definition string_reserve (s : kstring) (newCapacity : nat) : outcome kstring :=
  if (newCapacity <=? string_capacity s)%nat then Done s
  else if m_isUsingSSOBuffer s then
    d ← need (bs_kmalloc newCapacity);
    n ← str_len (m_ssoBuffer s);
    bytes ← slice (m_ssoBuffer s) 0 (n + 1);
    d ← write_at d 0 bytes;
    Done (mkStr (m_ssoBuffer s) d (m_size s) newCapacity false)
  else
    d ← need (bs_krealloc (m_data s) newCapacity);
    Done (mkStr (m_ssoBuffer s) d (m_size s) newCapacity false).

(** A [memset] whose size wrapped below zero runs out of the block. *)
Definition string_resize (s : kstring) (newSize : nat) : outcome kstring :=
  len ← string_length s;
  if (newSize <? len)%nat then
    if m_isUsingSSOBuffer s then l ← write_at (m_ssoBuffer s) newSize [0]; Done (with_sso s l)
    else
      d ← write_at (m_data s) newSize [0];
      Done (mkStr (m_ssoBuffer s) d newSize (m_capacity s) false)
  else if (len <? newSize)%nat then
    s ← string_reserve s newSize;
    if m_isUsingSSOBuffer s then
      len ← string_length s;
      l ← write_at (m_ssoBuffer s) len (replicate (newSize - len) 0);
      Done (with_sso s l)
    else if (newSize <? m_size s)%nat then Fault
    else
      d ← write_at (m_data s) (m_size s) (replicate (newSize - m_size s) 0);
      Done (mkStr (m_ssoBuffer s) d newSize (m_capacity s) false)
  else Done s.

(** [find(char c)]; [None] is [npos].  [length()] is evaluated once per character. *)
Definition string_find_chr (s : kstring) (c : Z) : outcome (option nat) :=
  len ← string_length s;
  loop (S len) (fun i =>
    if (i <? len)%nat then
      x ← need (c_str s !! i);
      if x =? c then Done (inr (Some i)) else Done (inl (S i))
    else Done (inr None)) 0%nat.

(** The inner loop of [find(const char* )]: do the [len] characters of [str] stand at
    [i]? *)
Fixpoint match_at (current str : list Z) (i len : nat) : outcome bool :=
  match len, str with
  | O, _ => Done true
  | S len, c :: str =>
      x ← need (current !! i);
      if negb (x =? c) then Done false else match_at current str (S i) len
  | S _, [] => Fault
  end.

(** [thisLen - len] wraps around when the pattern is longer than the string. *)
Definition string_find (s : kstring) (str : list Z) : outcome (option nat) :=
  len ← str_len str;
  if (len =? 0)%nat then Done (Some 0%nat)
  else
    let current := c_str s in
    thisLen ← string_length s;
    loop (S (length current)) (fun i =>
      if Z.of_nat i <=? u64 (Z.of_nat thisLen - Z.of_nat len) then
        b ← match_at current str i len;
        if b : bool then Done (inr (Some i)) else Done (inl (S i))
      else Done (inr None)) 0%nat.

(** [find(const string& str)] *)
Definition string_find_str (s str : kstring) : outcome (option nat) := string_find s (c_str str).

(** [static const size_t npos = -1] *)
Definition npos : Z := 0xffffffffffffffff.

(** [substring(start, length)] on [size_t] arguments.  The temporary buffer is freed. *)
Definition string_substring (size cap : nat) (s : kstring) (start length : Z)
  : outcome kstring :=
  strLength ← string_length s;
  if Z.of_nat strLength <=? start then Done (string_new size cap)
  else
    let length := if (length =? npos) || (Z.of_nat strLength <? start ⊞ length)
                  then Z.of_nat strLength ⊟ start else length in
    buffer ← need (bs_kmalloc (Z.to_nat (length ⊞ 1)));
    bytes ← slice (c_str s) (Z.to_nat start) (Z.to_nat length);
    buffer ← write_at buffer 0 bytes;
    buffer ← write_at buffer (Z.to_nat length) [0];
    string_cstr size cap buffer.

Definition string_clear (s : kstring) : outcome kstring :=
  l ← write_at (m_ssoBuffer s) 0 [0];
  Done (mkStr l (if m_isUsingSSOBuffer s then m_data s else []) (m_size s) (m_capacity s) true).

(** [inline bool empty() const { return m_size > 0; }] *)
Definition string_empty (s : kstring) : bool := (0 <? m_size s)%nat.

(** ** Strings as lists of characters *)

Definition chars (cs : list Z) : Prop := Forall (fun c => c <> 0) cs.

(** [s] holds the characters [cs]: in its own buffer when there are fewer than fifteen,
    and in a block without spare room otherwise. *)
Definition repr (s : kstring) (cs : list Z) : Prop :=
  chars cs /\ length (m_ssoBuffer s) = 16%nat /\
  if m_isUsingSSOBuffer s
  then (length cs < SSO_SIZE)%nat /\ exists rest, m_ssoBuffer s = cs ++ 0 :: rest
  else (SSO_SIZE <= length cs)%nat /\ m_data s = cs ++ [0] /\
       m_size s = length cs /\ m_capacity s = (length cs + 1)%nat.

(** A C string with the characters [t]. *)
Definition is_cstr (str t : list Z) : Prop := chars t /\ exists rest, str = t ++ 0 :: rest.

Lemma str_len_chars t rest : chars t -> str_len (t ++ 0 :: rest) = Done (length t).
Proof.
  induction 1 as [|c t Hc _ IH]; [done|]. simpl. destruct (Z.eqb_spec c 0); [done|]. by rewrite IH.
Qed.

Lemma str_len_cstr str t : is_cstr str t -> str_len str = Done (length t).
Proof. intros [Hc [rest ->]]. by apply str_len_chars. Qed.

Lemma slice_ok l start n : (start + n <= length l)%nat -> slice l start n = Done (take n (drop start l)).
Proof. intros Hl. unfold slice. by rewrite (proj2 (Nat.leb_le _ _)). Qed.

Lemma slice_cstr str t : is_cstr str t -> slice str 0 (length t + 1) = Done (t ++ [0]).
Proof.
  intros [_ [rest ->]]. rewrite slice_ok by (rewrite length_app; simpl; lia). rewrite drop_0.
  by rewrite take_app_add.
Qed.

Lemma write_at_ok dst start src : (start + length src <= length dst)%nat ->
  write_at dst start src = Done (take start dst ++ src ++ drop (start + length src) dst).
Proof. intros Hl. unfold write_at. by rewrite (proj2 (Nat.leb_le _ _)). Qed.

(** A block that is filled completely. *)
Lemma write_at_all dst src : length dst = length src -> write_at dst 0 src = Done src.
Proof.
  intros E. rewrite write_at_ok by lia. simpl. rewrite <- E, drop_all. by rewrite app_nil_r.
Qed.

Lemma repr_length s cs : repr s cs -> string_length s = Done (length cs).
Proof.
  intros (Hc & _ & Hr). unfold string_length. destruct (m_isUsingSSOBuffer s).
  - destruct Hr as (_ & rest & ->). by apply str_len_chars.
  - by destruct Hr as (_ & _ & -> & _).
Qed.

Lemma repr_cstr s cs : repr s cs -> is_cstr (c_str s) cs.
Proof.
  intros (Hc & _ & Hr). split; [done|]. unfold c_str. destruct (m_isUsingSSOBuffer s).
  - by destruct Hr as (_ & rest & ->); eauto.
  - destruct Hr as (_ & -> & _). eauto.
Qed.

Lemma str_repr_new size cap : repr (string_new size cap) [].
Proof. split_and!; [constructor|done|]. split; [unfold SSO_SIZE; simpl; lia|]. by exists (replicate 15 0). Qed.

(** A short string in a buffer of sixteen bytes. *)
Lemma repr_sso l cs data size cap : chars cs -> (length cs < SSO_SIZE)%nat -> length l = 16%nat ->
  exists l', write_at l 0 (cs ++ [0]) = Done l' /\ repr (mkStr l' data size cap true) cs.
Proof.
  intros Hc Hs Hl. unfold SSO_SIZE in Hs. rewrite write_at_ok by (rewrite length_app; simpl; lia).
  eexists. split; [done|]. unfold repr. cbn [m_isUsingSSOBuffer]. split_and!; [done| |done|].
  - cbn [m_ssoBuffer]. rewrite take_0, !length_app, length_drop. simpl. lia.
  - exists (drop (length (cs ++ [0])) l). simpl. by rewrite <- app_assoc.
Qed.

(** A long string in a block of its own. *)
Lemma repr_heap l cs : chars cs -> (SSO_SIZE <= length cs)%nat -> length l = 16%nat ->
  repr (mkStr l (cs ++ [0]) (length cs) (length cs + 1) false) cs.
Proof. intros Hc Hs Hl. by split_and!. Qed.

(** Blocks of up to [room] bytes are there. *)
Context (room : nat).
Hypothesis bs_serves : forall n, (n <= room)%nat -> is_Some (bs_kmalloc n).

Lemma block n : (n <= room)%nat -> exists b, bs_kmalloc n = Some b /\ length b = n.
Proof. intros Hn. destruct (bs_serves n Hn) as [b Hb]. exists b. split; [done|]. by apply bs_kmalloc_size. Qed.

Lemma string_cstr_ok size cap str t : is_cstr str t -> (length t < room)%nat ->
  exists s, string_cstr size cap str = Done s /\ repr s t.
Proof.
  intros Hs Hroom. pose proof Hs as [Hc _]. unfold string_cstr.
  rewrite (str_len_cstr str t Hs). cbn [mbind outcome_bind].
  rewrite (slice_cstr str t Hs). cbn [mbind outcome_bind].
  destruct (Nat.ltb_spec (length t) SSO_SIZE) as [Hlt|Hge].
  - destruct (repr_sso (replicate 16 0) t [] size cap Hc Hlt) as (l & -> & R); [done|]. eauto.
  - destruct (block (length t + 1)) as (b & -> & Hb); [lia|]. cbn [need mbind outcome_bind].
    rewrite write_at_all by (rewrite length_app; simpl; lia). cbn [mbind outcome_bind].
    eexists. split; [done|]. by apply repr_heap.
Qed.

Lemma string_append_ok s cs str t : repr s cs -> is_cstr str t -> (length (cs ++ t) < room)%nat ->
  exists s', string_append s str = Done s' /\ repr s' (cs ++ t).
Proof.
  intros R Hs Hroom. pose proof Hs as [Ht _]. pose proof (repr_cstr s cs R) as Rc.
  unfold string_append. rewrite (str_len_cstr str t Hs). cbn [mbind outcome_bind].
  rewrite (repr_length s cs R). cbn [mbind outcome_bind].
  rewrite (slice_cstr str t Hs). cbn [mbind outcome_bind]. destruct R as (Hc & Hl & R).
  assert (chars (cs ++ t)) as Hct by (by apply Forall_app).
  rewrite <- length_app. destruct (Nat.ltb_spec (length (cs ++ t)) SSO_SIZE) as [Hlt|Hge].
  - destruct s as [sso d sz cap []]; simpl in *.
    2:{ destruct R as (? & _). rewrite length_app in Hlt. lia. }
    destruct R as (_ & rest & ->). rewrite length_app in Hlt, Hl. simpl in Hl. unfold SSO_SIZE in *.
    rewrite write_at_ok by (rewrite !length_app; simpl; lia). cbn [mbind outcome_bind].
    eexists. split; [done|]. unfold repr, with_sso. cbn [m_isUsingSSOBuffer m_ssoBuffer].
    rewrite take_app_length. split_and!; [done| |rewrite length_app; unfold SSO_SIZE; lia|].
    + rewrite !length_app, length_drop, !length_app. simpl. lia.
    + eexists. rewrite <- !app_assoc. simpl. reflexivity.
  - assert (exists s', (d ← need (bs_kmalloc (length (cs ++ t) + 1));
        old ← slice (c_str s) 0 (length cs);
        d ← write_at d 0 old;
        d ← write_at d (length cs) (t ++ [0]);
        Done (mkStr (m_ssoBuffer s) d (length (cs ++ t)) (length (cs ++ t) + 1) false)) = Done s' /\
        repr s' (cs ++ t)) as Hgrow.
    { destruct (block (length (cs ++ t) + 1)) as (b & -> & Hb); [lia|]. cbn [need mbind outcome_bind].
      destruct Rc as [_ [rest ->]]. rewrite slice_ok by (rewrite length_app; simpl; lia).
      rewrite drop_0, take_app_length. cbn [mbind outcome_bind]. rewrite length_app in Hb.
      rewrite write_at_ok by lia. cbn [mbind outcome_bind]. rewrite take_0. simpl.
      rewrite write_at_ok by (rewrite !length_app, length_drop; simpl; lia). cbn [mbind outcome_bind].
      eexists. split; [done|]. rewrite take_app_length.
      rewrite (drop_ge (cs ++ _)) by (rewrite !length_app, length_drop; simpl; lia).
      rewrite app_nil_r, app_assoc. by apply repr_heap. }
    destruct s as [sso d sz cap []]; simpl in *; [done|].
    destruct R as (Hn & -> & -> & ->).
    destruct (Nat.ltb_spec (length (cs ++ t)) (length cs + 1)) as [Hz|Hz]; [|done].
    assert (t = []) as -> by (rewrite length_app in Hz; destruct t; [done|simpl in Hz; lia]).
    rewrite app_nil_r. simpl. rewrite write_at_ok by (rewrite length_app; simpl; lia).
    cbn [mbind outcome_bind]. eexists. split; [done|]. rewrite take_app_length.
    rewrite drop_ge by (rewrite length_app; simpl; lia). rewrite app_nil_r. by apply repr_heap.
Qed.

Lemma string_copy_ok size cap s cs : repr s cs -> (length cs < room)%nat ->
  exists s', string_copy size cap s = Done s' /\ repr s' cs.
Proof.
  intros R Hroom. pose proof (repr_cstr s cs R) as Rc. unfold string_copy. rewrite (repr_length s cs R).
  cbn [mbind outcome_bind]. destruct R as (Hc & Hl & R). unfold c_str in Rc.
  destruct (m_isUsingSSOBuffer s); destruct R as [Hn R].
  - rewrite (proj2 (Nat.ltb_lt _ _)) by done. rewrite (slice_cstr _ _ Rc). cbn [mbind outcome_bind].
    destruct (repr_sso (replicate 16 0) cs [] size cap Hc Hn) as (l & -> & R'); [done|]. eauto.
  - rewrite (proj2 (Nat.ltb_ge _ _)) by done.
    destruct (block (length cs + 1)) as (b & -> & Hb); [lia|]. cbn [need mbind outcome_bind].
    rewrite (slice_cstr _ _ Rc). cbn [mbind outcome_bind].
    rewrite write_at_all by (rewrite length_app; simpl; lia). cbn [mbind outcome_bind].
    eexists. split; [done|]. by apply repr_heap.
Qed.

(** Emptying the own buffer. *)
Lemma sso_emptied l data size cap : length l = 16%nat ->
  exists l', write_at l 0 [0] = Done l' /\ repr (mkStr l' data size cap true) [].
Proof. intros Hl. apply (repr_sso l []); [constructor|unfold SSO_SIZE; simpl; lia|done]. Qed.

Lemma string_move_ok size cap s cs : repr s cs ->
  exists s' r, string_move size cap s = Done (s', r) /\ repr s' cs /\ repr r [].
Proof.
  intros (Hc & Hl & R). unfold string_move. destruct (m_isUsingSSOBuffer s) eqn:E; destruct R as [Hn R].
  - rewrite slice_ok by (rewrite Hl; unfold SSO_SIZE; lia). cbn [mbind outcome_bind].
    rewrite drop_0, take_ge by (rewrite Hl; unfold SSO_SIZE; lia).
    rewrite (write_at_all (replicate 16 0)) by (by rewrite Hl). cbn [mbind outcome_bind].
    destruct (sso_emptied (m_ssoBuffer s) (m_data s) (m_size s) (m_capacity s) Hl) as (r & -> & R').
    cbn [mbind outcome_bind]. eexists _, _. split; [done|]. split; [|done]. by split_and!.
  - destruct (sso_emptied (m_ssoBuffer s) [] 0 0 Hl) as (r & -> & R'). cbn [mbind outcome_bind].
    eexists _, _. split; [done|]. split; [|done]. destruct R as (-> & -> & ->). by apply repr_heap.
Qed.

Lemma string_clear_ok s cs : repr s cs -> exists s', string_clear s = Done s' /\ repr s' [].
Proof.
  intros (_ & Hl & _). unfold string_clear.
  destruct (sso_emptied (m_ssoBuffer s) (if m_isUsingSSOBuffer s then m_data s else []) (m_size s)
    (m_capacity s) Hl) as (r & -> & R'). cbn [mbind outcome_bind]. eauto.
Qed.

(** What [substring] is meant to return. *)
Definition sub_list (cs : list Z) (start length : Z) : list Z :=
  take (Z.to_nat length) (drop (Z.to_nat start) cs).

(** The arguments for which it does: [npos], or a sum that fits [size_t]; any length from
    behind the end. *)
Definition sub_range (cs : list Z) (start len : Z) : Prop :=
  is_u64 start /\ is_u64 len /\
  (Z.of_nat (length cs) <= start \/ len = npos \/ start + len < 0x10000000000000000).

(** The number of characters [substring] takes. *)
Lemma sub_length cs start len : sub_range cs start len -> start < Z.of_nat (length cs) < 0x10000000000000000 ->
  let k := if (len =? npos) || (Z.of_nat (length cs) <? start ⊞ len) then Z.of_nat (length cs) ⊟ start else len in
  sub_list cs start len = take (Z.to_nat k) (drop (Z.to_nat start) cs) /\ 0 <= k /\ start + k <= Z.of_nat (length cs).
Proof.
  intros (Hs & Hl & Hd) Hlt k. unfold sub_list, k, is_u64, npos in *. clear k.
  destruct (Z.eqb_spec len 0xffffffffffffffff) as [->|Hn]; cbn [orb].
  - rewrite u64_small by (unfold is_u64; lia). rewrite !take_ge by (rewrite length_drop; lia). split; [done|lia].
  - rewrite u64_small by (unfold is_u64; lia).
    destruct (Z.ltb_spec (Z.of_nat (length cs)) (start + len)); [|split; [done|lia]].
    rewrite u64_small by (unfold is_u64; lia). rewrite !take_ge by (rewrite length_drop; lia). split; [done|lia].
Qed.

Lemma string_substring_ok size cap s cs start len : repr s cs -> (length cs < room)%nat ->
  Z.of_nat room < 0x10000000000000000 -> sub_range cs start len ->
  exists s', string_substring size cap s start len = Done s' /\ repr s' (sub_list cs start len).
Proof.
  intros R Hroom Hbig Hr. pose proof (repr_cstr s cs R) as [Hc [rest Ec]]. unfold string_substring.
  rewrite (repr_length s cs R), Ec. cbn [mbind outcome_bind].
  destruct (Z.leb_spec (Z.of_nat (length cs)) start) as [Hle|Hlt].
  { exists (string_new size cap). split; [done|]. unfold sub_list. rewrite drop_ge by lia.
    rewrite take_nil. apply str_repr_new. }
  destruct (sub_length cs start len Hr) as (-> & Hk0 & Hk); [lia|].
  match goal with |- context [bs_kmalloc (Z.to_nat (u64 (?x + 1)))] => set (k := x) in * end. clearbody k. destruct Hr as [[Hs0 _] _].
  rewrite (u64_small (k + 1)) by (unfold is_u64; lia).
  replace (Z.to_nat (k + 1)) with (Z.to_nat k + 1)%nat by lia.
  set (n := Z.to_nat k). assert (Z.to_nat start + n <= length cs)%nat as Hn by lia. clearbody n.
  revert Hn. generalize (Z.to_nat start). clear start Hlt Hs0 Hk. intros start Hn.
  destruct (block (n + 1)) as (b & -> & Hb); [lia|]. cbn [need mbind outcome_bind].
  rewrite slice_ok by (rewrite length_app; simpl; lia). cbn [mbind outcome_bind].
  rewrite drop_app_le, take_app_le by (rewrite ?length_drop; lia).
  set (t := take n (drop start cs)).
  assert (length t = n) as Ht by (unfold t; rewrite length_take, length_drop; lia).
  rewrite write_at_ok by lia. cbn [mbind outcome_bind]. rewrite take_0. simpl app.
  rewrite write_at_ok by (rewrite length_app, length_drop; simpl; lia). cbn [mbind outcome_bind].
  apply string_cstr_ok; [split|lia].
  - apply Forall_take, Forall_drop, Hc.
  - rewrite take_app_length' by done. simpl. eauto.
Qed.

Lemma sso_eq_ok cs : forall n cs' r r', chars cs -> chars cs' -> (length cs < n)%nat ->
  sso_eq n (cs ++ 0 :: r) (cs' ++ 0 :: r') = Done (bool_decide (cs = cs')).
Proof.
  induction cs as [|c cs IH]; intros [|n] cs' r r' H1 H2 Hn; cbn [length app sso_eq] in *; try lia.
  - destruct cs' as [|c' cs']; cbn [app]; [done|]. apply Forall_cons in H2 as [Hc _].
    destruct (Z.eqb_spec 0 c'); [congruence|]. by rewrite bool_decide_false.
  - apply Forall_cons in H1 as [Hc H1]. destruct cs' as [|c' cs']; cbn [app].
    + destruct (Z.eqb_spec c 0); [done|]. by rewrite bool_decide_false.
    + apply Forall_cons in H2 as [Hc' H2]. destruct (Z.eqb_spec c c') as [->|Hne]; cbn [negb].
      * destruct (Z.eqb_spec c' 0); [done|]. rewrite IH by (done || lia). f_equal.
        apply bool_decide_ext. naive_solver.
      * rewrite bool_decide_false; [done|]. congruence.
Qed.

Lemma data_eq_ok cs : forall cs' r r', length cs = length cs' ->
  data_eq (length cs) (cs ++ r) (cs' ++ r') = Done (bool_decide (cs = cs')).
Proof.
  induction cs as [|c cs IH]; intros [|c' cs'] r r' Hl; simpl in *; try done.
  injection Hl as Hl. destruct (Z.eqb_spec c c') as [->|Hne]; simpl.
  - rewrite IH by done. f_equal. apply bool_decide_ext. naive_solver.
  - rewrite bool_decide_false; [done|]. congruence.
Qed.

Lemma string_eq_ok s cs s' cs' : repr s cs -> repr s' cs' ->
  string_eq s s' = Done (bool_decide (cs = cs')).
Proof.
  intros (Hc & _ & R) (Hc' & _ & R'). unfold string_eq.
  destruct (m_isUsingSSOBuffer s), (m_isUsingSSOBuffer s'); cbn [Bool.eqb negb];
    destruct R as [Hn R], R' as [Hn' R'].
  - destruct R as [r ->], R' as [r' ->]. apply sso_eq_ok; try done. unfold SSO_SIZE in *. lia.
  - rewrite bool_decide_false; [done|]. intros ->. lia.
  - rewrite bool_decide_false; [done|]. intros ->. lia.
  - destruct R as (-> & -> & _), R' as (-> & -> & _).
    destruct (Nat.eqb_spec (length cs) (length cs')); simpl; [by apply data_eq_ok|].
    rewrite bool_decide_false; [done|]. congruence.
Qed.

(** [t] stands in [cs] at [i]. *)
Definition occurs (cs t : list Z) (i : nat) : Prop := take (length t) (drop i cs) = t.
#[global] Instance occurs_dec cs t i : Decision (occurs cs t i).
Proof. unfold occurs. apply _. Defined.

Lemma match_at_ok t : forall cs rest trest i, (i + length t <= length cs)%nat ->
  match_at (cs ++ rest) (t ++ trest) i (length t) = Done (bool_decide (occurs cs t i)).
Proof.
  induction t as [|c t IH]; intros cs rest trest i Hi; cbn [length app match_at] in *.
  { rewrite bool_decide_true by reflexivity. by destruct trest. }
  destruct (lookup_lt_is_Some_2 cs i) as [x Ex]; [lia|].
  rewrite lookup_app_l, Ex by lia. cbn [need mbind outcome_bind].
  assert (occurs cs (c :: t) i <-> x = c /\ occurs cs t (S i)) as Ho.
  { unfold occurs. simpl length. rewrite (drop_S cs x i Ex). cbn [take]. split; [intros [= -> E]; by rewrite E|intros [-> ->]; done]. }
  destruct (Z.eqb_spec x c) as [->|Hne]; cbn [negb].
  - rewrite IH by lia. f_equal. apply bool_decide_ext. naive_solver.
  - rewrite bool_decide_false; [done|]. naive_solver.
Qed.

(** The answer of a search: the first position, or none at all. *)
Definition first_position (P : nat -> Prop) (r : option nat) : Prop :=
  match r with
  | Some i => P i /\ forall j, (j < i)%nat -> ~ P j
  | None => forall j, ~ P j
  end.

Lemma string_find_ok s cs str t : repr s cs -> is_cstr str t -> (length t <= length cs)%nat ->
  (Z.of_nat (length cs) < 0x10000000000000000) ->
  exists r, string_find s str = Done r /\ first_position (occurs cs t) r.
Proof.
  intros R Hs Hl Hbig. pose proof (repr_cstr s cs R) as [Hc [rest Ec]]. unfold string_find.
  rewrite (str_len_cstr str t Hs). cbn [mbind outcome_bind]. rewrite (repr_length s cs R), Ec.
  destruct (Nat.eqb_spec (length t) 0) as [E0|E0].
  { apply nil_length_inv in E0 as ->. exists (Some 0%nat). split; [done|]. split; [done|lia]. }
  cbn [mbind outcome_bind]. destruct Hs as [_ [trest ->]].
  replace (u64 (Z.of_nat (length cs) - Z.of_nat (length t))) with (Z.of_nat (length cs - length t))
    by (symmetry; rewrite Nat2Z.inj_sub by done; apply u64_small; unfold is_u64; lia).
  apply (loop_total (fun i => (i <= length cs - length t + 1)%nat /\ forall j, (j < i)%nat -> ~ occurs cs t j)
    (fun i => (length cs + 1 - i)%nat)).
  - intros i [Hi Hno]. destruct (Z.leb_spec (Z.of_nat i) (Z.of_nat (length cs - length t))) as [Hle|Hgt].
    + rewrite match_at_ok by lia. cbn [mbind outcome_bind].
      destruct (bool_decide_reflect (occurs cs t i)) as [Ho|Ho].
      * right. eexists. split; [done|]. by split.
      * left. eexists. split; [done|]. split; [|lia]. split; [lia|]. intros j Hj.
        destruct (decide (j = i)) as [->|]; [done|]. apply Hno. lia.
    + right. eexists. split; [done|]. intros j Ho.
      destruct (decide (j < i)%nat) as [Hj|Hj]; [by apply (Hno j Hj)|].
      apply (f_equal length) in Ho. rewrite length_take, length_drop in Ho. lia.
  - split; [lia|]. intros; lia.
  - rewrite length_app. simpl. lia.
Qed.

Lemma string_find_chr_ok s cs c : repr s cs -> c <> 0 ->
  exists r, string_find_chr s c = Done r /\ first_position (fun i => cs !! i = Some c) r.
Proof.
  intros R Hc0. pose proof (repr_cstr s cs R) as [Hc [rest Ec]]. unfold string_find_chr.
  rewrite (repr_length s cs R), Ec. cbn [mbind outcome_bind].
  apply (loop_total (fun i => (i <= length cs)%nat /\ forall j, (j < i)%nat -> cs !! j <> Some c)
    (fun i => (length cs - i)%nat)); [|split; [lia|intros; lia]|lia].
  intros i [Hi Hno]. destruct (Nat.ltb_spec i (length cs)) as [Hlt|Hge].
  - destruct (lookup_lt_is_Some_2 cs i Hlt) as [x Ex]. rewrite lookup_app_l, Ex by done.
    cbn [need mbind outcome_bind]. destruct (Z.eqb_spec x c) as [->|Hne].
    + right. eexists. split; [done|]. by split.
    + left. eexists. split; [done|]. split; [|lia]. split; [lia|]. intros j Hj.
      destruct (decide (j = i)) as [->|]; [congruence|]. apply Hno. lia.
  - right. eexists. split; [done|]. intros j Hj. apply (Hno j); [|done].
    apply lookup_lt_Some in Hj. lia.
Qed.

(** *** Programs over one string *)

(** Uses of a string variable; [size] and [cap] of a step are the uninitialised members
    of the object it creates. *)
Inductive str_op :=
  | OpAppend (str t : list Z)           (** [s.append(str)], [str] holding [t] *)
  | OpAppendChr (c : Z)                 (** [s.append(c)] *)
  | OpSubstring (size cap : nat) (start len : Z)  (** [s2 = s.substring(start, len)] *)
  | OpCopy (size cap : nat)             (** [string s2(s)] *)
  | OpMove (size cap : nat)             (** [string s2(move(s))] *)
  | OpClear.                            (** [s.clear()] *)

Definition run_op (s : kstring) (o : str_op) : outcome kstring :=
  match o with
  | OpAppend str _ => string_append s str
  | OpAppendChr c => string_append_chr s c
  | OpSubstring size cap start len => string_substring size cap s start len
  | OpCopy size cap => string_copy size cap s
  | OpMove size cap => r ← string_move size cap s; Done (fst r)
  | OpClear => string_clear s
  end.

Definition spec_op (cs : list Z) (o : str_op) : list Z :=
  match o with
  | OpAppend _ t => cs ++ t
  | OpAppendChr c => cs ++ [c]
  | OpSubstring _ _ start len => sub_list cs start len
  | OpCopy _ _ | OpMove _ _ => cs
  | OpClear => []
  end.

(** The arguments are C strings, those of [substring] are in range, and the results fit
    the heap. *)
Definition op_ok (cs : list Z) (o : str_op) : Prop :=
  (length (spec_op cs o) < room)%nat /\
  match o with OpAppend str t => is_cstr str t | OpAppendChr c => c <> 0
  | OpSubstring _ _ start len => sub_range cs start len | _ => True end.

Fixpoint run_ops (s : kstring) (os : list str_op) : outcome kstring :=
  match os with [] => Done s | o :: os => s ← run_op s o; run_ops s os end.
Definition spec_ops (cs : list Z) (os : list str_op) : list Z := fold_left spec_op os cs.
Fixpoint ops_ok (cs : list Z) (os : list str_op) : Prop :=
  match os with [] => True | o :: os => op_ok cs o /\ ops_ok (spec_op cs o) os end.

Lemma run_op_ok s cs o : Z.of_nat room < 0x10000000000000000 -> repr s cs -> (length cs < room)%nat -> op_ok cs o ->
  exists s', run_op s o = Done s' /\ repr s' (spec_op cs o).
Proof.
  intros Hbig R Hr [Hl Ho]. destruct o; simpl in *.
  - by apply string_append_ok.
  - apply string_append_ok; [done| |done]. split; [by repeat constructor|by exists []].
  - by apply string_substring_ok.
  - by apply string_copy_ok.
  - destruct (string_move_ok size cap s cs R) as (s' & r & -> & R' & _). simpl. eauto.
  - by apply (string_clear_ok s cs).
Qed.

Lemma run_ops_ok os : Z.of_nat room < 0x10000000000000000 -> forall s cs, repr s cs -> (length cs < room)%nat -> ops_ok cs os ->
  exists s', run_ops s os = Done s' /\ repr s' (spec_ops cs os).
Proof.
  intros Hbig. induction os as [|o os IH]; intros s cs R Hr Ho; simpl in *; [eauto|]. destruct Ho as [Ho Hos].
  destruct (run_op_ok s cs o Hbig R Hr Ho) as (s' & -> & R'). cbn [mbind outcome_bind].
  apply IH; [done|apply Ho|done].
Qed.

(** ** Properties *)

(** C11 (refinement): a string built by its constructors, [append], [substring], [clear],
    copy and move behaves like the list of its characters, across the switch between its
    own buffer and heap blocks and whatever the uninitialised members hold: as long as
    the heap has blocks of up to [room] bytes, the strings are shorter than that and
    [start + length] of a [substring] fits [size_t] (or [length] is [npos], or [start]
    is behind the end), every sequence of these operations returns, and the result holds
    exactly the characters the list program computes; [substring] is clamped to the end
    of the string. *)
Theorem string_refines_list size cap str t os :
  Z.of_nat room < 0x10000000000000000 -> is_cstr str t -> (length t < room)%nat -> ops_ok t os ->
  exists s s', string_cstr size cap str = Done s /\ run_ops s os = Done s' /\
    repr s' (spec_ops t os) /\ string_length s' = Done (length (spec_ops t os)).
Proof.
  intros Hbig Hs Hr Ho. destruct (string_cstr_ok size cap str t Hs Hr) as (s & E & R).
  destruct (run_ops_ok os Hbig s t R Hr Ho) as (s' & E' & R').
  exists s, s'. split_and!; [done|done|done|by apply repr_length].
Qed.

(** The sum [start + length] is computed modulo 2^64: with a [length] that makes it wrap
    (and is not [npos]) the clamping does not happen and [substring] reads behind the end
    of the string. *)
Theorem substring_wraps size cap s cs start len : repr s cs ->
  Z.of_nat (length (c_str s)) < 0xffffffffffffffff ->
  0 <= start < Z.of_nat (length cs) -> is_u64 len -> len <> npos -> 0x10000000000000000 <= start + len ->
  string_substring size cap s start len = Fault.
Proof.
  intros R Hb Hs Hl Hn Hw. pose proof (repr_cstr s cs R) as [_ [rest Ec]]. unfold string_substring.
  rewrite (repr_length s cs R). cbn [mbind outcome_bind]. rewrite Ec, length_app in *. cbn [length] in Hb.
  unfold is_u64, npos in *. rewrite (proj2 (Z.leb_gt _ start)), (proj2 (Z.eqb_neq len _)) by lia. cbn [orb].
  rewrite (proj2 (Z.ltb_ge _ (start ⊞ len))) by wordlia. destruct (bs_kmalloc _); [|done].
  cbn [need mbind outcome_bind]. unfold slice. rewrite (proj2 (Nat.leb_gt _ _)); [done|].
  rewrite length_app. cbn [length]. lia.
Qed.

(** On strings of that kind [==] decides equality of the characters, and
    both [find]s return the first position of a character or of a string that is not
    longer, or [npos] when there is none. *)
Theorem string_queries s cs s' cs' str t c :
  repr s cs -> repr s' cs' -> is_cstr str t -> (length t <= length cs)%nat -> c <> 0 ->
  Z.of_nat (length cs) < 0x10000000000000000 ->
  string_eq s s' = Done (bool_decide (cs = cs')) /\
  (exists r, string_find s str = Done r /\ first_position (occurs cs t) r) /\
  (exists r, string_find_chr s c = Done r /\ first_position (fun i => cs !! i = Some c) r).
Proof.
  intros R R' Hs Hl Hc Hbig. split_and!.
  - by apply string_eq_ok.
  - by apply string_find_ok.
  - by apply string_find_chr_ok.
Qed.

(** A long string after [reserve] keeps its characters and has spare room. *)
Lemma reserve_heap s cs n : repr s cs -> m_isUsingSSOBuffer s = false -> (length cs + 1 < n)%nat ->
  is_Some (bs_krealloc (m_data s) n) ->
  exists d, string_reserve s n = Done (mkStr (m_ssoBuffer s) d (length cs) n false) /\
    length d = n /\ take (length cs + 1) d = cs ++ [0].
Proof.
  intros (Hc & _ & R) Ef Hn [d Hd]. rewrite Ef in R. destruct R as (_ & Ed & Es & Ec).
  unfold string_reserve, string_capacity. rewrite Ef, Ec, (proj2 (Nat.leb_gt _ _)) by lia.
  rewrite Hd. cbn [need mbind outcome_bind]. rewrite Es. exists d. split; [done|].
  pose proof (bs_krealloc_size _ _ _ Hd) as Hl. split; [done|].
  pose proof (bs_krealloc_keeps _ _ _ Hd) as Hk. rewrite Ed, length_app in Hk. simpl in Hk.
  rewrite Nat.min_r in Hk by lia. rewrite Hk. rewrite take_ge; [done|]. rewrite length_app. simpl. lia.
Qed.

(** [append] into spare room does not touch [m_size]. *)
Lemma append_spare sso d n (cs str t : list Z) : is_cstr str t -> (SSO_SIZE <= length cs)%nat ->
  length d = n -> (length cs + length t < n)%nat ->
  exists d', string_append (mkStr sso d (length cs) n false) str =
    Done (mkStr sso d' (length cs) n false).
Proof.
  intros Hs Hl Hd Hn. unfold string_append. rewrite (str_len_cstr str t Hs). cbn [mbind outcome_bind].
  change (string_length (mkStr sso d (length cs) n false)) with (Done (length cs)). cbn [mbind outcome_bind].
  rewrite (slice_cstr str t Hs). cbn [mbind outcome_bind m_isUsingSSOBuffer m_capacity negb andb m_data].
  rewrite (proj2 (Nat.ltb_ge _ _)), (proj2 (Nat.ltb_lt _ _)) by lia.
  rewrite write_at_ok by (rewrite length_app; simpl; lia). cbn [mbind outcome_bind]. eauto.
Qed.

Lemma match_at_head_differs current c t i len x : current !! i = Some x -> x <> c ->
  match_at current (c :: t) i (S len) = Done false.
Proof. intros E Hne. simpl. rewrite E. simpl. by destruct (Z.eqb_spec x c). Qed.

Lemma find_runs_out (current : list Z) c t len bound : c ∉ current ->
  (forall i, (i <= length current)%nat -> Z.of_nat i <= bound) ->
  forall k i, (k + i = length current)%nat ->
  loop (S k) (fun i => if Z.of_nat i <=? bound then
        b ← match_at current (c :: t) i (S len);
        if b : bool then Done (inr (Some i)) else Done (inl (S i))
      else Done (inr None)) i = Fault.
Proof.
  intros Hc Hb. induction k as [|k IH]; intros i Hi; cbn [loop];
    rewrite (proj2 (Z.leb_le _ _)) by (apply Hb; lia).
  - simpl. rewrite lookup_ge_None_2 by lia. done.
  - destruct (lookup_lt_is_Some_2 current i) as [x Ex]; [lia|].
    rewrite (match_at_head_differs _ _ _ _ _ x Ex) by (intros ->; by apply Hc, (list_elem_of_lookup_2 _ i)).
    cbn [mbind outcome_bind]. apply IH. lia.
Qed.

(** Where the class departs from a list of characters.  After [reserve] an
    [append] that fits the spare room leaves [length()] as it was; assignment from a
    short string reads its uninitialised [m_size] and follows its uninitialised data
    pointer when that is 15 or more; [find] with a pattern longer than the string runs
    past the buffer; and [empty()] answers true for every long string. *)
Theorem string_departures s cs str t :
  repr s cs -> m_isUsingSSOBuffer s = false -> is_cstr str t ->
  (forall n, (length cs + length t < n)%nat -> t <> [] -> (length cs + 1 < n)%nat ->
     is_Some (bs_krealloc (m_data s) n) ->
     exists s1 s2, string_reserve s n = Done s1 /\ string_append s1 str = Done s2 /\
       string_length s2 = Done (length cs)) /\
  (forall size cap u other, is_cstr u t -> (length t < SSO_SIZE <= size)%nat -> (size < room)%nat ->
     string_cstr size cap u = Done other -> string_assign s other = Fault) /\
  (forall c r, t = c :: r -> (length cs < length t)%nat -> c ∉ c_str s ->
     Z.of_nat (length cs + length t) + 1 < 0x8000000000000000 -> string_find s str = Fault) /\
  string_empty s = true.
Proof.
  intros R Ef Hs. pose proof Hs as [Ht _]. split_and!.
  - intros n Hn Hne Hn' Hre.
    destruct (reserve_heap s cs n R Ef Hn' Hre) as (d & -> & Hd & Hk).
    destruct R as (_ & _ & R). rewrite Ef in R. destruct R as (Hlong & _).
    destruct (append_spare (m_ssoBuffer s) d n cs str t Hs Hlong) as (d' & E); [lia..|].
    eexists _, _. split_and!; [done|exact E|done].
  - intros size cap u other Hu [Hsh Hbig] Hr. unfold string_cstr. rewrite (str_len_cstr u t Hu).
    cbn [mbind outcome_bind]. rewrite (slice_cstr u t Hu). cbn [mbind outcome_bind].
    rewrite (proj2 (Nat.ltb_lt _ _)) by done.
    destruct (repr_sso (replicate 16 0) t [] size cap Ht Hsh) as (l & -> & _); [done|].
    cbn [mbind outcome_bind]. intros [= <-]. unfold string_assign. cbn [m_size m_data].
    rewrite (proj2 (Nat.ltb_ge _ _)) by done.
    destruct (block (size + 1)) as (b & -> & _); [lia|]. cbn [need mbind outcome_bind].
    unfold slice. rewrite (proj2 (Nat.leb_gt _ _)); [done|]. simpl. lia.
  - intros c r -> Hlen Hc Hbig. unfold string_find. rewrite (str_len_cstr str _ Hs). cbn [mbind outcome_bind].
    rewrite (repr_length s cs R). destruct Hs as [_ [rest ->]]. simpl length. cbn [Nat.eqb mbind outcome_bind].
    apply (find_runs_out (c_str s) c (r ++ 0 :: rest)); [done| |lia].
    intros i Hi. unfold c_str in Hi. rewrite Ef in Hi. destruct R as (_ & _ & R). rewrite Ef in R.
    destruct R as (_ & E & _). rewrite E, length_app in Hi. simpl in *.
    assert (u64 (Z.of_nat (length cs) - Z.of_nat (S (length r))) =
      0x10000000000000000 + Z.of_nat (length cs) - Z.of_nat (S (length r))) as -> by wordlia. lia.
  - destruct R as (_ & _ & R). rewrite Ef in R. destruct R as (Hl & _ & E & _).
    unfold string_empty. rewrite E. apply Nat.ltb_lt. unfold SSO_SIZE in Hl. lia.
Qed.
End string.

(** ** The kernel heap as a source of blocks *)

(** The block that [allocate] finds in the heap state [h]; a larger one replaces a block by
    allocating and copying. *)
Definition heap_block (h : Heap) (n : nat) : option (list Z) :=
  match allocate h (Z.of_nat n) with
  | Done (h', p) => if p =? 0 then None else read_bytes (h_mem h') p n
  | _ => None
  end.

Definition heap_grow (h : Heap) (l : list Z) (n : nat) : option (list Z) :=
  b ← heap_block h n; Some (take n l ++ drop (length l) b).

Lemma heap_block_size h n b : heap_block h n = Some b -> length b = n.
Proof.
  unfold heap_block. destruct (allocate h (Z.of_nat n)) as [[h' p]| |]; try done.
  destruct (p =? 0); [done|]. apply read_bytes_length.
Qed.

Lemma heap_grow_size h l n b : heap_grow h l n = Some b -> length b = n.
Proof.
  intros (b' & Hb & [= <-])%bind_Some. apply heap_block_size in Hb.
  rewrite length_app, length_take, length_drop. lia.
Qed.

Lemma heap_grow_keeps h l n b : heap_grow h l n = Some b ->
  take (Nat.min n (length l)) b = take (Nat.min n (length l)) l.
Proof.
  intros (b' & Hb & [= <-])%bind_Some. rewrite take_app_le by (rewrite length_take; lia).
  rewrite take_take. f_equal. lia.
Qed.

#[export] Instance heap_blocks (h : Heap) : BlockSource := {
  bs_kmalloc := heap_block h;
  bs_krealloc := heap_grow h;
  bs_kmalloc_size := heap_block_size h;
  bs_krealloc_size := heap_grow_size h;
  bs_krealloc_keeps := heap_grow_keeps h;
}.

(** First fit serves every request that some free segment can hold with its headers. *)
Lemma heap_blocks_serve h segs n : heap_rep h segs -> h_lock h = 0 ->
  Z.of_nat n < 0x4000000000000000 ->
  snd (alloc_spec (m_firstSegment h) segs (Z.of_nat n)) <> 0 -> is_Some (heap_block h n).
Proof.
  intros Hr Hl Hn Hs. unfold heap_block.
  destruct (allocate_runs h segs (Z.of_nat n) Hr Hl ltac:(lia)) as (m' & -> & R & _).
  destruct (Z.eqb_spec (snd (alloc_spec (m_firstSegment h) segs (Z.of_nat n))) 0); [done|].
  destruct (alloc_spec_success _ _ _ Hs) as (l1 & s & l2 & -> & Hf & Hsz & E & F).
  rewrite F in R. destruct (rep_focus _ _ _ _ R) as (H0 & H1 & H2 & H3 & H4).
  destruct (mapped_read (h_mem (set_mem h m')) (snd (alloc_spec (m_firstSegment h) (l1 ++ s :: l2) (Z.of_nat n))) n)
    as (bs & -> & _); [|done].
  rewrite E. eapply mapped_sub; [exact H4|..]; simpl in *; lia.
Qed.

(** ** Witnesses, with the blocks of a heap of 2048 bytes *)
Lemma demo_serves n : (n <= 200)%nat -> is_Some (@bs_kmalloc (heap_blocks demo0) n).
Proof.
  intros Hn. apply (heap_blocks_serve demo0 [Seg 2048 true 0]);
    [apply demo0_rep|by vm_compute|lia|].
  unfold alloc_spec. cbn [pick s_free s_size andb].
  destruct (Z.leb_spec (Z.of_nat n + 64) 2048); [|lia]. cbn [s_size].
  destruct (Z.ltb_spec (2048 - (Z.of_nat n + 64)) 2); [lia|]. cbn [snd total].
  pose proof (rep_base _ _ demo0_rep). unfold total. cbn [foldr]. lia.
Qed.

(** "kernel", "/drivers/usb" and a long string *)
Definition demo_kernel : list Z := [107; 101; 114; 110; 101; 108].
Definition demo_path : list Z := [47; 100; 114; 105; 118; 101; 114; 115; 47; 117; 115; 98].
Definition demo_long : kstring := mkStr (replicate 16 0) (demo_kernel ++ demo_path ++ [0]) 18 19 false.

Lemma demo_chars l : forallb (fun c => negb (c =? 0)) l = true -> is_cstr (l ++ [0]) l.
Proof.
  intros Hl. split; [|by exists []]. apply Forall_forall. intros c Hc.
  rewrite forallb_forall in Hl. specialize (Hl c ltac:(by apply list_elem_of_In)).
  by destruct (Z.eqb_spec c 0).
Qed.

Lemma demo_long_repr : repr demo_long (demo_kernel ++ demo_path).
Proof.
  split_and!; [apply (demo_chars (demo_kernel ++ demo_path)); reflexivity|done|].
  split_and!; try done. vm_compute. lia.
Qed.

Lemma string_refines_list_witness : exists s s',
  string_cstr (H := heap_blocks demo0) 7 7 (demo_kernel ++ [0]) = Done s /\
  run_ops (H := heap_blocks demo0) s [OpAppend (demo_path ++ [0]) demo_path; OpAppendChr 33; OpCopy 3 3;
    OpMove 1 1; OpSubstring 0 0 1 5] = Done s' /\
  string_length s' = Done 5%nat.
Proof.
  destruct (string_refines_list (H := heap_blocks demo0) 200 demo_serves 7 7 (demo_kernel ++ [0]) demo_kernel
    [OpAppend (demo_path ++ [0]) demo_path; OpAppendChr 33; OpCopy 3 3; OpMove 1 1;
     OpSubstring 0 0 1 5]) as (s & s' & E1 & E2 & _ & E3).
  - reflexivity.
  - by apply demo_chars.
  - vm_compute. lia.
  - cbn [ops_ok]. unfold op_ok. split_and!; try done; try (vm_compute; lia); try (by apply demo_chars). unfold sub_range, is_u64. lia.
  - exists s, s'. split_and!; [exact E1|exact E2|exact E3].
Defined.

Lemma string_queries_witness : string_eq demo_long demo_long = Done true /\
  exists r, string_find demo_long (demo_path ++ [0]) = Done r /\
    first_position (occurs (demo_kernel ++ demo_path) demo_path) r.
Proof.
  destruct (string_queries demo_long (demo_kernel ++ demo_path) demo_long (demo_kernel ++ demo_path)
    (demo_path ++ [0]) demo_path 47 demo_long_repr demo_long_repr) as (E1 & E2 & _);
    [by apply demo_chars|vm_compute; lia|done|vm_compute; reflexivity|].
  split; [|exact E2]. rewrite E1. reflexivity.
Defined.

Lemma string_departures_witness : string_empty demo_long = true /\
  string_find demo_long (replicate 30 64 ++ [0]) = Fault.
Proof.
  destruct (string_departures (H := heap_blocks demo0) 200 demo_serves demo_long (demo_kernel ++ demo_path)
    (replicate 30 64 ++ [0]) (replicate 30 64) demo_long_repr eq_refl ltac:(by apply demo_chars))
    as (_ & _ & E3 & E4).
  split; [exact E4|]. apply (E3 64 (replicate 29 64)); [done|vm_compute; lia| |vm_compute; reflexivity].
  vm_compute. intros Hin. repeat (apply elem_of_cons in Hin as [Hin|Hin]; [done|]).
  by apply not_elem_of_nil in Hin.
Defined.
