(* ===== verification/KVector.v ===== *)
(** * The kernel's vector (kernel/src/core/kvector.h, kstl_primitive.h)

    A block of slots; a slot holds a constructed object ([Some]) or raw memory
    ([None]).  Reading raw memory, destroying an object that is not there and any
    access outside the block fault.  [prim] is [is_primitive<T>::value]: for
    primitive types objects are assigned, and destructors do nothing.

    An operation that allocates takes the answer of [kmalloc] as an argument: [true]
    when it returns a block.  [sz] is [sizeof(T)].  The doubled capacity and the number
    of bytes [newCapacity * sizeof(T)] are computed in [size_t] and wrap: the block then
    has fewer slots than the capacity says. *)
From Stdlib Require Import ZArith Lia.
From stdpp Require Import base tactics numbers option list gmap.
From S2P Require Import Prelude.

Record vec (A : Type) := mkVec {
  m_data : option (list (option A));   (** [None] is the null pointer *)
  m_size : nat;
  m_capacity : nat;
}.
Arguments mkVec {A}.
Arguments m_data {A}.
Arguments m_size {A}.
Arguments m_capacity {A}.

(** The bytes of [n] elements fit [size_t]. *)
Definition fits (sz : Z) (n : nat) : Prop := (Z.of_nat n * sz < 0x10000000000000000)%Z.

Section vector.
Context {A : Type} (prim : bool) (sz : Z).

(** ** Slots *)

(** [m_data[i]] as a value *)
Definition slot_get (d : list (option A)) (i : nat) : outcome A :=
  s ← need (d !! i); need s.

(** [m_data[i] = x] for a primitive type, [new(&m_data[i]) T(x)] otherwise *)
Definition slot_put (d : list (option A)) (i : nat) (x : A) : outcome (list (option A)) :=
  _ ← need (d !! i); Done (<[i := Some x]> d).

(** [m_data[i].~T()] *)
Definition slot_destroy (d : list (option A)) (i : nat) : outcome (list (option A)) :=
  if prim then Done d
  else _ ← slot_get d i; Done (<[i := None]> d).

Definition block (v : vec A) : outcome (list (option A)) := need (m_data v).

(** The elements that [kmalloc(capacity * sizeof(T))] has room for. *)
Definition block_slots (capacity : nat) : nat := Z.to_nat ((Z.of_nat capacity ⊠ sz) / sz).

(** A block from [kmalloc], or the null pointer. *)
Definition new_block (ok : bool) (capacity : nat) : option (list (option A)) :=
  if ok then Some (replicate (block_slots capacity) None) else None.

(** [for (i = from; i < to; ++i) m_data[i].~T()] *)
Fixpoint destroy_range (d : list (option A)) (from n : nat) : outcome (list (option A)) :=
  match n with
  | O => Done d
  | S n => d ← slot_destroy d from; destroy_range d (S from) n
  end.

(** Copying [n] elements of [src] from index [i] on to the same indices of [d]. *)
Fixpoint copy_range (d src : list (option A)) (i n : nat) : outcome (list (option A)) :=
  match n with
  | O => Done d
  | S n => x ← slot_get src i; d ← slot_put d i x; copy_range d src (S i) n
  end.

(** ** Construction and destruction *)
Definition vector_new : vec A := mkVec None 0 0.

Definition vector_capacity_new (ok : bool) (initialCapacity : nat) : vec A :=
  mkVec (if (0 <? initialCapacity)%nat then new_block ok initialCapacity else None) 0 initialCapacity.

Definition vector_copy (ok : bool) (other : vec A) : outcome (vec A) :=
  if (0 <? m_capacity other)%nat then
    match new_block ok (m_capacity other), m_size other with
    | None, O => Done (mkVec None 0 (m_capacity other))
    | None, S _ => Fault
    | Some d, O => Done (mkVec (Some d) 0 (m_capacity other))
    | Some d, n =>
        src ← block other;
        d ← copy_range d src 0 n;
        Done (mkVec (Some d) n (m_capacity other))
    end
  else Done (mkVec None (m_size other) (m_capacity other)).

(** The new vector and the one moved from. *)
Definition vector_move (other : vec A) : vec A * vec A := (other, mkVec None 0 0).

(** The destructor: the elements die and the block goes back. *)
Definition vector_destroy (v : vec A) : outcome unit :=
  match m_data v with
  | Some d => _ ← destroy_range d 0 (m_size v); Done tt
  | None => Done tt
  end.

(** [operator=]; [self] is [this == &other] *)
Definition vector_assign (self ok : bool) (v other : vec A) : outcome (vec A) :=
  if self then Done v else
  _ ← vector_destroy v;
  let d := if (0 <? m_capacity other)%nat then new_block ok (m_capacity other) else None in
  match m_size other, d with
  | O, _ => Done (mkVec d 0 (m_capacity other))
  | S _, None => Fault
  | n, Some d =>
      src ← block other;
      d ← copy_range d src 0 n;
      Done (mkVec (Some d) n (m_capacity other))
  end.

(** The target and the vector moved from. *)
Definition vector_move_assign (self : bool) (v other : vec A) : outcome (vec A * vec A) :=
  if self then Done (v, other) else
  _ ← vector_destroy v; Done (other, mkVec None 0 0).

(** ** Growing *)

(** The loop of [_reallocate]: element [i] moves to the new block and, for a class
    type, dies in the old one. *)
Fixpoint move_range (d d' : list (option A)) (i n : nat)
  : outcome (list (option A) * list (option A)) :=
  match n with
  | O => Done (d, d')
  | S n =>
      x ← slot_get d i;
      d' ← slot_put d' i x;
      d ← slot_destroy d i;
      move_range d d' (S i) n
  end.

Definition reallocate_vec (ok : bool) (v : vec A) (newCapacity : nat) : outcome (vec A) :=
  match new_block ok newCapacity with
  | None => Done v
  | Some d' =>
      match m_size v with
      | O => Done (mkVec (Some d') 0 newCapacity)
      | n =>
          d ← block v;
          r ← move_range d d' 0 n;
          Done (mkVec (Some (snd r)) n newCapacity)
      end
  end.

(** [if (m_size == m_capacity) _reallocate(m_capacity == 0 ? 1 : 2 * m_capacity)] *)
Definition grow (ok : bool) (v : vec A) : outcome (vec A) :=
  if (m_size v =? m_capacity v)%nat
  then reallocate_vec ok v (if (m_capacity v =? 0)%nat then 1 else Z.to_nat (2 ⊠ Z.of_nat (m_capacity v)))
  else Done v.

Definition reserve (ok : bool) (v : vec A) (newCapacity : nat) : outcome (vec A) :=
  if (m_capacity v <? newCapacity)%nat then reallocate_vec ok v newCapacity else Done v.

(** ** Elements *)
Definition vector_index (v : vec A) (i : nat) : outcome A := d ← block v; slot_get d i.

(** [v[i] = x] *)
Definition vector_store (v : vec A) (i : nat) (x : A) : outcome (vec A) :=
  d ← block v; d ← slot_put d i x; Done (mkVec (Some d) (m_size v) (m_capacity v)).

Definition pushBack (ok : bool) (v : vec A) (value : A) : outcome (vec A) :=
  v ← grow ok v;
  d ← block v;
  d ← slot_put d (m_size v) value;
  Done (mkVec (Some d) (S (m_size v)) (m_capacity v)).

(** [for (i = top; i > index; --i)]: the element moves one to the right. *)
Fixpoint shift_right (d : list (option A)) (index n : nat) : outcome (list (option A)) :=
  match n with
  | O => Done d
  | S n' =>
      let i := (index + n)%nat in
      x ← slot_get d (i - 1);
      d ← slot_put d i x;
      d ← slot_destroy d (i - 1);
      shift_right d index n'
  end.

Definition vector_insert (ok : bool) (v : vec A) (index : nat) (value : A) : outcome (vec A) :=
  if (m_size v <? index)%nat then Done v
  else
    v ← grow ok v;
    d ← block v;
    d ← shift_right d index (m_size v - index);
    d ← slot_put d index value;
    Done (mkVec (Some d) (S (m_size v)) (m_capacity v)).

Definition popBack (v : vec A) : outcome (vec A) :=
  if (0 <? m_size v)%nat then
    d ← block v;
    d ← slot_destroy d (m_size v - 1);
    Done (mkVec (Some d) (m_size v - 1) (m_capacity v))
  else Done v.

(** [for (i = index; i < m_size - 1; ++i)]: the body of [erase] destroys the
    moved-from element inside the branch for class types and again after it. *)
Fixpoint shift_left (d : list (option A)) (i n : nat) : outcome (list (option A)) :=
  match n with
  | O => Done d
  | S n =>
      x ← slot_get d (S i);
      d ← slot_put d i x;
      d ← (if prim then Done d else slot_destroy d (S i));
      d ← slot_destroy d (S i);
      shift_left d (S i) n
  end.

Definition erase (v : vec A) (index : nat) : outcome (vec A) :=
  if (index <? m_size v)%nat then
    d ← block v;
    d ← slot_destroy d index;
    d ← shift_left d index (m_size v - 1 - index);
    Done (mkVec (Some d) (m_size v - 1) (m_capacity v))
  else Done v.

Definition clear (v : vec A) : outcome (vec A) :=
  match m_size v with
  | O => Done v
  | n => d ← block v; d ← destroy_range d 0 n; Done (mkVec (Some d) 0 (m_capacity v))
  end.

(** [npos] is [None]. *)
Fixpoint find_from (eqb : A -> A -> bool) (d : list (option A)) (i n : nat) (value : A)
  : outcome (option nat) :=
  match n with
  | O => Done None
  | S n => x ← slot_get d i;
           if eqb x value then Done (Some i) else find_from eqb d (S i) n value
  end.

Definition vector_find (eqb : A -> A -> bool) (v : vec A) (value : A) : outcome (option nat) :=
  match m_size v with
  | O => Done None
  | n => d ← block v; find_from eqb d 0 n value
  end.

Definition size (v : vec A) : nat := m_size v.
Definition capacity (v : vec A) : nat := m_capacity v.
Definition empty (v : vec A) : bool := (m_size v =? 0)%nat.

(** ** The list a vector stands for *)

(** The elements in order, then slots that hold nothing; for a primitive type a slot
    behind the end may still hold an old value. *)
Definition repr (v : vec A) (l : list A) : Prop :=
  m_size v = length l /\
  match m_data v with
  | None => l = [] /\ m_capacity v = 0%nat
  | Some d => exists tail, d = (Some <$> l) ++ tail /\ length d = m_capacity v /\
                           (prim = false -> Forall (fun s => s = None) tail)
  end.

(** Slots the elements [xs] have left. *)
Definition left_behind (xs : list A) : list (option A) :=
  if prim then Some <$> xs else replicate (length xs) None.

Lemma slot_get_mid (d1 d2 : list (option A)) x :
  slot_get (d1 ++ Some x :: d2) (length d1) = Done x.
Proof. unfold slot_get. by rewrite lookup_app_r, Nat.sub_diag by done. Qed.

Lemma slot_put_mid (d1 d2 : list (option A)) s x :
  slot_put (d1 ++ s :: d2) (length d1) x = Done (d1 ++ Some x :: d2).
Proof.
  unfold slot_put. rewrite lookup_app_r, Nat.sub_diag by done. simpl.
  by rewrite insert_app_r_alt, Nat.sub_diag by done.
Qed.

Lemma slot_destroy_mid (d1 d2 : list (option A)) x :
  slot_destroy (d1 ++ Some x :: d2) (length d1) = Done (d1 ++ left_behind [x] ++ d2).
Proof.
  unfold slot_destroy, left_behind. destruct prim; [done|]. rewrite slot_get_mid. simpl.
  by rewrite insert_app_r_alt, Nat.sub_diag by done.
Qed.

Lemma length_left_behind xs : length (left_behind xs) = length xs.
Proof. unfold left_behind. destruct prim; [apply length_fmap|apply length_replicate]. Qed.

Lemma left_behind_snoc xs x : left_behind xs ++ left_behind [x] = left_behind (xs ++ [x]).
Proof.
  unfold left_behind. destruct prim; [by rewrite fmap_app|].
  by rewrite length_app, replicate_add.
Qed.

Lemma left_behind_none xs : prim = false -> Forall (fun s => s = None) (left_behind xs).
Proof. unfold left_behind. intros ->. by apply Forall_replicate. Qed.

Lemma move_range_all l1 l2 t t' :
  (length l2 <= length t')%nat ->
  move_range (left_behind l1 ++ (Some <$> l2) ++ t) ((Some <$> l1) ++ t') (length l1) (length l2)
  = Done (left_behind (l1 ++ l2) ++ t, (Some <$> (l1 ++ l2)) ++ drop (length l2) t').
Proof.
  revert l1 t'. induction l2 as [|x l2 IH]; intros l1 t' Hlen; simpl in *.
  { by rewrite app_nil_r. }
  destruct t' as [|s t']; simpl in *; [lia|].
  rewrite <- (length_left_behind l1) at 1. rewrite slot_get_mid. simpl.
  rewrite <- (length_fmap Some l1). rewrite slot_put_mid. simpl.
  rewrite length_fmap, <- (length_left_behind l1), slot_destroy_mid. simpl.
  rewrite app_assoc, left_behind_snoc, length_left_behind.
  replace ((Some <$> l1) ++ Some x :: t') with ((Some <$> (l1 ++ [x])) ++ t')
    by (by rewrite fmap_app, <- app_assoc).
  replace (S (length l1)) with (length (l1 ++ [x])) by (rewrite length_app; simpl; lia).
  rewrite IH by lia. by rewrite <- app_assoc.
Qed.

Lemma shift_right_all (l1 l2 : list A) s t :
  exists s', shift_right ((Some <$> (l1 ++ l2)) ++ s :: t) (length l1) (length l2)
             = Done ((Some <$> l1) ++ s' :: (Some <$> l2) ++ t).
Proof.
  revert s t. induction l2 as [|x l2 IH] using rev_ind; intros s t.
  { exists s. simpl. by rewrite app_nil_r. }
  rewrite length_app, Nat.add_comm. cbn [length Nat.add shift_right].
  set (p := Some <$> (l1 ++ l2)).
  assert ((Some <$> (l1 ++ l2 ++ [x])) = p ++ [Some x]) as -> by (unfold p; by rewrite !fmap_app, app_assoc).
  assert (length l1 + S (length l2) - 1 = length p)%nat as ->
    by (unfold p; rewrite length_fmap, length_app; lia).
  rewrite <- app_assoc. simpl. rewrite slot_get_mid. simpl.
  assert (length l1 + S (length l2) = length (p ++ [Some x]))%nat as ->
    by (unfold p; rewrite length_app, length_fmap, length_app; simpl; lia).
  replace (p ++ Some x :: s :: t) with ((p ++ [Some x]) ++ s :: t) by (by rewrite <- app_assoc).
  rewrite slot_put_mid. simpl. rewrite <- app_assoc. simpl. rewrite slot_destroy_mid. simpl.
  assert (exists s0, left_behind [x] = [s0]) as [s0 ->]
    by (unfold left_behind; destruct prim; simpl; eauto).
  destruct (IH s0 (Some x :: t)) as [s' E]. simpl. fold p in E. rewrite E. exists s'.
  by rewrite fmap_app, <- app_assoc.
Qed.

Lemma shift_left_all (l1 l2 : list A) s t :
  prim = true ->
  exists s', shift_left ((Some <$> l1) ++ s :: (Some <$> l2) ++ t) (length l1) (length l2)
             = Done ((Some <$> (l1 ++ l2)) ++ s' :: t).
Proof.
  intros Hp. revert l1 s. induction l2 as [|x l2 IH]; intros l1 s.
  { exists s. simpl. by rewrite app_nil_r. }
  cbn [length shift_left]. rewrite fmap_cons. cbn [app].
  replace (S (length l1)) with (length ((Some <$> l1) ++ [s]))
    by (rewrite length_app, length_fmap; simpl; lia).
  set (t2 := (Some <$> l2) ++ t) in *.
  replace ((Some <$> l1) ++ s :: Some x :: t2) with (((Some <$> l1) ++ [s]) ++ Some x :: t2)
    by (by rewrite <- app_assoc).
  rewrite slot_get_mid. simpl. rewrite <- app_assoc. simpl.
  rewrite <- (length_fmap Some l1). rewrite slot_put_mid. simpl.
  unfold slot_destroy. rewrite Hp. simpl.
  destruct (IH (l1 ++ [x]) (Some x)) as [s' E]. exists s'.
  rewrite fmap_app, length_app, <- !app_assoc in E. simpl in E.
  rewrite length_app, length_fmap. simpl. exact E.
Qed.

Lemma destroy_all (l1 l2 : list A) t :
  destroy_range (left_behind l1 ++ (Some <$> l2) ++ t) (length l1) (length l2)
  = Done (left_behind (l1 ++ l2) ++ t).
Proof.
  revert l1. induction l2 as [|x l2 IH]; intros l1; simpl.
  { by rewrite app_nil_r. }
  rewrite <- (length_left_behind l1), slot_destroy_mid. simpl.
  rewrite app_assoc, left_behind_snoc, length_left_behind.
  replace (S (length l1)) with (length (l1 ++ [x])) by (rewrite length_app; simpl; lia).
  rewrite IH. by rewrite <- app_assoc.
Qed.

Lemma copy_all (l1 l2 : list A) t t' :
  (length l2 <= length t')%nat ->
  copy_range ((Some <$> l1) ++ t') ((Some <$> (l1 ++ l2)) ++ t) (length l1) (length l2)
  = Done ((Some <$> (l1 ++ l2)) ++ drop (length l2) t').
Proof.
  revert l1 t'. induction l2 as [|x l2 IH]; intros l1 t' Hlen.
  { simpl. by rewrite app_nil_r. }
  destruct t' as [|s t']; simpl in Hlen; [lia|]. cbn [length copy_range drop].
  assert (slot_get ((Some <$> (l1 ++ x :: l2)) ++ t) (length l1) = Done x) as ->.
  { rewrite fmap_app, fmap_cons, <- app_assoc, <- (length_fmap Some l1). apply slot_get_mid. }
  pose proof (slot_put_mid (Some <$> l1) t' s x) as E. rewrite length_fmap in E.
  cbn [mbind outcome_bind]. rewrite E. cbn [mbind outcome_bind].
  specialize (IH (l1 ++ [x]) t'). rewrite length_app, Nat.add_1_r, fmap_app, <- !app_assoc in IH.
  apply IH. lia.
Qed.

(** ** Operations on the list *)

Lemma repr_new : repr vector_new [].
Proof. by split. Qed.

Lemma repr_size v l : repr v l -> m_size v = length l.
Proof. by intros [? _]. Qed.

Lemma repr_capacity v l : repr v l -> (length l <= m_capacity v)%nat.
Proof.
  intros [Hs Hd]. destruct (m_data v) as [d|]; [|destruct Hd; subst; simpl; lia].
  destruct Hd as (t & -> & Hlen & _). rewrite length_app, length_fmap in Hlen. lia.
Qed.

(** A block of which the elements are known. *)
Lemma repr_intro d l tail cap :
  d = (Some <$> l) ++ tail -> length d = cap -> (prim = false -> Forall (fun s => s = None) tail) ->
  repr (mkVec (Some d) (length l) cap) l.
Proof. intros. split; simpl; [done|]. eauto. Qed.

Lemma block_slots_fits n : (0 < sz)%Z -> fits sz n -> block_slots n = n.
Proof.
  unfold block_slots, fits. intros Hs Hf. rewrite u64_small by (unfold is_u64; nia).
  rewrite Z.div_mul by lia. apply Nat2Z.id.
Qed.

Lemma fits_le n m : (0 < sz)%Z -> (n <= m)%nat -> fits sz m -> fits sz n.
Proof. unfold fits. nia. Qed.

Lemma reallocate_repr v l n :
  repr v l -> (0 < sz)%Z -> fits sz n -> (length l <= n)%nat ->
  exists v', reallocate_vec true v n = Done v' /\ repr v' l /\ m_capacity v' = n.
Proof.
  intros [Hs Hd] Hsz Hf Hn. unfold reallocate_vec, new_block. rewrite Hs, block_slots_fits by done.
  destruct (decide (l = [])) as [->|Hne].
  { eexists. simpl. split; [done|]. split; [|done].
    apply (repr_intro _ [] (replicate n None)); [done|apply length_replicate|].
    intros _. by apply Forall_replicate. }
  destruct (m_data v) as [d|] eqn:Ed; [|naive_solver].
  destruct Hd as (t & -> & Hlen & Ht). unfold block. rewrite Ed. cbn [need mbind outcome_bind].
  pose proof (move_range_all [] l t (replicate n None)) as E.
  simpl in E. rewrite length_replicate in E. unfold left_behind at 1 in E.
  assert ((if prim then [] else []) = @nil (option A)) as H0 by (by destruct prim).
  simpl in E. rewrite H0 in E. simpl in E.
  destruct l as [|x l]; [done|]. cbn [length] in *. rewrite E by lia.
  eexists. split; [reflexivity|]. split; [|done].
  apply (repr_intro _ (x :: l) (replicate (n - S (length l)) None)).
  - cbn [snd]. by rewrite drop_replicate.
  - cbn [snd]. rewrite drop_replicate, length_app, length_fmap, length_replicate. simpl. lia.
  - intros _. by apply Forall_replicate.
Qed.

(** Room for one more. *)
Lemma grow_repr v l :
  repr v l -> (0 < sz)%Z -> fits sz (1 `max` (2 * length l)) ->
  exists v', grow true v = Done v' /\ repr v' l /\ (length l < m_capacity v')%nat.
Proof.
  intros Hv Hsz Hf. pose proof (repr_capacity v l Hv) as Hc. pose proof (repr_size v l Hv) as Hs.
  unfold grow. rewrite Hs. destruct (Nat.eqb_spec (length l) (m_capacity v)) as [E|E].
  - rewrite u64_small by (unfold is_u64, fits in *; nia).
    replace (Z.to_nat (2 * Z.of_nat (m_capacity v))) with (2 * m_capacity v)%nat by lia.
    set (n := if (m_capacity v =? 0)%nat then 1%nat else (2 * m_capacity v)%nat).
    assert (length l < n <= 1 `max` (2 * length l))%nat as Hn by (unfold n; destruct (Nat.eqb_spec (m_capacity v) 0); lia).
    destruct (reallocate_repr v l n Hv Hsz) as (v' & H1 & H2 & H3); [by eapply fits_le; [|apply Hn|]|lia|].
    exists v'. rewrite H3. split_and!; [done|done|lia].
  - exists v. split_and!; [done|done|lia].
Qed.

Lemma repr_block v l :
  repr v l -> (0 < m_capacity v)%nat ->
  exists t, m_data v = Some ((Some <$> l) ++ t) /\ (length l + length t = m_capacity v)%nat /\
            (prim = false -> Forall (fun s => s = None) t).
Proof.
  intros [Hs Hd] Hc. destruct (m_data v) as [d|]; [|lia].
  destruct Hd as (t & -> & Hlen & Ht). rewrite length_app, length_fmap in Hlen. eauto.
Qed.

Lemma insert_repr v l i x :
  repr v l -> (0 < sz)%Z -> fits sz (1 `max` (2 * length l)) -> (i <= length l)%nat ->
  exists v', vector_insert true v i x = Done v' /\ repr v' (take i l ++ x :: drop i l).
Proof.
  intros Hv Hsz Hf Hi. unfold vector_insert. rewrite (repr_size _ _ Hv).
  destruct (Nat.ltb_spec (length l) i); [lia|].
  destruct (grow_repr v l Hv Hsz Hf) as (v1 & E & Hv1 & Hc). rewrite E. simpl.
  destruct (repr_block v1 l Hv1) as (t & Ed & Hlen & Ht); [lia|].
  unfold block. rewrite Ed. simpl. rewrite (repr_size _ _ Hv1).
  destruct t as [|s t]; simpl in Hlen; [lia|].
  destruct (shift_right_all (take i l) (drop i l) s t) as [s' Es].
  rewrite take_drop, length_take, length_drop, Nat.min_l in Es by lia. rewrite Es. simpl.
  pose proof (slot_put_mid (Some <$> take i l) ((Some <$> drop i l) ++ t) s' x) as Ep.
  rewrite length_fmap, length_take, Nat.min_l in Ep by lia. rewrite Ep. simpl.
  eexists. split; [reflexivity|].
  assert (S (length l) = length (take i l ++ x :: drop i l)) as ->
    by (rewrite length_app, length_take; simpl; rewrite length_drop; lia).
  apply (repr_intro _ _ t).
  - rewrite fmap_app. simpl. by rewrite <- app_assoc.
  - rewrite length_app, length_fmap, length_take. simpl. rewrite length_app, length_fmap, length_drop. lia.
  - intros Hp. specialize (Ht Hp). by inversion Ht.
Qed.

Lemma pushBack_insert ok v l x :
  repr v l -> pushBack ok v x = vector_insert ok v (m_size v) x.
Proof.
  intros Hv. unfold pushBack, vector_insert. rewrite Nat.ltb_irrefl.
  assert (forall v', grow ok v = Done v' -> m_size v' = m_size v) as Hg.
  { intros v'. unfold grow, reallocate_vec, new_block. intros Hg.
    repeat case_match; inv_bind; done. }
  destruct (grow ok v) as [v1| |] eqn:E; [|done..]. simpl. rewrite <- (Hg v1) by done.
  destruct (block v1); [|done..]. simpl. by rewrite Nat.sub_diag.
Qed.

Lemma pushBack_repr v l x :
  repr v l -> (0 < sz)%Z -> fits sz (1 `max` (2 * length l)) ->
  exists v', pushBack true v x = Done v' /\ repr v' (l ++ [x]).
Proof.
  intros Hv Hsz Hf. rewrite (pushBack_insert _ _ l) by done. rewrite (repr_size _ _ Hv).
  destruct (insert_repr v l (length l) x Hv Hsz Hf) as (v' & E & H); [done|].
  exists v'. split; [done|]. by rewrite firstn_all, drop_all in H.
Qed.

Lemma popBack_repr v l :
  repr v l -> exists v', popBack v = Done v' /\ repr v' (take (length l - 1) l).
Proof.
  intros Hv. unfold popBack. rewrite (repr_size _ _ Hv).
  destruct (Nat.ltb_spec 0 (length l)) as [H|H].
  - pose proof (repr_capacity _ _ Hv).
    destruct (repr_block v l Hv) as (t & Ed & Hlen & Ht); [lia|].
    destruct (exists_last (l := l)) as (l' & x & ->); [intros ->; simpl in *; lia|].
    rewrite length_app in *. cbn [length] in *.
    replace (length l' + 1 - 1)%nat with (length l') by lia.
    pose proof (slot_destroy_mid (Some <$> l') t x) as E. rewrite length_fmap in E.
    unfold block. rewrite Ed, fmap_app, <- app_assoc. cbn [need mbind outcome_bind].
    cbn [app fmap list_fmap]. rewrite E. cbn [mbind outcome_bind].
    eexists. split; [reflexivity|]. rewrite take_app_length.
    apply (repr_intro _ _ (left_behind [x] ++ t)); [done| |].
    + rewrite !length_app, length_fmap, length_left_behind. simpl. lia.
    + intros Hp. apply Forall_app. auto using left_behind_none.
  - destruct l; [|simpl in *; lia]. exists v. by split.
Qed.

Lemma clear_repr v l : repr v l -> exists v', clear v = Done v' /\ repr v' [].
Proof.
  intros Hv. unfold clear. pose proof (repr_capacity _ _ Hv). rewrite (repr_size _ _ Hv).
  destruct l as [|x l]; [by exists v|].
  destruct (repr_block v _ Hv) as (t & Ed & Hlen & Ht); [simpl in *; lia|].
  cbn [length]. unfold block. rewrite Ed. cbn [need mbind outcome_bind].
  pose proof (destroy_all [] (x :: l) t) as E. unfold left_behind at 1 in E.
  assert ((if prim then [] else []) = @nil (option A)) as H0 by (by destruct prim).
  simpl in E. rewrite H0 in E. simpl in E. simpl. rewrite E. simpl.
  eexists. split; [reflexivity|].
  apply (repr_intro _ [] (left_behind (x :: l) ++ t)); [done| |].
  - rewrite length_app, length_left_behind. simpl in *. lia.
  - intros Hp. apply Forall_app. auto using left_behind_none.
Qed.

Lemma reserve_repr v l n :
  repr v l -> (0 < sz)%Z -> fits sz n ->
  exists v', reserve true v n = Done v' /\ repr v' l /\ (n <= m_capacity v')%nat.
Proof.
  intros Hv Hsz Hf. pose proof (repr_capacity _ _ Hv). unfold reserve.
  destruct (Nat.ltb_spec (m_capacity v) n).
  - destruct (reallocate_repr v l n Hv Hsz Hf) as (v' & ? & ? & ?); [lia|]. exists v'. split_and!; [done..|lia].
  - by exists v.
Qed.

(** The last element may be erased whatever its type. *)
Lemma erase_repr v l i :
  repr v l -> prim = true \/ (length l <= S i)%nat ->
  exists v', erase v i = Done v' /\ repr v' (take i l ++ drop (S i) l).
Proof.
  intros Hv Hp. pose proof (repr_capacity _ _ Hv). unfold erase. rewrite (repr_size _ _ Hv).
  destruct (Nat.ltb_spec i (length l)) as [Hi|Hi].
  2: { exists v. split; [done|]. rewrite take_ge, drop_ge, app_nil_r by lia. done. }
  destruct (lookup_lt_is_Some_2 l i Hi) as [x Hx].
  pose proof (take_drop_middle l i x Hx) as Hl.
  destruct (repr_block v l Hv) as (t & Ed & Hlen & Ht); [lia|].
  rewrite <- Hl, fmap_app, fmap_cons, <- app_assoc in Ed. cbn [app] in Ed.
  unfold block. rewrite Ed. cbn [need mbind outcome_bind].
  pose proof (slot_destroy_mid (Some <$> take i l) ((Some <$> drop (S i) l) ++ t) x) as E.
  rewrite length_fmap, length_take, Nat.min_l in E by lia.
  rewrite E. cbn [need mbind outcome_bind].
  set (l1 := take i l) in *. set (l2 := drop (S i) l) in *.
  assert (length l1 = i) as H1 by (unfold l1; rewrite length_take; lia).
  assert (length l2 = length l - S i)%nat as H2 by (unfold l2; rewrite length_drop; lia).
  assert (exists s0, left_behind [x] = [s0]) as [s0 E0]
    by (unfold left_behind; destruct prim; simpl; eauto).
  assert (exists s', shift_left ((Some <$> l1) ++ s0 :: (Some <$> l2) ++ t) (length l1) (length l2)
            = Done ((Some <$> (l1 ++ l2)) ++ s' :: t) /\ (prim = false -> s' = None)) as (s' & Es & Hs').
  { destruct (decide (prim = true)) as [Hp'|Hp'].
    - destruct (shift_left_all l1 l2 s0 t Hp') as [s' ?]. exists s'. split; [done|congruence].
    - assert (l2 = []) as -> by (apply nil_length_inv; naive_solver lia).
      exists s0. simpl. rewrite app_nil_r. split; [done|].
      intros Hf. unfold left_behind in E0. rewrite Hf in E0. by inversion E0. }
  rewrite E0. cbn [app].
  replace (length l - 1 - i)%nat with (length l2) by lia.
  rewrite H1 in Es. rewrite Es. simpl. eexists. split; [reflexivity|].
  replace (length l - 1)%nat with (length (l1 ++ l2)) by (rewrite length_app; lia).
  apply (repr_intro _ _ (s' :: t)); [done| |].
  - rewrite length_app, length_fmap, length_app. simpl. lia.
  - intros Hf. constructor; auto.
Qed.

Lemma index_repr v l i x : repr v l -> l !! i = Some x -> vector_index v i = Done x.
Proof.
  intros Hv Hx. pose proof (repr_capacity _ _ Hv). pose proof (lookup_lt_Some _ _ _ Hx).
  destruct (repr_block v l Hv) as (t & Ed & _); [lia|].
  unfold vector_index, block, slot_get. rewrite Ed. simpl.
  by rewrite lookup_app_l, list_lookup_fmap, Hx by (rewrite length_fmap; lia).
Qed.

(** A store behind the end, in reserved capacity, does not change the elements: the
    scheduler uses its vector of run queues this way. *)
Lemma store_spare v l i x :
  prim = true -> repr v l -> (length l <= i < m_capacity v)%nat ->
  exists v', vector_store v i x = Done v' /\ repr v' l /\ m_capacity v' = m_capacity v /\
             vector_index v' i = Done x /\
             forall j, j <> i -> vector_index v' j = vector_index v j.
Proof.
  intros Hp Hv Hi. destruct (repr_block v l Hv) as (t & Ed & Hlen & _); [lia|].
  unfold vector_store, vector_index, block, slot_put. rewrite Ed. simpl.
  destruct (lookup_lt_is_Some_2 ((Some <$> l) ++ t) i) as [s Hs].
  { rewrite length_app, length_fmap. lia. }
  rewrite Hs. simpl. eexists. split; [reflexivity|]. split; [|split_and!; [done| |]].
  - rewrite (repr_size _ _ Hv). rewrite insert_app_r_alt by (rewrite length_fmap; lia).
    eapply repr_intro; [reflexivity| |congruence].
    rewrite length_app, length_fmap, length_insert. lia.
  - simpl. unfold slot_get. rewrite list_lookup_insert_eq; [done|]. rewrite length_app, length_fmap. lia.
  - intros j Hj. simpl. unfold slot_get. by rewrite list_lookup_insert_ne by done.
Qed.

Lemma find_from_repr (eqb : A -> A -> bool) (l1 l2 : list A) t value :
  (forall x y, eqb x y = true <-> x = y) -> value ∉ l1 ->
  exists r, find_from eqb ((Some <$> (l1 ++ l2)) ++ t) (length l1) (length l2) value = Done r /\
    match r with
    | Some i => (l1 ++ l2) !! i = Some value /\ value ∉ take i (l1 ++ l2)
    | None => value ∉ l1 ++ l2
    end.
Proof.
  intros Heq. revert l1. induction l2 as [|x l2 IH]; intros l1 Hn; simpl.
  { exists None. by rewrite app_nil_r. }
  assert (slot_get ((Some <$> (l1 ++ x :: l2)) ++ t) (length l1) = Done x) as ->.
  { rewrite fmap_app, fmap_cons, <- app_assoc, <- (length_fmap Some l1). apply slot_get_mid. }
  cbn [mbind outcome_bind]. destruct (eqb x value) eqn:E.
  - apply Heq in E as ->. exists (Some (length l1)). split; [done|].
    by rewrite list_lookup_middle, take_app_length.
  - destruct (IH (l1 ++ [x])) as (r & H1 & H2).
    { rewrite elem_of_app, list_elem_of_singleton. intros [? | -> ]; [done|].
      by rewrite (proj2 (Heq x x) eq_refl) in E. }
    rewrite <- app_assoc in H1, H2. rewrite length_app, Nat.add_1_r in H1.
    exists r. split; [exact H1|done].
Qed.

Lemma vector_destroy_repr v l : repr v l -> vector_destroy v = Done tt.
Proof.
  intros [Hs Hd]. unfold vector_destroy. destruct (m_data v) as [d|]; [|done].
  destruct Hd as (t & -> & _). rewrite Hs.
  pose proof (destroy_all [] l t) as E. unfold left_behind at 1 in E.
  assert ((if prim then [] else []) = @nil (option A)) as H0 by (by destruct prim).
  simpl in E. rewrite H0 in E. simpl in E. by rewrite E.
Qed.

Lemma copy_range_repr v l :
  repr v l -> l <> [] ->
  exists d, block v = Done d /\
    copy_range (replicate (m_capacity v) None) d 0 (length l)
    = Done ((Some <$> l) ++ replicate (m_capacity v - length l) None).
Proof.
  intros Hv Hne. pose proof (repr_capacity _ _ Hv).
  assert (0 < length l)%nat by (destruct l; simpl; [done|lia]).
  destruct (repr_block v l Hv) as (t & Ed & _); [lia|].
  exists ((Some <$> l) ++ t). unfold block. rewrite Ed. split; [done|].
  pose proof (copy_all [] l t (replicate (m_capacity v) None)) as E.
  rewrite length_replicate, drop_replicate in E. by apply E.
Qed.

(** A copy holds the same list in a block of its own, as large as the original's. *)
Lemma copied_repr v l :
  repr v l -> repr (mkVec (Some ((Some <$> l) ++ replicate (m_capacity v - length l) None))
                          (length l) (m_capacity v)) l.
Proof.
  intros Hv. pose proof (repr_capacity _ _ Hv). eapply repr_intro; [done| |].
  - rewrite length_app, length_fmap, length_replicate. lia.
  - intros _. by apply Forall_replicate.
Qed.

Lemma vector_copy_repr v l :
  repr v l -> (0 < sz)%Z -> fits sz (m_capacity v) ->
  exists v', vector_copy true v = Done v' /\ repr v' l.
Proof.
  intros Hv Hsz Hf. pose proof (repr_capacity _ _ Hv). pose proof (copied_repr v l Hv).
  unfold vector_copy, new_block. rewrite (repr_size _ _ Hv), block_slots_fits by done.
  destruct (Nat.ltb_spec 0 (m_capacity v)).
  - destruct l as [|x l].
    + eexists. split; [done|]. by rewrite Nat.sub_0_r in *.
    + destruct (copy_range_repr v (x :: l) Hv) as (d & -> & E); [done|].
      cbn [length mbind outcome_bind] in *. rewrite E. eauto.
  - destruct l; [|simpl in *; lia]. eexists. split; [done|]. split; simpl; [done|].
    split; [done|]. lia.
Qed.

Lemma vector_assign_repr v l w k :
  repr v l -> repr w k -> (0 < sz)%Z -> fits sz (m_capacity w) ->
  exists v', vector_assign false true v w = Done v' /\ repr v' k.
Proof.
  intros Hv Hw Hsz Hf. pose proof (repr_capacity _ _ Hw). pose proof (copied_repr w k Hw).
  unfold vector_assign, new_block. rewrite (vector_destroy_repr _ _ Hv), (repr_size _ _ Hw), block_slots_fits by done.
  cbn [mbind outcome_bind]. destruct k as [|x k]; cbn [length] in *.
  - destruct (Nat.ltb_spec 0 (m_capacity w)); eexists; (split; [done|]).
    + by rewrite Nat.sub_0_r in *.
    + split; simpl; [done|]. split; [done|]. lia.
  - destruct (Nat.ltb_spec 0 (m_capacity w)); [|lia].
    destruct (copy_range_repr w (x :: k) Hw) as (d & -> & E); [done|].
    cbn [length mbind outcome_bind] in *. rewrite E. eauto.
Qed.

(** Moving takes the block over; the source is an empty vector afterwards. *)
Lemma vector_move_repr v l w k :
  repr v l -> repr w k ->
  vector_move w = (w, vector_new) /\ vector_move_assign false v w = Done (w, vector_new).
Proof. intros Hv Hw. unfold vector_move_assign. by rewrite (vector_destroy_repr _ _ Hv). Qed.
End vector.

(** ** The operations as one interface *)
Inductive vec_op (A : Type) :=
  | OpPushBack (x : A)
  | OpInsert (i : nat) (x : A)
  | OpPopBack
  | OpErase (i : nat)
  | OpClear
  | OpReserve (n : nat).
Arguments OpPushBack {A}.
Arguments OpInsert {A}.
Arguments OpPopBack {A}.
Arguments OpErase {A}.
Arguments OpClear {A}.
Arguments OpReserve {A}.

Definition vec_do {A} (prim : bool) (sz : Z) (op : vec_op A) (v : vec A) : outcome (vec A) :=
  match op with
  | OpPushBack x => pushBack prim sz true v x
  | OpInsert i x => vector_insert prim sz true v i x
  | OpPopBack => popBack prim v
  | OpErase i => erase prim v i
  | OpClear => clear prim v
  | OpReserve n => reserve prim sz true v n
  end.

(** What the operation means for the list. *)
Definition vec_spec {A} (op : vec_op A) (l : list A) : list A :=
  match op with
  | OpPushBack x => l ++ [x]
  | OpInsert i x => if (i <=? length l)%nat then take i l ++ x :: drop i l else l
  | OpPopBack => take (length l - 1) l
  | OpErase i => take i l ++ drop (S i) l
  | OpClear => []
  | OpReserve _ => l
  end.

(** [erase] of an element that is not the last is sound for primitive types only; the
    block that an operation asks for must have a size that [size_t] can hold. *)
Definition vec_op_ok {A} (prim : bool) (sz : Z) (op : vec_op A) (l : list A) : Prop :=
  match op with
  | OpErase i => prim = true \/ (length l <= S i)%nat
  | OpPushBack _ | OpInsert _ _ => fits sz (1 `max` (2 * length l))
  | OpReserve n => fits sz n
  | _ => True
  end.

Definition vec_run {A} (prim : bool) (sz : Z) (ops : list (vec_op A)) (v : vec A) : outcome (vec A) :=
  foldl (fun o op => v ← o; vec_do prim sz op v) (Done v) ops.

Fixpoint vec_ops_ok {A} (prim : bool) (sz : Z) (ops : list (vec_op A)) (l : list A) : Prop :=
  match ops with
  | [] => True
  | op :: ops => vec_op_ok prim sz op l /\ vec_ops_ok prim sz ops (vec_spec op l)
  end.

Lemma vec_do_repr {A} prim sz (op : vec_op A) v l :
  (0 < sz)%Z -> repr prim v l -> vec_op_ok prim sz op l ->
  exists v', vec_do prim sz op v = Done v' /\ repr prim v' (vec_spec op l).
Proof.
  intros Hsz Hv Hok. destruct op as [x|i x| |i| |n]; cbn [vec_do vec_spec vec_op_ok] in *.
  - by apply pushBack_repr.
  - destruct (Nat.leb_spec i (length l)); [by apply insert_repr|].
    exists v. split; [|done]. unfold vector_insert. rewrite (repr_size _ _ _ Hv).
    destruct (Nat.ltb_spec (length l) i); [done|lia].
  - by apply popBack_repr.
  - by apply erase_repr.
  - by eapply clear_repr.
  - destruct (reserve_repr prim sz v l n Hv Hsz Hok) as (v' & ? & ? & _). eauto.
Qed.

(** C10 (refinement): as long as [kmalloc] answers and the blocks asked for have a size
    that [size_t] can hold, every sequence of [pushBack],
    [insert], [popBack], [erase], [clear] and [reserve] on a vector returns, and the
    vector then holds exactly the list the sequence computes: [operator[]] reads each
    element of it and [find] returns its first position.  For a class type [erase] is
    restricted to the last element. *)
Theorem vector_refines_list {A} (prim : bool) (sz : Z) (eqb : A -> A -> bool) (ops : list (vec_op A)) v l :
  (forall x y, eqb x y = true <-> x = y) -> (0 < sz)%Z ->
  repr prim v l -> vec_ops_ok prim sz ops l ->
  exists v', vec_run prim sz ops v = Done v' /\
    let l' := foldl (fun l op => vec_spec op l) l ops in
    repr prim v' l' /\ size v' = length l' /\ (size v' <= capacity v')%nat /\
    (forall i x, l' !! i = Some x -> vector_index v' i = Done x) /\
    forall value, exists r, vector_find eqb v' value = Done r /\
      match r with
      | Some i => l' !! i = Some value /\ value ∉ take i l'
      | None => value ∉ l'
      end.
Proof.
  intros Heq Hsz. revert v l. unfold vec_run. induction ops as [|op ops IH]; intros v l Hv Hok; simpl.
  - exists v. split_and!; [done|done|by eapply repr_size|..].
    + unfold size, capacity. rewrite (repr_size _ _ _ Hv). by eapply repr_capacity.
    + intros i x. by apply (index_repr prim).
    + intros value. unfold vector_find. pose proof (repr_capacity _ _ _ Hv).
      rewrite (repr_size _ _ _ Hv).
      destruct l as [|x l]; [exists None; split; [done|apply not_elem_of_nil]|].
      destruct (repr_block prim v _ Hv) as (t & Ed & _ & _); [simpl in *; lia|].
      unfold block. rewrite Ed. apply (find_from_repr eqb [] (x :: l) t value Heq), not_elem_of_nil.
  - destruct Hok as [H1 H2]. destruct (vec_do_repr prim sz op v l Hsz Hv H1) as (v1 & E & Hv1).
    rewrite E. by apply IH.
Qed.

(** Four operations on a vector of pointers that starts empty. *)
Lemma vector_refines_list_witness :
  exists v', vec_run true 8 [OpPushBack 5; OpPushBack 6; OpInsert 1 7; OpErase 0]%Z vector_new = Done v' /\
             repr true v' [7; 6]%Z /\ vector_find Z.eqb v' 6 = Done (Some 1%nat).
Proof.
  destruct (vector_refines_list true 8 Z.eqb [OpPushBack 5; OpPushBack 6; OpInsert 1 7; OpErase 0]%Z
              vector_new []) as (v' & E & Hr & _ & _ & _ & Hf).
  - apply Z.eqb_eq.
  - reflexivity.
  - apply repr_new.
  - unfold fits. cbn [vec_ops_ok vec_op_ok vec_spec length app]. split_and!; (reflexivity || (left; reflexivity) || exact I).
  - exists v'. split; [exact E|]. split; [exact Hr|].
    destruct (Hf 6) as (r & Er & Hsp). rewrite Er. simpl in Hsp.
    destruct r as [[|[|i]]|]; simpl in Hsp.
    + destruct Hsp as [H _]. discriminate H.
    + reflexivity.
    + destruct Hsp as [H _]. discriminate H.
    + exfalso. apply Hsp. set_solver.
Defined.

(** Slot operations return or fault. *)
Lemma slot_destroy_done {A} (d : list (option A)) i :
  slot_destroy false d i = Fault \/ exists d', slot_destroy false d i = Done d'.
Proof.
  unfold slot_destroy, slot_get. destruct (d !! i) as [[x|]|]; simpl; eauto.
Qed.

(** The second destruction of the element that has moved. *)
Lemma shift_left_twice {A} (d : list (option A)) i n : shift_left false d i (S n) = Fault.
Proof.
  cbn [shift_left]. unfold slot_put, slot_destroy, slot_get.
  destruct (d !! S i) as [[x|]|] eqn:E; [|done..]. cbn [need mbind outcome_bind].
  destruct (d !! i) as [s|] eqn:E'; [|done]. cbn [need mbind outcome_bind].
  rewrite list_lookup_insert_ne, E by lia. cbn [need mbind outcome_bind].
  rewrite list_lookup_insert_eq; [done|]. rewrite length_insert. by eapply lookup_lt_Some.
Qed.

(** For a class type [erase] of an element that is not the last destroys
    the moved-from element twice, which the model counts as a fault; and [pushBack] on
    a full vector faults when [kmalloc] has no memory, because [_reallocate] leaves the
    block as it is and the store goes behind its end. *)
Theorem vector_faults {A} (sz : Z) (v : vec A) (l : list A) :
  (repr false v l -> forall i, (S i < length l)%nat -> erase false v i = Fault) /\
  (forall prim x, repr prim v l -> length l = m_capacity v -> pushBack prim sz false v x = Fault).
Proof.
  split.
  - intros Hv i Hi. pose proof (repr_capacity _ _ _ Hv). unfold erase. rewrite (repr_size _ _ _ Hv).
    destruct (Nat.ltb_spec i (length l)); [|lia].
    destruct (repr_block _ v l Hv) as (t & Ed & _); [lia|].
    unfold block. rewrite Ed. cbn [need mbind outcome_bind].
    destruct (slot_destroy_done ((Some <$> l) ++ t) i) as [->|[d ->]]; [done|].
    cbn [mbind outcome_bind]. replace (length l - 1 - i)%nat with (S (length l - 2 - i)) by lia.
    by rewrite shift_left_twice.
  - intros prim x Hv Hc. unfold pushBack, grow. rewrite (repr_size _ _ _ Hv), Hc, Nat.eqb_refl. simpl.
    destruct Hv as [Hs Hd]. unfold block. destruct (m_data v) as [d|]; [|done]. simpl.
    destruct Hd as (t & -> & Hlen & _). unfold slot_put.
    rewrite (lookup_ge_None_2 _ (m_size v)); [done|]. lia.
Qed.

(** The size of the block is computed modulo 2^64: [reserve] of 2^61 eight-byte elements
    asks [kmalloc] for no bytes, and when that answers, the vector reports a capacity of
    2^61 but has no slot, so the first [pushBack] stores behind the block. *)
Theorem reserve_wraps (x : Z) :
  let n := Z.to_nat 0x2000000000000000 in
  reserve true 8 true (vector_new (A := Z)) n = Done (mkVec (Some []) 0 n) /\
  pushBack true 8 true (mkVec (Some []) 0 n) x = Fault.
Proof.
  intros n. assert (Z.of_nat n = 0x2000000000000000%Z) as Hn by (apply Z2Nat.id; lia).
  unfold pushBack, grow, reserve, reallocate_vec, new_block, block_slots. cbn [m_capacity m_size vector_new].
  assert ((0 <? n)%nat = true /\ (0 =? n)%nat = false) as [-> ->].
  { split; [apply Nat.ltb_lt|apply Nat.eqb_neq]; lia. }
  rewrite Hn. split; reflexivity.
Qed.
