(* ===== verification/SharedPtr.v ===== *)
(** * Reference-counted pointers (kstl::SharedPtr, kernel/src/memory/kmemory.h)

    A handle holds a pointer to an object and a pointer to a counter that all copies of
    the handle share.  The counters are cells of a shared store, so that the copies alias
    them; deleting an object or a counter takes it out of the store, and an access to a
    counter that was deleted faults. *)
From Stdlib Require Import ZArith Lia.
From stdpp Require Import base tactics numbers option list gmap.
From S2P Require Import Prelude.
Local Open Scope Z_scope.

(** [m_ptr] and [m_refCount]; 0 is the null pointer. *)
Record SharedPtr := mkShared { m_ptr : Z; m_refCount : Z }.

(** The handles of the program by their address, the counters by theirs, and the objects
    deleted so far, the last one first. *)
Record SpState := mkSp {
  handles : gmap Z SharedPtr;
  counters : gmap Z Z;
  deleted : list Z }.

Definition set_handle (s : SpState) (h : Z) (p : SharedPtr) : SpState :=
  mkSp (<[h := p]> (handles s)) (counters s) (deleted s).

(** ** Operations *)

(** [rc] is the address [new size_t(1)] returns. *)
Definition SharedPtr_new (s : SpState) (h ptr rc : Z) : SpState :=
  if ptr =? 0 then set_handle s h (mkShared ptr 0)
  else mkSp (<[h := mkShared ptr rc]> (handles s)) (<[rc := 1]> (counters s)) (deleted s).

Definition increment (s : SpState) (rc : Z) : outcome SpState :=
  if rc =? 0 then Done s
  else
    c ← need (counters s !! rc);
    Done (mkSp (handles s) (<[rc := c ⊞ 1]> (counters s)) (deleted s)).

Definition SharedPtr_copy (s : SpState) (h other : Z) : outcome SpState :=
  o ← need (handles s !! other);
  increment (set_handle s h (mkShared (m_ptr o) (m_refCount o))) (m_refCount o).

Definition release (s : SpState) (h : Z) : outcome SpState :=
  p ← need (handles s !! h);
  s ← (if m_refCount p =? 0 then Done s
       else
         c ← need (counters s !! m_refCount p);
         let c := c ⊟ 1 in
         if c =? 0 then Done (mkSp (handles s) (delete (m_refCount p) (counters s)) (m_ptr p :: deleted s))
         else Done (mkSp (handles s) (<[m_refCount p := c]> (counters s)) (deleted s)));
  Done (set_handle s h (mkShared 0 0)).

Definition SharedPtr_assign (s : SpState) (h other : Z) : outcome SpState :=
  if h =? other then Done s
  else
    s ← release s h;
    o ← need (handles s !! other);
    increment (set_handle s h (mkShared (m_ptr o) (m_refCount o))) (m_refCount o).

Definition SharedPtr_destroy (s : SpState) (h : Z) : outcome SpState :=
  s ← release s h;
  Done (mkSp (delete h (handles s)) (counters s) (deleted s)).

Definition refCount (s : SpState) (h : Z) : outcome Z :=
  p ← need (handles s !! h);
  if m_refCount p =? 0 then Done 0 else need (counters s !! m_refCount p).

Definition get (s : SpState) (h : Z) : outcome Z :=
  p ← need (handles s !! h); Done (m_ptr p).

(** [operator==] of two handles. *)
Definition SharedPtr_eq (s : SpState) (h1 h2 : Z) : outcome bool :=
  p1 ← get s h1; p2 ← get s h2; Done (p1 =? p2).

(** ** The invariant *)

Abbreviation sharing rc hs := (filter (fun '(_, p) => m_refCount p = rc) hs).

(** The handles that share a counter. *)
Definition sharers (hs : gmap Z SharedPtr) (rc : Z) : nat := size (sharing rc hs : gmap Z SharedPtr).

Record SpInv (s : SpState) : Prop := {
  (** a counter exists exactly for the handles that hold it, and counts them *)
  inv_count : forall rc, rc <> 0 ->
    counters s !! rc = if decide (sharers (handles s) rc = 0%nat) then None
                       else Some (Z.of_nat (sharers (handles s) rc));
  (** handles share a counter exactly when they share an object *)
  inv_same : forall h1 h2 p1 p2, handles s !! h1 = Some p1 -> handles s !! h2 = Some p2 ->
    m_ptr p1 = m_ptr p2 <-> m_refCount p1 = m_refCount p2;
  inv_null : forall h p, handles s !! h = Some p -> m_ptr p = 0 <-> m_refCount p = 0;
  (** no handle holds a deleted object *)
  inv_live : forall h p, handles s !! h = Some p -> m_ptr p ∉ deleted s;
  inv_once : NoDup (deleted s);
  inv_del : 0 ∉ deleted s }.

(** Only a bounded number of handles exists. *)
Definition SpBound (s : SpState) : Prop := Z.of_nat (size (handles s)) < 2 ^ 64 - 1.

(** ** Counting *)
Lemma sharers_insert_new hs h p rc : hs !! h = None ->
  sharers (<[h := p]> hs) rc = (sharers hs rc + if decide (m_refCount p = rc) then 1 else 0)%nat.
Proof.
  intros Hn. unfold sharers. case_decide.
  - rewrite map_filter_insert_True, map_size_insert_None by (done || by apply map_lookup_filter_None; left). lia.
  - rewrite map_filter_insert_False by done. rewrite delete_id by done. lia.
Qed.

Lemma sharers_insert hs h q p rc : hs !! h = Some q ->
  (sharers (<[h := p]> hs) rc + (if decide (m_refCount q = rc) then 1 else 0) =
   sharers hs rc + if decide (m_refCount p = rc) then 1 else 0)%nat.
Proof.
  intros Hh.
  assert (hs = <[h := q]> (delete h hs)) as E by (by rewrite insert_delete_id).
  rewrite <- (insert_delete_eq hs), (sharers_insert_new (delete h hs)) by apply lookup_delete_eq.
  rewrite E at 2. rewrite (sharers_insert_new (delete h hs)) by apply lookup_delete_eq. lia.
Qed.

Lemma sharers_delete hs h q rc : hs !! h = Some q ->
  (sharers (delete h hs) rc + (if decide (m_refCount q = rc) then 1 else 0) = sharers hs rc)%nat.
Proof.
  intros Hh. assert (hs = <[h := q]> (delete h hs)) as E by (by rewrite insert_delete_id).
  rewrite E at 2. rewrite sharers_insert_new by apply lookup_delete_eq. lia.
Qed.

Lemma sharers_bound hs rc : (sharers hs rc <= size hs)%nat.
Proof.
  unfold sharers. rewrite <- !size_dom. apply subseteq_size, dom_filter_subseteq.
Qed.

Lemma sharers_pos hs h p : hs !! h = Some p -> (0 < sharers hs (m_refCount p))%nat.
Proof.
  intros Hh. pose proof (sharers_delete hs h p (m_refCount p) Hh). rewrite decide_True in H by done. lia.
Qed.

Lemma sharers_0 hs rc : sharers hs rc = 0%nat <-> forall h p, hs !! h = Some p -> m_refCount p <> rc.
Proof.
  split.
  - intros H h p Hh <-. pose proof (sharers_pos hs h p Hh). lia.
  - intros H. unfold sharers. apply map_size_empty_iff, map_empty. intros h.
    apply map_lookup_filter_None. right. intros p Hp. simpl. eauto.
Qed.

(** ** Every operation keeps the invariant *)
Section steps.
Context (s : SpState) (HI : SpInv s).

Lemma inv_counter h p : handles s !! h = Some p -> m_refCount p <> 0 ->
  counters s !! m_refCount p = Some (Z.of_nat (sharers (handles s) (m_refCount p))).
Proof.
  intros Hh Hr. rewrite (inv_count _ HI) by done. rewrite decide_False; [done|].
  pose proof (sharers_pos _ _ _ Hh). lia.
Qed.

(** A null handle may come and go. *)
Lemma null_handle_inv h : handles s !! h = None \/ handles s !! h = Some (mkShared 0 0) ->
  SpInv (set_handle s h (mkShared 0 0)) /\
  SpInv (mkSp (delete h (handles s)) (counters s) (deleted s)).
Proof.
  intros Hh.
  assert (forall rc, rc <> 0 -> sharers (<[h := mkShared 0 0]> (handles s)) rc = sharers (handles s) rc) as E1.
  { intros rc Hr. destruct Hh as [Hh|Hh].
    - rewrite sharers_insert_new by done. rewrite decide_False by (simpl; done). lia.
    - pose proof (sharers_insert _ _ _ (mkShared 0 0) rc Hh) as E. simpl in E.
      rewrite !decide_False in E by done. lia. }
  assert (forall rc, rc <> 0 -> sharers (delete h (handles s)) rc = sharers (handles s) rc) as E2.
  { intros rc Hr. destruct Hh as [Hh|Hh]; [by rewrite delete_id|].
    pose proof (sharers_delete _ _ _ rc Hh) as E. simpl in E. rewrite decide_False in E by done. lia. }
  destruct HI as [Hc Hs Hn Hl Ho Hd]. split; split; simpl; try done.
  - intros rc Hr. by rewrite E1, Hc.
  - intros h1 h2 p1 p2. rewrite !lookup_insert_Some.
    intros [[<- <-]|[_ H1]] [[<- <-]|[_ H2]]; simpl; [tauto| | |eauto].
    + pose proof (Hn _ _ H2). split; intros; symmetry; apply H; congruence.
    + exact (Hn _ _ H1).
  - intros h1 p1. rewrite lookup_insert_Some. intros [[<- <-]|[_ H1]]; [done|eauto].
  - intros h1 p1. rewrite lookup_insert_Some. intros [[<- <-]|[_ H1]]; [done|eauto].
  - intros rc Hr. by rewrite E2, Hc.
  - intros h1 h2 p1 p2. rewrite !lookup_delete_Some. intros [_ H1] [_ H2]. eauto.
  - intros h1 p1. rewrite lookup_delete_Some. intros [_ H1]. eauto.
  - intros h1 p1. rewrite lookup_delete_Some. intros [_ H1]. eauto.
Qed.

Lemma new_inv h ptr rc : handles s !! h = None -> ptr <> 0 -> ptr ∉ deleted s ->
  (forall h' p, handles s !! h' = Some p -> m_ptr p <> ptr) -> rc <> 0 -> counters s !! rc = None ->
  SpInv (SharedPtr_new s h ptr rc).
Proof.
  intros Hh Hp Hdel Hfr Hr Hrc. unfold SharedPtr_new. rewrite (proj2 (Z.eqb_neq _ _)) by done.
  assert (sharers (handles s) rc = 0%nat) as H0.
  { pose proof (inv_count _ HI rc Hr) as E. rewrite Hrc in E. by case_decide. }
  pose proof (proj1 (sharers_0 _ _) H0) as Hno.
  destruct HI as [Hc Hs Hn Hl Ho Hd]. split; simpl; try done.
  - intros rc' Hr'. rewrite sharers_insert_new by done. simpl. destruct (decide (rc = rc')) as [<-|Hne].
    + rewrite lookup_insert_eq, H0. done.
    + rewrite lookup_insert_ne, Hc by done. by rewrite Nat.add_0_r.
  - intros h1 h2 p1 p2. rewrite !lookup_insert_Some.
    intros [[<- <-]|[_ H1]] [[<- <-]|[_ H2]]; simpl; [tauto| | |eauto].
    + pose proof (Hfr _ _ H2). pose proof (Hno _ _ H2). split; intros; congruence.
    + pose proof (Hfr _ _ H1). pose proof (Hno _ _ H1). split; intros; congruence.
  - intros h1 p1. rewrite lookup_insert_Some. intros [[<- <-]|[_ H1]]; [done|eauto].
  - intros h1 p1. rewrite lookup_insert_Some. intros [[<- <-]|[_ H1]]; [done|eauto].
Qed.

(** A handle that is new or null takes over the pointers of another one. *)
Lemma attach_inv h other o : SpBound s -> handles s !! other = Some o ->
  handles s !! h = None \/ handles s !! h = Some (mkShared 0 0) ->
  exists s', increment (set_handle s h o) (m_refCount o) = Done s' /\ SpInv s' /\
    handles s' = <[h := o]> (handles s) /\ deleted s' = deleted s.
Proof.
  intros Hb Ho Hh. unfold increment. destruct (Z.eqb_spec (m_refCount o) 0) as [Er|Hr].
  { assert (o = mkShared 0 0) as -> by (destruct o; simpl in *; f_equal; [|done]; by apply (inv_null _ HI _ _ Ho)).
    eexists. split; [reflexivity|]. split; [by apply null_handle_inv|done]. }
  cbn [counters set_handle]. rewrite (inv_counter _ _ Ho Hr). cbn [need mbind outcome_bind].
  pose proof (sharers_bound (handles s) (m_refCount o)) as Hsb. unfold SpBound in Hb.
  rewrite u64_small by (unfold is_u64; lia). eexists. split; [reflexivity|]. split; [|done].
  assert (forall rc, rc <> 0 -> sharers (<[h := o]> (handles s)) rc =
    (sharers (handles s) rc + if decide (m_refCount o = rc) then 1 else 0)%nat) as E.
  { intros rc Hr0. destruct Hh as [Hh|Hh]; [by apply sharers_insert_new|].
    pose proof (sharers_insert _ _ _ o rc Hh) as E. simpl in E. rewrite (decide_False (P := 0 = rc)) in E by done. lia. }
  pose proof (inv_counter _ _ Ho Hr) as Hco.
  destruct HI as [Hc Hs Hn Hl Ho' Hd]. split; simpl; try done.
  - intros rc Hr0. rewrite E by done. destruct (decide (m_refCount o = rc)) as [<-|Hne].
    + rewrite lookup_insert_eq, decide_False by lia. f_equal. lia.
    + rewrite lookup_insert_ne, Hc by done. by rewrite Nat.add_0_r.
  - intros h1 h2 p1 p2. rewrite !lookup_insert_Some.
    intros [[<- <-]|[_ H1]] [[<- <-]|[_ H2]]; simpl; [tauto|eauto..].
  - intros h1 p1. rewrite lookup_insert_Some. intros [[<- <-]|[_ H1]]; eauto.
  - intros h1 p1. rewrite lookup_insert_Some. intros [[<- <-]|[_ H1]]; eauto.
Qed.

(** What nulling a handle changes: one handle less shares its counter. *)
Lemma nulled_facts h p : handles s !! h = Some p ->
  let hs := <[h := mkShared 0 0]> (handles s) in
  (forall rc, rc <> 0 -> (sharers hs rc + (if decide (m_refCount p = rc) then 1 else 0) =
     sharers (handles s) rc)%nat) /\
  (forall h1 h2 p1 p2, hs !! h1 = Some p1 -> hs !! h2 = Some p2 ->
     m_ptr p1 = m_ptr p2 <-> m_refCount p1 = m_refCount p2) /\
  (forall h1 p1, hs !! h1 = Some p1 -> m_ptr p1 = 0 <-> m_refCount p1 = 0) /\
  (forall h1 p1, hs !! h1 = Some p1 -> m_ptr p1 ∉ deleted s).
Proof.
  intros Hh hs. unfold hs. split_and!.
  - intros rc Hr0. pose proof (sharers_insert _ _ _ (mkShared 0 0) rc Hh) as E. simpl in E.
    rewrite (decide_False (P := 0 = rc)) in E by done. lia.
  - intros h1 h2 p1 p2. rewrite !lookup_insert_Some.
    intros [[<- <-]|[_ H1]] [[<- <-]|[_ H2]]; simpl; [tauto| | |by eapply (inv_same _ HI)].
    + pose proof (inv_null _ HI _ _ H2). split; intros; symmetry; apply H; congruence.
    + exact (inv_null _ HI _ _ H1).
  - intros h1 p1. rewrite lookup_insert_Some. intros [[<- <-]|[_ H1]]; [done|by eapply (inv_null _ HI)].
  - intros h1 p1. rewrite lookup_insert_Some.
    intros [[<- <-]|[_ H1]]; [apply (inv_del _ HI)|by eapply (inv_live _ HI)].
Qed.

Lemma release_inv h p : handles s !! h = Some p -> SpBound s ->
  exists s', release s h = Done s' /\ SpInv s' /\
    handles s' = <[h := mkShared 0 0]> (handles s) /\
    deleted s' = if decide (m_ptr p <> 0 /\ sharers (handles s) (m_refCount p) = 1%nat)
                 then m_ptr p :: deleted s else deleted s.
Proof.
  intros Hh Hb. unfold release. rewrite Hh. cbn [need mbind outcome_bind].
  destruct (Z.eqb_spec (m_refCount p) 0) as [Er|Hr].
  { assert (p = mkShared 0 0) as -> by (destruct p; simpl in *; f_equal; [|done]; by apply (inv_null _ HI _ _ Hh)).
    cbn [mbind outcome_bind]. eexists. split; [reflexivity|]. split; [apply null_handle_inv; by right|].
    split; [done|]. rewrite decide_False; [done|]. simpl. tauto. }
  rewrite (inv_counter _ _ Hh Hr). cbn [need mbind outcome_bind].
  pose proof (sharers_bound (handles s) (m_refCount p)) as Hsb. pose proof (sharers_pos _ _ _ Hh) as Hpos.
  unfold SpBound in Hb. rewrite u64_small by (unfold is_u64; lia).
  assert (m_ptr p <> 0) as Hp0 by (intros E; by apply Hr, (inv_null _ HI _ _ Hh)).
  destruct (nulled_facts h p Hh) as (E & Hsame & Hnull & Hlive).
  destruct (Z.eqb_spec (Z.of_nat (sharers (handles s) (m_refCount p)) - 1) 0) as [E1|E1]; cbn [mbind outcome_bind];
    (eexists; split; [reflexivity|]); cbn [set_handle handles counters deleted];
    (split; [|split; [done|]]).
  - split; simpl; try done.
    + intros rc Hr0. specialize (E rc Hr0). destruct (decide (m_refCount p = rc)) as [<-|Hne].
      * rewrite lookup_delete_eq. by rewrite decide_True by lia.
      * rewrite lookup_delete_ne, (inv_count _ HI) by done. by replace (sharers (<[h:=_]> _) rc) with (sharers (handles s) rc) by lia.
    + intros h1 p1 H1 [Ei|Hi]%elem_of_cons; [|by eapply Hlive].
      specialize (E _ Hr). rewrite decide_True in E by done.
      assert (sharers (<[h:=mkShared 0 0]> (handles s)) (m_refCount p) = 0%nat) as E0 by lia.
      rewrite sharers_0 in E0. apply (E0 _ _ H1). symmetry.
      revert H1. rewrite lookup_insert_Some. intros [[<- <-]|[_ H1]]; [simpl in Ei; congruence|].
      by eapply (inv_same _ HI).
    + constructor; [by eapply (inv_live _ HI)|apply (inv_once _ HI)].
    + rewrite elem_of_cons. intros [?|?]; [congruence|by apply (inv_del _ HI)].
  - rewrite decide_True by (split; [done|lia]). done.
  - split; simpl; try done; [|apply (inv_once _ HI)|apply (inv_del _ HI)].
    intros rc Hr0. specialize (E rc Hr0). destruct (decide (m_refCount p = rc)) as [<-|Hne].
    + rewrite lookup_insert_eq, decide_False by lia. f_equal. lia.
    + rewrite lookup_insert_ne, (inv_count _ HI) by done. by replace (sharers (<[h:=_]> _) rc) with (sharers (handles s) rc) by lia.
  - rewrite decide_False by (intros [_ ?]; lia). done.
Qed.

End steps.

(** ** Programs over handles *)
Inductive sp_op :=
  | OpNew (h ptr rc : Z)
  | OpCopy (h other : Z)
  | OpAssign (h other : Z)
  | OpDestroy (h : Z).

Definition sp_step (s : SpState) (op : sp_op) : outcome SpState :=
  match op with
  | OpNew h ptr rc => Done (SharedPtr_new s h ptr rc)
  | OpCopy h other => SharedPtr_copy s h other
  | OpAssign h other => SharedPtr_assign s h other
  | OpDestroy h => SharedPtr_destroy s h
  end.

(** Which operations a program may do: a constructor gives a handle that does not exist
    yet an object that was never given to one, and the allocator a counter that is not in
    use; the other operations name existing handles.  [created] are the objects given to
    handles. *)
Definition sp_allowed (s : SpState) (created : list Z) (op : sp_op) : Prop :=
  match op with
  | OpNew h ptr rc => handles s !! h = None /\ (ptr ∉ created) /\ rc <> 0 /\ counters s !! rc = None
  | OpCopy h other => handles s !! h = None /\ is_Some (handles s !! other)
  | OpAssign h other => is_Some (handles s !! h) /\ is_Some (handles s !! other)
  | OpDestroy h => is_Some (handles s !! h)
  end.

Definition note_created (op : sp_op) (created : list Z) : list Z :=
  match op with
  | OpNew _ ptr _ => if ptr =? 0 then created else ptr :: created
  | _ => created
  end.

Inductive sp_run : SpState -> list Z -> SpState -> list Z -> Prop :=
  | run_nil s cr : sp_run s cr s cr
  | run_op s cr op s1 s2 cr2 : sp_allowed s cr op -> sp_step s op = Done s1 -> SpBound s1 ->
      sp_run s1 (note_created op cr) s2 cr2 -> sp_run s cr s2 cr2.

Definition held (hs : gmap Z SharedPtr) (ptr : Z) : Prop :=
  exists h p, hs !! h = Some p /\ m_ptr p = ptr.

(** Every object is with a handle or deleted, and nothing else is. *)
Definition Accounted (s : SpState) (created : list Z) : Prop :=
  forall ptr, ptr <> 0 -> (ptr ∈ created <-> (ptr ∈ deleted s \/ held (handles s) ptr)).

Lemma held_insert hs h p x : hs !! h = None \/ hs !! h = Some (mkShared 0 0) -> x <> 0 ->
  (held (<[h := p]> hs) x <-> (m_ptr p = x \/ held hs x)).
Proof.
  intros Hh Hx. split.
  - intros (h1 & p1 & H1 & E). rewrite lookup_insert_Some in H1. destruct H1 as [[<- <-]|[_ H1]]; [by left|].
    right. by exists h1, p1.
  - intros [<-|(h1 & p1 & H1 & E)]; [exists h, p; by rewrite lookup_insert_eq|].
    exists h1, p1. split; [|done]. rewrite lookup_insert_ne; [done|]. intros <-.
    destruct Hh as [Hh|Hh]; rewrite Hh in H1; [done|]. injection H1 as <-. by apply Hx.
Qed.

Lemma release_accounted s h p cr s' : SpInv s -> handles s !! h = Some p ->
  handles s' = <[h := mkShared 0 0]> (handles s) ->
  deleted s' = (if decide (m_ptr p <> 0 /\ sharers (handles s) (m_refCount p) = 1%nat)
                then m_ptr p :: deleted s else deleted s) ->
  Accounted s cr -> Accounted s' cr.
Proof.
  intros HI Hh Eh Ed HA x Hx. rewrite (HA x Hx), Eh, Ed.
  destruct (nulled_facts s HI h p Hh) as (E & _).
  assert (held (handles s) x <-> (m_ptr p = x \/ held (<[h := mkShared 0 0]> (handles s)) x)) as Hheld.
  { split.
    - intros (h1 & p1 & H1 & E1). destruct (decide (h1 = h)) as [->|Hne]; [left; congruence|].
      right. exists h1, p1. by rewrite lookup_insert_ne.
    - intros [<-|(h1 & p1 & H1 & <-)]; [by exists h, p|].
      rewrite lookup_insert_Some in H1. destruct H1 as [[<- <-]|[_ H1]]; [by destruct Hx|by exists h1, p1]. }
  rewrite Hheld. case_decide as Hd; [rewrite elem_of_cons; intuition congruence|].
  split; [|tauto]. intros [?|[<-|?]]; [by left| |by right]. right.
  assert (m_refCount p <> 0) as Hr by (intros Er; by apply Hx, (inv_null _ HI _ _ Hh)).
  specialize (E _ Hr). rewrite decide_True in E by done. pose proof (sharers_pos _ _ _ Hh).
  destruct (decide (sharers (<[h := mkShared 0 0]> (handles s)) (m_refCount p) = 0%nat)) as [E0|E0]; [destruct Hd; split; [done|lia]|].
  unfold sharers in E0. apply map_size_ne_0_lookup in E0 as (h1 & p1 & H1).
  apply map_lookup_filter_Some in H1 as [H1 Er]. exists h1, p1. split; [done|].
  rewrite lookup_insert_Some in H1. destruct H1 as [[<- <-]|[_ H1]]; [by simpl in Er|].
  symmetry. by eapply (inv_same _ HI).
Qed.

(** An allowed operation does not fault, keeps the invariant and keeps every object
    accounted for. *)
Lemma sp_step_inv s cr op : SpInv s -> SpBound s -> Accounted s cr -> sp_allowed s cr op ->
  exists s', sp_step s op = Done s' /\ SpInv s' /\ Accounted s' (note_created op cr).
Proof.
  intros HI Hb HA Hop. destruct op as [h ptr rc|h other|h other|h]; cbn [sp_step sp_allowed note_created] in *.
  - destruct Hop as (Hh & Hcr & Hr & Hrc). eexists. split; [reflexivity|].
    destruct (Z.eqb_spec ptr 0) as [->|Hp].
    + unfold SharedPtr_new. cbn [Z.eqb]. split; [apply (null_handle_inv s HI); by left|].
      intros x Hx. cbn [set_handle deleted handles]. rewrite held_insert by (done || by left). rewrite (HA x Hx). simpl. intuition congruence.
    + assert (~ (ptr ∈ deleted s \/ held (handles s) ptr)) as Hn by (by rewrite <- (HA ptr Hp)).
      split.
      * apply (new_inv s HI); try done; [tauto|]. intros h' p Hh' E. apply Hn. right. by exists h', p.
      * intros x Hx. unfold SharedPtr_new. rewrite (proj2 (Z.eqb_neq _ _)) by done. cbn [deleted handles].
        rewrite held_insert by (done || by left). rewrite elem_of_cons, (HA x Hx). simpl. intuition congruence.
  - destruct Hop as (Hh & (o & Ho)). unfold SharedPtr_copy. rewrite Ho. cbn [need mbind outcome_bind].
    replace (mkShared (m_ptr o) (m_refCount o)) with o by (by destruct o).
    destruct (attach_inv s HI h other o Hb Ho ltac:(by left)) as (s' & -> & HI' & Eh & Ed).
    exists s'. split; [done|]. split; [done|]. intros x Hx. rewrite Eh, Ed, held_insert by (done || by left).
    rewrite (HA x Hx). split; [tauto|]. intros [?|[<-|?]]; [tauto| |tauto]. right. by exists other, o.
  - destruct Hop as ((p & Hh) & (o & Ho)). unfold SharedPtr_assign.
    destruct (Z.eqb_spec h other) as [->|Hne]; [by exists s|].
    destruct (release_inv s HI h p Hh Hb) as (s1 & -> & HI1 & Eh1 & Ed1). cbn [mbind outcome_bind].
    pose proof (release_accounted s h p cr s1 HI Hh Eh1 Ed1 HA) as HA1.
    assert (handles s1 !! other = Some o) as Ho1 by (by rewrite Eh1, lookup_insert_ne).
    assert (handles s1 !! h = Some (mkShared 0 0)) as Hh1 by (by rewrite Eh1, lookup_insert_eq).
    assert (SpBound s1) as Hb1 by (unfold SpBound in *; rewrite Eh1, map_size_insert_Some by done; done).
    rewrite Ho1. cbn [need mbind outcome_bind]. replace (mkShared (m_ptr o) (m_refCount o)) with o by (by destruct o).
    destruct (attach_inv s1 HI1 h other o Hb1 Ho1 ltac:(by right)) as (s' & -> & HI' & Eh & Ed).
    exists s'. split; [done|]. split; [done|]. intros x Hx. rewrite Eh, Ed, held_insert by (done || by right).
    rewrite (HA1 x Hx). split; [tauto|]. intros [?|[<-|?]]; [tauto| |tauto]. right. by exists other, o.
  - destruct Hop as (p & Hh). unfold SharedPtr_destroy.
    destruct (release_inv s HI h p Hh Hb) as (s1 & -> & HI1 & Eh1 & Ed1). cbn [mbind outcome_bind].
    pose proof (release_accounted s h p cr s1 HI Hh Eh1 Ed1 HA) as HA1.
    assert (handles s1 !! h = Some (mkShared 0 0)) as Hh1 by (by rewrite Eh1, lookup_insert_eq).
    eexists. split; [reflexivity|]. split; [apply (null_handle_inv s1 HI1); by right|].
    intros x Hx. cbn [handles deleted]. rewrite (HA1 x Hx).
    assert (held (delete h (handles s1)) x <-> held (handles s1) x) as ->; [|done]. split.
    + intros (h1 & p1 & [_ H1]%lookup_delete_Some & E). by exists h1, p1.
    + intros (h1 & p1 & H1 & E). exists h1, p1. split; [|done]. rewrite lookup_delete_ne; [done|].
      intros <-. rewrite Hh1 in H1. injection H1 as <-. by apply Hx.
Qed.

Definition sp_empty : SpState := mkSp ∅ ∅ [].

Lemma sp_empty_inv : SpInv sp_empty /\ SpBound sp_empty /\ Accounted sp_empty [].
Proof.
  split_and!; [|done|].
  - split; simpl; try done; try by constructor. apply not_elem_of_nil.
  - intros x Hx. simpl. split; [by intros ?%elem_of_nil|].
    intros [?%elem_of_nil|(h & p & Hh & _)]; [done|]. by rewrite lookup_empty in Hh.
Qed.

Lemma sp_run_inv s cr s' cr' : sp_run s cr s' cr' -> SpInv s -> SpBound s -> Accounted s cr ->
  SpInv s' /\ SpBound s' /\ Accounted s' cr'.
Proof.
  induction 1 as [|s cr op s1 s2 cr2 Hop E Hb1 _ IH]; [done|]. intros HI Hb HA. apply IH.
  all: destruct (sp_step_inv s cr op HI Hb HA Hop) as (s1' & E' & HI' & HA'); rewrite E in E'; by injection E' as <-.
Qed.

(** C12 (invariant): after any program of constructions, copies, assignments (of a handle
    to itself too) and destructions of handles, every further allowed operation goes
    through without touching a deleted counter; an object has been deleted exactly when no
    handle holds it any more, and never twice; and [refCount] is the number of handles of
    the object, 0 for a null handle. *)
Theorem SharedPtr_counts s cr : sp_run sp_empty [] s cr ->
  (forall op, sp_allowed s cr op -> is_done (sp_step s op) = true) /\
  NoDup (deleted s) /\
  (forall ptr, ptr ∈ cr -> ptr <> 0 -> (ptr ∈ deleted s <-> ~ held (handles s) ptr)) /\
  (forall h p, handles s !! h = Some p -> refCount s h = Done (
     if decide (m_ptr p = 0) then 0
     else Z.of_nat (size (filter (fun '(_, q) => m_ptr q = m_ptr p) (handles s))))).
Proof.
  intros Hr. destruct sp_empty_inv as (HI0 & Hb0 & HA0).
  destruct (sp_run_inv _ _ _ _ Hr HI0 Hb0 HA0) as (HI & Hb & HA). split_and!.
  - intros op Hop. by destruct (sp_step_inv s cr op HI Hb HA Hop) as (s' & -> & _).
  - apply (inv_once _ HI).
  - intros ptr Hc Hp. split.
    + intros Hd (h & p & Hh & <-). by eapply (inv_live _ HI).
    + intros Hn. apply (HA ptr Hp) in Hc. tauto.
  - intros h p Hh. unfold refCount. rewrite Hh. cbn [need mbind outcome_bind].
    pose proof (inv_null _ HI _ _ Hh) as Hnull. destruct (Z.eqb_spec (m_refCount p) 0) as [E|Hne].
    + rewrite decide_True by tauto. done.
    + rewrite decide_False by tauto. rewrite (inv_counter s HI h p Hh Hne). cbn [need]. do 2 f_equal.
      unfold sharers. f_equal. apply map_filter_ext. intros h' q Hq. symmetry. by eapply (inv_same _ HI).
Qed.

(** Two handles of an object, one assigned over and one destroyed. *)
Definition sp_demo : list sp_op :=
  [OpNew 1 100 7; OpCopy 2 1; OpNew 3 200 8; OpAssign 2 3; OpDestroy 1].

Lemma SharedPtr_counts_witness :
  exists s cr, sp_run sp_empty [] s cr /\ deleted s = [100] /\
    (forall ptr, ptr ∈ cr -> ptr <> 0 -> (ptr ∈ deleted s <-> ~ held (handles s) ptr)) /\ refCount s 2 = Done 2.
Proof.
  do 2 eexists.
  assert (forall s cr, sp_run sp_empty [] s cr -> deleted s = [100] -> refCount s 2 = Done 2 ->
    sp_run sp_empty [] s cr /\ deleted s = [100] /\
    (forall ptr, ptr ∈ cr -> ptr <> 0 -> (ptr ∈ deleted s <-> ~ held (handles s) ptr)) /\ refCount s 2 = Done 2) as H.
  { intros s cr Hrun Hd Hr. destruct (SharedPtr_counts s cr Hrun) as (_ & _ & H & _). by split_and!. }
  apply H; clear H.
  - eapply (run_op _ _ (OpNew 1 100 7)); [|reflexivity|vm_compute; reflexivity|].
    { split_and!; [reflexivity|set_solver|done|reflexivity]. }
    eapply (run_op _ _ (OpCopy 2 1)); [|reflexivity|vm_compute; reflexivity|].
    { split; [reflexivity|by eexists]. }
    eapply (run_op _ _ (OpNew 3 200 8)); [|reflexivity|vm_compute; reflexivity|].
    { split_and!; [reflexivity|set_solver|done|reflexivity]. }
    eapply (run_op _ _ (OpAssign 2 3)); [|reflexivity|vm_compute; reflexivity|].
    { split; by eexists. }
    eapply (run_op _ _ (OpDestroy 1)); [by eexists|reflexivity|vm_compute; reflexivity|]. apply run_nil.
  - vm_compute. reflexivity.
  - vm_compute. reflexivity.
Defined.
