(* ===== verification/Process.v ===== *)
(** * Processes and context switches (kernel/src/process/process.cpp, process.h,
      arch/x86/per_cpu_data.h, the frames of interrupts/interrupts.h)

    The process control blocks live in a store indexed by address; the per-cpu block
    is an array of [MAX_CPUS] entries; [cr3] is the register of the running core.  An
    interrupt frame is a value that a handler receives and returns. *)
From Stdlib Require Import ZArith Lia.
From stdpp Require Import base tactics numbers option list gmap.
From S2P Require Import Prelude PageFrame PageTable Paging.

(** ** Data *)
Record InterruptFrame := mkInterruptFrame {
  hw_rip : Z; hw_cs : Z; hw_rflags : Z; hw_rsp : Z; hw_ss : Z }.

Record PtRegs := mkPtRegs {
  p_gs : Z; p_fs : Z; p_es : Z; p_ds : Z;
  p_r15 : Z; p_r14 : Z; p_r13 : Z; p_r12 : Z;
  p_r11 : Z; p_r10 : Z; p_r9 : Z; p_r8 : Z;
  p_rdi : Z; p_rsi : Z; p_rbp : Z;
  p_rbx : Z; p_rdx : Z; p_rcx : Z;
  p_rax : Z;
  p_intno : Z;
  p_error : Z;
  p_hwframe : InterruptFrame }.

Record CpuContext := mkCpuContext {
  rax : Z; rbx : Z; rcx : Z; rdx : Z;
  rsi : Z; rdi : Z; rbp : Z;
  r8 : Z; r9 : Z; r10 : Z; r11 : Z; r12 : Z; r13 : Z; r14 : Z; r15 : Z;
  rip : Z; rsp : Z; rflags : Z;
  cs : Z; ds : Z; es : Z; fs : Z; gs : Z; ss : Z }.

Inductive ProcessState := INVALID | NEW | READY | RUNNING | WAITING | TERMINATED.

#[export] Instance ProcessState_eq_dec : EqDecision ProcessState.
Proof. solve_decision. Defined.
#[export] Instance CpuContext_eq_dec : EqDecision CpuContext.
Proof. solve_decision. Defined.

Record PCB := mkPCB {
  context : CpuContext;
  pstate : ProcessState;
  pid : Z;            (** [int64_t] *)
  priority : Z;
  pcr3 : Z;
  kernelStack : Z;
  usergs : Z;
  elevated : Z;       (** [uint8_t] *)
  pcpu : Z }.         (** [uint8_t] *)

Record CpuData := mkCpuData {
  currentTask : Z;            (** pointer to a PCB *)
  defaultKernelStack : Z;
  currentKernelStack : Z;
  currentUserStack : Z }.

Definition MAX_CPUS : Z := 64.
Definition BSP_CPU_ID : Z := 0.

Record kstate := mkKstate {
  pcbs : gmap Z PCB;
  cpus : list CpuData;        (** [__per_cpu_data.__cpu] *)
  cr3 : Z }.

(** ** Field updates *)
Definition set_context (p : PCB) (c : CpuContext) : PCB :=
  mkPCB c (pstate p) (pid p) (priority p) (pcr3 p) (kernelStack p) (usergs p) (elevated p) (pcpu p).
Definition set_state (p : PCB) (st : ProcessState) : PCB :=
  mkPCB (context p) st (pid p) (priority p) (pcr3 p) (kernelStack p) (usergs p) (elevated p) (pcpu p).
Definition set_cr3 (p : PCB) (v : Z) : PCB :=
  mkPCB (context p) (pstate p) (pid p) (priority p) v (kernelStack p) (usergs p) (elevated p) (pcpu p).
Definition set_kernelStack (p : PCB) (v : Z) : PCB :=
  mkPCB (context p) (pstate p) (pid p) (priority p) (pcr3 p) v (usergs p) (elevated p) (pcpu p).
Definition set_usergs (p : PCB) (v : Z) : PCB :=
  mkPCB (context p) (pstate p) (pid p) (priority p) (pcr3 p) (kernelStack p) v (elevated p) (pcpu p).
Definition set_elevated (p : PCB) (v : Z) : PCB :=
  mkPCB (context p) (pstate p) (pid p) (priority p) (pcr3 p) (kernelStack p) (usergs p) (u8 v) (pcpu p).
Definition set_cpu (p : PCB) (v : Z) : PCB :=
  mkPCB (context p) (pstate p) (pid p) (priority p) (pcr3 p) (kernelStack p) (usergs p) (elevated p) (u8 v).

(** [ptr->field = v] on a control block: a fault when there is none at [ptr]. *)
Definition update_pcb (s : kstate) (ptr : Z) (f : PCB -> PCB) : outcome kstate :=
  p ← need (pcbs s !! ptr); Done (mkKstate (<[ptr := f p]> (pcbs s)) (cpus s) (cr3 s)).

(** [__per_cpu_data.__cpu[cpu]] and an assignment to it *)
Definition cpu_entry (s : kstate) (cpu : Z) : outcome CpuData :=
  if cpu <? 0 then Fault else need (cpus s !! Z.to_nat cpu).

Definition update_cpu (s : kstate) (cpu : Z) (f : CpuData -> CpuData) : outcome kstate :=
  d ← cpu_entry s cpu; Done (mkKstate (pcbs s) (<[Z.to_nat cpu := f d]> (cpus s)) (cr3 s)).

Definition set_currentTask (d : CpuData) (t : Z) : CpuData :=
  mkCpuData t (defaultKernelStack d) (currentKernelStack d) (currentUserStack d).
Definition set_currentKernelStack (d : CpuData) (v : Z) : CpuData :=
  mkCpuData (currentTask d) (defaultKernelStack d) v (currentUserStack d).

Definition write_cr3 (s : kstate) (v : Z) : kstate := mkKstate (pcbs s) (cpus s) v.

(** ** process.cpp *)
Definition saveCpuContext (frame : PtRegs) : CpuContext :=
  let hw := p_hwframe frame in
  {| rax := p_rax frame; rbx := p_rbx frame; rcx := p_rcx frame; rdx := p_rdx frame;
     rsi := p_rsi frame; rdi := p_rdi frame; rbp := p_rbp frame;
     r8 := p_r8 frame; r9 := p_r9 frame; r10 := p_r10 frame; r11 := p_r11 frame;
     r12 := p_r12 frame; r13 := p_r13 frame; r14 := p_r14 frame; r15 := p_r15 frame;
     rip := hw_rip hw; rsp := hw_rsp hw; rflags := hw_rflags hw;
     cs := hw_cs hw; ss := hw_ss hw;
     ds := p_ds frame; es := p_es frame; fs := p_fs frame; gs := p_gs frame |}.

(** The interrupt number and the error code of the frame stay. *)
Definition restoreCpuContext (c : CpuContext) (frame : PtRegs) : PtRegs :=
  {| p_gs := gs c; p_fs := fs c; p_es := es c; p_ds := ds c;
     p_r15 := r15 c; p_r14 := r14 c; p_r13 := r13 c; p_r12 := r12 c;
     p_r11 := r11 c; p_r10 := r10 c; p_r9 := r9 c; p_r8 := r8 c;
     p_rdi := rdi c; p_rsi := rsi c; p_rbp := rbp c;
     p_rbx := rbx c; p_rdx := rdx c; p_rcx := rcx c; p_rax := rax c;
     p_intno := p_intno frame; p_error := p_error frame;
     p_hwframe := {| hw_rip := rip c; hw_cs := cs c; hw_rflags := rflags c;
                     hw_rsp := rsp c; hw_ss := ss c |} |}.

Section switching.
Variable off : Z.   (** the distance between a physical address and its kernel alias *)

Definition switchContextInIrq (oldCpu newCpu from to : Z) (s : kstate) (frame : PtRegs)
  : outcome (kstate * PtRegs) :=
  s ← update_pcb s from (fun p => set_context p (saveCpuContext frame));
  s ← update_pcb s from (fun p => set_cr3 p (getCurrentTopLevelPageTable off (cr3 s)));
  old ← cpu_entry s oldCpu;
  s ← update_pcb s from (fun p => set_kernelStack p (currentKernelStack old));
  pto ← need (pcbs s !! to);
  s ← update_cpu s newCpu (fun d => set_currentKernelStack d (kernelStack pto));
  let frame := restoreCpuContext (context pto) frame in
  let s := write_cr3 s (setCurrentTopLevelPageTable off (pcr3 pto)) in
  s ← update_cpu s newCpu (fun d => set_currentTask d to);
  Done (s, frame).

(** The frame is what [__asm_ctx_switch_no_irq] pops before its [iretq]. *)
Definition exitAndSwitchCurrentContext (cpu newCtx : Z) (s : kstate) (regs : PtRegs)
  : outcome (kstate * PtRegs) :=
  p ← need (pcbs s !! newCtx);
  s ← update_cpu s cpu (fun d => set_currentKernelStack d (kernelStack p));
  let regs := restoreCpuContext (context p) regs in
  let s := write_cr3 s (setCurrentTopLevelPageTable off (pcr3 p)) in
  s ← update_cpu s cpu (fun d => set_currentTask d newCtx);
  Done (s, regs).
End switching.

(** [current]: the first word of the per-cpu block of the core that runs *)
Definition getCurrentTask_percpu (s : kstate) (cpu : Z) : outcome Z :=
  d ← cpu_entry s cpu; Done (currentTask d).

(** [current->cpu] *)
Definition getCurrentCpuId (s : kstate) (cpu : Z) : outcome Z :=
  t ← getCurrentTask_percpu s cpu; p ← need (pcbs s !! t); Done (pcpu p).

(** ** Lemmas *)
Lemma restore_save frame frame' :
  restoreCpuContext (saveCpuContext frame) frame' =
  mkPtRegs (p_gs frame) (p_fs frame) (p_es frame) (p_ds frame)
    (p_r15 frame) (p_r14 frame) (p_r13 frame) (p_r12 frame)
    (p_r11 frame) (p_r10 frame) (p_r9 frame) (p_r8 frame)
    (p_rdi frame) (p_rsi frame) (p_rbp frame) (p_rbx frame) (p_rdx frame) (p_rcx frame)
    (p_rax frame) (p_intno frame') (p_error frame') (p_hwframe frame).
Proof. unfold restoreCpuContext, saveCpuContext. simpl. by destruct (p_hwframe frame). Qed.

(** A [cr3] value survives the trip through its kernel alias. *)
Lemma cr3_roundtrip off v :
  is_u64 v -> setCurrentTopLevelPageTable off (getCurrentTopLevelPageTable off v) = v.
Proof.
  intros Hv. unfold setCurrentTopLevelPageTable, getCurrentTopLevelPageTable.
  unfold physToVirtAddr, virtToPhysAddr. autorewrite with words.
  replace (v + off - off) with v by lia. by apply u64_small.
Qed.

Section switch_lemmas.
Variable off : Z.

(** The control block of a task that is switched out. *)
Definition saved_pcb (p : PCB) (frame : PtRegs) (table stack : Z) : PCB :=
  set_kernelStack (set_cr3 (set_context p (saveCpuContext frame)) (getCurrentTopLevelPageTable off table))
    stack.

Definition switched_cpu (d : CpuData) (stack task : Z) : CpuData :=
  set_currentTask (set_currentKernelStack d stack) task.

Lemma cpu_entry_some s cpu d :
  cpu_entry s cpu = Done d <-> 0 <= cpu /\ cpus s !! Z.to_nat cpu = Some d.
Proof.
  unfold cpu_entry. destruct (Z.ltb_spec cpu 0); [naive_solver lia|].
  split; [intros E%need_inv; naive_solver lia|intros [_ ->]; done].
Qed.

(** A switch between two different tasks on one core. *)
Lemma switchContextInIrq_eq cpu from to s frame pf pt d :
  from <> to -> pcbs s !! from = Some pf -> pcbs s !! to = Some pt -> cpu_entry s cpu = Done d ->
  switchContextInIrq off cpu cpu from to s frame =
  Done (mkKstate (<[from := saved_pcb pf frame (cr3 s) (currentKernelStack d)]> (pcbs s))
          (<[Z.to_nat cpu := switched_cpu d (kernelStack pt) to]> (cpus s))
          (setCurrentTopLevelPageTable off (pcr3 pt)),
        restoreCpuContext (context pt) frame).
Proof.
  intros Hne Hf Ht [Hc Hd]%cpu_entry_some.
  pose proof (lookup_lt_Some _ _ _ Hd) as Hlt.
  unfold switchContextInIrq, update_pcb, update_cpu, cpu_entry. rewrite Hf. simpl.
  rewrite lookup_insert_eq. simpl. destruct (Z.ltb_spec cpu 0); [lia|]. rewrite Hd. simpl.
  rewrite !lookup_insert_eq. simpl. rewrite !insert_insert_eq, lookup_insert_ne, Ht by done. simpl.
  rewrite Hd. simpl. rewrite list_lookup_insert_eq by done. simpl.
  by rewrite list_insert_insert_eq.
Qed.

Lemma exitAndSwitch_eq cpu to s frame pt d :
  pcbs s !! to = Some pt -> cpu_entry s cpu = Done d ->
  exitAndSwitchCurrentContext off cpu to s frame =
  Done (mkKstate (pcbs s)
          (<[Z.to_nat cpu := switched_cpu d (kernelStack pt) to]> (cpus s))
          (setCurrentTopLevelPageTable off (pcr3 pt)),
        restoreCpuContext (context pt) frame).
Proof.
  intros Ht [Hc Hd]%cpu_entry_some. pose proof (lookup_lt_Some _ _ _ Hd) as Hlt.
  unfold exitAndSwitchCurrentContext, update_cpu, cpu_entry. rewrite Ht. simpl.
  destruct (Z.ltb_spec cpu 0); [lia|]. rewrite Hd. simpl. rewrite list_lookup_insert_eq by done. simpl.
  by rewrite list_insert_insert_eq.
Qed.

(** A switch that returns found both control blocks and the core. *)
Lemma switch_inv cpu from to s frame r :
  from <> to -> switchContextInIrq off cpu cpu from to s frame = Done r ->
  exists pf pt d, pcbs s !! from = Some pf /\ pcbs s !! to = Some pt /\ cpu_entry s cpu = Done d.
Proof.
  intros Hne H. unfold switchContextInIrq, update_pcb in H.
  destruct (pcbs s !! from) as [pf|] eqn:Hf; [|done]. simpl in H.
  rewrite lookup_insert_eq in H. simpl in H.
  destruct (cpu_entry _ cpu) as [d| |] eqn:Hd; [|done..]. simpl in H.
  rewrite !lookup_insert_eq in H. simpl in H. rewrite !insert_insert_eq, lookup_insert_ne in H by done.
  destruct (pcbs s !! to) as [pt|] eqn:Ht; [|done]. exists pf, pt, d.
  by split_and!.
Qed.

(** It only writes the control block it leaves, and keeps every block mapped. *)
Lemma switch_frame cpu from to s frame s' frame' :
  from <> to -> switchContextInIrq off cpu cpu from to s frame = Done (s', frame') ->
  (forall t, t <> from -> pcbs s' !! t = pcbs s !! t) /\
  (forall t, is_Some (pcbs s !! t) -> is_Some (pcbs s' !! t)) /\ length (cpus s') = length (cpus s).
Proof.
  intros Hne H. destruct (switch_inv _ _ _ _ _ _ Hne H) as (pf & pt & d & Hf & Ht & Hd).
  rewrite (switchContextInIrq_eq cpu from to s frame pf pt d) in H by done.
  injection H as <- <-. simpl. split_and!; [..|apply length_insert]; intros t Ht'.
  - by rewrite lookup_insert_ne.
  - rewrite lookup_insert. by case_decide.
Qed.

(** A sequence of switches on one core; each entry is the task interrupted, the task
    switched to and the frame of the interrupt. *)
Fixpoint run_switches (cpu : Z) (l : list (Z * Z * PtRegs)) (s : kstate) : outcome kstate :=
  match l with
  | [] => Done s
  | (from, to, frame) :: l =>
      r ← switchContextInIrq off cpu cpu from to s frame; run_switches cpu l (fst r)
  end.

Lemma run_switches_frame cpu l s s' t :
  Forall (fun e => fst (fst e) <> t /\ fst (fst e) <> snd (fst e)) l ->
  run_switches cpu l s = Done s' ->
  pcbs s' !! t = pcbs s !! t /\ (forall u, is_Some (pcbs s !! u) -> is_Some (pcbs s' !! u)) /\
  length (cpus s') = length (cpus s).
Proof.
  revert s. induction l as [|[[from to] frame] l IH]; intros s Hl H; simpl in *.
  { by inv_bind. }
  apply Forall_cons in Hl as [[H1 H2] Hl]. simpl in *. inv_bind. destruct r as [s1 f1]. simpl in *.
  destruct (switch_frame _ _ _ _ _ _ _ H2 E) as (F1 & F2 & F3).
  destruct (IH s1 Hl H) as (-> & G2 & ->). split_and!; auto.
Qed.

Lemma cpu_entry_length s s' cpu d :
  length (cpus s') = length (cpus s) -> cpu_entry s cpu = Done d -> exists d', cpu_entry s' cpu = Done d'.
Proof.
  intros Hl [Hc Hd%lookup_lt_Some]%cpu_entry_some.
  destruct (lookup_lt_is_Some_2 (cpus s') (Z.to_nat cpu)) as [d' Hd']; [lia|].
  exists d'. by apply cpu_entry_some.
Qed.
End switch_lemmas.

(** C9 (roundtrip): a task that the timer interrupt switches out resumes exactly where
    it was.  Whatever switches between other tasks the core makes in the meantime,
    when it switches back the frame that the interrupt return pops carries, register by
    register, the values of the interrupted frame: the fifteen general registers, the
    four data segment registers and the hardware frame (instruction pointer, code
    segment, flags, stack pointer and stack segment), with only the interrupt number
    and the error code those of the second interrupt; and [cr3], the kernel stack and
    the current task of the core are the task's own. *)
Theorem context_switch_roundtrip off cpu a b x s frame s1 frame1 l s2 frame2 d :
  a <> b -> x <> a -> is_u64 (cr3 s) -> cpu_entry s cpu = Done d -> is_Some (pcbs s !! x) ->
  switchContextInIrq off cpu cpu a b s frame = Done (s1, frame1) ->
  Forall (fun e => fst (fst e) <> a /\ fst (fst e) <> snd (fst e)) l ->
  run_switches off cpu l s1 = Done s2 ->
  exists s3, switchContextInIrq off cpu cpu x a s2 frame2 =
      Done (s3,
        mkPtRegs (p_gs frame) (p_fs frame) (p_es frame) (p_ds frame)
          (p_r15 frame) (p_r14 frame) (p_r13 frame) (p_r12 frame)
          (p_r11 frame) (p_r10 frame) (p_r9 frame) (p_r8 frame)
          (p_rdi frame) (p_rsi frame) (p_rbp frame) (p_rbx frame) (p_rdx frame) (p_rcx frame)
          (p_rax frame) (p_intno frame2) (p_error frame2) (p_hwframe frame)) /\
    cr3 s3 = cr3 s /\
    exists d3, cpu_entry s3 cpu = Done d3 /\ currentTask d3 = a /\
               currentKernelStack d3 = currentKernelStack d.
Proof.
  intros Hab Hxa Hcr Hd Hx Hsw Hl Hrun.
  destruct (switch_frame _ _ _ _ _ _ _ _ Hab Hsw) as (F1 & F2 & F3).
  destruct (run_switches_frame _ _ _ _ _ a Hl Hrun) as (G1 & G2 & G3).
  destruct (G2 x (F2 x Hx)) as [px Hpx].
  destruct (cpu_entry_length s s2 cpu d) as [d2 Hd2]; [congruence|done|].
  destruct (switch_inv _ _ _ _ _ _ _ Hab Hsw) as (pa & pb & d' & Ha & Hb & Hd').
  assert (pcbs s2 !! a = Some (saved_pcb off pa frame (cr3 s) (currentKernelStack d))) as Hpa.
  { rewrite G1. rewrite (switchContextInIrq_eq off cpu a b s frame pa pb d) in Hsw by done.
    injection Hsw as <- _. simpl. by rewrite lookup_insert_eq. }
  eexists. rewrite (switchContextInIrq_eq off cpu x a s2 frame2 px _ d2 Hxa Hpx Hpa Hd2).
  simpl. rewrite restore_save. split; [reflexivity|]. simpl. split; [by apply cr3_roundtrip|].
  apply cpu_entry_some in Hd2 as [Hc Hd2].
  exists (switched_cpu d2 (currentKernelStack d) a). split; [|done].
  apply cpu_entry_some. simpl. split; [done|].
  rewrite list_lookup_insert_eq; [done|]. by eapply lookup_lt_Some.
Qed.

(** Two tasks on core 0: task 100 runs, is switched out for task 200 and resumes. *)
Definition demo_context : CpuContext :=
  mkCpuContext 0 0 0 0 0 0 0 0 0 0 0 0 0 0 0 0x1000 0x8000 0x200 0 0 0 0 0 0.
Definition demo_pcb (p stack : Z) : PCB := mkPCB demo_context READY p 0 0xffffffff80400000 stack 0 0 0.
Definition demo_frame (ip : Z) : PtRegs :=
  mkPtRegs 1 2 3 4 5 6 7 8 9 10 11 12 13 14 15 16 17 18 19 32 0 (mkInterruptFrame ip 0x23 0x202 0x7000 0x1b).
Definition demo_kstate : kstate :=
  mkKstate {[ 100 := demo_pcb 10 0x11000; 200 := demo_pcb 11 0x22000 ]}
    [mkCpuData 100 0x9000 0x11000 0] 0x400000.

Lemma context_switch_roundtrip_witness :
  exists s1 s3,
    switchContextInIrq 0xffffffff80000000 0 0 100 200 demo_kstate (demo_frame 0x5555) =
      Done (s1, restoreCpuContext demo_context (demo_frame 0x5555)) /\
    switchContextInIrq 0xffffffff80000000 0 0 200 100 s1 (demo_frame 0x6666) =
      Done (s3, demo_frame 0x5555) /\ cr3 s3 = 0x400000.
Proof.
  set (d0 := mkCpuData 100 0x9000 0x11000 0).
  assert (switchContextInIrq 0xffffffff80000000 0 0 100 200 demo_kstate (demo_frame 0x5555) = Done
    (mkKstate (<[100 := saved_pcb 0xffffffff80000000 (demo_pcb 10 0x11000) (demo_frame 0x5555) 0x400000 0x11000]>
                (pcbs demo_kstate)) [switched_cpu d0 0x22000 200]
       (setCurrentTopLevelPageTable 0xffffffff80000000 0xffffffff80400000),
     restoreCpuContext demo_context (demo_frame 0x5555))) as E by (vm_compute; reflexivity).
  match type of E with _ = Done (?s1, ?f1) =>
    destruct (context_switch_roundtrip 0xffffffff80000000 0 100 200 200 demo_kstate (demo_frame 0x5555) s1 f1
                [] s1 (demo_frame 0x6666) d0) as (s3 & H & Hc & _)
  end.
  - discriminate.
  - discriminate.
  - vm_compute. split; [discriminate|reflexivity].
  - reflexivity.
  - exists (demo_pcb 11 0x22000). reflexivity.
  - exact E.
  - constructor.
  - reflexivity.
  - eexists _, s3. split; [exact E|]. split; [exact H|]. exact Hc.
Defined.
