(* ===== verification/Elevate.v ===== *)
(** * Privilege elevation (kernel/src/kelevate, syscall/syscalls.cpp,
      arch/x86/asm/syscall_entry64.s)

    Kernel threads run in ring 3 and raise themselves with a system call that sets the
    [elevated] flag of the current task; the return path of the call stays in ring 0
    when the flag is set.  [current] is read through the gs base, so the two gs bases
    are part of the state. *)
From Stdlib Require Import ZArith Lia.
From stdpp Require Import base tactics numbers option list gmap.
From S2P Require Import Prelude Process.

Record machine := mkMachine {
  ks : kstate;
  gsbase : Z;         (** [IA32_GS_BASE] *)
  kgsbase : Z;        (** [IA32_KERNEL_GS_BASE] *)
  ring : Z;           (** current privilege level *)
  interrupts : bool;  (** the interrupt flag *)
}.

Definition with_ks (m : machine) (s : kstate) : machine :=
  mkMachine s (gsbase m) (kgsbase m) (ring m) (interrupts m).
Definition with_ring (m : machine) (r : Z) : machine :=
  mkMachine (ks m) (gsbase m) (kgsbase m) r (interrupts m).

(** ** Instructions *)
Definition swapgs (m : machine) : outcome machine :=
  if ring m =? 0
  then Done (mkMachine (ks m) (kgsbase m) (gsbase m) (ring m) (interrupts m))
  else Fault.

(** [rdgsbase] and [wrgsbase] use the model specific register, which ring 0 only may. *)
Definition rdgsbase (m : machine) : outcome Z := if ring m =? 0 then Done (gsbase m) else Fault.
Definition wrgsbase (m : machine) (v : Z) : outcome machine :=
  if ring m =? 0 then Done (mkMachine (ks m) v (kgsbase m) (ring m) (interrupts m)) else Fault.

(** [cli] and [sti] are privileged. *)
Definition set_interrupts (m : machine) (b : bool) : outcome machine :=
  if ring m =? 0 then Done (mkMachine (ks m) (gsbase m) (kgsbase m) (ring m) b) else Fault.
Definition disableInterrupts (m : machine) : outcome machine := set_interrupts m false.
Definition enableInterrupts (m : machine) : outcome machine := set_interrupts m true.

Definition SYSCALL_SYS_WRITE : Z := 0.
Definition SYSCALL_SYS_READ : Z := 1.
Definition SYSCALL_SYS_ELEVATE : Z := 91.
Definition SYSCALL_SYS_LOWER : Z := 92.
Definition ENOSYS : Z := 1.

Section elevation.
Variable per_cpu_data : Z.   (** the address of [__per_cpu_data] *)

Definition cpu_gs (cpu : Z) : Z := per_cpu_data + 32 * cpu.

(** [current]: the pointer at [gs:0].  Any base that is not an entry of the per-cpu
    block is memory this model knows nothing about. *)
Definition current (m : machine) : outcome Z :=
  let d := gsbase m - per_cpu_data in
  if (d mod 32 =? 0) && (0 <=? d) then getCurrentTask_percpu (ks m) (d / 32) else Fault.

Definition current_pcb (m : machine) : outcome PCB :=
  t ← current m; need (pcbs (ks m) !! t).

Definition update_current (m : machine) (f : PCB -> PCB) : outcome machine :=
  t ← current m; s ← update_pcb (ks m) t f; Done (with_ks m s).

Definition __check_current_elevate_status (m : machine) : outcome Z :=
  p ← current_pcb m; Done (elevated p).

(** ** syscalls.cpp

    The output of [kprint] is left out. *)
Definition __syscall_handler (syscallnum arg1 : Z) (m : machine) : outcome (Z * machine) :=
  if syscallnum =? SYSCALL_SYS_WRITE then Done (0, m)
  else if syscallnum =? SYSCALL_SYS_READ then Done (0, m)
  else if syscallnum =? SYSCALL_SYS_ELEVATE then
    p ← current_pcb m;
    if arg1 =? 1 then Done (elevated p, m)
    else if negb (elevated p =? 0) then Done (0, m)
    else m ← update_current m (fun p => set_elevated p 1); Done (0, m)
  else if syscallnum =? SYSCALL_SYS_LOWER then
    p ← current_pcb m;
    if elevated p =? 0 then Done (0, m)
    else m ← update_current m (fun p => set_elevated p 0); Done (0, m)
  else Done (s64 (u64 (- ENOSYS)), m).

(** The [syscall] instruction, [__asm_syscall_entry64] around the handler, and the way
    back: [retq] in ring 0 for an elevated task, [sysretq] otherwise. *)
Definition __syscall (syscallNumber arg1 : Z) (m : machine) : outcome (Z * machine) :=
  m ← swapgs (with_ring m 0);
  r ← __syscall_handler syscallNumber arg1 m;
  let '(ret, m) := r in
  st ← __check_current_elevate_status m;
  m ← swapgs m;
  Done (ret, with_ring m (if Z.testbit st 0 then 0 else 3)).

(** ** kelevate.cpp *)
Definition __set_elevated_usergs (m : machine) : outcome machine :=
  ugs ← rdgsbase m;
  m ← update_current m (fun p => set_usergs p ugs);
  m ← swapgs m;
  kgs ← rdgsbase m;
  m ← swapgs m;
  wrgsbase m kgs.

Definition __restore_lowered_usergs (m : machine) : outcome machine :=
  p ← current_pcb m; wrgsbase m (usergs p).

Definition __kelevate (m : machine) : outcome machine :=
  r ← __syscall SYSCALL_SYS_ELEVATE 0 m; __set_elevated_usergs (snd r).

Definition __klower (m : machine) : outcome machine :=
  m ← __restore_lowered_usergs m; r ← __syscall SYSCALL_SYS_LOWER 0 m; Done (snd r).

Definition __kcheck_elevated (m : machine) : outcome (Z * machine) :=
  __syscall SYSCALL_SYS_ELEVATE 1 m.

Definition RUN_ELEVATED (code : machine -> outcome machine) (m : machine) : outcome machine :=
  r ← __kcheck_elevated m;
  let '(initiallyElevated, m) := r in
  m ← (if initiallyElevated =? 0 then __kelevate m else Done m);
  m ← code m;
  if initiallyElevated =? 0 then __klower m else Done m.

(** ** The state a kernel thread runs in

    Both gs bases point to the block of the core, as [initializeAndInstallGDT] sets
    them, and the privilege level is the one the flag says. *)
Record thread_ok (cpu t : Z) (p : PCB) (m : machine) : Prop := {
  tk_cpu : exists d, cpu_entry (ks m) cpu = Done d /\ currentTask d = t;
  tk_pcb : pcbs (ks m) !! t = Some p;
  tk_gs : gsbase m = cpu_gs cpu;
  tk_kgs : kgsbase m = cpu_gs cpu;
  tk_flag : elevated p = 0 \/ elevated p = 1;
  tk_ring : ring m = if elevated p =? 0 then 3 else 0;
}.

Lemma current_at m cpu t :
  gsbase m = cpu_gs cpu -> (exists d, cpu_entry (ks m) cpu = Done d /\ currentTask d = t) ->
  current m = Done t.
Proof.
  intros Hg (d & Hd & <-). unfold current, getCurrentTask_percpu.
  rewrite Hg. unfold cpu_gs. replace (per_cpu_data + 32 * cpu - per_cpu_data) with (cpu * 32) by lia.
  rewrite Z_mod_mult, Z.div_mul by lia. apply cpu_entry_some in Hd as [Hc Hd].
  destruct (Z.leb_spec 0 (cpu * 32)); [|lia]. simpl.
  rewrite (proj2 (cpu_entry_some _ _ _) (conj Hc Hd)). done.
Qed.

Lemma swapgs_same m : gsbase m = kgsbase m -> ring m = 0 -> swapgs m = Done m.
Proof. destruct m as [s g k r i]; simpl. intros -> ->. done. Qed.

Lemma update_current_at m cpu t p f :
  gsbase m = cpu_gs cpu -> (exists d, cpu_entry (ks m) cpu = Done d /\ currentTask d = t) ->
  pcbs (ks m) !! t = Some p ->
  update_current m f =
  Done (with_ks m (mkKstate (<[t := f p]> (pcbs (ks m))) (cpus (ks m)) (Process.cr3 (ks m)))).
Proof.
  intros Hg Hc Hp. unfold update_current. rewrite (current_at m cpu t Hg Hc). simpl.
  unfold update_pcb. by rewrite Hp.
Qed.

#[local] Opaque swapgs.

Lemma with_ring_same m r : ring m = r -> with_ring m r = m.
Proof. by destruct m; simpl; intros ->. Qed.

Lemma current_pcb_at cpu t p m :
  gsbase m = cpu_gs cpu -> (exists d, cpu_entry (ks m) cpu = Done d /\ currentTask d = t) ->
  pcbs (ks m) !! t = Some p -> current_pcb m = Done p.
Proof. intros Hg Hc Hp. unfold current_pcb. rewrite (current_at m cpu t Hg Hc). simpl. by rewrite Hp. Qed.

(** The machine after a store to the current control block. *)
Definition put_pcb (m : machine) (t : Z) (p : PCB) : machine :=
  with_ks m (mkKstate (<[t := p]> (pcbs (ks m))) (cpus (ks m)) (Process.cr3 (ks m))).

Lemma put_pcb_twice m t p q : put_pcb (put_pcb m t p) t q = put_pcb m t q.
Proof. unfold put_pcb, with_ks. simpl. by rewrite insert_insert_eq. Qed.

Lemma with_ring_put m t p r : with_ring (put_pcb m t p) r = put_pcb (with_ring m r) t p.
Proof. done. Qed.

(** The check changes nothing. *)
Lemma kcheck_spec cpu t p m :
  thread_ok cpu t p m -> __kcheck_elevated m = Done (elevated p, m).
Proof.
  intros [Hc Hp Hg Hk Hf Hr]. unfold __kcheck_elevated, __syscall.
  rewrite swapgs_same by (simpl; congruence). simpl.
  unfold __syscall_handler, __check_current_elevate_status. simpl.
  rewrite (current_pcb_at cpu t p (with_ring m 0)) by done. simpl.
  rewrite (current_pcb_at cpu t p (with_ring m 0)) by done. simpl.
  rewrite swapgs_same by (simpl; congruence). simpl.
  unfold with_ring. simpl. do 2 f_equal. apply (with_ring_same m).
  rewrite Hr. by destruct Hf as [-> | ->].
Qed.

Lemma kelevate_spec cpu t p m :
  thread_ok cpu t p m -> elevated p = 0 ->
  __kelevate m = Done (put_pcb (with_ring m 0) t (set_usergs (set_elevated p 1) (cpu_gs cpu))).
Proof.
  intros [Hc Hp Hg Hk Hf Hr] He. unfold __kelevate, __syscall.
  rewrite swapgs_same by (simpl; congruence). cbn [mbind outcome_bind].
  unfold __syscall_handler. simpl. rewrite (current_pcb_at cpu t p) by done. simpl. rewrite He. simpl.
  rewrite (update_current_at _ cpu t p) by done. fold (put_pcb (with_ring m 0) t (set_elevated p 1)).
  set (m1 := put_pcb (with_ring m 0) t (set_elevated p 1)).
  cbn [mbind outcome_bind]. unfold __check_current_elevate_status.
  assert (pcbs (ks m1) !! t = Some (set_elevated p 1)) as Hp1 by (simpl; by rewrite lookup_insert_eq).
  rewrite (current_pcb_at cpu t (set_elevated p 1) m1) by done. simpl.
  rewrite swapgs_same by (simpl; congruence). simpl.
  unfold __set_elevated_usergs. rewrite (with_ring_same m1 0) by done.
  assert (rdgsbase m1 = Done (gsbase m)) as -> by done. cbn [mbind outcome_bind].
  rewrite (update_current_at m1 cpu t (set_elevated p 1)) by done.
  match goal with |- context [with_ks m1 ?s] => set (m2 := with_ks m1 s) end.
  cbn [mbind outcome_bind]. rewrite (swapgs_same m2) by (simpl; congruence).
  cbn [mbind outcome_bind]. assert (rdgsbase m2 = Done (gsbase m)) as -> by done.
  cbn [mbind outcome_bind]. rewrite (swapgs_same m2) by (simpl; congruence).
  cbn [mbind outcome_bind]. unfold wrgsbase, m2, m1, put_pcb, with_ks. simpl.
  rewrite insert_insert_eq, Hg. done.
Qed.

Lemma klower_spec cpu t p m :
  thread_ok cpu t p m -> elevated p = 1 -> usergs p = cpu_gs cpu ->
  __klower m = Done (put_pcb (with_ring m 3) t (set_elevated p 0)).
Proof.
  intros [Hc Hp Hg Hk Hf Hr] He Hu. unfold __klower, __restore_lowered_usergs.
  rewrite (current_pcb_at cpu t p) by done. simpl.
  assert (wrgsbase m (usergs p) = Done m) as ->
    by (unfold wrgsbase; rewrite Hr, He, Hu, <- Hg; destruct m; simpl in *; by rewrite Hr, He).
  cbn [mbind outcome_bind]. unfold __syscall. rewrite swapgs_same by (simpl; congruence). cbn [mbind outcome_bind].
  unfold __syscall_handler. simpl. rewrite (current_pcb_at cpu t p) by done. simpl. rewrite He. simpl.
  rewrite (update_current_at _ cpu t p) by done. fold (put_pcb (with_ring m 0) t (set_elevated p 0)).
  set (m1 := put_pcb (with_ring m 0) t (set_elevated p 0)).
  cbn [mbind outcome_bind]. unfold __check_current_elevate_status.
  assert (pcbs (ks m1) !! t = Some (set_elevated p 0)) as Hp1 by (simpl; by rewrite lookup_insert_eq).
  rewrite (current_pcb_at cpu t (set_elevated p 0) m1) by done. simpl.
  rewrite swapgs_same by (simpl; congruence). done.
Qed.

Lemma thread_ok_put cpu t p q m r :
  thread_ok cpu t p m -> elevated q = 0 \/ elevated q = 1 -> r = (if elevated q =? 0 then 3 else 0) ->
  thread_ok cpu t q (put_pcb (with_ring m r) t q).
Proof.
  intros [Hc Hp Hg Hk Hf Hr] Hq ->. split; simpl; [done|apply lookup_insert_eq|done..].
Qed.

(** Code that may run between the two calls: started in ring 0 on the elevated task it
    returns there, still elevated, with the saved user gs base as it was. *)
Definition elevated_code (cpu t : Z) (code : machine -> outcome machine) : Prop :=
  forall m p, thread_ok cpu t p m -> elevated p = 1 ->
  exists m' p', code m = Done m' /\ thread_ok cpu t p' m' /\ elevated p' = 1 /\ usergs p' = usergs p.

Lemma run_elevated_nested cpu t code m p :
  thread_ok cpu t p m -> elevated p = 1 -> RUN_ELEVATED code m = code m.
Proof.
  intros Hm He. unfold RUN_ELEVATED. rewrite (kcheck_spec cpu t p m Hm), He. simpl.
  by destruct (code m).
Qed.

Lemma run_elevated_lowered cpu t code m p :
  thread_ok cpu t p m -> elevated p = 0 -> elevated_code cpu t code ->
  exists m1 m2 p2,
    m1 = put_pcb (with_ring m 0) t (set_usergs (set_elevated p 1) (cpu_gs cpu)) /\
    code m1 = Done m2 /\ thread_ok cpu t p2 m2 /\
    RUN_ELEVATED code m = Done (put_pcb (with_ring m2 3) t (set_elevated p2 0)).
Proof.
  intros Hm He Hcode.
  set (m1 := put_pcb (with_ring m 0) t (set_usergs (set_elevated p 1) (cpu_gs cpu))).
  assert (thread_ok cpu t (set_usergs (set_elevated p 1) (cpu_gs cpu)) m1) as Hm1
    by (eapply thread_ok_put; [done| |done]; by right).
  destruct (Hcode m1 _ Hm1 eq_refl) as (m2 & p2 & E & Hm2 & He2 & Hu2).
  exists m1, m2, p2. split_and!; [done..|]. unfold RUN_ELEVATED.
  rewrite (kcheck_spec cpu t p m Hm), He. simpl.
  rewrite (kelevate_spec cpu t p m Hm He). fold m1. cbn [mbind outcome_bind].
  rewrite E. cbn [mbind outcome_bind]. by apply (klower_spec cpu).
Qed.

(** The machine on which the body runs: ring 0, the flag of the task set and the gs base of
    the caller saved in its control block. *)
Definition raised_machine (t : Z) (p : PCB) (m : machine) : machine :=
  mkMachine (mkKstate (<[t := set_usergs (set_elevated p 1) (gsbase m)]> (pcbs (ks m)))
               (cpus (ks m)) (Process.cr3 (ks m))) (gsbase m) (kgsbase m) 0 (interrupts m).

(** The machine a body has left, back in ring 3 with the flag of its task cleared. *)
Definition lowered_machine (t : Z) (p : PCB) (m : machine) : machine :=
  mkMachine (mkKstate (<[t := set_elevated p 0]> (pcbs (ks m))) (cpus (ks m)) (Process.cr3 (ks m)))
    (gsbase m) (kgsbase m) 3 (interrupts m).

(** C35 (invariant): [RUN_ELEVATED] is balanced.  Called by a lowered thread it runs its
    body once, on the machine of the caller raised to ring 0 with the flag set, and returns
    the machine the body left, lowered to ring 3 with the flag cleared, the gs bases being
    those of the call and nothing else touched; called by an elevated thread it is just its
    body; so one inside another does what the inner one does, and it may stand wherever its
    body may. *)
Theorem run_elevated_balanced cpu t code m p :
  thread_ok cpu t p m -> elevated_code cpu t code ->
  (elevated p = 0 -> exists m2 p2,
     code (raised_machine t p m) = Done m2 /\ pcbs (ks m2) !! t = Some p2 /\
     RUN_ELEVATED code m = Done (lowered_machine t p2 m2) /\
     thread_ok cpu t (set_elevated p2 0) (lowered_machine t p2 m2) /\
     gsbase m2 = gsbase m /\ kgsbase m2 = kgsbase m) /\
  (elevated p = 1 -> RUN_ELEVATED code m = code m) /\
  RUN_ELEVATED (RUN_ELEVATED code) m = RUN_ELEVATED code m /\
  elevated_code cpu t (RUN_ELEVATED code).
Proof.
  intros Hm Hcode.
  assert (elevated_code cpu t (RUN_ELEVATED code)) as Hnest.
  { intros m0 p0 Hm0 He0. rewrite (run_elevated_nested cpu t code m0 p0 Hm0 He0). by apply Hcode. }
  split_and!; [intros He|intros He; by apply (run_elevated_nested cpu t _ _ p)| |done].
  - destruct (run_elevated_lowered cpu t code m p Hm He Hcode) as (m1 & m2 & p2 & -> & E & Hm2 & ER).
    exists m2, p2. split_and!; [unfold raised_machine; by rewrite (tk_gs _ _ _ _ Hm) at 1|apply Hm2|exact ER| |by rewrite (tk_gs _ _ _ _ Hm2), (tk_gs _ _ _ _ Hm)|
      by rewrite (tk_kgs _ _ _ _ Hm2), (tk_kgs _ _ _ _ Hm)].
    apply (thread_ok_put cpu t p2 _ m2 3 Hm2); [by left|done].
  - destruct (tk_flag _ _ _ _ Hm) as [He|He]; [|by apply (run_elevated_nested cpu t _ _ p)].
    destruct (run_elevated_lowered cpu t code m p Hm He Hcode) as (m1 & m2 & p2 & E1 & E & Hm2 & ->).
    destruct (run_elevated_lowered cpu t _ m p Hm He Hnest) as (n1 & n2 & q2 & En & F & Hn2 & ->).
    subst m1 n1. rewrite (run_elevated_nested cpu t code _ (set_usergs (set_elevated p 1) (cpu_gs cpu))) in F;
      [|eapply thread_ok_put; [done|by right|done]|done].
    rewrite E in F. injection F as <-. pose proof (tk_pcb _ _ _ _ Hm2) as P.
    rewrite (tk_pcb _ _ _ _ Hn2) in P. by injection P as ->.
Qed.

(** [current] reads the gs base and the per-cpu block only. *)
Lemma current_same m m' :
  gsbase m' = gsbase m -> cpus (ks m') = cpus (ks m) -> current m' = current m.
Proof.
  intros Hg Hc. unfold current, getCurrentTask_percpu, cpu_entry. by rewrite Hg, Hc.
Qed.

#[local] Transparent swapgs.

(** [__set_elevated_usergs] reads [current] while the user gs base is still
    loaded.  A lowered thread whose own gs base is not the block of a core cannot be
    elevated: the system call succeeds and sets the flag, then the call faults.  The
    base that [usergs] saves is therefore always the kernel's own. *)
Theorem user_gs_not_supported cpu t p m :
  kgsbase m = cpu_gs cpu -> (exists d, cpu_entry (ks m) cpu = Done d /\ currentTask d = t) ->
  pcbs (ks m) !! t = Some p -> elevated p = 0 -> current m = Fault ->
  (exists m1, __syscall SYSCALL_SYS_ELEVATE 0 m = Done (0, m1) /\ ring m1 = 0 /\
              pcbs (ks m1) !! t = Some (set_elevated p 1)) /\
  __kelevate m = Fault.
Proof.
  intros Hk Hc Hp He Hf.
  set (m0 := mkMachine (ks m) (kgsbase m) (gsbase m) 0 (interrupts m)).
  set (m1 := put_pcb m0 t (set_elevated p 1)).
  assert (__syscall SYSCALL_SYS_ELEVATE 0 m =
          Done (0, mkMachine (ks m1) (gsbase m) (kgsbase m) 0 (interrupts m))) as E.
  { unfold __syscall, swapgs at 1. simpl. fold m0. unfold __syscall_handler. simpl.
    rewrite (current_pcb_at cpu t p m0) by done. simpl. rewrite He. simpl.
    rewrite (update_current_at m0 cpu t p) by done. fold (put_pcb m0 t (set_elevated p 1)). fold m1.
    simpl. unfold __check_current_elevate_status.
    rewrite (current_pcb_at cpu t (set_elevated p 1) m1) by (done || apply lookup_insert_eq). done. }
  split.
  - eexists. split; [exact E|]. split; [done|]. apply lookup_insert_eq.
  - unfold __kelevate. rewrite E. simpl. unfold __set_elevated_usergs, update_current.
    rewrite (current_same m) by done. by rewrite Hf.
Qed.
End elevation.

(** ** Witnesses *)
Definition demo_machine (gs r : Z) : machine := mkMachine demo_kstate gs 0x7000 r true.

(** A body that only disables interrupts. *)
Lemma cli_elevated_code per_cpu cpu t : elevated_code per_cpu cpu t disableInterrupts.
Proof.
  intros m p [Hc Hp Hg Hk Hf Hr] He. rewrite He in Hr. simpl in Hr.
  unfold disableInterrupts, set_interrupts. rewrite Hr. simpl.
  eexists _, p. split; [reflexivity|]. split; [|done]. split; simpl; try done. by rewrite He.
Qed.

Lemma run_elevated_balanced_witness :
  (exists m2 p2, disableInterrupts (raised_machine 100 (demo_pcb 10 0x11000) (demo_machine 0x7000 3)) = Done m2 /\
     RUN_ELEVATED 0x7000 disableInterrupts (demo_machine 0x7000 3) = Done (lowered_machine 100 p2 m2)) /\
  RUN_ELEVATED 0x7000 (RUN_ELEVATED 0x7000 disableInterrupts) (demo_machine 0x7000 3) =
  RUN_ELEVATED 0x7000 disableInterrupts (demo_machine 0x7000 3).
Proof.
  destruct (run_elevated_balanced 0x7000 0 100 disableInterrupts (demo_machine 0x7000 3) (demo_pcb 10 0x11000))
    as (H & _ & Hn & _).
  - split; try reflexivity; [|by left]. eexists. split; reflexivity.
  - apply cli_elevated_code.
  - split; [|exact Hn]. destruct (H eq_refl) as (m2 & p2 & E & _ & ER & _).
    exists m2, p2. split; [exact E|exact ER].
Defined.

Lemma user_gs_not_supported_witness : __kelevate 0x7000 (demo_machine 0x1234 3) = Fault.
Proof.
  apply (user_gs_not_supported 0x7000 0 100 (demo_pcb 10 0x11000) (demo_machine 0x1234 3)); try reflexivity.
  eexists. split; reflexivity.
Defined.
