(* ===== verification/Sched.v ===== *)
(** * The round robin scheduler (kernel/src/sched/sched.cpp, sched.h) and the timer
      interrupt (kernel/src/interrupts/interrupts.cpp)

    A run queue is a vector of task pointers with the index of the current one; the
    scheduler has a vector of pointers to run queues.  The kernel's vector is the model
    of KVector at a pointer type; task pointers lead to the control blocks of Process. *)
From Stdlib Require Import ZArith Lia.
From stdpp Require Import base tactics numbers option list gmap.
From S2P Require Import Prelude Sync PageFrame KVector Process Elevate.

Definition MAX_QUEUED_PROCESSES : nat := 128.

Record RoundRobinRunQueue := mkQueue {
  m_tasks : vec Z;            (** [kstl::vector<Task*>] *)
  m_currentTaskIndex : Z;     (** [size_t] *)
}.

Record sys := mkSys {
  mc : machine;
  m_runQueues : vec Z;                      (** [kstl::vector<RoundRobinRunQueue*>] *)
  queues : gmap Z RoundRobinRunQueue;       (** the run queue objects *)
  m_usableCpuCount : Z;
  sched_lock : Z;                           (** [__sched_lock] *)
  balancing_lock : Z;                       (** [__sched_load_balancing_lock] *)
  g_availableTaskPid : Z;                   (** [size_t] *)
}.

Definition tasks_of (s : sys) : gmap Z PCB := pcbs (ks (mc s)).

Definition with_mc (s : sys) (m : machine) : sys :=
  mkSys m (m_runQueues s) (queues s) (m_usableCpuCount s) (sched_lock s) (balancing_lock s)
    (g_availableTaskPid s).
Definition with_queue (s : sys) (ptr : Z) (q : RoundRobinRunQueue) : sys :=
  mkSys (mc s) (m_runQueues s) (<[ptr := q]> (queues s)) (m_usableCpuCount s) (sched_lock s)
    (balancing_lock s) (g_availableTaskPid s).
Definition with_sched_lock (s : sys) (l : Z) : sys :=
  mkSys (mc s) (m_runQueues s) (queues s) (m_usableCpuCount s) l (balancing_lock s) (g_availableTaskPid s).
Definition with_balancing_lock (s : sys) (l : Z) : sys :=
  mkSys (mc s) (m_runQueues s) (queues s) (m_usableCpuCount s) (sched_lock s) l (g_availableTaskPid s).
Definition with_runQueues (s : sys) (v : vec Z) : sys :=
  mkSys (mc s) v (queues s) (m_usableCpuCount s) (sched_lock s) (balancing_lock s) (g_availableTaskPid s).
Definition with_usable (s : sys) (n : Z) : sys :=
  mkSys (mc s) (m_runQueues s) (queues s) n (sched_lock s) (balancing_lock s) (g_availableTaskPid s).
Definition with_pid (s : sys) (n : Z) : sys :=
  mkSys (mc s) (m_runQueues s) (queues s) (m_usableCpuCount s) (sched_lock s) (balancing_lock s) n.

(** [ptr->field = v] on a task *)
Definition update_task (s : sys) (t : Z) (f : PCB -> PCB) : outcome sys :=
  k ← update_pcb (ks (mc s)) t f; Done (with_mc s (with_ks (mc s) k)).

(** ** RoundRobinRunQueue *)
(** Both vectors hold pointers. *)
Definition sizeof_pointer : Z := 8.

Definition new_queue : RoundRobinRunQueue := mkQueue vector_new 0.

Definition rq_size (q : RoundRobinRunQueue) : nat := size (m_tasks q).

(** [ok]: [kmalloc] answers when the vector grows *)
Definition rq_addTask (ok : bool) (q : RoundRobinRunQueue) (task : Z)
  : outcome (bool * RoundRobinRunQueue) :=
  if (size (m_tasks q) =? MAX_QUEUED_PROCESSES)%nat then Done (false, q)
  else v ← pushBack true sizeof_pointer ok (m_tasks q) task; Done (true, mkQueue v (m_currentTaskIndex q)).

(** The search of [removeTask]; [n] tasks are left from index [i] on. *)
Fixpoint remove_from (tasks : gmap Z PCB) (q : RoundRobinRunQueue) (p : Z) (i n : nat)
  : outcome (bool * RoundRobinRunQueue) :=
  match n with
  | O => Done (false, q)
  | S n =>
      t ← vector_index (m_tasks q) i;
      task ← need (tasks !! t);
      if pid task =? p then
        v ← erase true (m_tasks q) i;
        Done (true, mkQueue v (Z.of_nat (size v) ⊟ 1))
      else remove_from tasks q p (S i) n
  end.

Definition rq_removeTask (tasks : gmap Z PCB) (q : RoundRobinRunQueue) (p : Z)
  : outcome (bool * RoundRobinRunQueue) :=
  if p =? 0 then Done (false, q) else remove_from tasks q p 0 (size (m_tasks q)).

Definition rq_getCurrentTask (q : RoundRobinRunQueue) : outcome Z :=
  vector_index (m_tasks q) (Z.to_nat (m_currentTaskIndex q)).

Definition _getNextTaskIndex (q : RoundRobinRunQueue) : Z :=
  let taskCount := Z.of_nat (size (m_tasks q)) in
  if taskCount =? 1 then 0
  else if taskCount =? 2 then 1
  else if 2 <? taskCount then
    let nextIndex := (m_currentTaskIndex q ⊞ 1) mod taskCount in
    if nextIndex =? 0 then 1 else nextIndex
  else m_currentTaskIndex q.

Definition rq_peekNextTask (q : RoundRobinRunQueue) : outcome Z :=
  vector_index (m_tasks q) (Z.to_nat (_getNextTaskIndex q)).

(** The queue at [ptr] moves on: both tasks change their state. *)
Definition rq_scheduleNextTask (s : sys) (ptr : Z) : outcome sys :=
  q ← need (queues s !! ptr);
  let nextTaskIndex := _getNextTaskIndex q in
  if m_currentTaskIndex q =? nextTaskIndex then Done s
  else
    currentTask ← rq_getCurrentTask q;
    nextTask ← vector_index (m_tasks q) (Z.to_nat nextTaskIndex);
    s ← update_task s currentTask (fun p => set_state p READY);
    s ← update_task s nextTask (fun p => set_state p RUNNING);
    Done (with_queue s ptr (mkQueue (m_tasks q) nextTaskIndex)).

(** ** RRScheduler *)
Definition bad_cpu (cpu : Z) : bool := (cpu <? 0) || (MAX_CPUS <=? cpu).

(** [m_runQueues[cpu]] *)
Definition queue_ptr (s : sys) (cpu : Z) : outcome Z := vector_index (m_runQueues s) (Z.to_nat cpu).

Definition lock_sched (s : sys) : outcome sys :=
  l ← acquireSpinlock (sched_lock s); Done (with_sched_lock s l).
Definition unlock_sched (s : sys) : sys := with_sched_lock s (releaseSpinlock (sched_lock s)).

Section scheduler.
Variable per_cpu_data : Z.      (** the address of [__per_cpu_data] *)
Variable swapper_tasks : Z.     (** the address of [g_kernelSwapperTasks] *)
Variable off : Z.               (** kernel alias of physical memory *)

(** [&g_kernelSwapperTasks[cpu]]; [sizeof(Task)] is 248 *)
Definition swapper (cpu : Z) : Z := swapper_tasks + 248 * cpu.

(** [rq] is the address [operator new] returns for the run queue. *)
Definition registerCpuCore (ok : bool) (rq : Z) (cpu : Z) (s : sys) : outcome sys :=
  if bad_cpu cpu then Done s
  else if rq =? 0 then Fault
  else
    let s := with_queue s rq new_queue in
    v ← vector_store (m_runQueues s) (Z.to_nat cpu) rq;
    let s := with_runQueues s v in
    q ← need (queues s !! rq);
    s ← (if (rq_size q =? 0)%nat
         then r ← rq_addTask ok q (swapper cpu); Done (with_queue s rq (snd r))
         else Done s);
    Done (with_usable s (m_usableCpuCount s ⊞ 1)).

Definition sched_init (ok : bool) (rq : Z) (s : sys) : outcome sys :=
  v ← reserve true sizeof_pointer ok (m_runQueues s) (Z.to_nat MAX_CPUS);
  registerCpuCore ok rq BSP_CPU_ID (with_runQueues s v).

Definition addTask_on (ok : bool) (task cpu : Z) (s : sys) : outcome (bool * sys) :=
  if bad_cpu cpu then Done (false, s)
  else
    s ← lock_sched s;
    s ← update_task s task (fun p => set_cpu p cpu);
    ptr ← queue_ptr s cpu;
    q ← need (queues s !! ptr);
    r ← rq_addTask ok q task;
    let '(ret, q) := r in
    Done (ret, unlock_sched (with_queue s ptr q)).

(** [for (i = 1; i < m_usableCpuCount; ++i)]: the least loaded core so far *)
Fixpoint least_loaded (s : sys) (cpu : Z) (leastTaskCount : nat) (i : Z) (n : nat) : outcome Z :=
  match n with
  | O => Done cpu
  | S n =>
      ptr ← queue_ptr s i;
      q ← need (queues s !! ptr);
      let cpuTaskCount := rq_size q in
      if (cpuTaskCount <? leastTaskCount)%nat
      then least_loaded s i cpuTaskCount (i + 1) n
      else least_loaded s cpu leastTaskCount (i + 1) n
  end.

Definition _getNextAvailableCpu (s : sys) : outcome Z :=
  ptr ← queue_ptr s 0;
  q ← need (queues s !! ptr);
  least_loaded s 0 (rq_size q) 1 (Z.to_nat (s32 (m_usableCpuCount s) - 1)).

Definition addTask (ok : bool) (task : Z) (s : sys) : outcome (bool * sys) :=
  l ← acquireSpinlock (balancing_lock s);
  let s := with_balancing_lock s l in
  cpu ← _getNextAvailableCpu s;
  r ← addTask_on ok task cpu s;
  let '(ret, s) := r in
  Done (ret, with_balancing_lock s (releaseSpinlock (balancing_lock s))).

Definition removeTask (p cpu : Z) (s : sys) : outcome (bool * sys) :=
  if bad_cpu cpu then Done (false, s)
  else
    s ← lock_sched s;
    ptr ← queue_ptr s cpu;
    q ← need (queues s !! ptr);
    r ← rq_removeTask (tasks_of s) q p;
    let '(ret, q) := r in
    Done (ret, unlock_sched (with_queue s ptr q)).

Definition removeTask_ptr (task cpu : Z) (s : sys) : outcome (bool * sys) :=
  t ← need (tasks_of s !! task); removeTask (pid t) cpu s.

(** [nullptr] for a core number out of range *)
Definition getCurrentTask (cpu : Z) (s : sys) : outcome (Z * sys) :=
  if bad_cpu cpu then Done (0, s)
  else
    s ← lock_sched s;
    ptr ← queue_ptr s cpu;
    q ← need (queues s !! ptr);
    task ← rq_getCurrentTask q;
    Done (task, unlock_sched s).

Definition peekNextTask (cpu : Z) (s : sys) : outcome (Z * sys) :=
  if bad_cpu cpu then Done (0, s)
  else
    s ← lock_sched s;
    ptr ← queue_ptr s cpu;
    q ← need (queues s !! ptr);
    task ← rq_peekNextTask q;
    Done (task, unlock_sched s).

Definition scheduleNextTask (cpu : Z) (s : sys) : outcome sys :=
  if bad_cpu cpu then Done s
  else
    s ← lock_sched s;
    ptr ← queue_ptr s cpu;
    s ← rq_scheduleNextTask s ptr;
    Done (unlock_sched s).

(** ** Tasks *)
Definition _allocateTaskPid (s : sys) : Z * sys :=
  let pid := g_availableTaskPid s in
  let s := with_pid s (g_availableTaskPid s ⊞ 1) in
  (pid, if g_availableTaskPid s =? 0 then with_pid s 10 else s).

Definition __USER_DS : Z := 0x28.
Definition __USER_CS : Z := 0x30.

(** [task], [userStack] and [kernelStack] are what [kmalloc] and [zallocPages]
    return, [root] is [paging::g_kernelRootPageTable]. *)
Definition createKernelTask (task userStack kstack root taskEntry prio : Z) (s : sys)
  : outcome (Z * sys) :=
  if task =? 0 then Fault
  else
    let '(newpid, s) := _allocateTaskPid s in
    let sp := userStack ⊞ PAGE_SIZE in
    let uds := Z.lor __USER_DS 0x3 in
    let ctx := {| rax := 0; rbx := 0; rcx := 0; rdx := 0; rsi := 0; rdi := 0; rbp := sp;
                  r8 := 0; r9 := 0; r10 := 0; r11 := 0; r12 := 0; r13 := 0; r14 := 0; r15 := 0;
                  rip := taskEntry; rsp := sp; rflags := 0x200;
                  cs := Z.lor __USER_CS 0x3; ds := uds; es := uds; fs := 0; gs := 0; ss := uds |} in
    let p := mkPCB ctx READY (s64 newpid) (u64 prio) root (kstack ⊞ PAGE_SIZE) 0 0 0 in
    let k := ks (mc s) in
    Done (task, with_mc s (with_ks (mc s) (mkKstate (<[task := p]> (pcbs k)) (cpus k) (Process.cr3 k)))).

(** [current->cpu] *)
Definition current_cpu (s : sys) : outcome Z :=
  p ← current_pcb per_cpu_data (mc s); Done (pcpu p).

(** The part of [exitKernelThread] behind the elevation; [regs] is the uninitialised
    frame on the stack. *)
Definition leave_queue (regs : PtRegs) (s : sys) : outcome (sys * PtRegs) :=
  cpu ← current_cpu s;
  r ← getCurrentTask cpu s;
  let '(currentTask, s) := r in
  r ← peekNextTask cpu s;
  let '(nextTask, s) := r in
  let nextTask := if currentTask =? nextTask then swapper cpu else nextTask in
  t ← need (tasks_of s !! currentTask);
  r ← removeTask (pid t) cpu s;
  s ← scheduleNextTask cpu (snd r);
  r ← exitAndSwitchCurrentContext off cpu nextTask (ks (mc s)) regs;
  Done (with_mc s (with_ks (mc s) (fst r)), snd r).

Definition exitKernelThread (regs : PtRegs) (s : sys) : outcome (sys * PtRegs) :=
  m ← __kelevate per_cpu_data (mc s);
  m ← disableInterrupts m;
  leave_queue regs (with_mc s m).

(** ** The timer interrupt: what the handler does behind its end-of-interrupt write *)
Definition _irq_handler_timer (frame : PtRegs) (s : sys) : outcome (sys * PtRegs) :=
  cpu ← current_cpu s;
  r ← getCurrentTask cpu s;
  let '(prevTask, s) := r in
  r ← peekNextTask cpu s;
  let '(nextTask, s) := r in
  if negb (nextTask =? 0) && negb (prevTask =? nextTask) then
    r ← switchContextInIrq off cpu cpu prevTask nextTask (ks (mc s)) frame;
    s ← scheduleNextTask cpu (with_mc s (with_ks (mc s) (fst r)));
    Done (s, snd r)
  else Done (s, frame).
End scheduler.

(** ** The run queue of a core *)

(** Core [cpu] has the run queue [q] at [ptr]; it holds the tasks [l], of which the
    one at [i] is current, all with a control block, and nobody holds the lock. *)
Record queue_ok (s : sys) (cpu ptr : Z) (q : RoundRobinRunQueue) (l : list Z) (i : nat) : Prop := {
  qk_cpu : 0 <= cpu < MAX_CPUS;
  qk_ptr : vector_index (m_runQueues s) (Z.to_nat cpu) = Done ptr;
  qk_queue : queues s !! ptr = Some q;
  qk_repr : repr true (m_tasks q) l;
  qk_index : m_currentTaskIndex q = Z.of_nat i;
  qk_bound : (i < length l <= MAX_QUEUED_PROCESSES)%nat;
  qk_lock : sched_lock s = 0;
  qk_tasks : Forall (fun t => is_Some (tasks_of s !! t)) l;
}.

Lemma queue_task s cpu ptr q l i j t :
  queue_ok s cpu ptr q l i -> l !! j = Some t -> is_Some (tasks_of s !! t).
Proof. intros Hq Ht. exact (Forall_lookup_1 _ _ _ _ (qk_tasks _ _ _ _ _ _ Hq) Ht). Qed.

(** The reference meaning of the index computation: the swapper at index 0 is left
    out as soon as there is another task. *)
Definition next_index (n i : nat) : nat :=
  if (n <=? 1)%nat then 0 else 1 + i mod (n - 1).

Lemma next_index_lt n i : (i < n)%nat -> (next_index n i < n)%nat.
Proof.
  unfold next_index. destruct (Nat.leb_spec n 1); [lia|].
  pose proof (Nat.mod_upper_bound i (n - 1)). lia.
Qed.

Lemma getNextTaskIndex_eq s cpu ptr q l i :
  queue_ok s cpu ptr q l i -> _getNextTaskIndex q = Z.of_nat (next_index (length l) i).
Proof.
  intros [_ _ _ Hr Hi Hb _ _]. unfold _getNextTaskIndex, size, next_index.
  rewrite (repr_size _ _ _ Hr), Hi. unfold MAX_QUEUED_PROCESSES in Hb.
  destruct (Z.eqb_spec (Z.of_nat (length l)) 1) as [E1|E1].
  { destruct (Nat.leb_spec (length l) 1); [done|lia]. }
  destruct (Nat.leb_spec (length l) 1); [lia|].
  destruct (Z.eqb_spec (Z.of_nat (length l)) 2) as [E2|E2].
  { assert (length l - 1 = 1)%nat as -> by lia. by rewrite Nat.mod_1_r. }
  destruct (Z.ltb_spec 2 (Z.of_nat (length l))); [|lia].
  rewrite (u64_small (Z.of_nat i + 1)) by (unfold is_u64; lia).
  destruct (decide (S i = length l)) as [E|E].
  - assert (Z.of_nat i + 1 = Z.of_nat (length l)) as -> by lia. rewrite Z_mod_same_full. simpl.
    assert (length l - 1 = i)%nat as -> by lia. by rewrite Nat.Div0.mod_same.
  - rewrite Z.mod_small by lia. destruct (Z.eqb_spec (Z.of_nat i + 1) 0); [lia|].
    rewrite (Nat.mod_small i) by lia. lia.
Qed.

Lemma with_sched_lock_same s : sched_lock s = 0 -> with_sched_lock s 0 = s.
Proof. destruct s; simpl; by intros ->. Qed.

Lemma lock_unlock s : sched_lock s = 0 -> lock_sched s = Done (with_sched_lock s 1).
Proof. intros H. unfold lock_sched. by rewrite H. Qed.

Lemma bad_cpu_ok cpu : 0 <= cpu < MAX_CPUS -> bad_cpu cpu = false.
Proof.
  intros H. unfold bad_cpu. destruct (Z.ltb_spec cpu 0); [lia|].
  destruct (Z.leb_spec MAX_CPUS cpu); [lia|done].
Qed.

Lemma getCurrentTask_eq s cpu ptr q l i t :
  queue_ok s cpu ptr q l i -> l !! i = Some t -> getCurrentTask cpu s = Done (t, s).
Proof.
  intros Hq Ht. unfold getCurrentTask. rewrite bad_cpu_ok by apply Hq.
  rewrite lock_unlock by apply Hq. simpl. unfold queue_ptr. simpl. rewrite (qk_ptr _ _ _ _ _ _ Hq). simpl.
  rewrite (qk_queue _ _ _ _ _ _ Hq). simpl. unfold rq_getCurrentTask.
  rewrite (qk_index _ _ _ _ _ _ Hq), Nat2Z.id, (index_repr true _ l i t) by (done || apply Hq).
  simpl. unfold unlock_sched, with_sched_lock, releaseSpinlock. simpl.
  do 2 f_equal. apply (with_sched_lock_same s), Hq.
Qed.

Lemma peekNextTask_eq s cpu ptr q l i t :
  queue_ok s cpu ptr q l i -> l !! next_index (length l) i = Some t -> peekNextTask cpu s = Done (t, s).
Proof.
  intros Hq Ht. unfold peekNextTask. rewrite bad_cpu_ok by apply Hq.
  rewrite lock_unlock by apply Hq. simpl. unfold queue_ptr. simpl. rewrite (qk_ptr _ _ _ _ _ _ Hq). simpl.
  rewrite (qk_queue _ _ _ _ _ _ Hq). simpl. unfold rq_peekNextTask.
  rewrite (getNextTaskIndex_eq _ _ _ _ _ _ Hq), Nat2Z.id, (index_repr true _ l _ t) by (done || apply Hq).
  simpl. unfold unlock_sched, with_sched_lock, releaseSpinlock. simpl.
  do 2 f_equal. apply (with_sched_lock_same s), Hq.
Qed.

(** The control blocks after the queue has moved from task [a] to task [b]. *)
Definition turn (tasks : gmap Z PCB) (a b : Z) : gmap Z PCB :=
  alter (fun p => set_state p RUNNING) b (alter (fun p => set_state p READY) a tasks).

Definition put_tasks (s : sys) (ts : gmap Z PCB) : sys :=
  with_mc s (with_ks (mc s) (mkKstate ts (cpus (ks (mc s))) (Process.cr3 (ks (mc s))))).

Lemma update_task_eq s t f :
  is_Some (tasks_of s !! t) -> update_task s t f = Done (put_tasks s (alter f t (tasks_of s))).
Proof.
  intros [p Hp]. unfold update_task, update_pcb, tasks_of in *. rewrite Hp. simpl.
  unfold put_tasks. do 4 f_equal. apply map_eq. intros u.
  destruct (decide (t = u)) as [->|Hne].
  - by rewrite lookup_insert_eq, lookup_alter_eq, Hp.
  - by rewrite lookup_insert_ne, lookup_alter_ne.
Qed.

Lemma is_Some_alter {A} (m : gmap Z A) f a t : is_Some (m !! t) -> is_Some (alter f a m !! t).
Proof.
  destruct (decide (a = t)) as [->|]; [rewrite lookup_alter_eq; intros [? ->]; simpl; eauto|].
  by rewrite lookup_alter_ne.
Qed.

Lemma scheduleNextTask_eq s cpu ptr q l i a b :
  queue_ok s cpu ptr q l i -> let j := next_index (length l) i in
  l !! i = Some a -> l !! j = Some b ->
  let s' := if decide (i = j) then s
            else with_queue (put_tasks s (turn (tasks_of s) a b)) ptr (mkQueue (m_tasks q) (Z.of_nat j)) in
  scheduleNextTask cpu s = Done s' /\ queue_ok s' cpu ptr (mkQueue (m_tasks q) (Z.of_nat j)) l j.
Proof.
  intros Hq j Ha Hb s'.
  pose proof (queue_task _ _ _ _ _ _ _ _ Hq Ha) as Hta.
  pose proof (queue_task _ _ _ _ _ _ _ _ Hq Hb) as Htb.
  assert (j < length l)%nat as Hj by (apply next_index_lt; apply Hq).
  pose proof (qk_index _ _ _ _ _ _ Hq) as Hix.
  split.
  - unfold scheduleNextTask. rewrite bad_cpu_ok by apply Hq. rewrite lock_unlock by apply Hq. simpl.
    unfold queue_ptr. simpl. rewrite (qk_ptr _ _ _ _ _ _ Hq). simpl. unfold rq_scheduleNextTask. simpl.
    rewrite (qk_queue _ _ _ _ _ _ Hq). simpl. rewrite (getNextTaskIndex_eq _ _ _ _ _ _ Hq), Hix.
    fold j. unfold s'. destruct (Z.eqb_spec (Z.of_nat i) (Z.of_nat j)).
    + simpl. rewrite decide_True by lia. f_equal. apply (with_sched_lock_same s), Hq.
    + rewrite decide_False by lia. unfold rq_getCurrentTask.
      rewrite Hix, !Nat2Z.id, (index_repr true _ l i a) by (done || apply Hq). simpl.
      rewrite (index_repr true _ l j b) by (done || apply Hq). simpl.
      rewrite update_task_eq by done. simpl. rewrite update_task_eq by (simpl; by apply is_Some_alter). simpl.
      pose proof (qk_lock _ _ _ _ _ _ Hq) as Hl. destruct s; simpl in *. by subst.
  - unfold s'. case_decide as E.
    + destruct Hq as [H1 H2 H3 H4 H5 H6 H7 H8]. split; simpl; try done; [|lia].
      destruct q as [v ix]. simpl in *. by rewrite H3, H5, <- E.
    + destruct Hq as [H1 H2 H3 H4 H5 H6 H7 H8]. split; simpl; try done; [by rewrite lookup_insert_eq|lia|].
      eapply Forall_impl; [exact H8|]. intros t Ht. by do 2 apply is_Some_alter.
Qed.

Fixpoint schedule_times (cpu : Z) (k : nat) (s : sys) : outcome sys :=
  match k with
  | O => Done s
  | S k => s ← scheduleNextTask cpu s; schedule_times cpu k s
  end.

Lemma next_index_iter n i k :
  (2 <= n)%nat -> Nat.iter (S k) (next_index n) i = (1 + (i + k) mod (n - 1))%nat.
Proof.
  intros Hn. induction k as [|k IH].
  - simpl. unfold next_index. destruct (Nat.leb_spec n 1); [lia|]. by rewrite Nat.add_0_r.
  - cbn [Nat.iter nat_rect] in *. rewrite IH. unfold next_index.
    destruct (Nat.leb_spec n 1); [lia|]. f_equal.
    rewrite Nat.Div0.add_mod_idemp_r. f_equal. lia.
Qed.

Lemma next_index_moves n i : (3 <= n)%nat -> (i < n)%nat -> next_index n i <> i.
Proof.
  intros Hn Hi. unfold next_index. destruct (Nat.leb_spec n 1); [lia|].
  destruct (decide (S i = n)) as [E|E].
  - replace (n - 1)%nat with i by lia. rewrite Nat.Div0.mod_same. lia.
  - rewrite Nat.mod_small by lia. lia.
Qed.

Lemma lookup_turn_b ts a b :
  is_Some (ts !! b) -> exists p, turn ts a b !! b = Some p /\ pstate p = RUNNING.
Proof.
  intros H. unfold turn. destruct (is_Some_alter ts (fun p => set_state p READY) a b H) as [p Hp].
  rewrite lookup_alter_eq, Hp. simpl. eauto.
Qed.

Lemma schedule_times_eq cpu k s ptr q l i :
  queue_ok s cpu ptr q l i ->
  exists s' q', schedule_times cpu k s = Done s' /\
    queue_ok s' cpu ptr q' l (Nat.iter k (next_index (length l)) i) /\
    ((0 < k)%nat -> (3 <= length l)%nat ->
     forall t, l !! Nat.iter k (next_index (length l)) i = Some t ->
     exists p, tasks_of s' !! t = Some p /\ pstate p = RUNNING).
Proof.
  revert s q i. induction k as [|k IH]; intros s q i Hq; cbn [schedule_times].
  { exists s, q. split_and!; [done|done|lia]. }
  set (j := next_index (length l) i).
  assert (j < length l)%nat as Hj by (apply next_index_lt; apply Hq).
  destruct (lookup_lt_is_Some_2 l i) as [a Ha]; [apply Hq|].
  destruct (lookup_lt_is_Some_2 l j Hj) as [b Hb].
  destruct (scheduleNextTask_eq s cpu ptr q l i a b Hq Ha Hb) as [E Hq']. fold j in E, Hq'.
  rewrite E. cbn [mbind outcome_bind].
  destruct (IH _ _ _ Hq') as (s2 & q2 & E2 & Hq2 & Hrun). exists s2, q2.
  rewrite Nat.iter_succ_r. split_and!; [done..|].
  intros _ Hn t Ht. destruct k as [|k]; [|apply Hrun; [lia|done|done]].
  simpl in *. fold j in Ht. rewrite Hb in Ht. injection Ht as <-. injection E2 as <-.
  rewrite decide_False
    by (intros Eij; apply (next_index_moves (length l) i Hn); [apply Hq|]; unfold j in Eij; congruence).
  apply lookup_turn_b. by eapply queue_task.
Qed.

(** C8 (liveness): with at least two tasks besides the swapper the queue of a core is
    round robin: whatever task is current, every other task, and the current one again,
    becomes the current one and RUNNING within as many calls of [scheduleNextTask] as
    there are tasks, and the swapper is never chosen. *)
Theorem round_robin s cpu ptr q l i :
  queue_ok s cpu ptr q l i -> (3 <= length l)%nat ->
  (forall j t, (1 <= j)%nat -> l !! j = Some t ->
   exists k s', (1 <= k < length l)%nat /\ schedule_times cpu k s = Done s' /\
     getCurrentTask cpu s' = Done (t, s') /\
     exists p, tasks_of s' !! t = Some p /\ pstate p = RUNNING) /\
  (forall k, (1 <= k)%nat ->
   exists s' j t, schedule_times cpu k s = Done s' /\ (1 <= j)%nat /\ l !! j = Some t /\
     getCurrentTask cpu s' = Done (t, s')).
Proof.
  intros Hq Hn. split.
  - intros j t Hj Ht. pose proof (lookup_lt_Some _ _ _ Ht) as Hlt.
    assert (exists k, (k < length l - 1)%nat /\ ((i + k) mod (length l - 1) = j - 1)%nat) as (k & Hk & E).
    { exists (Z.to_nat ((Z.of_nat j - 1 - Z.of_nat i) mod (Z.of_nat (length l) - 1))).
      pose proof (Z.mod_pos_bound (Z.of_nat j - 1 - Z.of_nat i) (Z.of_nat (length l) - 1)).
      split; [lia|]. apply Nat2Z.inj. rewrite Nat2Z.inj_mod, Nat2Z.inj_add, Z2Nat.id by lia.
      rewrite Nat2Z.inj_sub by lia. change (Z.of_nat 1) with 1.
      rewrite Zplus_mod_idemp_r. replace (Z.of_nat i + _) with (Z.of_nat j - 1) by lia.
      rewrite Z.mod_small by lia. lia. }
    destruct (schedule_times_eq cpu (S k) s ptr q l i Hq) as (s' & q' & Es & Hq' & Hrun).
    rewrite next_index_iter, E in Hq', Hrun by lia.
    replace (1 + (j - 1))%nat with j in Hq', Hrun by lia.
    exists (S k), s'. split_and!; [lia|lia|done| |].
    + by eapply getCurrentTask_eq.
    + apply Hrun; [lia|done|done].
  - intros [|k] Hk; [lia|]. destruct (schedule_times_eq cpu (S k) s ptr q l i Hq) as (s' & q' & Es & Hq' & _).
    rewrite next_index_iter in Hq' by lia.
    destruct (lookup_lt_is_Some_2 l (1 + (i + k) mod (length l - 1))) as [t Ht]; [apply Hq'|].
    eexists s', _, t. split_and!; [done| |exact Ht|by eapply getCurrentTask_eq]. lia.
Qed.

(** ** The timer interrupt *)
Section timer.
Variables (per_cpu_data swapper_tasks off : Z).

Lemma queue_ok_mc s cpu ptr q l i m :
  queue_ok s cpu ptr q l i ->
  (forall t, is_Some (tasks_of s !! t) -> is_Some (pcbs (ks m) !! t)) ->
  queue_ok (with_mc s m) cpu ptr q l i.
Proof.
  intros [H1 H2 H3 H4 H5 H6 H7 H8] Hm. split; simpl; try done.
  eapply Forall_impl; [exact H8|]. simpl. auto.
Qed.

(** The core runs task [r], which knows its core. *)
Record runs (s : sys) (cpu : Z) (d : CpuData) : Prop := {
  rn_gs : gsbase (mc s) = cpu_gs per_cpu_data cpu;
  rn_cpu : cpu_entry (ks (mc s)) cpu = Done d;
  rn_task : pcpu <$> tasks_of s !! currentTask d = Some cpu;
}.

Lemma current_cpu_eq s cpu d : runs s cpu d -> current_cpu per_cpu_data s = Done cpu.
Proof.
  intros [Hg Hc Ht]. apply fmap_Some in Ht as (p & Hp & ->). unfold current_cpu.
  rewrite (current_pcb_at per_cpu_data (pcpu p) (currentTask d) p) by eauto. done.
Qed.

(** The interrupt saves the frame in the task that the queue says is current and
    loads the next one. *)
Lemma timer_eq s cpu ptr q l i d a b pa pb frame :
  queue_ok s cpu ptr q l i -> NoDup l -> 0 ∉ l -> runs s cpu d ->
  let j := next_index (length l) i in
  l !! i = Some a -> l !! j = Some b -> i <> j ->
  tasks_of s !! a = Some pa -> tasks_of s !! b = Some pb ->
  exists s', _irq_handler_timer per_cpu_data off frame s
             = Done (s', restoreCpuContext (context pb) frame) /\
    queue_ok s' cpu ptr (mkQueue (m_tasks q) (Z.of_nat j)) l j /\
    tasks_of s' = <[b := set_state pb RUNNING]> (<[a := set_state
        (saved_pcb off pa frame (Process.cr3 (ks (mc s))) (currentKernelStack d)) READY]> (tasks_of s)) /\
    cpu_entry (ks (mc s')) cpu = Done (switched_cpu d (kernelStack pb) b) /\
    gsbase (mc s') = gsbase (mc s).
Proof.
  intros Hq Hnd H0 Hr j Ha Hb Hij Hpa Hpb.
  assert (a <> b) as Hab by (intros ->; eapply Hij, NoDup_lookup; eauto).
  unfold _irq_handler_timer. rewrite (current_cpu_eq s cpu d Hr). simpl.
  rewrite (getCurrentTask_eq s cpu ptr q l i a Hq Ha). simpl.
  rewrite (peekNextTask_eq s cpu ptr q l i b Hq Hb). simpl.
  destruct (Z.eqb_spec b 0) as [->|_]; [by apply list_elem_of_lookup_2 in Hb|].
  destruct (Z.eqb_spec a b) as [->|_]; [done|]. simpl.
  rewrite (switchContextInIrq_eq off cpu a b _ frame pa pb d Hab Hpa Hpb (rn_cpu _ _ _ Hr)). simpl.
  match goal with |- context [with_mc s ?m] => set (m1 := m) end.
  assert (queue_ok (with_mc s m1) cpu ptr q l i) as Hq1.
  { apply queue_ok_mc; [done|]. intros t Ht. simpl. rewrite lookup_insert. by case_decide. }
  destruct (scheduleNextTask_eq _ cpu ptr q l i a b Hq1 Ha Hb) as [E Hq'].
  fold j in E, Hq'. rewrite decide_False in E, Hq' by done. rewrite E. simpl.
  eexists. split; [reflexivity|]. split; [exact Hq'|]. split_and!; [|simpl|done].
  - unfold turn, tasks_of in *. simpl. apply map_eq. intros t.
    destruct (decide (b = t)) as [->|Hbt].
    { rewrite lookup_alter_eq, lookup_insert_eq, lookup_alter_ne, lookup_insert_ne by done.
      by rewrite Hpb. }
    rewrite lookup_alter_ne, lookup_insert_ne by done.
    destruct (decide (a = t)) as [->|Hat].
    + by rewrite lookup_alter_eq, !lookup_insert_eq.
    + by rewrite lookup_alter_ne, !lookup_insert_ne by done.
  - destruct Hr as [_ [Hc Hd]%cpu_entry_some _]. apply cpu_entry_some. simpl. split; [done|].
    rewrite list_lookup_insert_eq; [done|]. by eapply lookup_lt_Some.
Qed.

(** The task the core runs is the one its queue says is current. *)
Record core_ok (s : sys) (cpu ptr : Z) (q : RoundRobinRunQueue) (l : list Z) (i : nat) (d : CpuData) : Prop := {
  ck_queue : queue_ok s cpu ptr q l i;
  ck_nodup : NoDup l;
  ck_null : 0 ∉ l;
  ck_gs : gsbase (mc s) = cpu_gs per_cpu_data cpu;
  ck_cpu : cpu_entry (ks (mc s)) cpu = Done d;
  ck_owner : Forall (fun t => pcpu <$> tasks_of s !! t = Some cpu) l;
  ck_current : l !! i = Some (currentTask d);
}.

Lemma core_runs s cpu ptr q l i d : core_ok s cpu ptr q l i d -> runs s cpu d.
Proof.
  intros [Hq _ _ Hg Hc Ho Hl]. split; [done..|]. exact (Forall_lookup_1 _ _ _ _ Ho Hl).
Qed.

(** C5 (invariant): the timer interrupt keeps scheduler and core in step.  When the task
    that runs is the current one of its queue, the interrupt saves its registers in its
    own control block as READY, loads the next task of the queue, marked RUNNING, into
    the frame and makes it the current task of both; with no other task to run it
    changes nothing. *)
Theorem timer_keeps_step s cpu ptr q l i d frame :
  core_ok s cpu ptr q l i d ->
  let j := next_index (length l) i in
  (i = j -> _irq_handler_timer per_cpu_data off frame s = Done (s, frame)) /\
  (i <> j -> exists s' pa pb b,
     l !! j = Some b /\ tasks_of s !! currentTask d = Some pa /\ tasks_of s !! b = Some pb /\
     _irq_handler_timer per_cpu_data off frame s = Done (s', restoreCpuContext (context pb) frame) /\
     core_ok s' cpu ptr (mkQueue (m_tasks q) (Z.of_nat j)) l j (switched_cpu d (kernelStack pb) b) /\
     tasks_of s' = <[b := set_state pb RUNNING]> (<[currentTask d := set_state
        (saved_pcb off pa frame (Process.cr3 (ks (mc s))) (currentKernelStack d)) READY]> (tasks_of s))).
Proof.
  intros Hc j. pose proof (core_runs _ _ _ _ _ _ _ Hc) as Hr.
  destruct Hc as [Hq Hnd H0 Hg Hcpu Ho Hl].
  assert (j < length l)%nat as Hj by (apply next_index_lt; apply Hq).
  destruct (lookup_lt_is_Some_2 l j Hj) as [b Hb]. split.
  - intros Hij. unfold _irq_handler_timer. rewrite (current_cpu_eq s cpu d Hr). simpl.
    rewrite (getCurrentTask_eq s cpu ptr q l i _ Hq Hl). simpl.
    rewrite (peekNextTask_eq s cpu ptr q l i b Hq Hb). simpl. fold j in Hb.
    rewrite <- Hij, Hl in Hb. injection Hb as <-. rewrite Z.eqb_refl. simpl. by rewrite andb_false_r.
  - intros Hij. destruct (queue_task _ _ _ _ _ _ _ _ Hq Hl) as [pa Hpa].
    destruct (queue_task _ _ _ _ _ _ _ _ Hq Hb) as [pb Hpb].
    destruct (timer_eq s cpu ptr q l i d _ b pa pb frame Hq Hnd H0 Hr Hl Hb Hij Hpa Hpb)
      as (s' & E & Hq' & Hts & Hcpu' & Hgs).
    exists s', pa, pb, b. split_and!; [done..| |done].
    split; [done|done|done|by rewrite Hgs|done| |done].
    apply Forall_forall. intros t Ht. pose proof (proj1 (Forall_forall _ _) Ho) as Ho'.
    rewrite Hts, !lookup_insert. destruct (decide (b = t)) as [<-|].
    { specialize (Ho' b Ht). cbn beta in Ho'. by rewrite Hpb in Ho'. }
    destruct (decide (currentTask d = t)) as [<-|].
    { specialize (Ho' _ Ht). cbn beta in Ho'. by rewrite Hpa in Ho'. }
    by apply Ho'.
Qed.
End timer.

(** ** Leaving the queue *)

(** The tasks of a queue have different pids. *)
Definition pids_ok (ts : gmap Z PCB) (l : list Z) : Prop :=
  forall j k t u p p', l !! j = Some t -> l !! k = Some u -> ts !! t = Some p -> ts !! u = Some p' ->
  pid p = pid p' -> j = k.

Lemma pids_ok_insert ts l a p p' :
  pids_ok ts l -> ts !! a = Some p -> pid p' = pid p -> pids_ok (<[a := p']> ts) l.
Proof.
  intros H Ha Hp j k t u r r' Hj Hk.
  assert (forall v x, <[a := p']> ts !! v = Some x -> exists y, ts !! v = Some y /\ pid y = pid x) as Hl.
  { intros v x. rewrite lookup_insert. case_decide; [subst|eauto]. intros [= <-]. eauto. }
  intros (y & Hy & Ey)%Hl (y' & Hy' & Ey')%Hl E.
  apply (H j k t u y y'); congruence.
Qed.

Definition drop_task (i : nat) (l : list Z) : list Z := take i l ++ drop (S i) l.

Lemma length_drop_task i (l : list Z) : (i < length l)%nat -> length (drop_task i l) = (length l - 1)%nat.
Proof. intros H. unfold drop_task. rewrite length_app, length_take, length_drop. lia. Qed.

Lemma lookup_drop_task i (l : list Z) k :
  (i < length l)%nat -> drop_task i l !! k = if (k <? i)%nat then l !! k else l !! S k.
Proof.
  intros Hi. unfold drop_task. destruct (Nat.ltb_spec k i).
  - rewrite lookup_app_l by (rewrite length_take; lia). by rewrite lookup_take_lt.
  - rewrite lookup_app_r by (rewrite length_take; lia).
    rewrite length_take, Nat.min_l, lookup_drop by lia. f_equal. lia.
Qed.

Lemma remove_from_eq ts q l i t p :
  repr true (m_tasks q) l -> Forall (fun t => is_Some (ts !! t)) l -> pids_ok ts l ->
  l !! i = Some t -> ts !! t = Some p ->
  exists v, rq_removeTask ts q (pid p) = (if pid p =? 0 then Done (false, q)
                                         else Done (true, mkQueue v (Z.of_nat (length l - 1) ⊟ 1))) /\
            repr true v (drop_task i l).
Proof.
  intros Hr Hts Hpid Ht Hp. destruct (erase_repr true (m_tasks q) l i Hr (or_introl eq_refl)) as (v & E & Hv).
  change (repr true v (drop_task i l)) in Hv. exists v. split; [|done]. unfold rq_removeTask. destruct (Z.eqb_spec (pid p) 0); [done|].
  pose proof (lookup_lt_Some _ _ _ Ht) as Hi.
  assert (forall k n, (k <= i)%nat -> (k + n = length l)%nat -> remove_from ts q (pid p) k n =
            Done (true, mkQueue v (Z.of_nat (length l - 1) ⊟ 1))) as Hloop.
  { intros k n0. revert k. induction n0 as [|n0 IH]; intros k Hk Hlen; [lia|]. cbn [remove_from].
    destruct (lookup_lt_is_Some_2 l k) as [u Hu]; [lia|].
    rewrite (index_repr true _ l k u Hr Hu). simpl.
    destruct (Forall_lookup_1 _ _ _ _ Hts Hu) as [pu Hpu]. rewrite Hpu. simpl.
    destruct (Z.eqb_spec (pid pu) (pid p)) as [Ep|Ep].
    - assert (k = i) as -> by (apply (Hpid k i u t pu p); done).
      rewrite E. simpl. unfold size. rewrite (repr_size _ _ _ Hv).
      by rewrite (length_drop_task i l) by done.
    - apply IH; [|lia]. destruct (decide (k = i)) as [->|]; [|lia]. congruence. }
  unfold size. rewrite (repr_size _ _ _ Hr). apply Hloop; lia.
Qed.

(** A task other than the swapper leaves the queue. *)
Lemma removeTask_eq s cpu ptr q l i k t p :
  queue_ok s cpu ptr q l i -> pids_ok (tasks_of s) l ->
  l !! k = Some t -> tasks_of s !! t = Some p -> pid p <> 0 -> (2 <= length l)%nat ->
  exists v, removeTask (pid p) cpu s =
      Done (true, with_queue s ptr (mkQueue v (Z.of_nat (length l - 2)))) /\
    queue_ok (with_queue s ptr (mkQueue v (Z.of_nat (length l - 2)))) cpu ptr
      (mkQueue v (Z.of_nat (length l - 2))) (drop_task k l) (length l - 2).
Proof.
  intros Hq Hpid Ht Hp H0 Hn.
  destruct (remove_from_eq (tasks_of s) q l k t p) as (v & E & Hv); try done; [apply Hq..|].
  pose proof (lookup_lt_Some _ _ _ Ht) as Hk.
  destruct (Z.eqb_spec (pid p) 0); [done|].
  assert (Z.of_nat (length l - 1) ⊟ 1 = Z.of_nat (length l - 2)) as Ei.
  { pose proof (qk_bound _ _ _ _ _ _ Hq). unfold MAX_QUEUED_PROCESSES in *.
    rewrite u64_small by (unfold is_u64; lia). lia. }
  rewrite Ei in E. exists v. split.
  - unfold removeTask. rewrite bad_cpu_ok by apply Hq. rewrite lock_unlock by apply Hq. simpl.
    unfold queue_ptr. simpl. rewrite (qk_ptr _ _ _ _ _ _ Hq). simpl.
    rewrite (qk_queue _ _ _ _ _ _ Hq). simpl. unfold tasks_of in *. simpl. rewrite E. simpl.
    pose proof (qk_lock _ _ _ _ _ _ Hq) as Hl. destruct s; simpl in *. by subst.
  - destruct Hq as [H1 H2 H3 H4 H5 H6 H7 H8]. split; simpl; try done.
    + by rewrite lookup_insert_eq.
    + rewrite length_drop_task by done. unfold MAX_QUEUED_PROCESSES in *. lia.
    + unfold drop_task. apply Forall_app. split; [by apply Forall_take|by apply Forall_drop].
Qed.

(** What a task keeps when its state or its privilege changes. *)
Definition kept (p : PCB) : CpuContext * Z * Z * Z * Z :=
  (context p, kernelStack p, pcr3 p, pcpu p, pid p).
Definition same_tasks (ts ts' : gmap Z PCB) : Prop := forall t, kept <$> ts !! t = kept <$> ts' !! t.

#[export] Instance same_tasks_equiv : Equivalence same_tasks.
Proof. split; repeat intro; [done|by symmetry|etrans; eauto]. Qed.

Lemma same_tasks_alter ts f a : (forall p, kept (f p) = kept p) -> same_tasks ts (alter f a ts).
Proof.
  intros Hf t. destruct (decide (a = t)) as [->|]; [|by rewrite lookup_alter_ne].
  rewrite lookup_alter_eq. destruct (ts !! t); simpl; [by rewrite Hf|done].
Qed.

Lemma same_tasks_turn ts a b : same_tasks ts (turn ts a b).
Proof. etrans; [|apply same_tasks_alter; by intros []]. apply same_tasks_alter; by intros []. Qed.

Lemma same_tasks_lookup ts ts' t p :
  same_tasks ts ts' -> ts !! t = Some p -> exists p', ts' !! t = Some p' /\ kept p' = kept p.
Proof.
  intros H Hp. specialize (H t). rewrite Hp in H. symmetry in H. apply fmap_Some in H as (p' & -> & ->). eauto.
Qed.

Section exit.
Variables (per_cpu_data swapper_tasks off : Z).

(** The task that the leaving thread switches to. *)
Definition exit_target (n i : nat) : nat := if (n =? 2)%nat then 0 else next_index n i.

(** The current index of the queue after the thread has left it. *)
Definition exit_index (n : nat) : nat := if (n =? 2)%nat then 0 else 1.

Lemma exit_index_next l i :
  (i < length l)%nat -> (2 <= length l)%nat ->
  next_index (length (drop_task i l)) (length l - 2) = exit_index (length l).
Proof.
  intros Hi Hn. unfold exit_index, next_index. rewrite length_drop_task by done.
  destruct (Nat.eqb_spec (length l) 2) as [->|E2]; [done|].
  destruct (Nat.leb_spec (length l - 1) 1); [lia|].
  replace (length l - 1 - 1)%nat with (length l - 2)%nat by lia. by rewrite Nat.Div0.mod_same.
Qed.

(** The queue without the thread. *)
Lemma leave_queue_sched s cpu ptr q l i t p :
  queue_ok s cpu ptr q l i -> pids_ok (tasks_of s) l ->
  l !! i = Some t -> tasks_of s !! t = Some p -> pid p <> 0 -> (2 <= length l)%nat ->
  exists s1 s2 q2, removeTask (pid p) cpu s = Done (true, s1) /\ scheduleNextTask cpu s1 = Done s2 /\
    queue_ok s2 cpu ptr q2 (drop_task i l) (exit_index (length l)) /\
    same_tasks (tasks_of s) (tasks_of s2) /\ cpus (ks (mc s2)) = cpus (ks (mc s)) /\
    gsbase (mc s2) = gsbase (mc s).
Proof.
  intros Hq Hpid Ht Hp H0 Hn. pose proof (lookup_lt_Some _ _ _ Ht) as Hi.
  destruct (removeTask_eq s cpu ptr q l i i t p Hq Hpid Ht Hp H0 Hn) as (v & Erm & Hq1).
  set (s1 := with_queue s ptr (mkQueue v (Z.of_nat (length l - 2)))) in *.
  destruct (lookup_lt_is_Some_2 (drop_task i l) (length l - 2)) as [a Ha]; [apply Hq1|].
  destruct (lookup_lt_is_Some_2 (drop_task i l) (next_index (length (drop_task i l)) (length l - 2)))
    as [b Hb]; [apply next_index_lt; apply Hq1|].
  destruct (scheduleNextTask_eq s1 cpu ptr _ _ _ a b Hq1 Ha Hb) as [Es Hq2].
  rewrite (exit_index_next l i Hi Hn) in Hq2, Es.
  eexists s1, _, _. split_and!; [exact Erm|exact Es|exact Hq2|..]; case_decide; try done.
  apply same_tasks_turn.
Qed.

Lemma leave_queue_eq s cpu ptr q l i d pa regs :
  core_ok per_cpu_data s cpu ptr q l i d -> pids_ok (tasks_of s) l ->
  (1 <= i)%nat -> l !! 0%nat = Some (swapper swapper_tasks cpu) ->
  tasks_of s !! currentTask d = Some pa -> pid pa <> 0 ->
  exists s' q' x px,
    l !! exit_target (length l) i = Some x /\ tasks_of s !! x = Some px /\
    leave_queue per_cpu_data swapper_tasks off regs s = Done (s', restoreCpuContext (context px) regs) /\
    queue_ok s' cpu ptr q' (drop_task i l) (exit_index (length l)) /\
    same_tasks (tasks_of s) (tasks_of s') /\
    gsbase (mc s') = gsbase (mc s) /\
    cpu_entry (ks (mc s')) cpu = Done (switched_cpu d (kernelStack px) x).
Proof.
  intros Hc Hpid Hi Hsw Hpa Hp0.
  pose proof (core_runs _ _ _ _ _ _ _ _ Hc) as Hr. destruct Hc as [Hq Hnd H0 Hg Hcpu Ho Hl].
  assert (i < length l)%nat as Hlt by apply Hq.
  destruct (lookup_lt_is_Some_2 l (next_index (length l) i)) as [b Hb]; [by apply next_index_lt|].
  destruct (leave_queue_sched s cpu ptr q l i _ pa Hq Hpid Hl Hpa Hp0)
    as (s1 & s2 & q2 & Erm & Esc & Hq2 & Hst & Hcp & Hgs); [lia|].
  set (x := if currentTask d =? b then swapper swapper_tasks cpu else b).
  assert (l !! exit_target (length l) i = Some x) as Hx.
  { unfold exit_target, x. destruct (Nat.eqb_spec (length l) 2) as [E2|E2].
    - assert (i = 1)%nat as -> by lia. unfold next_index in Hb. rewrite E2 in Hb. simpl in Hb.
      rewrite Hl in Hb. injection Hb as <-. by rewrite Z.eqb_refl.
    - destruct (Z.eqb_spec (currentTask d) b) as [<-|_]; [|done].
      exfalso. apply (next_index_moves (length l) i); [lia|done|]. by eapply NoDup_lookup. }
  destruct (queue_task _ _ _ _ _ _ _ _ Hq Hx) as [px Hpx].
  destruct (same_tasks_lookup _ _ _ _ Hst Hpx) as (px' & Hpx' & Ek). injection Ek as Ek1 Ek2 Ek3 Ek4 Ek5.
  assert (cpu_entry (ks (mc s2)) cpu = Done d) as Hcpu2.
  { apply cpu_entry_some in Hcpu. apply cpu_entry_some. by rewrite Hcp. }
  pose proof (exitAndSwitch_eq off cpu x (ks (mc s2)) regs px' d Hpx' Hcpu2) as Ex.
  rewrite Ek1, Ek2, Ek3 in Ex.
  eexists _, q2, x, px. split; [done|]. split; [done|]. split.
  { unfold leave_queue. rewrite (current_cpu_eq _ s cpu d Hr). simpl.
    rewrite (getCurrentTask_eq s cpu ptr q l i _ Hq Hl). simpl.
    rewrite (peekNextTask_eq s cpu ptr q l i b Hq Hb). simpl. rewrite Hpa. simpl.
    rewrite Erm. simpl. rewrite Esc. simpl. fold x. rewrite Ex. reflexivity. }
  split_and!; [by apply queue_ok_mc|done|done|].
  apply cpu_entry_some in Hcpu2 as [Hc Hd]. apply cpu_entry_some. simpl. split; [done|].
  rewrite list_lookup_insert_eq; [done|]. by eapply lookup_lt_Some.
Qed.

(** A change of the current task's block that the scheduler does not look at. *)
Lemma core_ok_kept s cpu ptr q l i d pa pa' m : core_ok per_cpu_data s cpu ptr q l i d ->
  tasks_of s !! currentTask d = Some pa -> kept pa' = kept pa ->
  pcbs (ks m) = <[currentTask d := pa']> (tasks_of s) -> cpus (ks m) = cpus (ks (mc s)) -> gsbase m = gsbase (mc s) ->
  core_ok per_cpu_data (with_mc s m) cpu ptr q l i d /\ same_tasks (tasks_of s) (tasks_of (with_mc s m)).
Proof.
  intros [Hq Hnd H0 Hg Hcpu Ho Hl] Hpa Hk Hpcb Hcpus Hgs. set (t := currentTask d) in *.
  assert (tasks_of (with_mc s m) = <[t := pa']> (tasks_of s)) as Ets by done. split.
  - split; try done.
    + apply queue_ok_mc; [done|]. intros u Hu. rewrite Hpcb, lookup_insert. by case_decide.
    + cbn. by rewrite Hgs.
    + apply cpu_entry_some in Hcpu. apply cpu_entry_some. cbn. by rewrite Hcpus.
    + eapply Forall_impl; [exact Ho|]. intros u Hu. cbn beta in *. rewrite Ets, lookup_insert.
      case_decide; [subst u|done]. rewrite Hpa in Hu. unfold kept in Hk. cbn in *. congruence.
  - intros u. rewrite Ets, lookup_insert. case_decide; [subst u|done]. rewrite Hpa. cbn. by rewrite Hk.
Qed.

(** The thread after [__kelevate] and [cli]. *)
Lemma exit_prologue s cpu ptr q l i d pa regs :
  core_ok per_cpu_data s cpu ptr q l i d -> tasks_of s !! currentTask d = Some pa -> elevated pa = 0 ->
  kgsbase (mc s) = cpu_gs per_cpu_data cpu -> ring (mc s) = 3 ->
  exists s2 pa2, exitKernelThread per_cpu_data swapper_tasks off regs s =
      leave_queue per_cpu_data swapper_tasks off regs s2 /\
    core_ok per_cpu_data s2 cpu ptr q l i d /\ same_tasks (tasks_of s) (tasks_of s2) /\
    tasks_of s2 = <[currentTask d := pa2]> (tasks_of s) /\ pid pa2 = pid pa.
Proof.
  intros Hc Hpa Hel Hkg Hring. pose proof Hc as [_ _ _ Hg Hcpu _ _]. set (t := currentTask d) in *.
  set (pa1 := set_usergs (set_elevated pa 1) (cpu_gs per_cpu_data cpu)).
  set (m1 := put_pcb (with_ring (mc s) 0) t pa1).
  assert (__kelevate per_cpu_data (mc s) = Done m1) as Ek.
  { apply kelevate_spec; [|done]. split; try done; [by exists d|by left|]. by rewrite Hel. }
  set (m2 := mkMachine (ks m1) (gsbase m1) (kgsbase m1) 0 false).
  destruct (core_ok_kept s cpu ptr q l i d pa pa1 m2 Hc Hpa eq_refl eq_refl eq_refl eq_refl) as [Hc2 Hst].
  exists (with_mc s m2), pa1. split_and!; try done. unfold exitKernelThread. by rewrite Ek.
Qed.

(** Does the queue's new current task run?  Only the first and the last task of the
    queue leave it in step with the core. *)
Lemma exit_in_step l i x :
  NoDup l -> (1 <= i < length l)%nat -> l !! exit_target (length l) i = Some x ->
  (drop_task i l !! exit_index (length l) = Some x <-> (i = 1 \/ S i = length l)%nat).
Proof.
  intros Hnd Hi Hx. rewrite lookup_drop_task by lia. unfold exit_target, exit_index in *.
  destruct (Nat.eqb_spec (length l) 2) as [E|E].
  { destruct (Nat.ltb_spec 0 i); [|lia]. rewrite Hx. split; [lia|done]. }
  unfold next_index in Hx. destruct (Nat.leb_spec (length l) 1); [lia|].
  destruct (Nat.ltb_spec 1 i) as [H1|H1].
  - destruct (decide (S i = length l)) as [Ei|Ei].
    + replace (length l - 1)%nat with i in Hx by lia. rewrite Nat.Div0.mod_same in Hx.
      change (1 + 0)%nat with 1%nat in Hx. rewrite Hx. split; [lia|done].
    + rewrite Nat.mod_small in Hx by lia. split; [|lia]. intros H2.
      pose proof (NoDup_lookup _ _ _ _ Hnd H2 Hx). lia.
  - assert (i = 1)%nat as -> by lia. rewrite Nat.mod_small in Hx by lia.
    change (1 + 1)%nat with 2%nat in Hx. rewrite Hx. split; [lia|done].
Qed.

Lemma exit_eq s cpu ptr q l i d pa regs :
  core_ok per_cpu_data s cpu ptr q l i d -> pids_ok (tasks_of s) l ->
  (1 <= i)%nat -> l !! 0%nat = Some (swapper swapper_tasks cpu) ->
  tasks_of s !! currentTask d = Some pa -> pid pa <> 0 -> elevated pa = 0 ->
  kgsbase (mc s) = cpu_gs per_cpu_data cpu -> ring (mc s) = 3 ->
  exists s' q' x px,
    l !! exit_target (length l) i = Some x /\ tasks_of s !! x = Some px /\
    exitKernelThread per_cpu_data swapper_tasks off regs s =
      Done (s', restoreCpuContext (context px) regs) /\
    queue_ok s' cpu ptr q' (drop_task i l) (exit_index (length l)) /\
    same_tasks (tasks_of s) (tasks_of s') /\
    runs per_cpu_data s' cpu (switched_cpu d (kernelStack px) x).
Proof.
  intros Hc Hpid Hi Hsw Hpa Hp0 Hel Hkg Hring.
  destruct (exit_prologue s cpu ptr q l i d pa regs) as (s2 & pa2 & E2 & Hc2 & Hst & Ets & Ep); try done.
  assert (pids_ok (tasks_of s2) l) as Hpid2 by (rewrite Ets; by eapply pids_ok_insert).
  assert (tasks_of s2 !! currentTask d = Some pa2) as Hpa2 by (rewrite Ets; apply lookup_insert_eq).
  destruct (leave_queue_eq s2 cpu ptr q l i d pa2 regs Hc2 Hpid2 Hi Hsw Hpa2)
    as (s' & q' & x & px & Hx & Hpx & E & Hq' & Hst' & Hgs & Hcpu); [congruence|].
  symmetry in Hst. destruct (same_tasks_lookup _ _ _ _ Hst Hpx) as (px0 & Hpx0 & Ek).
  injection Ek as Ek1 Ek2 _ _ _. rewrite <- Ek1, <- Ek2 in *.
  symmetry in Hst. assert (same_tasks (tasks_of s) (tasks_of s')) as Hss by (by etrans).
  exists s', q', x, px0. rewrite E2. split_and!; try done.
  split; [by rewrite Hgs, (ck_gs _ _ _ _ _ _ _ _ Hc2)|done|].
  pose proof (Forall_lookup_1 _ _ _ _ (ck_owner _ _ _ _ _ _ _ _ Hc) Hx) as Hown. cbn beta in Hown.
  simpl. specialize (Hss x). rewrite Hpx0 in Hss, Hown. symmetry in Hss.
  apply fmap_Some in Hss as (p' & -> & Ek). simpl in *. unfold kept in Ek. congruence.
Qed.

(** C34 (functional): [exitKernelThread] takes the thread out of its queue and resumes the
    task that was next, or the swapper when there is none: the frame of the [iretq]
    carries that task's saved registers, and it becomes the current task of the core.
    The queue is left in step with the core exactly when the thread was the first or
    the last task behind the swapper. *)
Theorem exitKernelThread_switches s cpu ptr q l i d pa regs :
  core_ok per_cpu_data s cpu ptr q l i d -> pids_ok (tasks_of s) l ->
  (1 <= i)%nat -> l !! 0%nat = Some (swapper swapper_tasks cpu) ->
  tasks_of s !! currentTask d = Some pa -> pid pa <> 0 -> elevated pa = 0 ->
  kgsbase (mc s) = cpu_gs per_cpu_data cpu -> ring (mc s) = 3 ->
  exists s' q' x px d',
    l !! exit_target (length l) i = Some x /\ tasks_of s !! x = Some px /\
    exitKernelThread per_cpu_data swapper_tasks off regs s =
      Done (s', restoreCpuContext (context px) regs) /\
    queue_ok s' cpu ptr q' (drop_task i l) (exit_index (length l)) /\
    runs per_cpu_data s' cpu d' /\ currentTask d' = x /\
    (drop_task i l !! exit_index (length l) = Some (currentTask d') <-> (i = 1 \/ S i = length l)%nat).
Proof.
  intros Hc Hpid Hi Hsw Hpa Hp0 Hel Hkg Hring.
  destruct (exit_eq s cpu ptr q l i d pa regs) as (s' & q' & x & px & Hx & Hpx & E & Hq & _ & Hr); try done.
  exists s', q', x, px, (switched_cpu d (kernelStack px) x). split_and!; try done.
  apply exit_in_step; [apply Hc| |done]. pose proof (qk_bound _ _ _ _ _ _ (ck_queue _ _ _ _ _ _ _ _ Hc)). lia.
Qed.

(** When a thread that is neither the first nor the last of its queue exits,
    the queue and the core disagree on the current task, and the next timer interrupt
    saves the registers of the task that runs into the control block of another task,
    the first of the queue, whose own registers are lost. *)
Theorem exit_corrupts_context s cpu ptr q l i d pa regs frame :
  core_ok per_cpu_data s cpu ptr q l i d -> pids_ok (tasks_of s) l ->
  (1 < i)%nat -> (S i < length l)%nat -> l !! 0%nat = Some (swapper swapper_tasks cpu) ->
  tasks_of s !! currentTask d = Some pa -> pid pa <> 0 -> elevated pa = 0 ->
  kgsbase (mc s) = cpu_gs per_cpu_data cpu -> ring (mc s) = 3 ->
  exists s1 f1 s2 f2 x y d1 py,
    exitKernelThread per_cpu_data swapper_tasks off regs s = Done (s1, f1) /\
    cpu_entry (ks (mc s1)) cpu = Done d1 /\ currentTask d1 = x /\
    l !! 1%nat = Some y /\ x <> y /\
    _irq_handler_timer per_cpu_data off frame s1 = Done (s2, f2) /\
    tasks_of s2 !! y = Some py /\ context py = saveCpuContext frame /\
    context <$> tasks_of s2 !! x = context <$> tasks_of s !! x.
Proof.
  intros Hc Hpid Hi Hn Hsw Hpa Hp0 Hel Hkg Hring.
  destruct (exit_eq s cpu ptr q l i d pa regs) as (s1 & q1 & x & px & Hx & Hpx & E & Hq & Hst & Hr); try done; [lia|].
  set (d1 := switched_cpu d (kernelStack px) x) in *.
  pose proof (ck_nodup _ _ _ _ _ _ _ _ Hc) as Hnd.
  unfold exit_target, exit_index in *. destruct (Nat.eqb_spec (length l) 2); [lia|].
  destruct (lookup_lt_is_Some_2 l 1) as [y Hy]; [lia|].
  assert (drop_task i l !! 1%nat = Some y) as Hy'.
  { rewrite lookup_drop_task by lia. by destruct (Nat.ltb_spec 1 i); [|lia]. }
  assert (x <> y) as Hxy.
  { intros ->. pose proof (NoDup_lookup _ _ _ _ Hnd Hx Hy) as E1. unfold next_index in E1.
    destruct (Nat.leb_spec (length l) 1); [lia|]. rewrite Nat.mod_small in E1; lia. }
  set (l1 := drop_task i l) in *.
  assert (length l1 = length l - 1)%nat as Hlen by (apply length_drop_task; lia).
  assert (NoDup l1 /\ 0 ∉ l1) as [Hnd1 H01].
  { unfold l1, drop_task. pose proof (ck_null _ _ _ _ _ _ _ _ Hc) as Hz.
    rewrite <- (take_drop_middle l i (currentTask d)) in Hnd, Hz by apply Hc. split.
    - apply NoDup_app in Hnd as (N1 & N2 & N3). apply NoDup_cons in N3 as [_ N3].
      apply NoDup_app. split_and!; [done|set_solver|done].
    - set_solver. }
  assert (next_index (length l1) 1 = 2)%nat as Ej.
  { unfold next_index. destruct (Nat.leb_spec (length l1) 1); [lia|]. rewrite Nat.mod_small; lia. }
  destruct (lookup_lt_is_Some_2 l1 2) as [b Hb]; [lia|].
  destruct (queue_task _ _ _ _ _ _ _ _ Hq Hy') as [py Hpy].
  destruct (queue_task _ _ _ _ _ _ _ _ Hq Hb) as [pb Hpb].
  destruct (timer_eq per_cpu_data off s1 cpu ptr q1 l1 1 d1 y b py pb frame)
    as (s2 & Et & _ & Ets & _); try done; [by rewrite Ej|by rewrite Ej|].
  assert (b <> y) as Hby by (intros ->; pose proof (NoDup_lookup _ _ _ _ Hnd1 Hb Hy'); done).
  eexists s1, _, s2, _, x, y, d1, _. split_and!; [exact E|apply Hr|done|done|done|exact Et|..].
  - rewrite Ets, lookup_insert_ne, lookup_insert_eq by done. reflexivity.
  - done.
  - specialize (Hst x). rewrite Hpx in Hst |- *. symmetry in Hst.
    apply fmap_Some in Hst as (px1 & Hpx1 & Ek). unfold kept in Ek.
    rewrite Ets, lookup_insert. case_decide as Hbx; [subst b|rewrite lookup_insert_ne, Hpx1 by done];
      simpl; f_equal; congruence.
Qed.
End exit.

(** ** Load balancing *)

(** The registered cores: the address of the queue of each and the tasks on it. *)
Record cores_ok (s : sys) (qs : list (Z * list Z)) : Prop := {
  co_count : m_usableCpuCount s = Z.of_nat (length qs);
  co_bound : (1 <= length qs <= 64)%nat;
  co_ptrs : NoDup (fst <$> qs);
  co_queue : forall c ptr l, qs !! c = Some (ptr, l) ->
    vector_index (m_runQueues s) c = Done ptr /\
    exists q, queues s !! ptr = Some q /\ repr true (m_tasks q) l;
  co_short : forall c ptr l, qs !! c = Some (ptr, l) -> (length l <= MAX_QUEUED_PROCESSES)%nat;
}.

(** Core [c] has the fewest tasks, and is the first such core. *)
Definition least (qs : list (Z * list Z)) (c : nat) (l : list Z) : Prop :=
  forall c' ptr' l', qs !! c' = Some (ptr', l') ->
  (length l <= length l')%nat /\ ((c' < c)%nat -> (length l < length l')%nat).

Lemma least_loaded_eq s qs n i c ptr l :
  cores_ok s qs -> (i + n = length qs)%nat -> qs !! c = Some (ptr, l) -> (c < i)%nat ->
  (forall c' ptr' l', (c' < i)%nat -> qs !! c' = Some (ptr', l') ->
     (length l <= length l')%nat /\ ((c' < c)%nat -> (length l < length l')%nat)) ->
  exists r ptr' l', least_loaded s (Z.of_nat c) (length l) (Z.of_nat i) n = Done (Z.of_nat r) /\
    qs !! r = Some (ptr', l') /\ least qs r l'.
Proof.
  intros Hco. revert i c ptr l. induction n as [|n IH]; intros i c ptr l Hn Hc Hci Hmin; simpl.
  { exists c, ptr, l. split_and!; [done..|]. intros c' ptr' l' H'.
    apply (Hmin c' ptr' l'); [|done]. apply lookup_lt_Some in H'. lia. }
  destruct (lookup_lt_is_Some_2 qs i) as [[ptr' l'] Hi]; [lia|].
  destruct (co_queue _ _ Hco i ptr' l' Hi) as (Hp & q & Hq & Hr).
  unfold queue_ptr. rewrite Nat2Z.id, Hp. simpl. rewrite Hq. simpl.
  unfold rq_size, size. rewrite (repr_size _ _ _ Hr).
  replace (Z.of_nat i + 1) with (Z.of_nat (S i)) by lia.
  destruct (Nat.ltb_spec (length l') (length l)) as [Hlt|Hge].
  - eapply IH; [lia|exact Hi|lia|]. intros k pk lk Hk Hlk.
    destruct (decide (k = i)) as [->|].
    + rewrite Hi in Hlk. injection Hlk as <- <-. lia.
    + destruct (Hmin k pk lk); [lia|done|]. lia.
  - eapply IH; [lia|exact Hc|lia|]. intros k pk lk Hk Hlk.
    destruct (decide (k = i)) as [->|].
    + rewrite Hi in Hlk. injection Hlk as <- <-. lia.
    + apply (Hmin k pk lk); [lia|done].
Qed.

Lemma getNextAvailableCpu_eq s qs :
  cores_ok s qs ->
  exists c ptr l, _getNextAvailableCpu s = Done (Z.of_nat c) /\ qs !! c = Some (ptr, l) /\ least qs c l.
Proof.
  intros Hco. destruct (lookup_lt_is_Some_2 qs 0) as [[ptr l] H0]; [pose proof (co_bound _ _ Hco); lia|].
  destruct (co_queue _ _ Hco 0%nat ptr l H0) as (Hp & q & Hq & Hr).
  unfold _getNextAvailableCpu, queue_ptr. change (Z.to_nat 0) with 0%nat. rewrite Hp. simpl. rewrite Hq. simpl.
  unfold rq_size, size. rewrite (repr_size _ _ _ Hr), (co_count _ _ Hco).
  pose proof (co_bound _ _ Hco) as Hb.
  assert (Z.to_nat (s32 (Z.of_nat (length qs)) - 1) = length qs - 1)%nat as ->.
  { unfold s32. rewrite (u32_small (Z.of_nat (length qs))) by (unfold is_u32; lia).
    destruct (Z.ltb_spec (Z.of_nat (length qs)) 0x80000000); lia. }
  destruct (least_loaded_eq s qs (length qs - 1) 1 0 ptr l Hco) as (c & p' & l' & E & Hc & Hl); try done; [lia|lia| |].
  - intros c' ptr' l' Hc' H. assert (c' = 0)%nat as -> by lia. rewrite H0 in H. injection H as <- <-. lia.
  - exists c, p', l'. by split_and!.
Qed.

(** A task for a core the caller names. *)
Lemma addTask_on_run s qs c ptr l task p :
  cores_ok s qs -> sched_lock s = 0 -> qs !! c = Some (ptr, l) -> tasks_of s !! task = Some p ->
  exists s', addTask_on true task (Z.of_nat c) s = Done (negb (length l =? MAX_QUEUED_PROCESSES)%nat, s') /\
    cores_ok s' (if (length l =? MAX_QUEUED_PROCESSES)%nat then qs else <[c := (ptr, l ++ [task])]> qs) /\
    tasks_of s' = <[task := set_cpu p (Z.of_nat c)]> (tasks_of s) /\
    sched_lock s' = 0 /\ balancing_lock s' = balancing_lock s.
Proof.
  intros Hco Hl1 Hc Hp. pose proof (co_bound _ _ Hco) as Hb. pose proof (lookup_lt_Some _ _ _ Hc) as Hlt.
  destruct (co_queue _ _ Hco c ptr l Hc) as (Hptr & q & Hq & Hr).
  pose proof (co_short _ _ Hco c ptr l Hc) as Hshort.
  destruct (pushBack_repr true sizeof_pointer (m_tasks q) l task Hr) as (v & Ev & Hv);
    [done|unfold fits, sizeof_pointer, MAX_QUEUED_PROCESSES in *; lia|].
  set (full := (length l =? MAX_QUEUED_PROCESSES)%nat).
  set (q' := if full then q else mkQueue v (m_currentTaskIndex q)).
  assert (rq_addTask true q task = Done (negb full, q')) as Eadd.
  { unfold rq_addTask, size. rewrite (repr_size _ _ _ Hr). unfold q', full.
    destruct (length l =? MAX_QUEUED_PROCESSES)%nat; [done|]. by rewrite Ev. }
  exists (with_queue (put_tasks s (<[task := set_cpu p (Z.of_nat c)]> (tasks_of s))) ptr q').
  split_and!; try done.
  - unfold addTask_on. rewrite bad_cpu_ok by (unfold MAX_CPUS; lia). rewrite lock_unlock by done. simpl.
    unfold update_task, update_pcb. unfold tasks_of in Hp. simpl. rewrite Hp. simpl.
    unfold queue_ptr. simpl. rewrite Nat2Z.id, Hptr. simpl. rewrite Hq. simpl. rewrite Eadd. simpl.
    do 2 f_equal. destruct s; simpl in *. by subst.
  - fold full. assert (full = false -> (length l < MAX_QUEUED_PROCESSES)%nat) as Hroom.
    { unfold full. intros ?%Nat.eqb_neq. lia. }
    destruct Hco as [H1 H2 H3 H4 H5]. clearbody full. split; simpl.
    + rewrite H1. destruct full; [done|]. by rewrite length_insert.
    + destruct full; [done|]. by rewrite length_insert.
    + destruct full; [done|]. rewrite list_fmap_insert. simpl.
      rewrite list_insert_id; [done|]. by rewrite list_lookup_fmap, Hc.
    + intros k pk lk Hk.
      destruct (decide (k = c)) as [->|Hkc].
      { assert (pk = ptr /\ lk = if full then l else l ++ [task]) as [-> ->].
        { destruct full; [rewrite Hc in Hk|rewrite list_lookup_insert_eq in Hk by done]; by injection Hk as <- <-. }
        split; [done|]. exists q'. rewrite lookup_insert_eq. split; [done|]. unfold q'. by destruct full. }
      assert (qs !! k = Some (pk, lk)) as Hk'
        by (destruct full; [done|]; by rewrite list_lookup_insert_ne in Hk by done).
      destruct (H4 k pk lk Hk') as (Hpk & qk & Hqk & Hrk). split; [done|]. exists qk. split; [|done].
      rewrite lookup_insert_ne; [done|]. intros <-. apply Hkc.
      eapply (NoDup_lookup (fst <$> qs) _ _ ptr H3); by rewrite list_lookup_fmap, ?Hk', ?Hc.
    + destruct full; [done|]. intros k pk lk [(_ & [= <- <-] & _)|[_ Hk]]%list_lookup_insert_Some; [|by eapply H5].
      rewrite length_app. cbn [length]. specialize (Hroom eq_refl). lia.
Qed.

Lemma addTask_run s qs task p :
  cores_ok s qs -> sched_lock s = 0 -> balancing_lock s = 0 -> tasks_of s !! task = Some p ->
  exists c ptr l s', qs !! c = Some (ptr, l) /\ least qs c l /\
    addTask true task s = Done (negb (length l =? MAX_QUEUED_PROCESSES)%nat, s') /\
    cores_ok s' (if (length l =? MAX_QUEUED_PROCESSES)%nat then qs else <[c := (ptr, l ++ [task])]> qs) /\
    tasks_of s' = <[task := set_cpu p (Z.of_nat c)]> (tasks_of s) /\
    sched_lock s' = 0 /\ balancing_lock s' = 0.
Proof.
  intros Hco Hl1 Hl2 Hp.
  assert (cores_ok (with_balancing_lock s 1) qs) as Hco1 by (destruct Hco; by split).
  destruct (getNextAvailableCpu_eq _ _ Hco1) as (c & ptr & l & E & Hc & Hle).
  destruct (addTask_on_run (with_balancing_lock s 1) qs c ptr l task p Hco1 Hl1 Hc Hp) as (s' & E1 & [] & Ht & Hs & _).
  exists c, ptr, l, (with_balancing_lock s' 0). split_and!; try done.
  unfold addTask. rewrite Hl2. simpl. rewrite E. simpl. rewrite E1. done.
Qed.

(** [addTask] puts a new task at the end of the queue of the first core
    with the fewest tasks and records the core in the task; when even that queue holds
    [MAX_QUEUED_PROCESSES] tasks it returns false and no queue changes. *)
Theorem addTask_least_loaded s qs task p :
  cores_ok s qs -> sched_lock s = 0 -> balancing_lock s = 0 -> tasks_of s !! task = Some p ->
  exists c ptr l s', qs !! c = Some (ptr, l) /\ least qs c l /\
    addTask true task s = Done (negb (length l =? MAX_QUEUED_PROCESSES)%nat, s') /\
    cores_ok s' (if (length l =? MAX_QUEUED_PROCESSES)%nat then qs else <[c := (ptr, l ++ [task])]> qs) /\
    tasks_of s' = <[task := set_cpu p (Z.of_nat c)]> (tasks_of s) /\
    sched_lock s' = 0 /\ balancing_lock s' = 0.
Proof. apply addTask_run. Qed.

(** [removeTask] only refuses pid 0, but the swapper of the bootstrap core
    has pid 1 and that of another core its APIC id: [removeTask] takes such a swapper
    out of its queue. *)
Theorem swapper_can_be_removed s cpu ptr q l i p :
  queue_ok s cpu ptr q l i -> pids_ok (tasks_of s) l -> (2 <= length l)%nat ->
  (exists t, l !! 0%nat = Some t /\ tasks_of s !! t = Some p) -> pid p = 1 ->
  exists s' q', removeTask 1 cpu s = Done (true, s') /\ queues s' !! ptr = Some q' /\
    repr true (m_tasks q') (drop 1 l).
Proof.
  intros Hq Hpid Hn (t & Ht & Hp) H1.
  destruct (removeTask_eq s cpu ptr q l i 0 t p Hq Hpid Ht Hp) as (v & E & Hq'); [lia|done|].
  rewrite H1 in E. eexists _, _. split; [exact E|]. split; [apply Hq'|]. apply Hq'.
Qed.

(** ** Witnesses

    Core 0 with the swapper at 1000 and three threads, of which the second runs. *)
Definition demo_task (p : Z) : PCB := mkPCB demo_context READY p 0 0xffffffff80400000 0x11000 0 0 0.
Definition demo_tasks : gmap Z PCB :=
  {[ 1000 := demo_task 1; 2000 := demo_task 10; 3000 := demo_task 11; 4000 := demo_task 12;
     6000 := demo_task 13 ]}.
Definition demo_queue : RoundRobinRunQueue :=
  mkQueue (mkVec (Some [Some 1000; Some 2000; Some 3000; Some 4000]) 4 4) 2.
Definition demo_sys : sys :=
  mkSys (mkMachine (mkKstate demo_tasks [mkCpuData 3000 0x9000 0x11000 0] 0x400000) 0x7000 0x7000 3 true)
    (mkVec (Some (Some 5000 :: replicate 63 None)) 0 64) {[ 5000 := demo_queue ]} 1 0 0 14.
Definition demo_list : list Z := [1000; 2000; 3000; 4000].

Lemma demo_repr : repr true (m_tasks demo_queue) demo_list.
Proof. split; [done|]. exists []. done. Qed.

Lemma demo_lookup t : t ∈ demo_list -> exists p, tasks_of demo_sys !! t = Some p /\ pcpu p = 0.
Proof.
  unfold demo_list. rewrite !elem_of_cons. intros [-> |[-> |[-> |[-> |H]]]]; [eexists; done..|].
  by apply not_elem_of_nil in H.
Qed.

Lemma demo_queue_ok : queue_ok demo_sys 0 5000 demo_queue demo_list 2.
Proof.
  split; try reflexivity.
  - unfold MAX_CPUS. lia.
  - apply demo_repr.
  - unfold MAX_QUEUED_PROCESSES. simpl. lia.
  - apply Forall_forall. intros t (p & -> & _)%demo_lookup. eauto.
Qed.

Lemma demo_core_ok : core_ok 0x7000 demo_sys 0 5000 demo_queue demo_list 2 (mkCpuData 3000 0x9000 0x11000 0).
Proof.
  split; try reflexivity.
  - apply demo_queue_ok.
  - refine (bool_decide_unpack _ _). reflexivity.
  - refine (bool_decide_unpack _ _). reflexivity.
  - apply Forall_forall. intros t (p & -> & <-)%demo_lookup. done.
Qed.

Lemma demo_pids : pids_ok (tasks_of demo_sys) demo_list.
Proof.
  intros j k t u p p' Hj Hk Hp Hp' E.
  do 4 (destruct j as [|j]; [injection Hj as <-; injection Hp as <-;
    do 4 (destruct k as [|k]; [injection Hk as <-; injection Hp' as <-; (reflexivity || discriminate E)|]);
    discriminate Hk|]). discriminate Hj.
Qed.

Lemma round_robin_witness :
  exists k s', (1 <= k < 4)%nat /\ schedule_times 0 k demo_sys = Done s' /\
               getCurrentTask 0 s' = Done (2000, s').
Proof.
  destruct (round_robin demo_sys 0 5000 demo_queue demo_list 2) as [H _].
  - apply demo_queue_ok.
  - simpl. lia.
  - destruct (H 1%nat 2000) as (k & s' & Hk & E & Hc & _); [lia|reflexivity|].
    exists k, s'. split_and!; [apply Hk|apply Hk|exact E|exact Hc].
Defined.

Lemma timer_keeps_step_witness :
  exists s', _irq_handler_timer 0x7000 0xffffffff80000000 (demo_frame 0x5555) demo_sys =
    Done (s', restoreCpuContext demo_context (demo_frame 0x5555)).
Proof.
  destruct (timer_keeps_step 0x7000 0xffffffff80000000 demo_sys 0 5000 demo_queue demo_list 2
              (mkCpuData 3000 0x9000 0x11000 0) (demo_frame 0x5555) demo_core_ok) as [_ H].
  destruct H as (s' & pa & pb & b & Hb & Hpa & Hpb & E & _); [discriminate|].
  exists s'. rewrite E. injection Hb as <-. injection Hpb as <-. reflexivity.
Defined.

Lemma exitKernelThread_switches_witness :
  exists s', exitKernelThread 0x7000 1000 0xffffffff80000000 (demo_frame 0) demo_sys =
    Done (s', restoreCpuContext demo_context (demo_frame 0)).
Proof.
  destruct (exitKernelThread_switches 0x7000 1000 0xffffffff80000000 demo_sys 0 5000 demo_queue demo_list 2
              (mkCpuData 3000 0x9000 0x11000 0) (demo_task 11) (demo_frame 0) demo_core_ok demo_pids)
    as (s' & q' & x & px & d' & Hx & Hpx & E & _); try reflexivity; [lia|discriminate|].
  exists s'. rewrite E. injection Hx as <-. injection Hpx as <-. reflexivity.
Defined.

(** The thread at 3000 exits; the interrupted registers of 4000 end up in 2000. *)
Lemma exit_corrupts_context_witness :
  exists s1 f1 s2 f2 py,
    exitKernelThread 0x7000 1000 0xffffffff80000000 (demo_frame 0) demo_sys = Done (s1, f1) /\
    _irq_handler_timer 0x7000 0xffffffff80000000 (demo_frame 0x4444) s1 = Done (s2, f2) /\
    tasks_of s2 !! 2000 = Some py /\ context py = saveCpuContext (demo_frame 0x4444).
Proof.
  destruct (exit_corrupts_context 0x7000 1000 0xffffffff80000000 demo_sys 0 5000 demo_queue demo_list 2
              (mkCpuData 3000 0x9000 0x11000 0) (demo_task 11) (demo_frame 0) (demo_frame 0x4444)
              demo_core_ok demo_pids)
    as (s1 & f1 & s2 & f2 & x & y & d1 & py & E1 & _ & _ & Hy & _ & E2 & Hpy & Hc & _);
    try reflexivity; [lia|simpl; lia|discriminate|].
  injection Hy as <-. exists s1, f1, s2, f2, py. split_and!; [exact E1|exact E2|exact Hpy|exact Hc].
Defined.

Lemma demo_cores : cores_ok demo_sys [(5000, demo_list)].
Proof.
  split; try reflexivity.
  - simpl. lia.
  - apply NoDup_singleton.
  - intros [|c] ptr l; [|discriminate]. intros [= <- <-]. split; [reflexivity|].
    exists demo_queue. split; [reflexivity|apply demo_repr].
  - intros [|c] ptr l; [|discriminate]. intros [= <- <-]. apply Nat.leb_le. reflexivity.
Qed.

Lemma addTask_least_loaded_witness :
  exists s', addTask true 6000 demo_sys = Done (true, s') /\ cores_ok s' [(5000, demo_list ++ [6000])].
Proof.
  destruct (addTask_least_loaded demo_sys [(5000, demo_list)] 6000 (demo_task 13) demo_cores)
    as (c & ptr & l & s' & Hc & _ & E & Hco & _); try reflexivity.
  destruct c as [|c]; [|discriminate Hc]. injection Hc as <- <-. exists s'. split; [exact E|exact Hco].
Defined.

Lemma swapper_can_be_removed_witness :
  exists s' q', removeTask 1 0 demo_sys = Done (true, s') /\ queues s' !! 5000 = Some q' /\
    repr true (m_tasks q') [2000; 3000; 4000].
Proof.
  apply (swapper_can_be_removed demo_sys 0 5000 demo_queue demo_list 2 (demo_task 1)).
  - apply demo_queue_ok.
  - apply demo_pids.
  - simpl. lia.
  - exists 1000. split; reflexivity.
  - reflexivity.
Defined.
