(* ===== verification/Layout.v ===== *)
(** * Bit-field layouts

    A C structure of bit fields (or of small integers inside a union with a raw word)
    is a list of named widths, lowest bit first, the way the compiler lays them out on
    this machine.  Reading and assigning a member are [fget] and [fset]. *)
From Stdlib Require Import ZArith Lia.
From stdpp Require Import base tactics numbers option list strings.
From S2P Require Import Prelude.

(** The declared type of the bit fields has [unit_bits] bits. *)
Record layout := mkLayout { unit_bits : Z; members : list (string * Z) }.

(** A bit field does not straddle two units: where it would, it starts the next one. *)
Definition place (u w o : Z) : Z := if u <? o mod u + w then (o / u + 1) * u else o.

Fixpoint place_at (u : Z) (l : list (string * Z)) (name : string) (o : Z) : option (Z * Z) :=
  match l with
  | [] => None
  | (n, w) :: l =>
      let o := place u w o in
      if String.eqb n name then Some (o, w) else place_at u l name (o + w)
  end.

Fixpoint end_of (u : Z) (l : list (string * Z)) (o : Z) : Z :=
  match l with
  | [] => o
  | (_, w) :: l => end_of u l (place u w o + w)
  end.

(** The bit offset and the width of a member. *)
Definition field (l : layout) (name : string) : option (Z * Z) :=
  place_at (unit_bits l) (members l) name 0.

(** [sizeof], in bytes: whole units. *)
Definition layout_size (l : layout) : Z :=
  let u := unit_bits l in ((end_of u (members l) 0 + u - 1) / u * u) / 8.

Definition fget (l : layout) (name : string) (v : Z) : Z :=
  match field l name with Some (o, w) => bf o w v | None => 0 end.

Definition fset (l : layout) (name : string) (v x : Z) : Z :=
  match field l name with Some (o, w) => bf_set o w v x | None => v end.

(** Several assignments in a row. *)
Definition fsets (l : layout) (v : Z) (xs : list (string * Z)) : Z :=
  foldl (fun v x => fset l (fst x) v (snd x)) v xs.

(** ** Structures of words

    A member has a size and an alignment in bytes. *)
Definition align_up (a o : Z) : Z := (o + a - 1) / a * a.

Fixpoint offset_at (l : list (string * (Z * Z))) (name : string) (o : Z) : option Z :=
  match l with
  | [] => None
  | (n, (sz, al)) :: l =>
      let o := align_up al o in
      if String.eqb n name then Some o else offset_at l name (o + sz)
  end.

Definition offset_of (l : list (string * (Z * Z))) (name : string) : option Z := offset_at l name 0.

Fixpoint struct_end (l : list (string * (Z * Z))) (o : Z) : Z :=
  match l with
  | [] => o
  | (_, (sz, al)) :: l => struct_end l (align_up al o + sz)
  end.

Definition sizeof (l : list (string * (Z * Z))) : Z :=
  align_up (foldr (fun m a => Z.max (snd (snd m)) a) 1 l) (struct_end l 0).

(** ** Dense layouts

    Members that fill the unit exactly. *)
Fixpoint field_at (l : list (string * Z)) (name : string) (o : Z) : option (Z * Z) :=
  match l with
  | [] => None
  | (n, w) :: l => if String.eqb n name then Some (o, w) else field_at l name (o + w)
  end.

Definition width (l : list (string * Z)) : Z := foldr (fun f acc => snd f + acc) 0 l.

(** Positive widths that add up to the unit, and no name twice. *)
Definition layout_ok (l : layout) : bool :=
  (width (members l) =? unit_bits l) && forallb (fun f => 0 <? snd f) (members l)
  && bool_decide (NoDup (fst <$> members l)).

(** The same as a proposition that proofs can use. *)
Record layout_wf (l : list (string * Z)) (n : Z) : Prop := {
  lw_width : width l = n;
  lw_pos : Forall (fun f => 0 < snd f) l;
  lw_nodup : NoDup (fst <$> l);
}.

Lemma layout_ok_wf l : layout_ok l = true -> layout_wf (members l) (unit_bits l).
Proof.
  unfold layout_ok. rewrite !andb_true_iff, Z.eqb_eq, bool_decide_eq_true.
  intros [[H1 H2] H3]. split; [done| |done].
  apply List.Forall_forall. intros f Hf. apply forallb_forall with (x := f) in H2; [|done]. lia.
Qed.

Lemma width_nonneg l : Forall (fun f => 0 < snd f) l -> 0 <= width l.
Proof. induction 1; simpl; lia. Qed.

Lemma field_at_range l name o p w :
  Forall (fun f => 0 < snd f) l -> field_at l name o = Some (p, w) ->
  o <= p /\ 0 < w /\ p + w <= o + width l.
Proof.
  intros Hl. revert o. induction Hl as [|[n v] l Hv Hl IH]; intros o; simpl; [done|].
  pose proof (width_nonneg l Hl). simpl in Hv. destruct (String.eqb n name).
  - intros [= <- <-]. lia.
  - intros E%IH. lia.
Qed.

Lemma field_at_some l name o : name ∈ fst <$> l -> exists f, field_at l name o = Some f.
Proof.
  revert o. induction l as [|[n w] l IH]; intros o; simpl; [by intros ?%not_elem_of_nil|].
  destruct (String.eqb_spec n name); [eauto|]. rewrite elem_of_cons. naive_solver.
Qed.

(** Two members do not overlap. *)
Lemma field_at_disjoint l o a b pa wa pb wb :
  Forall (fun f => 0 < snd f) l -> a <> b ->
  field_at l a o = Some (pa, wa) -> field_at l b o = Some (pb, wb) ->
  pa + wa <= pb \/ pb + wb <= pa.
Proof.
  intros Hl Hab. revert o. induction Hl as [|[n v] l Hv Hl IH]; intros o; simpl; [done|].
  destruct (String.eqb_spec n a) as [Ea|Ea]; destruct (String.eqb_spec n b) as [Eb|Eb].
  - congruence.
  - intros [= <- <-] H. apply field_at_range in H; [|done]. lia.
  - intros H [= <- <-]. apply field_at_range in H; [|done]. lia.
  - apply IH.
Qed.

(** Every bit of the word belongs to a member. *)
Lemma field_at_cover l o i :
  Forall (fun f => 0 < snd f) l -> NoDup (fst <$> l) -> o <= i < o + width l ->
  exists name p w, name ∈ fst <$> l /\ field_at l name o = Some (p, w) /\ p <= i < p + w.
Proof.
  intros Hl. revert o. induction Hl as [|[n v] l Hv Hl IH]; intros o Hnd Hi; simpl in *; [lia|].
  apply NoDup_cons in Hnd as [Hn Hnd]. destruct (decide (i < o + v)).
  - exists n, o, v. rewrite String.eqb_refl. split_and!; [by left|done|lia|lia].
  - destruct (IH (o + v)) as (m & p & w & Hm & Hp & Hr); [done|lia|].
    exists m, p, w. split_and!; [by right| |lia..].
    destruct (String.eqb_spec n m) as [E|]; [by rewrite E in Hn|done].
Qed.

(** In a dense layout no member is moved. *)
Lemma place_at_dense u l name o :
  Forall (fun f => 0 < snd f) l -> 0 <= o -> o + width l <= u -> place_at u l name o = field_at l name o.
Proof.
  intros Hl. revert o. induction Hl as [|[n w] l Hw Hl IH]; intros o Ho Hu; simpl in *; [done|].
  pose proof (width_nonneg l Hl).
  assert (place u w o = o) as ->.
  { unfold place. destruct (decide (o = u)); [lia|]. rewrite Z.mod_small by lia.
    destruct (Z.ltb_spec u (o + w)); lia. }
  destruct (String.eqb n name); [done|]. apply IH; lia.
Qed.

Section laws.
Context (l : layout) (Hok : layout_ok l = true).
Let n := unit_bits l.

#[local] Lemma Hl : layout_wf (members l) n.
Proof. by apply layout_ok_wf. Qed.

Lemma field_dense name : field l name = field_at (members l) name 0.
Proof. apply place_at_dense; [apply Hl|lia|]. rewrite (lw_width _ _ Hl). unfold n. lia. Qed.

Lemma fget_fset_same name v x :
  name ∈ fst <$> members l ->
  exists o w, field l name = Some (o, w) /\ fget l name (fset l name v x) = x mod 2 ^ w.
Proof.
  intros [[o w] H]%(field_at_some (members l) name 0). exists o, w. unfold fget, fset.
  rewrite field_dense, H. split; [done|]. apply field_at_range in H; [|apply Hl]. apply bf_set_same; lia.
Qed.

Lemma fget_fset_other a b v x : a <> b -> fget l b (fset l a v x) = fget l b v.
Proof.
  intros Hab. unfold fget, fset. rewrite !field_dense.
  destruct (field_at (members l) a 0) as [[oa wa]|] eqn:Ea; [|done].
  destruct (field_at (members l) b 0) as [[ob wb]|] eqn:Eb; [|done].
  pose proof (field_at_disjoint (members l) 0 a b _ _ _ _ (lw_pos _ _ Hl) Hab Ea Eb).
  apply field_at_range in Ea; [|apply Hl]. apply field_at_range in Eb; [|apply Hl].
  apply bf_set_other; lia.
Qed.

Lemma fset_range name v x : 0 <= v < 2 ^ n -> 0 <= fset l name v x < 2 ^ n.
Proof.
  intros Hv. unfold fset. rewrite field_dense. destruct (field_at (members l) name 0) as [[o w]|] eqn:E; [|done].
  apply field_at_range in E; [|apply Hl]. rewrite (lw_width _ _ Hl) in E. apply bf_set_range; lia.
Qed.

Lemma fget_range name v :
  name ∈ fst <$> members l -> exists o w, field l name = Some (o, w) /\ 0 <= fget l name v < 2 ^ w.
Proof.
  intros [[o w] H]%(field_at_some (members l) name 0). exists o, w. unfold fget.
  rewrite field_dense, H. split; [done|].
  apply field_at_range in H; [|apply Hl]. apply bf_range. lia.
Qed.

Lemma bf_testbit o w v i : 0 <= o -> 0 <= w -> 0 <= i < w -> Z.testbit (bf o w v) i = Z.testbit v (o + i).
Proof.
  intros Ho Hw Hi. unfold bf. rewrite Z.land_spec, shiftr_testbit, testbit_ones by lia.
  destruct (Z.leb_spec 0 i); [|lia]. destruct (Z.ltb_spec i w); [|lia]. simpl.
  rewrite andb_true_r. f_equal. lia.
Qed.

(** A word is determined by its members. *)
Lemma fget_ext v v' :
  0 <= v < 2 ^ n -> 0 <= v' < 2 ^ n ->
  (forall name, name ∈ fst <$> members l -> fget l name v = fget l name v') -> v = v'.
Proof.
  intros Hv Hv' H. pose proof (width_nonneg (members l) (lw_pos _ _ Hl)) as Hw. rewrite (lw_width _ _ Hl) in Hw.
  assert (forall u, 0 <= u < 2 ^ n -> forall i, n <= i -> Z.testbit u i = false) as Hhigh.
  { intros u Hu i Hi. destruct (decide (u = 0)) as [->|]; [apply Z.testbit_0_l|].
    apply Z.bits_above_log2; [lia|]. apply Z.log2_lt_pow2; [lia|].
    apply Z.lt_le_trans with (2 ^ n); [lia|]. apply Z.pow_le_mono_r; lia. }
  apply Z.bits_inj'. intros i Hi. destruct (decide (i < n)) as [Hin|]; [|by rewrite !Hhigh by lia].
  destruct (field_at_cover (members l) 0 i) as (name & o & w & Hn & E & Hr);
    [apply Hl|apply Hl|rewrite (lw_width _ _ Hl); lia|].
  specialize (H name Hn). unfold fget in H. rewrite field_dense, E in H.
  apply field_at_range in E; [|apply Hl].
  assert (Z.testbit (bf o w v) (i - o) = Z.testbit (bf o w v') (i - o)) as Hb by (by rewrite H).
  rewrite !bf_testbit in Hb by lia. by replace (o + (i - o)) with i in Hb by lia.
Qed.
End laws.
