(* ===== verification/XhciRegs.v ===== *)
(** * The data structures of the USB host controller (kernel/src/drivers/usb/xhci.h)

    The registers, contexts and transfer request blocks that the driver shares with the
    controller, as layouts: one definition per word with the members of the header, in
    its order. *)
From Stdlib Require Import ZArith Lia.
From stdpp Require Import base tactics numbers option list strings.
From S2P Require Import Prelude Layout.

#[local] Open Scope string_scope.

(** ** Transfer request blocks *)
Definition trb_control : layout := mkLayout 32
  [("cycleBit", 1); ("evalNextTrb", 1); ("interruptOnShortPkt", 1); ("noSnoop", 1); ("chainBit", 1);
   ("interruptOnCompletion", 1); ("immediateData", 1); ("rsvd0", 2); ("blockEventInterrupt", 1);
   ("trbType", 6); ("rsvd1", 16)].

Definition address_device_control : layout := mkLayout 32
  [("cycleBit", 1); ("rsvd1", 8); ("bsr", 1); ("trbType", 6); ("rsvd2", 8); ("slotId", 8)].

Definition command_completion_status : layout := mkLayout 32 [("rsvd0", 24); ("completionCode", 8)].
Definition command_completion_control : layout := mkLayout 32
  [("cycleBit", 1); ("rsvd1", 9); ("trbType", 6); ("vfid", 8); ("slotId", 8)].

Definition stage_completion_status : layout := mkLayout 32 [("bytesTransfered", 24); ("completionCode", 8)].
Definition stage_completion_control : layout := mkLayout 32
  [("cycleBit", 1); ("rsvd1", 9); ("trbType", 6); ("vfid", 8); ("slotId", 8)].

Definition port_status_change_parameter : layout := mkLayout 32 [("rsvd0", 24); ("portId", 8)].
Definition port_status_change_status : layout := mkLayout 32 [("rsvd2", 24); ("completionCode", 8)].
Definition port_status_change_control : layout := mkLayout 32
  [("cycleBit", 1); ("rsvd3", 9); ("trbType", 6); ("rsvd4", 16)].

Definition device_request_type : layout := mkLayout 8
  [("recipient", 5); ("type", 2); ("transferDirection", 1)].

(** The request packet is the 64-bit parameter of a setup stage block. *)
Definition device_request_packet : layout := mkLayout 64
  [("bRequestType", 8); ("bRequest", 8); ("wValue", 16); ("wIndex", 16); ("wLength", 16)].

Definition setup_stage_status : layout := mkLayout 32
  [("trbTransferLength", 17); ("rsvd0", 5); ("interrupterTarget", 10)].
Definition setup_stage_control : layout := mkLayout 32
  [("cycleBit", 1); ("rsvd1", 4); ("ioc", 1); ("idt", 1); ("rsvd2", 3); ("trbType", 6); ("trt", 2);
   ("rsvd3", 14)].

Definition data_stage_status : layout := mkLayout 32
  [("trbTransferLength", 17); ("tdSize", 5); ("interrupterTarget", 10)].
Definition data_stage_control : layout := mkLayout 32
  [("cycleBit", 1); ("ent", 1); ("isp", 1); ("noSnoop", 1); ("chain", 1); ("ioc", 1); ("idt", 1);
   ("rsvd0", 3); ("trbType", 6); ("dir", 1); ("rsvd1", 15)].

Definition status_stage_status : layout := mkLayout 32 [("rsvd1", 22); ("interrupterTarget", 10)].
Definition status_stage_control : layout := mkLayout 32
  [("cycleBit", 1); ("ent", 1); ("rsvd2", 2); ("chain", 1); ("ioc", 1); ("rsvd3", 4); ("trbType", 6);
   ("dir", 1); ("rsvd4", 15)].

Definition event_data_status : layout := mkLayout 32 [("rsvd0", 22); ("interrupterTarget", 10)].
Definition event_data_control : layout := mkLayout 32
  [("cycleBit", 1); ("ent", 1); ("rsvd1", 2); ("chain", 1); ("ioc", 1); ("rsvd2", 3); ("bei", 1);
   ("trbType", 6); ("rsvd3", 16)].

(** ** Registers *)
Definition extended_capability_entry : layout := mkLayout 32 [("id", 8); ("next", 8); ("capSpecific", 16)].

Definition iman_register : layout := mkLayout 32
  [("interruptPending", 1); ("interruptEnabled", 1); ("reserved", 30)].

Definition erdp_register : layout := mkLayout 64
  [("dequeueErstSegmentIndex", 3); ("eventHandlerBusy", 1); ("eventRingDequeuePointer", 60)].

Definition portsc_register : layout := mkLayout 32
  [("ccs", 1); ("ped", 1); ("rsvd0", 1); ("oca", 1); ("pr", 1); ("pls", 4); ("pp", 1); ("portSpeed", 4);
   ("pic", 2); ("lws", 1); ("csc", 1); ("pec", 1); ("wrc", 1); ("occ", 1); ("prc", 1); ("plc", 1);
   ("cec", 1); ("cas", 1); ("wce", 1); ("wde", 1); ("woe", 1); ("rsvd1", 2); ("dr", 1); ("wpr", 1)].

Definition portpmsc_usb2 : layout := mkLayout 32
  [("l1Status", 3); ("remoteWakeEnable", 1); ("hostInitiatedResumeDuration", 4); ("l1DeviceSlot", 8);
   ("hardwareLpmEnable", 1); ("rsvd", 11); ("portTestControl", 4)].
Definition portpmsc_usb3 : layout := mkLayout 32
  [("u1Timeout", 8); ("u2Timeout", 8); ("forceLinkPmAccept", 1); ("rsvd", 15)].
Definition portli_register : layout := mkLayout 32
  [("linkErrorCount", 16); ("rxLaneCount", 4); ("txLaneCount", 4); ("rsvd", 8)].
Definition porthlpmc_usb2 : layout := mkLayout 32
  [("hirdm", 2); ("l1Timeout", 8); ("besld", 4); ("rsvd", 18)].
Definition porthlpmc_usb3 : layout := mkLayout 32 [("linkSoftErrorCount", 16); ("rsvd", 16)].
Definition doorbell_register : layout := mkLayout 32 [("dbTarget", 8); ("rsvd", 8); ("dbStreamId", 16)].

Definition protocol_dword0 : layout := mkLayout 32
  [("id", 8); ("next", 8); ("minorRevisionVersion", 8); ("majorRevisionVersion", 8)].
Definition protocol_dword2 : layout := mkLayout 32
  [("compatiblePortOffset", 8); ("compatiblePortCount", 8); ("protocolDefined", 8);
   ("protocolSpeedIdCount", 8)].
Definition protocol_dword3 : layout := mkLayout 32 [("slotType", 4); ("reserved", 28)].

(** ** Contexts *)
Definition slot_dword0 : layout := mkLayout 32
  [("routeString", 20); ("speed", 4); ("rz", 1); ("mtt", 1); ("hub", 1); ("contextEntries", 5)].
Definition slot_dword1 : layout := mkLayout 32
  [("maxExitLatency", 16); ("rootHubPortNum", 8); ("portCount", 8)].
Definition slot_dword2 : layout := mkLayout 32
  [("parentHubSlotId", 8); ("parentPortNumber", 8); ("ttThinkTime", 2); ("rsvd0", 4);
   ("interrupterTarget", 10)].
Definition slot_dword3 : layout := mkLayout 32 [("deviceAddress", 8); ("rsvd1", 19); ("slotState", 5)].

Definition endpoint_dword0 : layout := mkLayout 32
  [("endpointState", 3); ("rsvd0", 7); ("mult", 2); ("maxPrimaryStreams", 5); ("linearStreamArray", 1);
   ("interval", 8); ("maxEsitPayloadHi", 8)].
Definition endpoint_dword1 : layout := mkLayout 32
  [("rsvd1", 1); ("errorCount", 2); ("endpointType", 3); ("rsvd2", 1); ("hostInitiateDisable", 1);
   ("maxBurstSize", 8); ("maxPacketSize", 16)].
Definition endpoint_dequeue : layout := mkLayout 64
  [("dcs", 1); ("rsvd3", 3); ("trDequeuePtrAddressBits", 60)].
Definition endpoint_dword4 : layout := mkLayout 32 [("averageTrbLength", 16); ("maxEsitPayloadLo", 16)].

(** ** Structures: members with their size and alignment *)
Definition XhciTrb_t := [("parameter", (8, 8)); ("status", (4, 4)); ("control", (4, 4))].
Definition XhciErstEntry :=
  [("ringSegmentBaseAddress", (8, 1)); ("ringSegmentSize", (4, 1)); ("rsvd", (4, 1))].

Definition XhciSlotContext32 :=
  [("dword0", (layout_size slot_dword0, 1)); ("dword1", (layout_size slot_dword1, 1));
   ("dword2", (layout_size slot_dword2, 1)); ("dword3", (layout_size slot_dword3, 1)); ("rsvdZ", (16, 1))].
Definition XhciSlotContext64 := [("ctx32", (sizeof XhciSlotContext32, 1)); ("rsvd", (32, 4))].

Definition XhciEndpointContext32 :=
  [("dword0", (layout_size endpoint_dword0, 4)); ("dword1", (layout_size endpoint_dword1, 4));
   ("transferRingDequeuePtr", (layout_size endpoint_dequeue, 8)); ("dword4", (layout_size endpoint_dword4, 4))].
Definition XhciEndpointContext64 := [("ctx32", (sizeof XhciEndpointContext32, 8)); ("rsvd", (32, 4))].

Definition XhciDeviceContext32 :=
  [("slotContext", (sizeof XhciSlotContext32, 1)); ("controlEndpointContext", (sizeof XhciEndpointContext32, 8));
   ("ep", (30 * sizeof XhciEndpointContext32, 8))].
Definition XhciDeviceContext64 :=
  [("slotContext", (sizeof XhciSlotContext64, 4)); ("controlEndpointContext", (sizeof XhciEndpointContext64, 8));
   ("ep", (30 * sizeof XhciEndpointContext64, 8))].

Definition XhciInputControlContext32 :=
  [("dropFlags", (4, 1)); ("addFlags", (4, 1)); ("rsvd", (20, 1)); ("configValue", (1, 1));
   ("interfaceNumber", (1, 1)); ("alternateSetting", (1, 1)); ("rsvdZ", (1, 1))].
Definition XhciInputControlContext64 := [("ctx32", (sizeof XhciInputControlContext32, 1)); ("rsvd", (32, 4))].
Definition XhciInputContext32 :=
  [("controlContext", (sizeof XhciInputControlContext32, 1)); ("deviceContext", (sizeof XhciDeviceContext32, 8))].
Definition XhciInputContext64 :=
  [("controlContext", (sizeof XhciInputControlContext64, 4)); ("deviceContext", (sizeof XhciDeviceContext64, 8))].

Definition XhciCapabilityRegisters :=
  [("caplength", (1, 1)); ("reserved0", (1, 1)); ("hciversion", (2, 2)); ("hcsparams1", (4, 4));
   ("hcsparams2", (4, 4)); ("hcsparams3", (4, 4)); ("hccparams1", (4, 4)); ("dboff", (4, 4));
   ("rtsoff", (4, 4)); ("hccparams2", (4, 4))].
Definition XhciOperationalRegisters :=
  [("usbcmd", (4, 4)); ("usbsts", (4, 4)); ("pagesize", (4, 4)); ("reserved0", (8, 4)); ("dnctrl", (4, 4));
   ("crcr", (8, 8)); ("reserved1", (16, 4)); ("dcbaap", (8, 8)); ("config", (4, 4)); ("reserved2", (196, 4))].
Definition XhciInterrupterRegisters :=
  [("iman", (4, 4)); ("imod", (4, 4)); ("erstsz", (4, 4)); ("rsvdP", (4, 4)); ("erstba", (8, 8));
   ("erdp", (layout_size erdp_register, 8))].
Definition XhciRuntimeRegisters :=
  [("mfIndex", (4, 4)); ("rsvdZ", (28, 4)); ("ir", (1024 * sizeof XhciInterrupterRegisters, 8))].

(** ** Checks *)

(** The words of the header whose members fill them exactly. *)
Definition xhci_words : list layout :=
  [trb_control; address_device_control; command_completion_status; command_completion_control;
   stage_completion_status; stage_completion_control; port_status_change_parameter;
   port_status_change_status; port_status_change_control; device_request_type; device_request_packet;
   setup_stage_status; setup_stage_control; data_stage_status; data_stage_control; status_stage_status;
   status_stage_control; event_data_status; event_data_control; extended_capability_entry; iman_register;
   erdp_register; portsc_register; portpmsc_usb2; portpmsc_usb3; portli_register; porthlpmc_usb2;
   porthlpmc_usb3; doorbell_register; protocol_dword0; protocol_dword2; protocol_dword3; slot_dword0;
   slot_dword1; slot_dword2; slot_dword3; endpoint_dword1; endpoint_dequeue; endpoint_dword4].

Lemma xhci_words_ok : Forall (fun l => layout_ok l = true) xhci_words.
Proof. repeat constructor. Qed.

Lemma xhci_word_ok l : l ∈ xhci_words -> layout_ok l = true.
Proof. intros H. exact (proj1 (Forall_forall _ _) xhci_words_ok l H). Qed.

(** Every word that the driver shares with the controller, except the first
    of the endpoint context, is a faithful record of its members: assigning a member
    stores the value truncated to its width, changes no other member and stays inside
    the word, and two words with equal members are equal. *)
Theorem xhci_words_faithful l :
  l ∈ xhci_words ->
  (forall name v x, name ∈ fst <$> members l ->
   exists o w, field l name = Some (o, w) /\ fget l name (fset l name v x) = x mod 2 ^ w) /\
  (forall a b v x, a <> b -> fget l b (fset l a v x) = fget l b v) /\
  (forall name v x, 0 <= v < 2 ^ unit_bits l -> 0 <= fset l name v x < 2 ^ unit_bits l) /\
  (forall v v', 0 <= v < 2 ^ unit_bits l -> 0 <= v' < 2 ^ unit_bits l ->
   (forall name, name ∈ fst <$> members l -> fget l name v = fget l name v') -> v = v').
Proof.
  intros H%xhci_word_ok. split_and!.
  - by apply fget_fset_same.
  - by apply fget_fset_other.
  - by apply fset_range.
  - by apply fget_ext.
Qed.

Lemma xhci_words_faithful_witness :
  fget trb_control "trbType" (fset trb_control "trbType" 0x1401 9) = 9 /\
  fget trb_control "cycleBit" (fset trb_control "trbType" 0x1401 9) = 1.
Proof.
  destruct (xhci_words_faithful trb_control) as (H1 & H2 & _ & _).
  - apply elem_of_cons. left. reflexivity.
  - split.
    + destruct (H1 "trbType" 0x1401 9) as (o & w & E & R).
      * refine (bool_decide_unpack _ _). reflexivity.
      * rewrite R. injection E as <- <-. reflexivity.
    + rewrite H2; [reflexivity|discriminate].
Defined.

(** The sizes that the header asserts hold in the model too.  The endpoint
    context has its 32 bytes only because its first word is not a word: the widths of
    its members add up to 34 bits, so the compiler moves [maxEsitPayloadHi] to a second
    unit, [interval] is two bits too high, the second word is at byte 8 instead of 4
    and the dequeue pointer of the transfer ring at byte 16 instead of 8. *)
Theorem context_layout :
  sizeof XhciTrb_t = 16 /\ sizeof XhciSlotContext32 = 32 /\ sizeof XhciSlotContext64 = 64 /\
  sizeof XhciEndpointContext32 = 32 /\ sizeof XhciEndpointContext64 = 64 /\
  sizeof XhciDeviceContext32 = 1024 /\ sizeof XhciDeviceContext64 = 2048 /\
  sizeof XhciInputControlContext32 = 32 /\ sizeof XhciInputControlContext64 = 64 /\
  sizeof XhciInputContext32 = 32 + 1024 /\ sizeof XhciInputContext64 = 64 + 2048 /\
  sizeof XhciCapabilityRegisters = 32 /\ offset_of XhciRuntimeRegisters "ir" = Some 0x20 /\
  offset_of XhciOperationalRegisters "config" = Some 0x38 /\
  width (members endpoint_dword0) = 34 /\ layout_ok endpoint_dword0 = false /\
  field endpoint_dword0 "interval" = Some (18, 8) /\
  field endpoint_dword0 "maxEsitPayloadHi" = Some (32, 8) /\
  offset_of XhciEndpointContext32 "dword1" = Some 8 /\
  offset_of XhciEndpointContext32 "transferRingDequeuePtr" = Some 16.
Proof. repeat split. Qed.
