(* ===== verification/XhciRing.v ===== *)
(** * The rings of the USB host controller (kernel/src/drivers/usb/xhci.cpp)

    Command and transfer rings, which the driver fills, and the event ring, which it
    drains.  A ring is the list of its transfer request blocks; its address is what
    [_allocXhciMemory] returns. *)
From Stdlib Require Import ZArith Lia.
From stdpp Require Import base tactics numbers option list strings.
From S2P Require Import Prelude PageFrame KVector Layout XhciRegs.

#[local] Open Scope string_scope.
#[local] Open Scope list_scope.
#[local] Open Scope Z_scope.

Record trb := mkTrb { parameter : Z; status : Z; control : Z }.

#[export] Instance trb_eq_dec : EqDecision trb.
Proof. solve_decision. Defined.

Definition zero_trb : trb := mkTrb 0 0 0.
Definition set_control (t : trb) (c : Z) : trb := mkTrb (parameter t) (status t) c.
Definition cycleBit (t : trb) : Z := fget trb_control "cycleBit" (control t).
Definition trbType (t : trb) : Z := fget trb_control "trbType" (control t).
Definition set_cycleBit (t : trb) (b : Z) : trb := set_control t (fset trb_control "cycleBit" (control t) b).

Definition XHCI_TRB_TYPE_SHIFT : Z := 10.
Definition XHCI_TRB_TYPE_LINK : Z := 6.
Definition XHCI_TRB_TYPE_ENABLE_SLOT_CMD : Z := 9.
Definition XHCI_TRB_TYPE_ADDRESS_DEVICE_CMD : Z := 11.
Definition XHCI_TRB_TYPE_CMD_COMPLETION_EVENT : Z := 33.
Definition XHCI_TRB_TYPE_PORT_STATUS_CHANGE_EVENT : Z := 34.
Definition XHCI_TRB_TOGGLE_CYCLE : Z := 0x2.
Definition XHCI_CRCR_RING_CYCLE_STATE : Z := Z.shiftl 1 0.
Definition XHCI_COMMAND_RING_TRB_COUNT : nat := 256.
Definition XHCI_EVENT_RING_TRB_COUNT : nat := 256.
Definition XHCI_TRANSFER_RING_TRB_COUNT : nat := 256.

(** [XhciTrb_t { .parameter = 0, .status = 0, .control = type << XHCI_TRB_TYPE_SHIFT }] *)
Definition XHCI_CONSTRUCT_CMD_TRB (type : Z) : trb := mkTrb 0 0 (Z.shiftl type XHCI_TRB_TYPE_SHIFT).

(** [!bit] on a [uint8_t] *)
Definition flip (b : Z) : Z := if b =? 0 then 1 else 0.

(** ** Rings that the driver fills *)

(** [ring[i] = t]: a fault outside the ring *)
Definition ring_store (ring : list trb) (i : nat) (t : trb) : outcome (list trb) :=
  _ ← need (ring !! i); Done (<[i := t]> ring).

(** A zeroed ring whose last block links back to the first; the index of the link is
    the constant 255. *)
Definition linked_ring (maxTrbs : nat) (base bit : Z) : outcome (list trb) :=
  ring_store (replicate maxTrbs zero_trb) 255
    (mkTrb base 0 (Z.lor (Z.shiftl XHCI_TRB_TYPE_LINK 10) bit)).

Record XhciCommandRing := mkCommandRing {
  cr_maxTrbCount : nat;
  cr_enqueuePtr : nat;
  cr_trbRing : list trb;
  cr_physicalRingBase : Z;
  cr_rcsBit : Z;        (** [uint8_t] *)
}.

(** [off] is the kernel alias of physical memory, [mem] the address of the ring. *)
Definition command_ring_new (off mem : Z) (maxTrbs : nat) : outcome XhciCommandRing :=
  let base := virtToPhysAddr off mem in
  ring ← linked_ring maxTrbs base XHCI_CRCR_RING_CYCLE_STATE;
  Done (mkCommandRing maxTrbs 0 ring base XHCI_CRCR_RING_CYCLE_STATE).

(** The ring and the caller's block, whose cycle bit is set. *)
Definition command_enqueue (r : XhciCommandRing) (t : trb) : outcome (XhciCommandRing * trb) :=
  let t := set_cycleBit t (cr_rcsBit r) in
  ring ← ring_store (cr_trbRing r) (cr_enqueuePtr r) t;
  let p := S (cr_enqueuePtr r) in
  let wrap := (p =? cr_maxTrbCount r - 1)%nat in
  Done (mkCommandRing (cr_maxTrbCount r) (if wrap then 0 else p) ring (cr_physicalRingBase r)
          (if wrap then flip (cr_rcsBit r) else cr_rcsBit r), t).

Record XhciTransferRing := mkTransferRing {
  tr_maxTrbCount : nat;
  tr_dequeuePtr : nat;
  tr_enqueuePtr : nat;
  tr_trbRing : list trb;
  tr_physicalRingBase : Z;
  tr_dcsBit : Z;
  tr_doorbellId : Z;
}.

Definition transfer_ring_new (off mem : Z) (maxTrbs : nat) (doorbellId : Z) : outcome XhciTransferRing :=
  let base := virtToPhysAddr off mem in
  ring ← linked_ring maxTrbs base 1;
  Done (mkTransferRing maxTrbs 0 0 ring base 1 doorbellId).

Definition transfer_enqueue (r : XhciTransferRing) (t : trb) : outcome (XhciTransferRing * trb) :=
  let t := set_cycleBit t (tr_dcsBit r) in
  ring ← ring_store (tr_trbRing r) (tr_enqueuePtr r) t;
  let p := S (tr_enqueuePtr r) in
  let wrap := (p =? tr_maxTrbCount r - 1)%nat in
  Done (mkTransferRing (tr_maxTrbCount r) (tr_dequeuePtr r) (if wrap then 0 else p) ring
          (tr_physicalRingBase r) (if wrap then flip (tr_dcsBit r) else tr_dcsBit r) (tr_doorbellId r), t).

(** Several commands in a row. *)
Fixpoint command_enqueue_all (r : XhciCommandRing) (ts : list trb) : outcome XhciCommandRing :=
  match ts with
  | [] => Done r
  | t :: ts => x ← command_enqueue r t; command_enqueue_all (fst x) ts
  end.

(** ** The event ring *)
Record XhciEventRing := mkEventRing {
  er_segmentTrbCount : nat;
  er_primarySegmentRing : list trb;
  er_segmentBase : Z;                  (** address of the segment *)
  er_primarySegmentPhysicalBase : Z;
  er_segmentTable : list (Z * Z * Z);  (** base address, size, reserved *)
  er_segmentTablePhysicalBase : Z;
  er_dequeuePtr : nat;
  er_rcsBit : Z;
}.

(** The registers of the primary interrupter that the ring writes. *)
Record interrupter := mkInterrupter { iman : Z; erstsz : Z; erstba : Z; erdp : Z }.

Definition _updateErdpInterrupterRegister (r : XhciEventRing) (ir : interrupter) : interrupter :=
  mkInterrupter (iman ir) (erstsz ir) (erstba ir)
    (er_primarySegmentPhysicalBase r ⊞ (Z.of_nat (er_dequeuePtr r) ⊠ 16)).

Definition event_ring_new (off segment table : Z) (maxTrbs : nat) (ir : interrupter)
  : XhciEventRing * interrupter :=
  let base := virtToPhysAddr off segment in
  let r := mkEventRing maxTrbs (replicate maxTrbs zero_trb) segment base
             [(base, Z.of_nat XHCI_EVENT_RING_TRB_COUNT, 0)] (virtToPhysAddr off table)
             0 XHCI_CRCR_RING_CYCLE_STATE in
  let ir := mkInterrupter (iman ir) 1 (erstba ir) (erdp ir) in
  let ir := _updateErdpInterrupterRegister r ir in
  (r, mkInterrupter (iman ir) (erstsz ir) (er_segmentTablePhysicalBase r) (erdp ir)).

Definition hasUnprocessedEvents (r : XhciEventRing) : outcome bool :=
  t ← need (er_primarySegmentRing r !! er_dequeuePtr r); Done (cycleBit t =? er_rcsBit r).

(** [&m_primarySegmentRing[i]] *)
Definition event_trb_ptr (r : XhciEventRing) (i : nat) : Z := er_segmentBase r + 16 * Z.of_nat i.

(** [None] is the null pointer. *)
Definition _dequeueTrb (r : XhciEventRing) : outcome (option Z * XhciEventRing) :=
  t ← need (er_primarySegmentRing r !! er_dequeuePtr r);
  if negb (cycleBit t =? er_rcsBit r) then Done (None, r)
  else
    let p := S (er_dequeuePtr r) in
    let wrap := (p =? er_segmentTrbCount r)%nat in
    Done (Some (event_trb_ptr r (er_dequeuePtr r)),
          mkEventRing (er_segmentTrbCount r) (er_primarySegmentRing r) (er_segmentBase r)
            (er_primarySegmentPhysicalBase r) (er_segmentTable r) (er_segmentTablePhysicalBase r)
            (if wrap then 0 else p) (if wrap then flip (er_rcsBit r) else er_rcsBit r)).

(** The loop of [dequeueEvents]; the vector of events is the list of their addresses. *)
Definition dequeue_body (st : XhciEventRing * list Z)
  : outcome (XhciEventRing * list Z + XhciEventRing * list Z) :=
  let '(r, evs) := st in
  b ← hasUnprocessedEvents r;
  if (b : bool) then
    x ← _dequeueTrb r;
    match fst x with
    | None => Done (inr (snd x, evs))
    | Some p => Done (inl (snd x, evs ++ [p]))
    end
  else Done (inr (r, evs)).

Definition dequeueEvents (r : XhciEventRing) (evs : list Z) (ir : interrupter)
  : outcome (XhciEventRing * list Z * interrupter) :=
  x ← loop (S (S (er_segmentTrbCount r))) dequeue_body (r, evs);
  let '(r, evs) := x in
  Done (r, evs, _updateErdpInterrupterRegister r ir).

Definition flush_body (r : XhciEventRing) : outcome (XhciEventRing + XhciEventRing) :=
  b ← hasUnprocessedEvents r;
  if (b : bool) then x ← _dequeueTrb r; Done (inl (snd x)) else Done (inr r).

Definition flushUnprocessedEvents (r : XhciEventRing) (ir : interrupter)
  : outcome (XhciEventRing * interrupter) :=
  r ← loop (S (S (er_segmentTrbCount r))) flush_body r;
  Done (r, _updateErdpInterrupterRegister r ir).

(** ** The command ring *)

(** The block a command of lap [j] occupies. *)
Definition lap_bit (k n : nat) : Z := if Nat.even (k / n) then 1 else 0.

Lemma flip_lap k n : flip (lap_bit k n) = if Nat.even (k / n) then 0 else 1.
Proof. unfold lap_bit. by destruct (Nat.even (k / n)). Qed.

(** Positions advance modulo the number of usable blocks. *)
Lemma lap_step k n :
  (0 < n)%nat ->
  (if (S (k mod n) =? n)%nat then 0 else S (k mod n))%nat = (S k mod n)%nat /\
  (if (S (k mod n) =? n)%nat then flip (lap_bit k n) else lap_bit k n) = lap_bit (S k) n.
Proof.
  intros Hn. pose proof (Nat.mod_upper_bound k n). pose proof (Nat.div_mod_eq k n) as E.
  rewrite flip_lap. destruct (Nat.eqb_spec (S (k mod n)) n) as [Ew|Ew].
  - assert (S k = n * S (k / n) + 0)%nat as E' by lia.
    assert (S k mod n = 0)%nat as -> by (symmetry; eapply Nat.mod_unique; [|exact E']; lia).
    assert (S k / n = S (k / n))%nat as Ed by (symmetry; eapply Nat.div_unique; [|exact E']; lia).
    split; [done|]. unfold lap_bit. rewrite Ed, Nat.even_succ, <- Nat.negb_even.
    by destruct (Nat.even (k / n)).
  - assert (S k = n * (k / n) + S (k mod n))%nat as E' by lia.
    assert (S k mod n = S (k mod n))%nat as -> by (symmetry; eapply Nat.mod_unique; [|exact E']; lia).
    assert (S k / n = k / n)%nat as Ed by (symmetry; eapply Nat.div_unique; [|exact E']; lia).
    split; [done|]. unfold lap_bit. by rewrite Ed.
Qed.

Definition link_trb (base : Z) : trb := mkTrb base 0 0x1801.

(** The ring after [k] commands [ts] on a fresh one. *)
Record command_ring_at (base : Z) (ts : list trb) (r : XhciCommandRing) : Prop := {
  ca_max : cr_maxTrbCount r = 256%nat;
  ca_len : length (cr_trbRing r) = 256%nat;
  ca_ptr : cr_enqueuePtr r = (length ts mod 255)%nat;
  ca_bit : cr_rcsBit r = lap_bit (length ts) 255;
  ca_base : cr_physicalRingBase r = base;
  ca_link : cr_trbRing r !! 255%nat = Some (link_trb base);
  ca_trbs : forall i t, ts !! i = Some t -> (length ts <= i + 255)%nat ->
    cr_trbRing r !! (i mod 255)%nat = Some (set_cycleBit t (lap_bit i 255));
}.

Lemma command_ring_fresh off mem :
  exists r, command_ring_new off mem XHCI_COMMAND_RING_TRB_COUNT = Done r /\
            command_ring_at (virtToPhysAddr off mem) [] r.
Proof.
  eexists. split; [reflexivity|]. split; try reflexivity. intros i t. by rewrite lookup_nil.
Qed.

Lemma mod_neq i k : (i < k)%nat -> (k < i + 255)%nat -> (i mod 255 <> k mod 255)%nat.
Proof.
  intros H1 H2 E. pose proof (Nat.div_mod_eq i 255). pose proof (Nat.div_mod_eq k 255).
  pose proof (Nat.mod_upper_bound i 255). lia.
Qed.

Lemma command_enqueue_at base ts r t :
  command_ring_at base ts r ->
  exists r', command_enqueue r t = Done (r', set_cycleBit t (lap_bit (length ts) 255)) /\
             command_ring_at base (ts ++ [t]) r'.
Proof.
  intros [Hm Hlen Hp Hb Hbase Hlink Hts].
  pose proof (Nat.mod_upper_bound (length ts) 255) as Hlt.
  unfold command_enqueue, ring_store. rewrite Hp, Hb, Hm. cbn [Nat.sub].
  destruct (lookup_lt_is_Some_2 (cr_trbRing r) (length ts mod 255)) as [old Hold]; [lia|].
  rewrite Hold. simpl. destruct (lap_step (length ts) 255) as [E1 E2]; [lia|].
  eexists. split; [reflexivity|].
  split; simpl; rewrite ?length_app; simpl; rewrite ?Nat.add_1_r; try done.
  - by rewrite length_insert.
  - rewrite list_lookup_insert_ne by lia. done.
  - intros i t' Ht' Hi. rewrite lookup_snoc_Some in Ht'. destruct Ht' as [[Hil Ht']|[-> ->]].
    + rewrite list_lookup_insert_ne; [apply Hts; [done|lia]|].
      apply not_eq_sym, mod_neq; lia.
    + rewrite list_lookup_insert_eq by lia. done.
Qed.

Lemma command_enqueue_all_at base ts us r :
  command_ring_at base us r ->
  exists r', command_enqueue_all r ts = Done r' /\ command_ring_at base (us ++ ts) r'.
Proof.
  revert us r. induction ts as [|t ts IH]; intros us r Hr; simpl.
  { exists r. by rewrite app_nil_r. }
  destruct (command_enqueue_at base us r t Hr) as (r1 & -> & Hr1). simpl.
  destruct (IH _ _ Hr1) as (r2 & -> & Hr2). exists r2. split; [done|]. by rewrite <- app_assoc in Hr2.
Qed.

(** C17 (functional): the command ring is a correct cyclic buffer of 255 blocks.  After any
    number of commands on a new ring, the last 255 of them are in the ring in order,
    command [i] in block [i mod 255] with the cycle bit of its lap, 1 on even laps and 0
    on odd ones, the next free block and the producer's cycle bit are those of the next
    command, and the link block still points to the start. *)
Theorem command_ring_contents off mem ts :
  exists r0 r, command_ring_new off mem XHCI_COMMAND_RING_TRB_COUNT = Done r0 /\
    command_enqueue_all r0 ts = Done r /\
    cr_enqueuePtr r = (length ts mod 255)%nat /\ cr_rcsBit r = lap_bit (length ts) 255 /\
    (forall i t, ts !! i = Some t -> (length ts <= i + 255)%nat ->
     cr_trbRing r !! (i mod 255)%nat = Some (set_cycleBit t (lap_bit i 255))) /\
    cr_trbRing r !! 255%nat = Some (link_trb (virtToPhysAddr off mem)).
Proof.
  destruct (command_ring_fresh off mem) as (r0 & E0 & H0).
  destruct (command_enqueue_all_at _ ts [] r0 H0) as (r & E & [Hm Hlen Hp Hb Hbase Hlink Hts]).
  exists r0, r. by split_and!.
Qed.

(** *** The controller's side

    What the controller fetches next from a ring with its dequeue pointer and its cycle
    state is a parameter.  The two facts used about it are those of the specification:
    a block whose cycle bit differs from the cycle state is not executed, and a link
    block continues at the start of the ring with the cycle state toggled exactly when
    its toggle cycle bit is set. *)
Section controller.
Variable fetch : list trb -> nat -> Z -> option trb.
Hypothesis fetch_empty : forall ring d ccs t,
  ring !! d = Some t -> cycleBit t <> ccs -> fetch ring d ccs = None.
Hypothesis fetch_link : forall ring d ccs t,
  ring !! d = Some t -> cycleBit t = ccs -> trbType t = XHCI_TRB_TYPE_LINK ->
  fetch ring d ccs =
  fetch ring 0 (if Z.land (control t) XHCI_TRB_TOGGLE_CYCLE =? 0 then ccs else flip ccs).

(** The link block of the command ring has no toggle cycle bit, so after
    the first lap the controller and the driver disagree on the cycle bit: once the
    controller has executed the first 255 commands and stands at the link block, it
    fetches none of the commands of the second lap. *)
Theorem second_lap_not_fetched off mem r0 r ts :
  command_ring_new off mem XHCI_COMMAND_RING_TRB_COUNT = Done r0 ->
  (255 < length ts <= 510)%nat -> command_enqueue_all r0 ts = Done r ->
  fetch (cr_trbRing r) 255 1 = None.
Proof.
  intros E0 Hk E. destruct (command_ring_fresh off mem) as (r0' & E0' & H0).
  rewrite E0 in E0'. injection E0' as <-.
  destruct (command_enqueue_all_at _ ts [] r0 H0) as (r' & E' & [Hm Hlen Hp Hb Hbase Hlink Hts]).
  rewrite E in E'. injection E' as <-. simpl in *.
  rewrite (fetch_link _ _ _ _ Hlink) by reflexivity. simpl.
  destruct (lookup_lt_is_Some_2 ts 255) as [t Ht]; [lia|].
  specialize (Hts 255%nat t Ht). change (255 mod 255)%nat with 0%nat in Hts.
  eapply fetch_empty; [apply Hts; lia|].
  unfold cycleBit, set_cycleBit. simpl.
  destruct (fget_fset_same trb_control eq_refl "cycleBit" (control t) (lap_bit 255 255)) as (o & w & Ef & ->).
  { by left. }
  injection Ef as <- <-. vm_compute. discriminate.
Qed.
End controller.

(** ** Draining the event ring *)

Record event_ring_ok (r : XhciEventRing) : Prop := {
  eo_len : length (er_primarySegmentRing r) = er_segmentTrbCount r;
  eo_ptr : (er_dequeuePtr r < er_segmentTrbCount r)%nat;
  eo_bit : er_rcsBit r = 0 \/ er_rcsBit r = 1;
}.

(** The position and the cycle bit the driver expects [i] blocks further on. *)
Definition event_pos (r : XhciEventRing) (i : nat) : nat :=
  ((er_dequeuePtr r + i) mod er_segmentTrbCount r)%nat.
Definition event_bit (r : XhciEventRing) (i : nat) : Z :=
  if (er_dequeuePtr r + i <? er_segmentTrbCount r)%nat then er_rcsBit r else flip (er_rcsBit r).

Definition event_state (r : XhciEventRing) (i : nat) : XhciEventRing :=
  mkEventRing (er_segmentTrbCount r) (er_primarySegmentRing r) (er_segmentBase r)
    (er_primarySegmentPhysicalBase r) (er_segmentTable r) (er_segmentTablePhysicalBase r)
    (event_pos r i) (event_bit r i).

(** The block [i] further on is a new event. *)
Definition event_new (r : XhciEventRing) (i : nat) : bool :=
  match er_primarySegmentRing r !! event_pos r i with
  | Some t => cycleBit t =? event_bit r i
  | None => false
  end.

Definition event_ptrs (r : XhciEventRing) (k : nat) : list Z :=
  (fun i => event_trb_ptr r (event_pos r i)) <$> seq 0 k.

Lemma event_ptrs_S r k : event_ptrs r (S k) = event_ptrs r k ++ [event_trb_ptr r (event_pos r k)].
Proof. unfold event_ptrs. by rewrite seq_S, fmap_app. Qed.

#[local] Arguments Nat.eqb : simpl never.

Section event_ring.
Context (r : XhciEventRing) (Hr : event_ring_ok r).

Lemma event_state_0 : event_state r 0 = r.
Proof.
  destruct Hr as [Hlen Hp Hb]. unfold event_state, event_pos, event_bit. rewrite Nat.add_0_r.
  rewrite Nat.mod_small by done. destruct (Nat.ltb_spec (er_dequeuePtr r) (er_segmentTrbCount r)); [|lia].
  by destruct r.
Qed.

Lemma event_pos_lt i : (event_pos r i < er_segmentTrbCount r)%nat.
Proof. apply Nat.mod_upper_bound. pose proof (eo_ptr _ Hr). lia. Qed.

Lemma event_lookup i : is_Some (er_primarySegmentRing r !! event_pos r i).
Proof. apply lookup_lt_is_Some_2. rewrite (eo_len _ Hr). apply event_pos_lt. Qed.

Lemma has_events_at i : hasUnprocessedEvents (event_state r i) = Done (event_new r i).
Proof.
  unfold hasUnprocessedEvents, event_new. simpl. by destruct (event_lookup i) as [t ->].
Qed.

(** A lap does not come back to its first block: that has the old cycle bit. *)
Lemma event_new_lap i : event_new r 0 = true -> event_new r i = true -> i <> er_segmentTrbCount r.
Proof.
  intros H0 Hi ->. destruct Hr as [Hlen Hp Hb]. unfold event_new, event_pos, event_bit in *.
  rewrite Nat.add_0_r, Nat.mod_small in H0 by done.
  replace ((er_dequeuePtr r + er_segmentTrbCount r) mod er_segmentTrbCount r)%nat
    with (er_dequeuePtr r) in Hi.
  2:{ apply Nat.mod_unique with 1%nat; lia. }
  destruct (er_primarySegmentRing r !! er_dequeuePtr r) as [t|]; [|done].
  destruct (Nat.ltb_spec (er_dequeuePtr r) (er_segmentTrbCount r)); [|lia].
  destruct (Nat.ltb_spec (er_dequeuePtr r + er_segmentTrbCount r) (er_segmentTrbCount r)); [lia|].
  apply Z.eqb_eq in H0, Hi. unfold flip in Hi. destruct (Z.eqb_spec (er_rcsBit r) 0); lia.
Qed.

Lemma dequeue_at i :
  (i < er_segmentTrbCount r)%nat -> event_new r i = true ->
  _dequeueTrb (event_state r i) = Done (Some (event_trb_ptr r (event_pos r i)), event_state r (S i)).
Proof.
  intros Hi Hn. pose proof (eo_ptr _ Hr) as Hp. unfold _dequeueTrb. simpl.
  unfold event_new in Hn. destruct (er_primarySegmentRing r !! event_pos r i) as [t|]; [|done].
  simpl. rewrite Hn. simpl. f_equal. f_equal. unfold event_state. f_equal.
  - unfold event_pos. destruct (decide (er_dequeuePtr r + i < er_segmentTrbCount r)%nat) as [Hlt|Hge].
    + rewrite Nat.mod_small by done.
      destruct (Nat.eqb_spec (S (er_dequeuePtr r + i)) (er_segmentTrbCount r)) as [E|E].
      * replace (er_dequeuePtr r + S i)%nat with (er_segmentTrbCount r) by lia. by rewrite Nat.Div0.mod_same.
      * rewrite Nat.mod_small by lia. lia.
    + assert (forall x, (er_segmentTrbCount r <= x < 2 * er_segmentTrbCount r)%nat ->
                (x mod er_segmentTrbCount r = x - er_segmentTrbCount r)%nat) as Hm.
      { intros x Hx. symmetry. apply Nat.mod_unique with 1%nat; lia. }
      rewrite !Hm by lia. destruct (Nat.eqb_spec (S (er_dequeuePtr r + i - er_segmentTrbCount r)) (er_segmentTrbCount r)); lia.
  - unfold event_bit, event_pos.
    destruct (Nat.ltb_spec (er_dequeuePtr r + i) (er_segmentTrbCount r)) as [Hlt|Hge].
    + rewrite Nat.mod_small by done.
      destruct (Nat.eqb_spec (S (er_dequeuePtr r + i)) (er_segmentTrbCount r));
        destruct (Nat.ltb_spec (er_dequeuePtr r + S i) (er_segmentTrbCount r)); (done || lia).
    + assert ((er_dequeuePtr r + i) mod er_segmentTrbCount r = er_dequeuePtr r + i - er_segmentTrbCount r)%nat as ->.
      { symmetry. apply Nat.mod_unique with 1%nat; lia. }
      destruct (Nat.eqb_spec (S (er_dequeuePtr r + i - er_segmentTrbCount r)) (er_segmentTrbCount r)); [lia|].
      destruct (Nat.ltb_spec (er_dequeuePtr r + S i) (er_segmentTrbCount r)); [lia|done].
Qed.

(** The number of events in the ring. *)
Definition event_count (k : nat) : Prop :=
  (k <= er_segmentTrbCount r)%nat /\ (forall i, (i < k)%nat -> event_new r i = true) /\ event_new r k = false.

Lemma dequeue_loop evs :
  exists k, event_count k /\
    loop (S (S (er_segmentTrbCount r))) dequeue_body (r, evs) = Done (event_state r k, evs ++ event_ptrs r k).
Proof.
  set (Inv := fun st : XhciEventRing * list Z => exists i, (i <= er_segmentTrbCount r)%nat /\
    (forall j, (j < i)%nat -> event_new r j = true) /\ st = (event_state r i, evs ++ event_ptrs r i)).
  set (Post := fun st : XhciEventRing * list Z => exists k, event_count k /\
    st = (event_state r k, evs ++ event_ptrs r k)).
  destruct (loop_total Inv (fun st => S (er_segmentTrbCount r) - (length (snd st) - length evs))%nat Post dequeue_body)
    with (fuel := S (S (er_segmentTrbCount r))) (s := (r, evs)) as (st & E & k & Hk & ->).
  - intros [r' evs'] (i & Hi & Hall & [= -> ->]). unfold dequeue_body. rewrite has_events_at. simpl.
    destruct (event_new r i) eqn:En.
    + assert (i < er_segmentTrbCount r)%nat as Hlt.
      { destruct (decide (i = 0)%nat) as [->|]; [pose proof (eo_ptr _ Hr); lia|].
        pose proof (event_new_lap i (Hall 0%nat ltac:(lia)) En). lia. }
      left. rewrite (dequeue_at i Hlt En). simpl. eexists. split; [reflexivity|]. split.
      * exists (S i). split; [lia|]. split.
        -- intros j Hj. destruct (decide (j = i)) as [->|]; [done|]. apply Hall. lia.
        -- by rewrite event_ptrs_S, app_assoc.
      * simpl. rewrite !length_app. simpl. unfold event_ptrs. rewrite length_fmap, length_seq. lia.
    + right. eexists. split; [reflexivity|]. exists i. split; [|done]. by split_and!.
  - exists 0%nat. split; [lia|]. split; [lia|]. rewrite event_state_0. simpl. by rewrite app_nil_r.
  - simpl. lia.
  - eauto.
Qed.
End event_ring.

(** C16 (functional): [dequeueEvents] drains the event ring.  From any state of the ring it
    returns, within one lap, and delivers the addresses of exactly the consecutive
    blocks that carry the cycle bit the driver expects, in order and across the wrap of
    the ring; afterwards no event is left, and the dequeue pointer register holds the
    physical address of the next block. *)
Theorem event_ring_drains r evs ir :
  event_ring_ok r ->
  exists k r' ir', event_count r k /\
    dequeueEvents r evs ir = Done (r', evs ++ event_ptrs r k, ir') /\
    event_ring_ok r' /\ er_dequeuePtr r' = event_pos r k /\
    hasUnprocessedEvents r' = Done false /\
    erdp ir' = er_primarySegmentPhysicalBase r ⊞ (Z.of_nat (event_pos r k) ⊠ 16) /\
    iman ir' = iman ir /\ erstba ir' = erstba ir.
Proof.
  intros Hr. destruct (dequeue_loop r Hr evs) as (k & Hk & E).
  exists k, (event_state r k), (_updateErdpInterrupterRegister (event_state r k) ir).
  split; [done|]. split; [unfold dequeueEvents; by rewrite E|]. split_and!; try done.
  - split; simpl; [apply Hr|by apply event_pos_lt|]. unfold event_bit.
    destruct (eo_bit _ Hr) as [-> | ->]; case_match; simpl; tauto.
  - rewrite (has_events_at r Hr). by destruct Hk as (_ & _ & ->).
Qed.

(** Three events, two before the end of the ring and one behind it. *)
Definition demo_event (b : Z) : trb := mkTrb 0 0 (Z.lor (Z.shiftl 33 10) b).
Definition demo_events : XhciEventRing :=
  mkEventRing 4 [demo_event 0; demo_event 1; demo_event 1; demo_event 1] 0x2000 0x2000 [] 0 2 1.

Lemma event_ring_drains_witness :
  exists k r' ir', dequeueEvents demo_events [] (mkInterrupter 0 1 0 0) =
    Done (r', event_ptrs demo_events k, ir') /\ hasUnprocessedEvents r' = Done false.
Proof.
  destruct (event_ring_drains demo_events [] (mkInterrupter 0 1 0 0)) as (k & r' & ir' & _ & E & _ & _ & H & _).
  - split; [reflexivity|simpl; lia|by right].
  - exists k, r', ir'. split; [exact E|exact H].
Defined.

(** A controller that follows the rules. *)
Definition demo_fetch (ring : list trb) (d : nat) (ccs : Z) : option trb :=
  match ring !! d with
  | None => None
  | Some t =>
      if negb (cycleBit t =? ccs) then None
      else if negb (trbType t =? XHCI_TRB_TYPE_LINK) then Some t
      else
        let ccs' := if Z.land (control t) XHCI_TRB_TOGGLE_CYCLE =? 0 then ccs else flip ccs in
        match ring !! 0%nat with
        | None => None
        | Some u => if (cycleBit u =? ccs') && negb (trbType u =? XHCI_TRB_TYPE_LINK) then Some u else None
        end
  end.

Lemma demo_fetch_empty ring d ccs t :
  ring !! d = Some t -> cycleBit t <> ccs -> demo_fetch ring d ccs = None.
Proof. intros E H. unfold demo_fetch. rewrite E. by apply Z.eqb_neq in H as ->. Qed.

Lemma demo_fetch_link ring d ccs t :
  ring !! d = Some t -> cycleBit t = ccs -> trbType t = XHCI_TRB_TYPE_LINK ->
  demo_fetch ring d ccs =
  demo_fetch ring 0 (if Z.land (control t) XHCI_TRB_TOGGLE_CYCLE =? 0 then ccs else flip ccs).
Proof.
  intros E Hc Ht. unfold demo_fetch at 1. rewrite E, Hc, Ht, Z.eqb_refl. simpl.
  set (ccs' := if Z.land (control t) XHCI_TRB_TOGGLE_CYCLE =? 0 then ccs else flip ccs). unfold demo_fetch.
  destruct (ring !! 0%nat) as [u|]; [|done]. destruct (cycleBit u =? ccs'); [|done]. simpl.
  destruct (trbType u =? XHCI_TRB_TYPE_LINK); [|done]. simpl. by rewrite andb_false_r.
Qed.

Lemma second_lap_not_fetched_witness :
  exists r0 r, command_ring_new 0 0x10000 XHCI_COMMAND_RING_TRB_COUNT = Done r0 /\
    command_enqueue_all r0 (replicate 300 (XHCI_CONSTRUCT_CMD_TRB XHCI_TRB_TYPE_ENABLE_SLOT_CMD)) = Done r /\
    demo_fetch (cr_trbRing r) 255 1 = None.
Proof.
  destruct (command_ring_fresh 0 0x10000) as (r0 & E0 & H0).
  destruct (command_enqueue_all_at _ (replicate 300 (XHCI_CONSTRUCT_CMD_TRB XHCI_TRB_TYPE_ENABLE_SLOT_CMD))
              [] r0 H0) as (r & E & _).
  exists r0, r. split; [exact E0|]. split; [exact E|].
  apply (second_lap_not_fetched demo_fetch demo_fetch_empty demo_fetch_link 0 0x10000 r0 r
           (replicate 300 (XHCI_CONSTRUCT_CMD_TRB XHCI_TRB_TYPE_ENABLE_SLOT_CMD))).
  - exact E0.
  - rewrite length_replicate. lia.
  - exact E.
Defined.
