(* ===== verification/XhciDriver.v ===== *)
(** * The USB host controller driver: registers (kernel/src/drivers/usb/xhci.cpp, xhci.h)

    The controller is a parameter: [XhcDevice] has the accesses the driver makes to its
    registers and the passing of time, and nothing is assumed of how it answers except
    where a theorem says so.  Modelled here are the capability registers, the extended
    capabilities with the list of USB3 ports, reset and start of the controller, the
    reset of a port and the acknowledgement of interrupts. *)
From Stdlib Require Import ZArith Lia.
From stdpp Require Import base tactics numbers option list strings.
From S2P Require Import Prelude Layout XhciRegs.

#[local] Open Scope string_scope.
#[local] Open Scope list_scope.
#[local] Open Scope Z_scope.

(** ** The controller

    [ro32] reads a word of the read-only registers (capabilities and extended
    capabilities), which has no effect; the other accesses may change the controller,
    and [wait_ms] lets it work for some milliseconds. *)
Class XhcDevice (D : Type) := {
  ro32 : D -> Z -> Z;
  read32 : D -> Z -> D * Z;
  write32 : D -> Z -> Z -> D;
  read64 : D -> Z -> D * Z;
  write64 : D -> Z -> Z -> D;
  wait_ms : D -> Z -> D
}.

(** The address of a register in one of the register structures. *)
Definition reg_at (base : Z) (l : list (string * (Z * Z))) (name : string) : Z :=
  base + default 0 (offset_of l name).

(** ** Bits *)
Definition XHCI_USBCMD_RUN_STOP : Z := Z.shiftl 1 0.
Definition XHCI_USBCMD_HCRESET : Z := Z.shiftl 1 1.
Definition XHCI_USBCMD_INTERRUPTER_ENABLE : Z := Z.shiftl 1 2.
Definition XHCI_USBCMD_HOSTSYS_ERROR_ENABLE : Z := Z.shiftl 1 3.
Definition XHCI_USBSTS_HCH : Z := Z.shiftl 1 0.
Definition XHCI_USBSTS_HSE : Z := Z.shiftl 1 2.
Definition XHCI_USBSTS_EINT : Z := Z.shiftl 1 3.
Definition XHCI_USBSTS_PCD : Z := Z.shiftl 1 4.
Definition XHCI_USBSTS_SRE : Z := Z.shiftl 1 10.
Definition XHCI_USBSTS_CNR : Z := Z.shiftl 1 11.
Definition XHCI_IMAN_INTERRUPT_PENDING : Z := Z.shiftl 1 0.

(** [~flag] of an [int] flag in a 32-bit operation *)
Definition not32 (x : Z) : Z := u32 (Z.lnot x).
Definition has (v flag : Z) : bool := negb (Z.land v flag =? 0).

(** ** Capability registers *)
Definition XHCI_MAX_DEVICE_SLOTS (hcsparams1 : Z) : Z := Z.land hcsparams1 0xFF.
Definition XHCI_MAX_INTERRUPTERS (hcsparams1 : Z) : Z := Z.land (Z.shiftr hcsparams1 8) 0x7FF.
Definition XHCI_MAX_PORTS (hcsparams1 : Z) : Z := Z.land (Z.shiftr hcsparams1 24) 0xFF.
Definition XHCI_IST (hcsparams2 : Z) : Z := Z.land hcsparams2 0xF.
Definition XHCI_ERST_MAX (hcsparams2 : Z) : Z := Z.land (Z.shiftr hcsparams2 4) 0xF.
Definition XHCI_MAX_SCRATCHPAD_BUFS_HI (hcsparams2 : Z) : Z := Z.land (Z.shiftr hcsparams2 21) 0x1F.
Definition XHCI_MAX_SCRATCHPAD_BUFS_LO (hcsparams2 : Z) : Z := Z.land (Z.shiftr hcsparams2 27) 0x1F.
Definition XHCI_MAX_SCRATCHPAD_BUFFERS (hcsparams2 : Z) : Z :=
  Z.lor (Z.shiftl (XHCI_MAX_SCRATCHPAD_BUFS_HI hcsparams2) 5) (XHCI_MAX_SCRATCHPAD_BUFS_LO hcsparams2).
Definition XHCI_AC64 (hccparams1 : Z) : Z := Z.land hccparams1 0x1.
Definition XHCI_BNC (hccparams1 : Z) : Z := Z.land (Z.shiftr hccparams1 1) 0x1.
Definition XHCI_CSZ (hccparams1 : Z) : Z := Z.land (Z.shiftr hccparams1 2) 0x1.
Definition XHCI_PPC (hccparams1 : Z) : Z := Z.land (Z.shiftr hccparams1 3) 0x1.
Definition XHCI_PIND (hccparams1 : Z) : Z := Z.land (Z.shiftr hccparams1 4) 0x1.
Definition XHCI_LHRC (hccparams1 : Z) : Z := Z.land (Z.shiftr hccparams1 5) 0x1.
Definition XHCI_XECP (hccparams1 : Z) : Z := Z.land (Z.shiftr hccparams1 16) 0xFFFF.

(** The members that the capability registers give, with the widths they are declared
    with; the pointers to the other register spaces are their addresses. *)
Record XhciCaps := mkCaps {
  m_capabilityRegsLength : Z;           (** [uint8_t], as the next six *)
  m_maxDeviceSlots : Z;
  m_maxInterrupters : Z;
  m_maxPorts : Z;
  m_isochronousSchedulingThreshold : Z;
  m_erstMax : Z;
  m_maxScratchpadBuffers : Z;
  m_64bitAddressingCapability : bool;
  m_bandwidthNegotiationCapability : bool;
  m_64ByteContextSize : bool;
  m_portPowerControl : bool;
  m_portIndicators : bool;
  m_lightResetCapability : bool;
  m_extendedCapabilitiesOffset : Z;
  m_opRegs : Z;
  m_doorbellRegisters : Z;
  m_runtimeRegs : Z }.

Abbreviation portsc_get := (fget portsc_register).
Abbreviation portsc_set := (fset portsc_register).

Section driver.
Context {D : Type} `{XhcDevice D}.

Definition _parseCapabilityRegisters (d : D) (m_xhcBase : Z) : XhciCaps :=
  let cap name := ro32 d (reg_at m_xhcBase XhciCapabilityRegisters name) in
  let caplength := u8 (cap "caplength") in
  let hcsparams1 := cap "hcsparams1" in
  let hcsparams2 := cap "hcsparams2" in
  let hccparams1 := cap "hccparams1" in
  mkCaps caplength (u8 (XHCI_MAX_DEVICE_SLOTS hcsparams1)) (u8 (XHCI_MAX_INTERRUPTERS hcsparams1))
    (u8 (XHCI_MAX_PORTS hcsparams1)) (u8 (XHCI_IST hcsparams2)) (u8 (XHCI_ERST_MAX hcsparams2))
    (u8 (XHCI_MAX_SCRATCHPAD_BUFFERS hcsparams2))
    (negb (XHCI_AC64 hccparams1 =? 0)) (negb (XHCI_BNC hccparams1 =? 0)) (negb (XHCI_CSZ hccparams1 =? 0))
    (negb (XHCI_PPC hccparams1 =? 0)) (negb (XHCI_PIND hccparams1 =? 0)) (negb (XHCI_LHRC hccparams1 =? 0))
    (u32 (XHCI_XECP hccparams1 * 4))
    (m_xhcBase ⊞ caplength) (m_xhcBase ⊞ cap "dboff") (m_xhcBase ⊞ cap "rtsoff").

(** The registers of an interrupter, null above the number of interrupters. *)
Definition getInterrupterRegisters (c : XhciCaps) (interrupter : Z) : option Z :=
  if m_maxInterrupters c <? interrupter then None
  else Some (reg_at (m_runtimeRegs c) XhciRuntimeRegisters "ir" + interrupter * sizeof XhciInterrupterRegisters).

(** ** Extended capabilities *)

(** The constructor reads the list to its end: the addresses of the capabilities. *)
Fixpoint XhciExtendedCapability_new (fuel : nat) (d : D) (capPtr : Z) : outcome (list Z) :=
  match fuel with
  | O => Diverge
  | S fuel' =>
      let next := fget extended_capability_entry "next" (ro32 d capPtr) in
      if next =? 0 then Done [capPtr]
      else
        rest ← XhciExtendedCapability_new fuel' d (capPtr ⊞ (next * 4));
        Done (capPtr :: rest)
  end.

(** [for (uint8_t port = firstPort; port <= lastPort; port++)] *)
Definition usb3_ports_body (lastPort : Z) : Z * list Z -> outcome ((Z * list Z) + list Z) :=
  fun '(port, ports) =>
  if port <=? lastPort then Done (inl (u8 (port + 1), ports ++ [port])) else Done (inr ports).

Definition protocol_ports (fuel : nat) (d : D) (node : Z) (m_usb3Ports : list Z) : outcome (list Z) :=
  if fget extended_capability_entry "id" (ro32 d node) =? 2 then
    let dword0 := ro32 d node in
    let dword2 := ro32 d (node + 8) in
    let firstPort := u8 (fget protocol_dword2 "compatiblePortOffset" dword2 - 1) in
    let lastPort := u8 (firstPort + fget protocol_dword2 "compatiblePortCount" dword2 - 1) in
    if fget protocol_dword0 "majorRevisionVersion" dword0 =? 3
    then loop fuel (usb3_ports_body lastPort) (firstPort, m_usb3Ports)
    else Done m_usb3Ports
  else Done m_usb3Ports.

(** The ports known as USB3 ports afterwards. *)
Definition _parseExtendedCapabilityRegisters (fuel : nat) (d : D) (m_xhcBase : Z) (c : XhciCaps)
    (m_usb3Ports : list Z) : outcome (list Z) :=
  nodes ← XhciExtendedCapability_new fuel d (m_xhcBase ⊞ m_extendedCapabilitiesOffset c);
  for_each (fun ports node => protocol_ports fuel d node ports) nodes m_usb3Ports.

Definition _isUSB3Port (m_usb3Ports : list Z) (portNum : Z) : bool :=
  existsb (fun p => p =? portNum) m_usb3Ports.

(** ** Reset and start of the controller *)
Definition op_reg (c : XhciCaps) (name : string) : Z := reg_at (m_opRegs c) XhciOperationalRegisters name.

(** [while (cond) { if (--timeout == 0) return false; msleep(1); }] : whether the condition
    went away in time *)
Fixpoint wait_while (cond : D -> D * bool) (d : D) (timeout : nat) : D * bool :=
  let '(d, b) := cond d in
  if b then
    match timeout with
    | O | S O => (d, false)
    | S t => wait_while cond (wait_ms d 1) t
    end
  else (d, true).

Definition not_halted (c : XhciCaps) (d : D) : D * bool :=
  let '(d, v) := read32 d (op_reg c "usbsts") in (d, negb (has v XHCI_USBSTS_HCH)).

(** [||] reads the status register only when the reset bit is clear. *)
Definition in_reset (c : XhciCaps) (d : D) : D * bool :=
  let '(d, cmd) := read32 d (op_reg c "usbcmd") in
  if has cmd XHCI_USBCMD_HCRESET then (d, true)
  else let '(d, sts) := read32 d (op_reg c "usbsts") in (d, has sts XHCI_USBSTS_CNR).

Definition _resetHostController (c : XhciCaps) (d : D) : D * bool :=
  let '(d, usbcmd) := read32 d (op_reg c "usbcmd") in
  let d := write32 d (op_reg c "usbcmd") (Z.land usbcmd (not32 XHCI_USBCMD_RUN_STOP)) in
  let '(d, halted) := wait_while (not_halted c) d 20 in
  if negb halted then (d, false)
  else
    let '(d, usbcmd) := read32 d (op_reg c "usbcmd") in
    let d := write32 d (op_reg c "usbcmd") (Z.lor usbcmd XHCI_USBCMD_HCRESET) in
    let '(d, ready) := wait_while (in_reset c) d 100 in
    if negb ready then (d, false)
    else
      let d := wait_ms d 50 in
      let '(d, usbcmd) := read32 d (op_reg c "usbcmd") in
      if negb (usbcmd =? 0) then (d, false)
      else let '(d, dnctrl) := read32 d (op_reg c "dnctrl") in
      if negb (dnctrl =? 0) then (d, false)
      else let '(d, crcr) := read64 d (op_reg c "crcr") in
      if negb (crcr =? 0) then (d, false)
      else let '(d, dcbaap) := read64 d (op_reg c "dcbaap") in
      if negb (dcbaap =? 0) then (d, false)
      else let '(d, config) := read32 d (op_reg c "config") in
      if negb (config =? 0) then (d, false)
      else (d, true).

(** The wait for the controller to run has no timeout. *)
Definition start_body (c : XhciCaps) (d : D) : outcome (D + D) :=
  let '(d, sts) := read32 d (op_reg c "usbsts") in
  if has sts XHCI_USBSTS_HCH then Done (inl (wait_ms d 16)) else Done (inr d).

Definition _startHostController (fuel : nat) (c : XhciCaps) (d : D) : outcome D :=
  let '(d, usbcmd) := read32 d (op_reg c "usbcmd") in
  let usbcmd := Z.lor usbcmd XHCI_USBCMD_RUN_STOP in
  let usbcmd := Z.lor usbcmd XHCI_USBCMD_INTERRUPTER_ENABLE in
  let usbcmd := Z.lor usbcmd XHCI_USBCMD_HOSTSYS_ERROR_ENABLE in
  loop fuel (start_body c) (write32 d (op_reg c "usbcmd") usbcmd).

(** ** Ports *)
Definition _getPortRegisterSet (c : XhciCaps) (portNum : Z) : Z := m_opRegs c ⊞ (0x400 + 0x10 * portNum).

Definition m_portscOffset : Z := 0x00.
Definition readPortscReg (d : D) (base : Z) : D * Z := read32 d (base + m_portscOffset).
Definition writePortscReg (d : D) (base reg : Z) : D := write32 d (base + m_portscOffset) reg.

(** The power, link and LPM registers of a port; the driver has the accessors ready and
    does not call them. *)
Definition m_portpmscOffset : Z := 0x04.
Definition m_portliOffset : Z := 0x08.
Definition m_porthlpmcOffset : Z := 0x0C.
Definition readPortpmscRegUsb2 (d : D) (base : Z) : D * Z := read32 d (base + m_portpmscOffset).
Definition writePortpmscRegUsb2 (d : D) (base reg : Z) : D := write32 d (base + m_portpmscOffset) reg.
Definition readPortpmscRegUsb3 (d : D) (base : Z) : D * Z := read32 d (base + m_portpmscOffset).
Definition writePortpmscRegUsb3 (d : D) (base reg : Z) : D := write32 d (base + m_portpmscOffset) reg.
Definition readPortliReg (d : D) (base : Z) : D * Z := read32 d (base + m_portliOffset).
Definition writePortliReg (d : D) (base reg : Z) : D := write32 d (base + m_portliOffset) reg.
Definition readPorthlpmcRegUsb2 (d : D) (base : Z) : D * Z := read32 d (base + m_porthlpmcOffset).
Definition writePorthlpmcRegUsb2 (d : D) (base reg : Z) : D := write32 d (base + m_porthlpmcOffset) reg.
Definition readPorthlpmcRegUsb3 (d : D) (base : Z) : D * Z := read32 d (base + m_porthlpmcOffset).
Definition writePorthlpmcRegUsb3 (d : D) (base reg : Z) : D := write32 d (base + m_porthlpmcOffset) reg.

(** The poll for the end of the reset: the last value read and the timeout left. *)
Fixpoint poll_reset (d : D) (base : Z) (isUsb3Port : bool) (portsc : Z) (timeout : nat) : D * Z * nat :=
  match timeout with
  | O => (d, portsc, O)
  | S t =>
      let '(d, portsc) := readPortscReg d base in
      if isUsb3Port && negb (portsc_get "wrc" portsc =? 0) then (d, portsc, timeout)
      else if negb isUsb3Port && negb (portsc_get "prc" portsc =? 0) then (d, portsc, timeout)
      else poll_reset (wait_ms d 1) base isUsb3Port portsc t
  end.

(** Everything after the port has power. *)
Definition reset_powered (d : D) (regset : Z) (isUsb3Port : bool) (portsc : Z) : D * bool :=
  let portsc := portsc_set "csc" portsc 1 in
  let d := writePortscReg d regset portsc in
  let portsc := if isUsb3Port then portsc_set "wpr" portsc 1 else portsc_set "pr" portsc 1 in
  let portsc := portsc_set "ped" portsc 0 in
  let d := writePortscReg d regset portsc in
  let '(d, portsc, timeout) := poll_reset d regset isUsb3Port portsc 500 in
  match timeout with
  | O => (d, false)
  | S _ =>
      let d := wait_ms d 3 in
      let '(d, portsc) := readPortscReg d regset in
      if negb (portsc_get "ped" portsc =? 0) then
        let portsc := portsc_set "csc" portsc 1 in
        (writePortscReg d regset portsc, true)
      else (d, false)
  end.

Definition _resetPort (c : XhciCaps) (m_usb3Ports : list Z) (d : D) (portNum : Z) : D * bool :=
  let regset := _getPortRegisterSet c portNum in
  let '(d, portsc) := readPortscReg d regset in
  let isUsb3Port := _isUSB3Port m_usb3Ports portNum in
  if portsc_get "pp" portsc =? 0 then
    let portsc := portsc_set "pp" portsc 1 in
    let d := writePortscReg d regset portsc in
    let d := wait_ms d 20 in
    let '(d, portsc) := readPortscReg d regset in
    if portsc_get "pp" portsc =? 0 then (d, false)
    else reset_powered d regset isUsb3Port portsc
  else reset_powered d regset isUsb3Port portsc.

(** ** Interrupts and doorbells *)
Definition _markXhciInterruptCompleted (c : XhciCaps) (d : D) (interrupter : Z) : outcome D :=
  regs ← need (getInterrupterRegisters c interrupter);
  let iman := reg_at regs XhciInterrupterRegisters "iman" in
  let '(d, v) := read32 d iman in
  let d := write32 d iman (Z.lor v (not32 XHCI_IMAN_INTERRUPT_PENDING)) in
  let '(d, v) := read32 d (op_reg c "usbsts") in
  Done (write32 d (op_reg c "usbsts") (Z.lor v (not32 XHCI_USBSTS_EINT))).

Definition ringDoorbell (c : XhciCaps) (d : D) (doorbell target : Z) : D :=
  write32 d (m_doorbellRegisters c + 4 * doorbell) target.
Definition ringCommandDoorbell (c : XhciCaps) (d : D) : D := ringDoorbell c d 0 0.
Definition ringControlEndpointDoorbell (c : XhciCaps) (d : D) (doorbell : Z) : D := ringDoorbell c d doorbell 1.

End driver.

(** ** Capabilities *)
Lemma land_ones_bf lo w v : 0 <= w -> Z.land (Z.shiftr v lo) (Z.ones w) = bf lo w v.
Proof. done. Qed.

(** The members hold slots and ports exactly, but the number of interrupters
    (11 bits in the register) and of scratchpad buffers (10 bits) are cut to 8 bits: a
    controller with 1024 interrupters counts as having none, and one that asks for 256
    scratchpad buffers gets no buffer at all. *)
Theorem capability_widths {D} `{XhcDevice D} (d : D) base c :
  _parseCapabilityRegisters d base = c ->
  let hcsparams1 := ro32 d (reg_at base XhciCapabilityRegisters "hcsparams1") in
  let hcsparams2 := ro32 d (reg_at base XhciCapabilityRegisters "hcsparams2") in
  m_maxDeviceSlots c = bf 0 8 hcsparams1 /\ m_maxPorts c = bf 24 8 hcsparams1 /\
  m_maxInterrupters c = bf 8 11 hcsparams1 mod 256 /\
  m_maxScratchpadBuffers c = (bf 21 5 hcsparams2 * 32 + bf 27 5 hcsparams2) mod 256 /\
  (bf 8 11 hcsparams1 = 1024 -> getInterrupterRegisters c 1 = None) /\
  (bf 21 5 hcsparams2 = 8 -> bf 27 5 hcsparams2 = 0 -> m_maxScratchpadBuffers c = 0).
Proof.
  intros <- h1 h2. cbn [_parseCapabilityRegisters m_maxDeviceSlots m_maxPorts m_maxInterrupters m_maxScratchpadBuffers].
  fold h1 h2. unfold XHCI_MAX_DEVICE_SLOTS, XHCI_MAX_PORTS, XHCI_MAX_INTERRUPTERS, XHCI_MAX_SCRATCHPAD_BUFFERS,
    XHCI_MAX_SCRATCHPAD_BUFS_HI, XHCI_MAX_SCRATCHPAD_BUFS_LO.
  change 0xFF with (Z.ones 8). change 0x7FF with (Z.ones 11). change 0x1F with (Z.ones 5).
  rewrite <- (Z.shiftr_0_r h1) at 1. rewrite !land_ones_bf by lia.
  pose proof (bf_range 0 8 h1). pose proof (bf_range 24 8 h1). pose proof (bf_range 27 5 h2).
  assert (u8 (Z.lor (Z.shiftl (bf 21 5 h2) 5) (bf 27 5 h2)) = (bf 21 5 h2 * 32 + bf 27 5 h2) mod 256) as Es.
  { unfold u8. f_equal. rewrite Z.shiftl_mul_pow2 by lia. change (2 ^ 5) with 32.
    rewrite <- Z.add_lor_land, (Z.mul_comm _ 32). replace (Z.land (32 * bf 21 5 h2) (bf 27 5 h2)) with 0; [lia|].
    symmetry. rewrite (Z.mul_comm 32). change 32 with (2 ^ 5). apply Z.bits_inj'. intros i Hi.
    rewrite Z.land_spec, Z.bits_0. destruct (Z.ltb_spec i 5); [by rewrite Z.mul_pow2_bits_low by lia|].
    rewrite (Z.bits_above_log2 (bf 27 5 h2)), andb_false_r; [done|lia|].
    destruct (decide (bf 27 5 h2 = 0)) as [->|]; [simpl; lia|]. apply Z.log2_lt_pow2; [lia|].
    apply Z.lt_le_trans with (2 ^ 5); [lia|]. apply Z.pow_le_mono_r; lia. }
  split_and!.
  - apply u8_small. unfold is_u8. lia.
  - apply u8_small. unfold is_u8. lia.
  - done.
  - exact Es.
  - intros E. unfold getInterrupterRegisters. cbn [_parseCapabilityRegisters m_maxInterrupters]. fold h1.
    unfold XHCI_MAX_INTERRUPTERS. change 0x7FF with (Z.ones 11). by rewrite land_ones_bf, E by lia.
  - intros E1 E2. by rewrite Es, E1, E2.
Qed.

(** ** USB3 ports *)
Section ports.
Context {D : Type} `{XhcDevice D}.

(** The loop over the ports of a protocol. *)
Lemma usb3_ports_run last : 0 <= last < 255 -> forall n fuel first ports,
  0 <= first -> first + Z.of_nat n = last + 1 -> (n < fuel)%nat ->
  loop fuel (usb3_ports_body last) (first, ports) = Done (ports ++ seqZ first (Z.of_nat n)).
Proof.
  intros Hl n. induction n as [|n IH]; intros fuel first ports Hf Hn Hfuel; (destruct fuel as [|fuel]; [lia|]);
    cbn [loop usb3_ports_body].
  - rewrite (proj2 (Z.leb_gt _ _)) by lia. by rewrite app_nil_r.
  - rewrite (proj2 (Z.leb_le _ _)) by lia. rewrite u8_small by (unfold is_u8; lia). rewrite IH by lia.
    rewrite <- app_assoc. cbn [app]. do 2 f_equal. rewrite Nat2Z.inj_succ, (seqZ_cons first) by lia.
    by rewrite Z.pred_succ.
Qed.

(** A byte never exceeds 255. *)
Lemma usb3_ports_endless fuel : forall port ports, is_u8 port ->
  loop fuel (usb3_ports_body 255) (port, ports) = Diverge.
Proof.
  induction fuel as [|fuel IH]; intros port ports Hp; [done|]. cbn [loop usb3_ports_body].
  rewrite (proj2 (Z.leb_le _ _)) by (unfold is_u8 in Hp; lia). apply IH, u8_range.
Qed.

(** The capabilities from [p] on. *)
Inductive ext_caps (d : D) : Z -> list Z -> Prop :=
  | ext_last p : fget extended_capability_entry "next" (ro32 d p) = 0 -> ext_caps d p [p]
  | ext_next p n l : fget extended_capability_entry "next" (ro32 d p) = n -> n <> 0 ->
      ext_caps d (p ⊞ (n * 4)) l -> ext_caps d p (p :: l).

Lemma ext_caps_run d p l fuel : ext_caps d p l -> (length l <= fuel)%nat ->
  XhciExtendedCapability_new fuel d p = Done l.
Proof.
  intros Hc. revert fuel. induction Hc as [p E|p n l E Hn Hc IH]; intros fuel Hf;
    (destruct fuel as [|fuel]; [simpl in Hf; lia|]); cbn [XhciExtendedCapability_new].
  - by rewrite E.
  - rewrite E, (proj2 (Z.eqb_neq _ _)) by done. rewrite IH by (simpl in Hf; lia). done.
Qed.

(** The ports that the capability at [p] declares as USB3 ports, zero-based. *)
Definition declared_ports (d : D) (p : Z) : list Z :=
  if (fget extended_capability_entry "id" (ro32 d p) =? 2) &&
     (fget protocol_dword0 "majorRevisionVersion" (ro32 d p) =? 3)
  then seqZ (fget protocol_dword2 "compatiblePortOffset" (ro32 d (p + 8)) - 1)
         (fget protocol_dword2 "compatiblePortCount" (ro32 d (p + 8)))
  else [].

(** A declaration the specification allows: at least one port, numbered from 1 to 255. *)
Definition ports_valid (d : D) (p : Z) : Prop :=
  let first := fget protocol_dword2 "compatiblePortOffset" (ro32 d (p + 8)) in
  let count := fget protocol_dword2 "compatiblePortCount" (ro32 d (p + 8)) in
  1 <= first /\ 1 <= count /\ first + count - 1 <= 255.

Lemma protocol_ports_run d p ports fuel : ports_valid d p -> (255 < fuel)%nat ->
  protocol_ports fuel d p ports = Done (ports ++ declared_ports d p).
Proof.
  intros (H1 & H2 & H3) Hf. unfold protocol_ports, declared_ports.
  destruct (_ =? 2); cbn [andb]; [|by rewrite app_nil_r]. destruct (_ =? 3); [|by rewrite app_nil_r].
  set (first := fget protocol_dword2 "compatiblePortOffset" _) in *.
  set (count := fget protocol_dword2 "compatiblePortCount" _) in *.
  rewrite (u8_small (first - 1)) by (unfold is_u8; lia). rewrite u8_small by (unfold is_u8; lia).
  rewrite (usb3_ports_run (first - 1 + count - 1) ltac:(lia) (Z.to_nat count)) by lia. by rewrite Z2Nat.id by lia.
Qed.

Lemma protocols_run d nodes ports fuel : Forall (ports_valid d) nodes -> (255 < fuel)%nat ->
  for_each (fun ports node => protocol_ports fuel d node ports) nodes ports =
  Done (ports ++ flat_map (declared_ports d) nodes).
Proof.
  intros Hv Hf. revert ports. induction Hv as [|p nodes Hp _ IH]; intros ports; cbn [for_each flat_map].
  - by rewrite app_nil_r.
  - rewrite protocol_ports_run by done. cbn [mbind outcome_bind]. by rewrite IH, app_assoc.
Qed.

End ports.

(** On a finite list of extended capabilities with valid port ranges the
    driver ends up with exactly the zero-based numbers of the ports that capabilities of
    the USB 3 protocol declare, in order, and [_isUSB3Port] answers for them.  A USB 3
    capability for ports 1 to 0 (offset 1, count 0), or for port 256, is never left. *)
Theorem usb3_ports_found {D} `{XhcDevice D} (d : D) base c nodes fuel :
  ext_caps d (base ⊞ m_extendedCapabilitiesOffset c) nodes -> (length nodes <= fuel)%nat -> (255 < fuel)%nat ->
  (Forall (ports_valid d) nodes -> exists ports,
     _parseExtendedCapabilityRegisters fuel d base c [] = Done ports /\
     ports = flat_map (declared_ports d) nodes /\
     forall p, _isUSB3Port ports p = true <-> exists n, n ∈ nodes /\ p ∈ declared_ports d n) /\
  (forall p rest, nodes = p :: rest ->
     fget extended_capability_entry "id" (ro32 d p) = 2 ->
     fget protocol_dword0 "majorRevisionVersion" (ro32 d p) = 3 ->
     (fget protocol_dword2 "compatiblePortOffset" (ro32 d (p + 8)) +
      fget protocol_dword2 "compatiblePortCount" (ro32 d (p + 8))) mod 256 = 1 ->
     _parseExtendedCapabilityRegisters fuel d base c [] = Diverge).
Proof.
  intros Hc Hl Hf. unfold _parseExtendedCapabilityRegisters. rewrite (ext_caps_run _ _ _ _ Hc Hl).
  cbn [mbind outcome_bind]. split.
  - intros Hv. eexists. rewrite protocols_run by done. split; [reflexivity|]. split; [done|].
    intros p. unfold _isUSB3Port. rewrite existsb_exists. split.
    + intros (x & Hx & ->%Z.eqb_eq). apply in_flat_map in Hx as (n & Hn & Hp).
      exists n. by rewrite !list_elem_of_In.
    + intros (n & Hn & Hp). exists p. rewrite Z.eqb_refl. split; [|done].
      apply in_flat_map. exists n. by rewrite <- !list_elem_of_In.
  - intros p rest -> Hid Hrev Hsum. cbn [for_each]. unfold protocol_ports. rewrite Hid, Hrev. cbn [Z.eqb].
    set (o := fget protocol_dword2 "compatiblePortOffset" _) in *.
    set (n := fget protocol_dword2 "compatiblePortCount" _) in *.
    assert (u8 (u8 (o - 1) + n - 1) = 255) as -> by (unfold u8 in *; Z.to_euclidean_division_equations; lia).
    by rewrite usb3_ports_endless by apply u8_range.
Qed.

(** ** Time

    A controller with a clock that counts the milliseconds the driver waits. *)
#[export] Instance timed_device {D} `{XhcDevice D} : XhcDevice (D * Z) := {
  ro32 x := ro32 (fst x);
  read32 x a := let '(d, v) := read32 (fst x) a in ((d, snd x), v);
  write32 x a v := (write32 (fst x) a v, snd x);
  read64 x a := let '(d, v) := read64 (fst x) a in ((d, snd x), v);
  write64 x a v := (write64 (fst x) a v, snd x);
  wait_ms x n := (wait_ms (fst x) n, snd x + n)
}.

Section time.
Context {D : Type} `{XhcDevice D}.

Lemma read32_clock (x : D * Z) a x' v : read32 x a = (x', v) -> snd x' = snd x.
Proof. cbn. destruct (read32 (fst x) a). by intros [= <- _]. Qed.

Lemma read64_clock (x : D * Z) a x' v : read64 x a = (x', v) -> snd x' = snd x.
Proof. cbn. destruct (read64 (fst x) a). by intros [= <- _]. Qed.

Lemma wait_while_clock (cond : D * Z -> (D * Z) * bool) :
  (forall x x' b, cond x = (x', b) -> snd x' = snd x) ->
  forall n x x' b, (0 < n)%nat -> wait_while cond x n = (x', b) -> snd x' <= snd x + Z.of_nat n - 1.
Proof.
  intros Hc n. induction n as [|n IH]; intros x x' b Hn; [lia|]. cbn [wait_while].
  destruct (cond x) as [x1 [|]] eqn:E; apply Hc in E; [|intros [= <- _]; lia].
  destruct n as [|n]; [intros [= <- _]; lia|]. intros Hw. apply IH in Hw; [|lia].
  cbn [wait_ms timed_device snd] in Hw. lia.
Qed.

Lemma not_halted_clock c (x x' : D * Z) b : not_halted c x = (x', b) -> snd x' = snd x.
Proof. unfold not_halted. destruct (read32 x _) as [x1 v] eqn:E. intros [= <- _]. by apply read32_clock in E. Qed.

Lemma in_reset_clock c (x x' : D * Z) b : in_reset c x = (x', b) -> snd x' = snd x.
Proof.
  unfold in_reset. destruct (read32 x _) as [x1 v] eqn:E1. apply read32_clock in E1.
  destruct (has v _); [by intros [= <- _]|]. destruct (read32 x1 _) as [x2 w] eqn:E2. apply read32_clock in E2.
  intros [= <- _]. congruence.
Qed.

Lemma poll_reset_clock base usb3 n : forall (x x' : D * Z) v v' t,
  poll_reset x base usb3 v n = (x', v', t) -> snd x' <= snd x + Z.of_nat n - Z.of_nat t /\ (t <= n)%nat.
Proof.
  induction n as [|n IH]; intros x x' v v' t; cbn [poll_reset]; [intros [= <- _ <-]; lia|].
  unfold readPortscReg. destruct (read32 x _) as [x1 w] eqn:E. apply read32_clock in E.
  destruct (usb3 && _); [intros [= <- _ <-]; lia|]. destruct (negb usb3 && _); [intros [= <- _ <-]; lia|].
  intros Hp. apply IH in Hp. cbn [wait_ms timed_device snd] in Hp. lia.
Qed.

Lemma reset_powered_clock (x : D * Z) base usb3 v :
  snd (fst (reset_powered x base usb3 v)) <= snd x + 502.
Proof.
  unfold reset_powered. destruct (poll_reset _ base usb3 _ 500) as [[x1 v1] t] eqn:E.
  apply poll_reset_clock in E. unfold writePortscReg in *. cbn [write32 timed_device snd] in E.
  destruct t as [|t]; [cbn [fst]; lia|].
  unfold readPortscReg. destruct (read32 (wait_ms x1 3) _) as [x2 w] eqn:E2. apply read32_clock in E2.
  cbn [wait_ms timed_device snd] in E2. destruct (negb _); cbn [fst write32 timed_device snd]; lia.
Qed.

Lemma resetHost_clock c (x : D * Z) : snd (fst (_resetHostController c x)) <= snd x + 168.
Proof.
  unfold _resetHostController. destruct (read32 x _) as [x1 v1] eqn:E1. apply read32_clock in E1.
  destruct (wait_while (not_halted c) _ 20) as [x2 b2] eqn:E2.
  apply (wait_while_clock _ (not_halted_clock c) 20) in E2; [|lia]. cbn [write32 timed_device snd] in E2.
  destruct b2; cbn [negb]; [|cbn [fst]; lia].
  destruct (read32 x2 _) as [x3 v3] eqn:E3. apply read32_clock in E3.
  destruct (wait_while (in_reset c) _ 100) as [x4 b4] eqn:E4.
  apply (wait_while_clock _ (in_reset_clock c) 100) in E4; [|lia]. cbn [write32 timed_device snd] in E4.
  destruct b4; cbn [negb]; [|cbn [fst]; lia].
  repeat match goal with
  | |- context [read32 ?y ?a] => let E := fresh in destruct (read32 y a) as [? ?] eqn:E; apply read32_clock in E
  | |- context [read64 ?y ?a] => let E := fresh in destruct (read64 y a) as [? ?] eqn:E; apply read64_clock in E
  | |- context [if negb ?b then _ else _] => destruct b; cbn [negb]
  end; cbn [fst]; cbn [wait_ms timed_device snd] in *; lia.
Qed.

Lemma resetPort_clock c ports (x : D * Z) p : snd (fst (_resetPort c ports x p)) <= snd x + 522.
Proof.
  unfold _resetPort, readPortscReg. destruct (read32 x _) as [x1 v1] eqn:E1. apply read32_clock in E1.
  destruct (portsc_get "pp" v1 =? 0).
  - destruct (read32 _ _) as [x2 v2] eqn:E2. apply read32_clock in E2.
    unfold writePortscReg in E2. cbn [wait_ms write32 timed_device snd] in E2.
    destruct (_ =? 0); [cbn [fst]; lia|]. pose proof (reset_powered_clock x2 (_getPortRegisterSet c p) (_isUSB3Port ports p) v2). lia.
  - pose proof (reset_powered_clock x1 (_getPortRegisterSet c p) (_isUSB3Port ports p) v1). lia.
Qed.

End time.

(** Whatever the controller answers, the reset of the controller returns after
    waiting for at most 168 ms and the reset of a port after at most 522 ms.  The start
    of the controller has no such bound: with a controller that stays halted it does not
    return. *)
Theorem reset_time_bounded {D} `{XhcDevice D} c ports (d : D) p t :
  snd (fst (_resetHostController c (d, t))) <= t + 168 /\
  snd (fst (_resetPort c ports (d, t) p)) <= t + 522 /\
  ((forall d', has (snd (read32 d' (op_reg c "usbsts"))) XHCI_USBSTS_HCH = true) ->
   forall fuel, _startHostController fuel c d = Diverge).
Proof.
  split_and!.
  - apply (resetHost_clock c (d, t)).
  - apply (resetPort_clock c ports (d, t) p).
  - intros Hh fuel. unfold _startHostController. destruct (read32 d _) as [d1 v].
    generalize (write32 d1 (op_reg c "usbcmd") (Z.lor (Z.lor (Z.lor v XHCI_USBCMD_RUN_STOP)
      XHCI_USBCMD_INTERRUPTER_ENABLE) XHCI_USBCMD_HOSTSYS_ERROR_ENABLE)).
    induction fuel as [|fuel IH]; intros d2; [done|]. cbn [loop]. unfold start_body at 1.
    specialize (Hh d2). destruct (read32 d2 _) as [d3 w]. cbn [snd] in Hh. rewrite Hh. apply IH.
Qed.

(** ** What a port reset leaves behind *)
Lemma portsc_ok : layout_ok portsc_register = true. Proof. reflexivity. Qed.

Lemma reset_powered_success {D} `{XhcDevice D} (d d' : D) base usb3 v : reset_powered d base usb3 v = (d', true) ->
  exists d1 w, d' = writePortscReg d1 base w /\ portsc_get "ped" w <> 0 /\ portsc_get "csc" w = 1.
Proof.
  unfold reset_powered. destruct (poll_reset _ base usb3 _ 500) as [[d1 v1] [|t]]; [done|].
  destruct (readPortscReg _ base) as [d2 w]. destruct (Z.eqb_spec (portsc_get "ped" w) 0) as [|Hne]; [done|].
  cbn [negb]. intros [= <-]. exists d2, (portsc_set "csc" w 1). split_and!; [done| |].
  - by rewrite (fget_fset_other _ portsc_ok).
  - destruct (fget_fset_same _ portsc_ok "csc" w 1) as (o & n & E & ->); [by vm_compute; repeat constructor|].
    vm_compute in E. by injection E as <- <-.
Qed.

(** [_resetPort] reports success when it has seen the port
    enabled, but its last access writes the register back with that bit set.  The enabled
    bit is one that a 1 clears (the header documents it as R/WC): with a controller that
    does so, a port for which the reset reports success is disabled when it returns. *)
Theorem resetPort_disables {D} `{XhcDevice D} c ports (d d' : D) p :
  (forall (e : D) base w, portsc_get "ped" w <> 0 ->
     portsc_get "ped" (snd (readPortscReg (writePortscReg e base w) base)) = 0) ->
  _resetPort c ports d p = (d', true) ->
  portsc_get "ped" (snd (readPortscReg d' (_getPortRegisterSet c p))) = 0.
Proof.
  intros Hwc Hr.
  assert (exists d1 v usb3, reset_powered d1 (_getPortRegisterSet c p) usb3 v = (d', true)) as (d1 & v & usb3 & Hp).
  { revert Hr. unfold _resetPort. destruct (readPortscReg d _) as [d1 v]. destruct (_ =? 0); [|eauto].
    destruct (readPortscReg _ _) as [d2 v2]. destruct (_ =? 0); [done|eauto]. }
  destruct (reset_powered_success _ _ _ _ _ Hp) as (d2 & w & -> & Hped & _). by apply Hwc.
Qed.

Lemma has_lor w m f : Z.land m f = f -> f <> 0 -> has (Z.lor w m) f = true.
Proof.
  intros E Hf. unfold has. rewrite Z.land_lor_distr_l, E. rewrite (proj2 (Z.eqb_neq _ _)); [done|].
  intros [_ ?]%Z.lor_eq_0_iff. done.
Qed.

(** Acknowledging an interrupt writes ones to every bit of the status register except
    the event bit, which is written as it was read: the other bits that a 1 clears (host
    system error, port change, save/restore error) are cleared with it. *)
Theorem interrupt_ack_writes {D} `{XhcDevice D} c (d : D) : 0 <= m_maxInterrupters c ->
  exists d1 d2 v, _markXhciInterruptCompleted c d 0 = Done (write32 d2 (op_reg c "usbsts") v) /\
    (d2, Z.land v XHCI_USBSTS_EINT) = (fst (read32 d1 (op_reg c "usbsts")),
       Z.land (snd (read32 d1 (op_reg c "usbsts"))) XHCI_USBSTS_EINT) /\
    has v XHCI_USBSTS_HSE = true /\ has v XHCI_USBSTS_PCD = true /\ has v XHCI_USBSTS_SRE = true.
Proof.
  intros Hm. unfold _markXhciInterruptCompleted, getInterrupterRegisters. rewrite (proj2 (Z.ltb_ge _ _)) by lia.
  cbn [need mbind outcome_bind]. destruct (read32 d _) as [d0 v0].
  match goal with |- context [read32 ?e (op_reg c "usbsts")] => set (d1 := e) end.
  destruct (read32 d1 (op_reg c "usbsts")) as [d2 w] eqn:E.
  exists d1, d2, (Z.lor w (not32 XHCI_USBSTS_EINT)). rewrite E. cbn [fst snd]. split; [done|]. split.
  - f_equal. rewrite Z.land_lor_distr_l. change (Z.land (not32 XHCI_USBSTS_EINT) XHCI_USBSTS_EINT) with 0.
    apply Z.lor_0_r.
  - split_and!; by apply has_lor.
Qed.

(** ** The registers of a port *)
Definition port_offsets : list Z := [m_portscOffset; m_portpmscOffset; m_portliOffset; m_porthlpmcOffset].

(** The registers of all ports have different addresses: an access to one
    register of a port reaches no other register and no other port. *)
Theorem port_registers_apart c p p' o o' :
  0 <= m_opRegs c -> m_opRegs c + 0x1400 <= 0x10000000000000000 -> is_u8 p -> is_u8 p' ->
  o ∈ port_offsets -> o' ∈ port_offsets ->
  _getPortRegisterSet c p + o = _getPortRegisterSet c p' + o' -> p = p' /\ o = o'.
Proof.
  unfold _getPortRegisterSet, is_u8. intros H0 H1 Hp Hp' Ho Ho'. rewrite !u64_small by (unfold is_u64; lia).
  unfold port_offsets, m_portscOffset, m_portpmscOffset, m_portliOffset, m_porthlpmcOffset in *.
  rewrite !elem_of_cons in Ho, Ho'. rewrite elem_of_nil in Ho, Ho'. lia.
Qed.

(** ** Witnesses *)

(** A controller that is one port, with a flag for a reset under way: a write clears the
    enabled bit and the change bits in which it has ones and starts a reset when asked
    to; a reset ends while the driver waits and enables the port; power stays on. *)
Definition change_bits : Z := 0xFE0002.
Definition port_write (d : Z * bool) (v : Z) : Z * bool :=
  (Z.lor (Z.land (fst d) (not32 (Z.land v change_bits))) 0x200, snd d || has v 0x10).

Definition port_device : XhcDevice (Z * bool) := {|
  ro32 d a := if a =? 0x100 then 0x03000002 else if a =? 0x108 then 0x0205 else 0x04000408;
  read32 d a := (d, fst d);
  write32 d a v := port_write d v;
  read64 d a := (d, 0);
  write64 d a v := d;
  wait_ms d n := if snd d then (Z.lor (fst d) 0x200003, false) else d
|}.

Definition demo_caps : XhciCaps :=
  mkCaps 0x20 8 4 8 0 0 0 true false false true false false 0x100 0x20 0x2000 0x1000.

Lemma bit_bf i v : 0 <= i -> bf i 1 v = Z.b2z (Z.testbit v i).
Proof. intros Hi. unfold bf. rewrite Z.land_ones, Z.shiftr_div_pow2 by lia. by rewrite <- Z.testbit_spec'. Qed.

Lemma port_ped_clears d w : portsc_get "ped" w <> 0 -> portsc_get "ped" (fst (port_write d w)) = 0.
Proof.
  change (portsc_get "ped") with (bf 1 1). rewrite !bit_bf by lia. unfold port_write, not32, u32. cbn [fst].
  intros Hw. destruct (Z.testbit w 1) eqn:E; [|done].
  rewrite Z.lor_spec, Z.land_spec. change (Z.testbit 0x200 1) with false. rewrite orb_false_r.
  change 0x100000000 with (2 ^ 32). rewrite Z.mod_pow2_bits_low, lnot_testbit, Z.land_spec, E by lia.
  change (Z.testbit change_bits 1) with true. by rewrite andb_false_r.
Qed.

Lemma capability_widths_witness :
  let c := @_parseCapabilityRegisters _ port_device (0x2A0, false) 0 in
  m_maxPorts c = 4 /\ m_maxInterrupters c = 4 /\ m_maxScratchpadBuffers c = 0.
Proof.
  destruct (@capability_widths _ port_device (0x2A0, false) 0 _ eq_refl) as (_ & Hp & Hi & Hs & _).
  cbv zeta. rewrite Hp, Hi, Hs. split_and!; vm_compute; reflexivity.
Defined.

Lemma usb3_ports_found_witness :
  exists ports, @_parseExtendedCapabilityRegisters _ port_device 300 (0x2A0, false) 0 demo_caps [] = Done ports /\
    ports = [4; 5] /\ _isUSB3Port ports 5 = true.
Proof.
  destruct (@usb3_ports_found _ port_device (0x2A0, false) 0 demo_caps [0x100] 300) as [Hok _].
  - apply ext_last. vm_compute. reflexivity.
  - simpl. lia.
  - lia.
  - destruct Hok as (ports & E & Ep & _).
    + repeat constructor; vm_compute; discriminate.
    + exists ports. rewrite E, Ep. split_and!; vm_compute; reflexivity.
Defined.

Lemma reset_time_bounded_witness :
  snd (fst (@_resetPort _ (@timed_device _ port_device) demo_caps [] ((0x2A1, false), 0) 0)) <= 522.
Proof. destruct (@reset_time_bounded _ port_device demo_caps [] (0x2A1, false) 0 0) as (_ & Hp & _). exact Hp. Defined.

Lemma resetPort_disables_witness :
  exists d', @_resetPort _ port_device demo_caps [] (0x2A1, false) 0 = (d', true) /\
    portsc_get "ped" (snd (@readPortscReg _ port_device d' (_getPortRegisterSet demo_caps 0))) = 0.
Proof.
  eexists. split; [vm_compute; reflexivity|].
  eapply (@resetPort_disables _ port_device demo_caps [] (0x2A1, false) _ 0).
  - intros e base w Hw. by apply port_ped_clears.
  - vm_compute. reflexivity.
Defined.

Lemma interrupt_ack_writes_witness :
  exists d2 v, @_markXhciInterruptCompleted _ port_device demo_caps (0x2A1, false) 0 =
    Done (@write32 _ port_device d2 (op_reg demo_caps "usbsts") v) /\ has v XHCI_USBSTS_PCD = true.
Proof.
  destruct (@interrupt_ack_writes _ port_device demo_caps (0x2A1, false)) as (d1 & d2 & v & E & _ & _ & Hp & _); [simpl; lia|].
  by exists d2, v.
Defined.

Lemma port_registers_apart_witness :
  _getPortRegisterSet demo_caps 3 + m_portliOffset = _getPortRegisterSet demo_caps 3 + m_portliOffset ->
  3 = 3 /\ m_portliOffset = m_portliOffset.
Proof.
  apply (port_registers_apart demo_caps 3 3 m_portliOffset m_portliOffset);
    [vm_compute; discriminate|vm_compute; discriminate|unfold is_u8; lia|unfold is_u8; lia|..];
    unfold port_offsets; rewrite !elem_of_cons; auto.
Defined.
