(* ===== verification/XhciCommands.v ===== *)
(** * The USB host controller driver: commands and devices (kernel/src/drivers/usb/xhci.cpp)

    The memory that the driver shares with the controller belongs to the controller's
    state: the driver loads and stores words of it, and the controller may change it at
    every access to one of its registers, the doorbells among them, and while the driver
    waits; nothing is assumed of what it writes.  Modelled here are the allocation of that memory, the device context
    array, the command path (ring, doorbell, completion event), the set-up of a device
    that was attached, the handling of events and the initialisation as a whole. *)
From Stdlib Require Import ZArith Lia.
From stdpp Require Import base tactics numbers option list strings.
From S2P Require Import Prelude PageFrame Layout XhciRegs XhciRing XhciDriver.

#[local] Open Scope string_scope.
#[local] Open Scope list_scope.
#[local] Open Scope Z_scope.

(** 32-bit words of the shared memory, by the kernel's address. *)
Class XhcMemory (D : Type) := {
  load32 : D -> Z -> Z;
  store32 : D -> Z -> Z -> D
}.

(** What the driver relies on: the memory is a memory, a word holds what was stored last. *)
Class XhcMemoryLaws (D : Type) `{XhcMemory D} : Prop := {
  load_store32 : forall d a v x, load32 (store32 d a v) x = if x =? a then u32 v else load32 d x
}.

(** ** Names *)
Definition extendedCapabilityToString (id : Z) : string :=
  if id =? 0 then "Reserved" else if id =? 1 then "USB Legacy Support"
  else if id =? 2 then "Supported Protocol" else if id =? 3 then "Extended Power Management"
  else if id =? 4 then "I/O Virtualization Support" else if id =? 6 then "Local Memory Support"
  else if id =? 10 then "USB Debug Capability Support"
  else if id =? 17 then "Extended Message Interrupt Support"
  else if (7 <=? id) && (id <=? 9) then "Reserved"
  else if (11 <=? id) && (id <=? 16) then "Reserved"
  else if (18 <=? id) && (id <=? 191) then "Reserved"
  else "Vendor Specific".

Definition completion_names : list string :=
  ["INVALID"; "SUCCESS"; "DATA_BUFFER_ERROR"; "BABBLE_DETECTED_ERROR"; "USB_TRANSACTION_ERROR"; "TRB_ERROR";
   "STALL_ERROR"; "RESOURCE_ERROR"; "BANDWIDTH_ERROR"; "NO_SLOTS_AVAILABLE"; "INVALID_STREAM_TYPE";
   "SLOT_NOT_ENABLED"; "ENDPOINT_NOT_ENABLED"; "SHORT_PACKET"; "RING_UNDERRUN"; "RING_OVERRUN";
   "VF_EVENT_RING_FULL"; "PARAMETER_ERROR"; "BANDWIDTH_OVERRUN"; "CONTEXT_STATE_ERROR"; "NO_PING_RESPONSE";
   "EVENT_RING_FULL"; "INCOMPATIBLE_DEVICE"; "MISSED_SERVICE"; "COMMAND_RING_STOPPED"; "COMMAND_ABORTED";
   "STOPPED"; "STOPPED_LENGTH_INVALID"; "STOPPED_SHORT_PACKET"; "MAX_EXIT_LATENCY_ERROR"].

Definition trbCompletionCodeToString (completionCode : Z) : string :=
  default "UNKNOWN_COMPLETION_CODE" (completion_names !! Z.to_nat completionCode).

Definition XHCI_TRB_TYPE_TRANSFER_EVENT : Z := 32.
Definition XHCI_TRB_TYPE_SETUP_STAGE : Z := 2.
Definition XHCI_TRB_TYPE_DATA_STAGE : Z := 3.
Definition XHCI_TRB_TYPE_EVENT_DATA : Z := 7.
Definition XHCI_TRB_COMPLETION_CODE_SUCCESS : Z := 1.
Definition XHCI_ENDPOINT_TYPE_CONTROL : Z := 4.

(** ** The driver's object

    [x_allocs] counts the calls of [kmallocAligned], [x_uncached] are the pages marked
    uncacheable. *)
Record XhciState := mkXs {
  x_base : Z;
  x_caps : XhciCaps;
  x_usb3Ports : list Z;
  x_hcPageSize : Z;
  x_dcbaa : Z;
  x_cmd : XhciCommandRing;
  x_evt : XhciEventRing;
  x_allocs : nat;
  x_uncached : list Z }.

Definition with_caps (s : XhciState) (base : Z) (c : XhciCaps) : XhciState :=
  mkXs base c (x_usb3Ports s) (x_hcPageSize s) (x_dcbaa s) (x_cmd s) (x_evt s) (x_allocs s) (x_uncached s).
Definition with_usb3 (s : XhciState) (p : list Z) : XhciState :=
  mkXs (x_base s) (x_caps s) p (x_hcPageSize s) (x_dcbaa s) (x_cmd s) (x_evt s) (x_allocs s) (x_uncached s).
Definition with_page (s : XhciState) (v : Z) : XhciState :=
  mkXs (x_base s) (x_caps s) (x_usb3Ports s) v (x_dcbaa s) (x_cmd s) (x_evt s) (x_allocs s) (x_uncached s).
Definition with_dcbaa (s : XhciState) (v : Z) : XhciState :=
  mkXs (x_base s) (x_caps s) (x_usb3Ports s) (x_hcPageSize s) v (x_cmd s) (x_evt s) (x_allocs s) (x_uncached s).
Definition with_cmd (s : XhciState) (r : XhciCommandRing) : XhciState :=
  mkXs (x_base s) (x_caps s) (x_usb3Ports s) (x_hcPageSize s) (x_dcbaa s) r (x_evt s) (x_allocs s) (x_uncached s).
Definition with_evt (s : XhciState) (r : XhciEventRing) : XhciState :=
  mkXs (x_base s) (x_caps s) (x_usb3Ports s) (x_hcPageSize s) (x_dcbaa s) (x_cmd s) r (x_allocs s) (x_uncached s).
Definition with_alloc (s : XhciState) (page : Z) : XhciState :=
  mkXs (x_base s) (x_caps s) (x_usb3Ports s) (x_hcPageSize s) (x_dcbaa s) (x_cmd s) (x_evt s)
    (S (x_allocs s)) (page :: x_uncached s).

Section commands.
Context {D : Type} `{XhcDevice D} `{XhcMemory D}.
(** The offset of the kernel's direct map and the heap: the result of the [n]-th call of
    [kmallocAligned] with a size and an alignment. *)
Context (off : Z) (kmallocAligned : nat -> Z -> Z -> Z).

(** *** Computations on the driver and the controller *)
Definition X (A : Type) : Type := XhciState -> D -> outcome (A * XhciState * D).

#[local] Instance X_ret : MRet X := fun A a s d => Done (a, s, d).
#[local] Instance X_bind : MBind X := fun A B f x s d =>
  match x s d with Done (a, s', d') => f a s' d' | Fault => Fault | Diverge => Diverge end.

Definition here : X XhciState := fun s d => Done (s, s, d).
Definition upd (f : XhciState -> XhciState) : X unit := fun s d => Done (tt, f s, d).
Definition act (f : D -> D) : X unit := fun s d => Done (tt, s, f d).
Definition ask {A} (f : D -> D * A) : X A := fun s d => let '(d, a) := f d in Done (a, s, d).
Definition look {A} (f : D -> A) : X A := fun s d => Done (f d, s, d).
Definition run {A} (o : outcome A) : X A := fun s d =>
  match o with Done a => Done (a, s, d) | Fault => Fault | Diverge => Diverge end.
Definition runD (f : D -> outcome D) : X unit := fun s d =>
  match f d with Done d' => Done (tt, s, d') | Fault => Fault | Diverge => Diverge end.
Definition whileX (fuel : nat) (body : X bool) : X unit :=
  fun s d => loop fuel (fun '(s, d) => match body s d with
    | Done (true, s, d) => Done (inl (s, d)) | Done (false, s, d) => Done (inr (tt, s, d))
    | Fault => Fault | Diverge => Diverge end) (s, d).
Fixpoint eachX {A} (f : A -> X unit) (l : list A) : X unit :=
  match l with [] => mret tt | a :: l' => f a ;; eachX f l' end.

(** *** Words and blocks of the shared memory *)
Definition store64m (d : D) (a v : Z) : D :=
  store32 (store32 d a (u32 v)) (a + 4) (u32 (Z.shiftr v 32)).
Definition load64m (d : D) (a : Z) : Z := Z.lor (load32 d a) (Z.shiftl (load32 d (a + 4)) 32).

Definition load_trb (d : D) (a : Z) : trb := mkTrb (load64m d a) (load32 d (a + 8)) (load32 d (a + 12)).
Definition store_trb (d : D) (a : Z) (t : trb) : D :=
  store32 (store32 (store64m d a (parameter t)) (a + 8) (status t)) (a + 12) (control t).

Definition zero_words (d : D) (a size : Z) : D :=
  foldl (fun d i => store32 d (a + 4 * i) 0) d (seqZ 0 (size / 4)).

(** *** Memory for the controller *)
Definition _allocXhciMemory (size alignment boundary : Z) : X Z :=
  s ← here;
  let totalSize := size ⊞ (boundary - 1) in
  let memblock := kmallocAligned (x_allocs s) totalSize alignment in
  if memblock =? 0 then run Diverge
  else
    let aligned := Z.land (memblock ⊞ (boundary - 1)) (u64 (Z.lnot (boundary - 1))) in
    upd (fun s => with_alloc s (aligned / PAGE_SIZE)) ;;
    mret aligned.

(** The device context array and the scratchpad buffers. *)
Definition _setupDcbaa : X unit :=
  s ← here;
  let c := x_caps s in
  let contextEntrySize := if m_64ByteContextSize c then 64 else 32 in
  let dcbaaSize := contextEntrySize * (m_maxDeviceSlots c + 1) in
  dcbaa ← _allocXhciMemory dcbaaSize 64 PAGE_SIZE;
  upd (fun s => with_dcbaa s dcbaa) ;;
  act (fun d => zero_words d dcbaa dcbaaSize) ;;
  (if 0 <? m_maxScratchpadBuffers c then
     scratchpadArray ← _allocXhciMemory (m_maxScratchpadBuffers c * 8) 64 PAGE_SIZE;
     eachX (fun i =>
       scratchpad ← _allocXhciMemory PAGE_SIZE PAGE_SIZE PAGE_SIZE;
       act (fun d => store64m d (scratchpadArray + 8 * i) (virtToPhysAddr off scratchpad)))
       (seqZ 0 (m_maxScratchpadBuffers c)) ;;
     act (fun d => store64m d dcbaa (virtToPhysAddr off scratchpadArray))
   else mret tt) ;;
  act (fun d => write64 d (op_reg c "dcbaap") (virtToPhysAddr off dcbaa)).

(** [sizeof(deviceContextSize)] is the size of the variable, 8. *)
Definition _createDeviceContext (slotId : Z) : X unit :=
  s ← here;
  let deviceContextSize := if m_64ByteContextSize (x_caps s) then sizeof XhciDeviceContext64 else sizeof XhciDeviceContext32 in
  ctx ← _allocXhciMemory deviceContextSize 64 PAGE_SIZE;
  if ctx =? 0 then mret tt
  else
    act (fun d => zero_words d ctx 8) ;;
    act (fun d => store64m d (x_dcbaa s + 8 * slotId) (virtToPhysAddr off ctx)).

(** *** Events *)

(** The event ring as the memory has it now. *)
Definition synced (d : D) (r : XhciEventRing) : XhciEventRing :=
  mkEventRing (er_segmentTrbCount r)
    ((fun i => load_trb d (event_trb_ptr r i)) <$> seq 0 (er_segmentTrbCount r))
    (er_segmentBase r) (er_primarySegmentPhysicalBase r) (er_segmentTable r)
    (er_segmentTablePhysicalBase r) (er_dequeuePtr r) (er_rcsBit r).

Definition sync_events : X XhciEventRing :=
  s ← here; r ← look (fun d => synced d (x_evt s)); upd (fun s => with_evt s r) ;; mret r.

(** The registers of interrupter 0; the ring writes its dequeue pointer there. *)
Definition ir0 (c : XhciCaps) : Z := default 0 (getInterrupterRegisters c 0).
Definition no_interrupter : interrupter := mkInterrupter 0 0 0 0.

(** [if (hasUnprocessedEvents()) { dequeueEvents(events); _markXhciInterruptCompleted(0); }] :
    the addresses of the new events *)
Definition poll_events : X (list Z) :=
  r ← sync_events;
  s ← here;
  more ← run (hasUnprocessedEvents r);
  if (more : bool) then
    x ← run (dequeueEvents r [] no_interrupter);
    let '(r, events, ir) := x in
    upd (fun s => with_evt s r) ;;
    act (fun d => write64 d (reg_at (ir0 (x_caps s)) XhciInterrupterRegisters "erdp") (erdp ir)) ;;
    runD (fun d => _markXhciInterruptCompleted (x_caps s) d 0) ;;
    mret events
  else mret [].

(** The first of the events of a type, by its address. *)
Fixpoint find_event (type : Z) (d : D) (events : list Z) : option Z :=
  match events with
  | [] => None
  | p :: events' => if trbType (load_trb d p) =? type then Some p else find_event type d events'
  end.

(** *** Commands *)
Definition completionCode (t : trb) : Z := fget command_completion_status "completionCode" (status t).
Definition completion_slotId (t : trb) : Z := fget command_completion_control "slotId" (control t).

Definition _sendXhciCommand (t : trb) : X (option Z) :=
  s ← here;
  x ← run (command_enqueue (x_cmd s) t);
  let '(r, t') := x in
  upd (fun s => with_cmd s r) ;;
  act (fun d => store_trb d ((cr_physicalRingBase (x_cmd s) ⊞ off) + 16 * Z.of_nat (cr_enqueuePtr (x_cmd s))) t') ;;
  act (fun d => ringCommandDoorbell (x_caps s) d) ;;
  act (fun d => wait_ms d 40) ;;
  events ← poll_events;
  completion ← look (fun d => find_event XHCI_TRB_TYPE_CMD_COMPLETION_EVENT d events);
  match completion with
  | None => mret None
  | Some p =>
      code ← look (fun d => completionCode (load_trb d p));
      mret (if code =? XHCI_TRB_COMPLETION_CODE_SUCCESS then Some p else None)
  end.

Definition _requestDeviceSlot : X Z :=
  completion ← _sendXhciCommand (XHCI_CONSTRUCT_CMD_TRB XHCI_TRB_TYPE_ENABLE_SLOT_CMD);
  match completion with
  | None => mret 0
  | Some p => look (fun d => completion_slotId (load_trb d p))
  end.

(** *** A new device *)
Definition initial_packet_size (portSpeed : Z) : Z :=
  if portSpeed =? 2 then 8 else if (portSpeed =? 1) || (portSpeed =? 3) then 64 else 512.

(** The words of the input context that are not left zero; [ctx64] chooses the offsets of
    the structures with 64-byte contexts. *)
Definition input_context (d : D) (ctx64 : bool) (buffer port portSpeed packet ringBase : Z) : D :=
  let input := if ctx64 then XhciInputContext64 else XhciInputContext32 in
  let device := if ctx64 then XhciDeviceContext64 else XhciDeviceContext32 in
  let control := reg_at buffer input "controlContext" in
  let deviceContext := reg_at buffer input "deviceContext" in
  let slot := reg_at deviceContext device "slotContext" in
  let endpoint := reg_at deviceContext device "controlEndpointContext" in
  let d := store32 d (reg_at control XhciInputControlContext32 "addFlags") (Z.lor (Z.shiftl 1 0) (Z.shiftl 1 1)) in
  let d := store32 d (reg_at slot XhciSlotContext32 "dword0")
    (fsets slot_dword0 0 [("contextEntries", 1); ("speed", portSpeed); ("routeString", 0)]) in
  let d := store32 d (reg_at slot XhciSlotContext32 "dword1") (fsets slot_dword1 0 [("rootHubPortNum", port)]) in
  let d := store32 d (reg_at slot XhciSlotContext32 "dword2") (fsets slot_dword2 0 [("interrupterTarget", 0)]) in
  let d := store32 d (reg_at endpoint XhciEndpointContext32 "dword1")
    (fsets endpoint_dword1 0 [("endpointType", XHCI_ENDPOINT_TYPE_CONTROL); ("errorCount", 3); ("maxPacketSize", packet)]) in
  let d := store64m d (reg_at endpoint XhciEndpointContext32 "transferRingDequeuePtr")
    (fset endpoint_dequeue "dcs" ringBase 1) in
  store32 d (reg_at endpoint XhciEndpointContext32 "dword4")
    (fsets endpoint_dword4 0 [("maxEsitPayloadLo", 0); ("averageTrbLength", 8)]).

Definition addressDeviceTrb (inputContext slotId : Z) : trb :=
  mkTrb inputContext 0 (fsets address_device_control 0
    [("trbType", XHCI_TRB_TYPE_ADDRESS_DEVICE_CMD); ("bsr", 1); ("slotId", slotId)]).

Definition setupStageTrb : trb :=
  mkTrb (fsets device_request_packet 0
      [("bRequestType", 0x80); ("bRequest", 6); ("wValue", 0x0100); ("wIndex", 0); ("wLength", 8)])
    (fsets setup_stage_status 0 [("trbTransferLength", 8); ("interrupterTarget", 0)])
    (fsets setup_stage_control 0 [("trbType", XHCI_TRB_TYPE_SETUP_STAGE); ("trt", 3); ("idt", 1); ("ioc", 0)]).

Definition dataStageTrb (buffer : Z) : trb :=
  mkTrb buffer (fsets data_stage_status 0 [("trbTransferLength", 8); ("tdSize", 0); ("interrupterTarget", 0)])
    (fsets data_stage_control 0 [("trbType", XHCI_TRB_TYPE_DATA_STAGE); ("ent", 1); ("chain", 1); ("dir", 1)]).

Definition eventDataTrb (buffer : Z) : trb :=
  mkTrb buffer (fsets event_data_status 0 [("interrupterTarget", 0)])
    (fsets event_data_control 0 [("trbType", XHCI_TRB_TYPE_EVENT_DATA); ("chain", 0); ("ioc", 1)]).

(** Storing the blocks of a transfer in its ring, in order. *)
Definition transfer (r : XhciTransferRing) (t : trb) : X XhciTransferRing :=
  x ← run (transfer_enqueue r t);
  let '(r', t') := x in
  act (fun d => store_trb d ((tr_physicalRingBase r ⊞ off) + 16 * Z.of_nat (tr_enqueuePtr r)) t') ;;
  mret r'.

(** A ring in the shared memory: [ringSize] bytes are cleared, then the link block is
    stored. *)
Definition publish_ring (base : Z) (ring : list trb) : X unit :=
  act (fun d => foldl (fun d x => store_trb d (base + 16 * Z.of_nat (fst x)) (snd x)) d (imap pair ring)).

(** How the request for the device descriptor is reported: the messages name a completion
    code. *)
Inductive transfer_report :=
  | NoTransferEvent
  | TransferError (name : string)
  | TransferDone (code bytesTransfered : Z).

(** The end of [_setDeviceAddress]: the message of the error branch looks at the completion
    of the command at [completionTrb], not at the transfer event. *)
Definition report_transfer (d : D) (completionTrb : Z) (events : list Z) : transfer_report :=
  match find_event XHCI_TRB_TYPE_TRANSFER_EVENT d events with
  | None => NoTransferEvent
  | Some p =>
      let t := load_trb d p in
      let code := fget stage_completion_status "completionCode" (status t) in
      if negb (code =? XHCI_TRB_COMPLETION_CODE_SUCCESS) then
        TransferError (trbCompletionCodeToString (completionCode (load_trb d completionTrb)))
      else TransferDone code (fget stage_completion_status "bytesTransfered" (status t))
  end.

(** The control transfer that asks for the first 8 bytes of the device descriptor. *)
Definition request_descriptor (transferRing : XhciTransferRing) (completionTrb : Z) : X transfer_report :=
  s ← here;
  descriptorBuffer ← _allocXhciMemory 64 128 64;
  transferStatusBuffer ← _allocXhciMemory 64 16 16;
  transferRing ← transfer transferRing setupStageTrb;
  transferRing ← transfer transferRing (dataStageTrb (virtToPhysAddr off descriptorBuffer));
  transferRing ← transfer transferRing (eventDataTrb (virtToPhysAddr off transferStatusBuffer));
  act (fun d => ringDoorbell (x_caps s) d (tr_doorbellId transferRing) 1) ;;
  act (fun d => wait_ms d 100) ;;
  ask (fun d => read32 d (op_reg (x_caps s) "usbsts")) ;;
  events ← poll_events;
  look (fun d => report_transfer d completionTrb events).

Definition _setDeviceAddress (port slotId portSpeed : Z) : X (option transfer_report) :=
  let initialMaxPacketSize := initial_packet_size portSpeed in
  mem ← _allocXhciMemory (Z.of_nat XHCI_TRANSFER_RING_TRB_COUNT * 16) 16 0x10000;
  transferRing ← run (transfer_ring_new off mem XHCI_TRANSFER_RING_TRB_COUNT slotId);
  publish_ring mem (tr_trbRing transferRing) ;;
  s ← here;
  let ctx64 := m_64ByteContextSize (x_caps s) in
  let inputContextSize := if ctx64 then sizeof XhciInputContext64 else sizeof XhciInputContext32 in
  inputCtxBuffer ← _allocXhciMemory inputContextSize 64 PAGE_SIZE;
  act (fun d => zero_words d inputCtxBuffer inputContextSize) ;;
  act (fun d => input_context d ctx64 inputCtxBuffer port portSpeed initialMaxPacketSize
    (tr_physicalRingBase transferRing)) ;;
  completion ← _sendXhciCommand (addressDeviceTrb (virtToPhysAddr off inputCtxBuffer) slotId);
  match completion with
  | None => mret None
  | Some completionTrb => r ← request_descriptor transferRing completionTrb; mret (Some r)
  end.

Definition _handleDeviceConnected (port : Z) : X unit :=
  s ← here;
  portsc ← ask (fun d => readPortscReg d (_getPortRegisterSet (x_caps s) port));
  deviceSlot ← _requestDeviceSlot;
  if deviceSlot =? 0 then mret tt
  else
    _createDeviceContext deviceSlot ;;
    _setDeviceAddress (u8 (port + 1)) deviceSlot (portsc_get "portSpeed" portsc) ;;
    mret tt.

Definition ack_change (portsc : Z) (name : string) : Z :=
  if portsc_get name portsc =? 0 then portsc else portsc_set name portsc 1.

(** [_handleDeviceDiconnected] only prints. *)
Definition _processEventRingTrb (p : Z) : X unit :=
  t ← look (fun d => load_trb d p);
  if trbType t =? XHCI_TRB_TYPE_CMD_COMPLETION_EVENT then mret tt
  else if trbType t =? XHCI_TRB_TYPE_PORT_STATUS_CHANGE_EVENT then
    let port := u8 (fget port_status_change_parameter "portId" (u32 (parameter t)) - 1) in
    s ← here;
    let regs := _getPortRegisterSet (x_caps s) port in
    portsc ← ask (fun d => readPortscReg d regs);
    (if negb (portsc_get "csc" portsc =? 0) && negb (portsc_get "ccs" portsc =? 0)
     then _handleDeviceConnected port else mret tt) ;;
    let portsc := foldl ack_change portsc ["csc"; "pec"; "wrc"; "occ"; "prc"; "cec"] in
    act (fun d => writePortscReg d regs portsc)
  else mret tt.

(** *** Initialisation *)
Definition _configureOperationalRegisters : X unit :=
  s ← here;
  let c := x_caps s in
  pagesize ← ask (fun d => read32 d (op_reg c "pagesize"));
  upd (fun s => with_page s (u64 (Z.shiftl (Z.land pagesize 0xffff) 12))) ;;
  act (fun d => write32 d (op_reg c "dnctrl") 0xffff) ;;
  act (fun d => write32 d (op_reg c "config") (m_maxDeviceSlots c)) ;;
  _setupDcbaa ;;
  mem ← _allocXhciMemory (Z.of_nat XHCI_COMMAND_RING_TRB_COUNT * 16) 64 0x10000;
  r ← run (command_ring_new off mem XHCI_COMMAND_RING_TRB_COUNT);
  publish_ring mem (cr_trbRing r) ;;
  upd (fun s => with_cmd s r) ;;
  act (fun d => write64 d (op_reg c "crcr") (Z.lor (cr_physicalRingBase r) (cr_rcsBit r))).

Definition _configureRuntimeRegisters : X unit :=
  s ← here;
  let c := x_caps s in
  match getInterrupterRegisters c 0 with
  | None => mret tt
  | Some regs =>
      segment ← _allocXhciMemory (Z.of_nat XHCI_EVENT_RING_TRB_COUNT * 16) 64 0x10000;
      table ← _allocXhciMemory (sizeof XhciErstEntry) 64 PAGE_SIZE;
      let '(r, ir) := event_ring_new off segment table XHCI_EVENT_RING_TRB_COUNT no_interrupter in
      publish_ring segment (er_primarySegmentRing r) ;;
      act (fun d => store64m d table (er_primarySegmentPhysicalBase r)) ;;
      act (fun d => store64m d (table + 8) (Z.of_nat XHCI_EVENT_RING_TRB_COUNT)) ;;
      act (fun d => write32 d (reg_at regs XhciInterrupterRegisters "erstsz") (erstsz ir)) ;;
      act (fun d => write64 d (reg_at regs XhciInterrupterRegisters "erdp") (erdp ir)) ;;
      act (fun d => write64 d (reg_at regs XhciInterrupterRegisters "erstba") (erstba ir)) ;;
      upd (fun s => with_evt s r) ;;
      runD (fun d => _markXhciInterruptCompleted c d 0)
  end.

Definition flush_events : X unit :=
  r ← sync_events;
  s ← here;
  x ← run (flushUnprocessedEvents r no_interrupter);
  let '(r, ir) := x in
  upd (fun s => with_evt s r) ;;
  act (fun d => write64 d (reg_at (ir0 (x_caps s)) XhciInterrupterRegisters "erdp") (erdp ir)).

(** One round of the event loop, which never ends. *)
Definition event_round : X bool :=
  events ← poll_events;
  eachX _processEventRingTrb events ;;
  mret true.

(** [fuel] bounds the extended capabilities, the wait for the start and the rounds of the
    event loop; false is the failed reset. *)
Definition init (fuel : nat) (barAddress : Z) : X bool :=
  c ← look (fun d => _parseCapabilityRegisters d barAddress);
  upd (fun s => with_caps s barAddress c) ;;
  s ← here;
  usb3 ← (fun st d => match _parseExtendedCapabilityRegisters fuel d barAddress c (x_usb3Ports s) with
    | Done l => Done (l, st, d) | Fault => Fault | Diverge => Diverge end);
  upd (fun s => with_usb3 s usb3) ;;
  ok ← ask (fun d => _resetHostController c d);
  if negb ok then mret false
  else
    _configureOperationalRegisters ;;
    _configureRuntimeRegisters ;;
    runD (fun d => _startHostController fuel c d) ;;
    eachX (fun i => ask (fun d => _resetPort c usb3 d i) ;; mret tt) (seqZ 0 (m_maxPorts c)) ;;
    flush_events ;;
    eachX (fun port =>
      portsc ← ask (fun d => readPortscReg d (_getPortRegisterSet c port));
      if portsc_get "ccs" portsc =? 0 then mret tt else _handleDeviceConnected port)
      (seqZ 0 (m_maxPorts c)) ;;
    whileX fuel event_round ;;
    mret true.

(** ** The command path *)
Context {HL : XhcMemoryLaws D}.

(** The shape of the event ring the driver keeps. *)
Record ring_shape (r : XhciEventRing) : Prop := {
  rs_ptr : (er_dequeuePtr r < er_segmentTrbCount r)%nat;
  rs_bit : er_rcsBit r = 0 \/ er_rcsBit r = 1 }.

Lemma synced_ok d r : ring_shape r -> event_ring_ok (synced d r).
Proof. intros [Hp Hb]. split; simpl; [by rewrite length_fmap, length_seq|done|done]. Qed.

Lemma mark_completed_run c d : 0 <= m_maxInterrupters c -> exists d', _markXhciInterruptCompleted c d 0 = Done d'.
Proof.
  intros Hm. unfold _markXhciInterruptCompleted, getInterrupterRegisters. rewrite (proj2 (Z.ltb_ge _ _)) by lia.
  cbn [need mbind outcome_bind]. repeat (destruct (read32 _ _)). eexists. reflexivity.
Qed.

(** The controller after the driver has taken [k] events off the ring [r]: nothing happens
    when there is none; otherwise the driver writes the address of the next block to the
    dequeue pointer register, which gives the blocks of the events back, and acknowledges
    the interrupt. *)
Definition events_returned (c : XhciCaps) (r : XhciEventRing) (k : nat) (d d2 : D) : Prop :=
  if decide (k = 0%nat) then d2 = d
  else _markXhciInterruptCompleted c
    (write64 d (reg_at (ir0 c) XhciInterrupterRegisters "erdp")
       (er_primarySegmentPhysicalBase r ⊞ (Z.of_nat (event_pos r k) ⊠ 16))) 0 = Done d2.

(** Polling takes exactly the new events that the memory has when it begins. *)
Lemma poll_events_run s d : ring_shape (x_evt s) -> 0 <= m_maxInterrupters (x_caps s) ->
  let r := synced d (x_evt s) in
  exists k d2, event_count r k /\ events_returned (x_caps s) r k d d2 /\
    poll_events s d = Done (event_ptrs r k, with_evt s (event_state r k), d2).
Proof.
  intros Hs Hm r. pose proof (synced_ok d _ Hs) as Hr. fold r in Hr.
  unfold poll_events, sync_events. cbv [mbind X_bind here look upd mret X_ret run]. cbn beta iota. fold r.
  pose proof (has_events_at r Hr 0) as E0. rewrite (event_state_0 r Hr) in E0. rewrite E0.
  destruct (event_new r 0) eqn:En.
  - destruct (dequeue_loop r Hr []) as (k & Hk & El).
    unfold dequeueEvents. rewrite El. cbv [mbind outcome_bind]. cbn beta iota.
    cbv [act runD]. cbn beta iota. cbn [x_caps with_evt].
    match goal with |- context [_markXhciInterruptCompleted _ ?e 0] =>
      destruct (mark_completed_run (x_caps s) e Hm) as (d2 & Em) end.
    rewrite Em. exists k, d2. split; [done|]. split; [|done]. unfold events_returned.
    destruct (decide (k = 0%nat)) as [->|]; [|exact Em]. destruct Hk as (_ & _ & Hk). congruence.
  - exists 0%nat, d. split; [split_and!; [lia|lia|done]|]. split; [done|]. by rewrite (event_state_0 r Hr).
Qed.

(** A block that was stored is read back. *)
Lemma load_store_trb d a t : is_u64 (parameter t) -> is_u32 (status t) -> is_u32 (control t) ->
  load_trb (store_trb d a t) a = t.
Proof.
  intros Hp Hs Hc. unfold load_trb, store_trb, load64m, store64m. rewrite !load_store32, !Z.eqb_refl.
  rewrite ?(proj2 (Z.eqb_neq a (a + 12))), ?(proj2 (Z.eqb_neq a (a + 8))), ?(proj2 (Z.eqb_neq a (a + 4))),
    ?(proj2 (Z.eqb_neq (a + 4) (a + 12))), ?(proj2 (Z.eqb_neq (a + 4) (a + 8))),
    ?(proj2 (Z.eqb_neq (a + 8) (a + 12))) by lia.
  rewrite !u32_u32, (u32_small (status t)), (u32_small (control t)) by done.
  destruct t as [q st c]. cbn [parameter status control] in *. f_equal.
  rewrite (u32_small (Z.shiftr q 32)).
  2:{ rewrite Z.shiftr_div_pow2 by lia. unfold is_u64, is_u32 in *. Z.to_euclidean_division_equations. lia. }
  unfold u32. change 0x100000000 with (2 ^ 32). rewrite <- Z.land_ones by lia. bitwise.
  by rewrite (Z.testbit_neg_r _ (_ - 32)), orb_false_r by lia.
Qed.

(** Where the next command goes, and the block that is stored there. *)
Definition cmd_slot (s : XhciState) : Z :=
  (cr_physicalRingBase (x_cmd s) ⊞ off) + 16 * Z.of_nat (cr_enqueuePtr (x_cmd s)).

(** The controller after the command was stored, its doorbell rung and 40 ms passed. *)
Definition after_command (s : XhciState) (d : D) (t : trb) : D :=
  wait_ms (ringCommandDoorbell (x_caps s) (store_trb d (cmd_slot s) (set_cycleBit t (cr_rcsBit (x_cmd s))))) 40.

(** What a list of events says about a command: the first command completion among them,
    and whether it reports success. *)
Inductive first_completion : list trb -> option trb -> Prop :=
  | fc_success pre e post : Forall (fun t => trbType t <> XHCI_TRB_TYPE_CMD_COMPLETION_EVENT) pre ->
      trbType e = XHCI_TRB_TYPE_CMD_COMPLETION_EVENT -> completionCode e = XHCI_TRB_COMPLETION_CODE_SUCCESS ->
      first_completion (pre ++ e :: post) (Some e)
  | fc_error pre e post : Forall (fun t => trbType t <> XHCI_TRB_TYPE_CMD_COMPLETION_EVENT) pre ->
      trbType e = XHCI_TRB_TYPE_CMD_COMPLETION_EVENT -> completionCode e <> XHCI_TRB_COMPLETION_CODE_SUCCESS ->
      first_completion (pre ++ e :: post) None
  | fc_none l : Forall (fun t => trbType t <> XHCI_TRB_TYPE_CMD_COMPLETION_EVENT) l -> first_completion l None.

Lemma find_event_spec ty d l :
  match find_event ty d l with
  | Some p => exists pre post, l = pre ++ p :: post /\ Forall (fun q => trbType (load_trb d q) <> ty) pre /\
                               trbType (load_trb d p) = ty
  | None => Forall (fun q => trbType (load_trb d q) <> ty) l
  end.
Proof.
  induction l as [|p l IH]; cbn [find_event]; [constructor|]. destruct (Z.eqb_spec (trbType (load_trb d p)) ty) as [E|E].
  - exists [], l. by split.
  - destruct (find_event ty d l) as [q|]; [|by constructor]. destruct IH as (pre & post & -> & Hpre & Hq).
    exists (p :: pre), post. split; [done|]. split; [by constructor|done].
Qed.

Lemma sendXhciCommand_run s d t : ring_shape (x_evt s) -> 0 <= m_maxInterrupters (x_caps s) ->
  (cr_enqueuePtr (x_cmd s) < length (cr_trbRing (x_cmd s)))%nat ->
  let d1 := after_command s d t in let r := synced d1 (x_evt s) in
  exists k d2 s' p, event_count r k /\ events_returned (x_caps s) r k d1 d2 /\
    _sendXhciCommand t s d = Done (p, s', d2) /\ x_evt s' = event_state r k /\
    first_completion (load_trb d2 <$> event_ptrs r k) (load_trb d2 <$> p).
Proof.
  intros Hs Hm Hp d1 r. unfold _sendXhciCommand. cbv [mbind X_bind here look upd mret X_ret run act]. cbn beta iota.
  destruct (lookup_lt_is_Some_2 _ _ Hp) as [old Hold].
  unfold command_enqueue, ring_store. rewrite Hold. cbn [need mbind outcome_bind]. cbn beta iota.
  cbn [x_caps with_cmd]. fold (cmd_slot s).
  match goal with |- context [poll_events ?st ?e] => set (s1 := st); change e with d1 end.
  destruct (poll_events_run s1 d1) as (k & d2 & Hk & Hret & E); [done|done|].
  change (synced d1 (x_evt s1)) with r in *. rewrite E. exists k, d2.
  pose proof (find_event_spec XHCI_TRB_TYPE_CMD_COMPLETION_EVENT d2 (event_ptrs r k)) as Hf.
  destruct (find_event _ d2 _) as [p|].
  - destruct Hf as (pre & post & Hl & Hpre & Ht). rewrite Hl, fmap_app, fmap_cons.
    assert (Forall (fun t => trbType t <> XHCI_TRB_TYPE_CMD_COMPLETION_EVENT) (load_trb d2 <$> pre)) as Hpre'
      by (by apply Forall_fmap).
    destruct (Z.eqb_spec (completionCode (load_trb d2 p)) XHCI_TRB_COMPLETION_CODE_SUCCESS);
      eexists _, _; (split; [done|]; split; [done|]; split; [reflexivity|]; split; [reflexivity|]); cbn; by constructor.
  - eexists _, None. split; [done|]. split; [done|]. split; [reflexivity|]. split; [reflexivity|].
    constructor. by apply Forall_fmap.
Qed.

(** C15 (functional): requesting a device slot stores an Enable Slot command with the
    driver's cycle bit at the enqueue position of the command ring, rings the command
    doorbell, waits, and takes the new events off the event ring.  Whatever the controller
    writes to the shared memory, at the doorbell, while the driver waits or at a register
    access, the call returns: with [d1] the controller after the wait and [k] the number of
    consecutive blocks that then carry the expected cycle bit, the driver's ring has moved
    on by [k] blocks, and the blocks were given back through the dequeue pointer register
    ([d2]).  The driver looks at the [k] blocks only now: it returns the slot id of the
    first command completion in them when that reports success, and 0 (no slot) when it
    reports an error or when there is none.  When the controller has not written the
    blocks again in between, these are the events as they were delivered. *)
Theorem requestDeviceSlot_completes s d :
  ring_shape (x_evt s) -> 0 <= m_maxInterrupters (x_caps s) ->
  (cr_enqueuePtr (x_cmd s) < length (cr_trbRing (x_cmd s)))%nat ->
  cr_rcsBit (x_cmd s) = 0 \/ cr_rcsBit (x_cmd s) = 1 ->
  let t := set_cycleBit (XHCI_CONSTRUCT_CMD_TRB XHCI_TRB_TYPE_ENABLE_SLOT_CMD) (cr_rcsBit (x_cmd s)) in
  let d1 := after_command s d (XHCI_CONSTRUCT_CMD_TRB XHCI_TRB_TYPE_ENABLE_SLOT_CMD) in
  let r := synced d1 (x_evt s) in
  (trbType t = XHCI_TRB_TYPE_ENABLE_SLOT_CMD /\ cycleBit t = cr_rcsBit (x_cmd s) /\
   load_trb (store_trb d (cmd_slot s) t) (cmd_slot s) = t) /\
  exists k d2 slot s' c, event_count r k /\ events_returned (x_caps s) r k d1 d2 /\
    _requestDeviceSlot s d = Done (slot, s', d2) /\
    er_dequeuePtr (x_evt s') = event_pos r k /\ er_rcsBit (x_evt s') = event_bit r k /\
    first_completion (load_trb d2 <$> event_ptrs r k) c /\
    slot = match c with Some e => completion_slotId e | None => 0 end /\
    ((forall p, p ∈ event_ptrs r k -> load_trb d2 p = load_trb d1 p) ->
     first_completion (load_trb d1 <$> event_ptrs r k) c).
Proof.
  intros Hs Hm Hp Hb t d1 r. split.
  - unfold t. destruct Hb as [-> | ->]; (split; [reflexivity|]; split; [reflexivity|]); apply load_store_trb;
      vm_compute; (split; congruence).
  - destruct (sendXhciCommand_run s d (XHCI_CONSTRUCT_CMD_TRB XHCI_TRB_TYPE_ENABLE_SLOT_CMD) Hs Hm Hp)
      as (k & d2 & s' & p & Hk & Hret & E & Hev & Hc). fold d1 in Hk, Hret, E, Hev, Hc. fold r in Hk, Hret, Hev, Hc.
    exists k, d2, (match load_trb d2 <$> p with Some e => completion_slotId e | None => 0 end), s', (load_trb d2 <$> p).
    rewrite Hev. split_and!; try done.
    + unfold _requestDeviceSlot. cbv [mbind X_bind]. rewrite E. cbn beta iota. by destruct p.
    + intros Hkeep. assert (load_trb d1 <$> event_ptrs r k = load_trb d2 <$> event_ptrs r k) as ->; [|done].
      apply list_fmap_ext. intros i q Hq. symmetry. apply Hkeep. by apply list_elem_of_lookup_2 in Hq.
Qed.

(** ** Memory for the controller *)
Lemma align_mask x j : 0 <= j < 64 -> is_u64 x ->
  Z.land x (u64 (Z.lnot (2 ^ j - 1))) = x / 2 ^ j * 2 ^ j.
Proof.
  intros Hj Hx. rewrite <- (Z.shiftr_div_pow2 x j), <- Z.shiftl_mul_pow2 by lia.
  replace (2 ^ j - 1) with (Z.ones j) by (rewrite Z.ones_equiv; lia).
  transitivity (Z.land (Z.land x (Z.ones 64)) (Z.lnot (Z.ones j))).
  - unfold u64. change 0x10000000000000000 with (2 ^ 64). rewrite <- Z.land_ones by lia.
    rewrite <- Z.land_assoc. f_equal. apply Z.land_comm.
  - rewrite (Z.land_ones x) by lia. rewrite Z.mod_small by apply Hx. bitwise.
Qed.

Lemma alloc_run s d size alignment j : 0 <= j < 64 -> 0 <= size ->
  let total := size + (2 ^ j - 1) in
  let block := kmallocAligned (x_allocs s) total alignment in
  0 < block -> block + total < 2 ^ 64 ->
  exists a, _allocXhciMemory size alignment (2 ^ j) s d = Done (a, with_alloc s (a / PAGE_SIZE), d) /\
    a mod 2 ^ j = 0 /\ block <= a /\ a + size <= block + total.
Proof.
  intros Hj Hs total block Hb Hend. assert (0 < 2 ^ j) as Hp by lia.
  unfold _allocXhciMemory. cbv [mbind X_bind here run upd mret X_ret].
  rewrite (u64_small (size + (2 ^ j - 1))) by (unfold is_u64; fold total; lia). fold total. fold block.
  rewrite (proj2 (Z.eqb_neq block 0)) by lia. rewrite (u64_small (block + _)) by (unfold is_u64, total in *; lia).
  rewrite align_mask by (done || (unfold is_u64, total in *; lia)). eexists. split; [reflexivity|].
  rewrite Z.mod_mul by lia. split; [done|]. unfold total in *.
  pose proof (Z.div_mod (block + (2 ^ j - 1)) (2 ^ j) ltac:(lia)).
  pose proof (Z.mod_pos_bound (block + (2 ^ j - 1)) (2 ^ j) ltac:(lia)). lia.
Qed.

(** Creating the context of a device enters the physical address
    of a page-aligned block into the device context array, but clears only its first eight
    bytes (the size of the variable that holds the size): everything behind them, the
    endpoint contexts too, still holds what the heap block held before. *)
Theorem createDeviceContext_stale s d slotId :
  let size := if m_64ByteContextSize (x_caps s) then sizeof XhciDeviceContext64 else sizeof XhciDeviceContext32 in
  let block := kmallocAligned (x_allocs s) (size + 4095) 64 in
  0 < block -> block + size + 4095 < 2 ^ 64 -> 0 <= slotId ->
  (x_dcbaa s + 8 * slotId + 8 <= block \/ block + size + 4095 <= x_dcbaa s + 8 * slotId) ->
  exists ctx s' d', _createDeviceContext slotId s d = Done (tt, s', d') /\
    ctx mod PAGE_SIZE = 0 /\ block <= ctx /\ ctx + size <= block + size + 4095 /\
    load64m d' (x_dcbaa s + 8 * slotId) = u64 (virtToPhysAddr off ctx) /\
    load32 d' ctx = 0 /\ load32 d' (ctx + 4) = 0 /\
    forall x, ctx + 8 <= x < ctx + size -> load32 d' x = load32 d x.
Proof.
  intros size block Hb Hend Hslot Hsep.
  assert (64 <= size) as Hsz by (unfold size; destruct (m_64ByteContextSize _); vm_compute; discriminate).
  destruct (alloc_run s d size 64 12 ltac:(lia) ltac:(lia)) as (ctx & E & Hal & Hlo & Hhi);
    [exact Hb|change (2 ^ 12 - 1) with 4095; fold block; lia|].
  change (2 ^ 12 - 1) with 4095 in *. change (2 ^ 12) with 4096 in *. fold block in Hlo, Hhi.
  unfold _createDeviceContext. cbv [mbind X_bind here]. change PAGE_SIZE with 4096. fold size.
  rewrite E. cbn beta iota. rewrite (proj2 (Z.eqb_neq ctx 0)) by lia. cbv [act].
  exists ctx. do 2 eexists. split; [reflexivity|]. split_and!; [done|lia|lia|..].
  - unfold load64m, store64m. rewrite !load_store32, Z.eqb_refl, Z.eqb_refl.
    rewrite (proj2 (Z.eqb_neq (x_dcbaa s + 8 * slotId) _)) by lia. rewrite !u32_u32.
    unfold u64. change 0x10000000000000000 with (2 ^ 64). rewrite <- Z.land_ones by lia.
    unfold u32. change 0x100000000 with (2 ^ 32). rewrite <- !Z.land_ones by lia. bitwise;
      by rewrite ?(Z.testbit_neg_r _ (_ - 32)), ?orb_false_r by lia.
  - unfold store64m, zero_words. change (seqZ 0 (8 / 4)) with [0; 1]. cbn [foldl].
    rewrite !load_store32, (proj2 (Z.eqb_neq ctx (x_dcbaa s + 8 * slotId + 4))),
      (proj2 (Z.eqb_neq ctx (x_dcbaa s + 8 * slotId))), (proj2 (Z.eqb_neq ctx (ctx + 4 * 1))) by lia.
    by rewrite Z.add_0_r, Z.eqb_refl.
  - unfold store64m, zero_words. change (seqZ 0 (8 / 4)) with [0; 1]. cbn [foldl].
    rewrite !load_store32, (proj2 (Z.eqb_neq (ctx + 4) (x_dcbaa s + 8 * slotId + 4))),
      (proj2 (Z.eqb_neq (ctx + 4) (x_dcbaa s + 8 * slotId))) by lia.
    by rewrite Z.mul_1_r, Z.eqb_refl.
  - intros x Hx. unfold store64m, zero_words. change (seqZ 0 (8 / 4)) with [0; 1]. cbn [foldl].
    rewrite !load_store32. by rewrite !(proj2 (Z.eqb_neq x _)) by lia.
Qed.

End commands.

(** The message interrupt capability, which the header numbers 5, is named "Vendor
    Specific". *)
Lemma extendedCapability_names : extendedCapabilityToString 5 = "Vendor Specific" /\
  forall id, 192 <= id <= 255 -> extendedCapabilityToString id = "Vendor Specific".
Proof.
  split; [reflexivity|]. intros id Hid. unfold extendedCapabilityToString.
  rewrite !(proj2 (Z.eqb_neq id _)) by lia. rewrite (proj2 (Z.leb_gt id 9)), (proj2 (Z.leb_gt id 16)),
    (proj2 (Z.leb_gt id 191)) by lia. by rewrite !andb_false_r.
Qed.

(** A transfer that failed is reported with the name of the wrong code: as long
    as the block of the completed Address Device command is in the event ring, the message
    says that the code was the one of success, whatever the code of the transfer event was. *)
Theorem failed_transfer_misreported {D} `{XhcDevice D} `{XhcMemory D} (d : D) completionTrb events p :
  find_event XHCI_TRB_TYPE_TRANSFER_EVENT d events = Some p ->
  completionCode (load_trb d completionTrb) = XHCI_TRB_COMPLETION_CODE_SUCCESS ->
  report_transfer d completionTrb events =
    (if fget stage_completion_status "completionCode" (status (load_trb d p)) =? XHCI_TRB_COMPLETION_CODE_SUCCESS
     then TransferDone 1 (fget stage_completion_status "bytesTransfered" (status (load_trb d p)))
     else TransferError "SUCCESS").
Proof.
  intros E Hc. unfold report_transfer. rewrite E, Hc. cbv zeta.
  by destruct (Z.eqb_spec (fget stage_completion_status "completionCode" (status (load_trb d p)))
    XHCI_TRB_COMPLETION_CODE_SUCCESS) as [->|].
Qed.

(** ** Witnesses *)

(** A controller that is a memory: while the driver waits it posts the completion of a
    slot request, slot 5, in the first block of the event ring at 0x9000. *)
Definition memory_device : XhcDevice (Z -> Z) := {|
  ro32 d a := 0;
  read32 d a := (d, 0);
  write32 d a v := d;
  read64 d a := (d, 0);
  write64 d a v := d;
  wait_ms d n := fun x => if x =? 0x9008 then 0x01000000 else if x =? 0x900C then 0x05008401 else d x
|}.
Definition memory_words : XhcMemory (Z -> Z) := {|
  load32 d a := d a;
  store32 d a v := fun x => if x =? a then u32 v else d x
|}.

Lemma memory_laws : @XhcMemoryLaws (Z -> Z) memory_words.
Proof. split; done. Qed.

Definition demo_state : XhciState :=
  mkXs 0 demo_caps [] 4096 0x7000
    (mkCommandRing 256 0 (replicate 256 zero_trb) 0x3000 1)
    (mkEventRing 256 (replicate 256 zero_trb) 0x9000 0x4000 [] 0 0 1) 0 [].

Lemma requestDeviceSlot_completes_witness :
  exists s' d', @_requestDeviceSlot _ memory_device memory_words 0x5000 demo_state (fun _ => 0) = Done (5, s', d').
Proof.
  destruct (@requestDeviceSlot_completes _ memory_device memory_words 0x5000 (fun _ _ _ => 0) memory_laws demo_state (fun _ => 0))
    as (_ & k & d2 & slot & s' & c & (_ & Hall & Hend) & Hret & E & _ & _ & Hc & Hslot & _).
  - split; [simpl; lia|by right].
  - simpl. lia.
  - cbn [demo_state x_cmd cr_enqueuePtr cr_trbRing]. rewrite length_replicate. lia.
  - by right.
  - exists s', d2. rewrite E. do 3 f_equal. rewrite Hslot.
    destruct k as [|[|k]]; [vm_compute in Hend; discriminate| |].
    + vm_compute in Hret. injection Hret as <-. vm_compute in Hc.
      inversion Hc as [pre e post Hpre He Hcode E1|pre e post Hpre He Hcode E1|l Hl E1].
      * destruct pre as [|x pre]; [injection E1 as -> _; reflexivity|].
        injection E1 as _ E1. by destruct pre.
      * destruct pre as [|x pre]; [injection E1 as -> _; by vm_compute in Hcode|].
        injection E1 as _ E1. by destruct pre.
      * subst l. apply Forall_cons in Hl as [Hl _]. by vm_compute in Hl.
    + specialize (Hall 1%nat ltac:(lia)). vm_compute in Hall. discriminate.
Defined.

Lemma createDeviceContext_stale_witness :
  exists s' d', @_createDeviceContext _ memory_words 0 (fun n size al => 0x10000)
      5 demo_state (fun x => 0xAA) = Done (tt, s', d') /\
    d' 0x10004 = 0 /\ d' 0x10008 = 0xAA.
Proof.
  destruct (@createDeviceContext_stale _ memory_words 0 (fun n size al => 0x10000) memory_laws
    demo_state (fun _ => 0xAA) 5) as (ctx & s' & d' & E & Hal & Hlo & Hhi & _ & _ & H4 & Hst);
    [lia|vm_compute; reflexivity|lia|left; simpl; lia|].
  exists s', d'. split; [exact E|].
  assert (ctx = 0x10000) as -> by (unfold PAGE_SIZE in Hal; Z.to_euclidean_division_equations; lia).
  split; [exact H4|]. apply (Hst 0x10008). split; [lia|vm_compute; reflexivity].
Defined.

(** A stall (code 6) at 0x9010, after the completion of the command at 0x9000. *)
Lemma failed_transfer_misreported_witness :
  let d : Z -> Z := fun x => if x =? 0x9008 then 0x01000000 else if x =? 0x9018 then 0x06000000
                             else if x =? 0x901C then 0x8001 else 0 in
  @report_transfer _ memory_words d 0x9000 [0x9010] = TransferError "SUCCESS".
Proof.
  intros d. apply (@failed_transfer_misreported _ memory_device memory_words d 0x9000 [0x9010] 0x9010); reflexivity.
Defined.
