(* ===== verification/Pci.v ===== *)
(** * PCI configuration space (kernel/src/pci/pci.cpp, pci.h)

    The kernel reaches the configuration space through two ports: a write to
    [PCI_CONFIG_ADDRESS] selects a 32-bit word, and [PCI_CONFIG_DATA] reads or writes the
    selected word.  [PciBus] is the state behind the ports: the latched address and the
    words.  The accesses narrower than a word, the decoding of a base address register
    and the names of devices are functions over it. *)
From Stdlib Require Import ZArith Lia String.
From stdpp Require Import base tactics numbers option list.
From S2P Require Import Prelude.
Local Open Scope string_scope.
Local Open Scope list_scope.
Local Open Scope Z_scope.

(** ** Ports *)
Definition PCI_CONFIG_ADDRESS : Z := 0xCF8.
Definition PCI_CONFIG_DATA : Z := 0xCFC.
Definition PCI_COMMAND_REGISTER : Z := 0x04.

(** [pci_words a] is the word selected by [a] (a multiple of 4, bit 31 set). *)
Record PciBus := mkBus { pci_latch : Z; pci_words : Z -> Z }.

Definition outl (port : Z) (b : PciBus) (value : Z) : PciBus :=
  if port =? PCI_CONFIG_ADDRESS then mkBus (u32 value) (pci_words b)
  else if port =? PCI_CONFIG_DATA
  then mkBus (pci_latch b) (fun a => if a =? pci_latch b then u32 value else pci_words b a)
  else b.

Definition inl_ (port : Z) (b : PciBus) : Z :=
  if port =? PCI_CONFIG_DATA then pci_words b (pci_latch b) else pci_latch b.

(** ** Accesses *)
Definition _getPciConfigAddress (bus slot func offset : Z) : Z :=
  Z.lor (Z.lor (Z.lor (Z.lor (u32 (Z.shiftl bus 16)) (u32 (Z.shiftl slot 11)))
    (u32 (Z.shiftl func 8))) (Z.land offset 0xfc)) 0x80000000.

Definition pciConfigRead8 (b : PciBus) (bus slot func offset : Z) : PciBus * Z :=
  let b := outl PCI_CONFIG_ADDRESS b (_getPciConfigAddress bus slot func offset) in
  let data := inl_ PCI_CONFIG_DATA b in
  (b, Z.land (Z.shiftr data (Z.land offset 3 * 8)) 0xff).

Definition pciConfigRead16 (b : PciBus) (bus slot func offset : Z) : PciBus * Z :=
  let b := outl PCI_CONFIG_ADDRESS b (_getPciConfigAddress bus slot func offset) in
  let data := inl_ PCI_CONFIG_DATA b in
  (b, Z.land (Z.shiftr data (Z.land offset 2 * 8)) 0xffff).

Definition pciConfigRead32 (b : PciBus) (bus slot func offset : Z) : PciBus * Z :=
  let b := outl PCI_CONFIG_ADDRESS b (_getPciConfigAddress bus slot func offset) in
  (b, inl_ PCI_CONFIG_DATA b).

Definition pciConfigWrite8 (b : PciBus) (bus slot func offset value : Z) : PciBus :=
  let b := outl PCI_CONFIG_ADDRESS b (_getPciConfigAddress bus slot func offset) in
  let data := inl_ PCI_CONFIG_DATA b in
  let data := Z.land data (u32 (Z.lnot (Z.shiftl 0xff (Z.land offset 3 * 8)))) in
  let data := Z.lor data (u32 (Z.shiftl value (Z.land offset 3 * 8))) in
  outl PCI_CONFIG_DATA b data.

Definition pciConfigWrite16 (b : PciBus) (bus slot func offset value : Z) : PciBus :=
  let b := outl PCI_CONFIG_ADDRESS b (_getPciConfigAddress bus slot func offset) in
  let data := inl_ PCI_CONFIG_DATA b in
  let data := Z.land data (u32 (Z.lnot (Z.shiftl 0xffff (Z.land offset 2 * 8)))) in
  let data := Z.lor data (u32 (Z.shiftl value (Z.land offset 2 * 8))) in
  outl PCI_CONFIG_DATA b data.

Definition pciConfigWrite32 (b : PciBus) (bus slot func offset value : Z) : PciBus :=
  let b := outl PCI_CONFIG_ADDRESS b (_getPciConfigAddress bus slot func offset) in
  outl PCI_CONFIG_DATA b value.

Definition enableBusMastering (b : PciBus) (bus slot func : Z) : PciBus :=
  let '(b, commandReg) := pciConfigRead16 b bus slot func PCI_COMMAND_REGISTER in
  pciConfigWrite16 b bus slot func PCI_COMMAND_REGISTER (Z.lor commandReg 0x04).

(** ** The header of a device *)
Record PciDeviceHeader := mkPciHeader {
  vendorID : Z; deviceID : Z; command : Z; status : Z;
  revisionID : Z; progIF : Z; subclass : Z; classCode : Z;
  cacheLineSize : Z; latencyTimer : Z; headerType : Z; bist : Z;
  bar : list Z;
  cardbusCISPtr : Z; subsystemVendorID : Z; subsystemID : Z; expansionROMBaseAddr : Z;
  capabilitiesPtr : Z; interruptLine : Z; interruptPin : Z; minGrant : Z; maxLatency : Z;
}.

(** [for (int i = 0; i < 2; i++)] over the first two base address registers *)
Definition getBarFromPciHeader (header : PciDeviceHeader) : outcome Z :=
  loop 3 (fun i =>
    if i <? 2 then
      barValue ← need (bar header !! Z.to_nat i);
      if Z.land barValue 0x1 =? 0 then
        if Z.land barValue 0x6 =? 0x4 then
          high ← need (bar header !! Z.to_nat (i + 1));
          Done (inr (Z.lor (u64 (Z.shiftl high 32)) (Z.land barValue (u32 (Z.lnot 0xf)))))
        else Done (inr (Z.land barValue (u32 (Z.lnot 0xf))))
      else Done (inl (i + 1))
    else Done (inr 0)) 0.

(** ** Names *)
Definition g_pciDeviceClasses : list string :=
  ["Unclassified"; "Mass Storage Controller"; "Network Controller"; "Display Controller";
   "Multimedia Controller"; "Memory Controller"; "Bridge Device"; "Simple Communication Controller";
   "Base System Peripheral"; "Input Device Controller"; "Docking Station"; "Processor";
   "Serial Bus Controller"; "Wireless Controller"; "Intelligent Controller";
   "Satellite Communication Controller"; "Encryption Controller"; "Signal Processing Controller";
   "Processing Accelerator"; "Non Essential Instrumentation"].

(** The class code is the index; an index behind the array leaves it. *)
Definition getPciDeviceType (classCode : Z) : outcome string :=
  need (g_pciDeviceClasses !! Z.to_nat classCode).

Definition getPciVendorName (vendorID : Z) : string :=
  match vendorID with
  | 0x8086 => "Intel Corp" | 0x1022 => "AMD" | 0x10DE => "NVIDIA Corporation"
  | _ => "Unknown Vendor ID"
  end.

Definition getPciDeviceName (vendorID deviceID : Z) : string :=
  match vendorID with
  | 0x8086 =>
      match deviceID with
      | 0x29C0 => "Express DRAM Controller" | 0x2918 => "LPC Interface Controller"
      | 0x2922 => "6 port SATA Controller [AHCI mode]" | 0x2930 => "SMBus Controller"
      | _ => "Unknown Device ID"
      end
  | _ => "Unknown Device ID"
  end.

Definition getPciMassStorageControllerSubclassName (subclassCode : Z) : string :=
  match subclassCode with
  | 0x00 => "SCSI Bus Controller" | 0x01 => "IDE Controller" | 0x02 => "Floppy Disk Controller"
  | 0x03 => "IPI Bus Controller" | 0x04 => "RAID Controller" | 0x05 => "ATA Controller"
  | 0x06 => "Serial ATA" | 0x07 => "Serial Attached SCSI"
  | 0x08 => "Non-Volatile Memory Controller" | 0x80 => "Other"
  | _ => "Unknown Subclass Code"
  end.

Definition getPciSerialBusControllerSubclassName (subclassCode : Z) : string :=
  match subclassCode with
  | 0x00 => "FireWire (IEEE 1394) Controller" | 0x01 => "ACCESS Bus" | 0x02 => "SSA"
  | 0x03 => "USB Controller" | 0x04 => "Fibre Channel" | 0x05 => "SMBus" | 0x06 => "Infiniband"
  | 0x07 => "IPMI Interface" | 0x08 => "SERCOS Interface (IEC 61491)" | 0x09 => "CANbus"
  | 0x80 => "SerialBusController - Other"
  | _ => "Unknown Subclass Code"
  end.

Definition getPciBridgeDeviceSubclassName (subclassCode : Z) : string :=
  match subclassCode with
  | 0x00 => "Host Bridge" | 0x01 => "ISA Bridge" | 0x02 => "EISA Bridge" | 0x03 => "MCA Bridge"
  | 0x04 => "PCI-to-PCI Bridge" | 0x05 => "PCMCIA Bridge" | 0x06 => "NuBus Bridge"
  | 0x07 => "CardBus Bridge" | 0x08 => "RACEway Bridge" | 0x09 => "PCI-to-PCI Bridge"
  | 0x0a => "InfiniBand-to-PCI Host Bridge" | 0x80 => "Other"
  | _ => "Unknown Subclass Code"
  end.

Definition getPciSubclassName (classCode subclassCode : Z) : string :=
  match classCode with
  | 0x01 => getPciMassStorageControllerSubclassName subclassCode
  | 0x03 => match subclassCode with
            | 0x00 => "VGA Compatible Controller"
            | _ => "Unknown Subclass Code"
            end
  | 0x06 => getPciBridgeDeviceSubclassName subclassCode
  | 0x0C => getPciSerialBusControllerSubclassName subclassCode
  | _ => "Unknown Subclass Code"
  end.

Definition getPciProgIFName (classCode subclassCode progIF : Z) : string :=
  match classCode, subclassCode, progIF with
  | 0x01, 0x06, 0x00 => "Vendor Specific Interface"
  | 0x01, 0x06, 0x01 => "AHCI 1.0"
  | 0x01, 0x06, 0x02 => "Serial Storage Bus"
  | 0x03, 0x00, 0x00 => "VGA Controller"
  | 0x03, 0x00, 0x01 => "8514-Compatible Controller"
  | 0x0C, 0x03, 0x00 => "UHCI Controller"
  | 0x0C, 0x03, 0x10 => "OHCI Controller"
  | 0x0C, 0x03, 0x20 => "EHCI (USB2) Controller"
  | 0x0C, 0x03, 0x30 => "XHCI (USB3) Controller"
  | 0x0C, 0x03, 0x80 => "Unspecified"
  | 0x0C, 0x03, 0xFE => "USB Device (Not a Host Controller)"
  | _, _, _ => "Unknown Controller"
  end.

(** The line that [dbgPrintPciDeviceInfo] prints: its five fields. *)
Definition dbgPrintPciDeviceInfo (header : PciDeviceHeader) : outcome (list string) :=
  type ← getPciDeviceType (classCode header);
  Done [getPciVendorName (vendorID header);
        getPciDeviceName (vendorID header) (deviceID header);
        type;
        getPciSubclassName (classCode header) (subclass header);
        getPciProgIFName (classCode header) (subclass header) (progIF header)].

(** ** The configuration space as bytes *)

(** A function of a device on a bus. *)
Definition valid_fn (bus slot func : Z) : Prop := 0 <= bus < 256 /\ 0 <= slot < 32 /\ 0 <= func < 8.

Definition bus_wf (b : PciBus) : Prop := forall a, is_u32 (pci_words b a).

(** Byte [offset] of the configuration space of a function. *)
Definition cfg_byte (b : PciBus) (bus slot func offset : Z) : Z :=
  bf (8 * (offset mod 4)) 8 (pci_words b (_getPciConfigAddress bus slot func offset)).

Lemma lor_add a b : Z.land a b = 0 -> Z.lor a b = a + b.
Proof. intros H. pose proof (Z.add_lor_land a b). lia. Qed.

Lemma land_low_high k x y : 0 <= k -> 0 <= x < 2 ^ k -> Z.land (y * 2 ^ k) x = 0.
Proof.
  intros Hk Hx. destruct (decide (x = 0)) as [->|Hne]; [apply Z.land_0_r|].
  apply Z.bits_inj'. intros i Hi. rewrite Z.land_spec, Z.bits_0.
  destruct (Z.ltb_spec i k).
  - by rewrite Z.mul_pow2_bits_low by lia.
  - rewrite (Z.bits_above_log2 x), andb_false_r; [done|lia|].
    apply Z.log2_lt_pow2; [lia|]. apply Z.lt_le_trans with (2 ^ k); [lia|]. apply Z.pow_le_mono_r; lia.
Qed.

(** Facts about the low bits of an offset, checked on all of them. *)
Lemma offset_facts offset : 0 <= offset < 256 ->
  Z.land offset 0xfc = 4 * (offset / 4) /\ Z.land offset 3 = offset mod 4 /\
  Z.land offset 2 = 2 * (offset mod 4 / 2).
Proof.
  intros Ho.
  assert (forallb (fun o => (Z.land o 0xfc =? 4 * (o / 4)) && (Z.land o 3 =? o mod 4) &&
    (Z.land o 2 =? 2 * (o mod 4 / 2))) (seqZ 0 256) = true) as H by (vm_compute; reflexivity).
  rewrite forallb_forall in H. specialize (H offset).
  rewrite !andb_true_iff, !Z.eqb_eq in H. destruct H as [[? ?] ?]; [|done].
  apply list_elem_of_In, elem_of_seqZ. lia.
Qed.

Lemma config_address bus slot func offset : valid_fn bus slot func -> 0 <= offset < 256 ->
  _getPciConfigAddress bus slot func offset =
  0x80000000 + bus * 0x10000 + slot * 0x800 + func * 0x100 + 4 * (offset / 4).
Proof.
  intros (Hb & Hs & Hf) Ho. unfold _getPciConfigAddress.
  destruct (offset_facts offset Ho) as (-> & _).
  rewrite !Z.shiftl_mul_pow2, !u32_small by (unfold is_u32; simpl Z.pow; lia).
  change (2 ^ 16) with 0x10000. change (2 ^ 11) with 0x800. change (2 ^ 8) with 0x100.
  assert (0 <= 4 * (offset / 4) < 256) as Hq by wordlia.
  rewrite (lor_add (bus * 0x10000) (slot * 0x800)) by (apply (land_low_high 16); simpl; lia).
  rewrite (lor_add _ (func * 0x100)).
  2:{ replace (bus * 0x10000 + slot * 0x800) with ((bus * 32 + slot) * 2 ^ 11) by (simpl; lia).
      apply land_low_high; simpl; lia. }
  rewrite (lor_add _ (4 * (offset / 4))).
  2:{ replace (_ + func * 0x100) with ((bus * 256 + slot * 8 + func) * 2 ^ 8) by (simpl; lia).
      apply land_low_high; simpl; lia. }
  rewrite Z.lor_comm, lor_add; [lia|].
  apply (land_low_high 31 _ 1); [lia|]. simpl. lia.
Qed.

(** Different words have different addresses. *)
Lemma config_address_inj bus slot func offset bus' slot' func' offset' :
  valid_fn bus slot func -> valid_fn bus' slot' func' -> 0 <= offset < 256 -> 0 <= offset' < 256 ->
  _getPciConfigAddress bus slot func offset = _getPciConfigAddress bus' slot' func' offset' ->
  bus = bus' /\ slot = slot' /\ func = func' /\ offset / 4 = offset' / 4.
Proof.
  intros H H' Ho Ho'. rewrite !config_address by done.
  destruct H as (? & ? & ?), H' as (? & ? & ?). intros E. wordlia.
Qed.

(** The read-modify-write of a narrow write sets a bit field. *)
Lemma narrow_write lo w data value : 0 <= lo -> 0 < w -> lo + w <= 32 ->
  is_u32 data -> 0 <= value < 2 ^ w ->
  Z.lor (Z.land data (u32 (Z.lnot (Z.shiftl (Z.ones w) lo)))) (u32 (Z.shiftl value lo)) =
  bf_set lo w data value.
Proof.
  intros Hlo Hw Hl Hd Hv.
  assert (0 <= Z.shiftl value lo < 2 ^ 32) as Hs.
  { rewrite Z.shiftl_mul_pow2 by lia. split; [apply Z.mul_nonneg_nonneg; lia|].
    apply Z.lt_le_trans with (2 ^ w * 2 ^ lo); [apply Z.mul_lt_mono_pos_r; lia|].
    rewrite <- Z.pow_add_r by lia. apply Z.pow_le_mono_r; lia. }
  rewrite (u32_small (Z.shiftl value lo)) by (unfold is_u32; simpl in Hs; lia).
  assert (data = Z.land data (Z.ones 32)) as Ed
    by (rewrite Z.land_ones, Z.mod_small; unfold is_u32 in Hd; simpl; lia).
  unfold bf_set, u32. change 0x100000000 with (2 ^ 32). rewrite <- !Z.land_ones by lia.
  rewrite (Z.land_ones value), (Z.mod_small value) by lia. f_equal.
  rewrite (Z.land_comm _ (Z.ones 32)), Z.land_assoc. by rewrite <- Ed.
Qed.

Lemma select_word b addr value : is_u32 addr ->
  inl_ PCI_CONFIG_DATA (outl PCI_CONFIG_ADDRESS b addr) = pci_words b addr /\
  forall a, pci_words (outl PCI_CONFIG_DATA (outl PCI_CONFIG_ADDRESS b addr) value) a =
    if a =? addr then u32 value else pci_words b a.
Proof. intros Ha. unfold outl, inl_. simpl. rewrite u32_small by done. done. Qed.

Lemma address_u32 bus slot func offset : valid_fn bus slot func -> 0 <= offset < 256 ->
  is_u32 (_getPciConfigAddress bus slot func offset).
Proof.
  intros H Ho. rewrite config_address by done. destruct H as (? & ? & ?). unfold is_u32. wordlia.
Qed.

Lemma bf_set_u32 lo w v x : 0 <= lo -> 0 <= w -> lo + w <= 32 -> is_u32 v -> is_u32 (bf_set lo w v x).
Proof. intros. pose proof (bf_set_range 32 lo w v x). unfold is_u32 in *. simpl in *. lia. Qed.

(** Two adjacent bytes are a 16-bit field. *)
Lemma bf_16 lo v : 0 <= lo -> bf lo 16 v = bf lo 8 v + 256 * bf (lo + 8) 8 v.
Proof.
  intros Hlo. unfold bf. rewrite !Z.land_ones, !Z.shiftr_div_pow2 by lia.
  rewrite Z.pow_add_r, <- Z.div_div by lia. change (2 ^ 16) with (2 ^ 8 * 2 ^ 8).
  rewrite Z.rem_mul_r by lia. change (2 ^ 8) with 256. lia.
Qed.

Lemma bf_set_16 lo v x : 0 <= lo ->
  bf_set lo 16 v x = bf_set (lo + 8) 8 (bf_set lo 8 v x) (Z.shiftr x 8).
Proof. intros Hlo. unfold bf_set. bitwise. Qed.

(** The word of the configuration space that holds an offset. *)
Definition cfg_word (b : PciBus) (bus slot func o : Z) : Z :=
  pci_words b (_getPciConfigAddress bus slot func o).

(** What the reads return; they only move the address latch. *)
Section reads.
Context (b : PciBus) (bus slot func o : Z) (Hfn : valid_fn bus slot func) (Ho : 0 <= o < 256).

Abbreviation latched := (mkBus (_getPciConfigAddress bus slot func o) (pci_words b)).

Lemma latch_address : outl PCI_CONFIG_ADDRESS b (_getPciConfigAddress bus slot func o) = latched.
Proof. unfold outl. cbn [Z.eqb]. by rewrite u32_small by (by apply address_u32). Qed.

Lemma read8_run : pciConfigRead8 b bus slot func o = (latched, cfg_byte b bus slot func o).
Proof.
  unfold pciConfigRead8, cfg_byte. destruct (offset_facts o Ho) as (_ & -> & _).
  rewrite latch_address. f_equal. by rewrite Z.mul_comm.
Qed.

Lemma read16_run : o mod 2 = 0 ->
  pciConfigRead16 b bus slot func o =
  (latched, cfg_byte b bus slot func o + 256 * cfg_byte b bus slot func (o + 1)).
Proof.
  intros He. unfold pciConfigRead16, cfg_byte. destruct (offset_facts o Ho) as (_ & _ & ->).
  rewrite latch_address. f_equal. unfold inl_. cbn [Z.eqb pci_words pci_latch].
  rewrite (config_address bus slot func (o + 1)), (config_address bus slot func o) by (done || wordlia).
  replace ((o + 1) / 4) with (o / 4) by wordlia.
  replace (8 * ((o + 1) mod 4)) with (8 * (o mod 4) + 8) by wordlia.
  rewrite <- bf_16 by wordlia. unfold bf. do 2 f_equal. wordlia.
Qed.

Lemma read32_run :
  pciConfigRead32 b bus slot func o = (latched, cfg_word b bus slot func (4 * (o / 4))).
Proof.
  unfold pciConfigRead32, cfg_word. rewrite latch_address. f_equal. unfold inl_. cbn [Z.eqb pci_words pci_latch].
  rewrite !config_address by (done || wordlia). do 2 f_equal. wordlia.
Qed.
End reads.

Section config.
Context (b : PciBus) (bus slot func : Z).
Hypothesis Hb : bus_wf b.
Hypothesis Hfn : valid_fn bus slot func.

(** A write to the word of [offset] leaves the bytes of all other words alone. *)
Lemma cfg_byte_write offset data bus' slot' func' o' :
  valid_fn bus' slot' func' -> 0 <= offset < 256 -> 0 <= o' < 256 -> is_u32 data ->
  cfg_byte (outl PCI_CONFIG_DATA (outl PCI_CONFIG_ADDRESS b
    (_getPciConfigAddress bus slot func offset)) data) bus' slot' func' o' =
  if bool_decide (bus' = bus /\ slot' = slot /\ func' = func /\ o' / 4 = offset / 4)
  then bf (8 * (o' mod 4)) 8 data else cfg_byte b bus' slot' func' o'.
Proof.
  intros Hfn' Ho Ho' Hd. unfold cfg_byte.
  destruct (select_word b (_getPciConfigAddress bus slot func offset) data
    (address_u32 _ _ _ _ Hfn Ho)) as [_ ->].
  destruct (Z.eqb_spec (_getPciConfigAddress bus' slot' func' o') (_getPciConfigAddress bus slot func offset))
    as [E|E].
  - apply config_address_inj in E; [|done..]. rewrite bool_decide_true by done. by rewrite u32_small.
  - rewrite bool_decide_false; [done|]. intros (-> & -> & -> & Eo). apply E.
    rewrite !config_address by done. by rewrite Eo.
Qed.

Lemma write8_word offset value : 0 <= offset < 256 -> is_u8 value ->
  pciConfigWrite8 b bus slot func offset value =
  outl PCI_CONFIG_DATA (outl PCI_CONFIG_ADDRESS b (_getPciConfigAddress bus slot func offset))
    (bf_set (8 * (offset mod 4)) 8 (pci_words b (_getPciConfigAddress bus slot func offset)) value).
Proof.
  intros Ho Hv. unfold pciConfigWrite8.
  destruct (select_word b (_getPciConfigAddress bus slot func offset) 0 (address_u32 _ _ _ _ Hfn Ho)) as [-> _].
  destruct (offset_facts offset Ho) as (_ & -> & _).
  replace (offset mod 4 * 8) with (8 * (offset mod 4)) by lia. change 0xff with (Z.ones 8).
  rewrite narrow_write; [done|wordlia|lia|wordlia|apply Hb|unfold is_u8 in Hv; simpl; lia].
Qed.

Lemma write16_word offset value : 0 <= offset < 256 -> offset mod 2 = 0 -> 0 <= value < 65536 ->
  pciConfigWrite16 b bus slot func offset value =
  outl PCI_CONFIG_DATA (outl PCI_CONFIG_ADDRESS b (_getPciConfigAddress bus slot func offset))
    (bf_set (8 * (offset mod 4)) 16 (pci_words b (_getPciConfigAddress bus slot func offset)) value).
Proof.
  intros Ho He Hv. unfold pciConfigWrite16.
  destruct (select_word b (_getPciConfigAddress bus slot func offset) 0 (address_u32 _ _ _ _ Hfn Ho)) as [-> _].
  destruct (offset_facts offset Ho) as (_ & _ & ->).
  replace (2 * (offset mod 4 / 2) * 8) with (8 * (offset mod 4)) by wordlia. change 0xffff with (Z.ones 16).
  rewrite narrow_write; [done|wordlia|lia|wordlia|apply Hb|simpl; lia].
Qed.

(** One byte of a word with one field set. *)
Lemma byte_of_set8 k k' v x : 0 <= k < 4 -> 0 <= k' < 4 -> is_u8 x ->
  bf (8 * k') 8 (bf_set (8 * k) 8 v x) = if k' =? k then x else bf (8 * k') 8 v.
Proof.
  intros Hk Hk' Hx. destruct (Z.eqb_spec k' k) as [->|].
  - rewrite bf_set_same by lia. apply Z.mod_small. unfold is_u8 in Hx. simpl. lia.
  - apply bf_set_other; lia.
Qed.

Lemma byte_of_set16 k k' v x : 0 <= k < 4 -> k mod 2 = 0 -> 0 <= k' < 4 -> 0 <= x < 65536 ->
  bf (8 * k') 8 (bf_set (8 * k) 16 v x) =
  if k' =? k then x mod 256 else if k' =? k + 1 then x / 256 else bf (8 * k') 8 v.
Proof.
  intros Hk He Hk' Hx. rewrite bf_set_16 by lia. rewrite Z.shiftr_div_pow2 by lia. change (2 ^ 8) with 256.
  destruct (Z.eqb_spec k' k) as [->|]; [|destruct (Z.eqb_spec k' (k + 1)) as [->|]].
  - rewrite bf_set_other, bf_set_same by lia. done.
  - replace (8 * (k + 1)) with (8 * k + 8) by lia. rewrite bf_set_same by lia.
    apply Z.mod_small. simpl. wordlia.
  - rewrite !bf_set_other by lia. done.
Qed.

(** The accesses of every width see one array of bytes per function.
    A read returns the bytes at its offset; a write of one or two bytes stores exactly
    those, and leaves every other byte of the same word, of the same function and of
    every other function unchanged. *)
Theorem pci_config_bytes offset value :
  0 <= offset < 256 -> 0 <= value < 65536 ->
  snd (pciConfigRead8 b bus slot func offset) = cfg_byte b bus slot func offset /\
  (offset mod 2 = 0 -> snd (pciConfigRead16 b bus slot func offset) =
     cfg_byte b bus slot func offset + 256 * cfg_byte b bus slot func (offset + 1)) /\
  (forall bus' slot' func' o', valid_fn bus' slot' func' -> 0 <= o' < 256 ->
     (value < 256 -> cfg_byte (pciConfigWrite8 b bus slot func offset value) bus' slot' func' o' =
        if bool_decide (bus' = bus /\ slot' = slot /\ func' = func /\ o' = offset)
        then value else cfg_byte b bus' slot' func' o') /\
     (offset mod 2 = 0 ->
        cfg_byte (pciConfigWrite16 b bus slot func offset value) bus' slot' func' o' =
        if bool_decide (bus' = bus /\ slot' = slot /\ func' = func /\ o' = offset) then value mod 256
        else if bool_decide (bus' = bus /\ slot' = slot /\ func' = func /\ o' = offset + 1)
        then value / 256 else cfg_byte b bus' slot' func' o')).
Proof.
  intros Ho Hv. split_and!.
  - by rewrite read8_run.
  - intros He. by rewrite read16_run.
  - intros bus' slot' func' o' Hfn' Ho'. split; [intros Hv8|intros He].
    + assert (is_u8 value) by (unfold is_u8; lia).
      rewrite write8_word, cfg_byte_write; try done; [|apply bf_set_u32; [wordlia|lia|wordlia|apply Hb]].
      destruct (decide (bus' = bus /\ slot' = slot /\ func' = func)) as [(-> & -> & ->)|Hne].
      2:{ rewrite !bool_decide_false by tauto. done. }
      destruct (decide (o' / 4 = offset / 4)) as [Eo|Eo].
      * rewrite bool_decide_true, byte_of_set8 by (done || wordlia).
        unfold cfg_byte. rewrite !config_address, Eo by done.
        destruct (Z.eqb_spec (o' mod 4) (offset mod 4)); case_bool_decide; try done; exfalso; wordlia.
      * rewrite !bool_decide_false; try done; intros (_ & _ & _ & E); subst; wordlia.
    + rewrite write16_word, cfg_byte_write; try done; [|apply bf_set_u32; [wordlia|lia|wordlia|apply Hb]].
      destruct (decide (bus' = bus /\ slot' = slot /\ func' = func)) as [(-> & -> & ->)|Hne].
      2:{ rewrite !bool_decide_false by tauto. done. }
      destruct (decide (o' / 4 = offset / 4)) as [Eo|Eo].
      * rewrite bool_decide_true, byte_of_set16 by (done || wordlia).
        unfold cfg_byte. rewrite !config_address, Eo by done.
        destruct (Z.eqb_spec (o' mod 4) (offset mod 4)), (Z.eqb_spec (o' mod 4) (offset mod 4 + 1));
          repeat case_bool_decide; try done; exfalso; wordlia.
      * rewrite !bool_decide_false; try done; intros (_ & _ & _ & E); subst; wordlia.
Qed.
End config.

(** [enableBusMastering] sets bit 2 of the command register and nothing else. *)
Theorem enableBusMastering_sets b bus slot func o : bus_wf b -> valid_fn bus slot func -> 0 <= o < 256 ->
  cfg_byte (enableBusMastering b bus slot func) bus slot func o =
  if o =? 4 then Z.lor (cfg_byte b bus slot func 4) 4 else cfg_byte b bus slot func o.
Proof.
  intros Hb Hfn Ho. unfold enableBusMastering, pciConfigRead16.
  destruct (select_word b (_getPciConfigAddress bus slot func PCI_COMMAND_REGISTER) 0
    (address_u32 bus slot func PCI_COMMAND_REGISTER Hfn ltac:(unfold PCI_COMMAND_REGISTER; lia))) as [-> _].
  set (w := pci_words b _).
  set (b' := outl PCI_CONFIG_ADDRESS b _).
  assert (bus_wf b') as Hb' by exact Hb.
  assert (forall o, cfg_byte b' bus slot func o = cfg_byte b bus slot func o) as Ec by done.
  assert (pci_words b' (_getPciConfigAddress bus slot func 4) = w) as Ew by done.
  set (c := Z.land (Z.shiftr w (Z.land PCI_COMMAND_REGISTER 2 * 8)) 0xffff).
  assert (c = bf 0 16 w) as -> by done.
  pose proof (bf_range 0 16 w ltac:(lia)) as Hc. change (2 ^ 16) with 65536 in Hc.
  assert (0 <= Z.lor (bf 0 16 w) 4 < 65536) as Hl.
  { split; [apply Z.lor_nonneg; lia|].
    assert (Z.lor (bf 0 16 w) 4 = Z.lor (bf 0 16 w) 4 mod 2 ^ 16) as ->; [|apply Z.mod_pos_bound; simpl; lia].
    rewrite <- Z.land_ones, Z.land_lor_distr_l, Z.land_ones by lia. rewrite Z.mod_small by (simpl; lia). done. }
  rewrite (write16_word b' bus slot func Hb' Hfn) by (unfold PCI_COMMAND_REGISTER; done || lia).
  unfold PCI_COMMAND_REGISTER. change (8 * (4 mod 4)) with (8 * 0). rewrite Ew.
  rewrite (cfg_byte_write b' bus slot func Hfn) by (done || lia || (apply bf_set_u32; [lia..|apply Hb])).
  destruct (Z.eqb_spec o 4) as [->|Hne].
  - rewrite bool_decide_true, (byte_of_set16 0) by (done || lia). simpl.
    change (Z.lor (bf 0 16 w) 4 mod 2 ^ 8 = Z.lor (bf 0 8 w) 4).
    rewrite <- Z.land_ones by lia. unfold bf.
    bitwise; symmetry; apply (Z.bits_above_log2 4); simpl; lia.
  - case_bool_decide as E; [|apply Ec]. destruct E as (_ & _ & _ & Eo). change (4 / 4) with 1 in Eo.
    rewrite byte_of_set16 by (done || wordlia).
    assert (_getPciConfigAddress bus slot func o = _getPciConfigAddress bus slot func 4) as Ea
      by (rewrite !config_address by (done || lia); by rewrite Eo).
    destruct (Z.eqb_spec (o mod 4) 0); [wordlia|].
    destruct (Z.eqb_spec (o mod 4) (0 + 1)) as [E1|]; [|unfold cfg_byte; by rewrite Ea].
    unfold cfg_byte. rewrite Ea, E1. fold w. change (8 * (0 + 1)) with 8.
    assert (Z.lor (bf 0 16 w) 4 / 256 = Z.shiftr (Z.lor (bf 0 16 w) 4) 8) as ->
      by (by rewrite Z.shiftr_div_pow2 by lia).
    rewrite Z.shiftr_lor. change (Z.shiftr 4 8) with 0. rewrite Z.lor_0_r. unfold bf. bitwise.
Qed.

(** ** Base address registers *)

(** The two registers that hold a 64-bit address, and the one of a 32-bit address. *)
Definition bar64 (a : Z) (prefetch : bool) : list Z :=
  [Z.lor (a mod 2 ^ 32) (if prefetch then 0xc else 0x4); a / 2 ^ 32].
Definition bar32 (a : Z) (prefetch : bool) : Z := Z.lor a (if prefetch then 0x8 else 0).

Definition with_bars (l : list Z) : PciDeviceHeader :=
  mkPciHeader 0 0 0 0 0 0 0 0 0 0 0 0 l 0 0 0 0 0 0 0 0 0.

(** The flags in the low four bits do not disturb the address. *)
Lemma bar_flags a f k : 0 <= a -> a mod 16 = 0 -> 0 <= f < 16 -> 0 <= k < 16 ->
  Z.land (Z.lor a f) k = Z.land f k /\ (a < 2 ^ 32 -> Z.land (Z.lor a f) (u32 (Z.lnot 0xf)) = a).
Proof.
  intros Ha Hm Hf Hk.
  assert (a = (a / 16) * 2 ^ 4) as E by (simpl; wordlia).
  assert (forall x, 0 <= x < 16 -> Z.land a x = 0) as Hz
    by (intros x Hx; rewrite E; apply land_low_high; simpl; lia).
  split; [by rewrite Z.land_lor_distr_l, Hz by done|]. intros Hlt.
  change (u32 (Z.lnot 0xf)) with (Z.ldiff (Z.ones 32) (Z.ones 4)).
  assert (forall x, Z.land x (Z.ldiff (Z.ones 32) (Z.ones 4)) = Z.ldiff (Z.land x (Z.ones 32)) (Z.ones 4)) as El.
  { intros x. apply Z.bits_inj'. intros i Hi. rewrite Z.land_spec, !Z.ldiff_spec, Z.land_spec.
    by rewrite andb_assoc. }
  rewrite Z.land_lor_distr_l, !El, !Z.land_ones, !Z.mod_small by (simpl; lia).
  rewrite !Z.ldiff_ones_r, !Z.shiftl_mul_pow2, !Z.shiftr_div_pow2 by lia.
  change (2 ^ 4) with 16. rewrite (Z.div_small f) by lia. rewrite Z.lor_0_r. wordlia.
Qed.

(** [getBarFromPciHeader] recovers the address that a device encodes in
    its first base address register, 64 bits wide or 32, prefetchable or not; when the
    first register is a port, it takes the second. *)
Theorem bar_roundtrip a prefetch rest io :
  0 <= a < 2 ^ 64 -> a mod 16 = 0 ->
  getBarFromPciHeader (with_bars (bar64 a prefetch ++ rest)) = Done a /\
  (a < 2 ^ 32 -> getBarFromPciHeader (with_bars (bar32 a prefetch :: rest)) = Done a) /\
  (Z.land io 1 = 1 -> getBarFromPciHeader (with_bars (io :: bar64 a prefetch ++ rest)) = Done a).
Proof.
  intros Ha Hm.
  assert (0 <= a mod 2 ^ 32 /\ (a mod 2 ^ 32) mod 16 = 0 /\ a mod 2 ^ 32 < 2 ^ 32) as (L1 & L2 & L3)
    by (change (2 ^ 32) with 0x100000000; wordlia).
  set (f := if prefetch then 0xc else 0x4). assert (0 <= f < 16) as Hf by (unfold f; destruct prefetch; lia).
  destruct (bar_flags (a mod 2 ^ 32) f 1 L1 L2 Hf ltac:(lia)) as [B1 B3].
  destruct (bar_flags (a mod 2 ^ 32) f 6 L1 L2 Hf ltac:(lia)) as [B2 _]. specialize (B3 L3).
  assert (Z.land f 1 = 0 /\ Z.land f 6 = 4) as [F1 F2] by (unfold f; by destruct prefetch).
  assert (Z.lor (u64 (Z.shiftl (a / 2 ^ 32) 32)) (a mod 2 ^ 32) = a) as Ejoin.
  { rewrite Z.shiftl_mul_pow2, u64_small by (unfold is_u64; change (2 ^ 32) with 0x100000000 in *; wordlia || lia).
    rewrite lor_add by (by apply land_low_high). rewrite Z.mul_comm. symmetry. apply Z.div_mod. done. }
  unfold getBarFromPciHeader, with_bars, bar64, bar32. fold f. split_and!.
  - simpl. rewrite B1, F1. simpl. rewrite B2, F2. simpl. rewrite B3. f_equal. exact Ejoin.
  - intros Hlt. set (g := if prefetch then 8 else 0).
    assert (0 <= g < 16 /\ Z.land g 1 = 0 /\ Z.land g 6 = 0) as (Hg & G1 & G2)
      by (unfold g; destruct prefetch; done || lia).
    destruct (bar_flags a g 1 ltac:(lia) Hm Hg ltac:(lia)) as [C1 C3].
    destruct (bar_flags a g 6 ltac:(lia) Hm Hg ltac:(lia)) as [C2 _].
    simpl. rewrite C1, G1. simpl. rewrite C2, G2. simpl. by rewrite C3.
  - intros Hio. simpl. rewrite Hio. simpl. rewrite B1, F1. simpl. rewrite B2, F2. simpl. rewrite B3.
    f_equal. exact Ejoin.
Qed.

(** What the base address registers say in numbers: a register is for memory when it is
    even, and is the low half of a 64-bit address when bits 1 and 2 hold the value 2; the
    four lowest bits are flags. *)
Definition memory_bar (lo hi : Z) : Z :=
  if (lo / 2) mod 4 =? 2 then hi * 2 ^ 32 + 16 * (lo / 16) else 16 * (lo / 16).
Definition bar_address (b0 b1 b2 : Z) : Z :=
  if b0 mod 2 =? 0 then memory_bar b0 b1 else if b1 mod 2 =? 0 then memory_bar b1 b2 else 0.

Lemma memory_bar_run lo hi : is_u32 lo -> is_u32 hi ->
  (if Z.land lo 0x6 =? 0x4 then Z.lor (u64 (Z.shiftl hi 32)) (Z.land lo (u32 (Z.lnot 0xf)))
   else Z.land lo (u32 (Z.lnot 0xf))) = memory_bar lo hi /\ Z.land lo 1 = lo mod 2.
Proof.
  intros Hlo Hhi. unfold is_u32 in *.
  assert (Z.lor (16 * (lo / 16)) (lo mod 16) = lo) as E.
  { rewrite lor_add; [symmetry; apply Z.div_mod; lia|]. rewrite Z.mul_comm.
    apply (land_low_high 4 (lo mod 16) (lo / 16)); [lia|apply Z.mod_pos_bound; lia]. }
  pose proof (Z.mod_pos_bound lo 16 ltac:(lia)) as Hf.
  destruct (bar_flags (16 * (lo / 16)) (lo mod 16) 6) as [B6 Bk]; [wordlia..|lia|].
  specialize (Bk ltac:(wordlia)). rewrite E in B6, Bk.
  split; [|by apply (Z.land_ones lo 1)].
  rewrite Bk, B6. unfold memory_bar.
  assert ((Z.land (lo mod 16) 6 =? 4) = ((lo / 2) mod 4 =? 2)) as ->.
  { replace ((lo / 2) mod 4) with ((lo mod 16 / 2) mod 4) by wordlia.
    assert (forallb (fun f => Bool.eqb (Z.land f 6 =? 4) ((f / 2) mod 4 =? 2)) (seqZ 0 16) = true) as A by reflexivity.
    rewrite forallb_forall in A. apply eqb_prop, A, list_elem_of_In, elem_of_seqZ. lia. }
  destruct (_ =? 2); [|done].
  rewrite Z.shiftl_mul_pow2, u64_small by (unfold is_u64; change (2 ^ 32) with 0x100000000; lia).
  apply lor_add, land_low_high; [lia|]. change (2 ^ 32) with 0x100000000. wordlia.
Qed.

Lemma getBar_address h b0 b1 b2 rest : bar h = b0 :: b1 :: b2 :: rest -> is_u32 b0 -> is_u32 b1 -> is_u32 b2 ->
  getBarFromPciHeader h = Done (bar_address b0 b1 b2).
Proof.
  intros Hb H0 H1 H2. unfold getBarFromPciHeader, bar_address. rewrite Hb. simpl.
  destruct (memory_bar_run b0 b1 H0 H1) as [<- E0]. destruct (memory_bar_run b1 b2 H1 H2) as [<- E1].
  rewrite E0. destruct (b0 mod 2 =? 0); simpl; [by destruct (Z.land b0 6 =? 4)|].
  rewrite E1. destruct (b1 mod 2 =? 0); simpl; [by destruct (Z.land b1 6 =? 4)|done].
Qed.

(** A class code behind the table of names is looked up outside it. *)
Theorem getPciDeviceType_range c : 0 <= c ->
  (c < 20 -> exists name, getPciDeviceType c = Done name) /\ (20 <= c -> getPciDeviceType c = Fault).
Proof.
  intros Hc. unfold getPciDeviceType. split; intros H.
  - destruct (lookup_lt_is_Some_2 g_pciDeviceClasses (Z.to_nat c)) as [x ->]; [simpl; lia|]. by exists x.
  - rewrite lookup_ge_None_2; [done|]. simpl. lia.
Qed.

(** ** Witnesses *)
Definition demo_bus : PciBus := mkBus 0 (fun a => if a =? 0x80001004 then 0x02100003 else 0).

Lemma demo_bus_wf : bus_wf demo_bus.
Proof. intros a. unfold demo_bus. simpl. destruct (_ =? _); unfold is_u32; lia. Qed.

Lemma pci_config_bytes_witness :
  snd (pciConfigRead8 demo_bus 0 2 0 6) = 0x10 /\
  cfg_byte (pciConfigWrite8 demo_bus 0 2 0 6 0xff) 0 2 0 7 = 2.
Proof.
  destruct (pci_config_bytes demo_bus 0 2 0 demo_bus_wf ltac:(unfold valid_fn; lia) 6 0xff
    ltac:(lia) ltac:(lia)) as (E1 & _ & E3).
  split; [rewrite E1; vm_compute; reflexivity|].
  destruct (E3 0 2 0 7 ltac:(unfold valid_fn; lia) ltac:(lia)) as [E4 _].
  rewrite E4 by lia. vm_compute. reflexivity.
Defined.

Lemma bar_roundtrip_witness :
  getBarFromPciHeader (with_bars (bar64 0x1fe000000 true ++ [0; 0; 0; 0])) = Done 0x1fe000000.
Proof. exact (proj1 (bar_roundtrip 0x1fe000000 true [0; 0; 0; 0] 1 ltac:(simpl; lia) eq_refl)). Defined.
