(* ===== verification/Mcfg.v ===== *)
(** * Enumeration of the PCI devices (kernel/src/acpi/mcfg.cpp, mcfg.h)

    The MCFG table names the memory windows in which the configuration space of every
    function is a page.  [enumeratePciDevices] walks the buses, devices and functions of
    each window, maps the page of each and records the functions that answer; the
    capabilities of a function come from a linked list in its configuration space, read
    through the ports.  The state holds the ports, the memory with the table, the memory
    behind the windows and the pages that were mapped; a window can be read only through
    a mapped page. *)
From Stdlib Require Import ZArith Lia.
From stdpp Require Import base tactics numbers option list gmap.
From S2P Require Import Prelude Memory Pci.
Local Open Scope Z_scope.

(** ** Data *)
Record PciDeviceConfig := mkConfig {
  base : Z; pciSegGroup : Z; startBus : Z; endBus : Z }.

Record PciDeviceInfo := mkInfo {
  headerInfo : PciDeviceHeader;
  functionAddress : Z;
  barAddress : Z;
  info_bus : Z;
  info_device : Z;
  info_function : Z;
  capabilities : Z }.

(** [m_devices] in the order of the vector; [tables] is the memory that holds the ACPI
    table, [windows] the bytes the hardware answers with at physical addresses, [idmap]
    the identity mappings made by [paging::mapPage], by page number. *)
Record McfgState := mkMcfg {
  ports : PciBus;
  tables : mem;
  windows : Z -> Z;
  idmap : list Z;
  m_devices : list PciDeviceInfo }.

Definition HAS_PCI_CAP (info : PciDeviceInfo) (cap : Z) : bool :=
  negb (Z.land (capabilities info) (Z.shiftl 1 cap) =? 0).

(** The members of [PciDeviceHeader] at their offsets. *)
Definition field (bs : list Z) (off n : nat) : Z := le_combine (take n (drop off bs)).

Definition header_of (bs : list Z) : PciDeviceHeader :=
  mkPciHeader (field bs 0 2) (field bs 2 2) (field bs 4 2) (field bs 6 2)
    (field bs 8 1) (field bs 9 1) (field bs 10 1) (field bs 11 1)
    (field bs 12 1) (field bs 13 1) (field bs 14 1) (field bs 15 1)
    [field bs 16 4; field bs 20 4; field bs 24 4; field bs 28 4; field bs 32 4; field bs 36 4]
    (field bs 40 4) (field bs 44 2) (field bs 46 2) (field bs 48 4)
    (field bs 52 1) (field bs 60 1) (field bs 61 1) (field bs 62 1) (field bs 63 1).

(** ** Windows *)
Definition page_of (a : Z) : Z := Z.shiftr a 12.

Definition mapPage_identity (s : McfgState) (a : Z) : McfgState :=
  mkMcfg (ports s) (tables s) (windows s) (page_of a :: idmap s) (m_devices s).

(** A read of [n] bytes at [a], through the pages of its first and its last byte. *)
Definition window_read (s : McfgState) (a : Z) (n : nat) : outcome (list Z) :=
  if bool_decide (page_of a ∈ idmap s) && bool_decide (page_of (a + Z.of_nat n - 1) ∈ idmap s)
  then Done ((fun i => windows s (a + i)) <$> seqZ 0 (Z.of_nat n)) else Fault.

Definition read_deviceID (s : McfgState) (a : Z) : outcome Z :=
  bs ← window_read s (a + 2) 2; Done (le_combine bs).

(** ** Capabilities *)

(** The [switch] over the capability ids: the value of [enum PciCapability], 31 when the
    id is not known. *)
Definition capability_of (capId : Z) : Z :=
  match capId with
  | 0x01 => 0 | 0x02 => 1 | 0x03 => 2 | 0x04 => 3 | 0x05 => 4 | 0x06 => 5 | 0x07 => 6
  | 0x08 => 7 | 0x09 => 8 | 0x0A => 9 | 0x0B => 10 | 0x0C => 11 | 0x0D => 12 | 0x0E => 13
  | 0x0F => 14 | 0x10 => 15 | 0x11 => 16 | 0x12 => 17 | 0x13 => 18
  | _ => 31
  end.

Definition add_capability (caps capId : Z) : Z :=
  if capability_of capId =? 31 then caps else Z.lor caps (Z.shiftl 1 (capability_of capId)).

(** [uninit] is the value of the local [capabilities], which the code does not
    initialise. *)
Definition readCapabilities_body (bus device function : Z) :
    PciBus * Z * Z -> outcome ((PciBus * Z * Z) + (PciBus * Z)) := fun '(b, capPointer, caps) =>
  if negb (capPointer =? 0) && negb (capPointer =? 0xFF) then
    let '(b, capId) := pciConfigRead8 b bus device function capPointer in
    let '(b, next) := pciConfigRead8 b bus device function (u8 (capPointer + 1)) in
    Done (inl (b, next, add_capability caps capId))
  else Done (inr (b, caps)).

Definition _readCapabilities (fuel : nat) (uninit : Z) (b : PciBus) (bus device function : Z)
    : outcome (PciBus * Z) :=
  let '(b, capPointer) := pciConfigRead8 b bus device function 0x34 in
  loop fuel (readCapabilities_body bus device function) (b, capPointer, uninit).

(** There are 254 pointers that do not end the list. *)
Definition CAP_FUEL : nat := 255.

Record PciMsiXCapability := mkMsiX { messageControl : Z; tableOffset : Z; pbaOffset : Z }.
Record PciMsiCapability := mkMsi { msi_messageControl : Z; messageAddress : Z; messageData : Z }.

(** The walk shared by the two readers: the pointer of the first capability with the id,
    or none. *)
Definition find_capability_body (bus device function id : Z) :
    PciBus * Z -> outcome ((PciBus * Z) + (PciBus * option Z)) := fun '(b, capPointer) =>
  if negb (capPointer =? 0) && negb (capPointer =? 0xFF) then
    let '(b, capId) := pciConfigRead8 b bus device function capPointer in
    if capId =? id then Done (inr (b, Some capPointer))
    else
      let '(b, next) := pciConfigRead8 b bus device function (u8 (capPointer + 1)) in
      Done (inl (b, next))
  else Done (inr (b, None)).

Definition find_capability (fuel : nat) (b : PciBus) (bus device function id : Z)
    : outcome (PciBus * option Z) :=
  let '(b, capPointer) := pciConfigRead8 b bus device function 52 in
  loop fuel (find_capability_body bus device function id) (b, capPointer).

(** The result is uninitialised ([junk]) when there is no such capability. *)
Definition _readMsixCapability (fuel : nat) (junk : PciMsiXCapability) (b : PciBus)
    (bus device function capOffset : Z) : outcome (PciBus * PciMsiXCapability * Z) :=
  '(b, found) ← find_capability fuel b bus device function 0x11;
  match found with
  | Some capPointer =>
      let '(b, mc) := pciConfigRead16 b bus device function (u8 (capPointer + 0)) in
      let '(b, to) := pciConfigRead32 b bus device function (u8 (capPointer + 2)) in
      let '(b, pba) := pciConfigRead32 b bus device function (u8 (capPointer + 6)) in
      Done (b, mkMsiX mc to pba, capPointer)
  | None => Done (b, junk, capOffset)
  end.

Definition _readMsiCapability (fuel : nat) (junk : PciMsiCapability) (b : PciBus)
    (bus device function capOffset : Z) : outcome (PciBus * PciMsiCapability * Z) :=
  '(b, found) ← find_capability fuel b bus device function 0x05;
  match found with
  | Some capPointer =>
      let '(b, mc) := pciConfigRead16 b bus device function (u8 (capPointer + 0)) in
      let '(b, ma) := pciConfigRead32 b bus device function (u8 (capPointer + 2)) in
      let '(b, md) := pciConfigRead16 b bus device function (u8 (capPointer + 6)) in
      Done (b, mkMsi mc ma md, capPointer)
  | None => Done (b, junk, capOffset)
  end.

(** ** Enumeration *)
Section enumerate.
(** What the uninitialised local of [_readCapabilities] holds when it is called for the
    function at an address. *)
Context (uninit : Z -> Z).

Definition _enumeratePciFunction (s : McfgState) (deviceAddress function : Z) : outcome McfgState :=
  let offset := u64 (Z.shiftl function 12) in
  let functionAddress := deviceAddress ⊞ offset in
  let s := mapPage_identity s functionAddress in
  deviceID ← read_deviceID s functionAddress;
  if deviceID =? 0 then Done s
  else if deviceID =? 0xFFFF then Done s
  else
    bs ← window_read s functionAddress 64;
    let headerInfo := header_of bs in
    bar ← getBarFromPciHeader headerInfo;
    let bus := Z.land (Z.shiftr deviceAddress 20) 0xFF in
    let device := Z.land (Z.shiftr deviceAddress 15) 0x1F in
    '(b, caps) ← _readCapabilities CAP_FUEL (uninit functionAddress) (ports s) bus device (u8 function);
    let info := mkInfo headerInfo functionAddress bar bus device (u8 function) caps in
    Done (mkMcfg b (tables s) (windows s) (idmap s) (m_devices s ++ [info])).

Definition _enumeratePciDevice (s : McfgState) (busAddress device : Z) : outcome McfgState :=
  let offset := u64 (Z.shiftl device 15) in
  let deviceAddress := busAddress ⊞ offset in
  let s := mapPage_identity s deviceAddress in
  deviceID ← read_deviceID s deviceAddress;
  if deviceID =? 0 then Done s
  else if deviceID =? 0xFFFF then Done s
  else for_each (fun s function => _enumeratePciFunction s deviceAddress function) (seqZ 0 8) s.

Definition _enumeratePciBus (s : McfgState) (baseAddress bus : Z) : outcome McfgState :=
  let offset := u64 (Z.shiftl bus 20) in
  let busAddress := baseAddress ⊞ offset in
  let s := mapPage_identity s busAddress in
  deviceID ← read_deviceID s busAddress;
  if deviceID =? 0 then Done s
  else if deviceID =? 0xFFFF then Done s
  else for_each (fun s device => _enumeratePciDevice s busAddress device) (seqZ 0 32) s.

(** The entry [t] of the table, 16 bytes each behind the 44 bytes of the header. *)
Definition config_at (m : mem) (m_base t : Z) : outcome PciDeviceConfig :=
  bs ← need (read_bytes m (m_base + 44 + 16 * t) 16);
  Done (mkConfig (field bs 0 8) (field bs 8 2) (field bs 10 1) (field bs 11 1)).

(** [entries] is an [int], computed with a 64-bit subtraction. *)
Definition config_entries (length : Z) : Z := s32 ((length ⊟ 44) / 16).

Definition enumeratePciDevices (s : McfgState) (m_base : Z) : outcome McfgState :=
  len ← need (read_bytes (tables s) (m_base + 4) 4);
  for_each (fun s t =>
    c ← config_at (tables s) m_base t;
    for_each (fun s bus => _enumeratePciBus s (base c) bus)
      (seqZ (startBus c) (endBus c - startBus c)) s)
    (seqZ 0 (config_entries (le_combine len))) s.

End enumerate.

Definition is_xhci (info : PciDeviceInfo) : bool :=
  (classCode (headerInfo info) =? 0x0C) && (subclass (headerInfo info) =? 0x03) &&
  (progIF (headerInfo info) =? 0x30).

(** [kstl::npos] is the largest [size_t]. *)
Definition npos : Z := 0xffffffffffffffff.

Fixpoint find_xhci (l : list PciDeviceInfo) (i : Z) : Z :=
  match l with
  | [] => npos
  | info :: l' => if is_xhci info then i else find_xhci l' (i + 1)
  end.

Definition findXhciController (s : McfgState) : Z := find_xhci (m_devices s) 0.

(** ** The capability list *)

(** The pointers that a walk from [p] follows, when it ends; [rd] reads a byte of the
    configuration space. *)
Inductive cap_chain (rd : Z -> Z) : Z -> list Z -> Prop :=
  | chain_end p : p = 0 \/ p = 0xFF -> cap_chain rd p []
  | chain_next p l : p <> 0 -> p <> 0xFF -> cap_chain rd (rd (u8 (p + 1))) l -> cap_chain rd p (p :: l).

Lemma chain_det rd p l l' : cap_chain rd p l -> cap_chain rd p l' -> l = l'.
Proof.
  intros H. revert l'. induction H as [p Hp|p l H0 HF _ IH]; intros l' H'; inversion H'; subst; try done.
  - destruct Hp; done.
  - destruct H; done.
  - f_equal. auto.
Qed.

Lemma chain_suffix rd p l x : cap_chain rd p l -> x ∈ l ->
  exists l2, cap_chain rd x l2 /\ (length l2 <= length l)%nat.
Proof.
  induction 1 as [p Hp|p l H0 HF Hc IH]; [by intros ?%elem_of_nil|].
  intros [->|Hx]%elem_of_cons; [exists (p :: l); split; [by constructor|done]|].
  destruct (IH Hx) as (l2 & ? & ?). exists l2. split; [done|simpl; lia].
Qed.

(** A walk that ends visits no pointer twice. *)
Lemma chain_nodup rd p l : cap_chain rd p l -> NoDup l.
Proof.
  induction 1 as [p Hp|p l H0 HF Hc IH]; constructor; [|done].
  intros Hx. destruct (chain_suffix _ _ _ _ Hc Hx) as (l2 & Hc2 & Hl).
  assert (l2 = p :: l) as -> by (eapply chain_det; [done|by constructor]). simpl in Hl. lia.
Qed.

Lemma chain_length rd p l : (forall x, is_u8 (rd x)) -> is_u8 p -> cap_chain rd p l -> (length l <= 254)%nat.
Proof.
  intros Hrd Hp Hc.
  assert (Forall (fun x => x ∈ seqZ 1 254) l) as Hall.
  { clear - Hrd Hp Hc. induction Hc as [p' _|p' l H0 HF _ IH]; constructor.
    - apply elem_of_seqZ. unfold is_u8 in *. lia.
    - apply IH, Hrd. }
  change 254%nat with (length (seqZ 1 254)). apply submseteq_length, NoDup_submseteq.
  - by eapply chain_nodup.
  - intros x Hx. rewrite Forall_forall in Hall. auto.
Qed.

Lemma cfg_byte_u8 b bus slot func o : is_u8 (cfg_byte b bus slot func o).
Proof. apply (bf_range _ 8). lia. Qed.

Section capabilities.
Context (b : PciBus) (bus device function : Z) (Hfn : valid_fn bus device function).

Abbreviation rd := (cfg_byte b bus device function).

(** One step of the walk, from any state of the address port. *)
Lemma cap_step lt p caps : is_u8 p -> p <> 0 -> p <> 0xFF ->
  readCapabilities_body bus device function (mkBus lt (pci_words b), p, caps) =
  Done (inl (mkBus (_getPciConfigAddress bus device function (u8 (p + 1))) (pci_words b),
             rd (u8 (p + 1)), add_capability caps (rd p))).
Proof.
  intros Hp H0 HF. unfold readCapabilities_body.
  rewrite (proj2 (Z.eqb_neq p 0)), (proj2 (Z.eqb_neq p 0xFF)) by done. cbn [negb andb].
  rewrite !read8_run by (done || apply u8_range). reflexivity.
Qed.

Lemma cap_loop fuel p l lt caps : is_u8 p -> cap_chain rd p l -> (length l < fuel)%nat ->
  exists lt', loop fuel (readCapabilities_body bus device function) (mkBus lt (pci_words b), p, caps) =
  Done (mkBus lt' (pci_words b), foldl add_capability caps (rd <$> l)).
Proof.
  intros Hp Hc. revert fuel lt caps.
  induction Hc as [p Hend|p l H0 HF Hc IH]; intros fuel lt caps Hf; (destruct fuel; [simpl in Hf; lia|]).
  - exists lt. destruct Hend as [-> | ->]; reflexivity.
  - cbn [loop]. rewrite cap_step by done.
    apply IH; [apply cfg_byte_u8|simpl in Hf; lia].
Qed.

Lemma cap_loop_dichotomy fuel p lt caps : is_u8 p ->
  (exists l, cap_chain rd p l /\ (length l < fuel)%nat) \/
  loop fuel (readCapabilities_body bus device function) (mkBus lt (pci_words b), p, caps) = Diverge.
Proof.
  revert p lt caps. induction fuel as [|fuel IH]; intros p lt caps Hp; [by right|].
  destruct (decide (p = 0 \/ p = 0xFF)) as [He|Hne]; [left; exists []; split; [by constructor|simpl; lia]|].
  cbn [loop]. rewrite cap_step by (done || lia).
  destruct (IH (rd (u8 (p + 1))) (_getPciConfigAddress bus device function (u8 (p + 1)))
    (add_capability caps (rd p)) (cfg_byte_u8 _ _ _ _ _)) as [(l & Hc & Hl)|Hd]; [left|by right].
  exists (p :: l). split; [constructor; [lia|lia|done]|simpl; lia].
Qed.

Lemma readCapabilities_run fuel uninit lt l : cap_chain rd (rd 0x34) l -> (length l < fuel)%nat ->
  exists lt', _readCapabilities fuel uninit (mkBus lt (pci_words b)) bus device function =
  Done (mkBus lt' (pci_words b), foldl add_capability uninit (rd <$> l)).
Proof.
  intros Hc Hl. unfold _readCapabilities. rewrite read8_run by (done || lia).
  apply cap_loop; [apply cfg_byte_u8|done|done].
Qed.

End capabilities.

Lemma capability_of_spec id : capability_of id = if bool_decide (1 <= id <= 19) then id - 1 else 31.
Proof.
  case_bool_decide as H.
  - assert (forallb (fun i => capability_of i =? i - 1) (seqZ 1 19) = true) as E by reflexivity.
    rewrite forallb_forall in E. apply Z.eqb_eq, E, list_elem_of_In, elem_of_seqZ. lia.
  - unfold capability_of. repeat (case_match; try (exfalso; lia)); done.
Qed.

Lemma add_capability_bit caps id c : 0 <= c < 31 ->
  Z.testbit (add_capability caps id) c = Z.testbit caps c || ((c <? 19) && (id =? c + 1)).
Proof.
  intros Hc. unfold add_capability. rewrite capability_of_spec. case_bool_decide as H.
  - rewrite (proj2 (Z.eqb_neq (id - 1) 31)) by lia. rewrite Z.lor_spec. f_equal.
    rewrite shiftl_testbit by lia.
    destruct (Z.eqb_spec id (c + 1)) as [->|Hne].
    + replace (c - (c + 1 - 1)) with 0 by lia. rewrite (proj2 (Z.ltb_lt c 19)) by lia. done.
    + rewrite andb_false_r. destruct (Z.ltb_spec c (id - 1)).
      * by rewrite Z.testbit_neg_r by lia.
      * replace 1 with (2 ^ 0) by done. apply Z.pow2_bits_false. lia.
  - simpl. destruct (Z.ltb_spec c 19), (Z.eqb_spec id (c + 1)); rewrite ?orb_false_r; try done. lia.
Qed.

Lemma add_capabilities_bit ids caps c : 0 <= c < 31 ->
  Z.testbit (foldl add_capability caps ids) c =
  Z.testbit caps c || ((c <? 19) && existsb (fun id => id =? c + 1) ids).
Proof.
  intros Hc. revert caps. induction ids as [|id ids IH]; intros caps; cbn [foldl existsb].
  - by rewrite andb_false_r, orb_false_r.
  - rewrite IH, add_capability_bit by done. destruct (Z.testbit caps c), (c <? 19), (id =? c + 1); done.
Qed.

(** The walk of the capability list either ends, after at most 254
    capabilities, or never ends (a list that leads back to itself): no run takes longer
    than the pointers allow.  When it ends, capability [c] is reported exactly when its id
    [c + 1] is on the list or the uninitialised local had the bit set already; the ports
    hold what they held. *)
Theorem readCapabilities_ends b bus device function uninit : valid_fn bus device function ->
  (exists l lt caps, cap_chain (cfg_byte b bus device function) (cfg_byte b bus device function 0x34) l /\
     (length l <= 254)%nat /\
     (forall fuel, (254 < fuel)%nat -> _readCapabilities fuel uninit b bus device function =
        Done (mkBus lt (pci_words b), caps)) /\
     (forall c, 0 <= c < 31 -> Z.testbit caps c =
        Z.testbit uninit c ||
        ((c <? 19) && existsb (fun id => id =? c + 1) (cfg_byte b bus device function <$> l)))) \/
  (forall fuel, _readCapabilities fuel uninit b bus device function = Diverge).
Proof.
  intros Hfn. set (rd := cfg_byte b bus device function).
  destruct (cap_loop_dichotomy b bus device function Hfn 255 (rd 0x34)
    (_getPciConfigAddress bus device function 0x34) uninit (cfg_byte_u8 _ _ _ _ _)) as [(l & Hc & Hl)|Hd].
  - left. destruct (readCapabilities_run b bus device function Hfn 255 uninit (pci_latch b) l Hc Hl) as (lt & E).
    exists l, lt, (foldl add_capability uninit (rd <$> l)). split_and!; [done|lia| |].
    + intros fuel Hf. destruct b as [lb wb]. cbn [pci_latch pci_words] in *. revert E.
      unfold _readCapabilities. destruct (pciConfigRead8 _ _ _ _ _). apply loop_more_fuel. lia.
    + intros c Hcc. by apply add_capabilities_bit.
  - right. intros fuel. unfold _readCapabilities. rewrite read8_run by (done || lia).
    destruct (cap_loop_dichotomy b bus device function Hfn fuel (rd 0x34)
      (_getPciConfigAddress bus device function 0x34) uninit (cfg_byte_u8 _ _ _ _ _)) as [(l & Hc & Hl)|]; [|done].
    pose proof (chain_length _ _ _ (cfg_byte_u8 b bus device function) (cfg_byte_u8 _ _ _ _ _) Hc) as Hlen.
    destruct (cap_loop b bus device function Hfn 255 (rd 0x34) l
      (_getPciConfigAddress bus device function 0x34) uninit (cfg_byte_u8 _ _ _ _ _) Hc ltac:(lia)) as (lt & E).
    by rewrite E in Hd.
Qed.

(** ** MSI and MSI-X *)
Section find_cap.
Context (b : PciBus) (bus device function : Z) (Hfn : valid_fn bus device function).

Abbreviation rd := (cfg_byte b bus device function).

(** The walk stops at the first capability with the id. *)
Lemma find_capability_first fuel id pre p post :
  cap_chain rd (rd 0x34) (pre ++ p :: post) -> Forall (fun q => rd q <> id) pre -> rd p = id ->
  (length pre < fuel)%nat ->
  exists lt, find_capability fuel b bus device function id = Done (mkBus lt (pci_words b), Some p).
Proof.
  intros Hc Hpre Hp Hf. unfold find_capability. rewrite (read8_run _ _ _ _ 52) by (done || lia).
  change 0x34 with 52 in Hc. generalize (_getPciConfigAddress bus device function 52).
  assert (is_u8 (rd 52)) as Hq by apply cfg_byte_u8. revert Hq Hc. generalize (rd 52) as q.
  revert fuel Hf. induction Hpre as [|x pre Hx Hpre IH]; intros fuel Hf q Hq Hc lt;
    (destruct fuel; [simpl in Hf; lia|]); cbn [loop find_capability_body];
    inversion Hc as [|? ? H0 HF Hc']; subst;
    (rewrite (proj2 (Z.eqb_neq _ 0)), (proj2 (Z.eqb_neq _ 0xFF)) by done); cbn [negb andb];
    rewrite read8_run by done; fold (rd p).
  - change (cfg_byte (mkBus lt (pci_words b))) with (cfg_byte b). rewrite Z.eqb_refl. eauto.
  - change (cfg_byte (mkBus lt (pci_words b))) with (cfg_byte b).
    rewrite (proj2 (Z.eqb_neq _ _)) by done. rewrite read8_run by (done || apply u8_range).
    apply IH; [simpl in Hf; lia|apply cfg_byte_u8|done].
Qed.

End find_cap.

(** The readers take the members of a capability at the
    offsets of structures that leave out the id and the next pointer.  For a capability at
    a multiple of 4 (the id in byte 0, the next pointer in byte 1, message control in
    bytes 2 and 3), "message control" is the id and the next pointer, the MSI-X table
    offset and the MSI address are the whole first word, and the MSI-X pending bit offset
    is the word of the table offset; the MSI data is the low half of the address. *)
Theorem msi_fields_misread b bus device function fuel jx jm off p pre post pre' p' post' :
  valid_fn bus device function ->
  cap_chain (cfg_byte b bus device function) (cfg_byte b bus device function 0x34) (pre ++ p :: post) ->
  cap_chain (cfg_byte b bus device function) (cfg_byte b bus device function 0x34) (pre' ++ p' :: post') ->
  Forall (fun q => cfg_byte b bus device function q <> 0x11) pre -> cfg_byte b bus device function p = 0x11 ->
  Forall (fun q => cfg_byte b bus device function q <> 0x05) pre' -> cfg_byte b bus device function p' = 0x05 ->
  0 <= p < 0xF0 -> p mod 4 = 0 -> 0 <= p' < 0xF0 -> p' mod 4 = 0 -> (254 < fuel)%nat ->
  (exists b', _readMsixCapability fuel jx b bus device function off =
     Done (b', mkMsiX (0x11 + 256 * cfg_byte b bus device function (p + 1))
       (cfg_word b bus device function p) (cfg_word b bus device function (p + 4)), p)) /\
  (exists b', _readMsiCapability fuel jm b bus device function off =
     Done (b', mkMsi (0x05 + 256 * cfg_byte b bus device function (p' + 1))
       (cfg_word b bus device function p')
       (cfg_byte b bus device function (p' + 6) + 256 * cfg_byte b bus device function (p' + 7)), p')).
Proof.
  intros Hfn Hc Hc' Hpre Hp Hpre' Hp' Hr Ha Hr' Ha' Hf.
  pose proof (chain_length _ _ _ (cfg_byte_u8 b bus device function) (cfg_byte_u8 _ _ _ _ _) Hc) as Hl.
  pose proof (chain_length _ _ _ (cfg_byte_u8 b bus device function) (cfg_byte_u8 _ _ _ _ _) Hc') as Hl'.
  rewrite length_app in Hl, Hl'. simpl in Hl, Hl'. split.
  - unfold _readMsixCapability.
    destruct (find_capability_first b bus device function Hfn fuel _ pre p post Hc Hpre Hp ltac:(lia)) as (lt & ->).
    cbn [mbind outcome_bind]. rewrite !u8_small by (unfold is_u8; lia). rewrite Z.add_0_r.
    rewrite (read16_run _ bus) by (done || wordlia). rewrite (read32_run _ bus) by (done || lia).
    rewrite (read32_run _ bus) by (done || lia). change (cfg_byte (mkBus lt (pci_words b))) with (cfg_byte b). rewrite Hp.
    replace (4 * ((p + 2) / 4)) with p by wordlia. replace (4 * ((p + 6) / 4)) with (p + 4) by wordlia. eexists. reflexivity.
  - unfold _readMsiCapability.
    destruct (find_capability_first b bus device function Hfn fuel _ pre' p' post' Hc' Hpre' Hp' ltac:(lia)) as (lt & ->).
    cbn [mbind outcome_bind]. rewrite !u8_small by (unfold is_u8; lia). rewrite Z.add_0_r.
    rewrite (read16_run _ bus) by (done || wordlia). rewrite (read32_run _ bus) by (done || lia).
    rewrite (read16_run _ bus) by (done || wordlia). change (cfg_byte (mkBus lt (pci_words b))) with (cfg_byte b). rewrite Hp'.
    replace (4 * ((p' + 2) / 4)) with p' by wordlia. replace (p' + 6 + 1) with (p' + 7) by lia. eexists. reflexivity.
Qed.

(** ** What the enumeration finds *)

(** The page of a function in the window at [base]. *)
Definition fn_addr (base bus device function : Z) : Z :=
  base + bus * 2 ^ 20 + device * 2 ^ 15 + function * 2 ^ 12.

Definition window_bytes (w : Z -> Z) (a : Z) (n : nat) : list Z :=
  (fun i => w (a + i)) <$> seqZ 0 (Z.of_nat n).

(** The function answers with a device id. *)
Definition answers (w : Z -> Z) (a : Z) : bool :=
  let id := le_combine (window_bytes w (a + 2) 2) in negb (id =? 0) && negb (id =? 0xFFFF).

Definition done_or {A} (d : A) (o : outcome A) : A := match o with Done a => a | _ => d end.

Section found.
Context (uninit : Z -> Z) (b : PciBus) (w : Z -> Z).

(** What is recorded of a function. *)
Definition device_at (base bus device function : Z) : PciDeviceInfo :=
  let a := fn_addr base bus device function in
  let header := header_of (window_bytes w a 64) in
  mkInfo header a (done_or 0 (getBarFromPciHeader header)) bus device function
    (snd (done_or (b, 0) (_readCapabilities CAP_FUEL (uninit a) b bus device function))).

(** A function is found when it, function 0 of its device and device 0 of its bus
    answer. *)
Definition device_functions (base bus device : Z) : list PciDeviceInfo :=
  if answers w (fn_addr base bus device 0) then
    flat_map (fun f => if answers w (fn_addr base bus device f) then [device_at base bus device f] else [])
      (seqZ 0 8)
  else [].

Definition bus_devices (base bus : Z) : list PciDeviceInfo :=
  if answers w (fn_addr base bus 0 0) then flat_map (device_functions base bus) (seqZ 0 32) else [].

Definition window_devices (c : PciDeviceConfig) : list PciDeviceInfo :=
  flat_map (bus_devices (base c)) (seqZ (startBus c) (endBus c - startBus c)).

(** The state apart from the mappings, the port latch and the devices found. *)
Definition Unchanged (tm : mem) (s : McfgState) : Prop :=
  pci_words (ports s) = pci_words b /\ windows s = w /\ tables s = tm.

(** The capability list of every function ends. *)
Definition lists_end : Prop := forall bus device function, valid_fn bus device function ->
  exists l, cap_chain (cfg_byte b bus device function) (cfg_byte b bus device function 0x34) l.

Definition window_ok (a : Z) : Prop := 0 <= a /\ a mod 2 ^ 28 = 0 /\ a + 2 ^ 28 <= 2 ^ 64.

Lemma fn_addr_page base bus device function n : window_ok base -> valid_fn bus device function ->
  0 <= n < 4096 ->
  page_of (fn_addr base bus device function + n) = page_of (fn_addr base bus device function).
Proof.
  intros (H0 & Hal & _) (Hb & Hd & Hf) Hn. unfold page_of, fn_addr. rewrite !Z.shiftr_div_pow2 by lia.
  apply Z.mod_divide in Hal; [|lia]. destruct Hal as [k ->].
  replace (k * 2 ^ 28 + _ + _ + function * 2 ^ 12) with ((k * 2 ^ 16 + bus * 2 ^ 8 + device * 2 ^ 3 + function) * 2 ^ 12) by lia.
  rewrite Z.div_add_l, Z.div_mul by lia. rewrite (Z.div_small n) by lia. lia.
Qed.

Lemma fn_addr_fields base bus device function : window_ok base -> valid_fn bus device function ->
  is_u64 (fn_addr base bus device function) /\
  Z.land (Z.shiftr (fn_addr base bus device 0) 20) 0xFF = bus /\
  Z.land (Z.shiftr (fn_addr base bus device 0) 15) 0x1F = device.
Proof.
  intros (H0 & Hal & Hmax) (Hb & Hd & Hf). apply Z.mod_divide in Hal; [|lia]. destruct Hal as [k ->].
  unfold fn_addr. change 0xFF with (Z.ones 8). change 0x1F with (Z.ones 5).
  rewrite !Z.land_ones, !Z.shiftr_div_pow2 by lia. split; [unfold is_u64; lia|].
  split.
  - replace (_ + 0 * 2 ^ 12) with ((k * 2 ^ 8 + bus) * 2 ^ 20 + device * 2 ^ 15) by lia.
    rewrite Z.div_add_l by lia. rewrite (Z.div_small (device * 2 ^ 15)) by lia. rewrite Z.add_0_r.
    rewrite Z.add_comm, Z_mod_plus_full. apply Z.mod_small. lia.
  - replace (_ + 0 * 2 ^ 12) with ((k * 2 ^ 13 + bus * 2 ^ 5 + device) * 2 ^ 15) by lia.
    rewrite Z.div_mul by lia. replace (k * 2 ^ 13 + bus * 2 ^ 5 + device) with (device + (k * 2 ^ 8 + bus) * 2 ^ 5) by lia.
    rewrite Z_mod_plus_full. apply Z.mod_small. lia.
Qed.

Lemma window_read_mapped s base bus device function off n :
  windows s = w -> window_ok base -> valid_fn bus device function ->
  page_of (fn_addr base bus device function) ∈ idmap s -> 0 <= off -> (0 < n)%nat ->
  off + Z.of_nat n <= 4096 ->
  window_read s (fn_addr base bus device function + off) n =
  Done (window_bytes w (fn_addr base bus device function + off) n).
Proof.
  intros Hw Hok Hfn Hin Ho Hn Hle. unfold window_read.
  replace (fn_addr base bus device function + off + Z.of_nat n - 1)
    with (fn_addr base bus device function + (off + Z.of_nat n - 1)) by lia.
  rewrite !fn_addr_page by (done || lia). rewrite !bool_decide_true by done. by rewrite Hw.
Qed.

(** The test of the device id that the three levels share. *)
Lemma probe_run tm s base bus device function (found : outcome McfgState) :
  Unchanged tm s -> window_ok base -> valid_fn bus device function ->
  let a := fn_addr base bus device function in let s' := mapPage_identity s a in
  (deviceID ← read_deviceID s' a;
   if deviceID =? 0 then Done s' else if deviceID =? 0xFFFF then Done s' else found) =
  if answers w a then found else Done s'.
Proof.
  intros (_ & Hw & _) Hok Hfn a s'. unfold read_deviceID, s', a, answers.
  rewrite window_read_mapped by (done || (simpl; left) || lia). cbn [mbind outcome_bind].
  by repeat case_match.
Qed.

Lemma getBar_done bs : exists v, getBarFromPciHeader (header_of bs) = Done v.
Proof.
  unfold getBarFromPciHeader, header_of. cbn [bar].
  edestruct (loop_total (fun i => 0 <= i <= 2) (fun i => Z.to_nat (2 - i)) (fun _ : Z => True))
    with (fuel := 3%nat) (s := 0) as (v & E & _); [|lia|simpl; lia|eauto].
  cbv beta. intros i Hi. destruct (Z.ltb_spec i 2); [|right; eauto].
  assert (i = 0 \/ i = 1) as [-> | ->] by lia.
  - change (Z.to_nat (0 + 1)) with 1%nat. change (Z.to_nat 0) with 0%nat. cbn [lookup list_lookup need mbind outcome_bind].
    destruct (Z.land _ 1 =? 0); [right; destruct (Z.land _ 6 =? 4); eauto|left; eexists; split; [reflexivity|lia]].
  - change (Z.to_nat (1 + 1)) with 2%nat. change (Z.to_nat 1) with 1%nat. cbn [lookup list_lookup need mbind outcome_bind].
    destruct (Z.land _ 1 =? 0); [right; destruct (Z.land _ 6 =? 4); eauto|left; eexists; split; [reflexivity|lia]].
Qed.

Hypothesis Hlists : lists_end.

Lemma function_run tm base bus device function s :
  Unchanged tm s -> window_ok base -> valid_fn bus device function ->
  exists s', _enumeratePciFunction uninit s (fn_addr base bus device 0) function = Done s' /\
    Unchanged tm s' /\ m_devices s' = m_devices s ++
      (if answers w (fn_addr base bus device function) then [device_at base bus device function] else []).
Proof.
  intros Hs Hok Hfn. pose proof Hfn as (Hb & Hd & Hf). unfold _enumeratePciFunction.
  destruct (fn_addr_fields base bus device function Hok Hfn) as (H64 & Ebus & Edev).
  assert (fn_addr base bus device 0 ⊞ u64 (Z.shiftl function 12) = fn_addr base bus device function) as ->.
  { rewrite u64_add_r. rewrite Z.shiftl_mul_pow2 by lia. unfold fn_addr in *.
    rewrite Z.mul_0_l, Z.add_0_r. by apply u64_small. }
  rewrite (probe_run tm s base bus device function) by done.
  set (a := fn_addr base bus device function).
  destruct (answers w a) eqn:Ea.
  2:{ exists (mapPage_identity s a). rewrite app_nil_r. done. }
  destruct Hs as (Hp & Hw & Ht).
  pose proof (window_read_mapped (mapPage_identity s a) base bus device function 0 64 Hw Hok Hfn
    ltac:(simpl; left) ltac:(lia) ltac:(lia) ltac:(lia)) as Hr. rewrite Z.add_0_r in Hr. fold a in Hr. rewrite Hr.
  cbn [mbind outcome_bind]. destruct (getBar_done (window_bytes w a 64)) as (v & Ev). rewrite Ev.
  cbn [mbind outcome_bind]. rewrite Ebus, Edev, u8_small by (unfold is_u8; lia).
  destruct (Hlists _ _ _ Hfn) as (l & Hc).
  pose proof (chain_length _ _ _ (cfg_byte_u8 b bus device function) (cfg_byte_u8 _ _ _ _ _) Hc) as Hl.
  destruct (readCapabilities_run b bus device function Hfn CAP_FUEL (uninit a) (pci_latch (ports s)) l Hc ltac:(unfold CAP_FUEL; lia)) as (lt & E).
  destruct (readCapabilities_run b bus device function Hfn CAP_FUEL (uninit a) (pci_latch b) l Hc ltac:(unfold CAP_FUEL; lia)) as (lt' & E').
  rewrite <- Hp in E. cbn [mapPage_identity ports]. destruct (ports s) as [ls ws]. cbn [pci_latch pci_words] in *.
  rewrite E. cbn [mbind outcome_bind]. eexists. split; [reflexivity|]. split; [done|].
  cbn [m_devices]. f_equal. f_equal. unfold device_at. fold a. rewrite Ev. cbn [done_or].
  destruct b as [lb wb]. cbn [pci_latch pci_words] in *. by rewrite E'.
Qed.

Lemma device_run tm base bus device s : Unchanged tm s -> window_ok base -> valid_fn bus device 0 ->
  exists s', _enumeratePciDevice uninit s (fn_addr base bus 0 0) device = Done s' /\
    Unchanged tm s' /\ m_devices s' = m_devices s ++ device_functions base bus device.
Proof.
  intros Hs Hok Hfn. pose proof Hfn as (Hb & Hd & _). unfold _enumeratePciDevice, device_functions.
  destruct (fn_addr_fields base bus device 0 Hok Hfn) as (H64 & _).
  assert (fn_addr base bus 0 0 ⊞ u64 (Z.shiftl device 15) = fn_addr base bus device 0) as ->.
  { rewrite u64_add_r, Z.shiftl_mul_pow2 by lia. unfold fn_addr in *.
    rewrite <- (u64_small _ H64). f_equal. lia. }
  rewrite (probe_run tm s base bus device 0) by done.
  destruct (answers w (fn_addr base bus device 0)).
  - change (m_devices s) with (m_devices (mapPage_identity s (fn_addr base bus device 0))).
    apply (for_each_appends (Unchanged tm) m_devices
      (fun f => if answers w (fn_addr base bus device f) then [device_at base bus device f] else [])); [|done].
    intros f s1 Hf%elem_of_seqZ Hs1. apply function_run; [done|done|]. unfold valid_fn in *. lia.
  - eexists. rewrite app_nil_r. done.
Qed.

Lemma bus_run tm base bus s : Unchanged tm s -> window_ok base -> 0 <= bus < 256 ->
  exists s', _enumeratePciBus uninit s base bus = Done s' /\
    Unchanged tm s' /\ m_devices s' = m_devices s ++ bus_devices base bus.
Proof.
  intros Hs Hok Hb. unfold _enumeratePciBus, bus_devices.
  assert (valid_fn bus 0 0) as Hfn by (unfold valid_fn; lia).
  destruct (fn_addr_fields base bus 0 0 Hok Hfn) as (H64 & _).
  assert (base ⊞ u64 (Z.shiftl bus 20) = fn_addr base bus 0 0) as ->.
  { rewrite u64_add_r, Z.shiftl_mul_pow2 by lia. unfold fn_addr in *.
    rewrite <- (u64_small _ H64). f_equal. lia. }
  rewrite (probe_run tm s base bus 0 0) by done.
  destruct (answers w (fn_addr base bus 0 0)).
  - change (m_devices s) with (m_devices (mapPage_identity s (fn_addr base bus 0 0))).
    apply (for_each_appends (Unchanged tm) m_devices); [|done].
    intros d s1 Hd%elem_of_seqZ Hs1. apply device_run; [done|done|]. unfold valid_fn in *. lia.
  - eexists. rewrite app_nil_r. done.
Qed.

End found.

(** The table at [m_base] lists [cs]. *)
Definition table_lists (tm : mem) (m_base : Z) (cs : list PciDeviceConfig) : Prop :=
  read_bytes tm (m_base + 4) 4 = Some (le_split 4 (44 + 16 * Z.of_nat (length cs))) /\
  forall t c, cs !! t = Some c -> config_at tm m_base (Z.of_nat t) = Done c.

Lemma config_entries_count n : 0 <= n < 2 ^ 27 -> config_entries (44 + 16 * n) = n.
Proof.
  intros Hn. unfold config_entries. rewrite (u64_small (_ - 44)) by (unfold is_u64; lia).
  replace (44 + 16 * n - 44) with (n * 16) by lia. rewrite Z.div_mul by lia.
  unfold s32. rewrite u32_small by (unfold is_u32; lia). destruct (Z.ltb_spec n 0x80000000); lia.
Qed.

Lemma flat_map_lookup {A B} (g : A -> list B) (cs : list A) (h : Z -> list B) :
  (forall t c, cs !! t = Some c -> h (Z.of_nat t) = g c) ->
  flat_map h (seqZ 0 (Z.of_nat (length cs))) = flat_map g cs.
Proof.
  revert h. induction cs as [|c cs IH]; intros h Hh; [done|].
  cbn [length]. rewrite Nat2Z.inj_succ, seqZ_cons by lia. cbn [flat_map]. f_equal; [by apply (Hh 0%nat)|].
  rewrite <- (IH (fun t => h (t + 1))).
  2:{ intros t c' Hc. rewrite <- (Hh (S t) c') by done. f_equal. lia. }
  rewrite Z.pred_succ. replace (Z.succ 0) with (1 + 0) by lia. rewrite <- (fmap_add_seqZ 1 0).
  generalize (seqZ 0 (Z.of_nat (length cs))). intros l.
  induction l as [|x l IHl]; cbn [fmap list_fmap flat_map]; [done|]. by rewrite IHl, (Z.add_comm 1 x).
Qed.

Lemma enumerate_finds uninit b s m_base cs :
  pci_words (ports s) = pci_words b -> lists_end b ->
  table_lists (tables s) m_base cs -> Z.of_nat (length cs) < 2 ^ 27 ->
  Forall (fun c => window_ok (base c) /\ is_u8 (startBus c) /\ is_u8 (endBus c)) cs ->
  exists s', enumeratePciDevices uninit s m_base = Done s' /\
    Unchanged b (windows s) (tables s) s' /\
    m_devices s' = m_devices s ++ flat_map (window_devices uninit b (windows s)) cs.
Proof.
  intros Hp Hl (Hlen & Hcs) Hn Hok. unfold enumeratePciDevices. rewrite Hlen. cbn [need mbind outcome_bind].
  rewrite le_combine_split, Z.mod_small by lia. rewrite config_entries_count by lia.
  set (g t := match cs !! Z.to_nat t with Some c => window_devices uninit b (windows s) c | None => [] end).
  rewrite <- (flat_map_lookup _ cs g).
  2:{ intros t c Hc. unfold g. by rewrite Nat2Z.id, Hc. }
  apply (for_each_appends (Unchanged b (windows s) (tables s)) m_devices g); [|done].
  intros t s1 Ht%elem_of_seqZ Hs1. pose proof Hs1 as (_ & _ & ->). unfold g.
  destruct (lookup_lt_is_Some_2 cs (Z.to_nat t)) as [c Hc]; [lia|]. rewrite Hc.
  pose proof (Hcs _ _ Hc) as E. rewrite Z2Nat.id in E by lia. rewrite E. cbn [mbind outcome_bind].
  rewrite Forall_lookup in Hok. destruct (Hok _ _ Hc) as (Hw & Hst & He).
  apply (for_each_appends (Unchanged b (windows s) (tables s)) m_devices); [|done].
  intros bus s2 Hbus%elem_of_seqZ Hs2. apply bus_run; [done|done|done|]. unfold is_u8 in *. lia.
Qed.

(** A little-endian word of [n] bytes of a window. *)
Definition window_word (w : Z -> Z) (a : Z) (n : nat) : Z := le_combine (window_bytes w a n).

(** What an entry of the device list has to say about the function on the page [a]: the
    whole header is that of the page; its number, its identification and its class are
    read off the page, the base address off its first three registers; capability [c] is
    set when its id [c + 1] is on the function's capability list, or the uninitialised
    local had the bit set. *)
Record describes (uninit : Z -> Z) (b : PciBus) (w : Z -> Z) (at_ : Z * Z * Z * Z) (info : PciDeviceInfo) : Prop := {
  de_page : functionAddress info =
    let '(base, bus, device, function) := at_ in fn_addr base bus device function;
  de_number : (info_bus info, info_device info, info_function info) =
    let '(_, bus, device, function) := at_ in (bus, device, function);
  de_id : let a := functionAddress info in
    vendorID (headerInfo info) = window_word w a 2 /\ deviceID (headerInfo info) = window_word w (a + 2) 2;
  de_class : let a := functionAddress info in
    progIF (headerInfo info) = w (a + 9) /\ subclass (headerInfo info) = w (a + 10) /\
    classCode (headerInfo info) = w (a + 11);
  de_header : headerInfo info = header_of (window_bytes w (functionAddress info) 64);
  de_bar : let a := functionAddress info in
    barAddress info = bar_address (window_word w (a + 16) 4) (window_word w (a + 20) 4) (window_word w (a + 24) 4);
  de_caps : exists l,
    let rd := cfg_byte b (info_bus info) (info_device info) (info_function info) in
    cap_chain rd (rd 0x34) l /\
    forall c, 0 <= c < 31 -> Z.testbit (capabilities info) c =
      Z.testbit (uninit (functionAddress info)) c || ((c <? 19) && existsb (fun id => id =? c + 1) (rd <$> l)) }.

(** The functions of a window that the enumeration reports: in the order of bus, device
    and function, those that answer on a device whose function 0 and a bus whose device 0
    answer. *)
Definition window_functions (w : Z -> Z) (c : PciDeviceConfig) : list (Z * Z * Z * Z) :=
  flat_map (fun bus => flat_map (fun device => flat_map (fun function =>
    if answers w (fn_addr (base c) bus 0 0) && answers w (fn_addr (base c) bus device 0) &&
       answers w (fn_addr (base c) bus device function)
    then [(base c, bus, device, function)] else [])
    (seqZ 0 8)) (seqZ 0 32)) (seqZ (startBus c) (endBus c - startBus c)).

Lemma window_word_range w a : (forall x, is_u8 (w x)) -> is_u32 (window_word w a 4).
Proof.
  intros Hw. apply (le_combine_range (window_bytes w a 4)). unfold window_bytes, bytes_ok.
  apply Forall_fmap, Forall_forall. intros x _. apply Hw.
Qed.

Lemma window_bytes_field w a off n len : (off + n <= len)%nat ->
  field (window_bytes w a len) off n = window_word w (a + Z.of_nat off) n.
Proof.
  intros Hl. unfold field, window_word, window_bytes. f_equal. apply list_eq. intros i.
  destruct (decide (i < n)%nat) as [Hi|Hi].
  - rewrite lookup_take_lt, lookup_drop, !list_lookup_fmap by done.
    rewrite !(proj2 (lookup_seqZ _ _ _ _)) by (split; [reflexivity|lia]). cbn [fmap option_fmap option_map].
    do 2 f_equal. lia.
  - rewrite !lookup_ge_None_2; [done|..]; rewrite ?length_take, ?length_drop, length_fmap, length_seqZ; lia.
Qed.

Lemma device_at_describes uninit b w base bus device function :
  lists_end b -> (forall x, is_u8 (w x)) -> valid_fn bus device function ->
  describes uninit b w (base, bus, device, function) (device_at uninit b w base bus device function).
Proof.
  intros Hl Hw Hfn. unfold device_at. set (a := fn_addr base bus device function).
  destruct (Hl _ _ _ Hfn) as (l & Hc).
  pose proof (chain_length _ _ _ (cfg_byte_u8 b bus device function) (cfg_byte_u8 _ _ _ _ _) Hc) as Hlen.
  destruct (readCapabilities_run b bus device function Hfn CAP_FUEL (uninit a) (pci_latch b) l Hc ltac:(unfold CAP_FUEL; lia)) as (lt & E).
  split; cbn [headerInfo functionAddress barAddress info_bus info_device info_function capabilities]; try done.
  - unfold header_of. cbn [vendorID deviceID]. rewrite !window_bytes_field by lia. by rewrite Z.add_0_r.
  - assert (forall x, window_word w x 1 = w x) as Hb.
    { intros x. unfold window_word, window_bytes. change (seqZ 0 (Z.of_nat 1)) with [0].
      cbn [fmap list_fmap le_combine]. replace (x + 0) with x by lia. lia. }
    unfold header_of. cbn [progIF subclass classCode]. rewrite !window_bytes_field by lia. by rewrite !Hb.
  - erewrite getBar_address; [reflexivity|..].
    2-4: by apply window_word_range.
    unfold header_of. cbn [bar]. by rewrite !window_bytes_field by lia.
  - exists l. split; [done|]. intros c Hcc. destruct b as [lb wb]. cbn [pci_latch pci_words] in E. rewrite E.
    cbn [done_or snd]. by apply add_capabilities_bit.
Qed.

Lemma flat_map_fmap {A B C} (f : B -> C) (g : A -> list B) l :
  f <$> flat_map g l = flat_map (fun x => f <$> g x) l.
Proof. induction l as [|x l IH]; cbn [flat_map]; [done|]. by rewrite fmap_app, IH. Qed.

Lemma flat_map_empty {A B} (g : A -> list B) l : (forall x, g x = []) -> flat_map g l = [].
Proof. intros Hg. induction l as [|x l IH]; cbn [flat_map]; [done|]. by rewrite Hg, IH. Qed.

(** The same functions, grouped by bus and device. *)
Lemma window_devices_eq uninit b w c :
  window_devices uninit b w c =
  (fun '(base, bus, device, function) => device_at uninit b w base bus device function) <$> window_functions w c.
Proof.
  unfold window_devices, window_functions. rewrite flat_map_fmap. apply flat_map_ext. intros bus.
  unfold bus_devices. rewrite flat_map_fmap. destruct (answers w (fn_addr (base c) bus 0 0)); cbn [andb].
  2: { symmetry. apply flat_map_empty. intros d. by rewrite flat_map_empty. }
  apply flat_map_ext. intros d. unfold device_functions. rewrite flat_map_fmap.
  destruct (answers w (fn_addr (base c) bus d 0)); cbn [andb]; [|symmetry; by apply flat_map_empty].
  apply flat_map_ext. intros f. by destruct (answers w (fn_addr (base c) bus d f)).
Qed.

Lemma window_functions_valid w c x : is_u8 (startBus c) -> is_u8 (endBus c) -> x ∈ window_functions w c ->
  let '(_, bus, device, function) := x in valid_fn bus device function.
Proof.
  unfold window_functions, is_u8. intros Hs He Hx. destruct x as [[[ba bus] d] f].
  apply list_elem_of_In in Hx. repeat (apply in_flat_map in Hx as (? & ?%list_elem_of_In%elem_of_seqZ & Hx)).
  destruct (_ && _) in Hx; [|done]. destruct Hx as [[= <- <- <- <-]|[]]. unfold valid_fn. lia.
Qed.

Lemma found_describes uninit b w cs : lists_end b -> (forall x, is_u8 (w x)) ->
  Forall (fun c => window_ok (base c) /\ is_u8 (startBus c) /\ is_u8 (endBus c)) cs ->
  Forall2 (describes uninit b w) (flat_map (window_functions w) cs) (flat_map (window_devices uninit b w) cs).
Proof.
  intros Hl Hw. induction 1 as [|c cs (_ & Hs & He) _ IH]; cbn [flat_map]; [constructor|].
  apply Forall2_app; [|done]. rewrite window_devices_eq. apply Forall2_fmap_r, Forall_Forall2_diag, Forall_forall.
  intros x Hx. pose proof (window_functions_valid w c x Hs He Hx) as Hv.
  destruct x as [[[ba bus] d] f]. by apply device_at_describes.
Qed.

(** C14 (functional): on a table that lists the windows [cs], when the capability list of
    every function ends, the enumeration ends without
    a fault (every access goes through a page that was mapped before), leaves the ports'
    contents, the table and the windows alone, and appends, window by window, one entry for
    each function that answers on the buses from [startBus] up to but not including
    [endBus] and whose device has an answering function 0 and whose bus has an answering
    device 0, and no other; each entry has the address, bus, device and function number of
    its page, the header that is there, the address its base address registers encode and
    the capabilities of its list. *)
Theorem enumeratePciDevices_finds uninit b s m_base cs :
  pci_words (ports s) = pci_words b -> lists_end b -> (forall a, is_u8 (windows s a)) ->
  table_lists (tables s) m_base cs -> Z.of_nat (length cs) < 2 ^ 27 ->
  Forall (fun c => window_ok (base c) /\ is_u8 (startBus c) /\ is_u8 (endBus c)) cs ->
  exists s' found, enumeratePciDevices uninit s m_base = Done s' /\
    Unchanged b (windows s) (tables s) s' /\
    m_devices s' = m_devices s ++ found /\
    Forall2 (describes uninit b (windows s)) (flat_map (window_functions (windows s)) cs) found.
Proof.
  intros Hp Hl Hw Ht Hn Hok.
  destruct (enumerate_finds uninit b s m_base cs Hp Hl Ht Hn Hok) as (s' & E & U & D).
  eexists s', _. split; [exact E|]. split; [exact U|]. split; [exact D|]. by apply found_describes.
Qed.

(** [findXhciController] returns the index of the first device of the xHCI class, and
    [npos] when there is none. *)
Theorem findXhciController_first s :
  (findXhciController s = npos /\ Forall (fun d => is_xhci d = false) (m_devices s)) \/
  (exists i d, findXhciController s = Z.of_nat i /\ m_devices s !! i = Some d /\ is_xhci d = true /\
     Forall (fun d => is_xhci d = false) (take i (m_devices s))).
Proof.
  unfold findXhciController.
  assert (forall l k, (find_xhci l k = npos /\ Forall (fun d => is_xhci d = false) l) \/
    (exists i d, find_xhci l k = k + Z.of_nat i /\ l !! i = Some d /\ is_xhci d = true /\
     Forall (fun d => is_xhci d = false) (take i l))) as H; [|apply (H (m_devices s) 0)].
  induction l as [|d l IH]; intros k; cbn [find_xhci]; [by left|].
  destruct (is_xhci d) eqn:Ed.
  - right. exists 0%nat, d. split; [lia|done].
  - destruct (IH (k + 1)) as [[-> H]|(i & d' & -> & Hi & Hd & H)]; [left; by auto|].
    right. exists (S i), d'. split; [lia|]. split_and!; [done|done|]. by constructor.
Qed.

(** ** Witnesses *)

(** Function 3.0 of bus 0 has an MSI capability at 0x40 and an MSI-X capability at
    0x50. *)
Definition demo_ports : PciBus := mkBus 0 (fun a =>
  if a =? 0x80001834 then 0x40 else if a =? 0x80001840 then 0x00805005
  else if a =? 0x80001850 then 0x80030011 else if a =? 0x80001854 then 0x2000 else 0).

(** A host bridge at 0.0 and an xHCI controller at 3.0 answer; nothing else does. *)
Definition demo_window (a : Z) : Z :=
  if a =? 0xB0000002 then 0xC0 else if a =? 0xB0000003 then 0x29
  else if a =? 0xB0018002 then 0x0D else if a =? 0xB0018003 then 0x00
  else if a =? 0xB0018009 then 0x30 else if a =? 0xB001800A then 0x03
  else if a =? 0xB001800B then 0x0C else if a =? 0xB0018010 then 0x04
  else if (0xB0018011 <=? a) && (a <? 0xB0018018) then 0x80 else 0xFF.

(** One window, of bus 0. *)
Definition demo_table : mem :=
  put_bytes ∅ 0x1000 (le_split 4 0x4746434D ++ le_split 4 60 ++ replicate 36 0 ++
    le_split 8 0xB0000000 ++ le_split 2 0 ++ [0; 1] ++ replicate 4 0).

Definition demo_mcfg : McfgState := mkMcfg demo_ports demo_table demo_window [] [].

Lemma demo_fn : valid_fn 0 3 0. Proof. unfold valid_fn. lia. Qed.

Definition demo_chain : list Z := [0x40; 0x50].

Lemma demo_chain_ok : cap_chain (cfg_byte demo_ports 0 3 0) (cfg_byte demo_ports 0 3 0 0x34) demo_chain.
Proof.
  change (cfg_byte demo_ports 0 3 0 0x34) with 0x40. repeat constructor; try lia.
Qed.

Lemma demo_lists : lists_end demo_ports.
Proof.
  intros bus device function Hfn.
  destruct (decide (bus = 0 /\ device = 3 /\ function = 0)) as [(-> & -> & ->)|Hne].
  - exists demo_chain. exact demo_chain_ok.
  - exists []. constructor. left. unfold cfg_byte.
    assert (pci_words demo_ports (_getPciConfigAddress bus device function 0x34) = 0) as ->; [|apply bf_0].
    rewrite config_address by (done || lia). unfold demo_ports. cbn [pci_words].
    change (4 * (0x34 / 4)) with 0x34. destruct Hfn as (? & ? & ?).
    repeat (rewrite (proj2 (Z.eqb_neq _ _)) by lia). done.
Qed.

Lemma readCapabilities_ends_witness : valid_fn 0 3 0 /\
  exists l lt caps, cap_chain (cfg_byte demo_ports 0 3 0) (cfg_byte demo_ports 0 3 0 0x34) l /\
    (length l <= 254)%nat /\
    _readCapabilities 255 0 demo_ports 0 3 0 = Done (mkBus lt (pci_words demo_ports), caps) /\
    Z.testbit caps 4 = true /\ Z.testbit caps 16 = true.
Proof.
  split; [exact demo_fn|].
  destruct (readCapabilities_ends demo_ports 0 3 0 0 demo_fn) as [(l & lt & caps & Hc & Hl & Hrun & Hbit)|Hd].
  - exists l, lt, caps. split; [done|]. split; [done|]. split; [apply Hrun; lia|].
    assert (l = demo_chain) as -> by (eapply chain_det; [done|exact demo_chain_ok]).
    rewrite !Hbit by lia. split; reflexivity.
  - specialize (Hd 255%nat). vm_compute in Hd. discriminate.
Defined.

Lemma msi_fields_misread_witness :
  exists b', _readMsixCapability 255 (mkMsiX 0 0 0) demo_ports 0 3 0 0 =
    Done (b', mkMsiX 0x11 0x80030011 0x2000, 0x50).
Proof.
  destruct (msi_fields_misread demo_ports 0 3 0 255 (mkMsiX 0 0 0) (mkMsi 0 0 0) 0 0x50 [0x40] [] [] 0x40 [0x50]
    demo_fn demo_chain_ok demo_chain_ok) as [H _];
    first [exact H | repeat constructor; discriminate | reflexivity | lia].
Defined.

Lemma demo_window_bytes a : is_u8 (demo_window a).
Proof. unfold demo_window, is_u8. repeat case_match; lia. Qed.

Lemma enumeratePciDevices_finds_witness :
  exists s' bridge xhci, enumeratePciDevices (fun _ => 0) demo_mcfg 0x1000 = Done s' /\
    m_devices s' = [bridge; xhci] /\
    (info_bus xhci, info_device xhci, info_function xhci) = (0, 3, 0) /\
    barAddress xhci = 0x8080808080808000 /\ is_xhci xhci = true /\ is_xhci bridge = false.
Proof.
  destruct (enumeratePciDevices_finds (fun _ => 0) demo_ports demo_mcfg 0x1000 [mkConfig 0xB0000000 0 0 1])
    as (s' & found & E & _ & Ed & Hf); [reflexivity|exact demo_lists|exact demo_window_bytes| |simpl; lia| |].
  - split; [vm_compute; reflexivity|]. intros [|t] c Hc; [|by destruct t]. injection Hc as <-. vm_compute. reflexivity.
  - repeat constructor; unfold is_u8; simpl; lia.
  - assert (flat_map (window_functions (windows demo_mcfg)) [mkConfig 0xB0000000 0 0 1] =
      [(0xB0000000, 0, 0, 0); (0xB0000000, 0, 3, 0)]) as Hw by (vm_compute; reflexivity).
    rewrite Hw in Hf. apply Forall2_cons_inv_l in Hf as (bridge & l & Hb & Hf & ->).
    apply Forall2_cons_inv_l in Hf as (xhci & l' & Hx & Hf & ->). apply Forall2_nil_inv_l in Hf as ->.
    exists s', bridge, xhci. split; [exact E|]. split; [exact Ed|].
    destruct Hb as [Pb _ _ Cb _ _ _]. destruct Hx as [Px Nx _ Cx _ Bx _]. cbv zeta in *. cbn in Pb, Px.
    split; [exact Nx|]. rewrite Px in *. rewrite Pb in *. unfold is_xhci.
    destruct Cb as (-> & -> & ->). destruct Cx as (-> & -> & ->). rewrite Bx. split_and!; vm_compute; reflexivity.
Defined.
