(* ===== verification/IoApic.v ===== *)
(** * The I/O APIC (kernel/src/arch/x86/ioapic.cpp, ioapic.h)

    The registers of an I/O APIC are reached through two words of its page: a write to
    [IOAPIC_REGSEL] selects a register and [IOAPIC_IOWIN] reads or writes it.
    [IoApicHw] is the device, [IoApic] the driver's object.  The redirection entries are
    64-bit words of bit fields kept in two registers each. *)
From Stdlib Require Import ZArith Lia.
From stdpp Require Import base tactics numbers option list.
From S2P Require Import Prelude.
Local Open Scope Z_scope.

Definition IOAPICID : Z := 0x00.
Definition IOAPICVER : Z := 0x01.
Definition IOAPICREDTBL (n : Z) : Z := 0x10 + 2 * n.

(** The selected register, and the registers as plain words. *)
Record IoApicHw := mkHw { regsel : Z; ioregs : Z -> Z }.

(** [m_physicalBase] is never assigned or read. *)
Record IoApic := mkIoApic {
  m_virtualBase : Z;
  m_apicId : Z;
  m_apicVersion : Z;
  m_redirectionEntryCount : Z;
  m_globalIntrBase : Z }.

(** ** Register access

    The two accesses run elevated; the argument [regOff] is a byte. *)
Definition read (hw : IoApicHw) (regOff : Z) : IoApicHw * Z :=
  let hw := mkHw (u8 regOff) (ioregs hw) in
  (hw, u32 (ioregs hw (regsel hw))).

Definition write (hw : IoApicHw) (regOff data : Z) : IoApicHw :=
  let hw := mkHw (u8 regOff) (ioregs hw) in
  mkHw (regsel hw) (fun r => if r =? regsel hw then u32 data else ioregs hw r).

(** ** The constructor

    [virtualBase] is the page [zallocPage] returns; the second result is the mapping made
    by [paging::mapPage], virtual and physical page. *)
Definition IoApic_new (hw : IoApicHw) (virtualBase physRegs gsib : Z) : IoApicHw * IoApic * (Z * Z) :=
  let '(hw, id) := read hw IOAPICID in
  let '(hw, version) := read hw IOAPICVER in
  let '(hw, count) := read hw IOAPICVER in
  (hw, mkIoApic virtualBase (u8 (Z.land (Z.shiftr id 24) 0xF0)) (u8 version)
         (u8 (Z.shiftr count 16 + 1)) gsib, (virtualBase, physRegs)).

(** ** Redirection entries *)

(** [union RedirectionEntry] as its 64 bits; the two views of it. *)
Definition lowerDword (e : Z) : Z := bf 0 32 e.
Definition upperDword (e : Z) : Z := bf 32 32 e.
Definition of_dwords (lower upper : Z) : Z := Z.lor (u32 lower) (Z.shiftl (u32 upper) 32).

Record RedirectionFields := mkRedir {
  vector : Z; delvMode : Z; destMode : Z; delvStatus : Z; pinPolarity : Z;
  remoteIRR : Z; triggerMode : Z; mask : Z; reserved : Z; destination : Z }.

Definition fields_of (e : Z) : RedirectionFields :=
  mkRedir (bf 0 8 e) (bf 8 3 e) (bf 11 1 e) (bf 12 1 e) (bf 13 1 e)
    (bf 14 1 e) (bf 15 1 e) (bf 16 1 e) (bf 17 39 e) (bf 56 8 e).

Definition of_fields (f : RedirectionFields) : Z :=
  bf_set 56 8 (bf_set 17 39 (bf_set 16 1 (bf_set 15 1 (bf_set 14 1 (bf_set 13 1 (bf_set 12 1
    (bf_set 11 1 (bf_set 8 3 (bf_set 0 8 0 (vector f)) (delvMode f)) (destMode f)) (delvStatus f))
    (pinPolarity f)) (remoteIRR f)) (triggerMode f)) (mask f)) (reserved f)) (destination f).

Definition getRedirectionEntry (hw : IoApicHw) (self : IoApic) (entNo : Z) : IoApicHw * Z :=
  if m_redirectionEntryCount self <=? entNo then (hw, 0)
  else
    let '(hw, lower) := read hw (IOAPICREDTBL entNo) in
    let '(hw, upper) := read hw (IOAPICREDTBL entNo + 1) in
    (hw, of_dwords lower upper).

Definition writeRedirectionEntry (hw : IoApicHw) (self : IoApic) (entNo entry : Z) : IoApicHw * bool :=
  if m_redirectionEntryCount self <=? entNo then (hw, false)
  else
    let hw := write hw (IOAPICREDTBL entNo) (lowerDword entry) in
    let hw := write hw (IOAPICREDTBL entNo + 1) (upperDword entry) in
    (hw, true).

(** ** Facts *)
Lemma u64_ones e : is_u64 e -> Z.land e (Z.ones 64) = e.
Proof. intros He. rewrite Z.land_ones by lia. by apply Z.mod_small. Qed.

Lemma of_dwords_halves e : is_u64 e -> of_dwords (lowerDword e) (upperDword e) = e.
Proof.
  intros He. rewrite <- (u64_ones e He) at 3. unfold of_dwords, lowerDword, upperDword.
  rewrite !u32_small by (apply (bf_range _ 32); lia). unfold bf. bitwise.
Qed.

(** Filling in the next field of a word from another word extends their common low
    part. *)
Lemma bf_append lo w n e : 0 <= lo -> 0 <= w -> n = lo + w ->
  bf_set lo w (Z.land e (Z.ones lo)) (bf lo w e) = Z.land e (Z.ones n).
Proof. intros ? ? ->. unfold bf_set, bf. bitwise. Qed.

(** The bit fields cover the word: nothing of an entry is lost in them. *)
Lemma of_fields_of e : is_u64 e -> of_fields (fields_of e) = e.
Proof.
  intros He. rewrite <- (u64_ones e He) at 2. unfold of_fields, fields_of.
  cbn [vector delvMode destMode delvStatus pinPolarity remoteIRR triggerMode mask reserved destination].
  replace 0 with (Z.land e (Z.ones 0)) at 2 by apply Z.land_0_r.
  rewrite (bf_append 0 8 8), (bf_append 8 3 11), (bf_append 11 1 12), (bf_append 12 1 13),
    (bf_append 13 1 14), (bf_append 14 1 15), (bf_append 15 1 16), (bf_append 16 1 17),
    (bf_append 17 39 56), (bf_append 56 8 64) by lia. done.
Qed.

Lemma redtbl_index n : 0 <= n < 120 -> u8 (IOAPICREDTBL n) = 0x10 + 2 * n /\ u8 (IOAPICREDTBL n + 1) = 0x11 + 2 * n.
Proof. intros. unfold IOAPICREDTBL. rewrite !u8_small by (unfold is_u8; lia). lia. Qed.

(** What an entry holds in the registers. *)
Lemma getRedirectionEntry_run hw self n : 0 <= n < m_redirectionEntryCount self -> n < 120 ->
  getRedirectionEntry hw self n =
  (mkHw (0x11 + 2 * n) (ioregs hw), of_dwords (ioregs hw (0x10 + 2 * n)) (ioregs hw (0x11 + 2 * n))).
Proof.
  intros Hn Hm. destruct (redtbl_index n ltac:(lia)) as [E1 E2]. unfold getRedirectionEntry, read.
  rewrite (proj2 (Z.leb_gt _ _)) by lia. rewrite E1, E2. cbn [regsel ioregs]. unfold of_dwords. rewrite !u32_u32. done.
Qed.

Lemma writeRedirectionEntry_run hw self n e : 0 <= n < m_redirectionEntryCount self -> n < 120 ->
  exists hw', writeRedirectionEntry hw self n e = (hw', true) /\
  forall r, ioregs hw' r = if r =? 0x10 + 2 * n then lowerDword e
    else if r =? 0x11 + 2 * n then upperDword e else ioregs hw r.
Proof.
  intros Hn Hm. destruct (redtbl_index n ltac:(lia)) as [E1 E2]. unfold writeRedirectionEntry, write.
  rewrite (proj2 (Z.leb_gt _ _)) by lia. rewrite E1, E2. cbn [regsel ioregs]. eexists. split; [reflexivity|].
  intros r. cbn [ioregs]. rewrite !u32_small by (apply (bf_range _ 32); lia).
  destruct (Z.eqb_spec r (0x11 + 2 * n)), (Z.eqb_spec r (0x10 + 2 * n)); try done; lia.
Qed.

(** A redirection entry written for a line below the entry count is read
    back whole, and as the same bit fields; the entries of all other lines and the
    identification registers are untouched.  A line at or above the count is refused
    without touching the device, and reads as an empty entry. *)
Theorem redirection_roundtrip hw self n e :
  0 <= m_redirectionEntryCount self <= 120 -> 0 <= n -> is_u64 e ->
  (n < m_redirectionEntryCount self -> exists hw',
     writeRedirectionEntry hw self n e = (hw', true) /\
     snd (getRedirectionEntry hw' self n) = e /\
     of_fields (fields_of (snd (getRedirectionEntry hw' self n))) = e /\
     (forall k, 0 <= k < m_redirectionEntryCount self -> k <> n ->
        snd (getRedirectionEntry hw' self k) = snd (getRedirectionEntry hw self k)) /\
     (forall r, r < 0x10 -> ioregs hw' r = ioregs hw r)) /\
  (m_redirectionEntryCount self <= n ->
     writeRedirectionEntry hw self n e = (hw, false) /\ getRedirectionEntry hw self n = (hw, 0)).
Proof.
  intros Hc Hn He. split; intros Hlt.
  - destruct (writeRedirectionEntry_run hw self n e ltac:(lia) ltac:(lia)) as (hw' & E & Hr). exists hw'.
    assert (snd (getRedirectionEntry hw' self n) = e) as Eg.
    { rewrite getRedirectionEntry_run by lia. cbn [snd]. rewrite !Hr, Z.eqb_refl.
      rewrite (proj2 (Z.eqb_neq (0x11 + 2 * n) _)) by lia. rewrite Z.eqb_refl. by apply of_dwords_halves. }
    split_and!; [done|done|by rewrite Eg, of_fields_of| |].
    + intros k Hk Hne. rewrite !getRedirectionEntry_run by lia. cbn [snd]. rewrite !Hr.
      by rewrite !(proj2 (Z.eqb_neq _ _)) by lia.
    + intros r Hlo. rewrite Hr. by rewrite !(proj2 (Z.eqb_neq _ _)) by lia.
  - unfold writeRedirectionEntry, getRedirectionEntry. by rewrite (proj2 (Z.leb_le _ _)) by lia.
Qed.

(** The number of entries is the maximum entry field of the version register plus one;
    the identification, a field of four bits at bit 24, is masked with [0xF0] and lost. *)
Theorem IoApic_new_reads hw v phys gsib : is_u32 (ioregs hw IOAPICVER) -> is_u32 (ioregs hw IOAPICID) ->
  bf 28 4 (ioregs hw IOAPICID) = 0 -> bf 16 8 (ioregs hw IOAPICVER) < 255 ->
  exists hw' a, IoApic_new hw v phys gsib = (hw', a, (v, phys)) /\ ioregs hw' = ioregs hw /\
    m_redirectionEntryCount a = bf 16 8 (ioregs hw IOAPICVER) + 1 /\
    m_apicVersion a = bf 0 8 (ioregs hw IOAPICVER) /\
    m_globalIntrBase a = gsib /\ m_apicId a = 0.
Proof.
  intros Hv Hi Hz Hc. unfold IoApic_new, read. cbn [regsel ioregs].
  change (u8 IOAPICID) with IOAPICID. change (u8 IOAPICVER) with IOAPICVER.
  rewrite !u32_small by done. do 2 eexists. split; [reflexivity|].
  cbn [ioregs m_redirectionEntryCount m_apicVersion m_globalIntrBase m_apicId]. split_and!; try done.
  - unfold bf in *. rewrite Z.land_ones, Z.shiftr_div_pow2 in * by lia. unfold u8.
    change (2 ^ 8) with 256 in *. change (2 ^ 16) with 65536 in *. clear Hi Hz. wordlia.
  - unfold bf, u8. by rewrite Z.shiftr_0_r, Z.land_ones by lia.
  - assert (Z.land (Z.shiftr (ioregs hw IOAPICID) 24) 0xF0 = 0) as ->; [|done].
    change 0xF0 with (Z.shiftl (Z.ones 4) 4).
    transitivity (Z.shiftl (Z.land (Z.shiftr (ioregs hw IOAPICID) 28) (Z.ones 4)) 4); [bitwise|].
    unfold bf in Hz. by rewrite Hz.
Qed.

Definition demo_hw : IoApicHw := mkHw 0 (fun r => if r =? 0 then 0x02000000 else if r =? 1 then 0x00170020 else 0x10000).

Lemma redirection_roundtrip_witness :
  exists hw', writeRedirectionEntry demo_hw (mkIoApic 0 0 0x20 24 0) 2 0x0300000000000021 = (hw', true) /\
    snd (getRedirectionEntry hw' (mkIoApic 0 0 0x20 24 0) 2) = 0x0300000000000021 /\
    vector (fields_of (snd (getRedirectionEntry hw' (mkIoApic 0 0 0x20 24 0) 2))) = 0x21.
Proof.
  destruct (redirection_roundtrip demo_hw (mkIoApic 0 0 0x20 24 0) 2 0x0300000000000021
    ltac:(simpl; lia) ltac:(lia) ltac:(unfold is_u64; lia)) as [H _].
  destruct (H ltac:(simpl; lia)) as (hw' & E & Eg & _). exists hw'. rewrite Eg. split; [exact E|]. split; reflexivity.
Defined.

Lemma IoApic_new_reads_witness :
  exists hw' a, IoApic_new demo_hw 0x5000 0xFEC00000 0 = (hw', a, (0x5000, 0xFEC00000)) /\
    m_redirectionEntryCount a = 24 /\ m_apicId a = 0.
Proof.
  destruct (IoApic_new_reads demo_hw 0x5000 0xFEC00000 0) as (hw' & a & E & _ & Ec & _ & _ & Ei);
    [unfold is_u32; simpl; lia|unfold is_u32; simpl; lia|reflexivity|vm_compute; reflexivity|].
  exists hw', a. split; [exact E|]. rewrite Ec, Ei. split; reflexivity.
Defined.
