(* ===== verification/Acpi.v ===== *)
(** * The ACPI tables (kernel/src/acpi/madt.cpp, acpi_controller.cpp)

    The kernel finds the extended system descriptor table (XSDT) through the root pointer
    of the firmware and dispatches on the signature of each table it lists: the MADT
    gives the processors and I/O APICs, the MCFG the PCI windows ([Mcfg]), the HPET the
    timer.  The tables are bytes of the memory; pages for device registers come from a
    supply, and the I/O APICs of the machine are found by their physical address. *)
From Stdlib Require Import ZArith Lia.
From stdpp Require Import base tactics numbers option list gmap.
From S2P Require Import Prelude Memory Pci Mcfg IoApic.
Local Open Scope Z_scope.

(** ** MADT *)
Record LocalApicDescriptor := mkLapic {
  lapic_type : Z; lapic_length : Z; acpiProcessorId : Z; apicId : Z; lapic_flags : Z }.

Record Madt := mkMadt {
  m_localApics : list LocalApicDescriptor;
  m_ioApics : list IoApic }.

(** The I/O APICs by physical address, the pages [zallocPage] will return (null when it
    has none) and the mappings made, the last one first. *)
Record ApicCtx := mkCtx {
  ioapics : Z -> IoApicHw;
  pages : list Z;
  mappings : list (Z * Z) }.

Definition lapic_of (bs : list Z) : LocalApicDescriptor :=
  mkLapic (field bs 0 1) (field bs 1 1) (field bs 2 1) (field bs 3 1) (field bs 4 4).

(** [new IoApic(physRegs, gsib)]. *)
Definition new_ioapic (c : ApicCtx) (physRegs gsib : Z) : ApicCtx * IoApic :=
  let '(hw, a, mapping) := IoApic_new (ioapics c physRegs) (default 0 (head (pages c))) physRegs gsib in
  (mkCtx (fun p => if p =? physRegs then hw else ioapics c p) (tail (pages c)) (mapping :: mappings c), a).

(** The [switch] over the type of the entry at [p]. *)
Definition madt_entry (m : mem) (c : ApicCtx) (t : Madt) (entryType p : Z) : outcome (ApicCtx * Madt) :=
  if entryType =? 0 then
    flags ← need (read_bytes m (p + 4) 4);
    if Z.testbit (le_combine flags) 0 then
      bs ← need (read_bytes m p 8);
      Done (c, mkMadt (m_localApics t ++ [lapic_of bs]) (m_ioApics t))
    else Done (c, t)
  else if entryType =? 1 then
    addr ← need (read_bytes m (p + 4) 4);
    gsib ← need (read_bytes m (p + 8) 4);
    let '(c, a) := new_ioapic c (le_combine addr) (le_combine gsib) in
    Done (c, mkMadt (m_localApics t) (m_ioApics t ++ [a]))
  else Done (c, t).

Definition madt_body (m : mem) (madtEnd : Z) :
    ApicCtx * Madt * Z -> outcome ((ApicCtx * Madt * Z) + (ApicCtx * Madt)) := fun '(c, t, entryPtr) =>
  if entryPtr <? madtEnd then
    entryType ← load8 m entryPtr;
    entryLength ← load8 m (entryPtr + 1);
    '(c, t) ← madt_entry m c t entryType entryPtr;
    Done (inl (c, t, entryPtr ⊞ entryLength))
  else Done (inr (c, t)).

Definition Madt_new (fuel : nat) (m : mem) (c : ApicCtx) (desc : Z) : outcome (ApicCtx * Madt) :=
  len ← need (read_bytes m (desc + 4) 4);
  loop fuel (madt_body m (desc ⊞ le_combine len)) (c, mkMadt [] [], desc + 44).

Definition getCpuCount (t : Madt) : Z := Z.of_nat (length (m_localApics t)).
Definition getIoApicCount (t : Madt) : Z := Z.of_nat (length (m_ioApics t)).

(** ** HPET: the constructor maps the register page *)
Definition Hpet_new (m : mem) (c : ApicCtx) (table : Z) : outcome (ApicCtx * Z) :=
  address ← load64 m (table + 44);
  let virtualBase := default 0 (head (pages c)) in
  Done (mkCtx (ioapics c) (tail (pages c)) ((virtualBase, address) :: mappings c), virtualBase).

(** ** The controller *)
Record AcpiController := mkAcpi {
  m_xsdt : Z;
  m_madt : option Madt;
  m_hpet : option Z;                          (* [Hpet::m_base] *)
  m_mcfg : option (Z * list PciDeviceInfo);   (* [Mcfg::m_base], [Mcfg::m_devices] *)
  m_acpiTableEntries : Z }.

(** The rest of the machine: the configuration ports, the windows and the mappings made
    there, and the APICs. *)
Record AcpiWorld := mkWorld {
  w_ports : PciBus;
  w_windows : Z -> Z;
  w_idmap : list Z;
  w_apics : ApicCtx }.

Definition SIG_APIC : list Z := [0x41; 0x50; 0x49; 0x43].
Definition SIG_FACP : list Z := [0x46; 0x41; 0x43; 0x50].
Definition SIG_SSDT : list Z := [0x53; 0x53; 0x44; 0x54].
Definition SIG_MCFG : list Z := [0x4D; 0x43; 0x46; 0x47].
Definition SIG_HPET : list Z := [0x48; 0x50; 0x45; 0x54].

Section init.
(** The offset of the kernel's direct map, the uninitialised local of
    [_readCapabilities] and the fuel of the MADT walk. *)
Context (va_offset : Z) (uninit : Z -> Z) (fuel : nat).

Definition acpi_table (m : mem) (s : AcpiWorld * AcpiController) (table : Z)
    : outcome (AcpiWorld * AcpiController) :=
  let '(w, c) := s in
  signature ← need (read_bytes m table 4);
  if bool_decide (signature = SIG_APIC) then
    '(apics, madt) ← Madt_new fuel m (w_apics w) table;
    Done (mkWorld (w_ports w) (w_windows w) (w_idmap w) apics,
          mkAcpi (m_xsdt c) (Some madt) (m_hpet c) (m_mcfg c) (m_acpiTableEntries c))
  else if bool_decide (signature = SIG_FACP) then Done s
  else if bool_decide (signature = SIG_SSDT) then Done s
  else if bool_decide (signature = SIG_MCFG) then
    let base := table ⊞ va_offset in
    r ← enumeratePciDevices uninit (mkMcfg (w_ports w) m (w_windows w) (w_idmap w) []) base;
    Done (mkWorld (ports r) (windows r) (idmap r) (w_apics w),
          mkAcpi (m_xsdt c) (m_madt c) (m_hpet c) (Some (base, m_devices r)) (m_acpiTableEntries c))
  else if bool_decide (signature = SIG_HPET) then
    '(apics, base) ← Hpet_new m (w_apics w) table;
    Done (mkWorld (w_ports w) (w_windows w) (w_idmap w) apics,
          mkAcpi (m_xsdt c) (m_madt c) (Some base) (m_mcfg c) (m_acpiTableEntries c))
  else Done s.

Definition AcpiController_init (m : mem) (w : AcpiWorld) (rsdp : Z) : outcome (AcpiWorld * AcpiController) :=
  xsdtAddr ← load64 m (rsdp + 24);
  let m_xsdt := xsdtAddr ⊞ va_offset in
  len ← need (read_bytes m (m_xsdt + 4) 4);
  let entries := (le_combine len ⊟ 36) / 8 in
  for_each (fun s i => table ← load64 m (m_xsdt + 36 + 8 * i); acpi_table m s table)
    (seqZ 0 entries) (w, mkAcpi m_xsdt None None None entries).

End init.

Definition hasApicTable (c : AcpiController) : bool := bool_decide (is_Some (m_madt c)).
Definition hasHpetTable (c : AcpiController) : bool := bool_decide (is_Some (m_hpet c)).
Definition hasPciDeviceTable (c : AcpiController) : bool := bool_decide (is_Some (m_mcfg c)).

(** ** What the MADT walk finds *)

(** An entry as the specification has it: its second byte is its length, 8 for a local
    APIC and 12 for an I/O APIC. *)
Definition entry_wf (e : list Z) : Prop :=
  (2 <= length e < 256)%nat /\ e !! 1%nat = Some (Z.of_nat (length e)) /\
  (e !! 0%nat = Some 0 -> length e = 8%nat) /\ (e !! 0%nat = Some 1 -> length e = 12%nat).

Definition entry_lapics (e : list Z) : list LocalApicDescriptor :=
  if (field e 0 1 =? 0) && Z.testbit (field e 4 4) 0 then [lapic_of e] else [].

(** The physical address and the first interrupt of an I/O APIC entry. *)
Definition entry_ioapics (e : list Z) : list (Z * Z) :=
  if field e 0 1 =? 1 then [(field e 4 4, field e 8 4)] else [].

Lemma field_head e x : e !! 0%nat = Some x -> field e 0 1 = x.
Proof. destruct e; simpl; intros [= ->]. unfold field. simpl. lia. Qed.

(** What a walk has added to the table and the machine. *)
Definition MadtFound (c0 c : ApicCtx) (t : Madt) (es : list (list Z)) : Prop :=
  m_localApics t = flat_map entry_lapics es /\
  m_globalIntrBase <$> m_ioApics t = snd <$> flat_map entry_ioapics es /\
  snd <$> mappings c = reverse (fst <$> flat_map entry_ioapics es) ++ (snd <$> mappings c0).

Lemma new_ioapic_facts c phys gsib : exists c' a, new_ioapic c phys gsib = (c', a) /\
  m_globalIntrBase a = gsib /\ snd <$> mappings c' = phys :: (snd <$> mappings c).
Proof. unfold new_ioapic, IoApic_new, read. do 2 eexists. split; [reflexivity|]. done. Qed.

(** Part of a run of bytes that can be read. *)
Lemma read_at m p n o k bs : read_bytes m p n = Some bs -> 0 <= o -> o + Z.of_nat k <= Z.of_nat n ->
  read_bytes m (p + o) k = Some (take k (drop (Z.to_nat o) bs)).
Proof.
  intros H Ho Hk. rewrite <- (read_bytes_sub m p n (Z.to_nat o) k bs H) by lia. by rewrite Z2Nat.id.
Qed.

(** One entry. *)
Lemma madt_entry_run m c0 c t es e p x : read_bytes m p (length e) = Some e -> entry_wf e ->
  e !! 0%nat = Some x -> MadtFound c0 c t es ->
  exists c' t', madt_entry m c t x p = Done (c', t') /\ MadtFound c0 c' t' (es ++ [e]).
Proof.
  intros Hm (Hlen & _ & H0 & H1) Hx (Hl & Hi & Hc). unfold madt_entry, MadtFound.
  rewrite !flat_map_app. cbn [flat_map]. rewrite !app_nil_r. unfold entry_lapics, entry_ioapics.
  rewrite (field_head e x Hx). destruct (Z.eqb_spec x 0) as [->|Hx0].
  - specialize (H0 Hx). rewrite H0 in Hm.
    rewrite (read_at m p 8 4 4 e Hm) by lia. cbn [need mbind outcome_bind].
    change (le_combine (take 4 (drop (Z.to_nat 4) e))) with (field e 4 4).
    destruct (Z.testbit (field e 4 4) 0); cbn [andb Z.eqb].
    + rewrite Hm. cbn [need mbind outcome_bind]. do 2 eexists. split; [reflexivity|]. simpl. rewrite Hl, app_nil_r. done.
    + do 2 eexists. split; [reflexivity|]. by rewrite !app_nil_r.
  - cbn [andb]. rewrite app_nil_r. destruct (Z.eqb_spec x 1) as [->|Hx1].
    + specialize (H1 Hx). rewrite H1 in Hm.
      rewrite (read_at m p 12 4 4 e Hm) by lia. cbn [need mbind outcome_bind].
      rewrite (read_at m p 12 8 4 e Hm) by lia. cbn [need mbind outcome_bind].
      change (le_combine (take 4 (drop (Z.to_nat 4) e))) with (field e 4 4).
      change (le_combine (take 4 (drop (Z.to_nat 8) e))) with (field e 8 4).
      destruct (new_ioapic_facts c (field e 4 4) (field e 8 4)) as (c' & a & -> & Ea & Ec).
      do 2 eexists. split; [reflexivity|]. cbn [m_localApics m_ioApics]. split; [done|].
      rewrite !fmap_app, Hi, Ec, Hc, reverse_app. simpl. by rewrite Ea.
    + do 2 eexists. split; [reflexivity|]. by rewrite app_nil_r.
Qed.

(** One round of the walk, at an entry of the table. *)
Lemma madt_round m c0 c t es e p last : read_bytes m p (length e) = Some e -> entry_wf e ->
  MadtFound c0 c t es -> 0 <= p < last -> last < 2 ^ 63 ->
  exists c' t', madt_body m last (c, t, p) = Done (inl (c', t', p + Z.of_nat (length e))) /\
    MadtFound c0 c' t' (es ++ [e]).
Proof.
  intros Hm Hwf Hf Hp Hlast. unfold madt_body. rewrite (proj2 (Z.ltb_lt _ _)) by lia.
  pose proof Hwf as (Hlen & He1 & _).
  destruct (lookup_lt_is_Some_2 e 0) as [x Hx]; [lia|].
  pose proof (read_bytes_lookup _ _ _ _ 0 Hm ltac:(lia)) as L0.
  pose proof (read_bytes_lookup _ _ _ _ 1 Hm ltac:(lia)) as L1.
  rewrite Hx, Z.add_0_r in L0. rewrite He1 in L1. change (Z.of_nat 1) with 1 in L1.
  unfold load8. rewrite <- L0, <- L1. cbn [need mbind outcome_bind].
  destruct (madt_entry_run m c0 c t es e p x Hm Hwf Hx Hf) as (c' & t' & -> & Hf'). cbn [mbind outcome_bind].
  rewrite u64_small by (unfold is_u64; lia). eauto.
Qed.

(** The walk consumes the entries in front of it, one round each. *)
Lemma madt_prefix m c0 last : last < 2 ^ 63 -> forall rest c t seen p,
  read_bytes m p (length (concat rest)) = Some (concat rest) -> Forall entry_wf rest ->
  MadtFound c0 c t seen -> 0 <= p -> p + Z.of_nat (length (concat rest)) <= last ->
  exists c' t', MadtFound c0 c' t' (seen ++ rest) /\ forall k,
    loop (length rest + k) (madt_body m last) (c, t, p) =
    loop k (madt_body m last) (c', t', p + Z.of_nat (length (concat rest))).
Proof.
  intros Hlast. induction rest as [|e rest IH]; intros c t seen p Hm Hwf Hf Hp Hle.
  - exists c, t. rewrite app_nil_r, Z.add_0_r. done.
  - inversion Hwf as [|? ? He Hrest]; subst. cbn [concat] in *. rewrite length_app in *.
    pose proof He as (Hlen & _).
    pose proof (read_bytes_take _ _ _ (length e) _ Hm ltac:(lia)) as Hme. rewrite take_app_length in Hme.
    pose proof (read_bytes_sub _ _ _ (length e) (length (concat rest)) _ Hm ltac:(lia)) as Hmr.
    rewrite drop_app_length, firstn_all in Hmr.
    destruct (madt_round m c0 c t seen e p last Hme He Hf ltac:(lia) Hlast) as (c1 & t1 & E1 & Hf1).
    destruct (IH c1 t1 (seen ++ [e]) (p + Z.of_nat (length e)) Hmr Hrest Hf1 ltac:(lia) ltac:(lia)) as (c' & t' & Hf' & E').
    exists c', t'. rewrite <- app_assoc in Hf'. split; [done|]. intros k. cbn [length Nat.add loop].
    rewrite E1, E'. do 2 f_equal. lia.
Qed.

(** An entry of length 0 is never left. *)
Lemma madt_stuck m last p x : p < last -> is_u64 p -> m !! p = Some x -> m !! (p + 1) = Some 0 ->
  mapped m p 12 -> forall fuel c t, loop fuel (madt_body m last) (c, t, p) = Diverge.
Proof.
  intros Hp Hu Hx H0 Hmap fuel. induction fuel as [|fuel IH]; intros c t; [done|]. cbn [loop].
  assert (exists c' t', madt_body m last (c, t, p) = Done (inl (c', t', p))) as (c' & t' & ->); [|apply IH].
  unfold madt_body. rewrite (proj2 (Z.ltb_lt _ _)) by lia. unfold load8. rewrite Hx, H0. cbn [need mbind outcome_bind].
  rewrite Z.add_0_r, u64_small by done.
  destruct (mapped_read m p 12 Hmap) as (bs & Hr & Hl). unfold madt_entry.
  pose proof (read_at m p 12 4 4 bs Hr ltac:(lia) ltac:(lia)) as R4.
  pose proof (read_at m p 12 8 4 bs Hr ltac:(lia) ltac:(lia)) as R8.
  pose proof (read_bytes_take m p 12 8 bs Hr ltac:(lia)) as R0.
  destruct (x =? 0); [|destruct (x =? 1)].
  - rewrite R4. cbn [need mbind outcome_bind]. case_match; [rewrite R0|]; cbn [need mbind outcome_bind]; eauto.
  - rewrite R4. cbn [need mbind outcome_bind]. rewrite R8. cbn [need mbind outcome_bind].
    destruct (new_ioapic c _ _). cbn [mbind outcome_bind]. eauto.
  - cbn [mbind outcome_bind]. eauto.
Qed.

(** The bytes of a MADT at [desc]: 44 bytes of header, then [body]. *)
Definition madt_bytes (m : mem) (desc : Z) (body : list Z) : Prop :=
  read_bytes m (desc + 4) 4 = Some (le_split 4 (44 + Z.of_nat (length body))) /\
  read_bytes m (desc + 44) (length body) = Some body /\
  0 <= desc < 2 ^ 62 /\ 44 + Z.of_nat (length body) < 2 ^ 32.

Lemma Madt_new_start fuel m c desc body : madt_bytes m desc body ->
  Madt_new fuel m c desc =
  loop fuel (madt_body m (desc + 44 + Z.of_nat (length body))) (c, mkMadt [] [], desc + 44).
Proof.
  intros (Hlen & Hb & Hd & Hs). unfold Madt_new. rewrite Hlen. cbn [need mbind outcome_bind].
  rewrite le_combine_split, Z.mod_small by lia. rewrite u64_small by (unfold is_u64; lia).
  do 2 f_equal. lia.
Qed.

Lemma Madt_new_finds fuel m c desc es : madt_bytes m desc (concat es) -> Forall entry_wf es ->
  (length es < fuel)%nat ->
  exists c' t, Madt_new fuel m c desc = Done (c', t) /\ MadtFound c c' t es.
Proof.
  intros Hb Hwf Hf. rewrite (Madt_new_start _ _ _ _ _ Hb). destruct Hb as (_ & Hr & Hd & Hs).
  destruct (madt_prefix m c (desc + 44 + Z.of_nat (length (concat es))) ltac:(lia) es c (mkMadt [] []) []
    (desc + 44) Hr Hwf ltac:(done) ltac:(lia) ltac:(lia)) as (c' & t & Hfound & E).
  exists c', t. split; [|done]. replace fuel with (length es + S (fuel - length es - 1))%nat by lia.
  rewrite E. cbn [loop]. unfold madt_body. by rewrite Z.ltb_irrefl.
Qed.

(** The walk over a MADT whose entries carry their lengths ends after
    one round per entry and finds the enabled local APICs and all I/O APICs in the order
    of the table, each I/O APIC with its interrupt base and its register page mapped.  An
    entry whose length byte is 0 is never left: the constructor does not return. *)
Theorem Madt_new_walk fuel m c desc es :
  Forall entry_wf es ->
  (madt_bytes m desc (concat es) -> (length es < fuel)%nat ->
     exists c' t, Madt_new fuel m c desc = Done (c', t) /\
       m_localApics t = flat_map entry_lapics es /\
       m_globalIntrBase <$> m_ioApics t = snd <$> flat_map entry_ioapics es /\
       snd <$> mappings c' = reverse (fst <$> flat_map entry_ioapics es) ++ (snd <$> mappings c)) /\
  (forall x junk, (10 <= length junk)%nat -> madt_bytes m desc (concat es ++ x :: 0 :: junk) ->
     Madt_new fuel m c desc = Diverge).
Proof.
  intros Hwf. split; [intros Hb Hf; by apply Madt_new_finds|].
  intros x junk Hj Hb. rewrite (Madt_new_start _ _ _ _ _ Hb). destruct Hb as (_ & Hr & Hd & Hs).
  set (last := desc + 44 + Z.of_nat (length (concat es ++ x :: 0 :: junk))).
  assert (last = desc + 44 + Z.of_nat (length (concat es)) + 2 + Z.of_nat (length junk)) as El
    by (unfold last; rewrite length_app; simpl; lia).
  rewrite length_app in Hr, Hs.
  pose proof (read_bytes_take _ _ _ (length (concat es)) _ Hr ltac:(lia)) as Hme. rewrite take_app_length in Hme.
  destruct (madt_prefix m c last ltac:(simpl in *; lia) es c (mkMadt [] []) [] (desc + 44) Hme Hwf ltac:(done)
    ltac:(lia) ltac:(lia)) as (c' & t & _ & E).
  set (p := desc + 44 + Z.of_nat (length (concat es))) in *.
  pose proof (fun i => read_bytes_lookup _ _ _ _ (length (concat es) + i) Hr) as L.
  assert (forall k, loop k (madt_body m last) (c', t, p) = Diverge) as Hst.
  { intros k. apply madt_stuck with x.
    - lia.
    - unfold is_u64, p. simpl in Hs. lia.
    - specialize (L 0%nat ltac:(simpl; lia)). rewrite lookup_app_r in L by lia.
      replace (length (concat es) + 0 - length (concat es))%nat with 0%nat in L by lia.
      cbn [lookup list_lookup] in L. rewrite L. f_equal. unfold p. lia.
    - specialize (L 1%nat ltac:(simpl; lia)). rewrite lookup_app_r in L by lia.
      replace (length (concat es) + 1 - length (concat es))%nat with 1%nat in L by lia.
      cbn [lookup list_lookup] in L. rewrite L. f_equal. unfold p. lia.
    - eapply mapped_sub; [exact (read_bytes_mapped _ _ _ _ Hr)|unfold p; simpl; lia..]. }
  apply loop_less_fuel with (length es + fuel)%nat; [lia|]. rewrite E. apply Hst.
Qed.

(** A counted loop over an array is a loop over its elements. *)
Lemma for_each_lookup {S A} (f : S -> A -> outcome S) (g : Z -> outcome A) (l : list A) (s : S) :
  (forall i a, l !! i = Some a -> g (Z.of_nat i) = Done a) ->
  for_each (fun s i => a ← g i; f s a) (seqZ 0 (Z.of_nat (length l))) s = for_each f l s.
Proof.
  intros Hg. assert (forall k, (forall i a, l !! i = Some a -> g (k + Z.of_nat i) = Done a) ->
    for_each (fun s i => a ← g i; f s a) (seqZ k (Z.of_nat (length l))) s = for_each f l s) as H; [|by apply H].
  clear Hg. revert s. induction l as [|a l IH]; intros s k Hg; [done|].
  cbn [length]. rewrite Nat2Z.inj_succ, seqZ_cons by lia. cbn [for_each].
  pose proof (Hg 0%nat a eq_refl) as E. rewrite Z.add_0_r in E. rewrite E. cbn [mbind outcome_bind].
  destruct (f s a) as [s'| |]; try done. cbn [mbind outcome_bind]. rewrite Z.pred_succ.
  apply (IH s' (Z.succ k)). intros i x Hi. rewrite <- (Hg (Datatypes.S i) x Hi). f_equal. lia.
Qed.

(** ** What the controller holds after [init] *)

(** The tables as the firmware means them. *)
Inductive acpi_desc :=
  | TMadt (entries : list (list Z))
  | TMcfg (windows : list PciDeviceConfig)
  | THpet (address : Z)
  | TOther.

(** What a client sees of the controller: the processors, the interrupt bases of the I/O
    APICs, the PCI devices and whether there is a precision timer. *)
Record AcpiView := mkView {
  v_lapics : option (list LocalApicDescriptor);
  v_ioapics : option (list Z);
  v_devices : option (list PciDeviceInfo);
  v_hpet : bool }.

Definition acpi_view (c : AcpiController) : AcpiView :=
  mkView (m_localApics <$> m_madt c) ((fun t => m_globalIntrBase <$> m_ioApics t) <$> m_madt c)
    (snd <$> m_mcfg c) (hasHpetTable c).

Section init_spec.
Context (va_offset : Z) (uninit : Z -> Z) (fuel : nat) (m : mem) (b : PciBus) (win : Z -> Z).

(** Each table replaces what an earlier table of its kind has given. *)
Definition view_step (v : AcpiView) (d : acpi_desc) : AcpiView :=
  match d with
  | TMadt es => mkView (Some (flat_map entry_lapics es)) (Some (snd <$> flat_map entry_ioapics es)) (v_devices v) (v_hpet v)
  | TMcfg cs => mkView (v_lapics v) (v_ioapics v) (Some (flat_map (window_devices uninit b win) cs)) (v_hpet v)
  | THpet _ => mkView (v_lapics v) (v_ioapics v) (v_devices v) true
  | TOther => v
  end.

Definition table_holds (table : Z) (d : acpi_desc) : Prop :=
  match d with
  | TMadt es => read_bytes m table 4 = Some SIG_APIC /\ madt_bytes m table (concat es) /\
      Forall entry_wf es /\ (length es < fuel)%nat
  | TMcfg cs => read_bytes m table 4 = Some SIG_MCFG /\ table_lists m (table ⊞ va_offset) cs /\
      Z.of_nat (length cs) < 2 ^ 27 /\
      Forall (fun c => window_ok (base c) /\ is_u8 (startBus c) /\ is_u8 (endBus c)) cs
  | THpet address => read_bytes m table 4 = Some SIG_HPET /\ load64 m (table + 44) = Done address
  | TOther => exists sig, read_bytes m table 4 = Some sig /\ sig <> SIG_APIC /\ sig <> SIG_MCFG /\ sig <> SIG_HPET
  end.

Definition xsdt_lists (rsdp : Z) (ps : list Z) : Prop :=
  exists xsdt, load64 m (rsdp + 24) = Done xsdt /\
    read_bytes m ((xsdt ⊞ va_offset) + 4) 4 = Some (le_split 4 (36 + 8 * Z.of_nat (length ps))) /\
    Z.of_nat (length ps) < 2 ^ 28 /\
    forall i p, ps !! i = Some p -> load64 m ((xsdt ⊞ va_offset) + 36 + 8 * Z.of_nat i) = Done p.

(** The configuration space and the windows are as they were. *)
Definition WorldOk (w : AcpiWorld) : Prop := pci_words (w_ports w) = pci_words b /\ w_windows w = win.

Hypothesis Hlists : lists_end b.

Lemma acpi_table_run w c table d : WorldOk w -> table_holds table d ->
  exists w' c', acpi_table va_offset uninit fuel m (w, c) table = Done (w', c') /\ WorldOk w' /\
    acpi_view c' = view_step (acpi_view c) d /\ m_acpiTableEntries c' = m_acpiTableEntries c.
Proof.
  intros [Hp Hw] Hd. unfold acpi_table. destruct d as [es|cs|a|]; cbn [table_holds] in Hd.
  - destruct Hd as (-> & Hb & Hwf & Hf). cbn [need mbind outcome_bind]. rewrite bool_decide_true by done.
    destruct (Madt_new_finds fuel m (w_apics w) table es Hb Hwf Hf) as (c' & t & -> & Hl & Hio & _).
    cbn [mbind outcome_bind]. do 2 eexists. split; [reflexivity|]. split; [done|]. split; [|done].
    unfold acpi_view. simpl. by rewrite Hl, Hio.
  - destruct Hd as (-> & Ht & Hn & Hok). cbn [need mbind outcome_bind].
    rewrite !(bool_decide_false (SIG_MCFG = _)) by done. rewrite bool_decide_true by done.
    edestruct (enumerate_finds uninit b (mkMcfg (w_ports w) m (w_windows w) (w_idmap w) [])
      (table ⊞ va_offset) cs) as (s' & E & (Hu1 & Hu2 & _) & Ed); [done..|].
    rewrite E. cbn [mbind outcome_bind]. do 2 eexists. split; [reflexivity|].
    split; [split; [done|by rewrite <- Hw]|]. split; [|done]. unfold acpi_view. simpl in *. by rewrite Ed, Hw.
  - destruct Hd as (-> & E). cbn [need mbind outcome_bind].
    rewrite !(bool_decide_false (SIG_HPET = _)) by done. rewrite bool_decide_true by done.
    unfold Hpet_new. rewrite E. cbn [mbind outcome_bind]. do 2 eexists. split; [reflexivity|]. done.
  - destruct Hd as (sig & -> & H1 & H2 & H3). cbn [need mbind outcome_bind].
    rewrite (bool_decide_false (sig = SIG_APIC)), (bool_decide_false (sig = SIG_MCFG)),
      (bool_decide_false (sig = SIG_HPET)) by done.
    exists w, c. split; [by repeat case_match|]. done.
Qed.

Lemma acpi_tables_run ps ds : Forall2 table_holds ps ds -> forall w c, WorldOk w ->
  exists w' c', for_each (acpi_table va_offset uninit fuel m) ps (w, c) = Done (w', c') /\ WorldOk w' /\
    acpi_view c' = foldl view_step (acpi_view c) ds /\ m_acpiTableEntries c' = m_acpiTableEntries c.
Proof.
  induction 1 as [|p d ps ds Hd _ IH]; intros w c Hw; [by exists w, c|].
  destruct (acpi_table_run w c p d Hw Hd) as (w1 & c1 & E1 & Hw1 & Hv1 & Hn1).
  cbn [for_each foldl]. rewrite E1. cbn [mbind outcome_bind].
  destruct (IH w1 c1 Hw1) as (w2 & c2 & E2 & Hw2 & Hv2 & Hn2). exists w2, c2. by rewrite E2, Hv2, Hv1, Hn2, Hn1.
Qed.

End init_spec.

Lemma AcpiController_init_run va_offset uninit fuel m b w rsdp ps ds :
  lists_end b -> pci_words (w_ports w) = pci_words b ->
  xsdt_lists va_offset m rsdp ps -> Forall2 (table_holds va_offset fuel m) ps ds ->
  exists w' c, AcpiController_init va_offset uninit fuel m w rsdp = Done (w', c) /\
    acpi_view c = foldl (view_step uninit b (w_windows w)) (mkView None None None false) ds /\
    m_acpiTableEntries c = Z.of_nat (length ds).
Proof.
  intros Hl Hp (x & Ex & Hlen & Hn & Hptr) Hds. unfold AcpiController_init. rewrite Ex. cbn [mbind outcome_bind].
  rewrite Hlen. cbn [need mbind outcome_bind]. rewrite le_combine_split, Z.mod_small by lia.
  rewrite (u64_small (_ - 36)) by (unfold is_u64; lia).
  replace (36 + 8 * Z.of_nat (length ps) - 36) with (Z.of_nat (length ps) * 8) by lia. rewrite Z.div_mul by lia.
  rewrite (for_each_lookup _ (fun i => load64 m (x ⊞ va_offset + 36 + 8 * i)) ps) by done.
  destruct (acpi_tables_run va_offset uninit fuel m b (w_windows w) Hl ps ds Hds w
    (mkAcpi (x ⊞ va_offset) None None None (Z.of_nat (length ps)))) as (w' & c & E & _ & Hv & Hc); [done|].
  exists w', c. rewrite E, Hv, Hc, (Forall2_length _ _ _ Hds). done.
Qed.

(** C13 (refinement): on an XSDT that lists the tables [ps] with the contents [ds], [init]
    returns, and a client sees of the controller exactly what the tables say: the enabled
    processors of the last MADT and its I/O APICs, the PCI devices found in the windows of
    the last MCFG and whether there is an HPET; every listed table is counted. *)
Theorem AcpiController_init_view va_offset uninit fuel m b w rsdp ps ds :
  lists_end b -> pci_words (w_ports w) = pci_words b ->
  xsdt_lists va_offset m rsdp ps -> Forall2 (table_holds va_offset fuel m) ps ds ->
  exists w' c, AcpiController_init va_offset uninit fuel m w rsdp = Done (w', c) /\
    acpi_view c = foldl (view_step uninit b (w_windows w)) (mkView None None None false) ds /\
    m_acpiTableEntries c = Z.of_nat (length ds).
Proof. apply AcpiController_init_run. Qed.

(** ** The registers of the I/O APICs

    The page of every I/O APIC of the table is among the mappings made. *)
Definition registers_mapped (c : ApicCtx) (t : Madt) : Prop :=
  Forall (fun a => m_virtualBase a ∈ fst <$> mappings c) (m_ioApics t).

Lemma registers_grow c c' t x : mappings c' = x :: mappings c -> registers_mapped c t -> registers_mapped c' t.
Proof. intros E Hm. eapply Forall_impl; [exact Hm|]. intros a Ha. rewrite E. by right. Qed.

Lemma madt_entry_mapped m c t x p c' t' : madt_entry m c t x p = Done (c', t') ->
  registers_mapped c t -> registers_mapped c' t'.
Proof.
  unfold madt_entry. intros E Hm. destruct (x =? 0).
  { destruct (read_bytes m (p + 4) 4); cbn [need mbind outcome_bind] in E; [|done].
    destruct (Z.testbit _ _); [|by injection E as <- <-].
    destruct (read_bytes m p 8); cbn [need mbind outcome_bind] in E; [|done]. by injection E as <- <-. }
  destruct (x =? 1); [|by injection E as <- <-].
  destruct (read_bytes m (p + 4) 4); cbn [need mbind outcome_bind] in E; [|done].
  destruct (read_bytes m (p + 8) 4); cbn [need mbind outcome_bind] in E; [|done].
  unfold new_ioapic, IoApic_new, read in E. injection E as <- <-.
  apply Forall_app. split; [by eapply registers_grow|]. apply Forall_singleton. by left.
Qed.

Lemma Madt_new_mapped fuel m c desc c' t : Madt_new fuel m c desc = Done (c', t) -> registers_mapped c' t.
Proof.
  unfold Madt_new. destruct (read_bytes m (desc + 4) 4); cbn [need mbind outcome_bind]; [|done].
  change (registers_mapped c' t) with ((fun r => registers_mapped (fst r) (snd r)) (c', t)).
  apply (loop_inv (fun x => registers_mapped (fst (fst x)) (snd (fst x)))); [| |by apply Forall_nil].
  - intros [[c1 t1] p] [[c2 t2] p2] Hm E. unfold madt_body in E. destruct (p <? _); [|done].
    destruct (load8 m p); cbn [mbind outcome_bind] in E; try done.
    destruct (load8 m (p + 1)); cbn [mbind outcome_bind] in E; try done.
    destruct (madt_entry _ _ _ _ _) as [[c3 t3]| |] eqn:Em; cbn [mbind outcome_bind] in E; try done.
    injection E as <- <- <-. by eapply madt_entry_mapped.
  - intros [[c1 t1] p] [c2 t2] Hm E. unfold madt_body in E. destruct (p <? _); [|by injection E as <- <-].
    destruct (load8 m p); cbn [mbind outcome_bind] in E; try done.
    destruct (load8 m (p + 1)); cbn [mbind outcome_bind] in E; try done.
    by destruct (madt_entry _ _ _ _ _) as [[]| |].
Qed.

Definition io_mapped (s : AcpiWorld * AcpiController) : Prop :=
  forall t, m_madt (snd s) = Some t -> registers_mapped (w_apics (fst s)) t.

Lemma acpi_table_mapped va_offset uninit fuel m s table s' :
  acpi_table va_offset uninit fuel m s table = Done s' -> io_mapped s -> io_mapped s'.
Proof.
  destruct s as [w c]. unfold acpi_table. intros E Hs.
  destruct (read_bytes m table 4); cbn [need mbind outcome_bind] in E; [|done].
  case_bool_decide.
  { destruct (Madt_new _ _ _ _) as [[c' t]| |] eqn:Em; cbn [mbind outcome_bind] in E; try done. injection E as <-.
    intros t' [= <-]. by eapply Madt_new_mapped. }
  do 2 (case_bool_decide; [by injection E as <-|]). case_bool_decide.
  { destruct (Mcfg.enumeratePciDevices _ _ _); cbn [mbind outcome_bind] in E; try done. injection E as <-. exact Hs. }
  case_bool_decide; [|by injection E as <-].
  destruct (Hpet_new _ _ _) as [[c' b]| |] eqn:Eh; cbn [mbind outcome_bind] in E; try done. injection E as <-.
  unfold Hpet_new in Eh. destruct (load64 _ _); cbn [mbind outcome_bind] in Eh; try done. injection Eh as <- <-.
  intros t Ht. eapply registers_grow; [reflexivity|]. by apply Hs.
Qed.

Lemma AcpiController_init_mapped va_offset uninit fuel m w rsdp s :
  AcpiController_init va_offset uninit fuel m w rsdp = Done s -> io_mapped s.
Proof.
  unfold AcpiController_init. destruct (load64 m (rsdp + 24)); cbn [mbind outcome_bind]; try done.
  destruct (read_bytes _ _ _); cbn [need mbind outcome_bind]; try done. intros E.
  assert (PreOrder (fun x y => io_mapped x -> io_mapped y)) as Hpre by (split; [by intros x|by intros x y z; auto]).
  eapply (for_each_keeps (fun x y => io_mapped x -> io_mapped y)); [|exact E|done].
  intros i s1 s2 _ E1 Hs1. cbv beta in E1. destruct (load64 m (a ⊞ va_offset + 36 + 8 * i)); cbn [mbind outcome_bind] in E1; try done. by eapply acpi_table_mapped.
Qed.

(** ** Witnesses *)

(** An enabled local APIC, a disabled one and an I/O APIC. *)
Definition demo_entries : list (list Z) :=
  [[0; 8; 0; 0; 1; 0; 0; 0]; [0; 8; 1; 2; 0; 0; 0; 0]; [1; 12; 0; 0] ++ le_split 4 0xFEC00000 ++ le_split 4 0].

Definition demo_madt : list Z :=
  SIG_APIC ++ le_split 4 (44 + Z.of_nat (length (concat demo_entries))) ++ replicate 36 0 ++ concat demo_entries.

(** The root pointer at 0x100; the XSDT at 0x200 and the MCFG at 0x2000, both in the
    direct map at 0x100000; the MADT at 0x1000 and the HPET at 0x3000. *)
Definition demo_acpi : mem :=
  put_bytes (put_bytes (put_bytes (put_bytes (put_bytes (put_bytes (put_bytes ∅
    0x118 (le_split 8 0x200))
    0x100204 (le_split 4 60 ++ replicate 28 0 ++ le_split 8 0x1000 ++ le_split 8 0x2000 ++ le_split 8 0x3000))
    0x1000 demo_madt)
    0x2000 SIG_MCFG)
    0x102000 (SIG_MCFG ++ le_split 4 60 ++ replicate 36 0 ++ le_split 8 0xB0000000 ++ le_split 2 0 ++ [0; 1] ++ replicate 4 0))
    0x3000 SIG_HPET)
    0x302C (le_split 8 0xFED00000).

Definition demo_ctx : ApicCtx := mkCtx (fun _ => demo_hw) [0x5000; 0x6000] [].

Lemma demo_entries_wf : Forall entry_wf demo_entries.
Proof. repeat constructor; simpl; try lia; intros; discriminate. Qed.

Lemma demo_madt_bytes : madt_bytes demo_acpi 0x1000 (concat demo_entries).
Proof. split_and!; [vm_compute; reflexivity|vm_compute; reflexivity|simpl; lia..]. Qed.

Lemma Madt_new_walk_witness :
  exists c' t, Madt_new 4 demo_acpi demo_ctx 0x1000 = Done (c', t) /\
    apicId <$> m_localApics t = [0] /\ m_globalIntrBase <$> m_ioApics t = [0] /\
    snd <$> mappings c' = [0xFEC00000].
Proof.
  destruct (Madt_new_walk 4 demo_acpi demo_ctx 0x1000 demo_entries demo_entries_wf) as [H _].
  destruct (H demo_madt_bytes ltac:(simpl; lia)) as (c' & t & E & El & Ei & Em).
  exists c', t. rewrite El, Ei, Em. split; [exact E|]. split_and!; vm_compute; reflexivity.
Defined.

Definition demo_world : AcpiWorld := mkWorld demo_ports demo_window [] demo_ctx.

Lemma AcpiController_init_view_witness :
  exists w' c, AcpiController_init 0x100000 (fun _ => 0) 4 demo_acpi demo_world 0x100 = Done (w', c) /\
    v_hpet (acpi_view c) = true /\ v_lapics (acpi_view c) = Some [mkLapic 0 8 0 0 1] /\
    option_map length (v_devices (acpi_view c)) = Some 2%nat /\ m_acpiTableEntries c = 3.
Proof.
  destruct (AcpiController_init_view 0x100000 (fun _ => 0) 4 demo_acpi demo_ports demo_world 0x100
    [0x1000; 0x2000; 0x3000] [TMadt demo_entries; TMcfg [mkConfig 0xB0000000 0 0 1]; THpet 0xFED00000])
    as (w' & c & E & Ev & Ec).
  - exact demo_lists.
  - reflexivity.
  - exists 0x200. split_and!; [vm_compute; reflexivity|vm_compute; reflexivity|simpl; lia|].
    intros [|[|[|i]]] p Hp; simpl in Hp; try (injection Hp as <-; vm_compute; reflexivity). by destruct i.
  - constructor; [|constructor; [|constructor; [|constructor]]].
    + split_and!; [vm_compute; reflexivity|exact demo_madt_bytes|exact demo_entries_wf|simpl; lia].
    + split_and!; [vm_compute; reflexivity| |simpl; lia|].
      * split; [vm_compute; reflexivity|]. intros [|t] c Hc; [|by destruct t]. injection Hc as <-. vm_compute. reflexivity.
      * repeat constructor; unfold is_u8; simpl; lia.
    + split; vm_compute; reflexivity.
  - exists w', c. rewrite Ev, Ec. split; [exact E|]. split_and!; vm_compute; reflexivity.
Defined.
