(* ===== verification/Aml.v ===== *)
(** * The AML helpers (kernel/src/acpi/acpi_controller.cpp)

    [parsePkgLength] decodes the length of an AML package, [parseNameObject] prints the
    string of a [_HID] object and recognises the xHCI controllers, [parseDsdt] looks for
    devices in a definition block.  The code reads the table as bytes of the memory; what
    it reports is the list of lines it prints. *)
From Stdlib Require Import ZArith Lia.
From stdpp Require Import base tactics numbers option list gmap.
From S2P Require Import Prelude Memory.
Local Open Scope Z_scope.

Definition AML_OPCODE_DEVICE : Z := 0x82.
Definition AML_OPCODE_NAME : Z := 0x08.

(** ** [parsePkgLength] *)

(** One turn of [while (byte_count)]: the state is [byte_count], [package_length] and
    [byte_zero_mask]. *)
Definition pkg_body (m : mem) (amlPointer : Z) (s : Z * Z * Z) : outcome (Z * Z * Z + Z * Z) :=
  let '(byte_count, package_length, byte_zero_mask) := s in
  if byte_count =? 0 then Done (inr (package_length, byte_zero_mask))
  else
    b ← load8 m (amlPointer ⊞ byte_count);
    Done (inl (byte_count - 1,
               Z.lor package_length (Z.shiftl b (Z.shiftl byte_count 3 - 4)), 0x0F)).

(** Returns [amlPointer] and the length. *)
Definition parsePkgLength (m : mem) (amlPointer : Z) : outcome (Z * Z) :=
  b ← load8 m amlPointer;
  let byte_count := Z.shiftr b 6 in
  let amlPointer := amlPointer ⊞ (byte_count + 1) in
  '(package_length, byte_zero_mask) ← loop 4 (pkg_body m amlPointer) (byte_count, 0, 0x3F);
  b0 ← load8 m amlPointer;
  Done (amlPointer, Z.lor package_length (Z.land b0 byte_zero_mask)).

(** ** [parseNameObject] *)
Inductive aml_line :=
  | DeviceString (s : list Z)      (* Device String Found *)
  | XhciFound (s : list Z).        (* XHCI Controller Found *)

Definition HID_PNP0D10 : list Z := [0x50; 0x4E; 0x50; 0x30; 0x44; 0x31; 0x30].
Definition HID_80860F35 : list Z :=
  [0x41; 0x43; 0x50; 0x49; 0x5C; 0x38; 0x30; 0x38; 0x36; 0x30; 0x46; 0x33; 0x35].

(** [memcmp(p, lit, n) == 0] with a literal of [n] bytes, which stops at the first
    difference. *)
Fixpoint equals_literal (m : mem) (p : Z) (lit : list Z) : outcome bool :=
  match lit with
  | [] => Done true
  | c :: lit => b ← load8 m p; if b =? c then equals_literal m (p ⊞ 1) lit else Done false
  end.

(** [buffer[i] = v]: an index past the 256 bytes writes outside the array. *)
Definition buf_store (buffer : list Z) (i : nat) (v : Z) : outcome (list Z) :=
  if (i <? length buffer)%nat then Done (<[i := v]> buffer) else Fault.

(** One turn of the copy loop: the state is the pointer, [i] and the buffer. *)
Definition name_body (m : mem) (s : Z * nat * list Z) : outcome (Z * nat * list Z + Z * nat * list Z) :=
  let '(amlPointer, i, buffer) := s in
  c ← load8 m amlPointer;
  buffer ← buf_store buffer i c;
  if c =? 0 then Done (inr (amlPointer, i, buffer))
  else
    let i := if (i <? 256 - 2)%nat then S i else i in
    Done (inl (amlPointer ⊞ 1, i, buffer)).

(** The characters of a C string: up to the first zero. *)
Fixpoint c_string (bs : list Z) : list Z :=
  match bs with
  | [] => []
  | b :: bs => if b =? 0 then [] else b :: c_string bs
  end.

Definition name_lines (buffer : list Z) : list aml_line :=
  DeviceString (c_string buffer) ::
  (if bool_decide (take 7 buffer = HID_PNP0D10) || bool_decide (take 13 buffer = HID_80860F35)
   then [XhciFound (c_string buffer)] else []).

(** The cases of the integer constants and of the other types do nothing. *)
Definition parseNameObject (fuel : nat) (m : mem) (amlPointer : Z) : outcome (Z * list aml_line) :=
  let amlPointer := amlPointer ⊞ 4 in
  dataType ← load8 m amlPointer;
  let amlPointer := amlPointer ⊞ 1 in
  if dataType =? 0x0D then
    '(amlPointer, i, buffer) ← loop fuel (name_body m) (amlPointer, 0%nat, replicate 256 0);
    buffer ← buf_store buffer i 0;
    Done (amlPointer, name_lines buffer)
  else Done (amlPointer, []).

(** ** [parseDsdt] *)
Definition HID_NAME : list Z := [0x5F; 0x48; 0x49; 0x44].

(** The loop over the contents of a device package. *)
Definition device_body (fuel : nat) (m : mem) (deviceEnd : Z) (s : Z * list aml_line)
    : outcome (Z * list aml_line + list aml_line) :=
  let '(amlPointer, out) := s in
  if amlPointer <? deviceEnd then
    b ← load8 m amlPointer;
    if b =? AML_OPCODE_NAME then
      let amlPointer := amlPointer ⊞ 1 in
      hid ← equals_literal m amlPointer HID_NAME;
      if (hid : bool) then
        '(amlPointer, lines) ← parseNameObject fuel m amlPointer;
        Done (inl (amlPointer, out ++ lines))
      else Done (inl (amlPointer ⊞ 4, out))
    else Done (inl (amlPointer ⊞ 1, out))
  else Done (inr out).

Definition dsdt_body (fuel : nat) (m : mem) (amlEnd : Z) (s : Z * list aml_line)
    : outcome (Z * list aml_line + list aml_line) :=
  let '(amlPointer, out) := s in
  if amlPointer <? amlEnd then
    opcode ← load8 m amlPointer;
    let amlPointer := amlPointer ⊞ 1 in
    if opcode =? AML_OPCODE_DEVICE then
      '(amlPointer, pkgLength) ← parsePkgLength m amlPointer;
      let deviceEnd := amlPointer ⊞ pkgLength in
      out ← loop fuel (device_body fuel m deviceEnd) (amlPointer, out);
      Done (inl (deviceEnd, out))
    else Done (inl (amlPointer, out))
  else Done (inr out).

(** The header of the table is 36 bytes, its length field is at offset 4. *)
Definition parseDsdt (fuel : nat) (m : mem) (dsdt : Z) : outcome (list aml_line) :=
  let amlStart := dsdt ⊞ 36 in
  len ← need (read_bytes m (dsdt + 4) 4);
  let amlEnd := dsdt ⊞ le_combine len in
  loop fuel (dsdt_body fuel m amlEnd) (amlStart, []).

(** ** The package length *)

(** The length of the ACPI encoding: six bits of the first byte, or its low four bits
    with the following bytes above them. *)
Definition aml_length (bs : list Z) : Z :=
  match bs with
  | [] => 0
  | [b0] => b0 mod 64
  | b0 :: rest => b0 mod 16 + 16 * le_combine rest
  end.

Lemma lor_disjoint a b k : 0 <= k -> a mod 2 ^ k = 0 -> 0 <= b < 2 ^ k -> Z.lor a b = a + b.
Proof.
  intros Hk Ha Hb. assert (Z.land a b = 0) as H0; [|by rewrite <- Z.lxor_lor, Z.add_nocarry_lxor].
  apply Z.bits_inj'. intros i Hi. rewrite Z.land_spec, Z.bits_0. destruct (Z.ltb_spec i k).
  - rewrite <- (Z.mod_pow2_bits_low a k i), Ha, Z.bits_0 by lia. done.
  - rewrite <- (Z.mod_small b (2 ^ k)), Z.mod_pow2_bits_high by lia. apply andb_false_r.
Qed.

(** The byte of index [i] of what was read, as the code loads it. *)
Lemma load_at m q n bs i : is_u64 (q + Z.of_nat i) -> read_bytes m q n = Some bs -> (i < n)%nat ->
  load8 m (q ⊞ Z.of_nat i) = need (bs !! i).
Proof.
  intros Hu Hr Hi. unfold load8. rewrite u64_small by done. by rewrite (read_bytes_lookup _ _ _ _ _ Hr Hi).
Qed.

(** Four bytes of a package length put together with [or] and shifts. *)
Lemma pkg_or b1 b2 b3 l0 : is_u8 b1 -> is_u8 b2 -> is_u8 b3 ->
  Z.lor (Z.lor (Z.lor (Z.lor 0 (Z.shiftl b3 20)) (Z.shiftl b2 12)) (Z.shiftl b1 4)) (Z.land l0 0x0F)
  = l0 mod 16 + 16 * (b1 + 256 * (b2 + 256 * b3)).
Proof.
  unfold is_u8. intros. change 0x0F with (Z.ones 4). rewrite Z.lor_0_l, Z.land_ones, !Z.shiftl_mul_pow2 by lia.
  rewrite (lor_disjoint (b3 * _) _ 20), (lor_disjoint (_ + _) _ 12), (lor_disjoint (_ + _) _ 4) by
    (try (apply Z.mod_pos_bound; lia); Z.to_euclidean_division_equations; lia).
  change (2 ^ 4) with 16. lia.
Qed.

Lemma pkg_step m q f k l mask b : 0 < k -> load8 m (q ⊞ k) = Done b ->
  loop (S f) (pkg_body m q) (k, l, mask) =
  loop f (pkg_body m q) (k - 1, Z.lor l (Z.shiftl b (Z.shiftl k 3 - 4)), 0x0F).
Proof.
  intros Hk Hl. cbn [loop]. unfold pkg_body at 1. rewrite (proj2 (Z.eqb_neq k 0)) by lia. by rewrite Hl.
Qed.

(** The loop for [n] further bytes at [q] and the byte at [q] itself. *)
Lemma pkg_loop m q n bs : 0 <= q -> q + 4 <= 0x10000000000000000 -> (n <= 3)%nat ->
  mem_wf m -> read_bytes m q (S n) = Some bs ->
  exists l mask b0, loop 4 (pkg_body m q) (Z.of_nat n, 0, 0x3F) = Done (l, mask) /\
    load8 m q = Done b0 /\ Z.lor l (Z.land b0 mask) = aml_length bs.
Proof.
  intros Hq Hq4 Hn Hwf Hr. pose proof (read_bytes_ok _ _ _ _ Hwf Hr) as Hok.
  pose proof (read_bytes_length _ _ _ _ Hr) as Hlen.
  assert (load8 m q = need (bs !! 0%nat)) as H0.
  { unfold load8. rewrite (read_bytes_lookup _ _ _ _ 0 Hr) by lia. do 2 f_equal. lia. }
  assert (forall i, (i < S n)%nat -> load8 m (q ⊞ Z.of_nat i) = need (bs !! i)) as Hl.
  { intros i Hi. eapply load_at; [unfold is_u64; lia|exact Hr|lia]. }
  assert (is_u8 0) as Hz by (unfold is_u8; lia).
  destruct n as [|[|[|[|n]]]]; [| | | |lia];
    repeat (destruct bs as [|? bs]; cbn [length] in Hlen; try lia);
    repeat (apply Forall_cons in Hok as [? Hok]); do 3 eexists.
  - repeat split; [exact H0|]. change 0x3F with (Z.ones 6). by rewrite Z.lor_0_l, Z.land_ones.
  - split; [etrans; [apply (pkg_step m q _ 1 _ _ _ eq_refl (Hl 1%nat ltac:(lia)))|]; done|].
    split; [exact H0|]. etrans; [apply (pkg_or z0 0 0 z); done|]. cbn [aml_length le_combine]. lia.
  - split; [etrans; [apply (pkg_step m q _ 2 _ _ _ eq_refl (Hl 2%nat ltac:(lia)))|]; etrans; [apply (pkg_step m q _ 1 _ _ _ eq_refl (Hl 1%nat ltac:(lia)))|]; done|].
    split; [exact H0|]. etrans; [apply (pkg_or z0 z1 0 z); done|]. cbn [aml_length le_combine]. lia.
  - split; [etrans; [apply (pkg_step m q _ 3 _ _ _ eq_refl (Hl 3%nat ltac:(lia)))|]; etrans; [apply (pkg_step m q _ 2 _ _ _ eq_refl (Hl 2%nat ltac:(lia)))|]; etrans; [apply (pkg_step m q _ 1 _ _ _ eq_refl (Hl 1%nat ltac:(lia)))|]; done|].
    split; [exact H0|]. etrans; [apply (pkg_or z0 z1 z2 z); done|]. cbn [aml_length le_combine]. lia.
Qed.

(** [parsePkgLength] moves the pointer behind the encoding, whose size the
    two high bits of the first byte give, and then decodes the bytes that follow the
    encoding: the result is the ACPI length of those bytes and not of the encoding. *)
Theorem parsePkgLength_decodes_behind m p b bs :
  mem_wf m -> 0 <= p -> p + 8 <= 0x10000000000000000 -> m !! p = Some b ->
  let n := Z.to_nat (Z.shiftr b 6) in
  let q := p + Z.of_nat n + 1 in
  read_bytes m q (S n) = Some bs ->
  parsePkgLength m p = Done (q, aml_length bs).
Proof.
  intros Hwf Hp Hp8 Hb n q Hr. pose proof (Hwf _ _ Hb) as Hb8. simpl in Hb8. unfold is_u8 in Hb8.
  assert (0 <= Z.shiftr b 6 <= 3) as Hc by (rewrite Z.shiftr_div_pow2 by lia; Z.to_euclidean_division_equations; lia).
  assert (Z.of_nat n = Z.shiftr b 6) as En by (subst n; lia).
  destruct (pkg_loop m q n bs ltac:(lia) ltac:(lia) ltac:(lia) Hwf Hr) as (l & mask & b0 & E & E0 & <-).
  assert (load8 m p = Done b) as Hl by (unfold load8; by rewrite Hb).
  unfold parsePkgLength. rewrite Hl. cbn [mbind outcome_bind need].
  rewrite (u64_small (p + _)) by (unfold is_u64; lia).
  replace (p + (Z.shiftr b 6 + 1)) with q by lia. rewrite <- En, E. cbn [mbind outcome_bind]. by rewrite E0.
Qed.

(** ** The string of a [_HID] object *)

(** The copy loop after [k] characters of [s]. *)
Definition copied (s : list Z) (k i : nat) (buffer : list Z) : Prop :=
  i = Nat.min k 254 /\ length buffer = 256%nat /\ take i buffer = take i s.

Lemma buf_store_in buffer i c : (i < length buffer)%nat -> buf_store buffer i c = Done (<[i := c]> buffer).
Proof. intros H. unfold buf_store. by rewrite (proj2 (Nat.ltb_lt _ _) H). Qed.

Lemma copied_step s k i buffer c : copied s k i buffer -> s !! k = Some c ->
  buf_store buffer i c = Done (<[i := c]> buffer) /\
  copied s (S k) (if (i <? 256 - 2)%nat then S i else i) (<[i := c]> buffer).
Proof.
  intros (-> & Hlen & Ht) Hc. split.
  { apply buf_store_in. lia. }
  destruct (Nat.ltb_spec (Nat.min k 254) (256 - 2)) as [Hlt|Hge]; (split; [lia|]);
    rewrite length_insert; (split; [done|]).
  - rewrite Nat.min_l in * by lia. rewrite (take_S_r _ _ c) by (apply list_lookup_insert_eq; lia).
    rewrite (take_S_r s _ c) by done. rewrite take_insert_ge by lia. by f_equal.
  - by rewrite take_insert_ge by lia.
Qed.

Lemma load_first m p n b bs : read_bytes m p (S n) = Some (b :: bs) -> load8 m p = Done b.
Proof.
  intros Hr. pose proof (read_bytes_lookup _ _ _ _ 0 Hr ltac:(lia)) as H. rewrite Z.add_0_r in H.
  unfold load8. by rewrite <- H.
Qed.

(** The loop over the rest of the string [t] behind [k] characters. *)
Lemma name_loop m t : forall s k i buffer p fuel, Forall (fun c => c <> 0) t ->
  drop k s = t -> copied s k i buffer -> 0 <= p -> p + Z.of_nat (length t) < 0x10000000000000000 ->
  read_bytes m p (S (length t)) = Some (t ++ [0]) -> (length t < fuel)%nat ->
  exists i' buffer', loop fuel (name_body m) (p, i, buffer) = Done (p + Z.of_nat (length t), i', buffer') /\
    copied s (k + length t) i' buffer'.
Proof.
  induction t as [|c t IH]; intros s k i buffer p fuel Hnz Hd Hc Hp Hpt Hr Hf.
  - destruct fuel as [|fuel]; [cbn in Hf; lia|]. cbn [loop length] in *.
    assert (load8 m p = Done 0) as Hl by exact (load_first _ _ _ _ _ Hr).
    unfold name_body. rewrite Hl. cbn [mbind outcome_bind].
    destruct Hc as (-> & Hlen & Ht). rewrite buf_store_in by lia. cbn [mbind outcome_bind Z.eqb].
    exists (Nat.min k 254), (<[Nat.min k 254 := 0]> buffer). rewrite Z.add_0_r, Nat.add_0_r. split; [done|].
    repeat split; [by rewrite length_insert|by rewrite take_insert_ge by lia].
  - destruct fuel as [|fuel]; [lia|]. apply Forall_cons in Hnz as [Hc0 Hnz]. cbn [length] in *.
    assert (s !! k = Some c) as Hk by (rewrite <- (Nat.add_0_r k), <- lookup_drop, Hd; done).
    destruct (copied_step _ _ _ _ _ Hc Hk) as [Hst Hc'].
    assert (load8 m p = Done c) as Hl by exact (load_first _ _ _ _ _ Hr).
    cbn [loop]. unfold name_body at 1. rewrite Hl. cbn [mbind outcome_bind]. rewrite Hst. cbn [mbind outcome_bind].
    rewrite (proj2 (Z.eqb_neq c 0)) by done. rewrite u64_small by (unfold is_u64; lia).
    assert (drop (S k) s = t) as Hd' by (replace (S k) with (k + 1)%nat by lia; by rewrite <- drop_drop, Hd).
    assert (read_bytes m (p + 1) (S (length t)) = Some (t ++ [0])) as Hr'.
    { apply (read_bytes_sub m p (S (S (length t))) 1 (S (length t)) (c :: t ++ [0])) in Hr; [|lia].
      cbn [drop] in Hr. by rewrite (firstn_all2 (t ++ [0])) in Hr by (rewrite length_app; simpl; lia). }
    destruct (IH s (S k) _ _ (p + 1) fuel Hnz Hd' Hc' ltac:(lia) ltac:(lia) Hr' ltac:(lia)) as (i' & b' & -> & H').
    exists i', b'. rewrite Nat.add_succ_r. split; [do 3 f_equal; lia|exact H'].
Qed.

Lemma c_string_cut t bs : Forall (fun c => c <> 0) t -> c_string (t ++ 0 :: bs) = t.
Proof.
  induction 1 as [|c t Hc Ht IH]; simpl; [done|]. by rewrite (proj2 (Z.eqb_neq c 0)), IH by done.
Qed.

(** A text without zeros starts a zero-terminated buffer exactly if it starts the string. *)
Lemma literal_in_buffer lit t bs : Forall (fun c => c <> 0) lit ->
  take (length lit) (t ++ 0 :: bs) = lit <-> lit `prefix_of` t.
Proof.
  intros Hlit. revert t. induction Hlit as [|c lit Hc Hlit IH]; intros t.
  - split; [intros _; apply prefix_nil|done].
  - destruct t as [|c' t]; simpl.
    + split; [intros [= E _]; by destruct Hc|intros [? [=]]].
    + split.
      * intros [= -> E]. apply prefix_cons, IH, E.
      * intros H. pose proof (prefix_cons_inv_1 _ _ _ _ H) as ->.
        apply prefix_cons_inv_2 in H. f_equal. by apply IH.
Qed.

(** The lines [parseNameObject] prints for a string. *)
Definition hid_lines (s : list Z) : list aml_line :=
  DeviceString (take 254 s) ::
  (if bool_decide (HID_PNP0D10 `prefix_of` s) || bool_decide (HID_80860F35 `prefix_of` s)
   then [XhciFound (take 254 s)] else []).

Lemma take_prefix_of lit (s : list Z) : (length lit <= 254)%nat -> lit `prefix_of` take 254 s <-> lit `prefix_of` s.
Proof.
  intros Hl. split; intros [r E].
  - exists (r ++ drop 254 s). by rewrite app_assoc, <- E, take_drop.
  - exists (take (254 - length lit) r). rewrite E, take_app, firstn_all2 by lia. done.
Qed.

Lemma name_lines_string s buffer i : Forall (fun c => c <> 0) s -> copied s (length s) i buffer ->
  name_lines (<[i := 0]> buffer) = hid_lines s.
Proof.
  intros Hnz (-> & Hlen & Ht).
  assert (<[Nat.min (length s) 254 := 0]> buffer
          = take 254 s ++ 0 :: drop (S (Nat.min (length s) 254)) buffer) as ->.
  { rewrite insert_take_drop, Ht by lia. f_equal.
    destruct (Nat.min_spec (length s) 254) as [[? ->]|[? ->]]; [|done]. by rewrite !firstn_all2 by lia. }
  unfold name_lines, hid_lines. rewrite c_string_cut by (by apply Forall_take). f_equal.
  assert (forall lit, Forall (fun c => c <> 0) lit -> (length lit <= 254)%nat -> forall bs,
    bool_decide (take (length lit) (take 254 s ++ 0 :: bs) = lit) = bool_decide (lit `prefix_of` s)) as Hb.
  { intros lit Hl Hn bs. apply bool_decide_ext. by rewrite literal_in_buffer, take_prefix_of. }
  set (bs := drop _ buffer).
  assert (Forall (fun c => c <> 0) HID_PNP0D10 /\ Forall (fun c => c <> 0) HID_80860F35) as [? ?]
    by (split; repeat (constructor; [done|]); constructor).
  rewrite <- (Hb HID_PNP0D10 ltac:(done) ltac:(cbn; lia) bs), <- (Hb HID_80860F35 ltac:(done) ltac:(cbn; lia) bs).
  done.
Qed.

(** On a string constant the copy stays within the 256 bytes of the buffer
    however long the string is: the pointer stops at the terminator, the first 254
    characters are printed, and the string is announced as an xHCI controller exactly if
    it starts with one of the two identifiers. *)
Theorem parseNameObject_string fuel m p s :
  0 <= p -> p + 5 + Z.of_nat (length s) < 0x10000000000000000 ->
  m !! (p + 4) = Some 0x0D -> Forall (fun c => c <> 0) s ->
  read_bytes m (p + 5) (S (length s)) = Some (s ++ [0]) -> (length s < fuel)%nat ->
  parseNameObject fuel m p = Done (p + 5 + Z.of_nat (length s), hid_lines s).
Proof.
  intros Hp Hps H4 Hnz Hr Hf. unfold parseNameObject.
  rewrite (u64_small (p + 4)), (u64_small (p + 4 + 1)) by (unfold is_u64; lia).
  unfold load8. rewrite H4. cbn [mbind outcome_bind need Z.eqb Pos.eqb].
  replace (p + 4 + 1) with (p + 5) by lia.
  destruct (name_loop m s s 0 0 (replicate 256 0) (p + 5) fuel Hnz eq_refl) as (i & buffer & -> & Hc);
    [by repeat split|lia|lia|done|done|].
  cbn [mbind outcome_bind]. simpl in Hc.
  rewrite buf_store_in by (destruct Hc as (-> & -> & _); lia). cbn [mbind outcome_bind].
  by rewrite (name_lines_string s) by done.
Qed.

(** ** Termination of the walk *)

(** A loop whose continuing turns keep an invariant and decrease a measure, and whose turns
    return, does not run out of fuel. *)
Lemma loop_ends {S R} (Inv : S -> Prop) (meas : S -> nat) (body : S -> outcome (S + R)) :
  (forall s, Inv s -> body s <> Diverge /\
     forall s', body s = Done (inl s') -> Inv s' /\ (meas s' < meas s)%nat) ->
  forall fuel s, Inv s -> (meas s < fuel)%nat -> loop fuel body s <> Diverge.
Proof.
  intros Hstep fuel. induction fuel as [|fuel IH]; intros s Hs Hm; [lia|]. cbn [loop].
  destruct (Hstep s Hs) as [Hd Hn]. destruct (body s) as [[s'|r]| |] eqn:E; try done.
  destruct (Hn s' eq_refl). apply IH; [done|lia].
Qed.

Section ends.
(** The table starts at [lo] and all the mapped memory lies below [hi], which leaves room
    for a package length above it. *)
Context (m : mem) (lo hi : Z).
Context (Hwf : mem_wf m) (Hlo : 0 <= lo) (Hhi : hi <= 0xFFFFFFFF00000000).
Context (Hdom : forall a b, m !! a = Some b -> a < hi).

Definition room (p : Z) : nat := Z.to_nat (hi - p).

Lemma load_below p b : load8 m p = Done b -> p < hi /\ is_u8 b.
Proof. intros H%need_inv. split; [by eapply Hdom|exact (Hwf _ _ H)]. Qed.

Lemma load_returns p : load8 m p <> Diverge.
Proof. unfold load8. by destruct (m !! p). Qed.

Lemma step_below p k : 0 <= p < hi -> 0 <= k < 0x80000000 -> p ⊞ k = p + k.
Proof. intros. apply u64_small. unfold is_u64. lia. Qed.

Lemma name_ends fuel : (room lo < fuel)%nat -> forall p i buffer, lo <= p ->
  loop fuel (name_body m) (p, i, buffer) <> Diverge.
Proof.
  intros Hf p i buffer Hp.
  apply (loop_ends (fun s => lo <= fst (fst s)) (fun s => room (fst (fst s)))); [|done|unfold room in *; simpl; lia].
  clear p i buffer Hp. intros [[p i] buffer] Hp. simpl in Hp. unfold name_body.
  destruct (load8 m p) as [c| |] eqn:E; cbn [mbind outcome_bind];
    [|by split|by apply load_returns in E].
  apply load_below in E as [Hb _]. unfold buf_store.
  destruct (i <? length buffer)%nat; cbn [mbind outcome_bind]; [|by split].
  destruct (c =? 0); (split; [done|]); [done|].
  intros ? [= <-]. simpl. rewrite step_below by lia. unfold room. lia.
Qed.

Lemma name_moves fuel p i buffer p' i' buffer' : lo <= p ->
  loop fuel (name_body m) (p, i, buffer) = Done (p', i', buffer') -> p <= p'.
Proof.
  intros Hp. apply (loop_inv (fun s => p <= fst (fst s)) (fun r => p <= fst (fst r))); [| |done].
  - intros [[q j] bf] s' Hq. unfold name_body. intros H. inv_bind. apply load_below in E as [Hb _].
    simpl in Hq. destruct (r =? 0); [done|]. injection H as <-. simpl. rewrite step_below by lia. lia.
  - intros [[q j] bf] r Hq. unfold name_body. intros H. inv_bind.
    destruct (r0 =? 0); [|done]. by injection H as <-.
Qed.

Lemma parseNameObject_ends fuel p : (room lo < fuel)%nat -> lo <= p < hi ->
  parseNameObject fuel m p <> Diverge /\
  forall p' out, parseNameObject fuel m p = Done (p', out) -> p < p'.
Proof.
  intros Hf Hp. unfold parseNameObject. rewrite (step_below p 4) by lia.
  destruct (load8 m (p + 4)) as [c| |] eqn:E; cbn [mbind outcome_bind]; [|done|by apply load_returns in E].
  apply load_below in E as [Hb _]. rewrite step_below by lia.
  destruct (c =? 0x0D); [|split; [done|]; intros ? ? [= <- _]; lia].
  pose proof (name_ends fuel Hf (p + 4 + 1) 0 (replicate 256 0) ltac:(lia)) as Hn.
  destruct (loop fuel _ _) as [[[p1 i] buffer]| |] eqn:E; cbn [mbind outcome_bind]; [|done|done].
  apply name_moves in E; [|lia]. unfold buf_store.
  destruct (i <? length buffer)%nat; cbn [mbind outcome_bind]; [|done].
  split; [done|]. intros ? ? [= <- _]. lia.
Qed.

Lemma equals_literal_ends lit p : equals_literal m p lit <> Diverge.
Proof.
  revert p. induction lit as [|c lit IH]; intros p; cbn [equals_literal]; [done|].
  pose proof (load_returns p). destruct (load8 m p); cbn [mbind outcome_bind]; try done.
  destruct (_ =? _); [apply IH|done].
Qed.

Lemma literal_below p c lit r : equals_literal m p (c :: lit) = Done r -> p < hi.
Proof. cbn [equals_literal]. intros (b & E & _)%bind_inv. by apply load_below in E as [? _]. Qed.

Lemma device_ends fuel deviceEnd : (room lo < fuel)%nat -> forall p out, lo <= p ->
  loop fuel (device_body fuel m deviceEnd) (p, out) <> Diverge.
Proof.
  intros Hf p out Hp.
  apply (loop_ends (fun s => lo <= fst s) (fun s => room (fst s))); [|done|unfold room in *; simpl; lia].
  clear p out Hp. intros [p out] Hp. simpl in Hp. unfold device_body.
  destruct (p <? deviceEnd); [|by split].
  destruct (load8 m p) as [b| |] eqn:E; cbn [mbind outcome_bind]; [|by split|by apply load_returns in E].
  apply load_below in E as [Hb _]. rewrite (step_below p 1) by lia.
  assert (forall q, p < q -> lo <= q /\ (room q < room p)%nat) as Hq by (intros; unfold room; lia).
  destruct (b =? AML_OPCODE_NAME); [|split; [done|]; intros ? [= <-]; apply Hq; simpl; lia].
  pose proof (equals_literal_ends HID_NAME (p + 1)) as Hl.
  destruct (equals_literal _ _ _) as [[]| |] eqn:E; cbn [mbind outcome_bind]; [|clear Hl|done|done].
  - apply literal_below in E as Hb1.
    destruct (parseNameObject_ends fuel (p + 1) Hf ltac:(lia)) as [Hn Hm].
    destruct (parseNameObject _ _ _) as [[p' lines]| |]; cbn [mbind outcome_bind]; try done.
    split; [done|]. intros ? [= <-]. apply Hq. simpl. specialize (Hm _ _ eq_refl). lia.
  - apply literal_below in E as Hb1.
    split; [done|]. intros ? [= <-]. apply Hq. simpl. rewrite (step_below (p + 1)) by lia. lia.
Qed.

(** A package length stays below 2^28 and behind its encoding. *)
Lemma pkg_loop_ends q n : (n <= 3)%nat ->
  loop 4 (pkg_body m q) (Z.of_nat n, 0, 0x3F) <> Diverge.
Proof.
  intros Hn. apply (loop_ends (fun s => 0 <= fst (fst s)) (fun s => Z.to_nat (fst (fst s)))); [|simpl; lia|simpl; lia].
  intros [[k l] mask] Hk. simpl in Hk. unfold pkg_body. destruct (Z.eqb_spec k 0); [by split|].
  pose proof (load_returns (q ⊞ k)) as Hr. destruct (load8 m (q ⊞ k)); cbn [mbind outcome_bind]; try done.
  split; [done|]. intros ? [= <-]. simpl. lia.
Qed.

Lemma lor_below a b k : 0 <= k -> 0 <= a < 2 ^ k -> 0 <= b < 2 ^ k -> 0 <= Z.lor a b < 2 ^ k.
Proof.
  intros Hk Ha Hb. rewrite <- (Z.mod_small a (2 ^ k)), <- (Z.mod_small b (2 ^ k)) by lia.
  rewrite <- !Z.land_ones, <- Z.land_lor_distr_l, Z.land_ones by lia. apply Z.mod_pos_bound. lia.
Qed.

Lemma parsePkgLength_ends p : lo <= p ->
  parsePkgLength m p <> Diverge /\
  forall q l, parsePkgLength m p = Done (q, l) -> p <= q < hi /\ 0 <= l < 0x10000000.
Proof.
  intros Hp. unfold parsePkgLength.
  destruct (load8 m p) as [b| |] eqn:E; cbn [mbind outcome_bind]; [|done|by apply load_returns in E].
  apply load_below in E as [Hp1 Hb]. unfold is_u8 in Hb.
  assert (0 <= Z.shiftr b 6 <= 3) as Hc by (rewrite Z.shiftr_div_pow2 by lia; Z.to_euclidean_division_equations; lia).
  rewrite (step_below p) by lia. set (q := p + _).
  pose proof (pkg_loop_ends q (Z.to_nat (Z.shiftr b 6)) ltac:(lia)) as Hl. rewrite Z2Nat.id in Hl by lia.
  destruct (loop 4 _ _) as [[l mask]| |] eqn:E; cbn [mbind outcome_bind]; [|done|done].
  destruct (load8 m q) as [b0| |] eqn:E0; cbn [mbind outcome_bind]; [|done|by apply load_returns in E0].
  apply load_below in E0 as [Hq Hb0]. unfold is_u8 in Hb0. split; [done|]. intros ? ? [= <- <-]. split; [lia|].
  assert (0 <= l < 2 ^ 28 /\ 0 <= mask) as [Hl28 Hm].
  { revert E. apply (loop_inv (fun s => 0 <= fst (fst s) <= 3 /\ 0 <= snd (fst s) < 2 ^ 28 /\ 0 <= snd s)
                       (fun r => 0 <= fst r < 2 ^ 28 /\ 0 <= snd r)); [| |simpl; lia].
    - intros [[k l'] mask'] s' (Hk & Hl' & _). simpl in *. unfold pkg_body. destruct (Z.eqb_spec k 0); [done|].
      intros H. inv_bind. apply load_below in E as [_ Hr]. unfold is_u8 in Hr. simpl.
      split; [lia|]. split; [|lia]. apply lor_below; [lia|lia|].
      rewrite !Z.shiftl_mul_pow2 by (rewrite ?Z.shiftl_mul_pow2; lia).
      assert (k = 1 \/ k = 2 \/ k = 3) as [-> | [-> | ->]] by lia; simpl; lia.
    - intros [[k l'] mask'] r (Hk & Hl' & Hm). simpl in *. unfold pkg_body. destruct (k =? 0); [|intros H; by inv_bind].
      by intros [= <-]. }
  apply (lor_below _ _ 28); [lia|lia|]. split; [apply Z.land_nonneg; lia|].
  apply Z.le_lt_trans with b0; [|lia]. destruct (Z.eq_dec b0 0) as [->|]; [by rewrite Z.land_0_l|].
  apply Z.ldiff_le; [lia|]. apply Z.bits_inj'. intros i Hi. rewrite Z.ldiff_spec, Z.land_spec, Z.bits_0.
  by destruct (Z.testbit b0 i), (Z.testbit mask i).
Qed.

Lemma dsdt_ends fuel amlEnd : (room lo < fuel)%nat -> forall p out, lo <= p ->
  loop fuel (dsdt_body fuel m amlEnd) (p, out) <> Diverge.
Proof.
  intros Hf p out Hp.
  apply (loop_ends (fun s => lo <= fst s) (fun s => room (fst s))); [|done|unfold room in *; simpl; lia].
  clear p out Hp. intros [p out] Hp. simpl in Hp. unfold dsdt_body.
  destruct (p <? amlEnd); [|by split].
  destruct (load8 m p) as [b| |] eqn:E; cbn [mbind outcome_bind]; [|by split|by apply load_returns in E].
  apply load_below in E as [Hb _]. rewrite (step_below p 1) by lia.
  destruct (b =? AML_OPCODE_DEVICE); [|split; [done|]; intros ? [= <-]; simpl; unfold room; lia].
  destruct (parsePkgLength_ends (p + 1) ltac:(lia)) as [Hn Hm].
  destruct (parsePkgLength m (p + 1)) as [[q l]| |]; cbn [mbind outcome_bind]; [|by split|done].
  destruct (Hm _ _ eq_refl) as [Hq Hl]. rewrite (step_below q l) by lia.
  pose proof (device_ends fuel (q + l) Hf q out ltac:(lia)) as Hd.
  destruct (loop fuel _ _) as [out'| |]; cbn [mbind outcome_bind]; [|by split|done].
  split; [done|]. intros ? [= <-]. simpl. unfold room. lia.
Qed.
End ends.

(** For every definition block, well-formed or not, [parseDsdt] ends: it
    returns, or it stops at an address that is not mapped.  The number of turns of its loops
    is bounded by the mapped memory above the table. *)
Theorem parseDsdt_ends fuel m dsdt hi :
  mem_wf m -> 0 <= dsdt -> hi <= 0xFFFFFFFF00000000 -> (forall a b, m !! a = Some b -> a < hi) ->
  (Z.to_nat (hi - dsdt) < fuel)%nat ->
  parseDsdt fuel m dsdt <> Diverge.
Proof.
  intros Hwf Hd Hhi Hdom Hf. unfold parseDsdt.
  destruct (read_bytes m (dsdt + 4) 4) as [len|] eqn:E; cbn [need mbind outcome_bind]; [|done].
  assert (dsdt + 4 < hi).
  { pose proof (read_bytes_lookup _ _ _ _ 0 E ltac:(lia)) as H. rewrite Z.add_0_r in H.
    pose proof (read_bytes_length _ _ _ _ E) as Hl. destruct len as [|c len]; [done|].
    by apply (Hdom _ c). }
  rewrite (u64_small (dsdt + 36)) by (unfold is_u64; lia).
  apply (dsdt_ends m dsdt hi Hwf Hd Hhi Hdom); [done|lia].
Qed.

(** ** Examples *)

(** A definition block of 58 bytes: its header, a device whose (shifted) length byte is 16, and a [_HID]
    with the name of a generic xHCI controller. *)
Definition demo_dsdt : mem :=
  put_bytes ∅ 0x1000
    ([0x44; 0x53; 0x44; 0x54; 58; 0; 0; 0] ++ replicate 28 0 ++
     [0x82; 0x10; 0x14; 0x08; 0x5F; 0x48; 0x49; 0x44; 0x0D; 0x50; 0x4E; 0x50; 0x30; 0x44; 0x31; 0x30; 0] ++
     replicate 8 0).

Lemma demo_dsdt_wf : mem_wf demo_dsdt.
Proof.
  apply put_bytes_wf; [apply map_Forall_empty|]. unfold bytes_ok.
  apply (bool_decide_unpack _). by vm_compute.
Qed.

Lemma demo_dsdt_below a b : demo_dsdt !! a = Some b -> a < 0x1040.
Proof.
  intros H. destruct (Z.lt_ge_cases a 0x1040); [done|].
  unfold demo_dsdt in H. rewrite lookup_put_bytes_out in H by (cbn [length app replicate]; lia). done.
Qed.

Lemma parsePkgLength_decodes_behind_witness :
  parsePkgLength demo_dsdt 0x1025 = Done (0x1026, 0x14).
Proof.
  apply (parsePkgLength_decodes_behind demo_dsdt 0x1025 0x10 [0x14]);
    [apply demo_dsdt_wf|lia|lia|by vm_compute|by vm_compute].
Defined.

Lemma parseNameObject_string_witness :
  parseNameObject 100 demo_dsdt 0x1028 = Done (0x1034, [DeviceString HID_PNP0D10; XhciFound HID_PNP0D10]).
Proof.
  apply (parseNameObject_string 100 demo_dsdt 0x1028 HID_PNP0D10);
    [lia|cbn; lia|by vm_compute|repeat (constructor; [done|]); constructor|by vm_compute|cbn; lia].
Defined.

Lemma parseDsdt_ends_witness :
  parseDsdt 100 demo_dsdt 0x1000 <> Diverge /\
  parseDsdt 100 demo_dsdt 0x1000 = Done [DeviceString HID_PNP0D10; XhciFound HID_PNP0D10].
Proof.
  split; [|by vm_compute].
  apply (parseDsdt_ends 100 demo_dsdt 0x1000 0x1040);
    [apply demo_dsdt_wf|lia|lia|apply demo_dsdt_below|cbn; lia].
Defined.
