(* ===== verification/Gdt.v ===== *)
(** * Segment descriptors, task state and the system call registers (kernel/src/gdt/gdt.h,
      gdt.cpp, tss.h, arch/x86/asm/gdt.s, arch/x86/msr.h, msr.cpp)

    A descriptor is the word the processor reads, 64 bits for a segment and 128 bits for
    the task state, with its C bit fields as [bf] and [bf_set] of that word.  The model-
    specific registers are a map from their numbers; the table register, the task register
    and the segment selectors are the state of the running core.  What the processor makes
    of a descriptor ([seg_base], [seg_limit], [tss_base], the selectors of [syscall] and
    [sysret]) is written down from the architecture manual the header cites, so that the
    theorems read "the processor sees what the code meant". *)
From Stdlib Require Import ZArith Lia.
From stdpp Require Import base tactics numbers option list gmap.
From S2P Require Import Prelude PageFrame PageTable Paging Process Sched.

(** ** Model-specific registers *)
Definition IA32_EFER : Z := 0xC0000080.
Definition IA32_EFER_SCE : Z := 0x1.
Definition IA32_STAR : Z := 0xC0000081.
Definition IA32_LSTAR : Z := 0xC0000082.
Definition IA32_FMASK : Z := 0xC0000084.
Definition IA32_GS_BASE : Z := 0xC0000101.
Definition IA32_KERNEL_GS_BASE : Z := 0xC0000102.

(** [rdmsr] and [wrmsr] move a register through two 32-bit halves; a register the core
    does not have is a fault. *)
Definition readMsr (msrs : gmap Z Z) (msr : Z) : outcome Z :=
  v ← need (msrs !! msr);
  let low := u32 v in
  let high := u32 (Z.shiftr v 32) in
  Done (Z.lor low (u64 (Z.shiftl high 32))).

Definition writeMsr (msrs : gmap Z Z) (msr value : Z) : outcome (gmap Z Z) :=
  _ ← need (msrs !! msr);
  let low := Z.land value 0xFFFFFFFF in
  let high := u32 (Z.shiftr value 32) in
  Done (<[msr := Z.lor low (Z.shiftl high 32)]> msrs).

(** ** Segment descriptors *)
Definition set_limitLow (d x : Z) := bf_set 0 16 d x.
Definition set_baseLow (d x : Z) := bf_set 16 16 d x.
Definition set_baseMid (d x : Z) := bf_set 32 8 d x.
Definition set_accessed (d x : Z) := bf_set 40 1 d x.
Definition set_readWrite (d x : Z) := bf_set 41 1 d x.
Definition set_directionConform (d x : Z) := bf_set 42 1 d x.
Definition set_executable (d x : Z) := bf_set 43 1 d x.
Definition set_descriptorType (d x : Z) := bf_set 44 1 d x.
Definition set_descriptorPrivilegeLvl (d x : Z) := bf_set 45 2 d x.
Definition set_present (d x : Z) := bf_set 47 1 d x.
Definition set_limitHigh (d x : Z) := bf_set 48 4 d x.
Definition set_available (d x : Z) := bf_set 52 1 d x.
Definition set_longMode (d x : Z) := bf_set 53 1 d x.
Definition set_defaultBound (d x : Z) := bf_set 54 1 d x.
Definition set_granularity (d x : Z) := bf_set 55 1 d x.
Definition set_baseHigh (d x : Z) := bf_set 56 8 d x.

Definition setSegmentDescriptorBase (d base : Z) : Z :=
  let d := set_baseLow d (Z.land base 0xffff) in
  let d := set_baseMid d (Z.land (Z.shiftr base 16) 0xFF) in
  set_baseHigh d (Z.land (Z.shiftr base 24) 0xFF).

Definition setSegmentDescriptorLimit (d limit : Z) : Z :=
  let d := set_limitLow d (Z.land limit 0xFFFF) in
  set_limitHigh d (Z.land (Z.shiftr limit 16) 0xF).

(** ** The task state descriptor: the same low half, then the upper base *)
Definition set_tss_type (d x : Z) := bf_set 40 4 d x.
Definition set_tss_access_zero (d x : Z) := bf_set 44 1 d x.
Definition set_tss_dpl (d x : Z) := bf_set 45 2 d x.
Definition set_tss_zero (d x : Z) := bf_set 53 1 d x.
Definition set_tss_zeroAgain (d x : Z) := bf_set 54 1 d x.
Definition set_baseUpper (d x : Z) := bf_set 64 32 d x.

Definition setTSSDescriptorBase (d base : Z) : Z :=
  let d := set_baseLow d (Z.land base 0xFFFF) in
  let d := set_baseMid d (Z.land (Z.shiftr base 16) 0xFF) in
  let d := set_baseHigh d (Z.land (Z.shiftr base 24) 0xFF) in
  set_baseUpper d (Z.land (Z.shiftr base 32) 0xFFFFFFFF).

Definition setTSSDescriptorLimit (d limit : Z) : Z :=
  let d := set_limitLow d (Z.land limit 0xFFFF) in
  set_limitHigh d (Z.land (Z.shiftr limit 16) 0x0F).

Record TaskStateSegment := mkTss {
  tss_reserved0 : Z;
  rsp0 : Z; rsp1 : Z; rsp2 : Z;
  tss_reserved1 : Z;
  ist1 : Z; ist2 : Z; ist3 : Z; ist4 : Z; ist5 : Z; ist6 : Z; ist7 : Z;
  tss_reserved2 : Z; tss_reserved3 : Z;
  ioMapBase : Z }.

(** [zeromem] of the structure *)
Definition zero_tss : TaskStateSegment := mkTss 0 0 0 0 0 0 0 0 0 0 0 0 0 0 0.

Definition sizeof_TaskStateSegment : Z := 104.

(** ** The table of a core *)
Record GDT := mkGDT {
  kernelNull : Z;    (** 0x00 *)
  kernelCode : Z;    (** 0x08 *)
  kernelData : Z;    (** 0x10 *)
  gdt_tss : Z;       (** 0x18, two slots *)
  userData : Z;      (** 0x28 *)
  userCode : Z }.    (** 0x30 *)

Definition sizeof_GDT : Z := 56.

Definition __KERNEL_CS : Z := 0x08.
Definition __KERNEL_DS : Z := 0x10.
Definition __TSS_PT1_SELECTOR : Z := 0x18.
Definition __TSS_PT2_SELECTOR : Z := 0x20.

Record GdtAndTssData := mkGdtData {
  kernelNullDescriptor : Z;
  kernelCodeDescriptor : Z;
  kernelDataDescriptor : Z;
  userCodeDescriptor : Z;
  userDataDescriptor : Z;
  tssDescriptor : Z;
  gdt : GDT;
  tss : TaskStateSegment;
  gdtDescriptor : Z * Z }.   (** limit and base *)

(** Offsets in the packed structure: five segment descriptors of 8 bytes and a task
    descriptor of 16 come first. *)
Definition sizeof_GdtAndTssData : Z := 226.
Definition offsetof_gdt : Z := 56.
Definition offsetof_tss : Z := 112.

(** The core: its table register, task register and selectors. *)
Record cpu_regs := mkRegs {
  gdtr : Z * Z; tr : Z;
  sel_cs : Z; sel_ds : Z; sel_es : Z; sel_fs : Z; sel_gs : Z; sel_ss : Z;
  msrs : gmap Z Z }.

Definition __kinstall_gdt_asm (r : cpu_regs) (descriptor : Z * Z) : cpu_regs :=
  mkRegs descriptor (tr r) 0x08 0x10 0x10 0x10 0x10 0x10 (msrs r).

(** The four flat segments are filled by the same statements; [dpl] and [exec] are the two
    that differ. *)
Definition init_segment (dpl exec : Z) : Z :=
  let d := 0 in
  let d := setSegmentDescriptorBase d 0 in
  let d := setSegmentDescriptorLimit d 0xFFFFF in
  let d := set_longMode d 1 in
  let d := set_granularity d 1 in
  let d := set_available d 1 in
  let d := set_present d 1 in
  let d := set_descriptorPrivilegeLvl d dpl in
  let d := set_executable d exec in
  let d := set_readWrite d 1 in
  set_descriptorType d 1.

Definition init_tss_descriptor (old tss_addr : Z) : Z :=
  let d := setTSSDescriptorBase old tss_addr in
  let d := setTSSDescriptorLimit d (sizeof_TaskStateSegment - 1) in
  let d := set_tss_type d 0x9 in
  let d := set_present d 1 in
  let d := set_tss_dpl d 0 in
  let d := set_tss_access_zero d 0 in
  let d := set_limitHigh d 0 in
  let d := set_available d 1 in
  let d := set_granularity d 0 in
  let d := set_tss_zero d 0 in
  set_tss_zeroAgain d 0.

Record gdt_state := mkGdtState {
  g_gdtPerCpuArray : list GdtAndTssData;
  per_cpu : list CpuData;
  core : cpu_regs }.

Definition with_stack (c : CpuData) (st : Z) : CpuData :=
  mkCpuData (currentTask c) st (currentKernelStack c) (currentUserStack c).

Section install.
(** Link-time addresses of [g_gdtPerCpuArray] and [__per_cpu_data]. *)
Context (gdt_array per_cpu_data : Z).

Definition data_addr (apicid : Z) : Z := gdt_array + apicid * sizeof_GdtAndTssData.
Definition per_cpu_addr (apicid : Z) : Z := per_cpu_data + apicid * 32.

Definition fill_data (old : GdtAndTssData) (apicid kernelStack : Z) : GdtAndTssData :=
  let kcode := init_segment 0 1 in
  let kdata := init_segment 0 0 in
  let ucode := init_segment 3 1 in
  let udata := init_segment 3 0 in
  let z := zero_tss in
  let t := mkTss (tss_reserved0 z) (u64 kernelStack) (rsp1 z) (rsp2 z) (tss_reserved1 z)
             (ist1 z) (ist2 z) (ist3 z) (ist4 z) (ist5 z) (ist6 z) (ist7 z)
             (tss_reserved2 z) (tss_reserved3 z) sizeof_TaskStateSegment in
  let td := init_tss_descriptor (tssDescriptor old) (data_addr apicid + offsetof_tss) in
  mkGdtData 0 kcode kdata ucode udata td
    (mkGDT 0 kcode kdata td udata ucode) t
    (sizeof_GDT - 1, data_addr apicid + offsetof_gdt).

(** An [apicid] outside the arrays is an access outside them. *)
Definition initializeAndInstallGDT (apicid kernelStack : Z) (s : gdt_state)
  : outcome gdt_state :=
  if apicid <? 0 then Fault
  else
    let i := Z.to_nat apicid in
    old ← need (g_gdtPerCpuArray s !! i);
    let data := fill_data old apicid kernelStack in
    let r := __kinstall_gdt_asm (core s) (gdtDescriptor data) in
    let r := mkRegs (gdtr r) __TSS_PT1_SELECTOR (sel_cs r) (sel_ds r) (sel_es r) (sel_fs r)
                    (sel_gs r) (sel_ss r) (msrs r) in
    c ← need (per_cpu s !! i);
    ms ← writeMsr (msrs r) IA32_GS_BASE (per_cpu_addr apicid);
    ms ← writeMsr ms IA32_KERNEL_GS_BASE (per_cpu_addr apicid);
    Done (mkGdtState (<[i := data]> (g_gdtPerCpuArray s))
            (<[i := with_stack c (u64 kernelStack)]> (per_cpu s))
            (mkRegs (gdtr r) (tr r) (sel_cs r) (sel_ds r) (sel_es r) (sel_fs r)
                    (sel_gs r) (sel_ss r) ms)).
End install.

(** [entry64] is the address of [__asm_syscall_entry64]. *)
Definition enableSyscallInterface (entry64 : Z) (ms : gmap Z Z) : outcome (gmap Z Z) :=
  let starRegValue :=
    Z.lor (u64 (Z.shiftl (Z.lor __TSS_PT2_SELECTOR 3) 48)) (u64 (Z.shiftl __KERNEL_CS 32)) in
  ms ← writeMsr ms IA32_STAR starRegValue;
  ms ← writeMsr ms IA32_LSTAR entry64;
  ms ← writeMsr ms IA32_FMASK 0x200;
  efer ← readMsr ms IA32_EFER;
  writeMsr ms IA32_EFER (Z.lor efer IA32_EFER_SCE).

(** ** What the processor reads *)
Definition seg_base (d : Z) : Z :=
  bf 16 16 d + Z.shiftl (bf 32 8 d) 16 + Z.shiftl (bf 56 8 d) 24.
Definition seg_limit (d : Z) : Z := bf 0 16 d + Z.shiftl (bf 48 4 d) 16.
Definition tss_base (d : Z) : Z := seg_base d + Z.shiftl (bf 64 32 d) 32.

(** A present code or data segment of privilege [dpl] that covers the whole flat space; a
    code segment is one of 64-bit code, with the D bit clear as the L bit demands.  The L
    bit of a data segment is reserved and no part of this. *)
Record flat_segment (d dpl exec : Z) : Prop := {
  fs_base : seg_base d = 0;
  fs_limit : seg_limit d = 0xFFFFF;
  fs_pages : bf 55 1 d = 1;
  fs_present : bf 47 1 d = 1;
  fs_type : bf 44 1 d = 1;
  fs_exec : bf 43 1 d = exec;
  fs_rw : bf 41 1 d = 1;
  fs_dpl : bf 45 2 d = dpl;
  fs_long : exec = 1 -> bf 53 1 d = 1;
  fs_size : exec = 1 -> bf 54 1 d = 0 }.

(** The descriptor a selector names: its index counts 8-byte slots. *)
Definition descriptor_at (g : GDT) (sel : Z) : option Z :=
  match Z.shiftr sel 3 with
  | 1 => Some (kernelCode g)
  | 2 => Some (kernelData g)
  | 3 => Some (gdt_tss g)
  | 5 => Some (userData g)
  | 6 => Some (userCode g)
  | _ => None
  end.

(** Selectors that [syscall] and a 64-bit [sysret] load, from IA32_STAR. *)
Definition syscall_cs (star : Z) : Z := Z.land (bf 32 16 star) 0xFFFC.
Definition syscall_ss (star : Z) : Z := bf 32 16 star + 8.
Definition sysret_cs (star : Z) : Z := Z.lor (bf 48 16 star + 16) 3.
Definition sysret_ss (star : Z) : Z := Z.lor (bf 48 16 star + 8) 3.

(** ** Fields *)
Ltac bf_reads :=
  repeat first
    [ rewrite bf_set_same by lia
    | rewrite bf_set_other by lia ].

Lemma split3 base : 0 <= base ->
  base mod 2 ^ 16 + Z.shiftl (Z.shiftr base 16 mod 2 ^ 8) 16 + Z.shiftl (Z.shiftr base 24 mod 2 ^ 8) 24
  = base mod 2 ^ 32.
Proof.
  intros. rewrite !Z.shiftr_div_pow2, !Z.shiftl_mul_pow2 by lia.
  change (2 ^ 16) with 65536; change (2 ^ 8) with 256; change (2 ^ 24) with 16777216; change (2 ^ 32) with 4294967296.
  Z.to_euclidean_division_equations; lia.
Qed.

(** A value masked to the width of the field it is stored in. *)
Lemma land_mod w k x : 0 <= w -> k = Z.ones w -> Z.land x k mod 2 ^ w = x mod 2 ^ w.
Proof. intros Hw ->. rewrite Z.land_ones by done. apply Z.mod_mod. lia. Qed.

Lemma setBase_base d base : 0 <= base -> seg_base (setSegmentDescriptorBase d base) = base mod 2 ^ 32.
Proof.
  intros H. unfold seg_base, setSegmentDescriptorBase, set_baseLow, set_baseMid, set_baseHigh. bf_reads.
  rewrite !land_mod by done. by apply split3.
Qed.

Lemma setBase_other d base lo w : 0 <= lo -> 0 <= w ->
  lo + w <= 16 \/ 40 <= lo /\ (lo + w <= 56 \/ 64 <= lo) ->
  bf lo w (setSegmentDescriptorBase d base) = bf lo w d.
Proof.
  intros. unfold setSegmentDescriptorBase, set_baseLow, set_baseMid, set_baseHigh.
  by rewrite !bf_set_other by lia.
Qed.

Lemma setLimit_limit d limit : 0 <= limit -> seg_limit (setSegmentDescriptorLimit d limit) = limit mod 2 ^ 20.
Proof.
  intros H. unfold seg_limit, setSegmentDescriptorLimit, set_limitLow, set_limitHigh. bf_reads.
  rewrite !land_mod by done. rewrite Z.shiftr_div_pow2, Z.shiftl_mul_pow2 by lia.
  change (2 ^ 16) with 65536; change (2 ^ 4) with 16; change (2 ^ 20) with 1048576.
  Z.to_euclidean_division_equations; lia.
Qed.

Lemma setLimit_other d limit lo w : 0 <= lo -> 0 <= w -> 16 <= lo /\ lo + w <= 48 \/ 52 <= lo ->
  bf lo w (setSegmentDescriptorLimit d limit) = bf lo w d.
Proof.
  intros. unfold setSegmentDescriptorLimit, set_limitLow, set_limitHigh. by rewrite !bf_set_other by lia.
Qed.

Lemma tss_base_set d base : is_u64 base -> tss_base (setTSSDescriptorBase d base) = base.
Proof.
  intros H. unfold tss_base.
  assert (setTSSDescriptorBase d base =
          set_baseUpper (setSegmentDescriptorBase d base) (Z.land (Z.shiftr base 32) 0xFFFFFFFF)) as -> by done.
  assert (forall x y, seg_base (set_baseUpper x y) = seg_base x) as ->
    by (intros; unfold seg_base, set_baseUpper; by rewrite !bf_set_other by lia).
  rewrite setBase_base by (unfold is_u64 in H; lia). unfold set_baseUpper. bf_reads.
  rewrite land_mod by done. rewrite Z.shiftr_div_pow2, Z.shiftl_mul_pow2 by lia.
  change (2 ^ 32) with 4294967296. wordlia.
Qed.

(** The flags that follow the base and the limit leave both alone. *)
Lemma flags_keep lo w d x : 0 <= w -> 40 <= lo -> lo + w <= 48 \/ 52 <= lo /\ lo + w <= 56 ->
  tss_base (bf_set lo w d x) = tss_base d.
Proof. intros. unfold tss_base, seg_base. by rewrite !bf_set_other by lia. Qed.

Lemma init_segment_flat dpl exec : 0 <= dpl < 4 -> 0 <= exec < 2 -> flat_segment (init_segment dpl exec) dpl exec.
Proof.
  intros Hd He. assert (dpl = 0 \/ dpl = 1 \/ dpl = 2 \/ dpl = 3) as Hc by lia.
  assert (exec = 0 \/ exec = 1) as He' by lia.
  destruct Hc as [->|[->|[->| ->]]], He' as [->| ->]; split; try discriminate; intros; vm_compute; reflexivity.
Qed.

(** The descriptors of the data segments have the L bit too, which gdt.h calls reserved and
    always 0 for a segment that holds no code. *)
Lemma data_segment_long dpl : 0 <= dpl < 4 -> bf 53 1 (init_segment dpl 0) = 1.
Proof.
  intros Hd. assert (dpl = 0 \/ dpl = 1 \/ dpl = 2 \/ dpl = 3) as [->|[->|[->| ->]]] by lia; vm_compute; reflexivity.
Qed.

(** The task descriptor of a core, whatever the slot held before. *)
Record tss_descriptor (d addr : Z) : Prop := {
  td_base : tss_base d = addr;
  td_limit : seg_limit d = sizeof_TaskStateSegment - 1;
  td_type : bf 40 4 d = 9;
  td_system : bf 44 1 d = 0;
  td_dpl : bf 45 2 d = 0;
  td_present : bf 47 1 d = 1;
  td_bytes : bf 55 1 d = 0 }.

Lemma init_tss_descriptor_ok old addr : is_u64 addr -> tss_descriptor (init_tss_descriptor old addr) addr.
Proof.
  intros Ha. split; unfold init_tss_descriptor, set_tss_type, set_present, set_tss_dpl, set_tss_access_zero,
    set_available, set_granularity, set_tss_zero, set_tss_zeroAgain; cbv zeta.
  - assert (forall d x, tss_base (set_limitHigh d x) = tss_base d) as Hl
      by (intros; unfold tss_base, seg_base, set_limitHigh; by rewrite !bf_set_other by lia).
    assert (forall d x, tss_base (setTSSDescriptorLimit d x) = tss_base d) as Hm.
    { intros. unfold setTSSDescriptorLimit. cbv zeta. rewrite Hl.
      unfold tss_base, seg_base, set_limitLow. by rewrite !bf_set_other by lia. }
    repeat first [rewrite flags_keep by lia | rewrite Hl | rewrite Hm].
    exact (tss_base_set old addr Ha).
  - unfold seg_limit, set_limitHigh, setTSSDescriptorLimit, set_limitLow, set_limitHigh. bf_reads. reflexivity.
  - unfold set_limitHigh. bf_reads. reflexivity.
  - unfold set_limitHigh. bf_reads. reflexivity.
  - unfold set_limitHigh. bf_reads. reflexivity.
  - unfold set_limitHigh. bf_reads. reflexivity.
  - unfold set_limitHigh. bf_reads. reflexivity.
Qed.

(** Setting a bit keeps a word a word. *)
Lemma lor_bit_u64 x k : is_u64 x -> 0 <= k < 64 -> is_u64 (Z.lor x (Z.shiftl 1 k)).
Proof.
  intros [H0 H1] Hk. rewrite Z.shiftl_1_l. assert (0 < 2 ^ k) by lia. split; [apply Z.lor_nonneg; lia|].
  change 0x10000000000000000 with (2 ^ 64) in *. destruct (Z.eq_dec (Z.lor x (2 ^ k)) 0) as [->|Hn]; [lia|].
  assert (0 <= Z.lor x (2 ^ k)) by (apply Z.lor_nonneg; lia).
  apply Z.log2_lt_pow2; [lia|]. rewrite Z.log2_lor, Z.log2_pow2 by lia.
  destruct (Z.eq_dec x 0) as [->|Hx]; [cbn; lia|]. apply Z.max_lub_lt; [apply Z.log2_lt_pow2; lia|lia].
Qed.

(** ** Installing the table *)
Lemma msr_value v : is_u64 v -> Z.lor (Z.land v 0xFFFFFFFF) (Z.shiftl (u32 (Z.shiftr v 32)) 32) = v.
Proof.
  intros H. unfold u32. change 0xFFFFFFFF with (Z.ones 32). change 0x100000000 with (2 ^ 32).
  rewrite <- Z.land_ones by lia.
  assert (v = Z.land v (Z.ones 64)) as E by (rewrite Z.land_ones, Z.mod_small; [done|exact H|lia]).
  rewrite E. bitwise.
Qed.

Lemma writeMsr_run ms k v : is_Some (ms !! k) -> is_u64 v -> writeMsr ms k v = Done (<[k := v]> ms).
Proof. intros [w Hw] Hv. unfold writeMsr. rewrite Hw. cbn [mbind outcome_bind need]. by rewrite msr_value. Qed.

Lemma readMsr_run ms k v : ms !! k = Some v -> is_u64 v -> readMsr ms k = Done v.
Proof.
  intros Hk Hv. unfold readMsr. rewrite Hk. cbn [mbind outcome_bind need]. f_equal.
  rewrite <- (msr_value v Hv) at 3. f_equal.
  - unfold u32. change 0xFFFFFFFF with (Z.ones 32). by rewrite Z.land_ones by lia.
  - apply u64_small. rewrite Z.shiftl_mul_pow2 by lia. change (2 ^ 32) with 4294967296. wordlia.
Qed.

Lemma star_value : Z.lor (u64 (Z.shiftl (Z.lor __TSS_PT2_SELECTOR 3) 48)) (u64 (Z.shiftl __KERNEL_CS 32))
  = 0x0023000800000000.
Proof. reflexivity. Qed.

(** The registers the code writes exist on the core and hold words. *)
Record msrs_ok (ms : gmap Z Z) : Prop := {
  mk_words : map_Forall (fun _ v => is_u64 v) ms;
  mk_present : Forall (fun k => is_Some (ms !! k))
    [IA32_EFER; IA32_STAR; IA32_LSTAR; IA32_FMASK; IA32_GS_BASE; IA32_KERNEL_GS_BASE] }.

Lemma msrs_ok_insert ms k v : msrs_ok ms -> is_u64 v -> msrs_ok (<[k := v]> ms).
Proof.
  intros [H1 H2] Hv. split; [by apply map_Forall_insert_2|].
  eapply Forall_impl; [exact H2|]. intros x [w Hw]. cbv beta.
  destruct (decide (x = k)) as [->|Hn]; [rewrite lookup_insert_eq|rewrite lookup_insert_ne by done]; eauto.
Qed.

Lemma writeMsr_ok ms k v : msrs_ok ms -> is_u64 v ->
  k ∈ [IA32_EFER; IA32_STAR; IA32_LSTAR; IA32_FMASK; IA32_GS_BASE; IA32_KERNEL_GS_BASE] ->
  writeMsr ms k v = Done (<[k := v]> ms) /\ msrs_ok (<[k := v]> ms).
Proof.
  intros Hm Hv Hk. split; [|by apply msrs_ok_insert].
  apply writeMsr_run; [|done]. destruct Hm as [_ H]. rewrite Forall_forall in H. by apply H.
Qed.

Section installed.
Context (gdt_array per_cpu_data : Z).

(** The arrays have an entry per core, and lie inside the address space. *)
Record arrays_ok (s : gdt_state) : Prop := {
  ao_gdt : length (g_gdtPerCpuArray s) = Z.to_nat MAX_CPUS;
  ao_cpu : length (per_cpu s) = Z.to_nat MAX_CPUS;
  ao_msrs : msrs_ok (msrs (core s));
  ao_addr1 : 0 <= gdt_array < 0x10000000000000000 - MAX_CPUS * sizeof_GdtAndTssData;
  ao_addr2 : 0 <= per_cpu_data < 0x10000000000000000 - MAX_CPUS * 32 }.

Lemma install_run s apicid st : arrays_ok s -> 0 <= apicid < MAX_CPUS ->
  exists old c, per_cpu s !! Z.to_nat apicid = Some c /\
  let data := fill_data gdt_array old apicid st in
  let ms := <[IA32_KERNEL_GS_BASE := per_cpu_addr per_cpu_data apicid]>
            (<[IA32_GS_BASE := per_cpu_addr per_cpu_data apicid]> (msrs (core s))) in
  initializeAndInstallGDT gdt_array per_cpu_data apicid st s = Done
    (mkGdtState (<[Z.to_nat apicid := data]> (g_gdtPerCpuArray s))
       (<[Z.to_nat apicid := with_stack c (u64 st)]> (per_cpu s))
       (mkRegs (gdtDescriptor data) __TSS_PT1_SELECTOR 0x08 0x10 0x10 0x10 0x10 0x10 ms)) /\
  msrs_ok ms.
Proof.
  intros [Hg Hc Hm Ha1 Ha2] Hi. unfold MAX_CPUS in *.
  destruct (lookup_lt_is_Some_2 (g_gdtPerCpuArray s) (Z.to_nat apicid)) as [old Ho]; [lia|].
  destruct (lookup_lt_is_Some_2 (per_cpu s) (Z.to_nat apicid)) as [c Hcc]; [lia|].
  assert (is_u64 (per_cpu_addr per_cpu_data apicid)) as Hu by (unfold per_cpu_addr, is_u64; lia).
  exists old, c. split; [done|]. cbv zeta. unfold initializeAndInstallGDT.
  rewrite (proj2 (Z.ltb_ge apicid 0)) by lia. rewrite Ho, Hcc. cbn [mbind outcome_bind need].
  destruct (writeMsr_ok (msrs (core s)) IA32_GS_BASE _ Hm Hu ltac:(set_solver)) as [E1 Hm1].
  destruct (writeMsr_ok _ IA32_KERNEL_GS_BASE _ Hm1 Hu ltac:(set_solver)) as [E2 Hm2].
  split; [|done]. unfold __kinstall_gdt_asm. cbn [msrs]. rewrite E1. cbn [mbind outcome_bind]. by rewrite E2.
Qed.

(** For any core number below MAX_CPUS and whatever the core's slot held,
    initializeAndInstallGDT returns; the processor then finds at the kernel and user
    selectors present flat segments of privilege 0 and 3, 64-bit code and data (these with the reserved
    L bit set), at the task
    register an available 64-bit task state whose base and limit are those of the core's
    task state with the given kernel stack, the table register names this table, both GS
    bases name the core's per-cpu block, and no other core's entry changes; a core number
    outside the array is an access outside it. *)
Theorem gdt_install_segments s apicid st : arrays_ok s ->
  (0 <= apicid < MAX_CPUS ->
   exists s' d, initializeAndInstallGDT gdt_array per_cpu_data apicid st s = Done s' /\
     g_gdtPerCpuArray s' !! Z.to_nat apicid = Some d /\
     flat_segment (default 0 (descriptor_at (gdt d) __KERNEL_CS)) 0 1 /\
     flat_segment (default 0 (descriptor_at (gdt d) __KERNEL_DS)) 0 0 /\
     flat_segment (default 0 (descriptor_at (gdt d) __USER_CS)) 3 1 /\
     flat_segment (default 0 (descriptor_at (gdt d) __USER_DS)) 3 0 /\
     bf 53 1 (kernelData (gdt d)) = 1 /\ bf 53 1 (userData (gdt d)) = 1 /\
     tss_descriptor (default 0 (descriptor_at (gdt d) (tr (core s')))) (data_addr gdt_array apicid + offsetof_tss) /\
     rsp0 (tss d) = u64 st /\
     gdtr (core s') = (sizeof_GDT - 1, data_addr gdt_array apicid + offsetof_gdt) /\
     sel_cs (core s') = __KERNEL_CS /\ sel_ss (core s') = __KERNEL_DS /\
     msrs (core s') !! IA32_GS_BASE = Some (per_cpu_addr per_cpu_data apicid) /\
     msrs (core s') !! IA32_KERNEL_GS_BASE = Some (per_cpu_addr per_cpu_data apicid) /\
     (forall j, j <> Z.to_nat apicid ->
        g_gdtPerCpuArray s' !! j = g_gdtPerCpuArray s !! j /\ per_cpu s' !! j = per_cpu s !! j)) /\
  (~ 0 <= apicid < MAX_CPUS -> initializeAndInstallGDT gdt_array per_cpu_data apicid st s = Fault).
Proof.
  intros Hs. split.
  - intros Hi. destruct (install_run s apicid st Hs Hi) as (old & c & Hc & E & Hm).
    eexists _, (fill_data gdt_array old apicid st). split; [exact E|]. cbn [g_gdtPerCpuArray core per_cpu msrs gdtr tr sel_cs sel_ss].
    destruct Hs as [Hg _ _ Ha1 _]. unfold MAX_CPUS in *.
    split; [apply list_lookup_insert_eq; lia|].
    do 4 (split; [apply init_segment_flat; lia|]). do 2 (split; [apply data_segment_long; lia|]).
    split; [apply init_tss_descriptor_ok; unfold data_addr, offsetof_tss, sizeof_GdtAndTssData in *; unfold is_u64; lia|].
    do 4 (split; [done|]).
    split; [rewrite lookup_insert_ne by done; apply lookup_insert_eq|]. split; [apply lookup_insert_eq|].
    intros j Hj. by rewrite !list_lookup_insert_ne by done.
  - intros Hi. unfold initializeAndInstallGDT. destruct (Z.ltb_spec apicid 0); [done|].
    rewrite (lookup_ge_None_2 (g_gdtPerCpuArray s)); [reflexivity|]. rewrite (ao_gdt s Hs). unfold MAX_CPUS in *. lia.
Qed.

(** C29 (functional): after initializeAndInstallGDT and enableSyscallInterface, syscall enters
    the handler at the given address with interrupts masked and the flat kernel segments,
    and a 64-bit sysret returns to privilege 3 with exactly the selectors a new task starts
    with (__USER_CS | 3 and __USER_DS | 3), which name the flat user segments; the
    instruction is enabled and no other EFER bit changes. *)
Theorem system_call_segments s apicid st entry64 efer :
  arrays_ok s -> 0 <= apicid < MAX_CPUS -> is_u64 entry64 -> msrs (core s) !! IA32_EFER = Some efer ->
  exists s' d ms star,
    initializeAndInstallGDT gdt_array per_cpu_data apicid st s = Done s' /\
    enableSyscallInterface entry64 (msrs (core s')) = Done ms /\
    g_gdtPerCpuArray s' !! Z.to_nat apicid = Some d /\ ms !! IA32_STAR = Some star /\
    syscall_cs star = __KERNEL_CS /\ syscall_ss star = __KERNEL_DS /\
    sysret_cs star = Z.lor __USER_CS 3 /\ sysret_ss star = Z.lor __USER_DS 3 /\
    flat_segment (default 0 (descriptor_at (gdt d) (syscall_cs star))) 0 1 /\
    flat_segment (default 0 (descriptor_at (gdt d) (syscall_ss star))) 0 0 /\
    flat_segment (default 0 (descriptor_at (gdt d) (sysret_cs star))) 3 1 /\
    flat_segment (default 0 (descriptor_at (gdt d) (sysret_ss star))) 3 0 /\
    ms !! IA32_LSTAR = Some entry64 /\ ms !! IA32_FMASK = Some 0x200 /\
    ms !! IA32_EFER = Some (Z.lor efer IA32_EFER_SCE).
Proof.
  intros Hs Hi He Hefer. destruct (install_run s apicid st Hs Hi) as (old & c & Hc & E & Hm).
  eexists _, (fill_data gdt_array old apicid st). pose proof (ao_gdt s Hs) as Hg. unfold MAX_CPUS in *.
  cbv zeta in E, Hm. set (ms0 := <[IA32_KERNEL_GS_BASE := _]> _) in *.
  assert (ms0 !! IA32_EFER = Some efer) as He0 by (unfold ms0; by rewrite !lookup_insert_ne by done).
  assert (is_u64 efer) as Hue by (eapply (mk_words _ Hm); exact He0).
  destruct (writeMsr_ok ms0 IA32_STAR 0x0023000800000000 Hm ltac:(unfold is_u64; lia) ltac:(set_solver)) as [E1 Hm1].
  destruct (writeMsr_ok _ IA32_LSTAR entry64 Hm1 He ltac:(set_solver)) as [E2 Hm2].
  destruct (writeMsr_ok _ IA32_FMASK 0x200 Hm2 ltac:(unfold is_u64; lia) ltac:(set_solver)) as [E3 Hm3].
  pose proof (lor_bit_u64 efer 0 Hue ltac:(lia)) as Hlor.
  destruct (writeMsr_ok _ IA32_EFER _ Hm3 Hlor ltac:(set_solver)) as [E4 _].
  exists (<[IA32_EFER := Z.lor efer IA32_EFER_SCE]> (<[IA32_FMASK := 0x200]>
          (<[IA32_LSTAR := entry64]> (<[IA32_STAR := 0x0023000800000000]> ms0)))), 0x0023000800000000.
  split; [exact E|]. split.
  { cbn [core msrs].
    unfold enableSyscallInterface. rewrite star_value. fold ms0. rewrite E1. cbn [mbind outcome_bind].
    rewrite E2. cbn [mbind outcome_bind]. rewrite E3. cbn [mbind outcome_bind].
    rewrite (readMsr_run _ _ efer); [exact E4|by rewrite !lookup_insert_ne by done|done]. }
  cbn [g_gdtPerCpuArray]. split; [apply list_lookup_insert_eq; lia|].
  split; [rewrite !lookup_insert_ne by done; apply lookup_insert_eq|].
  do 4 (split; [reflexivity|]). do 4 (split; [apply init_segment_flat; lia|]).
  split; [rewrite !lookup_insert_ne by done; apply lookup_insert_eq|].
  split; [rewrite !lookup_insert_ne by done; apply lookup_insert_eq|apply lookup_insert_eq].
Qed.
End installed.

(** ** Witnesses *)
Definition demo_data : GdtAndTssData :=
  mkGdtData 7 7 7 7 7 0xABCDEF (mkGDT 1 2 3 4 5 6) zero_tss (0, 0).
Definition demo_msrs : gmap Z Z :=
  list_to_map ((fun k => (k, 0x500)) <$>
    [IA32_EFER; IA32_STAR; IA32_LSTAR; IA32_FMASK; IA32_GS_BASE; IA32_KERNEL_GS_BASE]).
Definition demo_gdt_state : gdt_state :=
  mkGdtState (replicate 64 demo_data) (replicate 64 (mkCpuData 0 0 0 0))
    (mkRegs (0, 0) 0 0 0 0 0 0 0 demo_msrs).

Lemma demo_arrays_ok : arrays_ok 0xffffffff80300000 0xffffffff80310000 demo_gdt_state.
Proof.
  assert (bool_decide (map_Forall (fun _ v => is_u64 v) demo_msrs) = true) as Hw by (vm_compute; reflexivity).
  apply bool_decide_eq_true in Hw.
  split; try (vm_compute; reflexivity); [split; [exact Hw|]| |].
  - repeat constructor; vm_compute; eauto.
  - vm_compute; split; [discriminate|reflexivity].
  - vm_compute; split; [discriminate|reflexivity].
Qed.

Lemma gdt_install_segments_witness :
  initializeAndInstallGDT 0xffffffff80300000 0xffffffff80310000 64 0x9000 demo_gdt_state = Fault /\
  exists s', initializeAndInstallGDT 0xffffffff80300000 0xffffffff80310000 2 0x9000 demo_gdt_state = Done s'.
Proof.
  split.
  - apply (gdt_install_segments _ _ _ 64 0x9000 demo_arrays_ok). unfold MAX_CPUS. lia.
  - destruct (proj1 (gdt_install_segments _ _ _ 2 0x9000 demo_arrays_ok)) as (s' & _ & E & _);
      [unfold MAX_CPUS; lia|]. exists s'. exact E.
Defined.

Lemma system_call_segments_witness : exists s' ms star,
  initializeAndInstallGDT 0xffffffff80300000 0xffffffff80310000 0 0x9000 demo_gdt_state = Done s' /\
  enableSyscallInterface 0xffffffff80101000 (msrs (core s')) = Done ms /\
  ms !! IA32_STAR = Some star /\ sysret_cs star = 0x33 /\ sysret_ss star = 0x2b.
Proof.
  destruct (system_call_segments 0xffffffff80300000 0xffffffff80310000 demo_gdt_state 0 0x9000
    0xffffffff80101000 0x500 demo_arrays_ok) as (s' & d & ms & star & E & E2 & _ & E3 & _ & _ & E4 & E5 & _).
  - unfold MAX_CPUS. lia.
  - unfold is_u64. lia.
  - vm_compute. reflexivity.
  - exists s', ms, star. auto.
Defined.
