(* ===== verification/Interrupts.v ===== *)
(** * Interrupts (kernel/src/interrupts/idt.h, idt.cpp, interrupts.h, interrupts.cpp,
      panic.cpp, the entry stubs of arch/x86/asm/interrupts.s)

    A gate of the interrupt descriptor table is the 128-bit word the processor reads.  An
    entry stub is a name; its address is fixed by the linker and is a parameter, what it
    pushes before the common entry is read off the assembly.  Handlers act on the locks of
    the reports, the interrupt flag and a log of what is printed; [kpanic] never returns,
    which is the value [Halted] of a run.  The timer handler is the one of the scheduler's
    file, run on the scheduler's state after the end-of-interrupt write. *)
From Stdlib Require Import ZArith Lia.
From stdpp Require Import base tactics numbers option list gmap strings.
From S2P Require Import Prelude Memory Sync PageFrame PageTable Paging Process Elevate Sched.

(** ** Vectors *)
Definition EXC_DIVIDE_BY_ZERO : Z := 0.
Definition EXC_DEBUG : Z := 1.
Definition EXC_NMI : Z := 2.
Definition EXC_BREAKPOINT : Z := 3.
Definition EXC_OVERFLOW : Z := 4.
Definition EXC_BOUND_RANGE : Z := 5.
Definition EXC_INVALID_OPCODE : Z := 6.
Definition EXC_DEVICE_NOT_AVAILABLE : Z := 7.
Definition EXC_DOUBLE_FAULT : Z := 8.
Definition EXC_COPROCESSOR_SEG_OVERRUN : Z := 9.
Definition EXC_INVALID_TSS : Z := 10.
Definition EXC_SEGMENT_NOT_PRESENT : Z := 11.
Definition EXC_STACK_FAULT : Z := 12.
Definition EXC_GENERAL_PROTECTION : Z := 13.
Definition EXC_PAGE_FAULT : Z := 14.
Definition EXC_X87_FLOATING_POINT : Z := 16.
Definition EXC_ALIGNMENT_CHECK : Z := 17.
Definition EXC_MACHINE_CHECK : Z := 18.
Definition EXC_SIMD_FLOATING_POINT : Z := 19.
Definition EXC_VIRTUALIZATION : Z := 20.
Definition EXC_HYPERVISOR_VIOLATION : Z := 21.
Definition EXC_VMM_COMMUNICATION : Z := 28.
Definition EXC_SECURITY_EXTENSION : Z := 29.
Definition EXC_SECURITY_EXCEPTION : Z := 30.
Definition IRQ0 : Z := 32.

(** ** Entry stubs *)
Inductive stub :=
  | exc_div | exc_db | exc_nmi | exc_bp | exc_of | exc_br | exc_ud | exc_nm | exc_df | exc_cso
  | exc_ts | exc_np | exc_ss | exc_gp | exc_pf | exc_mf | exc_ac | exc_mc | exc_xm | exc_ve
  | exc_cp | exc_hv | exc_vc | exc_sx
  | irq_stub (n : Z).

#[export] Instance stub_eq_dec : EqDecision stub.
Proof. solve_decision. Defined.

(** The interrupt number a stub pushes, and whether it pushes a zero error code first. *)
Definition stub_pushes (s : stub) : Z * bool :=
  match s with
  | exc_div => (0, true) | exc_db => (1, true) | exc_nmi => (2, true) | exc_bp => (3, true)
  | exc_of => (4, true) | exc_br => (5, true) | exc_ud => (6, true) | exc_nm => (7, true)
  | exc_df => (8, false) | exc_cso => (9, true) | exc_ts => (10, false) | exc_np => (11, false)
  | exc_ss => (12, false) | exc_gp => (13, false) | exc_pf => (14, false) | exc_mf => (16, true)
  | exc_ac => (17, false) | exc_mc => (18, true) | exc_xm => (19, true) | exc_ve => (20, true)
  | exc_cp => (21, false) | exc_hv => (28, true) | exc_vc => (29, false) | exc_sx => (30, false)
  | irq_stub n => (32 + n, true)
  end.

(** ** Gates *)
Definition MAX_IDT_ENTRIES : Z := 256.
Definition INTERRUPT_GATE : Z := 0x0E.
Definition TRAP_GATE : Z := 0x0F.
Definition KERNEL_DPL : Z := 0.
Definition USER_DPL : Z := 3.
Definition KERNEL_CS : Z := 0x08.

(** One use of SET_IDT_GATE: [g] is the entry before. *)
Definition gate_word (isr istIndex type dpl selector g : Z) : Z :=
  let g := bf_set 0 16 g (u16 isr) in
  let g := bf_set 48 16 g (u16 (Z.shiftr isr 16)) in
  let g := bf_set 64 32 g (u32 (Z.shiftr isr 32)) in
  let g := bf_set 16 16 g selector in
  let g := bf_set 32 3 g istIndex in
  let g := bf_set 40 4 g type in
  let g := bf_set 45 2 g dpl in
  let g := bf_set 47 1 g 1 in
  let g := bf_set 35 5 g 0 in
  let g := bf_set 44 1 g 0 in
  bf_set 96 32 g 0.

Definition SET_IDT_GATE (idt : list Z) (entryIndex isr istIndex type dpl selector : Z)
  : outcome (list Z) :=
  g ← need (idt !! Z.to_nat entryIndex);
  Done (<[Z.to_nat entryIndex := gate_word isr istIndex type dpl selector g]> idt).

Definition SET_KERNEL_INTERRUPT_GATE (idt : list Z) (entryIndex isr : Z) : outcome (list Z) :=
  SET_IDT_GATE idt entryIndex isr 0 INTERRUPT_GATE KERNEL_DPL KERNEL_CS.

Definition SET_KERNEL_TRAP_GATE (idt : list Z) (entryIndex isr : Z) : outcome (list Z) :=
  SET_IDT_GATE idt entryIndex isr 0 TRAP_GATE KERNEL_DPL KERNEL_CS.

Record idt_state := mkIdt {
  idtr : Z * Z;            (** [g_kernelIdtDescriptor]: limit and base *)
  g_kernelIdt : list Z }.

(** The gates of the exceptions, in the order of the code. *)
Definition exc_gates : list (Z * stub) :=
  [(EXC_DIVIDE_BY_ZERO, exc_div); (EXC_DEBUG, exc_db); (EXC_NMI, exc_nmi); (EXC_BREAKPOINT, exc_bp);
   (EXC_OVERFLOW, exc_of); (EXC_BOUND_RANGE, exc_br); (EXC_INVALID_OPCODE, exc_ud);
   (EXC_DEVICE_NOT_AVAILABLE, exc_nm); (EXC_DOUBLE_FAULT, exc_df); (EXC_COPROCESSOR_SEG_OVERRUN, exc_cso);
   (EXC_INVALID_TSS, exc_ts); (EXC_SEGMENT_NOT_PRESENT, exc_np); (EXC_STACK_FAULT, exc_ss);
   (EXC_GENERAL_PROTECTION, exc_gp); (EXC_PAGE_FAULT, exc_pf); (EXC_X87_FLOATING_POINT, exc_mf);
   (EXC_ALIGNMENT_CHECK, exc_ac); (EXC_MACHINE_CHECK, exc_mc); (EXC_SIMD_FLOATING_POINT, exc_xm);
   (EXC_VIRTUALIZATION, exc_ve); (EXC_SECURITY_EXCEPTION, exc_cp); (EXC_HYPERVISOR_VIOLATION, exc_hv);
   (EXC_VMM_COMMUNICATION, exc_vc); (EXC_SECURITY_EXTENSION, exc_sx)].

Definition irq_gates : list (Z * stub) :=
  (fun n => (IRQ0 + Z.of_nat n, irq_stub (Z.of_nat n))) <$> seq 0 16.

(** [addr] gives the address of a stub, [idt_addr] that of [g_kernelIdt]. *)
Definition setupInterruptDescriptorTable (addr : stub -> Z) (idt_addr : Z) (s : idt_state)
  : outcome idt_state :=
  let d := (16 * MAX_IDT_ENTRIES - 1, idt_addr) in
  t ← for_each (fun t '(v, st) => SET_KERNEL_INTERRUPT_GATE t v (addr st)) exc_gates (g_kernelIdt s);
  t ← for_each (fun t '(v, st) => SET_KERNEL_TRAP_GATE t v (addr st)) irq_gates t;
  Done (mkIdt d t).

(** ** Handlers *)
Inductive arg := AInt (v : Z) | AStr (s : string).
Inductive printer := kprintChar | kprint | kprintInfo | kprintWarn | kprintError
  | kprintColoredEx (color : Z) | kprintFmtColored (color : Z).
Inductive event :=
  | Print (p : printer) (fmt : string) (args : list arg)
  | CompleteIrq                          (** a write of 0 to the end-of-interrupt register *)
  | InByte (port : Z).

Definition TEXT_COLOR_WHITE : Z := 0xffffffff.
Definition TEXT_COLOR_RED : Z := 0xffff0000.

Record irq_state := mkIrq {
  kexc_log_lock : Z;
  kpanic_lock : Z;
  iflag : bool;
  stack_mem : gmap Z Z;
  cr0 : Z; cr2 : Z; cr3 : Z; cr4 : Z;
  log : list event }.

Definition say (e : event) (s : irq_state) : irq_state :=
  mkIrq (kexc_log_lock s) (kpanic_lock s) (iflag s) (stack_mem s) (cr0 s) (cr2 s) (cr3 s) (cr4 s) (log s ++ [e]).
Definition set_kexc (l : Z) (s : irq_state) : irq_state :=
  mkIrq l (kpanic_lock s) (iflag s) (stack_mem s) (cr0 s) (cr2 s) (cr3 s) (cr4 s) (log s).
Definition set_kpanic (l : Z) (s : irq_state) : irq_state :=
  mkIrq (kexc_log_lock s) l (iflag s) (stack_mem s) (cr0 s) (cr2 s) (cr3 s) (cr4 s) (log s).
Definition set_iflag (b : bool) (s : irq_state) : irq_state :=
  mkIrq (kexc_log_lock s) (kpanic_lock s) b (stack_mem s) (cr0 s) (cr2 s) (cr3 s) (cr4 s) (log s).

(** The line break that ends most reports *)
Definition nl : string := String (Ascii.ascii_of_nat 10) EmptyString.
Definition line (fmt : string) : string := String.append fmt nl.

(** A handler returns to the interrupted code or stops the processor. *)
Inductive finish := Returned (s : irq_state) | Halted (s : irq_state).

Open Scope string_scope.
Open Scope Z_scope.

Definition g_cpuExceptionMessages : list string :=
  ["Division By Zero"; "Debug"; "Non Maskable Interrupt"; "Breakpoint";
   "Into Detected Overflow"; "Out of Bounds"; "Invalid Opcode"; "No Coprocessor";
   "Double Fault"; "Coprocessor Segment Overrun"; "Bad TSS"; "Segment Not Present";
   "Stack Fault"; "General Protection Fault"; "Page Fault"; "Unknown Interrupt";
   "Coprocessor Fault"; "Alignment Check"; "Machine Check"; "SIMD Floating-Point Exception";
   "Virtualization Exception"; "Control Protection Exception"; "Reserved"; "Reserved";
   "Reserved"; "Reserved"; "Reserved"; "Reserved";
   "Hypervisor Injection Exception"; "VMM Communication Exception"; "Security Exception"].

(** The loop of printBacktrace; [fuel] bounds the number of stack frames. *)
Definition backtrace_body (st : Z * irq_state) : outcome (Z * irq_state + irq_state) :=
  let '(rbp, s) := st in
  if rbp =? 0 then Done (inr s)
  else
    next_rip ← load64 (stack_mem s) (rbp ⊞ 8);
    if next_rip =? 0 then Done (inr s)
    else
      let s := say (Print kprintInfo (line " -> 0x%llx") [AInt next_rip]) s in
      rbp ← load64 (stack_mem s) rbp;
      Done (inl (rbp, s)).

Definition printBacktrace (fuel : nat) (regs : PtRegs) (s : irq_state) : outcome irq_state :=
  let s := say (Print kprintInfo (line "======= BACKTRACE =======") []) s in
  let rip := hw_rip (p_hwframe regs) in
  let s := say (Print kprintInfo (line "RIP: 0x%llx") [AInt rip]) s in
  loop fuel backtrace_body (p_rbp regs, s).

Definition register_report (f : PtRegs) (s : irq_state) : list event :=
  let h := p_hwframe f in
  [Print kprint (line "======= REGISTER STATE =======") [];
   Print kprintInfo (line "RAX: %llx  RCX: %llx  RDX: %llx") [AInt (p_rax f); AInt (p_rcx f); AInt (p_rdx f)];
   Print kprintInfo (line "RBX: %llx  RSP: %llx  RBP: %llx") [AInt (p_rbx f); AInt (hw_rsp h); AInt (p_rbp f)];
   Print kprintInfo (line "RSI: %llx  RDI: %llx  R8 : %llx") [AInt (p_rsi f); AInt (p_rdi f); AInt (p_r8 f)];
   Print kprintInfo (line "R9 : %llx  R10: %llx  R11: %llx") [AInt (p_r9 f); AInt (p_r10 f); AInt (p_r11 f)];
   Print kprintInfo (line "R12: %llx  R13: %llx  R14: %llx") [AInt (p_r12 f); AInt (p_r13 f); AInt (p_r14 f)];
   Print kprintInfo (line "R15: %llx") [AInt (p_r15 f)];
   Print kprint (line "======= SEGMENT REGISTERS =======") [];
   Print kprintInfo (line "CS : %llx  DS : %llx  ES : %llx") [AInt (hw_cs h); AInt (p_ds f); AInt (p_es f)];
   Print kprintInfo (line "FS : %llx  GS : %llx  SS : %llx") [AInt (p_fs f); AInt (p_gs f); AInt (hw_ss h)];
   Print kprint (line "======= CONTROL REGISTERS =======") [];
   Print kprintInfo (line "CR0: %llx  CR2: %llx  CR3: %llx  CR4: %llx") [AInt (cr0 s); AInt (cr2 s); AInt (cr3 s); AInt (cr4 s)];
   Print kprint (line "======= SPECIAL REGISTERS =======") [];
   Print kprintInfo (line "RIP: %llx  RFLAGS: %llx") [AInt (hw_rip h); AInt (hw_rflags h)];
   Print kprintError (line "======= PROCESSOR HALTED =======") []].

Definition kpanic (fuel : nat) (frame : PtRegs) (s : irq_state) : outcome finish :=
  let s := set_iflag false s in
  l ← acquireSpinlock (kpanic_lock s);
  let s := set_kpanic l s in
  let s := say (Print kprintChar nl []) s in
  msg ← need (g_cpuExceptionMessages !! Z.to_nat (p_intno frame));
  let s := say (Print kprintError (line "====== PANIC: CPU EXCEPTION %s ======") [AStr msg]) s in
  let s := say (Print kprintInfo (line "Error Code: %llx") [AInt (p_error frame)]) s in
  s ← printBacktrace fuel frame s;
  let s := foldl (fun s e => say e s) s (register_report frame s) in
  Done (Halted (set_kpanic (releaseSpinlock (kpanic_lock s)) s)).

Definition _userspace_common_exc_handler := kpanic.

Definition _exc_handler_div (fuel : nat) (frame : PtRegs) (s : irq_state) : outcome finish :=
  l ← acquireSpinlock (kexc_log_lock s);
  let s := set_kexc l s in
  let s := say (Print (kprintColoredEx TEXT_COLOR_RED) "#DIV" []) s in
  let s := say (Print (kprintFmtColored TEXT_COLOR_WHITE) (line " faulting instruction at 0x%llx")
                  [AInt (hw_rip (p_hwframe frame))]) s in
  let s := say (Print (kprintColoredEx TEXT_COLOR_RED) "#DIV " []) s in
  let s := say (Print (kprintColoredEx TEXT_COLOR_WHITE) (line "Your goomba code tried to divide by 0") []) s in
  kpanic fuel frame (set_kexc (releaseSpinlock (kexc_log_lock s)) s).

Definition PF_PRESENT : Z := 0x1.
Definition PF_WRITE : Z := 0x2.
Definition PF_USER : Z := 0x4.

(** What the page fault report says of an error code and the interrupted data segment. *)
Definition pf_cause (error : Z) : string :=
  if negb (Z.land error PF_PRESENT =? 0) then " - page-level protection violation"
  else " - page not present".
Definition pf_access (error : Z) : string :=
  if negb (Z.land error PF_WRITE =? 0) then " - write operation" else " - read operation".
Definition pf_mode (error ds : Z) : string :=
  if negb (Z.land error PF_USER =? 0) then
    if negb (Z.land ds 3 =? 0) then " - occurred in user mode"
    else " - occurred in lowered-supervisor mode"
  else
    if negb (Z.land ds 3 =? 0) then " - occurred in user-elevated mode"
    else " - occurred in supervisor mode".

Definition _exc_handler_pf (fuel : nat) (frame : PtRegs) (s : irq_state) : outcome finish :=
  l ← acquireSpinlock (kexc_log_lock s);
  let s := set_kexc l s in
  let white := kprintFmtColored TEXT_COLOR_WHITE in
  let s := say (Print (kprintColoredEx TEXT_COLOR_RED) "#PF" []) s in
  let s := say (Print white (line " faulting instruction at 0x%llx") [AInt (hw_rip (p_hwframe frame))]) s in
  let s := say (Print (kprintColoredEx TEXT_COLOR_RED) "#PF" []) s in
  let s := say (Print white " error_code: (0x%llx)" [AInt (p_error frame)]) s in
  let s := say (Print white (pf_cause (p_error frame)) []) s in
  let s := say (Print white (pf_access (p_error frame)) []) s in
  let s := say (Print white (pf_mode (p_error frame) (p_ds frame)) []) s in
  let s := say (Print kprintChar nl []) s in
  let s := say (Print kprintWarn (line "Faulting address: 0x%llx") [AInt (cr2 s)]) s in
  let s := say (Print kprintChar nl []) s in
  kpanic fuel frame (set_kexc (releaseSpinlock (kexc_log_lock s)) s).

(** [scancode] is what port 0x60 returns. *)
Definition _irq_handler_keyboard (scancode : Z) (s : irq_state) : finish :=
  let s := say CompleteIrq s in
  let s := say (InByte 0x60) s in
  Returned (say (Print kprint (line "Scancode: %i") [AInt scancode]) s).

(** ** Dispatch *)
Inductive handler := h_exc_div | h_exc_pf | h_irq_timer | h_irq_keyboard.

Definition g_int_exc_handlers : list (option handler) :=
  [Some h_exc_div] ++ replicate 13 None ++ [Some h_exc_pf].
Definition g_int_irq_handlers : list (option handler) :=
  [Some h_irq_timer; Some h_irq_keyboard] ++ replicate 13 None.

Section dispatch.
(** [per_cpu_data] and [off] are the parameters of the scheduler's handler, [scancode] what
    the keyboard port returns, [fuel] the bound on the frames of a backtrace. *)
Context (per_cpu_data off scancode : Z) (fuel : nat).

(** The interrupt state and the scheduler's. *)
Definition kernel : Type := irq_state * sys.

Definition alone (sy : sys) (frame : PtRegs) (o : outcome finish) : outcome (finish * sys * PtRegs) :=
  f ← o; Done (f, sy, frame).

(** The whole timer handler: the end-of-interrupt write, then the scheduler's part. *)
Definition timer_interrupt (frame : PtRegs) (k : kernel) : outcome (finish * sys * PtRegs) :=
  let s := say CompleteIrq (fst k) in
  r ← _irq_handler_timer per_cpu_data off frame (snd k);
  Done (Returned s, fst r, snd r).

Definition run_handler (h : handler) (frame : PtRegs) (k : kernel) : outcome (finish * sys * PtRegs) :=
  let '(s, sy) := k in
  match h with
  | h_exc_div => alone sy frame (_exc_handler_div fuel frame s)
  | h_exc_pf => alone sy frame (_exc_handler_pf fuel frame s)
  | h_irq_keyboard => alone sy frame (Done (_irq_handler_keyboard scancode s))
  | h_irq_timer => timer_interrupt frame k
  end.

Definition __common_exc_entry (frame : PtRegs) (k : kernel) : outcome (finish * sys * PtRegs) :=
  h ← need (g_int_exc_handlers !! Z.to_nat (p_intno frame));
  match h with
  | Some h => run_handler h frame k
  | None =>
      if negb (Z.land (hw_cs (p_hwframe frame)) USER_DPL =? 0)
      then alone (snd k) frame (_userspace_common_exc_handler fuel frame (fst k))
      else alone (snd k) frame (kpanic fuel frame (fst k))
  end.

Definition __common_irq_entry (frame : PtRegs) (k : kernel) : outcome (finish * sys * PtRegs) :=
  h ← need (g_int_irq_handlers !! Z.to_nat (p_intno frame - IRQ0));
  match h with
  | Some h => run_handler h frame k
  | None => Done (Returned (fst k), snd k, frame)
  end.

Definition __common_isr_entry (frame : PtRegs) (k : kernel) : outcome (finish * sys * PtRegs) :=
  if IRQ0 <=? p_intno frame then __common_irq_entry frame k else __common_exc_entry frame k.
End dispatch.

(** ** The descriptor table *)

(** What the processor reads in a gate. *)
Record kernel_gate (g isr type : Z) : Prop := {
  kg_offset : bf 0 16 g + Z.shiftl (bf 48 16 g) 16 + Z.shiftl (bf 64 32 g) 32 = isr;
  kg_selector : bf 16 16 g = KERNEL_CS;
  kg_ist : bf 32 3 g = 0;
  kg_type : bf 40 4 g = type;
  kg_dpl : bf 45 2 g = 0;
  kg_present : bf 47 1 g = 1 }.

Lemma gate_word_ok isr type g : is_u64 isr -> 0 <= type < 16 ->
  kernel_gate (gate_word isr 0 type KERNEL_DPL KERNEL_CS g) isr type.
Proof.
  intros Hi Ht. unfold gate_word. cbv zeta.
  split; repeat first [rewrite bf_set_same by lia | rewrite bf_set_other by lia].
  - unfold u16, u32. change (2 ^ 16) with 65536. change (2 ^ 32) with 4294967296.
    change 0x10000 with 65536. change 0x100000000 with 4294967296.
    rewrite !Z.mod_mod, !Z.shiftr_div_pow2, !Z.shiftl_mul_pow2 by lia.
    change (2 ^ 16) with 65536. change (2 ^ 32) with 4294967296. wordlia.
  - reflexivity.
  - reflexivity.
  - change (2 ^ 4) with 16. by apply Z.mod_small.
  - reflexivity.
  - reflexivity.
Qed.

Lemma gates_run (addr : stub -> Z) type (l : list (Z * stub)) : Forall (fun p => 0 <= fst p < MAX_IDT_ENTRIES) l -> NoDup (fst <$> l) ->
  forall t, length t = Z.to_nat MAX_IDT_ENTRIES ->
  exists t', for_each (fun t '(v, st) => SET_IDT_GATE t v (addr st) 0 type KERNEL_DPL KERNEL_CS) l t = Done t' /\
    length t' = Z.to_nat MAX_IDT_ENTRIES /\
    (forall v, 0 <= v -> v ∉ fst <$> l -> t' !! Z.to_nat v = t !! Z.to_nat v) /\
    (forall v st, (v, st) ∈ l -> exists g,
       t' !! Z.to_nat v = Some (gate_word (addr st) 0 type KERNEL_DPL KERNEL_CS g)).
Proof.
  unfold MAX_IDT_ENTRIES in *.
  induction l as [|[v st] l IH]; intros Hr Hd t Hl; cbn [for_each].
  { exists t. repeat split; [done|]. intros v st H. by apply not_elem_of_nil in H. }
  apply Forall_cons in Hr as [Hv Hr]. rewrite fmap_cons in Hd. apply NoDup_cons in Hd as [Hn Hd].
  cbn [fst] in *. destruct (lookup_lt_is_Some_2 t (Z.to_nat v)) as [g Hg]; [lia|].
  set (t1 := <[Z.to_nat v := gate_word (addr st) 0 type KERNEL_DPL KERNEL_CS g]> t).
  assert (SET_IDT_GATE t v (addr st) 0 type KERNEL_DPL KERNEL_CS = Done t1) as ->
    by (unfold SET_IDT_GATE; by rewrite Hg).
  cbn [mbind outcome_bind].
  destruct (IH Hr Hd t1) as (t' & E & Hl' & Ho & Hin); [unfold t1; by rewrite length_insert|].
  exists t'. split; [exact E|]. split; [done|]. split.
  - intros w Hw Hnin. rewrite fmap_cons in Hnin. apply not_elem_of_cons in Hnin as [Hwv Hnin]. cbn [fst] in Hwv.
    rewrite Ho by done. unfold t1. apply list_lookup_insert_ne. lia.
  - intros w st' Hel. apply elem_of_cons in Hel as [[= -> ->]|Hel]; [|by apply Hin].
    exists g. rewrite Ho by (lia || done). unfold t1. apply list_lookup_insert_eq. lia.
Qed.

Lemma gate_vectors : Forall (fun p => 0 <= fst p < MAX_IDT_ENTRIES) exc_gates /\ NoDup (fst <$> exc_gates) /\
  Forall (fun p => 0 <= fst p < MAX_IDT_ENTRIES) irq_gates /\ NoDup (fst <$> irq_gates) /\
  Forall (fun v => v ∉ fst <$> irq_gates) (fst <$> exc_gates).
Proof.
  assert (bool_decide (Forall (fun p => 0 <= fst p < MAX_IDT_ENTRIES) exc_gates /\ NoDup (fst <$> exc_gates) /\
    Forall (fun p => 0 <= fst p < MAX_IDT_ENTRIES) irq_gates /\ NoDup (fst <$> irq_gates) /\
    Forall (fun v => v ∉ fst <$> irq_gates) (fst <$> exc_gates)) = true) as H by (vm_compute; reflexivity).
  by apply bool_decide_eq_true in H.
Qed.

(** SetupInterruptDescriptorTable returns; every exception vector it names
    has a present privilege-0 interrupt gate and every one of the sixteen IRQ vectors a
    trap gate into the kernel code segment whose offset is the address of its stub, and no
    other vector of the table changes. *)
Theorem idt_gates addr idt_addr s :
  length (g_kernelIdt s) = Z.to_nat MAX_IDT_ENTRIES -> (forall st, is_u64 (addr st)) ->
  exists s', setupInterruptDescriptorTable addr idt_addr s = Done s' /\ idtr s' = (4095, idt_addr) /\
    (forall v st, (v, st) ∈ exc_gates -> exists g,
       g_kernelIdt s' !! Z.to_nat v = Some g /\ kernel_gate g (addr st) INTERRUPT_GATE) /\
    (forall v st, (v, st) ∈ irq_gates -> exists g,
       g_kernelIdt s' !! Z.to_nat v = Some g /\ kernel_gate g (addr st) TRAP_GATE) /\
    (forall v, 0 <= v -> v ∉ fst <$> exc_gates -> v ∉ fst <$> irq_gates ->
       g_kernelIdt s' !! Z.to_nat v = g_kernelIdt s !! Z.to_nat v).
Proof.
  intros Hl Ha. destruct gate_vectors as (Hr1 & Hd1 & Hr2 & Hd2 & Hx). rewrite Forall_forall in Hx.
  destruct (gates_run addr INTERRUPT_GATE _ Hr1 Hd1 _ Hl) as (t1 & E1 & Hl1 & Ho1 & Hi1).
  destruct (gates_run addr TRAP_GATE _ Hr2 Hd2 _ Hl1) as (t2 & E2 & Hl2 & Ho2 & Hi2).
  exists (mkIdt (4095, idt_addr) t2). split.
  { unfold setupInterruptDescriptorTable. cbv zeta.
    change (for_each _ exc_gates _) with (for_each (fun t '(v, st) => SET_IDT_GATE t v (addr st) 0 INTERRUPT_GATE KERNEL_DPL KERNEL_CS) exc_gates (g_kernelIdt s)).
    rewrite E1. cbn [mbind outcome_bind].
    change (for_each _ irq_gates _) with (for_each (fun t '(v, st) => SET_IDT_GATE t v (addr st) 0 TRAP_GATE KERNEL_DPL KERNEL_CS) irq_gates t1).
    by rewrite E2. }
  cbn [idtr g_kernelIdt]. split; [done|]. split; [|split].
  - intros v st Hin. destruct (Hi1 v st Hin) as [g Hg].
    assert (v ∈ fst <$> exc_gates) as Hv by (apply list_elem_of_fmap; exists (v, st); done).
    eexists. split; [rewrite Ho2; [exact Hg| |by apply Hx]|by apply gate_word_ok].
    rewrite Forall_forall in Hr1. apply (Hr1 (v, st) Hin).
  - intros v st Hin. destruct (Hi2 v st Hin) as [g Hg]. eexists. split; [exact Hg|by apply gate_word_ok].
  - intros v Hv H1 H2. rewrite Ho2, Ho1; done.
Qed.

(** ** Reports *)
Definition says (es : list event) (s : irq_state) : irq_state := foldl (fun s e => say e s) s es.

Lemma says_eq es s : says es s =
  mkIrq (kexc_log_lock s) (kpanic_lock s) (iflag s) (stack_mem s) (cr0 s) (cr2 s) (cr3 s) (cr4 s) (log s ++ es).
Proof.
  revert s. induction es as [|e es IH]; intros s; [destruct s; unfold says; cbn; by rewrite app_nil_r|].
  change (says (e :: es) s) with (says es (say e s)). rewrite IH. unfold say. cbn. by rewrite <- app_assoc.
Qed.

(** The stack frames from [rbp] on: the return addresses up to the end of the chain. *)
Inductive frames (m : gmap Z Z) : Z -> list Z -> Prop :=
  | frames_null : frames m 0 []
  | frames_zero rbp : rbp <> 0 -> load64 m (rbp ⊞ 8) = Done 0 -> frames m rbp []
  | frames_cons rbp rip next l : rbp <> 0 -> load64 m (rbp ⊞ 8) = Done rip -> rip <> 0 ->
      load64 m rbp = Done next -> frames m next l -> frames m rbp (rip :: l).

Definition backtrace_line (rip : Z) : event := Print kprintInfo (line " -> 0x%llx") [AInt rip].

Lemma backtrace_run fuel rbp l s : frames (stack_mem s) rbp l -> (length l < fuel)%nat ->
  loop fuel backtrace_body (rbp, s) = Done (says (backtrace_line <$> l) s).
Proof.
  intros H. remember (stack_mem s) as m eqn:Em. revert fuel s Em.
  induction H as [|rbp Hn H0|rbp rip next l Hn Hr Hrip Hnext _ IH]; intros fuel s Em Hf;
    (destruct fuel as [|fuel]; [simpl in Hf; lia|]); cbn [loop backtrace_body]; [done| |];
    rewrite (proj2 (Z.eqb_neq rbp 0)) by done.
  - rewrite <- Em, H0. done.
  - rewrite <- Em, Hr. cbn [mbind outcome_bind]. rewrite (proj2 (Z.eqb_neq rip 0)) by done.
    change (stack_mem (say _ s)) with (stack_mem s). rewrite <- Em, Hnext. cbn [mbind outcome_bind].
    rewrite IH; [done|done|simpl in Hf; lia].
Qed.

Lemma backtrace_returns fuel rbp s s' : loop fuel backtrace_body (rbp, s) = Done s' ->
  exists l, frames (stack_mem s) rbp l.
Proof.
  revert rbp s. induction fuel as [|fuel IH]; intros rbp s; [done|]. cbn [loop backtrace_body].
  destruct (Z.eqb_spec rbp 0) as [->|Hn]; [intros _; exists []; constructor|].
  destruct (load64 (stack_mem s) (rbp ⊞ 8)) as [rip| |] eqn:E; cbn [mbind outcome_bind]; try done.
  destruct (Z.eqb_spec rip 0) as [->|Hr]; [intros _; exists []; by constructor|].
  change (stack_mem (say _ s)) with (stack_mem s).
  destruct (load64 (stack_mem s) rbp) as [next| |] eqn:E2; cbn [mbind outcome_bind]; try done.
  intros H. apply IH in H as [l Hl]. exists (rip :: l). by econstructor.
Qed.

(** C32 (termination): printBacktrace returns exactly when the chain of frame pointers is
    readable and ends, at a null pointer or at a zero return address, and then it has
    printed the interrupted address and the return addresses of the chain in order; a frame
    whose saved pointer names itself is walked for ever. *)
Theorem backtrace_terminates regs s :
  ((exists fuel s', printBacktrace fuel regs s = Done s') <-> exists l, frames (stack_mem s) (p_rbp regs) l) /\
  (forall l fuel, frames (stack_mem s) (p_rbp regs) l -> (length l < fuel)%nat ->
     exists s', printBacktrace fuel regs s = Done s' /\
       log s' = (log s ++ Print kprintInfo (line "======= BACKTRACE =======") [] ::
                          Print kprintInfo (line "RIP: 0x%llx") [AInt (hw_rip (p_hwframe regs))] ::
                          (backtrace_line <$> l))%list) /\
  (forall rip fuel, p_rbp regs <> 0 -> rip <> 0 -> load64 (stack_mem s) (p_rbp regs ⊞ 8) = Done rip ->
     load64 (stack_mem s) (p_rbp regs) = Done (p_rbp regs) -> printBacktrace fuel regs s = Diverge).
Proof.
  unfold printBacktrace. cbv zeta. split; [split|split].
  - intros (fuel & s' & H). by apply backtrace_returns in H.
  - intros [l Hl]. exists (S (length l)). eexists. apply backtrace_run; [exact Hl|lia].
  - intros l fuel Hl Hf. eexists. split; [by apply backtrace_run|].
    rewrite says_eq. unfold say. cbn [log]. by rewrite <- !app_assoc.
  - intros rip fuel Hn Hr H8 H0. set (s0 := say _ _). assert (stack_mem s0 = stack_mem s) as Em by done.
    clearbody s0. revert s0 Em. induction fuel as [|fuel IH]; intros s0 Em; [done|].
    cbn [loop backtrace_body]. rewrite (proj2 (Z.eqb_neq _ 0)) by done. rewrite Em, H8. cbn [mbind outcome_bind].
    rewrite (proj2 (Z.eqb_neq rip 0)) by done. change (stack_mem (say _ s0)) with (stack_mem s0).
    rewrite Em, H0. cbn [mbind outcome_bind]. by apply IH.
Qed.

(** A line that shows registers: each name, a colon and the value in hexadecimal. *)
Definition registers_line (rs : list (string * Z)) : event :=
  Print kprintInfo (line (String.concat "  " ((fun r => String.append (fst r) ": %llx") <$> rs)))
    ((fun r => AInt (snd r)) <$> rs).
Definition heading (p : printer) (title : string) : event :=
  Print p (line (String.append "======= " (String.append title " ======="))) [].

(** The registers of the interrupted code and of the processor, by name. *)
Definition registers_shown (frame : PtRegs) (s : irq_state) : list event :=
  let h := p_hwframe frame in
  [heading kprint "REGISTER STATE";
   registers_line [("RAX", p_rax frame); ("RCX", p_rcx frame); ("RDX", p_rdx frame)];
   registers_line [("RBX", p_rbx frame); ("RSP", hw_rsp h); ("RBP", p_rbp frame)];
   registers_line [("RSI", p_rsi frame); ("RDI", p_rdi frame); ("R8 ", p_r8 frame)];
   registers_line [("R9 ", p_r9 frame); ("R10", p_r10 frame); ("R11", p_r11 frame)];
   registers_line [("R12", p_r12 frame); ("R13", p_r13 frame); ("R14", p_r14 frame)];
   registers_line [("R15", p_r15 frame)];
   heading kprint "SEGMENT REGISTERS";
   registers_line [("CS ", hw_cs h); ("DS ", p_ds frame); ("ES ", p_es frame)];
   registers_line [("FS ", p_fs frame); ("GS ", p_gs frame); ("SS ", hw_ss h)];
   heading kprint "CONTROL REGISTERS";
   registers_line [("CR0", cr0 s); ("CR2", cr2 s); ("CR3", cr3 s); ("CR4", cr4 s)];
   heading kprint "SPECIAL REGISTERS";
   registers_line [("RIP", hw_rip h); ("RFLAGS", hw_rflags h)];
   heading kprintError "PROCESSOR HALTED"].

(** What the bits of a page fault's error code mean: bit 0 a protection violation on a
    present page, bit 1 a write, bit 2 an access from user mode; the mode that was left is
    told from bit 2 and the privilege level in the data segment selector. *)
Definition fault_words (error ds : Z) : list string :=
  [if Z.testbit error 0 then " - page-level protection violation" else " - page not present";
   if Z.testbit error 1 then " - write operation" else " - read operation";
   match Z.testbit error 2, ds mod 4 =? 0 with
   | true, true => " - occurred in lowered-supervisor mode"
   | true, false => " - occurred in user mode"
   | false, true => " - occurred in supervisor mode"
   | false, false => " - occurred in user-elevated mode"
   end].

Lemma pf_words error ds : [pf_cause error; pf_access error; pf_mode error ds] = fault_words error ds.
Proof.
  unfold pf_cause, pf_access, pf_mode, fault_words, PF_PRESENT, PF_WRITE, PF_USER.
  rewrite (land_bit error 0 ltac:(lia) : negb (Z.land error 1 =? 0) = _),
    (land_bit error 1 ltac:(lia) : negb (Z.land error 2 =? 0) = _),
    (land_bit error 2 ltac:(lia) : negb (Z.land error 4 =? 0) = _).
  rewrite (Z.land_ones ds 2 ltac:(lia) : Z.land ds 3 = ds mod 4).
  by destruct (Z.testbit error 2), (ds mod 4 =? 0).
Qed.

(** The lines of a panic: its heading, the backtrace and the registers. *)
Definition panic_report (frame : PtRegs) (msg : string) (l : list Z) (s : irq_state) : list event :=
  ([Print kprintChar nl [];
    Print kprintError (line "====== PANIC: CPU EXCEPTION %s ======") [AStr msg];
    Print kprintInfo (line "Error Code: %llx") [AInt (p_error frame)];
    Print kprintInfo (line "======= BACKTRACE =======") [];
    Print kprintInfo (line "RIP: 0x%llx") [AInt (hw_rip (p_hwframe frame))]] ++
   (backtrace_line <$> l) ++ registers_shown frame s)%list.

(** The lines the handlers of division and page faults print before it. *)
Definition fault_report (frame : PtRegs) (s : irq_state) : list event :=
  let white := kprintFmtColored TEXT_COLOR_WHITE in
  let red := kprintColoredEx TEXT_COLOR_RED in
  let at_rip := Print white (line " faulting instruction at 0x%llx") [AInt (hw_rip (p_hwframe frame))] in
  if p_intno frame =? EXC_DIVIDE_BY_ZERO then
    [Print red "#DIV" []; at_rip; Print red "#DIV " [];
     Print (kprintColoredEx TEXT_COLOR_WHITE) (line "Your goomba code tried to divide by 0") []]
  else if p_intno frame =? EXC_PAGE_FAULT then
    ([Print red "#PF" []; at_rip; Print red "#PF" []; Print white " error_code: (0x%llx)" [AInt (p_error frame)]] ++
     ((fun w => Print white w []) <$> fault_words (p_error frame) (p_ds frame)) ++
     [Print kprintChar nl []; Print kprintWarn (line "Faulting address: 0x%llx") [AInt (cr2 s)];
      Print kprintChar nl []])%list
  else [].

(** The state in which the processor stops. *)
Definition stopped (s : irq_state) (es : list event) : irq_state :=
  mkIrq 0 0 false (stack_mem s) (cr0 s) (cr2 s) (cr3 s) (cr4 s) (log s ++ es).

Lemma kpanic_run fuel frame s l msg :
  kpanic_lock s = 0 -> kexc_log_lock s = 0 -> g_cpuExceptionMessages !! Z.to_nat (p_intno frame) = Some msg ->
  frames (stack_mem s) (p_rbp frame) l -> (length l < fuel)%nat ->
  kpanic fuel frame s = Done (Halted (stopped s (panic_report frame msg l s))).
Proof.
  intros Hp Hx Hm Hl Hf. unfold kpanic. cbn [kpanic_lock set_iflag]. rewrite Hp, acquire_free.
  cbn [mbind outcome_bind]. rewrite Hm. cbn [mbind outcome_bind need]. unfold printBacktrace. cbv zeta.
  rewrite (backtrace_run fuel (p_rbp frame) l); [|exact Hl|exact Hf]. cbn [mbind outcome_bind].
  change (foldl _ ?s0 ?es) with (says es s0). rewrite says_eq, says_eq. unfold stopped, panic_report. cbn.
  rewrite Hx. unfold releaseSpinlock. do 3 f_equal. by rewrite <- !app_assoc.
Qed.

(** The two handlers are a report under the log lock and a panic. *)
Lemma exc_div_eq fuel frame s : p_intno frame = 0 -> kexc_log_lock s = 0 ->
  _exc_handler_div fuel frame s = kpanic fuel frame (set_kexc 0 (says (fault_report frame s) (set_kexc 1 s))).
Proof. intros E Hx. unfold _exc_handler_div, fault_report. rewrite Hx, E, acquire_free. reflexivity. Qed.

Lemma exc_pf_eq fuel frame s : p_intno frame = 14 -> kexc_log_lock s = 0 ->
  _exc_handler_pf fuel frame s = kpanic fuel frame (set_kexc 0 (says (fault_report frame s) (set_kexc 1 s))).
Proof. intros E Hx. unfold _exc_handler_pf, fault_report. rewrite <- pf_words, Hx, E, acquire_free. reflexivity. Qed.

Lemma fault_stopped frame msg l es s :
  stopped (set_kexc 0 (says es (set_kexc 1 s)))
    (panic_report frame msg l (set_kexc 0 (says es (set_kexc 1 s)))) =
  stopped s (es ++ panic_report frame msg l s).
Proof. rewrite says_eq. unfold stopped, panic_report, set_kexc, registers_shown. cbn [log stack_mem cr0 cr2 cr3 cr4]. by rewrite <- app_assoc. Qed.

Section dispatched.
Context (per_cpu_data off scancode : Z) (fuel : nat).

Lemma exception_run frame s sy l :
  0 <= p_intno frame < 15 -> kpanic_lock s = 0 -> kexc_log_lock s = 0 ->
  frames (stack_mem s) (p_rbp frame) l -> (length l < fuel)%nat ->
  exists msg, g_cpuExceptionMessages !! Z.to_nat (p_intno frame) = Some msg /\
    __common_isr_entry per_cpu_data off scancode fuel frame (s, sy) =
    Done (Halted (stopped s (fault_report frame s ++ panic_report frame msg l s)), sy, frame).
Proof.
  intros Hi Hp Hx Hl Hf.
  destruct (lookup_lt_is_Some_2 g_cpuExceptionMessages (Z.to_nat (p_intno frame))) as [msg Hm];
    [simpl; lia|]. exists msg. split; [done|].
  unfold __common_isr_entry, IRQ0. destruct (Z.leb_spec 32 (p_intno frame)); [lia|].
  unfold __common_exc_entry. cbn [fst snd].
  assert (forall s1, kpanic_lock s1 = 0 -> kexc_log_lock s1 = 0 -> stack_mem s1 = stack_mem s ->
    kpanic fuel frame s1 = Done (Halted (stopped s1 (panic_report frame msg l s1)))) as Hk
    by (intros; apply kpanic_run; congruence).
  assert (p_intno frame = 0 \/ p_intno frame = 14 \/ 1 <= p_intno frame <= 13) as [E|[E|E]] by lia.
  - rewrite E. change (g_int_exc_handlers !! Z.to_nat 0) with (Some (Some h_exc_div)).
    cbn [mbind outcome_bind need run_handler]. unfold alone. rewrite exc_div_eq by done. cbn [mbind outcome_bind].
    rewrite Hk by (rewrite says_eq; done). by rewrite fault_stopped.
  - rewrite E. change (g_int_exc_handlers !! Z.to_nat 14) with (Some (Some h_exc_pf)).
    cbn [mbind outcome_bind need run_handler]. unfold alone. rewrite exc_pf_eq by done. cbn [mbind outcome_bind].
    rewrite Hk by (rewrite says_eq; done). by rewrite fault_stopped.
  - assert (g_int_exc_handlers !! Z.to_nat (p_intno frame) = Some None) as ->.
    { unfold g_int_exc_handlers. rewrite lookup_app_r by (simpl; lia).
      rewrite lookup_app_l by (rewrite length_replicate; simpl; lia). apply lookup_replicate_2. simpl; lia. }
    cbn [mbind outcome_bind need]. unfold _userspace_common_exc_handler, alone.
    assert (fault_report frame s = []) as ->.
    { unfold fault_report, EXC_DIVIDE_BY_ZERO, EXC_PAGE_FAULT.
      rewrite (proj2 (Z.eqb_neq _ 0)), (proj2 (Z.eqb_neq _ 14)) by lia. done. }
    rewrite Hk by done. by destruct (negb _).
Qed.

(** C25 (functional): when code of the kernel's privilege level takes one of the exceptions 0
    to 14, with the report locks free and a stack whose frame chain ends, the common entry
    stops the processor: interrupts are off, both locks are free again, the scheduler state
    and the frame are untouched, and what was printed is the report of the division or page
    fault handler, if it is one of these (for a page fault the meaning of each bit of the
    error code and the faulting address), followed by the panic with its message, the error
    code, the backtrace in order and every register by its name. *)
Theorem exception_halts frame s sy l :
  0 <= p_intno frame < 15 -> hw_cs (p_hwframe frame) mod 4 = 0 ->
  kpanic_lock s = 0 -> kexc_log_lock s = 0 ->
  frames (stack_mem s) (p_rbp frame) l -> (length l < fuel)%nat ->
  exists msg, g_cpuExceptionMessages !! Z.to_nat (p_intno frame) = Some msg /\
    __common_isr_entry per_cpu_data off scancode fuel frame (s, sy) =
    Done (Halted (stopped s (fault_report frame s ++ panic_report frame msg l s)), sy, frame).
Proof. intros. by apply exception_run. Qed.

(** An exception of user-mode code ends in the same halt of the processor: the handler for
    user space only calls the panic, although a comment of the common entry says that these
    exceptions should be handled gracefully. *)
Theorem user_exception_halts frame s sy l :
  0 <= p_intno frame < 15 -> hw_cs (p_hwframe frame) mod 4 <> 0 ->
  kpanic_lock s = 0 -> kexc_log_lock s = 0 ->
  frames (stack_mem s) (p_rbp frame) l -> (length l < fuel)%nat ->
  exists s', __common_isr_entry per_cpu_data off scancode fuel frame (s, sy) = Done (Halted s', sy, frame).
Proof. intros. destruct (exception_run frame s sy l) as (msg & _ & ->); [done..|]. by eexists. Qed.

(** The handler arrays have fifteen slots but seventeen more exception numbers
    and a sixteenth IRQ reach them: the common entry reads past the arrays for the numbers
    15 to 31 and for every number from 47 on, whatever the state, while IRQs 2 to 14
    return with nothing done, not even the end-of-interrupt write. *)
Theorem handler_array_overrun frame k :
  (15 <= p_intno frame < 32 \/ 47 <= p_intno frame ->
     __common_isr_entry per_cpu_data off scancode fuel frame k = Fault) /\
  (34 <= p_intno frame <= 46 ->
     __common_isr_entry per_cpu_data off scancode fuel frame k = Done (Returned (fst k), snd k, frame)).
Proof.
  unfold __common_isr_entry, IRQ0. split.
  - intros H. destruct (Z.leb_spec 32 (p_intno frame)).
    + unfold __common_irq_entry, IRQ0. rewrite lookup_ge_None_2 by (simpl; lia). done.
    + unfold __common_exc_entry. rewrite lookup_ge_None_2 by (simpl; lia). done.
  - intros H. destruct (Z.leb_spec 32 (p_intno frame)); [|lia]. unfold __common_irq_entry, IRQ0.
    assert (g_int_irq_handlers !! Z.to_nat (p_intno frame - 32) = Some None) as ->; [|done].
    unfold g_int_irq_handlers. rewrite lookup_app_r by (simpl; lia). apply lookup_replicate_2. simpl; lia.
Qed.
End dispatched.

(** Whether the processor itself pushes an error code for an exception. *)
Definition has_error_code (v : Z) : bool := bool_decide (v ∈ [8; 10; 11; 12; 13; 14; 17; 21; 29; 30]).

(** The stub behind a vector pushes the vector's own number, and
    a zero error code exactly when the processor pushes none, for all forty vectors but 21,
    28, 29 and 30: the names of interrupts.h give these four the numbers of one another, so
    that a control-protection exception is reported as 28 with its frame shifted by a word
    and the hypervisor one as 29 with its instruction pointer in the place of the error
    code. *)
Theorem stub_numbers :
  (forall v st, (v, st) ∈ (exc_gates ++ irq_gates)%list -> v ∉ [21; 28; 29; 30] ->
     stub_pushes st = (v, negb (has_error_code v))) /\
  (21, exc_hv) ∈ exc_gates /\ stub_pushes exc_hv = (28, true) /\ has_error_code 21 = true /\
  (28, exc_vc) ∈ exc_gates /\ stub_pushes exc_vc = (29, false) /\ has_error_code 28 = false /\
  (29, exc_sx) ∈ exc_gates /\ stub_pushes exc_sx = (30, false) /\
  (30, exc_cp) ∈ exc_gates /\ stub_pushes exc_cp = (21, false).
Proof.
  split.
  - assert (bool_decide (Forall (fun p : Z * stub => fst p ∉ [21; 28; 29; 30] ->
      stub_pushes (snd p) = (fst p, negb (has_error_code (fst p)))) (exc_gates ++ irq_gates)%list) = true) as H
      by (vm_compute; reflexivity).
    apply bool_decide_eq_true in H. rewrite Forall_forall in H. intros v st Hin Hv. apply (H (v, st) Hin Hv).
  - repeat split; first [reflexivity | unfold exc_gates; set_solver].
Qed.

(** ** Witnesses *)
Definition demo_frame (intno rbp : Z) : PtRegs :=
  mkPtRegs 0 0 0 0x10 0 0 0 0 0 0 0 0 0 0 rbp 0 0 0 0 intno 2
    (mkInterruptFrame 0xffffffff80101234 0x08 0x202 0x8ff0 0x10).

(** Two stack frames; the second returns to address 0. *)
Definition demo_stack : gmap Z Z :=
  put_bytes (put_bytes (put_bytes ∅ 0x8000 (le_split 8 0x8100)) 0x8008 (le_split 8 0xffffffff80105678))
    0x8108 (le_split 8 0).
Definition demo_irq : irq_state := mkIrq 0 0 true demo_stack 0x80000011 0xdead 0x1000 0x20 [].

Lemma demo_frames : frames demo_stack 0x8000 [0xffffffff80105678].
Proof.
  apply frames_cons with (next := 0x8100); [lia|vm_compute; reflexivity|lia|vm_compute; reflexivity|].
  apply frames_zero; [lia|vm_compute; reflexivity].
Qed.

Lemma idt_gates_witness : exists s',
  setupInterruptDescriptorTable (fun _ => 0xffffffff80102000) 0xffffffff80200000 (mkIdt (0, 0) (replicate 256 0)) = Done s' /\
  idtr s' = (4095, 0xffffffff80200000).
Proof.
  destruct (idt_gates (fun _ => 0xffffffff80102000) 0xffffffff80200000 (mkIdt (0, 0) (replicate 256 0)))
    as (s' & E & Ed & _); [reflexivity|intros; unfold is_u64; lia|]. exists s'. split; [exact E|exact Ed].
Defined.

Lemma backtrace_terminates_witness : exists s', printBacktrace 5 (demo_frame 13 0x8000) demo_irq = Done s' /\
  length (log s') = 3%nat.
Proof.
  destruct (proj1 (proj2 (backtrace_terminates (demo_frame 13 0x8000) demo_irq)) [0xffffffff80105678] 5%nat)
    as (s' & E & El); [exact demo_frames|simpl; lia|]. exists s'. split; [exact E|]. rewrite El. reflexivity.
Defined.

Lemma exception_halts_witness : exists msg,
  __common_isr_entry 0x7000 0xffffffff80000000 0 5 (demo_frame 14 0x8000) (demo_irq, demo_sys) =
  Done (Halted (stopped demo_irq (fault_report (demo_frame 14 0x8000) demo_irq ++
    panic_report (demo_frame 14 0x8000) msg [0xffffffff80105678] demo_irq)), demo_sys, demo_frame 14 0x8000) /\
  msg = "Page Fault".
Proof.
  destruct (exception_halts 0x7000 0xffffffff80000000 0 5 (demo_frame 14 0x8000) demo_irq demo_sys
    [0xffffffff80105678]) as (msg & Hm & E);
    [simpl; lia|reflexivity|reflexivity|reflexivity|exact demo_frames|simpl; lia|].
  exists msg. split; [exact E|]. injection Hm as <-. reflexivity.
Defined.

Lemma user_exception_halts_witness : exists s',
  __common_isr_entry 0x7000 0xffffffff80000000 0 5
    (mkPtRegs 0 0 0 0x10 0 0 0 0 0 0 0 0 0 0 0x8000 0 0 0 0 13 2 (mkInterruptFrame 0x401000 0x23 0x202 0x8ff0 0x1b))
    (demo_irq, demo_sys) =
  Done (Halted s', demo_sys,
    mkPtRegs 0 0 0 0x10 0 0 0 0 0 0 0 0 0 0 0x8000 0 0 0 0 13 2 (mkInterruptFrame 0x401000 0x23 0x202 0x8ff0 0x1b)).
Proof.
  apply (user_exception_halts 0x7000 0xffffffff80000000 0 5 _ demo_irq demo_sys [0xffffffff80105678]);
    [simpl; lia|discriminate|reflexivity|reflexivity|exact demo_frames|simpl; lia].
Defined.

Lemma handler_array_overrun_witness :
  __common_isr_entry 0x7000 0xffffffff80000000 0 5 (demo_frame 47 0x8000) (demo_irq, demo_sys) = Fault /\
  __common_isr_entry 0x7000 0xffffffff80000000 0 5 (demo_frame 40 0x8000) (demo_irq, demo_sys) =
    Done (Returned demo_irq, demo_sys, demo_frame 40 0x8000).
Proof.
  split; apply (handler_array_overrun 0x7000 0xffffffff80000000 0 5 (demo_frame _ 0x8000) (demo_irq, demo_sys)); simpl; lia.
Defined.
