(* ===== verification/KTime.v ===== *)
(** * Kernel time (kernel/src/time/ktime.h, ktime.cpp, acpi/hpet.h, hpet.cpp,
      arch/x86/apic.h, apic.cpp, apic_timer.h, apic_timer.cpp)

    The HPET is a device behind an interface: its capability and configuration registers
    and a main counter that a read may advance.  What the kernel relies on are the laws of
    [HpetLaws]: a reading is a 64-bit number not below the one before, and a target that
    has not been reached comes nearer with every reading.  The local APIC is the 32-bit
    register array behind its base, with a record of the writes; its current-count register
    is the device's.  Waiting loops take a fuel, and the theorems say that any fuel above
    the number of readings that are still needed is enough. *)
From Stdlib Require Import ZArith Lia.
From stdpp Require Import base tactics numbers option list gmap.
From S2P Require Import Prelude PageFrame PageTable Paging Process Gdt.

(** ** The device *)
Definition HPET_GENERAL_CAPABILITIES_ID_REGISTER : Z := 0x00.
Definition HPET_GENERAL_CONFIGURATION_OFFSET : Z := 0x10.
Definition HPET_MAIN_COUNTER_OFFSET : Z := 0xF0.
Definition HPET_ENABLE_BIT : Z := 0x1.

Class HpetDevice (D : Type) := {
  _readHpetRegister : D -> Z -> D * Z;
  _writeHpetRegister : D -> Z -> Z -> D;
  apic_current : D -> Z;        (** the current count of the APIC timer *)
  rdtsc : D -> Z
}.

Definition readCounter `{HpetDevice D} (d : D) : D * Z := _readHpetRegister d HPET_MAIN_COUNTER_OFFSET.

(** [now] is the last reading, [lag d t] the readings until the counter reaches [t]. *)
Class HpetLaws (D : Type) `{HpetDevice D} := {
  now : D -> Z;
  lag : D -> Z -> nat;
  read_word : forall d, is_u64 (snd (readCounter d));
  read_now : forall d, now (fst (readCounter d)) = snd (readCounter d);
  read_monotone : forall d, now d <= snd (readCounter d);
  read_progress : forall d t, is_u64 t -> snd (readCounter d) < t -> (lag (fst (readCounter d)) t < lag d t)%nat
}.

Section ktime.
Context `{HpetDevice D}.

(** ** HPET *)
Definition Hpet_init (d : D) : D :=
  let '(d, genConfig) := _readHpetRegister d HPET_GENERAL_CONFIGURATION_OFFSET in
  _writeHpetRegister d HPET_GENERAL_CONFIGURATION_OFFSET (Z.lor genConfig HPET_ENABLE_BIT).

Definition qeueryFrequency (d : D) : D * Z :=
  let '(d, gcIdReg) := _readHpetRegister d HPET_GENERAL_CAPABILITIES_ID_REGISTER in
  let clockPeriodFs := u32 (Z.shiftr gcIdReg 32) in
  (d, if clockPeriodFs =? 0 then 0 else 1000000000000000 / clockPeriodFs).

(** [KernelTimer::init]: the device is enabled and its frequency stored in
    [g_hardwareFrequency]; the translation flush is not visible here. *)
Definition KernelTimer_init (d : D) : D * Z := qeueryFrequency (Hpet_init d).

(** ** Waiting *)
Definition wait_body (target : Z) (d : D) : outcome (D + D) :=
  let '(d, t) := readCounter d in
  if t <? target then Done (inl d) else Done (inr d).

(** The four waits differ in the division of the frequency. *)
Definition wait_ticks (fuel : nat) (ticks : Z) (d : D) : outcome D :=
  let '(d, start) := readCounter d in
  loop fuel (wait_body (start ⊞ ticks)) d.

Definition sleep (fuel : nat) (freq seconds : Z) (d : D) := wait_ticks fuel (seconds ⊠ freq) d.
Definition msleep (fuel : nat) (freq milliseconds : Z) (d : D) :=
  wait_ticks fuel (milliseconds ⊠ (freq / 1000)) d.
Definition usleep (fuel : nat) (freq microseconds : Z) (d : D) :=
  wait_ticks fuel (microseconds ⊠ (freq / 1000000)) d.
Definition nanosleep (fuel : nat) (freq nanoseconds : Z) (d : D) :=
  wait_ticks fuel (nanoseconds ⊠ (freq / 1000000000)) d.

(** ** System time; a frequency of 0 is a division fault *)
Definition getSystemTime (d : D) : D * Z := readCounter d.

Definition system_time (freq scale : Z) (d : D) : outcome (D * Z) :=
  let '(d, t) := getSystemTime d in
  if freq =? 0 then Fault else Done (d, (t / freq) ⊠ scale).

Definition getSystemTimeInNanoseconds freq d := system_time freq 1000000000 d.
Definition getSystemTimeInMicroseconds freq d := system_time freq 1000000 d.
Definition getSystemTimeInMilliseconds freq d := system_time freq 1000 d.
Definition getSystemTimeInSeconds (freq : Z) (d : D) : outcome (D * Z) :=
  let '(d, t) := getSystemTime d in
  if freq =? 0 then Fault else Done (d, t / freq).

(** ** The local APIC *)
Definition IA32_APIC_BASE_MSR : Z := 0x1B.
Definition APIC_ICR_LO : Z := 0x300.
Definition APIC_ICR_HI : Z := 0x310.
Definition APIC_TIMER_REGISTER : Z := 0x320.
Definition APIC_TIMER_DIVIDE_CONFIG : Z := 0x3E0.
Definition APIC_TIMER_INITIAL_COUNT : Z := 0x380.
Definition APIC_CURRENT_COUNT : Z := 0x390.
Definition APIC_TIMER_ONE_SHOT_MODE : Z := 0x0.
Definition APIC_TIMER_PERIODIC_MODE : Z := 0x20000.

(** The device, the register words by index, the writes so far and the interrupt flag. *)
Record timer_hw := mkTimerHw {
  clock : D;
  lapic_words : Z -> Z;
  lapic_writes : list (Z * Z);
  irqs_on : bool }.

Definition with_clock (h : timer_hw) (d : D) : timer_hw :=
  mkTimerHw d (lapic_words h) (lapic_writes h) (irqs_on h).
Definition with_irqs (h : timer_hw) (b : bool) : timer_hw :=
  mkTimerHw (clock h) (lapic_words h) (lapic_writes h) b.

Definition Apic_write (h : timer_hw) (reg value : Z) : timer_hw :=
  mkTimerHw (clock h) (fun i => if i =? reg / 4 then u32 value else lapic_words h i)
    (lapic_writes h ++ [(reg, u32 value)]) (irqs_on h).

Definition Apic_read (h : timer_hw) (reg : Z) : Z :=
  if reg / 4 =? APIC_CURRENT_COUNT / 4 then u32 (apic_current (clock h)) else lapic_words h (reg / 4).

Definition completeIrq (h : timer_hw) : timer_hw := Apic_write h 0xB0 0x00.

Definition sendIpi (h : timer_hw) (apicId vector : Z) : timer_hw :=
  let h := Apic_write h APIC_ICR_HI (Z.shiftl apicId 24) in
  Apic_write h APIC_ICR_LO (Z.lor vector (Z.shiftl 1 14)).

(** The part of the constructor behind the mapping: enable, with the spurious vector. *)
Definition Apic_enable (h : timer_hw) (spuriousIrq : Z) : timer_hw :=
  let v := Apic_read h 0xF0 in
  let v := Z.lor v (Z.shiftl 1 8) in
  let v := Z.lor v spuriousIrq in
  Apic_write h 0xF0 v.

(** [g_lapicPhysicalBase] and [g_lapicVirtualBase], which processors have an object in
    [s_lapics], and the pages mapped ([page] is what zallocPage returns). *)
Record apic_globals := mkApicGlobals {
  g_lapicPhysicalBase : Z;
  g_lapicVirtualBase : Z;
  s_lapics : list bool;
  lapic_mappings : list (Z * Z) }.

Definition Apic_new (base spuriousIrq page : Z) (g : apic_globals) (h : timer_hw) : apic_globals * timer_hw :=
  let g := if g_lapicPhysicalBase g =? 0
           then mkApicGlobals base page (s_lapics g) (lapic_mappings g ++ [(page, base)])
           else g in
  (g, Apic_enable h spuriousIrq).

Definition initializeLocalApic (cpu page : Z) (ms : gmap Z Z) (g : apic_globals) (h : timer_hw)
  : outcome (gmap Z Z * apic_globals * timer_hw) :=
  have ← need (s_lapics g !! Z.to_nat cpu);
  if have : bool then Done (ms, g, h)
  else
    apicBaseMsr ← readMsr ms IA32_APIC_BASE_MSR;
    let apicBaseMsr := Z.lor apicBaseMsr (Z.shiftl 1 11) in
    ms ← writeMsr ms IA32_APIC_BASE_MSR apicBaseMsr;
    let physicalBase := Z.land apicBaseMsr (u64 (Z.lnot 0xFFF)) in
    let '(g, h) := Apic_new physicalBase 0xFF page g h in
    Done (ms, mkApicGlobals (g_lapicPhysicalBase g) (g_lapicVirtualBase g)
                (<[Z.to_nat cpu := true]> (s_lapics g)) (lapic_mappings g), h).

(** The object of the processor, created at the first call; the last component says that
    the handle is not null. *)
Definition getLocalApic (cpu page : Z) (ms : gmap Z Z) (g : apic_globals) (h : timer_hw)
  : outcome (gmap Z Z * apic_globals * timer_hw * bool) :=
  have ← need (s_lapics g !! Z.to_nat cpu);
  if have : bool then Done (ms, g, h, have)
  else
    '(ms, g, h) ← initializeLocalApic cpu page ms g h;
    have ← need (s_lapics g !! Z.to_nat cpu);
    Done (ms, g, h, have).

(** The accessor of the interrupt handlers creates nothing; [cpu] is that of the task. *)
Definition __irqGetLocalApic (cpu : Z) (g : apic_globals) : outcome bool := need (s_lapics g !! Z.to_nat cpu).

(** The two port writes, appended to the ones before. *)
Definition disableLegacyPic (ports : list (Z * Z)) : list (Z * Z) := ports ++ [(0xA1, 0xFF); (0x21, 0xFF)].

(** ** The APIC timer *)
Record ApicTimer := mkApicTimer { m_irqno : Z; m_divideConfig : Z; m_intervalValue : Z }.

Definition _setup (mode irqNumber divideConfig intervalValue : Z) (h : timer_hw) : ApicTimer * timer_hw :=
  let t := mkApicTimer (u8 irqNumber) (u32 divideConfig) (u32 intervalValue) in
  let h := Apic_write h APIC_TIMER_REGISTER (Z.lor mode (u8 irqNumber)) in
  let h := Apic_write h APIC_TIMER_DIVIDE_CONFIG (m_divideConfig t) in
  (t, Apic_write h APIC_TIMER_INITIAL_COUNT 0).

Definition setupPeriodic irq div val h := _setup APIC_TIMER_PERIODIC_MODE irq div val h.
Definition setupOneShot irq div val h := _setup APIC_TIMER_ONE_SHOT_MODE irq div val h.
Definition start (t : ApicTimer) (h : timer_hw) : timer_hw :=
  Apic_write h APIC_TIMER_INITIAL_COUNT (m_intervalValue t).
Definition timer_readCounter (h : timer_hw) : Z := Apic_read h APIC_CURRENT_COUNT.
Definition stop (h : timer_hw) : Z * timer_hw :=
  let cnt := timer_readCounter h in
  (cnt, Apic_write h APIC_TIMER_INITIAL_COUNT 0).

(** ** Calibration *)
Definition calibrate_body (freq hpetStart : Z) (h : timer_hw) : outcome (timer_hw + timer_hw) :=
  let '(d, t) := readCounter (clock h) in
  let h := with_clock h d in
  if (t ⊟ hpetStart) <? freq then Done (inl h) else Done (inr h).

(** Returns [s_apicTicksCalibratedFrequency] and [s_tscTicksCalibratedFrequency]. *)
Definition calibrateApicTimer (fuel : nat) (freq milliseconds : Z) (h : timer_hw)
  : outcome (Z * Z * timer_hw) :=
  let h := with_irqs h false in
  let '(t, h) := setupOneShot 32 1 0xffffffff h in
  let '(d, hpetStart) := readCounter (clock h) in
  let h := with_clock h d in
  let rdtscStart := rdtsc (clock h) in
  let h := start t h in
  h ← loop fuel (calibrate_body freq hpetStart) h;
  let '(apicEnd, h) := stop h in
  let rdtscEnd := rdtsc (clock h) in
  let h := with_irqs h true in
  Done ((u32 (0xffffffff - apicEnd) / 1000) ⊠ milliseconds, rdtscEnd ⊟ rdtscStart, h).

Definition startApicPeriodicTimer (apicTicks : Z) (h : timer_hw) : timer_hw :=
  let '(t, h) := setupPeriodic 32 1 (u32 apicTicks) h in
  start t h.
End ktime.
Arguments timer_hw D : clear implicits.

Section laws.
Context `{HpetLaws D}.

(** A wait ends at the first reading that reaches its target: the one before, if any, did
    not. *)
Lemma wait_run fuel target d : is_u64 target -> (lag d target < fuel)%nat ->
  exists d0 d', loop fuel (wait_body target) d = Done d' /\ d' = fst (readCounter d0) /\
    target <= now d' /\ (d0 = d \/ now d0 < target) /\ now d <= now d'.
Proof.
  intros Ht. revert d. induction fuel as [|fuel IH]; intros d Hf; [lia|].
  cbn [loop]. unfold wait_body at 1. destruct (readCounter d) as [d1 t] eqn:E.
  pose proof (read_now d) as Hn. pose proof (read_monotone d) as Hm. pose proof (read_progress d target Ht) as Hp.
  rewrite E in Hn, Hm, Hp. cbn [fst snd] in *.
  destruct (Z.ltb_spec t target) as [Hlt|Hge].
  - destruct (IH d1) as (d0 & d' & E' & Hd & Ht' & Hfirst & Hmono); [specialize (Hp Hlt); lia|].
    exists d0, d'. repeat split; [done|done|done| |lia]. right. destruct Hfirst as [->|Hf']; lia.
  - exists d, d1. rewrite E. repeat split; [lia|by left|lia].
Qed.

Lemma wait_ticks_run fuel ticks d :
  let d1 := fst (readCounter d) in
  0 <= ticks -> now d1 + ticks < 0x10000000000000000 -> (lag d1 (now d1 + ticks) < fuel)%nat ->
  exists d0 d', wait_ticks fuel ticks d = Done d' /\ d' = fst (readCounter d0) /\
    now d1 + ticks <= now d' /\ (d0 = d1 \/ now d0 < now d1 + ticks).
Proof.
  intros d1 H1 H2 Hf. unfold wait_ticks. pose proof (read_now d) as Hn. pose proof (read_word d) as Hw.
  unfold d1 in *. destruct (readCounter d) as [dd st]. cbn [fst snd] in *. subst st.
  unfold is_u64 in Hw. rewrite u64_small by (unfold is_u64; lia).
  destruct (wait_run fuel (now dd + ticks) dd) as (d0 & d' & E & Hd & Ht & Hfirst & _);
    [unfold is_u64; lia|done|]. eauto 6.
Qed.

(** C31 (bounds): each of the four waits returns, once the counter has had time to reach its
    target, at the first reading that is the requested number of units times the frequency
    divided by the units of a second past the reading at the call; measured in the unit
    this is less than the request by at most one unit per tick of the frequency's remainder,
    but a nanosecond wait on a counter slower than 1 GHz returns with the next reading,
    however long the request. *)
Theorem waits_elapse fuel freq n d :
  let d1 := fst (readCounter d) in
  0 <= n -> 0 <= freq -> now d1 + n * freq < 0x10000000000000000 ->
  (forall scale run, (scale, run) ∈ [(1, sleep fuel freq n d); (1000, msleep fuel freq n d);
                                     (1000000, usleep fuel freq n d); (1000000000, nanosleep fuel freq n d)] ->
     (lag d1 (now d1 + n * (freq / scale)) < fuel)%nat ->
     exists d0 d', run = Done d' /\ d' = fst (readCounter d0) /\
       now d1 + n * (freq / scale) <= now d' /\ (d0 = d1 \/ now d0 < now d1 + n * (freq / scale)) /\
       n * freq - n * (scale - 1) <= scale * (now d' - now d1)) /\
  (freq < 1000000000 -> (0 < fuel)%nat ->
     nanosleep fuel freq n d = Done (fst (readCounter d1))).
Proof.
  intros d1 Hn Hf Hlt.
  assert (is_u64 (now d1)) as Hw by (unfold d1; rewrite read_now; apply read_word). unfold is_u64 in Hw.
  assert (forall scale, 0 < scale -> 0 <= n * (freq / scale) <= n * freq) as Hb.
  { intros scale Hs. pose proof (Z.div_le_upper_bound freq scale freq Hs ltac:(nia)).
    pose proof (Z.div_pos freq scale Hf Hs). nia. }
  split.
  - assert (forall scale, 0 < scale -> (lag d1 (now d1 + n * (freq / scale)) < fuel)%nat ->
      exists d0 d', wait_ticks fuel (n ⊠ (freq / scale)) d = Done d' /\ d' = fst (readCounter d0) /\
        now d1 + n * (freq / scale) <= now d' /\ (d0 = d1 \/ now d0 < now d1 + n * (freq / scale)) /\
        n * freq - n * (scale - 1) <= scale * (now d' - now d1)) as Hrun.
    { intros scale Hs Hl. specialize (Hb scale Hs). rewrite u64_small by (unfold is_u64; lia).
      destruct (wait_ticks_run fuel (n * (freq / scale)) d) as (d0 & d' & E & Hd & Ht & Hfirst);
        [lia|fold d1; lia|exact Hl|]. exists d0, d'. repeat split; [done|done|done|done|].
      fold d1 in Ht. pose proof (Z.div_mod freq scale ltac:(lia)). pose proof (Z.mod_pos_bound freq scale Hs). nia. }
    intros scale run Hin.
    repeat (apply elem_of_cons in Hin as [[= -> ->]|Hin]; [|]); [| | | |by apply not_elem_of_nil in Hin].
    + intros Hl. specialize (Hrun 1 ltac:(lia) Hl). unfold sleep. by rewrite Z.div_1_r in *.
    + intros Hl. exact (Hrun 1000 ltac:(lia) Hl).
    + intros Hl. exact (Hrun 1000000 ltac:(lia) Hl).
    + intros Hl. exact (Hrun 1000000000 ltac:(lia) Hl).
  - intros Hslow Hfuel. unfold nanosleep. rewrite Z.div_small, Z.mul_0_r by lia. unfold wait_ticks.
    pose proof (read_now d) as E. unfold d1 in *. destruct (readCounter d) as [dd st]. cbn [fst snd] in *.
    change (u64 0) with 0. rewrite Z.add_0_r, u64_small by (unfold is_u64; lia). destruct fuel as [|fuel]; [lia|].
    cbn [loop]. unfold wait_body at 1. pose proof (read_monotone dd). destruct (readCounter dd) as [d2 t].
    cbn [fst snd] in *. destruct (Z.ltb_spec t st); [lia|done].
Qed.

(** The system time in milliseconds, microseconds and nanoseconds
    is the whole seconds times the unit: it is a multiple of a second, never above the
    elapsed time and less than one second below it, so that two readings within a second
    are equal; with a frequency of 0 (no period in the capability register) the division
    faults. *)
Theorem system_time_whole_seconds freq scale d d' v :
  0 < freq -> 0 < scale -> snd (readCounter d) * scale < 0x10000000000000000 ->
  system_time freq scale d = Done (d', v) ->
  let t := snd (readCounter d) in
  v = (t / freq) * scale /\ v mod scale = 0 /\ v <= t * scale / freq < v + scale /\
  (forall t', t / freq = t' / freq -> v = (t' / freq) * scale) /\
  system_time 0 scale d = Fault.
Proof.
  intros Hf Hs Hlt. unfold system_time, getSystemTime. pose proof (read_word d) as Hw.
  destruct (readCounter d) as [d1 t]. cbn [snd] in *. unfold is_u64 in Hw.
  destruct (Z.eqb_spec freq 0) as [->|_]; [lia|]. intros [= <- <-].
  assert (0 <= t / freq <= t) as Hq.
  { split; [apply Z.div_pos; lia|]. apply Z.div_le_upper_bound; nia. }
  rewrite u64_small by (unfold is_u64; nia).
  split; [done|]. split; [by rewrite Z.mod_mul by lia|]. split; [|split; [intros t' ->; done|done]].
  pose proof (Z.div_mod t freq ltac:(lia)). pose proof (Z.mod_pos_bound t freq Hf). split.
  - apply Z.div_le_lower_bound; nia.
  - apply Z.div_lt_upper_bound; nia.
Qed.
End laws.

Section calibration.
Context `{HpetLaws D}.

Lemma calibrate_run fuel freq st (h : timer_hw D) :
  0 <= st -> 0 <= freq -> st + freq < 0x10000000000000000 -> st <= now (clock h) ->
  (lag (clock h) (st + freq) < fuel)%nat ->
  exists d0 d', loop fuel (calibrate_body freq st) h = Done (with_clock h d') /\ st + freq <= now d' /\
    d' = fst (readCounter d0) /\ (d0 = clock h \/ now d0 < st + freq).
Proof.
  intros Hst Hfr Hlt. revert h. induction fuel as [|fuel IH]; intros h Hn Hf; [lia|].
  cbn [loop]. unfold calibrate_body at 1.
  pose proof (read_now (clock h)) as E. pose proof (read_monotone (clock h)) as Hm.
  pose proof (read_word (clock h)) as Hw. pose proof (read_progress (clock h) (st + freq) ltac:(unfold is_u64; lia)) as Hp.
  destruct (readCounter (clock h)) as [d1 t] eqn:E1. cbn [fst snd] in *. unfold is_u64 in Hw.
  rewrite u64_small by (unfold is_u64; lia). destruct (Z.ltb_spec (t - st) freq) as [Hc|Hc].
  - destruct (IH (with_clock h d1)) as (d0 & d' & -> & Hd & E0 & Hf0); [cbn; lia|cbn; specialize (Hp ltac:(lia)); lia|].
    exists d0, d'. split; [done|]. split; [done|]. split; [done|]. right. cbn in Hf0. destruct Hf0 as [->|]; lia.
  - exists (clock h), d1. rewrite E1. split_and!; [done|lia|done|by left].
Qed.

Lemma calibration_run fuel freq ms (h : timer_hw D) :
  let d1 := fst (readCounter (clock h)) in
  0 <= ms < 0x100000000 -> 0 <= freq -> now d1 + freq < 0x10000000000000000 -> (lag d1 (now d1 + freq) < fuel)%nat ->
  exists d0 d' ticks tsc h', calibrateApicTimer fuel freq ms h = Done (ticks, tsc, h') /\
    now d1 + freq <= now d' /\ d' = fst (readCounter d0) /\ (d0 = d1 \/ now d0 < now d1 + freq) /\ clock h' = d' /\
    ticks = ((0xffffffff - u32 (apic_current d')) / 1000) * ms /\ irqs_on h' = true /\
    lapic_writes h' = lapic_writes h ++ [(0x320, 32); (0x3E0, 1); (0x380, 0); (0x380, 0xffffffff); (0x380, 0)] /\
    lapic_writes (startApicPeriodicTimer ticks h') =
      lapic_writes h' ++ [(0x320, 0x20020); (0x3E0, 1); (0x380, 0); (0x380, u32 ticks)] /\
    lapic_words (startApicPeriodicTimer ticks h') (0x380 / 4) = u32 ticks.
Proof.
  intros d1 Hms Hf Hlt Hl. unfold calibrateApicTimer, setupOneShot, _setup. cbn [clock with_irqs Apic_write].
  pose proof (read_now (clock h)) as E. pose proof (read_word (clock h)) as Hw. unfold d1 in *.
  destruct (readCounter (clock h)) as [dd st]. cbn [fst snd] in *. subst st. unfold is_u64 in Hw.
  match goal with |- context [loop fuel _ ?h1] => set (h1' := h1) end.
  destruct (calibrate_run fuel freq (now dd) h1') as (d0 & d' & -> & Hd & Ed & Hd0); [lia|lia|lia|cbn; lia|exact Hl|].
  cbn [mbind outcome_bind]. unfold stop. cbn [clock with_clock with_irqs Apic_write].
  assert (timer_readCounter (with_clock h1' d') = u32 (apic_current d')) as -> by reflexivity.
  pose proof (u32_range (apic_current d')) as Hr. unfold is_u32 in Hr.
  assert (u32 (0xffffffff - u32 (apic_current d')) = 0xffffffff - u32 (apic_current d')) as ->
    by (apply u32_small; unfold is_u32; lia).
  assert (0 <= (0xffffffff - u32 (apic_current d')) / 1000 < 0x500000) as Hq
    by (split; [apply Z.div_pos; lia|apply Z.div_lt_upper_bound; lia]).
  do 5 eexists. split; [reflexivity|]. split; [exact Hd|]. split; [exact Ed|]. split; [exact Hd0|]. split; [done|].
  split; [apply u64_small; unfold is_u64; nia|]. split; [done|].
  unfold h1', startApicPeriodicTimer, setupPeriodic, _setup, start. cbn [lapic_writes Apic_write with_irqs with_clock m_intervalValue m_divideConfig lapic_words].
  split; [by rewrite <- !app_assoc|]. split.
  - rewrite <- !app_assoc. cbn [app]. by rewrite !u32_u32.
  - cbn. by rewrite !u32_u32.
Qed.

(** Calibration, once the counter has had a second, leaves interrupts on and
    the timer stopped, having programmed a one-shot count from 0xffffffff on vector 32; its
    result is the ticks counted down over at least one second, per millisecond, times the
    requested milliseconds, and starting the periodic timer programs that interval, cut to
    32 bits, on the same vector. *)
Theorem calibration_programs_timer fuel freq ms (h : timer_hw D) :
  let d1 := fst (readCounter (clock h)) in
  0 <= ms < 0x100000000 -> 0 <= freq -> now d1 + freq < 0x10000000000000000 -> (lag d1 (now d1 + freq) < fuel)%nat ->
  exists d' ticks tsc h', calibrateApicTimer fuel freq ms h = Done (ticks, tsc, h') /\
    now d1 + freq <= now d' /\ clock h' = d' /\
    ticks = ((0xffffffff - u32 (apic_current d')) / 1000) * ms /\ irqs_on h' = true /\
    lapic_writes h' = lapic_writes h ++ [(0x320, 32); (0x3E0, 1); (0x380, 0); (0x380, 0xffffffff); (0x380, 0)] /\
    lapic_writes (startApicPeriodicTimer ticks h') =
      lapic_writes h' ++ [(0x320, 0x20020); (0x3E0, 1); (0x380, 0); (0x380, u32 ticks)] /\
    lapic_words (startApicPeriodicTimer ticks h') (0x380 / 4) = u32 ticks.
Proof.
  intros d1 Hms Hf Hlt Hl.
  destruct (calibration_run fuel freq ms h Hms Hf Hlt Hl) as (d0 & d' & ticks & tsc & h' & E & ? & _ & _ & Hp).
  exists d', ticks, tsc, h'. split; [exact E|]. split; [done|exact Hp].
Qed.
End calibration.

(** The frequency KernelTimer::init stores is the number of whole periods of the
    capability register's upper half in a second, at most one short of exact, and 0 when
    the register gives none; the enable bit is the only change to the configuration. *)
Theorem frequency_of_period `{HpetDevice D} (d : D) :
  let '(d1, cfg) := _readHpetRegister d HPET_GENERAL_CONFIGURATION_OFFSET in
  let d2 := _writeHpetRegister d1 HPET_GENERAL_CONFIGURATION_OFFSET (Z.lor cfg 1) in
  let '(d3, caps) := _readHpetRegister d2 HPET_GENERAL_CAPABILITIES_ID_REGISTER in
  let period := bf 32 32 caps in
  exists f, KernelTimer_init d = (d3, f) /\
    (period = 0 -> f = 0) /\
    (period <> 0 -> f * period <= 10 ^ 15 < (f + 1) * period).
Proof.
  destruct (_readHpetRegister d _) as [d1 cfg] eqn:E1. cbv zeta.
  destruct (_readHpetRegister (_writeHpetRegister _ _ _) _) as [d3 caps] eqn:E2.
  unfold KernelTimer_init, qeueryFrequency, Hpet_init. rewrite E1. unfold HPET_ENABLE_BIT. rewrite E2.
  assert (u32 (Z.shiftr caps 32) = bf 32 32 caps) as ->
    by (unfold bf, u32; by rewrite Z.land_ones by lia).
  pose proof (bf_range 32 32 caps ltac:(lia)) as Hr. change (10 ^ 15) with 1000000000000000.
  destruct (Z.eqb_spec (bf 32 32 caps) 0) as [Ez|Hz]; (eexists; split; [reflexivity|]).
  - split; [done|intros; congruence].
  - split; [done|]. intros _. pose proof (Z.div_mod 1000000000000000 (bf 32 32 caps) Hz).
    pose proof (Z.mod_pos_bound 1000000000000000 (bf 32 32 caps) ltac:(lia)). nia.
Qed.

(** ** The local APICs of the processors *)
Section lapics.
Context `{HpetDevice D}.

(** A call of [getLocalApic]: the processor, the page [zallocPage] has ready, and the
    registers of that processor. *)
Record lapic_call := mkLapicCall { lc_cpu : Z; lc_page : Z; lc_msrs : gmap Z Z; lc_hw : timer_hw D }.

(** The base address in the model-specific register of the caller. *)
Definition lapic_base (b : Z) : Z := Z.land (Z.lor b (Z.shiftl 1 11)) (u64 (Z.lnot 0xFFF)).

Definition lapic_ready (n : nat) (c : lapic_call) (b : Z) : Prop :=
  (Z.to_nat (lc_cpu c) < n)%nat /\ lc_msrs c !! IA32_APIC_BASE_MSR = Some b /\ is_u64 b /\ lapic_base b <> 0.

Definition call_lapic (g : apic_globals) (c : lapic_call) : outcome apic_globals :=
  '(_, g, _, _) ← getLocalApic (lc_cpu c) (lc_page c) (lc_msrs c) g (lc_hw c); Done g.

Lemma call_lapic_run g c b : lapic_ready (length (s_lapics g)) c b ->
  exists g', call_lapic g c = Done g' /\ s_lapics g' = <[Z.to_nat (lc_cpu c) := true]> (s_lapics g) /\
    if (if s_lapics g !! Z.to_nat (lc_cpu c) is Some true then true else negb (g_lapicPhysicalBase g =? 0))
    then g_lapicPhysicalBase g' = g_lapicPhysicalBase g /\ lapic_mappings g' = lapic_mappings g
    else g_lapicPhysicalBase g' = lapic_base b /\ lapic_mappings g' = lapic_mappings g ++ [(lc_page c, lapic_base b)].
Proof.
  intros (Hn & Hb & Hu & _). unfold call_lapic, getLocalApic.
  destruct (lookup_lt_is_Some_2 (s_lapics g) (Z.to_nat (lc_cpu c)) Hn) as [have E]. rewrite E. cbn [mbind outcome_bind need].
  destruct have.
  { exists g. split; [done|]. split; [by rewrite list_insert_id|done]. }
  unfold initializeLocalApic. rewrite E. cbn [mbind outcome_bind need].
  rewrite (readMsr_run _ _ _ Hb Hu). cbn [mbind outcome_bind].
  rewrite writeMsr_run by (eauto using mk_is_Some, lor_bit_u64 || (apply lor_bit_u64; [done|lia])).
  cbn [mbind outcome_bind]. fold (lapic_base b). unfold Apic_new.
  destruct (Z.eqb_spec (g_lapicPhysicalBase g) 0); cbn [negb mbind outcome_bind s_lapics g_lapicPhysicalBase g_lapicVirtualBase lapic_mappings];
    rewrite list_lookup_insert_eq by done; cbn [mbind outcome_bind need]; eexists; (split; [reflexivity|done]).
Qed.

Lemma lapic_calls_keep calls : forall g bs,
  Forall2 (lapic_ready (length (s_lapics g))) calls bs -> g_lapicPhysicalBase g <> 0 ->
  exists g', for_each call_lapic calls g = Done g' /\ lapic_mappings g' = lapic_mappings g /\
    forall i, s_lapics g' !! i = Some true <->
      s_lapics g !! i = Some true \/ exists c, c ∈ calls /\ Z.to_nat (lc_cpu c) = i.
Proof.
  induction calls as [|c calls IH]; intros g bs Hc Hp; cbn [for_each].
  - exists g. split_and!; try done. intros i. split; [by left|]. intros [?|(c & []%not_elem_of_nil & _)]; done.
  - apply Forall2_cons_inv_l in Hc as (b & bs' & Hb & Hc & ->).
    destruct (call_lapic_run g c b Hb) as (g1 & -> & Hs & Hm). cbn [mbind outcome_bind].
    rewrite (proj2 (Z.eqb_neq (g_lapicPhysicalBase g) 0) Hp) in Hm.
    assert (g_lapicPhysicalBase g1 = g_lapicPhysicalBase g /\ lapic_mappings g1 = lapic_mappings g) as [Hp1 Hm1]
      by (destruct (s_lapics g !! Z.to_nat (lc_cpu c)) as [[]|]; exact Hm).
    destruct (IH g1 bs') as (g' & -> & Hm' & Hs'); [by rewrite Hs, length_insert|congruence|].
    exists g'. split; [done|]. split; [congruence|]. intros i. rewrite Hs', Hs.
    destruct Hb as (Hn & _). rewrite list_lookup_insert_Some. split.
    + intros [[(<- & _ & _)|[_ ?]]|(x & Hx & <-)]; [right; exists c; split; [left|done]|by left|].
      right. exists x. split; [by right|done].
    + intros [?|(x & Hx & <-)].
      * left. destruct (decide (Z.to_nat (lc_cpu c) = i)) as [<-|]; [left; by split_and!|by right].
      * apply elem_of_cons in Hx as [->|Hx]; [left; left; by split_and!|right; by exists x].
Qed.

(** Whatever processors call [getLocalApic], in any order and any number of
    times, exactly the callers have an object, and the registers, which all processors see
    at one address, are mapped once: to the page of the first call. *)
Theorem lapic_mapped_once n c calls b bs :
  Forall2 (lapic_ready n) (c :: calls) (b :: bs) ->
  exists g', for_each call_lapic (c :: calls) (mkApicGlobals 0 0 (replicate n false) []) = Done g' /\
    lapic_mappings g' = [(lc_page c, lapic_base b)] /\
    forall cpu, __irqGetLocalApic cpu g' = Done true <-> exists c', c' ∈ c :: calls /\ Z.to_nat (lc_cpu c') = Z.to_nat cpu.
Proof.
  intros [Hb Hc]%Forall2_cons_1. set (g := mkApicGlobals 0 0 (replicate n false) []).
  assert (length (s_lapics g) = n) as Hlen by apply length_replicate.
  assert (s_lapics g !! Z.to_nat (lc_cpu c) = Some false) as E0 by (apply lookup_replicate; split; [done|apply Hb]).
  destruct (call_lapic_run g c b) as (g1 & E1 & Hs & Hm); [by rewrite Hlen|].
  rewrite E0 in Hm. cbn in Hm. destruct Hm as [Hp1 Hm1].
  destruct (lapic_calls_keep calls g1 bs) as (g' & E & Hm' & Hs');
    [by rewrite Hs, length_insert, Hlen|rewrite Hp1; apply Hb|].
  exists g'. cbn [for_each]. rewrite E1. cbn [mbind outcome_bind]. split; [exact E|]. split; [by rewrite Hm'|].
  intros cpu. unfold __irqGetLocalApic.
  transitivity (s_lapics g' !! Z.to_nat cpu = Some true).
  { split; [apply need_inv|apply need_some]. }
  rewrite Hs', Hs, list_lookup_insert_Some. split.
  - intros [[(Ei & _ & _)|[_ H1]]|(x & Hx & Ei)].
    + exists c. split; [left|done].
    + unfold g in H1. apply lookup_replicate in H1 as [? _]. done.
    + exists x. split; [by right|done].
  - intros (x & Hx & Ei). apply elem_of_cons in Hx as [->|Hx]; [|right; by exists x].
    left; left. split; [done|]. split; [done|]. rewrite Hlen. rewrite <- Ei. apply Hb.
Qed.
End lapics.
Arguments lapic_call D : clear implicits.

(** ** Witnesses: a counter that advances by 100 with every reading and stops at the last word *)
Record demo_clock := mkDemoClock { dc_now : N; dc_caps : Z; dc_cfg : Z }.

Definition dc_time (d : demo_clock) : Z := Z.min (Z.of_N (dc_now d)) 0xffffffffffffffff.

#[export] Instance demo_device : HpetDevice demo_clock := {|
  _readHpetRegister d r :=
    if r =? 0xF0 then
      let d := mkDemoClock (dc_now d + 100) (dc_caps d) (dc_cfg d) in (d, dc_time d)
    else (d, if r =? 0 then dc_caps d else dc_cfg d);
  _writeHpetRegister d r v := if r =? 0x10 then mkDemoClock (dc_now d) (dc_caps d) v else d;
  apic_current d := 0xffffffff - dc_time d;
  rdtsc d := dc_time d |}.

#[export, refine] Instance demo_laws : HpetLaws demo_clock := {|
  now := dc_time;
  lag d t := Z.to_nat (t - dc_time d) |}.
Proof.
  - intros d. cbn. unfold dc_time, is_u64. cbn. lia.
  - done.
  - intros d. cbn. unfold dc_time. cbn. lia.
  - intros d t Ht. cbn. unfold dc_time, is_u64 in *. cbn. lia.
Defined.

Definition demo_hpet : demo_clock := mkDemoClock 0 (Z.shiftl 69841279 32) 0.
Definition demo_timer : timer_hw demo_clock := mkTimerHw demo_hpet (fun _ => 0) [] true.

Lemma waits_elapse_witness : exists d', msleep 3000 100000 20 demo_hpet = Done d' /\
  now (fst (readCounter demo_hpet)) + 2000 <= now d'.
Proof.
  destruct (waits_elapse 3000 100000 20 demo_hpet) as [Hw _]; [lia|lia|vm_compute; reflexivity|].
  destruct (Hw 1000 (msleep 3000 100000 20 demo_hpet)) as (d0 & d' & E & _ & Ht & _);
    [right; left|apply Nat.ltb_lt; vm_compute; reflexivity|].
  exists d'. split; [exact E|exact Ht].
Defined.

Lemma system_time_whole_seconds_witness : exists d' v,
  getSystemTimeInMilliseconds 14318179 (mkDemoClock 20000000 0 0) = Done (d', v) /\ v mod 1000 = 0 /\ v = 1000.
Proof.
  assert (system_time 14318179 1000 (mkDemoClock 20000000 0 0) = Done (mkDemoClock 20000100 0 0, 1000)) as E
    by (vm_compute; reflexivity).
  exists (mkDemoClock 20000100 0 0), 1000. split; [exact E|].
  pose proof (system_time_whole_seconds (D := demo_clock) 14318179 1000 (mkDemoClock 20000000 0 0)
    (mkDemoClock 20000100 0 0) 1000) as Hst.
  destruct Hst as (_ & Hm & _); [lia|lia|vm_compute; reflexivity|exact E|]. split; [exact Hm|reflexivity].
Defined.

Lemma calibration_programs_timer_witness : exists ticks tsc h',
  calibrateApicTimer 2000 1000 100 demo_timer = Done (ticks, tsc, h') /\ irqs_on h' = true.
Proof.
  destruct (calibration_programs_timer 2000 1000 100 demo_timer) as (d' & ticks & tsc & h' & E & _ & _ & _ & Hi & _);
    [lia|lia|vm_compute; reflexivity|apply Nat.ltb_lt; vm_compute; reflexivity|].
  exists ticks, tsc, h'. split; [exact E|exact Hi].
Defined.

Lemma lapic_mapped_once_witness : exists g',
  for_each call_lapic
    [mkLapicCall 0 0x5000 {[ IA32_APIC_BASE_MSR := 0xFEE00900 ]} demo_timer;
     mkLapicCall 2 0x6000 {[ IA32_APIC_BASE_MSR := 0xFEE00800 ]} demo_timer]
    (mkApicGlobals 0 0 (replicate 4 false) []) = Done g' /\
  lapic_mappings g' = [(0x5000, 0xFEE00000)].
Proof.
  destruct (lapic_mapped_once 4
    (mkLapicCall 0 0x5000 {[ IA32_APIC_BASE_MSR := 0xFEE00900 ]} demo_timer)
    [mkLapicCall 2 0x6000 {[ IA32_APIC_BASE_MSR := 0xFEE00800 ]} demo_timer] 0xFEE00900 [0xFEE00800])
    as (g' & E & Hm & _).
  - repeat constructor; vm_compute; congruence.
  - exists g'. split; [exact E|exact Hm].
Defined.
