(* ===== verification/CpuSetup.v ===== *)
(** * Processor set-up (kernel/src/arch/x86/cpuid.h, pat.h, pat.cpp, x86_cpu_control.h,
      x86_cpu_control.cpp, the alignment helpers of msr.cpp)

    The control registers, the interrupt flag and the model-specific registers of a core,
    with a record of the instructions whose order matters when the memory types change.
    [cpuid] is the processor's: a function from the leaf to the four registers. *)
From Stdlib Require Import ZArith Lia.
From stdpp Require Import base tactics numbers option list gmap.
From S2P Require Import Prelude Memory KString PageFrame PageTable Paging Process Gdt.

(** ** Alignment helpers *)
Definition ALIGN_DOWN (value alignment : Z) : Z := Z.land value (u64 (Z.lnot (alignment ⊟ 1))).
Definition ALIGN_UP (value alignment : Z) : Z :=
  Z.land (value ⊞ alignment ⊟ 1) (u64 (Z.lnot (alignment ⊟ 1))).
Definition isPowerOf2 (x : Z) : bool := negb (x =? 0) && (Z.land x (x ⊟ 1) =? 0).

(** ** Control registers *)
Definition CR0_NW : Z := Z.shiftl 1 29.
Definition CR0_CD : Z := Z.shiftl 1 30.
Definition CR4_PGE : Z := Z.shiftl 1 7.
Definition IA32_PAT_MSR : Z := 0x277.

Inductive instr :=
  | Cli | Sti | Wbinvd
  | WriteCr0 (v : Z) | WriteCr4 (v : Z) | Wrmsr (msr v : Z).

Record cpu := mkCpu {
  c_cr0 : Z; c_cr4 : Z; c_msrs : gmap Z Z; c_if : bool; issued : list instr }.

Definition __read_cr0 (c : cpu) : Z := c_cr0 c.
Definition __write_cr0 (v : Z) (c : cpu) : cpu :=
  mkCpu v (c_cr4 c) (c_msrs c) (c_if c) (issued c ++ [WriteCr0 v]).
Definition __read_cr4 (c : cpu) : Z := c_cr4 c.
Definition __write_cr4 (v : Z) (c : cpu) : cpu :=
  mkCpu (c_cr0 c) v (c_msrs c) (c_if c) (issued c ++ [WriteCr4 v]).

(** Returns the old value that the caller keeps. *)
Definition x86_cpu_cache_disable (c : cpu) : Z * cpu :=
  let cr0 := __read_cr0 c in
  let old_cr0 := cr0 in
  let cr0 := Z.lor cr0 CR0_CD in
  let cr0 := Z.land cr0 (u64 (Z.lnot CR0_NW)) in
  (old_cr0, __write_cr0 cr0 c).

Definition x86_cpu_set_cr0 (old_cr0 : Z) (c : cpu) : cpu := __write_cr0 old_cr0 c.
Definition x86_cpu_cache_flush (c : cpu) : cpu :=
  mkCpu (c_cr0 c) (c_cr4 c) (c_msrs c) (c_if c) (issued c ++ [Wbinvd]).
Definition x86_cpu_pge_clear (c : cpu) : cpu :=
  __write_cr4 (Z.land (__read_cr4 c) (u64 (Z.lnot CR4_PGE))) c.
Definition x86_cpu_pge_enable (c : cpu) : cpu :=
  __write_cr4 (Z.lor (__read_cr4 c) CR4_PGE) c.

Definition cli (c : cpu) : cpu := mkCpu (c_cr0 c) (c_cr4 c) (c_msrs c) false (issued c ++ [Cli]).
Definition sti (c : cpu) : cpu := mkCpu (c_cr0 c) (c_cr4 c) (c_msrs c) true (issued c ++ [Sti]).

(** ** The page attribute table *)
Definition PAT_MEM_TYPE_UC : Z := 0x00.
Definition PAT_MEM_TYPE_WC : Z := 0x01.

(** [pat.pa<i>.type]: the low three bits of byte [i] of the register. *)
Definition pat_type (i pat : Z) : Z := bf (8 * i) 3 pat.
Definition set_pat_type (i pat type : Z) : Z := bf_set (8 * i) 3 pat type.

Definition readPatMsr (c : cpu) : outcome Z := readMsr (c_msrs c) IA32_PAT_MSR.
Definition writePatMsr (pat : Z) (c : cpu) : outcome cpu :=
  ms ← writeMsr (c_msrs c) IA32_PAT_MSR pat;
  Done (mkCpu (c_cr0 c) (c_cr4 c) ms (c_if c) (issued c ++ [Wrmsr IA32_PAT_MSR pat])).

Definition ksetupPatOnKernelEntry (c : cpu) : outcome cpu :=
  pat ← readPatMsr c;
  let c := cli c in
  let '(old_cr0, c) := x86_cpu_cache_disable c in
  let c := x86_cpu_cache_flush c in
  let c := x86_cpu_pge_clear c in
  let pat := set_pat_type 4 pat PAT_MEM_TYPE_WC in
  let pat := set_pat_type 2 pat PAT_MEM_TYPE_UC in
  c ← writePatMsr pat c;
  let c := x86_cpu_cache_flush c in
  let c := x86_cpu_pge_clear c in
  let c := x86_cpu_set_cr0 old_cr0 c in
  let c := x86_cpu_pge_enable c in
  Done (sti c).

(** ** Processor identification *)
Record cpuid_regs := mkCpuid { q_eax : Z; q_ebx : Z; q_ecx : Z; q_edx : Z }.

Section cpuid.
Context (cpuid : Z -> cpuid_regs).

(** Reads eax and edx; the other two are clobbered. *)
Definition readCpuid (code : Z) : Z * Z := (q_eax (cpuid code), q_edx (cpuid code)).

Definition CPUID_FEATURES : Z := 1.
Definition CPUID_FEAT_EDX_PAT : Z := Z.shiftl 1 16.
Definition CPUID_FEAT_ECX_LA57 : Z := Z.shiftl 1 16.
Definition CPUID_EDX_SSE : Z := 0x02000000.
Definition CPUID_EDX_SSE2 : Z := 0x04000000.
Definition CPUID_ECX_SSE3 : Z := 0x00000001.
Definition CPUID_ECX_AVX : Z := 0x10000000.
Definition CPUID_ECX_FMA : Z := 0x00001000.

Definition cpuid_isLa57Supported : bool :=
  let '(a, d) := readCpuid 7 in negb (Z.land a CPUID_FEAT_ECX_LA57 =? 0).
Definition cpuid_isSSESupported : bool :=
  let '(eax, edx) := readCpuid CPUID_FEATURES in negb (Z.land edx CPUID_EDX_SSE =? 0).
Definition cpuid_isSSE2Supported : bool :=
  let '(eax, edx) := readCpuid CPUID_FEATURES in negb (Z.land edx CPUID_EDX_SSE2 =? 0).
Definition cpuid_isSSE3Supported : bool :=
  let '(eax, edx) := readCpuid CPUID_FEATURES in negb (Z.land eax CPUID_ECX_SSE3 =? 0).
Definition cpuid_isAVXSupported : bool :=
  let '(eax, edx) := readCpuid CPUID_FEATURES in negb (Z.land eax CPUID_ECX_AVX =? 0).
Definition cpuid_isFMASupported : bool :=
  let '(eax, edx) := readCpuid CPUID_FEATURES in negb (Z.land eax CPUID_ECX_FMA =? 0).
Definition cpuid_isPATSupported : bool :=
  let '(eax, edx) := readCpuid CPUID_FEATURES in negb (Z.land edx CPUID_FEAT_EDX_PAT =? 0).

Definition cpuid_readVendorId (m : gmap Z Z) (vendor : Z) : outcome (gmap Z Z) :=
  let r := cpuid 0 in
  m ← need (write_bytes m vendor (le_split 4 (q_ebx r)));
  m ← need (write_bytes m (vendor + 4) (le_split 4 (q_edx r)));
  m ← need (write_bytes m (vendor + 8) (le_split 4 (q_ecx r)));
  store8 m (vendor + 12) 0.
End cpuid.

(** ** Single bits *)
Lemma mask_word x n : 0 <= n -> 0 <= x < 2 ^ n -> Z.land x (Z.ones n) = x.
Proof. intros. rewrite Z.land_ones by lia. by apply Z.mod_small. Qed.

(** Clearing one bit of a word with the complement of its mask. *)
Lemma clear_bit_spec x k i : is_u64 x -> 0 <= k < 64 -> 0 <= i ->
  Z.testbit (Z.land x (u64 (Z.lnot (Z.shiftl 1 k)))) i = Z.testbit x i && negb (i =? k).
Proof.
  intros Hx Hk Hi. unfold u64. change 0x10000000000000000 with (2 ^ 64).
  rewrite <- (mask_word x 64) by (lia || exact Hx). rewrite <- Z.land_ones by lia.
  rewrite !Z.land_spec, !lnot_testbit, !Z.testbit_ones_nonneg by lia. rewrite Z.shiftl_1_l.
  rewrite Z.pow2_bits_eqb, (Z.eqb_sym k i) by lia. destruct (Z.testbit x i), (i <? 64), (i =? k); done.
Qed.

Lemma set_bit_spec x k i : 0 <= k -> 0 <= i ->
  Z.testbit (Z.lor x (Z.shiftl 1 k)) i = Z.testbit x i || (i =? k).
Proof. intros. rewrite Z.lor_spec, Z.shiftl_1_l, Z.pow2_bits_eqb, (Z.eqb_sym k i) by lia. done. Qed.

Lemma set_clear_bit x k : is_u64 x -> 0 <= k < 64 ->
  Z.lor (Z.land x (u64 (Z.lnot (Z.shiftl 1 k)))) (Z.shiftl 1 k) = Z.lor x (Z.shiftl 1 k).
Proof.
  intros Hx Hk. apply Z.bits_inj'. intros i Hi. rewrite !set_bit_spec, clear_bit_spec by (lia || done).
  destruct (Z.testbit x i), (i =? k); done.
Qed.

Lemma clear_clear_bit x k : is_u64 x -> 0 <= k < 64 ->
  let y := Z.land x (u64 (Z.lnot (Z.shiftl 1 k))) in
  Z.land y (u64 (Z.lnot (Z.shiftl 1 k))) = y.
Proof.
  intros Hx Hk y. unfold y. rewrite <- Z.land_assoc, Z.land_diag. done.
Qed.

(** KsetupPatOnKernelEntry, on a core whose registers hold words, makes
    entry 4 of the table write-combining and entry 2 uncacheable and keeps the other
    entries, all reserved bits and all other model-specific registers; control register 0
    has its old value again and global pages are on; the register is written with
    interrupts off, caching disabled in the coherent mode (CD set, NW clear, no other bit
    changed) and global pages off, between two cache flushes. *)
Theorem pat_setup_order c pat :
  c_msrs c !! IA32_PAT_MSR = Some pat -> is_u64 pat -> is_u64 (c_cr0 c) -> is_u64 (c_cr4 c) ->
  exists c' pat' v0 v4, ksetupPatOnKernelEntry c = Done c' /\
    c_msrs c' = <[IA32_PAT_MSR := pat']> (c_msrs c) /\ is_u64 pat' /\
    (forall i, 0 <= i < 8 -> pat_type i pat' = if i =? 4 then 1 else if i =? 2 then 0 else pat_type i pat) /\
    (forall i, 0 <= i < 8 -> bf (8 * i + 3) 5 pat' = bf (8 * i + 3) 5 pat) /\
    c_cr0 c' = c_cr0 c /\ c_cr4 c' = Z.lor (c_cr4 c) CR4_PGE /\ c_if c' = true /\
    issued c' = issued c ++ [Cli; WriteCr0 v0; Wbinvd; WriteCr4 v4; Wrmsr IA32_PAT_MSR pat'; Wbinvd;
                             WriteCr4 v4; WriteCr0 (c_cr0 c); WriteCr4 (Z.lor (c_cr4 c) CR4_PGE); Sti] /\
    (forall i, 0 <= i -> Z.testbit v0 i = (Z.testbit (c_cr0 c) i || (i =? 30)) && negb (i =? 29)) /\
    (forall i, 0 <= i -> Z.testbit v4 i = Z.testbit (c_cr4 c) i && negb (i =? 7)).
Proof.
  intros Hp Hpat H0 H4.
  set (pat' := set_pat_type 2 (set_pat_type 4 pat PAT_MEM_TYPE_WC) PAT_MEM_TYPE_UC).
  assert (is_u64 pat') as Hpat'.
  { unfold pat', set_pat_type. do 2 (apply (bf_set_range 64); [lia|lia|lia|]). exact Hpat. }
  set (v0 := Z.land (Z.lor (c_cr0 c) CR0_CD) (u64 (Z.lnot CR0_NW))).
  set (v4 := Z.land (c_cr4 c) (u64 (Z.lnot CR4_PGE))).
  eexists _, pat', v0, v4. split.
  { unfold ksetupPatOnKernelEntry, readPatMsr. rewrite (readMsr_run _ _ pat) by done. cbn [mbind outcome_bind].
    unfold writePatMsr. cbn [c_msrs cli x86_cpu_cache_disable x86_cpu_cache_flush x86_cpu_pge_clear __write_cr0 __write_cr4].
    fold pat'. rewrite (writeMsr_run _ _ pat') by (eauto || done). cbn [mbind outcome_bind]. reflexivity. }
  cbn [c_msrs c_cr0 c_cr4 c_if issued sti x86_cpu_pge_enable x86_cpu_set_cr0 x86_cpu_pge_clear x86_cpu_cache_flush
       __write_cr0 __write_cr4 __read_cr4 cli].
  fold v4. assert (Z.land v4 (u64 (Z.lnot CR4_PGE)) = v4) as -> by (apply clear_clear_bit; [done|lia]).
  assert (Z.lor v4 CR4_PGE = Z.lor (c_cr4 c) CR4_PGE) as -> by (apply set_clear_bit; [done|lia]).
  split; [done|]. split; [done|]. split; [|split; [|split; [done|split; [done|split; [done|split]]]]].
  - intros i Hi. unfold pat', pat_type, set_pat_type.
    assert (i = 0 \/ i = 1 \/ i = 2 \/ i = 3 \/ i = 4 \/ i = 5 \/ i = 6 \/ i = 7) as Hc by lia.
    destruct Hc as [->|[->|[->|[->|[->|[->|[->| ->]]]]]]];
      repeat first [rewrite bf_set_same by lia | rewrite bf_set_other by lia]; reflexivity.
  - intros i Hi. unfold pat', set_pat_type. by rewrite !bf_set_other by lia.
  - rewrite <- !app_assoc. cbn [app]. unfold v0. done.
  - split; intros i Hi.
    + unfold v0, CR0_CD, CR0_NW. rewrite clear_bit_spec, set_bit_spec; [done|lia|lia| |lia|lia].
      by apply lor_bit_u64.
    + by apply clear_bit_spec.
Qed.

(** ** Alignment *)
Lemma low_mask k : 0 <= k < 64 -> u64 (Z.lnot (2 ^ k ⊟ 1)) = Z.ldiff (Z.ones 64) (Z.ones k).
Proof.
  intros Hk. assert (0 < 2 ^ k <= 2 ^ 63) by (split; [lia|apply Z.pow_le_mono_r; lia]).
  change (2 ^ 63) with 9223372036854775808 in *.
  rewrite (u64_small (2 ^ k - 1)) by (unfold is_u64; lia).
  unfold u64. change 0x10000000000000000 with (2 ^ 64). rewrite <- Z.land_ones by lia.
  apply Z.bits_inj'. intros i Hi. rewrite Z.land_spec, Z.ldiff_spec, lnot_testbit by lia.
  replace (2 ^ k - 1) with (Z.ones k) by (rewrite Z.ones_equiv; lia). apply andb_comm.
Qed.

Lemma align_down_eq v k : is_u64 v -> 0 <= k < 64 -> ALIGN_DOWN v (2 ^ k) = v - v mod 2 ^ k.
Proof.
  intros Hv Hk. unfold ALIGN_DOWN. rewrite low_mask by done.
  assert (Z.land v (Z.ldiff (Z.ones 64) (Z.ones k)) = Z.ldiff v (Z.ones k)) as ->.
  { rewrite <- (mask_word v 64) at 2 by (lia || exact Hv). apply Z.bits_inj'. intros i Hi.
    rewrite !Z.land_spec, !Z.ldiff_spec, Z.land_spec. by rewrite andb_assoc. }
  rewrite Z.ldiff_ones_r, Z.shiftr_div_pow2, Z.shiftl_mul_pow2 by lia.
  pose proof (Z.div_mod v (2 ^ k) ltac:(lia)). lia.
Qed.

Lemma power_bit x : 0 < x -> Z.land x (x - 1) = 0 -> x = 2 ^ Z.log2 x.
Proof.
  intros Hx Hl. pose proof (Z.log2_spec x Hx) as [Hlo Hhi].
  destruct (Z.eq_dec x (2 ^ Z.log2 x)) as [->|Hn]; [by rewrite Z.log2_pow2 by apply Z.log2_nonneg|].
  exfalso. assert (Z.log2 (x - 1) = Z.log2 x) as E.
  { apply Z.log2_unique; [apply Z.log2_nonneg|lia]. }
  assert (Z.testbit (Z.land x (x - 1)) (Z.log2 x) = true) as Hb.
  { rewrite Z.land_spec, Z.bit_log2 by lia. rewrite <- E at 1. rewrite Z.bit_log2; [done|].
    assert (x <> 1) by (intros ->; by apply Hn). lia. }
  by rewrite Hl, Z.testbit_0_l in Hb.
Qed.

(** IsPowerOf2 holds of a word exactly when it is a power of two, and for such
    an alignment ALIGN_DOWN and ALIGN_UP give the nearest multiples below and above, as
    long as rounding up does not pass the last word. *)
Theorem alignment_helpers x v : is_u64 x -> is_u64 v ->
  (isPowerOf2 x = true <-> exists k, 0 <= k < 64 /\ x = 2 ^ k) /\
  (isPowerOf2 x = true ->
     ALIGN_DOWN v x mod x = 0 /\ ALIGN_DOWN v x <= v < ALIGN_DOWN v x + x /\
     (v + x - 1 < 0x10000000000000000 ->
        ALIGN_UP v x mod x = 0 /\ v <= ALIGN_UP v x < v + x)).
Proof.
  intros Hx Hv.
  assert (isPowerOf2 x = true <-> exists k, 0 <= k < 64 /\ x = 2 ^ k) as Hiff.
  { unfold isPowerOf2. rewrite andb_true_iff, negb_true_iff, Z.eqb_neq, Z.eqb_eq. unfold is_u64 in Hx. split.
    - intros [H0 Hl]. rewrite u64_small in Hl by (unfold is_u64; lia). exists (Z.log2 x). split.
      + split; [apply Z.log2_nonneg|]. apply Z.log2_lt_pow2; [lia|]. change (2 ^ 64) with 0x10000000000000000. lia.
      + apply power_bit; [lia|done].
    - intros (k & Hk & ->). assert (0 < 2 ^ k) by lia. split; [lia|].
      rewrite u64_small by (unfold is_u64; lia). replace (2 ^ k - 1) with (Z.ones k) by (rewrite Z.ones_equiv; lia).
      rewrite Z.land_ones by lia. apply Z.mod_same. lia. }
  split; [done|]. intros Hp. apply Hiff in Hp as (k & Hk & ->). unfold is_u64 in *.
  assert (forall w, is_u64 w -> ALIGN_DOWN w (2 ^ k) mod 2 ^ k = 0 /\ ALIGN_DOWN w (2 ^ k) <= w < ALIGN_DOWN w (2 ^ k) + 2 ^ k) as Hdown.
  { intros w Hw. rewrite align_down_eq by done. pose proof (Z.mod_pos_bound w (2 ^ k) ltac:(lia)).
    split; [|lia]. rewrite Zminus_mod, Z.mod_mod, Z.sub_diag by lia. apply Z.mod_0_l. lia. }
  destruct (Hdown v Hv) as [H1 H2]. split; [done|]. split; [done|]. intros Hov.
  assert (ALIGN_UP v (2 ^ k) = ALIGN_DOWN (v + 2 ^ k - 1) (2 ^ k)) as ->.
  { unfold ALIGN_UP, ALIGN_DOWN. f_equal. rewrite u64_sub_l. apply u64_small. unfold is_u64. lia. }
  destruct (Hdown (v + 2 ^ k - 1) ltac:(unfold is_u64; lia)) as [H3 H4]. split; [done|].
  assert (v + 2 ^ k - 1 < 0x10000000000000000) by lia. lia.
Qed.

(** SSE, SSE2 and the page attribute table are detected by their bits
    of edx; SSE3, AVX, FMA and five-level paging, whose bits are in ecx, are looked up in
    eax, so that the answer does not depend on the register that has the feature. *)
Theorem cpuid_registers cpuid :
  cpuid_isSSESupported cpuid = Z.testbit (q_edx (cpuid 1)) 25 /\
  cpuid_isSSE2Supported cpuid = Z.testbit (q_edx (cpuid 1)) 26 /\
  cpuid_isPATSupported cpuid = Z.testbit (q_edx (cpuid 1)) 16 /\
  (forall other, (forall l, q_eax (other l) = q_eax (cpuid l)) ->
     cpuid_isSSE3Supported other = cpuid_isSSE3Supported cpuid /\
     cpuid_isAVXSupported other = cpuid_isAVXSupported cpuid /\
     cpuid_isFMASupported other = cpuid_isFMASupported cpuid /\
     cpuid_isLa57Supported other = cpuid_isLa57Supported cpuid) /\
  cpuid_isLa57Supported cpuid = Z.testbit (q_eax (cpuid 7)) 16.
Proof.
  split; [exact (land_bit _ 25 ltac:(lia))|]. split; [exact (land_bit _ 26 ltac:(lia))|].
  split; [exact (land_bit _ 16 ltac:(lia))|]. split; [|exact (land_bit _ 16 ltac:(lia))].
  intros other H. unfold cpuid_isSSE3Supported, cpuid_isAVXSupported, cpuid_isFMASupported, cpuid_isLa57Supported, readCpuid.
  by rewrite !H.
Qed.

(** Cpuid_readVendorId writes the twelve characters of ebx, edx and ecx in this
    order and a terminator, and nothing else. *)
Theorem vendor_string cpuid m vendor : mapped m vendor 13 ->
  cpuid_readVendorId cpuid m vendor =
  Done (put_bytes m vendor (le_split 4 (q_ebx (cpuid 0)) ++ le_split 4 (q_edx (cpuid 0)) ++
                            le_split 4 (q_ecx (cpuid 0)) ++ [0])).
Proof.
  intros Hm. unfold cpuid_readVendorId.
  rewrite write_bytes_mapped by (rewrite length_le_split; eapply mapped_sub; [exact Hm|lia|lia]).
  cbn [mbind outcome_bind need].
  rewrite write_bytes_mapped by (rewrite length_le_split; apply put_bytes_mapped; eapply mapped_sub; [exact Hm|lia|lia]).
  cbn [mbind outcome_bind need].
  rewrite write_bytes_mapped by (rewrite length_le_split; do 2 apply put_bytes_mapped; eapply mapped_sub; [exact Hm|lia|lia]).
  cbn [mbind outcome_bind need].
  rewrite store8_mapped by (do 3 apply put_bytes_mapped; eapply mapped_sub; [exact Hm|lia|lia]).
  change (u8 0) with 0. f_equal. rewrite !put_bytes_app, !length_le_split. 
  replace (vendor + Z.of_nat 4 + Z.of_nat 4 + Z.of_nat 4) with (vendor + 12) by lia.
  by replace (vendor + Z.of_nat 4 + Z.of_nat 4) with (vendor + 8) by lia.
Qed.

(** ** Witnesses *)
Definition demo_cpu : cpu := mkCpu 0x80000011 0x20 {[IA32_PAT_MSR := 0x0007040600070406]} true [].

Lemma pat_setup_order_witness : exists c' pat', ksetupPatOnKernelEntry demo_cpu = Done c' /\
  c_msrs c' !! IA32_PAT_MSR = Some pat' /\ pat_type 4 pat' = 1 /\ pat_type 2 pat' = 0 /\ pat_type 0 pat' = 6.
Proof.
  destruct (pat_setup_order demo_cpu 0x0007040600070406) as (c' & pat' & v0 & v4 & E & Em & _ & Ht & _);
    [reflexivity|unfold is_u64; lia|unfold is_u64; cbn; lia|unfold is_u64; cbn; lia|].
  exists c', pat'. split; [exact E|]. split; [rewrite Em; apply lookup_insert_eq|].
  rewrite !Ht by lia. split; [reflexivity|]. split; reflexivity.
Defined.

Lemma alignment_helpers_witness : isPowerOf2 4096 = true /\ ALIGN_UP 0x1234 4096 = 0x2000 /\
  ALIGN_UP 0x1234 4096 mod 4096 = 0.
Proof.
  split; [reflexivity|]. split; [reflexivity|].
  apply (alignment_helpers 4096 0x1234); [unfold is_u64; lia|unfold is_u64; lia|reflexivity|lia].
Defined.

Definition demo_intel (leaf : Z) : cpuid_regs := mkCpuid 0xd 0x756e6547 0x6c65746e 0x49656e69.
Definition demo_vendor : gmap Z Z := put_bytes ∅ 0x1000 (replicate 16 0x7f).

Lemma vendor_string_witness : exists m', cpuid_readVendorId demo_intel demo_vendor 0x1000 = Done m' /\
  read_bytes m' 0x1000 13 = Some [71; 101; 110; 117; 105; 110; 101; 73; 110; 116; 101; 108; 0].
Proof.
  eexists. split; [apply vendor_string|vm_compute; reflexivity].
  intros a Ha. unfold demo_vendor. rewrite lookup_put_bytes, decide_True by (cbn; lia).
  apply lookup_lt_is_Some. cbn. lia.
Defined.
