(* ===== verification/ApStartup.v ===== *)
(** * Application processors (kernel/src/arch/x86/ap_startup.h, ap_startup.cpp; the stack set-up
      of arch/x86/asm/ap_startup.s)

    The boot processor reserves low pages, copies the start-up code, the entry address and
    the root page table there, and then, for every other processor of the interrupt
    controller table, creates a run queue and sends the INIT and start-up interrupts with
    20 ms waits.  The low memory is identity mapped, so its addresses are used directly.
    The entry of the started processor (apStartupEntryC) is in [KernelEntry]; its lowered
    part, which brings up the interrupt controller and the timer of the processor, is
    here. *)
From Stdlib Require Import ZArith Lia.
From stdpp Require Import base tactics numbers option list gmap.
From S2P Require Import Prelude Memory KMemory KString PageFrame PageTable Paging Process Elevate Sched IoApic Acpi Gdt KTime.

Definition AP_STARTUP_ASM_ADDRESS : Z := 0x8000.
Definition AP_STARTUP_C_ENTRY_ADDRESS : Z := 0x9000.
Definition AP_STARTUP_PAGE_TABLE_PTR_ADDRESS : Z := 0x15000.
Definition AP_STARTUP_AP_RUNNING_COUNT_PTR : Z := 0x11000.
Definition AP_STARTUP_BSP_ID_PTR : Z := 0x11008.
Definition AP_STARTUP_BSP_SPINLOCK_PTR : Z := 0x11010.
Definition AP_STARTUP_STACK_POOL_BASE : Z := 0x18000.
Definition AP_STARTUP_STACK_POOL_TOP : Z := 0x70000.
Definition AP_STARTUP_STACK_POOL_PAGE_COUNT : Z := 8.
Definition AP_STARTUP_STACK_POOL_STACK_SIZE : Z := 512.

Definition _acquireApStartupSpinlockFlag (m : gmap Z Z) : outcome (gmap Z Z) :=
  store8 m AP_STARTUP_BSP_SPINLOCK_PTR 0.
Definition _releaseApStartupSpinlockFlag (m : gmap Z Z) : outcome (gmap Z Z) :=
  store8 m AP_STARTUP_BSP_SPINLOCK_PTR 1.

(** The page locks of _prepareApStartupMemoryMappings. *)
Definition lock_ap_pages (p : PageFrameAllocator) : outcome PageFrameAllocator :=
  p ← lockPhysicalPage p AP_STARTUP_ASM_ADDRESS;
  p ← lockPhysicalPage p AP_STARTUP_C_ENTRY_ADDRESS;
  p ← lockPhysicalPage p AP_STARTUP_AP_RUNNING_COUNT_PTR;
  p ← lockPhysicalPage p AP_STARTUP_PAGE_TABLE_PTR_ADDRESS;
  lockPhysicalPages p AP_STARTUP_STACK_POOL_BASE AP_STARTUP_STACK_POOL_PAGE_COUNT.

(** [asm] is the address of __ap_startup_asm, [entryC] that of apStartupEntryC, [root] the
    root page table and [bsp_id] what cpuid gives as the id of the boot processor. *)
Definition _prepareApStartupMemoryMappings (asm entryC root bsp_id : Z) (p : PageFrameAllocator) (m : gmap Z Z)
  : outcome (PageFrameAllocator * gmap Z Z) :=
  p ← lock_ap_pages p;
  m ← memcpy m AP_STARTUP_ASM_ADDRESS asm PAGE_SIZE;
  m ← store64 m AP_STARTUP_C_ENTRY_ADDRESS entryC;
  m ← memcpy m AP_STARTUP_PAGE_TABLE_PTR_ADDRESS root PAGE_SIZE;
  m ← store8 m AP_STARTUP_AP_RUNNING_COUNT_PTR 0;
  m ← store8 m AP_STARTUP_BSP_ID_PTR 0;
  m ← store8 m AP_STARTUP_BSP_SPINLOCK_PTR bsp_id;
  Done (p, m).

(** The stack pointer ap_startup.s gives a processor before it enters the C code. *)
Definition ap_boot_stack_top (apicid : Z) : Z := AP_STARTUP_STACK_POOL_TOP - AP_STARTUP_STACK_POOL_STACK_SIZE * apicid.

Section boot.
Context `{HpetDevice D}.
Context (swapper_tasks : Z).    (** the address of [g_kernelSwapperTasks] *)

Definition bootAndInitApCore (fuel : nat) (freq apicid : Z) (h : timer_hw D) : outcome (timer_hw D) :=
  let h := sendIpi h apicid 0x500 in
  d ← msleep fuel freq 20 (clock h);
  let h := with_clock h d in
  let h := sendIpi h apicid (Z.lor 0x600 (u32 (Z.shiftr AP_STARTUP_ASM_ADDRESS 12))) in
  d ← msleep fuel freq 20 (clock h);
  Done (with_clock h d).

Record ap_world := mkApWorld { aw_sys : sys; aw_hw : timer_hw D }.

(** The loop over the processors: [rq] gives the run queue that operator new returns for a
    processor and [ok] whether its task list could be allocated. *)
Definition boot_core (fuel : nat) (freq : Z) (ok : bool) (rq : Z -> Z) (t : Madt) (w : ap_world) (cpu : Z)
  : outcome ap_world :=
  s ← registerCpuCore swapper_tasks ok (rq cpu) cpu (aw_sys w);
  lapic ← need (m_localApics t !! Z.to_nat cpu);
  h ← bootAndInitApCore fuel freq (apicId lapic) (aw_hw w);
  Done (mkApWorld s h).

Definition initializeApCores (fuel : nat) (freq : Z) (ok : bool) (rq : Z -> Z) (t : Madt)
    (asm entryC root bsp_id : Z) (p : PageFrameAllocator) (m : gmap Z Z) (w : ap_world)
  : outcome (PageFrameAllocator * gmap Z Z * ap_world) :=
  '(p, m) ← _prepareApStartupMemoryMappings asm entryC root bsp_id p m;
  m ← _acquireApStartupSpinlockFlag m;
  w ← for_each (boot_core fuel freq ok rq t) (seqZ 1 (getCpuCount t - 1)) w;
  m ← _releaseApStartupSpinlockFlag m;
  Done (p, m, w).

(** The started processor once it is lowered; [cpu] is its id, and [ms] and [h] are its own
    registers.  The endless loop behind the calls is left out. *)
Definition apStartupEntryLowered (fuel : nat) (freq cpu page : Z) (ms : gmap Z Z) (g : apic_globals) (h : timer_hw D)
  : outcome (gmap Z Z * apic_globals * timer_hw D) :=
  '(ms, g, h) ← initializeLocalApic cpu page ms g h;
  '(ticks, _, h) ← calibrateApicTimer fuel freq 100 h;
  Done (ms, g, startApicPeriodicTimer ticks h).
End boot.
Arguments ap_world D : clear implicits.

(** ** The reserved pages and what is copied there *)
Definition ap_pages : list Z := [0x8; 0x9; 0x11; 0x15; 0x18; 0x19; 0x1a; 0x1b; 0x1c; 0x1d; 0x1e; 0x1f].

Lemma lock_ap_pages_spec p : pfa_wf p -> 0x20 <= page_count p ->
  exists p', lock_ap_pages p = Done p' /\ pfa_wf p' /\
    forall i, 0 <= i -> used p' i = bool_decide (i ∈ ap_pages) || used p i.
Proof.
  intros H Hn. unfold lock_ap_pages.
  assert (0x20000 <= m_totalSystemMemory p) as Ht.
  { unfold page_count in Hn. pose proof (Z.mul_div_le (m_totalSystemMemory p) PAGE_SIZE ltac:(unfold PAGE_SIZE; lia)).
    unfold PAGE_SIZE in *. lia. }
  destruct (lockPhysicalPage_spec p AP_STARTUP_ASM_ADDRESS H) as (p1 & -> & H1 & T1 & _ & _ & U1);
    [unfold AP_STARTUP_ASM_ADDRESS; lia|]. cbn [mbind outcome_bind].
  destruct (lockPhysicalPage_spec p1 AP_STARTUP_C_ENTRY_ADDRESS H1) as (p2 & -> & H2 & T2 & _ & _ & U2);
    [unfold AP_STARTUP_C_ENTRY_ADDRESS; lia|]. cbn [mbind outcome_bind].
  destruct (lockPhysicalPage_spec p2 AP_STARTUP_AP_RUNNING_COUNT_PTR H2) as (p3 & -> & H3 & T3 & _ & _ & U3);
    [unfold AP_STARTUP_AP_RUNNING_COUNT_PTR; lia|]. cbn [mbind outcome_bind].
  destruct (lockPhysicalPage_spec p3 AP_STARTUP_PAGE_TABLE_PTR_ADDRESS H3) as (p4 & -> & H4 & T4 & _ & _ & U4);
    [unfold AP_STARTUP_PAGE_TABLE_PTR_ADDRESS; lia|]. cbn [mbind outcome_bind].
  destruct (lockPhysicalPages_spec 8 p4 0x18 H4) as (p5 & E5 & H5 & _ & _ & _ & U5);
    [lia|unfold page_count in *; rewrite T4, T3, T2, T1; lia|].
  exists p5. split; [exact E5|]. split; [done|]. intros i Hi.
  rewrite U5 by done. unfold used. rewrite U4, U3, U2, U1 by done.
  change (AP_STARTUP_ASM_ADDRESS / PAGE_SIZE) with 0x8. change (AP_STARTUP_C_ENTRY_ADDRESS / PAGE_SIZE) with 0x9.
  change (AP_STARTUP_AP_RUNNING_COUNT_PTR / PAGE_SIZE) with 0x11.
  change (AP_STARTUP_PAGE_TABLE_PTR_ADDRESS / PAGE_SIZE) with 0x15. change (0x18 + Z.of_nat 8) with 0x20.
  destruct (decide (i ∈ ap_pages)) as [Hin|Hout].
  - rewrite bool_decide_true by done. unfold ap_pages in Hin.
    repeat (apply elem_of_cons in Hin as [->|Hin]; [reflexivity|]). by apply not_elem_of_nil in Hin.
  - rewrite bool_decide_false by done.
    assert (~ 0x18 <= i < 0x20 /\ i <> 8 /\ i <> 9 /\ i <> 0x11 /\ i <> 0x15) as (N1 & N2 & N3 & N4 & N5).
    { assert (forall j, j ∈ ap_pages -> i <> j) as Hj by (intros j Hj ->; done).
      split; [|repeat split; apply Hj; unfold ap_pages; set_solver].
      intros Hr. assert (i = 0x18 \/ i = 0x19 \/ i = 0x1a \/ i = 0x1b \/ i = 0x1c \/ i = 0x1d \/ i = 0x1e \/ i = 0x1f) as Hc by lia.
      apply Hout. unfold ap_pages. destruct Hc as [->|[->|[->|[->|[->|[->|[->| ->]]]]]]]; set_solver. }
    destruct (Z.leb_spec 24 i); [destruct (Z.ltb_spec i 32); [lia|]|]; cbn [andb];
      repeat rewrite (proj2 (Z.eqb_neq i _)) by done; done.
Qed.

(** The pages reserved for start-up are those of the code, the entry address,
    the flags, the root table and eight pages from 0x18000 on; the 512-byte stacks the
    processors are given lie below 0x70000, in none of them, so that a page under a
    processor's first stack that was free stays free for the next allocation. *)
Theorem ap_stacks_not_reserved p : pfa_wf p -> 0x70 <= page_count p ->
  exists p', lock_ap_pages p = Done p' /\ pfa_wf p' /\
    (forall i, 0 <= i -> used p' i = bool_decide (i ∈ ap_pages) || used p i) /\
    (forall apicid a, 0 <= apicid < 64 ->
       ap_boot_stack_top apicid - AP_STARTUP_STACK_POOL_STACK_SIZE <= a < ap_boot_stack_top apicid ->
       used p' (a / PAGE_SIZE) = used p (a / PAGE_SIZE)).
Proof.
  intros H Hn. destruct (lock_ap_pages_spec p H ltac:(lia)) as (p' & E & H' & U). exists p'.
  split; [done|]. split; [done|]. split; [done|]. intros apicid a Hid Ha.
  unfold ap_boot_stack_top, AP_STARTUP_STACK_POOL_TOP, AP_STARTUP_STACK_POOL_STACK_SIZE in Ha.
  assert (0x68 <= a / PAGE_SIZE) as Hpage by (apply Z.div_le_lower_bound; unfold PAGE_SIZE; lia).
  rewrite U by lia. rewrite bool_decide_false; [done|]. unfold ap_pages. intros Hin.
  repeat (apply elem_of_cons in Hin as [Hin|Hin]; [lia|]). by apply not_elem_of_nil in Hin.
Qed.

(** The low memory is there, and the sources lie above it. *)
Record low_memory (m : gmap Z Z) (asm root : Z) (stub table : list Z) : Prop := {
  lm_wf : mem_wf m;
  lm_mapped : mapped m 0x8000 0x18000;
  lm_asm : read_bytes m asm 4096 = Some stub;
  lm_root : read_bytes m root 4096 = Some table;
  lm_asm_high : 0x20000 <= asm;
  lm_root_high : 0x20000 <= root }.

(** What the start-up code finds there, with the lock byte [l]. *)
Record ap_resources (m : gmap Z Z) (stub table : list Z) (entryC l : Z) : Prop := {
  ar_code : read_bytes m 0x8000 4096 = Some stub;
  ar_entry : load64 m 0x9000 = Done entryC;
  ar_table : read_bytes m 0x15000 4096 = Some table;
  ar_count : m !! 0x11000 = Some 0;
  ar_bsp : m !! 0x11008 = Some 0;
  ar_lock : m !! 0x11010 = Some l;
  ar_mapped : mapped m 0x8000 0x18000 }.

Lemma low_sub m a n : mapped m 0x8000 0x18000 -> 0x8000 <= a -> a + n <= 0x20000 -> mapped m a n.
Proof. intros H ??. eapply mapped_sub; [exact H|lia|lia]. Qed.

Ltac ap_addresses :=
  unfold AP_STARTUP_ASM_ADDRESS, AP_STARTUP_C_ENTRY_ADDRESS, AP_STARTUP_PAGE_TABLE_PTR_ADDRESS,
    AP_STARTUP_AP_RUNNING_COUNT_PTR, AP_STARTUP_BSP_ID_PTR, AP_STARTUP_BSP_SPINLOCK_PTR, PAGE_SIZE in *.

(** The memory after the copies and the flags. *)
Definition prepared (m : gmap Z Z) (stub table : list Z) (entryC l : Z) : gmap Z Z :=
  put_bytes (put_bytes (put_bytes (put_bytes (put_bytes (put_bytes m 0x8000 stub)
    0x9000 (le_split 8 entryC)) 0x15000 table) 0x11000 [0]) 0x11008 [0]) 0x11010 [l].

Lemma prepared_resources m stub table entryC l : mapped m 0x8000 0x18000 -> is_u64 entryC ->
  length stub = 4096%nat -> length table = 4096%nat -> ap_resources (prepared m stub table entryC l) stub table entryC l.
Proof.
  intros Hm He Ls Lt. unfold prepared. split.
  - do 5 (rewrite read_put_other by (rewrite ?length_le_split, ?Lt; cbn [length]; lia)).
    rewrite <- Ls. apply read_put_same.
  - do 4 (rewrite load64_put_other by (rewrite ?Lt; cbn [length]; lia)). by apply load64_put_same.
  - do 3 (rewrite read_put_other by (cbn [length]; lia)). rewrite <- Lt. apply read_put_same.
  - do 2 (rewrite lookup_put_bytes_out by (cbn [length]; lia)). by rewrite lookup_put_bytes.
  - rewrite lookup_put_bytes_out by (cbn [length]; lia). by rewrite lookup_put_bytes.
  - by rewrite lookup_put_bytes.
  - by do 6 apply put_bytes_mapped.
Qed.

Lemma prepare_run asm entryC root bsp p m stub table : low_memory m asm root stub table ->
  pfa_wf p -> 0x20 <= page_count p ->
  exists p', _prepareApStartupMemoryMappings asm entryC root bsp p m = Done (p', prepared m stub table entryC (u8 bsp)) /\
    lock_ap_pages p = Done p'.
Proof.
  intros [Hwf Hmap Ha Hr Hah Hrh] H Hn.
  destruct (lock_ap_pages_spec p H Hn) as (p' & E & _). exists p'. split; [|done].
  unfold _prepareApStartupMemoryMappings. rewrite E. ap_addresses.
  cbn [mbind outcome_bind]. pose proof (read_bytes_length _ _ _ _ Ha) as La. pose proof (read_bytes_length _ _ _ _ Hr) as Lr.
  rewrite (memcpy_forward m 0x8000 asm 4096 stub); [|done|lia|apply low_sub; [done|lia|lia]|exact Ha|lia].
  cbn [mbind outcome_bind].
  rewrite store64_mapped by (apply put_bytes_mapped, low_sub; [done|lia|lia]). cbn [mbind outcome_bind].
  assert (bytes_ok stub) as Hsb by (eapply read_bytes_ok; [|exact Ha]; done).
  rewrite (memcpy_forward _ 0x15000 root 4096 table);
    [|do 2 (apply put_bytes_wf; [|done || apply le_split_ok]); done|lia
     |do 2 apply put_bytes_mapped; apply low_sub; [done|lia|lia]| |lia].
  2: { change (Z.to_nat 4096) with 4096%nat. rewrite read_put_other by (rewrite length_le_split; lia).
       rewrite read_put_other by lia. exact Hr. }
  cbn [mbind outcome_bind].
  do 3 (rewrite store8_mapped by (repeat apply put_bytes_mapped; apply low_sub; [done|lia|lia]); cbn [mbind outcome_bind]).
  reflexivity.
Qed.

Lemma put_byte_twice m a x y : put_bytes (put_bytes m a [x]) a [y] = put_bytes m a [y].
Proof. apply map_eq. intros b. rewrite !lookup_put_bytes. repeat case_decide; try done; cbn [length] in *; lia. Qed.

(** ** Starting the processors *)
(** ** The timer of a started processor *)

(** The lowered entry of a started processor returns from its set-up: the
    APIC is enabled in its register and in the spurious vector, calibration takes at least a
    second of the counter, and the periodic timer is then programmed on vector 32 with a
    hundred milliseconds of the ticks counted. *)
Theorem ap_timer_started `{HpetLaws D} fuel freq cpu page ms g (h : timer_hw D) b :
  let d1 := fst (readCounter (clock h)) in
  s_lapics g !! Z.to_nat cpu = Some false -> ms !! IA32_APIC_BASE_MSR = Some b -> is_u64 b ->
  0 <= freq -> now d1 + freq < 0x10000000000000000 -> (lag d1 (now d1 + freq) < fuel)%nat ->
  exists ms' g' h' ticks spurious, apStartupEntryLowered fuel freq cpu page ms g h = Done (ms', g', h') /\
    s_lapics g' !! Z.to_nat cpu = Some true /\
    ms' !! IA32_APIC_BASE_MSR = Some (Z.lor b (Z.shiftl 1 11)) /\
    now d1 + freq <= now (clock h') /\
    ticks = ((0xffffffff - u32 (apic_current (clock h'))) / 1000) * 100 /\ irqs_on h' = true /\
    spurious = u32 (Z.lor (Z.lor (Apic_read h 0xF0) (Z.shiftl 1 8)) 0xFF) /\
    lapic_writes h' = lapic_writes h ++ [(0xF0, spurious);
      (0x320, 32); (0x3E0, 1); (0x380, 0); (0x380, 0xffffffff); (0x380, 0);
      (0x320, 0x20020); (0x3E0, 1); (0x380, 0); (0x380, u32 ticks)].
Proof.
  intros d1 Hs Hb Hu Hf Hlt Hl. unfold apStartupEntryLowered, initializeLocalApic.
  rewrite Hs. cbn [mbind outcome_bind need]. rewrite (readMsr_run _ _ _ Hb Hu). cbn [mbind outcome_bind].
  rewrite writeMsr_run by (eauto using mk_is_Some, lor_bit_u64 || (apply lor_bit_u64; [done|lia])).
  cbn [mbind outcome_bind]. unfold Apic_new. cbn [mbind outcome_bind].
  destruct (calibration_run fuel freq 100 (Apic_enable h 0xFF)) as (d0 & d' & ticks & tsc & h' & E & H1 & _ & _ & H2 & H3 & H4 & H5 & H6 & _);
    [lia|exact Hf|exact Hlt|exact Hl|].
  rewrite E. cbn [mbind outcome_bind]. eexists _, _, _, ticks, _. split; [reflexivity|].
  assert (clock (startApicPeriodicTimer ticks h') = clock h') as Ec by reflexivity.
  assert (irqs_on (startApicPeriodicTimer ticks h') = irqs_on h') as Ei by reflexivity.
  rewrite Ec, Ei, H6, H5, H2. split_and!; try done.
  - cbn [s_lapics]. apply list_lookup_insert_eq.
    destruct (g_lapicPhysicalBase g =? 0); cbn [s_lapics]; by eapply lookup_lt_Some.
  - apply lookup_insert_eq.
  - unfold Apic_enable. cbn [lapic_writes Apic_write]. by rewrite <- !app_assoc.
Qed.

Section started.
Context `{HpetLaws D}.
Context (swapper_tasks freq gap : Z) (fuel : nat).

Definition wait20 : Z := 20 * (freq / 1000).

(** Two readings of the counter are at most [gap] apart, and the fuel is above the readings
    that a 20 ms wait takes. *)
Record timing : Prop := {
  tm_freq : 0 <= freq;
  tm_gap : forall d : D, snd (readCounter d) <= now d + gap;
  tm_fuel : forall (d : D) t, t <= now d + wait20 -> (lag d t < fuel)%nat }.

Lemma msleep20_run (d : D) : timing -> 0 <= now d -> now d + wait20 + 2 * gap < 0x10000000000000000 ->
  exists d', msleep fuel freq 20 d = Done d' /\ now d + wait20 <= now d' <= now d + wait20 + 2 * gap.
Proof.
  intros [Hf Hg Hl] Hpos Hlt.
  assert (0 <= wait20) as Hw by (unfold wait20; pose proof (Z.div_pos freq 1000 Hf ltac:(lia)); lia).
  pose proof (Hg d) as Hg1. pose proof (read_monotone d) as Hm1. pose proof (read_now d) as Hn1.
  unfold msleep. fold wait20.
  rewrite u64_small by (unfold is_u64; lia).
  destruct (wait_ticks_run fuel wait20 d Hw) as (d0 & d' & -> & -> & Ht & Hfirst); [lia|apply Hl; lia|].
  eexists. split; [reflexivity|]. pose proof (Hg d0) as Hg2. rewrite !read_now in *.
  destruct Hfirst as [->|Hlt0]; rewrite ?read_now in *; lia.
Qed.

(** The two interrupts for a processor: INIT, then start-up at page 8. *)
Definition ipis (apicid : Z) : list (Z * Z) :=
  [(0x310, u32 (Z.shiftl apicid 24)); (0x300, 0x4500); (0x310, u32 (Z.shiftl apicid 24)); (0x300, 0x4608)].

Lemma boot_run (h : timer_hw D) apicid : timing -> 0 <= now (clock h) ->
  now (clock h) + 2 * (wait20 + 2 * gap) < 0x10000000000000000 ->
  exists h', bootAndInitApCore fuel freq apicid h = Done h' /\ lapic_writes h' = lapic_writes h ++ ipis apicid /\
    now (clock h) + 2 * wait20 <= now (clock h') <= now (clock h) + 2 * (wait20 + 2 * gap).
Proof.
  intros Ht Hpos Hlt. pose proof (tm_gap Ht (clock h)). pose proof (read_monotone (clock h)).
  assert (0 <= wait20) as Hw by (unfold wait20; pose proof (Z.div_pos freq 1000 (tm_freq Ht) ltac:(lia)); lia).
  unfold bootAndInitApCore. change (clock (sendIpi h apicid 0x500)) with (clock h).
  destruct (msleep20_run (clock h) Ht Hpos ltac:(lia)) as (d1 & -> & Hd1). cbn [mbind outcome_bind].
  match goal with |- context [sendIpi (with_clock ?a d1) ?b ?c] =>
    change (clock (sendIpi (with_clock a d1) b c)) with d1 end.
  destruct (msleep20_run d1 Ht ltac:(lia) ltac:(lia)) as (d2 & -> & Hd2). cbn [mbind outcome_bind].
  eexists. split; [reflexivity|]. split; [|cbn [clock with_clock]; lia].
  unfold sendIpi, with_clock, Apic_write, ipis. cbn [lapic_writes]. rewrite <- !app_assoc. reflexivity.
Qed.

Lemma boot_cores_run ok rq t : timing -> forall l k w sy', drop (Z.to_nat k) (m_localApics t) = l -> 0 <= k ->
  0 <= now (clock (aw_hw w)) ->
  now (clock (aw_hw w)) + Z.of_nat (length l) * (2 * (wait20 + 2 * gap)) < 0x10000000000000000 ->
  for_each (fun s cpu => registerCpuCore swapper_tasks ok (rq cpu) cpu s) (seqZ k (Z.of_nat (length l))) (aw_sys w) = Done sy' ->
  exists h', for_each (boot_core swapper_tasks fuel freq ok rq t) (seqZ k (Z.of_nat (length l))) w = Done (mkApWorld sy' h') /\
    lapic_writes h' = lapic_writes (aw_hw w) ++ flat_map (fun a => ipis (apicId a)) l /\
    now (clock (aw_hw w)) + Z.of_nat (length l) * (2 * wait20) <= now (clock h').
Proof.
  intros Ht. assert (0 <= wait20) as Hw by (unfold wait20; pose proof (Z.div_pos freq 1000 (tm_freq Ht) ltac:(lia)); lia).
  assert (forall d : D, 0 <= gap) as Hgap0.
  { intros d. pose proof (tm_gap Ht d). pose proof (read_monotone d). lia. }
  induction l as [|a l IH]; intros k w sy' Hd Hk Hpos Hlt Hreg.
  { cbn [for_each flat_map length seqZ] in *. change (seqZ k (Z.of_nat 0)) with (@nil Z) in *. injection Hreg as <-.
    exists (aw_hw w). destruct w. rewrite app_nil_r. split; [done|]. split; [done|]. cbn. lia. }
  specialize (Hgap0 (clock (aw_hw w))). cbn [length] in *.
  rewrite seqZ_cons in * by lia. replace (Z.pred (Z.of_nat (S (length l)))) with (Z.of_nat (length l)) in * by lia.
  cbn [for_each] in *. destruct (registerCpuCore _ _ _ _ _) as [s1| |] eqn:Er; cbn [mbind outcome_bind] in Hreg; try done.
  assert (m_localApics t !! Z.to_nat k = Some a) as Ha.
  { rewrite <- (Nat.add_0_r (Z.to_nat k)), <- lookup_drop, Hd. done. }
  assert (0 < Z.of_nat (length l) + 1) by lia.
  destruct (boot_run (aw_hw w) (apicId a) Ht Hpos) as (h1 & Eb & Ew & Hn1); [nia|].
  assert (boot_core swapper_tasks fuel freq ok rq t w k = Done (mkApWorld s1 h1)) as ->.
  { unfold boot_core. rewrite Er, Ha. cbn [mbind outcome_bind need]. by rewrite Eb. }
  cbn [mbind outcome_bind].
  destruct (IH (Z.succ k) (mkApWorld s1 h1) sy') as (h' & Ef & Ew' & Hn').
  - replace (Z.to_nat (Z.succ k)) with (1 + Z.to_nat k)%nat by lia. rewrite Nat.add_comm, <- drop_drop, Hd. done.
  - lia.
  - cbn [aw_hw]. lia.
  - cbn [aw_hw]. nia.
  - exact Hreg.
  - exists h'. split; [exact Ef|]. cbn [aw_hw flat_map] in *. split; [by rewrite Ew', Ew, <- app_assoc|]. nia.
Qed.

Lemma ap_cores_run ok rq t asm entryC root bsp p m stub table (w : ap_world D) sy' b l :
  timing -> m_localApics t = b :: l -> low_memory m asm root stub table -> is_u64 entryC ->
  pfa_wf p -> 0x20 <= page_count p -> 0 <= now (clock (aw_hw w)) ->
  now (clock (aw_hw w)) + Z.of_nat (length l) * (2 * (wait20 + 2 * gap)) < 0x10000000000000000 ->
  for_each (fun s cpu => registerCpuCore swapper_tasks ok (rq cpu) cpu s) (seqZ 1 (Z.of_nat (length l))) (aw_sys w) = Done sy' ->
  exists p' m' h', initializeApCores swapper_tasks fuel freq ok rq t asm entryC root bsp p m w = Done (p', m', mkApWorld sy' h') /\
    lock_ap_pages p = Done p' /\ ap_resources m' stub table entryC 1 /\
    lapic_writes h' = lapic_writes (aw_hw w) ++ flat_map (fun a => ipis (apicId a)) l /\
    now (clock (aw_hw w)) + Z.of_nat (length l) * (2 * wait20) <= now (clock h').
Proof.
  intros Ht Ha Hlow He Hp Hn Hpos Hlt Hreg. destruct (prepare_run asm entryC root bsp p m stub table Hlow Hp Hn) as (p' & Epre & Elock).
  pose proof (read_bytes_length _ _ _ _ (lm_asm _ _ _ _ _ Hlow)) as Ls.
  pose proof (read_bytes_length _ _ _ _ (lm_root _ _ _ _ _ Hlow)) as Lt.
  pose proof (lm_mapped _ _ _ _ _ Hlow) as Hm.
  destruct (boot_cores_run ok rq t Ht l 1 w sy') as (h' & Eb & Ew & Hnow); [by rewrite Ha|lia|done|done|done|].
  assert (getCpuCount t - 1 = Z.of_nat (length l)) as Ec by (unfold getCpuCount; rewrite Ha; cbn [length]; lia).
  exists p', (prepared m stub table entryC 1), h'. split; [|split; [done|split; [by apply prepared_resources|done]]].
  unfold initializeApCores. rewrite Epre. cbn [mbind outcome_bind]. unfold _acquireApStartupSpinlockFlag, _releaseApStartupSpinlockFlag.
  rewrite store8_mapped by (unfold prepared; repeat apply put_bytes_mapped; ap_addresses; apply low_sub; [done|lia|lia]).
  cbn [mbind outcome_bind]. rewrite Ec, Eb. cbn [mbind outcome_bind].
  rewrite store8_mapped by (unfold prepared; repeat apply put_bytes_mapped; ap_addresses; apply low_sub; [done|lia|lia]).
  cbn [mbind outcome_bind]. unfold prepared, AP_STARTUP_BSP_SPINLOCK_PTR. do 3 f_equal.
  change (u8 0) with 0. change (u8 1) with 1. by rewrite !put_byte_twice.
Qed.

(** InitializeApCores returns on a machine with readable low memory, a counter
    that keeps going and a scheduler that can register the processors in turn; the
    scheduler is left as after these registrations, every processor of the table but the
    boot processor was sent INIT and the start-up interrupt for page 8, in table order,
    with at least 20 ms (in counter ticks) behind each, and the low memory holds the
    start-up code, the entry address, the root table and the released lock byte. *)
Theorem ap_cores_started ok rq t asm entryC root bsp p m stub table (w : ap_world D) sy' b l :
  timing -> m_localApics t = b :: l -> low_memory m asm root stub table -> is_u64 entryC ->
  pfa_wf p -> 0x20 <= page_count p -> 0 <= now (clock (aw_hw w)) ->
  now (clock (aw_hw w)) + Z.of_nat (length l) * (2 * (wait20 + 2 * gap)) < 0x10000000000000000 ->
  for_each (fun s cpu => registerCpuCore swapper_tasks ok (rq cpu) cpu s) (seqZ 1 (Z.of_nat (length l))) (aw_sys w) = Done sy' ->
  exists p' m' h', initializeApCores swapper_tasks fuel freq ok rq t asm entryC root bsp p m w = Done (p', m', mkApWorld sy' h') /\
    lock_ap_pages p = Done p' /\ ap_resources m' stub table entryC 1 /\
    lapic_writes h' = lapic_writes (aw_hw w) ++ flat_map (fun a => ipis (apicId a)) l /\
    now (clock (aw_hw w)) + Z.of_nat (length l) * (2 * wait20) <= now (clock h').
Proof. apply ap_cores_run. Qed.
End started.

(** ** Witnesses: 112 free pages, low memory up to 0x28000, one processor besides the boot one *)
Definition demo_low_pfa : PageFrameAllocator :=
  mkPFA (112 * PAGE_SIZE) (112 * PAGE_SIZE) 0 0 (mkBitmap 15 (replicate 14 0 ++ [0xff])) 0 0.

Lemma demo_low_wf : pfa_wf demo_low_pfa.
Proof.
  constructor; cbn [demo_low_pfa m_totalSystemMemory m_freeSystemMemory
    m_usedSystemMemory m_lastTrackedFreePage m_pageFrameBitmap allocator_lock bm_size].
  - constructor; [done| |cbn; lia]. cbn. repeat constructor; unfold is_u8; lia.
  - by compute.
  - done.
  - by compute.
  - intros i Hi. change (112 * PAGE_SIZE / PAGE_SIZE) with 112 in Hi. unfold page_used. cbn [bm_buffer].
    destruct (decide (i < 120)).
    + assert (i / 8 = 14) as -> by wordlia. change ((replicate 14 0 ++ [255]) !! Z.to_nat 14) with (Some 255).
      cbv beta iota. assert (0 <= i mod 8 < 8) as Hm by (apply Z.mod_pos_bound; lia).
      assert (forallb (Z.testbit 255) (seqZ 0 8) = true) as X by done.
      by apply (forallb_seqZ _ _ _ (i mod 8) X); lia.
    + rewrite lookup_ge_None_2; [done|]. cbn. wordlia.
  - by compute.
  - done.
  - reflexivity.
  - reflexivity.
  - done.
Qed.

Lemma ap_stacks_not_reserved_witness : exists p', lock_ap_pages demo_low_pfa = Done p' /\
  used p' 0x18 = true /\ used p' 0x6f = false.
Proof.
  destruct (ap_stacks_not_reserved demo_low_pfa demo_low_wf) as (p' & E & _ & Hu & Hs); [vm_compute; discriminate|].
  exists p'. split; [exact E|]. split; [rewrite Hu by lia; reflexivity|].
  apply (Hs 1 0x6fd00); [lia|vm_compute; split; [discriminate|reflexivity]].
Defined.

Definition demo_low_memory : gmap Z Z := put_bytes ∅ 0x8000 (replicate (Z.to_nat 0x20000) 0).

Lemma demo_low_mapped : mapped demo_low_memory 0x8000 0x20000.
Proof.
  intros a Ha. unfold demo_low_memory. rewrite lookup_put_bytes, length_replicate, decide_True by lia.
  apply lookup_lt_is_Some. rewrite length_replicate. lia.
Qed.

Lemma demo_low_ok : exists stub table, low_memory demo_low_memory 0x20000 0x22000 stub table.
Proof.
  pose proof demo_low_mapped as Hm.
  destruct (mapped_read demo_low_memory 0x20000 4096) as (stub & E1 & _); [eapply mapped_sub; [exact Hm|lia|lia]|].
  destruct (mapped_read demo_low_memory 0x22000 4096) as (table & E2 & _); [eapply mapped_sub; [exact Hm|lia|lia]|].
  exists stub, table. split; [|eapply mapped_sub; [exact Hm|lia|lia]|done|done|lia|lia].
  apply put_bytes_wf; [apply map_Forall_empty|]. apply Forall_replicate. unfold is_u8. lia.
Qed.

Definition demo_madt : Madt := mkMadt [mkLapic 0 8 0 0 1; mkLapic 0 8 1 5 1] [].
Definition demo_ap_world : ap_world demo_clock := mkApWorld demo_sys demo_timer.

Lemma demo_timing : timing (D := demo_clock) 1000 100 30.
Proof.
  split; [lia| |].
  - intros d. cbn. unfold dc_time. cbn. lia.
  - intros d t. cbn [now lag demo_laws]. unfold wait20. change (1000 / 1000) with 1. lia.
Qed.

Lemma ap_cores_started_witness : exists p' m' w',
  initializeApCores 0x6000 30 1000 true (fun cpu => 7000 + cpu) demo_madt 0x20000 0xffffffff80101000 0x22000 0
    demo_low_pfa demo_low_memory demo_ap_world = Done (p', m', w') /\
  lapic_writes (aw_hw w') = ipis 5 /\ m_usableCpuCount (aw_sys w') = 2.
Proof.
  destruct demo_low_ok as (stub & table & Hlow).
  destruct (for_each (fun s cpu => registerCpuCore 0x6000 true (7000 + cpu) cpu s) (seqZ 1 1) demo_sys) as [sy'| |] eqn:Er;
    [|vm_compute in Er; discriminate|vm_compute in Er; discriminate].
  destruct (ap_cores_started 0x6000 1000 100 30 true (fun cpu => 7000 + cpu) demo_madt 0x20000 0xffffffff80101000 0x22000 0
    demo_low_pfa demo_low_memory stub table demo_ap_world sy' (mkLapic 0 8 0 0 1) [mkLapic 0 8 1 5 1])
    as (p' & m' & h' & E & _ & _ & Ew & _); [exact demo_timing|done|exact Hlow|unfold is_u64; lia|exact demo_low_wf
    |vm_compute; discriminate|vm_compute; discriminate|vm_compute; reflexivity|exact Er|].
  exists p', m', (mkApWorld sy' h'). split; [exact E|]. split; [exact Ew|].
  cbn [aw_sys]. assert (outcome_usable : match for_each (fun s cpu => registerCpuCore 0x6000 true (7000 + cpu) cpu s) (seqZ 1 1) demo_sys with
    Done s => m_usableCpuCount s | _ => 0 end = 2) by (vm_compute; reflexivity).
  rewrite Er in outcome_usable. exact outcome_usable.
Defined.

Lemma ap_timer_started_witness : exists ms' g' h',
  apStartupEntryLowered 2000 1000 1 0x5000 {[ IA32_APIC_BASE_MSR := 0xFEE00000 ]}
    (mkApicGlobals 0xFEE00000 0x4000 [true; false] [(0x4000, 0xFEE00000)]) demo_timer = Done (ms', g', h') /\
  s_lapics g' !! 1%nat = Some true /\ irqs_on h' = true.
Proof.
  destruct (ap_timer_started (D := demo_clock) 2000 1000 1 0x5000 {[ IA32_APIC_BASE_MSR := 0xFEE00000 ]}
    (mkApicGlobals 0xFEE00000 0x4000 [true; false] [(0x4000, 0xFEE00000)]) demo_timer 0xFEE00000)
    as (ms' & g' & h' & ticks & sp & E & Hl & _ & _ & _ & Hi & _);
    [reflexivity|reflexivity|unfold is_u64; lia|lia|vm_compute; reflexivity|apply Nat.ltb_lt; vm_compute; reflexivity|].
  exists ms', g', h'. split; [exact E|]. split; [exact Hl|exact Hi].
Defined.
