(* ===== verification/KDisplay.v ===== *)
(** * The display (kernel/src/graphics/kdisplay.h, kdisplay.cpp)

    The back buffer and the framebuffer are maps from the index of a pixel to its colour; an
    index outside them is a fault.  A row copy is the block read and write of the memory
    file on such a map, a pixel being four bytes.  Arithmetic on 32-bit coordinates wraps
    where the code's does.  [initialize], which also changes page table entries, is in
    [DeviceMaps]. *)
From Stdlib Require Import ZArith Lia.
From stdpp Require Import base tactics numbers option list gmap.
From S2P Require Import Prelude Memory.

Definition CHAR_PIXEL_WIDTH : Z := 8.
Definition BACKGROUND : Z := 0xA0A0A0A.

(** [s_framebuffer.width] and [height] are those of the display; a scan line may be longer. *)
Record Framebuffer := mkFramebuffer { fb_width : Z; fb_height : Z; pixelsPerScanline : Z }.

(** The height of a character and the glyph rows, one byte each. *)
Record Psf1Font := mkFont { charSize : Z; glyphBuffer : list Z }.

Record Display := mkDisplay {
  s_displayWidth : Z; s_displayHeight : Z;
  s_framebuffer : Framebuffer;
  s_font : Psf1Font;
  s_backBuffer : gmap Z Z;
  front : gmap Z Z }.

Definition with_back (d : Display) (b : gmap Z Z) : Display :=
  mkDisplay (s_displayWidth d) (s_displayHeight d) (s_framebuffer d) (s_font d) b (front d).
Definition with_front (d : Display) (f : gmap Z Z) : Display :=
  mkDisplay (s_displayWidth d) (s_displayHeight d) (s_framebuffer d) (s_font d) (s_backBuffer d) f.

Definition fillPixel (d : Display) (x y color : Z) : outcome Display :=
  let i := x + u32 (y * s_displayWidth d) in
  _ ← need (s_backBuffer d !! i);
  Done (with_back d (<[i := color]> (s_backBuffer d))).

(** [memcpy] of a row of [n] pixels inside the back buffer. *)
Definition copy_row (d : Display) (dst src : Z) (n : nat) : outcome Display :=
  row ← need (read_bytes (s_backBuffer d) src n);
  b ← need (write_bytes (s_backBuffer d) dst row);
  Done (with_back d b).

(** Every line moves up by the height of a character, and the last ones are cleared. *)
Definition scroll (d : Display) (h : Z) : outcome Display :=
  d ← for_each (fun d offy =>
        copy_row d ((offy - h) * s_displayWidth d) (offy * s_displayWidth d) (Z.to_nat (s_displayWidth d)))
      (seqZ h (s_displayHeight d - h)) d;
  for_each (fun d offy => for_each (fun d offx => fillPixel d offx offy BACKGROUND)
                            (seqZ 0 (fb_width (s_framebuffer d))) d)
    (seqZ (u32 (s_displayHeight d - h)) (s_displayHeight d - u32 (s_displayHeight d - h))) d.

Definition clear_slot (d : Display) (x y h : Z) : outcome Display :=
  for_each (fun d yOffset => for_each (fun d xOffset => fillPixel d xOffset yOffset BACKGROUND)
                               (seqZ x (u32 (x + CHAR_PIXEL_WIDTH) - x)) d)
    (seqZ y (u32 (y + h) - y)) d.

(** A bit of the glyph row, the leftmost pixel first. *)
Definition glyph_bit (row i : Z) : bool := 0 <? Z.land row (Z.shiftr 0x80 i).

Definition draw_glyph (d : Display) (fontBuffer x y h color : Z) : outcome Display :=
  for_each (fun d yOffset =>
      row ← need (glyphBuffer (s_font d) !! Z.to_nat (fontBuffer + (yOffset - y)));
      for_each (fun d xOffset =>
          if glyph_bit row (xOffset - x) then fillPixel d xOffset yOffset color else Done d)
        (seqZ x (u32 (x + CHAR_PIXEL_WIDTH) - x)) d)
    (seqZ y (u32 (y + h) - y)) d.

(** [chr] is a signed character; the glyph of a negative one is outside the font.  Returns
    the display and the new [y], which is a reference in the code. *)
Definition renderTextGlyph (d : Display) (chr x y color : Z) : outcome (Display * Z) :=
  let h := charSize (s_font d) in
  let fontBuffer := chr * h in
  if chr <? 0 then Fault
  else
    '(d, y) ← (if s_displayHeight d <? u32 (y + h)
               then d ← scroll d h; Done (d, u32 (y - h))
               else Done (d, y));
    d ← clear_slot d x y h;
    d ← draw_glyph d fontBuffer x y h color;
    Done (d, y).

(** [iflag] is the interrupt flag; it is off while the rows are copied and restored after. *)
Definition swapBuffers (d : Display) (iflag : bool) : outcome (Display * bool) :=
  let initialIrqFlag := iflag in
  let iflag := if initialIrqFlag then false else iflag in
  d ← for_each (fun d i =>
        row ← need (read_bytes (s_backBuffer d) (i * s_displayWidth d) (Z.to_nat (s_displayWidth d)));
        f ← need (write_bytes (front d) (i * pixelsPerScanline (s_framebuffer d)) row);
        Done (with_front d f))
      (seqZ 0 (s_displayHeight d)) d;
  Done (d, if initialIrqFlag then true else iflag).

Definition drawRectangle (d : Display) (x y width height color : Z) : outcome Display :=
  let fb := s_framebuffer d in
  if (fb_width fb <? u32 (x + width)) || (fb_height fb <? u32 (y + height)) then Done d
  else
    let tempRow := replicate (Z.to_nat width) color in
    for_each (fun d row =>
        f ← need (write_bytes (front d) (u32 (row * pixelsPerScanline fb) + x) tempRow);
        Done (with_front d f))
      (seqZ y (u32 (y + height) - y)) d.

(** ** Screens

    [screen W H f d]: the back buffer of [d] has a pixel for every point of a [W] by [H]
    display, whose indices fit 32 bits; [f] is its font. *)
Record screen (W H : Z) (f : Psf1Font) (fr : gmap Z Z) (fb : Framebuffer) (d : Display) : Prop := {
  sc_width : s_displayWidth d = W;
  sc_height : s_displayHeight d = H;
  sc_font : s_font d = f;
  sc_front : front d = fr;
  sc_fb : s_framebuffer d = fb;
  sc_fbw : fb_width fb = W;
  sc_dims : 0 < W /\ 0 < H /\ W * H < 0x100000000;
  sc_back : mapped (s_backBuffer d) 0 (W * H) }.

Definition pixel (d : Display) (i j : Z) : option Z := s_backBuffer d !! (i + j * s_displayWidth d).
Definition inside (W H i j : Z) : Prop := 0 <= i < W /\ 0 <= j < H.

Lemma pixel_index W H i j : 0 < W -> inside W H i j -> 0 <= i + j * W < W * H.
Proof. intros HW [Hi Hj]. nia. Qed.

Lemma pixel_inj W H i j i' j' : 0 < W -> inside W H i j -> inside W H i' j' ->
  i + j * W = i' + j' * W -> i = i' /\ j = j'.
Proof. intros HW [Hi Hj] [Hi' Hj'] E. assert (j = j') by nia. subst. split; lia. Qed.

Section screens.
Context (W H : Z) (f : Psf1Font) (fr : gmap Z Z) (fb : Framebuffer).
Abbreviation ok := (screen W H f fr fb).

(** [paints P C d d']: the points of [P] have the colours of [C], the others are kept. *)
Definition paints (P : Z -> Z -> bool) (C : Z -> Z -> Z) (d d' : Display) : Prop :=
  ok d' /\ forall i j, inside W H i j -> pixel d' i j = if P i j then Some (C i j) else pixel d i j.

Lemma fillPixel_paints d x y c : ok d -> inside W H x y ->
  exists d', fillPixel d x y c = Done d' /\ paints (fun i j => (i =? x) && (j =? y)) (fun _ _ => c) d d'.
Proof.
  intros Hd Hin. pose proof (sc_dims _ _ _ _ _ _ Hd) as (HW & HH & Hlt).
  pose proof (pixel_index W H x y HW Hin) as Hidx. destruct Hin as [Hx Hy].
  unfold fillPixel. rewrite (sc_width _ _ _ _ _ _ Hd), (u32_small (y * W)) by (unfold is_u32; nia).
  destruct (sc_back _ _ _ _ _ _ Hd (x + y * W)) as [v Hv]; [lia|]. rewrite Hv. cbn [mbind outcome_bind need].
  eexists. split; [reflexivity|]. split.
  - destruct Hd. split; try done. intros b Hb. cbn [with_back s_backBuffer].
    destruct (decide (x + y * W = b)) as [->|Hn]; [rewrite lookup_insert_eq; eauto|].
    rewrite lookup_insert_ne by done. by apply sc_back0.
  - intros i j Hij. unfold pixel. cbn [with_back s_backBuffer s_displayWidth]. rewrite (sc_width _ _ _ _ _ _ Hd).
    destruct (Z.eqb_spec i x) as [Hi|Hi]; destruct (Z.eqb_spec j y) as [Hj|Hj]; cbn [andb];
      [rewrite Hi, Hj; apply lookup_insert_eq|..];
      (apply lookup_insert_ne; intros E; apply (pixel_inj W H) in E; [destruct E; congruence|done|by split|done]).
Qed.

(** Painting in a loop: the areas unite. *)
Lemma for_each_paints {A} (g : Display -> A -> outcome Display) (P : A -> Z -> Z -> bool) C l :
  (forall a d, a ∈ l -> ok d -> exists d', g d a = Done d' /\ paints (P a) C d d') ->
  forall d, ok d -> exists d', for_each g l d = Done d' /\ paints (fun i j => existsb (fun a => P a i j) l) C d d'.
Proof.
  induction l as [|a l IH]; intros Hg d Hd; cbn [for_each existsb].
  - exists d. split; [done|]. by split.
  - destruct (Hg a d ltac:(left) Hd) as (d1 & -> & Hd1 & E1). cbn [mbind outcome_bind].
    destruct (IH ltac:(intros; apply Hg; [by right|done]) d1 Hd1) as (d2 & -> & Hd2 & E2).
    exists d2. split; [done|]. split; [done|]. intros i j Hij. rewrite E2, E1 by done.
    destruct (P a i j), (existsb _ l); done.
Qed.

Lemma paints_ext P P' C d d' : (forall i j, inside W H i j -> P i j = P' i j) -> paints P C d d' -> paints P' C d d'.
Proof. intros He [H1 H2]. split; [done|]. intros i j Hij. rewrite H2, He by done. done. Qed.

Lemma existsb_seqZ (p : Z -> bool) k i a n : 0 <= n -> (forall b, p b = (i =? b) && k) ->
  existsb p (seqZ a n) = ((a <=? i) && (i <? a + n)) && k.
Proof.
  intros Hn Hp. apply eq_true_iff_eq. rewrite existsb_exists, !andb_true_iff, Z.leb_le, Z.ltb_lt. split.
  - intros (b & Hb & Hpb). rewrite Hp, andb_true_iff, Z.eqb_eq in Hpb. destruct Hpb as [-> Hk].
    apply list_elem_of_In, elem_of_seqZ in Hb. split; [lia|done].
  - intros [Hi Hk]. exists i. split; [apply list_elem_of_In, elem_of_seqZ; lia|]. by rewrite Hp, Z.eqb_refl.
Qed.

(** A row of one colour, restricted to the points where [bit] holds. *)
Lemma fill_row_paints (bit : Z -> bool) d x y n c : ok d -> 0 <= n -> 0 <= x -> x + n <= W -> 0 <= y < H ->
  exists d', for_each (fun d i => if bit i then fillPixel d i y c else Done d) (seqZ x n) d = Done d' /\
    paints (fun i j => (j =? y) && ((x <=? i) && (i <? x + n)) && bit i) (fun _ _ => c) d d'.
Proof.
  intros Hd Hn Hx Hxn Hy.
  destruct (for_each_paints (fun d i => if bit i then fillPixel d i y c else Done d)
    (fun a i j => (i =? a) && ((j =? y) && bit i)) (fun _ _ => c) (seqZ x n)) with (d := d) as (d' & E & Hp); [|done|].
  - intros a d0 Ha Hd0. apply elem_of_seqZ in Ha. destruct (bit a) eqn:Eb.
    + destruct (fillPixel_paints d0 a y c Hd0) as (d1 & E1 & Hp1); [split; lia|]. exists d1. split; [done|].
      eapply paints_ext; [|exact Hp1]. intros i j _. cbv beta. destruct (Z.eqb_spec i a) as [->|]; [|done]. by rewrite Eb, andb_true_r.
    + exists d0. split; [done|]. split; [done|]. intros i j _. destruct (Z.eqb_spec i a) as [->|]; [|done].
      by rewrite Eb, andb_false_r.
  - exists d'. split; [done|]. eapply paints_ext; [|exact Hp]. intros i j _. cbv beta.
    rewrite (existsb_seqZ _ ((j =? y) && bit i) i) by (done || intros; done).
    destruct (j =? y), (bit i), ((x <=? i) && (i <? x + n)); done.
Qed.

(** A block of rows. *)
Lemma fill_block_paints (bit : Z -> Z -> bool) (g : Display -> Z -> outcome Display) d x y w n c :
  ok d -> 0 <= n -> 0 <= w -> 0 <= x -> x + w <= W -> 0 <= y -> y + n <= H ->
  (forall d j, ok d -> y <= j < y + n ->
     g d j = for_each (fun d i => if bit i j then fillPixel d i j c else Done d) (seqZ x w) d) ->
  exists d', for_each g (seqZ y n) d = Done d' /\
    paints (fun i j => (y <=? j) && (j <? y + n) && ((x <=? i) && (i <? x + w)) && bit i j) (fun _ _ => c) d d'.
Proof.
  intros Hd Hn Hw Hx Hxw Hy Hyn Hg.
  destruct (for_each_paints g (fun a i j => (j =? a) && (((x <=? i) && (i <? x + w)) && bit i j)) (fun _ _ => c) (seqZ y n))
    with (d := d) as (d' & E & Hp); [|done|].
  - intros a d0 Ha Hd0. apply elem_of_seqZ in Ha. rewrite Hg by (done || lia).
    destruct (fill_row_paints (fun i => bit i a) d0 x a w c) as (d1 & E1 & Hp1); try (done || lia).
    exists d1. split; [done|]. eapply paints_ext; [|exact Hp1]. intros i j _. cbv beta.
    destruct (Z.eqb_spec j a) as [->|]; [|done]. by rewrite andb_assoc.
  - exists d'. split; [done|]. eapply paints_ext; [|exact Hp]. intros i j _. cbv beta.
    rewrite (existsb_seqZ _ (((x <=? i) && (i <? x + w)) && bit i j) j) by (done || intros; done).
    by rewrite andb_assoc.
Qed.

Lemma clear_slot_paints d x y h : ok d -> 0 <= h -> 0 <= x -> x + 8 <= W -> 0 <= y -> y + h <= H ->
  exists d', clear_slot d x y h = Done d' /\
    paints (fun i j => (y <=? j) && (j <? y + h) && ((x <=? i) && (i <? x + 8))) (fun _ _ => BACKGROUND) d d'.
Proof.
  intros Hd Hh Hx Hxw Hy Hyh. pose proof (sc_dims _ _ _ _ _ _ Hd) as (HW & HH & Hlt).
  unfold clear_slot, CHAR_PIXEL_WIDTH. rewrite (u32_small (x + 8)), (u32_small (y + h)) by (unfold is_u32; nia).
  replace (x + 8 - x) with 8 by lia. replace (y + h - y) with h by lia.
  destruct (fill_block_paints (fun _ _ => true) (fun d yOffset => for_each (fun d xOffset => fillPixel d xOffset yOffset BACKGROUND) (seqZ x 8) d)
    d x y 8 h BACKGROUND) as (d' & E & Hp); try (done || lia).
  exists d'. split; [done|]. eapply paints_ext; [|exact Hp]. intros i j _. cbv beta. apply andb_true_r.
Qed.

(** The glyph of a character in a PSF font: row [j] is one byte, its most significant bit
    is the leftmost pixel. *)
Definition glyph (chr i j : Z) : bool :=
  Z.testbit (default 0 (glyphBuffer f !! Z.to_nat (chr * charSize f + j))) (7 - i).

Lemma glyph_bit_testbit row i : 0 <= i < 8 -> glyph_bit row i = Z.testbit row (7 - i).
Proof.
  intros Hi. unfold glyph_bit.
  assert (Z.shiftr 0x80 i = 2 ^ (7 - i)) as ->.
  { rewrite Z.shiftr_div_pow2 by lia. change 0x80 with (2 ^ 7). rewrite <- Z.pow_sub_r by lia. done. }
  rewrite land_pow2 by lia.
  destruct (Z.testbit row (7 - i)); [|done]. apply Z.ltb_lt. apply Z.pow_pos_nonneg; lia.
Qed.

Lemma draw_glyph_paints d chr x y c : ok d -> 0 <= charSize f -> 0 <= chr ->
  (chr + 1) * charSize f <= Z.of_nat (length (glyphBuffer f)) ->
  0 <= x -> x + 8 <= W -> 0 <= y -> y + charSize f <= H ->
  exists d', draw_glyph d (chr * charSize f) x y (charSize f) c = Done d' /\
    paints (fun i j => (y <=? j) && (j <? y + charSize f) && ((x <=? i) && (i <? x + 8)) && glyph chr (i - x) (j - y))
      (fun _ _ => c) d d'.
Proof.
  intros Hd Hh Hc Hlen Hx Hxw Hy Hyh. pose proof (sc_dims _ _ _ _ _ _ Hd) as (HW & HH & Hlt).
  unfold draw_glyph, CHAR_PIXEL_WIDTH. rewrite (u32_small (x + 8)), (u32_small (y + charSize f)) by (unfold is_u32; nia).
  replace (x + 8 - x) with 8 by lia. replace (y + charSize f - y) with (charSize f) by lia.
  apply (fill_block_paints (fun i j => glyph chr (i - x) (j - y))); try (done || lia).
  intros d0 j Hd0 Hj. cbv beta. rewrite (sc_font _ _ _ _ _ _ Hd0). unfold glyph.
  destruct (lookup_lt_is_Some_2 (glyphBuffer f) (Z.to_nat (chr * charSize f + (j - y)))) as [row ->]; [nia|].
  cbn [need mbind outcome_bind default]. apply for_each_ext. intros i d1 Hi%elem_of_seqZ.
  by rewrite glyph_bit_testbit by lia.
Qed.

(** Copying one row. *)
Lemma copy_row_spec d jd js : ok d -> 0 <= jd < H -> 0 <= js < H ->
  exists d', copy_row d (jd * W) (js * W) (Z.to_nat W) = Done d' /\ ok d' /\
    forall i j, inside W H i j -> pixel d' i j = if j =? jd then pixel d i js else pixel d i j.
Proof.
  intros Hd Hjd Hjs. pose proof (sc_dims _ _ _ _ _ _ Hd) as (HW & HH & Hlt).
  destruct (mapped_read (s_backBuffer d) (js * W) (Z.to_nat W)) as (row & Er & Hl).
  { eapply mapped_sub; [exact (sc_back _ _ _ _ _ _ Hd)|nia|nia]. }
  unfold copy_row. rewrite Er. cbn [mbind outcome_bind need].
  rewrite write_bytes_mapped by (eapply mapped_sub; [exact (sc_back _ _ _ _ _ _ Hd)|nia|rewrite Hl; nia]).
  cbn [mbind outcome_bind need]. eexists. split; [reflexivity|]. split.
  - destruct Hd. split; try done. cbn. by apply put_bytes_mapped.
  - intros i j [Hi Hj]. unfold pixel. cbn [with_back s_backBuffer s_displayWidth]. rewrite (sc_width _ _ _ _ _ _ Hd).
    rewrite lookup_put_bytes, Hl. destruct (Z.eqb_spec j jd) as [->|Hn].
    + rewrite decide_True by lia. rewrite (read_bytes_lookup _ _ _ _ (Z.to_nat (i + jd * W - jd * W)) Er) by lia.
      f_equal. lia.
    + rewrite decide_False by nia. done.
Qed.

Lemma copy_rows_spec h n : 0 < h -> forall k d, ok d -> h <= k -> k + Z.of_nat n <= H ->
  exists d', for_each (fun d offy => copy_row d ((offy - h) * s_displayWidth d) (offy * s_displayWidth d) (Z.to_nat (s_displayWidth d)))
      (seqZ k (Z.of_nat n)) d = Done d' /\ ok d' /\
    forall i j, inside W H i j ->
      pixel d' i j = if (k - h <=? j) && (j <? k - h + Z.of_nat n) then pixel d i (j + h) else pixel d i j.
Proof.
  intros Hh. induction n as [|n IH]; intros k d Hd Hk Hkn.
  - exists d. change (seqZ k (Z.of_nat 0)) with (@nil Z). split; [done|]. split; [done|]. intros i j _.
    destruct (Z.leb_spec (k - h) j), (Z.ltb_spec j (k - h + Z.of_nat 0)); (lia || done).
  - rewrite seqZ_cons by lia. replace (Z.pred (Z.of_nat (S n))) with (Z.of_nat n) by lia. cbn [for_each].
    destruct (copy_row_spec d (k - h) k Hd) as (d1 & E1 & Hd1 & P1); [lia|lia|].
    rewrite (sc_width _ _ _ _ _ _ Hd), E1. cbn [mbind outcome_bind].
    destruct (IH (Z.succ k) d1 Hd1) as (d2 & -> & Hd2 & P2); [lia|lia|].
    exists d2. split; [done|]. split; [done|]. intros i j [Hi Hj]. rewrite P2 by done.
    destruct (Z.leb_spec (Z.succ k - h) j), (Z.ltb_spec j (Z.succ k - h + Z.of_nat n)); cbn [andb].
    + rewrite P1 by (split; lia). destruct (Z.eqb_spec (j + h) (k - h)); [lia|].
      destruct (Z.leb_spec (k - h) j), (Z.ltb_spec j (k - h + Z.of_nat (S n))); (lia || done).
    + rewrite P1 by done. destruct (Z.eqb_spec j (k - h)); [lia|].
      destruct (Z.leb_spec (k - h) j), (Z.ltb_spec j (k - h + Z.of_nat (S n))); (lia || done).
    + rewrite P1 by done. destruct (Z.eqb_spec j (k - h)) as [->|].
      * destruct (Z.leb_spec (k - h) (k - h)), (Z.ltb_spec (k - h) (k - h + Z.of_nat (S n))); try lia.
        cbn [andb]. f_equal. lia.
      * destruct (Z.leb_spec (k - h) j), (Z.ltb_spec j (k - h + Z.of_nat (S n))); (lia || done).
    + rewrite P1 by done. destruct (Z.eqb_spec j (k - h)); [lia|].
      destruct (Z.leb_spec (k - h) j), (Z.ltb_spec j (k - h + Z.of_nat (S n))); (lia || done).
Qed.

Lemma scroll_spec d h : ok d -> 0 < h <= H ->
  exists d', scroll d h = Done d' /\ ok d' /\
    forall i j, inside W H i j -> pixel d' i j = if j <? H - h then pixel d i (j + h) else Some BACKGROUND.
Proof.
  intros Hd Hh. pose proof (sc_dims _ _ _ _ _ _ Hd) as (HW & HH & Hlt). unfold scroll.
  rewrite (sc_height _ _ _ _ _ _ Hd).
  assert (seqZ h (H - h) = seqZ h (Z.of_nat (Z.to_nat (H - h)))) as -> by (f_equal; lia).
  destruct (copy_rows_spec h (Z.to_nat (H - h)) ltac:(lia) h d Hd) as (d1 & -> & Hd1 & P1); [lia|lia|].
  cbn [mbind outcome_bind]. rewrite (sc_height _ _ _ _ _ _ Hd1), (u32_small (H - h)) by (unfold is_u32; nia).
  replace (H - (H - h)) with h by lia.
  destruct (fill_block_paints (fun _ _ => true)
    (fun d offy => for_each (fun d offx => fillPixel d offx offy BACKGROUND) (seqZ 0 (fb_width (s_framebuffer d))) d)
    d1 0 (H - h) W h BACKGROUND) as (d2 & -> & Hd2 & P2); try (done || lia).
  { intros d0 j Hd0 _. by rewrite (sc_fb _ _ _ _ _ _ Hd0), (sc_fbw _ _ _ _ _ _ Hd0). }
  exists d2. split; [done|]. split; [done|]. intros i j [Hi Hj]. rewrite P2, P1 by done.
  rewrite (proj2 (Z.leb_le 0 i)), (proj2 (Z.ltb_lt i (0 + W))) by lia.
  destruct (Z.leb_spec (H - h) j), (Z.ltb_spec j (H - h + h)), (Z.ltb_spec j (H - h)); try lia; cbn [andb]; [done|].
  destruct (Z.leb_spec (h - h) j), (Z.ltb_spec j (h - h + Z.of_nat (Z.to_nat (H - h)))); (lia || done).
Qed.

(** The picture after a character is drawn at [(x, y)]. *)
Definition glyph_picture (chr x y c : Z) (before : Z -> Z -> option Z) (i j : Z) : option Z :=
  if (y <=? j) && (j <? y + charSize f) && ((x <=? i) && (i <? x + 8))
  then Some (if glyph chr (i - x) (j - y) then c else BACKGROUND)
  else before i j.

Definition scrolled_picture (before : Z -> Z -> option Z) (i j : Z) : option Z :=
  if j <? H - charSize f then before i (j + charSize f) else Some BACKGROUND.

(** The font has the glyph. *)
Definition has_glyph (chr : Z) : Prop :=
  0 <= chr /\ (chr + 1) * charSize f <= Z.of_nat (length (glyphBuffer f)).

Lemma render_run d chr x y c : ok d -> 0 < charSize f -> 2 * charSize f <= H -> has_glyph chr ->
  0 <= x -> x + 8 <= W -> 0 <= y <= H ->
  let up := H <? y + charSize f in
  let y' := if up then y - charSize f else y in
  exists d', renderTextGlyph d chr x y c = Done (d', y') /\ ok d' /\ y' + charSize f <= H /\
    forall i j, inside W H i j -> pixel d' i j =
      glyph_picture chr x y' c (if up then scrolled_picture (pixel d) else pixel d) i j.
Proof.
  intros Hd Hh H2 [Hc Hlen] Hx Hxw Hy up y'. pose proof (sc_dims _ _ _ _ _ _ Hd) as (HW & HH & Hlt).
  unfold renderTextGlyph. rewrite (sc_font _ _ _ _ _ _ Hd), (sc_height _ _ _ _ _ _ Hd).
  rewrite (proj2 (Z.ltb_ge chr 0)) by lia. rewrite (u32_small (y + charSize f)) by (unfold is_u32; nia). fold up.
  assert (exists d1, (if up then d ← scroll d (charSize f); Done (d, u32 (y - charSize f)) else Done (d, y)) = Done (d1, y') /\
    ok d1 /\ 0 <= y' /\ y' + charSize f <= H /\ forall i j, inside W H i j -> pixel d1 i j =
      (if up then scrolled_picture (pixel d) else pixel d) i j) as (d1 & -> & Hd1 & Hy0 & Hy' & P1).
  { unfold y', up. destruct (Z.ltb_spec H (y + charSize f)).
    - destruct (scroll_spec d (charSize f) Hd) as (d1 & -> & Hd1 & P1); [lia|]. exists d1. cbn [mbind outcome_bind].
      rewrite (u32_small (y - charSize f)) by (unfold is_u32; nia). split; [done|]. split; [done|]. split; [lia|]. split; [lia|done].
    - exists d. split; [done|]. split; [done|]. split; [lia|]. split; [lia|done]. }
  cbn [mbind outcome_bind].
  destruct (clear_slot_paints d1 x y' (charSize f)) as (d2 & -> & Hd2 & P2); try (done || lia). cbn [mbind outcome_bind].
  destruct (draw_glyph_paints d2 chr x y' c) as (d3 & -> & Hd3 & P3); try (done || lia). cbn [mbind outcome_bind].
  exists d3. split; [done|]. split; [done|]. split; [done|]. intros i j Hij.
  rewrite P3, P2, P1 by done. unfold glyph_picture.
  destruct ((y' <=? j) && (j <? y' + charSize f) && ((x <=? i) && (i <? x + 8))); cbn [andb]; [|done].
  destruct (glyph chr (i - x) (j - y')); done.
Qed.

(** C30 (functional): on a screen at least two characters high, drawing a character whose slot starts
    inside the screen returns, with every pixel access inside the back buffer; a slot that
    would cross the lower edge first moves the whole picture up by one character and clears
    the last lines; then exactly the eight columns and charSize rows of the slot change,
    to the colour where the glyph has a bit and to the background elsewhere. *)
Theorem renderTextGlyph_picture d chr x y c : ok d -> 0 < charSize f -> 2 * charSize f <= H -> has_glyph chr ->
  0 <= x -> x + 8 <= W -> 0 <= y <= H ->
  let up := H <? y + charSize f in
  let y' := if up then y - charSize f else y in
  exists d', renderTextGlyph d chr x y c = Done (d', y') /\ ok d' /\ y' + charSize f <= H /\
    forall i j, inside W H i j -> pixel d' i j =
      glyph_picture chr x y' c (if up then scrolled_picture (pixel d) else pixel d) i j.
Proof. exact (render_run d chr x y c). Qed.
End screens.

(** ** The area of the back buffer *)
Definition same_area (d d' : Display) : Prop := dom (s_backBuffer d') = dom (s_backBuffer d).

#[export] Instance same_area_preorder : PreOrder same_area.
Proof. split; [by intros d|]. intros a b c H1 H2. unfold same_area in *. congruence. Qed.

Lemma fillPixel_area d x y c d' : fillPixel d x y c = Done d' -> same_area d d'.
Proof.
  unfold fillPixel. destruct (s_backBuffer d !! _) eqn:E; cbn [mbind outcome_bind need]; [|done].
  intros [= <-]. unfold same_area. cbn. apply dom_insert_lookup_L. eauto.
Qed.

Lemma write_bytes_dom m a bs m' : write_bytes m a bs = Some m' -> dom m' = dom m.
Proof.
  revert m a. induction bs as [|b bs IH]; intros m a; cbn [write_bytes]; [by intros [= <-]|].
  destruct (m !! a) eqn:E; [|done]. intros Hw. rewrite (IH _ _ Hw). apply dom_insert_lookup_L. eauto.
Qed.

Lemma copy_row_area d x y n d' : copy_row d x y n = Done d' -> same_area d d'.
Proof.
  unfold copy_row. destruct (read_bytes _ _ _); cbn [mbind outcome_bind need]; [|done].
  destruct (write_bytes _ _ _) eqn:E; cbn [mbind outcome_bind need]; [|done].
  intros [= <-]. unfold same_area. cbn. by eapply write_bytes_dom.
Qed.

Lemma scroll_area d h d' : scroll d h = Done d' -> same_area d d'.
Proof.
  unfold scroll. intros E. apply bind_inv in E as (d1 & E1 & E2).
  etransitivity; [eapply (for_each_keeps same_area); [|exact E1]|eapply (for_each_keeps same_area); [|exact E2]].
  - intros a s s' _ E. eapply copy_row_area; exact E.
  - intros a s s' _ E. eapply (for_each_keeps same_area); [|exact E]. intros ? ? ? _ Ef. eapply fillPixel_area; exact Ef.
Qed.

Lemma clear_slot_area d x y h d' : clear_slot d x y h = Done d' -> same_area d d'.
Proof.
  unfold clear_slot. intros E. eapply (for_each_keeps same_area); [|exact E]. intros a s s' _ E1.
  eapply (for_each_keeps same_area); [|exact E1]. intros ? ? ? _ Ef. eapply fillPixel_area; exact Ef.
Qed.

Lemma draw_glyph_area d o x y h c d' : draw_glyph d o x y h c = Done d' -> same_area d d'.
Proof.
  unfold draw_glyph. intros E. eapply (for_each_keeps same_area); [|exact E]. intros a s s' _ E1.
  apply bind_inv in E1 as (row & _ & E1). eapply (for_each_keeps same_area); [|exact E1]. intros b s1 s2 _ Ef.
  cbv beta in Ef. destruct (glyph_bit row (b - x)); [eapply fillPixel_area; exact Ef|by injection Ef as <-].
Qed.

Lemma render_area d chr x y c d' y' : renderTextGlyph d chr x y c = Done (d', y') -> same_area d d'.
Proof.
  unfold renderTextGlyph. destruct (chr <? 0); [done|]. intros E. apply bind_inv in E as ([d1 y1] & E1 & E).
  apply bind_inv in E as (d2 & E2 & E). apply bind_inv in E as (d3 & E3 & E). injection E as <- <-.
  assert (same_area d d1) as H1.
  { destruct (_ <? _); [apply bind_inv in E1 as (d0 & Es & [= <- <-]); by eapply scroll_area|by injection E1 as <- <-]. }
  etransitivity; [exact H1|]. etransitivity; [by eapply clear_slot_area|by eapply draw_glyph_area].
Qed.

(** The back buffer has no pixel behind the last row. *)
Definition exact_area (W H : Z) (d : Display) : Prop := forall a, W * H <= a -> s_backBuffer d !! a = None.

Lemma exact_area_same W H d d' : same_area d d' -> exact_area W H d -> exact_area W H d'.
Proof. intros Hs He a Ha. apply not_elem_of_dom. rewrite Hs. apply not_elem_of_dom. by apply He. Qed.

(** A slot that crosses the lower edge is cleared past the end of the buffer. *)
Lemma clear_slot_overrun W H f fr fb d x y h : screen W H f fr fb d -> exact_area W H d ->
  0 <= x -> x + 8 <= W -> 0 <= y <= H -> H < y + h -> (y + h) * W < 0x100000000 -> clear_slot d x y h = Fault.
Proof.
  intros Hd He Hx Hxw Hy Hyh Hlt. pose proof (sc_dims _ _ _ _ _ _ Hd) as (HW & HH & _).
  unfold clear_slot, CHAR_PIXEL_WIDTH. rewrite (u32_small (x + 8)), (u32_small (y + h)) by (unfold is_u32; nia).
  replace (x + 8 - x) with 8 by lia. replace (y + h - y) with ((H - y) + (y + h - H)) by lia.
  rewrite seqZ_app by lia. rewrite for_each_app. replace (y + (H - y)) with H by lia.
  destruct (fill_block_paints W H f fr fb (fun _ _ => true)
    (fun d yOffset => for_each (fun d xOffset => fillPixel d xOffset yOffset BACKGROUND) (seqZ x 8) d)
    d x y 8 (H - y) BACKGROUND) as (d1 & E1 & Hd1 & _); try (done || lia).
  rewrite E1. cbn [mbind outcome_bind].
  assert (exact_area W H d1) as He1.
  { eapply exact_area_same; [|exact He]. eapply (for_each_keeps same_area); [|exact E1]. intros a s s' _ Ea.
    eapply (for_each_keeps same_area); [|exact Ea]. intros ? ? ? _ Ef. eapply fillPixel_area; exact Ef. }
  rewrite (seqZ_cons H) by lia. cbn [for_each]. rewrite (seqZ_cons x) by lia. cbn [for_each].
  assert (fillPixel d1 x H BACKGROUND = Fault) as ->; [|done].
  unfold fillPixel. rewrite (sc_width _ _ _ _ _ _ Hd1), (u32_small (H * W)) by (unfold is_u32; nia).
  by rewrite He1 by nia.
Qed.

(** ** The framebuffer *)

(** A framebuffer whose scan lines hold the display's width, all in memory, with indices of
    32 bits. *)
Record framebuffer_ok (d : Display) : Prop := {
  fo_width : 0 < fb_width (s_framebuffer d) <= pixelsPerScanline (s_framebuffer d);
  fo_height : 0 < fb_height (s_framebuffer d);
  fo_size : fb_height (s_framebuffer d) * pixelsPerScanline (s_framebuffer d) < 0x100000000;
  fo_front : mapped (front d) 0 (fb_height (s_framebuffer d) * pixelsPerScanline (s_framebuffer d)) }.

Lemma swap_rows d n : forall k, 0 <= k -> k + Z.of_nat n <= s_displayHeight d ->
  0 < s_displayWidth d <= pixelsPerScanline (s_framebuffer d) ->
  mapped (s_backBuffer d) 0 (s_displayWidth d * s_displayHeight d) ->
  forall fr, mapped fr 0 (s_displayHeight d * pixelsPerScanline (s_framebuffer d)) ->
  exists fr', for_each (fun d i =>
      row ← need (read_bytes (s_backBuffer d) (i * s_displayWidth d) (Z.to_nat (s_displayWidth d)));
      f ← need (write_bytes (front d) (i * pixelsPerScanline (s_framebuffer d)) row);
      Done (with_front d f)) (seqZ k (Z.of_nat n)) (with_front d fr) = Done (with_front d fr') /\
    mapped fr' 0 (s_displayHeight d * pixelsPerScanline (s_framebuffer d)) /\
    forall i j, 0 <= i < pixelsPerScanline (s_framebuffer d) -> 0 <= j < s_displayHeight d ->
      fr' !! (i + j * pixelsPerScanline (s_framebuffer d)) =
      if (k <=? j) && (j <? k + Z.of_nat n) && (i <? s_displayWidth d) then pixel d i j
      else fr !! (i + j * pixelsPerScanline (s_framebuffer d)).
Proof.
  induction n as [|n IH]; intros k Hk Hkn HW Hb fr Hf.
  - exists fr. change (seqZ k (Z.of_nat 0)) with (@nil Z). split; [done|]. split; [done|]. intros i j _ _.
    destruct (Z.leb_spec k j), (Z.ltb_spec j (k + Z.of_nat 0)); (lia || done).
  - rewrite seqZ_cons by lia. replace (Z.pred (Z.of_nat (S n))) with (Z.of_nat n) by lia. cbn [for_each].
    set (W := s_displayWidth d) in *. set (P := pixelsPerScanline (s_framebuffer d)) in *. set (HH := s_displayHeight d) in *.
    destruct (mapped_read (s_backBuffer d) (k * W) (Z.to_nat W)) as (row & Er & Hl).
    { eapply mapped_sub; [exact Hb|nia|nia]. }
    cbn [with_front s_backBuffer s_displayWidth front s_framebuffer]. fold W P. rewrite Er. cbn [mbind outcome_bind need].
    rewrite write_bytes_mapped by (eapply mapped_sub; [exact Hf|nia|rewrite Hl; nia]). cbn [mbind outcome_bind need].
    destruct (IH (Z.succ k) ltac:(lia) ltac:(lia) HW Hb (put_bytes fr (k * P) row)) as (fr' & E & Hf' & Pf).
    { by apply put_bytes_mapped. }
    exists fr'. split; [exact E|]. split; [done|]. intros i j Hi Hj. rewrite Pf by done.
    rewrite lookup_put_bytes, Hl.
    destruct (Z.leb_spec (Z.succ k) j), (Z.leb_spec k j); try lia; cbn [andb].
    + destruct (Z.ltb_spec j (Z.succ k + Z.of_nat n)), (Z.ltb_spec j (k + Z.of_nat (S n))); try lia; cbn [andb].
      * destruct (i <? W); [done|]. rewrite decide_False by nia. done.
      * rewrite decide_False by nia. done.
    + assert (j = k) as -> by lia. rewrite (proj2 (Z.ltb_lt k (k + Z.of_nat (S n)))) by lia. cbn [andb].
      destruct (Z.ltb_spec i W).
      * rewrite decide_True by lia. rewrite (read_bytes_lookup _ _ _ _ _ Er) by lia. unfold pixel. fold W. f_equal. lia.
      * rewrite decide_False by lia. done.
    + rewrite decide_False by nia. done.
Qed.

Lemma swap_run d b :
  0 < s_displayWidth d <= pixelsPerScanline (s_framebuffer d) -> 0 <= s_displayHeight d ->
  mapped (s_backBuffer d) 0 (s_displayWidth d * s_displayHeight d) ->
  mapped (front d) 0 (s_displayHeight d * pixelsPerScanline (s_framebuffer d)) ->
  exists fr', swapBuffers d b = Done (with_front d fr', b) /\
    forall i j, 0 <= i < pixelsPerScanline (s_framebuffer d) -> 0 <= j < s_displayHeight d ->
      fr' !! (i + j * pixelsPerScanline (s_framebuffer d)) =
      if i <? s_displayWidth d then pixel d i j else front d !! (i + j * pixelsPerScanline (s_framebuffer d)).
Proof.
  intros HW HH Hb Hf.
  destruct (swap_rows d (Z.to_nat (s_displayHeight d)) 0 ltac:(lia) ltac:(lia) HW Hb (front d) Hf) as (fr' & E & _ & P).
  assert (with_front d (front d) = d) as Ed by (by destruct d). rewrite Ed, Z2Nat.id in E by lia.
  exists fr'. split.
  - unfold swapBuffers. rewrite E. cbn [mbind outcome_bind]. by destruct b.
  - intros i j Hi Hj. rewrite P by done. rewrite (proj2 (Z.leb_le 0 j)), (proj2 (Z.ltb_lt _ _)) by lia. done.
Qed.

(** SwapBuffers copies the picture: the first width pixels of every scan line of
    the framebuffer are those of the back buffer's row, the rest of each line and the back
    buffer are kept, and the interrupt flag is what it was. *)
Theorem swapBuffers_copies d b :
  0 < s_displayWidth d <= pixelsPerScanline (s_framebuffer d) -> 0 <= s_displayHeight d ->
  mapped (s_backBuffer d) 0 (s_displayWidth d * s_displayHeight d) ->
  mapped (front d) 0 (s_displayHeight d * pixelsPerScanline (s_framebuffer d)) ->
  exists fr', swapBuffers d b = Done (with_front d fr', b) /\
    forall i j, 0 <= i < pixelsPerScanline (s_framebuffer d) -> 0 <= j < s_displayHeight d ->
      fr' !! (i + j * pixelsPerScanline (s_framebuffer d)) =
      if i <? s_displayWidth d then pixel d i j else front d !! (i + j * pixelsPerScanline (s_framebuffer d)).
Proof. exact (swap_run d b). Qed.

Lemma rect_rows fb x w c d n : s_framebuffer d = fb -> framebuffer_ok d -> 0 <= x -> 0 <= w -> x + w <= fb_width fb ->
  forall k, 0 <= k -> k + Z.of_nat n <= fb_height fb -> forall fr,
  mapped fr 0 (fb_height fb * pixelsPerScanline fb) ->
  exists fr', for_each (fun d row =>
      f ← need (write_bytes (front d) (u32 (row * pixelsPerScanline fb) + x) (replicate (Z.to_nat w) c));
      Done (with_front d f)) (seqZ k (Z.of_nat n)) (with_front d fr) = Done (with_front d fr') /\
    forall i j, 0 <= i < pixelsPerScanline fb -> 0 <= j < fb_height fb ->
      fr' !! (i + j * pixelsPerScanline fb) =
      if (k <=? j) && (j <? k + Z.of_nat n) && ((x <=? i) && (i <? x + w)) then Some c
      else fr !! (i + j * pixelsPerScanline fb).
Proof.
  intros Efb [Hw Hh Hs _] Hx Hww Hxw. rewrite Efb in *. set (P := pixelsPerScanline fb) in *.
  induction n as [|n IH]; intros k Hk Hkn fr Hf.
  - exists fr. change (seqZ k (Z.of_nat 0)) with (@nil Z). split; [done|]. intros i j _ _.
    destruct (Z.leb_spec k j), (Z.ltb_spec j (k + Z.of_nat 0)); (lia || done).
  - rewrite seqZ_cons by lia. replace (Z.pred (Z.of_nat (S n))) with (Z.of_nat n) by lia. cbn [for_each].
    cbn [with_front front]. rewrite (u32_small (k * P)) by (unfold is_u32; nia).
    rewrite write_bytes_mapped by (eapply mapped_sub; [exact Hf|nia|rewrite length_replicate; nia]). cbn [mbind outcome_bind need].
    destruct (IH (Z.succ k) ltac:(lia) ltac:(lia) (put_bytes fr (k * P + x) (replicate (Z.to_nat w) c))) as (fr' & E & Pf).
    { by apply put_bytes_mapped. }
    exists fr'. split; [exact E|]. intros i j Hi Hj. rewrite Pf by done. rewrite lookup_put_bytes, length_replicate.
    destruct (Z.leb_spec (Z.succ k) j), (Z.leb_spec k j); try lia; cbn [andb].
    + destruct (Z.ltb_spec j (Z.succ k + Z.of_nat n)), (Z.ltb_spec j (k + Z.of_nat (S n))); try lia; cbn [andb].
      * destruct ((x <=? i) && (i <? x + w)); [done|]. rewrite decide_False by nia. done.
      * rewrite decide_False by nia. done.
    + assert (j = k) as -> by lia. rewrite (proj2 (Z.ltb_lt k (k + Z.of_nat (S n)))) by lia. cbn [andb].
      destruct (Z.leb_spec x i), (Z.ltb_spec i (x + w)); cbn [andb]; try (rewrite decide_False by lia; done).
      rewrite decide_True by lia. apply lookup_replicate_2. lia.
    + rewrite decide_False by nia. done.
Qed.

(** DrawRectangle with coordinates that do not wrap either leaves the framebuffer alone,
    when the rectangle is not inside it, or colours exactly its points; the check adds in
    32 bits, so that a rectangle of width 2 at the last column number passes it, and the
    copy faults behind the end of the framebuffer. *)
Theorem drawRectangle_bounds d x y w h c :
  framebuffer_ok d -> is_u32 x -> is_u32 y -> is_u32 w -> is_u32 h ->
  x + w < 0x100000000 -> y + h < 0x100000000 ->
  let fb := s_framebuffer d in
  (~ (x + w <= fb_width fb /\ y + h <= fb_height fb) -> drawRectangle d x y w h c = Done d) /\
  (x + w <= fb_width fb -> y + h <= fb_height fb ->
   exists fr', drawRectangle d x y w h c = Done (with_front d fr') /\
     forall i j, 0 <= i < pixelsPerScanline fb -> 0 <= j < fb_height fb ->
       fr' !! (i + j * pixelsPerScanline fb) =
       if (y <=? j) && (j <? y + h) && ((x <=? i) && (i <? x + w)) then Some c
       else front d !! (i + j * pixelsPerScanline fb)) /\
  ((forall a, fb_height fb * pixelsPerScanline fb <= a -> front d !! a = None) ->
   drawRectangle d 0xffffffff 0 2 1 c = Fault).
Proof.
  intros Hok Hx Hy Hw Hh Hxw Hyh fb. unfold is_u32 in *. unfold drawRectangle. fold fb.
  rewrite (u32_small (x + w)), (u32_small (y + h)) by (unfold is_u32; lia). split; [|split].
  - intros Hn. destruct (Z.ltb_spec (fb_width fb) (x + w)), (Z.ltb_spec (fb_height fb) (y + h)); (lia || done).
  - intros H1 H2. rewrite (proj2 (Z.ltb_ge _ _)), (proj2 (Z.ltb_ge _ _)) by lia. cbn [orb].
    replace (y + h - y) with (Z.of_nat (Z.to_nat h)) by lia.
    destruct (rect_rows fb x w c d (Z.to_nat h) eq_refl Hok ltac:(lia) ltac:(lia) H1 y ltac:(lia) ltac:(lia) (front d) (fo_front _ Hok))
      as (fr' & E & P). assert (with_front d (front d) = d) as Ed by (by destruct d). rewrite Ed in E.
    exists fr'. split; [exact E|]. intros i j Hi Hj. rewrite P by done. by rewrite Z2Nat.id by lia.
  - intros Hend. destruct Hok as [Hw1 Hh1 Hs1 _]. fold fb in Hw1, Hh1, Hs1.
    change (u32 (0xffffffff + 2)) with 1. change (u32 (0 + 1)) with 1.
    rewrite (proj2 (Z.ltb_ge _ _)), (proj2 (Z.ltb_ge _ _)) by lia. cbn [orb].
    change (seqZ 0 (1 - 0)) with [0]. cbn [for_each].
    assert (write_bytes (front d) (u32 (0 * pixelsPerScanline fb) + 0xffffffff) (replicate (Z.to_nat 2) c) = None) as ->; [|done].
    change (replicate (Z.to_nat 2) c) with [c; c]. rewrite Z.mul_0_l. change (u32 0 + 0xffffffff) with 0xffffffff.
    cbn [write_bytes]. by rewrite (Hend 0xffffffff) by lia.
Qed.

(** ** Witnesses: a display of 16 by 4 pixels with a font of two-row characters *)
Definition demo_font : Psf1Font := mkFont 2 (flat_map (fun c => [Z.of_nat c; 255 - Z.of_nat c]) (seq 0 128)).
Definition demo_pixels (n : nat) : gmap Z Z := put_bytes ∅ 0 (replicate n 7).
Definition demo_display : Display :=
  mkDisplay 16 4 (mkFramebuffer 16 4 20) demo_font (demo_pixels 64) (demo_pixels 80).

Lemma demo_pixels_mapped n : mapped (demo_pixels n) 0 (Z.of_nat n).
Proof.
  intros a Ha. unfold demo_pixels. rewrite lookup_put_bytes, length_replicate, decide_True by lia.
  apply lookup_lt_is_Some. rewrite length_replicate. lia.
Qed.

Lemma demo_screen : screen 16 4 demo_font (demo_pixels 80) (mkFramebuffer 16 4 20) demo_display.
Proof. split; try done. exact (demo_pixels_mapped 64). Qed.

Lemma renderTextGlyph_picture_witness : exists d', renderTextGlyph demo_display 65 8 4 0xff = Done (d', 2) /\
  pixel d' 9 2 = Some 0xff /\ pixel d' 0 0 = Some 7 /\ pixel d' 0 3 = Some BACKGROUND.
Proof.
  destruct (renderTextGlyph_picture 16 4 demo_font (demo_pixels 80) (mkFramebuffer 16 4 20) demo_display 65 8 4 0xff)
    as (d' & E & _ & _ & P); [exact demo_screen|cbn; lia|cbn; lia|split; [lia|vm_compute; discriminate]|lia|lia|lia|].
  exists d'. split; [exact E|]. rewrite !P by (split; lia). split_and!; vm_compute; reflexivity.
Defined.

Lemma swapBuffers_copies_witness : exists fr', swapBuffers demo_display true = Done (with_front demo_display fr', true) /\
  fr' !! (15 + 3 * 20) = Some 7.
Proof.
  destruct (swapBuffers_copies demo_display true) as (fr' & E & P);
    [cbn; lia|cbn; lia|exact (demo_pixels_mapped 64)|exact (demo_pixels_mapped 80)|].
  exists fr'. split; [exact E|]. etransitivity; [apply (P 15 3); cbn; lia|vm_compute; reflexivity].
Defined.

Lemma demo_framebuffer_ok : framebuffer_ok demo_display.
Proof. split; cbn; try lia. exact (demo_pixels_mapped 80). Qed.

Lemma drawRectangle_bounds_witness :
  drawRectangle demo_display 0xffffffff 0 2 1 5 = Fault /\ drawRectangle demo_display 12 0 8 1 5 = Done demo_display.
Proof.
  split.
  - apply (drawRectangle_bounds demo_display 0 0 1 1 5 demo_framebuffer_ok); try (unfold is_u32; lia).
    intros a Ha. cbn in Ha. unfold demo_display. cbn [front]. unfold demo_pixels.
    rewrite lookup_put_bytes, length_replicate, decide_False by lia. apply lookup_empty.
  - apply (drawRectangle_bounds demo_display 12 0 8 1 5 demo_framebuffer_ok); try (unfold is_u32; lia). cbn. lia.
Defined.
