(* ===== verification/DeviceMaps.v ===== *)
(** * Device memory in the page tables
    (kernel/src/graphics/kdisplay.cpp, kernel/src/drivers/usb/xhci.cpp)

    Two drivers change the kernel's page tables themselves: [Display::initialize] marks the
    pages of the framebuffer as write-combining, and [XhciDriver::_mapDeviceMmio] maps the
    registers of the controller at their physical address.  The flushes of the translation
    buffers are left out: the model has no stale translations. *)
From Stdlib Require Import ZArith Lia.
From stdpp Require Import base tactics numbers option list gmap.
From S2P Require Import Prelude PageFrame PageTable Paging BootPaging KDisplay.
Local Open Scope Z_scope.

(** ** The registers of the xHCI controller *)
Definition MMIO_SIZE : Z := 0x20000.

Section mmio.
Context {A} `{FrameSource A} (off : Z).

(** One turn of the loop over [offset]. *)
Definition mmio_body (pciBarAddress root : Z) (x : Z * A * (Z -> Z)) : outcome (Z * A * (Z -> Z) + A * (Z -> Z)) :=
  let '(offset, s, m) := x in
  if offset <? MMIO_SIZE then
    let mmioPage := pciBarAddress ⊞ offset in
    '(s, m) ← mapPage off s m mmioPage mmioPage KERNEL_PAGE PAGE_ATTRIB_CACHE_DISABLED root;
    Done (inl (offset + PAGE_SIZE, s, m))
  else Done (inr (s, m)).

(** Returns the tables and [m_xhcBase]. *)
Definition _mapDeviceMmio (s : A) (m : Z -> Z) (pciBarAddress root : Z) : outcome (A * (Z -> Z) * Z) :=
  '(s, m) ← loop 33 (mmio_body pciBarAddress root) (0, s, m);
  Done (s, m, pciBarAddress).
End mmio.

(** ** The framebuffer *)

(** What the loader passes: the structure of the framebuffer. *)
Record FramebufferInfo := mkFbInfo {
  fbi_base : Z; fbi_size : Z; fbi_width : Z; fbi_height : Z; fbi_pixelsPerScanline : Z }.

(** [memset(p, 0xA, size)] on a buffer of pixels. *)
Definition cleared (size : Z) : gmap Z Z :=
  list_to_map ((fun i => (i, BACKGROUND)) <$> seqZ 0 (size / 4)).

Definition combining_body (off root gopEnd : Z) (x : Z * (Z -> Z)) : outcome (Z * (Z -> Z) + (Z -> Z)) :=
  let '(page, m) := x in
  if page <? gopEnd then
    Done (inl (page ⊞ PAGE_SIZE, update_pte off m page root (fun e => set_pageAccessType e 1)))
  else Done (inr m).

(** The heap has the memory of the back buffer, and the font is the one its header and
    glyph pointers lead to. *)
Definition Display_initialize (off root : Z) (m : Z -> Z) (framebuffer : FramebufferInfo) (font : Psf1Font)
  : outcome (Display * (Z -> Z)) :=
  let gopBase := fbi_base framebuffer in
  let gopSize := fbi_size framebuffer in
  m ← loop (S (steps gopBase (gopBase + gopSize))) (combining_body off root (gopBase ⊞ gopSize)) (gopBase, m);
  Done (mkDisplay (fbi_width framebuffer) (fbi_height framebuffer)
          (mkFramebuffer (fbi_width framebuffer) (fbi_height framebuffer) (fbi_pixelsPerScanline framebuffer))
          font (cleared gopSize) (cleared gopSize), m).

(** ** Changing a present entry *)
Section entries.
Context (off lim : Z) `{BootLayout off lim}.

Lemma update_pte_translate T m root par v e f :
  tree lim T m -> T !! root = Some (4%nat, par) -> translate m root v = Some e -> pte_present (f e) <> 0 ->
  let m' := update_pte off m v (physToVirtAddr off root) f in
  tree lim T m' /\ translate m' root v = Some (f e) /\
  (forall v', vpage v' <> vpage v -> translate m' root v' = translate m root v').
Proof.
  intros HT Hr Ht Hf. pose proof pt_index_range as R. unfold translate, walk in Ht.
  destruct (leaf_addr m root 4 v) as [a|] eqn:La; [|done].
  destruct (pte_present (m a) =? 0) eqn:Ep; [done|]. injection Ht as <-.
  destruct (leaf_addr_level1 _ _ _ HT _ _ _ _ _ Hr La) as (t & par' & Ht1 & ->).
  set (a := entry_addr t (pt_index 1 v)) in *.
  assert (phys off (getPteForAddr off m v (physToVirtAddr off root)) = a) as Ha.
  { rewrite (getPteForAddr_leaf off lim T m root par v HT Hr), La, Ep.
    destruct (tree_range _ _ _ HT _ _ _ Ht1) as (_ & R1 & R2 & _). pose proof (R 1%nat v).
    apply (phys_va off lim). unfold a, entry_addr, PAGE_SIZE in *. lia. }
  unfold update_pte. rewrite Ha. cbv zeta.
  assert (forall v', leaf_addr (wr m a (f (m a))) root 4 v' = leaf_addr m root 4 v') as LW.
  { intros v'. by apply (leaf_write_addr lim T m HT t par' (pt_index 1 v) (f (m a)) v' 4 root par). }
  split_and!.
  - by apply (leaf_write_tree lim T m HT t par').
  - unfold translate, walk. rewrite LW, La. unfold wr. rewrite Z.eqb_refl.
    by destruct (Z.eqb_spec (pte_present (f (m a))) 0).
  - intros v' Hv'. unfold translate, walk. rewrite LW.
    destruct (leaf_addr m root 4 v') as [a'|] eqn:E'; [|done].
    assert (a' <> a) as Hne; [|unfold wr; by destruct (Z.eqb_spec a' a)].
    intros ->. apply Hv'. symmetry. apply indices_vpage.
    intros l Hl. apply (leaf_addr_inj lim T m HT v v' a 4 root root _ _ Hr Hr La E'). lia.
Qed.
End entries.

(** ** The mapping of the registers *)

(** A present, writable, supervisor entry for the frame of [paddr] that is not cached. *)
Definition device_entry (e : option Z) (paddr : Z) : Prop :=
  exists x, e = Some x /\ pte_present x = 1 /\ pte_readWrite x = 1 /\ pte_userSupervisor x = 0 /\
    pte_pageCacheDisabled x = 1 /\ pte_pageFrameNumber x = paddr / 4096 mod 2 ^ 36.

Lemma vpage_low a : 0 <= a < 2 ^ 48 -> vpage a = a / 4096.
Proof.
  intros Ha. change (2 ^ 48) with 281474976710656 in Ha.
  rewrite vpage_aligned by (change (2 ^ 64) with 0x10000000000000000; lia).
  apply Z.mod_small. change (2 ^ 36) with 68719476736. wordlia.
Qed.

(** The tables under [root] form a tree and [n] more frames can be had. *)
Definition tables_room {A} `{FrameSource A} (lim root : Z) (s : A) (m : Z -> Z) (n : nat) : Prop :=
  exists T, tree lim T m /\ (exists par, T !! root = Some (4%nat, par)) /\ fs_inv s (dom T) /\ fs_room s n.

Section mmio_facts.
Context {A} `{FrameSource A} (off lim : Z) `{BootLayout off lim}.
Hypothesis Hlim : fs_limit = lim.
Context (root : Z).

Lemma mapPage_device s m n v p : tables_room lim root s m (S (S (S n))) ->
  exists s' m', mapPage off s m v p KERNEL_PAGE PAGE_ATTRIB_CACHE_DISABLED (physToVirtAddr off root) = Done (s', m') /\
    tables_room lim root s' m' n /\ device_entry (translate m' root v) p /\
    (forall v', vpage v' <> vpage v -> translate m' root v' = translate m root v').
Proof.
  intros (T & HT & (par & Hr) & Hinv & Hroom). rewrite mapPage_generic.
  destruct (tree_range _ _ _ HT _ _ _ Hr) as (_ & R1 & R2 & _).
  destruct (map_generic_ok lim (Hlim48 off lim Hlim) (phys off) (phys_entry off lim) T m s n root
    (physToVirtAddr off root) par v USERSPACE_PAGE (map_leaf p KERNEL_PAGE PAGE_ATTRIB_CACHE_DISABLED))
    as (s' & m' & T' & e & E & H1 & H2 & H3 & H4 & H5 & H6 & _); try done.
  - intros i Hi. by apply (phys_va_entry off lim).
  - intros e. destruct (map_leaf_fields p KERNEL_PAGE PAGE_ATTRIB_CACHE_DISABLED e) as (-> & _). done.
  - exists s', m'. split; [exact E|]. split.
    + exists T'. split_and!; try done. exists par. by eapply lookup_weaken.
    + split; [|done]. exists (map_leaf p KERNEL_PAGE PAGE_ATTRIB_CACHE_DISABLED e).
      destruct (map_leaf_fields p KERNEL_PAGE PAGE_ATTRIB_CACHE_DISABLED e) as (? & ? & ? & ? & _ & _ & ?). done.
Qed.

Lemma mmio_loop bar : 0 <= bar -> bar + MMIO_SIZE <= 2 ^ 48 -> bar mod 4096 = 0 ->
  forall k s m n fuel, (k <= 32)%nat -> (k < fuel)%nat -> tables_room lim root s m (3 * k + n) ->
  forall start, start = MMIO_SIZE - 4096 * Z.of_nat k ->
  exists s' m', loop fuel (mmio_body off bar (physToVirtAddr off root)) (start, s, m) = Done (s', m') /\
    tables_room lim root s' m' n /\
    (forall o, start <= o < MMIO_SIZE -> o mod 4096 = 0 -> device_entry (translate m' root (bar + o)) (bar + o)) /\
    (forall v, ~ (bar + start) / 4096 <= vpage v < (bar + MMIO_SIZE) / 4096 ->
       translate m' root v = translate m root v).
Proof.
  intros Hb Hw Ha. unfold MMIO_SIZE in *. change (2 ^ 48) with 281474976710656 in Hw.
  induction k as [|k IH]; intros s m n fuel Hk Hf Hg start Es; (destruct fuel as [|fuel]; [lia|]);
    cbn [loop]; unfold mmio_body at 1, MMIO_SIZE.
  - exists s, m. rewrite (proj2 (Z.ltb_ge start 131072)) by lia. split_and!; [done|done|intros o Ho; lia|done].
  - rewrite (proj2 (Z.ltb_lt start 131072)) by lia.
    rewrite u64_small by (unfold is_u64; lia).
    destruct (mapPage_device s m (3 * k + n) (bar + start) (bar + start)) as (s1 & m1 & -> & G1 & M1 & U1).
    { by replace (S (S (S (3 * k + n)))) with (3 * S k + n)%nat by lia. }
    cbn [mbind outcome_bind]. change PAGE_SIZE with 4096.
    destruct (IH s1 m1 n fuel ltac:(lia) ltac:(lia) G1 (start + 4096) ltac:(lia)) as (s' & m' & -> & G & M & U).
    exists s', m'. split; [done|]. split; [done|].
    assert (vpage (bar + start) = (bar + start) / 4096) as Hv
      by (apply vpage_low; change (2 ^ 48) with 281474976710656; lia).
    split.
    + intros o Ho Hoa. destruct (decide (o = start)) as [->|Hne]; [|apply M; [wordlia|done]].
      rewrite U; [done|]. rewrite Hv. wordlia.
    + intros v Hnv. rewrite U by wordlia. apply U1. rewrite Hv. wordlia.
Qed.
End mmio_facts.

(** [_mapDeviceMmio] returns when 96 frames can be had; the 32 pages from
    the base address are then mapped to the frames with the same numbers, for the
    supervisor only and without caching, and no other translation has changed. *)
Theorem mapDeviceMmio_identity {A} `{FrameSource A} off lim `{BootLayout off lim} root s m bar :
  fs_limit = lim -> tables_room lim root s m 96 ->
  0 <= bar -> bar + MMIO_SIZE <= 2 ^ 48 -> bar mod 4096 = 0 ->
  exists s' m', _mapDeviceMmio off s m bar (physToVirtAddr off root) = Done (s', m', bar) /\
    (forall a, bar <= a < bar + MMIO_SIZE -> a mod 4096 = 0 -> device_entry (translate m' root a) a) /\
    (forall v, ~ bar / 4096 <= vpage v < (bar + MMIO_SIZE) / 4096 -> translate m' root v = translate m root v).
Proof.
  intros Hlim Hg Hb Hw Ha.
  destruct (mmio_loop off lim Hlim root bar Hb Hw Ha 32 s m 0 33 ltac:(lia) ltac:(lia) Hg 0 eq_refl)
    as (s' & m' & E & _ & M & U).
  rewrite Z.add_0_r in U.
  exists s', m'. unfold _mapDeviceMmio. rewrite E. split; [done|]. split; [|done].
  intros a Hr Haa. specialize (M (a - bar) ltac:(lia) ltac:(wordlia)).
  by replace (bar + (a - bar)) with a in M by lia.
Qed.

(** ** The framebuffer's pages *)
Section combining_facts.
Context (off lim : Z) `{BootLayout off lim} (root : Z) (T : gmap Z (nat * Z)) (par : Z).
Hypothesis Hroot : T !! root = Some (4%nat, par).

(** The entry [e'] is [e] with the memory type of the framebuffer. *)
Definition combining (e e' : Z) : Prop :=
  pte_pageAccessType e' = 1 /\ pte_present e' = pte_present e /\ pte_readWrite e' = pte_readWrite e /\
  pte_userSupervisor e' = pte_userSupervisor e /\ pte_pageFrameNumber e' = pte_pageFrameNumber e.

Lemma set_combining e : combining e (set_pageAccessType e 1).
Proof.
  unfold combining, pte_pageAccessType, pte_present, pte_readWrite, pte_userSupervisor, pte_pageFrameNumber,
    set_pageAccessType. rewrite bf_set_same, !(bf_set_other _ _ _ _) by lia. done.
Qed.

Lemma combining_loop to : to <= 2 ^ 48 -> forall k from m fuel,
  k = steps from to -> (k < fuel)%nat -> 0 <= from -> from mod 4096 = 0 -> tree lim T m ->
  (forall a, from <= a < to -> a mod 4096 = 0 -> exists e, translate m root a = Some e) ->
  exists m', loop fuel (combining_body off (physToVirtAddr off root) to) (from, m) = Done m' /\
    (forall a e, from <= a < to -> a mod 4096 = 0 -> translate m root a = Some e ->
       translate m' root a = Some (set_pageAccessType e 1)) /\
    (forall v, ~ (from / 4096 <= vpage v /\ 4096 * vpage v < to) -> translate m' root v = translate m root v).
Proof.
  intros Hto. change (2 ^ 48) with 281474976710656 in Hto.
  induction k as [|k IH]; intros from m fuel Hk Hf H0 Ha HT Hm; (destruct fuel as [|fuel]; [lia|]);
    cbn [loop]; unfold combining_body at 1; unfold steps, PAGE_SIZE in *.
  - assert (to <= from) as Hge by wordlia. rewrite (proj2 (Z.ltb_ge from to)) by done. exists m. split_and!; [done|intros; lia|done].
  - assert (from < to) as Hlt by wordlia. rewrite (proj2 (Z.ltb_lt from to)) by done.
    rewrite u64_small by (unfold is_u64; wordlia).
    destruct (Hm from ltac:(lia) Ha) as [e He].
    assert (pte_present e <> 0) as Hp.
    { unfold translate, walk in He. destruct (leaf_addr m root 4 from) as [a|]; [|done].
      destruct (Z.eqb_spec (pte_present (m a)) 0); [done|]. by injection He as <-. }
    destruct (update_pte_translate off lim T m root par from e (fun e => set_pageAccessType e 1) HT Hroot He)
      as (HT' & He' & HU). { by destruct (set_combining e) as (_ & -> & _). }
    assert (forall a, 0 <= a < to -> vpage a = a / 4096) as Hv
      by (intros a Hr; apply vpage_low; change (2 ^ 48) with 281474976710656; lia).
    assert (forall a, from + 4096 <= a < to -> vpage a <> vpage from) as Hne
      by (intros a Hr; rewrite !Hv by lia; wordlia).
    destruct (IH (from + 4096) (update_pte off m from (physToVirtAddr off root) (fun e => set_pageAccessType e 1)) fuel)
      as (m' & -> & M & U); [wordlia|lia|lia|wordlia|exact HT'| |].
    { intros a Hr Haa. rewrite HU by (by apply Hne). apply Hm; [lia|done]. }
    exists m'. split; [done|]. split.
    + intros a x Hr Haa Hx. destruct (decide (a = from)) as [->|Hn].
      * rewrite He in Hx. injection Hx as <-. rewrite U; [done|]. rewrite Hv by lia. wordlia.
      * apply M; [wordlia|done|]. rewrite HU; [done|]. apply Hne. wordlia.
    + intros v Hnv. rewrite U by wordlia. apply HU. rewrite (Hv from) by lia. wordlia.
Qed.
End combining_facts.

Lemma cleared_lookup size i : 0 <= i < size / 4 -> cleared size !! i = Some BACKGROUND.
Proof.
  intros Hi. apply elem_of_list_to_map_1'.
  - intros y (j & [= -> ->] & _)%list_elem_of_fmap. done.
  - apply list_elem_of_fmap. exists i. split; [done|]. apply elem_of_seqZ. lia.
Qed.

(** The display [Display::initialize] leaves. *)
Definition new_display (fb : FramebufferInfo) (font : Psf1Font) : Display :=
  mkDisplay (fbi_width fb) (fbi_height fb) (mkFramebuffer (fbi_width fb) (fbi_height fb) (fbi_pixelsPerScanline fb))
    font (cleared (fbi_size fb)) (cleared (fbi_size fb)).

Lemma display_run off lim `{BootLayout off lim} root T par m fb font :
  T !! root = Some (4%nat, par) -> tree lim T m ->
  let base := fbi_base fb in
  let fin := fbi_base fb + fbi_size fb in
  0 <= base -> 0 <= fbi_size fb -> fin <= 2 ^ 48 -> base mod 4096 = 0 ->
  (forall a, base <= a < fin -> a mod 4096 = 0 -> exists e, translate m root a = Some e) ->
  exists m', Display_initialize off (physToVirtAddr off root) m fb font = Done (new_display fb font, m') /\
    (forall a e, base <= a < fin -> a mod 4096 = 0 -> translate m root a = Some e ->
       exists e', translate m' root a = Some e' /\ combining e e') /\
    (forall v, ~ (base / 4096 <= vpage v /\ 4096 * vpage v < fin) -> translate m' root v = translate m root v).
Proof.
  intros Hr HT base fin Hb Hs Hf Ha Hm. change (2 ^ 48) with 281474976710656 in Hf.
  destruct (combining_loop off lim root T par Hr fin Hf (steps base fin) base m (S (steps base fin))
    eq_refl ltac:(lia) Hb Ha HT Hm) as (m' & E & M & U).
  unfold Display_initialize. cbv zeta. rewrite (u64_small (fbi_base fb + fbi_size fb)) by (unfold is_u64, fin, base in *; lia).
  change (fbi_base fb + fbi_size fb) with fin. change (fbi_base fb) with base. rewrite E. cbn [mbind outcome_bind].
  exists m'. split; [reflexivity|]. split; [|exact U].
  intros a e Hra Haa He. exists (set_pageAccessType e 1). split; [by apply M|apply set_combining].
Qed.

(** [Display::initialize] on a framebuffer whose pages are mapped returns
    with both buffers filled with the background, makes every page of the framebuffer
    write-combining without changing its frame or access rights, and leaves every other
    translation as it was. *)
Theorem display_initialize_combining off lim `{BootLayout off lim} root T par m fb font :
  T !! root = Some (4%nat, par) -> tree lim T m ->
  let base := fbi_base fb in
  let fin := fbi_base fb + fbi_size fb in
  0 <= base -> 0 <= fbi_size fb -> fin <= 2 ^ 48 -> base mod 4096 = 0 ->
  (forall a, base <= a < fin -> a mod 4096 = 0 -> exists e, translate m root a = Some e) ->
  exists d m', Display_initialize off (physToVirtAddr off root) m fb font = Done (d, m') /\
    s_displayWidth d = fbi_width fb /\ s_displayHeight d = fbi_height fb /\ s_font d = font /\
    (forall i, 0 <= i < fbi_size fb / 4 -> s_backBuffer d !! i = Some BACKGROUND /\ front d !! i = Some BACKGROUND) /\
    (forall a e, base <= a < fin -> a mod 4096 = 0 -> translate m root a = Some e ->
       exists e', translate m' root a = Some e' /\ combining e e') /\
    (forall v, ~ (base / 4096 <= vpage v /\ 4096 * vpage v < fin) -> translate m' root v = translate m root v).
Proof.
  intros Hr HT base fin Hb Hs Hf Ha Hm.
  destruct (display_run off lim root T par m fb font Hr HT Hb Hs Hf Ha Hm) as (m' & E & M & U).
  exists (new_display fb font), m'. split; [exact E|]. cbn. split_and!; try done.
  intros i Hi. by rewrite cleared_lookup.
Qed.

(** ** Examples *)

(** An empty table tree under 0x1000, frames from 0x10000 on. *)
#[local] Instance demo_device_layout : BootLayout 0xffff800000000000 0x40000000.
Proof. constructor; lia. Qed.

Lemma demo_device_tree : tree 0x40000000 {[ 0x1000 := (4%nat, 0) ]} (fun _ => 0).
Proof.
  constructor.
  - intros t l par [<- [= <- <-]]%lookup_singleton_Some. unfold PAGE_SIZE. split_and!; (done || lia).
  - intros t l par i _ _ []. reflexivity.
Qed.

Lemma mapDeviceMmio_identity_witness : exists s' m',
  @_mapDeviceMmio Z bump_frames 0xffff800000000000 0x10000 (fun _ => 0) 0xfe800000
    (physToVirtAddr 0xffff800000000000 0x1000) = Done (s', m', 0xfe800000) /\
  device_entry (translate m' 0x1000 0xfe81f000) 0xfe81f000.
Proof.
  destruct (@mapDeviceMmio_identity Z bump_frames 0xffff800000000000 0x40000000 demo_device_layout 0x1000 0x10000 (fun _ => 0) 0xfe800000)
    as (s' & m' & E & M & _); [reflexivity| |lia|unfold MMIO_SIZE; lia|reflexivity|].
  - exists {[ 0x1000 := (4%nat, 0) ]}. split; [apply demo_device_tree|]. split; [by exists 0|]. split; [|done].
    split; [lia|]. split; [done|]. intros f. rewrite dom_singleton_L, elem_of_singleton. intros ->. lia.
  - exists s', m'. split; [exact E|]. apply M; [unfold MMIO_SIZE; lia|reflexivity].
Defined.

(** A tree of four tables that maps the page 0 to the frame 0. *)
Definition demo_fb_tree : gmap Z (nat * Z) :=
  {[ 0x1000 := (4%nat, 0); 0x2000 := (3%nat, 0x1000); 0x3000 := (2%nat, 0x2000); 0x4000 := (1%nat, 0x3000) ]}.
Definition demo_fb_mem : Z -> Z := fun a =>
  if a =? 0x1000 then 0x2003 else if a =? 0x2000 then 0x3003 else if a =? 0x3000 then 0x4003
  else if a =? 0x4000 then 0x0003 else 0.

Lemma demo_fb_tree_cases t l par : demo_fb_tree !! t = Some (l, par) ->
  t = 0x1000 /\ l = 4%nat \/ t = 0x2000 /\ l = 3%nat \/ t = 0x3000 /\ l = 2%nat \/ t = 0x4000 /\ l = 1%nat.
Proof.
  unfold demo_fb_tree. intros H.
  repeat (apply lookup_insert_Some in H as [[<- [= <- <-]]|[_ H]]; [lia|]).
  apply lookup_singleton_Some in H as [<- [= <- <-]]. lia.
Qed.

Lemma demo_fb_wf : tree 0x40000000 demo_fb_tree demo_fb_mem.
Proof.
  constructor.
  - intros t l par H%demo_fb_tree_cases. unfold PAGE_SIZE.
    destruct H as [[-> ->]|[[-> ->]|[[-> ->]|[-> ->]]]]; split_and!; (done || lia).
  - intros t l par i H%demo_fb_tree_cases Hi Hp. unfold entry_addr in *.
    assert (i = 0) as ->.
    { unfold demo_fb_mem in Hp. destruct H as [[-> ?]|[[-> ?]|[[-> ?]|[-> ?]]]];
      repeat match type of Hp with context [?a =? ?b] => destruct (Z.eqb_spec a b); [lia|] end; by destruct Hp. }
    destruct H as [[-> [= ->]]|[[-> [= ->]]|[[-> [= ->]]|[-> [=]]]]]; reflexivity.
Qed.

Lemma display_initialize_combining_witness : exists d m' e',
  Display_initialize 0xffff800000000000 (physToVirtAddr 0xffff800000000000 0x1000) demo_fb_mem
    (mkFbInfo 0 4096 32 32 32) (mkFont 16 []) = Done (d, m') /\
  translate m' 0x1000 0 = Some e' /\ pte_pageAccessType e' = 1 /\ s_backBuffer d !! 1023 = Some BACKGROUND.
Proof.
  destruct (@display_initialize_combining 0xffff800000000000 0x40000000 demo_device_layout 0x1000 demo_fb_tree 0
    demo_fb_mem (mkFbInfo 0 4096 32 32 32) (mkFont 16 [])) as (d & m' & E & _ & _ & _ & B & M & _);
    [reflexivity|apply demo_fb_wf|cbn; lia|cbn; lia|cbn; lia|reflexivity| |].
  - cbn. intros a Ha Hm. exists 3. assert (a = 0) as -> by wordlia. reflexivity.
  - destruct (M 0 3) as (e' & He & Hc & _); [cbn; lia|reflexivity|reflexivity|].
    exists d, m', e'. split_and!; [exact E|exact He|exact Hc|]. apply (B 1023). split; [lia|reflexivity].
Defined.
