(* ===== verification/KPrint.v ===== *)
(** * Printing (kernel/src/core/kprint.h, kprint.cpp, ports/serial.h, serial.cpp, ports.cpp)

    A console is the display, the cursor and the first serial port, to which every character
    goes as well.  The port's line status is the device's: [lsr n] is what the [n]-th poll
    reads.  A format string is the list of its characters without the terminator, which is
    never passed; an argument is a 64-bit slot or a string.  The numbers of a format go
    through the conversions of the string file, run on a zeroed local buffer. *)
From Stdlib Require Import ZArith Lia.
From stdpp Require Import base tactics numbers option list gmap.
From S2P Require Import Prelude Memory KString Sync KDisplay.

(** ** Serial ports *)
Definition SERIAL_PORT_BASE_COM1 : Z := 0x3F8.
Definition SERIAL_LINE_STATUS_THR_EMPTY : Z := 0x20.

Record serial := mkSerial { polls : nat; out : list (Z * Z) }.

Definition outByte (s : serial) (port value : Z) : serial := mkSerial (polls s) (out s ++ [(port, u8 value)]).

Definition initializeSerialPort (base : Z) (s : serial) : serial :=
  let s := outByte s (base + 3) 0x00 in
  let s := outByte s (base + 3) 0x80 in
  let s := outByte s base 0x03 in
  let s := outByte s (base + 1) 0x00 in
  let s := outByte s (base + 3) 0x03 in
  let s := outByte s (base + 2) 0xC7 in
  outByte s (base + 4) 0x0B.

Section printing.
Context (lsr : nat -> Z) (sfuel : nat).

Definition isTransmitQueueEmpty (s : serial) : serial * bool :=
  (mkSerial (S (polls s)) (out s), negb (Z.land (lsr (polls s)) SERIAL_LINE_STATUS_THR_EMPTY =? 0)).

Definition serial_body (s : serial) : outcome (serial + serial) :=
  let '(s, empty) := isTransmitQueueEmpty s in
  if empty : bool then Done (inr s) else Done (inl s).

Definition writeToSerialPort (base chr : Z) (s : serial) : outcome serial :=
  s ← loop sfuel serial_body s;
  Done (outByte s base chr).

(** ** The console *)
Record console := mkConsole {
  disp : Display;
  cursor_x : Z; cursor_y : Z;       (** [g_cursorLocation] *)
  port : serial;
  print_lock : Z;                   (** [__kprint_spinlock] *)
  irq_flag : bool }.

Definition CHAR_TOP_BORDER_OFFSET : Z := 8.
Definition CHAR_LEFT_BORDER_OFFSET : Z := 8.

Definition with_cursor (k : console) (x y : Z) : console :=
  mkConsole (disp k) x y (port k) (print_lock k) (irq_flag k).
Definition with_disp (k : console) (d : Display) (y : Z) : console :=
  mkConsole d (cursor_x k) y (port k) (print_lock k) (irq_flag k).
Definition with_port (k : console) (s : serial) : console :=
  mkConsole (disp k) (cursor_x k) (cursor_y k) s (print_lock k) (irq_flag k).
Definition with_lock (k : console) (l : Z) : console :=
  mkConsole (disp k) (cursor_x k) (cursor_y k) (port k) l (irq_flag k).

Definition kprintSetCursorLocation (x y : Z) (k : console) : console :=
  with_cursor k (if x =? 0xffffffff then CHAR_LEFT_BORDER_OFFSET else x)
                (if y =? 0xffffffff then CHAR_TOP_BORDER_OFFSET else y).

Definition kprintCharColored (chr color : Z) (k : console) : outcome console :=
  s ← writeToSerialPort SERIAL_PORT_BASE_COM1 chr (port k);
  let k := with_port k s in
  let charPixelHeight := charSize (s_font (disp k)) in
  if chr =? 10 then
    let k := with_cursor k CHAR_LEFT_BORDER_OFFSET (u32 (cursor_y k + charPixelHeight)) in
    '(d, y) ← renderTextGlyph (disp k) 32 (cursor_x k) (cursor_y k) 0;
    Done (with_disp k d y)
  else if chr =? 13 then Done (with_cursor k CHAR_LEFT_BORDER_OFFSET (cursor_y k))
  else
    '(d, y) ← renderTextGlyph (disp k) chr (cursor_x k) (cursor_y k) color;
    let k := with_disp k d y in
    let k := with_cursor k (u32 (cursor_x k + CHAR_PIXEL_WIDTH)) (cursor_y k) in
    if fb_width (s_framebuffer (disp k)) <? u32 (cursor_x k + CHAR_PIXEL_WIDTH)
    then Done (with_cursor k CHAR_LEFT_BORDER_OFFSET (u32 (cursor_y k + charPixelHeight)))
    else Done k.

Definition kprintColoredEx (str : list Z) (color : Z) (k : console) : outcome console :=
  for_each (fun k chr => kprintCharColored chr color k) str k.

(** ** Formats *)
Inductive varg := VWord (w : Z) | VStr (s : list Z).

(** The characters of a buffer up to its terminator. *)
Fixpoint cstring (m : gmap Z Z) (a : Z) (n : nat) : outcome (list Z) :=
  match n with
  | O => Fault
  | S n => c ← load8 m a;
           if c =? 0 then Done [] else (s ← cstring m (a + 1) n; Done (c :: s))
  end.

(** [char buf[size] = { 0 }; conv(val, buf, sizeof(buf));] and the string in it *)
Definition buf_text (conv : gmap Z Z -> Z -> Z -> Z -> outcome (gmap Z Z * Z)) (val size : Z) : outcome (list Z) :=
  r ← conv (put_bytes ∅ 0 (replicate (Z.to_nat size) 0)) val 0 size;
  cstring (fst r) 0 (Z.to_nat size).

(** [va_arg] for a word and for a string *)
Definition arg_word (args : list varg) : outcome (Z * list varg) :=
  match args with VWord w :: args => Done (w, args) | _ => Fault end.
Definition arg_str (args : list varg) : outcome (list Z * list varg) :=
  match args with VStr s :: args => Done (s, args) | _ => Fault end.

Definition s8 (z : Z) : Z := if u8 z <? 128 then u8 z else u8 z - 256.

(** The conversions after a percent sign: what is printed, the rest of the format and of the
    arguments. *)
Definition conversion (c : Z) (rest : list Z) (args : list varg) : outcome (list Z * list Z * list varg) :=
  if c =? 99 (* c *) then
    '(w, args) ← arg_word args; Done ([s8 w], rest, args)
  else if c =? 115 (* s *) then
    '(s, args) ← arg_str args; Done (s, rest, args)
  else if c =? 105 (* i *) then
    '(w, args) ← arg_word args;
    t ← buf_text lltoa (u64 (s32 w)) 128; Done (t, rest, args)
  else if c =? 120 (* x *) then
    '(w, args) ← arg_word args;
    t ← buf_text htoa (u32 w) 17; Done (t, rest, args)
  else if c =? 108 (* l *) then
    let f1 := default 0 (rest !! 0%nat) in
    let f2 := default 0 (rest !! 1%nat) in
    '(w, args) ← arg_word args;
    if (f1 =? 108) && (f2 =? 117) then
      t ← buf_text lltoa (u64 w) 128; Done (t, drop 2 rest, args)
    else if (f1 =? 108) && (f2 =? 105) then
      t ← buf_text lltoa (u64 (s64 w)) 128; Done (t, drop 2 rest, args)
    else if (f1 =? 108) && (f2 =? 120) then
      t ← buf_text htoa (u64 w) 128; Done (t, drop 2 rest, args)
    else t ← buf_text lltoa (u64 (s32 w)) 128; Done (t, rest, args)
  else Done ([c], rest, args).

Definition fmt_body (color : Z) (st : list Z * bool * list varg * console)
  : outcome (list Z * bool * list varg * console + console) :=
  let '(fmt, fmtDiscovered, args, k) := st in
  match fmt with
  | [] => Done (inr k)
  | c :: rest =>
      if c =? 37 (* % *) then Done (inl (rest, true, args, k))
      else if negb fmtDiscovered then
        k ← kprintCharColored c color k; Done (inl (rest, false, args, k))
      else
        '(t, rest, args) ← conversion c rest args;
        k ← kprintColoredEx t color k;
        Done (inl (rest, false, args, k))
  end.

(** The loop consumes at least a character per round. *)
Definition kprintFmtColoredEx (color : Z) (fmt : list Z) (args : list varg) (k : console) : outcome console :=
  k ← loop (S (length fmt)) (fmt_body color) (fmt, false, args, k);
  '(d, b) ← swapBuffers (disp k) (irq_flag k);
  Done (mkConsole d (cursor_x k) (cursor_y k) (port k) (print_lock k) b).

Definition kprintFmtColoredExLocked (color : Z) (fmt : list Z) (args : list varg) (k : console) : outcome console :=
  l ← acquireSpinlock (print_lock k);
  k ← kprintFmtColoredEx color fmt args (with_lock k l);
  Done (with_lock k (releaseSpinlock (print_lock k))).

Definition DEFAULT_TEXT_COLOR : Z := 0xff05ffa4.
Definition COLOR_WHITE : Z := 0xffffffff.
Definition COLOR_RED : Z := 0xffff0000.
Definition COLOR_GREEN : Z := 0xff00ff00.
Definition COLOR_YELLOW : Z := 0xffffff00.

Definition kprint fmt args k := kprintFmtColoredEx DEFAULT_TEXT_COLOR fmt args k.
Definition kprintLocked fmt args k := kprintFmtColoredExLocked DEFAULT_TEXT_COLOR fmt args k.
Definition kprintFmtColored color fmt args k := kprintFmtColoredEx color fmt args k.

(** The three headings *)
Definition with_heading (heading : list Z) (color : Z) (fmt : list Z) (args : list varg) (k : console) : outcome console :=
  k ← kprintColoredEx heading color k;
  kprintFmtColoredEx COLOR_WHITE fmt args k.
Definition kprintError := with_heading [35; 69; 82; 82; 79; 82; 32] COLOR_RED.
Definition kprintWarn := with_heading [35; 87; 65; 82; 78; 32] COLOR_YELLOW.
Definition kprintInfo := with_heading [35; 73; 78; 70; 79; 32] COLOR_GREEN.
End printing.

(** ** The cursor

    [advance W H h (x, y) c]: where a character leaves the cursor of a [W] by [H] display with
    characters of height [h]; [None] when drawing it needs pixels below the display. *)
Definition advance (W H h : Z) (p : Z * Z) (c : Z) : option (Z * Z) :=
  let '(x, y) := p in
  if c =? 10 then
    if y + h <=? H then Some (8, if H <? y + h + h then y else y + h) else None
  else if c =? 13 then Some (8, y)
  else
    let y := if H <? y + h then y - h else y in
    if W <? x + 8 + 8 then Some (8, y + h) else Some (x + 8, y).

Fixpoint advances (W H h : Z) (p : Z * Z) (t : list Z) : option (Z * Z) :=
  match t with
  | [] => Some p
  | c :: t => match advance W H h p c with Some p => advances W H h p t | None => None end
  end.

Lemma advances_app W H h p t u :
  advances W H h p (t ++ u) = match advances W H h p t with Some q => advances W H h q u | None => None end.
Proof. revert p. induction t as [|c t IH]; intros p; cbn; [done|]. by destruct (advance W H h p c). Qed.

(** ** The picture

    What a text shows: pictures give the colour of the point in column [i] and row [j]. *)
Section picture.
Context (W H : Z) (f : Psf1Font) (color : Z).

(** The glyph of [c] at [(x, y)] in colour [col], after the picture has moved up by a line
    when the slot would cross the lower edge. *)
Definition put_glyph (c x y col : Z) (pic : Z -> Z -> option Z) : Z -> Z -> option Z :=
  let up := H <? y + charSize f in
  glyph_picture f c x (if up then y - charSize f else y) col (if up then scrolled_picture H f pic else pic).

(** A newline empties the first slot of the next line; a carriage return shows nothing. *)
Definition char_picture (p : Z * Z) (c : Z) (pic : Z -> Z -> option Z) : Z -> Z -> option Z :=
  if c =? 10 then put_glyph 32 8 (snd p + charSize f) 0 pic
  else if c =? 13 then pic
  else put_glyph c (fst p) (snd p) color pic.

Fixpoint text_picture (p : Z * Z) (t : list Z) (pic : Z -> Z -> option Z) : Z -> Z -> option Z :=
  match t with
  | [] => pic
  | c :: t =>
      match advance W H (charSize f) p c with
      | Some q => text_picture q t (char_picture p c pic)
      | None => pic
      end
  end.

(** Only points of the screen matter. *)
Definition same_picture (a b : Z -> Z -> option Z) : Prop := forall i j, inside W H i j -> a i j = b i j.

#[local] Instance same_picture_equiv : Equivalence same_picture.
Proof.
  split; [by intros a i j|intros a b E i j Hij; by rewrite E|].
  intros a b c E1 E2 i j Hij. by rewrite E1, E2.
Qed.

Lemma put_glyph_ext c x y col a b : 0 <= charSize f -> same_picture a b ->
  same_picture (put_glyph c x y col a) (put_glyph c x y col b).
Proof.
  intros Hh E i j Hij. unfold put_glyph, glyph_picture, scrolled_picture. case_match; [done|].
  destruct (H <? y + charSize f); [|by apply E]. destruct (Z.ltb_spec j (H - charSize f)); [|done].
  apply E. destruct Hij. split; lia.
Qed.

Lemma char_picture_ext p c a b : 0 <= charSize f -> same_picture a b ->
  same_picture (char_picture p c a) (char_picture p c b).
Proof. intros Hh E. unfold char_picture. repeat case_match; [by apply put_glyph_ext|done|by apply put_glyph_ext]. Qed.

Lemma text_picture_ext t : 0 <= charSize f -> forall p a b, same_picture a b ->
  same_picture (text_picture p t a) (text_picture p t b).
Proof.
  intros Hh. induction t as [|c t IH]; intros p a b E; cbn [text_picture]; [done|].
  destruct (advance W H (charSize f) p c); [|done]. apply IH. by apply char_picture_ext.
Qed.

Lemma text_picture_app t u : forall p q pic, advances W H (charSize f) p t = Some q ->
  text_picture p (t ++ u) pic = text_picture q u (text_picture p t pic).
Proof.
  induction t as [|c t IH]; intros p q pic; cbn [advances text_picture app]; [by intros [= ->]|].
  destruct (advance W H (charSize f) p c); [|done]. apply IH.
Qed.
End picture.

Section console.
Context (W H : Z) (f : Psf1Font) (fb : Framebuffer) (lsr : nat -> Z) (sfuel : nat).

(** The port answers within the fuel, the font has the ASCII glyphs, the display holds two
    lines of two characters. *)
Record setup : Prop := {
  su_serial : forall n, exists k, (k < sfuel)%nat /\ Z.land (lsr (n + k)) 0x20 <> 0;
  su_glyphs : 128 * charSize f <= Z.of_nat (length (glyphBuffer f));
  su_char : 0 < charSize f;
  su_height : 2 * charSize f <= H;
  su_width : 16 <= W }.

Record console_ok (k : console) : Prop := {
  co_screen : screen W H f (front (disp k)) fb (disp k);
  co_x : 0 <= cursor_x k;
  co_right : cursor_x k + 8 <= W;
  co_y : 0 <= cursor_y k <= H }.

(** [printed t k k']: the text went to the serial port, nothing else of the console but the
    picture and the cursor changed. *)
Definition printed (t : list Z) (k k' : console) : Prop :=
  out (port k') = out (port k) ++ ((fun c => (0x3F8, c)) <$> t) /\
  print_lock k' = print_lock k /\ irq_flag k' = irq_flag k /\ front (disp k') = front (disp k).

Lemma printed_trans t u k k1 k2 : printed t k k1 -> printed u k1 k2 -> printed (t ++ u) k k2.
Proof.
  intros (A1 & B1 & C1 & D1) (A2 & B2 & C2 & D2). unfold printed.
  rewrite A2, A1, B2, C2, D2, fmap_app, app_assoc. done.
Qed.

Lemma serial_run s base c : setup -> 0 <= c < 256 ->
  exists s', writeToSerialPort lsr sfuel base c s = Done s' /\ out s' = out s ++ [(base, c)].
Proof.
  intros Hsu Hc. unfold writeToSerialPort.
  destruct (su_serial Hsu (polls s)) as (n & Hn & Hbit).
  assert (exists s', loop sfuel (serial_body lsr) s = Done s' /\ out s' = out s) as (s1 & -> & Ho).
  { clear Hsu. revert s n Hn Hbit. induction sfuel as [|fu IH]; intros s n Hn Hbit; [lia|]. cbn [loop].
    unfold serial_body at 1. cbn [isTransmitQueueEmpty].
    destruct (Z.eqb_spec (Z.land (lsr (polls s)) SERIAL_LINE_STATUS_THR_EMPTY) 0) as [E0|E0]; cbn [negb].
    - destruct n as [|n]; [rewrite Nat.add_0_r in Hbit; by unfold SERIAL_LINE_STATUS_THR_EMPTY in E0|].
      destruct (IH (mkSerial (S (polls s)) (out s)) n) as (s' & -> & Ho); [lia|cbn [polls]; by rewrite Nat.add_succ_comm|].
      exists s'. done.
    - eexists. split; [reflexivity|]. done. }
  cbn [mbind outcome_bind]. eexists. split; [reflexivity|]. unfold outByte. cbn [out].
  rewrite Ho, u8_small by (unfold is_u8; lia). done.
Qed.

Lemma screen_front fr d : screen W H f fr fb d -> screen W H f (front d) fb d.
Proof. intros []. by split. Qed.

Lemma console_dims k : setup -> console_ok k -> 0 < W /\ 0 < H /\ W * H < 0x100000000.
Proof. intros _ Hk. exact (sc_dims _ _ _ _ _ _ (co_screen _ Hk)). Qed.

Lemma print_char_run c color k : setup -> console_ok k -> 0 <= c < 128 ->
  forall x y, advance W H (charSize f) (cursor_x k, cursor_y k) c = Some (x, y) ->
  exists k', kprintCharColored lsr sfuel c color k = Done k' /\ console_ok k' /\
    (cursor_x k', cursor_y k') = (x, y) /\ printed [c] k k' /\
    same_picture W H (pixel (disp k')) (char_picture H f color (cursor_x k, cursor_y k) c (pixel (disp k))).
Proof.
  intros Hsu Hk Hc x y Ha. destruct (console_dims k Hsu Hk) as (HW & HH & Hlt).
  destruct Hsu as [Hser Hgl Hch H2 H16] eqn:Esu. clear Esu.
  destruct (serial_run (port k) SERIAL_PORT_BASE_COM1 c) as (s' & Es & Ho); [by split|lia|].
  pose proof Hk as [Hs Hx Hr Hy]. set (h := charSize f) in *.
  assert (forall chr, 0 <= chr < 128 -> has_glyph f chr) as Hg by (intros; split; [lia|fold h; nia]).
  unfold kprintCharColored, CHAR_LEFT_BORDER_OFFSET. rewrite Es. cbn [mbind outcome_bind disp with_port cursor_y]. rewrite (sc_font _ _ _ _ _ _ Hs). fold h.
  unfold advance in Ha. destruct (Z.eqb_spec c 10) as [->|Hn10].
  - destruct (Z.leb_spec (cursor_y k + h) H); [|done]. injection Ha as <- <-.
    rewrite (u32_small (cursor_y k + h)) by (unfold is_u32; nia). cbn [with_cursor with_port cursor_x cursor_y disp].
    destruct (render_run W H f (front (disp k)) fb (disp k) 32 8 (cursor_y k + h) 0) as (d' & -> & Hd' & Hy' & Hpic);
      try (done || lia || (apply Hg; lia)).
    fold h in Hy' |- *. cbn [mbind outcome_bind]. eexists. split; [reflexivity|]. unfold with_disp. cbn.
    assert ((if H <? cursor_y k + h + h then cursor_y k + h - h else cursor_y k + h) =
            (if H <? cursor_y k + h + h then cursor_y k else cursor_y k + h)) as E by (destruct (H <? _); lia).
    rewrite E in *. split; [|split; [done|split]].
    + split; cbn; [exact (screen_front _ _ Hd')|lia|lia|destruct (H <? _); lia].
    + unfold printed. cbn. rewrite Ho, (sc_front _ _ _ _ _ _ Hd'). done.
    + intros i j Hij. rewrite Hpic by done. unfold char_picture, put_glyph. cbn [Z.eqb Pos.eqb fst snd]. fold h.
      by rewrite E.
  - destruct (Z.eqb_spec c 13) as [->|Hn13].
    + injection Ha as <- <-. eexists. split; [reflexivity|]. split; [|split; [done|split]].
      * split; cbn; [done|lia|lia|done].
      * unfold printed. cbn. rewrite Ho. done.
      * by intros i j _.
    + destruct (render_run W H f (front (disp k)) fb (disp k) c (cursor_x k) (cursor_y k) color) as (d' & Er & Hd' & Hy' & Hpic);
        try (done || lia || (apply Hg; lia)). fold h in Er, Hy'.
      cbn [cursor_x with_port]. rewrite Er. cbn [mbind outcome_bind with_disp with_cursor with_port cursor_x cursor_y disp].
      rewrite (sc_fb _ _ _ _ _ _ Hd'), (sc_fbw _ _ _ _ _ _ Hd'). unfold CHAR_PIXEL_WIDTH.
      rewrite (u32_small (cursor_x k + 8)) by (unfold is_u32; nia). rewrite (u32_small (cursor_x k + 8 + 8)) by (unfold is_u32; nia).
      set (y1 := if H <? cursor_y k + h then cursor_y k - h else cursor_y k) in *.
      assert (same_picture W H (pixel d') (char_picture H f color (cursor_x k, cursor_y k) c (pixel (disp k)))) as Hsame.
      { intros i j Hij. rewrite Hpic by done. unfold char_picture, put_glyph.
        by rewrite (proj2 (Z.eqb_neq c 10)), (proj2 (Z.eqb_neq c 13)) by done. }
      assert (0 <= y1) as Hy1 by (unfold y1; destruct (Z.ltb_spec H (cursor_y k + h)); lia).
      destruct (Z.ltb_spec W (cursor_x k + 8 + 8)); injection Ha as <- <-.
      * rewrite (u32_small (y1 + h)) by (unfold is_u32; nia). eexists. split; [reflexivity|]. split; [|split; [done|split; [|exact Hsame]]].
        -- split; cbn; [exact (screen_front _ _ Hd')|lia|lia|lia].
        -- unfold printed. cbn. rewrite Ho, (sc_front _ _ _ _ _ _ Hd'). done.
      * eexists. split; [reflexivity|]. split; [|split; [done|split; [|exact Hsame]]].
        -- split; cbn; [exact (screen_front _ _ Hd')|lia|lia|lia].
        -- unfold printed. cbn. rewrite Ho, (sc_front _ _ _ _ _ _ Hd'). done.
Qed.

Lemma print_text_run t color : setup -> forall k, console_ok k -> Forall (fun c => 0 <= c < 128) t ->
  forall p, advances W H (charSize f) (cursor_x k, cursor_y k) t = Some p ->
  exists k', kprintColoredEx lsr sfuel t color k = Done k' /\ console_ok k' /\
    (cursor_x k', cursor_y k') = p /\ printed t k k' /\
    same_picture W H (pixel (disp k')) (text_picture W H f color (cursor_x k, cursor_y k) t (pixel (disp k))).
Proof.
  intros Hsu. pose proof (su_char Hsu) as Hch. induction t as [|c t IH]; intros k Hk Ht p Ha.
  - injection Ha as <-. exists k. split; [done|]. split; [done|]. split; [done|]. unfold printed. rewrite app_nil_r.
    split; [done|]. by intros i j _.
  - apply Forall_cons in Ht as [Hc Ht]. cbn [advances] in Ha.
    destruct (advance W H (charSize f) (cursor_x k, cursor_y k) c) as [[x y]|] eqn:E; [|done].
    destruct (print_char_run c color k Hsu Hk Hc x y E) as (k1 & E1 & Hk1 & Hp1 & Hpr1 & Hs1).
    unfold kprintColoredEx. cbn [for_each]. rewrite E1. cbn [mbind outcome_bind]. rewrite <- Hp1 in Ha.
    destruct (IH k1 Hk1 Ht p Ha) as (k2 & E2 & Hk2 & Hp2 & Hpr2 & Hs2). exists k2. split; [exact E2|].
    split; [done|]. split; [done|]. split; [exact (printed_trans [c] t k k1 k2 Hpr1 Hpr2)|].
    cbn [text_picture]. rewrite E, <- Hp1. intros i j Hij. rewrite Hs2 by done.
    apply text_picture_ext; [lia|exact Hs1|done].
Qed.
End console.

(** ** The text of a format

    What a format and its arguments should put on the console, in terms of the decimal and
    hexadecimal notations of the string file; [pending] says that a percent sign came
    before. *)
Definition numeral (c : Z) (w : Z) : option (list Z) :=
  if c =? 105 then Some (dec (u64 (s32 w)))
  else if c =? 120 then Some (hex (u32 w))
  else None.

Definition long_numeral (c : Z) (w : Z) : option (list Z) :=
  if c =? 117 then Some (dec (u64 w))
  else if c =? 105 then Some (dec (u64 (s64 w)))
  else if c =? 120 then Some (hex (u64 w))
  else None.

Fixpoint text (pending : bool) (fmt : list Z) (args : list varg) : option (list Z) :=
  match fmt with
  | [] => Some []
  | c :: rest =>
      if c =? 37 then text true rest args
      else if negb pending then cons c <$> text false rest args
      else if c =? 99 then
        match args with VWord w :: args => cons (s8 w) <$> text false rest args | _ => None end
      else if c =? 115 then
        match args with VStr s :: args => app s <$> text false rest args | _ => None end
      else if (c =? 105) || (c =? 120) then
        match args with VWord w :: args => n ← numeral c w; app n <$> text false rest args | _ => None end
      else if c =? 108 then
        match args with
        | VWord w :: args =>
            match rest with
            | l :: k :: rest' =>
                match (if l =? 108 then long_numeral k w else None) with
                | Some n => app n <$> text false rest' args
                | None => app (dec (u64 (s32 w))) <$> text false rest args
                end
            | _ => app (dec (u64 (s32 w))) <$> text false rest args
            end
        | _ => None
        end
      else cons c <$> text false rest args
  end.

Lemma cstring_put m a t n : Forall (fun c => c <> 0) t -> (length t < n)%nat ->
  cstring (put_bytes m a (t ++ [0])) a n = Done t.
Proof.
  revert a n m. induction t as [|c t IH]; intros a n m Ht Hn; (destruct n as [|n]; [cbn in Hn; lia|]); cbn [cstring app put_bytes].
  - unfold load8. rewrite lookup_insert_eq. done.
  - apply Forall_cons in Ht as [Hc Ht]. unfold load8. rewrite lookup_insert_eq. cbn [mbind outcome_bind need].
    rewrite (proj2 (Z.eqb_neq c 0)) by done.
    assert (<[a := c]> (put_bytes m (a + 1) (t ++ [0])) = put_bytes (<[a := c]> m) (a + 1) (t ++ [0])) as ->.
    { apply map_eq. intros b. destruct (decide (a = b)) as [->|Hab].
      - rewrite lookup_insert_eq, lookup_put_bytes_out by lia. by rewrite lookup_insert_eq.
      - rewrite lookup_insert_ne, !lookup_put_bytes by done. case_decide; [done|]. by rewrite lookup_insert_ne. }
    rewrite IH by (done || (cbn in Hn; lia)). done.
Qed.

Lemma buffer_mapped size n : 0 <= n <= size -> mapped (put_bytes ∅ 0 (replicate (Z.to_nat size) 0)) 0 n.
Proof.
  intros Hn a Ha. rewrite lookup_put_bytes, length_replicate, decide_True by lia.
  apply lookup_lt_is_Some. rewrite length_replicate. lia.
Qed.

Lemma lltoa_text v : is_u64 v -> buf_text lltoa v 128 = Done (dec v).
Proof.
  intros Hv. pose proof (dec_digits_length 19 v) as Hl. fold (dec v) in Hl. unfold buf_text.
  rewrite lltoa_run by (done || (apply buffer_mapped; lia)). rewrite (proj2 (Z.ltb_ge _ _)) by lia.
  cbn [mbind outcome_bind fst]. apply cstring_put; [|change (Z.to_nat 128) with 128%nat; lia].
  eapply Forall_impl; [apply dec_digits_ok|]. intros c Hc. unfold is_digit in Hc. lia.
Qed.

Lemma hex_char_nonzero b : is_u8 b -> Forall (fun c => c <> 0) (hex_byte b).
Proof.
  intros Hb. assert (forallb (fun d => negb (hex_char d =? 0)) (seqZ 0 16) = true) as X by reflexivity.
  rewrite forallb_forall in X. unfold hex_byte, is_u8 in *.
  repeat constructor; apply Z.eqb_neq, negb_true_iff, X, list_elem_of_In, elem_of_seqZ; wordlia.
Qed.

Lemma htoa_text v size : 17 <= size -> buf_text htoa v size = Done (hex v).
Proof.
  intros Hs. unfold buf_text. rewrite htoa_run by (apply buffer_mapped; lia).
  rewrite (proj2 (Z.ltb_ge _ _)) by lia. cbn [mbind outcome_bind fst]. apply cstring_put; [|rewrite hex_length; lia].
  unfold hex. apply Forall_flat_map. pose proof (le_split_ok 8 v) as Hb. unfold bytes_ok in Hb.
  apply Forall_rev in Hb. eapply Forall_impl; [exact Hb|]. intros b. apply hex_char_nonzero.
Qed.

Ltac text_case H := apply fmap_Some in H as (?t & ?E & ->).

Ltac conv_done :=
  cbn [arg_word arg_str mbind outcome_bind]; do 4 eexists; split; [reflexivity|];
  split; [reflexivity|]; split; [eassumption|]; rewrite ?length_drop; cbn [length]; lia.

Lemma conversion_text c rest args t : c <> 37 -> text true (c :: rest) args = Some t ->
  exists n rest' args' t', conversion c rest args = Done (n, rest', args') /\ t = n ++ t' /\
    text false rest' args' = Some t' /\ (length rest' <= length rest)%nat.
Proof.
  intros Hc. cbn [text negb]. rewrite (proj2 (Z.eqb_neq c 37)) by done. unfold conversion.
  destruct (Z.eqb_spec c 99) as [->|].
  { destruct args as [|[w|s] args]; try done. intros H. text_case H. conv_done. }
  destruct (Z.eqb_spec c 115) as [->|].
  { destruct args as [|[w|s] args]; try done. intros H. text_case H. conv_done. }
  destruct (Z.eqb_spec c 105) as [->|].
  { destruct args as [|[w|s] args]; try done. cbn [orb]. intros H. cbn [numeral Z.eqb Pos.eqb mbind option_bind] in H. text_case H.
    cbn [arg_word mbind outcome_bind]. rewrite lltoa_text by apply u64_range. cbn [mbind outcome_bind]. conv_done. }
  destruct (Z.eqb_spec c 120) as [->|].
  { destruct args as [|[w|s] args]; try done. cbn [orb]. intros H. cbn [numeral Z.eqb Pos.eqb mbind option_bind] in H. text_case H.
    cbn [arg_word mbind outcome_bind]. rewrite htoa_text by lia. cbn [mbind outcome_bind]. conv_done. }
  cbn [orb]. destruct (Z.eqb_spec c 108) as [->|]; [|intros H; text_case H; conv_done].
  destruct args as [|[w|s] args]; try done. cbn [arg_word mbind outcome_bind].
  assert (forall rest0, exists u, buf_text lltoa (u64 (s32 w)) 128 = Done u /\
    (app (dec (u64 (s32 w))) <$> text false rest0 args = Some t -> exists t', t = u ++ t' /\ text false rest0 args = Some t')) as Hs.
  { intros rest0. exists (dec (u64 (s32 w))). split; [apply lltoa_text, u64_range|]. intros H. text_case H. eauto. }
  destruct rest as [|l [|k rest]]; cbn [lookup list_lookup default from_option id].
  - change (0 =? 108) with false. cbn [andb]. destruct (Hs []) as (u & -> & Hu). intros H. destruct (Hu H) as (t' & -> & Et). conv_done.
  - rewrite andb_false_r, andb_false_r, andb_false_r. destruct (Hs [l]) as (u & -> & Hu). intros H.
    destruct (Hu H) as (t' & -> & Et). cbn [mbind outcome_bind]. conv_done.
  - cbn [drop]. destruct (l =? 108); cbn [andb].
    2: { destruct (Hs (l :: k :: rest)) as (u & -> & Hu). intros H. destruct (Hu H) as (t' & -> & Et). cbn [mbind outcome_bind]. conv_done. }
    unfold long_numeral. destruct (k =? 117).
    { intros H. text_case H. rewrite lltoa_text by apply u64_range. cbn [mbind outcome_bind]. conv_done. }
    destruct (k =? 105).
    { intros H. text_case H. rewrite lltoa_text by apply u64_range. cbn [mbind outcome_bind]. conv_done. }
    destruct (k =? 120).
    { intros H. text_case H. rewrite htoa_text by lia. cbn [mbind outcome_bind]. conv_done. }
    destruct (Hs (l :: k :: rest)) as (u & -> & Hu). intros H. destruct (Hu H) as (t' & -> & Et). cbn [mbind outcome_bind]. conv_done.
Qed.

Section formats.
Context (W H : Z) (f : Psf1Font) (fb : Framebuffer) (lsr : nat -> Z) (sfuel : nat).
Abbreviation ok := (console_ok W H f fb).

Lemma fmt_run color : setup W H f lsr sfuel -> forall fuel pending fmt args k t p, ok k -> text pending fmt args = Some t ->
  Forall (fun c => 0 <= c < 128) t -> advances W H (charSize f) (cursor_x k, cursor_y k) t = Some p -> (length fmt < fuel)%nat ->
  exists k', loop fuel (fmt_body lsr sfuel color) (fmt, pending, args, k) = Done k' /\ ok k' /\
    (cursor_x k', cursor_y k') = p /\ printed t k k' /\
    same_picture W H (pixel (disp k')) (text_picture W H f color (cursor_x k, cursor_y k) t (pixel (disp k))).
Proof.
  intros Hsu. pose proof (su_char _ _ _ _ _ Hsu) as Hch. induction fuel as [|fuel IH]; intros pending fmt args k t p Hk Ht Hasc Ha Hf; [lia|].
  cbn [loop]. unfold fmt_body at 1. destruct fmt as [|c rest].
  { injection Ht as <-. injection Ha as <-. exists k. split; [done|]. split; [done|]. split; [done|]. unfold printed. rewrite app_nil_r.
    split; [done|]. by intros i j _. }
  cbn [length] in Hf. destruct (Z.eqb_spec c 37) as [->|Hc].
  { cbn [text] in Ht. apply IH; try done. lia. }
  destruct pending; cbn [negb].
  - destruct (conversion_text c rest args t Hc Ht) as (n & rest' & args' & t' & -> & -> & Ht' & Hl). cbn [mbind outcome_bind].
    apply Forall_app in Hasc as [Hn Ht2]. rewrite advances_app in Ha.
    destruct (advances W H (charSize f) (cursor_x k, cursor_y k) n) as [q|] eqn:Eq; [|done].
    destruct (print_text_run W H f fb lsr sfuel n color Hsu k Hk Hn q Eq) as (k1 & -> & Hk1 & Hp1 & Hpr1 & Hs1). cbn [mbind outcome_bind].
    destruct (IH false rest' args' k1 t' p Hk1 Ht' Ht2) as (k2 & -> & Hk2 & Hp2 & Hpr2 & Hs2); [by rewrite Hp1|lia|].
    exists k2. split; [done|]. split; [done|]. split; [done|]. split; [by eapply printed_trans|].
    rewrite (text_picture_app _ _ _ _ n t' _ q) by done. intros i j Hij. rewrite Hs2 by done. rewrite Hp1.
    apply text_picture_ext; [lia|exact Hs1|done].
  - cbn [text negb] in Ht. rewrite (proj2 (Z.eqb_neq c 37)) in Ht by done. text_case Ht.
    apply Forall_cons in Hasc as [Hc1 Ht2]. cbn [advances] in Ha.
    destruct (advance W H (charSize f) (cursor_x k, cursor_y k) c) as [[x y]|] eqn:Eq; [|done].
    destruct (print_char_run W H f fb lsr sfuel c color k Hsu Hk Hc1 x y Eq) as (k1 & -> & Hk1 & Hp1 & Hpr1 & Hs1). cbn [mbind outcome_bind].
    destruct (IH false rest args k1 t0 p Hk1 E Ht2) as (k2 & -> & Hk2 & Hp2 & Hpr2 & Hs2); [by rewrite Hp1|lia|].
    exists k2. split; [done|]. split; [done|]. split; [done|]. split; [exact (printed_trans [c] t0 k k1 k2 Hpr1 Hpr2)|].
    cbn [text_picture]. rewrite Eq, <- Hp1. intros i j Hij. rewrite Hs2 by done.
    apply text_picture_ext; [lia|exact Hs1|done].
Qed.

Lemma kprintFmt_run color fmt args k t p : setup W H f lsr sfuel -> ok k -> text false fmt args = Some t ->
  Forall (fun c => 0 <= c < 128) t -> advances W H (charSize f) (cursor_x k, cursor_y k) t = Some p ->
  W <= pixelsPerScanline fb -> mapped (front (disp k)) 0 (H * pixelsPerScanline fb) ->
  exists k', kprintFmtColoredEx lsr sfuel color fmt args k = Done k' /\ ok k' /\ (cursor_x k', cursor_y k') = p /\
    out (port k') = out (port k) ++ ((fun c => (0x3F8, c)) <$> t) /\
    print_lock k' = print_lock k /\ irq_flag k' = irq_flag k /\
    mapped (front (disp k')) 0 (H * pixelsPerScanline fb) /\
    (forall i j, 0 <= i < W -> 0 <= j < H -> front (disp k') !! (i + j * pixelsPerScanline fb) = pixel (disp k') i j) /\
    same_picture W H (pixel (disp k')) (text_picture W H f color (cursor_x k, cursor_y k) t (pixel (disp k))).
Proof.
  intros Hsu Hk Ht Hasc Ha Hpps Hfront. unfold kprintFmtColoredEx.
  destruct (fmt_run color Hsu (S (length fmt)) false fmt args k t p Hk Ht Hasc Ha ltac:(lia)) as (k1 & -> & Hk1 & Hp1 & (Ho & Hlk & Hif & Hfr) & Hsame).
  cbn [mbind outcome_bind]. pose proof (co_screen _ _ _ _ _ Hk1) as Hs. pose proof (sc_dims _ _ _ _ _ _ Hs) as (HW & HH & _).
  destruct (swap_run (disp k1) (irq_flag k1)) as (fr' & E & P);
    rewrite ?(sc_width _ _ _ _ _ _ Hs), ?(sc_height _ _ _ _ _ _ Hs), ?(sc_fb _ _ _ _ _ _ Hs) in *;
    [lia|lia|exact (sc_back _ _ _ _ _ _ Hs)|by rewrite Hfr|].
  rewrite E. cbn [mbind outcome_bind]. eexists. split; [reflexivity|]. split; [|split; [done|split; [done|split; [done|split; [done|split; [|split; [|exact Hsame]]]]]]].
  - destruct Hk1 as [Hs1 Hx Hr Hy]. split; cbn; [|done|done|done]. destruct Hs1. by split.
  - intros a Hin. cbn [disp with_front front]. set (w := pixelsPerScanline fb) in *.
    assert (a = a mod w + (a / w) * w) as Ea by (rewrite (Z.div_mod a w) at 1; lia).
    assert (0 <= a mod w < w) as Hm by (apply Z.mod_pos_bound; lia).
    assert (0 <= a / w < H) as Hd by (split; [apply Z.div_pos; lia|apply Z.div_lt_upper_bound; lia]).
    rewrite Ea, P by done. destruct (Z.ltb_spec (a mod w) W).
    + unfold pixel. rewrite (sc_width _ _ _ _ _ _ Hs). apply (sc_back _ _ _ _ _ _ Hs). nia.
    + rewrite Hfr. apply Hfront. lia.
  - intros i j Hi Hj. cbn [disp with_front front]. rewrite P by lia. rewrite (proj2 (Z.ltb_lt i W)) by lia. done.
Qed.


(** A newline on a wrapped line below the lower edge. *)
Lemma newline_overruns color k : setup W H f lsr sfuel -> ok k -> exact_area W H (disp k) ->
  H < cursor_y k + charSize f -> (H + charSize f) * W < 0x100000000 ->
  kprintCharColored lsr sfuel 10 color k = Fault.
Proof.
  intros Hsu Hk He Hy Hlt. destruct (console_dims W H f fb lsr sfuel k Hsu Hk) as (HW & HH & _).
  pose proof Hsu as [_ Hgl Hch H2 H16]. pose proof Hk as [Hs Hx Hr Hyk]. set (h := charSize f) in *.
  destruct (serial_run W H f lsr sfuel (port k) SERIAL_PORT_BASE_COM1 10 Hsu) as (s' & Es & _); [lia|].
  unfold kprintCharColored, CHAR_LEFT_BORDER_OFFSET. rewrite Es. cbn [mbind outcome_bind disp with_port cursor_y].
  change (10 =? 10) with true. cbv iota. rewrite (sc_font _ _ _ _ _ _ Hs). fold h.
  rewrite (u32_small (cursor_y k + h)) by (unfold is_u32; nia). cbn [with_cursor with_port cursor_x cursor_y disp].
  assert (renderTextGlyph (disp k) 32 8 (cursor_y k + h) 0 = Fault) as ->; [|done].
  unfold renderTextGlyph. rewrite (sc_font _ _ _ _ _ _ Hs), (sc_height _ _ _ _ _ _ Hs). fold h.
  change (32 <? 0) with false. cbv iota. rewrite (u32_small (cursor_y k + h + h)) by (unfold is_u32; nia).
  rewrite (proj2 (Z.ltb_lt H _)) by lia.
  destruct (scroll_spec W H f (front (disp k)) fb (disp k) h Hs) as (d1 & E1 & Hd1 & _); [lia|]. rewrite E1.
  cbn [mbind outcome_bind]. rewrite (u32_small (cursor_y k + h - h)) by (unfold is_u32; nia).
  rewrite (clear_slot_overrun W H f (front (disp k)) fb d1); try (done || lia || nia).
  eapply exact_area_same; [by eapply scroll_area|done].
Qed.

(** When the last column of the last line is filled, the cursor is moved
    below the lower edge without scrolling; a newline printed next moves it once more,
    scrolls only one line, and clears a character slot behind the last row of the back
    buffer. *)
Theorem newline_after_wrap_overruns c color k : setup W H f lsr sfuel -> ok k -> exact_area W H (disp k) ->
  0 <= c < 128 -> c <> 10 -> c <> 13 -> W < cursor_x k + 16 ->
  cursor_y k + charSize f <= H -> H < cursor_y k + 2 * charSize f -> (H + charSize f) * W < 0x100000000 ->
  exists k1, kprintCharColored lsr sfuel c color k = Done k1 /\ ok k1 /\
    kprintCharColored lsr sfuel 10 color k1 = Fault.
Proof.
  intros Hsu Hk He Hc H10 H13 Hx Hy Hy2 Hlt.
  destruct (print_char_run W H f fb lsr sfuel c color k Hsu Hk Hc 8 (cursor_y k + charSize f)) as (k1 & E1 & Hk1 & Hp & _ & _).
  { unfold advance. rewrite (proj2 (Z.eqb_neq c 10)), (proj2 (Z.eqb_neq c 13)) by done.
    rewrite (proj2 (Z.ltb_ge H (cursor_y k + charSize f))), (proj2 (Z.ltb_lt W (cursor_x k + 8 + 8))) by lia. done. }
  exists k1. split; [done|]. split; [done|]. injection Hp as _ Hpy.
  apply newline_overruns; [done|done| |lia|done].
  (* the area of the buffer is that of before *)
  unfold kprintCharColored in E1. apply bind_inv in E1 as (s' & _ & E1).
  rewrite (proj2 (Z.eqb_neq c 10)), (proj2 (Z.eqb_neq c 13)) in E1 by done.
  apply bind_inv in E1 as ([d' y'] & Er & E1). apply render_area in Er. cbn [disp with_port] in Er.
  eapply exact_area_same; [|exact He]. destruct (_ <? _) in E1; injection E1 as <-; exact Er.
Qed.
End formats.

(** ** The signed conversions *)

(** %i, %l and %lli pass a signed number to an unsigned conversion: a
    negative argument is printed as its 64-bit complement; and a doubled percent sign prints
    nothing and leaves the next character to be taken as a conversion. *)
Theorem signed_conversions w rest args :
  - 0x80000000 <= w < 0 ->
  text false (37 :: 105 :: rest) (VWord (u64 w) :: args) = app (dec (0x10000000000000000 + w)) <$> text false rest args /\
  text false (37 :: 108 :: 108 :: 105 :: rest) (VWord (u64 w) :: args) = app (dec (0x10000000000000000 + w)) <$> text false rest args /\
  text false (37 :: 37 :: rest) args = text true rest args.
Proof.
  intros Hw. assert (s32 (u64 w) = w) as E1.
  { unfold s32. destruct (Z.ltb_spec (u32 (u64 w)) 0x80000000); wordlia. }
  assert (s64 (u64 w) = w) as E2 by (apply s64_u64; lia).
  assert (u64 w = 0x10000000000000000 + w) as E3 by wordlia.
  split_and!; [| |done].
  - change (text false (37 :: 105 :: rest) (VWord (u64 w) :: args)) with
      (app (dec (u64 (s32 (u64 w)))) <$> text false rest args). by rewrite E1, E3.
  - change (text false (37 :: 108 :: 108 :: 105 :: rest) (VWord (u64 w) :: args)) with
      (app (dec (u64 (s64 (u64 w)))) <$> text false rest args). by rewrite E2, E3.
Qed.

(** ** Witnesses: the display of 16 by 4 pixels, cursor at its first slot *)
Definition demo_console : console := mkConsole demo_display 8 0 (mkSerial 0 []) 0 true.
Definition demo_lsr (n : nat) : Z := if Nat.even n then 0x00 else 0x60.

Lemma demo_setup : setup 16 4 demo_font demo_lsr 3.
Proof.
  split; [|vm_compute; discriminate|cbn; lia|cbn; lia|lia].
  intros n. unfold demo_lsr. destruct (Nat.even n) eqn:E.
  - exists 1%nat. split; [lia|]. rewrite Nat.add_1_r, Nat.even_succ, <- Nat.negb_even, E. vm_compute. discriminate.
  - exists 0%nat. split; [lia|]. rewrite Nat.add_0_r, E. vm_compute. discriminate.
Qed.

Lemma demo_console_ok : console_ok 16 4 demo_font (mkFramebuffer 16 4 20) demo_console.
Proof. split; [exact demo_screen|cbn; lia|cbn; lia|cbn; lia]. Qed.


Lemma newline_after_wrap_overruns_witness : exists k1,
  kprintCharColored demo_lsr 3 65 0xff (mkConsole demo_display 8 2 (mkSerial 0 []) 0 true) = Done k1 /\
  kprintCharColored demo_lsr 3 10 0xff k1 = Fault.
Proof.
  destruct (newline_after_wrap_overruns 16 4 demo_font (mkFramebuffer 16 4 20) demo_lsr 3 65 0xff
    (mkConsole demo_display 8 2 (mkSerial 0 []) 0 true)) as (k1 & E1 & _ & E2);
    [exact demo_setup|split; [exact demo_screen|cbn; lia|cbn; lia|cbn; lia]| |lia|lia|lia|cbn; lia|cbn; lia|cbn; lia|cbn; lia|].
  - intros a Ha. cbn [disp demo_display s_backBuffer]. unfold demo_pixels.
    rewrite lookup_put_bytes, length_replicate, decide_False by lia. apply lookup_empty.
  - exists k1. split; [exact E1|exact E2].
Defined.

Lemma signed_conversions_witness :
  text false [37; 105] [VWord (u64 (-1))] = Some (dec 18446744073709551615).
Proof. apply (signed_conversions (-1) [] []). lia. Defined.
