(* ===== verification/KernelEntry.v ===== *)
(** * Entering the kernel (kernel/src/entry/kernel_entry.cpp, arch/x86/ap_startup.cpp,
    kelevate/kelevate.cpp, arch/x86/asm/kelevate.s)

    How a core gets from the bootloader, or from the startup code of an application
    processor, to a kernel thread in ring 3: the segments and the task state of Gdt.v, the
    system call registers, the swapper task and the per-cpu block, and the return into the
    lowered entry.  Then the reservations of the kernel entry in the page frame allocator
    and the keyboard's line in the I/O APIC.

    A core is its segment registers and model-specific registers, the machine of Elevate.v,
    whose control blocks and per-cpu blocks all cores share, and its table registers. *)
From Stdlib Require Import ZArith Lia.
From stdpp Require Import base tactics numbers option list gmap.
From S2P Require Import Prelude Memory KMemory PageFrame PageTable Paging KVector Process Elevate Sched IoApic Gdt ApStartup KPrint.

Record core_state := mkCore {
  ce_gdts : list GdtAndTssData;    (** [g_gdtPerCpuArray] *)
  ce_regs : cpu_regs;
  ce_mc : machine;
  ce_idtr : Z * Z;
}.

Definition SERIAL_PORT_BASE_COM2 : Z := 0x2F8.
Definition SERIAL_PORT_BASE_COM3 : Z := 0x3EF.
Definition SERIAL_PORT_BASE_COM4 : Z := 0x2EF.
Definition USERMODE_KERNEL_ENTRY_STACK_SIZE : Z := 0x8000.

Definition set_pid (p : PCB) (v : Z) : PCB :=
  mkPCB (context p) (pstate p) v (priority p) (pcr3 p) (kernelStack p) (usergs p) (elevated p) (pcpu p).

(** [zeromem(&context, sizeof(CpuContext)); context.rflags |= 0x200;] *)
Definition swapper_context : CpuContext :=
  mkCpuContext 0 0 0 0 0 0 0 0 0 0 0 0 0 0 0 0 0 0x200 0 0 0 0 0 0.

Section entry.
(** Link-time addresses: [g_gdtPerCpuArray], [__per_cpu_data], [g_kernelSwapperTasks],
    [__asm_syscall_entry64], and the descriptor [g_kernelIdtDescriptor]; [off] is the kernel
    alias of physical memory. *)
Context (gdt_array per_cpu_data swapper_tasks entry64 off : Z) (g_kernelIdtDescriptor : Z * Z).

Definition with_mc_core (k : core_state) (m : machine) : core_state :=
  mkCore (ce_gdts k) (ce_regs k) m (ce_idtr k).

(** [initializeAndInstallGDT] on the core: the per-cpu blocks and the GS bases are the
    machine's. *)
Definition install_gdt (apicid stack : Z) (k : core_state) : outcome core_state :=
  let m := ce_mc k in
  s ← initializeAndInstallGDT gdt_array per_cpu_data apicid stack
        (mkGdtState (ce_gdts k) (cpus (ks m)) (ce_regs k));
  gs ← readMsr (msrs (core s)) IA32_GS_BASE;
  kgs ← readMsr (msrs (core s)) IA32_KERNEL_GS_BASE;
  Done (mkCore (g_gdtPerCpuArray s) (core s)
    (mkMachine (mkKstate (pcbs (ks m)) (per_cpu s) (Process.cr3 (ks m))) gs kgs (ring m) (interrupts m))
    (ce_idtr k)).

Definition enable_syscalls (k : core_state) : outcome core_state :=
  let r := ce_regs k in
  ms ← enableSyscallInterface entry64 (msrs r);
  Done (mkCore (ce_gdts k)
    (mkRegs (gdtr r) (tr r) (sel_cs r) (sel_ds r) (sel_es r) (sel_fs r) (sel_gs r) (sel_ss r) ms)
    (ce_mc k) (ce_idtr k)).

(** The swapper task of the core becomes its current task. *)
Definition init_swapper (cpu pidv : Z) (k : core_state) : outcome core_state :=
  let t := swapper swapper_tasks cpu in
  s ← update_pcb (ks (ce_mc k)) t (fun p => set_state p RUNNING);
  s ← update_pcb s t (fun p => set_pid p pidv);
  s ← update_pcb s t (fun p => set_context p swapper_context);
  s ← update_pcb s t (fun p => set_elevated p 0);
  s ← update_cpu s cpu (fun d => set_currentTask d t);
  d ← cpu_entry s cpu;
  s ← update_pcb s (currentTask d) (fun p => set_cpu p cpu);
  Done (with_mc_core k (with_ks (ce_mc k) s)).

(** [lidt] *)
Definition loadIdtr (k : core_state) : outcome core_state :=
  if ring (ce_mc k) =? 0
  then Done (mkCore (ce_gdts k) (ce_regs k) (ce_mc k) g_kernelIdtDescriptor) else Fault.

(** [__call_lowered_entry_asm]: the stack pointers are stored through gs, the frame is built
    with the user selectors and 0x200 as flags, and [iretq] drops to ring 3.  [sp] is the
    stack pointer at the call. *)
Definition __call_lowered_entry (sp entry user_stack : Z) (m : machine)
  : outcome (machine * InterruptFrame) :=
  let d := gsbase m - per_cpu_data in
  if (d mod 32 =? 0) && (0 <=? d) then
    s ← update_cpu (ks m) (d / 32) (fun c =>
          mkCpuData (currentTask c) (defaultKernelStack c) sp user_stack);
    m ← swapgs (with_ks m s);
    let frame := mkInterruptFrame entry (Z.lor __USER_CS 3) 0x200 user_stack (Z.lor __USER_DS 3) in
    Done (mkMachine (ks m) (gsbase m) (kgsbase m) (Z.land (hw_cs frame) 3)
            (Z.testbit (hw_rflags frame) 9), frame)
  else Fault.

(** [KernelEntryParams] in memory: the pointer to the ELF segments at its start, the kernel
    stack at byte 80, 96 bytes in all. *)
Definition sizeof_KernelEntryParams : Z := 96.
Definition offsetof_kernelElfSegments : Z := 0.
Definition offsetof_kernelStack : Z := 80.

(** [params] is the argument, [g_params] the address of [g_kernelEntryParameters],
    [user_stack] that of [__usermodeKernelEntryStack]; the base of the first ELF segment is
    the first member of the first segment.  Returns the core, the memory, the new
    [__kern_phys_base], the serial ports and the frame it continues in. *)
Definition _kentry (g_params params user_entry user_stack sp : Z) (mem : gmap Z Z) (k : core_state) (io : serial)
  : outcome (core_state * gmap Z Z * Z * serial * InterruptFrame) :=
  kernelStack ← load64 mem (params ⊞ offsetof_kernelStack);
  let kernelStackTop := kernelStack ⊞ PAGE_SIZE in
  mem ← memcpy mem g_params params sizeof_KernelEntryParams;
  k ← install_gdt BSP_CPU_ID kernelStackTop k;
  k ← enable_syscalls k;
  kernelElfSegments ← load64 mem (params ⊞ offsetof_kernelElfSegments);
  __kern_phys_base ← load64 mem kernelElfSegments;
  let io := initializeSerialPort SERIAL_PORT_BASE_COM1 io in
  let io := initializeSerialPort SERIAL_PORT_BASE_COM2 io in
  let io := initializeSerialPort SERIAL_PORT_BASE_COM3 io in
  let io := initializeSerialPort SERIAL_PORT_BASE_COM4 io in
  k ← init_swapper BSP_CPU_ID 1 k;
  '(m, frame) ← __call_lowered_entry sp user_entry (user_stack ⊞ USERMODE_KERNEL_ENTRY_STACK_SIZE) (ce_mc k);
  Done (with_mc_core k m, mem, __kern_phys_base, io, frame).

(** [apKernelStack] and [usermodeStack] are what [zallocPages] returns, [root] is
    [paging::g_kernelRootPageTable]. *)
Definition apStartupEntryC (apicid apKernelStack usermodeStack root user_entry sp : Z) (k : core_state)
  : outcome (core_state * InterruptFrame) :=
  let apKernelStackTop := apKernelStack ⊞ 2 * PAGE_SIZE in
  k ← install_gdt apicid apKernelStackTop k;
  k ← init_swapper apicid apicid k;
  k ← loadIdtr k;
  m ← enableInterrupts (ce_mc k);
  k ← enable_syscalls (with_mc_core k m);
  let m := with_ks (ce_mc k) (write_cr3 (ks (ce_mc k)) (setCurrentTopLevelPageTable off root)) in
  '(m, frame) ← __call_lowered_entry sp user_entry (usermodeStack ⊞ 8 * PAGE_SIZE) m;
  Done (with_mc_core k m, frame).

(** The start of [_kuser_entry]: the IDT is loaded and interrupts are enabled, elevated. *)
Definition load_idt_elevated (k : core_state) : outcome core_state :=
  m ← RUN_ELEVATED per_cpu_data (fun m =>
        k' ← loadIdtr (with_mc_core k m); enableInterrupts (ce_mc k')) (ce_mc k);
  Done (mkCore (ce_gdts k) (ce_regs k) m g_kernelIdtDescriptor).
End entry.

(** ** The reservations of [_kuser_entry]

    [params] is the address of [g_kernelEntryParameters]; the difference of the two symbol
    addresses is a difference of pointers to 8-byte words. *)
Definition ksym_pages (ksymstart ksymend : Z) : Z := (ksymend - ksymstart) / 8 / PAGE_SIZE + 1.

Definition reserve_kernel_pages (off params ksymstart ksymend font segments fbBase fbSize : Z)
    (p : PageFrameAllocator) : outcome PageFrameAllocator :=
  p ← lockPage off p params;
  p ← lockPages off p ksymstart (ksym_pages ksymstart ksymend);
  p ← lockPage off p font;
  p ← lockPages off p segments (ksym_pages ksymstart ksymend);
  lockPages off p fbBase (fbSize / PAGE_SIZE + 1).

(** ** The keyboard's line

    The entry is zeroed, then its vector and its destination are set. *)
Definition IRQ1 : Z := 33.
Definition route_keyboard (hw : IoApicHw) (self : IoApic) : IoApicHw * bool :=
  let entry := fields_of 0 in
  let entry := mkRedir IRQ1 (delvMode entry) (destMode entry) (delvStatus entry) (pinPolarity entry)
                 (remoteIRR entry) (triggerMode entry) (mask entry) (reserved entry) BSP_CPU_ID in
  writeRedirectionEntry hw self 1 (of_fields entry).

(** ** Facts *)

(** The parameters [bs] at [params], with the kernel stack and the base of the first segment
    they lead to, apart from the kernel's own block for them. *)
Record params_at (m : gmap Z Z) (g_params params : Z) (bs : list Z) (stack pb : Z) : Prop := {
  pa_wf : mem_wf m;
  pa_range : 0 <= params < 0x10000000000000000;
  pa_block : read_bytes m params 96 = Some bs;
  pa_own : mapped m g_params 96;
  pa_apart : g_params + 96 <= params \/ params + 96 <= g_params;
  pa_stack : load64 m (params ⊞ 80) = Done stack;
  pa_segment : exists segs, load64 m params = Done segs /\ load64 m segs = Done pb /\
    (segs + 8 <= g_params \/ g_params + 96 <= segs) }.

Lemma params_read m g_params params bs stack pb : params_at m g_params params bs stack pb ->
  exists segs, load64 m (params ⊞ offsetof_kernelStack) = Done stack /\
    memcpy m g_params params sizeof_KernelEntryParams = Done (put_bytes m g_params bs) /\
    load64 (put_bytes m g_params bs) (params ⊞ offsetof_kernelElfSegments) = Done segs /\
    load64 (put_bytes m g_params bs) segs = Done pb.
Proof.
  intros [Hw Hr Hb Ho Ha Hs (segs & E1 & E2 & Hd)]. exists segs.
  pose proof (read_bytes_length _ _ _ _ Hb) as Lb.
  assert (params ⊞ offsetof_kernelElfSegments = params) as -> by (unfold offsetof_kernelElfSegments; wordlia).
  split_and!; [exact Hs| |rewrite load64_put_other by lia; exact E1|rewrite load64_put_other by lia; exact E2].
  apply memcpy_forward; [done|unfold sizeof_KernelEntryParams; lia|done|done|unfold sizeof_KernelEntryParams; lia].
Qed.

Definition swapper_pcb (p : PCB) (cpu pidv : Z) : PCB :=
  mkPCB swapper_context RUNNING pidv (priority p) (pcr3 p) (kernelStack p) (usergs p) 0 (u8 cpu).

Section facts.
Context (gdt_array per_cpu_data swapper_tasks entry64 off : Z) (idt : Z * Z).
Abbreviation sw := (swapper swapper_tasks).

Lemma update_pcb_run s t p f : pcbs s !! t = Some p ->
  update_pcb s t f = Done (mkKstate (<[t := f p]> (pcbs s)) (cpus s) (Process.cr3 s)).
Proof. intros Hp. unfold update_pcb. by rewrite Hp. Qed.

Lemma update_cpu_run s cpu d f : cpu_entry s cpu = Done d ->
  update_cpu s cpu f = Done (mkKstate (pcbs s) (<[Z.to_nat cpu := f d]> (cpus s)) (Process.cr3 s)).
Proof. intros Hd. unfold update_cpu. by rewrite Hd. Qed.

Lemma cpu_entry_insert s cpu d d' b c : cpu_entry s cpu = Done d ->
  cpu_entry (mkKstate b (<[Z.to_nat cpu := d']> (cpus s)) c) cpu = Done d'.
Proof.
  intros [Hc Hd]%cpu_entry_some. apply cpu_entry_some. split; [done|].
  apply list_lookup_insert_eq. by eapply lookup_lt_Some.
Qed.

Lemma init_swapper_run cpu pidv k p d :
  pcbs (ks (ce_mc k)) !! sw cpu = Some p -> cpu_entry (ks (ce_mc k)) cpu = Done d ->
  init_swapper swapper_tasks cpu pidv k = Done (with_mc_core k (with_ks (ce_mc k)
    (mkKstate (<[sw cpu := swapper_pcb p cpu pidv]> (pcbs (ks (ce_mc k))))
       (<[Z.to_nat cpu := set_currentTask d (sw cpu)]> (cpus (ks (ce_mc k)))) (Process.cr3 (ks (ce_mc k)))))).
Proof.
  intros Hp Hd. unfold init_swapper. cbv zeta.
  rewrite (update_pcb_run _ _ p) by done. cbn [mbind outcome_bind].
  do 3 (erewrite update_pcb_run by (cbn [pcbs]; apply lookup_insert_eq); cbn [mbind outcome_bind pcbs cpus Process.cr3]).
  erewrite update_cpu_run by exact Hd. cbn [mbind outcome_bind pcbs cpus Process.cr3].
  erewrite (cpu_entry_insert (ks (ce_mc k))) by exact Hd. cbn [mbind outcome_bind currentTask set_currentTask].
  erewrite update_pcb_run by (cbn [pcbs]; apply lookup_insert_eq). cbn [mbind outcome_bind pcbs cpus Process.cr3].
  by rewrite !insert_insert_eq.
Qed.

(** The core before its start: the arrays are in place and the swapper's block exists. *)
Record core_ready (cpu : Z) (k : core_state) : Prop := {
  cr_arrays : arrays_ok gdt_array per_cpu_data (mkGdtState (ce_gdts k) (cpus (ks (ce_mc k))) (ce_regs k));
  cr_cpu : 0 <= cpu < MAX_CPUS;
  cr_task : is_Some (pcbs (ks (ce_mc k)) !! sw cpu);
  cr_ring : ring (ce_mc k) = 0;
  cr_entry : is_u64 entry64;
}.

Lemma install_gdt_run cpu st k : core_ready cpu k ->
  exists g r d, install_gdt gdt_array per_cpu_data cpu st k = Done (mkCore g r
    (mkMachine (mkKstate (pcbs (ks (ce_mc k))) (<[Z.to_nat cpu := with_stack d (u64 st)]> (cpus (ks (ce_mc k))))
      (Process.cr3 (ks (ce_mc k)))) (cpu_gs per_cpu_data cpu) (cpu_gs per_cpu_data cpu) 0 (interrupts (ce_mc k)))
    (ce_idtr k)) /\ msrs_ok (msrs r) /\ cpu_entry (ks (ce_mc k)) cpu = Done d.
Proof.
  intros [Ha Hc _ Hr _]. destruct (install_run gdt_array per_cpu_data _ cpu st Ha Hc) as (old & d & Hd & E & Hm).
  cbv zeta in E, Hm. cbn [core per_cpu g_gdtPerCpuArray] in *. unfold install_gdt. cbv zeta. rewrite E.
  cbn [mbind outcome_bind core msrs per_cpu g_gdtPerCpuArray]. set (ms := <[IA32_KERNEL_GS_BASE := _]> _) in *.
  assert (is_u64 (per_cpu_addr per_cpu_data cpu)) as Hu.
  { eapply (mk_words _ Hm IA32_KERNEL_GS_BASE). apply lookup_insert_eq. }
  rewrite (readMsr_run ms IA32_GS_BASE (per_cpu_addr per_cpu_data cpu)); [|unfold ms; rewrite lookup_insert_ne by done; apply lookup_insert_eq|done].
  cbn [mbind outcome_bind]. rewrite (readMsr_run ms IA32_KERNEL_GS_BASE (per_cpu_addr per_cpu_data cpu)); [|apply lookup_insert_eq|done].
  cbn [mbind outcome_bind]. assert (per_cpu_addr per_cpu_data cpu = cpu_gs per_cpu_data cpu) as -> by (unfold per_cpu_addr, cpu_gs; lia).
  rewrite Hr. eexists _, _, d. split; [done|]. split; [exact Hm|]. apply cpu_entry_some. split; [lia|done].
Qed.

(** The system call registers of a core that is ready for system calls. *)
Definition syscalls_on (ms : gmap Z Z) : Prop :=
  ms !! IA32_LSTAR = Some entry64 /\ ms !! IA32_FMASK = Some 0x200 /\
  exists efer, ms !! IA32_EFER = Some efer /\ Z.testbit efer 0 = true.

Lemma enable_syscalls_run k : msrs_ok (msrs (ce_regs k)) -> is_u64 entry64 ->
  exists r, enable_syscalls entry64 k = Done (mkCore (ce_gdts k) r (ce_mc k) (ce_idtr k)) /\ syscalls_on (msrs r).
Proof.
  intros Hm He. unfold enable_syscalls, enableSyscallInterface. rewrite star_value.
  destruct (writeMsr_ok (msrs (ce_regs k)) IA32_STAR 0x0023000800000000 Hm ltac:(unfold is_u64; lia) ltac:(set_solver)) as [E1 Hm1].
  destruct (writeMsr_ok _ IA32_LSTAR entry64 Hm1 He ltac:(set_solver)) as [E2 Hm2].
  destruct (writeMsr_ok _ IA32_FMASK 0x200 Hm2 ltac:(unfold is_u64; lia) ltac:(set_solver)) as [E3 Hm3].
  rewrite E1. cbn [mbind outcome_bind]. rewrite E2. cbn [mbind outcome_bind]. rewrite E3. cbn [mbind outcome_bind].
  set (ms := <[IA32_FMASK := _]> _) in *.
  assert (is_Some (ms !! IA32_EFER)) as [efer Hef].
  { pose proof (mk_present _ Hm3) as Hp. rewrite Forall_forall in Hp. apply Hp. set_solver. }
  assert (is_u64 efer) as Hue by (eapply (mk_words _ Hm3); exact Hef).
  rewrite (readMsr_run ms IA32_EFER efer) by done. cbn [mbind outcome_bind].
  assert (is_u64 (Z.lor efer IA32_EFER_SCE)) as Hv.
  { unfold is_u64, IA32_EFER_SCE in *. change 0x10000000000000000 with (2 ^ 64) in *.
    split; [apply Z.lor_nonneg; lia|]. apply Z.log2_lt_cancel. rewrite Z.log2_lor by lia.
    rewrite Z.log2_pow2 by lia. apply Z.max_lub_lt; [|done].
    destruct (Z.eq_dec efer 0) as [->|]; [done|]. apply Z.log2_lt_pow2; lia. }
  destruct (writeMsr_ok _ IA32_EFER _ Hm3 Hv ltac:(set_solver)) as [E4 _]. rewrite E4. cbn [mbind outcome_bind].
  eexists. split; [reflexivity|]. cbn [msrs]. unfold syscalls_on, ms. split_and!.
  - by rewrite lookup_insert_ne, lookup_insert_ne, lookup_insert_eq by done.
  - by rewrite lookup_insert_ne, lookup_insert_eq by done.
  - eexists. split; [apply lookup_insert_eq|]. rewrite Z.lor_spec. unfold IA32_EFER_SCE. by rewrite orb_true_r.
Qed.

Lemma call_lowered_run cpu m d sp e u : 0 <= cpu ->
  gsbase m = cpu_gs per_cpu_data cpu -> kgsbase m = cpu_gs per_cpu_data cpu -> ring m = 0 ->
  cpu_entry (ks m) cpu = Done d ->
  __call_lowered_entry per_cpu_data sp e u m = Done
    (mkMachine (mkKstate (pcbs (ks m)) (<[Z.to_nat cpu := mkCpuData (currentTask d) (defaultKernelStack d) sp u]> (cpus (ks m)))
       (Process.cr3 (ks m))) (cpu_gs per_cpu_data cpu) (cpu_gs per_cpu_data cpu) 3 true,
     mkInterruptFrame e 0x33 0x200 u 0x2b).
Proof.
  intros Hc Hg Hk Hr Hd. unfold __call_lowered_entry. rewrite Hg. unfold cpu_gs at 1 2 3.
  replace (per_cpu_data + 32 * cpu - per_cpu_data) with (cpu * 32) by lia.
  rewrite Z_mod_mult, Z.div_mul by lia. rewrite (proj2 (Z.leb_le 0 _)) by lia. cbn [andb Z.eqb].
  rewrite (update_cpu_run _ _ d) by done. cbn [mbind outcome_bind].
  rewrite swapgs_same by (cbn; congruence). cbn [mbind outcome_bind with_ks ks gsbase kgsbase].
  by rewrite Hg, Hk.
Qed.

(** A core that has been started: its swapper runs as a lowered kernel thread, its stacks
    and its system call registers are in place. *)
Record core_started (cpu pidv top sp ustack : Z) (k : core_state) : Prop := {
  st_thread : exists p, thread_ok per_cpu_data cpu (sw cpu) p (ce_mc k) /\ pstate p = RUNNING /\
    pid p = pidv /\ pcpu p = cpu /\ elevated p = 0 /\ context p = swapper_context;
  st_stacks : exists d, cpu_entry (ks (ce_mc k)) cpu = Done d /\ currentTask d = sw cpu /\
    defaultKernelStack d = u64 top /\ currentKernelStack d = sp /\ currentUserStack d = ustack;
  st_irq : interrupts (ce_mc k) = true;
  st_syscalls : syscalls_on (msrs (ce_regs k));
}.

(** The core after [install_gdt], [init_swapper] and the lowered call, whatever happens to
    the other registers in between. *)
Definition started_machine (cpu pidv top sp ustack : Z) (p : PCB) (d : CpuData) (b : gmap Z PCB)
    (c : list CpuData) (table : Z) : machine :=
  mkMachine (mkKstate (<[sw cpu := swapper_pcb p cpu pidv]> b)
    (<[Z.to_nat cpu := mkCpuData (sw cpu) (u64 top) sp ustack]> c) table)
    (cpu_gs per_cpu_data cpu) (cpu_gs per_cpu_data cpu) 3 true.

Lemma started_ok cpu pidv top sp ustack p d b c table g r i : 0 <= cpu < MAX_CPUS -> c !! Z.to_nat cpu = Some d ->
  syscalls_on (msrs r) ->
  core_started cpu pidv top sp ustack (mkCore g r (started_machine cpu pidv top sp ustack p d b c table) i).
Proof.
  intros Hc Hd Hs. unfold MAX_CPUS in Hc.
  assert (forall b t, cpu_entry (mkKstate b (<[Z.to_nat cpu := mkCpuData (sw cpu) (u64 top) sp ustack]> c) t) cpu
    = Done (mkCpuData (sw cpu) (u64 top) sp ustack)) as He.
  { intros b' t. apply (cpu_entry_insert (mkKstate ∅ c 0) cpu d). apply cpu_entry_some. split; [lia|done]. }
  split; [|eexists; split; [apply He|done]|done|done].
  exists (swapper_pcb p cpu pidv). split; [split|split_and!]; cbn; try done.
  - eexists. split; [apply He|done].
  - apply lookup_insert_eq.
  - by left.
  - apply u8_small. unfold is_u8. lia.
Qed.

Lemma kentry_run g_params params bs stack pb ue us sp m k io :
  params_at m g_params params bs stack pb -> core_ready 0 k ->
  exists k' io' d p, _kentry gdt_array per_cpu_data swapper_tasks entry64 g_params params ue us sp m k io =
      Done (k', put_bytes m g_params bs, pb, io', mkInterruptFrame ue 0x33 0x200 (us ⊞ USERMODE_KERNEL_ENTRY_STACK_SIZE) 0x2b) /\
    pcbs (ks (ce_mc k)) !! sw 0 = Some p /\
    ce_mc k' = started_machine 0 1 (stack ⊞ PAGE_SIZE) sp (us ⊞ USERMODE_KERNEL_ENTRY_STACK_SIZE) p d
      (pcbs (ks (ce_mc k))) (cpus (ks (ce_mc k))) (Process.cr3 (ks (ce_mc k))) /\
    ce_idtr k' = ce_idtr k /\
    core_started 0 1 (stack ⊞ PAGE_SIZE) sp (us ⊞ USERMODE_KERNEL_ENTRY_STACK_SIZE) k'.
Proof.
  intros Hp0 Hk. destruct (install_gdt_run 0 (stack ⊞ PAGE_SIZE) k Hk) as (g & r & d & E1 & Hm & Hd).
  destruct (cr_task _ _ Hk) as [p Hp]. pose proof (cr_cpu _ _ Hk) as Hc.
  destruct (params_read _ _ _ _ _ _ Hp0) as (segs & Es & Ec & El & Eb).
  unfold _kentry, BSP_CPU_ID. rewrite Es. cbn [mbind outcome_bind]. rewrite Ec. cbn [mbind outcome_bind].
  rewrite E1. cbn [mbind outcome_bind].
  destruct (enable_syscalls_run (mkCore g r (mkMachine (mkKstate (pcbs (ks (ce_mc k)))
    (<[Z.to_nat 0 := with_stack d (u64 (stack ⊞ PAGE_SIZE))]> (cpus (ks (ce_mc k)))) (Process.cr3 (ks (ce_mc k))))
    (cpu_gs per_cpu_data 0) (cpu_gs per_cpu_data 0) 0 (interrupts (ce_mc k))) (ce_idtr k)) Hm (cr_entry _ _ Hk))
    as (r' & E2 & Hs). rewrite E2. cbn [mbind outcome_bind]. rewrite El. cbn [mbind outcome_bind].
  rewrite Eb. cbn [mbind outcome_bind].
  rewrite (init_swapper_run 0 1 _ p (with_stack d (u64 (stack ⊞ PAGE_SIZE)))) by
    (exact Hp || (cbn [ce_mc ks]; by apply (cpu_entry_insert (ks (ce_mc k)) 0 d))).
  cbn [mbind outcome_bind ce_mc ks with_mc_core with_ks pcbs cpus Process.cr3].
  rewrite (call_lowered_run 0 _ (set_currentTask (with_stack d (u64 (stack ⊞ PAGE_SIZE))) (sw 0)));
    [|lia|done|done|done|cbn [ks with_ks]; rewrite list_insert_insert_eq; by apply (cpu_entry_insert (ks (ce_mc k)) 0 d)].
  cbn [mbind outcome_bind ks with_ks pcbs cpus Process.cr3]. rewrite !list_insert_insert_eq.
  eexists _, _, d, p. split; [reflexivity|]. split; [done|]. split; [reflexivity|]. split; [reflexivity|].
  unfold with_mc_core. apply (started_ok 0 1 _ _ _ p d); [done| |exact Hs].
  apply cpu_entry_some in Hd as [_ Hd]. exact Hd.
Qed.

Lemma apStartup_run cpu stack ustack root ue sp k : core_ready cpu k ->
  exists k' d p, apStartupEntryC gdt_array per_cpu_data swapper_tasks entry64 off idt cpu stack ustack root ue sp k =
      Done (k', mkInterruptFrame ue 0x33 0x200 (ustack ⊞ 8 * PAGE_SIZE) 0x2b) /\
    pcbs (ks (ce_mc k)) !! sw cpu = Some p /\
    ce_mc k' = started_machine cpu cpu (stack ⊞ 2 * PAGE_SIZE) sp (ustack ⊞ 8 * PAGE_SIZE) p d
      (pcbs (ks (ce_mc k))) (cpus (ks (ce_mc k))) (setCurrentTopLevelPageTable off root) /\
    ce_idtr k' = idt /\
    core_started cpu cpu (stack ⊞ 2 * PAGE_SIZE) sp (ustack ⊞ 8 * PAGE_SIZE) k'.
Proof.
  intros Hk. destruct (install_gdt_run cpu (stack ⊞ 2 * PAGE_SIZE) k Hk) as (g & r & d & E1 & Hm & Hd).
  destruct (cr_task _ _ Hk) as [p Hp]. pose proof (cr_cpu _ _ Hk) as Hc.
  unfold apStartupEntryC. rewrite E1. cbn [mbind outcome_bind].
  rewrite (init_swapper_run cpu cpu _ p (with_stack d (u64 (stack ⊞ 2 * PAGE_SIZE)))) by
    (exact Hp || (cbn [ce_mc ks]; by apply (cpu_entry_insert (ks (ce_mc k)) cpu d))).
  unfold loadIdtr, enableInterrupts, set_interrupts.
  cbn [mbind outcome_bind ce_mc ks with_mc_core with_ks ring Z.eqb ce_gdts ce_regs ce_idtr].
  match goal with |- context[enable_syscalls entry64 ?kk] => destruct (enable_syscalls_run kk Hm (cr_entry _ _ Hk)) as (r' & E2 & Hs) end.
  rewrite E2. cbn [mbind outcome_bind ce_mc ks with_mc_core with_ks pcbs cpus Process.cr3 gsbase kgsbase ring interrupts ce_idtr ce_gdts write_cr3].
  rewrite (call_lowered_run cpu _ (set_currentTask (with_stack d (u64 (stack ⊞ 2 * PAGE_SIZE))) (sw cpu)));
    [|lia|done|done|done|cbn [ks with_ks write_cr3 pcbs cpus]; rewrite list_insert_insert_eq; by apply (cpu_entry_insert (ks (ce_mc k)) cpu d)].
  cbn [mbind outcome_bind ks with_ks pcbs cpus Process.cr3 write_cr3]. rewrite !list_insert_insert_eq.
  eexists _, d, p. split; [reflexivity|]. split; [done|]. split; [reflexivity|]. split; [reflexivity|].
  unfold with_mc_core. apply (started_ok cpu cpu _ _ _ p d); [done| |exact Hs].
  apply cpu_entry_some in Hd as [_ Hd]. exact Hd.
Qed.
End facts.

(** ** Into the scheduler *)
Section scheduled.
Context (gdt_array per_cpu_data swapper_tasks entry64 off : Z) (idt : Z * Z).
Abbreviation sw := (swapper swapper_tasks).

(** A scheduler with room for all cores, no lock held. *)
Record sched_ready (s : sys) : Prop := {
  sr_repr : repr true (m_runQueues s) [];
  sr_cap : (64 <= m_capacity (m_runQueues s))%nat;
  sr_lock : sched_lock s = 0;
}.

(** The core has a run queue of its own with only its swapper in it. *)
Record queue_registered (cpu rq : Z) (s : sys) : Prop := {
  qr_ptr : vector_index (m_runQueues s) (Z.to_nat cpu) = Done rq;
  qr_queue : exists q, queues s !! rq = Some q /\ repr true (m_tasks q) [sw cpu] /\ m_currentTaskIndex q = 0;
  qr_lock : sched_lock s = 0;
}.

Lemma registerCpuCore_run cpu rq s : 0 <= cpu < MAX_CPUS -> rq <> 0 -> sched_ready s ->
  exists s', registerCpuCore swapper_tasks true rq cpu s = Done s' /\ mc s' = mc s /\ sched_ready s' /\
    queue_registered cpu rq s' /\
    (forall j, j <> Z.to_nat cpu -> vector_index (m_runQueues s') j = vector_index (m_runQueues s) j) /\
    (forall r, r <> rq -> queues s' !! r = queues s !! r) /\
    m_usableCpuCount s' = m_usableCpuCount s ⊞ 1 /\ balancing_lock s' = balancing_lock s.
Proof.
  intros Hc Hr [Hv Hcap Hl]. unfold registerCpuCore, bad_cpu. unfold MAX_CPUS in *.
  rewrite (proj2 (Z.ltb_ge cpu 0)), (proj2 (Z.leb_gt 64 cpu)), (proj2 (Z.eqb_neq rq 0)) by lia. cbn [orb].
  destruct (store_spare true (m_runQueues s) [] (Z.to_nat cpu) rq eq_refl Hv) as (v' & E & Hv' & Hc' & Hi & Ho);
    [cbn [length]; lia|].
  cbn [with_queue m_runQueues]. rewrite E. cbn [mbind outcome_bind with_runQueues queues].
  assert (queues (with_queue s rq new_queue) !! rq = Some new_queue) as -> by apply lookup_insert_eq.
  cbn [mbind outcome_bind need]. change (rq_size new_queue =? 0)%nat with true. cbv iota.
  destruct (pushBack_repr true sizeof_pointer vector_new [] (sw cpu) (repr_new true) eq_refl eq_refl) as (t & Et & Ht).
  assert (rq_addTask true new_queue (sw cpu) = Done (true, mkQueue t 0)) as ->
    by (unfold rq_addTask; cbn [new_queue m_tasks]; by rewrite Et).
  cbn [mbind outcome_bind snd].
  eexists. split; [reflexivity|]. split; [done|]. split; [split; cbn; [done|by rewrite Hc'|done]|]. split.
  - split; cbn; [exact Hi| |done]. exists (mkQueue t 0). split; [apply lookup_insert_eq|]. by split.
  - split; [exact Ho|]. split; [|by split]. intros r Hne. cbn. by rewrite !lookup_insert_ne by done.
Qed.

(** A started core whose queue is registered under its own number is in step with the
    scheduler. *)
Lemma started_core_ok cpu rq pidv top sp ustack s k : 0 <= cpu < MAX_CPUS -> sw cpu <> 0 ->
  core_started per_cpu_data swapper_tasks entry64 cpu pidv top sp ustack k ->
  queue_registered cpu rq s -> mc s = ce_mc k ->
  exists q d, core_ok per_cpu_data s cpu rq q [sw cpu] 0 d.
Proof.
  intros Hc H0 [Ht (d & Hd & Hcur & _) _ _] [Hp (q & Hq & Hrq & Hi) Hl] Hm.
  destruct Ht as (p & [_ Hpcb Hg _ _ _] & _ & _ & Hpc & _). exists q, d.
  assert (tasks_of s !! sw cpu = Some p) as Htask by (unfold tasks_of; rewrite Hm; exact Hpcb).
  split.
  - split; try done.
    + unfold MAX_QUEUED_PROCESSES. cbn [length]. lia.
    + apply Forall_singleton. eauto.
  - apply NoDup_singleton.
  - rewrite list_elem_of_singleton. congruence.
  - by rewrite Hm.
  - by rewrite Hm.
  - apply Forall_singleton. rewrite Htask. cbn. by rewrite Hpc.
  - cbn. by rewrite Hcur.
Qed.

(** A lowered thread [t] after an elevation: its saved gs base is that of the core, and a
    further elevation changes nothing. *)
Definition settled_as (cpu t : Z) (m : machine) : Prop := exists p,
  thread_ok per_cpu_data cpu t p m /\ elevated p = 0 /\ usergs p = cpu_gs per_cpu_data cpu.
Definition settled (cpu : Z) (m : machine) : Prop := settled_as cpu (sw cpu) m.

(** Loading the IDT from the lowered thread leaves the core started. *)
Lemma load_idt_run cpu pidv top sp ustack k :
  core_started per_cpu_data swapper_tasks entry64 cpu pidv top sp ustack k ->
  exists k', load_idt_elevated per_cpu_data idt k = Done k' /\ ce_idtr k' = idt /\
    core_started per_cpu_data swapper_tasks entry64 cpu pidv top sp ustack k' /\
    settled cpu (ce_mc k') /\ ce_regs k' = ce_regs k /\ Process.cr3 (ks (ce_mc k')) = Process.cr3 (ks (ce_mc k)).
Proof.
  intros [(p & Ht & H1 & H2 & H3 & H4 & H5) Hd _ Hs].
  set (code := fun m => k' ← loadIdtr idt (with_mc_core k m); enableInterrupts (ce_mc k')).
  assert (forall m, ring m = 0 -> code m = Done (mkMachine (ks m) (gsbase m) (kgsbase m) 0 true)) as Hcode.
  { intros m Hm. unfold code, loadIdtr, enableInterrupts, set_interrupts. cbn [with_mc_core ce_mc]. rewrite Hm.
    cbn [Z.eqb mbind outcome_bind ce_mc]. by rewrite Hm. }
  assert (elevated_code per_cpu_data cpu (sw cpu) code) as He.
  { intros m q Hq Hel. pose proof (tk_ring _ _ _ _ _ Hq) as Hr. rewrite Hel in Hr. cbn in Hr.
    exists (mkMachine (ks m) (gsbase m) (kgsbase m) 0 true), q. split; [by apply Hcode|].
    split; [|done]. destruct Hq. split; cbn; try done. by rewrite Hel. }
  destruct (run_elevated_lowered per_cpu_data cpu (sw cpu) code (ce_mc k) p Ht H4 He)
    as (m1 & m2 & p2 & Em1 & Ec & Hm2 & ER).
  rewrite Hcode in Ec by (by rewrite Em1). injection Ec as <-.
  pose proof (tk_pcb _ _ _ _ _ Hm2) as Hp2. rewrite Em1 in Hp2. cbn in Hp2. rewrite lookup_insert_eq in Hp2.
  injection Hp2 as <-.
  eexists. unfold load_idt_elevated. fold code. rewrite ER. cbn [mbind outcome_bind].
  split; [reflexivity|]. split; [done|]. rewrite Em1.
  set (p1 := set_elevated (set_usergs (set_elevated p 1) (cpu_gs per_cpu_data cpu)) 0).
  match goal with |- context [mkCore _ _ ?m _] =>
    assert (thread_ok per_cpu_data cpu (sw cpu) p1 m) as Hp1 end.
  { destruct Ht as [Hc Hp Hg Hk _ _]. split; cbn; [exact Hc|apply lookup_insert_eq|done|done|by left|done]. }
  split; [|split; [by exists p1|done]].
  split; [exists p1; by split_and!|exact Hd|done|done].
Qed.

(** C19 (invariant): the boot core reaches the state the rest of the kernel relies on.  From
    any firmware state, [_kentry] leaves a copy of the parameters it was given in the
    kernel's own block, changes no other byte of memory and ends as a lowered thread of the
    swapper task, with the physical base of the kernel, the per-cpu block, the stacks and the system call registers in place (so [RUN_ELEVATED]
    works); interrupts are on there while the table register still holds the firmware's
    IDT, which the first elevated block replaces; after [init] of the scheduler the core is
    in step with its run queue, which holds the swapper alone. *)
Theorem boot_core_scheduled g_params params bs stack pb ue us sp m k io s rq :
  params_at m g_params params bs stack pb -> core_ready gdt_array per_cpu_data swapper_tasks entry64 0 k -> sw 0 <> 0 -> rq <> 0 ->
  repr true (m_runQueues s) [] -> sched_lock s = 0 ->
  let top := stack ⊞ PAGE_SIZE in
  let ustack := us ⊞ USERMODE_KERNEL_ENTRY_STACK_SIZE in
  exists k1 m1 io1 k2 s' q d,
    _kentry gdt_array per_cpu_data swapper_tasks entry64 g_params params ue us sp m k io =
      Done (k1, m1, pb, io1, mkInterruptFrame ue (Z.lor __USER_CS 3) 0x200 ustack (Z.lor __USER_DS 3)) /\
    read_bytes m1 g_params 96 = Some bs /\
    (forall a, ~ g_params <= a < g_params + 96 -> m1 !! a = m !! a) /\
    core_started per_cpu_data swapper_tasks entry64 0 1 top sp ustack k1 /\ ce_idtr k1 = ce_idtr k /\
    load_idt_elevated per_cpu_data idt k1 = Done k2 /\ ce_idtr k2 = idt /\
    core_started per_cpu_data swapper_tasks entry64 0 1 top sp ustack k2 /\
    sched_init swapper_tasks true rq (with_mc s (ce_mc k2)) = Done s' /\ mc s' = ce_mc k2 /\
    core_ok per_cpu_data s' 0 rq q [sw 0] 0 d.
Proof.
  intros Hp Hk H0 Hrq Hv Hl top ustack.
  destruct (kentry_run gdt_array per_cpu_data swapper_tasks entry64 g_params params bs stack pb ue us sp m k io Hp Hk)
    as (k1 & io1 & d1 & p1 & E1 & _ & _ & Hi & Hst).
  destruct (load_idt_run _ _ _ _ _ _ Hst) as (k2 & E2 & Hi2 & Hst2 & _).
  destruct (reserve_repr true sizeof_pointer (m_runQueues s) [] (Z.to_nat MAX_CPUS) Hv eq_refl eq_refl) as (v & Ev & Hrv & Hcap).
  destruct (registerCpuCore_run 0 rq (with_runQueues (with_mc s (ce_mc k2)) v)) as (s' & E3 & Hm & _ & Hqr & _);
    [unfold MAX_CPUS; lia|done|split; [done|exact Hcap|done]|].
  destruct (started_core_ok 0 rq _ _ _ _ s' k2 ltac:(unfold MAX_CPUS; lia) H0 Hst2 Hqr) as (q & d & Hok); [by rewrite Hm|].
  pose proof (read_bytes_length _ _ _ _ (pa_block _ _ _ _ _ _ Hp)) as Lb.
  exists k1, (put_bytes m g_params bs), io1, k2, s', q, d. split_and!; try done.
  { rewrite <- Lb. apply read_put_same. }
  { intros a Ha. apply lookup_put_bytes_out. lia. }
  unfold sched_init. cbn [with_mc m_runQueues]. rewrite Ev. cbn [mbind outcome_bind]. exact E3.
Qed.

Lemma unregistered_timer apicid pidv top sp ustack k s frame : 0 <= apicid < MAX_CPUS ->
  core_started per_cpu_data swapper_tasks entry64 apicid pidv top sp ustack k -> mc s = ce_mc k ->
  sched_lock s = 0 -> vector_index (m_runQueues s) (Z.to_nat apicid) = Fault ->
  _irq_handler_timer per_cpu_data off frame s = Fault.
Proof.
  intros Hc [(p & [Hcpu Hp Hg _ _ _] & _ & _ & Hpc & _) _ _ _] Hm Hl Hv. unfold MAX_CPUS in Hc.
  unfold _irq_handler_timer, current_cpu. rewrite (current_pcb_at per_cpu_data apicid (sw apicid) p)
    by (rewrite Hm; done). cbn [mbind outcome_bind]. rewrite Hpc. unfold getCurrentTask, bad_cpu, MAX_CPUS.
  rewrite (proj2 (Z.ltb_ge apicid 0)), (proj2 (Z.leb_gt 64 apicid)) by lia. cbn [orb].
  unfold lock_sched. rewrite Hl. cbn. unfold queue_ptr. cbn [with_sched_lock m_runQueues]. by rewrite Hv.
Qed.

(** C27 (safety): an application processor comes up in step with the scheduler exactly when
    its APIC id is its place in the processor table.  The boot processor registers a run
    queue under the place, the processor itself uses its id: when they agree the core ends
    [apStartupEntryC] in step with its queue; when no queue is registered under the id, its
    first timer interrupt reads an uninitialised queue pointer. *)
Theorem ap_core_scheduled cpu rq apicid stack ustack root ue sp k s frame :
  0 <= cpu < MAX_CPUS -> sw apicid <> 0 -> rq <> 0 -> sched_ready s ->
  core_ready gdt_array per_cpu_data swapper_tasks entry64 apicid k ->
  exists s1 k', registerCpuCore swapper_tasks true rq cpu s = Done s1 /\
    apStartupEntryC gdt_array per_cpu_data swapper_tasks entry64 off idt apicid stack ustack root ue sp k =
      Done (k', mkInterruptFrame ue (Z.lor __USER_CS 3) 0x200 (ustack ⊞ 8 * PAGE_SIZE) (Z.lor __USER_DS 3)) /\
    core_started per_cpu_data swapper_tasks entry64 apicid apicid (stack ⊞ 2 * PAGE_SIZE) sp (ustack ⊞ 8 * PAGE_SIZE) k' /\
    ce_idtr k' = idt /\
    (apicid = cpu -> exists q d, core_ok per_cpu_data (with_mc s1 (ce_mc k')) cpu rq q [sw cpu] 0 d) /\
    (apicid <> cpu -> vector_index (m_runQueues s) (Z.to_nat apicid) = Fault ->
       _irq_handler_timer per_cpu_data off frame (with_mc s1 (ce_mc k')) = Fault).
Proof.
  intros Hc H0 Hrq Hs Hk. destruct (registerCpuCore_run cpu rq s Hc Hrq Hs) as (s1 & E1 & Hm & Hs1 & Hqr & Ho & _).
  destruct (apStartup_run gdt_array per_cpu_data swapper_tasks entry64 off idt apicid stack ustack root ue sp k Hk)
    as (k' & d & p & E2 & _ & _ & Hi & Hst).
  exists s1, k'. split_and!; try done.
  - intros ->. apply (started_core_ok cpu rq _ _ _ _ (with_mc s1 (ce_mc k')) k' Hc H0 Hst); [|done].
    destruct Hqr. by split.
  - intros Hne Hv. pose proof (cr_cpu _ _ _ _ _ _ Hk) as Ha. eapply (unregistered_timer apicid); [done|exact Hst|done|apply Hs1|].
    cbn [with_mc m_runQueues]. rewrite Ho; [done|]. unfold MAX_CPUS in *. lia.
Qed.
End scheduled.

(** ** The reservations *)
Definition in_pages (first n i : Z) : bool := (first <=? i) && (i <? first + n).

Section reserve.
Context (off : Z).

(** The [n] pages from the kernel address [v] on lie inside the memory the allocator knows. *)
Definition fits (p : PageFrameAllocator) (v n : Z) : Prop :=
  1 <= n /\ virtToPhysAddr off v + (n - 1) * PAGE_SIZE < m_totalSystemMemory p.

Definition locks (v n : Z) (p p' : PageFrameAllocator) : Prop :=
  m_totalSystemMemory p' = m_totalSystemMemory p /\
  forall i, 0 <= i -> used p' i = in_pages (virtToPhysAddr off v / PAGE_SIZE) n i || used p i.

Lemma lockPage_locks p v : pfa_wf p -> fits p v 1 ->
  exists p', lockPage off p v = Done p' /\ pfa_wf p' /\ locks v 1 p p'.
Proof.
  intros H [_ Hf]. unfold lockPage. pose proof (u64_range (v - off)) as [Ha _]. fold (v ⊟ off) in Ha.
  destruct (lockPhysicalPage_spec p (virtToPhysAddr off v) H) as (p' & E & W & M1 & _ & _ & M4);
    [unfold virtToPhysAddr in *; lia|]. exists p'. split; [done|]. split; [done|]. split; [done|].
  intros i Hi. unfold used. rewrite M4 by done. unfold in_pages.
  destruct (Z.eqb_spec i (virtToPhysAddr off v / PAGE_SIZE)), (Z.leb_spec (virtToPhysAddr off v / PAGE_SIZE) i),
    (Z.ltb_spec i (virtToPhysAddr off v / PAGE_SIZE + 1)); (done || lia).
Qed.

Lemma lockPages_locks n : forall p v, pfa_wf p -> fits p v (Z.of_nat (S n)) ->
  exists p', each_page (lockPage off) p v (S n) = Done p' /\ pfa_wf p' /\ locks v (Z.of_nat (S n)) p p'.
Proof.
  induction n as [|n IH]; intros p v H Hf.
  - destruct (lockPage_locks p v H) as (p' & E & W & L); [by destruct Hf; split|].
    exists p'. cbn [each_page]. rewrite E. done.
  - destruct Hf as [_ Hf]. pose proof (u64_range (v - off)) as Ha. fold (v ⊟ off) in Ha.
    unfold virtToPhysAddr, PAGE_SIZE in *.
    destruct (lockPage_locks p v H) as (p1 & E1 & W1 & T1 & U1); [split; unfold virtToPhysAddr, PAGE_SIZE; lia|].
    assert ((v ⊞ 4096) ⊟ off = (v ⊟ off) + 4096) as Ev.
    { pose proof (wf_total _ H). destruct Ha as [Ha1 Ha2]. wordlia. }
    destruct (IH p1 (v ⊞ 4096) W1) as (p' & E & W & T & U);
      [split; unfold virtToPhysAddr, PAGE_SIZE; rewrite ?Ev; lia|].
    exists p'. remember (S n) as k. cbn [each_page]. rewrite E1. cbn [mbind outcome_bind].
    split; [exact E|]. split; [done|]. split; [by rewrite T|].
    intros i Hi. rewrite U, U1 by done. unfold virtToPhysAddr, in_pages, PAGE_SIZE. rewrite Ev.
    replace ((v ⊟ off + 4096) / 4096) with ((v ⊟ off) / 4096 + 1) by wordlia.
    set (f := (v ⊟ off) / 4096). rewrite orb_assoc. f_equal.
    destruct (Z.leb_spec (f + 1) i), (Z.ltb_spec i (f + 1 + Z.of_nat k)), (Z.leb_spec f i),
      (Z.ltb_spec i (f + 1)), (Z.ltb_spec i (f + Z.of_nat (S k))); (done || lia).
Qed.

Lemma lockPages_run p v n : pfa_wf p -> fits p v n ->
  exists p', lockPages off p v n = Done p' /\ pfa_wf p' /\ locks v n p p'.
Proof.
  intros H Hf. destruct (lockPages_locks (Z.to_nat (n - 1)) p v H) as (p' & E & Hp);
    [replace (Z.of_nat (S (Z.to_nat (n - 1)))) with n by (destruct Hf; lia); done|].
  replace (Z.of_nat (S (Z.to_nat (n - 1)))) with n in Hp by (destruct Hf; lia).
  exists p'. split; [|exact Hp]. unfold lockPages. by replace (Z.to_nat n) with (S (Z.to_nat (n - 1))) by (destruct Hf; lia).
Qed.

Lemma fits_locked v n w k p p' : locks w k p p' -> fits p v n -> fits p' v n.
Proof. intros [Ht _] [H1 H2]. split; [done|]. by rewrite Ht. Qed.

(** The reservations of the kernel entry return and mark exactly the pages that
    lie [off] below the addresses they are given: the parameters, the font, and, from the
    start of the kernel image and from the segment table, only an eighth of the pages of the
    image, since the symbols are subtracted as word pointers; the frame buffer's base is
    physical, so not its pages are marked but those 2^64 - [off] above it.  Every page outside
    these ranges, the rest of the kernel image and the frame buffer included, stays as it
    was. *)
Theorem kernel_reservations params ksymstart ksymend font segments fbBase fbSize p :
  let n := ksym_pages ksymstart ksymend in
  let fn := fbSize / PAGE_SIZE + 1 in
  let page v := virtToPhysAddr off v / PAGE_SIZE in
  pfa_wf p -> ksymstart <= ksymend -> 0 <= fbSize -> 0 <= fbBase < off -> off < 0x10000000000000000 ->
  fits p params 1 -> fits p ksymstart n -> fits p font 1 -> fits p segments n -> fits p fbBase fn ->
  exists p', reserve_kernel_pages off params ksymstart ksymend font segments fbBase fbSize p = Done p' /\
    pfa_wf p' /\
    (forall i, 0 <= i -> used p' i =
       in_pages (page params) 1 i || in_pages (page ksymstart) n i || in_pages (page font) 1 i ||
       in_pages (page segments) n i || in_pages ((fbBase + (0x10000000000000000 - off)) / PAGE_SIZE) fn i ||
       used p i) /\
    8 * PAGE_SIZE * (n - 1) <= ksymend - ksymstart < 8 * PAGE_SIZE * n.
Proof.
  intros n fn page H Hk Hs Hfb Hoff F1 F2 F3 F4 F5. unfold reserve_kernel_pages. fold n fn.
  destruct (lockPage_locks p params H F1) as (p1 & -> & W1 & L1). cbn [mbind outcome_bind].
  destruct (lockPages_run p1 ksymstart n W1) as (p2 & -> & W2 & L2); [by eapply fits_locked|]. cbn [mbind outcome_bind].
  destruct (lockPage_locks p2 font W2) as (p3 & -> & W3 & L3); [do 2 (eapply fits_locked; [done|]); done|]. cbn [mbind outcome_bind].
  destruct (lockPages_run p3 segments n W3) as (p4 & -> & W4 & L4); [do 3 (eapply fits_locked; [done|]); done|]. cbn [mbind outcome_bind].
  destruct (lockPages_run p4 fbBase fn W4) as (p5 & -> & W5 & L5); [do 4 (eapply fits_locked; [done|]); done|].
  exists p5. split; [done|]. split; [done|]. split.
  - intros i Hi. destruct L1 as [_ U1], L2 as [_ U2], L3 as [_ U3], L4 as [_ U4], L5 as [_ U5].
    rewrite U5, U4, U3, U2, U1 by done.
    assert (virtToPhysAddr off fbBase = fbBase + (0x10000000000000000 - off)) as ->
      by (clear -Hfb Hoff; unfold virtToPhysAddr; wordlia).
    unfold page. repeat match goal with |- context[in_pages ?a ?b i] => generalize (in_pages a b i); intros [] end; done.
  - clear -Hk. unfold n, ksym_pages, PAGE_SIZE. wordlia.
Qed.
End reserve.

(** On an I/O APIC with more than one line the keyboard's entry is written:
    read back, it sends vector 33 to the boot core, unmasked; with a single line nothing is
    written. *)
Theorem keyboard_routed hw self : 0 <= m_redirectionEntryCount self <= 120 ->
  (1 < m_redirectionEntryCount self -> exists hw', route_keyboard hw self = (hw', true) /\
     fields_of (snd (getRedirectionEntry hw' self 1)) = mkRedir 33 0 0 0 0 0 0 0 0 BSP_CPU_ID) /\
  (m_redirectionEntryCount self <= 1 -> route_keyboard hw self = (hw, false)).
Proof.
  intros Hc. split; intros H1.
  - destruct (writeRedirectionEntry_run hw self 1 33 ltac:(lia) ltac:(lia)) as (hw' & E & Hr). exists hw'.
    split; [exact E|]. rewrite getRedirectionEntry_run by lia. cbn [snd]. rewrite !Hr. reflexivity.
  - unfold route_keyboard, writeRedirectionEntry. by rewrite (proj2 (Z.leb_le _ _)).
Qed.

(** ** Witnesses *)
Lemma keyboard_routed_witness : exists hw', route_keyboard (mkHw 0 (fun _ => 0)) (mkIoApic 0 0 0x20 24 0) = (hw', true) /\
  vector (fields_of (snd (getRedirectionEntry hw' (mkIoApic 0 0 0x20 24 0) 1))) = 33.
Proof.
  destruct (proj1 (keyboard_routed (mkHw 0 (fun _ => 0)) (mkIoApic 0 0 0x20 24 0) ltac:(cbn; lia))) as (hw' & E & F);
    [cbn; lia|]. exists hw'. split; [exact E|]. by rewrite F.
Defined.

Definition demo_core (t : Z) : core_state :=
  mkCore (g_gdtPerCpuArray demo_gdt_state) (core demo_gdt_state)
    (mkMachine (mkKstate {[ t := demo_pcb 0 0 ]} (per_cpu demo_gdt_state) 0x400000) 0 0 0 false) (0xfff, 0x1000).

Lemma demo_core_ready cpu : 0 <= cpu < MAX_CPUS ->
  core_ready 0xffffffff80300000 0xffffffff80310000 0x6000 0x80100 cpu (demo_core (swapper 0x6000 cpu)).
Proof.
  intros Hc. split; [exact demo_arrays_ok|done| |done|unfold is_u64; lia].
  cbn. rewrite lookup_singleton_eq. eauto.
Qed.

Definition demo_run_queues : vec Z :=
  match reserve true sizeof_pointer true vector_new 64 with Done v => v | _ => vector_new end.
Definition demo_scheduler : sys := mkSys (ce_mc (demo_core 0)) demo_run_queues ∅ 1 0 0 10.

Lemma demo_scheduler_ready : sched_ready demo_scheduler.
Proof.
  destruct (reserve_repr true sizeof_pointer (vector_new (A:=Z)) [] 64 (repr_new true) eq_refl eq_refl) as (v & E & Hv & Hc).
  split; cbn [demo_scheduler m_runQueues sched_lock]; [..|done]; unfold demo_run_queues; by rewrite E.
Qed.

(** The parameters at 0x5000, room for their copy at 0x6100, the first segment at 0x6200. *)
Definition demo_params : list Z := le_split 8 0x6200 ++ replicate 72 7 ++ le_split 8 0x9000 ++ le_split 8 0xe0000.
Definition demo_boot_mem : gmap Z Z :=
  put_bytes (put_bytes (put_bytes ∅ 0x5000 demo_params) 0x6100 (replicate 96 0)) 0x6200 (le_split 8 0x1000000).

Lemma demo_params_at : params_at demo_boot_mem 0x6100 0x5000 demo_params 0x9000 0x1000000.
Proof.
  split; [|lia|vm_compute; reflexivity| |lia|vm_compute; reflexivity|].
  - apply map_Forall_to_list.
    assert (forallb (fun x : Z * Z => (0 <=? x.2) && (x.2 <? 256)) (map_to_list demo_boot_mem) = true) as B
      by (vm_compute; reflexivity).
    rewrite forallb_forall in B. apply Forall_forall. intros [a b] Hin%list_elem_of_In%B. cbn in Hin |- *. unfold is_u8. lia.
  - intros a Ha. unfold demo_boot_mem. rewrite lookup_put_bytes_out by (cbn; lia).
    rewrite lookup_put_bytes, decide_True by (rewrite length_replicate; lia). apply lookup_lt_is_Some_2. rewrite length_replicate. lia.
  - exists 0x6200. split_and!; [vm_compute; reflexivity|vm_compute; reflexivity|lia].
Qed.

Lemma boot_core_scheduled_witness : exists k1 m1 io1 k2 s' q d,
  _kentry 0xffffffff80300000 0xffffffff80310000 0x6000 0x80100 0x6100 0x5000 0x80200 0x20000 0x9f00
    demo_boot_mem (demo_core (swapper 0x6000 0)) (mkSerial 0 []) =
    Done (k1, m1, 0x1000000, io1, mkInterruptFrame 0x80200 0x33 0x200 0x28000 0x2b) /\
  read_bytes m1 0x6100 96 = Some demo_params /\
  load_idt_elevated 0xffffffff80310000 (0xfff, 0x80400) k1 = Done k2 /\
  sched_init 0x6000 true 5000 (with_mc demo_scheduler (ce_mc k2)) = Done s' /\
  core_ok 0xffffffff80310000 s' 0 5000 q [0x6000] 0 d.
Proof.
  destruct (boot_core_scheduled 0xffffffff80300000 0xffffffff80310000 0x6000 0x80100 (0xfff, 0x80400)
    0x6100 0x5000 demo_params 0x9000 0x1000000 0x80200 0x20000 0x9f00 demo_boot_mem (demo_core (swapper 0x6000 0))
    (mkSerial 0 []) demo_scheduler 5000)
    as (k1 & m1 & io1 & k2 & s' & q & d & E1 & Eb & _ & _ & _ & E2 & _ & _ & E3 & _ & Hok).
  - exact demo_params_at.
  - apply demo_core_ready. unfold MAX_CPUS. lia.
  - discriminate.
  - discriminate.
  - apply demo_scheduler_ready.
  - reflexivity.
  - exists k1, m1, io1, k2, s', q, d. split; [exact E1|]. split; [exact Eb|]. split; [exact E2|]. split; [exact E3|exact Hok].
Defined.

Lemma ap_core_scheduled_witness : exists s1 k',
  registerCpuCore 0x6000 true 5000 1 demo_scheduler = Done s1 /\
  apStartupEntryC 0xffffffff80300000 0xffffffff80310000 0x6000 0x80100 0xffffffff80000000 (0xfff, 0x80400)
    5 0x9000 0x20000 0xffffffff80400000 0x80200 0x9f00 (demo_core (swapper 0x6000 5)) =
    Done (k', mkInterruptFrame 0x80200 0x33 0x200 0x28000 0x2b) /\
  _irq_handler_timer 0xffffffff80310000 0xffffffff80000000 (Process.demo_frame 0x5555) (with_mc s1 (ce_mc k')) = Fault.
Proof.
  destruct (ap_core_scheduled 0xffffffff80300000 0xffffffff80310000 0x6000 0x80100 0xffffffff80000000 (0xfff, 0x80400)
    1 5000 5 0x9000 0x20000 0xffffffff80400000 0x80200 0x9f00 (demo_core (swapper 0x6000 5)) demo_scheduler
    (Process.demo_frame 0x5555)) as (s1 & k' & E1 & E2 & _ & _ & _ & Hf).
  - unfold MAX_CPUS. lia.
  - discriminate.
  - discriminate.
  - exact demo_scheduler_ready.
  - apply demo_core_ready. unfold MAX_CPUS. lia.
  - exists s1, k'. split; [exact E1|]. split; [exact E2|]. apply Hf; [discriminate|vm_compute; reflexivity].
Defined.

Lemma kernel_reservations_witness : exists p',
  reserve_kernel_pages 0xffffffffffff0000 0xffffffffffff5000 0x10000 0x20000 0xffffffffffff8000 0x20000
    0x40000 0x2000 demo_low_pfa = Done p' /\
  used p' 0x22 = true /\ used p' 0x27 = false /\ used p' 0x40 = false /\ used p' 0x50 = true.
Proof.
  destruct (kernel_reservations 0xffffffffffff0000 0xffffffffffff5000 0x10000 0x20000 0xffffffffffff8000 0x20000
    0x40000 0x2000 demo_low_pfa demo_low_wf) as (p' & E & _ & Hu & _);
    try (split; vm_compute; congruence); try lia.
  exists p'. split; [exact E|]. split_and!; rewrite Hu by lia; vm_compute; reflexivity.
Defined.
