(* ===== verification/Reserve.v ===== *)
(** * The first reservations (kernel/src/entry/kernel_entry.cpp,
      kernel/src/paging/page_frame_allocator.cpp)

    [_kuser_entry] brings up the page frame allocator and then locks the pages of the boot
    parameters, the kernel, the font, the segment table and the frame buffer.  The base of
    the frame buffer is a physical address, which [lockPages] takes for a virtual one: the
    bit it looks at lies behind the bitmap, where the kernel heap begins.

    [PageFrame] stops at an access outside of the buffer of the bitmap.  Here the buffer is
    a part of the memory: an index behind its end reaches the heap, which
    [initializeFromMemoryMap] puts right behind the bitmap. *)
From Stdlib Require Import ZArith Lia.
From stdpp Require Import base tactics numbers option list gmap.
From S2P Require Import Prelude Memory KMemory Sync KHeap KHeapThms PageFrame PageTable Paging MemInit KernelEntry.
Local Open Scope Z_scope.

(** ** The bitmap with the memory behind it *)

(** [m_buffer[i]] *)
Definition buffer_load (h : Heap) (b : PageFrameBitmap) (i : Z) : outcome Z :=
  match bm_buffer b !! Z.to_nat i with
  | Some v => Done v
  | None => load8 (h_mem h) (m_firstSegment h + (i - bm_size b))
  end.

Definition buffer_store (h : Heap) (b : PageFrameBitmap) (i v : Z) : outcome (PageFrameBitmap * Heap) :=
  match bm_buffer b !! Z.to_nat i with
  | Some _ => Done (mkBitmap (bm_size b) (<[Z.to_nat i := v]> (bm_buffer b)), h)
  | None => m ← store8 (h_mem h) (m_firstSegment h + (i - bm_size b)) v; Done (b, set_mem h m)
  end.

Definition setPageValue_mem (h : Heap) (b : PageFrameBitmap) (addr : Z) (value : bool)
  : outcome (PageFrameBitmap * Heap * bool) :=
  let index := addrToIndex addr in
  if bm_size b ⊠ 8 <? index then Done (b, h, false)
  else
    let byteIdx := index / 8 in
    let mask := u8 (Z.shiftl 1 (index mod 8)) in
    v ← buffer_load h b byteIdx;
    let v := Z.land v (u8 (Z.lnot mask)) in
    let v := if value then Z.lor v mask else v in
    '(b, h) ← buffer_store h b byteIdx v;
    Done (b, h, true).

Definition getPageValue_mem (h : Heap) (b : PageFrameBitmap) (addr : Z) : outcome bool :=
  let index := addrToIndex addr in
  let mask := u8 (Z.shiftl 1 (index mod 8)) in
  v ← buffer_load h b (index / 8);
  Done (0 <? Z.land v mask).

Definition lockPhysicalPage_mem (s : PageFrameAllocator * Heap) (paddr : Z) : outcome (PageFrameAllocator * Heap) :=
  let '(p, h) := s in
  p ← alock p;
  f ← getPageValue_mem h (m_pageFrameBitmap p) paddr;
  if f : bool then Done (aunlock p, h)
  else
    '(b, h, r) ← setPageValue_mem h (m_pageFrameBitmap p) paddr true;
    let p := if (r : bool)
             then set_counters p (m_freeSystemMemory p ⊟ PAGE_SIZE) (m_usedSystemMemory p ⊞ PAGE_SIZE) b
             else p in
    Done (aunlock p, h).

Section lock.
Context (off : Z).

Definition lockPage_mem (s : PageFrameAllocator * Heap) (vaddr : Z) :=
  lockPhysicalPage_mem s (virtToPhysAddr off vaddr).

Fixpoint lockPages_from (s : PageFrameAllocator * Heap) (vaddr : Z) (pages : nat) : outcome (PageFrameAllocator * Heap) :=
  match pages with
  | O => Done s
  | S n => s ← lockPage_mem s vaddr; lockPages_from s (vaddr ⊞ PAGE_SIZE) n
  end.

Definition lockPages_mem (s : PageFrameAllocator * Heap) (vaddr pages : Z) := lockPages_from s vaddr (Z.to_nat pages).

(** The addresses and sizes are those of [reserve_kernel_pages] in [KernelEntry]. *)
Definition reserve_pages_mem (params ksymstart ksymend font segments fbBase fbSize : Z)
    (s : PageFrameAllocator * Heap) : outcome (PageFrameAllocator * Heap) :=
  s ← lockPage_mem s params;
  s ← lockPages_mem s ksymstart (ksym_pages ksymstart ksymend);
  s ← lockPage_mem s font;
  s ← lockPages_mem s segments (ksym_pages ksymstart ksymend);
  lockPages_mem s fbBase (fbSize / PAGE_SIZE + 1).
End lock.

(** ** Inside the buffer nothing is new *)
Lemma lockPhysicalPage_mem_in p h paddr : bm_wf (m_pageFrameBitmap p) -> in_bitmap (m_pageFrameBitmap p) paddr ->
  lockPhysicalPage_mem (p, h) paddr = (p' ← lockPhysicalPage p paddr; Done (p', h)).
Proof.
  intros Hb Hi. unfold lockPhysicalPage_mem, lockPhysicalPage, alock.
  destruct (acquireSpinlock (allocator_lock p)) as [l| |]; cbn [mbind outcome_bind]; try done.
  unfold isPageUsed, getPageValue, getPageValue_mem, markPageUsed, setPageValue, setPageValue_mem, buffer_load, addrToIndex.
  cbn [set_alock m_pageFrameBitmap]. destruct (bitmap_byte _ paddr Hb Hi) as (v & Ev & _). rewrite Ev.
  cbn [need mbind outcome_bind]. destruct (0 <? Z.land v _); cbn [Bool.eqb]; [done|].
  destruct (_ <? paddr / PAGE_SIZE); cbn [fst snd mbind outcome_bind]; [done|].
  unfold buffer_store. rewrite Ev. done.
Qed.

Lemma fits_in_bitmap off p v : pfa_wf p -> fits off p v 1 ->
  in_bitmap (m_pageFrameBitmap p) (virtToPhysAddr off v).
Proof.
  intros Hp [_ Hf]. pose proof (u64_range (v - off)) as [Ha _]. pose proof (wf_room _ Hp).
  split; [exact Ha|]. unfold PAGE_SIZE in *. wordlia.
Qed.

Lemma lockPage_mem_eq off p h v : pfa_wf p -> fits off p v 1 ->
  lockPage_mem off (p, h) v = (p' ← lockPage off p v; Done (p', h)).
Proof.
  intros Hp Hf. apply lockPhysicalPage_mem_in; [apply wf_bitmap, Hp|by apply fits_in_bitmap].
Qed.

Lemma fits_first off p v n : pfa_wf p -> fits off p v (Z.of_nat (S n)) -> fits off p v 1.
Proof. intros _ [_ H]. split; unfold PAGE_SIZE in *; lia. Qed.

Lemma fits_next off p v n : pfa_wf p -> fits off p v (Z.of_nat (S (S n))) -> fits off p (v ⊞ PAGE_SIZE) (Z.of_nat (S n)).
Proof.
  intros Hp [_ Hf]. pose proof (u64_range (v - off)) as Ha. fold (v ⊟ off) in Ha. pose proof (wf_total _ Hp).
  unfold virtToPhysAddr, PAGE_SIZE in *.
  assert ((v ⊞ 4096) ⊟ off = (v ⊟ off) + 4096) as Ev by (destruct Ha; wordlia).
  split; unfold virtToPhysAddr, PAGE_SIZE; rewrite ?Ev; lia.
Qed.

Lemma lockPages_from_in off h n : forall p v, pfa_wf p -> fits off p v (Z.of_nat (S n)) ->
  lockPages_from off (p, h) v (S n) = (p' ← each_page (lockPage off) p v (S n); Done (p', h)).
Proof.
  induction n as [|n IH]; intros p v Hp Hf; pose proof (fits_first _ _ _ _ Hp Hf) as Hf1;
    destruct (lockPage_locks off p v Hp Hf1) as (p1 & E1 & W1 & L1).
  - cbn [lockPages_from each_page]. rewrite lockPage_mem_eq by done. by rewrite E1.
  - remember (S n) as k eqn:Ek. cbn [lockPages_from each_page]. rewrite lockPage_mem_eq by done. rewrite E1.
    cbn [mbind outcome_bind]. subst k. apply IH; [done|].
    eapply fits_locked; [exact L1|]. by apply fits_next.
Qed.

Lemma lockPages_mem_eq off p h v n : pfa_wf p -> fits off p v n ->
  lockPages_mem off (p, h) v n = (p' ← lockPages off p v n; Done (p', h)).
Proof.
  intros Hp Hf. unfold lockPages_mem, lockPages.
  assert (Z.to_nat n = S (Z.to_nat (n - 1))) as Ek by (destruct Hf; lia). rewrite Ek.
  apply lockPages_from_in; [done|]. by replace (Z.of_nat (S (Z.to_nat (n - 1)))) with n by (destruct Hf; lia).
Qed.

(** ** Behind the buffer nothing happens

    The guard of [setPageValue] stops every write but one, at the first index behind the
    buffer; the read needs only mapped memory. *)
Lemma lockPhysicalPage_mem_behind p h paddr : allocator_lock p = 0 -> bm_wf (m_pageFrameBitmap p) ->
  8 * bm_size (m_pageFrameBitmap p) < paddr / PAGE_SIZE ->
  is_Some (h_mem h !! (m_firstSegment h + (paddr / PAGE_SIZE / 8 - bm_size (m_pageFrameBitmap p)))) ->
  lockPhysicalPage_mem (p, h) paddr = Done (p, h).
Proof.
  intros Hl [Hlen _ Hs] Hi [v Hv]. unfold lockPhysicalPage_mem. rewrite alock_free by done. cbn [mbind outcome_bind].
  unfold getPageValue_mem, setPageValue_mem, buffer_load, addrToIndex. cbn [set_alock m_pageFrameBitmap].
  rewrite lookup_ge_None_2 by wordlia. unfold load8. rewrite Hv. cbn [need mbind outcome_bind].
  assert ((bm_size (m_pageFrameBitmap p) ⊠ 8 <? paddr / PAGE_SIZE) = true) as -> by (apply Z.ltb_lt; wordlia).
  destruct (0 <? _); cbn [mbind outcome_bind]; by rewrite aunlock_locked.
Qed.

Lemma lockPhysicalPage_outside p paddr : allocator_lock p = 0 -> bm_wf (m_pageFrameBitmap p) ->
  8 * bm_size (m_pageFrameBitmap p) <= paddr / PAGE_SIZE -> lockPhysicalPage p paddr = Fault.
Proof.
  intros Hl [Hlen _ Hs] Hi. unfold lockPhysicalPage. rewrite alock_free by done. cbn [mbind outcome_bind].
  unfold isPageUsed, getPageValue, addrToIndex. cbn [set_alock m_pageFrameBitmap].
  by rewrite lookup_ge_None_2 by wordlia.
Qed.

Lemma lockPages_from_behind off h n : forall p v, allocator_lock p = 0 -> bm_wf (m_pageFrameBitmap p) ->
  8 * bm_size (m_pageFrameBitmap p) < virtToPhysAddr off v / PAGE_SIZE ->
  virtToPhysAddr off v + Z.of_nat n * PAGE_SIZE <= 0x10000000000000000 ->
  (forall i, bm_size (m_pageFrameBitmap p) <= i <= (virtToPhysAddr off v + Z.of_nat n * PAGE_SIZE) / PAGE_SIZE / 8 ->
     is_Some (h_mem h !! (m_firstSegment h + (i - bm_size (m_pageFrameBitmap p))))) ->
  lockPages_from off (p, h) v n = Done (p, h).
Proof.
  induction n as [|n IH]; intros p v Hl Hb Hi Hw Hm; [done|]. cbn [lockPages_from].
  pose proof (u64_range (v - off)) as Ha. fold (v ⊟ off) in Ha.
  assert (lockPage_mem off (p, h) v = Done (p, h)) as ->.
  { apply lockPhysicalPage_mem_behind; try done. apply Hm. unfold PAGE_SIZE in *. wordlia. }
  cbn [mbind outcome_bind]. destruct n as [|n]; [done|]. unfold virtToPhysAddr, PAGE_SIZE in *.
  assert ((v ⊞ 4096) ⊟ off = (v ⊟ off) + 4096) as Ev by (destruct Ha; wordlia).
  apply IH; [done|done|..]; unfold virtToPhysAddr, PAGE_SIZE; rewrite ?Ev.
  - wordlia.
  - lia.
  - intros i Hr. apply Hm. wordlia.
Qed.

(** ** The memory of the kernel entry *)
Section brought.
Context (off lim : Z) `{BootLayout off lim}.
Context (T : gmap Z (nat * Z)) (root par : Z).
Hypothesis Hroot : T !! root = Some (4%nat, par).
Hypothesis Hoff : off mod PAGE_SIZE = 0.
Hypothesis Hhigh : 0xffff000000000000 <= off.

(** The addresses [_kuser_entry] reserves. *)
Record kernel_image := mkImage {
  im_params : Z; im_ksymstart : Z; im_ksymend : Z; im_font : Z; im_segments : Z; im_fbBase : Z; im_fbSize : Z }.

Definition reserve_image (i : kernel_image) (s : PageFrameAllocator * Heap) : outcome (PageFrameAllocator * Heap) :=
  reserve_pages_mem off (im_params i) (im_ksymstart i) (im_ksymend i) (im_font i) (im_segments i)
    (im_fbBase i) (im_fbSize i) s.

Definition image_pages (i : kernel_image) : Z := ksym_pages (im_ksymstart i) (im_ksymend i).

(** The kernel's own structures are in the memory the allocator knows; the frame buffer is
    not at the very bottom of the memory, and 52 TiB of addresses are enough to reach it. *)
Record image_ok (total : Z) (i : kernel_image) : Prop := {
  io_order : im_ksymstart i <= im_ksymend i;
  io_params : virtToPhysAddr off (im_params i) < total;
  io_kernel : virtToPhysAddr off (im_ksymstart i) + (image_pages i - 1) * PAGE_SIZE < total;
  io_font : virtToPhysAddr off (im_font i) < total;
  io_segments : virtToPhysAddr off (im_segments i) + (image_pages i - 1) * PAGE_SIZE < total;
  io_fb : 0x10000 <= im_fbBase i /\ 0 <= im_fbSize i /\
    im_fbBase i + im_fbSize i + PAGE_SIZE + (0x10000000000000000 - off) <= 8 * PAGE_SIZE * KERNEL_HEAP_INIT_SIZE }.

(** The pages the kernel keeps for itself, with its page numbers relative to [off]. *)
Definition image_page (i : kernel_image) (k : Z) : bool :=
  in_pages (virtToPhysAddr off (im_params i) / PAGE_SIZE) 1 k ||
  in_pages (virtToPhysAddr off (im_ksymstart i) / PAGE_SIZE) (image_pages i) k ||
  in_pages (virtToPhysAddr off (im_font i) / PAGE_SIZE) 1 k ||
  in_pages (virtToPhysAddr off (im_segments i) / PAGE_SIZE) (image_pages i) k.

Lemma image_pages_pos i : im_ksymstart i <= im_ksymend i -> 1 <= image_pages i.
Proof. intros Hi. unfold image_pages, ksym_pages, PAGE_SIZE. wordlia. Qed.

Lemma fb_phys i total : image_ok total i ->
  virtToPhysAddr off (im_fbBase i) = im_fbBase i + (0x10000000000000000 - off).
Proof.
  intros Hi. destruct (io_fb _ _ Hi) as (H1 & H2 & H3). pose proof (bl_off (off := off)).
  unfold virtToPhysAddr, KERNEL_HEAP_INIT_SIZE, PAGE_SIZE in *. wordlia.
Qed.

Lemma lockPages_size p v n p' : lockPages off p v n = Done p' ->
  bm_size (m_pageFrameBitmap p') = bm_size (m_pageFrameBitmap p).
Proof. apply each_page_size. intros q a q'. apply lockPhysicalPage_size. Qed.

(** The four reservations of the kernel's own structures, with and without the memory
    behind the bitmap. *)
Lemma reserve_own total p i : pfa_wf p -> m_totalSystemMemory p = total -> image_ok total i ->
  exists p', pfa_wf p' /\ m_totalSystemMemory p' = total /\
    bm_size (m_pageFrameBitmap p') = bm_size (m_pageFrameBitmap p) /\
    (forall k, 0 <= k -> used p' k = image_page i k || used p k) /\
    (forall h, reserve_image i (p, h) = lockPages_mem off (p', h) (im_fbBase i) (im_fbSize i / PAGE_SIZE + 1)) /\
    reserve_kernel_pages off (im_params i) (im_ksymstart i) (im_ksymend i) (im_font i) (im_segments i)
      (im_fbBase i) (im_fbSize i) p = lockPages off p' (im_fbBase i) (im_fbSize i / PAGE_SIZE + 1).
Proof.
  intros W Et Hi. pose proof (image_pages_pos i (io_order _ _ Hi)) as Hn.
  assert (fits off p (im_params i) 1 /\ fits off p (im_ksymstart i) (image_pages i) /\
    fits off p (im_font i) 1 /\ fits off p (im_segments i) (image_pages i)) as (F1 & F2 & F3 & F4).
  { destruct Hi. split_and!; (split; [lia|]); rewrite Et; lia. }
  destruct (lockPage_locks off p _ W F1) as (p1 & E1 & W1 & L1).
  apply (fits_locked _ _ _ _ _ _ _ L1) in F2, F3, F4.
  destruct (lockPages_run off p1 _ _ W1 F2) as (p2 & E2 & W2 & L2).
  apply (fits_locked _ _ _ _ _ _ _ L2) in F3, F4.
  destruct (lockPage_locks off p2 _ W2 F3) as (p3 & E3 & W3 & L3).
  apply (fits_locked _ _ _ _ _ _ _ L3) in F4.
  destruct (lockPages_run off p3 _ _ W3 F4) as (p4 & E4 & W4 & L4).
  exists p4. split; [done|]. split; [destruct L1 as [? _], L2 as [? _], L3 as [? _], L4 as [? _]; congruence|].
  split; [|split; [|split]].
  - rewrite (lockPages_size _ _ _ _ E4), (lockPhysicalPage_size _ _ _ E3), (lockPages_size _ _ _ _ E2).
    apply (lockPhysicalPage_size _ _ _ E1).
  - intros k Hk. destruct L1 as [_ U1], L2 as [_ U2], L3 as [_ U3], L4 as [_ U4].
    rewrite U4, U3, U2, U1 by done. unfold image_page.
    repeat match goal with |- context[in_pages ?a ?b k] => generalize (in_pages a b k); intros [] end; done.
  - intros h. unfold reserve_image, reserve_pages_mem. fold (image_pages i).
    rewrite lockPage_mem_eq, E1 by (done || apply Hi || (destruct Hi; split; [lia|rewrite Et; lia])). cbn [mbind outcome_bind].
    rewrite lockPages_mem_eq, E2 by done. cbn [mbind outcome_bind].
    rewrite lockPage_mem_eq, E3 by done. cbn [mbind outcome_bind].
    by rewrite lockPages_mem_eq, E4 by done.
  - unfold reserve_kernel_pages. fold (image_pages i). rewrite E1. cbn [mbind outcome_bind]. rewrite E2. cbn [mbind outcome_bind].
    rewrite E3. cbn [mbind outcome_bind]. by rewrite E4.
Qed.

Lemma reserve_image_run total descs m d p h m' i : map_wf lim total descs ->
  brought_up off lim T root total descs m d p h m' -> image_ok total i ->
  exists p', reserve_image i (p, h) = Done (p', h) /\ pfa_wf p' /\ m_totalSystemMemory p' = total /\
    (forall k, 0 <= k -> used p' k = image_page i k || used p k) /\
    reserve_kernel_pages off (im_params i) (im_ksymstart i) (im_ksymend i) (im_font i) (im_segments i)
      (im_fbBase i) (im_fbSize i) p = Fault.
Proof.
  intros Hmap U Hi. pose proof (up_allocator _ _ _ _ _ _ _ _ _ _ _ U) as W.
  destruct (reserve_own total p i W (up_total _ _ _ _ _ _ _ _ _ _ _ U) Hi) as (p' & W' & Et & Es & Hu & Em & Er).
  exists p'. rewrite Em, Er. rewrite (up_size _ _ _ _ _ _ _ _ _ _ _ U) in Es.
  pose proof (fb_phys i total Hi) as Hf. destruct (io_fb _ _ Hi) as (H1 & H2 & H3).
  pose proof (bl_off (off := off)). pose proof (bl_high (off := off)). pose proof (bl_low (off := off)). pose proof (mw_lim _ _ _ Hmap).
  pose proof (wf_total _ W'). rewrite Et in *.
  assert (8 * bm_size (m_pageFrameBitmap p') < virtToPhysAddr off (im_fbBase i) / PAGE_SIZE) as Hidx.
  { rewrite Es, Hf. unfold bitmap_bytes, PAGE_SIZE. clear -H1 H0 H4 H5 H6 H7. wordlia. }
  split_and!; try done.
  - apply lockPages_from_behind; [apply W'|apply W'|done|rewrite Hf; unfold KERNEL_HEAP_INIT_SIZE, PAGE_SIZE in *; clear -H1 H2 H3 H0; wordlia|].
    intros k Hk. apply (rep_mapped _ _ (up_heap _ _ _ _ _ _ _ _ _ _ _ U)).
    pose proof (rep_total _ _ (up_heap _ _ _ _ _ _ _ _ _ _ _ U)) as Ht. cbn in Ht.
    rewrite Hf in Hk. rewrite Es in *. unfold bitmap_bytes, KERNEL_HEAP_INIT_SIZE, PAGE_SIZE in *. clear -H1 H2 H3 H0 H7 Hk Ht. wordlia.
  - unfold lockPages. assert (Z.to_nat (im_fbSize i / PAGE_SIZE + 1) = S (Z.to_nat (im_fbSize i / PAGE_SIZE))) as ->
      by (pose proof (Z.div_pos (im_fbSize i) PAGE_SIZE H2 ltac:(done)); lia).
    cbn [each_page]. assert (lockPage off p' (im_fbBase i) = Fault) as ->; [|done].
    apply lockPhysicalPage_outside; [apply W'|apply W'|lia].
Qed.

(** C21 (safety): the memory part of [_kuser_entry] on a well formed memory map.
    [initializeFromMemoryMap] and the reservations return, the heap is untouched by the
    reservations, and then a page is used exactly when it is one of the kernel's own or was
    used after the initialisation: the frame buffer, whose physical base is taken for a
    virtual one, is not reserved.  For every page its reservation reads a bit behind the
    bitmap, out of the kernel heap: checked against the buffer, as in [KernelEntry], it is an
    access out of bounds. *)
Theorem framebuffer_not_reserved total descs p h m i :
  map_wf lim total descs -> start_state off lim T root total descs p h m -> image_ok total i ->
  exists d p1 h1 m1 p2, chosen descs d /\ initializeFromMemoryMap off root p h m descs = Done (p1, h1, m1) /\
    reserve_image i (p1, h1) = Done (p2, h1) /\ pfa_wf p2 /\
    (forall k, 0 <= k -> used p2 k = image_page i k || used_at_start descs (d_paddr d / PAGE_SIZE) (bitmap_pages total) k) /\
    reserve_kernel_pages off (im_params i) (im_ksymstart i) (im_ksymend i) (im_font i) (im_segments i)
      (im_fbBase i) (im_fbSize i) p1 = Fault.
Proof.
  intros Hmap Hst Hi.
  destruct (initializeFromMemoryMap_ok off lim T root par Hroot Hoff Hhigh total descs p h m Hmap Hst)
    as (d & p1 & h1 & m1 & Hd & E1 & _ & U).
  destruct (reserve_image_run total descs m d p1 h1 m1 i Hmap U Hi) as (p2 & E2 & W & _ & Hu & Ef).
  exists d, p1, h1, m1, p2. split_and!; try done. intros k Hk. rewrite Hu by done.
  by rewrite (up_pages _ _ _ _ _ _ _ _ _ _ _ U).
Qed.
End brought.

(** ** A kernel of two pages, a frame buffer of 4 MiB below 4 GiB *)
Definition demo_image : kernel_image :=
  mkImage 0xffffffff80200000 0xffffffff80201000 0xffffffff80209000 0xffffffff80210000 0xffffffff80220000 0xc0000000 0x400000.

Lemma demo_image_ok : image_ok demo_off demo_total demo_image.
Proof. split; vm_compute; split_and?; congruence. Qed.

Lemma framebuffer_not_reserved_witness : exists h p1 h1 m1 p2,
  initializeFromMemoryMap demo_off 0x1000 (mkPFA 0 0 0 0 (mkBitmap 0 []) 0 0) h up_m demo_descs = Done (p1, h1, m1) /\
  reserve_image demo_off demo_image (p1, h1) = Done (p2, h1) /\ used p2 0x110 = false /\ used p2 0x202 = true.
Proof.
  destruct demo_start as [h Hst].
  destruct (framebuffer_not_reserved demo_off 0x80000000 (H := up_layout) up_T 0x1000 0 eq_refl eq_refl
    ltac:(by vm_compute) demo_total demo_descs _ h up_m demo_image demo_map_wf Hst demo_image_ok)
    as (d & p1 & h1 & m1 & p2 & ->%demo_chosen & E1 & E2 & _ & Hu & _).
  exists h, p1, h1, m1, p2. split; [exact E1|]. split; [exact E2|].
  split; rewrite Hu by lia; vm_compute; reflexivity.
Defined.
