(* ===== verification/SpawnTest.v ===== *)
(** * The tasks the kernel starts with
    (kernel/src/entry/tests/kernel_entry_ap_startup_test.cpp)

    The last call of the kernel's entry with the flag the sources define: ten pairs of tasks
    are created and given to the scheduler, which chooses the cores. *)
From Stdlib Require Import ZArith Lia Permutation.
From stdpp Require Import base tactics numbers option list gmap.
From S2P Require Import Prelude KVector Process Elevate Sched.
Local Open Scope Z_scope.

(** What [kmalloc] and the two calls of [zallocPages] return for a task. *)
Record task_memory := mkTaskMemory { tm_task : Z; tm_userStack : Z; tm_kernelStack : Z }.

Section spawn.
(** The root page table and the entries [sayHelloCore] and [sayGoodbyeCore]. *)
Context (root sayHelloCore sayGoodbyeCore : Z).

Definition new_task (entry : Z) (a : task_memory) (s : sys) : outcome (Z * sys) :=
  createKernelTask (tm_task a) (tm_userStack a) (tm_kernelStack a) root entry 0 s.

(** One turn of the loop. *)
Definition start_pair (s : sys) (a : task_memory * task_memory) : outcome sys :=
  '(helloTask, s) ← new_task sayHelloCore (fst a) s;
  '(goodbyeTask, s) ← new_task sayGoodbyeCore (snd a) s;
  '(_, s) ← addTask true helloTask s;
  '(_, s) ← addTask true goodbyeTask s;
  Done s.

(** [memory] has the addresses for the ten turns. *)
Definition ke_test_ap_startup (memory : list (task_memory * task_memory)) (s : sys) : outcome sys :=
  for_each start_pair memory s.
End spawn.

(** ** Balance *)

(** The queues of any two cores differ by at most one task. *)
Definition balanced (qs : list (Z * list Z)) : Prop :=
  forall c c' p p' l l', qs !! c = Some (p, l) -> qs !! c' = Some (p', l') -> (length l <= length l' + 1)%nat.

(** Every queue can take [k] more tasks. *)
Definition room_for (k : nat) (qs : list (Z * list Z)) : Prop :=
  forall c p l, qs !! c = Some (p, l) -> (length l + k <= MAX_QUEUED_PROCESSES)%nat.

(** The tasks of all the queues. *)
Definition all_tasks (qs : list (Z * list Z)) : list Z := concat (snd <$> qs).

(** The scheduler between two calls: its queues, with room for [k] tasks, and both locks
    free. *)
Record idle (s : sys) (qs : list (Z * list Z)) (k : nat) : Prop := {
  id_cores : cores_ok s qs;
  id_sched : sched_lock s = 0;
  id_balancing : balancing_lock s = 0;
  id_balanced : balanced qs;
  id_room : room_for k qs }.

Lemma all_tasks_insert qs c ptr l t : qs !! c = Some (ptr, l) ->
  all_tasks (<[c := (ptr, l ++ [t])]> qs) ≡ₚ t :: all_tasks qs.
Proof.
  intros Hc. unfold all_tasks. rewrite <- (take_drop_middle qs c (ptr, l) Hc) at 2.
  rewrite insert_take_drop by (by eapply lookup_lt_Some).
  rewrite !fmap_app, !fmap_cons, !concat_app. cbn [concat snd]. rewrite <- !app_assoc. cbn [app].
  rewrite !(app_assoc (concat _) l). symmetry. apply Permutation_middle.
Qed.

Lemma idle_task s qs k task p : idle s qs (S k) -> tasks_of s !! task = Some p ->
  exists s' qs', addTask true task s = Done (true, s') /\ idle s' qs' k /\
    fst <$> qs' = fst <$> qs /\ all_tasks qs' ≡ₚ task :: all_tasks qs /\
    (forall t, is_Some (tasks_of s !! t) -> is_Some (tasks_of s' !! t)).
Proof.
  intros [Hco Hs Hb Hbal Hroom] Hp.
  destruct (addTask_run s qs task p Hco Hs Hb Hp) as (c & ptr & l & s' & Hc & Hle & E & Hco' & Ht & Hs' & Hb').
  pose proof (Hroom c ptr l Hc) as Hlen.
  assert ((length l =? MAX_QUEUED_PROCESSES)%nat = false) as Hf by (apply Nat.eqb_neq; lia).
  rewrite Hf in E, Hco'. cbn [negb] in E.
  assert (forall x p' l', <[c := (ptr, l ++ [task])]> qs !! x = Some (p', l') ->
    (x = c /\ length l' = S (length l)) \/ (x <> c /\ qs !! x = Some (p', l'))) as Hx.
  { intros x p' l' [(<- & [= <- <-] & _)|[Hne Hx]]%list_lookup_insert_Some; [left|by right].
    rewrite length_app. cbn [length]. split; [done|lia]. }
  eexists s', _. split; [exact E|]. split_and!.
  - split; try done.
    + intros x y p1 p2 l1 l2 [[-> H1]|[? H1]]%Hx [[-> H2]|[? H2]]%Hx; rewrite ?H1, ?H2.
      * lia.
      * pose proof (proj1 (Hle _ _ _ H2)). lia.
      * pose proof (Hbal _ _ _ _ _ _ H1 Hc). lia.
      * apply (Hbal _ _ _ _ _ _ H1 H2).
    + intros x p1 l1 [[-> ->]|[? H1]]%Hx; [lia|]. pose proof (Hroom _ _ _ H1). lia.
  - rewrite list_fmap_insert. cbn [fst]. apply list_insert_id. by rewrite list_lookup_fmap, Hc.
  - by apply all_tasks_insert.
  - intros t Ht'. rewrite Ht. destruct (decide (t = task)) as [->|]; [rewrite lookup_insert_eq; eauto|].
    by rewrite lookup_insert_ne.
Qed.

(** A new task is in no queue yet. *)
Lemma new_task_run root entry s qs a : cores_ok s qs -> tm_task a <> 0 ->
  exists s', new_task root entry a s = Done (tm_task a, s') /\ cores_ok s' qs /\
    sched_lock s' = sched_lock s /\ balancing_lock s' = balancing_lock s /\
    is_Some (tasks_of s' !! tm_task a) /\ (forall t, is_Some (tasks_of s !! t) -> is_Some (tasks_of s' !! t)).
Proof.
  intros Hco Ha. unfold new_task, createKernelTask, _allocateTaskPid.
  rewrite (proj2 (Z.eqb_neq _ _) Ha). destruct Hco.
  match goal with |- context [if ?b then _ else _] => destruct b end;
    (eexists; split; [reflexivity|]; split; [done|]; unfold tasks_of; cbn; split; [done|]; split; [done|];
     split; [rewrite lookup_insert_eq; eauto|]; intros t Ht;
     destruct (decide (t = tm_task a)) as [->|]; [rewrite lookup_insert_eq; eauto|by rewrite lookup_insert_ne]).
Qed.

Lemma idle_create root entry s qs k a : idle s qs k -> tm_task a <> 0 ->
  exists s', new_task root entry a s = Done (tm_task a, s') /\ idle s' qs k /\
    is_Some (tasks_of s' !! tm_task a) /\ (forall t, is_Some (tasks_of s !! t) -> is_Some (tasks_of s' !! t)).
Proof.
  intros [Hco Hs Hb Hbal Hroom] Ha.
  destruct (new_task_run root entry s qs a Hco Ha) as (s' & E & Hco' & Hs' & Hb' & Ht). exists s'. split; [exact E|].
  split; [split; try done; congruence|exact Ht].
Qed.

(** The addresses of the tasks of a list of turns. *)
Definition pair_tasks (a : task_memory * task_memory) : list Z := [tm_task (fst a); tm_task (snd a)].

Lemma start_pair_run root hello goodbye s qs k a :
  idle s qs (S (S k)) -> tm_task (fst a) <> 0 -> tm_task (snd a) <> 0 ->
  exists s' qs', start_pair root hello goodbye s a = Done s' /\ idle s' qs' k /\
    fst <$> qs' = fst <$> qs /\ all_tasks qs' ≡ₚ all_tasks qs ++ pair_tasks a.
Proof.
  intros Hi H1 H2. unfold start_pair.
  destruct (idle_create root hello s qs _ (fst a) Hi H1) as (s1 & -> & I1 & T1 & _). cbn [mbind outcome_bind].
  destruct (idle_create root goodbye s1 qs _ (snd a) I1 H2) as (s2 & -> & I2 & T2 & K2). cbn [mbind outcome_bind].
  destruct (K2 _ T1) as [p1 P1].
  destruct (idle_task s2 qs (S k) (tm_task (fst a)) p1 I2 P1) as (s3 & q3 & -> & I3 & F3 & A3 & K3). cbn [mbind outcome_bind].
  destruct (K3 _ T2) as [p2 P2].
  destruct (idle_task s3 q3 k (tm_task (snd a)) p2 I3 P2) as (s4 & q4 & -> & I4 & F4 & A4 & _). cbn [mbind outcome_bind].
  exists s4, q4. split_and!; [done|done|congruence|]. rewrite A4, A3. unfold pair_tasks.
  rewrite perm_swap. by rewrite (Permutation_app_comm (all_tasks qs)).
Qed.

Lemma pairs_run root hello goodbye memory : forall s qs k,
  idle s qs (2 * length memory + k) ->
  Forall (fun a => tm_task (fst a) <> 0 /\ tm_task (snd a) <> 0) memory ->
  exists s' qs', for_each (start_pair root hello goodbye) memory s = Done s' /\ idle s' qs' k /\
    fst <$> qs' = fst <$> qs /\ all_tasks qs' ≡ₚ all_tasks qs ++ (memory ≫= pair_tasks).
Proof.
  induction memory as [|a memory IH]; intros s qs k Hi Hm; cbn [for_each].
  - exists s, qs. split_and!; [done|done|done|]. by rewrite app_nil_r.
  - apply Forall_cons in Hm as [[H1 H2] Hm].
    destruct (start_pair_run root hello goodbye s qs (2 * length memory + k) a) as (s1 & q1 & -> & I1 & F1 & A1);
      [|done|done|].
    { by replace (S (S (2 * length memory + k))) with (2 * length (a :: memory) + k)%nat by (cbn; lia). }
    cbn [mbind outcome_bind]. destruct (IH s1 q1 k I1 Hm) as (s' & q' & -> & I' & F' & A').
    exists s', q'. split_and!; [done|done|congruence|]. rewrite A', A1, bind_cons. by rewrite app_assoc.
Qed.

(** C23 (invariant): the ten turns of the start-up test return, and the scheduler spreads the
    twenty tasks evenly: when the queues of the cores differed by at most one task before
    (as they do when each holds its swapper), they still do, every new task is in exactly
    one queue beside the tasks that were there, and both locks are free again. *)
Theorem startup_tasks_balanced root hello goodbye s qs memory :
  length memory = 10%nat -> Forall (fun a => tm_task (fst a) <> 0 /\ tm_task (snd a) <> 0) memory ->
  cores_ok s qs -> sched_lock s = 0 -> balancing_lock s = 0 -> balanced qs -> room_for 20 qs ->
  exists s' qs', ke_test_ap_startup root hello goodbye memory s = Done s' /\
    cores_ok s' qs' /\ fst <$> qs' = fst <$> qs /\ balanced qs' /\
    all_tasks qs' ≡ₚ all_tasks qs ++ (memory ≫= pair_tasks) /\
    sched_lock s' = 0 /\ balancing_lock s' = 0.
Proof.
  intros Hl Hm Hco Hs Hb Hbal Hroom.
  destruct (pairs_run root hello goodbye memory s qs 0) as (s' & qs' & E & [] & F & A); [|done|].
  { rewrite Hl. by split. }
  exists s', qs'. by split_and!.
Qed.

Definition demo_memory : list (task_memory * task_memory) :=
  (fun i => (mkTaskMemory (0x10000 + 0x2000 * i) 0x40000 0x50000, mkTaskMemory (0x11000 + 0x2000 * i) 0x60000 0x70000))
    <$> seqZ 0 10.

Lemma startup_tasks_balanced_witness : exists s' qs',
  ke_test_ap_startup 0x1000 0x5555 0x6666 demo_memory demo_sys = Done s' /\
  cores_ok s' qs' /\ all_tasks qs' ≡ₚ demo_list ++ (demo_memory ≫= pair_tasks).
Proof.
  destruct (startup_tasks_balanced 0x1000 0x5555 0x6666 demo_sys [(5000, demo_list)] demo_memory)
    as (s' & qs' & E & Hco & _ & _ & Ha & _);
    [reflexivity| |apply demo_cores|reflexivity|reflexivity| | |].
  - unfold demo_memory. apply Forall_fmap, Forall_forall. intros i Hi%elem_of_seqZ. cbn. lia.
  - intros c c' p p' l l' H1 H2. apply list_lookup_singleton_Some in H1 as [_ [= <- <-]].
    apply list_lookup_singleton_Some in H2 as [_ [= <- <-]]. lia.
  - intros c p l H. apply list_lookup_singleton_Some in H as [_ [= <- <-]]. apply Nat.leb_le. reflexivity.
  - exists s', qs'. split; [exact E|]. split; [exact Hco|exact Ha].
Defined.
