(* ===== verification/ThreadTest.v ===== *)
(** * The multithreading test (kernel/src/entry/tests/kernel_entry_multithreading_test.cpp)

    The test that [_kuser_entry] runs in front of the start-up test when its flag is defined:
    four tasks for the boot core.  Their work is a recursive function on [int], in which an
    overflow is undefined. *)
From Stdlib Require Import ZArith Lia.
From stdpp Require Import base tactics numbers option list gmap.
From S2P Require Import Prelude KVector Process Elevate Sched SpawnTest.
Local Open Scope Z_scope.

(** ** The recursive function *)

(** The value of an [int] expression. *)
Definition as_int (z : Z) : outcome Z := if (-0x80000000 <=? z) && (z <? 0x80000000) then Done z else Fault.

(** [fuel] is the depth of the stack. *)
Fixpoint fibb (fuel : nat) (n : Z) : outcome Z :=
  match fuel with
  | O => Diverge
  | S fuel =>
      if (n =? 0) || (n =? 1) then Done n
      else
        i ← as_int (n - 1); a ← fibb fuel i;
        j ← as_int (n - 2); b ← fibb fuel j;
        as_int (a + b)
  end.

(** The Fibonacci numbers, two at a time. *)
Fixpoint fib2 (n : nat) : Z * Z :=
  match n with O => (0, 1) | S n => let '(a, b) := fib2 n in (b, a + b) end.
Definition fib (n : nat) : Z := fst (fib2 n).

Lemma fib_step n : fib (S (S n)) = fib (S n) + fib n.
Proof. unfold fib. cbn [fib2]. destruct (fib2 n) as [a b]. cbn. lia. Qed.

Lemma fib_monotone n : 0 <= fib n /\ fib n <= fib (S n).
Proof.
  induction n as [|n [IH1 IH2]]; [by vm_compute|]. rewrite fib_step. lia.
Qed.

Lemma fib_below n m : (n <= m)%nat -> fib n <= fib m.
Proof. induction 1 as [|m _ IH]; [done|]. pose proof (fib_monotone m). lia. Qed.

Lemma as_int_done z : -0x80000000 <= z < 0x80000000 -> as_int z = Done z.
Proof. intros [H1 H2]. unfold as_int. by rewrite (proj2 (Z.leb_le _ _) H1), (proj2 (Z.ltb_lt _ _) H2). Qed.

Lemma fibb_run n : forall fuel, (n <= 46)%nat -> (n < fuel)%nat -> fibb fuel (Z.of_nat n) = Done (fib n).
Proof.
  induction n as [n IH] using lt_wf_ind. intros fuel Hn Hf. destruct fuel as [|fuel]; [lia|]. cbn [fibb].
  destruct n as [|[|n]]; [done|done|].
  destruct (Z.eqb_spec (Z.of_nat (S (S n))) 0); [lia|]. destruct (Z.eqb_spec (Z.of_nat (S (S n))) 1); [lia|]. cbn [orb].
  replace (Z.of_nat (S (S n)) - 1) with (Z.of_nat (S n)) by lia. replace (Z.of_nat (S (S n)) - 2) with (Z.of_nat n) by lia.
  rewrite as_int_done by lia. cbn [mbind outcome_bind]. rewrite IH by lia. cbn [mbind outcome_bind].
  rewrite as_int_done by lia. cbn [mbind outcome_bind]. rewrite IH by lia. cbn [mbind outcome_bind]. rewrite <- fib_step.
  apply as_int_done. pose proof (fib_below (S (S n)) 46 Hn) as Hb. assert (fib 46 = 1836311903) as E by (by vm_compute).
  pose proof (fib_monotone (S (S n))). lia.
Qed.

(** [fibb] returns the Fibonacci numbers up to the last one an [int] can hold, with a stack as
    deep as its argument, and overflows on the next. *)
Theorem fibb_fibonacci n fuel : 0 <= n -> (Z.to_nat n < fuel)%nat ->
  (n <= 46 -> fibb fuel n = Done (fib (Z.to_nat n))) /\ (n = 47 -> fibb fuel n = Fault).
Proof.
  intros Hn Hf. split; intros H.
  - rewrite <- (Z2Nat.id n Hn) at 1. apply fibb_run; lia.
  - subst n. destruct fuel as [|fuel]; [lia|].
    pose proof (fibb_run 46 fuel ltac:(lia) ltac:(lia)) as E1. pose proof (fibb_run 45 fuel ltac:(lia) ltac:(lia)) as E2.
    cbn [fibb]. change ((47 =? 0) || (47 =? 1)) with false. cbv iota. change (as_int (47 - 1)) with (Done (Z.of_nat 46)).
    change (as_int (47 - 2)) with (Done (Z.of_nat 45)). cbn [mbind outcome_bind]. rewrite E1. cbn [mbind outcome_bind].
    rewrite E2. by vm_compute.
Qed.

(** ** The four tasks *)
Section test.
(** The root page table and the entries of the tasks. *)
Context (root elevKprint syscallPrint kuprint sayHello : Z).

Definition ke_test_multithreading (a1 a2 a3 a4 : task_memory) (s : sys) : outcome sys :=
  '(task1, s) ← new_task root elevKprint a1 s;
  '(task2, s) ← new_task root syscallPrint a2 s;
  '(task3, s) ← new_task root kuprint a3 s;
  '(task4, s) ← new_task root sayHello a4 s;
  '(_, s) ← addTask_on true task1 BSP_CPU_ID s;
  '(_, s) ← addTask_on true task2 BSP_CPU_ID s;
  '(_, s) ← addTask_on true task3 BSP_CPU_ID s;
  '(_, s) ← addTask_on true task4 BSP_CPU_ID s;
  Done s.

(** One task at the end of the boot core's queue. *)
Lemma boot_task s ptr l qs t : cores_ok s ((ptr, l) :: qs) -> sched_lock s = 0 -> is_Some (tasks_of s !! t) ->
  (length l < MAX_QUEUED_PROCESSES)%nat ->
  exists s', addTask_on true t BSP_CPU_ID s = Done (true, s') /\ cores_ok s' ((ptr, l ++ [t]) :: qs) /\ sched_lock s' = 0 /\
    (forall u, is_Some (tasks_of s !! u) -> is_Some (tasks_of s' !! u)).
Proof.
  intros Hco Hl [p Hp] Hn. destruct (addTask_on_run s _ 0 ptr l t p Hco Hl eq_refl Hp) as (s' & E & Hco' & Ht & Hl' & _).
  rewrite (proj2 (Nat.eqb_neq (length l) MAX_QUEUED_PROCESSES)) in E, Hco' by lia. exists s'. split_and!; try done.
  intros u Hu. rewrite Ht. destruct (decide (u = t)) as [->|]; [rewrite lookup_insert_eq; eauto|by rewrite lookup_insert_ne].
Qed.

(** The four tasks are behind those of the boot core, in the order of their creation, and the
    queues of the other cores are as before. *)
Theorem multithreading_queues a1 a2 a3 a4 s ptr l qs : cores_ok s ((ptr, l) :: qs) -> sched_lock s = 0 ->
  (length l + 4 <= MAX_QUEUED_PROCESSES)%nat -> Forall (fun a => tm_task a <> 0) [a1; a2; a3; a4] ->
  exists s', ke_test_multithreading a1 a2 a3 a4 s = Done s' /\
    cores_ok s' ((ptr, l ++ (tm_task <$> [a1; a2; a3; a4])) :: qs) /\ sched_lock s' = 0.
Proof.
  intros Hco Hl Hn Ha. apply Forall_cons in Ha as [H1 Ha]. apply Forall_cons in Ha as [H2 Ha].
  apply Forall_cons in Ha as [H3 Ha]. apply Forall_cons in Ha as [H4 _]. unfold ke_test_multithreading.
  destruct (new_task_run root elevKprint s _ a1 Hco H1) as (s1 & -> & C1 & L1 & _ & T1 & _). cbn [mbind outcome_bind].
  destruct (new_task_run root syscallPrint s1 _ a2 C1 H2) as (s2 & -> & C2 & L2 & _ & T2 & K2). cbn [mbind outcome_bind].
  destruct (new_task_run root kuprint s2 _ a3 C2 H3) as (s3 & -> & C3 & L3 & _ & T3 & K3). cbn [mbind outcome_bind].
  destruct (new_task_run root sayHello s3 _ a4 C3 H4) as (s4 & -> & C4 & L4 & _ & T4 & K4). cbn [mbind outcome_bind].
  destruct (boot_task s4 ptr l qs (tm_task a1) C4) as (s5 & -> & C5 & L5 & K5); [congruence|by apply K4, K3, K2|lia|].
  cbn [mbind outcome_bind].
  destruct (boot_task s5 ptr _ qs (tm_task a2) C5 L5) as (s6 & -> & C6 & L6 & K6); [by apply K5, K4, K3|rewrite length_app; cbn [length]; lia|].
  cbn [mbind outcome_bind].
  destruct (boot_task s6 ptr _ qs (tm_task a3) C6 L6) as (s7 & -> & C7 & L7 & K7); [by apply K6, K5, K4|rewrite !length_app; cbn [length]; lia|].
  cbn [mbind outcome_bind].
  destruct (boot_task s7 ptr _ qs (tm_task a4) C7 L7) as (s8 & -> & C8 & L8 & _); [by apply K7, K6, K5|rewrite !length_app; cbn [length]; lia|].
  cbn [mbind outcome_bind]. exists s8. split; [done|]. split; [|done]. by rewrite <- !app_assoc in C8.
Qed.
End test.

Lemma fibb_fibonacci_witness : fibb 33 32 = Done 2178309 /\ fibb 37 36 = Done 14930352.
Proof.
  split.
  - refine (proj1 (fibb_fibonacci 32 33 _ _) _); lia.
  - refine (proj1 (fibb_fibonacci 36 37 _ _) _); lia.
Defined.

Lemma multithreading_queues_witness : exists s',
  ke_test_multithreading 0x1000 1 2 3 4 (mkTaskMemory 7000 0 0) (mkTaskMemory 7001 0 0) (mkTaskMemory 7002 0 0) (mkTaskMemory 7003 0 0)
    demo_sys = Done s' /\ cores_ok s' [(5000, demo_list ++ [7000; 7001; 7002; 7003])].
Proof.
  destruct (multithreading_queues 0x1000 1 2 3 4 (mkTaskMemory 7000 0 0) (mkTaskMemory 7001 0 0) (mkTaskMemory 7002 0 0)
    (mkTaskMemory 7003 0 0) demo_sys 5000 demo_list [] demo_cores) as (s' & E & C & _);
    [reflexivity|vm_compute; lia|repeat constructor; discriminate|]. exists s'. split; [exact E|exact C].
Defined.
