(* ===== verification/KUser.v ===== *)
(** * The kernel entry as a kernel thread (kernel/src/entry/kernel_entry.cpp)

    [_kuser_entry] whole: the interrupt table, the memory, the page attribute table and the
    display, the messages, the interrupt controllers and timers, the scheduler and the other
    processors, up to the tasks of the start-up test, in the order of the code.  Each step is
    the component's own definition; here is the state they share and what hands it on.

    The state is that of the boot core.  The interrupt flag and the model-specific registers
    are the core's; a component that keeps a copy in its own state is given the core's value
    and its copy is written back.  The page tables, the heap and the other bytes (low memory,
    the ACPI tables, the stack) are memories of their own.  The display takes its back buffer
    from the heap, and so do the names of the memory types while they are printed; behind the
    messages, what [zallocPage], [kmalloc] and operator new return is given with the
    environment, and the pages and blocks they hand out are not marked in the allocators.
    The fuels of the loops that wait for a device are given too.  Nothing interrupts the boot
    core.  [flushTlbAll] and the endless loop at the end are left out. *)
From Stdlib Require Import ZArith Lia String Ascii.
From stdpp Require Import base tactics numbers option list gmap.
From S2P Require Import Prelude Memory KHeap KStlString PageFrame PageTable Paging MemInit Process Elevate.
From S2P Require Import Sched IoApic Acpi Gdt Interrupts KTime CpuSetup ApStartup KDisplay DeviceMaps KPrint.
From S2P Require Import KernelEntry Reserve SpawnTest.
Local Open Scope Z_scope.

(** ** RUN_ELEVATED around code that changes more than the machine *)
Class HasMachine (St : Type) := {
  machine_of : St -> machine;
  set_machine : St -> machine -> St }.

Class MachineLaws (St : Type) `{HasMachine St} : Prop := {
  machine_set : forall (s : St) m, machine_of (set_machine s m) = m;
  set_machine_twice : forall (s : St) m m', set_machine (set_machine s m) m' = set_machine s m';
  set_machine_same : forall s : St, set_machine s (machine_of s) = s }.

Definition run_elevated (per_cpu_data : Z) `{HasMachine St} (code : St -> outcome St) (s : St) : outcome St :=
  '(initiallyElevated, m) ← __kcheck_elevated per_cpu_data (machine_of s);
  let s := set_machine s m in
  s ← (if initiallyElevated =? 0
       then m ← __kelevate per_cpu_data (machine_of s); Done (set_machine s m) else Done s);
  s ← code s;
  if initiallyElevated =? 0
  then m ← __klower per_cpu_data (machine_of s); Done (set_machine s m) else Done s.

(** A local variable beside the state. *)
#[export] Instance pair_machine `{HasMachine St} {A} : HasMachine (St * A) := {
  machine_of x := machine_of (fst x);
  set_machine x m := (set_machine (fst x) m, snd x) }.

#[export] Instance pair_laws `{MachineLaws St} {A} : MachineLaws (St * A).
Proof.
  split; intros [s a]; cbn; [apply machine_set| |]; intros; f_equal; [apply set_machine_twice|apply set_machine_same].
Qed.

(** ** Messages *)
Definition codes (s : string) : list Z := (fun c => Z.of_nat (nat_of_ascii c)) <$> list_ascii_of_string s.

(** The string and the newline that ends it. *)
Definition ln (s : string) : list Z := codes s ++ [10].

Inductive message :=
  | Info (fmt : list Z) (args : list varg)      (** [kprintInfo] *)
  | Warn (fmt : list Z) (args : list varg)      (** [kprintWarn] *)
  | User (fmt : list Z) (args : list varg).     (** [kuPrint] *)

Definition patAttribToString (type : Z) : string :=
  if type =? PAT_MEM_TYPE_UC then "Uncacheable"
  else if type =? PAT_MEM_TYPE_WC then "Write Combining"
  else if type =? 0x04 then "Write Through"
  else if type =? 0x05 then "Write Protected"
  else if type =? 0x06 then "Write Back"
  else if type =? 0x07 then "Uncacheable Minus"
  else "Unknown".

(** The lines of [debugPat] with the field each is about. *)
Definition pat_lines : list (Z * string) :=
  [(0, "    pa0: %s"); (1, "    pa1: %s"); (2, "    pa2: %s"); (3, "    pa3: %s");
   (4, "    pa4: %s"); (5, "    pa5: %s"); (6, "    pa6: %s"); (7, "    pa7: %s")]%string.

(** What [debugPat] prints. *)
Definition pat_message (pat : Z) (line : Z * string) : message :=
  User (ln (snd line)) [VStr (codes (patAttribToString (pat_type (fst line) pat)))].
Definition pat_report (pat : Z) : list message :=
  User (ln "---- Page Attribute Table ----") [] :: (pat_message pat <$> pat_lines) ++ [User [10] []].

(** *** The object of the string class that holds the name

    A name of fifteen characters or more is in a block of the heap; the others are in the
    object, which is on the stack. *)
Definition string_block (h : Heap) (text : list Z) : outcome (Heap * Z) :=
  if (length text <? SSO_SIZE)%nat then Done (h, 0)
  else
    '(h, p) ← kmalloc h (Z.of_nat (length text) + 1);
    m ← need (write_bytes (h_mem h) p (text ++ [0]));
    Done (set_mem h m, p).

(** The characters [c_str] leads to. *)
Definition string_chars (h : Heap) (p : Z) (text : list Z) : outcome (list Z) :=
  if (length text <? SSO_SIZE)%nat then Done text else cstring (h_mem h) p (S (length text)).

(** The destructor. *)
Definition string_end (h : Heap) (p : Z) (text : list Z) : outcome Heap :=
  if (length text <? SSO_SIZE)%nat then Done h else kfree h p.

(** ** What the entry is given *)
Record boot_env := mkEnv {
  e_per_cpu : Z;                  (** [__per_cpu_data] *)
  e_swappers : Z;                 (** [g_kernelSwapperTasks] *)
  e_off : Z;                      (** the kernel alias of physical memory *)
  e_stub_addr : stub -> Z;        (** the interrupt stubs *)
  e_idt_addr : Z;                 (** [g_kernelIdt] *)
  e_descs : list EFI_MEMORY_DESCRIPTOR;
  e_image : kernel_image;
  e_width : Z; e_height : Z; e_scanline : Z;    (** of [graphicsFramebuffer] *)
  e_font : Psf1Font;              (** what [textRenderingFont] leads to *)
  e_rsdp : Z; e_kernelStack : Z; e_phys_base : Z;
  e_cpuid : Z -> cpuid_regs;
  e_vendor : Z;                   (** [vendorName] on the stack *)
  e_lsr : nat -> Z; e_serial_fuel : nat;
  e_lapic_page : Z;
  e_uninit : Z -> Z; e_acpi_fuel : nat;
  e_fuel : nat;
  e_queue : Z -> Z;               (** the run queues operator new returns *)
  e_asm : Z; e_entryC : Z; e_bsp : Z;
  e_hello : Z; e_goodbye : Z;
  e_tasks : list (task_memory * task_memory) }.

Definition e_framebuffer (e : boot_env) : FramebufferInfo :=
  mkFbInfo (im_fbBase (e_image e)) (im_fbSize (e_image e)) (e_width e) (e_height e) (e_scanline e).

(** ** The state *)
Record kmemory := mkKMem {
  km_pfa : PageFrameAllocator;    (** the global page frame allocator *)
  km_heap : Heap;
  km_tables : Z -> Z;             (** the page tables *)
  km_root : Z;                    (** [paging::g_kernelRootPageTable] *)
  km_bytes : mem }.

Section world.
Context `{HpetDevice D}.

Record ktimes := mkKTimes {
  kt_lapics : apic_globals;
  kt_hw : timer_hw D;
  kt_freq : Z;                    (** [g_hardwareFrequency] *)
  kt_apicTicks : Z;               (** [s_apicTicksCalibratedFrequency] *)
  kt_tscTicks : Z }.              (** [s_tscTicksCalibratedFrequency] *)

Record kworld := mkKw {
  kw_core : core_state;
  kw_ctl : Z * Z * list instr;    (** control registers 0 and 4, the instructions so far *)
  kw_idt : idt_state;
  kw_mem : kmemory;
  kw_console : console;
  kw_times : ktimes;
  kw_acpi : AcpiWorld * AcpiController;
  kw_sched : sys }.               (** its machine is the core's *)

Definition put_core (k : kworld) (c : core_state) : kworld :=
  mkKw c (kw_ctl k) (kw_idt k) (kw_mem k) (kw_console k) (kw_times k) (kw_acpi k) (kw_sched k).
Definition put_idt (k : kworld) (i : idt_state) : kworld :=
  mkKw (kw_core k) (kw_ctl k) i (kw_mem k) (kw_console k) (kw_times k) (kw_acpi k) (kw_sched k).
Definition put_memory (k : kworld) (m : kmemory) : kworld :=
  mkKw (kw_core k) (kw_ctl k) (kw_idt k) m (kw_console k) (kw_times k) (kw_acpi k) (kw_sched k).
Definition put_console (k : kworld) (c : console) : kworld :=
  mkKw (kw_core k) (kw_ctl k) (kw_idt k) (kw_mem k) c (kw_times k) (kw_acpi k) (kw_sched k).
Definition put_times (k : kworld) (t : ktimes) : kworld :=
  mkKw (kw_core k) (kw_ctl k) (kw_idt k) (kw_mem k) (kw_console k) t (kw_acpi k) (kw_sched k).
Definition put_acpi (k : kworld) (a : AcpiWorld * AcpiController) : kworld :=
  mkKw (kw_core k) (kw_ctl k) (kw_idt k) (kw_mem k) (kw_console k) (kw_times k) a (kw_sched k).
Definition put_sched (k : kworld) (s : sys) : kworld :=
  mkKw (kw_core k) (kw_ctl k) (kw_idt k) (kw_mem k) (kw_console k) (kw_times k) (kw_acpi k) s.

#[export] Instance kworld_machine : HasMachine kworld := {
  machine_of k := ce_mc (kw_core k);
  set_machine k m := put_core k (with_mc_core (kw_core k) m) }.

#[export] Instance kworld_laws : MachineLaws kworld.
Proof. split; intros [[] ? ? ? ? ? ? ?]; done. Qed.

Definition put_heap (k : kworld) (h : Heap) : kworld :=
  let m := kw_mem k in put_memory k (mkKMem (km_pfa m) h (km_tables m) (km_root m) (km_bytes m)).

Definition put_msrs (c : core_state) (ms : gmap Z Z) : core_state :=
  let r := ce_regs c in
  mkCore (ce_gdts c) (mkRegs (gdtr r) (tr r) (sel_cs r) (sel_ds r) (sel_es r) (sel_fs r) (sel_gs r) (sel_ss r) ms)
    (ce_mc c) (ce_idtr c).
Definition put_flag (m : machine) (b : bool) : machine := mkMachine (ks m) (gsbase m) (kgsbase m) (ring m) b.

(** *** A component's operation on its part of the state *)
Definition on_console (f : console -> outcome console) (k : kworld) : outcome kworld :=
  let c := kw_console k in
  c ← f (mkConsole (disp c) (cursor_x c) (cursor_y c) (port c) (print_lock c) (interrupts (machine_of k)));
  Done (put_console (set_machine k (put_flag (machine_of k) (irq_flag c))) c).

Definition on_timer {A} (f : timer_hw D -> outcome (A * timer_hw D)) (k : kworld) : outcome (A * kworld) :=
  let t := kw_times k in
  '(a, h) ← f (with_irqs (kt_hw t) (interrupts (machine_of k)));
  Done (a, put_times (set_machine k (put_flag (machine_of k) (irqs_on h)))
             (mkKTimes (kt_lapics t) h (kt_freq t) (kt_apicTicks t) (kt_tscTicks t))).

Definition on_sched (f : sys -> outcome sys) (k : kworld) : outcome kworld :=
  s ← f (with_mc (kw_sched k) (machine_of k));
  Done (put_sched (set_machine k (mc s)) s).

Section entry.
Context (e : boot_env).
Abbreviation elevated_do := (run_elevated (e_per_cpu e)).

(** *** Printing *)
Definition kuPrint (fmt : list Z) (args : list varg) : kworld -> outcome kworld :=
  elevated_do (on_console (kprintFmtColoredExLocked (e_lsr e) (e_serial_fuel e) DEFAULT_TEXT_COLOR fmt args)).

Definition say (k : kworld) (m : message) : outcome kworld :=
  match m with
  | Info fmt args => on_console (KPrint.kprintInfo (e_lsr e) (e_serial_fuel e) fmt args) k
  | Warn fmt args => on_console (KPrint.kprintWarn (e_lsr e) (e_serial_fuel e) fmt args) k
  | User fmt args => kuPrint fmt args k
  end.

(** One line of [debugPat]: the name lives until the message is printed. *)
Definition pat_line (pat : Z) (k : kworld) (line : Z * string) : outcome kworld :=
  let text := codes (patAttribToString (pat_type (fst line) pat)) in
  '(h, p) ← string_block (km_heap (kw_mem k)) text;
  let k := put_heap k h in
  s ← string_chars h p text;
  k ← kuPrint (ln (snd line)) [VStr s] k;
  h ← string_end (km_heap (kw_mem k)) p text;
  Done (put_heap k h).

Definition debugPat (pat : Z) (k : kworld) : outcome kworld :=
  k ← kuPrint (ln "---- Page Attribute Table ----") [] k;
  k ← for_each (pat_line pat) pat_lines k;
  kuPrint [10] [] k.

(** *** Interrupts and memory *)
Definition ku_interrupts (k : kworld) : outcome kworld :=
  i ← setupInterruptDescriptorTable (e_stub_addr e) (e_idt_addr e) (kw_idt k);
  let k := put_idt k i in
  elevated_do (fun k =>
    c ← loadIdtr (idtr (kw_idt k)) (kw_core k);
    m ← enableInterrupts (ce_mc c);
    Done (put_core k (with_mc_core c m))) k.

Definition ku_allocator (k : kworld) : outcome kworld :=
  elevated_do (fun k =>
    let m := kw_mem k in
    let cr3 := Process.cr3 (ks (machine_of k)) in
    '(p, h, t) ← initializeFromMemoryMap (e_off e) cr3 (km_pfa m) (km_heap m) (km_tables m) (e_descs e);
    Done (put_memory k (mkKMem p h t (getCurrentTopLevelPageTable (e_off e) cr3) (km_bytes m)))) k.

Definition ku_reserve (k : kworld) : outcome kworld :=
  let m := kw_mem k in
  '(p, h) ← reserve_image (e_off e) (e_image e) (km_pfa m, km_heap m);
  Done (put_memory k (mkKMem p h (km_tables m) (km_root m) (km_bytes m))).

(** *** Display *)
Definition setup_pat (k : kworld) : outcome kworld :=
  let '(cr0, cr4, ins) := kw_ctl k in
  let c := kw_core k in
  r ← ksetupPatOnKernelEntry (mkCpu cr0 cr4 (msrs (ce_regs c)) (interrupts (ce_mc c)) ins);
  Done (mkKw (with_mc_core (put_msrs c (c_msrs r)) (put_flag (ce_mc c) (c_if r))) (c_cr0 r, c_cr4 r, issued r)
    (kw_idt k) (kw_mem k) (kw_console k) (kw_times k) (kw_acpi k) (kw_sched k)).

(** The back buffer is a block of the heap; what is in it is the back buffer of the display. *)
Definition start_display (k : kworld) : outcome kworld :=
  '(h, back) ← kmalloc (km_heap (kw_mem k)) (im_fbSize (e_image e));
  if back =? 0 then Fault else
  let k := put_heap k h in
  let m := kw_mem k in
  let c := kw_console k in
  '(d, t) ← Display_initialize (e_off e) (km_root m) (km_tables m) (e_framebuffer e) (e_font e);
  Done (put_console (put_memory k (mkKMem (km_pfa m) (km_heap m) t (km_root m) (km_bytes m)))
    (mkConsole d (cursor_x c) (cursor_y c) (port c) (print_lock c) (irq_flag c))).

Definition read_vendor (k : kworld) : outcome (list Z * kworld) :=
  let m := kw_mem k in
  b ← cpuid_readVendorId (e_cpuid e) (km_bytes m) (e_vendor e);
  s ← cstring b (e_vendor e) 13;
  Done (s, put_memory k (mkKMem (km_pfa m) (km_heap m) (km_tables m) (km_root m) b)).

Definition banner (vendorName : list Z) : list message :=
  [Info (ln "===== Stellux Kernel =====") [];
   Info (ln "CPU Vendor: %s") [VStr vendorName];
   Warn (ln "5-level paging support: %s" ++ [10])
     [VStr (codes (if cpuid_isLa57Supported (e_cpuid e) then "enabled" else "disabled"))]].

Definition ku_display (k : kworld) : outcome kworld :=
  elevated_do (fun k =>
    k ← (if cpuid_isPATSupported (e_cpuid e) then setup_pat k else Done k);
    k ← start_display k;
    '(vendorName, k) ← read_vendor k;
    k ← for_each say (banner vendorName) k;
    pat ← readMsr (msrs (ce_regs (kw_core k))) IA32_PAT_MSR;
    debugPat pat k) k.

Definition memory_report (p : PageFrameAllocator) : list message :=
  [User (ln "System total memory : %llu MB") [VWord (m_totalSystemMemory p / 1024 / 1024)];
   User (ln "System free memory  : %llu MB") [VWord (m_freeSystemMemory p / 1024 / 1024)];
   User (ln "System used memory  : %llu MB") [VWord (m_usedSystemMemory p / 1024 / 1024)];
   User (ln "The kernel is loaded at:") [];
   User (ln "    Physical : 0x%llx") [VWord (e_phys_base e)];
   User (ln "    Virtual  : 0x%llx" ++ [10]) [VWord (im_ksymstart (e_image e))];
   User (ln "KernelStack  : 0x%llx" ++ [10]) [VWord (e_kernelStack e ⊞ PAGE_SIZE)]].

Definition ku_report (k : kworld) : outcome kworld := for_each say (memory_report (km_pfa (kw_mem k))) k.

(** *** Interrupt controllers and timers *)

(** [getCurrentCpuId] *)
Definition current_cpu_id (k : kworld) : outcome (kworld * Z) :=
  elevated_do (fun '(k, _) => p ← current_pcb (e_per_cpu e) (machine_of k); Done (k, pcpu p)) (k, 0).

(** When the core has no object yet, the base register is changed elevated; the registers of
    the APIC, which are memory, can be written in either ring. *)
Definition ku_lapic (k : kworld) : outcome kworld :=
  '(k, cpu) ← current_cpu_id k;
  let t := kw_times k in
  have ← need (s_lapics (kt_lapics t) !! Z.to_nat cpu);
  if have : bool then Done k
  else elevated_do (fun k =>
    '(ms, g, h) ← initializeLocalApic cpu (e_lapic_page e) (msrs (ce_regs (kw_core k))) (kt_lapics t) (kt_hw t);
    Done (put_times (put_core k (put_msrs (kw_core k) ms))
            (mkKTimes g h (kt_freq t) (kt_apicTicks t) (kt_tscTicks t)))) k.

Definition ku_acpi (k : kworld) : outcome kworld :=
  elevated_do (fun k =>
    a ← AcpiController_init (e_off e) (e_uninit e) (e_acpi_fuel e) (km_bytes (kw_mem k)) (fst (kw_acpi k)) (e_rsdp e);
    Done (put_acpi k a)) k.

Definition ku_timer (k : kworld) : outcome kworld :=
  hpet ← need (m_hpet (snd (kw_acpi k)));
  let t := kw_times k in
  let '(d, freq) := KernelTimer_init (clock (kt_hw t)) in
  let k := put_times k (mkKTimes (kt_lapics t) (with_clock (kt_hw t) d) freq (kt_apicTicks t) (kt_tscTicks t)) in
  k ← elevated_do Done k;
  '(ticks, k) ← on_timer (fun h => '(a, b, h) ← calibrateApicTimer (e_fuel e) freq 100 h; Done ((a, b), h)) k;
  let t := kw_times k in
  Done (put_times k (mkKTimes (kt_lapics t) (startApicPeriodicTimer (fst ticks) (kt_hw t)) (kt_freq t) (fst ticks) (snd ticks))).

(** The physical address behind a page of registers: that of the last mapping. *)
Definition behind (page : Z) (l : list (Z * Z)) : option Z :=
  snd <$> head (filter (fun x => fst x = page) l).

Definition ku_keyboard (k : kworld) : outcome kworld :=
  match m_madt (snd (kw_acpi k)) with
  | Some t =>
      a ← need (m_ioApics t !! 0%nat);
      let w := fst (kw_acpi k) in
      let c := w_apics w in
      phys ← need (behind (m_virtualBase a) (mappings c));
      let hw := fst (route_keyboard (ioapics c phys) a) in
      Done (put_acpi k (mkWorld (w_ports w) (w_windows w) (w_idmap w)
        (mkCtx (fun p => if p =? phys then hw else ioapics c p) (pages c) (mappings c)), snd (kw_acpi k)))
  | None => Done k
  end.

(** *** Scheduling *)
Definition ku_sched (k : kworld) : outcome kworld := on_sched (sched_init (e_swappers e) true (e_queue e 0)) k.

Definition ku_ap_cores (k : kworld) : outcome kworld :=
  elevated_do (fun k =>
    apicTable ← need (m_madt (snd (kw_acpi k)));
    let m := kw_mem k in
    let t := kw_times k in
    '(p, b, w) ← initializeApCores (e_swappers e) (e_fuel e) (kt_freq t) true (e_queue e) apicTable
      (e_asm e) (e_entryC e) (km_root m) (e_bsp e) (km_pfa m) (km_bytes m)
      (mkApWorld (with_mc (kw_sched k) (machine_of k)) (kt_hw t));
    let k := put_memory k (mkKMem p (km_heap m) (km_tables m) (km_root m) b) in
    let k := put_times k (mkKTimes (kt_lapics t) (aw_hw w) (kt_freq t) (kt_apicTicks t) (kt_tscTicks t)) in
    Done (put_sched (set_machine k (mc (aw_sys w))) (aw_sys w))) k.

Definition ku_start_tasks (k : kworld) : outcome kworld :=
  on_sched (ke_test_ap_startup (km_root (kw_mem k)) (e_hello e) (e_goodbye e) (e_tasks e)) k.

(** *** The entry *)
Definition _kuser_entry (k : kworld) : outcome kworld :=
  k ← ku_interrupts k;
  k ← ku_allocator k;
  k ← ku_reserve k;
  k ← ku_display k;
  k ← ku_report k;
  k ← ku_lapic k;
  k ← ku_acpi k;
  k ← ku_timer k;
  k ← ku_keyboard k;
  k ← ku_sched k;
  k ← ku_ap_cores k;
  ku_start_tasks k.
End entry.
End world.
Arguments ktimes D : clear implicits.
Arguments kworld D : clear implicits.
