(* ===== verification/KUserThms.v ===== *)
(** * The phases of the kernel entry

    Each phase of [_kuser_entry] ([KUser]) returns, with the components' own lemmas: the
    elevations around it, the messages as lines of text, and one lemma per phase. *)
From Stdlib Require Import ZArith Lia Permutation.
From stdpp Require Import base tactics numbers option list gmap.
From S2P Require Import Prelude Memory KMemory KString Sync KHeap KHeapThms KStlString PageFrame PageTable.
From S2P Require Import Paging MemInit KVector Process Elevate Sched IoApic Mcfg Acpi Gdt Interrupts KTime.
From S2P Require Import CpuSetup ApStartup KDisplay DeviceMaps KPrint KernelEntry Reserve SpawnTest KUser.
Local Open Scope Z_scope.

(** ** Elevation *)
Section elevation.
(** The thread [t] on the core [cpu]. *)
Context (per_cpu_data cpu t : Z).
Context `{MachineLaws St}.

(** The machine with its thread raised. *)
Definition raised (m : machine) : machine :=
  match pcbs (ks m) !! t with
  | Some p => put_pcb (with_ring m 0) t (set_usergs (set_elevated p 1) (cpu_gs per_cpu_data cpu))
  | None => m
  end.

(** The machine with its thread lowered after an elevation. *)
Definition served (m : machine) : machine :=
  match pcbs (ks m) !! t with
  | Some p => put_pcb m t (set_usergs p (cpu_gs per_cpu_data cpu))
  | None => m
  end.

Lemma raised_lowered p m : thread_ok per_cpu_data cpu t p m -> elevated p = 0 ->
  thread_ok per_cpu_data cpu t (set_usergs (set_elevated p 1) (cpu_gs per_cpu_data cpu)) (raised m).
Proof.
  intros Ht He. unfold raised. rewrite (tk_pcb _ _ _ _ _ Ht). eapply thread_ok_put; [exact Ht|by right|done].
Qed.

Lemma served_settled p m : thread_ok per_cpu_data cpu t p m -> elevated p = 0 -> settled_as per_cpu_data cpu t (served m).
Proof.
  intros Ht He. exists (set_usergs p (cpu_gs per_cpu_data cpu)). split; [|by split].
  unfold served. pose proof (tk_ring _ _ _ _ _ Ht) as Hr. destruct Ht as [Hc Hp Hg Hk Hf _]. rewrite Hp.
  split; try done. cbn. by rewrite lookup_insert_eq.
Qed.

Lemma served_same m : settled_as per_cpu_data cpu t m -> served m = m.
Proof.
  intros (p & Ht & He & Hu). unfold served. rewrite (tk_pcb _ _ _ _ _ Ht). destruct m as [[b c r] g k rg i].
  unfold put_pcb, with_ks. cbn. rewrite insert_id; [done|]. pose proof (tk_pcb _ _ _ _ _ Ht) as Hp. cbn in Hp. rewrite Hp.
  destruct p; cbn in *; by subst.
Qed.

(** A lowered thread that runs code elevated which leaves the machine as it found it has its
    gs base saved, and is else as before. *)
Lemma run_lowered (s s2 : St) code p m : machine_of s = m -> thread_ok per_cpu_data cpu t p m -> elevated p = 0 ->
  code (set_machine s (raised m)) = Done (set_machine s2 (raised m)) ->
  run_elevated per_cpu_data code s = Done (set_machine s2 (served m)).
Proof.
  intros <- Ht He Hc. pose proof (tk_pcb _ _ _ _ _ Ht) as Hp. pose proof (raised_lowered _ _ Ht He) as Hr.
  unfold run_elevated. rewrite (kcheck_spec per_cpu_data cpu t p _ Ht). cbn [mbind outcome_bind].
  rewrite He, set_machine_same. cbn [Z.eqb]. rewrite (kelevate_spec per_cpu_data cpu t p _ Ht He). cbn [mbind outcome_bind].
  assert (put_pcb (with_ring (machine_of s) 0) t (set_usergs (set_elevated p 1) (cpu_gs per_cpu_data cpu)) =
          raised (machine_of s)) as -> by (unfold raised; by rewrite Hp).
  rewrite Hc. cbn [mbind outcome_bind]. rewrite machine_set.
  rewrite (klower_spec per_cpu_data cpu t _ _ Hr eq_refl eq_refl). cbn [mbind outcome_bind].
  rewrite set_machine_twice. do 2 f_equal. unfold raised, served. rewrite Hp.
  pose proof (tk_ring _ _ _ _ _ Ht) as Hrg. rewrite He in Hrg. cbn in Hrg.
  unfold put_pcb, with_ring, with_ks. cbn. rewrite insert_insert_eq. destruct (machine_of s) as [[b c r] g k rg i]. cbn in *.
  subst. do 3 f_equal. by destruct p; cbn in *; subst.
Qed.

Lemma run_settled (s s2 : St) code m : machine_of s = m -> settled_as per_cpu_data cpu t m ->
  code (set_machine s (raised m)) = Done (set_machine s2 (raised m)) ->
  run_elevated per_cpu_data code s = Done (set_machine s2 m).
Proof.
  intros Hm Hs Hc. pose proof Hs as (p & Ht & He & Hu). rewrite <- (served_same m Hs) at 1. by eapply run_lowered.
Qed.

(** Nested in elevated code the macro is just its body. *)
Lemma run_raised (s : St) code m : machine_of s = raised m -> settled_as per_cpu_data cpu t m ->
  run_elevated per_cpu_data code s = code s.
Proof.
  intros Hm (p & Ht & He & _). pose proof (raised_lowered _ _ Ht He) as Hr. unfold run_elevated. rewrite Hm.
  rewrite (kcheck_spec per_cpu_data cpu t _ _ Hr). cbn [mbind outcome_bind set_usergs set_elevated elevated Z.eqb].
  rewrite <- Hm, set_machine_same. change (u8 1 =? 0) with false. cbn [mbind outcome_bind]. by destruct (code s).
Qed.

Lemma raised_same m : interrupts (raised m) = interrupts m /\ Process.cr3 (ks (raised m)) = Process.cr3 (ks m) /\
  cpus (ks (raised m)) = cpus (ks m).
Proof. unfold raised. by destruct (pcbs (ks m) !! t). Qed.
End elevation.

(** ** Lines of text *)
Section lines.
Context (W H h cols : Z).

(** A character that moves the cursor to the right. *)
Definition plain (c : Z) : Prop := 32 <= c < 128.

(** At most [cols] plain characters, then newlines. *)
Definition one_line (t : list Z) : Prop := exists body n,
  t = body ++ replicate n 10 /\ (1 <= n)%nat /\ Forall plain body /\ Z.of_nat (length body) <= cols.

Lemma advances_plain y : 0 <= y -> y + h <= H -> forall body x, Forall plain body ->
  x + 8 * Z.of_nat (length body) + 8 <= W -> advances W H h (x, y) body = Some (x + 8 * Z.of_nat (length body), y).
Proof.
  intros Hy Hh. induction body as [|c body IH]; intros x Hb Hx; [cbn [length Z.of_nat]; by rewrite Z.mul_0_r, Z.add_0_r|].
  apply Forall_cons in Hb as [Hc Hb]. cbn [advances length]. unfold advance, plain in *.
  rewrite (proj2 (Z.eqb_neq c 10)), (proj2 (Z.eqb_neq c 13)), (proj2 (Z.ltb_ge H (y + h))) by lia.
  rewrite (proj2 (Z.ltb_ge W (x + 8 + 8))) by (cbn [length] in Hx; lia). rewrite IH; [|done|cbn [length] in Hx; lia].
  do 2 f_equal. cbn [length]. lia.
Qed.

Lemma advances_newlines n : forall x y, 0 <= y -> y + h <= H -> 0 <= h -> (1 <= n)%nat ->
  exists y', advances W H h (x, y) (replicate n 10) = Some (8, y') /\ 0 <= y' /\ y' + h <= H.
Proof.
  induction n as [|n IH]; intros x y Hy Hh H0 Hn; [lia|]. cbn [replicate advances]. unfold advance.
  cbn [Z.eqb Pos.eqb]. rewrite (proj2 (Z.leb_le (y + h) H)) by lia.
  set (y1 := if H <? y + h + h then y else y + h).
  assert (0 <= y1 /\ y1 + h <= H) as [Hy1 Hh1] by (unfold y1; destruct (Z.ltb_spec H (y + h + h)); lia).
  destruct n as [|n]; [exists y1; by split_and!|]. apply (IH 8 y1); [done|done|done|lia].
Qed.

Lemma advances_line t y : 8 * cols + 16 <= W -> 0 <= y -> y + h <= H -> 0 <= h -> one_line t ->
  exists y', advances W H h (8, y) t = Some (8, y') /\ 0 <= y' /\ y' + h <= H.
Proof.
  intros Hw Hy Hh H0 (body & n & -> & Hn & Hb & Hl). rewrite advances_app, advances_plain by (done || lia).
  by apply advances_newlines.
Qed.

Lemma one_line_ascii t : one_line t -> Forall (fun c => 0 <= c < 128) t.
Proof.
  intros (body & n & -> & _ & Hb & _). apply Forall_app. split.
  - eapply Forall_impl; [exact Hb|]. unfold plain. cbn. intros; lia.
  - apply Forall_replicate. lia.
Qed.
End lines.

(** ** Messages *)
Definition message_text (m : message) : option (list Z) :=
  match m with
  | Info fmt args => app [35; 73; 78; 70; 79; 32] <$> text false fmt args
  | Warn fmt args => app [35; 87; 65; 82; 78; 32] <$> text false fmt args
  | User fmt args => text false fmt args
  end.

Section messages.
Context (W H cols : Z) (f : Psf1Font) (fb : Framebuffer) (lsr : nat -> Z) (sfuel : nat).

(** The display has room for lines of [cols] characters. *)
Record console_fits : Prop := {
  cf_setup : setup W H f lsr sfuel;
  cf_cols : 0 <= cols /\ 8 * cols + 16 <= W;
  cf_pps : W <= pixelsPerScanline fb }.

(** The cursor is at the start of a line and both buffers are there. *)
Record screen_ready (c : console) : Prop := {
  sr_console : console_ok W H f fb c;
  sr_x : cursor_x c = 8;
  sr_y : cursor_y c + charSize f <= H;
  sr_map : mapped (front (disp c)) 0 (H * pixelsPerScanline fb) }.

(** [t] went to the serial port. *)
Definition sent (t : list Z) (c c' : console) : Prop :=
  out (port c') = out (port c) ++ ((fun x => (0x3F8, x)) <$> t).

Lemma sent_trans t u a b c : sent t a b -> sent u b c -> sent (t ++ u) a c.
Proof. unfold sent. intros -> ->. by rewrite fmap_app, app_assoc in *. Qed.

Definition say_console (m : message) : console -> outcome console :=
  match m with
  | Info fmt args => kprintInfo lsr sfuel fmt args
  | Warn fmt args => kprintWarn lsr sfuel fmt args
  | User fmt args => kprintFmtColoredExLocked lsr sfuel DEFAULT_TEXT_COLOR fmt args
  end.

Hypothesis Hfits : console_fits.

Lemma line_cursor c t : screen_ready c -> one_line cols t ->
  exists y, advances W H (charSize f) (cursor_x c, cursor_y c) t = Some (8, y) /\ 0 <= y /\ y + charSize f <= H.
Proof.
  intros Hc Ht. rewrite (sr_x _ Hc). pose proof (su_char _ _ _ _ _ (cf_setup Hfits)).
  apply (advances_line W H (charSize f) cols); [apply Hfits|apply (co_y _ _ _ _ _ (sr_console _ Hc))|apply Hc|lia|done].
Qed.

Lemma fmt_line color fmt args c t : screen_ready c -> text false fmt args = Some t -> one_line cols t ->
  exists c', kprintFmtColoredEx lsr sfuel color fmt args c = Done c' /\ screen_ready c' /\ sent t c c' /\
    irq_flag c' = irq_flag c /\ print_lock c' = print_lock c.
Proof.
  intros Hc Ht H1. destruct (line_cursor c t Hc H1) as (y & Ha & Hy & Hh).
  destruct (kprintFmt_run W H f fb lsr sfuel color fmt args c t (8, y) (cf_setup Hfits) (sr_console _ Hc) Ht
    (one_line_ascii cols t H1) Ha (cf_pps Hfits) (sr_map _ Hc)) as (c' & E & Hok & Hp & Ho & Hl & Hi & Hm & _).
  injection Hp as Hx Hy'. exists c'. split; [done|]. split; [|done]. split; [done|done|lia|done].
Qed.

Lemma heading_line heading hcolor fmt args c t : screen_ready c -> text false fmt args = Some t ->
  one_line cols (heading ++ t) ->
  exists c', with_heading lsr sfuel heading hcolor fmt args c = Done c' /\ screen_ready c' /\ sent (heading ++ t) c c' /\
    irq_flag c' = irq_flag c /\ print_lock c' = print_lock c.
Proof.
  intros Hc Ht H1. destruct (line_cursor c _ Hc H1) as (y & Ha & Hy & Hh).
  pose proof (one_line_ascii cols _ H1) as [Hasc1 Hasc2]%Forall_app. rewrite advances_app in Ha.
  destruct (advances W H (charSize f) (cursor_x c, cursor_y c) heading) as [q|] eqn:Eq; [|done].
  destruct (print_text_run W H f fb lsr sfuel heading hcolor (cf_setup Hfits) c (sr_console _ Hc) Hasc1 q Eq)
    as (c1 & E1 & Hok1 & Hq & (Ho1 & Hl1 & Hi1 & Hf1) & _).
  unfold with_heading. rewrite E1. cbn [mbind outcome_bind]. rewrite <- Hq in Ha.
  destruct (kprintFmt_run W H f fb lsr sfuel COLOR_WHITE fmt args c1 t (8, y) (cf_setup Hfits) Hok1 Ht Hasc2 Ha (cf_pps Hfits))
    as (c' & E & Hok & Hp & Ho & Hl & Hi & Hm & _); [rewrite Hf1; apply Hc|].
  injection Hp as Hx Hy'. exists c'. split; [done|]. split; [|split; [|by rewrite Hi, Hl]].
  - split; [done|done|lia|done].
  - eapply sent_trans; [exact Ho1|exact Ho].
Qed.

Lemma ready_lock c l : screen_ready c -> screen_ready (with_lock c l).
Proof. intros [[] ? ? ?]. by split; [split| | |]. Qed.

Lemma say_console_run m c t : screen_ready c -> print_lock c = 0 -> message_text m = Some t -> one_line cols t ->
  exists c', say_console m c = Done c' /\ screen_ready c' /\ sent t c c' /\ irq_flag c' = irq_flag c /\ print_lock c' = 0.
Proof.
  intros Hc Hl Ht H1. destruct m as [fmt args|fmt args|fmt args]; cbn [message_text] in Ht.
  1, 2: destruct (text false fmt args) as [u|] eqn:Eu; [|done]; injection Ht as <-; rewrite <- Hl.
  - by apply (heading_line [35; 73; 78; 70; 79; 32] COLOR_GREEN).
  - by apply (heading_line [35; 87; 65; 82; 78; 32] COLOR_YELLOW).
  - unfold say_console, kprintFmtColoredExLocked. rewrite Hl. change (acquireSpinlock 0) with (Done 1). cbn [mbind outcome_bind].
    destruct (fmt_line DEFAULT_TEXT_COLOR fmt args (with_lock c 1) t (ready_lock _ _ Hc) Ht H1) as (c' & -> & Hc' & Hs & Hi & _).
    cbn [mbind outcome_bind]. eexists. split; [reflexivity|]. split; [by apply ready_lock|]. by split_and!.
Qed.
End messages.

(** ** Speaking from the kernel thread *)
Section speaking.
Context (e : boot_env) (cpu t W H cols : Z) (fb : Framebuffer) `{HpetDevice D}.
Hypothesis Hfits : console_fits W H cols (e_font e) fb (e_lsr e) (e_serial_fuel e).
Abbreviation ready := (screen_ready W H (e_font e) fb).
Abbreviation is_settled := (settled_as (e_per_cpu e) cpu t).
Abbreviation up := (raised (e_per_cpu e) cpu t).

(** The thread, lowered or in elevated code, with interrupts on. *)
Definition calm (m : machine) : Prop :=
  interrupts m = true /\ (is_settled m \/ exists m0, m = up m0 /\ is_settled m0).

Lemma on_console_run f (k : kworld D) c' : interrupts (machine_of k) = true ->
  (forall c, disp c = disp (kw_console k) -> cursor_x c = cursor_x (kw_console k) ->
     cursor_y c = cursor_y (kw_console k) -> port c = port (kw_console k) -> print_lock c = print_lock (kw_console k) ->
     irq_flag c = true -> f c = Done c') ->
  irq_flag c' = true -> on_console f k = Done (put_console k c').
Proof.
  intros Hi Hf Hc. unfold on_console. rewrite Hi, Hf by done. cbn [mbind outcome_bind]. rewrite Hc.
  assert (put_flag (machine_of k) true = machine_of k) as -> by (destruct (machine_of k); cbn in Hi; by subst).
  by rewrite set_machine_same.
Qed.

Definition with_irq (c : console) (b : bool) : console :=
  mkConsole (disp c) (cursor_x c) (cursor_y c) (port c) (print_lock c) b.

Lemma say_run (k : kworld D) m u : calm (machine_of k) -> ready (kw_console k) -> print_lock (kw_console k) = 0 ->
  message_text m = Some u -> one_line cols u ->
  exists c', say e k m = Done (put_console k c') /\ ready c' /\ print_lock c' = 0 /\ sent u (kw_console k) c'.
Proof.
  intros [Hi Hm] Hr Hl Ht H1.
  destruct (say_console_run W H cols (e_font e) fb (e_lsr e) (e_serial_fuel e) Hfits m (with_irq (kw_console k) true) u)
    as (c' & E & Hr' & Hs & Hf & Hl'); [by destruct Hr as [[] ? ? ?]; split; [split| | |]|done|done|done|].
  exists c'. split; [|by split_and!].
  assert (forall k' : kworld D, kw_console k' = kw_console k -> interrupts (machine_of k') = true ->
    on_console (say_console (e_lsr e) (e_serial_fuel e) m) k' = Done (put_console k' c')) as Hon.
  { intros k' Hk Hi'. apply on_console_run; [done| |done]. rewrite Hk. intros [d x y p l b]. cbn. intros -> -> -> -> -> ->. exact E. }
  destruct m as [fmt args|fmt args|fmt args]; [by apply Hon|by apply Hon|].
  unfold say, kuPrint. destruct Hm as [Hs1|(m0 & Hm0 & Hs0)].
  - rewrite (run_settled (e_per_cpu e) cpu t k (put_console k c') _ (machine_of k) eq_refl Hs1).
    + do 2 f_equal. by destruct k as [[] ? ? ? ? ? ? ?].
    + etransitivity; [apply Hon; [done|]|]; [|done].
      rewrite machine_set. by rewrite (proj1 (raised_same _ _ _ _)).
  - rewrite (run_raised (e_per_cpu e) cpu t k _ m0) by done. by apply Hon.
Qed.

(** The text of a list of messages, each a line. *)
Definition messages_text (ms : list message) (text : list Z) : Prop :=
  exists ts, Forall2 (fun m u => message_text m = Some u /\ one_line cols u) ms ts /\ text = concat ts.

Lemma say_all_run ms : forall (k : kworld D) text, calm (machine_of k) -> ready (kw_console k) -> print_lock (kw_console k) = 0 ->
  messages_text ms text ->
  exists c', for_each (say e) ms k = Done (put_console k c') /\ ready c' /\ print_lock c' = 0 /\ sent text (kw_console k) c'.
Proof.
  induction ms as [|m ms IH]; intros k text Hk Hr Hl (ts & Hts & ->).
  - inversion Hts; subst. exists (kw_console k). cbn [for_each concat]. split; [by destruct k|].
    split; [done|]. split; [done|]. unfold sent. by rewrite app_nil_r.
  - inversion Hts as [|? u ? ts' [Hu H1] Hts']; subst. cbn [for_each concat].
    destruct (say_run k m u Hk Hr Hl Hu H1) as (c1 & -> & Hr1 & Hl1 & Hs1). cbn [mbind outcome_bind].
    destruct (IH (put_console k c1) (concat ts')) as (c2 & -> & Hr2 & Hl2 & Hs2); try done; [by exists ts'|].
    exists c2. split; [done|]. split; [done|]. split; [done|]. by eapply sent_trans.
Qed.
End speaking.

(** ** The messages of the entry are lines *)
Section texts.
Lemma one_line_cons cols c t : plain c -> one_line (cols - 1) t -> one_line cols (c :: t).
Proof.
  intros Hc (body & n & -> & Hn & Hb & Hl). exists (c :: body), n. split_and!; [done|done|by constructor|cbn [length]; lia].
Qed.

Lemma one_line_app cols v t : Forall plain v -> one_line (cols - Z.of_nat (length v)) t -> one_line cols (v ++ t).
Proof.
  intros Hv (body & n & -> & Hn & Hb & Hl). exists (v ++ body), n.
  split_and!; [by rewrite app_assoc|done|by apply Forall_app|rewrite length_app; lia].
Qed.

Lemma one_line_end cols n : 0 <= cols -> (1 <= n)%nat -> one_line cols (replicate n 10).
Proof. intros Hc Hn. exists [], n. split_and!; [done|done|constructor|cbn; lia]. Qed.

Lemma dec_plain n : Forall plain (dec n) /\ (length (dec n) <= 20)%nat.
Proof.
  split; [|apply dec_digits_length]. eapply Forall_impl; [apply dec_digits_ok|]. unfold is_digit, plain. cbn. intros; lia.
Qed.

Lemma hex_plain n : Forall plain (hex n) /\ (length (hex n) <= 20)%nat.
Proof.
  unfold hex. assert (bytes_ok (rev (le_split 8 n))) as Hb by (apply Forall_rev, le_split_ok).
  assert (forall l, bytes_ok l -> Forall plain (flat_map hex_byte l) /\ length (flat_map hex_byte l) = (2 * length l)%nat) as X.
  { assert (forallb (fun d => (32 <=? hex_char d) && (hex_char d <? 128)) (seqZ 0 16) = true) as C by reflexivity.
    rewrite forallb_forall in C.
    assert (forall d, 0 <= d < 16 -> plain (hex_char d)) as Hd.
    { intros d Hd. specialize (C d). rewrite andb_true_iff, Z.leb_le, Z.ltb_lt in C.
      apply C, list_elem_of_In, elem_of_seqZ. lia. }
    intros l. induction 1 as [|x l Hx _ [IH1 IH2]]; [done|]. cbn [flat_map hex_byte app length]. unfold is_u8 in Hx.
    split; [|lia]. constructor; [apply Hd; wordlia|]. constructor; [apply Hd; wordlia|done]. }
  destruct (X _ Hb) as [X1 X2]. split; [done|]. rewrite X2, length_rev, length_le_split. lia.
Qed.

(** The message is a line of at most 60 characters. *)
Definition speaks (m : message) : Prop := exists u, message_text m = Some u /\ one_line 60 u.

Lemma speaks_text ms : Forall speaks ms -> exists t, messages_text 60 ms t.
Proof.
  induction 1 as [|m ms (u & Hu & H1) _ (t & ts & Hts & ->)]; [by exists [], []|].
  exists (u ++ concat ts), (u :: ts). split; [by constructor|done].
Qed.
End texts.

Ltac plain_chars := repeat (apply one_line_cons; [unfold plain; lia|]).
Ltac spoken := eexists; split; [lazy -[dec hex u64]; reflexivity|].

Ltac line_end := first [apply (one_line_end _ 1); lia | apply (one_line_end _ 2); lia].

(** A format with a numeral in it, or none. *)
Ltac numeral_line :=
  try match goal with |- context [VWord ?w] => generalize w; intros ? end; spoken; plain_chars;
  try match goal with
  | |- context [dec ?n] => pose proof (dec_plain n) as [? ?]; apply (one_line_app _ (dec n)); [done|]
  | |- context [hex ?n] => pose proof (hex_plain n) as [? ?]; apply (one_line_app _ (hex n)); [done|]
  end; plain_chars; line_end.

Lemma memory_report_speaks e p : Forall speaks (memory_report e p).
Proof. unfold memory_report. repeat (apply Forall_cons; split; [numeral_line|]). apply Forall_nil. done. Qed.

(** A format with a string in it. *)
Ltac string_line v Hv := spoken; plain_chars; apply (one_line_app _ v); [exact Hv|]; plain_chars; line_end.

Lemma plain_codes s : forallb (fun c => (32 <=? c) && (c <? 128)) (codes s) = true -> Forall plain (codes s).
Proof.
  intros Hs. apply Forall_forall. intros c Hc. rewrite forallb_forall in Hs.
  specialize (Hs c (proj1 (list_elem_of_In _ _) Hc)). rewrite andb_true_iff, Z.leb_le, Z.ltb_lt in Hs. exact Hs.
Qed.

Lemma pat_name_plain type : Forall plain (codes (patAttribToString type)) /\ (length (codes (patAttribToString type)) <= 20)%nat.
Proof.
  unfold patAttribToString. repeat case_match; (split; [apply plain_codes; reflexivity|vm_compute; lia]).
Qed.

Lemma pat_report_speaks pat : Forall speaks (pat_report pat).
Proof.
  unfold pat_report. apply Forall_cons. split; [numeral_line|]. apply Forall_app. split.
  - apply Forall_fmap. repeat (apply Forall_cons; split; [cbv beta iota zeta delta [compose pat_message fst snd];
      match goal with |- context [codes (patAttribToString ?t)] =>
        destruct (pat_name_plain t) as [Hp Hl]; revert Hp Hl; generalize (codes (patAttribToString t)); intros v Hp Hl;
        string_line v Hp end|]). by apply Forall_nil.
  - apply Forall_singleton. numeral_line.
Qed.

Lemma banner_speaks e v : Forall plain v -> (length v <= 12)%nat -> Forall speaks (banner e v).
Proof.
  intros Hv Hl. unfold banner. apply Forall_cons. split; [numeral_line|]. apply Forall_cons. split; [string_line v Hv|].
  apply Forall_singleton. destruct (cpuid_isLa57Supported _); numeral_line.
Qed.

(** ** Names in the heap

    The heap is left as a list of segments that are linked and coalesced: the block of a name
    is taken and given back. *)
Section names.
Context (segs : list seg).

Record tidy (h : Heap) : Prop := {
  ty_rep : heap_rep h segs;
  ty_lock : h_lock h = 0;
  ty_linked : linked (m_firstSegment h) 0 segs;
  ty_coalesced : coalesced segs;
  ty_room : forall size, 0 <= size < 64 -> snd (alloc_spec (m_firstSegment h) segs size) <> 0 }.

Lemma name_kept h text : tidy h -> Forall plain text -> (length text <= 20)%nat ->
  exists m p m', string_block h text = Done (set_mem h m, p) /\
    string_chars (set_mem h m) p text = Done text /\
    string_end (set_mem h m) p text = Done (set_mem h m') /\ tidy (set_mem h m').
Proof.
  intros [R Hl HL HC Hroom] Ht Hn. unfold string_block, string_chars, string_end.
  destruct (length text <? SSO_SIZE)%nat.
  { exists (h_mem h), 0, (h_mem h). replace (set_mem h (h_mem h)) with h by (by destruct h). by split_and!. }
  set (size := Z.of_nat (length text) + 1). assert (0 <= size < 64) as Hs by (unfold size; lia).
  specialize (Hroom size Hs) as Hp.
  destruct (allocate_runs h segs size R Hl ltac:(lia)) as (m1 & E1 & R1 & _).
  destruct (alloc_spec_success _ _ _ Hp) as (l1 & s & l2 & _ & _ & _ & Ep & El).
  assert (length (text ++ [0]) = Z.to_nat size) as Elen by (rewrite length_app; cbn [length]; unfold size; lia).
  assert (bytes_ok (text ++ [0])) as Hok.
  { apply Forall_app. split; [|repeat constructor; unfold is_u8; lia].
    eapply Forall_impl; [exact Ht|]. intros c. unfold plain, is_u8. lia. }
  assert (heap_rep (set_mem h (put_bytes m1 (snd (alloc_spec (m_firstSegment h) segs size)) (text ++ [0])))
    (fst (alloc_spec (m_firstSegment h) segs size))) as R2.
  { rewrite Ep. rewrite El in R1 |- *. apply (rep_payload (set_mem h m1) l1 _ _ _ _ R1); [exact Hok|cbn; lia|cbn; rewrite Elen; lia]. }
  destruct (free_restores h segs size _ Hl HL HC Hp R2) as (m3 & E3 & R3).
  exists (put_bytes m1 (snd (alloc_spec (m_firstSegment h) segs size)) (text ++ [0])), (snd (alloc_spec (m_firstSegment h) segs size)), m3.
  split_and!; [|apply cstring_put; [eapply Forall_impl; [exact Ht|]; intros c; unfold plain; lia|lia]| |by split].
  - unfold kmalloc. rewrite E1. cbn [mbind outcome_bind set_mem h_mem]. rewrite write_bytes_mapped; [done|].
    rewrite El in R1. pose proof (rep_focus _ _ _ _ R1) as (P1 & P2 & P3 & P4 & _).
    rewrite Ep, Elen. eapply mapped_sub; [exact (rep_mapped _ _ R1)|cbn in *; lia|cbn in *; lia].
  - unfold kfree. destruct (Z.eqb_spec (snd (alloc_spec (m_firstSegment h) segs size)) 0); [done|exact E3].
Qed.

Context (e : boot_env) (cpu th W H cols : Z) (fb : Framebuffer) `{HpetDevice D}.
Hypothesis Hfits : console_fits W H cols (e_font e) fb (e_lsr e) (e_serial_fuel e).
Abbreviation ready := (screen_ready W H (e_font e) fb).

Lemma pat_lines_run pat ls : forall (k : kworld D) t, calm e cpu th (machine_of k) -> ready (kw_console k) -> print_lock (kw_console k) = 0 ->
  tidy (km_heap (kw_mem k)) -> messages_text cols (pat_message pat <$> ls) t ->
  exists m c, for_each (pat_line e pat) ls k = Done (put_console (put_heap k (set_mem (km_heap (kw_mem k)) m)) c) /\
    tidy (set_mem (km_heap (kw_mem k)) m) /\ ready c /\ print_lock c = 0 /\ sent t (kw_console k) c.
Proof.
  induction ls as [|l ls IH]; intros k t Hk Hr Hl Hh (ts & Hts & ->).
  - inversion Hts; subst. exists (h_mem (km_heap (kw_mem k))), (kw_console k). cbn [for_each concat].
    replace (set_mem _ _) with (km_heap (kw_mem k)) by (by destruct (km_heap (kw_mem k))).
    split; [by destruct k as [? ? ? [] ? ? ? ?]|]. split_and!; try done. unfold sent. by rewrite app_nil_r.
  - inversion Hts as [|? u ? ts' [Hu H1] Hts']; subst. cbn [for_each concat].
    set (text := codes (patAttribToString (pat_type (fst l) pat))) in *.
    destruct (pat_name_plain (pat_type (fst l) pat)) as [Hp Hn]. fold text in Hp, Hn.
    destruct (name_kept _ text Hh Hp Hn) as (m1 & p & m2 & E1 & E2 & E3 & Hh2).
    destruct (say_run e cpu th W H cols fb Hfits (put_heap k (set_mem (km_heap (kw_mem k)) m1)) (pat_message pat l) u Hk Hr Hl Hu H1)
      as (c1 & E4 & Hr1 & Hl1 & Hs1).
    assert (pat_line e pat k l = Done (put_console (put_heap k (set_mem (km_heap (kw_mem k)) m2)) c1)) as ->.
    { unfold pat_line. fold text. rewrite E1. cbn [mbind outcome_bind]. rewrite E2. cbn [mbind outcome_bind].
      cbn [say pat_message] in E4. fold text in E4. rewrite E4. cbn [mbind outcome_bind put_console put_heap put_memory kw_mem km_heap].
      rewrite E3. done. }
    cbn [mbind outcome_bind].
    destruct (IH (put_console (put_heap k (set_mem (km_heap (kw_mem k)) m2)) c1) (concat ts') Hk Hr1 Hl1 Hh2)
      as (m3 & c3 & E5 & Hh3 & Hr3 & Hl3 & Hs3); [by exists ts'|].
    exists m3, c3. split; [exact E5|]. split; [exact Hh3|]. split; [done|]. split; [done|]. by eapply sent_trans.
Qed.

Lemma debugPat_run pat (k : kworld D) t : calm e cpu th (machine_of k) -> ready (kw_console k) -> print_lock (kw_console k) = 0 ->
  tidy (km_heap (kw_mem k)) -> messages_text cols (pat_report pat) t ->
  exists m c, debugPat e pat k = Done (put_console (put_heap k (set_mem (km_heap (kw_mem k)) m)) c) /\
    tidy (set_mem (km_heap (kw_mem k)) m) /\ ready c /\ print_lock c = 0 /\ sent t (kw_console k) c.
Proof.
  intros Hk Hr Hl Hh (ts & Hts & ->). unfold pat_report in Hts.
  apply Forall2_cons_inv_l in Hts as (u & ts1 & [Hu H1] & Hts1 & ->).
  apply Forall2_app_inv_l in Hts1 as (ts2 & ts3 & Hts2 & Hts3 & ->).
  apply Forall2_cons_inv_l in Hts3 as (v & ts4 & [Hv H2] & Hts4 & ->). apply Forall2_nil_inv_l in Hts4 as ->.
  destruct (say_run e cpu th W H cols fb Hfits k _ u Hk Hr Hl Hu H1) as (c1 & E1 & Hr1 & Hl1 & Hs1).
  destruct (pat_lines_run pat pat_lines (put_console k c1) (concat ts2) Hk Hr1 Hl1 Hh) as (m & c2 & E2 & Hh2 & Hr2 & Hl2 & Hs2);
    [by exists ts2|].
  match type of E2 with _ = Done ?x => set (k2 := x) in * end.
  destruct (say_run e cpu th W H cols fb Hfits k2 _ v Hk Hr2 Hl2 Hv H2) as (c3 & E3 & Hr3 & Hl3 & Hs3).
  exists m, c3. split; [|split; [exact Hh2|split; [done|split; [done|]]]].
  - unfold debugPat. cbn [say] in E1, E3. rewrite E1. cbn [mbind outcome_bind]. rewrite E2. cbn [mbind outcome_bind]. exact E3.
  - cbn [concat]. rewrite concat_app. cbn [concat]. rewrite app_nil_r. eapply sent_trans; [exact Hs1|]. by eapply sent_trans.
Qed.
End names.

(** ** The phases *)
Ltac kcbn := cbn [machine_of set_machine kworld_machine put_core with_mc_core kw_core kw_ctl kw_idt kw_mem kw_console
  kw_times kw_acpi kw_sched ce_gdts ce_regs ce_mc ce_idtr mbind outcome_bind fst snd].

Section phases.
Context (e : boot_env) (entry64 top sp ustack : Z) `{HpetLaws D}.
Abbreviation boot_thread := (swapper (e_swappers e) 0).
Abbreviation is_settled := (settled (e_per_cpu e) (e_swappers e) 0).
Abbreviation up := (raised (e_per_cpu e) 0 boot_thread).
Abbreviation started := (core_started (e_per_cpu e) (e_swappers e) entry64 0 1 top sp ustack).

(** *** Interrupts *)
Lemma elevated_idt (k : kworld D) :
  run_elevated (e_per_cpu e) (fun k : kworld D =>
    c ← loadIdtr (idtr (kw_idt k)) (kw_core k);
    m ← enableInterrupts (ce_mc c);
    Done (put_core k (with_mc_core c m))) k =
  (c ← load_idt_elevated (e_per_cpu e) (idtr (kw_idt k)) (kw_core k); Done (put_core k c)).
Proof.
  destruct k as [[g r m i] ctl idt mm co ti ac sc]. unfold run_elevated, load_idt_elevated, RUN_ELEVATED. kcbn.
  destruct (__kcheck_elevated (e_per_cpu e) m) as [[b m1]| |]; kcbn; try done. destruct (b =? 0); kcbn.
  - destruct (__kelevate (e_per_cpu e) m1) as [m2| |]; kcbn; try done. unfold loadIdtr. kcbn. destruct (ring m2 =? 0); kcbn; [|done].
    destruct (enableInterrupts m2) as [m3| |]; kcbn; try done. by destruct (__klower (e_per_cpu e) m3).
  - unfold loadIdtr. kcbn. destruct (ring m1 =? 0); kcbn; [|done]. by destruct (enableInterrupts m1).
Qed.

Lemma ku_interrupts_run (k : kworld D) : started (kw_core k) ->
  length (g_kernelIdt (kw_idt k)) = Z.to_nat MAX_IDT_ENTRIES -> (forall st, is_u64 (e_stub_addr e st)) ->
  exists i c, ku_interrupts e k = Done (put_core (put_idt k i) c) /\
    setupInterruptDescriptorTable (e_stub_addr e) (e_idt_addr e) (kw_idt k) = Done i /\
    ce_idtr c = (4095, e_idt_addr e) /\ started c /\ is_settled (ce_mc c) /\ ce_regs c = ce_regs (kw_core k) /\
    Process.cr3 (ks (ce_mc c)) = Process.cr3 (ks (ce_mc (kw_core k))).
Proof.
  intros Hs Hl Ha. destruct (idt_gates _ (e_idt_addr e) _ Hl Ha) as (i & Ei & Hd & _).
  destruct (load_idt_run (e_per_cpu e) (e_swappers e) entry64 (idtr i) 0 1 top sp ustack (kw_core k) Hs)
    as (c & Ec & Hi & Hst & Hset & Hr & Hc3).
  exists i, c. unfold ku_interrupts. rewrite Ei. cbn [mbind outcome_bind]. rewrite elevated_idt. cbn [kw_idt kw_core put_idt].
  rewrite Ec. split; [done|]. split; [done|]. by rewrite Hi, Hd.
Qed.

(** Elevated code that does not look at the machine. *)
Lemma elevated_frame (code : kworld D -> outcome (kworld D)) (k k2 : kworld D) : is_settled (machine_of k) ->
  code (set_machine k (up (machine_of k))) = Done (set_machine k2 (up (machine_of k))) -> machine_of k2 = machine_of k ->
  run_elevated (e_per_cpu e) code k = Done k2.
Proof.
  intros Hs Hc Hm. rewrite (run_settled (e_per_cpu e) 0 boot_thread k k2 code (machine_of k) eq_refl Hs Hc).
  by rewrite <- Hm, set_machine_same.
Qed.

(** *** Memory *)
Section memory.
Context (lim : Z) `{BootLayout (e_off e) lim} (T : gmap Z (nat * Z)) (root par total : Z).
Hypothesis Hroot : T !! root = Some (4%nat, par).
Hypothesis Hoff : e_off e mod PAGE_SIZE = 0.
Hypothesis Hhigh : 0xffff000000000000 <= e_off e.

Lemma ku_memory_run (k : kworld D) : is_settled (machine_of k) -> Process.cr3 (ks (machine_of k)) = root ->
  map_wf lim total (e_descs e) ->
  start_state (e_off e) lim T root total (e_descs e) (km_pfa (kw_mem k)) (km_heap (kw_mem k)) (km_tables (kw_mem k)) ->
  image_ok (e_off e) total (e_image e) ->
  exists d p h t, chosen (e_descs e) d /\
    (k1 ← ku_allocator e k; ku_reserve e k1) =
      Done (put_memory k (mkKMem p h t (physToVirtAddr (e_off e) root) (km_bytes (kw_mem k)))) /\
    pfa_wf p /\ m_totalSystemMemory p = total /\
    (forall i, 0 <= i -> used p i = image_page (e_off e) (e_image e) i ||
       used_at_start (e_descs e) (d_paddr d / PAGE_SIZE) (bitmap_pages total) i) /\
    heap_rep h [Seg KERNEL_HEAP_INIT_SIZE true 0] /\ h_lock h = 0 /\
    opened (e_off e) lim T root (conv_page (e_descs e)) (km_tables (kw_mem k)) t.
Proof.
  intros Hs Hcr Hmap Hst Him.
  destruct (initializeFromMemoryMap_ok (e_off e) lim T root par Hroot Hoff Hhigh total _ _ _ _ Hmap Hst)
    as (d & p1 & h1 & t1 & Hd & E1 & _ & U).
  destruct (reserve_image_run (e_off e) lim T root Hoff Hhigh total _ _ d p1 h1 t1 (e_image e) Hmap U Him) as (p2 & E2 & W & Et & Hu & _).
  exists d, p2, h1, t1. split; [done|]. split; [|split_and!; try done].
  - unfold ku_allocator.
    rewrite (elevated_frame _ k (put_memory k (mkKMem p1 h1 t1 (physToVirtAddr (e_off e) root) (km_bytes (kw_mem k)))) Hs); [|..|done].
    + cbn [mbind outcome_bind]. unfold ku_reserve. cbn [kw_mem put_memory km_pfa km_heap km_tables km_root km_bytes].
      rewrite E2. cbn [mbind outcome_bind]. done.
    + rewrite machine_set. rewrite (proj1 (proj2 (raised_same _ _ _ _))), Hcr. cbn [kw_mem set_machine kworld_machine put_core].
      rewrite E1. cbn [mbind outcome_bind]. done.
  - intros i Hi. rewrite Hu by done. by rewrite (up_pages _ _ _ _ _ _ _ _ _ _ _ U).
  - apply U.
  - apply U.
  - apply U.
Qed.
End memory.

(** *** Display *)
Definition e_fb (e : boot_env) : Framebuffer := mkFramebuffer (e_width e) (e_height e) (e_scanline e).
Abbreviation ready := (screen_ready (e_width e) (e_height e) (e_font e) (e_fb e)).

(** The three registers the processor gives its name in. *)
Definition vendor_name : list Z :=
  le_split 4 (q_ebx (e_cpuid e 0)) ++ le_split 4 (q_edx (e_cpuid e 0)) ++ le_split 4 (q_ecx (e_cpuid e 0)).

Record display_ok : Prop := {
  do_fits : console_fits (e_width e) (e_height e) 60 (e_font e) (e_fb e) (e_lsr e) (e_serial_fuel e);
  do_dims : 0 < e_height e /\ e_width e * e_height e < 0x100000000;
  do_top : 8 + charSize (e_font e) <= e_height e;
  do_buffer : e_height e * e_scanline e <= im_fbSize (e_image e) / 4;
  do_pages : im_fbBase (e_image e) mod 4096 = 0 /\ 0 <= im_fbBase (e_image e) /\ 0 <= im_fbSize (e_image e) /\
    im_fbBase (e_image e) + im_fbSize (e_image e) <= 2 ^ 48;
  do_room : im_fbSize (e_image e) + 0x1000 <= KERNEL_HEAP_INIT_SIZE;
  do_vendor : Forall plain vendor_name }.

Lemma pat_step (k : kworld D) cr0 cr4 ins pat : interrupts (machine_of k) = true -> kw_ctl k = (cr0, cr4, ins) ->
  is_u64 cr0 -> is_u64 cr4 -> msrs (ce_regs (kw_core k)) !! IA32_PAT_MSR = Some pat -> is_u64 pat ->
  exists ms pat' ctl, (if cpuid_isPATSupported (e_cpuid e) then setup_pat k else Done k) =
      Done (mkKw (put_msrs (kw_core k) ms) ctl (kw_idt k) (kw_mem k) (kw_console k) (kw_times k) (kw_acpi k) (kw_sched k)) /\
    ms = <[IA32_PAT_MSR := pat']> (msrs (ce_regs (kw_core k))) /\ is_u64 pat' /\
    (cpuid_isPATSupported (e_cpuid e) = true -> pat_type 4 pat' = 1 /\ pat_type 2 pat' = 0).
Proof.
  intros Hi Hctl H0' H4 Hp Hu. destruct (cpuid_isPATSupported (e_cpuid e)).
  - destruct (pat_setup_order (mkCpu cr0 cr4 (msrs (ce_regs (kw_core k))) true ins) pat Hp Hu H0' H4)
      as (c' & pat' & v0 & v4 & E & Em & Hu' & Ht & Hr & E0 & E4 & Ef & Ei & _).
    exists (c_msrs c'), pat', (c_cr0 c', c_cr4 c', issued c'). split; [|split; [done|split]].
    + unfold setup_pat. rewrite Hctl. cbn [machine_of kworld_machine] in Hi. rewrite Hi, E. cbn [mbind outcome_bind].
      rewrite Ef. do 2 f_equal. destruct k as [[g r m i] ? ? ? ? ? ? ?]. cbn in *. unfold put_flag, with_mc_core, put_msrs. cbn.
      rewrite <- Hi. by destruct m.
    + done.
    + intros _. split; rewrite Ht by lia; done.
  - exists (msrs (ce_regs (kw_core k))), pat, (kw_ctl k). split; [|split; [by rewrite insert_id|done]].
    do 2 f_equal. by destruct k as [[g [] m i] ? ? ? ? ? ? ?].
Qed.

Lemma vendor_step (k : kworld D) : mapped (km_bytes (kw_mem k)) (e_vendor e) 13 -> Forall plain vendor_name ->
  read_vendor e k = Done (vendor_name, put_memory k (mkKMem (km_pfa (kw_mem k)) (km_heap (kw_mem k)) (km_tables (kw_mem k))
    (km_root (kw_mem k)) (put_bytes (km_bytes (kw_mem k)) (e_vendor e) (vendor_name ++ [0])))).
Proof.
  intros Hm Hv. unfold read_vendor. rewrite (vendor_string (e_cpuid e) _ _ Hm). cbn [mbind outcome_bind].
  rewrite !app_assoc. rewrite <- (app_assoc (le_split 4 (q_ebx _))). fold vendor_name. rewrite cstring_put; [done| |].
  - eapply Forall_impl; [exact Hv|]. unfold plain. cbn. intros; lia.
  - unfold vendor_name. rewrite !length_app, !length_le_split. lia.
Qed.

Lemma new_display_ready c x y : display_ok -> cursor_x c = 8 -> cursor_y c = 8 ->
  ready (mkConsole (new_display (e_framebuffer e) (e_font e)) (cursor_x c) (cursor_y c) (port c) x y).
Proof.
  intros [[Hsu Hcols Hpps] [Hh Hlt] Htop Hbuf _ _ _] -> ->. cbn in Hpps.
  assert (forall i, 0 <= i < im_fbSize (e_image e) / 4 -> is_Some (cleared (im_fbSize (e_image e)) !! i)) as Hc.
  { intros i Hi. rewrite cleared_lookup by done. eauto. }
  split; cbn; [|done|done|].
  - pose proof (su_char _ _ _ _ _ Hsu). split; cbn; [|lia|lia|lia]. split; cbn; try done; [lia|]. intros i Hi. apply Hc. nia.
  - intros i Hi. apply Hc. lia.
Qed.

Section shown.
Context (lim : Z) `{BootLayout (e_off e) lim} (T : gmap Z (nat * Z)) (root par : Z).
Hypothesis Hroot : T !! root = Some (4%nat, par).

(** The pages of the frame buffer are mapped. *)
Definition fb_mapped (t : Z -> Z) : Prop :=
  forall a, im_fbBase (e_image e) <= a < im_fbBase (e_image e) + im_fbSize (e_image e) -> a mod 4096 = 0 ->
  exists x, translate t root a = Some x.

(** Its translations become write-combining, the others stay. *)
Definition fb_combined (t t' : Z -> Z) : Prop :=
  (forall a x, im_fbBase (e_image e) <= a < im_fbBase (e_image e) + im_fbSize (e_image e) -> a mod 4096 = 0 ->
     translate t root a = Some x -> exists x', translate t' root a = Some x' /\ combining x x') /\
  (forall v, ~ (im_fbBase (e_image e) / 4096 <= vpage v /\
                4096 * vpage v < im_fbBase (e_image e) + im_fbSize (e_image e)) ->
     translate t' root v = translate t root v).

(** The back buffer is the first block of the heap. *)
Definition shown_segs (h : Heap) : list seg :=
  let size := im_fbSize (e_image e) + 32 in
  [Seg size false 0; Seg (KERNEL_HEAP_INIT_SIZE - size) true (m_firstSegment h)].

Lemma back_buffer h : display_ok -> heap_rep h [Seg KERNEL_HEAP_INIT_SIZE true 0] -> h_lock h = 0 ->
  exists m, kmalloc h (im_fbSize (e_image e)) = Done (set_mem h m, m_firstSegment h + 32) /\
    tidy (shown_segs h) (set_mem h m).
Proof.
  intros Hd R Hl. destruct (do_pages Hd) as (_ & _ & H0' & _). pose proof (do_room Hd) as Hroom.
  pose proof (rep_base _ _ R).
  destruct (allocate_runs h _ (im_fbSize (e_image e)) R Hl ltac:(unfold KERNEL_HEAP_INIT_SIZE in *; lia)) as (m & E & R1 & _).
  assert (alloc_spec (m_firstSegment h) [Seg KERNEL_HEAP_INIT_SIZE true 0] (im_fbSize (e_image e)) =
    (shown_segs h, m_firstSegment h + 32)) as Es.
  { unfold alloc_spec. cbn [pick s_free s_size andb]. assert ((im_fbSize (e_image e) + 64 <=? KERNEL_HEAP_INIT_SIZE) = true) as -> by (apply Z.leb_le; lia).
    cbn [s_size s_prev app total]. destruct (Z.ltb_spec (KERNEL_HEAP_INIT_SIZE - (im_fbSize (e_image e) + 64)) 2); [lia|].
    by rewrite Z.add_0_r. }
  rewrite Es in E, R1. exists m. split; [exact E|]. split; try done.
  intros size Hs. unfold alloc_spec.
  assert (pick (size + 64) (shown_segs h) = Some (take 1 (shown_segs h), Seg (KERNEL_HEAP_INIT_SIZE - (im_fbSize (e_image e) + 32)) true
    (m_firstSegment h), [])) as ->.
  { cbn. by destruct (Z.leb_spec (size + 64) (KERNEL_HEAP_INIT_SIZE - (im_fbSize (e_image e) + 32))); [|lia]. }
  cbn [s_size]. destruct (Z.ltb_spec (KERNEL_HEAP_INIT_SIZE - (im_fbSize (e_image e) + 32) - (size + 64)) 2); [lia|]. cbn. lia.
Qed.

Lemma display_step (k : kworld D) : display_ok -> km_root (kw_mem k) = physToVirtAddr (e_off e) root ->
  tree lim T (km_tables (kw_mem k)) -> fb_mapped (km_tables (kw_mem k)) ->
  heap_rep (km_heap (kw_mem k)) [Seg KERNEL_HEAP_INIT_SIZE true 0] -> h_lock (km_heap (kw_mem k)) = 0 ->
  exists m t, start_display e k = Done (put_console
      (put_memory k (mkKMem (km_pfa (kw_mem k)) (set_mem (km_heap (kw_mem k)) m) t (km_root (kw_mem k)) (km_bytes (kw_mem k))))
      (mkConsole (new_display (e_framebuffer e) (e_font e)) (cursor_x (kw_console k)) (cursor_y (kw_console k))
        (port (kw_console k)) (print_lock (kw_console k)) (irq_flag (kw_console k)))) /\
    fb_combined (km_tables (kw_mem k)) t /\ tidy (shown_segs (km_heap (kw_mem k))) (set_mem (km_heap (kw_mem k)) m).
Proof.
  intros Hd Hr HT Hm R Hl. destruct (do_pages Hd) as (Ha & Hb & Hs & Hf).
  destruct (back_buffer _ Hd R Hl) as (m & Em & Hti). pose proof (rep_base _ _ R).
  destruct (display_run (e_off e) lim root T par (km_tables (kw_mem k)) (e_framebuffer e) (e_font e) Hroot HT Hb Hs Hf Ha Hm)
    as (t & E & M & U).
  exists m, t. split; [|by split]. unfold start_display. rewrite Em. cbn [mbind outcome_bind].
  destruct (Z.eqb_spec (m_firstSegment (km_heap (kw_mem k)) + 32) 0); [lia|].
  cbn [put_heap put_memory kw_mem km_root km_tables km_pfa km_heap km_bytes]. rewrite Hr, E. done.
Qed.

Lemma ku_display_run (k : kworld D) cr0 cr4 ins pat : is_settled (machine_of k) -> interrupts (machine_of k) = true ->
  kw_ctl k = (cr0, cr4, ins) -> is_u64 cr0 -> is_u64 cr4 ->
  msrs (ce_regs (kw_core k)) !! IA32_PAT_MSR = Some pat -> is_u64 pat ->
  display_ok -> mapped (km_bytes (kw_mem k)) (e_vendor e) 13 ->
  km_root (kw_mem k) = physToVirtAddr (e_off e) root -> tree lim T (km_tables (kw_mem k)) -> fb_mapped (km_tables (kw_mem k)) ->
  cursor_x (kw_console k) = 8 -> cursor_y (kw_console k) = 8 -> print_lock (kw_console k) = 0 ->
  heap_rep (km_heap (kw_mem k)) [Seg KERNEL_HEAP_INIT_SIZE true 0] -> h_lock (km_heap (kw_mem k)) = 0 ->
  exists pat' ctl hm t c text, ku_display e k = Done (mkKw
      (put_msrs (kw_core k) (<[IA32_PAT_MSR := pat']> (msrs (ce_regs (kw_core k))))) ctl (kw_idt k)
      (mkKMem (km_pfa (kw_mem k)) (set_mem (km_heap (kw_mem k)) hm) t (km_root (kw_mem k))
        (put_bytes (km_bytes (kw_mem k)) (e_vendor e) (vendor_name ++ [0])))
      c (kw_times k) (kw_acpi k) (kw_sched k)) /\
    (cpuid_isPATSupported (e_cpuid e) = true -> pat_type 4 pat' = 1 /\ pat_type 2 pat' = 0) /\
    fb_combined (km_tables (kw_mem k)) t /\ heap_rep (set_mem (km_heap (kw_mem k)) hm) (shown_segs (km_heap (kw_mem k))) /\
    messages_text 60 (banner e vendor_name ++ pat_report pat') text /\
    ready c /\ print_lock c = 0 /\ sent text (kw_console k) c.
Proof.
  intros Hs Hi Hctl H0' H4 Hp Hu Hdo Hv Hr HT Hfb Hx Hy Hl Hrep Hhl.
  set (m := machine_of k) in *. set (k0 := set_machine k (up m)).
  assert (interrupts (machine_of k0) = true) as Hi0 by (unfold k0; rewrite machine_set, (proj1 (raised_same _ _ _ _)); done).
  destruct (pat_step k0 cr0 cr4 ins pat Hi0 Hctl H0' H4 Hp Hu) as (ms & pat' & ctl & E1 & Ems & Hu' & Hpt).
  match type of E1 with _ = Done ?x => set (k1 := x) in * end.
  destruct (display_step k1 Hdo Hr HT Hfb Hrep Hhl) as (hm1 & t & E2 & Hcomb & Hti).
  match type of E2 with _ = Done ?x => set (k2 := x) in * end.
  pose proof (vendor_step k2 Hv (do_vendor Hdo)) as E3.
  match type of E3 with _ = Done (_, ?x) => set (k3 := x) in * end.
  assert (calm e 0 boot_thread (machine_of k3)) as Hcalm by (split; [exact Hi0|right; by exists m]).
  assert (ready (kw_console k3)) as Hr3 by (by apply new_display_ready).
  assert (Forall speaks (banner e vendor_name)) as Hb1.
  { apply banner_speaks; [apply Hdo|]. unfold vendor_name. rewrite !length_app, !length_le_split. lia. }
  destruct (speaks_text _ Hb1) as (t1 & Ht1). destruct (speaks_text _ (pat_report_speaks pat')) as (t2 & Ht2).
  destruct (say_all_run e _ _ _ _ 60 (e_fb e) (do_fits Hdo) _ k3 t1 Hcalm Hr3 Hl Ht1) as (c1 & E4 & Hr4 & Hl4 & Hs4).
  destruct (debugPat_run _ e _ _ _ _ 60 (e_fb e) (do_fits Hdo) pat' (put_console k3 c1) t2 Hcalm Hr4 Hl4 Hti Ht2)
    as (hm & c2 & E5 & Hti2 & Hr5 & Hl5 & Hs5).
  exists pat', ctl, hm, t, c2, (t1 ++ t2).
  split; [|split; [done|split; [exact Hcomb|split; [exact (ty_rep _ _ Hti2)|split; [|split; [done|split; [done|]]]]]]].
  - unfold ku_display. apply elevated_frame; [done| |done]. fold m. fold k0. rewrite E1. cbn [mbind outcome_bind]. rewrite E2.
    cbn [mbind outcome_bind]. rewrite E3. cbn [mbind outcome_bind]. rewrite E4. cbn [mbind outcome_bind].
    assert (msrs (ce_regs (kw_core (put_console k3 c1))) = ms) as -> by done.
    rewrite (readMsr_run ms IA32_PAT_MSR pat') by (done || (rewrite Ems; apply lookup_insert_eq)). cbn [mbind outcome_bind].
    rewrite E5. unfold k3, k2, k1. rewrite Ems. done.
  - destruct Ht1 as (ts1 & F1 & ->), Ht2 as (ts2 & F2 & ->). exists (ts1 ++ ts2). split; [by apply Forall2_app|by rewrite concat_app].
  - eapply sent_trans; [exact Hs4|exact Hs5].
Qed.

Lemma ku_report_run (k : kworld D) : is_settled (machine_of k) -> interrupts (machine_of k) = true -> display_ok ->
  ready (kw_console k) -> print_lock (kw_console k) = 0 ->
  exists c text, ku_report e k = Done (put_console k c) /\ messages_text 60 (memory_report e (km_pfa (kw_mem k))) text /\
    ready c /\ print_lock c = 0 /\ sent text (kw_console k) c.
Proof.
  intros Hs Hi Hdo Hr Hl. destruct (speaks_text _ (memory_report_speaks e (km_pfa (kw_mem k)))) as (t & Ht).
  assert (calm e 0 boot_thread (machine_of k)) as Hc by (split; [done|by left]).
  destruct (say_all_run e _ _ _ _ 60 (e_fb e) (do_fits Hdo) _ k t Hc Hr Hl Ht) as (c & E & Hr' & Hl' & Hs'). by exists c, t.
Qed.
End shown.

(** *** Interrupt controllers and timers *)
Lemma current_cpu_run (k : kworld D) : started (kw_core k) -> is_settled (machine_of k) ->
  current_cpu_id e k = Done (k, 0).
Proof.
  intros Hst Hs. unfold current_cpu_id.
  rewrite (run_settled (St := kworld D * Z) (e_per_cpu e) 0 boot_thread (k, 0) (k, 0) _ (machine_of k)); [|done|exact Hs|].
  - cbn [set_machine pair_machine fst snd]. by rewrite set_machine_same.
  - cbn [set_machine pair_machine fst snd]. rewrite machine_set.
    pose proof Hs as (p & Hth & He & _). destruct (raised_lowered _ _ _ _ _ Hth He) as [Hc Hpcb Hg _ _ _].
    rewrite (current_pcb_at (e_per_cpu e) 0 boot_thread _ _ Hg Hc Hpcb). cbn [mbind outcome_bind].
    destruct (st_thread _ _ _ _ _ _ _ _ _ Hst) as (p' & Ht & _ & _ & Hcpu & _). pose proof (tk_pcb _ _ _ _ _ Ht) as Hp'.
    pose proof (tk_pcb _ _ _ _ _ Hth) as Hp. cbn [machine_of kworld_machine] in Hp. rewrite Hp in Hp'. injection Hp' as <-. cbn. by rewrite Hcpu.
Qed.

Lemma ku_lapic_run (k : kworld D) b : started (kw_core k) -> is_settled (machine_of k) ->
  s_lapics (kt_lapics (kw_times k)) !! 0%nat = Some false ->
  msrs (ce_regs (kw_core k)) !! IA32_APIC_BASE_MSR = Some b -> is_u64 b ->
  exists g, ku_lapic e k = Done (put_times
      (put_core k (put_msrs (kw_core k) (<[IA32_APIC_BASE_MSR := Z.lor b (Z.shiftl 1 11)]> (msrs (ce_regs (kw_core k))))))
      (mkKTimes g (Apic_enable (kt_hw (kw_times k)) 0xFF) (kt_freq (kw_times k)) (kt_apicTicks (kw_times k))
        (kt_tscTicks (kw_times k)))) /\
    s_lapics g !! 0%nat = Some true.
Proof.
  intros Hst Hs Hl Hb Hu. unfold ku_lapic. rewrite (current_cpu_run k Hst Hs). cbn [mbind outcome_bind]. change (Z.to_nat 0) with 0%nat.
  rewrite Hl. cbn [need mbind outcome_bind]. set (t := kw_times k) in *.
  set (g := kt_lapics t) in *. set (base := Z.lor b (Z.shiftl 1 11)).
  assert (exists g', (forall ms h, ms !! IA32_APIC_BASE_MSR = Some b ->
    initializeLocalApic 0 (e_lapic_page e) ms g h =
      Done (<[IA32_APIC_BASE_MSR := base]> ms, g', Apic_enable h 0xFF)) /\ s_lapics g' !! 0%nat = Some true) as (g' & Hinit & Hg').
  { unfold initializeLocalApic. change (Z.to_nat 0) with 0%nat. rewrite Hl. cbn [need mbind outcome_bind]. unfold Apic_new.
    eexists. split.
    - intros ms h Hms. rewrite (readMsr_run _ _ _ Hms Hu). cbn [mbind outcome_bind].
      rewrite writeMsr_run by (eauto using mk_is_Some || (apply lor_bit_u64; [done|lia])). cbn [mbind outcome_bind]. reflexivity.
    - cbn [s_lapics]. apply list_lookup_insert_eq.
      destruct (g_lapicPhysicalBase g =? 0); cbn [s_lapics]; by eapply lookup_lt_Some. }
  exists g'. split; [|done]. apply elevated_frame; [done| |done].
  change (msrs (ce_regs (kw_core (set_machine k (up (machine_of k)))))) with (msrs (ce_regs (kw_core k))).
  rewrite Hinit by done. cbn [mbind outcome_bind]. done.
Qed.

Lemma ku_acpi_run (k : kworld D) a : is_settled (machine_of k) ->
  AcpiController_init (e_off e) (e_uninit e) (e_acpi_fuel e) (km_bytes (kw_mem k)) (fst (kw_acpi k)) (e_rsdp e) = Done a ->
  ku_acpi e k = Done (put_acpi k a).
Proof.
  intros Hs Ha. apply elevated_frame; [done| |done].
  change (kw_mem (set_machine k (up (machine_of k)))) with (kw_mem k).
  change (kw_acpi (set_machine k (up (machine_of k)))) with (kw_acpi k). rewrite Ha. done.
Qed.

(** The writes that calibrate the timer and start it. *)
Definition timer_writes (ticks : Z) : list (Z * Z) :=
  [(0x320, 32); (0x3E0, 1); (0x380, 0); (0x380, 0xffffffff); (0x380, 0);
   (0x320, 0x20020); (0x3E0, 1); (0x380, 0); (0x380, u32 ticks)].

Lemma ku_timer_run (k : kworld D) page d freq : is_settled (machine_of k) -> interrupts (machine_of k) = true ->
  m_hpet (snd (kw_acpi k)) = Some page -> KernelTimer_init (clock (kt_hw (kw_times k))) = (d, freq) ->
  let d1 := fst (readCounter d) in
  0 <= freq -> now d1 + freq < 0x10000000000000000 -> (lag d1 (now d1 + freq) < e_fuel e)%nat ->
  exists d0 h ticks tsc, ku_timer e k =
      Done (put_times k (mkKTimes (kt_lapics (kw_times k)) h freq ticks tsc)) /\
    ticks = ((0xffffffff - u32 (apic_current (clock h))) / 1000) * 100 /\
    lapic_writes h = lapic_writes (kt_hw (kw_times k)) ++ timer_writes ticks /\
    now d1 + freq <= now (clock h) /\ clock h = fst (readCounter d0) /\ (d0 = d1 \/ now d0 < now d1 + freq).
Proof.
  intros Hs Hi Hp Hk d1 Hf Hlt Hl. unfold ku_timer. rewrite Hp. cbn [need mbind outcome_bind]. rewrite Hk.
  set (t := kw_times k) in *.
  set (k1 := put_times k (mkKTimes (kt_lapics t) (with_clock (kt_hw t) d) freq (kt_apicTicks t) (kt_tscTicks t))).
  assert (run_elevated (e_per_cpu e) Done k1 = Done k1) as -> by (by apply elevated_frame). cbn [mbind outcome_bind].
  unfold on_timer. assert (interrupts (machine_of k1) = true) as -> by done.
  set (h0 := with_irqs (kt_hw (kw_times k1)) true).
  destruct (calibration_run (e_fuel e) freq 100 h0 ltac:(lia) Hf Hlt Hl)
    as (d0 & d' & ticks & tsc & h' & E & H1 & Ed & Hd0 & Hc & Ht & Hirq & Hw & Hw2 & _).
  rewrite E. cbn [mbind outcome_bind]. rewrite Hirq.
  assert (set_machine k1 (put_flag (machine_of k1) true) = k1) as ->.
  { rewrite <- (set_machine_same k1) at 3. f_equal. unfold put_flag. change (machine_of k1) with (machine_of k).
    rewrite <- Hi. by destruct (machine_of k). }
  exists d0, (startApicPeriodicTimer ticks h'), ticks, tsc. split; [done|].
  assert (clock (startApicPeriodicTimer ticks h') = clock h') as -> by reflexivity. rewrite Hc.
  split; [done|]. split; [|by split_and!]. rewrite Hw2, Hw. unfold timer_writes. by rewrite <- app_assoc.
Qed.

Lemma behind_some v l : v ∈ fst <$> l -> is_Some (behind v l).
Proof.
  intros ([v' phys] & -> & Hx)%list_elem_of_fmap. cbn. unfold behind.
  destruct (filter _ l) as [|y ys] eqn:E; [|by eexists]. exfalso.
  apply (filter_nil_not_elem_of _ _ _ E) in Hx; [done|]. done.
Qed.

Lemma ku_keyboard_run (k : kworld D) t a : m_madt (snd (kw_acpi k)) = Some t -> m_ioApics t !! 0%nat = Some a ->
  io_mapped (kw_acpi k) ->
  exists w phys, ku_keyboard k = Done (put_acpi k (w, snd (kw_acpi k))) /\
    behind (m_virtualBase a) (mappings (w_apics w)) = Some phys /\
    (1 < m_redirectionEntryCount a <= 120 ->
     fields_of (snd (getRedirectionEntry (ioapics (w_apics w) phys) a 1)) = mkRedir 33 0 0 0 0 0 0 0 0 BSP_CPU_ID).
Proof.
  intros Ht Ha Hm. specialize (Hm t Ht). unfold registers_mapped in Hm.
  destruct (behind_some (m_virtualBase a) (mappings (w_apics (fst (kw_acpi k))))) as [phys Hphys].
  { exact (Forall_lookup_1 _ _ _ _ Hm Ha). }
  unfold ku_keyboard. rewrite Ht, Ha. cbn [need mbind outcome_bind]. rewrite Hphys. cbn [need mbind outcome_bind].
  eexists _, phys. split; [reflexivity|]. split; [done|]. cbn [w_apics ioapics]. rewrite Z.eqb_refl. intros H1.
  destruct (proj1 (keyboard_routed (ioapics (w_apics (fst (kw_acpi k))) phys) a ltac:(lia)) ltac:(lia)) as (hw' & -> & F). exact F.
Qed.

(** *** Scheduling *)
Abbreviation sw := (swapper (e_swappers e)).

(** The queues of the first [n] cores are registered, each with its swapper. *)
Record registered (s : sys) (n : nat) : Prop := {
  rg_ready : sched_ready s;
  rg_count : m_usableCpuCount s = Z.of_nat n;
  rg_balancing : balancing_lock s = 0;
  rg_queues : forall i, 0 <= i < Z.of_nat n -> queue_registered (e_swappers e) i (e_queue e i) s }.

(** The run queues are objects of their own. *)
Definition queues_apart (n : nat) : Prop :=
  NoDup (e_queue e <$> seqZ 0 (Z.of_nat n)) /\ forall i, 0 <= i < Z.of_nat n -> e_queue e i <> 0.

Lemma queues_apart_ne n i j : queues_apart n -> 0 <= i < Z.of_nat n -> 0 <= j < Z.of_nat n -> i <> j ->
  e_queue e i <> e_queue e j.
Proof.
  intros [Hd _] Hi Hj Hne E. apply Hne.
  assert ((e_queue e <$> seqZ 0 (Z.of_nat n)) !! Z.to_nat i = Some (e_queue e i)) as Li
    by (rewrite list_lookup_fmap, lookup_seqZ_lt by lia; cbn; by rewrite Z2Nat.id by lia).
  assert ((e_queue e <$> seqZ 0 (Z.of_nat n)) !! Z.to_nat j = Some (e_queue e j)) as Lj
    by (rewrite list_lookup_fmap, lookup_seqZ_lt by lia; cbn; by rewrite Z2Nat.id by lia).
  rewrite <- E in Lj. pose proof (NoDup_lookup _ _ _ _ Hd Li Lj). lia.
Qed.

Lemma registered_mc s n m : registered s n -> registered (with_mc s m) n.
Proof.
  intros [[] ? ? Hq]. split; try done. intros i Hi. destruct (Hq i Hi). by split.
Qed.

Lemma register_next s n N : registered s n -> queues_apart N -> (n < N <= 64)%nat ->
  exists s', registerCpuCore (e_swappers e) true (e_queue e (Z.of_nat n)) (Z.of_nat n) s = Done s' /\
    registered s' (S n) /\ mc s' = mc s.
Proof.
  intros [Hr Hc Hb Hq] Ha Hn.
  destruct (registerCpuCore_run (e_swappers e) (Z.of_nat n) (e_queue e (Z.of_nat n)) s) as (s' & E & Hm & Hr' & Hqn & Ho & Hoq & Hc' & Hb');
    [unfold MAX_CPUS; lia|apply Ha; lia|done|].
  exists s'. split; [done|]. split; [|done]. split; [done| |congruence|].
  - rewrite Hc', Hc, u64_small by (unfold is_u64; lia). lia.
  - intros i Hi. destruct (decide (i = Z.of_nat n)) as [->|Hne]; [done|].
    destruct (Hq i ltac:(lia)) as [Q1 Q2 Q3]. split; [by rewrite Ho by lia| |apply Hr'].
    rewrite Hoq; [done|]. apply (queues_apart_ne N); [done|lia|lia|done].
Qed.

Lemma register_many N : queues_apart N -> (N <= 64)%nat -> forall l n s, (n + l = N)%nat -> registered s n ->
  exists s', for_each (fun s cpu => registerCpuCore (e_swappers e) true (e_queue e cpu) cpu s) (seqZ (Z.of_nat n) (Z.of_nat l)) s = Done s' /\
    registered s' N /\ mc s' = mc s.
Proof.
  intros Ha HN. induction l as [|l IH]; intros n s Hn Hr.
  - exists s. replace N with n by lia. done.
  - rewrite seqZ_cons by lia. cbn [for_each]. destruct (register_next s n N Hr Ha ltac:(lia)) as (s1 & -> & Hr1 & Hm1). cbn [mbind outcome_bind].
    replace (Z.succ (Z.of_nat n)) with (Z.of_nat (S n)) by lia. replace (Z.pred (Z.of_nat (S l))) with (Z.of_nat l) by lia.
    destruct (IH (S n) s1) as (s' & -> & Hr' & Hm'); [lia|done|]. exists s'. split; [done|]. split; [done|congruence].
Qed.

(** The queues of [n] cores, each with its swapper. *)
Definition swapper_queues (n : nat) : list (Z * list Z) := (fun i => (e_queue e i, [sw i])) <$> seqZ 0 (Z.of_nat n).

Lemma swapper_queue_at n c p l : swapper_queues n !! c = Some (p, l) ->
  (c < n)%nat /\ p = e_queue e (Z.of_nat c) /\ l = [sw (Z.of_nat c)].
Proof.
  intros Hc. unfold swapper_queues in Hc. rewrite list_lookup_fmap in Hc.
  destruct (seqZ 0 (Z.of_nat n) !! c) as [i|] eqn:E; [|done]. apply lookup_seqZ in E as [-> Hi].
  injection Hc as <- <-. split_and!; [lia|by rewrite Z.add_0_l|by rewrite Z.add_0_l].
Qed.

Lemma registered_idle s n k : registered s n -> queues_apart n -> (1 <= n <= 64)%nat -> (k < MAX_QUEUED_PROCESSES)%nat ->
  idle s (swapper_queues n) k.
Proof.
  intros [Hr Hc Hb Hq] Ha Hn Hk. split; [|apply Hr|done| |].
  - split.
    + unfold swapper_queues. rewrite length_fmap, length_seqZ. lia.
    + unfold swapper_queues. rewrite length_fmap, length_seqZ. lia.
    + unfold swapper_queues. rewrite <- list_fmap_compose. apply Ha.
    + intros c p l (Hcn & -> & ->)%swapper_queue_at.
      destruct (Hq (Z.of_nat c) ltac:(lia)) as [Q1 (q & Q2 & Q3 & _) _]. rewrite Nat2Z.id in Q1. eauto.
    + intros c p l (_ & _ & ->)%swapper_queue_at. cbn [length]. lia.
  - intros c c' p p' l l' (_ & _ & ->)%swapper_queue_at (_ & _ & ->)%swapper_queue_at. cbn. lia.
  - intros c p l (_ & _ & ->)%swapper_queue_at. cbn [length]. lia.
Qed.

Lemma ku_sched_run (k : kworld D) : repr true (m_runQueues (kw_sched k)) [] -> sched_lock (kw_sched k) = 0 ->
  balancing_lock (kw_sched k) = 0 -> m_usableCpuCount (kw_sched k) = 0 -> queues_apart 1 ->
  exists s, ku_sched e k = Done (put_sched k s) /\ registered s 1.
Proof.
  intros Hv Hl Hb Hc Ha. unfold ku_sched, on_sched, sched_init. cbn [with_mc m_runQueues].
  destruct (reserve_repr true sizeof_pointer (m_runQueues (kw_sched k)) [] (Z.to_nat MAX_CPUS) Hv eq_refl eq_refl) as (v & Ev & Hrv & Hcap). rewrite Ev. cbn [mbind outcome_bind].
  set (s0 := with_runQueues _ v).
  assert (registered s0 0) as H00 by (split; [by split| | |]; try done; intros; lia).
  destruct (register_next s0 0 1 H00 Ha ltac:(lia)) as (s & E & Hr & Hm). change (Z.of_nat 0) with 0 in E.
  unfold BSP_CPU_ID. rewrite E. cbn [mbind outcome_bind]. exists s. split; [|done]. rewrite Hm. do 2 f_equal.
  change (mc s0) with (machine_of k). by rewrite set_machine_same.
Qed.

Lemma ku_ap_cores_run (k : kworld D) gap t b l stub table : is_settled (machine_of k) -> registered (kw_sched k) 1 ->
  m_madt (snd (kw_acpi k)) = Some t -> m_localApics t = b :: l -> (length l < 64)%nat -> queues_apart (S (length l)) ->
  timing (D := D) (kt_freq (kw_times k)) gap (e_fuel e) ->
  low_memory (km_bytes (kw_mem k)) (e_asm e) (km_root (kw_mem k)) stub table -> is_u64 (e_entryC e) ->
  pfa_wf (km_pfa (kw_mem k)) -> 0x20 <= page_count (km_pfa (kw_mem k)) ->
  0 <= now (clock (kt_hw (kw_times k))) ->
  now (clock (kt_hw (kw_times k))) + Z.of_nat (length l) * (2 * (wait20 (kt_freq (kw_times k)) + 2 * gap)) < 0x10000000000000000 ->
  exists p by_ h s, ku_ap_cores e k = Done (put_sched (put_times
      (put_memory k (mkKMem p (km_heap (kw_mem k)) (km_tables (kw_mem k)) (km_root (kw_mem k)) by_))
      (mkKTimes (kt_lapics (kw_times k)) h (kt_freq (kw_times k)) (kt_apicTicks (kw_times k)) (kt_tscTicks (kw_times k)))) s) /\
    lock_ap_pages (km_pfa (kw_mem k)) = Done p /\ ap_resources by_ stub table (e_entryC e) 1 /\
    lapic_writes h = lapic_writes (kt_hw (kw_times k)) ++ flat_map (fun a => ipis (apicId a)) l /\
    registered s (S (length l)).
Proof.
  intros Hs Hr Hm Hl Hlen Ha Ht Hlow He Hp Hn Hpos Hlt.
  set (w0 := mkApWorld (with_mc (kw_sched k) (up (machine_of k))) (kt_hw (kw_times k))).
  destruct (register_many (S (length l)) Ha ltac:(lia) (length l) 1 (aw_sys w0) ltac:(lia) (registered_mc _ _ _ Hr)) as (s & Es & Hrs & Hms).
  destruct (ap_cores_run (e_swappers e) (kt_freq (kw_times k)) gap (e_fuel e) true (e_queue e) t (e_asm e) (e_entryC e)
    (km_root (kw_mem k)) (e_bsp e) (km_pfa (kw_mem k)) (km_bytes (kw_mem k)) stub table w0 s b l Ht Hl Hlow He Hp Hn Hpos Hlt Es)
    as (p & by_ & h & E & Hlock & Hres & Hw & _).
  exists p, by_, h, s. split; [|by split_and!]. apply elevated_frame; [done| |done].
  change (kw_acpi (set_machine k (up (machine_of k)))) with (kw_acpi k). rewrite Hm. cbn [need mbind outcome_bind].
  change (kw_mem (set_machine k (up (machine_of k)))) with (kw_mem k).
  change (kw_times (set_machine k (up (machine_of k)))) with (kw_times k).
  change (kw_sched (set_machine k (up (machine_of k)))) with (kw_sched k). rewrite machine_set. fold w0. rewrite E.
  cbn [mbind outcome_bind aw_sys aw_hw]. rewrite Hms. done.
Qed.

Lemma ku_start_tasks_run (k : kworld D) n : registered (kw_sched k) n -> queues_apart n -> (1 <= n <= 64)%nat ->
  length (e_tasks e) = 10%nat -> Forall (fun a => tm_task (fst a) <> 0 /\ tm_task (snd a) <> 0) (e_tasks e) ->
  exists s qs, ku_start_tasks e k = Done (put_sched (set_machine k (mc s)) s) /\
    cores_ok s qs /\ fst <$> qs = fst <$> swapper_queues n /\ balanced qs /\
    all_tasks qs ≡ₚ (sw <$> seqZ 0 (Z.of_nat n)) ++ (e_tasks e ≫= pair_tasks) /\
    sched_lock s = 0 /\ balancing_lock s = 0.
Proof.
  intros Hr Ha Hn Hl Hm.
  assert (idle (with_mc (kw_sched k) (machine_of k)) (swapper_queues n) (2 * length (e_tasks e) + 0)) as Hidle.
  { apply registered_idle; [by apply registered_mc|done|done|rewrite Hl; apply Nat.ltb_lt; reflexivity]. }
  destruct (pairs_run (km_root (kw_mem k)) (e_hello e) (e_goodbye e) (e_tasks e) _ _ 0 Hidle Hm) as (s & qs & E & [] & Hf & Hall).
  exists s, qs. unfold ku_start_tasks, on_sched, ke_test_ap_startup. rewrite E. cbn [mbind outcome_bind]. split_and!; try done.
  rewrite Hall. apply Permutation_app; [|done]. unfold all_tasks, swapper_queues. rewrite <- list_fmap_compose.
  clear. induction (seqZ 0 (Z.of_nat n)) as [|i l IH]; [done|]. cbn. by rewrite IH.
Qed.
End phases.
