(* ===== verification/KUserBoot.v ===== *)
(** * The kernel entry returns

    The phases of [_kuser_entry] composed: from the core, the memory map, the tables of the
    firmware and the devices as the boot leaves them to a scheduler with the first tasks on
    every core. *)
From Stdlib Require Import ZArith Lia Permutation.
From stdpp Require Import base tactics numbers option list gmap.
From S2P Require Import Prelude Memory KMemory KString Sync KHeap KHeapThms KStlString PageFrame PageTable.
From S2P Require Import Paging MemInit KVector Process Elevate Sched IoApic Pci Mcfg Acpi Gdt Interrupts.
From S2P Require Import KTime CpuSetup ApStartup KDisplay DeviceMaps KPrint KernelEntry Reserve SpawnTest.
From S2P Require Import KUser KUserThms.
Local Open Scope Z_scope.

(** ** The whole entry *)
Section whole.
Context (e : boot_env) (entry64 top sp ustack : Z) `{HpetLaws D}.
Context (lim : Z) `{BootLayout (e_off e) lim} (T : gmap Z (nat * Z)) (root par total : Z).

(** The core as [_kentry] leaves it, with its registers readable. *)
Record core_in (k : kworld D) (pat base : Z) : Prop := {
  ci_started : core_started (e_per_cpu e) (e_swappers e) entry64 0 1 top sp ustack (kw_core k);
  ci_cr3 : Process.cr3 (ks (machine_of k)) = root;
  ci_ctl : is_u64 (fst (fst (kw_ctl k))) /\ is_u64 (snd (fst (kw_ctl k)));
  ci_pat : msrs (ce_regs (kw_core k)) !! IA32_PAT_MSR = Some pat /\ is_u64 pat;
  ci_apic : msrs (ce_regs (kw_core k)) !! IA32_APIC_BASE_MSR = Some base /\ is_u64 base;
  ci_idt : length (g_kernelIdt (kw_idt k)) = Z.to_nat MAX_IDT_ENTRIES;
  ci_stubs : forall st, is_u64 (e_stub_addr e st) }.

Record memory_in (k : kworld D) : Prop := {
  mi_root : T !! root = Some (4%nat, par);
  mi_off : e_off e mod PAGE_SIZE = 0 /\ 0xffff000000000000 <= e_off e;
  mi_map : map_wf lim total (e_descs e);
  mi_start : start_state (e_off e) lim T root total (e_descs e)
    (km_pfa (kw_mem k)) (km_heap (kw_mem k)) (km_tables (kw_mem k));
  mi_image : image_ok (e_off e) total (e_image e);
  mi_fb : fb_mapped e root (km_tables (kw_mem k)) }.

Record console_in (k : kworld D) : Prop := {
  oi_display : display_ok e;
  oi_vendor : mapped (km_bytes (kw_mem k)) (e_vendor e) 13;
  oi_cursor : cursor_x (kw_console k) = 8 /\ cursor_y (kw_console k) = 8;
  oi_lock : print_lock (kw_console k) = 0 }.

(** The bytes once the name of the processor is on the stack. *)
Definition bytes_in (k : kworld D) : mem := put_bytes (km_bytes (kw_mem k)) (e_vendor e) (vendor_name e ++ [0]).

(** The tables list the boot processor, the processors [aps], at least one I/O APIC and a
    timer. *)
Record acpi_in (k : kworld D) (bsp : LocalApicDescriptor) (aps : list LocalApicDescriptor) : Prop := {
  ai_tables : exists bus ps ds io ios devs, lists_end bus /\ pci_words (w_ports (fst (kw_acpi k))) = pci_words bus /\
    xsdt_lists (e_off e) (bytes_in k) (e_rsdp e) ps /\
    Forall2 (table_holds (e_off e) (e_acpi_fuel e) (bytes_in k)) ps ds /\
    foldl (view_step (e_uninit e) bus (w_windows (fst (kw_acpi k)))) (mkView None None None false) ds =
      mkView (Some (bsp :: aps)) (Some (io :: ios)) devs true;
  ai_count : (length aps < 64)%nat }.

(** The counter keeps going, and the fuel is enough for the calibration and the waits. *)
Record timer_in (k : kworld D) (aps : list LocalApicDescriptor) (d : D) (freq gap : Z) : Prop := {
  ti_lapic : s_lapics (kt_lapics (kw_times k)) !! 0%nat = Some false;
  ti_init : KernelTimer_init (clock (kt_hw (kw_times k))) = (d, freq);
  ti_timing : timing (D := D) freq gap (e_fuel e);
  ti_fuel : (lag (fst (readCounter d)) (now (fst (readCounter d)) + freq) < e_fuel e)%nat;
  ti_room : now (fst (readCounter d)) + freq + gap +
    Z.of_nat (length aps) * (2 * (wait20 freq + 2 * gap)) < 0x10000000000000000 }.

Record sched_in (k : kworld D) (aps : list LocalApicDescriptor) : Prop := {
  si_queues : repr true (m_runQueues (kw_sched k)) [];
  si_locks : sched_lock (kw_sched k) = 0 /\ balancing_lock (kw_sched k) = 0;
  si_count : m_usableCpuCount (kw_sched k) = 0;
  si_apart : queues_apart e (S (length aps));
  si_tasks : length (e_tasks e) = 10%nat;
  si_blocks : Forall (fun a => tm_task (fst a) <> 0 /\ tm_task (snd a) <> 0) (e_tasks e) }.

(** The start-up code and the root table can be copied. *)
Definition low_in (k : kworld D) (stub table : list Z) : Prop :=
  low_memory (bytes_in k) (e_asm e) (physToVirtAddr (e_off e) root) stub table /\ is_u64 (e_entryC e).

(** What the first five phases leave, the messages included.  All pages and blocks taken up to
    here are taken from the allocators of the state. *)
Record reported (k k1 : kworld D) : Prop := {
  rp_idt : ce_idtr (kw_core k1) = (4095, e_idt_addr e) /\
    setupInterruptDescriptorTable (e_stub_addr e) (e_idt_addr e) (kw_idt k) = Done (kw_idt k1);
  rp_pages : pfa_wf (km_pfa (kw_mem k1)) /\ m_totalSystemMemory (km_pfa (kw_mem k1)) = total /\
    exists d, chosen (e_descs e) d /\ forall i, 0 <= i ->
    used (km_pfa (kw_mem k1)) i = image_page (e_off e) (e_image e) i ||
      used_at_start (e_descs e) (d_paddr d / PAGE_SIZE) (bitmap_pages total) i;
  rp_heap : heap_rep (km_heap (kw_mem k1)) (shown_segs e (km_heap (kw_mem k1)));
  rp_tables : km_root (kw_mem k1) = physToVirtAddr (e_off e) root /\
    exists t, opened (e_off e) lim T root (conv_page (e_descs e)) (km_tables (kw_mem k)) t /\
      fb_combined e root t (km_tables (kw_mem k1));
  rp_text : exists pat text,
    messages_text 60 (banner e (vendor_name e) ++ pat_report pat ++ memory_report e (km_pfa (kw_mem k1))) text /\
    sent text (kw_console k) (kw_console k1) /\ msrs (ce_regs (kw_core k1)) !! IA32_PAT_MSR = Some pat }.

(** What the entry leaves, after the messages in [k1]. *)
Record booted (k k1 k' : kworld D) (aps : list LocalApicDescriptor) (stub table : list Z) (freq : Z) : Prop := {
  bo_idt : ce_idtr (kw_core k') = (4095, e_idt_addr e) /\ kw_idt k' = kw_idt k1;
  bo_pages : pfa_wf (km_pfa (kw_mem k')) /\
    forall i, 0 <= i -> i ∈ ap_pages \/ used (km_pfa (kw_mem k1)) i = true -> used (km_pfa (kw_mem k')) i = true;
  bo_low : ap_resources (km_bytes (kw_mem k')) stub table (e_entryC e) 1;
  bo_timer : kt_freq (kw_times k') = freq /\ s_lapics (kt_lapics (kw_times k')) !! 0%nat = Some true /\
    exists spurious, lapic_writes (kt_hw (kw_times k')) = lapic_writes (kt_hw (kw_times k)) ++
      [(0xF0, spurious)] ++ timer_writes (kt_apicTicks (kw_times k')) ++ flat_map (fun a => ipis (apicId a)) aps;
  bo_keyboard : exists t a phys, m_madt (snd (kw_acpi k')) = Some t /\ m_ioApics t !! 0%nat = Some a /\
    behind (m_virtualBase a) (mappings (w_apics (fst (kw_acpi k')))) = Some phys /\
    (1 < m_redirectionEntryCount a <= 120 ->
     fields_of (snd (getRedirectionEntry (ioapics (w_apics (fst (kw_acpi k'))) phys) a 1)) = mkRedir 33 0 0 0 0 0 0 0 0 BSP_CPU_ID);
  bo_sched : exists qs, cores_ok (kw_sched k') qs /\ fst <$> qs = e_queue e <$> seqZ 0 (Z.of_nat (S (length aps))) /\
    balanced qs /\ all_tasks qs ≡ₚ (swapper (e_swappers e) <$> seqZ 0 (Z.of_nat (S (length aps)))) ++ (e_tasks e ≫= pair_tasks) /\
    sched_lock (kw_sched k') = 0 /\ balancing_lock (kw_sched k') = 0 }.

(** *** The phases in order *)
Definition front (k : kworld D) : outcome (kworld D) :=
  k ← ku_interrupts e k; k ← ku_allocator e k; k ← ku_reserve e k; k ← ku_display e k; ku_report e k.
Definition middle (k : kworld D) : outcome (kworld D) :=
  k ← ku_lapic e k; k ← ku_acpi e k; k ← ku_timer e k; ku_keyboard k.
Definition back (k : kworld D) : outcome (kworld D) :=
  k ← ku_sched e k; k ← ku_ap_cores e k; ku_start_tasks e k.

Lemma entry_split k : _kuser_entry e k = (k ← front k; k ← middle k; back k).
Proof.
  unfold _kuser_entry, front, middle, back. rewrite !outcome_bind_assoc.
  repeat (apply outcome_bind_ext; intros ?; rewrite ?outcome_bind_assoc). done.
Qed.

Lemma started_msr c r v : core_started (e_per_cpu e) (e_swappers e) entry64 0 1 top sp ustack c ->
  r <> IA32_LSTAR -> r <> IA32_FMASK -> r <> IA32_EFER ->
  core_started (e_per_cpu e) (e_swappers e) entry64 0 1 top sp ustack (put_msrs c (<[r := v]> (msrs (ce_regs c)))).
Proof.
  intros [? ? ? (M1 & M2 & efer & M3 & M4)] N1 N2 N3. split; try done. cbn. unfold syscalls_on.
  rewrite !lookup_insert_ne by done. split_and!; [done|done|]. by exists efer.
Qed.

(** Up to the last message. *)
Record front_out (k k' : kworld D) (base : Z) : Prop := {
  fo_started : core_started (e_per_cpu e) (e_swappers e) entry64 0 1 top sp ustack (kw_core k');
  fo_settled : settled (e_per_cpu e) (e_swappers e) 0 (machine_of k');
  fo_apic : msrs (ce_regs (kw_core k')) !! IA32_APIC_BASE_MSR = Some base;
  fo_reported : reported k k';
  fo_bytes : km_bytes (kw_mem k') = bytes_in k;
  fo_rest : kw_times k' = kw_times k /\ kw_acpi k' = kw_acpi k /\ kw_sched k' = kw_sched k }.

Lemma front_run k pat base : core_in k pat base -> memory_in k -> console_in k ->
  exists k', front k = Done k' /\ front_out k k' base.
Proof.
  intros [Hst Hcr [Hc0 Hc4] [Hp Hpu] [Hb _] Hidt Hstub] [Hroot [Hoff Hhigh] Hmap Hstart Him Hfb] [Hdo Hv [Hx Hy] Hl].
  destruct (ku_interrupts_run e entry64 top sp ustack k Hst Hidt Hstub) as (i & c & E1 & Ei & Hci & Hst1 & Hs1 & Hr1 & Hcr1).
  set (k1 := put_core (put_idt k i) c) in *.
  destruct (ku_memory_run e lim T root par total Hroot Hoff Hhigh k1 Hs1) as (d & p & h & t & Hd & E2 & Wp & Tp & Up & Hh & Hhl & Ho);
    [cbn; by rewrite Hcr1|done|done|done|].
  destruct (ku_allocator e k1) as [ka| |] eqn:Ea; cbn [mbind outcome_bind] in E2; try done.
  match type of E2 with _ = Done ?x => set (k3 := x) in * end.
  destruct (kw_ctl k) as [[cr0 cr4] ins] eqn:Ectl. cbn [fst snd] in Hc0, Hc4.
  destruct (ku_display_run e lim T root par Hroot k3 cr0 cr4 ins pat) as (pat' & ctl & hm & t' & con & text & E3 & _ & Hcomb & Hh4 & Ht & Hr & Hlk & Hsent);
    try done; [exact (st_irq _ _ _ _ _ _ _ _ _ Hst1)|cbn; by rewrite Hr1|apply Ho|..].
  { intros a Ha Hm. destruct (Hfb a Ha Hm) as [x Hxa]. cbn. destruct Ho as [_ Ho]. rewrite Ho. change (km_tables (kw_mem k1)) with (km_tables (kw_mem k)). rewrite Hxa. destruct (conv_page _ _); cbn; eauto. }
  match type of E3 with _ = Done ?x => set (k4 := x) in * end.
  destruct (ku_report_run e k4) as (con2 & text2 & E4 & Ht2 & _ & _ & Hsent2); try done; [exact (st_irq _ _ _ _ _ _ _ _ _ Hst1)|].
  exists (put_console k4 con2). split.
  { unfold front. rewrite E1. cbn [mbind outcome_bind]. rewrite Ea. cbn [mbind outcome_bind]. rewrite E2. cbn [mbind outcome_bind].
    rewrite E3. cbn [mbind outcome_bind]. exact E4. }
  split; try done.
  - by apply started_msr.
  - cbn. rewrite lookup_insert_ne by done. by rewrite Hr1.
  - split; try done.
    + split; [done|]. split; [done|]. by exists d.
    + split; [done|]. by exists t.
    + destruct Ht as (ts1 & F1 & ->), Ht2 as (ts2 & F2 & ->). exists pat', (concat ts1 ++ concat ts2). split_and!.
      * exists (ts1 ++ ts2). rewrite app_assoc. split; [by apply Forall2_app|by rewrite concat_app].
      * eapply sent_trans; [exact Hsent|exact Hsent2].
      * apply lookup_insert_eq.
Qed.

(** From the local APIC to the keyboard. *)
Record middle_out (k k' : kworld D) (bsp : LocalApicDescriptor) (aps : list LocalApicDescriptor) (d : D) (freq gap : Z) : Prop := {
  mo_started : core_started (e_per_cpu e) (e_swappers e) entry64 0 1 top sp ustack (kw_core k');
  mo_settled : settled (e_per_cpu e) (e_swappers e) 0 (machine_of k');
  mo_core : ce_idtr (kw_core k') = ce_idtr (kw_core k) /\ kw_idt k' = kw_idt k /\
    msrs (ce_regs (kw_core k')) !! IA32_PAT_MSR = msrs (ce_regs (kw_core k)) !! IA32_PAT_MSR;
  mo_rest : kw_mem k' = kw_mem k /\ kw_console k' = kw_console k /\ kw_sched k' = kw_sched k;
  mo_timer : kt_freq (kw_times k') = freq /\ s_lapics (kt_lapics (kw_times k')) !! 0%nat = Some true /\
    exists spurious, lapic_writes (kt_hw (kw_times k')) = lapic_writes (kt_hw (kw_times k)) ++
      [(0xF0, spurious)] ++ timer_writes (kt_apicTicks (kw_times k'));
  mo_clock : 0 <= now (clock (kt_hw (kw_times k'))) <= now (fst (readCounter d)) + freq + gap;
  mo_keyboard : exists t a phys, m_madt (snd (kw_acpi k')) = Some t /\ m_localApics t = bsp :: aps /\
    m_ioApics t !! 0%nat = Some a /\ behind (m_virtualBase a) (mappings (w_apics (fst (kw_acpi k')))) = Some phys /\
    (1 < m_redirectionEntryCount a <= 120 ->
     fields_of (snd (getRedirectionEntry (ioapics (w_apics (fst (kw_acpi k'))) phys) a 1)) = mkRedir 33 0 0 0 0 0 0 0 0 BSP_CPU_ID) }.

(** A controller with this view has the tables. *)
Lemma view_tables c bsp aps io ios devs : acpi_view c = mkView (Some (bsp :: aps)) (Some (io :: ios)) devs true ->
  exists t a page, m_madt c = Some t /\ m_localApics t = bsp :: aps /\ m_ioApics t !! 0%nat = Some a /\ m_hpet c = Some page.
Proof.
  destruct c as [x madt hpet mcfg n]. unfold acpi_view, hasHpetTable. cbn. intros [= E1 E2 _ E3].
  destruct madt as [t|]; [|done]. destruct hpet as [page|]; [|by rewrite bool_decide_false in E3 by (by intros [])].
  injection E1 as E1. injection E2 as E2. destruct (m_ioApics t) as [|a l] eqn:Ea; [done|].
  exists t, a, page. by rewrite Ea.
Qed.

Lemma middle_run k0 k base bsp aps d freq gap : front_out k0 k base -> is_u64 base ->
  acpi_in k0 bsp aps -> timer_in k0 aps d freq gap ->
  exists k', middle k = Done k' /\ middle_out k k' bsp aps d freq gap.
Proof.
  intros Hf Hu [(bus & ps & ds & io & ios & devs & Hle & Hpci & Hx & Hds & Hview) _] [Hl Hinit Ht Hfuel Hroom].
  destruct (fo_rest _ _ _ Hf) as (Et & Eacpi & _).
  pose proof (st_irq _ _ _ _ _ _ _ _ _ (fo_started _ _ _ Hf)) as Hirq.
  destruct (ku_lapic_run e entry64 top sp ustack k base (fo_started _ _ _ Hf) (fo_settled _ _ _ Hf)) as (g & E1 & Hg);
    [by rewrite Et|apply Hf|done|].
  match type of E1 with _ = Done ?x => set (k1 := x) in * end.
  destruct (AcpiController_init_run (e_off e) (e_uninit e) (e_acpi_fuel e) (bytes_in k0) bus (fst (kw_acpi k0)) (e_rsdp e) ps ds
    Hle Hpci Hx Hds) as (w & c & Ea & Ev & _).
  rewrite Hview in Ev. destruct (view_tables c _ _ _ _ _ Ev) as (t & a & page & Hmadt & Hlap & Ha & Hhpet).
  assert (ku_acpi e k1 = Done (put_acpi k1 (w, c))) as E2.
  { apply ku_acpi_run; [apply Hf|]. cbn [k1 kw_mem kw_acpi put_times put_core]. rewrite (fo_bytes _ _ _ Hf), Eacpi. exact Ea. }
  destruct (ku_timer_run e (put_acpi k1 (w, c)) page d freq) as (d0 & h & ticks & tsc & E3 & Hticks & Hw & Hge & Hd0 & Hfirst);
    [apply Hf|done|done|cbn; by rewrite Et|apply (tm_freq _ _ _ Ht)|pose proof (tm_freq _ _ _ Ht)|done|].
  { pose proof (tm_gap _ _ _ Ht d). pose proof (read_monotone d). unfold wait20 in Hroom.
    pose proof (Z.div_pos freq 1000 ltac:(done) ltac:(lia)). nia. }
  match type of E3 with _ = Done ?x => set (k3 := x) in * end.
  destruct (ku_keyboard_run k3 t a) as (w' & phys & E4 & Hph & Hkey);
    [done|done|exact (AcpiController_init_mapped _ _ _ _ _ _ _ Ea)|].
  exists (put_acpi k3 (w', c)). split.
  { unfold middle. rewrite E1. cbn [mbind outcome_bind]. rewrite E2. cbn [mbind outcome_bind]. rewrite E3. exact E4. }
  split; try done.
  - apply started_msr; [apply Hf|done..].
  - apply Hf.
  - split; [done|]. split; [done|]. cbn. by rewrite lookup_insert_ne.
  - split; [done|]. split; [done|]. eexists. cbn [k3 kw_times put_times put_acpi kt_hw kt_apicTicks]. rewrite Hw. cbn [k1 kw_times put_times put_acpi put_core kt_hw].
    unfold Apic_enable. cbn [lapic_writes Apic_write]. by rewrite <- app_assoc.
  - cbn [k3 kw_times put_times put_acpi kt_hw]. rewrite Hd0. rewrite read_now. pose proof (read_word d0) as Hwd. unfold is_u64 in Hwd.
    pose proof (tm_gap _ _ _ Ht d0). pose proof (tm_freq _ _ _ Ht). destruct Hfirst as [->|]; lia.
  - by exists t, a, phys.
Qed.

Lemma back_run k bsp aps stub table freq gap t : settled (e_per_cpu e) (e_swappers e) 0 (machine_of k) ->
  sched_in k aps -> (length aps < 64)%nat -> m_madt (snd (kw_acpi k)) = Some t -> m_localApics t = bsp :: aps ->
  kt_freq (kw_times k) = freq -> timing (D := D) freq gap (e_fuel e) ->
  low_memory (km_bytes (kw_mem k)) (e_asm e) (km_root (kw_mem k)) stub table -> is_u64 (e_entryC e) ->
  pfa_wf (km_pfa (kw_mem k)) -> 0x20 <= page_count (km_pfa (kw_mem k)) -> 0 <= now (clock (kt_hw (kw_times k))) ->
  now (clock (kt_hw (kw_times k))) + Z.of_nat (length aps) * (2 * (wait20 freq + 2 * gap)) < 0x10000000000000000 ->
  exists p by_ h s qs, back k = Done (put_sched (set_machine (put_times
      (put_memory k (mkKMem p (km_heap (kw_mem k)) (km_tables (kw_mem k)) (km_root (kw_mem k)) by_))
      (mkKTimes (kt_lapics (kw_times k)) h (kt_freq (kw_times k)) (kt_apicTicks (kw_times k)) (kt_tscTicks (kw_times k))))
      (mc s)) s) /\
    lock_ap_pages (km_pfa (kw_mem k)) = Done p /\ ap_resources by_ stub table (e_entryC e) 1 /\
    lapic_writes h = lapic_writes (kt_hw (kw_times k)) ++ flat_map (fun a => ipis (apicId a)) aps /\
    cores_ok s qs /\ fst <$> qs = e_queue e <$> seqZ 0 (Z.of_nat (S (length aps))) /\ balanced qs /\
    all_tasks qs ≡ₚ (swapper (e_swappers e) <$> seqZ 0 (Z.of_nat (S (length aps)))) ++ (e_tasks e ≫= pair_tasks) /\
    sched_lock s = 0 /\ balancing_lock s = 0.
Proof.
  intros Hs [Hv [Hl Hb] Hc Ha Hn Hbl] Hlen Ht Hlap <- Htm Hlow He Hp Hpc Hpos Hlt.
  destruct (ku_sched_run e k Hv Hl Hb Hc) as (s1 & E1 & Hr1).
  { destruct Ha as [Ha1 Ha2]. split; [apply NoDup_singleton|]. intros i Hi. apply Ha2. lia. }
  destruct (ku_ap_cores_run e (put_sched k s1) gap t bsp aps stub table Hs Hr1 Ht Hlap Hlen Ha Htm Hlow He Hp Hpc Hpos Hlt)
    as (p & by_ & h & s2 & E2 & Hlock & Hres & Hw & Hr2).
  match type of E2 with _ = Done ?x => set (k2 := x) in * end.
  destruct (ku_start_tasks_run e k2 (S (length aps)) Hr2 Ha ltac:(lia) Hn Hbl) as (s & qs & E3 & Hco & Hfst & Hbal & Hall & Hl1 & Hl2).
  exists p, by_, h, s, qs. split; [|split_and!; try done].
  - unfold back. rewrite E1. cbn [mbind outcome_bind]. rewrite E2. cbn [mbind outcome_bind]. exact E3.
  - rewrite Hfst. unfold swapper_queues. by rewrite <- list_fmap_compose.
Qed.

(** The chosen region alone has more pages than the start-up code needs. *)
Lemma pages_for_aps k p d : memory_in k -> pfa_wf p -> m_totalSystemMemory p = total -> chosen (e_descs e) d ->
  0x20 <= page_count p.
Proof.
  intros Hm Wp Tp Hd. unfold page_count. rewrite Tp. destruct (mw_fits _ _ _ (mi_map _ Hm) d Hd) as [_ Hfit].
  pose proof (mw_descs _ _ _ (mi_map _ Hm)) as Hw. destruct Hd as (Din & Dc & _).
  destruct (proj1 (List.Forall_forall _ _) Hw d Din) as [_ Dwf]. destruct Dwf as (_ & D0 & _); [done|].
  pose proof (wf_total _ Wp). rewrite Tp in *. unfold bitmap_bytes, KERNEL_HEAP_INIT_SIZE, PAGE_SIZE in *. wordlia.
Qed.

(** C4 (functional): [_kuser_entry] runs to its end.  From a core that [_kentry] has started,
    a well formed memory map with the kernel's structures in it, a display on which lines of
    sixty characters fit, firmware tables that list the processors, an I/O APIC and a timer,
    and a counter that keeps going, all twelve phases return.  After the messages the
    interrupt table is loaded; the used pages are exactly those of the memory map, the bitmap
    and the kernel's own structures; the heap has one block, the back buffer, in front of one
    free segment; the translations are those of the boot with the free pages open to user mode
    and the frame buffer write-combining; and the serial port got exactly the text of the
    messages.  In the end all these pages and those of the start-up code are used; the local
    APIC was enabled, its timer calibrated and started periodic on vector 32, and every other
    processor was sent its two interrupts, in this order; the keyboard's line is routed; and
    each core has a run queue with its swapper in it, over which the twenty tasks of the
    start-up test are spread evenly, with no lock held. *)
Theorem kernel_entry_returns k pat base bsp aps d freq gap stub table :
  core_in k pat base -> memory_in k -> console_in k -> acpi_in k bsp aps -> timer_in k aps d freq gap ->
  sched_in k aps -> low_in k stub table ->
  exists k1 k', front k = Done k1 /\ reported k k1 /\
    _kuser_entry e k = Done k' /\ booted k k1 k' aps stub table freq.
Proof.
  intros Hc Hm Ho Ha Ht Hs [Hlow He]. destruct (front_run k pat base Hc Hm Ho) as (k1 & E1 & F).
  destruct (middle_run k k1 base bsp aps d freq gap F (proj2 (ci_apic _ _ _ Hc)) Ha Ht) as (k2 & E2 & M).
  destruct (mo_keyboard _ _ _ _ _ _ _ M) as (t & a & phys & Hmadt & Hlap & Hio & Hph & Hkey).
  destruct (mo_rest _ _ _ _ _ _ _ M) as (Emem & _ & Esch). destruct (fo_rest _ _ _ F) as (Et & _ & Esch1).
  pose proof (fo_reported _ _ _ F) as P. destruct (rp_pages _ _ P) as (Wp & Tp & dd & Hdd & _).
  destruct (mo_timer _ _ _ _ _ _ _ M) as (Ef & Hlapic & spurious & Hw). destruct (mo_clock _ _ _ _ _ _ _ M) as (Hpos & Hclk).
  pose proof (pages_for_aps k _ dd Hm Wp Tp Hdd) as Hpc.
  destruct (lock_ap_pages_spec (km_pfa (kw_mem k1)) Wp Hpc) as (p' & El & Wl & Ul).
  destruct (back_run k2 bsp aps stub table freq gap t) as (p & by_ & h & s & qs & E3 & Hlock & Hres & Hw3 & Hsched); try done;
    [apply M|by destruct Hs; split; rewrite ?Esch, ?Esch1|apply Ha|apply Ht|..].
  { rewrite Emem, (fo_bytes _ _ _ F), (proj1 (rp_tables _ _ P)). exact Hlow. }
  { by rewrite Emem. }
  { by rewrite Emem. }
  { pose proof (ti_room _ _ _ _ _ Ht). lia. }
  rewrite Emem, El in Hlock. injection Hlock as <-.
  eexists k1, _. split; [exact E1|]. split; [exact P|]. split.
  { rewrite entry_split, E1. cbn [mbind outcome_bind]. rewrite E2. exact E3. }
  split; cbn [put_sched set_machine kworld_machine put_times put_memory put_core kw_core kw_idt kw_mem kw_console kw_times kw_acpi kw_sched
    km_pfa km_heap km_tables km_root km_bytes kt_freq kt_lapics kt_hw kt_apicTicks with_mc_core ce_idtr ce_regs].
  - destruct (mo_core _ _ _ _ _ _ _ M) as (-> & -> & _). split; [apply P|done].
  - split; [done|]. intros i Hi [Hin|Hu]; rewrite Ul by done; [by rewrite bool_decide_true|by rewrite Hu, orb_true_r].
  - done.
  - split; [done|]. split; [done|]. exists spurious. rewrite Hw3, Hw, Et. by rewrite <- !app_assoc.
  - by exists t, a, phys.
  - by exists qs.
Qed.

(** C20 (safety): the periodic timer runs before there is a run queue.  From the same start, with
    the vector of run queues still as its constructor leaves it, the nine phases before
    [sched.init] return with interrupts enabled and the local APIC's timer started; whatever
    frame the first interrupt of the timer brings, its handler indexes the vector, which has no
    storage. *)
Theorem early_tick_faults k pat base bsp aps d freq gap :
  core_in k pat base -> memory_in k -> console_in k -> acpi_in k bsp aps -> timer_in k aps d freq gap ->
  m_runQueues (kw_sched k) = vector_new -> sched_lock (kw_sched k) = 0 ->
  exists k2, (k1 ← front k; middle k1) = Done k2 /\ interrupts (machine_of k2) = true /\
    (exists before, lapic_writes (kt_hw (kw_times k2)) = before ++ timer_writes (kt_apicTicks (kw_times k2))) /\
    forall frame, _irq_handler_timer (e_per_cpu e) (e_off e) frame (with_mc (kw_sched k2) (machine_of k2)) = Fault.
Proof.
  intros Hc Hm Ho Ha Ht Hv Hl. destruct (front_run k pat base Hc Hm Ho) as (k1 & E1 & F).
  destruct (middle_run k k1 base bsp aps d freq gap F (proj2 (ci_apic _ _ _ Hc)) Ha Ht) as (k2 & E2 & M).
  destruct (mo_rest _ _ _ _ _ _ _ M) as (_ & _ & Esch). destruct (fo_rest _ _ _ F) as (_ & _ & Esch1).
  destruct (mo_timer _ _ _ _ _ _ _ M) as (_ & _ & spurious & Hw).
  exists k2. rewrite E1. split; [exact E2|]. split; [apply (st_irq _ _ _ _ _ _ _ _ _ (mo_started _ _ _ _ _ _ _ M))|]. split.
  - eexists. rewrite Hw, app_assoc. reflexivity.
  - intros frame. rewrite Esch, Esch1. eapply (unregistered_timer (e_per_cpu e) (e_swappers e)); [|apply M|done|done|]; [done|]. cbn [with_mc m_runQueues]. by rewrite Hv.
Qed.
End whole.

(** ** A machine with two processors

    1.75 GiB of memory with 32 free pages, a kernel of two pages, a display of 62 columns and
    nine rows of pixels under a font of one row, two processors and an I/O APIC. *)
Definition boot_T : gmap Z (nat * Z) :=
  {[ 0x1000 := (4%nat, 0); 0x2000 := (3%nat, 0x1ff8); 0x3000 := (2%nat, 0x2ff0); 0x4000 := (1%nat, 0x3000);
     0x5000 := (3%nat, 0x1000); 0x6000 := (2%nat, 0x5000); 0x7000 := (1%nat, 0x6008) ]}.
Definition boot_m (a : Z) : Z :=
  if a =? 0x1ff8 then 0x2003 else if a =? 0x2ff0 then 0x3003
  else if a =? 0x3000 then 0x4003 else if (0x4800 <=? a) && (a <? 0x4900) then 3
  else if a =? 0x1000 then 0x5003 else if a =? 0x5000 then 0x6003 else if a =? 0x6008 then 0x7003
  else if (0x7000 <=? a) && (a <? 0x7028) then 3 else 0.

Lemma boot_tree : tree 0x80000000 boot_T boot_m.
Proof.
  assert (forall t v, boot_T !! t = Some v ->
    (t = 0x1000 /\ v = (4%nat, 0)) \/ (t = 0x2000 /\ v = (3%nat, 0x1ff8)) \/ (t = 0x3000 /\ v = (2%nat, 0x2ff0)) \/
    (t = 0x4000 /\ v = (1%nat, 0x3000)) \/ (t = 0x5000 /\ v = (3%nat, 0x1000)) \/ (t = 0x6000 /\ v = (2%nat, 0x5000)) \/
    (t = 0x7000 /\ v = (1%nat, 0x6008))) as Hcases.
  { intros t v. unfold boot_T. rewrite !lookup_insert_Some, lookup_singleton_Some. naive_solver. }
  constructor.
  - intros t l par H. unfold PAGE_SIZE. destruct (Hcases _ _ H) as [[-> [= -> ->]]|[[-> [= -> ->]]|[[-> [= -> ->]]|[[-> [= -> ->]]|
      [[-> [= -> ->]]|[[-> [= -> ->]]|[-> [= -> ->]]]]]]]]; split_and!; done || lia.
  - intros t l par i H Hi. destruct (Hcases _ _ H) as [[-> [= -> ->]]|[[-> [= -> ->]]|[[-> [= -> ->]]|[[-> [=]]|
      [[-> [= -> ->]]|[[-> [= -> ->]]|[-> [=]]]]]]]];
      unfold entry_addr, boot_m;
      repeat match goal with
      | |- context [?a =? ?b] => destruct (Z.eqb_spec a b); try lia
      | |- context [?a <=? ?b] => destruct (Z.leb_spec a b); try lia
      | |- context [?a <? ?b] => destruct (Z.ltb_spec a b); try lia
      end; intros Hp; try (by destruct Hp);
      match goal with E : _ + 8 * i = _ |- _ => rewrite E; reflexivity end.
Qed.

Definition boot_image : kernel_image :=
  mkImage 0xffffffff80200000 0xffffffff80201000 0xffffffff80209000 0xffffffff80210000 0xffffffff80220000 0x200000 0x5000.

Definition boot_entries : list (list Z) :=
  [[0; 8; 0; 0; 1; 0; 0; 0]; [0; 8; 1; 1; 1; 0; 0; 0]; [1; 12; 0; 0] ++ le_split 4 0xFEC00000 ++ le_split 4 0].

(** The root pointer at 0x100, the XSDT at 0x200, the MADT at 0x1000 and the timer's table at
    0x3000, the start-up code at 0x20000; the root table in the kernel's alias. *)
Definition boot_bytes : mem :=
  put_bytes (put_bytes (put_bytes (put_bytes (put_bytes (put_bytes (put_bytes (put_bytes ∅
    0x8000 (replicate (Z.to_nat 0x19000) 0))
    0xffffffff80001000 (replicate (Z.to_nat 0x1000) 0))
    0x7000 (replicate 16 0))
    0x118 (le_split 8 0x200))
    0xffffffff80000204 (le_split 4 52 ++ replicate 28 0 ++ le_split 8 0x1000 ++ le_split 8 0x3000))
    0x1000 (SIG_APIC ++ le_split 4 (44 + Z.of_nat (length (concat boot_entries))) ++ replicate 36 0 ++ concat boot_entries))
    0x3000 SIG_HPET)
    0x302C (le_split 8 0xFED00000).

Definition boot_env0 : boot_env := {|
  e_per_cpu := 0xffffffff80310000; e_swappers := 0x6000; e_off := demo_off;
  e_stub_addr := fun _ => 0xffffffff80100000; e_idt_addr := 0xffffffff80400000;
  e_descs := demo_descs; e_image := boot_image; e_width := 496; e_height := 9; e_scanline := 496;
  e_font := mkFont 1 (replicate 128 0); e_rsdp := 0x100; e_kernelStack := 0xffffffff80230000; e_phys_base := 0x200000;
  e_cpuid := demo_intel; e_vendor := 0x7000; e_lsr := fun _ => 0x60; e_serial_fuel := 1;
  e_lapic_page := 0x9000; e_uninit := fun _ => 0; e_acpi_fuel := 4; e_fuel := Z.to_nat 300000;
  e_queue := fun i => 5000 + i; e_asm := 0x20000; e_entryC := 0xffffffff80101000; e_bsp := 0;
  e_hello := 0x5555; e_goodbye := 0x6666; e_tasks := demo_memory |}.

(** The core after [_kentry]. *)
Definition boot_core0 : core_state :=
  mkCore [] (mkRegs (0, 0) 0 0 0 0 0 0 0 {[ IA32_LSTAR := 0x80100; IA32_FMASK := 0x200; IA32_EFER := 0x501;
      IA32_PAT_MSR := 0x0007040600070406; IA32_APIC_BASE_MSR := 0xFEE00100 ]})
    (started_machine 0xffffffff80310000 0x6000 0 1 0x9000 0x9f00 0x28000 (demo_pcb 0 0) (mkCpuData 0 0 0 0) ∅
      (replicate 64 (mkCpuData 0 0 0 0)) 0x1000) (0, 0).

Definition boot_world (h : Heap) : kworld demo_clock := {|
  kw_core := boot_core0; kw_ctl := (0x80000011, 0x20, []); kw_idt := mkIdt (0, 0) (replicate 256 0);
  kw_mem := mkKMem (mkPFA 0 0 0 0 (mkBitmap 0 []) 0 0) h boot_m 0 boot_bytes;
  kw_console := mkConsole demo_display 8 8 (mkSerial 0 []) 0 false;
  kw_times := mkKTimes (mkApicGlobals 0 0 [false; false] []) (mkTimerHw (mkDemoClock 0 (Z.shiftl 0xffffffff 32) 0) (fun _ => 0) [] false) 0 0 0;
  kw_acpi := (mkWorld demo_ports demo_window [] (mkCtx (fun _ => demo_hw) [0xA000; 0xB000] []), mkAcpi 0 None None None 0);
  kw_sched := mkSys (ce_mc boot_core0) vector_new ∅ 0 0 0 10 |}.

Lemma boot_core_in h : core_in boot_env0 0x80100 0x9000 0x9f00 0x28000 0x1000 (boot_world h) 0x0007040600070406 0xFEE00100.
Proof.
  split; try (vm_compute; split_and?; (reflexivity || discriminate)).
  - apply started_ok; [unfold MAX_CPUS; lia|reflexivity|]. split_and!; [reflexivity|reflexivity|]. exists 0x501. split; reflexivity.
  - intros st. vm_compute. split; [discriminate|reflexivity].
Qed.

Lemma boot_start : exists h, memory_in boot_env0 0x80000000 boot_T 0x1000 0 demo_total (boot_world h).
Proof.
  destruct (memory_exists (0x100000 + demo_off + bitmap_bytes demo_total) KERNEL_HEAP_INIT_SIZE) as (mm & H1 & H2).
  exists (mkHeap mm 0 0 0).
  split; [reflexivity|split; [reflexivity|by vm_compute]|exact demo_map_wf| |split; vm_compute; split_and?; congruence|].
  - constructor; try done.
    + by intros d ->%demo_chosen.
    + apply boot_tree.
    + intros i Hi%demo_conv.
      assert (forallb (fun j => match translate boot_m 0x1000 (physToVirtAddr demo_off (j * PAGE_SIZE))
        with Some _ => true | None => false end) (seqZ 0x100 0x20) = true) as X by (vm_compute; reflexivity).
      apply (forallb_seqZ _ _ _ i) in X; [|lia].
      change (is_Some (translate boot_m 0x1000 (physToVirtAddr demo_off (i * PAGE_SIZE)))). cbv beta in X.
      destruct (translate boot_m 0x1000 (physToVirtAddr demo_off (i * PAGE_SIZE))); [by eexists|done].
  - intros a Ha Hm. cbn [boot_env0 e_image boot_image im_fbBase im_fbSize] in Ha. cbn [kw_mem boot_world km_tables].
    assert (forallb (fun j => match translate boot_m 0x1000 (j * 4096) with Some _ => true | None => false end)
      (seqZ 0x200 5) = true) as X by (vm_compute; reflexivity).
    apply (forallb_seqZ _ _ _ (a / 4096)) in X; [|wordlia].
    cbv beta in X. replace (a / 4096 * 4096) with a in X by wordlia. destruct (translate boot_m 0x1000 a); [by eexists|done].
Qed.

Lemma put_bytes_self_mapped m a bs : mapped (put_bytes m a bs) a (Z.of_nat (length bs)).
Proof.
  intros b Hb. rewrite lookup_put_bytes, decide_True by lia. apply lookup_lt_is_Some. lia.
Qed.

Lemma boot_low_mapped a n : 0x8000 <= a -> a + n <= 0x21000 -> mapped boot_bytes a n.
Proof.
  intros Ha Hb. unfold boot_bytes. do 7 apply put_bytes_mapped.
  eapply mapped_sub; [apply put_bytes_self_mapped|lia|rewrite length_replicate; lia].
Qed.

Lemma boot_root_mapped : mapped boot_bytes 0xffffffff80001000 0x1000.
Proof.
  unfold boot_bytes. do 6 apply put_bytes_mapped.
  eapply mapped_sub; [apply put_bytes_self_mapped|lia|rewrite length_replicate; lia].
Qed.

Lemma boot_stack_mapped : mapped boot_bytes 0x7000 13.
Proof.
  unfold boot_bytes. do 5 apply put_bytes_mapped. eapply mapped_sub; [apply put_bytes_self_mapped|lia|rewrite length_replicate; lia].
Qed.

Lemma boot_console_in h : console_in boot_env0 (boot_world h).
Proof.
  split; [|exact boot_stack_mapped|split; reflexivity|reflexivity].
  split; try (vm_compute; split_and?; congruence).
  - split; [|cbn; lia|cbn; lia]. split; cbn; try lia. intros n. exists 0%nat. split; [lia|done].
  - apply Forall_forall. intros c Hc. assert (forallb (fun c => (32 <=? c) && (c <? 128)) (vendor_name boot_env0) = true) as X by reflexivity.
    rewrite forallb_forall in X. specialize (X c (proj1 (list_elem_of_In _ _) Hc)).
    rewrite andb_true_iff, Z.leb_le, Z.ltb_lt in X. exact X.
Qed.

Definition boot_bsp : LocalApicDescriptor := mkLapic 0 8 0 0 1.
Definition boot_ap : LocalApicDescriptor := mkLapic 0 8 1 1 1.

Lemma boot_entries_wf : Forall entry_wf boot_entries.
Proof. repeat constructor; simpl; try lia; intros; discriminate. Qed.

Lemma boot_madt_bytes : madt_bytes (put_bytes boot_bytes 0x7000 (vendor_name boot_env0 ++ [0])) 0x1000 (concat boot_entries).
Proof. unfold madt_bytes. split; [vm_compute; reflexivity|]. split; [vm_compute; reflexivity|]. split; [lia|by vm_compute]. Qed.

Lemma boot_acpi_in h : acpi_in boot_env0 (boot_world h) boot_bsp [boot_ap].
Proof.
  split; [|cbn; lia].
  exists demo_ports, [0x1000; 0x3000], [TMadt boot_entries; THpet 0xFED00000], 0, [], None.
  split; [exact demo_lists|]. split; [done|]. split; [|split; [|vm_compute; reflexivity]].
  - exists 0x200. split_and!; [vm_compute; reflexivity|vm_compute; reflexivity|simpl; lia|].
    intros [|[|i]] p Hp; simpl in Hp; try (injection Hp as <-; vm_compute; reflexivity).
    discriminate (eq_trans (eq_sym (lookup_nil i)) Hp).
  - apply Forall2_cons. split; [|apply Forall2_cons; split; [|apply Forall2_nil; done]].
    + split; [vm_compute; reflexivity|]. split; [exact boot_madt_bytes|]. split; [exact boot_entries_wf|apply Nat.ltb_lt; reflexivity].
    + split; vm_compute; reflexivity.
Qed.

Lemma boot_timing : timing (D := demo_clock) 232830 100 (Z.to_nat 300000).
Proof.
  split; [lia| |].
  - intros d. cbn. unfold dc_time. cbn. lia.
  - intros d t. cbn [now lag demo_laws]. unfold wait20. change (232830 / 1000) with 232. lia.
Qed.

Lemma boot_timer_in h : timer_in boot_env0 (boot_world h) [boot_ap] (mkDemoClock 0 (Z.shiftl 0xffffffff 32) 1) 232830 100.
Proof.
  split; [reflexivity|vm_compute; reflexivity|exact boot_timing| |vm_compute; reflexivity].
  cbn [boot_env0 e_fuel now lag demo_laws]. lia.
Qed.

Lemma boot_sched_in h : sched_in boot_env0 (boot_world h) [boot_ap].
Proof.
  split; [apply repr_new|done|done| |done|].
  - split; [apply NoDup_ListNoDup; repeat constructor; cbn; intuition lia|]. intros i Hi. cbn. lia.
  - apply Forall_fmap, Forall_forall. intros i Hi%elem_of_seqZ. cbn. lia.
Qed.

Lemma boot_low_in h : exists stub table, low_in boot_env0 0x1000 (boot_world h) stub table.
Proof.
  assert (forall a n, mapped boot_bytes a n -> mapped (bytes_in boot_env0 (boot_world h)) a n) as Hin
    by (intros; by apply put_bytes_mapped).
  destruct (mapped_read (bytes_in boot_env0 (boot_world h)) 0x20000 4096) as (stub & E1 & _).
  { apply Hin, boot_low_mapped; lia. }
  destruct (mapped_read (bytes_in boot_env0 (boot_world h)) 0xffffffff80001000 4096) as (table & E2 & _).
  { exact (Hin _ _ boot_root_mapped). }
  exists stub, table. split; [|vm_compute; split; [discriminate|reflexivity]].
  split; [|apply Hin, boot_low_mapped; lia|exact E1|exact E2|cbn [boot_env0 e_asm]; lia|vm_compute; discriminate].
  unfold bytes_in. cbn [kw_mem boot_world km_bytes]. unfold boot_bytes.
  repeat (apply put_bytes_wf; [|repeat apply Forall_app_2; first [apply le_split_ok | apply Forall_replicate; unfold is_u8; lia |
    repeat constructor; vm_compute; (discriminate || reflexivity)]]).
  apply map_Forall_empty.
Qed.

(** The whole entry on this machine: both cores have a queue, twenty-two tasks are in them,
    and the second processor got its interrupts. *)
Lemma kernel_entry_returns_witness : exists h k1 k' qs, front boot_env0 (boot_world h) = Done k1 /\
  used (km_pfa (kw_mem k1)) 0x202 = true /\ used (km_pfa (kw_mem k1)) 0x110 = false /\
  _kuser_entry boot_env0 (boot_world h) = Done k' /\ used (km_pfa (kw_mem k')) 0x202 = true /\
  cores_ok (kw_sched k') qs /\ fst <$> qs = [5000; 5001] /\ length (all_tasks qs) = 22%nat /\
  exists l, lapic_writes (kt_hw (kw_times k')) = l ++ ipis 1.
Proof.
  destruct boot_start as [h Hm]. destruct (boot_low_in h) as (stub & table & Hlow).
  destruct (kernel_entry_returns boot_env0 0x80100 0x9000 0x9f00 0x28000 0x80000000 (H1 := up_layout) boot_T 0x1000 0 demo_total (boot_world h)
    0x0007040600070406 0xFEE00100 boot_bsp [boot_ap] (mkDemoClock 0 (Z.shiftl 0xffffffff 32) 1) 232830 100 stub table
    (boot_core_in h) Hm (boot_console_in h) (boot_acpi_in h) (boot_timer_in h) (boot_sched_in h) Hlow) as (k1 & k' & E1 & P & E & B).
  destruct (bo_sched _ _ _ _ _ _ _ _ B) as (qs & Hco & Hq & _ & Hall & _).
  destruct (rp_pages _ _ _ _ _ _ _ P) as (_ & _ & d & ->%demo_chosen & Hu).
  destruct (bo_timer _ _ _ _ _ _ _ _ B) as (_ & _ & spurious & Hw).
  assert (used (km_pfa (kw_mem k1)) 0x202 = true) as Hu1 by (rewrite Hu by lia; vm_compute; reflexivity).
  exists h, k1, k', qs. split; [exact E1|]. split; [exact Hu1|]. split; [rewrite Hu by lia; vm_compute; reflexivity|]. split; [exact E|].
  split; [apply (bo_pages _ _ _ _ _ _ _ _ B); [lia|by right]|]. split; [exact Hco|]. split; [exact Hq|]. split; [by rewrite Hall|].
  rewrite Hw. exists ([(0xF0, spurious)] ++ timer_writes (kt_apicTicks (kw_times k'))). cbn [flat_map]. by rewrite app_nil_r, <- app_assoc.
Defined.

Lemma early_tick_faults_witness : exists h k2,
  (k1 ← front boot_env0 (boot_world h); middle boot_env0 k1) = Done k2 /\ interrupts (machine_of k2) = true /\
  forall frame, _irq_handler_timer 0xffffffff80310000 demo_off frame (with_mc (kw_sched k2) (machine_of k2)) = Fault.
Proof.
  destruct boot_start as [h Hm].
  destruct (early_tick_faults boot_env0 0x80100 0x9000 0x9f00 0x28000 0x80000000 (H1 := up_layout) boot_T 0x1000 0 demo_total
    (boot_world h) 0x0007040600070406 0xFEE00100 boot_bsp [boot_ap] (mkDemoClock 0 (Z.shiftl 0xffffffff 32) 1) 232830 100
    (boot_core_in h) Hm (boot_console_in h) (boot_acpi_in h) (boot_timer_in h) eq_refl eq_refl) as (k2 & E & Hi & _ & Hf).
  exists h, k2. split; [exact E|]. split; [exact Hi|exact Hf].
Defined.
