(* ===== verification/HeapDebug.v ===== *)
(** * The printers of the kernel heap (kernel/src/memory/kheap.cpp)

    [__debugHeap] walks the segments and prints each with [kuPrint], from the kernel thread;
    [__debugHeapSegment] and [__debugUserHeapPointer] print one.  Every line reads the header
    when it is printed.  The walk is bounded by [chain_fuel], as in [KHeap]: a longer one has
    met a segment twice. *)
From Stdlib Require Import ZArith Lia String.
From stdpp Require Import base tactics numbers option list gmap.
From S2P Require Import Prelude Memory KHeap KHeapThms PageFrame PageTable Paging MemInit Process Elevate.
From S2P Require Import Sched IoApic Acpi Gdt Interrupts KTime CpuSetup ApStartup KDisplay DeviceMaps KPrint.
From S2P Require Import KernelEntry Reserve SpawnTest KUser KUserThms KUserBoot.
Local Open Scope list_scope.
Local Open Scope Z_scope.

(** ** The lines *)
Definition dashes : message := User (ln "---------------------------------------------") [].

Definition title (segId : Z) : message :=
  if segId =? -1 then User (ln "Segment") [] else User (ln "Segment %llu:") [VWord (u64 segId)].

(** What is printed about the segment [s] at [a] with the next pointer [nx]. *)
Definition segment_report (a : Z) (s : seg) (nx : Z) : list message :=
  [User (ln "    base         : %llx") [VWord a];
   User (ln "    userptr      : %llx") [VWord (a ⊞ sizeof_HeapSegmentHeader)];
   User (ln "    total size   : %llx") [VWord (s_size s)];
   User (ln "    usable size  : %llx") [VWord (s_size s ⊟ sizeof_HeapSegmentHeader)];
   User (ln "    status       : %s") [VStr (codes (if s_free s then "free" else "used"))];
   User (ln "    next         : %llx") [VWord nx];
   User (ln "    prev         : %llx" ++ [10]) [VWord (s_prev s)]].

(** The segments from [a] on, numbered from [id]. *)
Fixpoint segments_report (id a : Z) (segs : list seg) : list message :=
  match segs with
  | [] => []
  | s :: r => User (ln "Segment %llu:") [VWord (u64 id)] ::
      segment_report a s (match r with [] => 0 | _ => a + s_size s end) ++ segments_report (id + 1) (a + s_size s) r
  end.

Definition heap_report (base : Z) (segs : list seg) : list message := dashes :: segments_report 1 base segs ++ [dashes].

Section debug.
Context (e : boot_env) `{HpetDevice D}.

(** ** The printers *)
Abbreviation memory_of k := (h_mem (km_heap (kw_mem k))).

Definition debug_fields (seg : Z) (k : kworld D) : outcome (kworld D) :=
  k ← kuPrint e (ln "    base         : %llx") [VWord seg] k;
  k ← kuPrint e (ln "    userptr      : %llx") [VWord (seg ⊞ sizeof_HeapSegmentHeader)] k;
  size ← Hdr.size (memory_of k) seg;
  k ← kuPrint e (ln "    total size   : %llx") [VWord size] k;
  size ← Hdr.size (memory_of k) seg;
  k ← kuPrint e (ln "    usable size  : %llx") [VWord (size ⊟ sizeof_HeapSegmentHeader)] k;
  free ← Hdr.free_bit (memory_of k) seg;
  k ← kuPrint e (ln "    status       : %s") [VStr (codes (if free : bool then "free" else "used"))] k;
  next ← Hdr.next (memory_of k) seg;
  k ← kuPrint e (ln "    next         : %llx") [VWord next] k;
  prev ← Hdr.prev (memory_of k) seg;
  kuPrint e (ln "    prev         : %llx" ++ [10]) [VWord prev] k.

Definition debug_body (st : Z * Z * kworld D) : outcome (Z * Z * kworld D + kworld D) :=
  let '(seg, segId, k) := st in
  if seg =? 0 then Done (inr k)
  else
    k ← kuPrint e (ln "Segment %llu:") [VWord (u64 segId)] k;
    k ← debug_fields seg k;
    next ← Hdr.next (memory_of k) seg;
    Done (inl (next, segId + 1, k)).

Definition __debugHeap (k : kworld D) : outcome (kworld D) :=
  let seg := m_firstSegment (km_heap (kw_mem k)) in
  k ← kuPrint e (ln "---------------------------------------------") [] k;
  k ← loop (chain_fuel (km_heap (kw_mem k))) debug_body (seg, 1, k);
  kuPrint e (ln "---------------------------------------------") [] k.

Definition __debugHeapSegment (ptr segId : Z) (k : kworld D) : outcome (kworld D) :=
  k ← (if negb (segId =? -1) then kuPrint e (ln "Segment %llu:") [VWord (u64 segId)] k
       else kuPrint e (ln "Segment") [] k);
  debug_fields ptr k.

Definition __debugUserHeapPointer (ptr id : Z) (k : kworld D) : outcome (kworld D) :=
  __debugHeapSegment (ptr ⊟ sizeof_HeapSegmentHeader) id k.

(** ** Printing leaves the memory alone *)
Lemma run_elevated_mem (code : kworld D -> outcome (kworld D)) :
  (forall s s', code s = Done s' -> kw_mem s' = kw_mem s) ->
  forall k k', run_elevated (e_per_cpu e) code k = Done k' -> kw_mem k' = kw_mem k.
Proof.
  intros Hc k k'. unfold run_elevated. cbn [machine_of set_machine kworld_machine].
  destruct (__kcheck_elevated _ _) as [[i m]| |]; cbn [mbind outcome_bind]; try done.
  destruct (i =? 0); cbn [mbind outcome_bind]; [destruct (__kelevate _ _) as [m1| |]; cbn [mbind outcome_bind]; try done|].
  - destruct (code _) as [s| |] eqn:E; cbn [mbind outcome_bind]; try done. apply Hc in E.
    destruct (__klower _ _); cbn [mbind outcome_bind]; try done. intros [= <-]. exact E.
  - destruct (code _) as [s| |] eqn:E; cbn [mbind outcome_bind]; try done. intros [= <-]. by apply Hc in E.
Qed.

Lemma on_console_mem f (k k' : kworld D) : on_console f k = Done k' -> kw_mem k' = kw_mem k.
Proof. unfold on_console. destruct (f _); cbn [mbind outcome_bind]; try done. by intros [= <-]. Qed.

Lemma say_mem m (k k' : kworld D) : say e k m = Done k' -> kw_mem k' = kw_mem k.
Proof.
  destruct m as [fmt args|fmt args|fmt args]; [apply on_console_mem|apply on_console_mem|].
  apply run_elevated_mem. intros s s'. apply on_console_mem.
Qed.

Lemma say_all_mem ms : forall k k' : kworld D, for_each (say e) ms k = Done k' -> kw_mem k' = kw_mem k.
Proof.
  induction ms as [|m ms IH]; intros k k'; cbn [for_each]; [by intros [= ->]|].
  destruct (say e k m) as [k1| |] eqn:E; cbn [mbind outcome_bind]; try done. intros E1%IH. by rewrite E1, (say_mem _ _ _ E).
Qed.

(** ** The printers say the reports *)

Lemma kuPrint_mem fmt args (k k' : kworld D) : kuPrint e fmt args k = Done k' -> kw_mem k' = kw_mem k.
Proof. apply (say_mem (User fmt args)). Qed.

(** Prints one line on both sides. *)
Ltac same_line :=
  match goal with |- context [kuPrint e ?f ?x ?k] =>
    let k' := fresh "k" in let E := fresh "E" in
    destruct (kuPrint e f x k) as [k'| |] eqn:E; cbn [mbind outcome_bind]; [|done|done]; apply kuPrint_mem in E end.

Lemma debug_fields_says a s nx (k : kworld D) : hdr_at (memory_of k) a s nx ->
  debug_fields a k = for_each (say e) (segment_report a s nx) k.
Proof.
  intros (_ & _ & Hf & Hs & Hn & Hp). unfold debug_fields, segment_report. cbn [for_each say].
  do 2 same_line. assert (memory_of k1 = memory_of k) as E1 by congruence. rewrite E1, Hs. cbn [mbind outcome_bind].
  same_line. assert (memory_of k2 = memory_of k) as E2' by congruence. rewrite E2', Hs. cbn [mbind outcome_bind].
  same_line. assert (memory_of k3 = memory_of k) as E3' by congruence. rewrite E3', Hf. cbn [mbind outcome_bind].
  same_line. assert (memory_of k4 = memory_of k) as E4' by congruence. rewrite E4', Hn. cbn [mbind outcome_bind].
  same_line. assert (memory_of k5 = memory_of k) as E5' by congruence. rewrite E5', Hp. cbn [mbind outcome_bind].
  same_line. done.
Qed.

(** The walk from the first of [segs], or from the null pointer when there are none. *)
Lemma debug_walk_says m segs : forall id a (k : kworld D) fuel, memory_of k = m -> chain m a segs 0 -> 0 < a ->
  Forall (fun s => 32 <= s_size s) segs -> (length segs < fuel)%nat ->
  loop fuel debug_body (match segs with [] => 0 | _ => a end, id, k) = for_each (say e) (segments_report id a segs) k.
Proof.
  induction segs as [|s r IH]; intros id a k fuel Hm Hc Ha Hs Hf; (destruct fuel as [|fuel]; [cbn in Hf; lia|]); cbn [loop].
  - reflexivity.
  - destruct Hc as [Hh Hc]. apply Forall_cons in Hs as [Hs Hr]. cbn [segments_report for_each debug_body say].
    destruct (Z.eqb_spec a 0); [lia|]. same_line. assert (memory_of k0 = m) as Em by congruence. rewrite <- Em in Hh.
    rewrite (debug_fields_says _ _ _ _ Hh), for_each_app.
    destruct (for_each (say e) (segment_report _ _ _) k0) as [k1| |] eqn:E1; cbn [mbind outcome_bind]; [|done|done].
    apply say_all_mem in E1. destruct Hh as (_ & _ & _ & _ & Hn & _). rewrite E1, Hn. cbn [mbind outcome_bind].
    apply (IH (id + 1) (a + s_size s) k1 fuel); [congruence|done|lia|done|cbn in Hf; lia].
Qed.

Lemma debugHeap_says (k : kworld D) segs : heap_rep (km_heap (kw_mem k)) segs ->
  __debugHeap k = for_each (say e) (heap_report (m_firstSegment (km_heap (kw_mem k))) segs) k.
Proof.
  intros R. unfold __debugHeap, heap_report, dashes. cbn [for_each say]. same_line. rewrite for_each_app.
  pose proof (debug_walk_says _ segs 1 (m_firstSegment (km_heap (kw_mem k))) k0 (chain_fuel (km_heap (kw_mem k0))) eq_refl) as W.
  rewrite E in W |- *. assert (segs <> []) as Hne by apply R.
  replace (match segs with [] => 0 | _ => m_firstSegment (km_heap (kw_mem k)) end) with (m_firstSegment (km_heap (kw_mem k))) in W
    by (by destruct segs).
  rewrite W; [|apply R|apply R|apply R|by apply rep_fuel]. apply outcome_bind_ext. intros k1. cbn [for_each say].
  by destruct (kuPrint e _ _ k1).
Qed.

Lemma debugUserHeapPointer_says (k : kworld D) l1 s l2 id : heap_rep (km_heap (kw_mem k)) (l1 ++ s :: l2) ->
  let a := m_firstSegment (km_heap (kw_mem k)) + total l1 in
  __debugUserHeapPointer (a + 32) id k =
    for_each (say e) (title id :: segment_report a s (match l2 with [] => 0 | _ => a + s_size s end)) k.
Proof.
  intros R a. pose proof (rep_focus _ _ _ _ R) as (P1 & P2 & P3 & P4 & _). pose proof (rep_base _ _ R). pose proof (rep_top _ _ R).
  pose proof (rep_chain _ _ R) as C. apply chain_focus in C as (_ & Hh & _).
  unfold __debugUserHeapPointer, __debugHeapSegment, title, sizeof_HeapSegmentHeader.
  replace (a + 32 ⊟ 32) with a by (unfold a in *; wordlia). cbn [for_each].
  destruct (id =? -1); cbn [negb say]; same_line; apply debug_fields_says; by rewrite E.
Qed.
End debug.

(** ** Each line fits *)
Lemma segment_report_speaks a s nx : Forall speaks (segment_report a s nx).
Proof.
  unfold segment_report. do 4 (apply Forall_cons; split; [numeral_line|]).
  apply Forall_cons. split; [destruct (s_free s); numeral_line|]. do 2 (apply Forall_cons; split; [numeral_line|]). by apply Forall_nil.
Qed.

Lemma segments_report_speaks segs : forall id a, Forall speaks (segments_report id a segs).
Proof.
  induction segs as [|s r IH]; intros id a; [by apply Forall_nil|]. cbn [segments_report].
  apply Forall_cons. split; [numeral_line|]. apply Forall_app. split; [apply segment_report_speaks|apply IH].
Qed.

Lemma heap_report_speaks base segs : Forall speaks (heap_report base segs).
Proof.
  unfold heap_report. apply Forall_cons. split; [unfold dashes; numeral_line|]. apply Forall_app.
  split; [apply segments_report_speaks|]. apply Forall_singleton. unfold dashes. numeral_line.
Qed.

Lemma title_speaks id : speaks (title id).
Proof. unfold title. destruct (id =? -1); numeral_line. Qed.

(** C33 (termination): on every well formed heap, from a kernel thread of any core with interrupts on, the
    print lock free and a display that holds lines of sixty characters, [__debugHeap] returns.
    It changes the console only, and what it sends is the text of a line of dashes, the
    segments in the order of their addresses, numbered from one, each with its address, sizes,
    status and links, and a line of dashes; the printer of one block, given the pointer of any
    segment, returns after the lines of that segment. *)
Theorem debugHeap_reports (e : boot_env) `{HpetDevice D} cpu thread width height fb (k : kworld D) segs :
  console_fits width height 60 (e_font e) fb (e_lsr e) (e_serial_fuel e) ->
  calm e cpu thread (machine_of k) -> screen_ready width height (e_font e) fb (kw_console k) -> print_lock (kw_console k) = 0 ->
  heap_rep (km_heap (kw_mem k)) segs ->
  let base := m_firstSegment (km_heap (kw_mem k)) in
  (exists c text, __debugHeap e k = Done (put_console k c) /\ messages_text 60 (heap_report base segs) text /\
     sent text (kw_console k) c) /\
  (forall (l1 : list seg) s l2 id, segs = l1 ++ s :: l2 ->
   let a := base + total l1 in
   exists c text, __debugUserHeapPointer e (a + 32) id k = Done (put_console k c) /\
     messages_text 60 (title id :: segment_report a s (match l2 with [] => 0 | _ => a + s_size s end)) text /\
     sent text (kw_console k) c).
Proof.
  intros Hfits Hk Hr Hl R base. split.
  - destruct (speaks_text _ (heap_report_speaks base segs)) as (t & Ht).
    destruct (say_all_run e cpu thread width height 60 fb Hfits _ k t Hk Hr Hl Ht) as (c & E & _ & _ & Hs).
    exists c, t. split; [|by split]. by rewrite (debugHeap_says e k segs R).
  - intros l1 s l2 id -> a.
    destruct (speaks_text (title id :: segment_report a s (match l2 with [] => 0 | _ => a + s_size s end))) as (t & Ht).
    { apply Forall_cons. split; [apply title_speaks|apply segment_report_speaks]. }
    destruct (say_all_run e cpu thread width height 60 fb Hfits _ k t Hk Hr Hl Ht) as (c & E & _ & _ & Hs).
    exists c, t. split; [|by split]. etransitivity; [exact (debugUserHeapPointer_says e k l1 s l2 id R)|exact E].
Qed.

(** The two segments of the example heap, printed on the display of the example machine. *)
Lemma debugHeap_reports_witness : exists k c text, km_heap (kw_mem (D := demo_clock) k) = demo1 /\
  __debugHeap boot_env0 k = Done (put_console k c) /\ sent text (kw_console k) c /\
  messages_text 60 (heap_report 4096 [Seg 96 false 0; Seg 1952 true 4096]) text.
Proof.
  destruct (ku_interrupts_run boot_env0 0x80100 0x9000 0x9f00 0x28000 (boot_world demo1)) as (i & c0 & _ & _ & _ & Hst & Hset & _);
    [apply (boot_core_in demo1)|reflexivity|apply (boot_core_in demo1)|].
  set (k := put_console (put_core (boot_world demo1) c0)
    (mkConsole (new_display (e_framebuffer boot_env0) (e_font boot_env0)) 8 8 (mkSerial 0 []) 0 true)).
  destruct (debugHeap_reports boot_env0 0 (swapper 0x6000 0) (e_width boot_env0) (e_height boot_env0) (e_fb boot_env0) k demo1_segs) as [(c & t & E & Ht & Hs) _].
  - apply (boot_console_in demo1).
  - split; [exact (st_irq _ _ _ _ _ _ _ _ _ Hst)|left; exact Hset].
  - exact (new_display_ready boot_env0 (mkConsole demo_display 8 8 (mkSerial 0 []) 0 false) 0 true (oi_display _ _ (boot_console_in demo1)) eq_refl eq_refl).
  - reflexivity.
  - exact demo1_rep.
  - exists k, c, t. split; [reflexivity|]. split; [exact E|]. split; [exact Hs|exact Ht].
Defined.
