(* ===== verification/StartTasks.v ===== *)
(** * The tasks of the start-up test run (kernel/src/entry/tests/kernel_entry_ap_startup_test.cpp)

    What each of the tasks that [ke_test_ap_startup] hands to the scheduler does on its core:
    it asks for its core, prints a line and leaves its queue.  The state is that of the core
    the task runs on; the frame is the one its [iretq] takes. *)
From Stdlib Require Import ZArith Lia String.
From stdpp Require Import base tactics numbers option list gmap.
From S2P Require Import Prelude Memory KString KHeap KHeapThms MemInit KVector Process Elevate Sched Gdt.
From S2P Require Import Interrupts KTime KDisplay DeviceMaps KPrint KernelEntry SpawnTest KUser KUserThms.
From S2P Require Import KUserBoot.
Local Open Scope list_scope.
Local Open Scope Z_scope.

Section tasks.
Context (e : boot_env) `{HpetDevice D}.

Definition core_task (fmt : string) (regs : PtRegs) (k : kworld D) : outcome (kworld D * PtRegs) :=
  '(k, cpu) ← current_cpu_id e k;
  k ← kuPrint e (ln fmt) [VWord cpu] k;
  '(s, frame) ← exitKernelThread (e_per_cpu e) (e_swappers e) (e_off e) regs (with_mc (kw_sched k) (machine_of k));
  Done (put_sched (set_machine k (mc s)) s, frame).

Definition sayHelloCore : PtRegs -> kworld D -> outcome (kworld D * PtRegs) := core_task "Hello from core %i!".
Definition sayGoodbyeCore : PtRegs -> kworld D -> outcome (kworld D * PtRegs) := core_task "Goodbye from core %i!".
End tasks.

(** ** The lines *)
Definition core_line (word : string) (cpu : Z) : list Z := codes word ++ codes " from core " ++ dec cpu ++ [33; 10].

Lemma word_core cpu : 0 <= cpu < MAX_CPUS -> u64 (s32 cpu) = cpu.
Proof. unfold MAX_CPUS. intros Hc. unfold s32. rewrite u32_small by (unfold is_u32; lia). destruct (Z.ltb_spec cpu 0x80000000); wordlia. Qed.

Lemma core_line_fits word cpu : Forall plain (codes word) -> (length (codes word) <= 10)%nat -> one_line 60 (core_line word cpu).
Proof.
  intros Hp Hl. unfold core_line. apply one_line_app; [exact Hp|].
  apply one_line_app; [by apply plain_codes|]. change (length (codes " from core ")) with 11%nat.
  destruct (dec_plain cpu) as [Hd Hn]. apply one_line_app; [exact Hd|]. plain_chars. line_end.
Qed.

Lemma hello_line cpu : 0 <= cpu < MAX_CPUS ->
  message_text (User (ln "Hello from core %i!") [VWord cpu]) = Some (core_line "Hello" cpu) /\ one_line 60 (core_line "Hello" cpu).
Proof.
  intros Hc. split; [|apply core_line_fits; [by apply plain_codes|vm_compute; lia]].
  transitivity (Some (core_line "Hello" (u64 (s32 cpu)))); [lazy -[dec u64 s32]; reflexivity|by rewrite word_core].
Qed.

Lemma goodbye_line cpu : 0 <= cpu < MAX_CPUS ->
  message_text (User (ln "Goodbye from core %i!") [VWord cpu]) = Some (core_line "Goodbye" cpu) /\ one_line 60 (core_line "Goodbye" cpu).
Proof.
  intros Hc. split; [|apply core_line_fits; [by apply plain_codes|vm_compute; lia]].
  transitivity (Some (core_line "Goodbye" (u64 (s32 cpu)))); [lazy -[dec u64 s32]; reflexivity|by rewrite word_core].
Qed.

(** ** A task on its core *)
Section runs.
Context (e : boot_env) (width height : Z) (fb : Framebuffer) `{HpetDevice D}.
Hypothesis Hfits : console_fits width height 60 (e_font e) fb (e_lsr e) (e_serial_fuel e).

(** The core [cpu] runs a lowered task that is not its swapper, in step with its queue, with
    interrupts on and the console free. *)
Record task_runs (k : kworld D) (cpu ptr : Z) (q : RoundRobinRunQueue) (l : list Z) (i : nat) (d : CpuData) (pa : PCB) : Prop := {
  tr_core : core_ok (e_per_cpu e) (with_mc (kw_sched k) (machine_of k)) cpu ptr q l i d;
  tr_pids : pids_ok (pcbs (ks (machine_of k))) l;
  tr_index : (1 <= i)%nat;
  tr_swapper : l !! 0%nat = Some (swapper (e_swappers e) cpu);
  tr_task : pcbs (ks (machine_of k)) !! currentTask d = Some pa;
  tr_pid : pid pa <> 0;
  tr_lowered : elevated pa = 0 /\ ring (machine_of k) = 3;
  tr_gs : kgsbase (machine_of k) = cpu_gs (e_per_cpu e) cpu;
  tr_irq : interrupts (machine_of k) = true;
  tr_screen : screen_ready width height (e_font e) fb (kw_console k);
  tr_print : print_lock (kw_console k) = 0 }.

Lemma task_thread (k : kworld D) cpu ptr q l i d pa : task_runs k cpu ptr q l i d pa ->
  thread_ok (e_per_cpu e) cpu (currentTask d) pa (machine_of k) /\ pcpu pa = cpu.
Proof.
  intros [Hc _ _ _ Ht _ [He Hr] Hg _ _ _]. split.
  - split; [by exists d; split; [apply Hc|]|done|apply Hc|done|by left|by rewrite He].
  - pose proof (Forall_lookup_1 _ _ _ _ (ck_owner _ _ _ _ _ _ _ _ Hc) (ck_current _ _ _ _ _ _ _ _ Hc)) as Ho.
    unfold tasks_of in Ho. cbn [with_mc mc] in Ho. rewrite Ht in Ho. by injection Ho.
Qed.

(** The first elevation of a task saves the gs base of its core. *)
Lemma task_core_id (k : kworld D) cpu t p : thread_ok (e_per_cpu e) cpu t p (machine_of k) -> elevated p = 0 ->
  current_cpu_id e k = Done (set_machine k (served (e_per_cpu e) cpu t (machine_of k)), pcpu p).
Proof.
  intros Ht He. unfold current_cpu_id.
  rewrite (run_lowered (St := kworld D * Z) (e_per_cpu e) cpu t (k, 0) (k, pcpu p) _ p (machine_of k)); [done|done|exact Ht|done|].
  cbn [set_machine pair_machine fst snd]. rewrite machine_set.
  destruct (raised_lowered _ _ _ _ _ Ht He) as [Hc Hpcb Hg _ _ _].
  by rewrite (current_pcb_at (e_per_cpu e) cpu t _ _ Hg Hc Hpcb).
Qed.

Lemma core_task_run fmt text regs (k : kworld D) cpu ptr q l i d pa : task_runs k cpu ptr q l i d pa ->
  message_text (User (ln fmt) [VWord cpu]) = Some text -> one_line 60 text ->
  exists k' q' x px, l !! exit_target (length l) i = Some x /\ pcbs (ks (machine_of k)) !! x = Some px /\
    core_task e fmt regs k = Done (k', restoreCpuContext (context px) regs) /\
    sent text (kw_console k) (kw_console k') /\ print_lock (kw_console k') = 0 /\
    queue_ok (kw_sched k') cpu ptr q' (drop_task i l) (exit_index (length l)) /\
    runs (e_per_cpu e) (kw_sched k') cpu (switched_cpu d (kernelStack px) x).
Proof.
  intros Hk Ht H1. destruct (task_thread _ _ _ _ _ _ _ _ Hk) as [Hth Hcpu].
  destruct Hk as [Hc Hpid Hi Hsw Htask Hp0 [He Hr] Hg Hirq Hscr Hlock].
  set (m := machine_of k) in *. set (t := currentTask d) in *. set (m1 := served (e_per_cpu e) cpu t m).
  set (pa1 := set_usergs pa (cpu_gs (e_per_cpu e) cpu)).
  assert (m1 = put_pcb m t pa1) as Em1 by (unfold m1, served; by rewrite Htask).
  pose proof (served_settled _ _ _ _ _ Hth He) as Hset. fold m1 in Hset.
  destruct (say_run e cpu t width height 60 fb Hfits (set_machine k m1) (User (ln fmt) [VWord cpu]) text)
    as (c & Esay & _ & Hl' & Hsent); try done.
  { split; [by rewrite machine_set, Em1|left; by rewrite machine_set]. }
  destruct (core_ok_kept (e_per_cpu e) (with_mc (kw_sched k) m) cpu ptr q l i d pa pa1 m1 Hc Htask eq_refl) as [Hc1 Hst];
    [by rewrite Em1..|].
  assert (tasks_of (with_mc (kw_sched k) m1) = <[t := pa1]> (pcbs (ks m))) as Ets by (unfold tasks_of; cbn; by rewrite Em1).
  destruct (exit_eq (e_per_cpu e) (e_swappers e) (e_off e) (with_mc (kw_sched k) m1) cpu ptr q l i d pa1 regs)
    as (s' & q' & x & px & Hx & Hpx & Eexit & Hq' & _ & Hruns); try done.
  { rewrite Ets. by eapply pids_ok_insert. }
  { rewrite Ets. apply lookup_insert_eq. }
  { cbn. by rewrite Em1. }
  { cbn. by rewrite Em1. }
  symmetry in Hst. destruct (same_tasks_lookup _ _ _ _ Hst Hpx) as (px0 & Hpx0 & Ek). injection Ek as Ek1 Ek2 _ _ _.
  eexists _, q', x, px0. split; [exact Hx|]. split; [exact Hpx0|]. split.
  { unfold core_task. rewrite (task_core_id k cpu t pa Hth He), Hcpu. cbn [mbind outcome_bind]. fold m. fold m1.
    cbn [say] in Esay. rewrite Esay. cbn [mbind outcome_bind].
    change (with_mc (kw_sched (put_console (set_machine k m1) c)) (machine_of (put_console (set_machine k m1) c)))
      with (with_mc (kw_sched k) m1).
    rewrite Eexit. cbn [mbind outcome_bind]. rewrite Ek1. reflexivity. }
  split_and!; [exact Hsent|exact Hl'|exact Hq'|]. rewrite Ek2. exact Hruns.
Qed.

(** [run] prints [line] and leaves the queue: the frame has the registers of the task that was
    next, or of the swapper, which is then the current task of the core; the queue agrees
    exactly when the task was the first or the last behind the swapper. *)
Definition speaks_and_leaves (run : PtRegs -> kworld D -> outcome (kworld D * PtRegs)) (line : list Z) (regs : PtRegs)
    (k : kworld D) (cpu ptr : Z) (l : list Z) (i : nat) : Prop :=
  exists k' q' x px d', l !! exit_target (length l) i = Some x /\ pcbs (ks (machine_of k)) !! x = Some px /\
    run regs k = Done (k', restoreCpuContext (context px) regs) /\
    sent line (kw_console k) (kw_console k') /\ print_lock (kw_console k') = 0 /\
    queue_ok (kw_sched k') cpu ptr q' (drop_task i l) (exit_index (length l)) /\
    runs (e_per_cpu e) (kw_sched k') cpu d' /\ currentTask d' = x /\
    (drop_task i l !! exit_index (length l) = Some (currentTask d') <-> (i = 1 \/ S i = length l)%nat).

Lemma core_task_leaves fmt text regs (k : kworld D) cpu ptr q l i d pa : task_runs k cpu ptr q l i d pa ->
  message_text (User (ln fmt) [VWord cpu]) = Some text -> one_line 60 text ->
  speaks_and_leaves (core_task e fmt) text regs k cpu ptr l i.
Proof.
  intros Hk Ht H1. destruct (core_task_run fmt text regs k cpu ptr q l i d pa Hk Ht H1)
    as (k' & q' & x & px & Hx & Hpx & E & Hs & Hl & Hq & Hr).
  exists k', q', x, px, (switched_cpu d (kernelStack px) x). split_and!; try done.
  pose proof (qk_bound _ _ _ _ _ _ (ck_queue _ _ _ _ _ _ _ _ (tr_core _ _ _ _ _ _ _ _ Hk))) as Hb.
  apply exit_in_step; [apply (ck_nodup _ _ _ _ _ _ _ _ (tr_core _ _ _ _ _ _ _ _ Hk))| |done].
  pose proof (tr_index _ _ _ _ _ _ _ _ Hk). lia.
Qed.

(** C22 (functional): a task of the start-up test, running in step with its queue on any core,
    prints one line that names its core, with its number, and leaves; whichever of the two
    functions it runs.  The print lock is free again, the task is out of the queue, the next
    task or the swapper goes on with its own registers, and the scheduler agrees with the core
    on the current task exactly when the task that left was the first or the last one behind
    the swapper. *)
Theorem start_tasks_leave regs (k : kworld D) cpu ptr q l i d pa : task_runs k cpu ptr q l i d pa ->
  speaks_and_leaves (sayHelloCore e) (core_line "Hello" cpu) regs k cpu ptr l i /\
  speaks_and_leaves (sayGoodbyeCore e) (core_line "Goodbye" cpu) regs k cpu ptr l i.
Proof.
  intros Hk. pose proof (qk_cpu _ _ _ _ _ _ (ck_queue _ _ _ _ _ _ _ _ (tr_core _ _ _ _ _ _ _ _ Hk))) as Hc.
  destruct (hello_line cpu Hc) as [T1 L1], (goodbye_line cpu Hc) as [T2 L2].
  split; by eapply core_task_leaves.
Qed.
End runs.

(** ** The second of three tasks on core 0 *)
Definition task_env : boot_env := {|
  e_per_cpu := 0x7000; e_swappers := 1000; e_off := demo_off;
  e_stub_addr := e_stub_addr boot_env0; e_idt_addr := e_idt_addr boot_env0; e_descs := e_descs boot_env0;
  e_image := e_image boot_env0; e_width := e_width boot_env0; e_height := e_height boot_env0; e_scanline := e_scanline boot_env0;
  e_font := e_font boot_env0; e_rsdp := e_rsdp boot_env0; e_kernelStack := e_kernelStack boot_env0;
  e_phys_base := e_phys_base boot_env0; e_cpuid := e_cpuid boot_env0; e_vendor := e_vendor boot_env0; e_lsr := e_lsr boot_env0;
  e_serial_fuel := e_serial_fuel boot_env0; e_lapic_page := e_lapic_page boot_env0; e_uninit := e_uninit boot_env0;
  e_acpi_fuel := e_acpi_fuel boot_env0; e_fuel := e_fuel boot_env0; e_queue := e_queue boot_env0; e_asm := e_asm boot_env0;
  e_entryC := e_entryC boot_env0; e_bsp := e_bsp boot_env0; e_hello := e_hello boot_env0; e_goodbye := e_goodbye boot_env0;
  e_tasks := e_tasks boot_env0 |}.

Definition task_world : kworld demo_clock :=
  put_sched (put_console (set_machine (boot_world demo1) (mc demo_sys))
    (mkConsole (new_display (e_framebuffer boot_env0) (e_font boot_env0)) 8 8 (mkSerial 0 []) 0 true)) demo_sys.

Lemma start_tasks_leave_witness : exists k' frame, sayHelloCore task_env (Process.demo_frame 0) task_world = Done (k', frame) /\
  out (port (kw_console k')) = (fun x => (0x3F8, x)) <$> codes "Hello from core 0!" ++ [10].
Proof.
  pose proof (oi_display _ _ (boot_console_in demo1)) as Hd.
  destruct (start_tasks_leave task_env (e_width boot_env0) (e_height boot_env0) (e_fb boot_env0) (do_fits _ Hd) (Process.demo_frame 0) task_world
    0 5000 demo_queue demo_list 2 (mkCpuData 3000 0x9000 0x11000 0) (demo_task 11))
    as [(k' & q' & x & px & d' & _ & _ & E & Hs & _) _].
  - split; try reflexivity; [exact demo_core_ok|exact demo_pids|lia|discriminate|split; reflexivity|].
    exact (new_display_ready boot_env0 (mkConsole demo_display 8 8 (mkSerial 0 []) 0 false) 0 true Hd eq_refl eq_refl).
  - eexists k', _. split; [exact E|]. exact Hs.
Defined.
